(* ===== verification/_CoqProject ===== *)
-Q . S2P
Prelude.v
Efi.v
Str.v
StrLib.v
Netboot.v
HttpBoot.v
Path.v
LoadOptions.v
Csv.v
Sbat.v
Firmware.v
Esl.v
KeyList.v
Variables.v
Password.v
MokManager.v
MokUpdate.v
SbatVar.v
PeHeader.v
PeReloc.v
PeHash.v
SectionCache.v
Verify.v
VerifyBuffer.v
PeLoad.v
MemAttrs.v
PostProcess.v
LoaderProto.v
Trust.v
Tpm.v
Mok.v
MokImport.v
Boot.v
Fallback.v
Restore.v
