(* ===== verification/Prelude.v ===== *)
(** * A verification development for shim, the first-stage UEFI boot loader

    shim is started by the firmware, decides whether the next boot loader may
    run, loads it and measures what it did.  This library models that decision
    and the code around it as Rocq functions that follow the C code, and proves
    what makes them correct.

    ** The program and the files of this library

    - src/lib/string.c, src/include/str.h, src/Cryptlib/SysCall/BaseStrings.c
      (C strings): [Str] and [StrLib].
    - src/csv.c (in-place CSV parser): [Csv], on top of [Str].
    - src/sbat.c (Secure Boot Advanced Targeting: revocation by generation
      numbers): [Sbat] parses the variable and the section and gives the
      verdict; [SbatVar] updates the variables in the firmware.
    - src/include/variables.h and the list functions of src/lib/variables.c
      (EFI signature lists): [Esl].
    - the rest of src/lib/variables.c and secure_mode of src/shim.c: [Variables].
    - src/pe-relocate.c (PE headers, sections, relocation): [PeHeader] and
      [PeReloc].
    - src/pe.c (Authenticode digest, section cache, loading): [PeHash],
      [SectionCache] and [PeLoad].
    - src/memattrs.c (the attributes of pages): [MemAttrs], which carries the
      NX theorems of [PeLoad] to the pages.
    - src/verify.c (deny and allow lists, signatures, the shim lock protocol):
      [Verify] for one hash or signature, [VerifyBuffer] for an image.
    - src/tpm.c (measurements): [Tpm].
    - src/mok.c (the machine owner's keys and state, mirrored to the operating
      system): [Mok] and [MokImport].
    - src/MokManager.c (the application in which the machine's owner confirms
      requests): [KeyList] models its arrays of keys, [Password] the password
      hashes of src/PasswordCrypt.c, [MokManager] the prompts, the menu and the
      program, [MokUpdate] proves what authenticated requests do.
    - src/loader-proto.c (LoadImage, StartImage, UnloadImage and Exit that shim
      installs over the firmware's): [LoaderProto].
    - src/include/ucs2.h, src/dp.c and the paths of src/load-options.c: [Path];
      the rest of src/load-options.c (the options shim was started with):
      [LoadOptions].
    - src/netboot.c (where the next image is on the network, and its transfer):
      [Netboot].
    - src/httpboot.c (the same over HTTP): [HttpBoot].
    - src/shim.c: [Trust] models reading an image and the files of
      certificates and revocations, [Boot] the main program with src/utils.c.
    - src/fallback.c (restores boot options from the BOOT.CSV files of the disk):
      [Fallback]; [Restore] has the theorem on the whole program.
    - src/post-process-pe.c (the last step of the build: NX flag, time stamp and
      checksum of an image): [PostProcess].
    [Prelude] and [Efi] hold what they share.

    The components meet in [PeLoad.handle_image]: read_header, then
    verify_buffer when [Variables.secure_mode] holds (which digests the image,
    asks [Verify] about every signature and [Sbat] about the .sbat section),
    then the digests and their measurement, then the copy, relocation and
    protection of the sections and their entry in the [SectionCache].
    [Mok.import_mok_state] runs before any of it and sets the globals that turn
    verification off.  [Boot.efi_main] is the composition of all of them.

    ** How the code is modelled

    - A buffer is the list of its bytes; a pointer is an offset into it, or an
      address when the code compares or aligns it; NULL is [None] or 0.  Every
      access is checked: one outside the buffer is [Fault].
    - Integers are [Z]; where the C type matters the wrap-around is written out
      with [u8], [u16], [u32], [u64], [i32].
    - A function that can fail returns its EFI_STATUS; [res] adds [Fault] and
      [NoFuel].  Where several results are possible the code's out parameters
      are components of the result.
    - Loops over a buffer have fuel: one more than the length of the buffer they
      walk, since each turn moves on by at least one byte; the theorems that
      give a result show that this is enough.  Loops over a table recurse on the
      number of entries left.
    - What the user does (keys, answers, choices, files) is a record of streams;
      where one is empty the program waits, which is [NoFuel].
    - A directory is the list of the answers of Read, a file its bytes.
    - State (globals, the section cache, the TPM log, UEFI variables) is a record
      that is passed through; memory that is only freed is not represented.
    - An allocation that can fail is a boolean parameter.
    - The configuration is x86_64 without ENABLE_SHIM_DEVEL, REQUIRE_TPM and
      OVERRIDE_SECURITY_POLICY.  Messages are left out.

    Code outside the repository, or third-party code in it, is a parameter: the
    firmware's variable services are the class [Firmware.Firmware] with the laws
    of the UEFI specification in [Firmware.FirmwareLaws] (and
    [Mok.MokFirmware]; what a write leaves is stated for ordinary attributes, not
    for authenticated or appending writes); AuthenticodeVerify, the key usages of a certificate and
    the SHA functions are functions; AllocatePages gives an address and bytes;
    the TPM devices are records of protocols with arbitrary answers; the other
    protocols of the firmware likewise.  [Firmware.Store] is an instance of the
    variable services the witnesses run on.

    ** What the theorems show

    - Authorisation ([VerifyBuffer], [Verify], [PeLoad], [LoaderProto], [Trust],
      [Boot]): the second stage is reached only through the checks; what is
      accepted is authentic under the databases' policy, not revoked, and
      permitted by SBAT; deny lists come first; nothing is read outside the
      file, whatever it contains; without an accepted header and, in secure
      mode, an authorised image nothing is loaded.
    - Loading ([PeHeader], [PeReloc], [PeHash], [PeLoad], [SectionCache]): the
      digest is that of the Authenticode specification; the image in memory is
      its sections, zero-filled and relocated as a specification of the relocation
      format says that does not mention the code; under the NX policy no page is
      writable and executable but those of discardable sections, if the firmware's
      memory attribute protocol obeys, and the policy
      requires NX only where the firmware enforces it.
    - Text ([Str], [Path], [Csv], [Sbat], [LoadOptions]): the parsers compute a reference
      parser's rows and stay inside their buffers.
    - Firmware state ([SbatVar], [Esl], [Variables], [Mok], [MokImport], [Tpm]):
      levels do not go back, shim does not revoke itself (unless SbatLevel was
      missing, where the code does not check), signature lists round
      trip, verification is turned off only by a variable that run-time code
      could not write, what is mirrored is what was read, and what is recorded
      as measured was measured.
    - The machine's owner ([KeyList], [Password], [MokManager], [MokUpdate]): the
      trusted variables change only through an item that the user chose and
      confirmed, and for every request of the operating system but the clearing of
      a password with a proof that the password is known (a file from disk needs
      only the confirmation); the right password is
      accepted, and then exactly the requested keys are added or deleted.
    - Network boot ([Netboot], [HttpBoot], [Trust]): whatever the packets and the
      server's answers contain, nothing is read or written outside the buffers;
      addresses, URLs and boot files lead to the server and the directory they
      name, and the file that is there is read.
    - Boot options ([Fallback], [Restore]): no variable and no entry of the boot
      order is lost, each line of BOOT.CSV becomes one option, an option that exists
      is found, also where the firmware has masked it, the new order is the new
      options in front of the old order with the found ones moved up, and shim reads
      back what fallback wrote if its label is Latin-1.
    - Some theorems state what the code does where it is surprising (generations
      modulo 2^16, a relocation past the image, the cache that forgets other
      images, a list of size zero); they are the findings of PROJECT.json.

    ** Not modelled

    The reset of shim when MokManager is missing on removable media (the model goes
    on there), failures of the SHA functions, images that call UnloadImage in the
    theorem on StartImage (the code leaves a handle to freed memory then), what
    MokManager displays, console, error log and hex dumps (output), the hook
    for a debugger of shim.c, the Cryptlib and OpenSSL sources (third-party),
    the other host tools of the build and the tests. *)
From stdpp Require Import base list numbers option.
From Stdlib Require Import ZArith Lia.
Local Open Scope Z_scope.

(** ** Outcomes of C code

    [Ok a] is a normal return, [Fault] an access outside the object a pointer
    points into, [NoFuel] a loop that ran for longer than the bound its model
    was given. *)
Inductive res (A : Type) : Type :=
| Ok (a : A)
| Fault
| NoFuel.
Arguments Ok {A} a.
Arguments Fault {A}.
Arguments NoFuel {A}.

Global Instance res_ret : MRet res := fun A a => Ok a.
Global Instance res_bind : MBind res := fun A B f r =>
  match r with
  | Ok a => f a
  | Fault => Fault
  | NoFuel => NoFuel
  end.
Global Instance res_eq_dec {A} `{EqDecision A} : EqDecision (res A).
Proof. solve_decision. Defined.

(** ** Machine integers: values are [Z], wrap-around is written out. *)
Definition u8 (z : Z) : Z := z mod 2 ^ 8.
Definition u16 (z : Z) : Z := z mod 2 ^ 16.
Definition u32 (z : Z) : Z := z mod 2 ^ 32.
Definition u64 (z : Z) : Z := z mod 2 ^ 64.
(** The value of the bits [z] read as a signed 32-bit [int]. *)
Definition i32 (z : Z) : Z := (z + 2 ^ 31) mod 2 ^ 32 - 2 ^ 31.

(** ** Memory objects: a byte buffer is the list of its bytes. *)
Definition zlen {A} (l : list A) : Z := Z.of_nat (length l).

Global Arguments zlen : simpl never.
Global Arguments u16 : simpl never.
Global Arguments u32 : simpl never.
Global Arguments u64 : simpl never.

Definition rd (m : list Z) (i : Z) : res Z :=
  if i <? 0 then Fault
  else match m !! Z.to_nat i with Some b => Ok b | None => Fault end.

Definition wr (m : list Z) (i v : Z) : res (list Z) :=
  if (0 <=? i) && (i <? zlen m) then Ok (<[Z.to_nat i := v]> m) else Fault.

(** [n] bytes at offset [i]. *)
Definition rdn (m : list Z) (i n : Z) : res (list Z) :=
  if (0 <=? i) && (0 <=? n) && (i + n <=? zlen m)
  then Ok (take (Z.to_nat n) (drop (Z.to_nat i) m)) else Fault.

(** Store the bytes [bs] at offset [i]. *)
Definition wrn (m : list Z) (i : Z) (bs : list Z) : res (list Z) :=
  if (0 <=? i) && (i + zlen bs <=? zlen m)
  then Ok (take (Z.to_nat i) m ++ bs ++ drop (Z.to_nat i + length bs) m)
  else Fault.

Definition is_byte (b : Z) : Prop := 0 <= b < 256.
Definition bytes (m : list Z) : Prop := Forall is_byte m.

(** Little-endian integers. *)
Fixpoint le_combine (l : list Z) : Z :=
  match l with
  | [] => 0
  | b :: l' => b + 256 * le_combine l'
  end.

Fixpoint le_split (n : nat) (z : Z) : list Z :=
  match n with
  | O => []
  | S n' => z mod 256 :: le_split n' (z / 256)
  end.

Definition rd_le (m : list Z) (i n : Z) : res Z := bs ← rdn m i n; Ok (le_combine bs).
Definition wr_le (m : list Z) (i : Z) (n : nat) (v : Z) : res (list Z) := wrn m i (le_split n v).

(** Boolean list equality, [CompareMem(a, b, n) == 0] on the bytes read. *)
Definition bytes_eqb (a b : list Z) : bool := bool_decide (a = b).

(** ** Tactics *)
Ltac bool_to_prop :=
  repeat match goal with
  | H : (_ && _) = true |- _ => apply andb_true_iff in H as [? ?]
  | H : (_ || _) = false |- _ => apply orb_false_iff in H as [? ?]
  | H : (_ && _) = false |- _ => apply andb_false_iff in H as [H|H]
  | H : (_ || _) = true |- _ => apply orb_true_iff in H as [H|H]
  | H : negb _ = true |- _ => apply negb_true_iff in H
  | H : negb _ = false |- _ => apply negb_false_iff in H
  | H : (_ =? _) = true |- _ => apply Z.eqb_eq in H
  | H : (_ =? _) = false |- _ => apply Z.eqb_neq in H
  | H : (_ <? _) = true |- _ => apply Z.ltb_lt in H
  | H : (_ <? _) = false |- _ => apply Z.ltb_ge in H
  | H : (_ <=? _) = true |- _ => apply Z.leb_le in H
  | H : (_ <=? _) = false |- _ => apply Z.leb_gt in H
  end.

(** Case analysis on the condition of an [if] of the goal. *)
Ltac case_if :=
  match goal with
  | |- context [if ?b then _ else _] => destruct b eqn:?
  end; bool_to_prop.

(** The same for an [if] of a hypothesis. *)
Ltac case_if_in H :=
  match type of H with
  | context [if ?b then _ else _] => destruct b eqn:?
  end; bool_to_prop.

(** Invert a hypothesis that a monadic computation returned [Ok]. *)
Ltac res_inv :=
  repeat match goal with
  | H : Ok _ = Ok _ |- _ => injection H as H
  | H : Fault = Ok _ |- _ => discriminate H
  | H : NoFuel = Ok _ |- _ => discriminate H
  | H : mret _ = Ok _ |- _ => unfold mret, res_ret in H
  | H : mbind _ ?r = Ok _ |- _ =>
      let E := fresh "E" in
      destruct r eqn:E; cbn [mbind res_bind] in H; [|discriminate H|discriminate H]
  end; subst.

Ltac solve_bool :=
  repeat match goal with
  | |- (_ && _) = true => apply andb_true_iff; split
  | |- (_ || _) = false => apply orb_false_iff; split
  | |- negb _ = true => apply negb_true_iff
  | |- negb _ = false => apply negb_false_iff
  | |- (_ =? _) = true => apply Z.eqb_eq
  | |- (_ =? _) = false => apply Z.eqb_neq
  | |- (_ <? _) = true => apply Z.ltb_lt
  | |- (_ <? _) = false => apply Z.ltb_ge
  | |- (_ <=? _) = true => apply Z.leb_le
  | |- (_ <=? _) = false => apply Z.leb_gt
  end; try lia; auto.

Create HintDb shim.
Create Rewrite HintDb shim.

(** ** Lemmas on the monad and on integers *)
Lemma bind_Ok {A B} (a : A) (f : A -> res B) : (x ← Ok a; f x) = f a.
Proof. reflexivity. Qed.

Lemma bind_inv {A B} (r : res A) (f : A -> res B) y : (x ← r; f x) = Ok y -> exists x, r = Ok x /\ f x = Ok y.
Proof. destruct r; [by eauto|done..]. Qed.

Lemma u64_small z : 0 <= z < 2 ^ 64 -> u64 z = z.
Proof. intros. unfold u64. by apply Z.mod_small. Qed.
Lemma u32_small z : 0 <= z < 2 ^ 32 -> u32 z = z.
Proof. intros. unfold u32. by apply Z.mod_small. Qed.
Lemma u16_small z : 0 <= z < 2 ^ 16 -> u16 z = z.
Proof. intros. unfold u16. by apply Z.mod_small. Qed.
Lemma u64_range z : 0 <= u64 z < 2 ^ 64.
Proof. apply Z.mod_pos_bound. lia. Qed.
Lemma u32_range z : 0 <= u32 z < 2 ^ 32.
Proof. apply Z.mod_pos_bound. lia. Qed.
Lemma u16_range z : 0 <= u16 z < 2 ^ 16.
Proof. apply Z.mod_pos_bound. lia. Qed.

Lemma i32_small z : 0 <= z < 2 ^ 31 -> i32 z = z.
Proof. intros. unfold i32. rewrite Z.mod_small by lia. lia. Qed.
Lemma i32_large z : 2 ^ 31 <= z < 2 ^ 32 -> i32 z < 0.
Proof.
  intros. unfold i32. replace (z + 2 ^ 31) with (z - 2 ^ 31 + 1 * 2 ^ 32) by lia.
  rewrite Z.mod_add, Z.mod_small by lia. lia.
Qed.

(** ** Lemmas on memory *)
Lemma zlen_nil {A} : zlen (@nil A) = 0.
Proof. reflexivity. Qed.
Lemma zlen_cons {A} (x : A) l : zlen (x :: l) = zlen l + 1.
Proof. unfold zlen. cbn [length]. lia. Qed.
Lemma zlen_app {A} (l k : list A) : zlen (l ++ k) = zlen l + zlen k.
Proof. unfold zlen. rewrite length_app. lia. Qed.
Lemma zlen_nonneg {A} (l : list A) : 0 <= zlen l.
Proof. unfold zlen. lia. Qed.
Lemma zlen_replicate {A} n (x : A) : zlen (replicate n x) = Z.of_nat n.
Proof. unfold zlen. by rewrite length_replicate. Qed.
Global Hint Resolve zlen_nonneg : shim.
#[export] Hint Rewrite @zlen_nil @zlen_cons @zlen_app : shim.

(** Linear arithmetic over buffer lengths. *)
Ltac zlen_simpl := autorewrite with shim in *.
Ltac zlia :=
  zlen_simpl;
  repeat match goal with
  | |- context [zlen ?l] =>
      lazymatch goal with H : 0 <= zlen l |- _ => fail | _ => pose proof (zlen_nonneg l) end
  | H : context [zlen ?l] |- _ =>
      lazymatch goal with H' : 0 <= zlen l |- _ => fail | _ => pose proof (zlen_nonneg l) end
  end; lia.

Lemma app_cons_snoc {A} (l : list A) x l' : l ++ x :: l' = (l ++ [x]) ++ l'.
Proof. by rewrite <- app_assoc. Qed.
Lemma rd_app_at p b q i : i = zlen p -> rd (p ++ b :: q) i = Ok b.
Proof.
  intros ->. unfold rd. case_if; [zlia|].
  unfold zlen. rewrite Nat2Z.id, lookup_app_r, Nat.sub_diag by lia. done.
Qed.

Lemma rd_at p b q : rd (p ++ b :: q) (zlen p) = Ok b.
Proof. by apply rd_app_at. Qed.

Lemma rd_Ok_inv m i b : rd m i = Ok b -> 0 <= i < zlen m /\ m !! Z.to_nat i = Some b.
Proof.
  unfold rd. case_if; [done|]. destruct (m !! Z.to_nat i) eqn:E; [|done].
  intros [= ->]. pose proof (lookup_lt_Some _ _ _ E). unfold zlen. split; [lia|done].
Qed.

Lemma rd_in_range m i : 0 <= i < zlen m -> exists b, rd m i = Ok b.
Proof.
  unfold zlen, rd. intros. case_if; [lia|].
  destruct (lookup_lt_is_Some_2 m (Z.to_nat i)) as [b ->]; [lia|]. eauto.
Qed.

Lemma rd_app_l p q i : 0 <= i < zlen p -> rd (p ++ q) i = rd p i.
Proof. unfold rd, zlen. intros. case_if; [done|]. by rewrite lookup_app_l by lia. Qed.

Lemma rd_app_r p q i : zlen p <= i -> rd (p ++ q) i = rd q (i - zlen p).
Proof.
  unfold rd, zlen. intros. repeat case_if; try lia.
  rewrite lookup_app_r by lia.
  by replace (Z.to_nat (i - Z.of_nat (length p))) with (Z.to_nat i - length p)%nat by lia.
Qed.

Lemma wr_app_at p b q v i : i = zlen p -> wr (p ++ b :: q) i v = Ok (p ++ v :: q).
Proof.
  intros ->. unfold wr. case_if; try zlia.
  f_equal. unfold zlen. rewrite Nat2Z.id, insert_app_r_alt, Nat.sub_diag by lia. done.
Qed.

Lemma wr_length m i v m' : wr m i v = Ok m' -> length m' = length m.
Proof. unfold wr. case_if; [|done..]. intros [= <-]. apply length_insert. Qed.

Lemma rdn_length m i n bs : rdn m i n = Ok bs -> zlen bs = n /\ 0 <= i /\ i + n <= zlen m.
Proof.
  unfold rdn. case_if; [|done..]. intros [= <-]. unfold zlen in *.
  rewrite length_take, length_drop. lia.
Qed.

Lemma rdn_app_mid p bs q i n : i = zlen p -> n = zlen bs -> rdn (p ++ bs ++ q) i n = Ok bs.
Proof.
  intros -> ->. unfold rdn. case_if; try zlia.
  unfold zlen. rewrite !Nat2Z.id, drop_app_length, take_app_length. done.
Qed.

Lemma rdn_in_range m i n : 0 <= i -> 0 <= n -> i + n <= zlen m -> exists bs, rdn m i n = Ok bs.
Proof. intros. unfold rdn. case_if; [eauto|lia..]. Qed.

Lemma wrn_length m i bs m' : wrn m i bs = Ok m' -> zlen m' = zlen m.
Proof.
  unfold wrn. case_if; [|done..]. intros [= <-]. unfold zlen in *.
  rewrite !length_app, length_take, length_drop. lia.
Qed.

Lemma wrn_app_mid p old q bs i :
  i = zlen p -> length old = length bs -> wrn (p ++ old ++ q) i bs = Ok (p ++ bs ++ q).
Proof.
  intros -> Hl. unfold wrn. case_if; try (unfold zlen in *; rewrite ?length_app in *; lia).
  unfold zlen. rewrite Nat2Z.id, take_app_length. do 3 f_equal.
  rewrite app_assoc, <- Hl, <- length_app, drop_app_length. done.
Qed.

(** Storing a part at the end of what has been stored. *)
Lemma wrn_zeros done bs n :
  (length bs <= n)%nat ->
  wrn (done ++ replicate n 0) (zlen done) bs = Ok ((done ++ bs) ++ replicate (n - length bs) 0).
Proof.
  intros Hl. replace (replicate n 0) with (replicate (length bs) 0 ++ replicate (n - length bs) 0)
    by (rewrite <- replicate_add; f_equal; lia).
  rewrite wrn_app_mid by (done || apply length_replicate). by rewrite <- app_assoc.
Qed.

(** Two bytes put together. *)
Lemma lor_bytes h l : 0 <= h -> 0 <= l < 256 -> Z.lor (Z.shiftl h 8) l = 256 * h + l.
Proof.
  intros Hh Hl.
  assert (Hd : Z.land (Z.shiftl h 8) l = 0).
  { apply Z.bits_inj'. intros n Hn. rewrite Z.land_spec, Z.bits_0.
    destruct (decide (n < 8)) as [Hlt | Hge]; [by rewrite Z.shiftl_spec_low|].
    rewrite <- (Z.mod_small l (2 ^ 8)) by lia. rewrite Z.mod_pow2_bits_high by lia. apply andb_false_r. }
  rewrite <- Z.lxor_lor, <- Z.add_nocarry_lxor by done. rewrite Z.shiftl_mul_pow2 by lia. lia.
Qed.

(** ** Lemmas on little-endian integers *)
Lemma le_combine_range l : bytes l -> 0 <= le_combine l < 2 ^ (8 * zlen l).
Proof.
  induction 1 as [|b l Hb _ IH]; [done|]. cbn [le_combine]. unfold is_byte in Hb.
  rewrite zlen_cons. replace (8 * (zlen l + 1)) with (8 * zlen l + 8) by lia.
  rewrite Z.pow_add_r by (unfold zlen; lia). change (2 ^ 8) with 256. nia.
Qed.

Lemma le_split_length n z : length (le_split n z) = n.
Proof. revert z. induction n; intros; cbn; [done|]. by rewrite IHn. Qed.

Lemma le_split_bytes n z : bytes (le_split n z).
Proof.
  revert z. induction n; intros; cbn; constructor; [|apply IHn].
  apply Z.mod_pos_bound. lia.
Qed.

Lemma le_combine_split n z : 0 <= z < 2 ^ (8 * Z.of_nat n) -> le_combine (le_split n z) = z.
Proof.
  revert z. induction n as [|n IH]; intros z Hz; cbn [le_split le_combine].
  { cbn in Hz. lia. }
  rewrite IH.
  - pose proof (Z.div_mod z 256). lia.
  - replace (8 * Z.of_nat (S n)) with (8 + 8 * Z.of_nat n) in Hz by lia.
    rewrite Z.pow_add_r in Hz by lia. change (2 ^ 8) with 256 in Hz.
    split; [apply Z.div_pos; lia|]. apply Z.div_lt_upper_bound; lia.
Qed.

Lemma rd_le_mid p bs q i n v :
  i = zlen p -> bs = le_split n v -> 0 <= v < 2 ^ (8 * Z.of_nat n) ->
  rd_le (p ++ bs ++ q) i (Z.of_nat n) = Ok v.
Proof.
  intros -> -> Hv. unfold rd_le. rewrite rdn_app_mid; [|done|unfold zlen; by rewrite le_split_length].
  rewrite bind_Ok. by rewrite le_combine_split.
Qed.

Lemma zlen_le_split n v : zlen (le_split n v) = Z.of_nat n.
Proof. unfold zlen. by rewrite le_split_length. Qed.
#[export] Hint Rewrite zlen_le_split : shim.

Lemma le_split_combine l : bytes l -> le_split (length l) (le_combine l) = l.
Proof.
  induction 1 as [|b l Hb _ IH]; [done|]. cbn [length le_split le_combine].
  unfold is_byte in Hb. rewrite (Z.mul_comm 256), Z.mod_add, Z.mod_small by lia. f_equal.
  rewrite Z.div_add, Z.div_small by lia. by rewrite Z.add_0_l.
Qed.

(** ** Loops that end

    A computation that does not run out of fuel. *)
Definition terminates {A} (r : res A) : Prop := r <> NoFuel.

Lemma terminates_bind {A B} (r : res A) (k : A -> res B) :
  terminates r -> (forall x, r = Ok x -> terminates (k x)) -> terminates (x ← r; k x).
Proof. intros Hr Hk. destruct r; [by apply Hk|done..]. Qed.

Create HintDb terminates.
Lemma terminates_Ok {A} (x : A) : terminates (Ok x).
Proof. done. Qed.
Lemma terminates_rdn m i n : terminates (rdn m i n).
Proof. unfold rdn. by repeat case_if. Qed.
Lemma terminates_wrn m i bs : terminates (wrn m i bs).
Proof. unfold wrn. by repeat case_if. Qed.
Lemma terminates_rd_le m i n : terminates (rd_le m i n).
Proof. unfold rd_le. by apply terminates_bind; [apply terminates_rdn|]. Qed.
#[export] Hint Resolve terminates_Ok terminates_rdn terminates_wrn terminates_rd_le : terminates.

(** Walk through a computation bind by bind. *)
Ltac terminates_step :=
  match goal with
  | |- terminates (mbind _ _) => apply terminates_bind; [|intros ? ?]
  | |- terminates (if ?b then _ else _) => destruct b
  | |- terminates (match ?x with _ => _ end) => destruct x
  end.
Ltac terminates_tac := repeat (cbv zeta; first [solve [auto with terminates] | terminates_step]).

Lemma rd_le_value m i n v : bytes m -> rd_le m i n = Ok v -> 0 <= v < 2 ^ (8 * n).
Proof.
  intros Hb. unfold rd_le, rdn. destruct (_ && _) eqn:E; [|done]. cbn [mbind res_bind]. intros [= <-].
  pose proof (le_combine_range (take (Z.to_nat n) (drop (Z.to_nat i) m))) as Hr.
  assert (Hl : zlen (take (Z.to_nat n) (drop (Z.to_nat i) m)) = n).
  { unfold zlen in *. rewrite length_take, length_drop. repeat (apply andb_prop in E as [E ?]). lia. }
  rewrite Hl in Hr. apply Hr. by apply Forall_take, Forall_drop.
Qed.
