(* ===== verification/Efi.v ===== *)
(** * EFI types shared by the components

    [EFI_STATUS] with the codes the modelled code returns or tests, the
    attribute bits of UEFI variables, GUIDs (as their 16 bytes in memory order)
    and the integer macros of include/compiler.h and include/peimage.h. *)
From stdpp Require Import base list numbers option.
From Stdlib Require Import ZArith Lia.
From S2P Require Import Prelude.
Local Open Scope Z_scope.

(** Status codes; firmware may return others, errors or warnings. *)
Inductive EFI_STATUS : Type :=
| EFI_SUCCESS
| EFI_INVALID_PARAMETER
| EFI_UNSUPPORTED
| EFI_BAD_BUFFER_SIZE
| EFI_BUFFER_TOO_SMALL
| EFI_NOT_FOUND
| EFI_OUT_OF_RESOURCES
| EFI_SECURITY_VIOLATION
| EFI_PROTOCOL_ERROR
| EFI_ALREADY_STARTED
| EFI_VOLUME_FULL
| EFI_LOAD_ERROR
| EFI_ACCESS_DENIED
| EFI_HTTP_ERROR
| EFI_TFTP_ERROR
| EFI_ABORTED
| EFI_OTHER_ERROR (code : Z)
| EFI_WARNING (code : Z).

Global Instance EFI_STATUS_eq_dec : EqDecision EFI_STATUS.
Proof. solve_decision. Defined.

Definition EFI_ERROR (s : EFI_STATUS) : bool :=
  match s with
  | EFI_SUCCESS | EFI_WARNING _ => false
  | _ => true
  end.

(** ** include/compiler.h: the overflow-checking builtins

    The boolean is the builtin's result (true: the exact value does not fit
    the 64-bit destination), the integer what it stores. *)
Definition checked_add (a b : Z) : bool * Z := (negb (bool_decide (0 <= a + b < 2 ^ 64)), u64 (a + b)).
Definition checked_sub (a b : Z) : bool * Z := (negb (bool_decide (0 <= a - b < 2 ^ 64)), u64 (a - b)).
Definition checked_mul (a b : Z) : bool * Z := (negb (bool_decide (0 <= a * b < 2 ^ 64)), u64 (a * b)).

(** ** include/peimage.h: ALIGN_VALUE at a given unsigned width

    ((Value) + (((Alignment) - (Value)) & ((Alignment) - 1))) *)
Definition ALIGN_VALUE (width value alignment : Z) : Z :=
  (value + Z.land ((alignment - value) mod 2 ^ width) ((alignment - 1) mod 2 ^ width)) mod 2 ^ width.

Definition SHA256_DIGEST_SIZE : Z := 32.

(** ** UEFI variable attributes *)
Definition EFI_VARIABLE_NON_VOLATILE : Z := 1.
Definition EFI_VARIABLE_BOOTSERVICE_ACCESS : Z := 2.
Definition EFI_VARIABLE_RUNTIME_ACCESS : Z := 4.
Definition EFI_VARIABLE_TIME_BASED_AUTHENTICATED_WRITE_ACCESS : Z := 32.
Definition EFI_VARIABLE_APPEND_WRITE : Z := 64.

(** ** GUIDs, as the 16 bytes of the EFI_GUID structure *)
Definition EFI_GUID : Type := list Z.
Definition guid (d1 d2 d3 : Z) (d4 : list Z) : EFI_GUID :=
  le_split 4 d1 ++ le_split 2 d2 ++ le_split 2 d3 ++ d4.

(** ** Lemmas *)
Lemma EFI_ERROR_false_cases s : EFI_ERROR s = false -> s = EFI_SUCCESS \/ exists c, s = EFI_WARNING c.
Proof. destruct s; cbn; intros; try done; eauto. Qed.

Lemma checked_add_ok a b s :
  checked_add a b = (false, s) -> 0 <= a + b < 2 ^ 64 /\ s = a + b.
Proof.
  unfold checked_add. intros [= H <-]. apply negb_false_iff, bool_decide_eq_true in H.
  split; [done|]. by apply u64_small.
Qed.

Lemma checked_sub_ok a b s :
  checked_sub a b = (false, s) -> 0 <= a - b < 2 ^ 64 /\ s = a - b.
Proof.
  unfold checked_sub. intros [= H <-]. apply negb_false_iff, bool_decide_eq_true in H.
  split; [done|]. by apply u64_small.
Qed.

Lemma checked_mul_ok a b s :
  checked_mul a b = (false, s) -> 0 <= a * b < 2 ^ 64 /\ s = a * b.
Proof.
  unfold checked_mul. intros [= H <-]. apply negb_false_iff, bool_decide_eq_true in H.
  split; [done|]. by apply u64_small.
Qed.

(** With a power of two, ALIGN_VALUE is the least multiple at or above the
    value, as long as that multiple fits the width. *)
Lemma ALIGN_VALUE_pow2 width v k :
  0 <= k < width -> 0 <= v -> v + 2 ^ k <= 2 ^ width ->
  let r := ALIGN_VALUE width v (2 ^ k) in
  v <= r < v + 2 ^ k /\ r mod 2 ^ k = 0.
Proof.
  intros Hk Hv Hw r. unfold r, ALIGN_VALUE.
  assert (0 < 2 ^ k) by (apply Z.pow_pos_nonneg; lia).
  assert (Hlt : 2 ^ k < 2 ^ width) by (apply Z.pow_lt_mono_r; lia).
  rewrite (Z.mod_small (2 ^ k - 1)) by lia.

  replace (2 ^ k - 1) with (Z.ones k) by (rewrite Z.ones_equiv; lia).
  rewrite Z.land_ones by lia.
  rewrite Z.mod_mod_divide by
    (exists (2 ^ (width - k)); rewrite <- Z.pow_add_r by lia; f_equal; lia).
  pose proof (Z.mod_pos_bound (2 ^ k - v) (2 ^ k)).
  rewrite (Z.mod_small (v + _)) by lia. split; [lia|].
  rewrite Zplus_mod_idemp_r. replace (v + (2 ^ k - v)) with (1 * 2 ^ k) by lia.
  apply Z.mod_mul. lia.
Qed.
