(* ===== verification/Str.v ===== *)
(** * C strings: lib/string.c, include/str.h and AsciiStrDecimalToUintn

    A [char *] is an offset into the byte buffer it points into; every access
    goes through [rd] and [wr], so a function that leaves its buffer evaluates
    to [Fault].  Loops carry fuel; for the scans that stop at a NUL the fuel is
    one more than the size of the buffer, which no run can exhaust because it
    would fault first.  [cstring m s str] says that a NUL-terminated string
    with the bytes [str] stands at offset [s] of [m]; the theorems state what
    each function returns on such strings. *)
From stdpp Require Import base list numbers option.
From Stdlib Require Import ZArith Lia.
From S2P Require Import Prelude.
Local Open Scope Z_scope.

(** ** lib/string.c *)
Fixpoint strlen_loop (fuel : nat) (m : list Z) (s1 len : Z) : res Z :=
  match fuel with
  | O => NoFuel
  | S f => b ← rd m s1; if b =? 0 then Ok len else strlen_loop f m (s1 + 1) (len + 1)
  end.
Definition strlen (m : list Z) (s1 : Z) : res Z := strlen_loop (S (length m)) m s1 0.

Fixpoint strcmp_loop (fuel : nat) (m1 : list Z) (s1 : Z) (m2 : list Z) (s2 : Z) : res Z :=
  match fuel with
  | O => NoFuel
  | S f =>
      a ← rd m1 s1; b ← rd m2 s2;
      if (a =? 0) || negb (a =? b) then Ok (a - b)
      else strcmp_loop f m1 (s1 + 1) m2 (s2 + 1)
  end.
Definition strcmp (m1 : list Z) (s1 : Z) (m2 : list Z) (s2 : Z) : res Z :=
  strcmp_loop (S (length m1)) m1 s1 m2 s2.

(** The guard [*s1 && len] reads [*s1] before it looks at [len]; the second
    string is only read while [len] is not zero. *)
Fixpoint strncmp_loop (fuel : nat) (m1 : list Z) (s1 : Z) (m2 : list Z) (s2 len : Z) : res Z :=
  match fuel with
  | O => NoFuel
  | S f =>
      a ← rd m1 s1;
      if len =? 0 then Ok 0
      else
        b ← rd m2 s2;
        if (a =? 0) || negb (a =? b) then Ok (a - b)
        else strncmp_loop f m1 (s1 + 1) m2 (s2 + 1) (len - 1)
  end.
Definition strncmp (m1 : list Z) (s1 : Z) (m2 : list Z) (s2 len : Z) : res Z :=
  strncmp_loop (S (length m1)) m1 s1 m2 s2 len.

Fixpoint strnlen_loop (fuel : nat) (m : list Z) (s n i : Z) : res Z :=
  match fuel with
  | O => NoFuel
  | S f =>
      if i <? n then b ← rd m (s + i); if b =? 0 then Ok i else strnlen_loop f m s n (i + 1)
      else Ok i
  end.
Definition strnlen (m : list Z) (s n : Z) : res Z := strnlen_loop (S (S (length m))) m s n 0.

(** stpcpy: the destination object after the copy and the offset of its NUL. *)
Fixpoint stpcpy_loop (fuel : nat) (dm : list Z) (dest : Z) (sm : list Z) (src i : Z)
  : res (list Z * Z) :=
  match fuel with
  | O => NoFuel
  | S f =>
      b ← rd sm (src + i);
      if b =? 0 then dm' ← wr dm (dest + i) 0; Ok (dm', dest + i)
      else dm' ← wr dm (dest + i) b; stpcpy_loop f dm' dest sm src (i + 1)
  end.
Definition stpcpy (dm : list Z) (dest : Z) (sm : list Z) (src : Z) : res (list Z * Z) :=
  stpcpy_loop (S (length sm)) dm dest sm src 0.

(** strcpy is the same loop and returns [dest]. *)
Definition strcpy (dm : list Z) (dest : Z) (sm : list Z) (src : Z) : res (list Z * Z) :=
  '(dm', _) ← stpcpy dm dest sm src; Ok (dm', dest).

(** The counter of strchrnul is an [unsigned int]. *)
Fixpoint strchrnul_loop (fuel : nat) (m : list Z) (s c i : Z) : res Z :=
  match fuel with
  | O => NoFuel
  | S f =>
      b ← rd m (s + i);
      if (b =? 0) || (b =? c) then Ok i else strchrnul_loop f m s c (u32 (i + 1))
  end.
Definition strchrnul (m : list Z) (s c : Z) : res Z :=
  i ← strchrnul_loop (S (length m)) m s c 0; Ok (s + i).

Definition strchr (m : list Z) (s c : Z) : res (option Z) :=
  s1 ← strchrnul m s c; b ← rd m s1; Ok (if b =? 0 then None else Some s1).

(** translate_slashes: [in] with every ["\\"] or ["\\\\"] turned into ["/"]. *)
Fixpoint translate_slashes_loop (fuel : nat) (out : list Z) (o : Z) (m : list Z) (str i j : Z)
  : res (list Z) :=
  match fuel with
  | O => NoFuel
  | S f =>
      b ← rd m (str + i);
      if b =? 0 then wr out (o + j) 0
      else if b =? 92 then
        out' ← wr out (o + j) 47;
        b2 ← rd m (str + (i + 1));
        translate_slashes_loop f out' o m str (if b2 =? 92 then i + 2 else i + 1) (j + 1)
      else
        out' ← wr out (o + j) b;
        translate_slashes_loop f out' o m str (i + 1) (j + 1)
  end.
Definition translate_slashes (out : list Z) (o : Z) (m : list Z) (str : Z) : res (list Z) :=
  translate_slashes_loop (S (length m)) out o m str 0 0.

(** ** include/str.h *)
Fixpoint strnchrnul_loop (fuel : nat) (m : list Z) (s max c i : Z) : res Z :=
  match fuel with
  | O => NoFuel
  | S f =>
      if i <? max then
        b ← rd m (s + i);
        if (b =? 0) || (b =? c) then Ok i else strnchrnul_loop f m s max c (u32 (i + 1))
      else Ok i
  end.
(** The buffer bounds the number of bytes the scan can look at, so it also
    bounds the fuel whatever [max] is. *)
Definition strnchrnul (m : list Z) (s max c : Z) : res Z :=
  if max =? 0 then Ok s
  else
    i ← strnchrnul_loop (S (S (length m))) m s max c 0;
    Ok (s + (if i =? max then u32 (i - 1) else i)).

(** One round of strntoken's loop over the delimiters. *)
Fixpoint strntoken_delims (m : list Z) (str max : Z) (delims : list Z)
    (token : option Z) (state tokend : Z) (isdelim state_is_delim : bool)
  : res (Z * bool * bool) :=
  match delims with
  | [] => Ok (tokend, isdelim, state_is_delim)
  | delim :: ds =>
      let state_is_delim := if token is Some _ then (delim =? state) || state_is_delim
                            else state_is_delim in
      tmp ← strnchrnul m str max delim;
      let tokend := if tmp <? tokend then tmp else tokend in
      b ← rd m tokend;
      strntoken_delims m str max ds token state tokend ((b =? delim) || isdelim) state_is_delim
  end.

(** strntoken: the buffer, the token, the state and the return value. *)
Definition strntoken (m : list Z) (str max : Z) (delims : list Z)
    (token : option Z) (state : Z) : res (list Z * option Z * Z * bool) :=
  if max =? 0 then Ok (m, token, state, false)
  else
    let tokend := str + (max - 1) in
    first ← (match token with
             | None => if max =? 1 then b ← rd m str; Ok (b =? 0) else Ok false
             | Some _ => Ok false
             end);
    '(tokend, isdelim, state_is_delim) ←
      strntoken_delims m str max delims token state tokend false first;
    if isdelim : bool then
      b ← rd m tokend; m' ← wr m tokend 0; Ok (m', Some str, b, true)
    else Ok (m, Some str, state, state_is_delim).

Definition UTF8_BOM : list Z := [239; 187; 191].
Definition UTF8_BOM_SIZE : Z := 3.

Definition is_utf8_bom (m : list Z) (buf bufsize : Z) : res bool :=
  let n := Z.min UTF8_BOM_SIZE bufsize in
  bs ← rdn m buf n; Ok (bytes_eqb bs (take (Z.to_nat n) UTF8_BOM)).

(** ** Cryptlib/SysCall/BaseStrings.c, the [atoi] of sbat.c *)
Fixpoint skip_while (p : Z -> bool) (fuel : nat) (m : list Z) (s : Z) : res Z :=
  match fuel with
  | O => NoFuel
  | S f => b ← rd m s; if p b then skip_while p f m (s + 1) else Ok s
  end.
Definition is_digit (b : Z) : bool := (48 <=? b) && (b <=? 57).
Fixpoint decimal_loop (fuel : nat) (m : list Z) (s result : Z) : res Z :=
  match fuel with
  | O => NoFuel
  | S f =>
      b ← rd m s;
      if is_digit b then decimal_loop f m (s + 1) (u64 (result * 10 + (b - 48)))
      else Ok result
  end.
Definition AsciiStrDecimalToUintn (m : list Z) (s : Z) : res Z :=
  let fuel := S (length m) in
  s ← skip_while (fun b => (b =? 32) || (b =? 9)) fuel m s;
  s ← skip_while (fun b => b =? 48) fuel m s;
  decimal_loop fuel m s 0.

(** ** Reference definitions on byte strings *)
Definition nonul (str : list Z) : Prop := Forall (fun b => b <> 0) str.

Definition cstring (m : list Z) (s : Z) (str : list Z) : Prop :=
  exists pre post, m = pre ++ str ++ 0 :: post /\ s = zlen pre /\ nonul str.

(** The first difference of two strings, as the C comparison returns it. *)
Fixpoint strdiff (a b : list Z) : Z :=
  match a, b with
  | [], [] => 0
  | [], y :: _ => - y
  | x :: _, [] => x
  | x :: a', y :: b' => if x =? y then strdiff a' b' else x - y
  end.

Fixpoint span (p : Z -> bool) (l : list Z) : list Z * list Z :=
  match l with
  | [] => ([], [])
  | b :: l' => if p b then let (x, y) := span p l' in (b :: x, y) else ([], l)
  end.

Fixpoint decimal (acc : Z) (l : list Z) : Z :=
  match l with
  | [] => acc
  | b :: l' => if is_digit b then decimal (u64 (acc * 10 + (b - 48))) l' else acc
  end.

Definition drop_while (p : Z -> bool) (l : list Z) : list Z := snd (span p l).

Definition atoi_spec (l : list Z) : Z :=
  decimal 0 (drop_while (fun b => b =? 48)
               (drop_while (fun b => (b =? 32) || (b =? 9)) l)).

(** ** Lemmas *)
Lemma cstring_cons m s b str :
  cstring m s (b :: str) -> b <> 0 /\ rd m s = Ok b /\ cstring m (s + 1) str.
Proof.
  intros (pre & post & -> & -> & Hn). inversion Hn; subst. split; [done|]. split.
  - by apply rd_app_at.
  - exists (pre ++ [b]), post. rewrite <- app_assoc. split; [done|]. split; [zlia|done].
Qed.

Lemma cstring_nil m s : cstring m s [] -> rd m s = Ok 0.
Proof. intros (pre & post & -> & -> & _). by apply rd_app_at. Qed.

Lemma cstring_len m s str : cstring m s str -> 0 <= s /\ s + zlen str < zlen m.
Proof. intros (pre & post & -> & -> & _). zlia. Qed.

Lemma cstring_length m s str : cstring m s str -> (length str < length m)%nat.
Proof. intros H%cstring_len. unfold zlen in H. lia. Qed.

Lemma cstring_app_r m q s str : cstring m s str -> cstring (m ++ q) s str.
Proof.
  intros (pre & post & -> & -> & Hn). exists pre, (post ++ q). split; [|done].
  by rewrite <- !app_assoc.
Qed.

Lemma strlen_loop_ok fuel m s str len :
  cstring m s str -> (length str < fuel)%nat -> strlen_loop fuel m s len = Ok (len + zlen str).
Proof.
  revert fuel s len. induction str as [|b str IH]; intros [|f] s len H Hf; cbn [length] in *; try lia.
  - cbn. rewrite (cstring_nil _ _ H). cbn. f_equal. zlia.
  - apply cstring_cons in H as (Hb & Hr & H). cbn [strlen_loop]. rewrite Hr, bind_Ok.
    case_if; [done|]. rewrite IH by (done || lia). f_equal. zlia.
Qed.

Lemma strlen_ok m s str : cstring m s str -> strlen m s = Ok (zlen str).
Proof.
  intros H. unfold strlen. rewrite (strlen_loop_ok _ _ _ str) by
    (done || pose proof (cstring_length _ _ _ H); lia). done.
Qed.

Lemma strcmp_loop_ok fuel m1 s1 a m2 s2 b :
  cstring m1 s1 a -> cstring m2 s2 b -> (length a < fuel)%nat ->
  strcmp_loop fuel m1 s1 m2 s2 = Ok (strdiff a b).
Proof.
  revert fuel s1 b s2. induction a as [|x a IH]; intros [|f] s1 b s2 Ha Hb Hf;
    cbn [length] in *; try lia; cbn [strcmp_loop].
  - rewrite (cstring_nil _ _ Ha), bind_Ok. destruct b as [|y b].
    + by rewrite (cstring_nil _ _ Hb).
    + apply cstring_cons in Hb as (_ & -> & _). rewrite bind_Ok. cbn. f_equal.
  - apply cstring_cons in Ha as (Hx & -> & Ha). rewrite bind_Ok. destruct b as [|y b].
    + rewrite (cstring_nil _ _ Hb), bind_Ok. replace (x =? 0) with false by (symmetry; solve_bool).
      cbn. f_equal. lia.
    + apply cstring_cons in Hb as (Hy & -> & Hb). rewrite bind_Ok. cbn [strdiff].
      destruct (x =? y) eqn:Exy; bool_to_prop.
      * subst. replace (y =? 0) with false by (symmetry; solve_bool). cbn. apply IH; auto; lia.
      * by rewrite orb_true_r.
Qed.

Lemma strcmp_ok m1 s1 a m2 s2 b :
  cstring m1 s1 a -> cstring m2 s2 b -> strcmp m1 s1 m2 s2 = Ok (strdiff a b).
Proof.
  intros Ha Hb. apply strcmp_loop_ok; auto.
  pose proof (cstring_length _ _ _ Ha). lia.
Qed.

Lemma strdiff_refl a : strdiff a a = 0.
Proof. induction a; cbn; [done|]. by rewrite Z.eqb_refl. Qed.

Lemma strdiff_zero a b : nonul a -> nonul b -> strdiff a b = 0 <-> a = b.
Proof.
  intros Ha Hb. split; [|intros ->; apply strdiff_refl].
  revert b Hb. induction Ha as [|x a Hx _ IH]; intros [|y b] Hb; cbn; try done.
  - inversion Hb. lia.
  - inversion Hb; subst. case_if; [intros; subst; f_equal; auto|lia].
Qed.

Lemma strncmp_loop_ok fuel m1 s1 a m2 s2 b len :
  cstring m1 s1 a -> cstring m2 s2 b -> (length a < fuel)%nat -> 0 <= len ->
  strncmp_loop fuel m1 s1 m2 s2 len
  = Ok (strdiff (take (Z.to_nat len) a) (take (Z.to_nat len) b)).
Proof.
  revert fuel s1 b s2 len. induction a as [|x a IH]; intros [|f] s1 b s2 len Ha Hb Hf Hl;
    cbn [length] in *; try lia; cbn [strncmp_loop].
  - rewrite (cstring_nil _ _ Ha), bind_Ok. rewrite take_nil. case_if; [by subst|].
    destruct (Z.to_nat len) eqn:El; [lia|]. destruct b as [|y b].
    + by rewrite (cstring_nil _ _ Hb).
    + apply cstring_cons in Hb as (_ & -> & _). done.
  - apply cstring_cons in Ha as (Hx & -> & Ha). rewrite bind_Ok. case_if; [by subst|].
    replace (Z.to_nat len) with (S (Z.to_nat (len - 1))) by lia.
    destruct b as [|y b].
    + rewrite (cstring_nil _ _ Hb), bind_Ok. replace (x =? 0) with false by (symmetry; solve_bool).
      cbn. f_equal. lia.
    + apply cstring_cons in Hb as (Hy & -> & Hb). rewrite bind_Ok. cbn [take strdiff].
      destruct (x =? y) eqn:Exy; bool_to_prop.
      * subst. replace (y =? 0) with false by (symmetry; solve_bool). cbn. apply IH; auto; lia.
      * by rewrite orb_true_r.
Qed.

Lemma strncmp_ok m1 s1 a m2 s2 b len :
  cstring m1 s1 a -> cstring m2 s2 b -> 0 <= len ->
  strncmp m1 s1 m2 s2 len = Ok (strdiff (take (Z.to_nat len) a) (take (Z.to_nat len) b)).
Proof.
  intros Ha Hb Hl. apply strncmp_loop_ok; auto.
  pose proof (cstring_length _ _ _ Ha). lia.
Qed.

(** stpcpy writes the string and its NUL over [old] and nothing else. *)
Lemma stpcpy_loop_ok fuel p done old q sm src str :
  cstring sm (src + zlen done) str -> (length str < fuel)%nat ->
  length old = S (length str) ->
  stpcpy_loop fuel (p ++ done ++ old ++ q) (zlen p) sm src (zlen done)
  = Ok (p ++ done ++ str ++ 0 :: q, zlen p + zlen done + zlen str).
Proof.
  revert fuel done old. induction str as [|b str IH]; intros [|f] done [|o old] H Hf Ho;
    cbn [length] in *; try lia; cbn [stpcpy_loop].
  - rewrite (cstring_nil _ _ H), bind_Ok. destruct old; [|cbn in Ho; lia]. cbn [app].
    rewrite (app_assoc p), wr_app_at by zlia. rewrite bind_Ok.
    rewrite <- app_assoc. cbn. do 2 f_equal. zlia.
  - apply cstring_cons in H as (Hb & Hr & H). rewrite Hr, bind_Ok. case_if; [done|].
    cbn [app]. rewrite (app_assoc p), wr_app_at by zlia. rewrite bind_Ok, <- app_assoc.
    specialize (IH f (done ++ [b]) old). rewrite <- !app_assoc, !zlen_app in IH.
    cbn [app] in IH. change (zlen [b]) with 1 in IH. rewrite IH; [|by rewrite Z.add_assoc|lia..].
    do 2 f_equal. zlia.
Qed.

Lemma stpcpy_ok p old q sm src str :
  cstring sm src str -> length old = S (length str) ->
  stpcpy (p ++ old ++ q) (zlen p) sm src = Ok (p ++ str ++ 0 :: q, zlen p + zlen str).
Proof.
  intros H Ho. unfold stpcpy.
  rewrite (stpcpy_loop_ok _ p [] old q sm src str); auto.
  - cbn. do 2 f_equal. zlia.
  - by rewrite zlen_nil, Z.add_0_r.
  - pose proof (cstring_length _ _ _ H). lia.
Qed.

(** ** The bounded search *)
Definition not_stop (c b : Z) : bool := negb ((b =? 0) || (b =? c)).

Lemma span_app p l : fst (span p l) ++ snd (span p l) = l.
Proof.
  induction l as [|b l IH]; [done|]. cbn. case_if; [|done].
  destruct (span p l). cbn in *. by rewrite IH.
Qed.

Lemma span_fst_all p l : Forall (fun b => p b = true) (fst (span p l)).
Proof.
  induction l as [|b l IH]; [constructor|]. cbn. case_if; [|constructor].
  destruct (span p l). by constructor.
Qed.

Lemma span_snd_head p l b l' : snd (span p l) = b :: l' -> p b = false.
Proof.
  induction l as [|x l IH]; [done|]. cbn. case_if.
  - destruct (span p l). cbn in *. auto.
  - cbn. by intros [= -> ->].
Qed.

Lemma span_cut p w b q :
  Forall (fun x => p x = true) w -> p b = false -> span p (w ++ b :: q) = (w, b :: q).
Proof. induction 1 as [|x w Hx _ IH]; intros Hb; cbn; [by rewrite Hb|]. rewrite Hx, IH; auto. Qed.

Lemma span_all p w : Forall (fun x => p x = true) w -> span p w = (w, []).
Proof. induction 1 as [|x w Hx _ IH]; [done|]. cbn. by rewrite Hx, IH. Qed.

Lemma strnchrnul_loop_ok fuel pre l1 l2 post c :
  zlen (l1 ++ l2) < 2 ^ 32 -> (length l2 < fuel)%nat ->
  strnchrnul_loop fuel (pre ++ (l1 ++ l2) ++ post) (zlen pre) (zlen (l1 ++ l2)) c (zlen l1)
  = Ok (zlen l1 + zlen (fst (span (not_stop c) l2))).
Proof.
  revert fuel l1. induction l2 as [|b l2 IH]; intros [|f] l1 Hm Hf; cbn [length] in *; try lia;
    cbn [strnchrnul_loop].
  - rewrite app_nil_r. case_if; [zlia|]. f_equal. cbn. zlia.
  - case_if; [|zlia]. rewrite <- (app_assoc l1), (app_assoc pre). cbn [app].
    rewrite rd_app_at by zlia. rewrite bind_Ok. cbn [span]. unfold not_stop.
    destruct ((b =? 0) || (b =? c)) eqn:E; cbn.
    + f_equal. zlia.
    + rewrite u32_small by zlia.
      specialize (IH f (l1 ++ [b])). rewrite <- !app_assoc in IH. cbn [app] in IH.
      rewrite <- app_assoc. rewrite (zlen_app l1 [b]) in IH. change (zlen [b]) with 1 in IH.
      rewrite IH by (zlia || lia). unfold not_stop.
      destruct (span _ l2). cbn. f_equal. zlia.
Qed.

Lemma strnchrnul_ok pre l post c :
  0 < zlen l < 2 ^ 32 ->
  strnchrnul (pre ++ l ++ post) (zlen pre) (zlen l) c
  = Ok (zlen pre + Z.min (zlen (fst (span (not_stop c) l))) (zlen l - 1)).
Proof.
  intros Hl. unfold strnchrnul. case_if; [lia|].
  pose proof (strnchrnul_loop_ok (S (S (length (pre ++ l ++ post)))) pre [] l post c) as H.
  cbn [app] in H. rewrite zlen_nil in H. rewrite H by (rewrite ?length_app; lia). rewrite bind_Ok.
  assert (Hs : zlen (fst (span (not_stop c) l)) + zlen (snd (span (not_stop c) l)) = zlen l).
  { rewrite <- zlen_app. by rewrite span_app. }
  pose proof (zlen_nonneg (snd (span (not_stop c) l))).
  f_equal. case_if.
  - rewrite u32_small by lia. lia.
  - lia.
Qed.

(** ** AsciiStrDecimalToUintn *)
Lemma skip_while_ok p fuel m s str :
  p 0 = false -> cstring m s str -> (length str < fuel)%nat ->
  exists s', skip_while p fuel m s = Ok s' /\ cstring m s' (drop_while p str).
Proof.
  intros Hp. unfold drop_while. revert fuel s. induction str as [|b str IH];
    intros [|f] s H Hf; cbn [length] in *; try lia; cbn [skip_while span].
  - rewrite (cstring_nil _ _ H), bind_Ok, Hp. eauto.
  - pose proof H as (Hb & Hr & Ht)%cstring_cons. rewrite Hr, bind_Ok. destruct (p b); [|eauto].
    destruct (IH f (s + 1) Ht) as (s' & -> & Hs'); [lia|]. exists s'. by destruct (span p str).
Qed.

Lemma decimal_loop_ok fuel m s str acc :
  cstring m s str -> (length str < fuel)%nat -> decimal_loop fuel m s acc = Ok (decimal acc str).
Proof.
  revert fuel s acc. induction str as [|b str IH]; intros [|f] s acc H Hf;
    cbn [length] in *; try lia; cbn [decimal_loop decimal].
  - by rewrite (cstring_nil _ _ H).
  - apply cstring_cons in H as (_ & -> & Ht). rewrite bind_Ok. case_if; auto with lia.
Qed.

Lemma AsciiStrDecimalToUintn_ok m s str :
  cstring m s str -> AsciiStrDecimalToUintn m s = Ok (atoi_spec str).
Proof.
  intros H. unfold AsciiStrDecimalToUintn, atoi_spec.
  edestruct (skip_while_ok (fun b => (b =? 32) || (b =? 9)) (S (length m)) m s str)
    as (s1 & -> & H1); [done|done|pose proof (cstring_length _ _ _ H); lia|]. rewrite bind_Ok.
  edestruct (skip_while_ok (fun b => b =? 48) (S (length m)) m s1)
    as (s2 & -> & H2); [done|exact H1|pose proof (cstring_length _ _ _ H1); lia|]. rewrite bind_Ok.
  apply decimal_loop_ok; [done|]. pose proof (cstring_length _ _ _ H2). lia.
Qed.

(** The value of a string of digits as a number. *)
Fixpoint number (acc : Z) (l : list Z) : Z :=
  match l with [] => acc | b :: l' => number (acc * 10 + (b - 48)) l' end.

Lemma number_range l acc :
  Forall (fun b => is_digit b = true) l -> 0 <= acc ->
  0 <= number acc l /\ acc <= number acc l.
Proof.
  intros HF. revert acc. induction HF as [|b l Hb HF IH]; intros acc Ha; cbn; [lia|].
  unfold is_digit in Hb. bool_to_prop. specialize (IH (acc * 10 + (b - 48))). lia.
Qed.

Lemma decimal_number l acc :
  Forall (fun b => is_digit b = true) l -> 0 <= acc -> number acc l < 2 ^ 64 ->
  decimal acc l = number acc l.
Proof.
  intros HF. revert acc. induction HF as [|b l Hb HF IH]; intros acc Ha Hn; cbn in *; [done|].
  rewrite Hb. unfold is_digit in Hb. bool_to_prop.
  pose proof (number_range l (acc * 10 + (b - 48)) HF).
  rewrite u64_small by lia. apply IH; lia.
Qed.

Lemma drop_while_zeros l :
  Forall (fun b => is_digit b = true) l ->
  Forall (fun b => is_digit b = true) (drop_while (fun b => b =? 48) l) /\
  number 0 (drop_while (fun b => b =? 48) l) = number 0 l.
Proof.
  unfold drop_while. induction 1 as [|b l Hb HF IH]; cbn; [by split|]. case_if.
  - subst b. destruct (span _ l). cbn in *. done.
  - cbn. split; [by constructor|done].
Qed.

(** A string of digits is read as the number it denotes. *)
Lemma atoi_spec_digits l :
  Forall (fun b => is_digit b = true) l -> number 0 l < 2 ^ 64 -> atoi_spec l = number 0 l.
Proof.
  intros HF Hn. unfold atoi_spec.
  replace (drop_while (fun b => (b =? 32) || (b =? 9)) l) with l.
  - destruct (drop_while_zeros l HF) as [HF' HN]. rewrite <- HN in *. by apply decimal_number.
  - destruct HF as [|b l Hb _]; [done|]. unfold drop_while. cbn. unfold is_digit in Hb. bool_to_prop.
    case_if; subst; try lia. done.
Qed.
