(* ===== verification/StrLib.v ===== *)
(** * The rest of lib/string.c

    The functions that compare without case, search backwards, copy with a bound,
    append, duplicate and span, with what each of them computes on NUL-terminated
    strings; [Str] has the others and the notion of a string in a buffer. *)
From stdpp Require Import base list numbers option.
From Stdlib Require Import ZArith Lia.
From S2P Require Import Prelude.
From S2P Require Import Str.
Local Open Scope Z_scope.

Definition toupper (c : Z) : Z := if (97 <=? c) && (c <=? 122) then c - 32 else c.

Fixpoint strncasecmp_loop (fuel : nat) (m1 : list Z) (s1 : Z) (m2 : list Z) (s2 n : Z) : res Z :=
  match fuel with
  | O => NoFuel
  | S f =>
      a ← rd m1 s1;
      if n =? 0 then Ok 0
      else
        b ← rd m2 s2;
        if (a =? 0) || negb (toupper a =? toupper b) then Ok (a - b)
        else strncasecmp_loop f m1 (s1 + 1) m2 (s2 + 1) (n - 1)
  end.
Definition strncasecmp (m1 : list Z) (s1 : Z) (m2 : list Z) (s2 n : Z) : res Z :=
  strncasecmp_loop (S (length m1)) m1 s1 m2 s2 n.

Fixpoint strcasecmp_loop (fuel : nat) (m1 : list Z) (s1 : Z) (m2 : list Z) (s2 : Z) : res Z :=
  match fuel with
  | O => NoFuel
  | S f =>
      a ← rd m1 s1; b ← rd m2 s2;
      let c1 := toupper a in let c2 := toupper b in
      if negb (a =? 0) && (c1 =? c2) then strcasecmp_loop f m1 (s1 + 1) m2 (s2 + 1) else Ok (c1 - c2)
  end.
Definition strcasecmp (m1 : list Z) (s1 : Z) (m2 : list Z) (s2 : Z) : res Z :=
  strcasecmp_loop (S (length m1)) m1 s1 m2 s2.

Fixpoint strrchr_loop (fuel : nat) (m : list Z) (str c : Z) (save : option Z) : res (option Z) :=
  match fuel with
  | O => NoFuel
  | S f =>
      b ← rd m str;
      let save := if b =? c then Some str else save in
      if b =? 0 then Ok save else strrchr_loop f m (str + 1) c save
  end.
Definition strrchr (m : list Z) (str c : Z) : res (option Z) := strrchr_loop (S (length m)) m str c None.

(** The destination after the copy. *)
Fixpoint strncpy_loop (fuel : nat) (dm : list Z) (dest : Z) (sm : list Z) (src n i : Z) : res (list Z) :=
  match fuel with
  | O => NoFuel
  | S f =>
      if negb (i <? n) then Ok dm
      else
        b ← rd sm (src + i);
        if b =? 0 then wr dm (dest + i) 0 else dm ← wr dm (dest + i) b; strncpy_loop f dm dest sm src n (i + 1)
  end.
Definition strncpy (dm : list Z) (dest : Z) (sm : list Z) (src n : Z) : res (list Z) :=
  strncpy_loop (S (S (length sm))) dm dest sm src n 0.

Definition strcat (dm : list Z) (dest : Z) (sm : list Z) (src : Z) : res (list Z) :=
  dest_len ← strlen dm dest; '(dm, _) ← stpcpy dm (dest + dest_len) sm src; Ok dm.

(** [None] is NULL, when there is no memory. *)
Definition strdup (alloc : bool) (m : list Z) (src : Z) : res (option (list Z)) :=
  len ← strlen m src;
  if alloc then news ← strncpy (replicate (Z.to_nat (len + 1)) 0) 0 m src len; Ok (Some news) else Ok None.
Definition strndup (alloc : bool) (m : list Z) (src srcmax : Z) : res (option (list Z)) :=
  len ← strnlen m src srcmax;
  if alloc then news ← strncpy (replicate (Z.to_nat (len + 1)) 0) 0 m src len; Ok (Some news) else Ok None.

(** The inner loop: is [c] one of the characters from [i] on? *)
Fixpoint among (fuel : nat) (m : list Z) (set i c : Z) (found : bool) : res bool :=
  match fuel with
  | O => NoFuel
  | S f => b ← rd m (set + i); if b =? 0 then Ok found else among f m set (i + 1) c (found || (c =? b))
  end.
Fixpoint span_loop (fuel : nat) (stop_when : bool) (m : list Z) (str : Z) (sm : list Z) (set ret : Z) : res Z :=
  match fuel with
  | O => NoFuel
  | S f =>
      c ← rd m (str + ret);
      if c =? 0 then Ok ret
      else
        found ← among (S (length sm)) sm set 0 c false;
        if Bool.eqb found stop_when then Ok ret else span_loop f stop_when m str sm set (ret + 1)
  end.
Definition strspn (m : list Z) (str : Z) (am : list Z) (accept : Z) : res Z :=
  c ← rd am accept; if c =? 0 then Ok 0 else span_loop (S (length m)) false m str am accept 0.
Definition strcspn (m : list Z) (str : Z) (rm : list Z) (reject : Z) : res Z :=
  span_loop (S (length m)) true m str rm reject 0.

Fixpoint strstr_loop (fuel : nat) (m : list Z) (haystack j : Z) (nm : list Z) (needle len : Z) : res (option Z) :=
  match fuel with
  | O => NoFuel
  | S f =>
      b ← rd m (haystack + j);
      if b =? 0 then Ok None
      else
        d ← strncmp m (haystack + j) nm needle len;
        if d =? 0 then Ok (Some (haystack + j)) else strstr_loop f m haystack (j + 1) nm needle len
  end.
Definition strstr (m : list Z) (haystack : Z) (nm : list Z) (needle : Z) : res (option Z) :=
  len ← strlen nm needle; strstr_loop (S (length m)) m haystack 0 nm needle len.

(** ** Comparing without case *)
Lemma toupper_zero c : 0 <= c -> toupper c = 0 -> c = 0.
Proof. unfold toupper. destruct (_ && _) eqn:E; [|done]. bool_to_prop. lia. Qed.

Lemma strcasecmp_loop_ok fuel m1 s1 a m2 s2 b : cstring m1 s1 a -> cstring m2 s2 b -> (length a < fuel)%nat ->
  strcasecmp_loop fuel m1 s1 m2 s2 = Ok (strdiff (map toupper a) (map toupper b)).
Proof.
  revert fuel s1 b s2. induction a as [|x a IH]; intros [|f] s1 b s2 Ha Hb Hf; cbn [length] in *; try lia; cbn [strcasecmp_loop map].
  - rewrite (cstring_nil _ _ Ha), bind_Ok. destruct b as [|y b].
    + by rewrite (cstring_nil _ _ Hb).
    + apply cstring_cons in Hb as (_ & -> & _). done.
  - apply cstring_cons in Ha as (Hx & -> & Ha). rewrite bind_Ok. rewrite (proj2 (Z.eqb_neq x 0) Hx). cbn [negb andb]. destruct b as [|y b].
    + rewrite (cstring_nil _ _ Hb), bind_Ok. cbn [map strdiff]. change (toupper 0) with 0.
      destruct (toupper x =? 0) eqn:E; bool_to_prop; [|by rewrite Z.sub_0_r]. exfalso. unfold toupper in E. destruct (_ && _) eqn:E2; bool_to_prop; lia.
    + apply cstring_cons in Hb as (Hy & -> & Hb). rewrite bind_Ok. cbn [map strdiff]. destruct (toupper x =? toupper y); [|done]. apply IH; auto. lia.
Qed.

(** strcasecmp is the comparison of the strings in upper case; it is 0 exactly for
    strings that differ at most in case. *)
Theorem strcasecmp_correct m1 s1 a m2 s2 b : cstring m1 s1 a -> cstring m2 s2 b ->
  strcasecmp m1 s1 m2 s2 = Ok (strdiff (map toupper a) (map toupper b)) /\
  (strdiff (map toupper a) (map toupper b) = 0 <-> map toupper a = map toupper b).
Proof.
  intros Ha Hb. split; [apply strcasecmp_loop_ok; auto; pose proof (cstring_length _ _ _ Ha); lia|].
  assert (Hn : forall m s l, cstring m s l -> nonul (map toupper l)).
  { intros m s l (pre & post & _ & _ & Hl). apply Forall_map. eapply List.Forall_impl; [|exact Hl]. intros x Hx. unfold compose, toupper.
    destruct (_ && _) eqn:E; [|done]. apply andb_true_iff in E as [?%Z.leb_le ?%Z.leb_le]. lia. }
  apply strdiff_zero; by eapply Hn.
Qed.

(** ** The last occurrence *)
Fixpoint last_index (c : Z) (l : list Z) (i : Z) (save : option Z) : option Z :=
  match l with [] => save | x :: l => last_index c l (i + 1) (if x =? c then Some i else save) end.

Lemma strrchr_loop_ok fuel m s c str save : c <> 0 -> cstring m s str -> (length str < fuel)%nat ->
  strrchr_loop fuel m s c save = Ok (last_index c str s save).
Proof.
  intros Hc. revert fuel s save. induction str as [|b str IH]; intros [|f] s save H Hf; cbn [length] in *; try lia; cbn [strrchr_loop last_index].
  - rewrite (cstring_nil _ _ H), bind_Ok. rewrite (proj2 (Z.eqb_neq 0 c)) by done. done.
  - apply cstring_cons in H as (Hb & -> & H). rewrite bind_Ok, (proj2 (Z.eqb_neq b 0) Hb). apply IH; [done|lia].
Qed.

Lemma last_index_split c l i save :
  ((c ∉ l) /\ last_index c l i save = save) \/
  exists p q, l = p ++ c :: q /\ (c ∉ q) /\ last_index c l i save = Some (i + zlen p).
Proof.
  revert i save. induction l as [|x l IH]; intros i save; [left; split; [apply not_elem_of_nil|done]|]. cbn [last_index].
  destruct (IH (i + 1) (if x =? c then Some i else save)) as [[Hn ->] | (p & q & -> & Hq & ->)].
  - destruct (x =? c) eqn:E; bool_to_prop.
    + subst. right. exists [], l. split_and!; [done|done|]. change (zlen (@nil Z)) with 0. by rewrite Z.add_0_r.
    + left. split; [|done]. rewrite elem_of_cons. intros [?|?]; congruence.
  - right. exists (x :: p), q. split_and!; [done|done|]. f_equal. rewrite zlen_cons. lia.
Qed.

(** strrchr gives the last place of the character, or NULL if it is not there. *)
Theorem strrchr_correct m s c str : c <> 0 -> cstring m s str ->
  ((c ∉ str) /\ strrchr m s c = Ok None) \/
  exists p q, str = p ++ c :: q /\ (c ∉ q) /\ strrchr m s c = Ok (Some (s + zlen p)).
Proof.
  intros Hc Hs. unfold strrchr. rewrite (strrchr_loop_ok _ _ _ _ str) by (done || pose proof (cstring_length _ _ _ Hs); lia).
  destruct (last_index_split c str s None) as [[Hn ->] | (p & q & Hp & Hq & ->)]; [by left|right; by exists p, q].
Qed.

(** ** Copying and appending *)
Lemma strncpy_loop_ok fuel sm src str n pre post : sm = pre ++ str ++ post -> src = zlen pre -> nonul str -> n <= zlen str -> forall p old q d,
  0 <= zlen d -> zlen d + zlen old = n -> str !! (length d) <> None \/ old = [] -> (length old < fuel)%nat ->
  d = take (length d) str ->
  strncpy_loop fuel (p ++ d ++ old ++ q) (zlen p) sm src n (zlen d) = Ok (p ++ take (Z.to_nat n) str ++ q).
Proof.
  intros Hm Hsrc Hnn Hn p old. revert fuel. induction old as [|o old IH]; intros fuel q d Hd Hlen Hl Hf Htake;
    (destruct fuel as [|f]; [cbn in Hf; lia|]); cbn [strncpy_loop].
  - change (zlen (@nil Z)) with 0 in Hlen. rewrite (proj2 (Z.ltb_ge (zlen d) n)) by lia. cbn [negb app].
    assert (Hd' : length d = Z.to_nat n) by (unfold zlen in *; lia). by rewrite Htake, Hd'.
  - rewrite zlen_cons in Hlen. pose proof (zlen_nonneg old). rewrite (proj2 (Z.ltb_lt (zlen d) n)) by lia. cbn [negb].
    destruct (lookup_lt_is_Some_2 str (length d)) as [b Hb]; [unfold zlen in *; lia|].
    assert (Hrd : rd sm (src + zlen d) = Ok b /\ b <> 0).
    { rewrite Hm, Hsrc. rewrite <- (take_drop_middle str (length d) b Hb). rewrite <- Htake, <- !app_assoc. cbn [app]. rewrite (app_assoc pre).
      split; [apply rd_app_at; zlia|]. exact (Forall_lookup_1 _ _ _ _ Hnn Hb). }
    destruct Hrd as [-> Hb0]. rewrite bind_Ok, (proj2 (Z.eqb_neq b 0) Hb0). cbn [app]. rewrite (app_assoc p), wr_app_at by zlia. rewrite bind_Ok.
    rewrite <- (app_assoc p). change (b :: old ++ q) with ([b] ++ old ++ q). rewrite (app_assoc d).
    replace (zlen d + 1) with (zlen (d ++ [b])) by zlia. apply IH; [apply zlen_nonneg|zlia| |cbn [length] in Hf; lia|].
    + destruct old as [|o' old]; [by right|]. left. intros Hnone. apply lookup_ge_None in Hnone. rewrite length_app in Hnone. cbn [length] in Hnone.
      rewrite zlen_cons in Hlen. pose proof (zlen_nonneg old). unfold zlen in *. lia.
    + rewrite length_app. cbn [length]. rewrite Nat.add_1_r. rewrite (take_S_r _ _ _ Hb). by rewrite <- Htake.
Qed.

(** strncpy of no more than the string copies a prefix and nothing else; the string
    need not be terminated. *)
Lemma strncpy_prefix p old q sm pre str post : sm = pre ++ str ++ post -> nonul str -> zlen old <= zlen str ->
  strncpy (p ++ old ++ q) (zlen p) sm (zlen pre) (zlen old) = Ok (p ++ take (length old) str ++ q).
Proof.
  intros Hm Hnn Hn. unfold strncpy. assert (length str <= length sm)%nat by (rewrite Hm, !length_app; lia).
  replace (length old) with (Z.to_nat (zlen old)) by (unfold zlen; lia).
  apply (strncpy_loop_ok (S (S (length sm))) sm (zlen pre) str (zlen old) pre post Hm eq_refl Hnn Hn p old q []); try done.
  - destruct old as [|o old]; [by right|]. left. intros Hx%lookup_ge_None. rewrite zlen_cons in Hn. pose proof (zlen_nonneg old). unfold zlen in *. cbn in Hx. lia.
  - unfold zlen in Hn. lia.
Qed.

(** strcat puts the string and its NUL behind the one that is there. *)
Lemma strcat_ok p a old q sm src str : nonul a -> cstring sm src str -> length old = length str ->
  strcat (p ++ a ++ 0 :: old ++ q) (zlen p) sm src = Ok (p ++ (a ++ str) ++ 0 :: q).
Proof.
  intros Ha Hs Ho. unfold strcat. rewrite (strlen_ok _ _ a) by (exists p, (old ++ q); done). rewrite bind_Ok.
  rewrite (app_assoc p a). change (0 :: old ++ q) with ((0 :: old) ++ q). replace (zlen p + zlen a) with (zlen (p ++ a)) by zlia.
  rewrite (stpcpy_ok (p ++ a) (0 :: old) q sm src str Hs) by (cbn; lia). rewrite bind_Ok. by rewrite <- !app_assoc.
Qed.

(** Appending to a string in a buffer of zeros. *)
Lemma strcat_zeros a r z tm src : nonul a -> cstring tm src r -> (length r <= z)%nat ->
  exists fp, strcat (a ++ replicate (S z) 0) 0 tm src = Ok fp /\ cstring fp 0 (a ++ r).
Proof.
  intros Ha Hr Hz. exists ((a ++ r) ++ 0 :: replicate (z - length r) 0). split.
  - pose proof (strcat_ok [] a (replicate (length r) 0) (replicate (z - length r) 0) tm src r Ha Hr) as Hs. rewrite <- replicate_add in Hs.
    replace (length r + (z - length r))%nat with z in Hs by lia. apply Hs. apply length_replicate.
  - exists [], (replicate (z - length r) 0). split; [done|]. split; [done|]. apply Forall_app. split; [done|]. by destruct Hr as (? & ? & _ & _ & ?).
Qed.

(** A copy that was made is the string with its NUL. *)
Theorem strdup_correct m src str : cstring m src str -> strdup true m src = Ok (Some (str ++ [0])) /\ strdup false m src = Ok None.
Proof.
  intros Hs. unfold strdup. rewrite (strlen_ok _ _ _ Hs), !bind_Ok. split; [|done].
  replace (replicate (Z.to_nat (zlen str + 1)) 0) with ([] ++ replicate (length str) 0 ++ [0]).
  - destruct Hs as (pre & post & Hm & -> & Hn). pose proof (strncpy_prefix [] (replicate (length str) 0) [0] m pre str (0 :: post) Hm Hn) as Hp.
    assert (Hl : zlen (replicate (length str) 0) = zlen str) by (unfold zlen; by rewrite length_replicate).
    rewrite Hl, length_replicate, firstn_all in Hp. change (zlen (@nil Z)) with 0 in Hp. rewrite Hp by lia. by rewrite bind_Ok.
  - cbn [app]. replace (Z.to_nat (zlen str + 1)) with (length str + 1)%nat by (unfold zlen; lia). by rewrite replicate_add.
Qed.

(** strncasecmp is 0 exactly when the first [n] characters differ at most in case. *)
Theorem strncasecmp_correct m1 s1 a m2 s2 b n : cstring m1 s1 a -> cstring m2 s2 b -> 0 <= n ->
  exists d, strncasecmp m1 s1 m2 s2 n = Ok d /\
    (d = 0 <-> map toupper (take (Z.to_nat n) a) = map toupper (take (Z.to_nat n) b)).
Proof.
  intros Ha Hb Hn. unfold strncasecmp. assert (Hf : (length a < S (length m1))%nat) by (pose proof (cstring_length _ _ _ Ha); lia).
  revert Hf. generalize (S (length m1)). revert s1 b s2 n Ha Hb Hn.
  induction a as [|x a IH]; intros s1 b s2 n Ha Hb Hn [|f] Hf; cbn [length] in Hf; try lia; cbn [strncasecmp_loop].
  - rewrite (cstring_nil _ _ Ha), bind_Ok, take_nil. destruct (n =? 0) eqn:En; bool_to_prop; [subst; by exists 0|]. destruct b as [|y b].
    + rewrite (cstring_nil _ _ Hb), take_nil. by exists 0.
    + apply cstring_cons in Hb as (Hy & -> & _). rewrite bind_Ok. cbn [orb Z.eqb]. eexists. split; [done|].
      destruct (Z.to_nat n) eqn:E; [lia|]. cbn [take map]. split; [lia|done].
  - apply cstring_cons in Ha as (Hx & -> & Ha). rewrite bind_Ok. destruct (n =? 0) eqn:En; bool_to_prop; [subst; by exists 0|].
    destruct (Z.to_nat n) as [|k] eqn:E; [lia|]. rewrite (proj2 (Z.eqb_neq x 0) Hx). cbn [orb]. destruct b as [|y b].
    + rewrite (cstring_nil _ _ Hb), bind_Ok. change (toupper 0) with 0. destruct (toupper x =? 0) eqn:E2; bool_to_prop.
      * exfalso. unfold toupper in E2. destruct (_ && _) eqn:E3; [apply andb_true_iff in E3 as [?%Z.leb_le ?%Z.leb_le]|]; lia.
      * cbn [negb]. eexists. split; [done|]. cbn [take map]. split; [lia|done].
    + apply cstring_cons in Hb as (Hy & -> & Hb). rewrite bind_Ok. cbn [take map]. destruct (toupper x =? toupper y) eqn:E2; bool_to_prop; cbn [negb].
      * destruct (IH (s1 + 1) b (s2 + 1) (n - 1) Ha Hb ltac:(lia) f ltac:(lia)) as (d & -> & Hd). exists d. split; [done|].
        replace (Z.to_nat (n - 1)) with k in Hd by lia. rewrite Hd, E2. split; [by intros ->|by intros [= ->]].
      * eexists. split; [done|]. split; [|by intros [= ? _]]. intros Hxy. assert (x = y) by lia. congruence.
Qed.

(** ** Spans *)
Definition one_of (set : list Z) (c : Z) : bool := existsb (Z.eqb c) set.
Lemma among_ok fuel m set i l c found : cstring m (set + i) l -> (length l < fuel)%nat ->
  among fuel m set i c found = Ok (found || one_of l c).
Proof.
  revert fuel i found. induction l as [|x l IH]; intros [|f] i found H Hf; cbn [length] in Hf; try lia; cbn [among].
  - rewrite (cstring_nil _ _ H), bind_Ok. cbn. by rewrite orb_false_r.
  - apply cstring_cons in H as (Hx & -> & H). rewrite bind_Ok, (proj2 (Z.eqb_neq x 0) Hx). rewrite IH; [|by rewrite Z.add_assoc|lia].
    unfold one_of. cbn [existsb]. by rewrite orb_assoc.
Qed.

Lemma span_loop_ok fuel stop m str rest sm set l ret : cstring m (str + ret) rest -> cstring sm set l -> (length rest < fuel)%nat ->
  span_loop fuel stop m str sm set ret = Ok (ret + zlen (span (fun c => negb (Bool.eqb (one_of l c) stop)) rest).1).
Proof.
  intros Hm Hl. revert fuel ret Hm. induction rest as [|c rest IH]; intros [|f] ret Hm Hf; cbn [length] in Hf; try lia; cbn [span_loop].
  - rewrite (cstring_nil _ _ Hm), bind_Ok. cbn. f_equal. change (zlen (@nil Z)) with 0. lia.
  - apply cstring_cons in Hm as (Hc & -> & Hm). rewrite bind_Ok, (proj2 (Z.eqb_neq c 0) Hc).
    rewrite (among_ok _ _ _ _ l) by (rewrite ?Z.add_0_r; done || (pose proof (cstring_length _ _ _ Hl); lia)). rewrite bind_Ok. cbn [orb span].
    destruct (Bool.eqb (one_of l c) stop) eqn:E; cbn [negb].
    + f_equal. cbn. change (zlen (@nil Z)) with 0. lia.
    + rewrite IH by (rewrite ?Z.add_assoc; done || lia). destruct (span _ rest). cbn [fst]. f_equal. zlia.
Qed.

(** strspn and strcspn: how many characters at the front are, or are not, in the set. *)
Theorem strspn_correct m str s am accept l : cstring m str s -> cstring am accept l ->
  strspn m str am accept = Ok (zlen (span (one_of l) s).1).
Proof.
  intros Hs Hl. unfold strspn. assert (Hext : (span (fun c => negb (Bool.eqb (one_of l c) false)) s) = span (one_of l) s).
  { clear Hs. induction s as [|x s IH]; [done|]. cbn [span]. rewrite IH. by destruct (one_of l x). }
  destruct l as [|x l].
  - rewrite (cstring_nil _ _ Hl), bind_Ok. cbn. by destruct s.
  - pose proof Hl as (Hx & -> & _)%cstring_cons. rewrite bind_Ok, (proj2 (Z.eqb_neq x 0) Hx).
    rewrite (span_loop_ok _ _ _ _ s _ _ (x :: l)) by (rewrite ?Z.add_0_r; done || (pose proof (cstring_length _ _ _ Hs); lia)). by rewrite Hext.
Qed.
Theorem strcspn_correct m str s rm reject l : cstring m str s -> cstring rm reject l ->
  strcspn m str rm reject = Ok (zlen (span (fun c => negb (one_of l c)) s).1).
Proof.
  intros Hs Hl. unfold strcspn. assert (Hext : (span (fun c => negb (Bool.eqb (one_of l c) true)) s) = span (fun c => negb (one_of l c)) s).
  { clear Hs. induction s as [|x s IH]; [done|]. cbn [span]. rewrite IH. by destruct (one_of l x). }
  rewrite (span_loop_ok _ _ _ _ s _ _ l) by (rewrite ?Z.add_0_r; done || (pose proof (cstring_length _ _ _ Hs); lia)). by rewrite Hext.
Qed.

(** ** Searching a string *)
Definition at_front (needle s : list Z) : Prop := take (length needle) s = needle.
Lemma strncmp_front m s a nm n needle : cstring m s a -> cstring nm n needle ->
  exists d, strncmp m s nm n (zlen needle) = Ok d /\ (d = 0 <-> at_front needle a).
Proof.
  intros Ha Hn. eexists. rewrite (strncmp_ok _ _ a _ _ needle) by (done || apply zlen_nonneg). split; [done|].
  replace (Z.to_nat (zlen needle)) with (length needle) by (unfold zlen; lia). rewrite firstn_all.
  destruct Ha as (? & ? & _ & _ & Ha), Hn as (? & ? & _ & _ & Hn). apply strdiff_zero; [by apply Forall_take|done].
Qed.

(** strstr gives the first place where the needle is at the front of the rest, of
    those in front of the end of the haystack. *)
Theorem strstr_correct m hs str nm n needle : cstring m hs str -> cstring nm n needle ->
  (strstr m hs nm n = Ok None /\ forall j, (j < length str)%nat -> ~ at_front needle (drop j str)) \/
  exists k, (k < length str)%nat /\ strstr m hs nm n = Ok (Some (hs + Z.of_nat k)) /\ at_front needle (drop k str) /\
    forall j, (j < k)%nat -> ~ at_front needle (drop j str).
Proof.
  intros Hs Hn. unfold strstr. rewrite (strlen_ok _ _ _ Hn), bind_Ok.
  assert (Hgo : forall rest k f, (length rest < f)%nat -> cstring m (hs + Z.of_nat k) rest ->
    (strstr_loop f m hs (Z.of_nat k) nm n (zlen needle) = Ok None /\ forall j, (j < length rest)%nat -> ~ at_front needle (drop j rest)) \/
    exists i, (i < length rest)%nat /\ strstr_loop f m hs (Z.of_nat k) nm n (zlen needle) = Ok (Some (hs + Z.of_nat (k + i))) /\
      at_front needle (drop i rest) /\ forall j, (j < i)%nat -> ~ at_front needle (drop j rest)).
  { induction rest as [|x rest IH]; intros k [|f] Hf Hr; cbn [length] in Hf; try lia; cbn [strstr_loop].
    - rewrite (cstring_nil _ _ Hr). left. split; [done|]. cbn. lia.
    - destruct (strncmp_front _ _ _ _ _ _ Hr Hn) as (d & Hd & Hiff). pose proof Hr as (Hx & -> & Hr')%cstring_cons.
      rewrite bind_Ok, (proj2 (Z.eqb_neq x 0) Hx), Hd, bind_Ok. destruct (d =? 0) eqn:Ed; bool_to_prop.
      + right. exists 0%nat. rewrite Nat.add_0_r. cbn [length]. split_and!; [lia|done|by apply Hiff|lia].
      + assert (Hno : ~ at_front needle (x :: rest)) by (intros ?%Hiff; done). replace (Z.of_nat k + 1) with (Z.of_nat (S k)) by lia.
        destruct (IH (S k) f ltac:(lia)) as [[-> Hall] | (i & Hi & -> & Hat & Hall)]; [by replace (hs + Z.of_nat (S k)) with (hs + Z.of_nat k + 1) by lia|..].
        * left. split; [done|]. intros [|j] Hj; [done|]. cbn [drop]. apply Hall. cbn in Hj. lia.
        * right. exists (S i). cbn [length drop]. split_and!; [lia|do 3 f_equal; lia|done|]. intros [|j] Hj; [done|]. apply Hall. lia. }
  destruct (Hgo str 0%nat (S (length m))) as [?|(k & ?)]; [pose proof (cstring_length _ _ _ Hs); lia|by rewrite Z.add_0_r|by left|right; by exists k].
Qed.

(** ** Bounded strings *)

(** The characters in front of the first NUL, of which there need not be one. *)
Definition c_text (m : list Z) : list Z := fst (span (fun c => negb (c =? 0)) m).
Lemma c_text_split m : exists post, m = c_text m ++ post /\ nonul (c_text m) /\ (post = [] \/ exists q, post = 0 :: q).
Proof.
  unfold c_text. exists (snd (span (fun c => negb (c =? 0)) m)). rewrite span_app. split; [done|]. split.
  - eapply List.Forall_impl; [|apply span_fst_all]. intros c Hc%negb_true_iff. by apply Z.eqb_neq.
  - destruct (snd _) as [|c q] eqn:E; [by left|right]. exists q. apply span_snd_head, negb_false_iff, Z.eqb_eq in E. by subst c.
Qed.
Lemma c_text_cstring u q : cstring (u ++ 0 :: q) 0 (c_text u).
Proof.
  destruct (c_text_split u) as (post & Hu & Hn & Hp). destruct Hp as [-> | [r ->]].
  - exists [], q. rewrite app_nil_r in Hu. by rewrite Hu at 1.
  - exists [], (r ++ 0 :: q). rewrite Hu at 1. by rewrite <- app_assoc.
Qed.
Lemma c_text_nonul u : nonul u -> c_text u = u.
Proof.
  intros Hu. unfold c_text. rewrite span_all; [done|]. eapply List.Forall_impl; [|exact Hu]. intros c Hc. by rewrite (proj2 (Z.eqb_neq c 0) Hc).
Qed.

(** strnlen counts the characters, and no more than it was told. *)
Lemma strnlen_ok m n : 0 <= n <= zlen m -> strnlen m 0 n = Ok (Z.min n (zlen (c_text m))).
Proof.
  intros Hn. destruct (c_text_split m) as (post & Hm & Ht & Hp). unfold strnlen.
  enough (Hg : forall r d fuel, m = d ++ r ++ post -> nonul r -> zlen d <= n -> (length r < fuel)%nat ->
            strnlen_loop fuel m 0 n (zlen d) = Ok (Z.min n (zlen d + zlen r))).
  { apply (Hg (c_text m) [] (S (S (length m)))); [done|done|change (zlen (@nil Z)) with 0; lia|]. assert (length (c_text m) <= length m)%nat by (rewrite Hm at 2; rewrite length_app; lia). lia. }
  clear Hm Ht. induction r as [|c r IH]; intros d [|f] Hm Hr Hd Hf; cbn [length] in Hf; try lia; cbn [strnlen_loop].
  - change (zlen (@nil Z)) with 0. destruct (Z.ltb_spec (zlen d) n) as [Hl|Hl]; [|f_equal; lia]. cbn [app] in Hm.
    destruct Hp as [-> | [q ->]]; [rewrite Hm, app_nil_r in Hn; lia|]. rewrite Hm, rd_app_at, bind_Ok by lia. cbn. f_equal. lia.
  - apply Forall_cons_1 in Hr as [Hc Hr']. destruct (Z.ltb_spec (zlen d) n) as [Hl|Hl]; [|f_equal; zlia].
    assert (Hrd : rd m (0 + zlen d) = Ok c) by (rewrite Hm; by apply rd_app_at). rewrite Hrd, bind_Ok, (proj2 (Z.eqb_neq c 0) Hc).
    replace (zlen d + 1) with (zlen (d ++ [c])) by zlia. rewrite IH; [f_equal; zlia|by rewrite <- app_assoc|done|zlia|lia].
Qed.

(** The part in front of the last character of a kind, and that character. *)
Fixpoint upto_last (p : Z -> bool) (l : list Z) : option (list Z * Z) :=
  match l with
  | [] => None
  | c :: l => match upto_last p l with Some (d, x) => Some (c :: d, x) | None => if p c then Some ([], c) else None end
  end.
Lemma upto_last_snoc p l c : upto_last p (l ++ [c]) = if p c then Some (l, c) else upto_last p l.
Proof. induction l as [|x l IH]; cbn [app upto_last]; [done|]. rewrite IH. by destruct (p c). Qed.
Lemma upto_last_some p l d x : upto_last p l = Some (d, x) -> p x = true /\ exists q, l = d ++ x :: q.
Proof.
  revert d. induction l as [|c l IH]; cbn [upto_last]; [done|]. intros d. destruct (upto_last p l) as [[d' x']|].
  - intros [= <- <-]. destruct (IH d' eq_refl) as [Hx [q ->]]. split; [done|by exists q].
  - destruct (p c) eqn:E; [|done]. intros [= <- <-]. split; [done|by exists l].
Qed.
Lemma upto_last_none p l c q : Forall (fun x => p x = false) q -> p c = true -> upto_last p (l ++ c :: q) = Some (l, c).
Proof.
  intros Hq Hc. rewrite app_cons_snoc. revert Hq. induction q as [|x q IH] using rev_ind; intros Hq; [by rewrite app_nil_r, upto_last_snoc, Hc|].
  apply Forall_app in Hq as [Hq Hx]. rewrite app_assoc, upto_last_snoc. apply Forall_cons_1 in Hx as [-> _]. by apply IH.
Qed.
Lemma upto_last_absent p l : Forall (fun x => p x = false) l -> upto_last p l = None.
Proof. induction 1 as [|c l Hc _ IH]; [done|]. cbn. by rewrite IH, Hc. Qed.

(** ** Slashes *)
Fixpoint translated (l : list Z) : list Z :=
  match l with
  | [] => []
  | c :: l1 =>
      if c =? 92 then 47 :: match l1 with d :: l2 => if d =? 92 then translated l2 else translated l1 | [] => [] end
      else c :: translated l1
  end.
Lemma translated_cons c l : translated (c :: l) =
  if c =? 92 then 47 :: match l with d :: l2 => if d =? 92 then translated l2 else translated l | [] => [] end else c :: translated l.
Proof. done. Qed.

Lemma translated_length k : forall l, (length l <= k)%nat -> (length (translated l) <= length l)%nat.
Proof.
  induction k as [|k IH]; intros [|c l] Hk; cbn [length] in *; try lia; [done|done|]. rewrite translated_cons.
  destruct (c =? 92); cbn [length]; [|pose proof (IH l); lia]. destruct l as [|d l]; cbn [length] in *; [lia|].
  destruct (d =? 92); [pose proof (IH l); lia|pose proof (IH (d :: l)); cbn [length] in *; lia].
Qed.
Lemma translated_nonul k : forall l, (length l <= k)%nat -> nonul l -> nonul (translated l).
Proof.
  induction k as [|k IH]; intros [|c l] Hk Hl; cbn [length] in *; try lia; [constructor..|]. inversion Hl; subst. rewrite translated_cons.
  destruct (c =? 92); [|constructor; [done|apply IH; [lia|done]]]. constructor; [done|]. destruct l as [|d l]; [constructor|]. cbn [length] in *.
  destruct (d =? 92); [apply IH; [lia|by inversion H2]|apply IH; [cbn; lia|done]].
Qed.

Lemma translate_loop_ok k : forall fuel p d old q m str l i, (length l <= k)%nat -> (length l < fuel)%nat ->
  cstring m (str + i) l -> length old = S (length (translated l)) ->
  translate_slashes_loop fuel (p ++ d ++ old ++ q) (zlen p) m str i (zlen d) = Ok (p ++ (d ++ translated l) ++ 0 :: q).
Proof.
  assert (Hput : forall p d o old q b, wr (p ++ d ++ (o :: old) ++ q) (zlen p + zlen d) b = Ok (p ++ (d ++ [b]) ++ old ++ q)).
  { intros. rewrite (app_assoc p). cbn [app]. rewrite wr_app_at by zlia. by rewrite <- !app_assoc. }
  assert (Hlen : forall (d : list Z) b, zlen d + 1 = zlen (d ++ [b])) by (intros; zlia).
  induction k as [|k IH]; intros [|f] p d old q m str l i Hk Hf Hm Ho; try lia; cbn [translate_slashes_loop].
  { destruct l; [|cbn in Hk; lia]. rewrite (cstring_nil _ _ Hm), bind_Ok. destruct old as [|o [|]]; try discriminate Ho. rewrite Hput. cbn. by rewrite <- app_assoc, app_nil_r. }
  destruct l as [|c l].
  { rewrite (cstring_nil _ _ Hm), bind_Ok. destruct old as [|o [|]]; try discriminate Ho. rewrite Hput. cbn. by rewrite <- app_assoc, app_nil_r. }
  cbn [length] in *. apply cstring_cons in Hm as (Hc & -> & Hm). rewrite <- Z.add_assoc in Hm. rewrite bind_Ok, (proj2 (Z.eqb_neq c 0) Hc).
  rewrite translated_cons in *. destruct old as [|o old]; [discriminate Ho|]. destruct (c =? 92) eqn:E.
  - rewrite Hput, bind_Ok, (Hlen d 47). injection Ho as Ho. destruct l as [|d2 l2].
    + rewrite (cstring_nil _ _ Hm), bind_Ok. cbn [Z.eqb]. change (0 =? 92) with false. cbv iota. rewrite (IH f p (d ++ [47]) old q m str [] (i + 1)); [|cbn; lia|cbn in *; lia|done|done].
      cbn. by rewrite app_nil_r.
    + pose proof Hm as (Hd & -> & Hm2)%cstring_cons. rewrite bind_Ok. rewrite <- Z.add_assoc in Hm2. cbn [length] in *. destruct (d2 =? 92) eqn:E2.
      * replace (i + (1 + 1)) with (i + 2) in Hm2 by lia. rewrite (IH f p (d ++ [47]) old q m str l2 (i + 2)); [|lia|lia|by rewrite <- Z.add_assoc in Hm2 || done|done].
        by rewrite <- !app_assoc.
      * rewrite (IH f p (d ++ [47]) old q m str (d2 :: l2) (i + 1)); [|cbn; lia|cbn; lia|done|done]. by rewrite <- !app_assoc.
  - rewrite Hput, bind_Ok, (Hlen d c). injection Ho as Ho. rewrite (IH f p (d ++ [c]) old q m str l (i + 1)); [|lia|lia|done|done]. by rewrite <- !app_assoc.
Qed.

(** translate_slashes writes the translation and its NUL and nothing else. *)
Lemma translate_slashes_ok p old q m str l : cstring m str l -> length old = S (length (translated l)) ->
  translate_slashes (p ++ old ++ q) (zlen p) m str = Ok (p ++ translated l ++ 0 :: q).
Proof.
  intros Hm Ho. unfold translate_slashes. pose proof (cstring_length _ _ _ Hm).
  apply (translate_loop_ok (length l) (S (length m)) p [] old q m str l 0); [done|lia|by rewrite Z.add_0_r|done].
Qed.
