(* ===== verification/Netboot.v ===== *)
(** * netboot.c: where the next image is on the network

    When shim was started over PXE, the DHCP packets that the firmware kept say
    where shim came from; the next image is taken from the same directory of the
    same server.  The packets come from the network: what is done with them has to
    be safe for all of them.

    The fields of the packets are lists of bytes of the sizes they have in
    EFI_PXE_BASE_CODE_MODE.  str2ip6 writes NULs into the text it parses and takes
    them back; that is modelled.  Messages are left out. *)
From stdpp Require Import base list numbers option strings.
From Stdlib Require Import ZArith Lia.
From S2P Require Import Prelude.
From S2P Require Import Efi.
From S2P Require Import Str.
From S2P Require Import StrLib.
Local Open Scope Z_scope.

Definition EFI_NOT_READY : EFI_STATUS := EFI_OTHER_ERROR 6.
Definition EFI_WRITE_PROTECTED : EFI_STATUS := EFI_OTHER_ERROR 8.
Definition COLON : Z := 58.
Definition SLASH : Z := 47.
Definition BACKSLASH : Z := 92.

(** ** The firmware's record of the boot *)
Record dhcp4 : Type := { BootpSiAddr : list Z; BootpBootFile : list Z }.
Record pxe_mode : Type := {
  Started : bool;
  DhcpAckReceived : bool;
  ProxyOfferReceived : bool;
  PxeReplyReceived : bool;
  UsingIpv6 : bool;
  DhcpAck : dhcp4;
  ProxyOffer : dhcp4;
  PxeReply : dhcp4;
  DhcpOptions : list Z
}.

(** The static variables: pxe, tftp_addr and full_path. *)
Record net : Type := {
  n_pxe : option pxe_mode;
  n_tftp_addr : list Z;
  n_full_path : option (list Z)
}.

(** [answer]: the status of HandleProtocol and, if there is one, the mode. *)
Definition findNetboot (answer : EFI_STATUS * option pxe_mode) (n : net) : bool * net :=
  let set p := {| n_pxe := p; n_tftp_addr := n_tftp_addr n; n_full_path := n_full_path n |} in
  if EFI_ERROR answer.1 then (false, set None)
  else
    match answer.2 with
    | None => (false, set None)
    | Some m => if negb (Started m) || negb (DhcpAckReceived m) then (false, set None) else (true, set (Some m))
    end.

(** ** DHCPv6 *)
Definition rd_be16 (m : list Z) (i : Z) : res Z := hi ← rd m i; lo ← rd m (i + 1); Ok (hi * 256 + lo).

(** The loop over the options; [alloc] is the memory for the URL. *)
Fixpoint bootfile_url_loop (fuel : nat) (alloc : bool) (o : list Z) (optr : Z) : res (option (list Z)) :=
  match fuel with
  | O => NoFuel
  | S f =>
      OpCode ← rd_be16 o optr;
      if OpCode =? 0 then Ok None
      else if OpCode =? 59 then
        urllen ← rd_be16 o (optr + 2);
        if zlen o <? optr + 4 + urllen then Ok None
        else if negb alloc then Ok None
        else url ← rdn o (optr + 4) urllen; Ok (Some (url ++ [0]))
      else
        len ← rd_be16 o (optr + 2);
        let optr := optr + (4 + len) in
        if zlen o <? optr + 6 then Ok None else bootfile_url_loop f alloc o optr
  end.
Definition get_v6_bootfile_url (alloc : bool) (o : list Z) : res (option (list Z)) := bootfile_url_loop (S (length o)) alloc o 0.

(** ** IPv6 addresses *)
Definition htons (x : Z) : Z := x mod 256 * 256 + x / 256.
Definition hex_nibble (c : Z) : Z :=
  if (48 <=? c) && (c <=? 57) then c - 48
  else if (65 <=? c) && (c <=? 70) then c - 65 + 10
  else if (97 <=? c) && (c <=? 102) then c - 97 + 10 else 0.
Fixpoint str2ns_loop (fuel : nat) (m : list Z) (str ret : Z) : res Z :=
  match fuel with
  | O => NoFuel
  | S f => c ← rd m str; if c =? 0 then Ok (htons ret) else str2ns_loop f m (str + 1) (u16 (Z.shiftl ret 4 + hex_nibble c))
  end.
Definition str2ns (m : list Z) (str : Z) : res Z := str2ns_loop (S (length m)) m str 0.

(** The number of colons. *)
Fixpoint count_colons (fuel : nat) (m : list Z) (a dotcount : Z) : res Z :=
  match fuel with
  | O => NoFuel
  | S f => c ← rd m a; if c =? 0 then Ok dotcount else count_colons f m (a + 1) (if c =? COLON then dotcount + 1 else dotcount)
  end.

(** The second loop: [false] when the address is refused. *)
Definition ip6_char (c : Z) : bool := negb ((c <? 48) || (57 <? c) && (c <? 65) || (70 <? c) && (c <? 97) || (102 <? c)).
Fixpoint check_chars (fuel : nat) (m : list Z) (i len : Z) (double_colon_found : bool) : res bool :=
  match fuel with
  | O => NoFuel
  | S f =>
      if negb (i <? len) then Ok true
      else
        c ← rd m i;
        if c =? COLON then
          next ← (if i + 1 <? u8 len then d ← rd m (i + 1); Ok (d =? COLON) else Ok false);
          if next : bool then if double_colon_found then Ok false else check_chars f m (u8 (i + 1)) len true
          else check_chars f m (u8 (i + 1)) len double_colon_found
        else if negb (ip6_char c) then Ok false else check_chars f m (u8 (i + 1)) len double_colon_found
  end.

(** The groups from the front, up to two colons: the array, and where the loop
    stopped ([i], [p], [a]). *)
Fixpoint front_groups (fuel : nat) (m : list Z) (len i p a b : Z) (ip : list Z) : res (list Z * Z * Z * Z) :=
  match fuel with
  | O => NoFuel
  | S f =>
      if negb (i <? len) then Ok (ip, i, p, a)
      else
        c ← rd m b;
        if negb (c =? COLON) then front_groups f m len (u8 (i + 1)) p a (b + 1) ip
        else
          m1 ← wr m b 0;
          v ← str2ns m1 a;
          ip ← wr ip p v;
          m2 ← wr m1 b COLON;
          d ← rd m2 (b + 1);
          if d =? COLON then Ok (ip, i, u8 (p + 1), b + 1) else front_groups f m2 len (u8 (i + 1)) (u8 (p + 1)) (b + 1) (b + 1) ip
  end.
(** The groups from the back. *)
Fixpoint back_groups (fuel : nat) (m : list Z) (i j p a b : Z) (ip : list Z) : res (list Z) :=
  match fuel with
  | O => NoFuel
  | S f =>
      if negb (i <? j) then Ok ip
      else
        c ← rd m a;
        if negb (c =? COLON) then back_groups f m i (j - 1) p (a - 1) b ip
        else
          t ← rd m b;
          m1 ← wr m b 0;
          v ← str2ns m1 (a + 1);
          ip ← wr ip p v;
          m2 ← wr m1 b t;
          back_groups f m2 i (j - 1) (u8 (p - 1)) (a - 1) a ip
  end.

(** The eight groups, in network byte order. *)
Definition str2ip6 (m : list Z) : res (list Z) :=
  let ip := replicate 8 0 in
  dotcount ← count_colons (S (length m)) m 0 0;
  if 7 <? dotcount then Ok ip
  else
    len ← strlen m 0;
    ok ← check_chars (S (length m)) m 0 len false;
    if negb ok then Ok ip
    else
      '(ip, i, p, a) ← front_groups (S (length m)) m len 0 0 0 0 ip;
      if i =? len then v ← str2ns m a; wr ip p v
      else back_groups (S (length m)) m i (u8 len) 7 len len ip.

(** ** The URL of the boot file *)
Definition TFTP : list Z := [116; 102; 116; 112; 58; 47; 47; 0].
Fixpoint server_end (fuel : nat) (url : list Z) (start end_ : Z) : res (option Z) :=
  match fuel with
  | O => NoFuel
  | S f =>
      c ← rd url end_;
      if (c =? 0) || (c =? 93) then Ok (Some end_)
      else if 40 <=? end_ + 1 - start then Ok None else server_end f url start (end_ + 1)
  end.

(** The template: name with its backslashes turned. *)
Definition make_template (name : list Z) : res (list Z) :=
  len ← strlen name 0; translate_slashes (replicate (Z.to_nat (len + 2)) 0) 0 name 0.

Definition extract_tftp_info (path_alloc : bool) (url name : list Z) (n : net) : res (bool * net) :=
  template ← make_template name;
  d ← strncmp url 0 TFTP 0 7;
  if negb (d =? 0) then Ok (false, n)
  else
    c ← rd url 7;
    if negb (c =? 91) then Ok (false, n)
    else
      r ← server_end (S (length url)) url 8 8;
      match r with
      | None => Ok (false, n)
      | Some end_ =>
          c ← rd url end_;
          if c =? 0 then Ok (false, n)
          else
            server ← rdn url 8 (end_ - 8);
            ip6str ← wrn (replicate 40 0) 0 server;
            ip ← str2ip6 ip6str;
            let addr := concat (map (le_split 2) ip) in
            let n := {| n_pxe := n_pxe n; n_tftp_addr := addr; n_full_path := n_full_path n |} in
            if bool_decide (addr = replicate 16 0) then Ok (false, n)
            else
              plen ← strlen url (end_ + 1);
              tlen ← strlen template 0;
              let set p := {| n_pxe := n_pxe n; n_tftp_addr := addr; n_full_path := p |} in
              if negb path_alloc then Ok (false, set None)
              else
                path ← rdn url (end_ + 1) plen;
                full_path ← wrn (replicate (Z.to_nat (plen + tlen + 1)) 0) 0 path;
                last ← strrchr full_path 0 SLASH;
                let e := default 0 last in
                t ← rdn template 0 tlen;
                full_path ← wrn full_path e t;
                full_path ← wr full_path (e + tlen) 0;
                Ok (true, set (Some full_path))
      end.

Definition parseDhcp6 (url_alloc path_alloc : bool) (name : list Z) (m : pxe_mode) (n : net) : res (EFI_STATUS * net) :=
  url ← get_v6_bootfile_url url_alloc (DhcpOptions m);
  match url with
  | None => Ok (EFI_NOT_FOUND, n)
  | Some url => '(ok, n) ← extract_tftp_info path_alloc url name n; Ok (if ok : bool then EFI_SUCCESS else EFI_NOT_FOUND, n)
  end.

(** ** DHCPv4 *)
Definition boot_packet (m : pxe_mode) : res dhcp4 :=
  pkt ← (if ProxyOfferReceived m then
           c ← rd (BootpBootFile (DhcpAck m)) 0; Ok (if c =? 0 then ProxyOffer m else DhcpAck m)
         else Ok (DhcpAck m));
  if PxeReplyReceived m then
    c ← rd (BootpBootFile pkt) 0;
    if c =? 0 then r ← rd (BootpBootFile (PxeReply m)) 0; Ok (if negb (r =? 0) then PxeReply m else pkt) else Ok pkt
  else Ok pkt.

(** The loop from [i] down: the length of the directory with its separator. *)
Fixpoint dir_length (k : nat) (dir : list Z) (i : Z) : res Z :=
  match k with
  | O => Ok 0
  | S k => c ← rd dir i; if (c =? SLASH) || (c =? BACKSLASH) then Ok (i + 1) else dir_length k dir (i - 1)
  end.

Definition parseDhcp4 (path_alloc : bool) (name : list Z) (m : pxe_mode) (n : net) : res (EFI_STATUS * net) :=
  template ← make_template name;
  tlen ← strlen template 0;
  let template_len := tlen + 1 in
  pkt ← boot_packet m;
  let dir := BootpBootFile pkt in
  flen ← strnlen dir 0 127;
  dir_len ← dir_length (S (Z.to_nat flen)) dir flen;
  let set p a := {| n_pxe := n_pxe n; n_tftp_addr := a; n_full_path := p |} in
  if negb path_alloc then Ok (EFI_OUT_OF_RESOURCES, set None (n_tftp_addr n))
  else
    let full_path := replicate (Z.to_nat (dir_len + template_len)) 0 in
    '(full_path, template) ←
      (if 0 <? dir_len then
         full_path ← strncpy full_path 0 dir 0 dir_len;
         c ← rd full_path (dir_len - 1); t ← rd template 0;
         full_path ← (if (c =? SLASH) && (t =? SLASH) then wr full_path (dir_len - 1) 0 else Ok full_path);
         c ← rd full_path (dir_len - 1); t ← rd template 0;
         if (c =? BACKSLASH) && (t =? SLASH) then
           full_path ← wr full_path (dir_len - 1) 0; template ← wr template 0 BACKSLASH; Ok (full_path, template)
         else Ok (full_path, template)
       else Ok (full_path, template));
    d ← rd dir 0; t ← rd template 0;
    let template_ofs := if (dir_len =? 0) && negb (d =? SLASH) && (t =? SLASH) then 1 else 0 in
    full_path ← strcat full_path 0 template template_ofs;
    si ← rdn (BootpSiAddr pkt) 0 4;
    Ok (EFI_SUCCESS, set (Some full_path) (si ++ drop 4 (n_tftp_addr n))).

Definition parseNetbootinfo (url_alloc path_alloc : bool) (netbootname : list Z) (n : net) : res (EFI_STATUS * net) :=
  match n_pxe n with
  | None => Ok (EFI_NOT_READY, n)
  | Some m =>
      let n := {| n_pxe := n_pxe n; n_tftp_addr := replicate 16 0; n_full_path := n_full_path n |} in
      if UsingIpv6 m then parseDhcp6 url_alloc path_alloc netbootname m n else parseDhcp4 path_alloc netbootname m n
  end.

(** ** The transfer *)
Definition status_from_error (error_code : Z) : EFI_STATUS :=
  if error_code =? 1 then EFI_NOT_FOUND
  else if (error_code =? 2) || (error_code =? 7) then EFI_ACCESS_DENIED
  else if error_code =? 3 then EFI_VOLUME_FULL
  else if error_code =? 4 then EFI_PROTOCOL_ERROR
  else if error_code =? 5 then EFI_INVALID_PARAMETER
  else if error_code =? 6 then EFI_WRITE_PROTECTED
  else EFI_TFTP_ERROR.

(** What Mtftp answers for a buffer of [*bufsiz] bytes: the status, the size it
    stores and the bytes of the file. *)
Record tftp_server : Type := {
  Mtftp : list Z -> option (list Z) -> Z -> EFI_STATUS * Z * list Z;
  TftpError : option Z
}.

(** The loop that doubles the buffer; [allocs] says which allocations succeed.
    The result is the status, the buffer ([None] is NULL or freed) and [*bufsiz]. *)
Fixpoint fetch_loop (allocs : list bool) (srv : tftp_server) (n : net) (bufsiz : Z) : res (EFI_STATUS * option (list Z) * Z) :=
  let '(efi_status, size, data) := Mtftp srv (n_tftp_addr n) (n_full_path n) bufsiz in
  if bool_decide (efi_status = EFI_BUFFER_TOO_SMALL) then
    match allocs with
    | [] => NoFuel
    | ok :: allocs => if ok : bool then fetch_loop allocs srv n (u64 (size * 2)) else Ok (EFI_OUT_OF_RESOURCES, None, u64 (size * 2))
    end
  else if EFI_ERROR efi_status then
    let efi_status := match TftpError srv with
                      | Some e => status_from_error e
                      | None => if bool_decide (efi_status = EFI_TFTP_ERROR) then EFI_NOT_FOUND else efi_status
                      end in
    Ok (efi_status, None, size)
  else Ok (efi_status, Some data, size).
(** [*buffer] is NULL in the beginning. *)
Definition FetchNetbootimage (allocs : list bool) (srv : tftp_server) (n : net) (bufsiz : Z) : res (EFI_STATUS * option (list Z) * Z) :=
  match allocs with
  | [] => NoFuel
  | ok :: allocs => if ok : bool then fetch_loop allocs srv n (4096 * 1024) else Ok (EFI_OUT_OF_RESOURCES, None, bufsiz)
  end.

(** ** What an address means *)

(** The groups between colons. *)
Fixpoint split_colon (l : list Z) : list (list Z) :=
  match l with
  | [] => [[]]
  | c :: l => if c =? COLON then [] :: split_colon l else match split_colon l with g :: gs => (c :: g) :: gs | [] => [[c]] end
  end.
(** The groups up to the first two colons, and what is behind them. *)
Fixpoint left_groups (cur rest : list Z) : list (list Z) * option (list Z) :=
  match rest with
  | [] => ([cur], None)
  | c :: rest =>
      if negb (c =? COLON) then left_groups (cur ++ [c]) rest
      else
        let go := let '(gs, o) := left_groups [] rest in (cur :: gs, o) in
        match rest with d :: r => if d =? COLON then ([cur], Some r) else go | [] => go end
  end.
Definition ns (g : list Z) : Z := htons (fold_left (fun r c => u16 (Z.shiftl r 4 + hex_nibble c)) g 0).
Definition colons (l : list Z) : nat := length (List.filter (fun c => c =? COLON) l).

(** Only digits and colons, and two colons in a row at most once. *)
Fixpoint chars_ok (found : bool) (s : list Z) : bool :=
  match s with
  | [] => true
  | c :: s =>
      if c =? COLON then
        match s with
        | d :: _ => if d =? COLON then if found then false else chars_ok true s else chars_ok found s
        | [] => true
        end
      else ip6_char c && chars_ok found s
  end.

Definition zeros (k : nat) : list Z := replicate k 0.
Definition ip6_groups (s : list Z) : list Z :=
  match left_groups [] s with
  | (gs, None) => map ns gs ++ zeros (8 - length gs)
  | (gs, Some r) => map ns gs ++ zeros (8 - length gs - length (split_colon r)) ++ map ns (split_colon r)
  end.
Definition ip6_spec (s : list Z) : list Z :=
  if (7 <? colons s)%nat || negb (chars_ok false s) then zeros 8 else ip6_groups s.

(** ** The loops of str2ip6 *)
Lemma str2ns_ok m s g : cstring m s g -> str2ns m s = Ok (ns g).
Proof.
  intros H. unfold str2ns, ns. assert (Hf : (length g < S (length m))%nat) by (pose proof (cstring_length _ _ _ H); lia).
  revert Hf H. generalize (S (length m)), 0 as r. revert s. induction g as [|c g IH]; intros s [|f] r Hf H; cbn [length] in Hf; try lia; cbn [str2ns_loop fold_left].
  - by rewrite (cstring_nil _ _ H).
  - apply cstring_cons in H as (Hc & -> & H). rewrite bind_Ok, (proj2 (Z.eqb_neq c 0) Hc). apply IH; [lia|done].
Qed.

Lemma colons_cons c l : colons (c :: l) = (if (c =? COLON)%Z then S (colons l) else colons l).
Proof. unfold colons. cbn [List.filter]. by destruct (c =? COLON). Qed.

Lemma count_colons_ok fuel m a s n : cstring m a s -> (length s < fuel)%nat -> count_colons fuel m a n = Ok (n + Z.of_nat (colons s)).
Proof.
  revert fuel a n. induction s as [|c s IH]; intros [|f] a n H Hf; cbn [length] in Hf; try lia; cbn [count_colons].
  - rewrite (cstring_nil _ _ H), bind_Ok. change (colons []) with 0%nat. cbn [Z.eqb Z.of_nat]. by rewrite Z.add_0_r.
  - apply cstring_cons in H as (Hc & -> & H). rewrite bind_Ok, (proj2 (Z.eqb_neq c 0) Hc), (IH f) by (done || lia). rewrite colons_cons.
    f_equal. destruct (c =? COLON); lia.
Qed.

Lemma check_chars_ok s q : nonul s -> forall p fuel found, (length s < fuel)%nat -> zlen p + zlen s < 256 ->
  check_chars fuel (p ++ s ++ 0 :: q) (zlen p) (zlen p + zlen s) found = Ok (chars_ok found s).
Proof.
  induction s as [|c s IH]; intros Hn p fuel found Hf Hl; (destruct fuel as [|f]; [cbn in Hf; lia|]); cbn [check_chars].
  - change (zlen (@nil Z)) with 0. rewrite Z.add_0_r, Z.ltb_irrefl. done.
  - inversion Hn as [|? ? Hc Hs]; subst. rewrite zlen_cons in *. pose proof (zlen_nonneg s). pose proof (zlen_nonneg p).
    rewrite (proj2 (Z.ltb_lt (zlen p) _)) by lia. cbn [negb app]. rewrite (rd_app_at p c _ (zlen p)), bind_Ok by done.
    assert (Hstep : forall found, check_chars f (p ++ c :: s ++ 0 :: q) (u8 (zlen p + 1)) (zlen p + (zlen s + 1)) found = Ok (chars_ok found s)).
    { intros fd. unfold u8. rewrite Z.mod_small by lia. rewrite app_cons_snoc. replace (zlen p + 1) with (zlen (p ++ [c])) by zlia.
      replace (zlen p + (zlen s + 1)) with (zlen (p ++ [c]) + zlen s) by zlia. cbn [length] in Hf. apply IH; [done|lia|zlia]. }
    assert (Hu : u8 (zlen p + (zlen s + 1)) = zlen p + (zlen s + 1)) by (unfold u8; apply Z.mod_small; lia).
    cbn [chars_ok]. rewrite Hu. destruct (c =? COLON) eqn:Ec.
    + destruct s as [|d s].
      * rewrite (proj2 (Z.ltb_ge (zlen p + 1) (zlen p + (zlen [] + 1)))) by zlia. rewrite bind_Ok. apply Hstep.
      * rewrite zlen_cons in *. pose proof (zlen_nonneg s). rewrite (proj2 (Z.ltb_lt (zlen p + 1) _)) by lia. rewrite app_cons_snoc. cbn [app].
        rewrite rd_app_at by zlia. rewrite !bind_Ok. rewrite <- (app_cons_snoc p c). destruct (d =? COLON); [destruct found; [done|]|]; apply Hstep.
    + destruct (ip6_char c); cbn [negb andb]; [apply Hstep|done].
Qed.

Lemma split_no_colon cur : Forall (fun c => c <> COLON) cur -> split_colon cur = [cur].
Proof. induction 1 as [|c cur Hc _ IH]; [done|]. cbn [split_colon]. by rewrite (proj2 (Z.eqb_neq c COLON) Hc), IH. Qed.
Lemma split_nonempty l : exists g gs, split_colon l = g :: gs.
Proof. destruct l as [|c l]; [by eexists _, _|]. cbn [split_colon]. destruct (c =? COLON); [by eexists _, _|]. destruct (split_colon l); by eexists _, _. Qed.
Lemma split_app x cur : split_colon (x ++ COLON :: cur) = split_colon x ++ split_colon cur.
Proof.
  induction x as [|c x IH]; [done|]. cbn [app split_colon]. rewrite IH. destruct (c =? COLON); [done|].
  destruct (split_nonempty x) as (g & gs & ->). done.
Qed.
Lemma split_length l : length (split_colon l) = S (colons l).
Proof.
  induction l as [|c l IH]; [done|]. cbn [split_colon]. rewrite colons_cons. destruct (c =? COLON); [cbn; by rewrite IH|].
  destruct (split_nonempty l) as (g & gs & E). rewrite E in *. done.
Qed.
Lemma colons_app a b : colons (a ++ b) = (colons a + colons b)%nat.
Proof. unfold colons. by rewrite List.filter_app, length_app. Qed.

(** A group that is cut off with a NUL is a string. *)
Lemma cut_group p g c q : nonul g -> cstring (p ++ g ++ 0 :: q) (zlen p) g /\ wr (p ++ g ++ c :: q) (zlen p + zlen g) 0 = Ok (p ++ g ++ 0 :: q).
Proof.
  intros Hg. split; [by exists p, q|]. rewrite (app_assoc p g (c :: q)), wr_app_at by zlia. by rewrite <- app_assoc.
Qed.

Lemma wr_zero_tail d k v i : i = zlen d -> wr (d ++ zeros (S k)) i v = Ok ((d ++ [v]) ++ zeros k).
Proof. intros ->. cbn [zeros replicate]. rewrite wr_app_at by done. f_equal. by rewrite <- app_assoc. Qed.
Lemma wr_last_zero d k v r i : i = zlen d + Z.of_nat k -> wr (d ++ zeros (S k) ++ r) i v = Ok (d ++ zeros k ++ v :: r).
Proof.
  intros ->. unfold zeros. rewrite replicate_S_end, <- app_assoc. cbn [app]. rewrite (app_assoc d).
  rewrite wr_app_at; [by rewrite <- !app_assoc|]. rewrite zlen_app. unfold zlen. rewrite length_replicate. lia.
Qed.

Lemma back_groups_ok x : forall pre cur t q d k r fuel, nonul (x ++ cur) -> Forall (fun c => c <> COLON) cur -> (colons x <= k)%nat ->
  (length x < fuel)%nat -> (length d + k <= 8)%nat ->
  let a := zlen pre + zlen x - 1 in
  back_groups fuel (pre ++ x ++ cur ++ t :: q) (zlen pre - 1) a (u8 (zlen d + Z.of_nat k - 1)) a (a + 1 + zlen cur) (d ++ zeros k ++ r) =
  Ok (d ++ zeros (k - colons x) ++ map ns (tail (split_colon (x ++ cur))) ++ r).
Proof.
  induction x as [|c x IH] using rev_ind; intros pre cur t q d k r fuel Hn Hcur Hk Hf Hd a; (destruct fuel as [|f]; [cbn in Hf; lia|]); cbn [back_groups].
  - unfold a. change (zlen (@nil Z)) with 0. rewrite Z.add_0_r, Z.ltb_irrefl. cbn [negb app]. rewrite (split_no_colon cur Hcur). cbn [tail map app].
    change (colons []) with 0%nat. by rewrite Nat.sub_0_r.
  - assert (Ha : a = zlen (pre ++ x)) by (unfold a; zlia). rewrite length_app in Hf. cbn [length] in Hf. pose proof (zlen_nonneg x).
    rewrite (proj2 (Z.ltb_lt (zlen pre - 1) a)) by (rewrite Ha; zlia). cbn [negb].
    assert (Hm : pre ++ (x ++ [c]) ++ cur ++ t :: q = (pre ++ x) ++ c :: cur ++ t :: q) by (by rewrite <- !app_assoc).
    rewrite Hm, (rd_app_at (pre ++ x) c _ a), bind_Ok by done. rewrite <- app_assoc in Hn. cbn [app] in Hn. apply Forall_app in Hn as [Hnx Hnc].
    inversion Hnc as [|? ? Hc0 Hncur]; subst. rewrite colons_app in *. destruct (c =? COLON) eqn:Ec; bool_to_prop; cbn [negb].
    + subst c. change (colons [COLON]) with 1%nat in *. destruct k as [|k]; [lia|].
      assert (Hrd : rd ((pre ++ x) ++ COLON :: cur ++ t :: q) (a + 1 + zlen cur) = Ok t).
      { rewrite app_cons_snoc, (app_assoc _ cur). apply rd_app_at. rewrite Ha. zlia. }
      rewrite Hrd, bind_Ok. destruct (cut_group ((pre ++ x) ++ [COLON]) cur t q Hncur) as [Hstr Hwr].
      rewrite (app_cons_snoc (pre ++ x) COLON). replace (a + 1 + zlen cur) with (zlen ((pre ++ x) ++ [COLON]) + zlen cur) by (rewrite Ha; zlia).
      rewrite Hwr, bind_Ok. replace (a + 1) with (zlen ((pre ++ x) ++ [COLON])) by (rewrite Ha; zlia). rewrite (str2ns_ok _ _ _ Hstr), bind_Ok.
      assert (Hp : u8 (zlen d + Z.of_nat (S k) - 1) = zlen d + Z.of_nat k) by (unfold u8; rewrite Z.mod_small; unfold zlen in *; lia).
      rewrite Hp, wr_last_zero, bind_Ok by done. rewrite (app_assoc _ cur), wr_app_at by zlia. rewrite bind_Ok.
      replace (a - 1) with (zlen pre + zlen x - 1) by (rewrite Ha; zlia).
      replace (((pre ++ x) ++ [COLON]) ++ cur) with (pre ++ x ++ [] ++ COLON :: cur) by (by rewrite <- !app_assoc). rewrite <- !app_assoc. cbn [app].
      replace a with (zlen pre + zlen x - 1 + 1 + zlen (@nil Z)) by (rewrite Ha; zlia).
      pose proof (IH pre [] COLON (cur ++ t :: q) d k (ns cur :: r) f) as HI. cbn [app] in HI. rewrite HI; [|by rewrite app_nil_r|done|lia|lia|lia].
      rewrite app_nil_r, split_app, (split_no_colon cur Hcur). destruct (split_nonempty x) as (g & gs & ->). cbn [app tail]. rewrite map_app, <- !app_assoc.
      do 3 f_equal. replace (S k - (colons x + 1))%nat with (k - colons x)%nat by lia. done.
    + assert (Hc1 : colons [c] = 0%nat) by (rewrite colons_cons, (proj2 (Z.eqb_neq _ _) Ec); done). rewrite Hc1, Nat.add_0_r in *.
      replace (a - 1) with (zlen pre + zlen x - 1) by (rewrite Ha; zlia). replace (a + 1 + zlen cur) with (zlen pre + zlen x - 1 + 1 + zlen (c :: cur)) by (rewrite Ha; zlia).
      rewrite <- (app_assoc pre x). pose proof (IH pre (c :: cur) t q d k r f) as HI. cbn [app] in HI. rewrite HI; [by rewrite <- app_assoc| |by constructor|lia|lia|lia].
      apply Forall_app. split; [done|by constructor].
Qed.

Section front.
Context (q : list Z).

(** What follows the first loop. *)
Definition after_front (m : list Z) (len : Z) (r : list Z * Z * Z * Z) : res (list Z) :=
  let '(ip, i, p, a) := r in
  if i =? len then v ← str2ns m a; wr ip p v else back_groups (S (length m)) m i (u8 len) 7 len len ip.

Lemma back_from_end pre cur r d : nonul (pre ++ cur ++ COLON :: COLON :: r) -> (length d + colons r <= 5)%nat ->
  let m := pre ++ cur ++ COLON :: COLON :: r ++ 0 :: q in let len := zlen pre + zlen cur + zlen (COLON :: COLON :: r) in len < 256 ->
  after_front m len ((d ++ [ns cur]) ++ zeros (7 - length d), zlen pre + zlen cur, u8 (zlen d + 1), zlen pre + zlen cur + 1) =
  Ok ((d ++ [ns cur]) ++ zeros (7 - length d - length (split_colon r)) ++ map ns (split_colon r)).
Proof.
  intros Hn Hd m len Hlen. pose proof (zlen_nonneg r). pose proof (zlen_nonneg pre). pose proof (zlen_nonneg cur). unfold after_front.
  rewrite (proj2 (Z.eqb_neq (zlen pre + zlen cur) len)) by (unfold len; zlia). cbn [back_groups].
  assert (Hu : u8 len = len) by (unfold u8; apply Z.mod_small; unfold len in *; rewrite !zlen_cons in *; lia). rewrite Hu.
  rewrite (proj2 (Z.ltb_lt (zlen pre + zlen cur) len)) by (unfold len; zlia). cbn [negb].
  assert (Hm : m = (pre ++ cur ++ [COLON]) ++ (COLON :: r) ++ [] ++ 0 :: q) by (unfold m; rewrite <- !app_assoc; done).
  assert (Hrd : rd m len = Ok 0).
  { rewrite Hm. cbn [app]. rewrite app_comm_cons, app_assoc. apply rd_app_at. unfold len. zlia. }
  rewrite Hrd, bind_Ok. cbn [negb]. change (0 =? COLON) with false. cbn [negb].
  rewrite Hm at 2. replace (zlen pre + zlen cur) with (zlen (pre ++ cur ++ [COLON]) - 1) by zlia.
  assert (Hk : (length (d ++ [ns cur]) + (7 - length d) = 8)%nat) by (rewrite length_app; cbn; lia).
  replace (len - 1) with (zlen (pre ++ cur ++ [COLON]) + zlen (COLON :: r) - 1) by (unfold len; zlia).
  replace len with (zlen (pre ++ cur ++ [COLON]) + zlen (COLON :: r) - 1 + 1 + zlen (@nil Z)) by (unfold len; zlia).
  replace 7 with (u8 (zlen (d ++ [ns cur]) + Z.of_nat (7 - length d) - 1)) at 1 by (unfold u8, zlen; rewrite Z.mod_small; lia).
  assert (Hcr : colons (COLON :: r) = S (colons r)) by done.
  pose proof (back_groups_ok (COLON :: r) (pre ++ cur ++ [COLON]) [] 0 q (d ++ [ns cur]) (7 - length d) [] (length m)) as HB. cbv zeta in HB.
  rewrite (app_nil_r (zeros (7 - length d))) in HB. rewrite HB.
  - rewrite app_nil_r. cbn [split_colon Z.eqb]. change (COLON =? COLON) with true. cbv iota. cbn [tail]. rewrite app_nil_r, Hcr, split_length. done.
  - rewrite app_nil_r. rewrite !app_assoc in Hn. rewrite app_cons_snoc in Hn. by apply Forall_app in Hn as [_ ?].
  - constructor.
  - lia.
  - unfold m. rewrite !length_app. cbn [length]. rewrite length_app. cbn [length]. lia.
  - lia.
Qed.

Lemma front_groups_ok rest : forall pre cur d fuel, nonul (pre ++ cur ++ rest) -> Forall (fun c => c <> COLON) cur ->
  (length d + colons rest <= 7)%nat -> (length rest < fuel)%nat ->
  let m := pre ++ cur ++ rest ++ 0 :: q in let len := zlen pre + zlen cur + zlen rest in let b := zlen pre + zlen cur in len < 256 ->
  (r ← front_groups fuel m len b (zlen d) (zlen pre) b (d ++ zeros (8 - length d)); after_front m len r) =
  Ok (d ++ match left_groups cur rest with
           | (gs, None) => map ns gs ++ zeros (8 - length d - length gs)
           | (gs, Some r) => map ns gs ++ zeros (8 - length d - length gs - length (split_colon r)) ++ map ns (split_colon r)
           end).
Proof.
  induction rest as [|c rest IH]; intros pre cur d fuel Hn Hcur Hd Hf m len b Hlen; (destruct fuel as [|f]; [cbn in Hf; lia|]); cbn [front_groups].
  - change (colons []) with 0%nat in Hd. assert (Hbl : b = len) by (unfold b, len; zlia). rewrite Hbl, Z.ltb_irrefl. cbn [negb]. rewrite bind_Ok.
    unfold after_front. rewrite Z.eqb_refl. rewrite app_nil_r in Hn. apply Forall_app in Hn as [_ Hn].
    rewrite (str2ns_ok m (zlen pre) cur) by (exists pre, q; done). rewrite bind_Ok. replace (8 - length d)%nat with (S (7 - length d)) by lia.
    rewrite wr_zero_tail by done. cbn [left_groups map length]. rewrite <- !app_assoc. cbn [app]. do 4 f_equal. lia.
  - pose proof (zlen_nonneg rest). pose proof (zlen_nonneg pre). pose proof (zlen_nonneg cur). cbn [length] in Hf.
    assert (Hb : b < len) by (unfold b, len; zlia). rewrite (proj2 (Z.ltb_lt b len) Hb). cbn [negb].
    assert (Hu : u8 (b + 1) = b + 1) by (unfold u8; apply Z.mod_small; lia). rewrite Hu.
    assert (Hm : m = (pre ++ cur) ++ c :: rest ++ 0 :: q) by (unfold m; by rewrite <- app_assoc).
    assert (Hbz : b = zlen (pre ++ cur)) by (unfold b; zlia).
    assert (Hrd : rd m b = Ok c) by (rewrite Hm; by apply rd_app_at). rewrite Hrd, bind_Ok. rewrite colons_cons in Hd. cbn [left_groups].
    destruct (c =? COLON) eqn:Ec; cbn [negb].
    + apply Z.eqb_eq in Ec. subst c. assert (Hncur : nonul cur) by (apply Forall_app in Hn as [_ Hn]; by apply Forall_app in Hn as [Hn _]).
      destruct (cut_group pre cur COLON (rest ++ 0 :: q) Hncur) as [Hstr Hwr]. fold b in Hwr.
      change (wr m b 0 = Ok (pre ++ cur ++ 0 :: rest ++ 0 :: q)) in Hwr. rewrite Hwr, bind_Ok, (str2ns_ok _ _ _ Hstr), bind_Ok. replace (8 - length d)%nat with (S (7 - length d)) by lia.
      rewrite wr_zero_tail, bind_Ok by done. rewrite (app_assoc pre), wr_app_at by done. rewrite <- Hm, bind_Ok.
      assert (Hp : u8 (zlen d + 1) = zlen (d ++ [ns cur])) by (unfold u8; rewrite Z.mod_small; unfold zlen; rewrite ?length_app; cbn; lia).
      assert (Hgo : (r ← front_groups f m len (b + 1) (u8 (zlen d + 1)) (b + 1) (b + 1) ((d ++ [ns cur]) ++ zeros (7 - length d)); after_front m len r) =
        Ok (d ++ match (let '(gs, o) := left_groups [] rest in (cur :: gs, o)) with
           | (gs, None) => map ns gs ++ zeros (S (7 - length d) - length gs)
           | (gs, Some r) => map ns gs ++ zeros (S (7 - length d) - length gs - length (split_colon r)) ++ map ns (split_colon r)
           end)).
      { rewrite Hp. pose proof (IH (pre ++ cur ++ [COLON]) [] (d ++ [ns cur]) f) as HI. cbv zeta in HI.
        assert (Hl8 : (8 - length (d ++ [ns cur]) = 7 - length d)%nat) by (rewrite length_app; cbn; lia). rewrite Hl8 in HI.
        assert (Hm' : (pre ++ cur ++ [COLON]) ++ [] ++ rest ++ 0 :: q = m) by (unfold m; rewrite <- !app_assoc; done). rewrite Hm' in HI.
        assert (Hb' : zlen (pre ++ cur ++ [COLON]) + zlen (@nil Z) = b + 1) by (unfold b; zlia). rewrite Hb' in HI.
        assert (Hb2 : zlen (pre ++ cur ++ [COLON]) = b + 1) by (unfold b; zlia). rewrite Hb2 in HI.
        assert (Hl' : b + 1 + zlen rest = len) by (unfold b, len; zlia). rewrite Hl' in HI. rewrite HI.
        - destruct (left_groups [] rest) as [gs [r|]]; cbn [map length]; rewrite <- !app_assoc; cbn [app]; done.
        - by rewrite <- !app_assoc.
        - constructor.
        - rewrite length_app. cbn. lia.
        - lia.
        - done. }
      destruct rest as [|d2 r].
      * assert (Hrd2 : rd m (b + 1) = Ok 0) by (rewrite Hm, app_cons_snoc; apply rd_app_at; rewrite Hbz; zlia). rewrite Hrd2, bind_Ok. exact Hgo.
      * assert (Hrd2 : rd m (b + 1) = Ok d2) by (rewrite Hm, app_cons_snoc; cbn [app]; apply rd_app_at; rewrite Hbz; zlia). rewrite Hrd2, bind_Ok.
        destruct (d2 =? COLON) eqn:E2; [|exact Hgo]. apply Z.eqb_eq in E2. subst d2. rewrite bind_Ok. rewrite colons_cons in Hd. change (COLON =? COLON) with true in Hd. cbv iota in Hd.
        pose proof (back_from_end pre cur r d Hn ltac:(lia)) as HB. cbv zeta in HB. etransitivity; [exact (HB Hlen)|].
        cbn [map length]. rewrite <- !app_assoc. cbn [app]. do 5 f_equal. lia.
    + pose proof (IH pre (cur ++ [c]) d f) as HI. cbv zeta in HI.
      assert (Hm' : pre ++ (cur ++ [c]) ++ rest ++ 0 :: q = m) by (unfold m; by rewrite <- !app_assoc). rewrite Hm' in HI.
      assert (Hb' : zlen pre + zlen (cur ++ [c]) = b + 1) by (unfold b; zlia). rewrite Hb' in HI.
      assert (Hl' : b + 1 + zlen rest = len) by (unfold b, len; zlia). rewrite Hl' in HI. apply HI; [by rewrite <- (app_assoc cur)| |lia|lia|done].
      apply Forall_app. split; [done|]. constructor; [by apply Z.eqb_neq|constructor].
Qed.
End front.

(** str2ip6 on any text: the groups it means, or zeros for one that is no address. *)
Lemma str2ip6_ok s q : nonul s -> zlen s < 256 -> str2ip6 (s ++ 0 :: q) = Ok (ip6_spec s).
Proof.
  intros Hn Hl. unfold str2ip6, ip6_spec. assert (Hc : cstring (s ++ 0 :: q) 0 s) by (by exists [], q).
  assert (Hlen : (length s < S (length (s ++ 0%Z :: q)))%nat) by (rewrite length_app; lia).
  rewrite (count_colons_ok _ _ _ s) by done. rewrite bind_Ok. destruct (7 <? colons s)%nat eqn:Ec.
  { apply Nat.ltb_lt in Ec. rewrite (proj2 (Z.ltb_lt _ _)) by lia. done. }
  apply Nat.ltb_ge in Ec. rewrite (proj2 (Z.ltb_ge _ _)) by lia. rewrite (strlen_ok _ _ s), bind_Ok by done.
  pose proof (check_chars_ok s q Hn [] (S (length (s ++ 0 :: q))) false Hlen Hl) as Hk. change (zlen (@nil Z)) with 0 in Hk. cbn [app] in Hk.
  rewrite Z.add_0_l in Hk. rewrite Hk, bind_Ok. destruct (chars_ok false s); cbn [negb orb]; [|done].
  pose proof (front_groups_ok q s [] [] [] (S (length (s ++ 0 :: q))) Hn ltac:(constructor) ltac:(done) Hlen Hl) as HF.
  cbv zeta in HF. change (zlen (@nil Z)) with 0 in HF. cbn [app] in HF. rewrite !Z.add_0_l in HF. unfold ip6_groups.
  change (replicate 8 0) with (zeros (8 - length (@nil Z))).
  etransitivity; [|etransitivity; [exact HF|]]; [|cbn [length]; by rewrite Nat.sub_0_r].
  destruct (front_groups _ _ _ _ _ _ _ _) as [[[[ip i] p] a]| |]; done.
Qed.

(** ** Addresses as they are written *)
Definition join (gs : list (list Z)) : list Z := match gs with [] => [] | g :: gs => g ++ concat (map (fun x => COLON :: x) gs) end.
Definition hex_group (g : list Z) : Prop := Forall (fun c => ip6_char c = true /\ c <> COLON) g /\ g <> [].

Lemma hex_no_colon g : hex_group g -> Forall (fun c => c <> COLON) g.
Proof. intros [Hg _]. eapply List.Forall_impl; [|exact Hg]. by intros c [_ ?]. Qed.
Lemma left_skip g : Forall (fun c => c <> COLON) g -> forall cur rest, left_groups cur (g ++ rest) = left_groups (cur ++ g) rest.
Proof.
  induction 1 as [|c g Hc _ IH]; intros cur rest; [by rewrite app_nil_r|]. cbn [app left_groups]. rewrite (proj2 (Z.eqb_neq c COLON) Hc). cbn [negb].
  rewrite IH. by rewrite <- app_assoc.
Qed.
Lemma left_next c rest cur : c <> COLON -> left_groups cur (COLON :: c :: rest) = (let '(gs, o) := left_groups [] (c :: rest) in (cur :: gs, o)).
Proof. intros Hc. cbn [left_groups]. change (COLON =? COLON) with true. cbn [negb]. by rewrite (proj2 (Z.eqb_neq c COLON) Hc). Qed.

(** Reading groups off the front of what [join] wrote. *)
Lemma left_joined gs : Forall hex_group gs -> forall cur tail r, (tail = [] /\ r = None \/ exists s, tail = COLON :: COLON :: s /\ r = Some s) ->
  left_groups cur (concat (map (fun x => COLON :: x) gs) ++ tail) = (cur :: gs, r).
Proof.
  induction 1 as [|g gs [Hg Hne] _ IH]; intros cur tail r Ht; cbn [map concat].
  - destruct Ht as [[-> ->] | (s & -> & ->)]; [done|]. cbn [app left_groups]. done.
  - rewrite <- app_assoc. cbn [app]. destruct g as [|c g]; [done|]. pose proof (hex_no_colon (c :: g) (conj Hg Hne)) as Hnc. inversion Hnc as [|? ? Hc Hgc]; subst.
    cbn [app]. rewrite left_next by done. change (c :: g ++ ?x) with ((c :: g) ++ x). rewrite left_skip by done. cbn [app]. by rewrite (IH (c :: g) tail r).
Qed.
Lemma split_joined g gs : Forall (fun c => c <> COLON) g -> Forall hex_group gs -> split_colon (g ++ concat (map (fun x => COLON :: x) gs)) = g :: gs.
Proof.
  intros Hg Hgs. revert g Hg. induction Hgs as [|h gs Hh _ IH]; intros g Hg; cbn [map concat]; [by rewrite app_nil_r, split_no_colon|].
  cbn [app]. rewrite split_app, split_no_colon by done. cbn [app]. f_equal. apply IH. by apply hex_no_colon.
Qed.

Lemma chars_group g found rest : Forall (fun c => ip6_char c = true /\ c <> COLON) g -> chars_ok found (g ++ rest) = chars_ok found rest.
Proof. induction 1 as [|c g [Hc Hn] _ IH]; [done|]. cbn [app chars_ok]. by rewrite (proj2 (Z.eqb_neq c COLON) Hn), Hc, IH. Qed.
Lemma chars_joined gs found rest : Forall hex_group gs -> chars_ok found (concat (map (fun x => COLON :: x) gs) ++ rest) = chars_ok found rest.
Proof.
  induction 1 as [|g gs [Hg Hne] _ IH]; [done|]. cbn [map concat]. rewrite <- app_assoc. cbn [app chars_ok]. change (COLON =? COLON) with true. cbv iota.
  destruct g as [|c g]; [done|]. inversion Hg as [|? ? [Hc Hcn] Hg']; subst. cbn [app]. rewrite (proj2 (Z.eqb_neq c COLON) Hcn).
  change (c :: g ++ ?x) with ((c :: g) ++ x). by rewrite chars_group.
Qed.
Lemma colons_group g : Forall (fun c => c <> COLON) g -> colons g = 0%nat.
Proof. induction 1 as [|c g Hc _ IH]; [done|]. by rewrite colons_cons, (proj2 (Z.eqb_neq c COLON) Hc). Qed.
Lemma colons_joined gs : Forall hex_group gs -> colons (concat (map (fun x => COLON :: x) gs)) = length gs.
Proof.
  induction 1 as [|g gs Hg _ IH]; [done|]. cbn [map concat length]. rewrite colons_app, colons_cons, colons_group, IH by (by apply hex_no_colon). done.
Qed.

Definition digits (g : list Z) : Prop := Forall (fun c => ip6_char c = true /\ c <> COLON) g.
Lemma digits_nonul g : digits g -> nonul g.
Proof. intros HF. eapply List.Forall_impl; [|exact HF]. intros c [Hc _] ->. discriminate Hc. Qed.
Lemma digits_no_colon g : digits g -> Forall (fun c => c <> COLON) g.
Proof. intros HF. eapply List.Forall_impl; [|exact HF]. by intros c [_ ?]. Qed.
Lemma joined_nonul l : Forall hex_group l -> nonul (concat (map (fun x => COLON :: x) l)).
Proof.
  induction 1 as [|g l [Hg _] _ IH]; [constructor|]. cbn [map concat]. apply Forall_app. split; [|done]. constructor; [done|by apply digits_nonul].
Qed.

(** The first group, empty if there is none, and the others. *)
Lemma join_split l : Forall hex_group l -> exists g rest, join l = g ++ concat (map (fun x => COLON :: x) rest) /\
  digits g /\ Forall hex_group rest /\ length (g :: rest) = Nat.max 1 (length l) /\
  (l = g :: rest /\ g <> [] \/ l = [] /\ g = [] /\ rest = []).
Proof.
  intros Hl. destruct Hl as [|g l [Hg Hne] Hl]; [exists [], []; split; [done|]; split; [apply List.Forall_nil|]; split; [apply List.Forall_nil|]; split; [done|by right]|].
  exists g, l. split; [done|]. split; [done|]. split; [done|]. split; [done|by left].
Qed.

Lemma chars_two g gs h hs : digits g -> Forall hex_group gs -> digits h -> Forall hex_group hs -> (h = [] -> hs = []) ->
  chars_ok false ((g ++ concat (map (fun x => COLON :: x) gs)) ++ COLON :: COLON :: h ++ concat (map (fun x => COLON :: x) hs)) = true.
Proof.
  intros Fg Fgs Fh Fhs Hhs. rewrite <- app_assoc, chars_group, chars_joined by done. cbn [chars_ok]. change (COLON =? COLON) with true. cbv iota.
  destruct h as [|d h]; [rewrite Hhs by done; done|]. inversion Fh as [|? ? [_ Hd] _]; subst. cbn [app]. rewrite (proj2 (Z.eqb_neq d COLON) Hd).
  change (d :: h ++ ?x) with ((d :: h) ++ x). rewrite chars_group, <- (app_nil_r (concat _)), chars_joined by done. done.
Qed.

(** IPv6 addresses: eight groups between colons, or fewer with two colons in the
    place of the zeros, at the front, in the middle or at the end: str2ip6 gives
    exactly the groups, each in network byte order, although it cuts the text with
    NULs while it reads it. *)
Lemma str2ip6_groups gs hs q : Forall hex_group gs -> Forall hex_group hs ->
  (length gs = 8%nat -> zlen (join gs) < 256 -> str2ip6 (join gs ++ 0 :: q) = Ok (map ns gs)) /\
  ((Nat.max 1 (length gs) + Nat.max 1 (length hs) <= 7)%nat -> zlen (join gs ++ COLON :: COLON :: join hs) < 256 ->
   str2ip6 ((join gs ++ COLON :: COLON :: join hs) ++ 0 :: q) =
   Ok (map ns gs ++ zeros (8 - length gs - length hs) ++ map ns hs)).
Proof.
  intros Hg Hh. destruct (join_split gs Hg) as (g & gs' & Eg & Fg & Fgs & Lg & Mg). cbn [length] in Lg.
  pose proof (digits_no_colon g Fg). pose proof (digits_nonul g Fg). pose proof (joined_nonul gs' Fgs). rewrite Eg. split.
  - intros H8 Hl. rewrite str2ip6_ok; [|by apply Forall_app|done]. unfold ip6_spec, ip6_groups.
    destruct Mg as [[Mg _] | [-> _]]; [|discriminate H8]. rewrite colons_app, colons_group, colons_joined by done. rewrite (proj2 (Nat.ltb_ge 7 _)) by lia.
    rewrite chars_group, <- (app_nil_r (concat _)), chars_joined by done. cbn [chars_ok negb orb]. rewrite left_skip by done. cbn [app].
    rewrite (left_joined gs' Fgs g [] None) by (by left). rewrite <- Mg, H8. by rewrite app_nil_r.
  - intros H7 Hl. destruct (join_split hs Hh) as (h & hs' & Eh & Fh & Fhs & Lh & Mh). cbn [length] in Lh. rewrite Eh in *.
    pose proof (digits_no_colon h Fh). pose proof (digits_nonul h Fh). pose proof (joined_nonul hs' Fhs).
    rewrite str2ip6_ok; [|apply Forall_app; split; [by apply Forall_app|do 2 (constructor; [done|]); by apply Forall_app]|done]. unfold ip6_spec, ip6_groups.
    rewrite !colons_app, !colons_cons, !colons_app, (colons_group g), (colons_group h), !colons_joined by done. change (COLON =? COLON) with true. cbv iota.
    rewrite (proj2 (Nat.ltb_ge 7 _)) by lia. rewrite chars_two by (done || (intros ->; destruct Mh as [[_ ?] | (_ & _ & ->)]; done)).
    cbn [negb orb]. rewrite <- app_assoc, left_skip by done. cbn [app].
    rewrite (left_joined gs' Fgs g _ (Some (h ++ concat (map (fun x => COLON :: x) hs')))) by (right; by eexists). rewrite split_joined by done.
    destruct Mg as [[-> _] | (-> & -> & ->)], Mh as [[-> _] | (-> & -> & ->)]; cbn [map length app] in *; [done| | |done]; do 2 f_equal; change (ns []) with 0.
    + rewrite app_nil_r. unfold zeros. rewrite <- replicate_S_end. do 2 f_equal. lia.
    + rewrite !Nat.sub_0_r. unfold zeros. by replace (8 - S (length hs'))%nat with (S (8 - 1 - S (length hs'))) by lia.
Qed.

(** The text of an address and its eight groups. *)
Definition written (server ip : list Z) : Prop :=
  (exists gs, Forall hex_group gs /\ length gs = 8%nat /\ server = join gs /\ ip = map ns gs) \/
  (exists gs hs, Forall hex_group gs /\ Forall hex_group hs /\ (Nat.max 1 (length gs) + Nat.max 1 (length hs) <= 7)%nat /\
     server = join gs ++ COLON :: COLON :: join hs /\ ip = map ns gs ++ zeros (8 - length gs - length hs) ++ map ns hs).
Lemma str2ip6_written server ip q : written server ip -> zlen server < 256 -> str2ip6 (server ++ 0 :: q) = Ok ip.
Proof.
  intros [(gs & Hg & H8 & -> & ->) | (gs & hs & Hg & Hh & H7 & -> & ->)] Hl.
  - by apply (str2ip6_groups gs [] q Hg).
  - by apply (str2ip6_groups gs hs q Hg Hh).
Qed.
Lemma join_chars gs : Forall hex_group gs -> Forall (fun c => c <> 0 /\ negb (c =? 93) = true) (join gs).
Proof.
  assert (Hd : forall g, digits g -> Forall (fun c => c <> 0 /\ negb (c =? 93) = true) g).
  { intros g Hg. eapply List.Forall_impl; [|exact Hg]. intros c [Hc _]. split; [by intros ->|].
    apply negb_true_iff, Z.eqb_neq. by intros ->. }
  intros Hg. destruct Hg as [|g gs [Hg _] Hgs]; [constructor|]. cbn [join]. apply Forall_app. split; [by apply Hd|].
  induction Hgs as [|h gs [Hh _] _ IH]; [constructor|]. cbn [map concat]. apply Forall_app. split; [|done]. constructor; [done|by apply Hd].
Qed.
Lemma written_chars server ip : written server ip -> nonul server /\ Forall (fun c => negb (c =? 93) = true) server.
Proof.
  intros Hw. enough (HF : Forall (fun c => c <> 0 /\ negb (c =? 93) = true) server) by (split; (eapply List.Forall_impl; [|exact HF]); by intros c [? ?]).
  destruct Hw as [(gs & Hg & _ & -> & _) | (gs & hs & Hg & Hh & _ & -> & _)]; [by apply join_chars|].
  apply Forall_app. split; [by apply join_chars|]. do 2 (constructor; [done|]). by apply join_chars.
Qed.

(** ** The URL of the boot file *)
Definition URL_SCHEME : list Z := [116; 102; 116; 112; 58; 47; 47].
Definition tftp_url (u : list Z) : option (list Z * list Z) :=
  if bool_decide (take 8 u = URL_SCHEME ++ [91]) then
    let '(server, rest) := span (fun c => negb (c =? 93)) (drop 8 u) in
    if 40 <=? zlen server then None else match rest with _ :: path => Some (server, path) | [] => None end
  else None.
Definition address (ip : list Z) : list Z := concat (map (le_split 2) ip).
Definition tftp_path (path name : list Z) : list Z :=
  match upto_last (fun c => c =? SLASH) path with Some (d, _) => d | None => [] end ++ translated name.
(** What extract_tftp_info leaves for a URL. *)
Definition tftp_info (u name : list Z) (n : net) (r : bool * net) : Prop :=
  match tftp_url u with
  | None => r = (false, n)
  | Some (server, path) =>
      let addr := address (ip6_spec server) in
      n_pxe r.2 = n_pxe n /\ n_tftp_addr r.2 = addr /\
      (if bool_decide (addr = replicate 16 0) then r.1 = false /\ n_full_path r.2 = n_full_path n
       else r.1 = true /\ exists mem, n_full_path r.2 = Some mem /\ cstring mem 0 (tftp_path path name))
  end.

Lemma make_template_ok name nm : cstring name 0 nm -> exists q, make_template name = Ok (translated nm ++ 0 :: q).
Proof.
  intros Hc. unfold make_template. rewrite (strlen_ok _ _ _ Hc), bind_Ok. pose proof (translated_length _ nm ltac:(done)) as Hl.
  exists (replicate (length nm + 1 - length (translated nm)) 0).
  replace (replicate (Z.to_nat (zlen nm + 2)) 0) with ([] ++ replicate (S (length (translated nm))) 0 ++ replicate (length nm + 1 - length (translated nm)) 0)
    by (cbn [app]; rewrite <- replicate_add; f_equal; unfold zlen; lia).
  change 0 with (zlen (@nil Z)) at 4. rewrite (translate_slashes_ok [] _ _ _ _ nm); [done|done|by rewrite length_replicate].
Qed.

Lemma server_end_ok pre x q : x = 0 \/ x = 93 -> forall s d fuel, Forall (fun c => negb (c =? 93) = true) s -> nonul s -> zlen d < 40 -> (length s < fuel)%nat ->
  server_end fuel (pre ++ d ++ s ++ x :: q) (zlen pre) (zlen pre + zlen d) =
  Ok (if 40 <=? zlen d + zlen s then None else Some (zlen pre + zlen d + zlen s)).
Proof.
  intros Hx. induction s as [|c s IH]; intros d [|f] Hs Hn Hd Hf; cbn [length] in Hf; try lia; cbn [server_end].
  - cbn [app]. rewrite (app_assoc pre), rd_app_at, bind_Ok by zlia. change (zlen (@nil Z)) with 0. rewrite !Z.add_0_r.
    destruct Hx as [-> | ->]; cbn; by rewrite (proj2 (Z.leb_gt 40 _)) by lia.
  - apply Forall_cons_1 in Hs as [Hc Hs], Hn as [Hc0 Hn]. apply negb_true_iff in Hc. rewrite zlen_cons. cbn [app].
    assert (Hrd : rd (pre ++ d ++ c :: s ++ x :: q) (zlen pre + zlen d) = Ok c) by (rewrite (app_assoc pre); apply rd_app_at; zlia).
    rewrite Hrd, bind_Ok, Hc, (proj2 (Z.eqb_neq c 0) Hc0). cbn [orb]. pose proof (zlen_nonneg s).
    destruct (Z.leb_spec 40 (zlen pre + zlen d + 1 - zlen pre)) as [Hle|Hle]; [by rewrite (proj2 (Z.leb_le 40 _)) by lia|].
    rewrite (app_cons_snoc d). replace (zlen pre + zlen d + 1) with (zlen pre + zlen (d ++ [c])) by zlia.
    rewrite IH; [|done|done|zlia|lia]. replace (zlen (d ++ [c]) + zlen s) with (zlen d + (zlen s + 1)) by zlia.
    case_if; [done|]. do 2 f_equal. zlia.
Qed.

(** The name over the part of the path behind its last slash. *)
Lemma last_slash path m : nonul path -> cstring m 0 path -> exists d r, path = d ++ r /\ tftp_path path = (fun name => d ++ translated name) /\
  (last ← strrchr m 0 SLASH; Ok (default 0 last)) = Ok (zlen d).
Proof.
  intros Hn Hc. assert (Hno : forall q, SLASH ∉ q -> Forall (fun c => (c =? SLASH) = false) q).
  { intros q Hq. apply Forall_forall. intros c Hin. apply Z.eqb_neq. by intros ->. }
  unfold tftp_path. destruct (strrchr_correct m 0 SLASH path ltac:(done) Hc) as [[Ha ->] | (p & q & -> & Hq & ->)]; rewrite bind_Ok; cbn [default].
  - exists [], path. rewrite upto_last_absent by auto. done.
  - exists p, (SLASH :: q). rewrite upto_last_none by auto. done.
Qed.
Lemma overwrite_end d r t : exists q, (full_path ← wrn (d ++ r ++ replicate (S (length t)) 0) (zlen d) t; wr full_path (zlen d + zlen t) 0) = Ok (d ++ t ++ 0 :: q).
Proof.
  set (l := r ++ replicate (S (length t)) 0). assert (Hl : (length t < length l)%nat) by (unfold l; rewrite length_app, length_replicate; lia).
  destruct (lookup_lt_is_Some_2 l (length t) Hl) as [x Hx]. exists (drop (S (length t)) l). rewrite <- (take_drop_middle l _ x Hx) at 1.
  rewrite wrn_app_mid, bind_Ok by (done || (rewrite length_take; lia)). rewrite !(app_assoc d). by rewrite wr_app_at by zlia.
Qed.

Lemma tftp_url_some u s path : tftp_url u = Some (s, path) <->
  u = URL_SCHEME ++ 91 :: s ++ 93 :: path /\ zlen s < 40 /\ Forall (fun c => negb (c =? 93) = true) s.
Proof.
  unfold tftp_url. split.
  - case_bool_decide as Hp; [|done]. pose proof (span_app (fun c => negb (c =? 93)) (drop 8 u)) as Hs. pose proof (span_fst_all (fun c => negb (c =? 93)) (drop 8 u)) as Hf.
    destruct (span _ _) as [a r] eqn:E. cbn [fst snd] in *. destruct (Z.leb_spec 40 (zlen a)); [done|]. destruct r as [|x r]; [done|]. intros [= <- <-].
    assert (Hx : x = 93) by (apply Z.eqb_eq, negb_false_iff; eapply (span_snd_head (fun c => negb (c =? 93)) (drop 8 u)); by rewrite E). subst x.
    split; [|done]. rewrite <- (take_drop 8 u), Hp, <- Hs. by rewrite <- app_assoc.
  - intros (-> & Hl & Hs). change (take 8 _) with (URL_SCHEME ++ [91]). rewrite bool_decide_true by done.
    change (drop 8 _) with (s ++ 93 :: path). rewrite span_cut by done. by rewrite (proj2 (Z.leb_gt _ _)) by lia.
Qed.

(** A URL that names no server in brackets. *)
Lemma extract_not u q name nm n : nonul u -> cstring name 0 nm -> take 8 u <> URL_SCHEME ++ [91] ->
  extract_tftp_info true (u ++ 0 :: q) name n = Ok (false, n).
Proof.
  intros Hu Hnm Hne. unfold extract_tftp_info. destruct (make_template_ok name nm Hnm) as [tq ->]. rewrite bind_Ok.
  destruct (strncmp_front (u ++ 0 :: q) 0 u TFTP 0 URL_SCHEME) as (d & Hd & Hz); [by exists [], q|exists [], []; split; [done|split; [done|repeat constructor; done]]|].
  change (zlen URL_SCHEME) with 7 in Hd. rewrite Hd, bind_Ok. destruct (Z.eqb_spec d 0) as [->|]; cbn [negb]; [|done].
  destruct Hz as [Hz _]. specialize (Hz eq_refl). unfold at_front in Hz. change (length URL_SCHEME) with 7%nat in Hz.
  assert (Hu2 : u = URL_SCHEME ++ drop 7 u) by (rewrite <- Hz; symmetry; apply take_drop).
  rewrite Hu2 in Hne |- *. clear - Hne. destruct (drop 7 u) as [|c u2]; rewrite <- app_assoc; cbn [app].
  - rewrite (rd_app_at URL_SCHEME) by done. done.
  - rewrite (rd_app_at URL_SCHEME) by done. rewrite bind_Ok. destruct (Z.eqb_spec c 91) as [->|]; [|done]. by destruct Hne.
Qed.

(** The server of the URL, or [None]. *)
Lemma extract_server u2 q : nonul u2 -> let url := URL_SCHEME ++ 91 :: u2 ++ 0 :: q in
  (exists d, strncmp url 0 TFTP 0 7 = Ok d /\ d = 0) /\ rd url 7 = Ok 91 /\
  let '(s, r) := span (fun c => negb (c =? 93)) u2 in
  server_end (S (length url)) url 8 8 = Ok (if 40 <=? zlen s then None else Some (8 + zlen s)) /\
  rd url (8 + zlen s) = Ok (match r with [] => 0 | _ :: _ => 93 end) /\ rdn url 8 (zlen s) = Ok s.
Proof.
  intros Hn url. split_and!; [|by apply (rd_app_at URL_SCHEME)|].
  { destruct (strncmp_front url 0 (URL_SCHEME ++ 91 :: u2) TFTP 0 URL_SCHEME) as (d & Hd & Hz).
    - exists [], q. split; [unfold url; by rewrite <- app_assoc|]. split; [done|]. repeat (constructor; [done|]). done.
    - exists [], []. split; [done|]. split; [done|repeat constructor; done].
    - exists d. split; [done|]. by apply Hz. }
  pose proof (span_app (fun c => negb (c =? 93)) u2) as Hs. pose proof (span_fst_all (fun c => negb (c =? 93)) u2) as Hf.
  pose proof (span_snd_head (fun c => negb (c =? 93)) u2) as Hh. destruct (span _ u2) as [s r]. cbn [fst snd] in *. subst u2. apply Forall_app in Hn as [Hns Hnr].
  assert (Hx : exists q', r ++ 0 :: q = match r with [] => 0 | _ :: _ => 93 end :: q').
  { destruct r as [|x r]; [by exists q|]. exists (r ++ 0 :: q). specialize (Hh x r eq_refl). apply negb_false_iff, Z.eqb_eq in Hh. by subst x. }
  destruct Hx as [q' Hx]. assert (Hu : url = (URL_SCHEME ++ [91]) ++ [] ++ s ++ match r with [] => 0 | _ :: _ => 93 end :: q').
  { unfold url. rewrite <- !app_assoc, Hx. done. }
  split_and!.
  - pose proof (server_end_ok (URL_SCHEME ++ [91]) (match r with [] => 0 | _ :: _ => 93 end) q' ltac:(destruct r; auto) s [] (S (length url)) Hf Hns ltac:(done)) as HS.
    rewrite <- Hu in HS. apply HS. unfold url. rewrite !length_app. cbn [length]. rewrite !length_app. cbn. lia.
  - rewrite Hu. cbn [app]. rewrite (app_assoc (URL_SCHEME ++ [91])). apply rd_app_at. by rewrite zlen_app.
  - rewrite Hu. cbn [app]. by apply rdn_app_mid.
Qed.

(** The path, once the server is known. *)
Lemma path_block pre path q t tq : nonul path -> nonul t ->
  let url := pre ++ path ++ 0 :: q in let template := t ++ 0 :: tq in
  exists d mem, tftp_path path = (fun name => d ++ translated name) /\ cstring mem 0 (d ++ t) /\
  forall A (k : list Z -> res A),
  (plen ← strlen url (zlen pre); tlen ← strlen template 0;
   path ← rdn url (zlen pre) plen;
   full_path ← wrn (replicate (Z.to_nat (plen + tlen + 1)) 0) 0 path;
   last ← strrchr full_path 0 SLASH;
   t ← rdn template 0 tlen;
   full_path ← wrn full_path (default 0 last) t;
   full_path ← wr full_path (default 0 last + tlen) 0; k full_path) = k mem.
Proof.
  intros Hp Ht url template. assert (Hm : cstring (path ++ replicate (S (length t)) 0) 0 path) by (by exists [], (replicate (length t) 0)).
  destruct (last_slash path (path ++ replicate (S (length t)) 0) Hp Hm) as (d & r & Hd & Hpath & He).
  destruct (overwrite_end d r t) as [z Hz]. exists d, (d ++ t ++ 0 :: z). split; [done|]. split.
  { exists [], z. rewrite <- app_assoc. split; [done|]. split; [done|]. rewrite Hd in Hp. apply Forall_app in Hp as [? _]. by apply Forall_app. }
  intros A k. rewrite (strlen_ok url (zlen pre) path ltac:(by exists pre, q)), bind_Ok, (strlen_ok template 0 t ltac:(by exists [], tq)), bind_Ok.
  unfold url. rewrite rdn_app_mid, bind_Ok by done.
  replace (replicate (Z.to_nat (zlen path + zlen t + 1)) 0) with ([] ++ replicate (length path) 0 ++ replicate (S (length t)) 0)
    by (cbn [app]; rewrite <- replicate_add; f_equal; unfold zlen; lia).
  rewrite wrn_app_mid, bind_Ok by (done || by rewrite length_replicate). cbn [app]. destruct (strrchr _ 0 SLASH) as [last| |]; [|discriminate He..]. rewrite bind_Ok in *. injection He as He.
  unfold template. rewrite (rdn_app_mid [] t (0 :: tq)), bind_Ok by done. rewrite He. rewrite Hd, <- app_assoc in *.
  destruct (wrn (d ++ r ++ replicate (S (length t)) 0) (zlen d) t) as [fp| |]; [|discriminate Hz..]. rewrite bind_Ok in Hz. by rewrite bind_Ok, Hz, bind_Ok.
Qed.

Lemma extract_ok u q name nm n : nonul u -> cstring name 0 nm ->
  exists r, extract_tftp_info true (u ++ 0 :: q) name n = Ok r /\ tftp_info u nm n r.
Proof.
  intros Hu Hnm. unfold tftp_info, tftp_url. case_bool_decide as Hh; [|eexists; split; [by eapply extract_not|done]].
  assert (Heq : u = URL_SCHEME ++ 91 :: drop 8 u) by (rewrite <- (take_drop 8 u) at 1; by rewrite Hh).
  assert (Hn2 : nonul (drop 8 u)) by (by apply Forall_drop). set (u2 := drop 8 u) in *. clearbody u2. subst u. clear Hh Hu.
  unfold extract_tftp_info. destruct (make_template_ok name nm Hnm) as [tq ->]. rewrite bind_Ok. pose proof (extract_server u2 q Hn2) as (Hd & H91 & HS).
  pose proof (span_app (fun c => negb (c =? 93)) u2) as Hs. pose proof (span_snd_head (fun c => negb (c =? 93)) u2) as Hh93. destruct (span _ u2) as [s r]. cbn [fst snd] in *.
  rewrite <- app_assoc. cbn [app]. destruct Hd as (? & Hd & ->). destruct HS as (Hend & Hc & Hserver).
  rewrite Hd, bind_Ok. cbn [Z.eqb negb]. rewrite H91, bind_Ok. cbn [Z.eqb Pos.eqb negb]. rewrite Hend, bind_Ok. destruct (Z.leb_spec 40 (zlen s)); [by eexists|].
  rewrite Hc, bind_Ok. destruct r as [|x path]; [by eexists|]. cbn [Z.eqb]. replace (8 + zlen s - 8) with (zlen s) by lia. rewrite Hserver, bind_Ok.
  specialize (Hh93 x path eq_refl). apply negb_false_iff, Z.eqb_eq in Hh93. subst x u2. apply Forall_app in Hn2 as [Hns Hnp]. apply Forall_cons_1 in Hnp as [_ Hnp].
  assert (H40 : wrn (replicate 40 0) 0 s = Ok (s ++ 0 :: replicate (39 - length s) 0)).
  { etransitivity; [apply (wrn_zeros [] s 40); unfold zlen in *; lia|]. cbn [app]. unfold zlen in *.
    by replace (40 - length s)%nat with (S (39 - length s)) by lia. }
  rewrite H40, bind_Ok, str2ip6_ok, bind_Ok by (done || lia). fold (address (ip6_spec s)). case_bool_decide; [by eexists|].
  assert (Hsh : URL_SCHEME ++ 91 :: (s ++ 93 :: path) ++ 0 :: q = (URL_SCHEME ++ 91 :: s ++ [93]) ++ path ++ 0 :: q).
  { rewrite <- !app_assoc. cbn [app]. by rewrite <- !app_assoc. }
  rewrite Hsh. assert (Hpl : 8 + zlen s + 1 = zlen (URL_SCHEME ++ 91 :: s ++ [93])).
  { rewrite zlen_app, zlen_cons, zlen_app. change (zlen URL_SCHEME) with 7. change (zlen [93]) with 1. lia. }
  rewrite Hpl. destruct (path_block (URL_SCHEME ++ 91 :: s ++ [93]) path q (translated nm) tq Hnp) as (d & mem & Hpath & Hmem & Hrun).
  { apply (translated_nonul (length nm)); [done|]. by destruct Hnm as (? & ? & _ & _ & ?). }
  cbv zeta in Hrun. eexists. split; [exact (Hrun _ (fun fp => Ok (true, {| n_pxe := n_pxe n; n_tftp_addr := address (ip6_spec s); n_full_path := Some fp |})))|]. cbn [n_pxe n_tftp_addr n_full_path fst snd]. split_and!; [done|done|done|]. exists mem. by rewrite Hpath.
Qed.

(** ** The options of the DHCPv6 packet *)
Definition be16 (v : Z) : list Z := [v / 256; v mod 256].
Definition option_bytes (o : Z * list Z) : list Z := be16 o.1 ++ be16 (zlen o.2) ++ o.2.
Definition other_option (o : Z * list Z) : Prop := 0 < o.1 < 65536 /\ o.1 <> 59 /\ zlen o.2 < 65536.

Lemma rd_be16_at p v q i : i = zlen p -> rd_be16 (p ++ be16 v ++ q) i = Ok v.
Proof.
  intros ->. unfold rd_be16, be16. cbn [app]. rewrite rd_at, bind_Ok, app_cons_snoc, rd_app_at, bind_Ok by zlia.
  f_equal. rewrite (Z.div_mod v 256) at 3 by lia. lia.
Qed.
Lemma rd_be16_some m i : bytes m -> 0 <= i -> i + 2 <= zlen m -> exists v, rd_be16 m i = Ok v /\ 0 <= v.
Proof.
  intros Hb H0 H2. unfold rd_be16. destruct (rd_in_range m i) as [x Hx]; [lia|]. destruct (rd_in_range m (i + 1)) as [y Hy]; [lia|].
  rewrite Hx, bind_Ok, Hy, bind_Ok. eexists. split; [done|]. apply rd_Ok_inv in Hx as [_ Hx], Hy as [_ Hy].
  pose proof (Forall_lookup_1 _ _ _ _ Hb Hx) as Hbx. pose proof (Forall_lookup_1 _ _ _ _ Hb Hy) as Hby. cbv beta in Hbx, Hby. unfold is_byte in *. lia.
Qed.

(** Whatever the options are, the loop stays within them. *)
Lemma bootfile_safe o alloc : bytes o -> forall fuel optr, 0 <= optr -> optr + 6 <= zlen o -> zlen o - optr < Z.of_nat fuel ->
  bootfile_url_loop fuel alloc o optr = Ok None \/ exists url, bootfile_url_loop fuel alloc o optr = Ok (Some (url ++ [0])).
Proof.
  intros Hb. induction fuel as [|f IH]; intros optr H0 H6 Hf; [lia|]. cbn [bootfile_url_loop].
  destruct (rd_be16_some o optr) as (c & -> & _); [done|lia|lia|]. rewrite bind_Ok. destruct (c =? 0); [by left|].
  destruct (rd_be16_some o (optr + 2)) as (l & -> & Hl); [done|lia|lia|]. destruct (c =? 59); rewrite bind_Ok.
  - destruct (Z.ltb_spec (zlen o) (optr + 4 + l)); [by left|]. destruct alloc; [|by left]. destruct (rdn_in_range o (optr + 4) l) as [url ->]; [lia..|]. right. by exists url.
  - cbv zeta. destruct (Z.ltb_spec (zlen o) (optr + (4 + l) + 6)); [by left|]. apply IH; lia.
Qed.

(** The first option 59 is found behind others. *)
Lemma options_found opts url rest : Forall other_option opts -> 2 <= zlen url < 65536 ->
  get_v6_bootfile_url true (concat (map option_bytes opts) ++ option_bytes (59, url) ++ rest) = Ok (Some (url ++ [0])).
Proof.
  intros Ho Hu. unfold get_v6_bootfile_url.
  enough (Hg : forall opts p fuel, Forall other_option opts -> (length opts < fuel)%nat ->
    bootfile_url_loop fuel true (p ++ concat (map option_bytes opts) ++ option_bytes (59, url) ++ rest) (zlen p) = Ok (Some (url ++ [0]))).
  { apply (Hg opts [] _ Ho). apply Nat.lt_succ_r. rewrite length_app. transitivity (length (concat (map option_bytes opts))); [|lia]. clear.
    induction opts as [|o opts IH]; cbn [map concat length]; [lia|]. rewrite length_app. assert (4 <= length (option_bytes o))%nat by (unfold option_bytes, be16; cbn [app length]; lia). lia. }
  clear opts Ho. induction opts as [|[c d] opts IH]; intros p [|f] Ho Hf; cbn [length] in Hf; try lia; cbn [bootfile_url_loop map concat].
  - unfold option_bytes. cbn [fst snd app]. rewrite <- !app_assoc. rewrite (rd_be16_at p 59 _ (zlen p) eq_refl), bind_Ok. cbn [Z.eqb Pos.eqb].
    assert (H2 : rd_be16 (p ++ be16 59 ++ be16 (zlen url) ++ url ++ rest) (zlen p + 2) = Ok (zlen url)).
    { rewrite (app_assoc p). apply rd_be16_at. unfold be16. zlia. }
    rewrite H2, bind_Ok. destruct (Z.ltb_spec (zlen (p ++ be16 59 ++ be16 (zlen url) ++ url ++ rest)) (zlen p + 4 + zlen url)) as [Hl|_];
      [unfold be16 in Hl; zlia|]. cbn [negb]. rewrite (app_assoc p), (app_assoc (p ++ _)), rdn_app_mid, bind_Ok; [done|unfold be16; zlia|done].
  - apply Forall_cons_1 in Ho as [(Hc & Hc59 & Hd) Ho]. cbn [fst snd] in *. change (option_bytes (c, d)) with (be16 c ++ be16 (zlen d) ++ d). rewrite <- !app_assoc.
    set (tail := concat (map option_bytes opts) ++ option_bytes (59, url) ++ rest) in *. rewrite (rd_be16_at p c _ (zlen p) eq_refl), bind_Ok.
    rewrite (proj2 (Z.eqb_neq c 0)), (proj2 (Z.eqb_neq c 59)) by lia.
    assert (H2 : rd_be16 (p ++ be16 c ++ be16 (zlen d) ++ d ++ tail) (zlen p + 2) = Ok (zlen d)).
    { rewrite (app_assoc p). apply rd_be16_at. unfold be16. zlia. }
    rewrite H2, bind_Ok. assert (Hp : p ++ be16 c ++ be16 (zlen d) ++ d ++ tail = (p ++ option_bytes (c, d)) ++ tail).
    { unfold option_bytes. cbn [fst snd]. by rewrite <- !app_assoc. }
    assert (Hz : zlen p + (4 + zlen d) = zlen (p ++ option_bytes (c, d))) by (unfold option_bytes, be16; cbn [fst snd app]; zlia).
    rewrite Hp, Hz. assert (Ht : 6 <= zlen tail).
    { unfold tail, option_bytes, be16. cbn [fst snd app]. zlia. }
    rewrite (proj2 (Z.ltb_ge _ _)) by zlia. apply IH; [done|lia].
Qed.

(** ** The boot file of the DHCPv4 packets *)
Definition separator (c : Z) : bool := (c =? SLASH) || (c =? BACKSLASH).
Definition strip_slash (t : list Z) : list Z := match t with c :: t' => if c =? SLASH then t' else t | [] => [] end.
(** The directory of the boot file with its separator, and the name without a slash
    in front of it. *)
Definition dhcp4_path (file t : list Z) : list Z :=
  match upto_last separator file with Some (d, x) => d ++ x :: strip_slash t | None => strip_slash t end.
(** The first packet that names a boot file: the acknowledgement, the proxy's offer
    or the reply, as far as they were received. *)
Definition names_file (p : dhcp4) : bool := match BootpBootFile p with c :: _ => negb (c =? 0) | [] => false end.
Definition chosen_packet (m : pxe_mode) : dhcp4 :=
  let pkt := if ProxyOfferReceived m && negb (names_file (DhcpAck m)) then ProxyOffer m else DhcpAck m in
  if PxeReplyReceived m && negb (names_file pkt) && names_file (PxeReply m) then PxeReply m else pkt.
Definition packet_ok (p : dhcp4) : Prop := length (BootpBootFile p) = 128%nat /\ length (BootpSiAddr p) = 4%nat.

Lemma boot_packet_ok m : packet_ok (DhcpAck m) -> packet_ok (ProxyOffer m) -> packet_ok (PxeReply m) ->
  boot_packet m = Ok (chosen_packet m) /\ packet_ok (chosen_packet m).
Proof.
  intros Ha Hp Hr. unfold boot_packet, chosen_packet.
  assert (Hfst : forall p, packet_ok p -> exists c, rd (BootpBootFile p) 0 = Ok c /\ names_file p = negb (c =? 0)).
  { intros p [Hl _]. unfold names_file. destruct (BootpBootFile p) as [|c l]; [done|]. exists c. by split. }
  destruct (Hfst _ Ha) as (a & Ea & Na), (Hfst _ Hp) as (p & Ep & Np), (Hfst _ Hr) as (r & Er & Nr).
  destruct (ProxyOfferReceived m), (PxeReplyReceived m); rewrite ?Ea, ?bind_Ok, ?Na; cbn [andb negb]; rewrite ?negb_involutive;
    destruct (a =? 0) eqn:E; rewrite ?Na, ?Np, ?Nr, ?E, ?bind_Ok, ?Ea, ?Ep; rewrite ?bind_Ok, ?E; cbn [negb andb]; try done;
    try (destruct (p =? 0); cbn [negb andb]; [|done]); rewrite ?Er, ?bind_Ok; destruct (r =? 0); done.
Qed.

Lemma dir_length_ok m g : forall q, m = g ++ q ->
  dir_length (length g) m (zlen g - 1) = Ok (match upto_last separator g with Some (d, _) => zlen d + 1 | None => 0 end).
Proof.
  induction g as [|c g IH] using rev_ind; intros q Hm; [done|]. rewrite upto_last_snoc, length_app, Nat.add_comm. cbn [length Nat.add dir_length].
  replace (zlen (g ++ [c]) - 1) with (zlen g) by zlia. assert (Hrd : rd m (zlen g) = Ok c) by (rewrite Hm, <- app_assoc; by apply rd_app_at).
  rewrite Hrd, bind_Ok. fold (separator c). destruct (separator c); [done|]. apply (IH (c :: q)). by rewrite Hm, <- app_assoc.
Qed.
(** The directory of a boot file that may fill its field. *)
Lemma directory_ok m : length m = 128%nat -> exists flen, strnlen m 0 127 = Ok flen /\
  dir_length (S (Z.to_nat flen)) m flen = Ok (match upto_last separator (c_text m) with Some (d, _) => zlen d + 1 | None => 0 end).
Proof.
  intros Hl. destruct (c_text_split m) as (post & Hm & Ht & Hp). rewrite strnlen_ok by (unfold zlen; lia). eexists. split; [done|].
  assert (Hlen : (length (c_text m) + length post = 128)%nat) by (by rewrite <- length_app, <- Hm).
  destruct Hp as [-> | [q ->]].
  - cbn [length] in Hlen. pose proof (dir_length_ok m (c_text m) [] Hm) as Hd. replace (length (c_text m)) with (S (Z.to_nat (Z.min 127 (zlen (c_text m))))) in Hd by (unfold zlen; lia).
    by replace (zlen (c_text m) - 1) with (Z.min 127 (zlen (c_text m))) in Hd by (unfold zlen; lia).
  - cbn [length] in Hlen. pose proof (dir_length_ok m (c_text m ++ [0]) q) as Hd. rewrite <- app_assoc, upto_last_snoc in Hd.
    replace (Z.min 127 (zlen (c_text m))) with (zlen (c_text m)) by (unfold zlen; lia). change (separator 0) with false in Hd. cbv iota in Hd.
    rewrite length_app, Nat.add_1_r in Hd. replace (zlen (c_text m ++ [0]) - 1) with (zlen (c_text m)) in Hd by zlia.
    replace (S (Z.to_nat (zlen (c_text m)))) with (S (length (c_text m))) by (unfold zlen; lia). by apply Hd.
Qed.

(** The directory and the name put together. *)
Lemma dhcp4_copy file post d x q k : file = d ++ x :: q -> nonul file ->
  strncpy (replicate (Z.to_nat (zlen d + 1 + Z.of_nat k)) 0) 0 (file ++ post) 0 (zlen d + 1) = Ok (d ++ x :: replicate k 0).
Proof.
  intros Hq Hf. assert (Hn : nonul (d ++ [x])) by (rewrite Hq, app_cons_snoc in Hf; by apply Forall_app in Hf as [? _]).
  pose proof (strncpy_prefix [] (replicate (S (length d)) 0) (replicate k 0) (file ++ post) [] (d ++ [x]) (q ++ post)) as Hc.
  rewrite zlen_replicate, length_replicate in Hc. change (zlen (@nil Z)) with 0 in Hc. cbn [app] in Hc. rewrite <- replicate_add in Hc.
  replace (Z.to_nat (zlen d + 1 + Z.of_nat k)) with (S (length d) + k)%nat by (unfold zlen; lia).
  replace (zlen d + 1) with (Z.of_nat (S (length d))) by (unfold zlen; lia). rewrite Hc; [|by rewrite Hq, <- !app_assoc|done|zlen_simpl; change (zlen [x]) with 1; unfold zlen; lia].
  rewrite take_ge by (rewrite length_app; cbn; lia). by rewrite <- app_assoc.
Qed.
Lemma dhcp4_dir file post t tq d x : nonul file -> nonul t -> upto_last separator file = Some (d, x) ->
  exists full_path template, cstring full_path 0 (d ++ x :: strip_slash t) /\
  (full_path ← strncpy (replicate (Z.to_nat (zlen d + 1 + (zlen t + 1))) 0) 0 (file ++ post) 0 (zlen d + 1);
   c ← rd full_path (zlen d + 1 - 1); h ← rd (t ++ 0 :: tq) 0;
   full_path ← (if (c =? SLASH) && (h =? SLASH) then wr full_path (zlen d + 1 - 1) 0 else Ok full_path);
   c ← rd full_path (zlen d + 1 - 1); h ← rd (t ++ 0 :: tq) 0;
   if (c =? BACKSLASH) && (h =? SLASH) then
     full_path ← wr full_path (zlen d + 1 - 1) 0; template ← wr (t ++ 0 :: tq) 0 BACKSLASH; Ok (full_path, template)
   else Ok (full_path, t ++ 0 :: tq)) = Ok template /\
  (exists h, rd template.2 0 = Ok h) /\ strcat template.1 0 template.2 0 = Ok full_path.
Proof.
  intros Hf Ht Hd. destruct (upto_last_some _ _ _ _ Hd) as [Hx [q Hq]].
  assert (Hnd : nonul d /\ nonul (d ++ [x])).
  { rewrite Hq, app_cons_snoc in Hf. apply Forall_app in Hf as [Hf _]. split; [|done]. by apply Forall_app in Hf as [? _]. }
  destruct Hnd as [Hnd Hndx]. replace (zlen t + 1) with (Z.of_nat (S (length t))) by (unfold zlen; lia).
  rewrite (dhcp4_copy file post d x q) by done. rewrite bind_Ok. replace (zlen d + 1 - 1) with (zlen d) by lia. rewrite rd_at, bind_Ok.
  assert (Hcat : forall r tm, cstring tm 0 r -> length r = length t -> exists fp,
            strcat (d ++ x :: replicate (S (length t)) 0) 0 tm 0 = Ok fp /\ cstring fp 0 (d ++ x :: r)).
  { intros r tm Hr Hl. destruct (strcat_zeros (d ++ [x]) r (length t) tm 0 Hndx Hr) as (fp & Hs & Hc); [lia|]. exists fp.
    rewrite <- app_assoc in Hs, Hc. done. }
  assert (Hcat0 : forall r tm, cstring tm 0 r -> length r = length t -> exists fp,
            strcat (d ++ 0 :: replicate (S (length t)) 0) 0 tm 0 = Ok fp /\ cstring fp 0 (d ++ r)).
  { intros r tm Hr Hl. apply (strcat_zeros d r (S (length t)) tm 0 Hnd Hr). lia. }
  assert (Htm : cstring (t ++ 0 :: tq) 0 t) by (by exists [], tq).
  assert (Hh : exists h, rd (t ++ 0 :: tq) 0 = Ok h /\ (h = SLASH /\ t = SLASH :: strip_slash t \/ (h =? SLASH) = false /\ strip_slash t = t)).
  { destruct t as [|h t]; [exists 0; split; [done|by right]|]. exists h. split; [done|]. unfold strip_slash. destruct (Z.eqb_spec h SLASH) as [->|]; [by left|by right]. }
  destruct Hh as (h & Hrd & Hh). rewrite Hrd, bind_Ok. destruct Hh as [[-> Hst] | [Hh Hst]].
  - apply orb_true_iff in Hx as [->%Z.eqb_eq | ->%Z.eqb_eq]; cbn [Z.eqb Pos.eqb andb SLASH BACKSLASH].
    + rewrite (wr_app_at d _ _ 0 (zlen d) eq_refl), bind_Ok, rd_at, !bind_Ok. cbn [Z.eqb andb].
      destruct (Hcat0 _ _ Htm eq_refl) as (fp & Hs & Hc). exists fp, (d ++ 0 :: replicate (S (length t)) 0, t ++ 0 :: tq). rewrite Hst in Hc at 1. by split_and!; [| |eexists|].
    + rewrite bind_Ok, rd_at, !bind_Ok. cbn [Z.eqb Pos.eqb andb]. rewrite (wr_app_at d _ _ 0 (zlen d) eq_refl), bind_Ok.
      assert (Hw : wr (t ++ 0 :: tq) 0 BACKSLASH = Ok ((BACKSLASH :: strip_slash t) ++ 0 :: tq)) by (rewrite Hst at 1; done). rewrite Hw, bind_Ok.
      destruct (Hcat0 (BACKSLASH :: strip_slash t) ((BACKSLASH :: strip_slash t) ++ 0 :: tq)) as (fp & Hs & Hc).
      * exists [], tq. split; [done|]. split; [done|]. constructor; [done|]. rewrite Hst in Ht. by apply Forall_cons_1 in Ht as [_ ?].
      * rewrite Hst at 2. done.
      * exists fp, (d ++ 0 :: replicate (S (length t)) 0, (BACKSLASH :: strip_slash t) ++ 0 :: tq). by split_and!; [| |eexists|].
  - rewrite Hh, andb_false_r, bind_Ok, rd_at, bind_Ok, bind_Ok, Hh, andb_false_r. destruct (Hcat _ _ Htm eq_refl) as (fp & Hs & Hc).
    exists fp, (d ++ x :: replicate (S (length t)) 0, t ++ 0 :: tq). rewrite Hst. by split_and!; [| |eexists|].
Qed.

(** DHCPv4 on packets of the right sizes. *)
Definition mode_ok (m : pxe_mode) : Prop :=
  packet_ok (DhcpAck m) /\ packet_ok (ProxyOffer m) /\ packet_ok (PxeReply m) /\ length (DhcpOptions m) = 1024%nat /\ bytes (DhcpOptions m).
Definition dhcp4_result (path_alloc : bool) (m : pxe_mode) (nm : list Z) (n : net) (r : EFI_STATUS * net) : Prop :=
  n_pxe r.2 = n_pxe n /\
  if path_alloc then
    r.1 = EFI_SUCCESS /\ n_tftp_addr r.2 = BootpSiAddr (chosen_packet m) ++ drop 4 (n_tftp_addr n) /\
    exists mem, n_full_path r.2 = Some mem /\ cstring mem 0 (dhcp4_path (c_text (BootpBootFile (chosen_packet m))) (translated nm))
  else r.1 = EFI_OUT_OF_RESOURCES /\ n_full_path r.2 = None /\ n_tftp_addr r.2 = n_tftp_addr n.

Lemma no_dir_first m : length m = 128%nat -> upto_last separator (c_text m) = None -> exists c, rd m 0 = Ok c /\ (c =? SLASH) = false.
Proof.
  intros Hl Hn. destruct (c_text_split m) as (post & Hm & _ & Hp). destruct (c_text m) as [|c l].
  - destruct Hp as [-> | [q ->]]; rewrite Hm in *; [done|]. by exists 0.
  - exists c. split; [by rewrite Hm|]. cbn [upto_last] in Hn. destruct (upto_last separator l) as [[]|]; [done|]. unfold separator in Hn. by destruct (c =? SLASH).
Qed.
Lemma strip_cstring t tq : nonul t -> exists h, rd (t ++ 0 :: tq) 0 = Ok h /\ cstring (t ++ 0 :: tq) (if h =? SLASH then 1 else 0) (strip_slash t).
Proof.
  intros Ht. destruct t as [|h t]; [exists 0; split; [done|by exists [], tq]|]. exists h. split; [done|]. cbn [strip_slash].
  destruct (h =? SLASH); [|by exists [], tq]. exists [h], tq. split; [done|]. split; [done|]. by apply Forall_cons_1 in Ht as [_ ?].
Qed.

Lemma parseDhcp4_ok path_alloc name nm m n : cstring name 0 nm -> mode_ok m ->
  exists r, parseDhcp4 path_alloc name m n = Ok r /\ dhcp4_result path_alloc m nm n r.
Proof.
  intros Hnm (Ha & Hp & Hr & _). unfold parseDhcp4, dhcp4_result. destruct (make_template_ok name nm Hnm) as [tq ->]. rewrite bind_Ok.
  assert (Ht : nonul (translated nm)) by (apply (translated_nonul (length nm)); [done|]; by destruct Hnm as (? & ? & _ & _ & ?)).
  set (t := translated nm) in *. clearbody t. rewrite (strlen_ok (t ++ 0 :: tq) 0 t ltac:(by exists [], tq)), bind_Ok.
  destruct (boot_packet_ok m Ha Hp Hr) as [-> [Hl Hsi]]. rewrite bind_Ok. destruct (directory_ok _ Hl) as (flen & -> & Hdl). rewrite bind_Ok, Hdl, bind_Ok.
  destruct path_alloc; cbn [negb]; [|by eexists]. unfold dhcp4_path.
  assert (Hrdn : rdn (BootpSiAddr (chosen_packet m)) 0 4 = Ok (BootpSiAddr (chosen_packet m))).
  { pose proof (rdn_app_mid [] (BootpSiAddr (chosen_packet m)) [] 0 4) as Hx. rewrite app_nil_r in Hx. apply Hx; [done|unfold zlen; by rewrite Hsi]. }
  destruct (c_text_split (BootpBootFile (chosen_packet m))) as (post & Hm & Hnf & _). set (dir := BootpBootFile (chosen_packet m)) in *. clearbody dir.
  destruct (upto_last separator (c_text dir)) as [[d x]|] eqn:Hd.
  - rewrite (proj2 (Z.ltb_lt 0 _)), (proj2 (Z.eqb_neq (zlen d + 1) 0)) by zlia. cbn [andb].
    destruct (dhcp4_dir (c_text dir) post t tq d x Hnf Ht Hd) as (mem & [fp tm] & Hmem & Hrun & [h Hh] & Hcat). cbn [fst snd] in *. rewrite <- Hm in Hrun. rewrite Hrun, bind_Ok.
    destruct (rd_in_range dir 0) as [c ->]; [unfold zlen; lia|]. rewrite bind_Ok, Hh, bind_Ok, Hcat, bind_Ok, Hrdn, bind_Ok. eexists. split; [done|].
    split_and!; [done..|by exists mem].
  - cbn [Z.ltb Z.compare Z.eqb andb]. destruct (no_dir_first dir Hl Hd) as (c & Hc & Hcs). rewrite bind_Ok, Hc, bind_Ok.
    destruct (strip_cstring t tq Ht) as (h & -> & Hst). rewrite bind_Ok, Hcs. cbn [negb andb].
    destruct (strcat_zeros [] (strip_slash t) (length t) (t ++ 0 :: tq) (if h =? SLASH then 1 else 0)) as (mem & Hcat & Hmem); [constructor|done|destruct t as [|? ?]; cbn; [|case_if; cbn]; lia|].
    cbn [app] in *. replace (Z.to_nat (0 + (zlen t + 1))) with (S (length t)) by (unfold zlen; lia). rewrite Hcat, bind_Ok, Hrdn, bind_Ok. eexists. split; [done|].
    split_and!; [done..|by exists mem].
Qed.

(** ** The address has sixteen bytes *)
Lemma front_groups_length fuel : forall m len i p a b ip r, front_groups fuel m len i p a b ip = Ok r -> length r.1.1.1 = length ip.
Proof.
  induction fuel as [|f IH]; intros m len i p a b ip r H; [done|]. cbn [front_groups] in H. destruct (negb (i <? len)); [by injection H as <-|].
  apply bind_inv in H as (c & _ & H). destruct (negb (c =? COLON)); [by apply IH in H|]. apply bind_inv in H as (m1 & _ & H). apply bind_inv in H as (v & _ & H).
  apply bind_inv in H as (ip1 & Hip & H). apply wr_length in Hip. apply bind_inv in H as (m2 & _ & H). apply bind_inv in H as (d & _ & H).
  destruct (d =? COLON); [by injection H as <-|]. apply IH in H. congruence.
Qed.
Lemma back_groups_length fuel : forall m i j p a b ip r, back_groups fuel m i j p a b ip = Ok r -> length r = length ip.
Proof.
  induction fuel as [|f IH]; intros m i j p a b ip r H; [done|]. cbn [back_groups] in H. destruct (negb (i <? j)); [by injection H as <-|].
  apply bind_inv in H as (c & _ & H). destruct (negb (c =? COLON)); [by apply IH in H|]. apply bind_inv in H as (t & _ & H). apply bind_inv in H as (m1 & _ & H).
  apply bind_inv in H as (v & _ & H). apply bind_inv in H as (ip1 & Hip & H). apply wr_length in Hip. apply bind_inv in H as (m2 & _ & H). apply IH in H. congruence.
Qed.
Lemma str2ip6_length m ip : str2ip6 m = Ok ip -> length ip = 8%nat.
Proof.
  unfold str2ip6. intros H. apply bind_inv in H as (dc & _ & H). destruct (7 <? dc); [by injection H as <-|]. apply bind_inv in H as (len & _ & H).
  apply bind_inv in H as (ok & _ & H). destruct (negb ok); [by injection H as <-|]. apply bind_inv in H as ([[[ip1 i] p] a] & Hf & H).
  apply front_groups_length in Hf. cbn [fst] in Hf. rewrite length_replicate in Hf. destruct (i =? len); [|by apply back_groups_length in H; congruence].
  apply bind_inv in H as (v & _ & H). apply wr_length in H. congruence.
Qed.
Lemma address_length s : nonul s -> zlen s < 256 -> length (address (ip6_spec s)) = 16%nat.
Proof.
  intros Hn Hl. pose proof (str2ip6_length _ _ (str2ip6_ok s [] Hn Hl)) as H8. unfold address.
  enough (Hg : forall l, length (concat (map (le_split 2) l)) = (2 * length l)%nat) by (by rewrite Hg, H8).
  induction l as [|v l IH]; [done|]. cbn [map concat]. rewrite length_app, IH, le_split_length. cbn. lia.
Qed.

(** Without memory for the path nothing else goes wrong. *)
Lemma extract_no_alloc url name n r : extract_tftp_info true url name n = Ok r -> exists n', extract_tftp_info false url name n = Ok (false, n') /\
  n_pxe n' = n_pxe n /\ (n_tftp_addr n' = n_tftp_addr n \/ n_tftp_addr n' = n_tftp_addr r.2).
Proof.
  unfold extract_tftp_info. intros H. apply bind_inv in H as (t & -> & H). rewrite bind_Ok. apply bind_inv in H as (d & -> & H). rewrite bind_Ok.
  destruct (negb (d =? 0)); [eexists; split; [done|by split; [|left]]|]. apply bind_inv in H as (c & -> & H). rewrite bind_Ok. destruct (negb (c =? 91)); [eexists; split; [done|by split; [|left]]|].
  apply bind_inv in H as (e & -> & H). rewrite bind_Ok. destruct e as [e|]; [|eexists; split; [done|by split; [|left]]]. apply bind_inv in H as (c2 & -> & H). rewrite bind_Ok.
  destruct (c2 =? 0); [eexists; split; [done|by split; [|left]]|]. apply bind_inv in H as (s & -> & H). rewrite bind_Ok. apply bind_inv in H as (s6 & -> & H). rewrite bind_Ok.
  apply bind_inv in H as (ip & -> & H). rewrite bind_Ok. cbv zeta in *. case_bool_decide; [injection H as <-; eexists; split; [done|by split; [|right]]|].
  apply bind_inv in H as (plen & -> & H). rewrite bind_Ok. apply bind_inv in H as (tlen & -> & H). rewrite bind_Ok. cbn [negb] in *.
  repeat (apply bind_inv in H as (? & _ & H)). injection H as <-. eexists. split; [done|]. by split; [|right].
Qed.

(** Any URL: what extract_tftp_info leaves is usable. *)
Definition usable (m : option pxe_mode) (ok : bool) (n : net) : Prop :=
  n_pxe n = m /\ length (n_tftp_addr n) = 16%nat /\ (ok = true -> exists mem path, n_full_path n = Some mem /\ cstring mem 0 path).
Lemma extract_usable pa u name nm n : cstring name 0 nm -> length (n_tftp_addr n) = 16%nat ->
  exists ok n', extract_tftp_info pa (u ++ [0]) name n = Ok (ok, n') /\ usable (n_pxe n) ok n'.
Proof.
  intros Hnm Hn. destruct (c_text_cstring u []) as (pre & q & Hu & Hz & Hnu). destruct pre; [|rewrite zlen_cons in Hz; zlia]. cbn [app] in Hu. rewrite Hu.
  destruct (extract_ok (c_text u) q name nm n Hnu Hnm) as ([ok n'] & He & Hi).
  assert (Hgood : usable (n_pxe n) ok n').
  { unfold tftp_info in Hi. destruct (tftp_url (c_text u)) as [[s path]|] eqn:E; [|injection Hi as -> ->; by split_and!].
    apply tftp_url_some in E as (Et & Hl & _). cbn [fst snd] in Hi. destruct Hi as (Hp & Ha & Hi). rewrite Et in Hnu. apply Forall_app in Hnu as [_ Hnu].
    apply Forall_cons_1 in Hnu as [_ Hnu]. apply Forall_app in Hnu as [Hns _].
    split_and!; [done|rewrite Ha; apply address_length; [done|lia]|]. intros ->. case_bool_decide; [by destruct Hi|]. destruct Hi as (_ & mem & Hm & Hc). by exists mem, (tftp_path path nm). }
  destruct pa; [by exists ok, n'|]. destruct (extract_no_alloc _ _ _ _ He) as (n2 & He2 & Hp & Ha). exists false, n2. split; [done|].
  split_and!; [done| |done]. destruct Ha as [-> | ->]; [done|apply Hgood].
Qed.

(** C17. Whatever is in the packets the network sent, and whether memory can be had or
    not: looking for the server and the path ends, stays within the packets, the
    buffers and the stack, leaves sixteen bytes of address, and when it reports success
    the path is a terminated string within its buffer. *)
Theorem parseNetbootinfo_safe ua pa name nm n m : n_pxe n = Some m -> mode_ok m -> cstring name 0 nm ->
  exists st n', parseNetbootinfo ua pa name n = Ok (st, n') /\ n_pxe n' = Some m /\ length (n_tftp_addr n') = 16%nat /\
  (st = EFI_SUCCESS -> exists mem path, n_full_path n' = Some mem /\ cstring mem 0 path).
Proof.
  intros Hm Hok Hnm. unfold parseNetbootinfo. rewrite Hm. cbv zeta. set (n0 := {| n_pxe := Some m; n_tftp_addr := replicate 16 0; n_full_path := n_full_path n |}).
  destruct (UsingIpv6 m).
  - unfold parseDhcp6. destruct Hok as (_ & _ & _ & Hl & Hb). unfold get_v6_bootfile_url.
    destruct (bootfile_safe (DhcpOptions m) ua Hb (S (length (DhcpOptions m))) 0) as [-> | [url ->]]; [done|unfold zlen; lia|unfold zlen; lia|..]; rewrite bind_Ok.
    { exists EFI_NOT_FOUND, n0. by split_and!. }
    destruct (extract_usable pa url name nm n0 Hnm eq_refl) as (ok & n' & -> & Hp & Ha & Hpath). rewrite bind_Ok. eexists _, n'. split_and!; [done..|].
    intros Hs. destruct ok; [by apply Hpath|discriminate Hs].
  - destruct (parseDhcp4_ok pa name nm m n0 Hnm Hok) as ([st n'] & -> & Hp & Hr). exists st, n'. cbn [fst snd] in *. split_and!; [done..| |].
    + destruct pa; [destruct Hr as (_ & -> & _)|by destruct Hr as (_ & _ & ->)]. destruct Hok as (Ha & Hb & Hc & _).
      destruct (boot_packet_ok m Ha Hb Hc) as [_ [_ Hsi]]. by rewrite length_app, Hsi.
    + intros ->. destruct pa; [|destruct Hr as [Hx _]; discriminate Hx]. destruct Hr as (_ & _ & mem & -> & Hmem). by eexists _, _.
Qed.

(** C39. DHCPv6, from the packet to the request: with a boot file URL among its options,
    whatever options stand in front of it, the next image is asked for from the server
    whose address the URL has in brackets, eight groups or fewer with two colons in the
    place of zeros, and in the directory of the URL's file. *)
Theorem netboot6_correct opts server path rest ip name nm n m : n_pxe n = Some m -> UsingIpv6 m = true ->
  DhcpOptions m = concat (map option_bytes opts) ++ option_bytes (59, URL_SCHEME ++ 91 :: server ++ 93 :: path) ++ rest ->
  Forall other_option opts -> written server ip -> zlen server < 40 -> address ip <> replicate 16 0 ->
  nonul path -> zlen path < 65000 -> cstring name 0 nm ->
  exists n' mem, parseNetbootinfo true true name n = Ok (EFI_SUCCESS, n') /\ n_tftp_addr n' = address ip /\
  n_full_path n' = Some mem /\ cstring mem 0 (tftp_path path nm).
Proof.
  intros Hm H6 Hopt Hopts Hw Hl Hne Hnp Hpl Hnm. unfold parseNetbootinfo, parseDhcp6. rewrite Hm, H6, Hopt. destruct (written_chars _ _ Hw) as [Hns H93].
  rewrite options_found; [|done|rewrite zlen_app, zlen_cons; change (zlen URL_SCHEME) with 7; zlia]. rewrite bind_Ok.
  set (n0 := {| n_pxe := Some m; n_tftp_addr := replicate 16 0; n_full_path := n_full_path n |}).
  assert (Hnu : nonul (URL_SCHEME ++ 91 :: server ++ 93 :: path)).
  { repeat (constructor; [done|]). apply Forall_app. split; [done|]. by constructor. }
  destruct (extract_ok _ [] name nm n0 Hnu Hnm) as ([ok n'] & -> & Hi). rewrite bind_Ok. unfold tftp_info in Hi. rewrite (proj2 (tftp_url_some _ server path)) in Hi by done.
  pose proof (str2ip6_written server ip [] Hw ltac:(lia)) as Hip. rewrite str2ip6_ok in Hip by (done || lia). injection Hip as <-.
  destruct Hi as (_ & Ha & Hi). rewrite bool_decide_false in Hi by done. cbn [fst snd] in *. destruct Hi as (-> & mem & Hmem & Hc). by exists n', mem.
Qed.

(** DHCPv4, from the packets to the request: the packet that names a boot file
    gives the server and the directory, and one separator stands between the directory
    and the name whichever of the two brought it. *)
Lemma netboot4_ok name nm n m : n_pxe n = Some m -> UsingIpv6 m = false -> mode_ok m -> cstring name 0 nm ->
  exists n' mem, parseNetbootinfo true true name n = Ok (EFI_SUCCESS, n') /\
  n_tftp_addr n' = BootpSiAddr (chosen_packet m) ++ replicate 12 0 /\
  n_full_path n' = Some mem /\ cstring mem 0 (dhcp4_path (c_text (BootpBootFile (chosen_packet m))) (translated nm)).
Proof.
  intros Hm H4 Hok Hnm. unfold parseNetbootinfo. rewrite Hm, H4. cbv zeta.
  set (n0 := {| n_pxe := Some m; n_tftp_addr := replicate 16 0; n_full_path := n_full_path n |}).
  destruct (parseDhcp4_ok true name nm m n0 Hnm Hok) as ([st n'] & -> & _ & Hst & Ha & mem & Hp & Hmem). cbn [fst snd] in *. subst st. by exists n', mem.
Qed.

(** ** The transfer *)
Section transfer.
Context (srv : tftp_server) (n : net) (file : list Z).
(** A server with the file, as Mtftp is documented: a buffer that is too small is
    answered with a size, that of the buffer or that of the file. *)
Hypothesis too_small : forall k, k < zlen file -> exists s d, Mtftp srv (n_tftp_addr n) (n_full_path n) k = (EFI_BUFFER_TOO_SMALL, s, d) /\ k <= s <= zlen file.
Hypothesis fits : forall k, zlen file <= k -> Mtftp srv (n_tftp_addr n) (n_full_path n) k = (EFI_SUCCESS, zlen file, file).

Lemma fetch_loop_ok j : forall k, zlen file < 2 ^ 63 -> 0 < k -> zlen file <= k * 2 ^ Z.of_nat j ->
  fetch_loop (replicate j true) srv n k = Ok (EFI_SUCCESS, Some file, zlen file).
Proof using too_small fits.
  induction j as [|j IH]; intros k Hfile Hk Hj.
  - cbn [replicate fetch_loop]. rewrite fits by (change (2 ^ Z.of_nat 0) with 1 in Hj; lia). done.
  - cbn [replicate fetch_loop]. destruct (Z_le_gt_dec (zlen file) k) as [Hle|Hgt]; [by rewrite fits|].
    destruct (too_small k) as (s & d & -> & Hs); [lia|]. rewrite bool_decide_true by done. unfold u64. rewrite Z.mod_small by lia.
    apply IH; [done|lia|]. rewrite Nat2Z.inj_succ, Z.pow_succ_r in Hj by lia. nia.
Qed.

(** The file arrives: starting with four megabytes the buffer grows until it
    holds the file, at most 41 times, and the caller gets the file and its size. *)
Lemma FetchNetbootimage_ok bufsiz : zlen file < 2 ^ 63 ->
  FetchNetbootimage (replicate 42 true) srv n bufsiz = Ok (EFI_SUCCESS, Some file, zlen file).
Proof using too_small fits.
  intros Hl. change (replicate 42 true) with (true :: replicate 41 true). cbn [FetchNetbootimage].
  apply fetch_loop_ok; [done|lia|]. change (4096 * 1024 * 2 ^ Z.of_nat 41) with (2 ^ 63). lia.
Qed.
End transfer.

(** ** Examples *)

(** fe80::1, 1::, ::1 and one that is refused. *)
Example str2ip6_examples :
  str2ip6 [102; 101; 56; 48; 58; 58; 49; 0] = Ok [htons 65152; 0; 0; 0; 0; 0; 0; htons 1] /\
  str2ip6 [49; 58; 58; 0] = Ok [256; 0; 0; 0; 0; 0; 0; 0] /\ str2ip6 [58; 58; 49; 0] = Ok [0; 0; 0; 0; 0; 0; 0; 256] /\
  str2ip6 [58; 58; 103; 0] = Ok [0; 0; 0; 0; 0; 0; 0; 0].
Proof. by vm_compute. Qed.

Definition demo_name : list Z := [92; 103; 0].
Definition demo_packet (file : list Z) : dhcp4 := {| BootpSiAddr := [10; 0; 0; 1]; BootpBootFile := file ++ replicate (128 - length file) 0 |}.
Definition demo_mode (v6 : bool) (options : list Z) : pxe_mode :=
  {| Started := true; DhcpAckReceived := true; ProxyOfferReceived := true; PxeReplyReceived := false; UsingIpv6 := v6;
     DhcpAck := demo_packet []; ProxyOffer := demo_packet [97; 47; 115]; PxeReply := demo_packet []; DhcpOptions := options |}.
Definition demo_net (m : pxe_mode) : net := {| n_pxe := Some m; n_tftp_addr := replicate 16 0; n_full_path := None |}.
Definition demo_options : list Z := option_bytes (1, [7]) ++ option_bytes (59, URL_SCHEME ++ 91 :: [58; 58; 49] ++ 93 :: [47; 97; 47; 115]) ++ replicate 1000 0.

Lemma demo_mode_ok v6 : mode_ok (demo_mode v6 (replicate 1024 0)).
Proof. split_and!; try by vm_compute. apply Forall_replicate. unfold is_byte. lia. Qed.

Lemma parseNetbootinfo_safe_witness : exists st n', parseNetbootinfo true true demo_name (demo_net (demo_mode true (replicate 1024 0))) = Ok (st, n') /\ st = EFI_NOT_FOUND.
Proof.
  destruct (parseNetbootinfo_safe true true demo_name [92; 103] (demo_net (demo_mode true (replicate 1024 0))) (demo_mode true (replicate 1024 0)) eq_refl (demo_mode_ok true))
    as (st & n' & H & _); [by exists [], []; split; [|split; [|repeat constructor; discriminate]]|].
  exists st, n'. split; [exact H|]. vm_compute in H. by injection H as <- _.
Defined.

Lemma netboot6_correct_witness : exists n' mem, parseNetbootinfo true true demo_name (demo_net (demo_mode true demo_options)) = Ok (EFI_SUCCESS, n') /\
  n_tftp_addr n' = replicate 15 0 ++ [1] /\ n_full_path n' = Some mem /\ cstring mem 0 [47; 97; 47; 103].
Proof.
  refine (netboot6_correct [(1, [7])] [58; 58; 49] [47; 97; 47; 115] (replicate 1000 0) [0; 0; 0; 0; 0; 0; 0; 256] demo_name [92; 103]
           (demo_net (demo_mode true demo_options)) (demo_mode true demo_options) eq_refl eq_refl eq_refl _ _ eq_refl _ _ eq_refl _).
  - repeat constructor; cbn; lia.
  - right. exists [], [[49]]. split; [constructor|]. split; [repeat constructor; discriminate|]. split; [cbn; lia|]. split; vm_compute; reflexivity.
  - vm_compute. discriminate.
  - repeat constructor; discriminate.
  - by exists [], []; split; [|split; [|repeat constructor; discriminate]].
Defined.
