(* ===== verification/HttpBoot.v ===== *)
(** * httpboot.c: the next image over HTTP

    When shim was loaded over HTTP its device path ends in the URI it came from.
    The next image is fetched from the same directory of the same server, through the
    HTTP protocol of the firmware, whose answers are parameters: the server decides
    about the status, the headers and the body.  Strings are buffers of bytes with a
    NUL.  Messages are left out. *)
From stdpp Require Import base list numbers option strings.
From Stdlib Require Import ZArith Lia.
From S2P Require Import Prelude.
From S2P Require Import Efi.
From S2P Require Import Str.
From S2P Require Import StrLib.
From S2P Require Import Netboot.
Local Open Scope Z_scope.

(** ** include/http.h: the status codes *)
Definition HTTP_STATUS_UNSUPPORTED_STATUS : Z := 0.
Definition HTTP_STATUS_100_CONTINUE : Z := 1.
Definition HTTP_STATUS_200_OK : Z := 3.
Definition HTTP_STATUS_300_MULTIPLE_CHIOCES : Z := 10.
Definition HTTP_STATUS_307_TEMPORARY_REDIRECT : Z := 16.
Definition HTTP_STATUS_400_BAD_REQUEST : Z := 17.
Definition HTTP_STATUS_401_UNAUTHORIZED : Z := 18.
Definition HTTP_STATUS_402_PAYMENT_REQUIRED : Z := 19.
Definition HTTP_STATUS_403_FORBIDDEN : Z := 20.
Definition HTTP_STATUS_404_NOT_FOUND : Z := 21.
Definition HTTP_STATUS_405_METHOD_NOT_ALLOWED : Z := 22.
Definition HTTP_STATUS_406_NOT_ACCEPTABLE : Z := 23.
Definition HTTP_STATUS_407_PROXY_AUTHENTICATION_REQUIRED : Z := 24.
Definition HTTP_STATUS_408_REQUEST_TIME_OUT : Z := 25.
Definition HTTP_STATUS_409_CONFLICT : Z := 26.
Definition HTTP_STATUS_410_GONE : Z := 27.
Definition HTTP_STATUS_411_LENGTH_REQUIRED : Z := 28.
Definition HTTP_STATUS_412_PRECONDITION_FAILED : Z := 29.
Definition HTTP_STATUS_413_REQUEST_ENTITY_TOO_LARGE : Z := 30.
Definition HTTP_STATUS_414_REQUEST_URI_TOO_LARGE : Z := 31.
Definition HTTP_STATUS_415_UNSUPPORTED_MEDIA_TYPE : Z := 32.
Definition HTTP_STATUS_416_REQUESTED_RANGE_NOT_SATISFIED : Z := 33.
Definition HTTP_STATUS_417_EXPECTATION_FAILED : Z := 34.
Definition HTTP_STATUS_500_INTERNAL_SERVER_ERROR : Z := 35.
Definition HTTP_STATUS_501_NOT_IMPLEMENTED : Z := 36.
Definition HTTP_STATUS_502_BAD_GATEWAY : Z := 37.
Definition HTTP_STATUS_503_SERVICE_UNAVAILABLE : Z := 38.
Definition HTTP_STATUS_504_GATEWAY_TIME_OUT : Z := 39.
Definition HTTP_STATUS_505_HTTP_VERSION_NOT_SUPPORTED : Z := 40.
Definition EFI_DEVICE_ERROR : EFI_STATUS := EFI_OTHER_ERROR 7.
Definition EFI_NO_MEDIA : EFI_STATUS := EFI_OTHER_ERROR 12.
Definition EFI_MEDIA_CHANGED : EFI_STATUS := EFI_OTHER_ERROR 13.
Definition EFI_TIMEOUT : EFI_STATUS := EFI_OTHER_ERROR 18.
Definition EFI_INCOMPATIBLE_VERSION : EFI_STATUS := EFI_OTHER_ERROR 25.

Definition ascii_to_int (m : list Z) (str : Z) : res Z :=
  str ← skip_while (fun c => c =? 32) (S (length m)) m str; decimal_loop (S (length m)) m str 0.

Definition convert_http_status_code (c : Z) : Z :=
  if (HTTP_STATUS_100_CONTINUE <=? c) && (c <? HTTP_STATUS_200_OK) then c - HTTP_STATUS_100_CONTINUE + 100
  else if (HTTP_STATUS_200_OK <=? c) && (c <? HTTP_STATUS_300_MULTIPLE_CHIOCES) then c - HTTP_STATUS_200_OK + 200
  else if (HTTP_STATUS_300_MULTIPLE_CHIOCES <=? c) && (c <? HTTP_STATUS_400_BAD_REQUEST) then c - HTTP_STATUS_300_MULTIPLE_CHIOCES + 300
  else if (HTTP_STATUS_400_BAD_REQUEST <=? c) && (c <? HTTP_STATUS_500_INTERNAL_SERVER_ERROR) then c - HTTP_STATUS_400_BAD_REQUEST + 400
  else if HTTP_STATUS_500_INTERNAL_SERVER_ERROR <=? c then c - HTTP_STATUS_500_INTERNAL_SERVER_ERROR + 500
  else 0.

Definition efi_status_from_http_status (c : Z) : EFI_STATUS :=
  let one_of := existsb (Z.eqb c) in
  if one_of [HTTP_STATUS_400_BAD_REQUEST; HTTP_STATUS_411_LENGTH_REQUIRED; HTTP_STATUS_413_REQUEST_ENTITY_TOO_LARGE; HTTP_STATUS_414_REQUEST_URI_TOO_LARGE;
         HTTP_STATUS_415_UNSUPPORTED_MEDIA_TYPE; HTTP_STATUS_416_REQUESTED_RANGE_NOT_SATISFIED; HTTP_STATUS_417_EXPECTATION_FAILED] then EFI_INVALID_PARAMETER
  else if one_of [HTTP_STATUS_401_UNAUTHORIZED; HTTP_STATUS_402_PAYMENT_REQUIRED; HTTP_STATUS_403_FORBIDDEN; HTTP_STATUS_407_PROXY_AUTHENTICATION_REQUIRED] then EFI_ACCESS_DENIED
  else if one_of [HTTP_STATUS_404_NOT_FOUND; HTTP_STATUS_410_GONE] then EFI_NOT_FOUND
  else if one_of [HTTP_STATUS_405_METHOD_NOT_ALLOWED; HTTP_STATUS_501_NOT_IMPLEMENTED] then EFI_UNSUPPORTED
  else if one_of [HTTP_STATUS_406_NOT_ACCEPTABLE] then EFI_NO_MEDIA
  else if one_of [HTTP_STATUS_408_REQUEST_TIME_OUT; HTTP_STATUS_504_GATEWAY_TIME_OUT] then EFI_TIMEOUT
  else if one_of [HTTP_STATUS_409_CONFLICT; HTTP_STATUS_412_PRECONDITION_FAILED] then EFI_MEDIA_CHANGED
  else if one_of [HTTP_STATUS_500_INTERNAL_SERVER_ERROR; HTTP_STATUS_502_BAD_GATEWAY] then EFI_DEVICE_ERROR
  else if one_of [HTTP_STATUS_503_SERVICE_UNAVAILABLE] then EFI_NOT_READY
  else if one_of [HTTP_STATUS_505_HTTP_VERSION_NOT_SUPPORTED] then EFI_INCOMPATIBLE_VERSION
  else EFI_HTTP_ERROR.

(** ** Device paths *)

(** The nodes of an unpacked device path as the code tells them apart.  A URI is not
    terminated in its node: [mem] is the memory from it to the end of the path. *)
Record ip4_path : Type := { ip4_LocalIpAddress : list Z; ip4_GatewayIpAddress : list Z; ip4_SubnetMask : list Z }.
Record ip6_path : Type := { ip6_LocalIpAddress : list Z; ip6_PrefixLength : Z; ip6_GatewayIpAddress : list Z }.
Inductive dp_node : Type :=
| MacNode (MacAddress : list Z)
| Ip4Node (n : ip4_path)
| Ip6Node (n : ip6_path)
| UriNode (mem : list Z)
| OtherNode.

(** The static variables. *)
Record http_state : Type := {
  mac_addr : list Z;
  ip4_node : ip4_path;
  ip6_node : ip6_path;
  is_ip6 : bool;
  uri : option (list Z)
}.
Definition with_mac (s : http_state) (m : list Z) : http_state :=
  {| mac_addr := m; ip4_node := ip4_node s; ip6_node := ip6_node s; is_ip6 := is_ip6 s; uri := uri s |}.
Definition with_ip4 (s : http_state) (n : ip4_path) : http_state :=
  {| mac_addr := mac_addr s; ip4_node := n; ip6_node := ip6_node s; is_ip6 := false; uri := uri s |}.
Definition with_ip6 (s : http_state) (n : ip6_path) : http_state :=
  {| mac_addr := mac_addr s; ip4_node := ip4_node s; ip6_node := n; is_ip6 := true; uri := uri s |}.
Definition with_uri (s : http_state) (u : option (list Z)) : http_state :=
  {| mac_addr := mac_addr s; ip4_node := ip4_node s; ip6_node := ip6_node s; is_ip6 := is_ip6 s; uri := u |}.

Fixpoint find_uri (alloc : bool) (nodes : list dp_node) (ip_found : bool) (s : http_state) : res (bool * http_state) :=
  match nodes with
  | [] => Ok (false, s)
  | MacNode m :: Node => find_uri alloc Node ip_found (with_mac s m)
  | Ip6Node n :: Node => find_uri alloc Node true (with_ip6 s n)
  | Ip4Node n :: Node => find_uri alloc Node true (with_ip4 s n)
  | UriNode mem :: Node =>
      if ip_found then
        match Node with
        | _ :: _ => Ok (false, s)
        | [] =>
            uri_size ← strlen mem 0;
            if negb alloc then Ok (false, with_uri s None) else u ← rdn mem 0 (uri_size + 1); Ok (true, with_uri s (Some u))
        end
      else find_uri alloc Node ip_found s
  | OtherNode :: Node => find_uri alloc Node ip_found s
  end.
(** [path]: the unpacked device path, if it could be had. *)
Definition find_httpboot (alloc : bool) (path : option (list dp_node)) (s : http_state) : res (bool * http_state) :=
  let s := with_uri s None in
  match path with None => Ok (false, s) | Some nodes => find_uri alloc nodes false s end.

(** ** URIs *)
Definition HTTP : list Z := [104; 116; 116; 112; 58; 47; 47; 0].
Definition HTTPS : list Z := [104; 116; 116; 112; 115; 58; 47; 47; 0].
(** The two comparisons: the length of the scheme. *)
Definition scheme_length (url : list Z) : res (option Z) :=
  d ← strncmp url 0 HTTP 0 7;
  if d =? 0 then Ok (Some 7)
  else d ← strncmp url 0 HTTPS 0 8; Ok (if d =? 0 then Some 8 else None).

Fixpoint path_length (fuel : nat) (m : list Z) (ptr count path_len : Z) : res Z :=
  match fuel with
  | O => NoFuel
  | S f =>
      c ← rd m ptr;
      if c =? 0 then Ok path_len
      else path_length f m (ptr + 1) (count + 1) (if c =? SLASH then count + 1 else path_len)
  end.
Definition generate_next_uri (alloc : bool) (current_uri next_loader : list Z) : res (EFI_STATUS + list Z) :=
  scheme ← scheme_length current_uri;
  match scheme with
  | None => Ok (inl EFI_INVALID_PARAMETER)
  | Some count =>
      next_len ← strlen next_loader 0;
      path_len ← path_length (S (length current_uri)) current_uri count count 0;
      if negb alloc then Ok (inl EFI_OUT_OF_RESOURCES)
      else
        path ← rdn current_uri 0 path_len;
        u ← wrn (replicate (Z.to_nat (path_len + next_len + 1)) 0) 0 path;
        next ← rdn next_loader 0 next_len;
        u ← wrn u path_len next;
        u ← wr u (path_len + next_len) 0;
        Ok (inr u)
  end.

Fixpoint host_length (fuel : nat) (m : list Z) (ptr host_len : Z) : res Z :=
  match fuel with
  | O => NoFuel
  | S f => c ← rd m ptr; if (c =? SLASH) || (c =? 0) then Ok host_len else host_length f m (ptr + 1) (host_len + 1)
  end.
Definition extract_hostname (alloc : bool) (url : list Z) : res (EFI_STATUS + list Z) :=
  scheme ← scheme_length url;
  match scheme with
  | None => Ok (inl EFI_INVALID_PARAMETER)
  | Some start =>
      host_len ← host_length (S (length url)) url start 0;
      if negb alloc then Ok (inl EFI_OUT_OF_RESOURCES)
      else
        host ← rdn url start host_len;
        h ← wrn (replicate (Z.to_nat (host_len + 1)) 0) 0 host;
        h ← wr h host_len 0;
        Ok (inr h)
  end.

(** ** The network card *)
Fixpoint has_mac (mac : list Z) (nodes : list dp_node) : bool :=
  match nodes with
  | [] => false
  | MacNode m :: Node => bool_decide (mac = m) || has_mac mac Node
  | _ :: Node => has_mac mac Node
  end.
Fixpoint nic_with_mac (mac : list Z) (handles : list (Z * option (list dp_node))) : option Z :=
  match handles with
  | [] => None
  | (h, None) :: handles => nic_with_mac mac handles
  | (h, Some nodes) :: handles => if has_mac mac nodes then Some h else nic_with_mac mac handles
  end.
(** [handles]: the answer of LocateHandleBuffer with the unpacked paths. *)
Definition get_nic_handle (handles : option (list (Z * option (list dp_node)))) (mac : list Z) : option Z :=
  match handles with None => None | Some handles => nic_with_mac mac handles end.

(** What SetData of the configuration protocols is asked for. *)
Inductive ip_setting : Type :=
| ManualAddress4 (Address SubnetMask : list Z)
| Gateway4 (gateway : list Z)
| ManualAddress6 (Address : list Z) (PrefixLength : Z)
| Gateway6 (gateway : list Z).
Definition is_unspecified_ip4addr (ip4 : list Z) : bool := forallb (fun b => b =? 0) (take 4 ip4).
Definition is_unspecified_ip6addr (ip6 : list Z) : bool := forallb (fun b => b =? 0) (take 16 ip6).

(** Both functions: the address, then the gateway if there is one.  The settings that
    were accepted are the second result. *)
Section settings.
Context (SetData : ip_setting -> EFI_STATUS).
Definition set_ip4 (config : EFI_STATUS) (n : ip4_path) : EFI_STATUS * list ip_setting :=
  if EFI_ERROR config then (config, [])
  else
    let ip4 := ManualAddress4 (ip4_LocalIpAddress n) (ip4_SubnetMask n) in
    if EFI_ERROR (SetData ip4) then (SetData ip4, [])
    else if is_unspecified_ip4addr (ip4_GatewayIpAddress n) then (EFI_SUCCESS, [ip4])
    else
      let gateway := Gateway4 (ip4_GatewayIpAddress n) in
      if EFI_ERROR (SetData gateway) then (SetData gateway, [ip4]) else (EFI_SUCCESS, [ip4; gateway]).
Definition set_ip6 (config : EFI_STATUS) (n : ip6_path) : EFI_STATUS * list ip_setting :=
  if EFI_ERROR config then (config, [])
  else
    let ip6 := ManualAddress6 (ip6_LocalIpAddress n) (ip6_PrefixLength n) in
    if EFI_ERROR (SetData ip6) then (SetData ip6, [])
    else if is_unspecified_ip6addr (ip6_GatewayIpAddress n) then (EFI_SUCCESS, [ip6])
    else
      let gateway := Gateway6 (ip6_GatewayIpAddress n) in
      if EFI_ERROR (SetData gateway) then (SetData gateway, [ip6]) else (EFI_SUCCESS, [ip6; gateway]).
End settings.

(** ** The HTTP protocol *)

(** An answer of Response: its status, that of the token once it is done ([None]: it
    never is), and the message. *)
Record http_response : Type := {
  rs_status : EFI_STATUS;
  rs_token : option EFI_STATUS;
  rs_StatusCode : Z;
  rs_Headers : list (list Z * list Z);
  rs_Body : list Z
}.
Record http_env : Type := {
  he_handles : option (list (Z * option (list dp_node)));
  he_config4 : EFI_STATUS;
  he_config6 : EFI_STATUS;
  he_SetData : ip_setting -> EFI_STATUS;
  he_OpenProtocol : Z -> EFI_STATUS;
  he_CreateChild : EFI_STATUS;
  he_HandleProtocol : EFI_STATUS;
  he_Configure : bool -> EFI_STATUS;
  he_url_alloc : bool;
  he_CreateEvent : EFI_STATUS;
  he_Request : list Z -> list Z -> EFI_STATUS;
  he_request_done : option EFI_STATUS;
  he_CreateEvent2 : EFI_STATUS;
  he_responses : list http_response;
  he_pool : Z -> option (list Z);
  he_DestroyChild : EFI_STATUS;
  he_next_alloc : bool;
  he_host_alloc : bool
}.

Definition configure_http (env : http_env) (ip6 : bool) : EFI_STATUS := he_Configure env ip6.

(** The loop that polls ends when the token is done; a token that is not done is
    waited for without end. *)
Definition send_http_request (env : http_env) (hostname uri : list Z) : res EFI_STATUS :=
  if negb (he_url_alloc env) then Ok EFI_OUT_OF_RESOURCES
  else if EFI_ERROR (he_CreateEvent env) then Ok (he_CreateEvent env)
  else
    let efi_status := he_Request env uri hostname in
    if EFI_ERROR efi_status then Ok efi_status
    else match he_request_done env with
         | None => NoFuel
         | Some token => Ok (if EFI_ERROR token then token else efi_status)
         end.

Definition CONTENT_LENGTH : list Z := [67; 111; 110; 116; 101; 110; 116; 45; 76; 101; 110; 103; 116; 104; 0].
(** The loop over the headers; [None]: two lengths that differ, which leaves the first
    one in [*buf_size]. *)
Fixpoint content_length (headers : list (list Z * list Z)) (buf_size : Z) (buf_size_set : bool) : res (bool * Z) :=
  match headers with
  | [] => Ok (true, buf_size)
  | (FieldName, FieldValue) :: headers =>
      d ← strcasecmp FieldName 0 CONTENT_LENGTH 0;
      if d =? 0 then
        new_buf_size ← ascii_to_int FieldValue 0;
        if buf_size_set && negb (new_buf_size =? buf_size) then Ok (false, buf_size)
        else content_length headers new_buf_size true
      else content_length headers buf_size buf_size_set
  end.

Definition sizeof_rx_buffer : Z := 9216.
(** What Response leaves in rx_buffer, BodyLength bytes of it. *)
Definition receive_body (r : http_response) : res (list Z) :=
  rx_buffer ← wrn (replicate (Z.to_nat sizeof_rx_buffer) 0) 0 (rs_Body r); rdn rx_buffer 0 (zlen (rs_Body r)).

Fixpoint receive_rest (responses : list http_response) (efi_status : EFI_STATUS) (buffer : list Z) (buf_size downloaded : Z) : res (EFI_STATUS * list Z) :=
  if negb (downloaded <? buf_size) then Ok (efi_status, buffer)
  else
    match responses with
    | [] => NoFuel
    | r :: responses =>
        if EFI_ERROR (rs_status r) then Ok (rs_status r, buffer)
        else match rs_token r with
             | None => NoFuel
             | Some token =>
                 if EFI_ERROR token then Ok (token, buffer)
                 else
                   let BodyLength := zlen (rs_Body r) in
                   if buf_size <? u64 (BodyLength + downloaded) then Ok (EFI_BAD_BUFFER_SIZE, buffer)
                   else
                     body ← receive_body r;
                     buffer ← wrn buffer downloaded body;
                     receive_rest responses (rs_status r) buffer buf_size (downloaded + BodyLength)
             end
    end.

(** The status, [*buffer] and [*buf_size], which are NULL and 0 before; a buffer that
    was freed is [None] as well. *)
Definition receive_http_response (env : http_env) : res (EFI_STATUS * option (list Z) * Z) :=
  if EFI_ERROR (he_CreateEvent2 env) then Ok (he_CreateEvent2 env, None, 0)
  else
    match he_responses env with
    | [] => NoFuel
    | r :: responses =>
        if EFI_ERROR (rs_status r) then Ok (rs_status r, None, 0)
        else match rs_token r with
             | None => NoFuel
             | Some token =>
                 if EFI_ERROR token then Ok (token, None, 0)
                 else if negb (rs_StatusCode r =? HTTP_STATUS_200_OK) then Ok (efi_status_from_http_status (rs_StatusCode r), None, 0)
                 else
                   '(ok, buf_size) ← content_length (rs_Headers r) 0 false;
                   let BodyLength := zlen (rs_Body r) in
                   if negb ok || (buf_size =? 0) then Ok (rs_status r, None, buf_size)
                   else if buf_size <? BodyLength then Ok (EFI_BAD_BUFFER_SIZE, None, buf_size)
                   else
                     match he_pool env buf_size with
                     | None => Ok (rs_status r, None, buf_size)
                     | Some buffer =>
                         body ← receive_body r;
                         buffer ← wrn buffer 0 body;
                         '(efi_status, buffer) ← receive_rest responses (rs_status r) buffer buf_size BodyLength;
                         Ok (efi_status, if EFI_ERROR efi_status then None else Some buffer, buf_size)
                     end
             end
    end.

Definition http_fetch (env : http_env) (device : Z) (hostname uri : list Z) (is_ip6 : bool) : res (EFI_STATUS * option (list Z) * Z) :=
  if EFI_ERROR (he_OpenProtocol env device) then Ok (he_OpenProtocol env device, None, 0)
  else if EFI_ERROR (he_CreateChild env) then Ok (he_CreateChild env, None, 0)
  else
    '(efi_status, buffer, buf_size) ←
      (if EFI_ERROR (he_HandleProtocol env) then Ok (he_HandleProtocol env, None, 0)
       else if EFI_ERROR (configure_http env is_ip6) then Ok (configure_http env is_ip6, None, 0)
       else
         efi_status ← send_http_request env hostname uri;
         if EFI_ERROR efi_status then Ok (efi_status, None, 0) else receive_http_response env);
    Ok (if EFI_ERROR efi_status then efi_status else if EFI_ERROR (he_DestroyChild env) then he_DestroyChild env else EFI_SUCCESS, buffer, buf_size).

(** The allocation of next_loader is not checked by the code and succeeds here. *)
Definition httpboot_fetch_buffer (env : http_env) (name : list Z) (s : http_state) : res (EFI_STATUS * option (list Z) * Z * http_state) :=
  match uri s with
  | None => Ok (EFI_NOT_READY, None, 0, s)
  | Some u =>
      let error st := Ok (st, None, 0, with_uri s None) in
      len ← strlen name 0;
      next_loader ← translate_slashes (replicate (Z.to_nat (len + 1)) 0) 0 name 0;
      r ← generate_next_uri (he_next_alloc env) u next_loader;
      match r with
      | inl efi_status => error efi_status
      | inr next_uri =>
          r ← extract_hostname (he_host_alloc env) u;
          match r with
          | inl efi_status => error efi_status
          | inr hostname =>
              match get_nic_handle (he_handles env) (mac_addr s) with
              | None => error EFI_NOT_FOUND
              | Some nic =>
                  let (efi_status, _) := if negb (is_ip6 s) then set_ip4 (he_SetData env) (he_config4 env) (ip4_node s)
                                         else set_ip6 (he_SetData env) (he_config6 env) (ip6_node s) in
                  if EFI_ERROR efi_status then error efi_status
                  else
                    '(efi_status, buffer, buf_size) ← http_fetch env nic hostname next_uri (is_ip6 s);
                    Ok (efi_status, buffer, buf_size, with_uri s None)
              end
          end
      end
  end.

(** ** URIs *)
Definition http_scheme : list Z := [104; 116; 116; 112; 58; 47; 47].
Definition https_scheme : list Z := [104; 116; 116; 112; 115; 58; 47; 47].
Definition scheme_of (u : list Z) : option (list Z) :=
  if bool_decide (take 7 u = http_scheme) then Some http_scheme
  else if bool_decide (take 8 u = https_scheme) then Some https_scheme else None.
Definition is_slash (c : Z) : bool := c =? SLASH.
(** The URI up to its last slash behind the scheme and, in its place, the name. *)
Definition next_uri (scheme rest name : list Z) : list Z :=
  match upto_last is_slash rest with Some (d, _) => scheme ++ d ++ SLASH :: name | None => name end.
Definition host_of (rest : list Z) : list Z := fst (span (fun c => negb (is_slash c)) rest).

Lemma strncmp_scheme u q sch n : nonul u -> nonul sch -> n = zlen sch ->
  exists d, strncmp (u ++ 0 :: q) 0 (sch ++ [0]) 0 n = Ok d /\ (d =? 0) = bool_decide (take (length sch) u = sch).
Proof.
  intros Hu Hs ->. destruct (strncmp_front (u ++ 0 :: q) 0 u (sch ++ [0]) 0 sch) as (d & Hd & Hz); [by exists [], q|by exists [], []|].
  exists d. split; [done|]. unfold at_front in Hz. case_bool_decide; [apply Z.eqb_eq|apply Z.eqb_neq]; tauto.
Qed.
Lemma scheme_length_ok u q : nonul u -> scheme_length (u ++ 0 :: q) = Ok (zlen <$> scheme_of u).
Proof.
  intros Hu. unfold scheme_length, scheme_of.
  destruct (strncmp_scheme u q http_scheme 7 Hu ltac:(repeat constructor; done) eq_refl) as (d & Hd & Ed). change (http_scheme ++ [0]) with HTTP in Hd. rewrite Hd, bind_Ok, Ed.
  change (length http_scheme) with 7%nat. destruct (decide (take 7 u = http_scheme)) as [H7|H7]; [by rewrite !bool_decide_true|]. rewrite !bool_decide_false by done.
  destruct (strncmp_scheme u q https_scheme 8 Hu ltac:(repeat constructor; done) eq_refl) as (d2 & Hd2 & Ed2). change (https_scheme ++ [0]) with HTTPS in Hd2. rewrite Hd2, bind_Ok, Ed2.
  change (length https_scheme) with 8%nat. destruct (decide (take 8 u = https_scheme)); [by rewrite !bool_decide_true|by rewrite !bool_decide_false].
Qed.
Lemma scheme_of_split u sch : scheme_of u = Some sch -> exists rest, u = sch ++ rest.
Proof.
  unfold scheme_of. case_bool_decide as H1; [intros [= <-]; exists (drop 7 u); rewrite <- H1; by rewrite take_drop|].
  case_bool_decide as H2; [|done]. intros [= <-]. exists (drop 8 u). rewrite <- H2. by rewrite take_drop.
Qed.

Lemma path_length_ok q s : nonul s -> forall pre fuel pl, (length s < fuel)%nat ->
  path_length fuel (pre ++ s ++ 0 :: q) (zlen pre) (zlen pre) pl =
  Ok (match upto_last is_slash s with Some (d, _) => zlen pre + zlen d + 1 | None => pl end).
Proof.
  induction s as [|c s IH]; intros Hn pre [|f] pl Hf; cbn [length] in Hf; try lia; cbn [path_length upto_last].
  - cbn [app]. by rewrite rd_at.
  - apply Forall_cons_1 in Hn as [Hc Hn]. cbn [app]. rewrite rd_at, bind_Ok, (proj2 (Z.eqb_neq c 0) Hc). rewrite app_cons_snoc.
    replace (zlen pre + 1) with (zlen (pre ++ [c])) by zlia. rewrite IH by (done || lia).
    destruct (upto_last is_slash s) as [[d x]|]; [f_equal; zlia|]. unfold is_slash. destruct (c =? SLASH); [|done]. f_equal. zlia.
Qed.
Lemma host_length_ok q s : nonul s -> forall pre fuel k, (length s < fuel)%nat ->
  host_length fuel (pre ++ s ++ 0 :: q) (zlen pre) k = Ok (k + zlen (host_of s)).
Proof.
  unfold host_of. induction s as [|c s IH]; intros Hn pre [|f] k Hf; cbn [length] in Hf; try lia; cbn [host_length span].
  - cbn [app]. rewrite rd_at, bind_Ok. cbn. f_equal. change (zlen (@nil Z)) with 0. lia.
  - apply Forall_cons_1 in Hn as [Hc Hn]. cbn [app]. rewrite rd_at, bind_Ok, (proj2 (Z.eqb_neq c 0) Hc), orb_false_r. unfold is_slash at 1. destruct (c =? SLASH).
    + cbn. f_equal. change (zlen (@nil Z)) with 0. lia.
    + cbn [negb]. rewrite app_cons_snoc. replace (zlen pre + 1) with (zlen (pre ++ [c])) by zlia. rewrite IH by (done || lia).
      destruct (span _ s) as [a b]. cbn [fst]. f_equal. zlia.
Qed.

(** A copy and its NUL at the end of a new buffer. *)
Lemma store_last a b n : n = (length a + length b + 1)%nat ->
  (u ← wrn (replicate n 0) 0 a; u ← wrn u (zlen a) b; wr u (zlen a + zlen b) 0) = Ok (a ++ b ++ [0]).
Proof.
  intros ->. replace (replicate (length a + length b + 1) 0) with ([] ++ replicate (length a) 0 ++ replicate (length b) 0 ++ [0])
    by (cbn [app]; change [0] with (replicate 1 0); rewrite <- !replicate_add; f_equal; lia).
  rewrite wrn_app_mid, bind_Ok by (done || by rewrite length_replicate). cbn [app]. rewrite wrn_app_mid, bind_Ok by (done || by rewrite length_replicate).
  rewrite (app_assoc a). rewrite (wr_app_at (a ++ b) 0 [] 0) by zlia. by rewrite <- app_assoc.
Qed.

(** The new URI, or none for another scheme. *)
Definition next_uri_result (u name : list Z) : EFI_STATUS + list Z :=
  match scheme_of u with Some sch => inr (next_uri sch (drop (length sch) u) name ++ [0]) | None => inl EFI_INVALID_PARAMETER end.
Lemma generate_next_uri_ok alloc u q name q2 : nonul u -> nonul name ->
  generate_next_uri alloc (u ++ 0 :: q) (name ++ 0 :: q2) =
  Ok (match scheme_of u with None => inl EFI_INVALID_PARAMETER | Some _ => if alloc then next_uri_result u name else inl EFI_OUT_OF_RESOURCES end).
Proof.
  intros Hu Hn. unfold generate_next_uri, next_uri_result. rewrite scheme_length_ok, bind_Ok by done. destruct (scheme_of u) as [sch|] eqn:E; [|done]. cbn [fmap option_fmap option_map].
  destruct (scheme_of_split u sch E) as [rest ->]. rewrite drop_app_length. rewrite (strlen_ok (name ++ 0 :: q2) 0 name), bind_Ok by (by exists [], q2).
  apply Forall_app in Hu as [Hus Hur]. rewrite <- app_assoc. rewrite path_length_ok, bind_Ok; [|done|rewrite !length_app; lia]. destruct alloc; [|done]. cbn [negb]. unfold next_uri.
  set (m := sch ++ rest ++ 0 :: q). assert (Hrd : rdn (name ++ 0 :: q2) 0 (zlen name) = Ok name) by (by apply (rdn_app_mid [])). destruct (upto_last is_slash rest) as [[d x]|] eqn:Hd.
  - destruct (upto_last_some _ _ _ _ Hd) as [Hx [r Hr]]. apply Z.eqb_eq in Hx. subst x.
    assert (Hp : rdn m 0 (zlen sch + zlen d + 1) = Ok (sch ++ d ++ [SLASH])).
    { pose proof (rdn_app_mid [] (sch ++ d ++ [SLASH]) (r ++ 0 :: q) 0 (zlen sch + zlen d + 1) eq_refl ltac:(change (zlen (@nil Z)) with 0; zlia)) as Hz.
      etransitivity; [|exact Hz]. f_equal. unfold m. rewrite Hr. cbn [app]. by rewrite <- !app_assoc. }
    rewrite Hp, bind_Ok, Hrd.
    replace (zlen sch + zlen d + 1) with (zlen (sch ++ d ++ [SLASH])) by zlia.
    pose proof (store_last (sch ++ d ++ [SLASH]) name (Z.to_nat (zlen (sch ++ d ++ [SLASH]) + zlen name + 1)) ltac:(unfold zlen; lia)) as Hst.
    destruct (wrn _ 0 _) as [u1| |]; [|discriminate Hst..]. rewrite !bind_Ok in *. destruct (wrn u1 _ _) as [u2| |]; [|discriminate Hst..]. rewrite bind_Ok in Hst.
    rewrite bind_Ok, Hst, bind_Ok. by rewrite <- !app_assoc.
  - assert (H0 : rdn m 0 0 = Ok []) by (by apply (rdn_app_mid [] [] m)). rewrite H0, bind_Ok, Hrd.
    pose proof (store_last [] name (Z.to_nat (0 + zlen name + 1)) ltac:(unfold zlen; cbn; lia)) as Hst. change (zlen (@nil Z)) with 0 in Hst.
    destruct (wrn _ 0 []) as [u1| |]; [|discriminate Hst..]. rewrite !bind_Ok in *. destruct (wrn u1 _ _) as [u2| |]; [|discriminate Hst..]. rewrite bind_Ok in Hst.
    by rewrite bind_Ok, Hst, bind_Ok.
Qed.
Lemma extract_hostname_ok alloc u q : nonul u ->
  extract_hostname alloc (u ++ 0 :: q) =
  Ok (match scheme_of u with None => inl EFI_INVALID_PARAMETER | Some sch => if alloc then inr (host_of (drop (length sch) u) ++ [0]) else inl EFI_OUT_OF_RESOURCES end).
Proof.
  intros Hu. unfold extract_hostname. rewrite scheme_length_ok, bind_Ok by done. destruct (scheme_of u) as [sch|] eqn:E; [|done]. cbn [fmap option_fmap option_map].
  destruct (scheme_of_split u sch E) as [rest ->]. rewrite drop_app_length. apply Forall_app in Hu as [Hus Hur].
  rewrite <- app_assoc. rewrite host_length_ok, bind_Ok; [|done|rewrite !length_app; lia]. destruct alloc; [|done]. cbn [negb]. rewrite Z.add_0_l.
  assert (Hs : rest = host_of rest ++ snd (span (fun c => negb (is_slash c)) rest)) by (unfold host_of; by rewrite span_app).
  set (h := host_of rest) in *. rewrite Hs at 1. rewrite <- app_assoc, rdn_app_mid, bind_Ok by done.
  pose proof (store_last [] h (Z.to_nat (zlen h + 1)) ltac:(unfold zlen; cbn; lia)) as Hst. change (zlen (@nil Z)) with 0 in Hst. cbn [app] in Hst.
  assert (Hnil : forall l : list Z, wrn l 0 [] = Ok l) by (intros l; apply (wrn_app_mid [] [] l [] 0); done). rewrite Hnil, bind_Ok, Z.add_0_l in Hst.
  destruct (wrn _ 0 h) as [u2| |]; [|discriminate Hst..]. rewrite bind_Ok in Hst. by rewrite bind_Ok, Hst, bind_Ok.
Qed.

(** ** What the server sends *)

(** Headers as the firmware gives them: terminated strings. *)
Definition header_text (h : list Z * list Z) : list Z * list Z := (c_text h.1, c_text h.2).
Definition header_ok (h : list Z * list Z) : Prop := cstring h.1 0 (c_text h.1) /\ cstring h.2 0 (c_text h.2).
Definition response_ok (r : http_response) : Prop := Forall header_ok (rs_Headers r) /\ zlen (rs_Body r) <= sizeof_rx_buffer.
Definition names_length (name : list Z) : bool := bool_decide (map toupper name = map toupper (c_text CONTENT_LENGTH)).
Definition length_value (value : list Z) : Z := decimal 0 (drop_while (fun c => c =? 32) value).
(** The length the headers give, and whether they agree. *)
Fixpoint given_length (headers : list (list Z * list Z)) (seen : option Z) : bool * Z :=
  match headers with
  | [] => (true, default 0 seen)
  | (name, value) :: headers =>
      if names_length name then
        match seen with
        | Some n => if length_value value =? n then given_length headers (Some n) else (false, n)
        | None => given_length headers (Some (length_value value))
        end
      else given_length headers seen
  end.

Lemma ascii_to_int_ok m s str : cstring m s str -> ascii_to_int m s = Ok (length_value str).
Proof.
  intros H. unfold ascii_to_int, length_value.
  destruct (skip_while_ok (fun c => c =? 32) (S (length m)) m s str) as (s1 & -> & H1); [done|done|pose proof (cstring_length _ _ _ H); lia|]. rewrite bind_Ok.
  apply decimal_loop_ok; [done|]. pose proof (cstring_length _ _ _ H1). lia.
Qed.
Lemma decimal_range l acc : 0 <= acc < 2 ^ 64 -> 0 <= decimal acc l < 2 ^ 64.
Proof. revert acc. induction l as [|b l IH]; intros acc Ha; cbn [decimal]; [done|]. case_if; [apply IH, u64_range|done]. Qed.
Lemma content_length_ok headers seen : Forall header_ok headers ->
  content_length headers (default 0 seen) (bool_decide (is_Some seen)) = Ok (given_length (map header_text headers) seen).
Proof.
  intros Hh. revert seen. induction Hh as [|[n v] headers [Hn Hv] _ IH]; intros seen; [done|]. cbn [content_length map header_text fst snd given_length].
  destruct (strcasecmp_correct n 0 (c_text n) CONTENT_LENGTH 0 (c_text CONTENT_LENGTH) Hn) as [-> Hz].
  { exists [], []. split; [done|]. split; [done|]. repeat (constructor; [done|]). constructor. }
  rewrite bind_Ok. unfold names_length. cbn [fst snd] in *.
  destruct (Z.eqb_spec (strdiff (map toupper (c_text n)) (map toupper (c_text CONTENT_LENGTH))) 0) as [E|E].
  - rewrite (bool_decide_true (map toupper _ = _)) by tauto. rewrite (ascii_to_int_ok v 0 (c_text v) Hv), bind_Ok. destruct seen as [k|].
    + change (default 0 (Some k)) with k. rewrite bool_decide_true by done. cbn [andb]. destruct (Z.eqb_spec (length_value (c_text v)) k) as [->|]; cbn [negb]; [apply (IH (Some k))|done].
    + rewrite bool_decide_false by (by intros [? ?]). apply (IH (Some (length_value (c_text v)))).
  - rewrite (bool_decide_false (map toupper _ = _)) by tauto. apply IH.
Qed.

Lemma receive_body_ok r : zlen (rs_Body r) <= sizeof_rx_buffer -> receive_body r = Ok (rs_Body r).
Proof.
  intros Hl. unfold receive_body. set (k := Z.to_nat sizeof_rx_buffer).
  assert (Hw : wrn (replicate k 0) 0 (rs_Body r) = Ok (rs_Body r ++ replicate (k - length (rs_Body r)) 0)).
  { apply (wrn_zeros [] (rs_Body r) k). unfold k, zlen in *. lia. }
  rewrite Hw, bind_Ok. by apply (rdn_app_mid []).
Qed.

(** Whatever comes, the buffer is filled from the front and never past its end. *)
Definition bodies (rs : list http_response) : list Z := concat (map rs_Body rs).
Lemma receive_rest_ok responses : Forall response_ok responses -> forall st d rest, zlen (d ++ rest) < 2 ^ 63 ->
  let r := receive_rest responses st (d ++ rest) (zlen (d ++ rest)) (zlen d) in
  r = NoFuel \/ exists st' buf, r = Ok (st', buf) /\
    (EFI_ERROR st' = false -> exists used unused, responses = used ++ unused /\ buf = d ++ bodies used /\ zlen buf = zlen (d ++ rest)).
Proof.
  induction 1 as [|r responses [_ Hr] _ IH]; intros st d rest Hlen; cbn [receive_rest]; pose proof (zlen_nonneg rest) as Hrest;
    (destruct (Z.ltb_spec (zlen d) (zlen (d ++ rest))) as [Hlt|Hge]; cbn [negb];
      [|destruct rest as [|x rest]; [|zlia]; right; exists st, (d ++ []); split; [done|]; intros _; eexists [], _; split; [done|]; by split]).
  - by left.
  - destruct (EFI_ERROR (rs_status r)) eqn:E1; [right; exists (rs_status r), (d ++ rest); split; [done|]; congruence|].
    destruct (rs_token r) as [tok|]; [|by left]. destruct (EFI_ERROR tok) eqn:E2; [right; exists tok, (d ++ rest); split; [done|]; congruence|].
    assert (Hsz : 0 <= zlen (rs_Body r) <= 9216) by (split; [zlia|exact Hr]). unfold u64. rewrite Z.mod_small by zlia.
    destruct (Z.ltb_spec (zlen (d ++ rest)) (zlen (rs_Body r) + zlen d)) as [Hb|Hb]; [right; by exists EFI_BAD_BUFFER_SIZE, (d ++ rest)|].
    rewrite receive_body_ok, bind_Ok by done. set (k := length (rs_Body r)).
    assert (Hk : length (take k rest) = k) by (rewrite length_take; unfold k, zlen in *; rewrite length_app in Hb; lia).
    assert (Hw : wrn (d ++ rest) (zlen d) (rs_Body r) = Ok ((d ++ rs_Body r) ++ drop k rest)).
    { rewrite <- (take_drop k rest) at 1. rewrite (wrn_app_mid d (take k rest) (drop k rest)) by (done || by rewrite Hk). by rewrite app_assoc. }
    rewrite Hw, bind_Ok.
    assert (Hz : zlen (d ++ rest) = zlen ((d ++ rs_Body r) ++ drop k rest)).
    { unfold zlen. rewrite !length_app, length_drop. unfold k in *. rewrite length_take in Hk. lia. }
    replace (zlen d + zlen (rs_Body r)) with (zlen (d ++ rs_Body r)) by zlia. rewrite Hz in Hlen |- *.
    destruct (IH (rs_status r) (d ++ rs_Body r) (drop k rest) Hlen) as [-> | (st' & buf & -> & Hbuf)]; [by left|right]. exists st', buf. split; [done|].
    intros He. destruct (Hbuf He) as (used & unused & -> & -> & Hl). exists (r :: used), unused. split; [done|]. unfold bodies. cbn [map concat]. by rewrite <- !app_assoc in *.
Qed.

Definition env_ok (env : http_env) : Prop :=
  Forall response_ok (he_responses env) /\ forall n b, he_pool env n = Some b -> zlen b = n /\ n < 2 ^ 63.
(** A buffer that is handed on: the bodies of responses of which the first has the
    status 200 and headers that agree on the size. *)
Definition received (env : http_env) (b : list Z) (size : Z) : Prop :=
  zlen b = size /\ exists r used unused, he_responses env = r :: used ++ unused /\ rs_StatusCode r = HTTP_STATUS_200_OK /\
    given_length (map header_text (rs_Headers r)) None = (true, size) /\ b = bodies (r :: used).
Definition fetched (env : http_env) (r : res (EFI_STATUS * option (list Z) * Z)) : Prop :=
  r = NoFuel \/ exists st buf size, r = Ok (st, buf, size) /\ forall b, buf = Some b -> received env b size.

Lemma fetched_none env st size : fetched env (Ok (st, None, size)).
Proof. right. by exists st, None, size. Qed.

Lemma receive_http_response_ok env : env_ok env -> fetched env (receive_http_response env).
Proof.
  intros [Hr Hp]. unfold receive_http_response. destruct (EFI_ERROR (he_CreateEvent2 env)); [apply fetched_none|].
  destruct (he_responses env) as [|r responses] eqn:Hrs; [by left|]. apply Forall_cons_1 in Hr as [[Hh Hb] Hr].
  destruct (EFI_ERROR (rs_status r)); [apply fetched_none|]. destruct (rs_token r) as [tok|]; [|by left]. destruct (EFI_ERROR tok); [apply fetched_none|].
  destruct (Z.eqb_spec (rs_StatusCode r) HTTP_STATUS_200_OK) as [H200|]; cbn [negb]; [|apply fetched_none].
  pose proof (content_length_ok (rs_Headers r) None Hh) as Hc. rewrite bool_decide_false in Hc by (by intros [? ?]). change (default 0 None) with 0 in Hc. rewrite Hc, bind_Ok.
  destruct (given_length _ None) as [ok size] eqn:Hg. destruct (negb ok || (size =? 0)) eqn:E; [apply fetched_none|]. apply orb_false_iff in E as [Hok%negb_false_iff _]. subst ok.
  destruct (Z.ltb_spec size (zlen (rs_Body r))); [apply fetched_none|]. destruct (he_pool env size) as [buf|] eqn:Hpool; [|apply fetched_none].
  destruct (Hp _ _ Hpool) as [Hl H63]. rewrite receive_body_ok, bind_Ok by done. set (k := length (rs_Body r)).
  assert (Hk : length (take k buf) = k) by (rewrite length_take; unfold k, zlen in *; lia).
  assert (Hw : wrn buf 0 (rs_Body r) = Ok (rs_Body r ++ drop k buf)).
  { rewrite <- (take_drop k buf) at 1. by rewrite (wrn_app_mid [] (take k buf) (drop k buf)) by (done || by rewrite Hk). }
  rewrite Hw, bind_Ok. assert (Hz : zlen (rs_Body r ++ drop k buf) = size).
  { unfold zlen in *. rewrite length_app, length_drop. unfold k in *. rewrite length_take in Hk. lia. }
  pose proof (receive_rest_ok responses Hr (rs_status r) (rs_Body r) (drop k buf) ltac:(lia)) as HR. cbv zeta in HR. rewrite Hz in HR.
  destruct HR as [-> | (st & b & -> & Hok)]; [by left|right]. rewrite bind_Ok. eexists _, _, _. split; [done|].
  intros b' Hb'. destruct (EFI_ERROR st) eqn:Est; [done|]. injection Hb' as <-. destruct (Hok eq_refl) as (used & unused & -> & -> & Hlen). split; [done|].
  exists r, used, unused. by rewrite Hrs.
Qed.

Lemma http_fetch_ok env nic host u ip6 : env_ok env -> fetched env (http_fetch env nic host u ip6).
Proof.
  intros He. unfold http_fetch. destruct (EFI_ERROR (he_OpenProtocol env nic)); [apply fetched_none|]. destruct (EFI_ERROR (he_CreateChild env)); [apply fetched_none|].
  enough (Hin : fetched env
    (if EFI_ERROR (he_HandleProtocol env) then Ok (he_HandleProtocol env, None, 0)
     else if EFI_ERROR (configure_http env ip6) then Ok (configure_http env ip6, None, 0)
     else st ← send_http_request env host u; if EFI_ERROR st then Ok (st, None, 0) else receive_http_response env)).
  { destruct Hin as [-> | (st & buf & size & -> & Hb)]; [by left|]. right. rewrite bind_Ok. by eexists _, buf, size. }
  destruct (EFI_ERROR (he_HandleProtocol env)); [apply fetched_none|]. destruct (EFI_ERROR (configure_http env ip6)); [apply fetched_none|].
  unfold send_http_request. destruct (negb (he_url_alloc env)); [apply fetched_none|]. destruct (EFI_ERROR (he_CreateEvent env)) eqn:E1; [rewrite bind_Ok, E1; apply fetched_none|].
  destruct (EFI_ERROR (he_Request env u host)) eqn:E2; [rewrite bind_Ok, E2; apply fetched_none|]. destruct (he_request_done env) as [tok|]; [|by left]. rewrite bind_Ok.
  destruct (EFI_ERROR (if EFI_ERROR tok then tok else he_Request env u host)); [apply fetched_none|by apply receive_http_response_ok].
Qed.

Lemma next_loader_ok name nm : cstring name 0 nm -> exists q, nonul (translated nm) /\
  translate_slashes (replicate (Z.to_nat (zlen nm + 1)) 0) 0 name 0 = Ok (translated nm ++ 0 :: q).
Proof.
  intros Hn. pose proof (translated_length _ nm ltac:(done)) as Hl. exists (replicate (length nm - length (translated nm)) 0). split.
  { apply (translated_nonul (length nm)); [done|]. by destruct Hn as (? & ? & _ & _ & ?). }
  replace (replicate (Z.to_nat (zlen nm + 1)) 0) with ([] ++ replicate (S (length (translated nm))) 0 ++ replicate (length nm - length (translated nm)) 0)
    by (cbn [app]; rewrite <- replicate_add; f_equal; unfold zlen; lia).
  apply (translate_slashes_ok [] (replicate (S (length (translated nm))) 0) _ name 0 nm Hn). by rewrite length_replicate.
Qed.

(** C18. Whatever the URI, the name and the answers of the server and the firmware are:
    fetching never reads or writes outside a buffer; if it comes to an end the URI is
    forgotten, and a buffer that is handed on has as many bytes as its size says, the
    size is the length that all the headers of a response with the status 200 agree
    on, and the bytes are the bodies of the responses, the first ones, in order. *)
Theorem httpboot_safe env name nm s u q : env_ok env -> cstring name 0 nm -> uri s = Some (u ++ 0 :: q) -> nonul u ->
  httpboot_fetch_buffer env name s = NoFuel \/
  exists st buf size s', httpboot_fetch_buffer env name s = Ok (st, buf, size, s') /\ uri s' = None /\
    forall b, buf = Some b -> received env b size.
Proof.
  intros He Hn Hu Hnu. unfold httpboot_fetch_buffer. rewrite Hu.
  assert (Herr : forall st (r : res (EFI_STATUS * option (list Z) * Z * http_state)), r = Ok (st, None, 0, with_uri s None) -> r = NoFuel \/
    exists st buf size s', r = Ok (st, buf, size, s') /\ uri s' = None /\ forall b, buf = Some b -> received env b size).
  { intros st r ->. right. by eexists st, None, 0, _. }
  destruct (next_loader_ok name nm Hn) as (q2 & Hnt & Ht). rewrite (strlen_ok _ _ _ Hn), bind_Ok, Ht, bind_Ok.
  rewrite generate_next_uri_ok, bind_Ok by done. unfold next_uri_result. destruct (scheme_of u) as [sch|] eqn:Es; [|by eapply Herr]. destruct (he_next_alloc env); [|by eapply Herr].
  rewrite extract_hostname_ok, bind_Ok, Es by done. destruct (he_host_alloc env); [|by eapply Herr]. destruct (get_nic_handle _ _) as [nic|]; [|by eapply Herr].
  destruct (if negb (is_ip6 s) then _ else _) as [st ?]. destruct (EFI_ERROR st); [by eapply Herr|].
  destruct (http_fetch_ok env nic (host_of (drop (length sch) u) ++ [0]) (next_uri sch (drop (length sch) u) (translated nm) ++ [0]) (is_ip6 s) He) as [-> | (st2 & buf & size & -> & Hb)]; [by left|right].
  rewrite bind_Ok. by eexists st2, buf, size, _.
Qed.

(** ** A server with the file *)
Definition good_response (r : http_response) : Prop :=
  response_ok r /\ EFI_ERROR (rs_status r) = false /\ exists tok, rs_token r = Some tok /\ EFI_ERROR tok = false.
Lemma receive_rest_all responses : Forall good_response responses -> forall st d rest, zlen (d ++ rest) < 2 ^ 63 -> zlen rest = zlen (bodies responses) -> EFI_ERROR st = false ->
  exists st', receive_rest responses st (d ++ rest) (zlen (d ++ rest)) (zlen d) = Ok (st', d ++ bodies responses) /\ EFI_ERROR st' = false.
Proof.
  assert (Hdone : forall rs st d rest, zlen rest = zlen (bodies rs) -> EFI_ERROR st = false -> zlen (d ++ rest) <= zlen d ->
            exists st', @Ok (EFI_STATUS * list Z) (st, d ++ rest) = Ok (st', d ++ bodies rs) /\ EFI_ERROR st' = false).
  { intros rs st d rest Hr Hst Hle. exists st. destruct rest as [|x rest]; [|zlia]. destruct (bodies rs); [done|zlia]. }
  induction 1 as [|r responses [[_ Hb] [Hs (tok & Htok & Ht)]] _ IH]; intros st d rest Hlen Hrest Hst; cbn [receive_rest];
    (destruct (Z.ltb_spec (zlen d) (zlen (d ++ rest))) as [Hlt|Hge]; cbn [negb]; [|by eapply Hdone]).
  - change (zlen (bodies [])) with 0 in Hrest. zlia.
  - rewrite Hs, Htok, Ht. unfold bodies in Hrest. cbn [map concat] in Hrest. fold (bodies responses) in Hrest. rewrite zlen_app in Hrest.
    pose proof (zlen_nonneg (bodies responses)). pose proof (zlen_nonneg (rs_Body r)). unfold u64. rewrite Z.mod_small by zlia.
    rewrite (proj2 (Z.ltb_ge (zlen (d ++ rest)) _)) by zlia. rewrite receive_body_ok, bind_Ok by done. set (k := length (rs_Body r)).
    assert (Hk : length (take k rest) = k) by (rewrite length_take; unfold k, zlen in *; lia).
    assert (Hw : wrn (d ++ rest) (zlen d) (rs_Body r) = Ok ((d ++ rs_Body r) ++ drop k rest)).
    { rewrite <- (take_drop k rest) at 1. rewrite (wrn_app_mid d (take k rest) (drop k rest)) by (done || by rewrite Hk). by rewrite app_assoc. }
    rewrite Hw, bind_Ok. assert (Hd : zlen (drop k rest) = zlen (bodies responses)) by (unfold zlen in *; rewrite length_drop; unfold k in *; lia).
    assert (Hz : zlen (d ++ rest) = zlen ((d ++ rs_Body r) ++ drop k rest)) by zlia.
    replace (zlen d + zlen (rs_Body r)) with (zlen (d ++ rs_Body r)) by zlia. rewrite Hz in Hlen |- *.
    destruct (IH (rs_status r) (d ++ rs_Body r) (drop k rest) Hlen Hd Hs) as (st' & -> & Hst'). exists st'. split; [|done]. unfold bodies. cbn [map concat]. by rewrite <- app_assoc.
Qed.

(** A server that answers the request for [u] on [host] with [file], in pieces. *)
Record http_serves (env : http_env) (u host file : list Z) : Prop := {
  hs_request : EFI_ERROR (he_Request env (u ++ [0]) (host ++ [0])) = false;
  hs_sent : exists tok, he_request_done env = Some tok /\ EFI_ERROR tok = false;
  hs_responses : exists r rs, he_responses env = r :: rs /\ rs_StatusCode r = HTTP_STATUS_200_OK /\ Forall good_response (r :: rs) /\
    given_length (map header_text (rs_Headers r)) None = (true, zlen file) /\ bodies (r :: rs) = file;
  hs_size : 0 < zlen file < 2 ^ 63
}.
(** Memory, events and protocols that work. *)
Record http_works (env : http_env) (file : list Z) : Prop := {
  hw_pool : exists b, he_pool env (zlen file) = Some b /\ zlen b = zlen file;
  hw_allocs : he_url_alloc env = true /\ he_next_alloc env = true /\ he_host_alloc env = true;
  hw_events : EFI_ERROR (he_CreateEvent env) = false /\ EFI_ERROR (he_CreateEvent2 env) = false;
  hw_protocols : (forall nic, EFI_ERROR (he_OpenProtocol env nic) = false) /\ EFI_ERROR (he_CreateChild env) = false /\
    EFI_ERROR (he_HandleProtocol env) = false /\ (forall ip6, EFI_ERROR (he_Configure env ip6) = false) /\ EFI_ERROR (he_DestroyChild env) = false;
  hw_config : EFI_ERROR (he_config4 env) = false /\ EFI_ERROR (he_config6 env) = false /\ forall x, EFI_ERROR (he_SetData env x) = false
}.

Lemma receive_file env u host file : http_serves env u host file -> http_works env file ->
  exists st, receive_http_response env = Ok (st, Some file, zlen file) /\ EFI_ERROR st = false.
Proof.
  intros [_ _ (r & rs & Hrs & H200 & HF & Hg & Hbody) Hsize] [(buf & Hpool & Hl) _ [_ He] _ _]. unfold receive_http_response. rewrite He, Hrs.
  apply Forall_cons_1 in HF as [[[Hh Hb] [Hs (tok & Htok & Ht)]] HF]. rewrite Hs, Htok, Ht, H200. cbn [Z.eqb Pos.eqb HTTP_STATUS_200_OK negb].
  pose proof (content_length_ok (rs_Headers r) None Hh) as Hc. rewrite bool_decide_false in Hc by (by intros [? ?]). change (default 0 None) with 0 in Hc. rewrite Hc, bind_Ok, Hg.
  cbn [negb orb]. rewrite (proj2 (Z.eqb_neq (zlen file) 0)) by lia. unfold bodies in Hbody. cbn [map concat] in Hbody. fold (bodies rs) in Hbody.
  rewrite (proj2 (Z.ltb_ge (zlen file) _)) by (rewrite <- Hbody; zlia). rewrite Hpool, receive_body_ok, bind_Ok by done. set (k := length (rs_Body r)).
  assert (Hkl : (k <= length buf)%nat) by (unfold zlen in Hl; rewrite <- Hbody, length_app in Hl; unfold k; lia).
  assert (Hk : length (take k buf) = k) by (rewrite length_take; lia).
  assert (Hw : wrn buf 0 (rs_Body r) = Ok (rs_Body r ++ drop k buf)).
  { rewrite <- (take_drop k buf) at 1. by rewrite (wrn_app_mid [] (take k buf) (drop k buf)) by (done || by rewrite Hk). }
  rewrite Hw, bind_Ok. assert (Hd : zlen (drop k buf) = zlen (bodies rs)).
  { unfold zlen in *. rewrite length_drop. rewrite <- Hbody, length_app in Hl. unfold k. lia. }
  assert (Hz : zlen file = zlen (rs_Body r ++ drop k buf)) by (rewrite <- Hbody; zlia). rewrite Hz.
  destruct (receive_rest_all rs HF (rs_status r) (rs_Body r) (drop k buf) ltac:(lia) Hd Hs) as (st & -> & Hst). rewrite bind_Ok, Hst, Hbody. by exists st.
Qed.

Lemma http_fetch_file env nic u host file ip6 : http_serves env u host file -> http_works env file ->
  http_fetch env nic (host ++ [0]) (u ++ [0]) ip6 = Ok (EFI_SUCCESS, Some file, zlen file).
Proof.
  intros Hs Hw. destruct (receive_file env u host file Hs Hw) as (st & Hr & Hst). destruct Hs as [Hreq (tok & Hdone & Htok) _ _], Hw as [_ (Hua & _) (He & _) (Ho & Hc & Hh & Hcf & Hd) _].
  unfold http_fetch, configure_http, send_http_request. rewrite Ho, Hc, Hh, Hcf, Hua, He, Hreq, Hdone, Htok. cbn [negb]. rewrite !bind_Ok, Hreq, Hr, bind_Ok, Hst, Hd. done.
Qed.

(** ** From the device path to the file *)
Definition apply_node (s : http_state) (n : dp_node) : http_state :=
  match n with MacNode m => with_mac s m | Ip4Node n => with_ip4 s n | Ip6Node n => with_ip6 s n | UriNode _ | OtherNode => s end.
Definition is_ip (n : dp_node) : bool := match n with Ip4Node _ | Ip6Node _ => true | _ => false end.
Definition not_uri (n : dp_node) : Prop := match n with UriNode _ => False | _ => True end.

Lemma find_uri_ok before mem u found s : Forall not_uri before -> found || existsb is_ip before = true -> cstring mem 0 u ->
  find_uri true (before ++ [UriNode mem]) found s = Ok (true, with_uri (fold_left apply_node before s) (Some (u ++ [0]))).
Proof.
  intros Hb Hf Hc. revert found s Hf. induction Hb as [|n before Hn _ IH]; intros found s Hf; cbn [app find_uri fold_left existsb] in *.
  - rewrite orb_false_r in Hf. subst found. rewrite (strlen_ok _ _ _ Hc), bind_Ok. destruct Hc as (pre & q & -> & Hz & _). destruct pre; [|rewrite zlen_cons in Hz; zlia].
    cbn [app negb]. change (u ++ 0 :: q) with (u ++ [0] ++ q). rewrite app_assoc. by rewrite (rdn_app_mid [] (u ++ [0]) q) by (done || by rewrite zlen_app).
  - destruct n; cbn [apply_node is_ip] in *; try done; apply IH; try done; by rewrite ?orb_true_r.
Qed.

Lemma httpboot_file env name nm u sch rest s nic file : cstring name 0 nm -> uri s = Some (u ++ [0]) -> nonul u -> scheme_of u = Some sch -> u = sch ++ rest ->
  get_nic_handle (he_handles env) (mac_addr s) = Some nic -> http_works env file ->
  http_serves env (next_uri sch rest (translated nm)) (host_of rest) file ->
  httpboot_fetch_buffer env name s = Ok (EFI_SUCCESS, Some file, zlen file, with_uri s None).
Proof.
  intros Hn Hu Hnu Hsch Hrest Hnic Hw Hs. unfold httpboot_fetch_buffer. rewrite Hu. destruct (next_loader_ok name nm Hn) as (q2 & Hnt & Ht). rewrite (strlen_ok _ _ _ Hn), bind_Ok, Ht, bind_Ok.
  rewrite generate_next_uri_ok, bind_Ok by done. unfold next_uri_result. pose proof Hw as [_ (_ & -> & Hha) _ _ (Hc4 & Hc6 & Hset)]. rewrite Hsch.
  rewrite extract_hostname_ok, bind_Ok, Hsch, Hha by done. rewrite Hrest, drop_app_length, Hnic.
  assert (Hip : exists l, (if negb (is_ip6 s) then set_ip4 (he_SetData env) (he_config4 env) (ip4_node s) else set_ip6 (he_SetData env) (he_config6 env) (ip6_node s)) = (EFI_SUCCESS, l)).
  { unfold set_ip4, set_ip6. rewrite Hc4, Hc6, !Hset. destruct (negb (is_ip6 s)); [destruct (is_unspecified_ip4addr _)|destruct (is_unspecified_ip6addr _)]; by eexists. }
  destruct Hip as [l ->]. cbn [EFI_ERROR]. by rewrite (http_fetch_file env nic _ _ file), bind_Ok.
Qed.

(** Without a Content-Length, with two that differ, or without memory for the file,
    receive_http_response reports success and hands on no buffer. *)
Theorem no_length_success env r rs tok : he_responses env = r :: rs -> EFI_ERROR (he_CreateEvent2 env) = false -> rs_status r = EFI_SUCCESS ->
  rs_token r = Some tok -> EFI_ERROR tok = false -> rs_StatusCode r = HTTP_STATUS_200_OK -> response_ok r ->
  let '(ok, size) := given_length (map header_text (rs_Headers r)) None in
  ok = false \/ size = 0 \/ (zlen (rs_Body r) <= size /\ he_pool env size = None) ->
  receive_http_response env = Ok (EFI_SUCCESS, None, size).
Proof.
  intros Hrs He Hs Htok Ht H200 [Hh Hb]. unfold receive_http_response. rewrite He, Hrs, Hs, Htok, Ht, H200. cbn [EFI_ERROR Z.eqb Pos.eqb HTTP_STATUS_200_OK negb].
  pose proof (content_length_ok (rs_Headers r) None Hh) as Hc. rewrite bool_decide_false in Hc by (by intros [? ?]). change (default 0 None) with 0 in Hc. rewrite Hc, bind_Ok.
  destruct (given_length _ None) as [ok size]. intros [-> | [-> | [Hle Hp]]]; [done|by rewrite orb_true_r|].
  destruct (negb ok || (size =? 0)); [done|]. by rewrite (proj2 (Z.ltb_ge size _)), Hp by lia.
Qed.

(** ** Examples *)
Definition demo_pool (n : Z) : option (list Z) := if (0 <=? n) && (n <? 2 ^ 20) then Some (replicate (Z.to_nat n) 0) else None.
Definition demo_env (responses : list http_response) : http_env :=
  {| he_handles := Some [(7, Some [OtherNode]); (8, None); (9, Some [MacNode [1; 2; 3]])]; he_config4 := EFI_SUCCESS; he_config6 := EFI_SUCCESS;
     he_SetData := fun _ => EFI_SUCCESS; he_OpenProtocol := fun _ => EFI_SUCCESS; he_CreateChild := EFI_SUCCESS; he_HandleProtocol := EFI_SUCCESS;
     he_Configure := fun _ => EFI_SUCCESS; he_url_alloc := true; he_CreateEvent := EFI_SUCCESS;
     he_Request := fun u host => if bool_decide (host = [97; 0]) && bool_decide (take 11 u = http_scheme ++ [97; 47; 98; 47]) then EFI_SUCCESS else EFI_NOT_FOUND;
     he_request_done := Some EFI_SUCCESS; he_CreateEvent2 := EFI_SUCCESS; he_responses := responses; he_pool := demo_pool; he_DestroyChild := EFI_SUCCESS;
     he_next_alloc := true; he_host_alloc := true |}.
(** content-length: *)
Definition demo_length (digits : list Z) : list (list Z * list Z) :=
  [([99; 111; 110; 116; 101; 110; 116; 45; 108; 101; 110; 103; 116; 104; 0], 32 :: digits ++ [0])].
Definition demo_response (headers : list (list Z * list Z)) (body : list Z) : http_response :=
  {| rs_status := EFI_SUCCESS; rs_token := Some EFI_SUCCESS; rs_StatusCode := HTTP_STATUS_200_OK; rs_Headers := headers; rs_Body := body |}.
(** http://a/b/s *)
Definition demo_nodes : list dp_node := [OtherNode; MacNode [1; 2; 3]; Ip4Node {| ip4_LocalIpAddress := [10; 0; 0; 2]; ip4_GatewayIpAddress := replicate 4 0; ip4_SubnetMask := [255; 0; 0; 0] |}].
Definition demo_uri : list Z := http_scheme ++ [97; 47; 98; 47; 115].
Definition demo_state : http_state :=
  {| mac_addr := [1; 2; 3]; ip4_node := {| ip4_LocalIpAddress := []; ip4_GatewayIpAddress := []; ip4_SubnetMask := [] |};
     ip6_node := {| ip6_LocalIpAddress := []; ip6_PrefixLength := 0; ip6_GatewayIpAddress := [] |}; is_ip6 := false; uri := Some (demo_uri ++ [0]) |}.

Example convert_codes : map convert_http_status_code [0; 1; 3; 10; 21; 40] = [0; 100; 200; 300; 404; 505].
Proof. done. Qed.
(** 306 is not among the codes, so that 307 is taken for it. *)
Example convert_307 : convert_http_status_code HTTP_STATUS_307_TEMPORARY_REDIRECT = 306.
Proof. done. Qed.
Example demo_fetch :
  httpboot_fetch_buffer (demo_env [demo_response (demo_length [53]) [1; 2]; demo_response [] []; demo_response [] [3; 4; 5]]) [92; 103; 0] demo_state =
  Ok (EFI_SUCCESS, Some [1; 2; 3; 4; 5], 5, with_uri demo_state None).
Proof. by vm_compute. Qed.

Lemma demo_response_ok digits body : nonul digits -> zlen body <= sizeof_rx_buffer -> response_ok (demo_response (demo_length digits) body).
Proof.
  intros Hd Hb. split; [|done]. constructor; [|constructor]. split; cbn [fst snd].
  - exists [], []. split; [done|]. split; [done|]. repeat constructor; discriminate.
  - pose proof (c_text_cstring (32 :: digits) []) as Hc. rewrite c_text_nonul in Hc by (by constructor).
    assert (Ht : c_text (32 :: digits ++ [0]) = 32 :: digits).
    { unfold c_text. rewrite (app_comm_cons digits [0] 32). rewrite span_cut; [done| |done]. constructor; [done|]. eapply List.Forall_impl; [|exact Hd].
      intros c Hc0. by rewrite (proj2 (Z.eqb_neq c 0) Hc0). }
    by rewrite Ht.
Qed.
Lemma demo_pool_ok n b : demo_pool n = Some b -> zlen b = n /\ n < 2 ^ 63.
Proof. unfold demo_pool. destruct (_ && _) eqn:E; [|done]. apply andb_true_iff in E as [?%Z.leb_le ?%Z.ltb_lt]. intros [= <-]. rewrite zlen_replicate. lia. Qed.

Lemma httpboot_safe_witness : exists st buf size s',
  httpboot_fetch_buffer (demo_env [demo_response (demo_length [53]) [1; 2; 3; 4; 5]]) [92; 103; 0] demo_state = Ok (st, buf, size, s') /\ uri s' = None /\
  forall b, buf = Some b -> received (demo_env [demo_response (demo_length [53]) [1; 2; 3; 4; 5]]) b size.
Proof.
  destruct (httpboot_safe (demo_env [demo_response (demo_length [53]) [1; 2; 3; 4; 5]]) [92; 103; 0] [92; 103] demo_state demo_uri []) as [H|H].
  - split; [|exact demo_pool_ok]. constructor; [|constructor]. apply demo_response_ok; [repeat constructor; discriminate|vm_compute; discriminate].
  - exists [], []. split; [reflexivity|]. split; [reflexivity|repeat constructor; discriminate].
  - reflexivity.
  - repeat constructor; discriminate.
  - vm_compute in H. discriminate H.
  - exact H.
Defined.

(** No Content-Length: success, and no buffer. *)
Example demo_no_length : receive_http_response (demo_env [demo_response [] [1; 2]]) = Ok (EFI_SUCCESS, None, 0).
Proof. done. Qed.
(** A length that cannot be allocated: success, no buffer, and the length. *)
Example demo_no_memory : receive_http_response (demo_env [demo_response (demo_length [49; 48; 52; 56; 53; 55; 54]) [1; 2]]) = Ok (EFI_SUCCESS, None, 1048576).
Proof. by vm_compute. Qed.
