(* ===== verification/Path.v ===== *)
(** * Paths: include/ucs2.h, dp.c and the paths of load-options.c

    A CHAR16 string is an offset into a buffer of 16-bit units with a NUL; the
    text of a string, without its NUL, is the list of its units.  gnu-efi's
    DevicePathToStr is a parameter, the text of the path it returns; StrLen,
    StrSize, StrnCmp, StrCat and StrDuplicate are given by what they compute on
    the text. *)
From stdpp Require Import base list numbers option strings.
From Stdlib Require Import ZArith Lia.
From S2P Require Import Prelude.
From S2P Require Import Efi.
From S2P Require Import Str.
Local Open Scope Z_scope.

Definition backslash : Z := 92.
Definition slash : Z := 47.

(** ** include/ucs2.h *)
Definition upper (c : Z) : Z := if (97 <=? c) && (c <=? 122) then c - 32 else c.

Fixpoint StrCaseCmp_loop (fuel : nat) (m0 : list Z) (s0 : Z) (m1 : list Z) (s1 : Z) : res Z :=
  match fuel with
  | O => NoFuel
  | S f =>
      a ← rd m0 s0; b ← rd m1 s1;
      if (a =? 0) || (b =? 0) then Ok (b - a)
      else if negb (upper a =? upper b) then Ok (upper b - upper a)
      else StrCaseCmp_loop f m0 (s0 + 1) m1 (s1 + 1)
  end.
Definition StrCaseCmp (m0 : list Z) (s0 : Z) (m1 : list Z) (s1 : Z) : res Z :=
  StrCaseCmp_loop (S (length m0)) m0 s0 m1 s1.

(** [k] units are left to compare. *)
Fixpoint StrnCaseCmp_loop (k : nat) (m0 : list Z) (s0 : Z) (m1 : list Z) (s1 : Z) : res Z :=
  match k with
  | O => Ok 0
  | S k' =>
      a ← rd m0 s0; b ← rd m1 s1;
      if (a =? 0) || (b =? 0) then Ok (b - a)
      else if negb (upper a =? upper b) then Ok (upper b - upper a)
      else StrnCaseCmp_loop k' m0 (s0 + 1) m1 (s1 + 1)
  end.
Definition StrnCaseCmp (m0 : list Z) (s0 : Z) (m1 : list Z) (s1 n : Z) : res Z :=
  StrnCaseCmp_loop (Z.to_nat n) m0 s0 m1 s1.

Fixpoint StrCSpn_inner (fuel : nat) (c : Z) (reject : list Z) (i : Z) : res bool :=
  match fuel with
  | O => NoFuel
  | S f =>
      r ← rd reject i;
      if r =? 0 then Ok false else if r =? c then Ok true else StrCSpn_inner f c reject (i + 1)
  end.
Fixpoint StrCSpn_loop (fuel : nat) (s reject : list Z) (ret : Z) : res Z :=
  match fuel with
  | O => NoFuel
  | S f =>
      c ← rd s ret;
      if c =? 0 then Ok ret
      else
        found ← StrCSpn_inner (S (length reject)) c reject 0;
        if found : bool then Ok ret else StrCSpn_loop f s reject (ret + 1)
  end.
Definition StrCSpn (s reject : list Z) : res Z := StrCSpn_loop (S (length s)) s reject 0.

(** ** dp.c *)
Definition text (s : list Z) : list Z := s ++ [0].

(** \EFI\BOOT\BOOT, \EFI\BOOT\/BOOT, EFI\BOOT\BOOT, EFI\BOOT\/BOOT and .EFI *)
Definition removable_prefixes : list (list Z) :=
  [[92; 69; 70; 73; 92; 66; 79; 79; 84; 92; 66; 79; 79; 84];
   [92; 69; 70; 73; 92; 66; 79; 79; 84; 92; 47; 66; 79; 79; 84];
   [69; 70; 73; 92; 66; 79; 79; 84; 92; 66; 79; 79; 84];
   [69; 70; 73; 92; 66; 79; 79; 84; 92; 47; 66; 79; 79; 84]].
Definition EFI_SUFFIX : list Z := [46; 69; 70; 73].

(** Whether one of the comparisons gives 0; they stop at the first that does. *)
Fixpoint any_prefix (bootpath : list Z) (prefixes : list (list Z)) : res bool :=
  match prefixes with
  | [] => Ok false
  | pre :: prefixes' =>
      c ← StrnCaseCmp bootpath 0 (text pre) 0 (zlen pre);
      if c =? 0 then Ok true else any_prefix bootpath prefixes'
  end.

Definition is_removable_media_path (bootpath : list Z) : res bool :=
  found ← any_prefix (text bootpath) removable_prefixes;
  if negb found then Ok false
  else
    let pathlen := zlen bootpath in
    if pathlen <? 5 then Ok false
    else c ← StrCaseCmp (text bootpath) (pathlen - 4) (text EFI_SUFFIX) 0; Ok (c =? 0).

(** ** generate_path_from_image_path *)
Definition EFI_PREFIX : list Z := [92; 69; 70; 73; 92].

(** Slashes become backslashes; [k] turns are left. *)
Fixpoint to_backslash (k : nat) (i : Z) (m : list Z) : res (list Z) :=
  match k with
  | O => Ok m
  | S k' =>
      c ← rd m i;
      m ← (if c =? slash then wr m i backslash else Ok m);
      to_backslash k' (i + 1) m
  end.

(** From unit [i] down to 1: a backslash behind a backslash becomes a slash;
    [last] is the last other one. *)
Fixpoint mark_doubles (i : nat) (m : list Z) (last : Z) : res (list Z * Z) :=
  match i with
  | O => Ok (m, last)
  | S i' =>
      c ← rd m (Z.of_nat i); d ← rd m (Z.of_nat i');
      if (c =? backslash) && (d =? backslash) then m ← wr m (Z.of_nat i) slash; mark_doubles i' m last
      else if (last =? -1) && (c =? backslash) then mark_doubles i' m (Z.of_nat i)
      else mark_doubles i' m last
  end.

(** The slashes are dropped, in place: the buffer and the new end. *)
Fixpoint drop_slashes (fuel : nat) (i j : Z) (m : list Z) : res (list Z * Z) :=
  match fuel with
  | O => NoFuel
  | S f =>
      c ← rd m i;
      if c =? 0 then Ok (m, j)
      else if negb (c =? slash) then m ← wr m j c; drop_slashes f (i + 1) (j + 1) m
      else drop_slashes f (i + 1) j m
  end.

(** The offset behind the last backslash of ImagePath; [k] turns are left. *)
Fixpoint behind_last (k : nat) (i last : Z) (m : list Z) : res Z :=
  match k with
  | O => Ok last
  | S k' =>
      c ← rd m i;
      behind_last k' (i + 1) (if c =? backslash then i + 1 else last) m
  end.

(** The text at the start of a buffer. *)
Definition text_of (m : list Z) : list Z := fst (span (fun c => negb (c =? 0)) m).

(** The buffer of bootpath once it has become the directory. *)
Definition boot_directory (bootpath : list Z) : res (list Z) :=
  let pathlen := length bootpath in
  m ← to_backslash pathlen 0 (text bootpath);
  '(m, last) ← mark_doubles pathlen m (-1);
  first ← rd m 0;
  let last := if (last =? -1) && (first =? backslash) then 0 else last in
  m ← wr m (last + 1) 0;
  if 0 <? last then '(m, j) ← drop_slashes (length m) 0 0 m; wr m j 0 else Ok m.

(** The status and the text of [*PathName]. *)
Definition generate_path_from_image_path (dup_alloc path_alloc : bool) (bootpath ImagePath : list Z)
  : res (EFI_STATUS * option (list Z)) :=
  if (5 <? (zlen ImagePath + 1) * 2) && bool_decide (take 5 ImagePath = EFI_PREFIX) then
    if negb dup_alloc then Ok (EFI_OUT_OF_RESOURCES, None) else Ok (EFI_SUCCESS, Some ImagePath)
  else
    m ← boot_directory bootpath;
    last ← behind_last (length ImagePath) 0 0 (text ImagePath);
    let dir := text_of m in
    let name := drop (Z.to_nat last) ImagePath in
    if negb path_alloc then Ok (EFI_OUT_OF_RESOURCES, None)
    else
      c ← StrnCaseCmp m 0 (text name) 0 (zlen dir);
      Ok (EFI_SUCCESS, Some (if c =? 0 then name else dir ++ name)).

(** Whether [path] leads to the program itself; a failed allocation counts as
    yes. *)
Definition is_our_path (dup_alloc path_alloc : bool) (dppath path : list Z) : res bool :=
  '(efi_status, PathName) ← generate_path_from_image_path dup_alloc path_alloc dppath path;
  match PathName with
  | Some PathName =>
      if EFI_ERROR efi_status then Ok true
      else c ← StrnCaseCmp (text dppath) 0 (text PathName) 0 (zlen dppath); Ok (c =? 0)
  | None => Ok true
  end.

(** ** Comparison ignoring case *)
Definition same_text (a b : list Z) : Prop := map upper a = map upper b.
Global Instance same_text_dec a b : Decision (same_text a b) := decide (map upper a = map upper b).

Lemma upper_nonzero c : c <> 0 -> upper c <> 0.
Proof. unfold upper. intros. case_if; lia. Qed.

Lemma rd_text_at pre c l : rd (pre ++ c :: l) (zlen pre) = Ok c.
Proof.
  unfold rd. destruct (zlen pre <? 0) eqn:E; [apply Z.ltb_lt in E; unfold zlen in E; lia|].
  unfold zlen. rewrite Nat2Z.id, lookup_app_r, Nat.sub_diag by lia. done.
Qed.

Lemma zlen_snoc {A} (l : list A) x : zlen (l ++ [x]) = zlen l + 1.
Proof. by rewrite zlen_app. Qed.

(** The first [k] units: equal ignoring case, or not. *)
Lemma StrnCaseCmp_loop_ok k p0 a q0 p1 b q1 :
  nonul a -> nonul b ->
  exists r, StrnCaseCmp_loop k (p0 ++ a ++ 0 :: q0) (zlen p0) (p1 ++ b ++ 0 :: q1) (zlen p1) = Ok r /\
    (r = 0 <-> same_text (take k a) (take k b)).
Proof.
  revert p0 a p1 b. induction k as [|k IH]; intros p0 a p1 b Ha Hb; [by exists 0|]. cbn [StrnCaseCmp_loop].
  destruct a as [|x a], b as [|y b]; cbn [app]; rewrite !rd_text_at, !bind_Ok.
  - exists 0. done.
  - inversion Hb; subst. exists y. cbn [Z.eqb orb]. rewrite Z.sub_0_r. split; [done|]. split; [done|]. by intros [=].
  - inversion Ha; subst. exists (0 - x). rewrite Z.eqb_refl, orb_true_r. split; [done|]. split; [lia|]. by intros [=].
  - inversion Ha; subst. inversion Hb; subst.
    destruct (x =? 0) eqn:Ex; [apply Z.eqb_eq in Ex; done|]. destruct (y =? 0) eqn:Ey; [apply Z.eqb_eq in Ey; done|]. cbn [orb].
    destruct (upper x =? upper y) eqn:Eu; cbn [negb].
    + apply Z.eqb_eq in Eu. rewrite <- (zlen_snoc p0 x), <- (zlen_snoc p1 y).
      rewrite (app_cons_snoc p0 x), (app_cons_snoc p1 y). destruct (IH (p0 ++ [x]) a (p1 ++ [y]) b) as (r & -> & Hr); [done..|].
      exists r. split; [done|]. rewrite Hr. unfold same_text. cbn. rewrite Eu. split; [by intros ->|by intros [=]].
    + apply Z.eqb_neq in Eu. eexists. split; [done|]. split; [lia|]. unfold same_text. cbn. intros [=]. lia.
Qed.

Lemma StrnCaseCmp_ok a q0 b q1 n :
  nonul a -> nonul b ->
  exists r, StrnCaseCmp (a ++ 0 :: q0) 0 (b ++ 0 :: q1) 0 n = Ok r /\
    (r = 0 <-> same_text (take (Z.to_nat n) a) (take (Z.to_nat n) b)).
Proof. intros Ha Hb. apply (StrnCaseCmp_loop_ok (Z.to_nat n) [] a q0 [] b q1 Ha Hb). Qed.

(** With a NUL within the fuel the two loops are the same. *)
Lemma StrCaseCmp_loop_eq f p0 a q0 m1 s1 :
  nonul a -> (length a < f)%nat ->
  StrCaseCmp_loop f (p0 ++ a ++ 0 :: q0) (zlen p0) m1 s1 = StrnCaseCmp_loop f (p0 ++ a ++ 0 :: q0) (zlen p0) m1 s1.
Proof.
  revert p0 a s1. induction f as [|f IH]; intros p0 a s1 Ha Hf; [lia|]. cbn [StrCaseCmp_loop StrnCaseCmp_loop].
  destruct a as [|x a]; cbn [app length] in *; rewrite !rd_text_at, !bind_Ok.
  - by destruct (rd m1 s1).
  - inversion Ha; subst. destruct (rd m1 s1) as [y| |]; [|done..]. rewrite !bind_Ok.
    destruct (_ || _); [done|]. destruct (negb _); [done|].
    rewrite <- (zlen_snoc p0 x), (app_cons_snoc p0 x). apply IH; [done|lia].
Qed.

Lemma StrCaseCmp_ok p0 a b :
  nonul a -> nonul b ->
  exists r, StrCaseCmp (p0 ++ text a) (zlen p0) (text b) 0 = Ok r /\ (r = 0 <-> same_text a b).
Proof.
  intros Ha Hb. unfold StrCaseCmp, text. set (f := S _).
  assert (Hf : (length a < f)%nat) by (unfold f; rewrite !length_app; cbn; lia).
  rewrite StrCaseCmp_loop_eq by done.
  destruct (StrnCaseCmp_loop_ok f p0 a [] [] b [] Ha Hb) as (r & Hr & Hiff). cbn [app] in Hr. change (zlen []) with 0 in Hr. rewrite Hr.
  exists r. split; [done|]. rewrite Hiff, (take_ge a) by lia. unfold same_text.
  split; intros E; pose proof (f_equal length E) as El; rewrite !length_map in El.
  - rewrite take_ge in E; [done|]. rewrite length_take in El. lia.
  - rewrite take_ge by lia. done.
Qed.

(** ** The directory of a path *)

(** One backslash for each run of them. *)
Fixpoint squeeze (prev : Z) (l : list Z) : list Z :=
  match l with
  | [] => []
  | c :: l' => if (c =? backslash) && (prev =? backslash) then squeeze c l' else c :: squeeze c l'
  end.

(** Where the last run of backslashes starts; [i] is the position of [l]. *)
Fixpoint last_run (prev i : Z) (l : list Z) (found : Z) : Z :=
  match l with
  | [] => found
  | c :: l' => last_run c (i + 1) l' (if (c =? backslash) && negb (prev =? backslash) then i else found)
  end.

(** Up to there, with the runs before it squeezed; nothing without a
    backslash. *)
Definition directory (path : list Z) : list Z :=
  let q := map (fun c => if c =? slash then backslash else c) path in
  squeeze 0 (take (Z.to_nat (last_run 0 0 q (-1) + 1)) q).

Fixpoint name_of (l : list Z) (name : list Z) : list Z :=
  match l with
  | [] => name
  | c :: l' => if c =? backslash then name_of l' l' else name_of l' name
  end.
(** What is behind the last backslash. *)
Definition file_name (path : list Z) : list Z := name_of path path.

Lemma wr_at pre c l x : wr (pre ++ c :: l) (zlen pre) x = Ok (pre ++ x :: l).
Proof. by rewrite wr_app_at. Qed.

Lemma to_backslash_ok pre l q :
  to_backslash (length l) (zlen pre) (pre ++ l ++ q)
  = Ok (pre ++ map (fun c => if c =? slash then backslash else c) l ++ q).
Proof.
  revert pre. induction l as [|c l IH]; intros pre; [done|]. cbn [length to_backslash app map].
  rewrite rd_text_at, bind_Ok. specialize (IH (pre ++ [if c =? slash then backslash else c])).
  rewrite zlen_snoc, <- !app_assoc in IH. cbn [app] in IH. rewrite <- IH.
  destruct (c =? slash); [rewrite wr_at|]; by rewrite bind_Ok.
Qed.

(** The marks: each backslash behind a backslash. *)
Fixpoint mark (prev : Z) (l : list Z) : list Z :=
  match l with
  | [] => []
  | c :: l' => (if (c =? backslash) && (prev =? backslash) then slash else c) :: mark c l'
  end.

Lemma mark_snoc prev l d c : mark prev (l ++ [d; c]) = mark prev (l ++ [d]) ++ [if (c =? backslash) && (d =? backslash) then slash else c].
Proof. revert prev. induction l as [|x l IH]; intros prev; [done|]. cbn [app mark]. by rewrite IH. Qed.

Lemma last_run_snoc prev i l d c found :
  last_run prev i (l ++ [d; c]) found
  = if (c =? backslash) && negb (d =? backslash) then i + zlen l + 1 else last_run prev i (l ++ [d]) found.
Proof.
  revert prev i found. induction l as [|x l IH]; intros prev i found; cbn [app last_run].
  - rewrite (zlen_nil (A := Z)), Z.add_0_r. done.
  - rewrite IH. rewrite zlen_cons. by replace (i + 1 + zlen l + 1) with (i + (zlen l + 1) + 1) by lia.
Qed.

Lemma mark_doubles_ok l c tail last :
  last = -1 \/ 0 < last ->
  mark_doubles (length l) ((l ++ [c]) ++ tail) last
  = Ok (mark 0 (l ++ [c]) ++ tail,
        if last =? -1 then (if 0 <? last_run 0 0 (l ++ [c]) (-1) then last_run 0 0 (l ++ [c]) (-1) else -1) else last).
Proof.
  revert c tail last. induction l as [|d l IH] using rev_ind; intros c tail last Hlast.
  { cbn. rewrite andb_false_r. destruct (c =? backslash); cbn; by destruct (last =? -1) eqn:E; [apply Z.eqb_eq in E; subst|]. }
  rewrite length_app, Nat.add_1_r. cbn [mark_doubles]. rewrite <- !app_assoc. cbn [app].
  replace (Z.of_nat (S (length l))) with (zlen (l ++ [d])) by (rewrite zlen_snoc; unfold zlen; lia).
  rewrite (app_cons_snoc l d), rd_text_at, bind_Ok, <- (app_cons_snoc l d), (rd_text_at l), bind_Ok.
  rewrite mark_snoc, last_run_snoc, <- app_assoc. cbn [app].
  destruct (c =? backslash) eqn:Ec, (d =? backslash) eqn:Ed; cbn [andb negb].
  - rewrite (app_cons_snoc l d), wr_at, bind_Ok. by apply IH.
  - rewrite (app_cons_snoc l d). pose proof (zlen_nonneg l). rewrite zlen_snoc.
    destruct (last =? -1) eqn:El; cbn [andb].
    + rewrite IH by lia. destruct (zlen l + 1 =? -1) eqn:E1; [apply Z.eqb_eq in E1; lia|].
      destruct (0 <? 0 + zlen l + 1) eqn:E2; [|apply Z.ltb_ge in E2; lia]. done.
    + rewrite IH by done. by rewrite El.
  - rewrite andb_false_r, (app_cons_snoc l d). by apply IH.
  - rewrite andb_false_r, (app_cons_snoc l d). by apply IH.
Qed.

(** The slashes of the text, which are the marks, are dropped. *)
Lemma drop_slashes_ok fuel dn gap l q :
  nonul l -> (length l < fuel)%nat ->
  exists gap', drop_slashes fuel (zlen dn + zlen gap) (zlen dn) (dn ++ gap ++ l ++ 0 :: q)
    = Ok ((dn ++ filter (fun c => c <> slash) l) ++ gap' ++ 0 :: q, zlen (dn ++ filter (fun c => c <> slash) l)).
Proof.
  revert dn gap l. induction fuel as [|f IH]; intros dn gap l Hl Hf; [lia|]. cbn [drop_slashes].
  rewrite <- zlen_app, (app_assoc dn). destruct l as [|c l]; cbn [app length] in *; rewrite rd_text_at, bind_Ok.
  { exists gap. by rewrite app_nil_r, <- app_assoc. }
  inversion Hl; subst. destruct (c =? 0) eqn:E0; [apply Z.eqb_eq in E0; done|]. rewrite filter_cons.
  destruct (c =? slash) eqn:Es; cbn [negb].
  - apply Z.eqb_eq in Es. rewrite decide_False by auto.
    replace ((dn ++ gap) ++ c :: l ++ 0 :: q) with (dn ++ (gap ++ [c]) ++ l ++ 0 :: q) by by rewrite <- !app_assoc.
    rewrite zlen_app. replace (zlen dn + zlen gap + 1) with (zlen dn + zlen (gap ++ [c])) by (rewrite zlen_snoc; lia).
    apply IH; [done|lia].
  - apply Z.eqb_neq in Es. rewrite decide_True by auto.
    assert (Hw : exists gap2, wr ((dn ++ gap) ++ c :: l ++ 0 :: q) (zlen dn) c = Ok ((dn ++ [c]) ++ gap2 ++ l ++ 0 :: q) /\
                 zlen gap2 = zlen gap).
    { destruct gap as [|x gap].
      - exists []. rewrite app_nil_r, wr_at. split; [|done]. by rewrite <- app_assoc.
      - exists (gap ++ [c]). rewrite <- app_assoc. cbn [app]. rewrite wr_at. split; [by rewrite <- !app_assoc|].
        rewrite zlen_snoc, zlen_cons. done. }
    destruct Hw as (gap2 & -> & Hg). rewrite bind_Ok.
    destruct (IH (dn ++ [c]) gap2 l) as [gap' Hg']; [done|lia|]. exists gap'.
    replace (zlen (dn ++ gap) + 1) with (zlen (dn ++ [c]) + zlen gap2) by (rewrite zlen_snoc, zlen_app; lia).
    replace (zlen dn + 1) with (zlen (dn ++ [c])) by apply zlen_snoc. rewrite Hg'.
    by rewrite <- !app_assoc.
Qed.

Lemma filter_mark prev l : Forall (fun c => c <> slash) l -> filter (fun c => c <> slash) (mark prev l) = squeeze prev l.
Proof.
  revert prev. induction l as [|c l IH]; intros prev Hl; [done|]. inversion Hl; subst. cbn [mark squeeze].
  rewrite filter_cons. destruct (_ && _); [by rewrite decide_False, IH by auto|by rewrite decide_True, IH by auto].
Qed.

Lemma mark_length prev l : length (mark prev l) = length l.
Proof. revert prev. induction l as [|c l IH]; intros prev; cbn; auto. Qed.

Lemma mark_take n prev l : take n (mark prev l) = mark prev (take n l).
Proof. revert n prev. induction l as [|c l IH]; intros [|n] prev; cbn; try done. by rewrite IH. Qed.

Lemma mark_nonul prev l : nonul l -> nonul (mark prev l).
Proof. intros Hl. revert prev. induction Hl as [|c l Hc Hl IH]; intros prev; constructor; [by destruct (_ && _)|apply IH]. Qed.

Lemma mark_end prev l : mark prev (l ++ [0]) = mark prev l ++ [0].
Proof. revert prev. induction l as [|c l IH]; intros prev; cbn; [done|]. by rewrite IH. Qed.

Lemma last_run_end prev i l found : last_run prev i (l ++ [0]) found = last_run prev i l found.
Proof. revert prev i found. induction l as [|c l IH]; intros prev i found; cbn; [done|]. by rewrite IH. Qed.

Lemma last_run_range prev i l found :
  last_run prev i l found = found \/ i <= last_run prev i l found < i + zlen l.
Proof.
  revert prev i found. induction l as [|c l IH]; intros prev i found; [by left|]. cbn [last_run]. rewrite zlen_cons.
  pose proof (zlen_nonneg l). destruct (_ && _).
  - destruct (IH c (i + 1) i) as [->|?]; lia.
  - destruct (IH c (i + 1) found) as [->|?]; lia.
Qed.

(** The end of the directory: the start of the last run, as the code finds it. *)
Lemma last_found Q :
  let LR := last_run 0 0 Q (-1) in
  let L := if 0 <? LR then LR else -1 in
  (if (L =? -1) && (match Q with c :: _ => c | [] => 0 end =? backslash) then 0 else L) = LR /\ -1 <= LR < zlen Q.
Proof.
  destruct Q as [|c Q]; [done|]. cbn [last_run]. rewrite andb_true_r, zlen_cons. pose proof (zlen_nonneg Q). change (0 + 1) with 1. cbn zeta.
  destruct (c =? backslash) eqn:Ec; cbn [andb].
  - destruct (last_run_range c 1 Q 0) as [->|Hr]; [cbn; lia|].
    destruct (0 <? last_run c 1 Q 0) eqn:E; [|apply Z.ltb_ge in E; lia].
    destruct (last_run c 1 Q 0 =? -1) eqn:E1; [apply Z.eqb_eq in E1; lia|]. cbn [andb]. lia.
  - destruct (last_run_range c 1 Q (-1)) as [->|Hr]; [cbn; lia|].
    destruct (0 <? last_run c 1 Q (-1)) eqn:E; [|apply Z.ltb_ge in E; lia].
    rewrite andb_false_r. lia.
Qed.

Lemma wr_cut l n q : (n <= length l)%nat -> exists rest, wr (l ++ 0 :: q) (Z.of_nat n) 0 = Ok (take n l ++ 0 :: rest).
Proof.
  intros Hn. destruct (decide (n = length l)) as [->|Hne].
  - exists q. by rewrite firstn_all, wr_app_at.
  - destruct (drop n l) as [|c r] eqn:Ed; [apply (f_equal length) in Ed; rewrite length_drop in Ed; cbn in Ed; lia|].
    exists (r ++ 0 :: q). rewrite <- (take_drop n l) at 1. rewrite Ed, <- app_assoc. cbn [app].
    rewrite wr_app_at; [done|]. unfold zlen. rewrite length_take. lia.
Qed.

Lemma wr_nul_at dn gap q : exists rest, wr (dn ++ gap ++ 0 :: q) (zlen dn) 0 = Ok (dn ++ 0 :: rest).
Proof. destruct gap as [|c gap]; cbn [app]; rewrite wr_at; eauto. Qed.

Lemma boot_directory_ok bootpath :
  nonul bootpath -> exists q, boot_directory bootpath = Ok (directory bootpath ++ 0 :: q).
Proof.
  intros Hb. unfold boot_directory, directory, text.
  pose proof (to_backslash_ok [] bootpath [0]) as Ht. cbn [app] in Ht. change (zlen []) with 0 in Ht. rewrite Ht, bind_Ok.
  set (Q := map _ bootpath). assert (HQ : nonul Q /\ Forall (fun c => c <> slash) Q).
  { split; apply Forall_map; eapply List.Forall_impl; try exact Hb; intros c Hc; cbn; destruct (c =? slash) eqn:E; try done.
    by apply Z.eqb_neq in E. }
  destruct HQ as [HQ HS]. replace (length bootpath) with (length Q) by apply length_map. clearbody Q. clear Ht Hb bootpath.
  pose proof (mark_doubles_ok Q 0 [] (-1) ltac:(by left)) as Hm. rewrite app_nil_r in Hm. rewrite Hm, bind_Ok. clear Hm.
  rewrite app_nil_r, mark_end, last_run_end. change (-1 =? -1) with true. cbv iota.
  assert (Hfirst : rd (mark 0 Q ++ [0]) 0 = Ok (match Q with c :: _ => c | [] => 0 end)).
  { destruct Q as [|c Q]; [done|]. cbn [mark app]. rewrite andb_false_r. done. }
  rewrite Hfirst, bind_Ok. destruct (last_found Q) as [Hl Hr]. cbn zeta in Hl. rewrite Hl. clear Hl Hfirst.
  set (LR := last_run 0 0 Q (-1)) in *. set (n := Z.to_nat (LR + 1)).
  replace (LR + 1) with (Z.of_nat n) by lia.
  destruct (wr_cut (mark 0 Q) n []) as [rest ->]; [rewrite mark_length; unfold zlen in Hr; lia|]. rewrite bind_Ok, mark_take.
  destruct (0 <? LR) eqn:E.
  - destruct (drop_slashes_ok (length (mark 0 (take n Q) ++ 0 :: rest)) [] [] (mark 0 (take n Q)) rest) as [gap Hd].
    { by apply mark_nonul, Forall_take. }
    { rewrite length_app. cbn. lia. }
    cbn [app] in Hd. change (zlen [] + zlen []) with 0 in Hd. change (zlen []) with 0 in Hd. rewrite Hd, bind_Ok.
    rewrite filter_mark by by apply Forall_take. apply wr_nul_at.
  - exists rest. do 2 f_equal. apply Z.ltb_ge in E. assert (n = 0%nat \/ n = 1%nat) as [-> | ->] by lia; [done|].
    destruct Q as [|c Q]; [done|]. cbn. by rewrite andb_false_r.
Qed.

Lemma behind_last_ok pre l last q :
  0 <= last ->
  exists last', behind_last (length l) (zlen pre) last (pre ++ l ++ q) = Ok last' /\ 0 <= last' /\
    drop (Z.to_nat last') (pre ++ l) = name_of l (drop (Z.to_nat last) (pre ++ l)).
Proof.
  revert pre last. induction l as [|c l IH]; intros pre last Hlast; [by exists last|]. cbn [length behind_last app name_of].
  rewrite rd_text_at, bind_Ok. rewrite <- (zlen_snoc pre c), (app_cons_snoc pre c (l ++ q)), !(app_cons_snoc pre c l).
  set (last1 := if c =? backslash then zlen (pre ++ [c]) else last).
  assert (Hl : 0 <= last1) by (unfold last1; destruct (c =? backslash); [apply zlen_nonneg|done]).
  destruct (IH (pre ++ [c]) last1 Hl) as (last' & Heq & H0 & Hd). exists last'. split; [exact Heq|]. split; [done|]. rewrite Hd.
  unfold last1. destruct (c =? backslash); [|done]. unfold zlen. by rewrite Nat2Z.id, drop_app_length.
Qed.

Lemma text_of_ok l q : nonul l -> text_of (l ++ 0 :: q) = l.
Proof.
  unfold text_of. induction 1 as [|c l Hc Hl IH]; [done|]. cbn [app span].
  destruct (c =? 0) eqn:E; [apply Z.eqb_eq in E; done|]. cbn [negb]. destruct (span _ (l ++ _)) as [x y]. cbn in *. by rewrite IH.
Qed.

Lemma squeeze_nonul prev l : nonul l -> nonul (squeeze prev l).
Proof. intros Hl. revert prev. induction Hl as [|c l Hc Hl IH]; intros prev; cbn; [constructor|]. destruct (_ && _); [apply IH|].
  constructor; [done|apply IH].
Qed.

Lemma directory_nonul path : nonul path -> nonul (directory path).
Proof.
  intros Hp. apply squeeze_nonul, Forall_take, Forall_map. eapply List.Forall_impl; [|exact Hp]. intros c Hc. cbn.
  by destruct (c =? slash).
Qed.

Lemma name_of_nonul l name : nonul l -> nonul name -> nonul (name_of l name).
Proof.
  intros Hl. revert name. induction Hl as [|c l Hc Hl IH]; intros name Hn; cbn; [done|]. destruct (c =? backslash); by apply IH.
Qed.

(** The path of [ImagePath] next to the program at [bootpath]. *)
Definition sibling (bootpath ImagePath : list Z) : list Z :=
  if decide (take 5 ImagePath = EFI_PREFIX) then ImagePath
  else
    let dir := directory bootpath in
    let name := file_name ImagePath in
    if decide (same_text (take (length dir) dir) (take (length dir) name)) then name else dir ++ name.

Lemma generate_path_ok bootpath ImagePath :
  nonul bootpath -> nonul ImagePath ->
  generate_path_from_image_path true true bootpath ImagePath = Ok (EFI_SUCCESS, Some (sibling bootpath ImagePath)).
Proof.
  intros Hb Hi. unfold generate_path_from_image_path, sibling.
  destruct (decide (take 5 ImagePath = EFI_PREFIX)) as [Hp|Hp].
  { rewrite bool_decide_true by done. apply (f_equal length) in Hp. rewrite length_take in Hp.
    change (length EFI_PREFIX) with 5%nat in Hp.
    destruct (5 <? (zlen ImagePath + 1) * 2) eqn:E; [done|]. apply Z.ltb_ge in E. unfold zlen in E. lia. }
  rewrite bool_decide_false, andb_false_r by done. destruct (boot_directory_ok bootpath Hb) as [q ->]. rewrite bind_Ok.
  destruct (behind_last_ok [] ImagePath 0 [0] ltac:(lia)) as (last & Hl & H0 & Hd). cbn [app] in Hl, Hd.
  change (zlen []) with 0 in Hl. change (text ImagePath) with (ImagePath ++ [0]). rewrite Hl, bind_Ok. cbn zeta. rewrite Hd, text_of_ok by by apply directory_nonul. cbn [negb].
  change (name_of ImagePath (drop (Z.to_nat 0) ImagePath)) with (file_name ImagePath).
  destruct (StrnCaseCmp_ok (directory bootpath) q (file_name ImagePath) [] (zlen (directory bootpath))) as (r & Hr & Hiff);
    [by apply directory_nonul|by apply name_of_nonul|].
  unfold text. rewrite Hr, bind_Ok. unfold zlen in Hiff. rewrite Nat2Z.id in Hiff.
  destruct (decide (same_text _ _)) as [Hs|Hs]; destruct (r =? 0) eqn:E; try done.
  - apply Z.eqb_neq in E. by apply Hiff in Hs.
  - apply Z.eqb_eq in E. by apply Hiff in E.
Qed.

(** ** Theorems *)

(** generate_path_from_image_path: a full path \EFI\... is taken as it is; any
    other is its file name in the directory of the program, where slashes
    count as backslashes and runs of them as one, unless the name starts with
    that directory.  No unit outside the buffers is read or written; without
    memory the path is not made. *)
Theorem generate_path_correct bootpath ImagePath :
  nonul bootpath -> nonul ImagePath ->
  generate_path_from_image_path true true bootpath ImagePath = Ok (EFI_SUCCESS, Some (sibling bootpath ImagePath)) /\
  generate_path_from_image_path false false bootpath ImagePath = Ok (EFI_OUT_OF_RESOURCES, None).
Proof.
  intros Hb Hi. split; [by apply generate_path_ok|]. unfold generate_path_from_image_path. destruct (_ && _); [done|].
  destruct (boot_directory_ok bootpath Hb) as [q ->]. rewrite bind_Ok.
  destruct (behind_last_ok [] ImagePath 0 [0] ltac:(lia)) as (last & Hl & _). cbn [app] in Hl. change (zlen []) with 0 in Hl.
  unfold text. by rewrite Hl, bind_Ok.
Qed.

Lemma any_prefix_ok bootpath prefixes :
  nonul bootpath -> Forall nonul prefixes ->
  any_prefix (text bootpath) prefixes
  = Ok (existsb (fun pre => bool_decide (same_text (take (length pre) bootpath) pre)) prefixes).
Proof.
  intros Hb. induction 1 as [|pre prefixes Hp HF IH]; [done|]. cbn [any_prefix existsb].
  destruct (StrnCaseCmp_ok bootpath [] pre [] (zlen pre) Hb Hp) as (r & Hr & Hiff). unfold text in *. rewrite Hr, bind_Ok.
  unfold zlen in Hiff. rewrite Nat2Z.id, (take_ge pre) in Hiff by lia.
  destruct (r =? 0) eqn:E.
  - apply Z.eqb_eq in E. rewrite bool_decide_true by by apply Hiff. done.
  - apply Z.eqb_neq in E. rewrite bool_decide_false by (intros ?; by apply E, Hiff). by rewrite IH.
Qed.

(** is_removable_media_path: \EFI\BOOT\BOOT*.EFI in any case, with or without the
    first backslash. *)
Theorem is_removable_media_path_correct bootpath :
  nonul bootpath ->
  is_removable_media_path bootpath
  = Ok (existsb (fun pre => bool_decide (same_text (take (length pre) bootpath) pre)) removable_prefixes &&
        (5 <=? zlen bootpath) && bool_decide (same_text (drop (length bootpath - 4) bootpath) EFI_SUFFIX)).
Proof.
  intros Hb. unfold is_removable_media_path. rewrite any_prefix_ok, bind_Ok by (done || by repeat constructor).
  destruct (existsb _ _); [|done]. cbn [negb andb]. rewrite Z.leb_antisym. destruct (zlen bootpath <? 5) eqn:E; [done|]. cbn [negb andb].
  apply Z.ltb_ge in E. unfold zlen in E. set (n := (length bootpath - 4)%nat).
  destruct (StrCaseCmp_ok (take n bootpath) (drop n bootpath) EFI_SUFFIX) as (r & Hr & Hiff); [by apply Forall_drop|by repeat constructor|].
  replace (text bootpath) with (take n bootpath ++ text (drop n bootpath)) by (unfold text; by rewrite app_assoc, take_drop).
  replace (zlen bootpath - 4) with (zlen (take n bootpath)) by (unfold zlen; rewrite length_take; lia).
  rewrite Hr, bind_Ok. f_equal. destruct (r =? 0) eqn:E0.
  - apply Z.eqb_eq in E0. by rewrite bool_decide_true by by apply Hiff.
  - apply Z.eqb_neq in E0. rewrite bool_decide_false; [done|]. intros ?. by apply E0, Hiff.
Qed.

(** is_our_path: the path of the program, or a beginning of it that covers all of
    it, ignoring case; and any path when there is no memory. *)
Theorem is_our_path_correct dppath path :
  nonul dppath -> nonul path ->
  is_our_path true true dppath path
  = Ok (bool_decide (same_text dppath (take (length dppath) (sibling dppath path)))) /\
  is_our_path false false dppath path = Ok true.
Proof.
  intros Hd Hp. split.
  - unfold is_our_path. rewrite generate_path_ok, bind_Ok by done. cbn [EFI_ERROR].
    assert (Hs : nonul (sibling dppath path)).
    { unfold sibling. destruct (decide _); [done|]. cbn zeta. destruct (decide _); [by apply name_of_nonul|].
      apply Forall_app. split; [by apply directory_nonul|by apply name_of_nonul]. }
    destruct (StrnCaseCmp_ok dppath [] (sibling dppath path) [] (zlen dppath) Hd Hs) as (r & Hr & Hiff).
    unfold text. rewrite Hr, bind_Ok. unfold zlen in Hiff. rewrite Nat2Z.id, (take_ge dppath) in Hiff by lia. f_equal.
    destruct (r =? 0) eqn:E0.
    + apply Z.eqb_eq in E0. by rewrite bool_decide_true by by apply Hiff.
    + apply Z.eqb_neq in E0. rewrite bool_decide_false; [done|]. intros ?. by apply E0, Hiff.
  - unfold is_our_path, generate_path_from_image_path. destruct (_ && _); [done|].
    destruct (boot_directory_ok dppath Hd) as [q ->]. rewrite bind_Ok.
    destruct (behind_last_ok [] path 0 [0] ltac:(lia)) as (last & Hl & _). cbn [app] in Hl. change (zlen []) with 0 in Hl.
    unfold text. by rewrite Hl, bind_Ok.
Qed.

(** ** Examples *)
Definition wide (s : string) : list Z :=
  map (fun c => Z.of_nat (Ascii.nat_of_ascii c)) (String.list_ascii_of_string s).

Lemma generate_path_correct_witness :
  generate_path_from_image_path true true (wide "\EFI\\fedora/shimx64.efi") (wide "\grubx64.efi")
  = Ok (EFI_SUCCESS, Some (wide "\EFI\fedora\grubx64.efi")) /\
  generate_path_from_image_path false false (wide "\EFI\\fedora/shimx64.efi") (wide "\grubx64.efi")
  = Ok (EFI_OUT_OF_RESOURCES, None).
Proof. apply (generate_path_correct (wide "\EFI\\fedora/shimx64.efi") (wide "\grubx64.efi")); by repeat constructor. Defined.

Lemma removable_example : is_removable_media_path (wide "\efi\boot\bootx64.efi") = Ok true.
Proof. vm_compute. reflexivity. Qed.
