(* ===== verification/LoadOptions.v ===== *)
(** * Load options: load-options.c

    The firmware hands shim a buffer of bytes that is a load option as in a
    Boot#### variable, or the command line of the UEFI shell, or a string.
    parse_load_options finds the path of the second stage in it and what is left
    for that stage.  Pointers are offsets into the buffer, NULL is [None]; the
    first word is terminated in place. *)
From stdpp Require Import base list numbers option strings.
From Stdlib Require Import ZArith Lia.
From S2P Require Import Prelude.
From S2P Require Import Efi.
From S2P Require Import Str.
From S2P Require Import Path.
Local Open Scope Z_scope.

(** ** get_load_option_optional_data *)

(** The description: UCS-2 units with a zero high byte up to a NUL.  The index
    the loop is left with. *)
Fixpoint description (fuel : nat) (m : list Z) (cur limit i : Z) : res (EFI_STATUS + Z) :=
  match fuel with
  | O => NoFuel
  | S f =>
      if i <? limit then
        c ← rd m (cur + i);
        if negb (i mod 2 =? 0) then
          if negb (c =? 0) then Ok (inl EFI_INVALID_PARAMETER) else description f m cur limit (i + 1)
        else if c =? 0 then
          if limit <=? i + 1 then Ok (inl EFI_INVALID_PARAMETER)
          else
            c ← rd m (cur + (i + 1));
            if negb (c =? 0) then Ok (inl EFI_INVALID_PARAMETER) else Ok (inr (i + 1))
        else description f m cur limit (i + 1)
      else Ok (inr i)
  end.

(** The nodes of the file path list; the difference wraps when a node leads
    past the end. *)
Fixpoint path_nodes (fuel : nat) (m : list Z) (cur limit i : Z) : res (EFI_STATUS + Z) :=
  match fuel with
  | O => NoFuel
  | S f =>
      if u32 (limit - i) <? 4 then Ok (inr i)
      else
        type ← rd m (cur + i); subtype ← rd m (cur + (i + 1));
        lo ← rd m (cur + (i + 2)); hi ← rd m (cur + (i + 3));
        let len := Z.lor (Z.shiftl hi 8) lo in
        if (len <? 4) || (limit <? len) then Ok (inl EFI_INVALID_PARAMETER)
        else if (type =? 0x7f) && (subtype =? 0xff) then
          if negb (len =? 4) then Ok (inl EFI_INVALID_PARAMETER) else Ok (inr (u32 (i + len)))
        else path_nodes f m cur limit (u32 (i + len))
  end.

(** A status, or [*od] and [*ods]. *)
Definition get_load_option_optional_data (m : list Z) (data data_size : Z) : res (EFI_STATUS + (option Z * Z)) :=
  if data_size <? 12 then Ok (inl EFI_INVALID_PARAMETER)
  else
    fplistlen ← rd_le m (data + 4) 2;
    if data_size - 10 <? fplistlen then Ok (inl EFI_INVALID_PARAMETER)
    else
      let cur := data + 6 in
      let limit := u32 (data_size - 6 - fplistlen) in
      d ← description (S (Z.to_nat limit)) m cur limit 0;
      match d with
      | inl st => Ok (inl st)
      | inr i =>
          let i := i + 1 in
          if limit <? i then Ok (inl EFI_INVALID_PARAMETER)
          else if i =? limit then Ok (inr (None, 0))
          else
            let cur := cur + i in
            let limit := u32 (limit - i + fplistlen) in
            n ← path_nodes (S (length m)) m cur limit 0;
            match n with
            | inl st => Ok (inl st)
            | inr i =>
                if fplistlen <? i then Ok (inl EFI_INVALID_PARAMETER)
                else Ok (inr (Some (cur + fplistlen), u32 (limit - fplistlen)))
            end
      end.

(** ** split_load_options *)
Definition SPACE : Z := 32.

(** Skip spaces; [k] turns are left. *)
Fixpoint skip_spaces (k : nat) (m : list Z) (start : Z) : res Z :=
  match k with
  | O => Ok start
  | S k' => c ← rd_le m start 2; if negb (c =? SPACE) then Ok start else skip_spaces k' m (start + 2)
  end.

(** Terminate the first word: the buffer and the index of its end, if it has
    one. *)
Fixpoint end_word (k : nat) (m : list Z) (start i : Z) : res (list Z * option Z) :=
  match k with
  | O => Ok (m, None)
  | S k' =>
      c ← rd_le m (start + 2 * i) 2;
      if (c =? SPACE) || (c =? 0) then m ← wr_le m (start + 2 * i) 2 0; Ok (m, Some i)
      else end_word k' m start (i + 1)
  end.

(** What is found: arg0, [*remaining] and [*remaining_size]. *)
Definition split_load_options (m : list Z) (in_ in_size : Z) : res (list Z * option (Z * option Z * Z)) :=
  start ← skip_spaces (Z.to_nat (in_size / 2)) m in_;
  let in_size := u32 (in_size - (start - in_)) in
  '(m, e) ← end_word (Z.to_nat (in_size / 2)) m start 0;
  Ok (m, match e with
         | None => None
         | Some i =>
             let skip := i + 1 in
             let remaining_size := u32 (in_size - skip * 2) in
             Some (start, if 0 <? remaining_size then Some (start + skip * 2) else None, remaining_size)
         end).

(** The units of the string at [p]. *)
Fixpoint string_at (fuel : nat) (m : list Z) (p : Z) : res (list Z) :=
  match fuel with
  | O => NoFuel
  | S f => c ← rd_le m p 2; if c =? 0 then Ok [] else s ← string_at f m (p + 2); Ok (c :: s)
  end.

(** ** parse_load_options *)
Definition BDS_GUID : EFI_GUID := guid 0x8108ac4e 0x9f11 0x4d59 [0x85; 0x0e; 0xe2; 0x1a; 0x52; 0x2c; 0x59; 0xb2].
(** "WINDOWS" with its NUL *)
Definition WINDOWS : list Z := [87; 73; 78; 68; 79; 87; 83; 0].

(** What the call changes: the buffer, LoadOptions and LoadOptionsSize of li,
    and the globals second_stage, load_options and load_options_size. *)
Record option_state : Type := {
  os_buffer : list Z;
  li_LoadOptions : option Z;
  li_LoadOptionsSize : Z;
  second_stage : option Z;
  load_options : option Z;
  load_options_size : Z
}.
Definition with_li_options (s : option_state) (p : option Z) (n : Z) : option_state :=
  {| os_buffer := os_buffer s; li_LoadOptions := p; li_LoadOptionsSize := n; second_stage := second_stage s;
     load_options := load_options s; load_options_size := load_options_size s |}.
Definition with_buffer (s : option_state) (m : list Z) : option_state :=
  {| os_buffer := m; li_LoadOptions := li_LoadOptions s; li_LoadOptionsSize := li_LoadOptionsSize s;
     second_stage := second_stage s; load_options := load_options s; load_options_size := load_options_size s |}.

Section parse.
(** The text of the program's device path and the allocations of is_our_path. *)
Context (dppath : list Z) (dup_alloc path_alloc : bool).

(** li->LoadOptions and its size are split; NULL has size zero. *)
Definition split_li (s : option_state) : res (option_state * option (Z * option Z * Z)) :=
  match li_LoadOptions s with
  | None => Ok (s, None)
  | Some p => '(m, r) ← split_load_options (os_buffer s) p (li_LoadOptionsSize s); Ok (with_buffer s m, r)
  end.

(** The first word is ours: drop it. *)
Definition drop_program (s : option_state) : res option_state :=
  '(s, r) ← split_li s;
  match r with
  | None => Ok s
  | Some (arg0, remaining, remaining_size) =>
      path ← string_at (S (length (os_buffer s))) (os_buffer s) arg0;
      ours ← is_our_path dup_alloc path_alloc dppath path;
      Ok (if ours : bool then with_li_options s remaining remaining_size else s)
  end.

(** The optional data of a load option, or a command line without the program. *)
Definition find_options (s : option_state) : res option_state :=
  match li_LoadOptions s with
  | None => Ok s
  | Some p =>
      r ← get_load_option_optional_data (os_buffer s) p (li_LoadOptionsSize s);
      match r with
      | inr (od, ods) => Ok (with_li_options s od ods)
      | inl _ => drop_program s
      end
  end.

(** The second stage and its options. *)
Definition set_second_stage_options (s : option_state) : res option_state :=
  '(s, r) ← split_li s;
  match r with
  | None => Ok s
  | Some (arg0, remaining, remaining_size) =>
      c ← rd_le (os_buffer s) arg0 2;
      Ok {| os_buffer := os_buffer s; li_LoadOptions := li_LoadOptions s; li_LoadOptionsSize := li_LoadOptionsSize s;
            second_stage := if c =? 0 then second_stage s else Some arg0; load_options := remaining;
            load_options_size := remaining_size |}
  end.

Definition parse_load_options (s : option_state) : res (EFI_STATUS * option_state) :=
  match li_LoadOptions s with
  | None => Ok (EFI_SUCCESS, s)
  | Some p =>
      let size := li_LoadOptionsSize s in
      if size =? 0 then Ok (EFI_SUCCESS, s)
      else if negb (size mod 2 =? 0) then Ok (EFI_SUCCESS, s)
      else if size <? 2 then Ok (EFI_BAD_BUFFER_SIZE, s)
      else
        bds ← (if 16 <? size then g ← rdn (os_buffer s) (p + (size - 16)) 16; Ok (bytes_eqb g BDS_GUID) else Ok false);
        let s := if bds : bool then with_li_options s (Some p) (size - 16) else s in
        first ← rd_le (os_buffer s) p 2;
        if first =? 0 then Ok (EFI_SUCCESS, s)
        else
          s ← find_options s;
          windows ←
            (if 8 <=? li_LoadOptionsSize s then
               match li_LoadOptions s with
               | Some p => w ← rdn (os_buffer s) p 8; Ok (bytes_eqb w WINDOWS)
               | None => Fault
               end
             else Ok false);
          if windows : bool then Ok (EFI_SUCCESS, s)
          else s ← set_second_stage_options s; Ok (EFI_SUCCESS, s)
  end.
End parse.

(** ** The format of a load option *)

(** A string of UCS-2 units as bytes. *)
Definition ucs2 (s : list Z) : list Z := concat (map (le_split 2) s).

(** A node of a device path: its type, its subtype and what follows its header. *)
Definition path_node : Type := Z * Z * list Z.
Definition node_bytes (n : path_node) : list Z :=
  n.1.1 :: n.1.2 :: le_split 2 (4 + zlen n.2) ++ n.2.
Definition END_ENTIRE : list Z := [0x7f; 0xff; 4; 0].
Definition path_list (ns : list path_node) : list Z := concat (map node_bytes ns) ++ END_ENTIRE.

(** EFI_LOAD_OPTION of the UEFI specification *)
Record EFI_LOAD_OPTION : Type := {
  Attributes : Z;
  Description : list Z;
  FilePathList : list path_node;
  OptionalData : list Z
}.
Definition option_bytes (o : EFI_LOAD_OPTION) : list Z :=
  le_split 4 (Attributes o) ++ le_split 2 (zlen (path_list (FilePathList o))) ++ ucs2 (Description o) ++ [0; 0] ++
  path_list (FilePathList o) ++ OptionalData o.

Definition node_ok (n : path_node) : Prop := n.1 <> (0x7f, 0xff).
(** A load option shim accepts.  Two of the conditions are not of the specification
    but of shim: every unit of the description is below 256, because the check for
    valid UCS-2 wants every second byte to be zero ([wide_description_refused]), and
    the last one, because the length check keeps four bytes for the description. *)
Definition option_ok (o : EFI_LOAD_OPTION) : Prop :=
  Forall (fun c => 0 < c < 256) (Description o) /\ Forall node_ok (FilePathList o) /\
  zlen (path_list (FilePathList o)) < 2 ^ 16 /\ zlen (option_bytes o) < 2 ^ 32 /\
  2 <= 2 * zlen (Description o) + zlen (OptionalData o).

(** ** Lemmas on the format *)
Lemma zlen_ucs2 s : zlen (ucs2 s) = 2 * zlen s.
Proof. induction s as [|c s IH]; [done|]. unfold ucs2 in *. cbn [map concat]. zlen_simpl. lia. Qed.
Lemma zlen_node n : zlen (node_bytes n) = 4 + zlen n.2.
Proof. unfold node_bytes. zlen_simpl. lia. Qed.
Lemma zlen_path_list ns : zlen (path_list ns) = zlen (concat (map node_bytes ns)) + 4.
Proof. unfold path_list. by rewrite zlen_app. Qed.
#[export] Hint Rewrite zlen_ucs2 zlen_node : shim.
Lemma nodes_fit ns : 4 * zlen ns <= zlen (concat (map node_bytes ns)).
Proof. induction ns as [|n ns IH]; [done|]. cbn [map concat]. zlen_simpl. pose proof (zlen_nonneg n.2). lia. Qed.
Lemma ucs2_cons c s : ucs2 (c :: s) = le_split 2 c ++ ucs2 s.
Proof. done. Qed.
Lemma ucs2_low c s : 0 <= c < 256 -> ucs2 (c :: s) = c :: 0 :: ucs2 s.
Proof.
  intros Hc. rewrite ucs2_cons. cbn [le_split app]. rewrite Z.mod_small by lia.
  by rewrite (Z.div_small c 256).
Qed.

(** [rd] behind a prefix, by computation. *)
Lemma rd_behind p l i k : i = zlen p + k -> 0 <= k -> rd (p ++ l) i = rd l k.
Proof. intros -> Hk. rewrite rd_app_r by lia. f_equal. lia. Qed.

Lemma description_ok d : forall f p q cur limit i,
  Forall (fun c => 0 < c < 256) d -> cur + i = zlen p -> 0 <= i -> i mod 2 = 0 ->
  i + 2 * zlen d + 2 <= limit -> (2 * length d < f)%nat ->
  description f (p ++ ucs2 d ++ 0 :: 0 :: q) cur limit i = Ok (inr (i + 2 * zlen d + 1)).
Proof.
  induction d as [|c d IH]; intros f p q cur limit i Hd Hp Hi Hm Hl Hf.
  - destruct f as [|f]; [lia|]. cbn [description ucs2 map concat app]. zlen_simpl.
    rewrite (proj2 (Z.ltb_lt i limit)) by lia.
    rewrite (rd_behind p _ (cur + i) 0) by lia. change (rd (0 :: _) 0) with (Ok 0). rewrite bind_Ok, Hm. cbn [Z.eqb negb].
    rewrite (proj2 (Z.leb_gt limit (i + 1))) by lia.
    rewrite (rd_behind p _ (cur + (i + 1)) 1) by lia. change (rd (0 :: 0 :: _) 1) with (Ok 0). rewrite bind_Ok. cbn. do 2 f_equal. lia.
  - apply Forall_cons in Hd as [Hc Hd]. rewrite zlen_cons in *. cbn [length] in Hf.
    rewrite ucs2_low by lia. destruct f as [|[|f]]; [lia..|]. cbn [description app]. pose proof (zlen_nonneg d).
    rewrite (proj2 (Z.ltb_lt i limit)) by lia.
    rewrite (rd_behind p _ (cur + i) 0) by lia. change (rd (c :: _) 0) with (Ok c). rewrite bind_Ok, Hm. cbn [Z.eqb negb].
    rewrite (proj2 (Z.eqb_neq c 0)) by lia.
    rewrite (proj2 (Z.ltb_lt (i + 1) limit)) by lia.
    rewrite (rd_behind p _ (cur + (i + 1)) 1) by lia. change (rd (c :: 0 :: _) 1) with (Ok 0). rewrite bind_Ok.
    replace ((i + 1) mod 2) with 1 by (rewrite Z.add_mod, Hm by lia; done). cbn [Z.eqb negb].
    replace (p ++ c :: 0 :: ucs2 d ++ 0 :: 0 :: q) with ((p ++ [c; 0]) ++ ucs2 d ++ 0 :: 0 :: q) by (by rewrite <- app_assoc).
    rewrite IH; try (zlen_simpl; lia); [do 2 f_equal; lia|done|].
    replace (i + 1 + 1) with (i + 1 * 2) by lia. by rewrite Z_mod_plus_full.
Qed.

(** A unit from 256 on ends the search: its high byte is not zero. *)
Lemma description_refuses d c : forall f p q cur limit i,
  Forall (fun c => 0 < c < 256) d -> 256 <= c < 2 ^ 16 -> cur + i = zlen p -> 0 <= i -> i mod 2 = 0 ->
  i + 2 * zlen d + 2 <= limit -> (2 * length d + 1 < f)%nat ->
  description f (p ++ ucs2 d ++ le_split 2 c ++ q) cur limit i = Ok (inl EFI_INVALID_PARAMETER).
Proof.
  induction d as [|u d IH]; intros f p q cur limit i Hd Hc Hp Hi Hm Hl Hf.
  - assert (Hhi : c / 256 mod 256 <> 0).
    { assert (1 <= c / 256 < 256) by (split; [apply Z.div_le_lower_bound|apply Z.div_lt_upper_bound]; lia). rewrite Z.mod_small; lia. }
    change (zlen (@nil Z)) with 0 in Hl. cbn [length] in Hf. destruct f as [|[|f]]; [lia..|]. cbn [description ucs2 map concat app le_split].
    rewrite (proj2 (Z.ltb_lt i limit)) by lia.
    rewrite (rd_behind p _ (cur + i) 0) by lia. change (rd (c mod 256 :: _) 0) with (Ok (c mod 256)). rewrite bind_Ok, Hm. cbn [Z.eqb negb].
    rewrite (rd_behind p _ (cur + (i + 1)) 1) by lia. change (rd (c mod 256 :: _) 1) with (Ok (c / 256 mod 256)).
    rewrite (proj2 (Z.leb_gt limit (i + 1))), (proj2 (Z.ltb_lt (i + 1) limit)) by lia.
    replace ((i + 1) mod 2) with 1 by (rewrite Z.add_mod, Hm by lia; done).
    destruct (c mod 256 =? 0); rewrite bind_Ok, (proj2 (Z.eqb_neq _ 0) Hhi); done.
  - apply Forall_cons in Hd as [Hu Hd]. rewrite zlen_cons in *. cbn [length] in Hf.
    rewrite ucs2_low by lia. destruct f as [|[|f]]; [lia..|]. cbn [description app]. pose proof (zlen_nonneg d).
    rewrite (proj2 (Z.ltb_lt i limit)) by lia.
    rewrite (rd_behind p _ (cur + i) 0) by lia. change (rd (u :: _) 0) with (Ok u). rewrite bind_Ok, Hm. cbn [Z.eqb negb].
    rewrite (proj2 (Z.eqb_neq u 0)) by lia.
    rewrite (proj2 (Z.ltb_lt (i + 1) limit)) by lia.
    rewrite (rd_behind p _ (cur + (i + 1)) 1) by lia. change (rd (u :: 0 :: _) 1) with (Ok 0). rewrite bind_Ok.
    replace ((i + 1) mod 2) with 1 by (rewrite Z.add_mod, Hm by lia; done). cbn [Z.eqb negb].
    replace (p ++ u :: 0 :: ucs2 d ++ le_split 2 c ++ q) with ((p ++ [u; 0]) ++ ucs2 d ++ le_split 2 c ++ q) by (by rewrite <- app_assoc).
    apply IH; try (zlen_simpl; lia); [done|]. replace (i + 1 + 1) with (i + 1 * 2) by lia. by rewrite Z_mod_plus_full.
Qed.

(** One step of the walk over a node. *)
Lemma path_nodes_step f p t st d q cur limit i :
  cur + i = zlen p -> 0 <= i -> i + 4 + zlen d <= limit < 2 ^ 32 -> 4 + zlen d < 2 ^ 16 ->
  path_nodes (Datatypes.S f) (p ++ node_bytes (t, st, d) ++ q) cur limit i =
  if (t =? 0x7f) && (st =? 0xff) then
    if negb (4 + zlen d =? 4) then Ok (inl EFI_INVALID_PARAMETER) else Ok (inr (i + (4 + zlen d)))
  else path_nodes f (p ++ node_bytes (t, st, d) ++ q) cur limit (i + (4 + zlen d)).
Proof.
  intros Hp Hi Hl Hd. pose proof (zlen_nonneg d). unfold node_bytes. cbn [fst snd le_split app].
  set (v := 4 + zlen d) in *. cbn [path_nodes]. rewrite u32_small by lia.
  rewrite (proj2 (Z.ltb_ge (limit - i) 4)) by lia.
  rewrite (rd_behind p _ (cur + i) 0), (rd_behind p _ (cur + (i + 1)) 1), (rd_behind p _ (cur + (i + 2)) 2),
    (rd_behind p _ (cur + (i + 3)) 3) by lia.
  change (rd (t :: _) 0) with (Ok t). change (rd (t :: _) 1) with (Ok st).
  change (rd (t :: _) 2) with (Ok (v mod 256)). change (rd (t :: _) 3) with (Ok (v / 256 mod 256)). rewrite !bind_Ok.
  rewrite lor_bytes by (first [apply Z.mod_pos_bound | idtac]; try lia; apply Z.mod_pos_bound; lia).
  rewrite (Z.mod_small (v / 256)) by (split; [apply Z.div_pos|apply Z.div_lt_upper_bound]; lia).
  rewrite <- Z.div_mod by lia. rewrite (u32_small (i + v)) by lia.
  rewrite (proj2 (Z.ltb_ge v 4)), (proj2 (Z.ltb_ge limit v)) by lia. done.
Qed.

Lemma path_nodes_ok ns : forall f p q cur limit i,
  Forall node_ok ns -> cur + i = zlen p -> 0 <= i -> i + zlen (path_list ns) <= limit < 2 ^ 32 ->
  zlen (path_list ns) < 2 ^ 16 -> (length ns < f)%nat ->
  path_nodes f (p ++ path_list ns ++ q) cur limit i = Ok (inr (i + zlen (path_list ns))).
Proof.
  induction ns as [|[[t st] d] ns IH]; intros f p q cur limit i Hn Hp Hi Hl Hs Hf; (destruct f as [|f]; [lia|]).
  - change (zlen (path_list [])) with 4 in *. change (path_list [] ++ q) with (node_bytes (0x7f, 0xff, []) ++ q).
    rewrite path_nodes_step by (change (zlen (@nil Z)) with 0; lia). done.
  - apply Forall_cons in Hn as [Hn Hns]. rewrite zlen_path_list in *. cbn [map concat] in *. zlen_simpl. cbn [snd] in *.
    pose proof (zlen_nonneg (concat (map node_bytes ns))). pose proof (zlen_nonneg d).
    unfold path_list. cbn [map concat]. rewrite <- !app_assoc.
    rewrite path_nodes_step by lia.
    destruct ((t =? 0x7f) && (st =? 0xff)) eqn:E.
    { apply andb_true_iff in E as [->%Z.eqb_eq ->%Z.eqb_eq]. by destruct Hn. }
    replace (p ++ node_bytes (t, st, d) ++ concat (map node_bytes ns) ++ END_ENTIRE ++ q)
      with ((p ++ node_bytes (t, st, d)) ++ path_list ns ++ q) by (unfold path_list; by rewrite <- !app_assoc).
    cbn [length] in Hf. rewrite IH; try (rewrite ?zlen_path_list; zlen_simpl; cbn [snd]; lia); [|done].
    do 2 f_equal. rewrite ?zlen_path_list. zlen_simpl. cbn [snd]. lia.
Qed.

Lemma option_bytes_length o :
  zlen (option_bytes o) =
  8 + 2 * zlen (Description o) + zlen (path_list (FilePathList o)) + zlen (OptionalData o).
Proof. unfold option_bytes. zlen_simpl. lia. Qed.

Lemma optional_data_ok o p q : option_ok o ->
  get_load_option_optional_data (p ++ option_bytes o ++ q) (zlen p) (zlen (option_bytes o)) =
  Ok (inr (match OptionalData o with
           | [] => (None, 0)
           | od => (Some (zlen p + zlen (option_bytes o) - zlen od), zlen od)
           end)).
Proof.
  intros (Hd & Hn & Hp & Hs & Hmin). pose proof (option_bytes_length o) as Hlen.
  pose proof (zlen_nonneg (OptionalData o)). pose proof (zlen_nonneg (Description o)).
  pose proof (nodes_fit (FilePathList o)) as Hfit. pose proof (zlen_path_list (FilePathList o)) as Hpl.
  pose proof (zlen_nonneg (FilePathList o)).
  set (ns := FilePathList o) in *. set (fp := path_list ns) in *. set (d := Description o) in *.
  set (od := OptionalData o) in *. set (size := zlen (option_bytes o)) in *.
  unfold get_load_option_optional_data. rewrite (proj2 (Z.ltb_ge size 12)) by lia.
  set (pre := p ++ le_split 4 (Attributes o)).
  assert (Hpre : zlen pre = zlen p + 4) by (unfold pre; zlen_simpl; lia).
  replace (p ++ option_bytes o ++ q) with (pre ++ le_split 2 (zlen fp) ++ ucs2 d ++ 0 :: 0 :: fp ++ od ++ q)
    by (unfold option_bytes, pre; rewrite <- !app_assoc; done).
  rewrite (rd_le_mid pre _ _ (zlen p + 4) 2 (zlen fp)) by (first [done | lia]).
  rewrite bind_Ok. rewrite (proj2 (Z.ltb_ge (size - 10) (zlen fp))) by lia. cbv zeta.
  rewrite (u32_small (size - 6 - zlen fp)) by lia.
  rewrite (app_assoc pre).
  rewrite description_ok; [rewrite bind_Ok|done|rewrite zlen_app, zlen_le_split; lia|done|done|lia|unfold zlen in *; lia].
  set (i := 0 + 2 * zlen d + 1 + 1). rewrite (proj2 (Z.ltb_ge _ i)) by lia.
  destruct (Z.eqb_spec i (size - 6 - zlen fp)) as [E | E].
  { destruct od as [|b od'] eqn:Eod; [done|]. rewrite zlen_cons in *. pose proof (zlen_nonneg od'). lia. }
  rewrite (u32_small (_ + zlen fp)) by lia.
  replace ((pre ++ le_split 2 (zlen fp)) ++ ucs2 d ++ 0 :: 0 :: fp ++ od ++ q)
    with ((pre ++ le_split 2 (zlen fp) ++ ucs2 d ++ [0; 0]) ++ fp ++ od ++ q) by (by rewrite <- !app_assoc).
  pose proof (path_nodes_ok ns) as Hwalk. fold fp in Hwalk.
  rewrite Hwalk; [rewrite bind_Ok|done|zlen_simpl; lia|lia|lia|done|].
  - rewrite (proj2 (Z.ltb_ge (zlen fp) _)) by lia.
    destruct od as [|b od'] eqn:Eod; [zlen_simpl; lia|]. rewrite u32_small by lia. do 4 f_equal; [|lia]. f_equal. lia.
  - unfold zlen in *. rewrite !length_app. lia.
Qed.

(** The optional data of a load option is found: a buffer that holds an
    EFI_LOAD_OPTION with any description, file path list and optional data gives
    back the place and the length of the optional data, or NULL and zero when
    there is none, wherever the option lies. *)
Theorem optional_data_roundtrip o p q (Hok : option_ok o) :
  get_load_option_optional_data (p ++ option_bytes o ++ q) (zlen p) (zlen (option_bytes o)) =
  Ok (inr (match OptionalData o with
           | [] => (None, 0)
           | od => (Some (zlen p + zlen (option_bytes o) - zlen od), zlen od)
           end)).
Proof. by apply optional_data_ok. Qed.

(** A description with a unit from 256 on, which is valid UCS-2, is refused. *)
Theorem wide_description_refused o d c d' p q :
  Description o = d ++ c :: d' -> Forall (fun c => 0 < c < 256) d -> 256 <= c < 2 ^ 16 ->
  zlen (path_list (FilePathList o)) < 2 ^ 16 -> zlen (option_bytes o) < 2 ^ 32 ->
  get_load_option_optional_data (p ++ option_bytes o ++ q) (zlen p) (zlen (option_bytes o)) = Ok (inl EFI_INVALID_PARAMETER).
Proof.
  intros Hdesc Hd Hc Hp Hs. pose proof (option_bytes_length o) as Hlen. rewrite Hdesc, zlen_app, zlen_cons in Hlen.
  pose proof (zlen_nonneg (OptionalData o)). pose proof (zlen_nonneg d). pose proof (zlen_nonneg d').
  pose proof (zlen_nonneg (path_list (FilePathList o))).
  set (fp := path_list (FilePathList o)) in *. set (size := zlen (option_bytes o)) in *.
  assert (4 <= zlen fp) by (unfold fp; rewrite zlen_path_list; pose proof (zlen_nonneg (concat (map node_bytes (FilePathList o)))); lia).
  unfold get_load_option_optional_data. rewrite (proj2 (Z.ltb_ge size 12)) by lia.
  set (pre := p ++ le_split 4 (Attributes o)).
  replace (p ++ option_bytes o ++ q)
    with (pre ++ le_split 2 (zlen fp) ++ ucs2 d ++ le_split 2 c ++ ucs2 d' ++ [0; 0] ++ fp ++ OptionalData o ++ q).
  2:{ unfold option_bytes, pre. rewrite Hdesc. unfold ucs2. rewrite map_app, concat_app. cbn [map concat]. by rewrite <- !app_assoc. }
  rewrite (rd_le_mid pre _ _ (zlen p + 4) 2 (zlen fp)) by (first [done | lia | unfold pre; zlen_simpl; lia]).
  rewrite bind_Ok. rewrite (proj2 (Z.ltb_ge (size - 10) (zlen fp))) by lia. cbv zeta.
  rewrite (u32_small (size - 6 - zlen fp)) by lia. rewrite (app_assoc pre).
  rewrite description_refuses; [done|done|done|unfold pre; rewrite !zlen_app, !zlen_le_split; lia|done|done|lia|unfold zlen in *; lia].
Qed.

(** ** split_load_options *)
Definition word_unit (c : Z) : Prop := 0 < c < 2 ^ 16 /\ c <> SPACE.
Definition spaces (n : nat) : list Z := replicate n SPACE.

Lemma skip_spaces_ok n : forall k p q,
  (n <= k)%nat -> n = k \/ (exists c q', q = le_split 2 c ++ q' /\ 0 <= c < 2 ^ 16 /\ c <> SPACE) ->
  skip_spaces k (p ++ ucs2 (spaces n) ++ q) (zlen p) = Ok (zlen p + 2 * Z.of_nat n).
Proof.
  induction n as [|n IH]; intros k p q Hk Hq.
  - destruct Hq as [<- | (c & q' & -> & Hc & Hs)]; [cbn; f_equal; lia|].
    destruct k as [|k]; cbn [skip_spaces spaces replicate]; [f_equal; lia|].
    change (ucs2 []) with (@nil Z). rewrite app_nil_l, (rd_le_mid p _ q' _ 2 c), bind_Ok by done.
    rewrite (proj2 (Z.eqb_neq c SPACE) Hs). cbn. f_equal. lia.
  - destruct k as [|k]; [lia|]. cbn [spaces replicate skip_spaces]. rewrite ucs2_cons, <- app_assoc.
    rewrite (rd_le_mid p _ _ _ 2 SPACE), bind_Ok by done. cbn [negb Z.eqb SPACE Pos.eqb].
    rewrite app_assoc. replace (zlen p + 2) with (zlen (p ++ le_split 2 SPACE)) by zlia.
    rewrite IH; [zlen_simpl; f_equal; lia|lia|]. destruct Hq as [[= ->] | Hq]; [by left|by right].
Qed.

(** The walk over a word without an end. *)
Lemma end_word_skip w : forall k p q start i,
  Forall word_unit w -> start + 2 * i = zlen p -> (length w <= k)%nat ->
  end_word k (p ++ ucs2 w ++ q) start i = end_word (k - length w) (p ++ ucs2 w ++ q) start (i + zlen w).
Proof.
  induction w as [|c w IH]; intros k p q start i Hw Hp Hk.
  - cbn [length]. rewrite Nat.sub_0_r. f_equal. zlen_simpl. lia.
  - apply Forall_cons in Hw as [[Hc Hs] Hw]. cbn [length] in *. destruct k as [|k]; [lia|]. cbn [end_word Nat.sub].
    rewrite ucs2_cons, <- app_assoc.
    rewrite (rd_le_mid p _ _ _ 2 c), bind_Ok by (done || lia).
    rewrite (proj2 (Z.eqb_neq c SPACE)), (proj2 (Z.eqb_neq c 0)) by lia. cbn [orb].
    rewrite app_assoc. rewrite IH; [f_equal; zlen_simpl; lia|done|zlen_simpl; lia|lia].
Qed.

Lemma end_word_found w k p t q start i :
  Forall word_unit w -> start + 2 * i = zlen p -> (length w < k)%nat -> t = 0 \/ t = SPACE ->
  end_word k (p ++ ucs2 w ++ le_split 2 t ++ q) start i = Ok (p ++ ucs2 w ++ [0; 0] ++ q, Some (i + zlen w)).
Proof.
  intros Hw Hp Hk Ht. rewrite end_word_skip by (done || lia).
  destruct (k - length w)%nat as [|k'] eqn:Ek; [lia|]. cbn [end_word].
  rewrite !(app_assoc p). rewrite (rd_le_mid _ _ _ _ 2 t), bind_Ok by (done || (destruct Ht; subst; done) || zlen_simpl; lia).
  replace ((t =? SPACE) || (t =? 0)) with true by (destruct Ht; subst; done).
  unfold wr_le. rewrite wrn_app_mid by (done || zlen_simpl; lia). done.
Qed.

(** The buffer in front of [split_load_options]: spaces, a word, its end and
    what is left. *)
Definition option_string (n : nat) (w : list Z) (t : Z) (rest : list Z) : list Z :=
  ucs2 (spaces n) ++ ucs2 w ++ le_split 2 t ++ rest.
Definition ends_word (w : list Z) (t : Z) : Prop := t = 0 \/ t = SPACE /\ w <> [].

Lemma option_string_length n w t rest :
  zlen (option_string n w t rest) = 2 * Z.of_nat n + 2 * zlen w + 2 + zlen rest.
Proof. unfold option_string, spaces. zlen_simpl. rewrite zlen_replicate. lia. Qed.

(** What is left behind the word, NULL when nothing is. *)
Definition left_over (start : Z) (rest : list Z) : option Z := if 0 <? zlen rest then Some start else None.

Lemma split_load_options_ok n w t rest p q :
  Forall word_unit w -> ends_word w t -> zlen (option_string n w t rest) < 2 ^ 32 ->
  split_load_options (p ++ option_string n w t rest ++ q) (zlen p) (zlen (option_string n w t rest)) =
  let arg0 := zlen p + 2 * Z.of_nat n in
  Ok (p ++ option_string n w 0 rest ++ q,
      Some (arg0, left_over (arg0 + 2 * zlen w + 2) rest, zlen rest)).
Proof.
  intros Hw Ht Hsize. pose proof (option_string_length n w t rest) as Hlen. pose proof (zlen_nonneg w).
  pose proof (zlen_nonneg rest).
  set (size := zlen (option_string n w t rest)) in *. unfold split_load_options, option_string.
  rewrite <- !app_assoc.
  rewrite skip_spaces_ok.
  2: { apply Nat2Z.inj_le. rewrite Z2Nat.id by (apply Z.div_pos; lia). apply Z.div_le_lower_bound; lia. }
  2: { right. destruct w as [|c w].
       - exists t, (rest ++ q). destruct Ht as [-> | [_ Ht]]; done.
       - apply Forall_cons in Hw as [[Hc Hs] _]. exists c, (ucs2 w ++ le_split 2 t ++ rest ++ q).
         rewrite ucs2_cons, <- app_assoc. split_and!; [done|lia|lia|done]. }
  rewrite bind_Ok. cbv zeta. rewrite (u32_small (size - _)) by lia.
  rewrite !(app_assoc p (ucs2 (spaces n))).
  rewrite end_word_found; [|done| | |destruct Ht as [|[]]; auto].
  2: { unfold spaces. zlen_simpl. rewrite zlen_replicate. lia. }
  2: { apply Nat2Z.inj_lt. rewrite Z2Nat.id by (apply Z.div_pos; lia). fold (zlen w).
       apply Z.lt_le_trans with (zlen w + 1); [lia|]. apply Z.div_le_lower_bound; lia. }
  rewrite bind_Ok. rewrite u32_small by lia. unfold left_over.
  replace (size - (zlen p + 2 * Z.of_nat n - zlen p) - (0 + zlen w + 1) * 2) with (zlen rest) by lia.
  rewrite <- !app_assoc. change (le_split 2 0) with [0; 0]. do 5 f_equal. destruct (0 <? zlen rest); [f_equal; lia|done].
Qed.

Lemma split_load_options_none n w tail p q :
  Forall word_unit w -> zlen tail < 2 -> 2 * Z.of_nat n + 2 * zlen w + zlen tail < 2 ^ 32 ->
  let m := p ++ ucs2 (spaces n) ++ ucs2 w ++ tail ++ q in
  split_load_options m (zlen p) (2 * Z.of_nat n + 2 * zlen w + zlen tail) = Ok (m, None).
Proof.
  intros Hw Ht Hsize m. pose proof (zlen_nonneg w). pose proof (zlen_nonneg tail). subst m. unfold split_load_options.
  set (size := 2 * Z.of_nat n + 2 * zlen w + zlen tail) in *.
  assert (Hhalf : size / 2 = Z.of_nat n + zlen w) by (symmetry; apply (Z.div_unique _ _ _ (zlen tail)); lia).
  assert (Hk : Z.to_nat (size / 2) = (n + length w)%nat) by (rewrite Hhalf; unfold zlen; lia).
  rewrite Hk. rewrite skip_spaces_ok; [|lia|].
  2: { destruct w as [|c w]; [left; cbn; lia|right]. apply Forall_cons in Hw as [[Hc Hs] _].
       exists c, (ucs2 w ++ tail ++ q). rewrite ucs2_cons, <- app_assoc. split_and!; [done|lia|lia|done]. }
  rewrite bind_Ok. cbv zeta. rewrite u32_small by lia.
  replace (Z.to_nat _) with (length w).
  2: { replace (size - _) with (2 * zlen w + zlen tail) by lia. rewrite <- (Z.div_unique _ 2 (zlen w) (zlen tail)) by lia.
       unfold zlen. lia. }
  rewrite (app_assoc p), end_word_skip by (done || (unfold spaces; zlen_simpl; rewrite zlen_replicate; lia)).
  by rewrite Nat.sub_diag.
Qed.

(** Splitting terminates the first word in place: behind leading spaces the
    word and what is left of the options are found whether a space or a NUL ends
    the word, only the unit that ended it is written, and nothing is left exactly
    when the word ends the buffer; options whose first word has no end inside the
    buffer are left as they are and give NULL. *)
Theorem split_load_options_correct n w p q (Hw : Forall word_unit w) :
  (forall t rest, ends_word w t -> zlen (option_string n w t rest) < 2 ^ 32 ->
   split_load_options (p ++ option_string n w t rest ++ q) (zlen p) (zlen (option_string n w t rest)) =
   let arg0 := zlen p + 2 * Z.of_nat n in
   Ok (p ++ option_string n w 0 rest ++ q,
       Some (arg0, left_over (arg0 + 2 * zlen w + 2) rest, zlen rest))) /\
  (forall tail, zlen tail < 2 -> 2 * Z.of_nat n + 2 * zlen w + zlen tail < 2 ^ 32 ->
   let m := p ++ ucs2 (spaces n) ++ ucs2 w ++ tail ++ q in
   split_load_options m (zlen p) (2 * Z.of_nat n + 2 * zlen w + zlen tail) = Ok (m, None)).
Proof. split; intros; [by apply split_load_options_ok|by apply split_load_options_none]. Qed.

(** ** parse_load_options on a load option *)
Lemma string_at_ok w : forall f p q,
  Forall word_unit w -> (length w < f)%nat -> string_at f (p ++ ucs2 w ++ 0 :: 0 :: q) (zlen p) = Ok w.
Proof.
  induction w as [|c w IH]; intros f p q Hw Hf; (destruct f as [|f]; [lia|]); cbn [string_at].
  - change (ucs2 [] ++ 0 :: 0 :: q) with (le_split 2 0 ++ q). by rewrite (rd_le_mid p _ q _ 2 0).
  - apply Forall_cons in Hw as [[Hc Hs] Hw]. cbn [length] in Hf. rewrite ucs2_cons, <- app_assoc.
    rewrite (rd_le_mid p _ _ _ 2 c), bind_Ok by (done || lia). rewrite (proj2 (Z.eqb_neq c 0)) by lia.
    rewrite app_assoc. replace (zlen p + 2) with (zlen (p ++ le_split 2 c)) by zlia.
    by rewrite IH by (done || lia).
Qed.

(** A load option whose optional data is a command line. *)
Definition command_option (a : Z) (d : list Z) (ns : list path_node) (n : nat) (w : list Z) (t : Z) (rest : list Z) : EFI_LOAD_OPTION :=
  {| Attributes := a; Description := d; FilePathList := ns; OptionalData := option_string n w t rest |}.
(** The GUID some firmware puts behind it. *)
Definition tag_bytes (tag : bool) : list Z := if tag then BDS_GUID else [].

Section command.
Context (a : Z) (d : list Z) (ns : list path_node) (n : nat) (w : list Z) (t : Z) (rest p q : list Z) (tag : bool).
Let o (t : Z) : EFI_LOAD_OPTION := command_option a d ns n w t rest.
Context (Hok : option_ok (o t)) (Hw : Forall word_unit w) (Ht : ends_word w t).
Let args : Z := zlen p + zlen (option_bytes (o t)) - zlen (option_string n w t rest).

Lemma command_find_options dppath dup_alloc path_alloc s :
  os_buffer s = p ++ option_bytes (o t) ++ tag_bytes tag ++ q -> li_LoadOptions s = Some (zlen p) ->
  li_LoadOptionsSize s = zlen (option_bytes (o t)) ->
  find_options dppath dup_alloc path_alloc s = Ok (with_li_options s (Some args) (zlen (option_string n w t rest))).
Proof.
  intros Hb Hp Hs. unfold find_options. rewrite Hp, Hb, Hs. rewrite optional_data_ok by done. rewrite bind_Ok.
  cbn [o OptionalData command_option]. pose proof (option_string_length n w t rest).
  pose proof (zlen_nonneg w). pose proof (zlen_nonneg rest).
  destruct (option_string n w t rest) eqn:E; [zlen_simpl; lia|]. done.
Qed.

(** The bytes in front of the command line. *)
Let front : list Z := p ++ le_split 4 a ++ le_split 2 (zlen (path_list ns)) ++ ucs2 d ++ [0; 0] ++ path_list ns.
Lemma command_split t' : p ++ option_bytes (o t') ++ tag_bytes tag ++ q = front ++ option_string n w t' rest ++ tag_bytes tag ++ q.
Proof. unfold option_bytes, front. cbn [o command_option Attributes Description FilePathList OptionalData]. by rewrite <- !app_assoc. Qed.
Lemma front_length : zlen front = args.
Proof. unfold args. rewrite option_bytes_length. cbn [o command_option Description FilePathList OptionalData]. unfold front. zlen_simpl. lia. Qed.
Lemma command_second_stage s :
  os_buffer s = p ++ option_bytes (o t) ++ tag_bytes tag ++ q -> li_LoadOptions s = Some args ->
  li_LoadOptionsSize s = zlen (option_string n w t rest) ->
  let arg0 := args + 2 * Z.of_nat n in
  set_second_stage_options s =
  Ok {| os_buffer := p ++ option_bytes (o 0) ++ tag_bytes tag ++ q; li_LoadOptions := Some args;
        li_LoadOptionsSize := zlen (option_string n w t rest);
        second_stage := match w with [] => second_stage s | _ => Some arg0 end;
        load_options := left_over (arg0 + 2 * zlen w + 2) rest; load_options_size := zlen rest |}.
Proof.
  intros Hb Hp Hs arg0. destruct Hok as (_ & _ & _ & Hsize & _). rewrite option_bytes_length in Hsize.
  cbn [o command_option Description FilePathList OptionalData] in Hsize.
  pose proof (zlen_nonneg d). pose proof (zlen_nonneg (path_list ns)).
  unfold set_second_stage_options, split_li. rewrite Hp, Hs, Hb, command_split, <- front_length.
  rewrite split_load_options_ok by (done || lia). cbv zeta. rewrite !bind_Ok. cbn [os_buffer with_buffer].
  rewrite <- command_split.
  assert (Hc : exists c, rd_le (p ++ option_bytes (o 0) ++ tag_bytes tag ++ q) (zlen front + 2 * Z.of_nat n) 2 = Ok c /\
    (c =? 0) = match w with [] => true | _ => false end).
  { rewrite command_split. unfold option_string. rewrite <- !app_assoc, (app_assoc front).
    destruct w as [|c w']; [exists 0|exists c; apply Forall_cons in Hw as [[Hc ?] _]].
    - change (ucs2 []) with (@nil Z). rewrite app_nil_l. split; [|done]. apply (rd_le_mid (front ++ ucs2 (spaces n)) (le_split 2 0) _ _ 2 0); [|done..].
      unfold spaces. zlen_simpl. rewrite zlen_replicate. lia.
    - rewrite ucs2_cons, <- (app_assoc (le_split 2 c)). split; [|apply Z.eqb_neq; lia]. apply (rd_le_mid (front ++ ucs2 (spaces n)) (le_split 2 c) _ _ 2 c); [|done|lia].
      unfold spaces. zlen_simpl. rewrite zlen_replicate. lia. }
  destruct Hc as (c & -> & Hc). rewrite bind_Ok, Hc. cbn [second_stage with_buffer li_LoadOptions li_LoadOptionsSize].
  rewrite Hp, Hs. unfold arg0. rewrite <- front_length. by destruct w.
Qed.

(** The word is what the second stage's name points at. *)
Lemma command_word :
  let m := p ++ option_bytes (o 0) ++ tag_bytes tag ++ q in
  string_at (Datatypes.S (length m)) m (args + 2 * Z.of_nat n) = Ok w.
Proof.
  intros m. unfold m. rewrite command_split, <- front_length. unfold option_string.
  rewrite <- !app_assoc, (app_assoc front).
  replace (zlen front + 2 * Z.of_nat n) with (zlen (front ++ ucs2 (spaces n)))
    by (unfold spaces; zlen_simpl; rewrite zlen_replicate; lia).
  apply string_at_ok; [done|]. pose proof (zlen_ucs2 w). unfold zlen in *. rewrite !length_app. lia.
Qed.
End command.

Lemma first_unit a p m : 0 < a mod 2 ^ 16 -> exists c, rd_le (p ++ le_split 4 a ++ m) (zlen p) 2 = Ok c /\ (c =? 0) = false.
Proof.
  intros Ha. exists (a mod 256 + 256 * (a / 256 mod 256)). split.
  - unfold rd_le. change (le_split 4 a ++ m) with ([a mod 256; a / 256 mod 256] ++ drop 2 (le_split 4 a) ++ m).
    rewrite rdn_app_mid by done. rewrite bind_Ok. cbn [le_combine]. f_equal. lia.
  - apply Z.eqb_neq. change (2 ^ 16) with (256 * 256) in Ha. rewrite Z.rem_mul_r in Ha by lia. lia.
Qed.

(** The tag at the end of the options is recognised. *)
Lemma tag_found b p q tag : (tag = true \/ drop (length b - 16) b <> BDS_GUID) -> 16 < zlen b ->
  rdn (p ++ b ++ tag_bytes tag ++ q) (zlen p + (zlen (b ++ tag_bytes tag) - 16)) 16 =
  Ok (if tag then BDS_GUID else drop (length b - 16) b).
Proof.
  intros Htag Hb. destruct tag; cbn [tag_bytes].
  - rewrite (app_assoc p). apply rdn_app_mid; [zlen_simpl; change (zlen BDS_GUID) with 16; lia|done].
  - rewrite app_nil_r, app_nil_l. rewrite <- (take_drop (length b - 16) b) at 1. rewrite <- app_assoc, (app_assoc p).
    unfold zlen in *. apply rdn_app_mid; unfold zlen; rewrite ?length_app, ?length_take, ?length_drop; lia.
Qed.

Lemma windows_word b p q i : 8 <= zlen b -> i = zlen p -> rdn (p ++ b ++ q) i 8 = Ok (take 8 b).
Proof.
  intros Hb ->. rewrite <- (take_drop 8 b) at 1. rewrite <- app_assoc. apply rdn_app_mid; [done|].
  unfold zlen in *. rewrite length_take. lia.
Qed.

(** C34. A load option that shim takes as one is understood, with or without the GUID
    that some firmware puts at its end: the first word of its optional data, which
    lies in the buffer as a NUL-terminated string, becomes the name of the second
    stage unless it is empty, and what follows the word and nothing else becomes the
    options of the second stage.  The options that shim takes as one are those with a
    description of units below 256 and any device path of less than 64 KiB
    ([option_ok]), an even number of bytes and more than 16, attributes whose low 16
    bits are not zero (otherwise all of it is ignored), and optional data
    that do not begin with the bytes of "WINDOWS" and a NUL; without the tag the last 16 bytes must not look
    like it. *)
Theorem parse_load_options_command dppath dup_alloc path_alloc a d ns n w t rest p q tag s
    (o := fun t => command_option a d ns n w t rest)
    (Hok : option_ok (o t)) (Hw : Forall word_unit w) (Ht : ends_word w t) (Ha : 0 < a mod 2 ^ 16)
    (Heven : zlen (option_bytes (o t)) mod 2 = 0) (Htag : tag = true \/ drop (length (option_bytes (o t)) - 16) (option_bytes (o t)) <> BDS_GUID)
    (Hlong : 16 < zlen (option_bytes (o t))) (Hwin : take 8 (option_string n w t rest) <> WINDOWS)
    (Hbuf : os_buffer s = p ++ option_bytes (o t) ++ tag_bytes tag ++ q) (Hp : li_LoadOptions s = Some (zlen p))
    (Hsize : li_LoadOptionsSize s = zlen (option_bytes (o t) ++ tag_bytes tag)) :
  let m := p ++ option_bytes (o 0) ++ tag_bytes tag ++ q in
  let args := zlen p + zlen (option_bytes (o t)) - zlen (option_string n w t rest) in
  let arg0 := args + 2 * Z.of_nat n in
  parse_load_options dppath dup_alloc path_alloc s =
    Ok (EFI_SUCCESS,
        {| os_buffer := m; li_LoadOptions := Some args; li_LoadOptionsSize := zlen (option_string n w t rest);
           second_stage := match w with [] => second_stage s | _ => Some arg0 end;
           load_options := left_over (arg0 + 2 * zlen w + 2) rest; load_options_size := zlen rest |}) /\
  string_at (Datatypes.S (length m)) m arg0 = Ok w.
Proof.
  intros m args arg0. split; [|by apply command_word].
  assert (Htl : zlen (tag_bytes tag) = if tag then 16 else 0) by (by destruct tag).
  assert (Hgt : 16 < zlen (option_bytes (o t) ++ tag_bytes tag)) by (rewrite zlen_app, Htl; destruct tag; lia).
  unfold parse_load_options. rewrite Hp, Hsize, Hbuf.
  rewrite (proj2 (Z.eqb_neq (zlen (option_bytes (o t) ++ tag_bytes tag)) 0)) by lia.
  replace (zlen (option_bytes (o t) ++ tag_bytes tag) mod 2) with 0.
  2: { rewrite zlen_app, Htl. destruct tag; [|by rewrite Z.add_0_r, Heven]. by rewrite Z.add_mod, Heven. }
  cbn [Z.eqb negb]. rewrite (proj2 (Z.ltb_ge (zlen (option_bytes (o t) ++ tag_bytes tag)) 2)) by lia.
  rewrite (proj2 (Z.ltb_lt 16 (zlen (option_bytes (o t) ++ tag_bytes tag))) Hgt).
  rewrite tag_found by done. rewrite !bind_Ok.
  set (s' := if bytes_eqb _ BDS_GUID then with_li_options _ _ _ else s).
  assert (Hs' : os_buffer s' = p ++ option_bytes (o t) ++ tag_bytes tag ++ q /\ li_LoadOptions s' = Some (zlen p) /\
    li_LoadOptionsSize s' = zlen (option_bytes (o t)) /\ second_stage s' = second_stage s).
  { unfold s', bytes_eqb. destruct tag.
    - rewrite bool_decide_true by done. cbn [os_buffer li_LoadOptions li_LoadOptionsSize with_li_options second_stage].
      split_and!; try done. rewrite zlen_app, Htl. lia.
    - destruct Htag as [? | Htag]; [done|]. rewrite bool_decide_false by done. split_and!; try done.
      by rewrite Hsize, zlen_app, Htl, Z.add_0_r. }
  destruct Hs' as (Hb' & Hp' & Hz' & Hss). clearbody s'. rewrite Hb'.
  assert (Hc : exists c, rd_le (p ++ option_bytes (o t) ++ tag_bytes tag ++ q) (zlen p) 2 = Ok c /\ (c =? 0) = false).
  { unfold option_bytes. rewrite <- app_assoc. by apply first_unit. }
  destruct Hc as (c & -> & Hc0). rewrite bind_Ok, Hc0.
  rewrite (command_find_options a d ns n w t rest p q tag) by done. rewrite bind_Ok.
  cbn [li_LoadOptionsSize li_LoadOptions with_li_options os_buffer]. fold o args. rewrite Hb'.
  set (windows := if 8 <=? _ then _ else Ok false).
  assert (Hnw : windows = Ok false).
  { unfold windows. destruct (Z.leb_spec 8 (zlen (option_string n w t rest))) as [Hle | ?]; [|done].
    unfold o. rewrite command_split. rewrite (windows_word _ _ _ args Hle) by (by rewrite (front_length a d ns n w t rest)).
    rewrite bind_Ok. unfold bytes_eqb. by rewrite bool_decide_false. }
  rewrite Hnw, bind_Ok.
  rewrite (command_second_stage a d ns n w t rest p q tag) by done. by rewrite bind_Ok, <- Hss.
Qed.

(** ** The walks end *)
Lemma terminates_rd m i : terminates (rd m i).
Proof. unfold rd, terminates. destruct (i <? 0); [done|]. by destruct (m !! _). Qed.
#[local] Hint Resolve terminates_rd : terminates.

Lemma description_terminates m cur limit f : forall i, limit - i <= Z.of_nat f -> terminates (description (Datatypes.S f) m cur limit i).
Proof.
  induction f as [|f IH]; intros i Hf.
  - cbn [description]. rewrite (proj2 (Z.ltb_ge i limit)) by lia. apply terminates_Ok.
  - assert (terminates (description (Datatypes.S f) m cur limit (i + 1))) by (apply IH; lia).
    set (g := Datatypes.S f) in *. cbn [description]. terminates_tac.
Qed.

Lemma description_index m cur limit f : forall i j, 0 <= i -> description f m cur limit i = Ok (inr j) -> 0 <= j.
Proof.
  induction f as [|f IH]; [done|]. intros i j Hi. cbn [description]. destruct (i <? limit); [|intros [= <-]; lia].
  intros (c & _ & H)%bind_inv. destruct (negb (i mod 2 =? 0)).
  - destruct (negb (c =? 0)); [done|]. apply IH in H; lia.
  - destruct (c =? 0); [|apply IH in H; lia]. destruct (limit <=? i + 1); [done|].
    apply bind_inv in H as (c' & _ & H). destruct (negb (c' =? 0)); [done|]. injection H as <-. lia.
Qed.

Lemma rd_byte m i b : bytes m -> rd m i = Ok b -> 0 <= b < 256 /\ i < zlen m.
Proof.
  intros Hm H. apply rd_Ok_inv in H as [Hi Hb]. split; [|lia].
  by apply (Forall_lookup_1 is_byte m (Z.to_nat i)).
Qed.

Lemma path_nodes_terminates m cur limit f : bytes m -> 0 <= cur -> zlen m < 2 ^ 32 - 2 ^ 16 -> forall i,
  0 <= i -> zlen m - (cur + i) <= Z.of_nat f -> terminates (path_nodes (Datatypes.S f) m cur limit i).
Proof.
  intros Hm Hcur Hsize. induction f as [|f IH]; intros i Hi Hf.
  - cbn [path_nodes]. destruct (_ <? 4); [apply terminates_Ok|].
    apply terminates_bind; [apply terminates_rd|intros c E]. apply (rd_byte _ _ _ Hm) in E. lia.
  - set (g := Datatypes.S f) in *. cbn [path_nodes]. destruct (_ <? 4); [apply terminates_Ok|].
    apply terminates_bind; [apply terminates_rd|intros type E0]. apply (rd_byte _ _ _ Hm) in E0 as [_ E0].
    apply terminates_bind; [apply terminates_rd|intros st _].
    apply terminates_bind; [apply terminates_rd|intros lo E2]. apply (rd_byte _ _ _ Hm) in E2 as [E2 _].
    apply terminates_bind; [apply terminates_rd|intros hi E3]. apply (rd_byte _ _ _ Hm) in E3 as [E3 _].
    rewrite lor_bytes by lia. destruct (Z.ltb_spec (256 * hi + lo) 4) as [|Hge]; [apply terminates_Ok|].
    destruct (limit <? _); [apply terminates_Ok|]. cbn [orb].
    rewrite u32_small by lia. assert (terminates (path_nodes g m cur limit (i + (256 * hi + lo)))) by (apply IH; lia).
    terminates_tac.
Qed.

(** The walks over a load option end, whatever the buffer holds: the description
    is at most as long as its limit, and every node of the device path moves the
    walk by four bytes or more, or out of the buffer. *)
Lemma get_load_option_optional_data_terminates m data data_size :
  bytes m -> 0 <= data -> zlen m < 2 ^ 32 - 2 ^ 16 -> terminates (get_load_option_optional_data m data data_size).
Proof.
  intros Hm Hd Hs. unfold get_load_option_optional_data. destruct (_ <? 12); [apply terminates_Ok|].
  apply terminates_bind; [apply terminates_rd_le|intros fp Hfp]. destruct (_ <? fp); [apply terminates_Ok|]. cbv zeta.
  set (limit := u32 _). pose proof (u32_range (data_size - 6 - fp)). 
  apply terminates_bind; [|intros [st | i] Hi].
  { apply description_terminates. unfold limit in *. lia. }
  { apply terminates_Ok. }
  destruct (limit <? i + 1); [apply terminates_Ok|]. destruct (i + 1 =? limit); [apply terminates_Ok|].
  apply description_index in Hi; [|lia].
  apply terminates_bind; [apply path_nodes_terminates; try done; unfold zlen in *; lia|intros [|] _]; terminates_tac.
Qed.

(** ** What the length checks miss *)

(** The second node of this list claims the length of the rest of the data: the
    sum passes the end, the difference wraps and the walk reads on behind the
    buffer. *)
Definition long_node_option : list Z :=
  le_split 4 1 ++ le_split 2 8 ++ ucs2 [65] ++ [0; 0] ++ [1; 1; 4; 0] ++ [1; 1; 12; 0] ++ [0; 0; 0; 0].
(** A node's length is compared with all of the data and not with what is
    left of it, so a load option can lead the walk out of its buffer. *)
Theorem optional_data_reads_past_end :
  get_load_option_optional_data long_node_option 0 (zlen long_node_option) = Fault.
Proof. vm_compute. reflexivity. Qed.

(** The smallest load option, with an empty description and no optional data,
    passes the first length check and fails the second. *)
Theorem smallest_option_refused a (o := {| Attributes := a; Description := []; FilePathList := []; OptionalData := [] |}) :
  zlen (option_bytes o) = 12 /\
  get_load_option_optional_data (option_bytes o) 0 12 = Ok (inl EFI_INVALID_PARAMETER).
Proof.
  split; [by rewrite option_bytes_length|]. unfold get_load_option_optional_data. cbn [Z.ltb Z.compare Pos.compare Pos.compare_cont].
  change (option_bytes o) with (le_split 4 a ++ le_split 2 4 ++ [0; 0] ++ END_ENTIRE).
  by rewrite (rd_le_mid (le_split 4 a) _ _ _ 2 4).
Qed.

(** ** Concrete options *)
Definition sample_path : list Z := [92; 102; 119; 117; 112; 46; 101; 102; 105].
Definition sample_option (t : Z) : EFI_LOAD_OPTION :=
  command_option 1 [76; 105; 110; 117; 120] [(4, 4, [92; 0; 97; 0; 0; 0])] 1 sample_path t [113; 0; 0; 0].
Lemma sample_option_ok : option_ok (sample_option SPACE).
Proof. unfold option_ok. split_and!; try (vm_compute; done); repeat (constructor; [vm_compute; done|]); constructor. Defined.

Lemma optional_data_roundtrip_witness :
  option_ok (sample_option SPACE) /\
  get_load_option_optional_data (option_bytes (sample_option SPACE)) 0 58 = Ok (inr (Some 32, 26)).
Proof. split; [apply sample_option_ok|]. exact (optional_data_roundtrip (sample_option SPACE) [] [] sample_option_ok). Defined.

Lemma split_load_options_correct_witness :
  Forall word_unit sample_path /\
  split_load_options (ucs2 [32; 32] ++ ucs2 sample_path ++ ucs2 [32; 113]) 0 26 =
  Ok (ucs2 [32; 32] ++ ucs2 sample_path ++ ucs2 [0; 113], Some (4, Some 24, 2)).
Proof.
  assert (Hw : Forall word_unit sample_path) by (repeat (constructor; [vm_compute; done|]); constructor).
  split; [exact Hw|]. refine (proj1 (split_load_options_correct 2 sample_path [] [] Hw) 32 (ucs2 [113]) _ _); [by right|done].
Defined.

Definition sample_state (t : Z) : option_state :=
  {| os_buffer := option_bytes (sample_option t) ++ BDS_GUID; li_LoadOptions := Some 0; li_LoadOptionsSize := 74;
     second_stage := None; load_options := None; load_options_size := 0 |}.
Lemma parse_load_options_command_witness :
  parse_load_options [] true true (sample_state SPACE) =
  Ok (EFI_SUCCESS,
      {| os_buffer := option_bytes (sample_option 0) ++ BDS_GUID; li_LoadOptions := Some 32; li_LoadOptionsSize := 26;
         second_stage := Some 34; load_options := Some 54; load_options_size := 4 |}).
Proof.
  refine (proj1 (parse_load_options_command [] true true 1 [76; 105; 110; 117; 120] [(4, 4, [92; 0; 97; 0; 0; 0])] 1 sample_path
    SPACE [113; 0; 0; 0] [] [] true (sample_state SPACE) sample_option_ok _ _ _ _ _ _ _ _ _ _)).
  - repeat (constructor; [vm_compute; done|]); constructor.
  - by right.
  - done.
  - done.
  - by left.
  - done.
  - done.
  - done.
  - done.
  - done.
Defined.
