(* ===== verification/Csv.v ===== *)
(** * The CSV parser: csv.c

    parse_csv_data tokenizes a buffer in place: line ends and commas become
    NULs and the rows hold pointers into the buffer.  The model works on the
    same buffer with the same pointers (offsets); it returns [Fault] when the
    C code would leave the buffer.  [csv_lines] and [csv_fields] say what the
    parser computes, on byte strings; the main theorem relates the two. *)
From stdpp Require Import base list numbers option.
From Stdlib Require Import ZArith Lia.
From S2P Require Import Prelude.
From S2P Require Import Efi.
From S2P Require Import Str.
Local Open Scope Z_scope.

(** struct csv_row; a column is NULL or an offset into the data. *)
Record csv_row : Type := {
  n_columns : Z;
  columns : list (option Z)
}.
Global Instance csv_row_eq_dec : EqDecision csv_row.
Proof. solve_decision. Defined.

(** ** parse_csv_line

    One turn of the loop per column: [next], [max], [token], [state], [valid]
    and [new_n] are the C locals, [k] the number of columns left. *)
Fixpoint parse_csv_line_loop (k : nat) (m : list Z) (next max : Z)
    (token : option Z) (state : Z) (valid : bool) (n new_n : Z) (cols : list (option Z))
  : res (list Z * Z * list (option Z)) :=
  match k with
  | O => Ok (m, new_n, cols)
  | S k' =>
      '(m, token, state, valid) ←
        (if valid then strntoken m next max [44] token state
         else Ok (m, token, state, false));
      match (if valid : bool then token else None) with
      | Some t =>
          len ← strlen m t;
          parse_csv_line_loop k' m (next + (len + 1)) (u64 (max - (len + 1)))
            token state true (n + 1) (n + 1) (cols ++ [Some t])
      | None =>
          parse_csv_line_loop k' m next max token state false (n + 1) new_n (cols ++ [None])
      end
  end.
Definition parse_csv_line (m : list Z) (line max n_columns : Z)
  : res (list Z * Z * list (option Z)) :=
  parse_csv_line_loop (Z.to_nat n_columns) m line max None 0 true 0 0 [].

(** ** parse_csv_data *)
Definition delims : list Z := [13; 10].

(** The body of [while (max && found)]: one pass over the delimiters. *)
Fixpoint skip_round (m : list Z) (line max : Z) (ds : list Z) (found : bool)
  : res (Z * Z * bool) :=
  match ds with
  | [] => Ok (line, max, found)
  | d :: ds' =>
      if max =? 0 then Ok (line, max, found)
      else
        b ← rd m line;
        if b =? d then skip_round m (line + 1) (max - 1) ds' true
        else skip_round m line max ds' found
  end.
Fixpoint skip_delims (fuel : nat) (m : list Z) (line max : Z) (found : bool) : res (Z * Z) :=
  match fuel with
  | O => NoFuel
  | S f =>
      if negb (max =? 0) && found then
        '(line, max, found) ← skip_round m line max delims false;
        skip_delims f m line max found
      else Ok (line, max)
  end.

(** [for (delim...) { tmp = strnchrnul(line, max, *delim); if (tmp < end) end = tmp; }] *)
Fixpoint find_end (m : list Z) (line max : Z) (ds : list Z) (end_ : Z) : res Z :=
  match ds with
  | [] => Ok end_
  | d :: ds' =>
      tmp ← strnchrnul m line max d;
      find_end m line max ds' (if tmp <? end_ then tmp else end_)
  end.

(** [(uintptr_t)end - (uintptr_t)line + (end > line ? 1 : 0)] *)
Definition span_size (line end_ : Z) : Z :=
  u64 (end_ - line + (if line <? end_ then 1 else 0)).

(** What a turn of the main loop does next: leave it with a status
    ([break], or the jump to [err_oom]) or go on at a position. *)
Inductive csv_next : Type :=
| Stop (status : EFI_STATUS)
| Next (line : Z).

(** The body of the main loop.  [alloc n] says whether the allocation of the
    [n]th row of the list succeeds; when it fails the whole list is freed. *)
Definition csv_body (alloc : nat -> bool) (m : list Z) (data_end ncols line : Z)
    (rows : list csv_row) : res (list Z * list csv_row * csv_next) :=
  '(line, max) ← skip_delims (S (length m)) m line (span_size line data_end) true;
  end_ ← find_end m line max delims data_end;
  let max := span_size line end_ in
  be ← rd m end_;
  let eof := be =? 0 in
  m ← wr m end_ 0;
  if (line =? data_end) || (max =? 0) then Ok (m, rows, Next (end_ + 1))
  else if negb (alloc (length rows)) then Ok (m, [], Stop EFI_OUT_OF_RESOURCES)
  else
    end_ ← find_end m line max delims end_;
    '(m, mc, cols) ← parse_csv_line m line max ncols;
    let rows := rows ++ [{| n_columns := mc; columns := cols |}] in
    Ok (m, rows, if eof : bool then Stop EFI_SUCCESS else Next (end_ + 1)).

(** [while (line <= data_end && *line) { ... }] *)
Fixpoint parse_csv_loop (fuel : nat) (alloc : nat -> bool) (m : list Z) (data_end ncols line : Z)
    (rows : list csv_row) : res (list Z * EFI_STATUS * list csv_row) :=
  match fuel with
  | O => NoFuel
  | S f =>
      if data_end <? line then Ok (m, EFI_SUCCESS, rows)
      else
        b ← rd m line;
        if b =? 0 then Ok (m, EFI_SUCCESS, rows)
        else
          '(m, rows, next) ← csv_body alloc m data_end ncols line rows;
          match next with
          | Stop status => Ok (m, status, rows)
          | Next line => parse_csv_loop f alloc m data_end ncols line rows
          end
  end.

Definition parse_csv_data (alloc : nat -> bool) (m : list Z) (data data_end ncols : Z)
    (rows : list csv_row) : res (list Z * EFI_STATUS * list csv_row) :=
  if (data_end <=? data) || (ncols =? 0) then Ok (m, EFI_INVALID_PARAMETER, rows)
  else
    bom ← is_utf8_bom m data (span_size data data_end);
    let line := if bom : bool then data + UTF8_BOM_SIZE else data in
    parse_csv_loop (S (S (length m))) alloc m data_end ncols line rows.

(** ** What the parser computes *)
Definition is_nl (b : Z) : bool := (b =? 13) || (b =? 10).

(** Where the scan of the data stands: at the head of the loop, skipping the
    delimiters of the previous line, or inside a line. *)
Inductive scan : Type :=
| Head
| Skip
| In_line (acc : list Z).

Fixpoint csv_lines (st : scan) (B : list Z) : list (list Z) :=
  match B with
  | [] => match st with In_line acc => [acc] | _ => [] end
  | b :: B' =>
      match st with
      | Head => if b =? 0 then []
                else if is_nl b then csv_lines Skip B' else csv_lines (In_line [b]) B'
      | Skip => if b =? 0 then csv_lines Head B'
                else if is_nl b then csv_lines Skip B' else csv_lines (In_line [b]) B'
      | In_line acc => if b =? 0 then [acc]
                       else if is_nl b then acc :: csv_lines Head B'
                       else csv_lines (In_line (acc ++ [b])) B'
      end
  end.

Fixpoint split (p : Z -> bool) (l : list Z) : list (list Z) :=
  match l with
  | [] => [[]]
  | b :: l' =>
      if p b then [] :: split p l'
      else match split p l' with
           | [] => [[b]]
           | w :: ws => (b :: w) :: ws
           end
  end.

Definition is_comma (b : Z) : bool := b =? 44.

(** A line with no comma at all has no columns. *)
Definition csv_fields (k : nat) (l : list Z) : list (list Z) :=
  if existsb is_comma l then take k (split is_comma l) else [].

Definition nonempty (l : list Z) : bool := match l with [] => false | _ => true end.

(** A row of the list describes the fields [fs] of a line, of [k] columns. *)
Definition row_ok (k : nat) (m : list Z) (l : list Z) (r : csv_row) : Prop :=
  exists offs,
    Forall2 (cstring m) offs (csv_fields k l) /\
    n_columns r = zlen offs /\
    columns r = map Some offs ++ replicate (k - length offs) None.

(** ** Lemmas on the reference definitions *)
Lemma split_cut p w b r :
  Forall (fun x => p x = false) w -> p b = true -> split p (w ++ b :: r) = w :: split p r.
Proof. induction 1 as [|x w Hx _ IH]; intros Hb; cbn; [by rewrite Hb|]. by rewrite Hx, IH. Qed.

Lemma split_none p w : Forall (fun x => p x = false) w -> split p w = [w].
Proof. induction 1 as [|x w Hx _ IH]; cbn; [done|]. by rewrite Hx, IH. Qed.

Lemma split_nonnil p l : split p l <> [].
Proof. destruct l; cbn; [done|]. case_if; [done|]. by destruct (split p l). Qed.

Lemma existsb_none (p : Z -> bool) (w : list Z) : Forall (fun x => p x = false) w -> existsb p w = false.
Proof. induction 1 as [|x w Hx _ IH]; cbn; [done|]. by rewrite Hx. Qed.

(** Cut a string at its first comma. *)
Lemma comma_cases (R : list Z) :
  Forall (fun x => is_comma x = false) R \/
  exists w r, R = w ++ 44 :: r /\ Forall (fun x => is_comma x = false) w.
Proof.
  destruct (snd (span (fun b => negb (is_comma b)) R)) as [|b r] eqn:E;
    pose proof (span_app (fun b => negb (is_comma b)) R) as HR;
    pose proof (span_fst_all (fun b => negb (is_comma b)) R) as HF;
    rewrite E in HR.
  - left. rewrite app_nil_r in HR. rewrite HR in HF.
    eapply Forall_impl; [|exact HF]. cbn. intros. by apply negb_true_iff.
  - right. exists (fst (span (fun b => negb (is_comma b)) R)), r.
    apply span_snd_head, negb_false_iff in E. unfold is_comma in E. bool_to_prop. subst b.
    split; [done|]. eapply Forall_impl; [|exact HF]. cbn. intros. by apply negb_true_iff.
Qed.

Lemma not_stop_comma w : nonul w -> Forall (fun x => is_comma x = false) w ->
  Forall (fun x => not_stop 44 x = true) w.
Proof.
  intros Hn Hc. eapply Forall_impl; [|apply (Forall_and Hn Hc)].
  intros x [Hx Hxc]. unfold not_stop, is_comma in *. rewrite Hxc, orb_false_r. solve_bool.
Qed.

(** ** strntoken with the delimiter "," *)
Lemma strntoken_comma p w r q token state :
  nonul w -> Forall (fun x => is_comma x = false) w ->
  zlen (w ++ 44 :: r) + 1 < 2 ^ 32 ->
  strntoken (p ++ (w ++ 44 :: r) ++ 0 :: q) (zlen p) (zlen (w ++ 44 :: r) + 1) [44] token state
  = Ok (p ++ (w ++ 0 :: r) ++ 0 :: q, Some (zlen p), 44, true).
Proof.
  intros Hn Hc Hlt. unfold strntoken. case_if; [zlia|].
  replace (match token with None => _ | Some _ => Ok false end) with (@Ok bool false)
    by (destruct token; [done|]; case_if; [zlia|done]).
  rewrite bind_Ok. cbn [strntoken_delims].
  pose proof (strnchrnul_ok p ((w ++ 44 :: r) ++ [0]) q 44) as Hs.
  rewrite <- !app_assoc in Hs. cbn [app] in Hs.
  replace (zlen (w ++ 44 :: r ++ [0])) with (zlen (w ++ 44 :: r) + 1) in Hs by zlia.
  rewrite (span_cut (not_stop 44) w 44) in Hs by
    (done || by apply not_stop_comma). cbn [fst] in Hs.
  rewrite <- !app_assoc. cbn [app]. rewrite Hs by zlia. rewrite Z.min_l by zlia.
  rewrite bind_Ok. case_if; [|zlia].
  rewrite (app_assoc p), rd_app_at by zlia. rewrite bind_Ok. cbn [orb].
  change (44 =? 44) with true. cbn [orb]. rewrite bind_Ok.
  rewrite rd_app_at, bind_Ok by zlia. rewrite wr_app_at, bind_Ok by zlia.
  by rewrite <- app_assoc.
Qed.

Lemma strntoken_last p w q token state :
  nonul w -> Forall (fun x => is_comma x = false) w ->
  zlen w + 1 < 2 ^ 32 -> (token = None -> w <> []) ->
  strntoken (p ++ w ++ 0 :: q) (zlen p) (zlen w + 1) [44] token state
  = Ok (p ++ w ++ 0 :: q, Some (zlen p), state,
        match token with Some _ => 44 =? state | None => false end).
Proof.
  intros Hn Hc Hlt Hw. unfold strntoken. case_if; [zlia|].
  replace (match token with None => _ | Some _ => Ok false end) with (@Ok bool false)
    by (destruct token; [done|]; case_if; [destruct w; [by destruct Hw|zlia]|done]).
  rewrite bind_Ok. cbn [strntoken_delims].
  pose proof (strnchrnul_ok p (w ++ [0]) q 44) as Hs.
  rewrite <- !app_assoc in Hs. cbn [app] in Hs.
  replace (zlen (w ++ [0])) with (zlen w + 1) in Hs by zlia.
  rewrite (span_cut (not_stop 44) w 0) in Hs by
    (done || by apply not_stop_comma). cbn [fst] in Hs.
  rewrite Hs by zlia. rewrite Z.min_l by zlia. rewrite bind_Ok. case_if; [zlia|].
  rewrite (app_assoc p), rd_app_at by zlia. rewrite bind_Ok. cbn [orb].
  change (0 =? 44) with false. cbn [orb]. rewrite bind_Ok, <- app_assoc.
  destruct token; [by rewrite orb_false_r|done].
Qed.

(** ** parse_csv_line *)
Lemma parse_csv_line_invalid k m next max token state n new_n cols :
  parse_csv_line_loop k m next max token state false n new_n cols
  = Ok (m, new_n, cols ++ replicate k None).
Proof.
  revert n cols. induction k as [|k IH]; intros; cbn; [by rewrite app_nil_r|].
  rewrite IH, <- app_assoc. done.
Qed.

Lemma parse_csv_line_end k m next token state n new_n cols :
  parse_csv_line_loop k m next 0 token state true n new_n cols
  = Ok (m, new_n, cols ++ replicate k None).
Proof.
  destruct k; cbn; [by rewrite app_nil_r|].
  rewrite parse_csv_line_invalid, <- app_assoc. done.
Qed.

(** After a comma: the fields of the rest [R] of the line, at most [k]. *)
Lemma parse_csv_line_loop_ok k p R q t n new_n cols :
  nonul R -> zlen R + 1 < 2 ^ 32 ->
  exists R' offs,
    parse_csv_line_loop k (p ++ R ++ 0 :: q) (zlen p) (zlen R + 1) (Some t) 44 true n new_n cols
    = Ok (p ++ R' ++ 0 :: q, (if decide (k = O) then new_n else n + zlen offs),
          cols ++ map Some offs ++ replicate (k - length offs) None) /\
    length R' = length R /\
    Forall2 (cstring (p ++ R' ++ [0])) offs (take k (split is_comma R)).
Proof.
  revert p R t n new_n cols. induction k as [|k IH]; intros p R t n new_n cols Hn Hlt.
  { exists R, []. cbn. rewrite app_nil_r. split; [done|]. split; [done|constructor]. }
  cbn [parse_csv_line_loop].
  destruct (comma_cases R) as [Hc|(w & r & -> & Hc)].
  - rewrite strntoken_last by done. rewrite bind_Ok. cbn match.
    change (44 =? 44) with true. cbn match.
    rewrite (strlen_ok _ _ R) by (exists p, q; auto). rewrite bind_Ok, Z.sub_diag.
    change (u64 0) with 0. rewrite parse_csv_line_end.
    exists R, [zlen p]. rewrite split_none by done. split; [|split; [done|]].
    + destruct (decide (S k = 0)%nat); [lia|]. do 2 f_equal.
      rewrite <- app_assoc. cbn. by rewrite Nat.sub_0_r.
    + cbn. rewrite take_nil. repeat constructor. exists p, []; auto.
  - apply Forall_app in Hn as [Hnw Hnr]. inversion Hnr as [|? ? _ Hnr']; subst.
    rewrite strntoken_comma by done. rewrite bind_Ok. cbn match.
    assert (Hcs : cstring (p ++ (w ++ 0 :: r) ++ 0 :: q) (zlen p) w).
    { exists p, (r ++ 0 :: q). rewrite <- app_assoc. done. }
    rewrite (strlen_ok _ _ w) by done. rewrite bind_Ok.
    destruct (IH (p ++ w ++ [0]) r (zlen p) (n + 1) (n + 1) (cols ++ [Some (zlen p)]))
      as (R' & offs & Hl & HR' & Hoffs); [done|zlia|].
    replace (u64 _) with (zlen r + 1) by (rewrite u64_small; zlia).
    replace (zlen p + (zlen w + 1)) with (zlen (p ++ w ++ [0])) by zlia.
    replace (p ++ (w ++ 0 :: r) ++ 0 :: q) with ((p ++ w ++ [0]) ++ r ++ 0 :: q)
      by (rewrite <- !app_assoc; done).
    rewrite Hl. exists (w ++ 0 :: R'), (zlen p :: offs).
    rewrite split_cut by done.
    replace (p ++ (w ++ 0 :: R') ++ 0 :: q) with ((p ++ w ++ [0]) ++ R' ++ 0 :: q)
      by (rewrite <- !app_assoc; done).
    replace (p ++ (w ++ 0 :: R') ++ [0]) with ((p ++ w ++ [0]) ++ R' ++ [0])
      by (rewrite <- !app_assoc; done).
    split; [|split].
    + destruct (decide (S k = 0)%nat); [lia|]. do 2 f_equal; [f_equal|].
      * destruct (decide (k = O)); [|zlia]. subst k. cbn in Hoffs. inversion Hoffs; subst; zlia.
      * rewrite <- app_assoc. done.
    + rewrite !length_app in *. cbn. lia.
    + cbn [take]. constructor; [|done].
      exists p, (R' ++ [0]). rewrite <- !app_assoc. done.
Qed.

(** A whole line: its commas are cut and the row is [csv_fields]. *)
Lemma parse_csv_line_ok ncols p L q :
  nonul L -> L <> [] -> zlen L + 1 < 2 ^ 32 ->
  exists L' mc cols,
    parse_csv_line (p ++ L ++ 0 :: q) (zlen p) (zlen L + 1) ncols
    = Ok (p ++ L' ++ 0 :: q, mc, cols) /\ length L' = length L /\
    row_ok (Z.to_nat ncols) (p ++ L' ++ [0]) L {| n_columns := mc; columns := cols |}.
Proof.
  intros Hn Hne Hlt. unfold parse_csv_line, row_ok, csv_fields.
  destruct (Z.to_nat ncols) as [|k] eqn:Ek.
  { exists L, 0, []. split; [done|]. split; [done|]. exists []. cbn.
    case_if; repeat constructor. }
  cbn [parse_csv_line_loop].
  destruct (comma_cases L) as [Hc|(w & r & -> & Hc)].
  - rewrite strntoken_last by done. rewrite bind_Ok. cbn match.
    rewrite parse_csv_line_invalid. exists L, 0, (replicate (S k) None).
    split; [done|]. split; [done|]. exists []. rewrite existsb_none by done.
    repeat split; constructor.
  - apply Forall_app in Hn as [Hnw Hnr]. inversion Hnr as [|? ? _ Hnr']; subst.
    rewrite strntoken_comma by done. rewrite bind_Ok. cbn match.
    assert (Hcs : cstring (p ++ (w ++ 0 :: r) ++ 0 :: q) (zlen p) w).
    { exists p, (r ++ 0 :: q). rewrite <- app_assoc. done. }
    rewrite (strlen_ok _ _ w) by done. rewrite bind_Ok.
    destruct (parse_csv_line_loop_ok k (p ++ w ++ [0]) r q (zlen p) 1 1 [Some (zlen p)])
      as (R' & offs & Hl & HR' & Hoffs); [done|zlia|].
    replace (u64 _) with (zlen r + 1) by (rewrite u64_small; zlia).
    replace (zlen p + (zlen w + 1)) with (zlen (p ++ w ++ [0])) by zlia.
    replace (p ++ (w ++ 0 :: r) ++ 0 :: q) with ((p ++ w ++ [0]) ++ r ++ 0 :: q)
      by (rewrite <- !app_assoc; done).
    change (0 + 1) with 1. cbn [app] in *. rewrite Hl.
    replace ((p ++ w ++ [0]) ++ R' ++ 0 :: q) with (p ++ (w ++ 0 :: R') ++ 0 :: q)
      by (rewrite <- !app_assoc; done).
    replace ((p ++ w ++ [0]) ++ R' ++ [0]) with (p ++ (w ++ 0 :: R') ++ [0]) in Hoffs
      by (rewrite <- !app_assoc; done).
    eexists _, _, _. split; [done|]. split; [rewrite !length_app in *; cbn; lia|].
    exists (zlen p :: offs). rewrite existsb_app. cbn [existsb]. change (is_comma 44) with true.
    rewrite orb_true_r, split_cut by done. split; [|split].
    + cbn [take]. constructor; [|done]. exists p, (R' ++ [0]). rewrite <- !app_assoc. done.
    + cbn [n_columns]. destruct (decide (k = O)); [|zlia].
      subst k. inversion Hoffs; subst; zlia.
    + done.
Qed.

Lemma row_ok_app k m q l r : row_ok k m l r -> row_ok k (m ++ q) l r.
Proof.
  intros (offs & H & Hr). exists offs. split; [|done].
  eapply Forall2_impl; [|exact H]. intros. by apply cstring_app_r.
Qed.

(** ** Skipping delimiters *)
Lemma skip_round_none p x r max :
  is_nl x = false -> 0 < max ->
  skip_round (p ++ x :: r) (zlen p) max delims false = Ok (zlen p, max, false).
Proof.
  unfold is_nl. intros [H13 H10]%orb_false_iff Hm. cbn [delims skip_round].
  replace (max =? 0) with false by (symmetry; solve_bool).
  rewrite rd_at. cbn [mbind res_bind]. by rewrite H13, H10.
Qed.

Lemma skip_round_lf p r max :
  0 < max -> skip_round (p ++ 10 :: r) (zlen p) max delims false = Ok (zlen p + 1, max - 1, true).
Proof.
  intros Hm. cbn [delims skip_round]. replace (max =? 0) with false by (symmetry; solve_bool).
  by rewrite !rd_at.
Qed.

Lemma skip_round_cr p x r max :
  x <> 10 -> 1 < max ->
  skip_round (p ++ 13 :: x :: r) (zlen p) max delims false = Ok (zlen p + 1, max - 1, true).
Proof.
  intros Hx Hm. cbn [delims skip_round]. replace (max =? 0) with false by (symmetry; solve_bool).
  rewrite rd_at, bind_Ok. change (13 =? 13) with true. cbn match.
  replace (max - 1 =? 0) with false by (symmetry; solve_bool).
  change (p ++ 13 :: x :: r) with (p ++ [13] ++ x :: r).
  rewrite app_assoc, rd_app_at, bind_Ok by zlia.
  by replace (x =? 10) with false by (symmetry; solve_bool).
Qed.

Lemma skip_round_crlf p r max :
  1 < max ->
  skip_round (p ++ 13 :: 10 :: r) (zlen p) max delims false = Ok (zlen p + 2, max - 2, true).
Proof.
  intros Hm. cbn [delims skip_round]. replace (max =? 0) with false by (symmetry; solve_bool).
  rewrite rd_at, bind_Ok. change (13 =? 13) with true. cbn match.
  replace (max - 1 =? 0) with false by (symmetry; solve_bool).
  change (p ++ 13 :: 10 :: r) with (p ++ [13] ++ 10 :: r).
  rewrite app_assoc, rd_app_at, bind_Ok by zlia.
  change (10 =? 10) with true. cbn match. do 3 f_equal; lia.
Qed.

Lemma skip_delims_step f m line max l' mx' fd :
  max <> 0 -> skip_round m line max delims false = Ok (l', mx', fd) ->
  skip_delims (S f) m line max true = skip_delims f m l' mx' fd.
Proof.
  intros Hm H. cbn [skip_delims]. replace (max =? 0) with false by (symmetry; solve_bool).
  cbn [negb andb]. by rewrite H.
Qed.

Lemma skip_delims_stop f m line max : skip_delims (S f) m line max false = Ok (line, max).
Proof. cbn [skip_delims]. by rewrite andb_false_r. Qed.

(** All the delimiters [D] in front of [x] are skipped. *)
Lemma skip_delims_ok fuel p D x rest max :
  Forall (fun b => is_nl b = true) D -> is_nl x = false ->
  (S (length D) < fuel)%nat -> zlen D < max ->
  skip_delims fuel (p ++ D ++ x :: rest) (zlen p) max true = Ok (zlen p + zlen D, max - zlen D).
Proof.
  revert fuel p D max. induction fuel as [fuel IH] using lt_wf_ind.
  intros p D max HD Hx Hf Hmax. destruct fuel as [|f]; [lia|].
  destruct D as [|d D].
  { cbn [app length] in *. rewrite zlen_nil in *. erewrite skip_delims_step;
      [|lia|by apply skip_round_none]. destruct f; [lia|].
    rewrite skip_delims_stop. f_equal. f_equal; lia. }
  inversion HD as [|? ? Hd HD']; subst. cbn [length] in *. rewrite zlen_cons in Hmax.
  pose proof (zlen_nonneg D).
  assert (Hrec : forall c D', d :: D = c ++ D' -> c <> [] ->
    skip_delims f ((p ++ c) ++ D' ++ x :: rest) (zlen p + zlen c) (max - zlen c) true
    = Ok (zlen p + zlen (d :: D), max - zlen (d :: D))).
  { intros c D' E Hc. rewrite E in *. rewrite <- zlen_app. apply (f_equal length) in E as El.
    rewrite length_app in El. cbn in El. destruct c; [done|]. cbn [length] in El.
    rewrite IH; [f_equal; f_equal; zlia|lia|by eapply Forall_app|done|lia|].
    apply (f_equal zlen) in E. zlia. }
  unfold is_nl in Hd. apply orb_true_iff in Hd as [Hd|Hd]; bool_to_prop; subst d.
  - destruct D as [|d2 D2].
    + assert (x <> 10) by (unfold is_nl in Hx; bool_to_prop; done).
      erewrite skip_delims_step; [|lia|apply skip_round_cr; [done|lia]].
      specialize (Hrec [13] [] eq_refl). rewrite <- app_assoc in Hrec. by apply Hrec.
    + destruct (decide (d2 = 10)) as [->|Hd2].
      * erewrite skip_delims_step; [|lia|apply skip_round_crlf; rewrite zlen_cons in *; lia].
        specialize (Hrec [13; 10] D2 eq_refl). rewrite <- app_assoc in Hrec. by apply Hrec.
      * erewrite skip_delims_step;
          [|lia|apply skip_round_cr; [done|rewrite zlen_cons in *; pose proof (zlen_nonneg D2); lia]].
        specialize (Hrec [13] (d2 :: D2) eq_refl). rewrite <- app_assoc in Hrec. by apply Hrec.
  - erewrite skip_delims_step; [|lia|apply skip_round_lf; lia].
    specialize (Hrec [10] D eq_refl). rewrite <- app_assoc in Hrec. by apply Hrec.
Qed.

(** ** Finding the end of a line *)
Definition in_line (b : Z) : bool := not_stop 13 b && not_stop 10 b.

Lemma span_min p1 p2 l :
  zlen (fst (span (fun b => p1 b && p2 b) l))
  = Z.min (zlen (fst (span p1 l))) (zlen (fst (span p2 l))).
Proof.
  induction l as [|b l IH]; [done|]. cbn. destruct (p1 b), (p2 b); cbn [andb];
    destruct (span p1 l), (span p2 l), (span _ l); cbn in *; zlia.
Qed.

Lemma if_ltb_min a b : (if a <? b then a else b) = Z.min b a.
Proof. case_if; lia. Qed.

Lemma find_end_ok p l q end_ :
  0 < zlen l < 2 ^ 32 ->
  find_end (p ++ l ++ q) (zlen p) (zlen l) delims end_
  = Ok (Z.min end_ (zlen p + Z.min (zlen (fst (span in_line l))) (zlen l - 1))).
Proof.
  intros Hl. cbn [find_end delims]. rewrite !strnchrnul_ok, !bind_Ok by done.
  unfold in_line. rewrite span_min, !if_ltb_min. f_equal. lia.
Qed.

Lemma find_end_zero m line ds end_ : end_ <= line -> find_end m line 0 ds end_ = Ok end_.
Proof.
  intros. induction ds as [|d ds IH]; [done|]. cbn [find_end strnchrnul Z.eqb].
  rewrite bind_Ok. case_if; [lia|done].
Qed.

Lemma in_line_spec b : in_line b = true <-> b <> 0 /\ is_nl b = false.
Proof.
  unfold in_line, not_stop, is_nl.
  destruct (b =? 0) eqn:?, (b =? 13) eqn:?, (b =? 10) eqn:?; bool_to_prop; cbn; intuition congruence.
Qed.

(** ** The reference scan *)
Lemma csv_lines_skip D B :
  Forall (fun b => is_nl b = true) D -> csv_lines Skip (D ++ B) = csv_lines Skip B.
Proof.
  induction 1 as [|d D Hd _ IH]; [done|]. cbn.
  case_if; [subst; done|]. by rewrite Hd.
Qed.

Lemma csv_lines_head D B :
  Forall (fun b => is_nl b = true) D -> D <> [] -> csv_lines Head (D ++ B) = csv_lines Skip B.
Proof.
  intros HD Hne. destruct D as [|d D]; [done|]. inversion HD as [|? ? Hd HD']; subst.
  cbn. case_if; [subst; done|]. rewrite Hd. by apply csv_lines_skip.
Qed.

Lemma csv_lines_in W acc B :
  Forall (fun b => in_line b = true) W ->
  csv_lines (In_line acc) (W ++ B) = csv_lines (In_line (acc ++ W)) B.
Proof.
  revert acc. induction W as [|w W IH]; intros acc HW; [by rewrite app_nil_r|].
  inversion HW as [|? ? [Hw0 Hwn]%in_line_spec HW']; subst. cbn.
  case_if; [done|]. rewrite Hwn, IH, <- app_assoc by done. done.
Qed.

Lemma csv_lines_line D W B :
  Forall (fun b => is_nl b = true) D -> Forall (fun b => in_line b = true) W -> W <> [] ->
  csv_lines Head (D ++ W ++ B) = csv_lines (In_line W) B.
Proof.
  intros HD HW Hne. destruct W as [|w W]; [done|].
  inversion HW as [|? ? Hw HW']; subst. apply in_line_spec in Hw as [Hw0 Hwn].
  assert (Hs : forall st, st = Head \/ st = Skip ->
    csv_lines st ((w :: W) ++ B) = csv_lines (In_line (w :: W)) B).
  { intros st Hst. cbn. replace (w =? 0) with false by (symmetry; solve_bool). rewrite Hwn.
    rewrite csv_lines_in by done. by destruct Hst as [-> | ->]. }
  destruct (decide (D = [])) as [->|HDn]; [by apply Hs; left|].
  rewrite csv_lines_head by done. apply Hs. by right.
Qed.

(** ** One line of the main loop

    The remaining data [B], cut into the delimiters that are skipped, the line
    and what follows it. *)
Lemma cut_line (B : list Z) :
  exists D W R, B = D ++ W ++ R /\
    Forall (fun b => is_nl b = true) D /\ Forall (fun b => in_line b = true) W /\
    (W = [] -> R = [] \/ exists R', R = 0 :: R') /\
    (W <> [] -> R = [] \/ exists b R', R = b :: R' /\ in_line b = false).
Proof.
  exists (fst (span is_nl B)), (fst (span in_line (snd (span is_nl B)))),
    (snd (span in_line (snd (span is_nl B)))).
  rewrite !span_app. split; [done|]. split; [apply span_fst_all|]. split; [apply span_fst_all|].
  destruct (snd (span is_nl B)) as [|b B2] eqn:EB; [cbn; auto|].
  apply span_snd_head in EB. split.
  - cbn. destruct (in_line b) eqn:Eb; [by destruct (span in_line B2)|]. cbn. intros _. right.
    destruct (decide (b = 0)) as [->|Hb]; [by eexists|].
    assert (in_line b = true) by by apply in_line_spec. congruence.
  - intros _. destruct (snd (span in_line (b :: B2))) as [|r R'] eqn:ER; [by left|].
    right. eexists _, _. split; [done|]. by apply span_snd_head in ER.
Qed.

Lemma in_line_nonul W : Forall (fun b => in_line b = true) W -> nonul W.
Proof. apply Forall_impl. intros b Hb. by apply in_line_spec in Hb as [? ?]. Qed.

Lemma span_size_pos (p B : list Z) : zlen B < 2 ^ 32 -> B <> [] -> span_size (zlen p) (zlen p + zlen B) = zlen B + 1.
Proof.
  intros Hlt Hne. unfold span_size. destruct B; [done|]. rewrite zlen_cons in *.
  pose proof (zlen_nonneg B). case_if; [|lia]. rewrite u64_small; lia.
Qed.

Lemma span_size_zero x : span_size x x = 0.
Proof. unfold span_size. case_if; [lia|]. by rewrite Z.sub_diag. Qed.

(** The state after the delimiters and the end of line were found. *)
Lemma csv_step_front p D W R e q :
  Forall (fun b => is_nl b = true) D -> Forall (fun b => in_line b = true) W ->
  is_nl e = false -> D ++ W ++ R <> [] -> zlen (D ++ W ++ R) + 1 < 2 ^ 32 ->
  (W = [] -> R = [] \/ exists R', R = 0 :: R') ->
  (W <> [] -> R = [] \/ exists b R', R = b :: R' /\ in_line b = false) ->
  let m := p ++ (D ++ W ++ R) ++ e :: q in
  let data_end := zlen p + zlen (D ++ W ++ R) in
  skip_delims (S (length m)) m (zlen p) (span_size (zlen p) data_end) true
  = Ok (zlen (p ++ D), zlen (W ++ R) + 1) /\
  find_end m (zlen (p ++ D)) (zlen (W ++ R) + 1) delims data_end = Ok (zlen (p ++ D) + zlen W).
Proof.
  intros HD HW He Hne Hlt HW0 HW1 m data_end. split.
  - unfold data_end. rewrite span_size_pos by (done || lia).
    assert (Hx : exists x rest, (W ++ R) ++ e :: q = x :: rest /\ is_nl x = false).
    { destruct W as [|w W].
      - destruct (HW0 eq_refl) as [-> | [R' ->]]; eexists _, _; done.
      - inversion HW as [|? ? [_ Hw]%in_line_spec _]. eexists _, _; done. }
    destruct Hx as (x & rest & Ex & Hx). unfold m.
    replace (p ++ (D ++ W ++ R) ++ e :: q) with (p ++ D ++ x :: rest)
      by (rewrite <- Ex, <- !app_assoc; done).
    rewrite skip_delims_ok; [f_equal; f_equal; zlia|done|done| |zlia].
    rewrite !length_app. cbn. lia.
  - unfold m, data_end.
    replace (p ++ (D ++ W ++ R) ++ e :: q) with ((p ++ D) ++ (W ++ R ++ [e]) ++ q)
      by (rewrite <- !app_assoc; done).
    replace (zlen (W ++ R) + 1) with (zlen (W ++ R ++ [e])) by zlia.
    rewrite find_end_ok by zlia. f_equal.
    assert (Hs : Z.min (zlen (fst (span in_line (W ++ R ++ [e])))) (zlen (W ++ R ++ [e]) - 1) = zlen W).
    { assert (Hcut : forall b T, R ++ [e] = b :: T -> in_line b = false ->
        zlen (fst (span in_line (W ++ R ++ [e]))) = zlen W).
      { intros b T -> Hb. by rewrite span_cut. }
      destruct R as [|r R']; cbn [app].
      - pose proof (span_app in_line (W ++ [e])) as Hspan.
        destruct (in_line e) eqn:Ee.
        + rewrite span_all by (apply Forall_app; split; [done|by repeat constructor]). cbn. zlia.
        + rewrite span_cut by done. cbn. zlia.
      - cbn [app] in Hcut. rewrite (Hcut r (R' ++ [e])); [zlia|done|].
        destruct W as [|w W].
        + destruct (HW0 eq_refl) as [?|[? [= -> _]]]; [done|reflexivity].
        + destruct HW1 as [?|(? & ? & [= <- <-] & ?)]; done. }
    rewrite Hs. zlia.
Qed.

Lemma find_end_again p W q :
  Forall (fun b => in_line b = true) W -> zlen W + 1 < 2 ^ 32 ->
  find_end (p ++ W ++ 0 :: q) (zlen p) (zlen W + 1) delims (zlen p + zlen W) = Ok (zlen p + zlen W).
Proof.
  intros HW Hlt. replace (p ++ W ++ 0 :: q) with (p ++ (W ++ [0]) ++ q) by (rewrite <- app_assoc; done).
  replace (zlen W + 1) with (zlen (W ++ [0])) by zlia.
  rewrite find_end_ok by zlia. f_equal. rewrite span_cut by done. cbn. zlia.
Qed.

(** A turn that only skips: delimiters up to the end, or a NUL behind them. *)
Lemma csv_body_skip alloc ncols p D R e q rows :
  Forall (fun b => is_nl b = true) D -> is_nl e = false -> D ++ R <> [] ->
  zlen (D ++ R) + 1 < 2 ^ 32 -> (R = [] \/ exists R', R = 0 :: R') ->
  csv_body alloc (p ++ (D ++ R) ++ e :: q) (zlen p + zlen (D ++ R)) ncols (zlen p) rows
  = Ok ((p ++ D) ++ match R with [] => 0 :: q | _ :: R' => 0 :: R' ++ e :: q end, rows,
        Next (zlen (p ++ D) + 1)).
Proof.
  intros HD He Hne Hlt HR. unfold csv_body.
  pose proof (csv_step_front p D [] R e q HD (List.Forall_nil _) He Hne Hlt (fun _ => HR)
    ltac:(done)) as [Hskip Hend].
  cbn [app] in *. rewrite Hskip, bind_Ok, Hend, bind_Ok, zlen_nil, Z.add_0_r, span_size_zero.
  rewrite <- app_assoc, (app_assoc p D).
  destruct HR as [-> | [R' ->]]; cbn [app]; rewrite rd_at, bind_Ok, wr_app_at, bind_Ok by done;
    by rewrite orb_true_r.
Qed.

(** A turn that adds a row for the line [W]. *)
Lemma csv_body_row alloc ncols p D W R e q rows :
  Forall (fun b => is_nl b = true) D -> Forall (fun b => in_line b = true) W -> W <> [] ->
  is_nl e = false -> zlen (D ++ W ++ R) + 1 < 2 ^ 32 -> alloc (length rows) = true ->
  (R = [] \/ exists b R', R = b :: R' /\ in_line b = false) ->
  exists W' r s T, R ++ e :: q = s :: T /\ length W' = length W /\
    row_ok (Z.to_nat ncols) ((p ++ D) ++ W' ++ [0]) W r /\
    csv_body alloc (p ++ (D ++ W ++ R) ++ e :: q) (zlen p + zlen (D ++ W ++ R)) ncols (zlen p) rows
    = Ok ((p ++ D) ++ W' ++ 0 :: T, rows ++ [r],
          if s =? 0 then Stop EFI_SUCCESS else Next (zlen ((p ++ D) ++ W' ++ [0]))).
Proof.
  intros HD HW HWne He Hlt Halloc HR. unfold csv_body.
  assert (Hne : D ++ W ++ R <> []) by (destruct W; [done|]; by destruct D).
  pose proof (csv_step_front p D W R e q HD HW He Hne Hlt ltac:(done) (fun _ => HR)) as [Hskip Hend].
  rewrite Hskip, bind_Ok, Hend, bind_Ok. clear Hskip Hend.
  destruct (R ++ e :: q) as [|s T] eqn:ET; [by destruct R|].
  replace (p ++ (D ++ W ++ R) ++ e :: q) with ((p ++ D) ++ W ++ s :: T)
    by (rewrite <- ET, <- !app_assoc; done).
  rewrite (app_assoc (p ++ D)), rd_app_at, bind_Ok, wr_app_at, bind_Ok by zlia.
  rewrite <- app_assoc, span_size_pos by (done || zlia).
  replace ((zlen (p ++ D) =? _) || (zlen W + 1 =? 0)) with false
    by (symmetry; destruct W; [done|]; solve_bool; zlia).
  rewrite Halloc. cbn [negb]. rewrite find_end_again, bind_Ok by (done || zlia).
  destruct (parse_csv_line_ok ncols (p ++ D) W T) as (W' & mc & cols & Hl & HW' & Hrow);
    [by apply in_line_nonul|done|zlia|].
  rewrite Hl, bind_Ok. exists W', {| n_columns := mc; columns := cols |}, s, T.
  split; [done|]. split; [done|]. split; [done|]. do 2 f_equal.
  replace (zlen (p ++ D) + zlen W + 1) with (zlen ((p ++ D) ++ W' ++ [0])); [done|].
  apply (f_equal Z.of_nat) in HW'. unfold zlen in *. rewrite !length_app. cbn. lia.
Qed.

(** ** The main loop

    On the data [B] in front of a last byte [e] that is not a line end, with
    every allocation successful, the loop terminates without leaving the
    buffer and appends one row per line. *)
Definition csv_loop_spec (fuel : nat) (alloc : nat -> bool) (ncols : Z) (q : list Z)
    (p B : list Z) (e : Z) (rows : list csv_row) : Prop :=
  exists B' e' rows',
    parse_csv_loop fuel alloc (p ++ B ++ e :: q) (zlen p + zlen B) ncols (zlen p) rows
    = Ok (p ++ B' ++ e' :: q, EFI_SUCCESS, rows ++ rows') /\
    length B' = length B /\
    Forall2 (row_ok (Z.to_nat ncols) (p ++ B' ++ [e'])) (csv_lines Head B) rows'.

Lemma parse_csv_loop_past fuel alloc m data_end ncols line rows :
  (0 < fuel)%nat -> data_end < line ->
  parse_csv_loop fuel alloc m data_end ncols line rows = Ok (m, EFI_SUCCESS, rows).
Proof. intros. destruct fuel; [lia|]. cbn. case_if; [done|lia]. Qed.

Lemma csv_loop_at_end f alloc ncols p e q rows :
  is_nl e = false -> (0 < f)%nat -> csv_loop_spec (S f) alloc ncols q p [] e rows.
Proof.
  intros He Hf. unfold csv_loop_spec. cbn [parse_csv_loop app csv_lines].
  rewrite (zlen_nil (A := Z)), Z.add_0_r. case_if; [lia|]. rewrite rd_at, bind_Ok.
  destruct (e =? 0) eqn:E0; [exists [], e, []; rewrite app_nil_r; auto|].
  unfold csv_body. rewrite span_size_zero. cbn [skip_delims]. change (0 =? 0) with true.
  cbn [negb andb]. rewrite bind_Ok, find_end_zero, bind_Ok, rd_at, bind_Ok by lia.
  rewrite wr_app_at, bind_Ok, Z.eqb_refl by done. cbn [orb]. rewrite bind_Ok.
  rewrite parse_csv_loop_past by lia. exists [], 0, []. rewrite app_nil_r. auto.
Qed.

(** How the specification of the rest of the data extends over a row. *)
Lemma csv_loop_cons f alloc ncols q p D W' W R R' e b rows r :
  Forall (fun b => is_nl b = true) D -> Forall (fun b => in_line b = true) W -> W <> [] ->
  R = b :: R' -> is_nl b = true -> length W' = length W ->
  row_ok (Z.to_nat ncols) ((p ++ D) ++ W' ++ [0]) W r ->
  csv_loop_spec f alloc ncols q ((p ++ D) ++ W' ++ [0]) R' e (rows ++ [r]) ->
  exists B' e' rows',
    parse_csv_loop f alloc ((p ++ D) ++ W' ++ 0 :: R' ++ e :: q) (zlen p + zlen (D ++ W ++ R)) ncols
      (zlen ((p ++ D) ++ W' ++ [0])) (rows ++ [r])
    = Ok (p ++ B' ++ e' :: q, EFI_SUCCESS, rows ++ rows') /\
    length B' = length (D ++ W ++ R) /\
    Forall2 (row_ok (Z.to_nat ncols) (p ++ B' ++ [e'])) (csv_lines Head (D ++ W ++ R)) rows'.
Proof.
  intros HD HW HWne -> Hb HW' Hr (B' & e' & rows' & Hl & HB' & HF).
  replace ((p ++ D) ++ W' ++ 0 :: R' ++ e :: q) with (((p ++ D) ++ W' ++ [0]) ++ R' ++ e :: q)
    by (rewrite <- !app_assoc; done).
  replace (zlen p + zlen (D ++ W ++ b :: R')) with (zlen ((p ++ D) ++ W' ++ [0]) + zlen R')
    by (apply (f_equal Z.of_nat) in HW'; unfold zlen in *; rewrite !length_app in *; cbn; lia).
  rewrite Hl. exists (D ++ W' ++ 0 :: B'), e', (r :: rows').
  split; [by rewrite <- !app_assoc|]. split; [rewrite !length_app; cbn; lia|].
  rewrite csv_lines_line by done. cbn [csv_lines].
  replace (b =? 0) with false by (symmetry; solve_bool; intros ->; done). rewrite Hb.
  replace (p ++ (D ++ W' ++ 0 :: B') ++ [e']) with (((p ++ D) ++ W' ++ [0]) ++ B' ++ [e'])
    by (rewrite <- !app_assoc; done).
  constructor; [by apply row_ok_app|done].
Qed.

Lemma in_line_false b : in_line b = false -> b = 0 \/ is_nl b = true.
Proof.
  intros H. destruct (decide (b = 0)); [by left|]. right. destruct (is_nl b) eqn:E; [done|].
  assert (in_line b = true) by by apply in_line_spec. congruence.
Qed.

(** The head of the loop when the first byte of the data is not a NUL. *)
Lemma csv_loop_enter f alloc ncols p B e q rows m' rows' next :
  (forall b t, B ++ e :: q = b :: t -> b <> 0) ->
  csv_body alloc (p ++ B ++ e :: q) (zlen p + zlen B) ncols (zlen p) rows = Ok (m', rows', next) ->
  parse_csv_loop (S f) alloc (p ++ B ++ e :: q) (zlen p + zlen B) ncols (zlen p) rows
  = match next with
    | Stop status => Ok (m', status, rows')
    | Next line => parse_csv_loop f alloc m' (zlen p + zlen B) ncols line rows'
    end.
Proof.
  intros Hb Hbody. cbn [parse_csv_loop]. case_if; [zlia|].
  destruct (B ++ e :: q) as [|b t] eqn:E; [by destruct B|].
  rewrite rd_at, bind_Ok. replace (b =? 0) with false by (symmetry; solve_bool; by eapply Hb).
  by rewrite Hbody.
Qed.

Lemma nl_first D T d t : Forall (fun b => is_nl b = true) D -> D <> [] -> D ++ T = d :: t -> d <> 0.
Proof. intros HD Hne E ->. destruct HD as [|x D Hx _]; [done|]. injection E as -> _. done. Qed.

Lemma line_first D W T d t :
  Forall (fun b => is_nl b = true) D -> Forall (fun b => in_line b = true) W -> W <> [] ->
  (D ++ W ++ T) = d :: t -> d <> 0.
Proof.
  intros HD HW Hne E. destruct (decide (D = [])) as [->|HDn]; [|by eapply nl_first].
  destruct HW as [|w W [Hw _]%in_line_spec _]; [done|]. by injection E as <- _.
Qed.

Section csv_loop.
Context (f : nat) (alloc : nat -> bool) (ncols : Z) (q : list Z) (e : Z).
Hypothesis Halloc : forall n, alloc n = true.
Hypothesis He : is_nl e = false.
Hypothesis IH : forall p B rows, zlen B + 1 < 2 ^ 32 -> (S (length B) < f)%nat ->
  csv_loop_spec f alloc ncols q p B e rows.

Lemma csv_loop_skip_case p D R rows :
  Forall (fun b => is_nl b = true) D -> D <> [] -> zlen (D ++ R) + 1 < 2 ^ 32 ->
  (S (length (D ++ R)) < S f)%nat -> (R = [] \/ exists R', R = 0 :: R') ->
  csv_loop_spec (S f) alloc ncols q p (D ++ R) e rows.
Proof.
  intros HD HDne Hlt Hf HR. unfold csv_loop_spec. rewrite csv_lines_head by done.
  erewrite csv_loop_enter;
    [|intros b t; rewrite <- app_assoc; by apply nl_first|apply csv_body_skip; auto; by destruct D].
  destruct HR as [-> | [R' ->]].
  - rewrite app_nil_r in *. rewrite parse_csv_loop_past by (cbn in Hf; zlia).
    exists D, 0, []. rewrite <- app_assoc, app_nil_r. auto.
  - destruct (IH (p ++ D ++ [0]) R' rows) as (B' & e' & rows' & Hl & HB' & HF);
      [zlia|rewrite length_app in Hf; cbn in *; lia|].
    exists (D ++ 0 :: B'), e', rows'. cbn [csv_lines].
    replace (zlen (p ++ D) + 1) with (zlen (p ++ D ++ [0])) by zlia.
    replace (zlen p + zlen (D ++ 0 :: R')) with (zlen (p ++ D ++ [0]) + zlen R') by zlia.
    replace ((p ++ D) ++ 0 :: R' ++ e :: q) with ((p ++ D ++ [0]) ++ R' ++ e :: q)
      by (rewrite <- !app_assoc; done).
    rewrite Hl. replace (p ++ (D ++ 0 :: B') ++ [e']) with ((p ++ D ++ [0]) ++ B' ++ [e'])
      by (rewrite <- !app_assoc; done).
    split; [by rewrite <- !app_assoc|]. split; [rewrite !length_app; cbn; lia|done].
Qed.

Lemma csv_loop_row_case p D W R rows :
  Forall (fun b => is_nl b = true) D -> Forall (fun b => in_line b = true) W -> W <> [] ->
  zlen (D ++ W ++ R) + 1 < 2 ^ 32 -> (S (length (D ++ W ++ R)) < S f)%nat ->
  (R = [] \/ exists b R', R = b :: R' /\ in_line b = false) ->
  csv_loop_spec (S f) alloc ncols q p (D ++ W ++ R) e rows.
Proof.
  intros HD HW HWne Hlt Hf HR.
  destruct (csv_body_row alloc ncols p D W R e q rows) as (W' & r & s & T & ET & HW' & Hr & Hbody); auto.
  unfold csv_loop_spec. erewrite csv_loop_enter;
    [|intros b t; rewrite <- !app_assoc; by apply line_first|exact Hbody].
  assert (Hlen : zlen W' = zlen W) by (unfold zlen; by rewrite HW').
  destruct HR as [-> | (b & R' & -> & Hb)]; cbn [app] in ET; injection ET as <- <-.
  - exists (D ++ W'), 0, [r]. rewrite csv_lines_line by done. cbn [csv_lines].
    rewrite !app_nil_r in *. split; [|split; [rewrite !length_app; lia|]].
    + rewrite <- !app_assoc. case_if; [done|]. by rewrite parse_csv_loop_past by (cbn in *; zlia).
    + constructor; [|constructor]. by rewrite <- !app_assoc in *.
  - apply in_line_false in Hb as [-> |Hb].
    + exists (D ++ W' ++ 0 :: R'), e, [r].
      split; [by rewrite <- !app_assoc|]. split; [rewrite !length_app; cbn; lia|].
      rewrite csv_lines_line by done. constructor; [|constructor].
      apply (row_ok_app _ _ (R' ++ [e])) in Hr. by rewrite <- !app_assoc in *.
    + replace (b =? 0) with false by (symmetry; solve_bool; intros ->; done).
      eapply csv_loop_cons; eauto. apply IH; [zlia|].
      rewrite !length_app in Hf. cbn in Hf. lia.
Qed.
End csv_loop.

Lemma parse_csv_loop_ok fuel alloc ncols p B e q rows :
  (forall n, alloc n = true) -> is_nl e = false ->
  zlen B + 1 < 2 ^ 32 -> (S (length B) < fuel)%nat ->
  csv_loop_spec fuel alloc ncols q p B e rows.
Proof.
  intros Halloc He. revert p B rows. induction fuel as [|f IH]; intros p B rows Hlt Hf; [lia|].
  destruct (decide (B = [])) as [->|HBne]; [apply csv_loop_at_end; auto; cbn in Hf; lia|].
  destruct (cut_line B) as (D & W & R & -> & HD & HW & HW0 & HW1).
  destruct (decide (W = [])) as [->|HWne]; [|apply csv_loop_row_case; auto].
  specialize (HW0 eq_refl). cbn [app] in *.
  destruct (decide (D = [])) as [->|HDne]; [|apply csv_loop_skip_case; auto].
  destruct HW0 as [-> | [R' ->]]; [done|]. unfold csv_loop_spec. cbn [app parse_csv_loop].
  case_if; [zlia|]. rewrite rd_at, bind_Ok. exists (0 :: R'), e, []. rewrite app_nil_r. auto.
Qed.

(** ** parse_csv_data *)
Definition has_bom (B : list Z) (e : Z) : bool :=
  let l := take 3 (B ++ [e]) in bytes_eqb l (take (length l) UTF8_BOM).

(** The lines of the data [B] that ends at a byte [e]. *)
Definition csv_text (B : list Z) (e : Z) : list (list Z) :=
  csv_lines Head (if has_bom B e then drop 3 B else B).

Lemma is_utf8_bom_ok p B e q :
  B <> [] -> zlen B + 1 < 2 ^ 32 ->
  is_utf8_bom (p ++ B ++ e :: q) (zlen p) (span_size (zlen p) (zlen p + zlen B))
  = Ok (has_bom B e).
Proof.
  intros HB Hlt. rewrite span_size_pos by (done || lia). unfold is_utf8_bom, UTF8_BOM_SIZE.
  assert (Hl : zlen (take 3 (B ++ [e])) = Z.min 3 (zlen B + 1)).
  { unfold zlen. rewrite length_take, length_app. cbn [length]. lia. }
  replace (p ++ B ++ e :: q) with (p ++ take 3 (B ++ [e]) ++ drop 3 (B ++ [e]) ++ q).
  2:{ rewrite (app_assoc (take 3 _)), take_drop, <- app_assoc. done. }
  rewrite rdn_app_mid by (done || lia). rewrite bind_Ok. unfold has_bom.
  rewrite <- Hl. unfold zlen. by rewrite Nat2Z.id.
Qed.

Lemma parse_csv_data_ok alloc ncols p B e q rows :
  (forall n, alloc n = true) -> is_nl e = false -> B <> [] -> 0 < ncols -> zlen B + 1 < 2 ^ 32 ->
  exists B' e' rows',
    parse_csv_data alloc (p ++ B ++ e :: q) (zlen p) (zlen p + zlen B) ncols rows
    = Ok (p ++ B' ++ e' :: q, EFI_SUCCESS, rows ++ rows') /\
    length B' = length B /\
    Forall2 (row_ok (Z.to_nat ncols) (p ++ B' ++ [e'])) (csv_text B e) rows'.
Proof.
  intros Halloc He HB Hn Hlt. unfold parse_csv_data.
  replace ((zlen p + zlen B <=? zlen p) || (ncols =? 0)) with false
    by (symmetry; destruct B; [done|]; solve_bool; zlia).
  rewrite is_utf8_bom_ok, bind_Ok by done. unfold csv_text, UTF8_BOM_SIZE.
  destruct (has_bom B e).
  - destruct (decide (zlen B < 3)) as [Hs|Hs].
    + rewrite drop_ge, parse_csv_loop_past by (unfold zlen in *; lia).
      exists B, e, []. rewrite app_nil_r. auto.
    + assert (exists B3 B2, B = B3 ++ B2 /\ zlen B3 = 3 /\ drop 3 B = B2) as (B3 & B2 & -> & H3 & ->).
      { exists (take 3 B), (drop 3 B). rewrite take_drop. unfold zlen in *. rewrite length_take.
        split; [done|]. split; [lia|done]. }
      destruct (parse_csv_loop_ok (S (S (length (p ++ (B3 ++ B2) ++ e :: q)))) alloc ncols (p ++ B3)
        B2 e q rows) as (B' & e' & rows' & Hl & HB' & HF); auto; [zlia|rewrite !length_app; cbn; lia|].
      exists (B3 ++ B'), e', rows'. rewrite <- !app_assoc in *. rewrite zlen_app, H3 in Hl.
      replace (zlen p + zlen (B3 ++ B2)) with (zlen p + 3 + zlen B2) by zlia.
      rewrite Hl, !length_app, HB'. auto.
  - apply parse_csv_loop_ok; auto. rewrite !length_app. cbn. lia.
Qed.

(** C25. On data [B] that ends at a byte [e] which is not a line end (in
    shim always the NUL put behind the data), with every allocation
    successful, parse_csv_data returns EFI_SUCCESS without leaving the buffer,
    changes bytes only between the data's start and end, and appends one row
    per line; the columns of a row point at NUL-terminated copies, in the
    buffer, of the fields of the line.  The fields are those of the code's own
    splitting at commas: a line without a comma is one that parse_csv_line
    does not split at all, and its row has no columns, not the one column that
    the comment above the declaration promises ([no_comma_no_column]). *)
Theorem parse_csv_data_correct alloc ncols p B e q rows :
  (forall n, alloc n = true) -> is_nl e = false -> B <> [] -> 0 < ncols -> zlen B + 1 < 2 ^ 32 ->
  exists B' e' rows',
    parse_csv_data alloc (p ++ B ++ e :: q) (zlen p) (zlen p + zlen B) ncols rows
    = Ok (p ++ B' ++ e' :: q, EFI_SUCCESS, rows ++ rows') /\
    length B' = length B /\
    Forall2 (row_ok (Z.to_nat ncols) (p ++ B' ++ [e'])) (csv_text B e) rows'.
Proof. apply parse_csv_data_ok. Qed.

(** "ab\n" in three columns: one row, and none of its columns is filled, where the
    comment of parse_csv_data says that they are filled left to right. *)
Theorem no_comma_no_column :
  parse_csv_data (fun _ => true) [97; 98; 10; 0] 0 3 3 [] = Ok ([97; 98; 0; 0], EFI_SUCCESS, [{| n_columns := 0; columns := [None; None; None] |}]).
Proof. vm_compute. reflexivity. Qed.

Lemma parse_csv_data_correct_witness :
  exists B' e' rows',
    parse_csv_data (fun _ => true) ([] ++ [97; 44; 49; 10] ++ 0 :: []) (zlen (@nil Z))
      (zlen (@nil Z) + zlen [97; 44; 49; 10]) 3 []
    = Ok ([] ++ B' ++ e' :: [], EFI_SUCCESS, [] ++ rows') /\
    length B' = length [97; 44; 49; 10] /\
    Forall2 (row_ok (Z.to_nat 3) ([] ++ B' ++ [e'])) (csv_text [97; 44; 49; 10] 0) rows'.
Proof. apply (parse_csv_data_correct (fun _ => true) 3 [] [97; 44; 49; 10] 0 [] []); done. Defined.

Lemma csv_lines_plain_aux B : nonul B ->
  csv_lines Head B = List.filter nonempty (split is_nl B) /\
  csv_lines Skip B = List.filter nonempty (split is_nl B) /\
  forall acc, nonempty acc = true ->
    csv_lines (In_line acc) B =
      match split is_nl B with
      | [] => [acc]
      | w :: ws => (acc ++ w) :: List.filter nonempty ws
      end.
Proof.
  induction 1 as [|b B Hb _ (IH1 & IH2 & IH3)].
  { split; [done|]. split; [done|]. intros. cbn. by rewrite app_nil_r. }
  cbn [csv_lines split]. replace (b =? 0) with false by (symmetry; solve_bool).
  destruct (is_nl b).
  - cbn. split; [done|]. split; [done|]. intros. by rewrite IH1, app_nil_r.
  - rewrite IH3 by done. pose proof (split_nonnil is_nl B).
    destruct (split is_nl B) as [|w ws]; [done|]. split; [done|]. split; [done|].
    intros acc Ha. rewrite IH3 by by destruct acc. by rewrite <- app_assoc.
Qed.

(** On a text without NUL bytes and byte order mark, ended by a NUL,
    parse_csv_data appends exactly one row for each non-empty piece of the text
    between carriage returns and line feeds, in order. *)
Theorem parse_csv_data_plain alloc ncols p B q rows :
  (forall n, alloc n = true) -> nonul B -> has_bom B 0 = false -> B <> [] -> 0 < ncols -> zlen B + 1 < 2 ^ 32 ->
  exists B' e' rows',
    parse_csv_data alloc (p ++ B ++ 0 :: q) (zlen p) (zlen p + zlen B) ncols rows
    = Ok (p ++ B' ++ e' :: q, EFI_SUCCESS, rows ++ rows') /\
    Forall2 (row_ok (Z.to_nat ncols) (p ++ B' ++ [e'])) (List.filter nonempty (split is_nl B)) rows'.
Proof.
  intros Ha Hn Hb HB Hc Hl.
  destruct (parse_csv_data_ok alloc ncols p B 0 q rows) as (B' & e' & rows' & Hp & _ & HF); auto.
  exists B', e', rows'. split; [done|]. unfold csv_text in HF. rewrite Hb in HF.
  by rewrite (proj1 (csv_lines_plain_aux B Hn)) in HF.
Qed.

(** "a,1", an empty line, "b,2" *)
Lemma parse_csv_data_plain_witness :
  exists B' e' rows',
    parse_csv_data (fun _ => true) ([] ++ [97; 44; 49; 13; 10; 10; 98; 44; 50] ++ 0 :: []) (zlen (@nil Z))
      (zlen (@nil Z) + zlen [97; 44; 49; 13; 10; 10; 98; 44; 50]) 2 []
    = Ok ([] ++ B' ++ e' :: [], EFI_SUCCESS, [] ++ rows') /\
    Forall2 (row_ok (Z.to_nat 2) ([] ++ B' ++ [e'])) [[97; 44; 49]; [98; 44; 50]] rows'.
Proof.
  apply (parse_csv_data_plain (fun _ => true) 2 [] [97; 44; 49; 13; 10; 10; 98; 44; 50] [] []);
    [done|repeat constructor; lia|done|done|lia|done].
Defined.

Lemma parse_csv_loop_oom fuel alloc m data_end ncols line rows m' st rows' :
  parse_csv_loop fuel alloc m data_end ncols line rows = Ok (m', st, rows') ->
  st = EFI_SUCCESS \/ st = EFI_OUT_OF_RESOURCES /\ rows' = [].
Proof.
  revert m line rows. induction fuel as [|f IH]; intros m line rows; [done|].
  cbn [parse_csv_loop]. case_if; [intros [= _ <- _]; auto|].
  destruct (rd m line); cbn [mbind res_bind]; try done. case_if; [intros [= _ <- _]; auto|].
  destruct (csv_body alloc m data_end ncols line rows) as [[[m1 rows1] [st1|line1]]| |] eqn:E;
    cbn [mbind res_bind]; try done; [|apply IH].
  intros [= <- <- <-]. unfold csv_body in E. revert E.
  destruct (skip_delims _ _ _ _ _) as [[line2 max]| |]; cbn [mbind res_bind]; try done.
  destruct (find_end _ _ _ _ _) as [end_| |]; cbn [mbind res_bind]; try done.
  destruct (rd m end_) as [be| |]; cbn [mbind res_bind]; try done.
  destruct (wr m end_ 0) as [m2| |]; cbn [mbind res_bind]; try done.
  case_if; try done; case_if; [intros [= _ <- <-]; auto|].
  destruct (find_end _ _ _ _ _) as [end2| |]; cbn [mbind res_bind]; try done.
  destruct (parse_csv_line _ _ _ _) as [[[m3 mc] cols]| |]; cbn [mbind res_bind]; try done.
  case_if; intros [= _ _ <-]; auto.
Qed.

(** A failed call leaves either the list untouched (a rejected
    argument) or an empty list (an allocation failed and free_csv_list ran). *)
Theorem parse_csv_data_failure alloc m data data_end ncols rows m' st rows' :
  parse_csv_data alloc m data data_end ncols rows = Ok (m', st, rows') -> EFI_ERROR st = true ->
  st = EFI_INVALID_PARAMETER /\ rows' = rows /\ m' = m \/
  st = EFI_OUT_OF_RESOURCES /\ rows' = [].
Proof.
  unfold parse_csv_data. case_if; try (intros [= <- <- <-] _; by left).
  destruct (is_utf8_bom _ _ _); cbn [mbind res_bind]; try done. intros Hl. apply parse_csv_loop_oom in Hl as [-> |Hl]; [done|by right].
Qed.

Lemma parse_csv_data_failure_witness :
  EFI_OUT_OF_RESOURCES = EFI_INVALID_PARAMETER /\ @nil csv_row = [] /\
    [97; 44; 49; 0; 0] = [97; 44; 49; 10; 0] \/
  EFI_OUT_OF_RESOURCES = EFI_OUT_OF_RESOURCES /\ @nil csv_row = [].
Proof.
  apply (parse_csv_data_failure (fun _ => false) [97; 44; 49; 10; 0] 0 4 3 []); vm_compute; reflexivity.
Defined.

(** All values of an [unsigned char]. *)
Definition all_bytes : list Z := map Z.of_nat (seq 0 256).

Lemma all_bytes_spec b : is_byte b -> In b all_bytes.
Proof.
  unfold is_byte, all_bytes. intros. apply in_map_iff. exists (Z.to_nat b).
  split; [lia|]. apply in_seq. lia.
Qed.

(** When the byte at the end of the data is a line end that follows an
    empty line, the skip loop runs past the end, the size computation wraps
    around and the tokenizer leaves the buffer: the byte behind the data has to
    be no line end, whatever the line before it holds. *)
Theorem parse_csv_data_newline_at_end w nl1 nl2 :
  is_byte w -> w <> 0 -> is_nl w = false -> In nl1 delims -> In nl2 delims ->
  parse_csv_data (fun _ => true) [w; 10; nl1; nl2] 0 3 3 [] = Fault.
Proof.
  intros Hw%all_bytes_spec H0 Hnl H1 H2.
  assert (HF : forallb (fun w => forallb (fun a => forallb (fun b =>
    (w =? 0) || is_nl w ||
    bool_decide (parse_csv_data (fun _ => true) [w; 10; a; b] 0 3 3 [] = Fault)) delims) delims)
    all_bytes = true) by (vm_compute; reflexivity).
  rewrite forallb_forall in HF. specialize (HF w Hw).
  rewrite forallb_forall in HF. specialize (HF nl1 H1).
  rewrite forallb_forall in HF. specialize (HF nl2 H2). rewrite Hnl in HF.
  apply Z.eqb_neq in H0. rewrite H0 in HF. by apply bool_decide_eq_true in HF.
Qed.

Lemma parse_csv_data_newline_at_end_witness :
  parse_csv_data (fun _ => true) [97; 10; 13; 10] 0 3 3 [] = Fault.
Proof. apply (parse_csv_data_newline_at_end 97 13 10); [split; lia|lia|done|cbn; auto..]. Defined.
