(* ===== verification/Sbat.v ===== *)
(** * SBAT: sbat.c (parsing, verification, version comparison)

    parse_sbat_section and parse_sbat_var_data copy the rows of the CSV parser
    into one allocation that holds the entry structures and a string table.
    The model keeps that allocation as a byte buffer ([tab], the strings are
    written into it by stpcpy and an overflow is a [Fault]) and the entries as
    records of offsets into it (None is NULL; the allocation is zeroed).  The
    reference definitions [section_rows], [var_rows] and [sbat_check] say what
    is accepted on the level of byte strings. *)
From stdpp Require Import base list numbers option.
From Stdlib Require Import ZArith Lia.
From S2P Require Import Prelude.
From S2P Require Import Efi.
From S2P Require Import Str.
From S2P Require Import Csv.
Local Open Scope Z_scope.

(** ** Data *)
Record sbat_section_entry : Type := {
  component_name : option Z;
  component_generation : option Z;
  vendor_name : option Z;
  vendor_package_name : option Z;
  vendor_version : option Z;
  vendor_url : option Z
}.
Definition SBAT_SECTION_COLUMNS : Z := 6.

Record sbat_var_entry : Type := {
  var_component_name : option Z;
  var_component_generation : option Z;
  sbat_datestamp : option Z
}.
Definition SBAT_VAR_COLUMNS : Z := 3.
Definition SBAT_VAR_REQUIRED_COLUMNS : Z := SBAT_VAR_COLUMNS - 1.

(** sizeof on x86_64; a sbat_var_entry also holds a list_t. *)
Definition sizeof_ptr : Z := 8.
Definition sizeof_sbat_section_entry : Z := 48.
Definition sizeof_sbat_var_entry : Z := 40.

(** ** The passes over the CSV rows

    The first pass checks the rows and adds up the size of the allocation;
    [None] stands for the jump to [err] with EFI_INVALID_PARAMETER. *)
Fixpoint measure_columns (m : list Z) (cols : list (option Z)) (allocsz : Z) : res (option Z) :=
  match cols with
  | [] => Ok (Some allocsz)
  | None :: _ => Fault
  | Some c :: cols' =>
      b ← rd m c;
      if b =? 0 then Ok None
      else len ← strlen m c; measure_columns m cols' (u64 (allocsz + (len + 1)))
  end.

Fixpoint measure_rows (required entrysz : Z) (m : list Z) (rows : list csv_row) (allocsz : Z)
  : res (option Z) :=
  match rows with
  | [] => Ok (Some allocsz)
  | row :: rows' =>
      if n_columns row <? required then Ok None
      else
        sz ← measure_columns m (take (Z.to_nat (n_columns row)) (columns row))
               (u64 (u64 (allocsz + sizeof_ptr) + entrysz));
        match sz with
        | Some allocsz => measure_rows required entrysz m rows' allocsz
        | None => Ok None
        end
  end.

(** The second pass copies the columns of a row to [strtab] and collects the
    pointers to the copies. *)
Fixpoint copy_columns (m : list Z) (cols : list (option Z)) (tab : list Z) (strtab : Z)
    (ptrs : list Z) : res (list Z * Z * list Z) :=
  match cols with
  | [] => Ok (tab, strtab, ptrs)
  | None :: _ => Fault
  | Some c :: cols' =>
      '(tab, e) ← stpcpy tab strtab m c;
      copy_columns m cols' tab (e + 1) (ptrs ++ [strtab])
  end.

Fixpoint copy_rows {E} (mk : list Z -> res E) (m : list Z) (rows : list csv_row) (tab : list Z)
    (strtab : Z) (entries : list E) : res (list Z * list E) :=
  match rows with
  | [] => Ok (tab, entries)
  | row :: rows' =>
      '(tab, strtab, ptrs) ←
        copy_columns m (take (Z.to_nat (n_columns row)) (columns row)) tab strtab [];
      e ← mk ptrs;
      copy_rows mk m rows' tab strtab (entries ++ [e])
  end.

(** The stores through [ptrs]; a row with more columns than the structure has
    fields would be stored outside of it. *)
Definition mk_section_entry (ptrs : list Z) : res sbat_section_entry :=
  if SBAT_SECTION_COLUMNS <? zlen ptrs then Fault
  else Ok {| component_name := ptrs !! 0%nat; component_generation := ptrs !! 1%nat;
             vendor_name := ptrs !! 2%nat; vendor_package_name := ptrs !! 3%nat;
             vendor_version := ptrs !! 4%nat; vendor_url := ptrs !! 5%nat |}.

Definition mk_var_entry (ptrs : list Z) : res sbat_var_entry :=
  if SBAT_VAR_COLUMNS <? zlen ptrs then Fault
  else Ok {| var_component_name := ptrs !! 0%nat; var_component_generation := ptrs !! 1%nat;
             sbat_datestamp := ptrs !! 2%nat |}.

(** ** parse_sbat_section

    [csv_alloc] and [tab_alloc] say which allocations succeed.  The result is
    the tokenized section, the status and, on success, the table and entries
    ([*entriesp] is NULL and [*n_entries] 0 when there are no rows). *)
Definition parse_sbat_section (csv_alloc : nat -> bool) (tab_alloc : bool)
    (m : list Z) (section_base section_size : Z)
  : res (list Z * EFI_STATUS * option (list Z * list sbat_section_entry)) :=
  let end_ := section_base + section_size - 1 in
  if section_size =? 0 then Ok (m, EFI_INVALID_PARAMETER, None)
  else
    '(m, efi_status, csv) ← parse_csv_data csv_alloc m section_base end_ SBAT_SECTION_COLUMNS [];
    if EFI_ERROR efi_status then Ok (m, efi_status, None)
    else
      sz ← measure_rows SBAT_SECTION_COLUMNS sizeof_sbat_section_entry m csv 0;
      match sz with
      | None => Ok (m, EFI_INVALID_PARAMETER, None)
      | Some allocsz =>
          let n := zlen csv in
          if n =? 0 then Ok (m, efi_status, Some ([], []))
          else if negb tab_alloc then Ok (m, EFI_OUT_OF_RESOURCES, None)
          else
            let tab := replicate (Z.to_nat allocsz) 0 in
            let strtab := sizeof_ptr * n + sizeof_sbat_section_entry * n in
            '(tab, entries) ← copy_rows mk_section_entry m csv tab strtab [];
            Ok (m, efi_status, Some (tab, entries))
      end.

(** ** parse_sbat_var_data *)
Definition parse_sbat_var_data (csv_alloc : nat -> bool) (tab_alloc : bool)
    (m : list Z) (data datasize : Z)
  : res (list Z * EFI_STATUS * option (list Z * list sbat_var_entry)) :=
  let start := data in
  let end_ := data + datasize - 1 in
  if datasize =? 0 then Ok (m, EFI_INVALID_PARAMETER, None)
  else
    '(m, efi_status, csv) ← parse_csv_data csv_alloc m start end_ SBAT_VAR_COLUMNS [];
    if EFI_ERROR efi_status then Ok (m, efi_status, None)
    else
      sz ← measure_rows SBAT_VAR_REQUIRED_COLUMNS sizeof_sbat_var_entry m csv 0;
      match sz with
      | None => Ok (m, EFI_INVALID_PARAMETER, None)
      | Some allocsz =>
          let n := zlen csv in
          if negb tab_alloc then Ok (m, EFI_OUT_OF_RESOURCES, None)
          else
            let tab := replicate (Z.to_nat allocsz) 0 in
            let strtab := sizeof_sbat_var_entry * n + sizeof_ptr * n in
            '(tab, entries) ← copy_rows mk_var_entry m csv tab strtab [];
            Ok (m, efi_status, Some (tab, entries))
      end.

(** ** Verification *)
Definition atoi (m : list Z) (s : option Z) : res Z :=
  match s with None => Ok 0 | Some s => AsciiStrDecimalToUintn m s end.

(** The second component is [*found]. *)
Definition verify_single_entry (tab : list Z) (entry : sbat_section_entry)
    (vtab : list Z) (var_entry : sbat_var_entry) : res (EFI_STATUS * bool) :=
  match component_name entry, var_component_name var_entry with
  | Some name, Some vname =>
      c ← strcmp tab name vtab vname;
      if c =? 0 then
        g ← atoi tab (component_generation entry);
        vg ← atoi vtab (var_component_generation var_entry);
        let sbat_gen := u16 g in
        let sbat_var_gen := u16 vg in
        Ok (if sbat_gen <? sbat_var_gen then EFI_SECURITY_VIOLATION else EFI_SUCCESS, true)
      else Ok (EFI_SUCCESS, false)
  | _, _ => Fault
  end.

(** The inner loop, over the entries of the variable. *)
Fixpoint verify_entry_vars (tab : list Z) (entry : sbat_section_entry) (vtab : list Z)
    (vars : list sbat_var_entry) : res EFI_STATUS :=
  match vars with
  | [] => Ok EFI_SUCCESS
  | v :: vars' =>
      '(efi_status, found) ← verify_single_entry tab entry vtab v;
      if EFI_ERROR efi_status then Ok efi_status
      else if found : bool then Ok efi_status
      else verify_entry_vars tab entry vtab vars'
  end.

Fixpoint verify_sbat_entries (vtab : list Z) (vars : list sbat_var_entry) (tab : list Z)
    (entries : list sbat_section_entry) : res EFI_STATUS :=
  match entries with
  | [] => Ok EFI_SUCCESS
  | e :: entries' =>
      efi_status ← verify_entry_vars tab e vtab vars;
      if EFI_ERROR efi_status then Ok efi_status else verify_sbat_entries vtab vars tab entries'
  end.

(** verify_sbat is verify_sbat_helper on the global list [sbat_var]. *)
Definition verify_sbat_helper (local_sbat_var : list Z * list sbat_var_entry)
    (tab : list Z) (entries : list sbat_section_entry) : res EFI_STATUS :=
  let (vtab, vars) := local_sbat_var in
  match vars with
  | [] => Ok EFI_SUCCESS
  | _ => verify_sbat_entries vtab vars tab entries
  end.

(** ** verify_sbat_section (pe.c)

    [SBATBase] is NULL or a buffer and an offset into it; the allocations are
    the zero-terminated copy, the CSV rows and the string table. *)
Definition verify_sbat_section (buf_alloc : bool) (csv_alloc : nat -> bool) (tab_alloc : bool)
    (in_protocol : bool) (sbat_var : list Z * list sbat_var_entry)
    (SBATBase : option (list Z * Z)) (SBATSize : Z) : res EFI_STATUS :=
  match snd sbat_var with
  | [] => Ok EFI_SUCCESS
  | _ =>
    match SBATBase with
    | None => Ok (if in_protocol then EFI_SUCCESS else EFI_SECURITY_VIOLATION)
    | Some (m, base) =>
        if SBATSize =? 0 then Ok (if in_protocol then EFI_SUCCESS else EFI_SECURITY_VIOLATION)
        else
          let (overflow, sbat_size) := checked_add SBATSize 1 in
          if overflow : bool then Ok EFI_SECURITY_VIOLATION
          else if negb buf_alloc then Ok EFI_OUT_OF_RESOURCES
          else
            copy ← rdn m base SBATSize;
            let sbat_data := copy ++ [0] in
            '(_, efi_status, r) ← parse_sbat_section csv_alloc tab_alloc sbat_data 0 sbat_size;
            match r with
            | None => Ok efi_status
            | Some (tab, entries) => verify_sbat_helper sbat_var tab entries
            end
    end
  end.

(** ** Comparing the level in firmware with a candidate *)
Definition UEFI_VAR_NV_BS : Z := Z.lor EFI_VARIABLE_NON_VOLATILE EFI_VARIABLE_BOOTSERVICE_ACCESS.
Definition UEFI_VAR_NV_BS_TIMEAUTH : Z :=
  Z.lor UEFI_VAR_NV_BS EFI_VARIABLE_TIME_BASED_AUTHENTICATED_WRITE_ACCESS.
Definition SBAT_VAR_ATTRS : Z := UEFI_VAR_NV_BS.

(** "sbat,", "sbat,1,2021030218\n" and the length of "2021030218" *)
Definition SBAT_VAR_SIG : list Z := [115; 98; 97; 116; 44].
Definition SBAT_VAR_VERSION : list Z := [49; 44].
Definition SBAT_VAR_ORIGINAL_DATE : list Z := [50; 48; 50; 49; 48; 51; 48; 50; 49; 56].
Definition SBAT_VAR_ORIGINAL : list Z :=
  SBAT_VAR_SIG ++ SBAT_VAR_VERSION ++ SBAT_VAR_ORIGINAL_DATE ++ [10].

Definition check_sbat_var_attributes (attributes : Z) : bool :=
  (attributes =? UEFI_VAR_NV_BS) || (attributes =? UEFI_VAR_NV_BS_TIMEAUTH).

Fixpoint nth_sbat_field_loop (fuel : nat) (m : list Z) (str limit i n : Z) : res Z :=
  match fuel with
  | O => NoFuel
  | S f =>
      if i <? limit then
        b ← rd m (str + i);
        if b =? 0 then Ok (str + i)
        else if n =? 0 then Ok (str + i)
        else nth_sbat_field_loop f m str limit (i + 1) (if b =? 44 then n - 1 else n)
      else Ok (str + i)
  end.
Definition nth_sbat_field (m : list Z) (str limit n : Z) : res Z :=
  nth_sbat_field_loop (S (S (length m))) m str limit 0 n.

(** strncmp against a string literal. *)
Definition literal (s : list Z) : list Z := s ++ [0].

(** [int] subtraction of pointers and the conversion of an [int] length to the
    [size_t] parameter of strncmp. *)
Definition ptr_len (a b : Z) : Z := i32 (a - b - 1).

Definition preserve_sbat_uefi_variable (sbat : list Z) (sbatsize attributes : Z)
    (sbat_var : list Z) : res bool :=
  if negb (check_sbat_var_attributes attributes) then Ok false
  else if sbatsize <? zlen SBAT_VAR_ORIGINAL then Ok false
  else
    sig ← strncmp sbat 0 (literal SBAT_VAR_SIG) 0 (zlen SBAT_VAR_SIG);
    if negb (sig =? 0) then Ok false
    else
      current_version ← nth_sbat_field sbat 0 sbatsize 1;
      len ← strlen sbat_var 0;
      new_version ← nth_sbat_field sbat_var 0 (len + 1) 1;
      current_datestamp ← nth_sbat_field sbat 0 sbatsize 2;
      new_datestamp ← nth_sbat_field sbat_var 0 (len + 1) 2;
      let current_version_len := ptr_len current_datestamp current_version in
      let new_version_len := ptr_len new_datestamp new_version in
      newer ← (if new_version_len <? current_version_len then Ok true
               else if current_version_len =? new_version_len then
                 c ← strncmp sbat current_version sbat_var new_version (u64 new_version_len);
                 Ok (0 <? c)
               else Ok false);
      if newer : bool then Ok true
      else
        c ← strncmp sbat current_datestamp sbat_var new_datestamp (zlen SBAT_VAR_ORIGINAL_DATE);
        Ok (0 <=? c).

(** ** SkuSiPolicy versions *)
Definition SSPVER_SIZE : Z := 8.
Definition SSPSIG_SIZE : Z := 131.

Definition ssp_ver_to_ull (ver : list Z) : res Z :=
  major ← rd_le ver 0 2;
  minor ← rd_le ver 2 2;
  rev ← rd_le ver 4 2;
  build ← rd_le ver 6 2;
  Ok (u64 (Z.shiftl major 48 + Z.shiftl minor 32 + Z.shiftl rev 16 + build)).

Definition preserve_ssp_uefi_variable (ssp_applied : option (list Z)) (sspversize attributes : Z)
    (ssp_candidate : option (list Z)) : res bool :=
  match ssp_applied, ssp_candidate with
  | Some applied, Some candidate =>
      if negb (sspversize =? SSPVER_SIZE) then Ok false
      else if negb (check_sbat_var_attributes attributes) then Ok false
      else
        old ← ssp_ver_to_ull applied;
        new ← ssp_ver_to_ull candidate;
        Ok (if old <? new then false else true)
  | _, _ => Ok false
  end.

(** ** What is accepted, on byte strings *)
Definition row_accept (required : Z) (k : nat) (l : list Z) : bool :=
  (required <=? zlen (csv_fields k l)) && forallb nonempty (csv_fields k l).

(** The rows of a .sbat section and of the SbatLevel variable; None when some
    line has too few fields or an empty one. *)
Definition parse_rows (required : Z) (k : nat) (lines : list (list Z)) : option (list (list (list Z))) :=
  if forallb (row_accept required k) lines then Some (map (csv_fields k) lines) else None.
Definition section_rows (B : list Z) (e : Z) : option (list (list (list Z))) :=
  parse_rows SBAT_SECTION_COLUMNS 6 (csv_text B e).
Definition var_rows (B : list Z) (e : Z) : option (list (list (list Z))) :=
  parse_rows SBAT_VAR_REQUIRED_COLUMNS 3 (csv_text B e).

(** The pointers [opts] of a structure with [k] fields point at the strings
    [fs]; the remaining ones are NULL. *)
Definition fields_at (k : nat) (tab : list Z) (fs : list (list Z)) (opts : list (option Z)) : Prop :=
  exists ptrs, Forall2 (cstring tab) ptrs fs /\ opts = map Some ptrs ++ replicate (k - length ptrs) None.

Definition section_view (e : sbat_section_entry) : list (option Z) :=
  [component_name e; component_generation e; vendor_name e; vendor_package_name e;
   vendor_version e; vendor_url e].
Definition var_view (e : sbat_var_entry) : list (option Z) :=
  [var_component_name e; var_component_generation e; sbat_datestamp e].

(** The verdict: the generation of a component must not be below that of the
    first entry of the variable with its name; generations are compared modulo
    2^16. *)
Definition generation (fs : list (list Z)) : Z := u16 (atoi_spec (nth 1 fs [])).
Definition same_name (fs vs : list (list Z)) : bool := bool_decide (nth 0 fs [] = nth 0 vs []).
Definition not_revoked (vars : list (list (list Z))) (fs : list (list Z)) : bool :=
  match List.find (same_name fs) vars with
  | Some vs => generation vs <=? generation fs
  | None => true
  end.
Definition sbat_check (vars secs : list (list (list Z))) : bool := forallb (not_revoked vars) secs.

(** ** Lemmas on the passes *)
Definition strings_size (fs : list (list Z)) : Z :=
  fold_right (fun f n => zlen f + 1 + n) 0 fs.
Definition rows_size (entrysz : Z) (k : nat) (lines : list (list Z)) : Z :=
  fold_right (fun l n => sizeof_ptr + entrysz + strings_size (csv_fields k l) + n) 0 lines.

Lemma strings_size_nonneg fs : 0 <= strings_size fs.
Proof. induction fs as [|f fs IH]; cbn; [lia|]. fold (strings_size fs). zlia. Qed.

Lemma rows_size_nonneg entrysz k lines : 0 <= entrysz -> 0 <= rows_size entrysz k lines.
Proof.
  intros. induction lines as [|l ls IH]; cbn; [lia|]. fold (rows_size entrysz k ls).
  pose proof (strings_size_nonneg (csv_fields k l)). unfold sizeof_ptr. lia.
Qed.

Lemma row_columns_used k m l r :
  row_ok k m l r ->
  exists offs, Forall2 (cstring m) offs (csv_fields k l) /\
    n_columns r = zlen (csv_fields k l) /\
    take (Z.to_nat (n_columns r)) (columns r) = map Some offs.
Proof.
  intros (offs & HF & Hn & Hc). exists offs. split; [done|].
  apply Forall2_length in HF. split; [by unfold zlen in *; rewrite Hn, HF|].
  rewrite Hn, Hc. unfold zlen. rewrite Nat2Z.id, take_app_le by (by rewrite length_map).
  by rewrite take_ge by by rewrite length_map.
Qed.

Lemma measure_columns_ok m offs fs allocsz :
  Forall2 (cstring m) offs fs -> 0 <= allocsz -> allocsz + strings_size fs < 2 ^ 64 ->
  measure_columns m (map Some offs) allocsz
  = Ok (if forallb nonempty fs then Some (allocsz + strings_size fs) else None).
Proof.
  intros HF. revert allocsz. induction HF as [|o f offs fs Hf _ IH]; intros sz Hsz Hlt.
  { cbn. by rewrite Z.add_0_r. }
  cbn [map measure_columns strings_size fold_right forallb] in *.
  fold (strings_size fs) in *. pose proof (strings_size_nonneg fs).
  rewrite (strlen_ok _ _ _ Hf). destruct f as [|b f].
  - by rewrite (cstring_nil _ _ Hf).
  - pose proof Hf as (Hb & -> & _)%cstring_cons. rewrite bind_Ok. case_if; [done|].
    rewrite bind_Ok, u64_small by zlia. rewrite IH by zlia. cbn [nonempty andb].
    f_equal. case_if; [|done]. f_equal. lia.
Qed.

Lemma measure_rows_ok required entrysz k m lines rows allocsz :
  Forall2 (row_ok k m) lines rows -> 0 <= entrysz -> 0 <= allocsz ->
  allocsz + rows_size entrysz k lines < 2 ^ 64 ->
  measure_rows required entrysz m rows allocsz
  = Ok (if forallb (row_accept required k) lines
        then Some (allocsz + rows_size entrysz k lines) else None).
Proof.
  intros HF He. revert allocsz. induction HF as [|l r lines rows Hr _ IH]; intros sz Hsz Hlt.
  { cbn. by rewrite Z.add_0_r. }
  apply row_columns_used in Hr as (offs & HF & Hn & Hc).
  cbn [measure_rows rows_size fold_right forallb] in *. fold (rows_size entrysz k lines) in *.
  pose proof (rows_size_nonneg entrysz k lines He).
  pose proof (strings_size_nonneg (csv_fields k l)). unfold sizeof_ptr in *.
  rewrite Hc, Hn. unfold row_accept at 1. rewrite Z.leb_antisym.
  case_if; [done|]. rewrite (u64_small (sz + 8)), u64_small by lia.
  rewrite (measure_columns_ok _ _ (csv_fields k l)) by (done || lia). rewrite bind_Ok. cbn [negb andb].
  case_if; [|done]. rewrite IH by lia. f_equal. case_if; [|done]. f_equal. lia.
Qed.

Lemma copy_columns_ok m offs fs p old q ptrs :
  Forall2 (cstring m) offs fs -> zlen old = strings_size fs ->
  exists blob new,
    copy_columns m (map Some offs) (p ++ old ++ q) (zlen p) ptrs
    = Ok (p ++ blob ++ q, zlen p + strings_size fs, ptrs ++ new) /\
    zlen blob = strings_size fs /\ Forall2 (cstring (p ++ blob)) new fs.
Proof.
  intros HF. revert p old ptrs. induction HF as [|o f offs fs Hf _ IH]; intros p old ptrs Hold.
  { destruct old; [|cbn in Hold; zlia]. exists [], []. cbn. rewrite app_nil_r, Z.add_0_r. auto. }
  cbn [map copy_columns strings_size fold_right] in *. fold (strings_size fs) in *.
  pose proof (strings_size_nonneg fs).
  assert (exists o1 o2, old = o1 ++ o2 /\ length o1 = S (length f)) as (o1 & o2 & -> & Ho1).
  { exists (take (S (length f)) old), (drop (S (length f)) old). rewrite take_drop. split; [done|].
    rewrite length_take. unfold zlen in Hold. lia. }
  rewrite <- !app_assoc. rewrite (stpcpy_ok p o1 (o2 ++ q) m o f) by done. rewrite bind_Ok.
  destruct (IH (p ++ f ++ [0]) o2 (ptrs ++ [zlen p])) as (blob & new & Hc & Hb & HF).
  { unfold zlen in *. rewrite length_app in Hold. lia. }
  rewrite !zlen_app, <- !app_assoc in Hc. cbn [app] in Hc. change (zlen [0]) with 1 in Hc.
  rewrite Z.add_assoc in Hc. rewrite Hc.
  exists (f ++ 0 :: blob), (zlen p :: new). rewrite <- !app_assoc. split.
  { cbn. do 3 f_equal. lia. }
  split; [zlia|]. constructor.
  - exists p, blob. rewrite <- ?app_assoc. split; [done|]. split; [done|]. by destruct Hf as (?&?&_&_&?).
  - rewrite <- !app_assoc in HF. done.
Qed.

Section copy.
Context {E : Type} (mk : list Z -> res E) (view : E -> list (option Z)) (k : nat).
Hypothesis mk_ok : forall ptrs, (length ptrs <= k)%nat ->
  exists e, mk ptrs = Ok e /\ view e = map Some ptrs ++ replicate (k - length ptrs) None.

Definition copied (tab : list Z) (l : list Z) (e : E) : Prop := fields_at k tab (csv_fields k l) (view e).

Lemma copied_app tab q l e : copied tab l e -> copied (tab ++ q) l e.
Proof.
  intros (ptrs & HF & Hv). exists ptrs. split; [|done].
  eapply Forall2_impl; [|exact HF]. intros. by apply cstring_app_r.
Qed.

Lemma csv_fields_length l : (length (csv_fields k l) <= k)%nat.
Proof. unfold csv_fields. case_if; [|cbn; lia]. rewrite length_take. lia. Qed.

Lemma copy_rows_ok m lines rows p old entries :
  Forall2 (row_ok k m) lines rows ->
  zlen old = fold_right (fun l n => strings_size (csv_fields k l) + n) 0 lines ->
  exists tab new, copy_rows mk m rows (p ++ old) (zlen p) entries = Ok (p ++ tab, entries ++ new) /\
    length tab = length old /\ Forall2 (copied (p ++ tab)) lines new.
Proof.
  intros HF. revert p old entries. induction HF as [|l r lines rows Hr _ IH]; intros p old entries Hold.
  { exists old, []. rewrite app_nil_r. auto. }
  apply row_columns_used in Hr as (offs & HF & Hn & Hc). cbn [copy_rows fold_right] in *. rewrite Hc.
  pose proof (strings_size_nonneg (csv_fields k l)).
  assert (exists o1 o2, old = o1 ++ o2 /\ zlen o1 = strings_size (csv_fields k l))
    as (o1 & o2 & -> & Ho1).
  { set (n := Z.to_nat (strings_size (csv_fields k l))).
    exists (take n old), (drop n old). rewrite take_drop. split; [done|].
    assert (0 <= fold_right (fun l n => strings_size (csv_fields k l) + n) 0 lines).
    { clear. induction lines; cbn; [lia|]. pose proof (strings_size_nonneg (csv_fields k a)). lia. }
    unfold zlen in *. rewrite length_take. lia. }
  destruct (copy_columns_ok m offs (csv_fields k l) p o1 o2 []) as (blob & new & Hcc & Hb & Hnew);
    [done..|]. rewrite Hcc, bind_Ok. cbn [app].
  destruct (mk_ok new) as (e & -> & Hv).
  { apply Forall2_length in Hnew. pose proof (csv_fields_length l). lia. }
  rewrite bind_Ok, <- Hb, <- zlen_app.
  destruct (IH (p ++ blob) o2 (entries ++ [e])) as (tab & es & Hcr & Hl & HFes); [zlia|].
  rewrite <- !app_assoc in Hcr. rewrite Hcr. exists (blob ++ tab), (e :: es).
  split; [done|]. split; [rewrite !length_app; unfold zlen in *; lia|].
  rewrite app_assoc. constructor; [|done]. apply copied_app. by exists new.
Qed.
End copy.

Lemma mk_section_entry_ok ptrs : (length ptrs <= 6)%nat ->
  exists e, mk_section_entry ptrs = Ok e /\
    section_view e = map Some ptrs ++ replicate (6 - length ptrs) None.
Proof.
  intros Hl. unfold mk_section_entry, SBAT_SECTION_COLUMNS. case_if; [unfold zlen in *; lia|].
  eexists. split; [done|].
  do 7 (destruct ptrs as [|? ptrs]; [done|]). cbn in Hl. lia.
Qed.

Lemma mk_var_entry_ok ptrs : (length ptrs <= 3)%nat ->
  exists e, mk_var_entry ptrs = Ok e /\
    var_view e = map Some ptrs ++ replicate (3 - length ptrs) None.
Proof.
  intros Hl. unfold mk_var_entry, SBAT_VAR_COLUMNS. case_if; [unfold zlen in *; lia|].
  eexists. split; [done|].
  do 4 (destruct ptrs as [|? ptrs]; [done|]). cbn in Hl. lia.
Qed.

(** ** The size of the table is bounded by the size of the data *)
Lemma strings_size_split p l : strings_size (split p l) = zlen l + 1.
Proof.
  induction l as [|b l IH]; [done|]. cbn [split]. case_if; cbn [strings_size fold_right];
    [fold (strings_size (split p l)); zlia|].
  pose proof (split_nonnil p l). destruct (split p l) as [|w ws]; [done|].
  cbn [strings_size fold_right] in *. zlia.
Qed.

Lemma strings_size_take k fs : strings_size (take k fs) <= strings_size fs.
Proof.
  revert k. induction fs as [|f fs IH]; intros [|k]; cbn; try lia.
  - fold (strings_size fs). pose proof (strings_size_nonneg fs). zlia.
  - fold (strings_size fs) (strings_size (take k fs)). specialize (IH k). lia.
Qed.

Lemma strings_size_fields k l : strings_size (csv_fields k l) <= zlen l + 1.
Proof.
  unfold csv_fields. case_if; [|cbn; zlia].
  pose proof (strings_size_take k (split is_comma l)). rewrite strings_size_split in *. done.
Qed.

Definition total (ls : list (list Z)) : Z := fold_right (fun l n => zlen l + n) 0 ls.
Definition pending (st : scan) : Z := match st with In_line acc => zlen acc | _ => 0 end.

Lemma csv_lines_total st B :
  total (csv_lines st B) <= pending st + zlen B /\
  (st <> In_line [] -> Forall (fun l => 1 <= zlen l) (csv_lines st B)).
Proof.
  assert (Hne : forall acc : list Z, acc <> [] -> 1 <= zlen acc) by
    (intros [|? acc] ?; [done|]; zlia).
  revert st. induction B as [|b B IH]; intros st; cbn [csv_lines].
  { destruct st as [| |acc]; cbn; [split; [zlia|constructor]..|]. split; [zlia|].
    intros. repeat constructor. apply Hne. by intros ->. }
  destruct (IH Head) as [IHh1 IHh2], (IH Skip) as [IHs1 IHs2], (IH (In_line [b])) as [IHb1 IHb2].
  destruct st as [| |acc]; cbn [pending] in *; repeat case_if;
    try (split; [cbn; zlia|intros; try constructor; auto; fail]).
  - split; [cbn; zlia|]. intros. repeat constructor. apply Hne. by intros ->.
  - split; [cbn [total fold_right]; fold (total (csv_lines Head B)); zlia|].
    intros. constructor; [apply Hne; by intros ->|]. by apply IHh2.
  - destruct (IH (In_line (acc ++ [b]))) as [IHa1 IHa2]. cbn [pending] in *. split; [zlia|].
    intros. apply IHa2. by destruct acc.
Qed.

Lemma rows_size_total entrysz k ls :
  0 <= entrysz -> Forall (fun l => 1 <= zlen l) ls ->
  rows_size entrysz k ls <= (entrysz + 10) * total ls.
Proof.
  intros He. induction 1 as [|l ls Hl _ IH]; cbn; [lia|].
  fold (rows_size entrysz k ls) (total ls) in *. pose proof (strings_size_fields k l).
  unfold sizeof_ptr. nia.
Qed.

Lemma rows_size_bound entrysz k B e :
  0 <= entrysz <= 48 -> zlen B + 1 < 2 ^ 32 -> rows_size entrysz k (csv_text B e) < 2 ^ 64.
Proof.
  intros He HB. unfold csv_text.
  assert (Hd : zlen (if has_bom B e then drop 3 B else B) <= zlen B).
  { case_if; [|lia]. unfold zlen. rewrite length_drop. lia. }
  destruct (csv_lines_total Head (if has_bom B e then drop 3 B else B)) as [Ht Hn].
  pose proof (rows_size_total entrysz k _ ltac:(lia) (Hn ltac:(discriminate))). cbn [pending] in Ht.
  assert (total (csv_lines Head (if has_bom B e then drop 3 B else B)) < 2 ^ 32) by lia. nia.
Qed.

Lemma rows_size_split entrysz k (lines : list (list Z)) :
  rows_size entrysz k lines
  = (sizeof_ptr + entrysz) * zlen lines
    + fold_right (fun l n => strings_size (csv_fields k l) + n) 0 lines.
Proof.
  induction lines as [|l ls IH]; [cbn; rewrite (zlen_nil (A := list Z)); lia|]. cbn [rows_size fold_right].
  fold (rows_size entrysz k ls). rewrite IH, zlen_cons. lia.
Qed.

(** The computed size is exactly what the copies need: no byte is written
    outside the allocation. *)
Lemma table_ok {E} (mk : list Z -> res E) view k entrysz m lines rows :
  (forall ptrs, (length ptrs <= k)%nat ->
     exists e, mk ptrs = Ok e /\ view e = map Some ptrs ++ replicate (k - length ptrs) None) ->
  Forall2 (row_ok k m) lines rows -> 0 <= entrysz ->
  exists tab entries,
    copy_rows mk m rows (replicate (Z.to_nat (rows_size entrysz k lines)) 0)
      ((sizeof_ptr + entrysz) * zlen rows) [] = Ok (tab, entries) /\
    zlen tab = rows_size entrysz k lines /\
    Forall2 (fields_at k tab) (map (csv_fields k) lines) (map view entries).
Proof.
  intros Hmk HF He. rewrite rows_size_split.
  assert (Hr : zlen rows = zlen lines) by (unfold zlen; by rewrite (Forall2_length HF)).
  assert (H0 : 0 <= fold_right (fun l n => strings_size (csv_fields k l) + n) 0 lines).
  { clear. induction lines as [|l ls IH]; cbn; [lia|]. pose proof (strings_size_nonneg (csv_fields k l)). lia. }
  assert (Hz : 0 <= (sizeof_ptr + entrysz) * zlen lines) by (unfold sizeof_ptr; zlia).
  rewrite Z2Nat.inj_add by lia. rewrite replicate_add, Hr.
  set (hdr := replicate (Z.to_nat ((sizeof_ptr + entrysz) * zlen lines)) 0).
  assert (Hh : (sizeof_ptr + entrysz) * zlen lines = zlen hdr)
    by (unfold hdr, zlen in *; rewrite length_replicate; lia).
  rewrite Hh. edestruct (copy_rows_ok mk view k Hmk m lines rows hdr) as (tab & es & -> & Hl & Hes);
    [done| |]; cycle 1.
  { exists (hdr ++ tab), es. split; [done|]. split.
    - unfold zlen in *. rewrite length_app, Hl, length_replicate. lia.
    - rewrite Forall2_fmap. exact Hes. }
  unfold zlen. rewrite length_replicate. lia.
Qed.

Lemma rows_whole k p B' e' q lines rows :
  Forall2 (row_ok k (p ++ B' ++ [e'])) lines rows ->
  Forall2 (row_ok k (p ++ B' ++ e' :: q)) lines rows.
Proof.
  apply Forall2_impl. intros l r (offs & Ho & ?). exists offs. split; [|done].
  eapply Forall2_impl; [|exact Ho]. intros o f Hc. apply (cstring_app_r _ q) in Hc.
  by rewrite <- !app_assoc in Hc.
Qed.

Lemma parse_sbat_section_ok csv_alloc p B e q :
  (forall n, csv_alloc n = true) -> is_nl e = false -> B <> [] -> zlen B + 1 < 2 ^ 32 ->
  exists m',
    length m' = length (p ++ B ++ e :: q) /\
    match section_rows B e with
    | None => parse_sbat_section csv_alloc true (p ++ B ++ e :: q) (zlen p) (zlen B + 1)
              = Ok (m', EFI_INVALID_PARAMETER, None)
    | Some rows => exists tab entries,
        parse_sbat_section csv_alloc true (p ++ B ++ e :: q) (zlen p) (zlen B + 1)
        = Ok (m', EFI_SUCCESS, Some (tab, entries)) /\
        Forall2 (fields_at 6 tab) rows (map section_view entries)
    end.
Proof.
  intros Ha He HB Hlt. unfold parse_sbat_section, section_rows, parse_rows. 
  replace (zlen B + 1 =? 0) with false by (symmetry; apply Z.eqb_neq; zlia).
  replace (zlen p + (zlen B + 1) - 1) with (zlen p + zlen B) by lia.
  destruct (parse_csv_data_ok csv_alloc SBAT_SECTION_COLUMNS p B e q [])
    as (B' & e' & rows & -> & Hl & HF); auto; [done|]. rewrite bind_Ok. cbn [EFI_ERROR app].
  exists (p ++ B' ++ e' :: q). split; [by rewrite !length_app, Hl|].
  apply (rows_whole _ _ _ _ q) in HF as HF'.
  pose proof (rows_size_bound sizeof_sbat_section_entry 6 B e) as Hb.
  unfold sizeof_sbat_section_entry in *.
  rewrite (measure_rows_ok _ 48 6 _ (csv_text B e)) by (done || lia). rewrite bind_Ok, Z.add_0_l.
  destruct (forallb _ (csv_text B e)); [|done].
  destruct (table_ok mk_section_entry section_view 6 48 (p ++ B' ++ e' :: q) (csv_text B e) rows)
    as (tab & es & Hc & _ & Hes); auto using mk_section_entry_ok; [lia|]. unfold sizeof_ptr in *.
  case_if.
  - destruct rows; [|zlia]. inversion HF. exists [], []. auto.
  - cbn [negb]. replace (8 * zlen rows + 48 * zlen rows) with ((8 + 48) * zlen rows) by lia.
    rewrite Hc, bind_Ok. eauto.
Qed.

Lemma parse_sbat_var_data_ok csv_alloc p B e q :
  (forall n, csv_alloc n = true) -> is_nl e = false -> B <> [] -> zlen B + 1 < 2 ^ 32 ->
  exists m',
    length m' = length (p ++ B ++ e :: q) /\
    match var_rows B e with
    | None => parse_sbat_var_data csv_alloc true (p ++ B ++ e :: q) (zlen p) (zlen B + 1)
              = Ok (m', EFI_INVALID_PARAMETER, None)
    | Some rows => exists tab entries,
        parse_sbat_var_data csv_alloc true (p ++ B ++ e :: q) (zlen p) (zlen B + 1)
        = Ok (m', EFI_SUCCESS, Some (tab, entries)) /\
        Forall2 (fields_at 3 tab) rows (map var_view entries)
    end.
Proof.
  intros Ha He HB Hlt. unfold parse_sbat_var_data, var_rows, parse_rows.
  replace (zlen B + 1 =? 0) with false by (symmetry; apply Z.eqb_neq; zlia).
  replace (zlen p + (zlen B + 1) - 1) with (zlen p + zlen B) by lia.
  destruct (parse_csv_data_ok csv_alloc SBAT_VAR_COLUMNS p B e q [])
    as (B' & e' & rows & -> & Hl & HF); auto; [done|]. rewrite bind_Ok. cbn [EFI_ERROR app].
  exists (p ++ B' ++ e' :: q). split; [by rewrite !length_app, Hl|].
  apply (rows_whole _ _ _ _ q) in HF as HF'.
  pose proof (rows_size_bound sizeof_sbat_var_entry 3 B e) as Hb.
  unfold sizeof_sbat_var_entry in *.
  rewrite (measure_rows_ok _ 40 3 _ (csv_text B e)) by (done || lia). rewrite bind_Ok, Z.add_0_l.
  destruct (forallb _ (csv_text B e)); [|done].
  destruct (table_ok mk_var_entry var_view 3 40 (p ++ B' ++ e' :: q) (csv_text B e) rows)
    as (tab & es & Hc & _ & Hes); auto using mk_var_entry_ok; [lia|]. unfold sizeof_ptr in *.
  cbn [negb]. replace (40 * zlen rows + 8 * zlen rows) with ((8 + 40) * zlen rows) by lia.
  rewrite Hc, bind_Ok. eauto.
Qed.

(** On a section [B ++ [e]] whose last byte is not a line end (shim
    appends a NUL), with every allocation successful, parse_sbat_section returns
    without leaving the section or the table it allocates; it succeeds exactly
    when every line has six non-empty fields, and then the entries point at the
    fields, in order. *)
Theorem parse_sbat_section_correct csv_alloc p B e q :
  (forall n, csv_alloc n = true) -> is_nl e = false -> B <> [] -> zlen B + 1 < 2 ^ 32 ->
  exists m',
    length m' = length (p ++ B ++ e :: q) /\
    match section_rows B e with
    | None => parse_sbat_section csv_alloc true (p ++ B ++ e :: q) (zlen p) (zlen B + 1)
              = Ok (m', EFI_INVALID_PARAMETER, None)
    | Some rows => exists tab entries,
        parse_sbat_section csv_alloc true (p ++ B ++ e :: q) (zlen p) (zlen B + 1)
        = Ok (m', EFI_SUCCESS, Some (tab, entries)) /\
        Forall2 (fields_at 6 tab) rows (map section_view entries)
    end.
Proof. apply parse_sbat_section_ok. Qed.

(** "a,1,b,c,d,e\n" *)
Definition sample_section : list Z := [97; 44; 49; 44; 98; 44; 99; 44; 100; 44; 101; 10].

Lemma parse_sbat_section_correct_witness :
  exists m', length m' = length (sample_section ++ [0]) /\
    exists tab entries,
      parse_sbat_section (fun _ => true) true (sample_section ++ [0]) 0 13
      = Ok (m', EFI_SUCCESS, Some (tab, entries)) /\
      Forall2 (fields_at 6 tab) [[[97]; [49]; [98]; [99]; [100]; [101]]] (map section_view entries).
Proof.
  apply (parse_sbat_section_correct (fun _ => true) [] sample_section 0 []); done.
Defined.

(** ** The verdict *)
Lemma fields_at_two k tab fs opts :
  fields_at k tab fs opts -> (2 <= length fs)%nat ->
  exists s0 s1 rest f0 f1 fr, opts = Some s0 :: Some s1 :: rest /\ fs = f0 :: f1 :: fr /\
    cstring tab s0 f0 /\ cstring tab s1 f1.
Proof.
  intros (ptrs & HF & ->) Hl.
  destruct HF as [|s0 f0 ptrs fs H0 HF]; [cbn in Hl; lia|].
  destruct HF as [|s1 f1 ptrs fs H1 HF]; [cbn in Hl; lia|].
  cbn [map app]. do 6 eexists. split_and!; first [eassumption|reflexivity].
Qed.

Lemma cstring_nonul m s str : cstring m s str -> nonul str.
Proof. by intros (?&?&_&_&?). Qed.

Section verdict.
Context (tab vtab : list Z).

Lemma verify_single_entry_ok entry v fs vs :
  fields_at 6 tab fs (section_view entry) -> fields_at 3 vtab vs (var_view v) ->
  (2 <= length fs)%nat -> (2 <= length vs)%nat ->
  verify_single_entry tab entry vtab v
  = Ok (if same_name fs vs
        then (if generation vs <=? generation fs then EFI_SUCCESS else EFI_SECURITY_VIOLATION, true)
        else (EFI_SUCCESS, false)).
Proof.
  intros H1 H2 L1 L2.
  apply fields_at_two in H1 as (s0 & s1 & ? & f0 & f1 & fr & E1 & -> & C0 & C1); [|done].
  apply fields_at_two in H2 as (t0 & t1 & ? & g0 & g1 & gr & E2 & -> & D0 & D1); [|done].
  unfold section_view in E1. unfold var_view in E2. injection E1 as E10 E11 _. injection E2 as E20 E21 _.
  unfold verify_single_entry. rewrite E10, E11, E20, E21.
  rewrite (strcmp_ok _ _ _ _ _ _ C0 D0), bind_Ok. unfold same_name, generation. cbn [nth].
  destruct (strdiff f0 g0 =? 0) eqn:Ed; bool_to_prop.
  - apply strdiff_zero in Ed; [|by eapply cstring_nonul..]. rewrite bool_decide_true by done.
    unfold atoi. rewrite (AsciiStrDecimalToUintn_ok _ _ _ C1), (AsciiStrDecimalToUintn_ok _ _ _ D1).
    rewrite !bind_Ok. rewrite Z.leb_antisym. by case_if.
  - rewrite bool_decide_false; [done|]. intros ->. by rewrite strdiff_refl in Ed.
Qed.

Lemma verify_entry_vars_ok entry fs vars vss :
  fields_at 6 tab fs (section_view entry) -> (2 <= length fs)%nat ->
  Forall2 (fields_at 3 vtab) vss (map var_view vars) -> Forall (fun vs => (2 <= length vs)%nat) vss ->
  verify_entry_vars tab entry vtab vars
  = Ok (if not_revoked vss fs then EFI_SUCCESS else EFI_SECURITY_VIOLATION).
Proof.
  intros Hf Lf HF HL. revert vars HF. induction HL as [|vs vss Lv _ IH]; intros [|v vars] HF;
    inversion HF; subst; [done|]. cbn [verify_entry_vars]. unfold not_revoked in *. cbn [List.find].
  rewrite (verify_single_entry_ok _ _ fs vs) by done. rewrite bind_Ok.
  destruct (same_name fs vs); [by destruct (generation vs <=? generation fs)|]. cbn [EFI_ERROR]. auto.
Qed.

Lemma verify_sbat_helper_ok entries vars fss vss :
  Forall2 (fields_at 6 tab) fss (map section_view entries) -> Forall (fun fs => (2 <= length fs)%nat) fss ->
  Forall2 (fields_at 3 vtab) vss (map var_view vars) -> Forall (fun vs => (2 <= length vs)%nat) vss ->
  verify_sbat_helper (vtab, vars) tab entries
  = Ok (if sbat_check vss fss then EFI_SUCCESS else EFI_SECURITY_VIOLATION).
Proof.
  intros Hf Lf Hv Lv. unfold verify_sbat_helper, sbat_check. destruct vars as [|v vars].
  - inversion Hv; subst. replace (forallb _ _) with true; [done|]. symmetry. by apply forallb_forall.
  - set (vars' := v :: vars) in *. clearbody vars'. revert entries Hf.
    induction Lf as [|fs fss Lfs _ IH]; intros [|e entries] Hf; inversion Hf; subst; [done|].
    cbn [verify_sbat_entries forallb]. rewrite (verify_entry_vars_ok _ fs _ vss) by done. rewrite bind_Ok.
    destruct (not_revoked vss fs); cbn; auto.
Qed.
End verdict.

Lemma parse_rows_lengths required k lines rows :
  2 <= required -> parse_rows required k lines = Some rows ->
  Forall (fun fs => (2 <= length fs)%nat) rows.
Proof.
  intros Hr. unfold parse_rows. case_if; [|done]. intros [= <-].
  apply Forall_forall. intros fs Hin. apply in_map_iff in Hin as (l & <- & Hl).
  rewrite forallb_forall in *. match goal with H : forall x, In x lines -> _ |- _ => specialize (H l Hl) end.
  unfold row_accept, zlen in *. bool_to_prop. lia.
Qed.

(** The parsed variable [vars] holds the rows [vss]. *)
Definition sbat_var_holds (vars : list Z * list sbat_var_entry) (vss : list (list (list Z))) : Prop :=
  Forall2 (fields_at 3 (fst vars)) vss (map var_view (snd vars)) /\
  Forall (fun vs => (2 <= length vs)%nat) vss.

(** The verdict on the bytes of a section. *)
Definition sbat_section_verdict (vss : list (list (list Z))) (B : list Z) : EFI_STATUS :=
  match vss with
  | [] => EFI_SUCCESS
  | _ => match section_rows B 0 with
         | None => EFI_INVALID_PARAMETER
         | Some fss => if sbat_check vss fss then EFI_SUCCESS else EFI_SECURITY_VIOLATION
         end
  end.

Lemma verify_sbat_section_ok csv_alloc in_protocol vars vss B m base :
  (forall n, csv_alloc n = true) -> B <> [] -> zlen B + 1 < 2 ^ 32 -> sbat_var_holds vars vss ->
  rdn m base (zlen B) = Ok B ->
  verify_sbat_section true csv_alloc true in_protocol vars (Some (m, base)) (zlen B)
  = Ok (sbat_section_verdict vss B).
Proof.
  intros Ha HB LB [HF HL] Hrd. destruct vars as [vtab vars]. unfold verify_sbat_section, sbat_section_verdict.
  cbn [fst snd] in *. destruct vars as [|v0 vars0] eqn:Ev; [by inversion HF|]. rewrite <- Ev in *.
  destruct vss as [|vs0 vss0] eqn:Evs; [rewrite Ev in HF; inversion HF|]. rewrite <- Evs in *.
  clear v0 vars0 Ev vs0 vss0 Evs.
  replace (zlen B =? 0) with false by (symmetry; destruct B; [done|]; apply Z.eqb_neq; zlia).
  unfold checked_add. rewrite bool_decide_true by zlia. rewrite u64_small by zlia. cbn [negb].
  rewrite Hrd, bind_Ok.
  destruct (parse_sbat_section_ok csv_alloc [] B 0 []) as (m2 & _ & Hs); auto. cbn [app] in Hs.
  rewrite (zlen_nil (A := Z)) in Hs.
  destruct (section_rows B 0) as [fss|] eqn:Es; [|by rewrite Hs].
  destruct Hs as (tab & entries & -> & HFs). rewrite bind_Ok.
  apply verify_sbat_helper_ok; auto; eapply parse_rows_lengths; try eassumption; by vm_compute.
Qed.

(** C9. SBAT end to end, from the text of the SbatLevel variable and the bytes
    of a .sbat section (each followed by the NUL shim puts there): when the
    variable parses, the verdict on the section is EFI_INVALID_PARAMETER for a
    malformed section and otherwise EFI_SUCCESS or EFI_SECURITY_VIOLATION
    according to [sbat_check] (see [sbat_section_verdict]); an empty variable
    accepts everything.  No access leaves a buffer. *)
Theorem sbat_verdict_correct csv_alloc in_protocol V vq B p q vss :
  (forall n, csv_alloc n = true) ->
  V <> [] -> zlen V + 1 < 2 ^ 32 -> B <> [] -> zlen B + 1 < 2 ^ 32 ->
  var_rows V 0 = Some vss ->
  exists m' vars,
    parse_sbat_var_data csv_alloc true (V ++ 0 :: vq) 0 (zlen V + 1) = Ok (m', EFI_SUCCESS, Some vars) /\
    verify_sbat_section true csv_alloc true in_protocol vars (Some (p ++ B ++ q, zlen p)) (zlen B)
    = Ok (sbat_section_verdict vss B).
Proof.
  intros Ha HV LV HB LB Hv.
  destruct (parse_sbat_var_data_ok csv_alloc [] V 0 vq) as (m' & _ & Hp); auto. rewrite Hv in Hp.
  destruct Hp as (vtab & vars & Hp & HF). exists m', (vtab, vars). split; [exact Hp|].
  apply verify_sbat_section_ok; auto; [|by apply rdn_app_mid].
  split; [done|]. eapply parse_rows_lengths; try eassumption; by vm_compute.
Qed.

(** The variable "a,2\n" against a section whose component "a" has generation 1. *)
Lemma sbat_verdict_correct_witness :
  exists m' vars,
    parse_sbat_var_data (fun _ => true) true ([97; 44; 50; 10] ++ [0]) 0 5 = Ok (m', EFI_SUCCESS, Some vars) /\
    verify_sbat_section true (fun _ => true) true false vars (Some ([7] ++ sample_section ++ [], 1)) 12
    = Ok EFI_SECURITY_VIOLATION.
Proof.
  apply (sbat_verdict_correct (fun _ => true) false [97; 44; 50; 10] [] sample_section [7] []
           [[[97]; [50]]]); done.
Defined.

(** A .sbat section is mandatory once there is a revocation list: an image
    without one is refused, except through the protocol. *)
Theorem sbat_section_mandatory ba ca ta in_protocol vtab v vars base :
  verify_sbat_section ba ca ta in_protocol (vtab, v :: vars) None 0
  = Ok (if in_protocol then EFI_SUCCESS else EFI_SECURITY_VIOLATION) /\
  verify_sbat_section ba ca ta in_protocol (vtab, v :: vars) (Some base) 0
  = Ok (if in_protocol then EFI_SUCCESS else EFI_SECURITY_VIOLATION).
Proof. by destruct base. Qed.

(** Generations are compared modulo 2^16: verify_single_entry on a component
    and a revocation of the same name, with decimal generations [g] and [vg],
    compares their low sixteen bits.  (So generation 65536 is refused by a level
    that asks for generation 1.) *)
Theorem generation_wraps tab entry vtab v name g rest vg vrest :
  fields_at 6 tab (name :: g :: rest) (section_view entry) ->
  fields_at 3 vtab (name :: vg :: vrest) (var_view v) ->
  Forall (fun b => is_digit b = true) g -> Forall (fun b => is_digit b = true) vg ->
  number 0 g < 2 ^ 64 -> number 0 vg < 2 ^ 64 ->
  verify_single_entry tab entry vtab v
  = Ok (if number 0 vg mod 2 ^ 16 <=? number 0 g mod 2 ^ 16 then EFI_SUCCESS else EFI_SECURITY_VIOLATION, true).
Proof.
  intros Hf Hv Hg Hvg Hn Hvn.
  rewrite (verify_single_entry_ok tab vtab entry v (name :: g :: rest) (name :: vg :: vrest))
    by (done || cbn [length]; lia).
  unfold same_name, generation. cbn [nth]. rewrite bool_decide_true by done. by rewrite !atoi_spec_digits.
Qed.

(** "a" with generation 65536 against a level that asks for "a" with 1. *)
Definition wrap_tab : list Z := [97; 0; 54; 53; 53; 51; 54; 0].
Definition wrap_entry : sbat_section_entry :=
  {| component_name := Some 0; component_generation := Some 2; vendor_name := None; vendor_package_name := None;
     vendor_version := None; vendor_url := None |}.
Definition wrap_var : sbat_var_entry :=
  {| var_component_name := Some 0; var_component_generation := Some 2; sbat_datestamp := None |}.

Lemma generation_wraps_witness :
  verify_single_entry wrap_tab wrap_entry [97; 0; 49; 0] wrap_var = Ok (EFI_SECURITY_VIOLATION, true).
Proof.
  apply (generation_wraps wrap_tab wrap_entry [97; 0; 49; 0] wrap_var [97] [54; 53; 53; 51; 54] [] [49] []);
    [| |repeat constructor|repeat constructor|done|done]; exists [0; 2]; (split; [|done]).
  - constructor; [|constructor; [|constructor]];
      [exists [], [54; 53; 53; 51; 54; 0]|exists [97; 0], []]; (split; [done|]); (split; [done|]); repeat constructor; lia.
  - constructor; [|constructor; [|constructor]];
      [exists [], [49; 0]|exists [97; 0], []]; (split; [done|]); (split; [done|]); repeat constructor; lia.
Defined.

(** ** Comparing levels *)
Definition no_comma (w : list Z) : Prop := Forall (fun b => is_comma b = false) w.

Lemma nth_field_word fuel a w r limit n :
  nonul w -> no_comma w -> n <> 0 -> zlen a + zlen w <= limit -> (length w <= fuel)%nat ->
  nth_sbat_field_loop fuel (a ++ w ++ r) 0 limit (zlen a) n
  = nth_sbat_field_loop (fuel - length w) (a ++ w ++ r) 0 limit (zlen a + zlen w) n.
Proof.
  intros Hn Hc Hn0. revert fuel a. induction w as [|b w IH]; intros fuel a Hl Hf.
  { cbn [length]. by rewrite (zlen_nil (A := Z)), Z.add_0_r, Nat.sub_0_r. }
  inversion Hn; subst. inversion Hc; subst. destruct fuel as [|f]; cbn [length] in *; [lia|].
  cbn [nth_sbat_field_loop]. case_if; [|zlia]. cbn [app]. rewrite Z.add_0_l, rd_at, bind_Ok.
  unfold is_comma in *. replace (b =? 0) with false by (symmetry; solve_bool).
  replace (n =? 0) with false by (symmetry; solve_bool).
  replace (b =? 44) with false by congruence.
  specialize (IH ltac:(done) ltac:(done) f (a ++ [b])). rewrite <- !app_assoc in IH. cbn [app] in IH.
  rewrite zlen_app in IH. change (zlen [b]) with 1 in IH. rewrite IH by (zlia || lia).
  rewrite zlen_cons. f_equal. lia.
Qed.

Lemma nth_field_comma fuel a r limit n :
  n <> 0 -> zlen a < limit ->
  nth_sbat_field_loop (S fuel) (a ++ 44 :: r) 0 limit (zlen a) n
  = nth_sbat_field_loop fuel (a ++ 44 :: r) 0 limit (zlen a + 1) (n - 1).
Proof.
  intros Hn Hl. cbn [nth_sbat_field_loop]. case_if; [|lia]. rewrite Z.add_0_l, rd_at, bind_Ok.
  cbn [Z.eqb Pos.eqb]. by replace (n =? 0) with false by (symmetry; solve_bool).
Qed.

Lemma nth_field_zero fuel m limit i : 0 <= i -> limit <= zlen m ->
  nth_sbat_field_loop (S fuel) m 0 limit i 0 = Ok i.
Proof.
  intros Hi Hl. cbn [nth_sbat_field_loop]. rewrite Z.add_0_l. case_if; [|done].
  destruct (rd_in_range m i) as [b ->]; [lia|]. rewrite bind_Ok. by case_if.
Qed.

(** The start of the second and third fields of "w1,w2,rest". *)
Lemma nth_sbat_field_1 w1 w2 r limit :
  nonul w1 -> no_comma w1 -> zlen w1 + 1 + zlen w2 + 1 <= limit -> limit <= zlen (w1 ++ 44 :: w2 ++ 44 :: r) ->
  nth_sbat_field (w1 ++ 44 :: w2 ++ 44 :: r) 0 limit 1 = Ok (zlen w1 + 1).
Proof.
  intros H1 H2 Hl Hlm. unfold nth_sbat_field. set (m := w1 ++ 44 :: w2 ++ 44 :: r) in *.
  pose proof (nth_field_word (S (S (length m))) [] w1 (44 :: w2 ++ 44 :: r) limit 1 H1 H2
    ltac:(lia) ltac:(zlia) ltac:(unfold m; rewrite length_app; lia)) as Hw.
  cbn [app] in Hw. rewrite (zlen_nil (A := Z)), Z.add_0_l in Hw. fold m in Hw. rewrite Hw. clear Hw.
  replace (S (S (length m)) - length w1)%nat with (S (S (length m - length w1))) by
    (unfold m; rewrite length_app; lia).
  unfold m at 2. rewrite nth_field_comma by zlia. rewrite nth_field_zero by first [exact Hlm|zlia]. done.
Qed.

Lemma nth_sbat_field_2 w1 w2 r limit :
  nonul w1 -> no_comma w1 -> nonul w2 -> no_comma w2 ->
  zlen w1 + 1 + zlen w2 + 1 <= limit -> limit <= zlen (w1 ++ 44 :: w2 ++ 44 :: r) ->
  nth_sbat_field (w1 ++ 44 :: w2 ++ 44 :: r) 0 limit 2 = Ok (zlen w1 + 1 + zlen w2 + 1).
Proof.
  intros H1 H2 H3 H4 Hl Hlm. unfold nth_sbat_field. set (m := w1 ++ 44 :: w2 ++ 44 :: r) in *.
  pose proof (nth_field_word (S (S (length m))) [] w1 (44 :: w2 ++ 44 :: r) limit 2 H1 H2
    ltac:(lia) ltac:(zlia) ltac:(unfold m; rewrite length_app; lia)) as Hw.
  cbn [app] in Hw. rewrite (zlen_nil (A := Z)), Z.add_0_l in Hw. fold m in Hw. rewrite Hw. clear Hw.
  assert (Hlen : length m = (length w1 + S (length w2 + S (length r)))%nat)
    by (unfold m; rewrite length_app; cbn; rewrite length_app; cbn; lia).
  replace (S (S (length m)) - length w1)%nat with (S (S (length m - length w1))) by lia.
  unfold m at 2. rewrite nth_field_comma by zlia.
  pose proof (nth_field_word (S (length m - length w1)) (w1 ++ [44]) w2 (44 :: r) limit 1) as Hw2.
  rewrite <- !app_assoc in Hw2. cbn [app] in Hw2. rewrite zlen_app in Hw2. change (zlen [44]) with 1 in Hw2.
  change (2 - 1) with 1. rewrite Hw2 by (done || lia).
  replace (w1 ++ 44 :: w2 ++ 44 :: r) with ((w1 ++ 44 :: w2) ++ 44 :: r) by by rewrite <- app_assoc.
  replace (zlen w1 + 1 + zlen w2) with (zlen (w1 ++ 44 :: w2)) by zlia.
  replace (S (length m - length w1) - length w2)%nat with (S (S (length r + 1))) by lia.
  rewrite nth_field_comma by zlia. rewrite nth_field_zero by (zlia || (unfold m in Hlm; zlia)).
  f_equal. 
Qed.

(** A level "sbat,version,rest". *)
Definition level (version rest : list Z) : list Z := SBAT_VAR_SIG ++ version ++ 44 :: rest.

(** The level in firmware is kept: its version is newer (longer, or of the
    same length and greater), or its datestamp is not older. *)
Definition level_kept (cv cd nv nd : list Z) : bool :=
  (zlen nv <? zlen cv) ||
  (if zlen cv =? zlen nv then 0 <? strdiff cv nv else false) ||
  (0 <=? strdiff (take 10 cd) (take 10 nd)).

Lemma level_fields v d q :
  nonul v -> no_comma v -> nonul d ->
  let m := level v d ++ 0 :: q in
  (forall limit, zlen v + 6 <= limit <= zlen m ->
     nth_sbat_field m 0 limit 1 = Ok 5 /\ nth_sbat_field m 0 limit 2 = Ok (6 + zlen v)) /\
  cstring m 0 (level v d) /\ cstring m 5 (v ++ 44 :: d) /\ cstring m (6 + zlen v) d.
Proof.
  intros Hv Hc Hd m.
  assert (Hm : m = [115; 98; 97; 116] ++ 44 :: v ++ 44 :: d ++ 0 :: q)
    by (unfold m, level, SBAT_VAR_SIG; by rewrite <- !app_assoc).
  assert (H1 : nonul [115; 98; 97; 116]) by (repeat constructor; lia).
  assert (H2 : no_comma [115; 98; 97; 116]) by (repeat constructor).
  assert (Hvd : nonul (v ++ 44 :: d)) by (apply Forall_app; split; [done|constructor; [lia|done]]).
  split; [|split_and!].
  - intros limit Hl. rewrite Hm in *. split.
    + rewrite nth_sbat_field_1 by (done || (change (zlen [115; 98; 97; 116]) with 4; lia)). done.
    + rewrite nth_sbat_field_2 by (done || (change (zlen [115; 98; 97; 116]) with 4; lia)).
      change (zlen [115; 98; 97; 116]) with 4. f_equal. lia.
  - exists [], q. split; [done|]. split; [done|]. unfold level. apply Forall_app. split; [|done].
    repeat constructor; lia.
  - exists SBAT_VAR_SIG, q. unfold m, level. by rewrite <- app_assoc.
  - exists (SBAT_VAR_SIG ++ v ++ [44]), q. unfold m, level. rewrite <- !app_assoc. split; [done|].
    split; [|done]. rewrite !zlen_app. change (zlen SBAT_VAR_SIG) with 5. change (zlen [44]) with 1. lia.
Qed.

Lemma take_prefix_app {A} (l k : list A) n : n = length l -> take n (l ++ k) = l.
Proof. intros ->. apply take_app_length. Qed.

Lemma version_newer cv cd nv nd m1 m2 :
  cstring m1 5 (cv ++ 44 :: cd) -> cstring m2 5 (nv ++ 44 :: nd) -> zlen nv < 2 ^ 31 ->
  (if zlen nv <? zlen cv then Ok true
   else if zlen cv =? zlen nv then c ← strncmp m1 5 m2 5 (u64 (zlen nv)); Ok (0 <? c) else Ok false)
  = Ok ((zlen nv <? zlen cv) || (if zlen cv =? zlen nv then 0 <? strdiff cv nv else false)).
Proof.
  intros H1 H2 Hl. case_if; [done|]. cbn [orb]. case_if; [|done].
  rewrite u64_small by zlia. erewrite strncmp_ok by (eassumption || zlia). rewrite bind_Ok.
  unfold zlen in *. by rewrite !take_prefix_app by lia.
Qed.

Lemma preserve_sbat_ok cv cd nv nd cq nq attributes :
  nonul cv -> no_comma cv -> nonul cd -> nonul nv -> no_comma nv -> nonul nd ->
  zlen cv < 2 ^ 31 -> zlen nv < 2 ^ 31 ->
  preserve_sbat_uefi_variable (level cv cd ++ 0 :: cq) (zlen (level cv cd)) attributes
    (level nv nd ++ 0 :: nq)
  = Ok (check_sbat_var_attributes attributes && (zlen SBAT_VAR_ORIGINAL <=? zlen (level cv cd)) &&
        level_kept cv cd nv nd).
Proof.
  intros H1 H2 H3 H4 H5 H6 L1 L2.
  destruct (level_fields cv cd cq H1 H2 H3) as (Fc & C0 & C5 & Cd).
  destruct (level_fields nv nd nq H4 H5 H6) as (Fn & N0 & N5 & Nd).
  assert (Lc : zlen (level cv cd) = zlen cv + zlen cd + 6)
    by (unfold level, SBAT_VAR_SIG; zlen_simpl; lia).
  assert (Ln : zlen (level nv nd) = zlen nv + zlen nd + 6)
    by (unfold level, SBAT_VAR_SIG; zlen_simpl; lia).
  destruct (Fc (zlen (level cv cd))) as [Fc1 Fc2]; [zlia|].
  destruct (Fn (zlen (level nv nd) + 1)) as [Fn1 Fn2]; [zlia|].
  unfold preserve_sbat_uefi_variable. case_if; [by rewrite Heqb|]. rewrite Heqb. cbn [andb].
  rewrite Z.leb_antisym. case_if; [done|]. cbn [negb andb].
  assert (Hs : cstring (literal SBAT_VAR_SIG) 0 SBAT_VAR_SIG)
    by (exists [], []; split; [done|]; split; [done|]; repeat constructor; lia).
  rewrite (strncmp_ok _ _ _ _ _ _ _ C0 Hs) by (change (zlen SBAT_VAR_SIG) with 5; lia). rewrite bind_Ok.
  change (Z.to_nat (zlen SBAT_VAR_SIG)) with (length SBAT_VAR_SIG).
  replace (take (length SBAT_VAR_SIG) (level cv cd)) with SBAT_VAR_SIG
    by (symmetry; by apply take_prefix_app).
  rewrite take_ge, strdiff_refl by done. cbn [Z.eqb negb].
  rewrite Fc1, bind_Ok, (strlen_ok _ _ _ N0), bind_Ok, Fn1, bind_Ok, Fc2, bind_Ok, Fn2, bind_Ok.
  unfold ptr_len. replace (6 + zlen cv - 5 - 1) with (zlen cv) by lia.
  replace (6 + zlen nv - 5 - 1) with (zlen nv) by lia. rewrite !i32_small by zlia.
  rewrite (version_newer cv cd nv nd) by done. rewrite bind_Ok. unfold level_kept.
  destruct ((zlen nv <? zlen cv) || _); [done|]. cbn [orb].
  rewrite (strncmp_ok _ _ _ _ _ _ _ Cd Nd) by (by vm_compute). done.
Qed.

(** preserve_sbat_uefi_variable on well-formed levels "sbat,version,..."
    returns, without leaving the two strings, true exactly when the attributes
    are right, the current level is not shorter than the original one and
    [level_kept] holds. *)
Theorem preserve_sbat_uefi_variable_correct cv cd nv nd cq nq attributes :
  nonul cv -> no_comma cv -> nonul cd -> nonul nv -> no_comma nv -> nonul nd ->
  zlen cv < 2 ^ 31 -> zlen nv < 2 ^ 31 ->
  preserve_sbat_uefi_variable (level cv cd ++ 0 :: cq) (zlen (level cv cd)) attributes
    (level nv nd ++ 0 :: nq)
  = Ok (check_sbat_var_attributes attributes && (zlen SBAT_VAR_ORIGINAL <=? zlen (level cv cd)) &&
        level_kept cv cd nv nd).
Proof. apply preserve_sbat_ok. Qed.

(** "sbat,1,2022111500" against "sbat,1,2021030218" *)
Lemma preserve_sbat_uefi_variable_correct_witness :
  preserve_sbat_uefi_variable
    (level [49] [50; 48; 50; 50; 49; 49; 49; 53; 48; 48; 10] ++ [0]) 18 UEFI_VAR_NV_BS
    (level [49] [50; 48; 50; 49; 48; 51; 48; 50; 49; 56; 10] ++ [0]) = Ok true.
Proof.
  apply (preserve_sbat_uefi_variable_correct [49] [50; 48; 50; 50; 49; 49; 49; 53; 48; 48; 10]
    [49] [50; 48; 50; 49; 48; 51; 48; 50; 49; 56; 10] [] [] UEFI_VAR_NV_BS);
    repeat constructor; lia.
Defined.

(** A SkuSiPolicy version is compared as the lexicographic order on its
    four 16-bit words: with right size and attributes the stored version is
    kept exactly when the candidate is not greater. *)
Theorem preserve_ssp_lexicographic a0 a1 a2 a3 b0 b1 b2 b3 attributes :
  Forall (fun x => 0 <= x < 2 ^ 16) [a0; a1; a2; a3; b0; b1; b2; b3] ->
  check_sbat_var_attributes attributes = true ->
  let ver w0 w1 w2 w3 := le_split 2 w0 ++ le_split 2 w1 ++ le_split 2 w2 ++ le_split 2 w3 in
  exists kept,
    preserve_ssp_uefi_variable (Some (ver a0 a1 a2 a3)) 8 attributes (Some (ver b0 b1 b2 b3)) = Ok kept /\
    (kept = false <->
       a0 < b0 \/ a0 = b0 /\ (a1 < b1 \/ a1 = b1 /\ (a2 < b2 \/ a2 = b2 /\ a3 < b3))).
Proof.
  intros HF Ha ver. rewrite !Forall_cons_iff in HF. destruct HF as (?&?&?&?&?&?&?&?&_).
  assert (Hv : forall w0 w1 w2 w3, 0 <= w0 < 2 ^ 16 -> 0 <= w1 < 2 ^ 16 -> 0 <= w2 < 2 ^ 16 ->
    0 <= w3 < 2 ^ 16 -> ssp_ver_to_ull (ver w0 w1 w2 w3) = Ok (w0 * 2 ^ 48 + w1 * 2 ^ 32 + w2 * 2 ^ 16 + w3)).
  { intros w0 w1 w2 w3 **. unfold ssp_ver_to_ull, rd_le, ver.
    assert (Hc : forall w, 0 <= w < 2 ^ 16 -> le_combine (le_split 2 w) = w)
      by (intros; apply le_combine_split; cbn; lia).
    set (v := le_split 2 w0 ++ _).
    replace (rdn v 0 2) with (Ok (le_split 2 w0)) by reflexivity.
    replace (rdn v 2 2) with (Ok (le_split 2 w1)) by reflexivity.
    replace (rdn v 4 2) with (Ok (le_split 2 w2)) by reflexivity.
    replace (rdn v 6 2) with (Ok (le_split 2 w3)) by reflexivity.
    rewrite !bind_Ok. rewrite !Hc by done. rewrite !Z.shiftl_mul_pow2 by lia.
    f_equal. apply u64_small. lia. }
  unfold preserve_ssp_uefi_variable. cbn [Z.eqb Pos.eqb negb SSPVER_SIZE]. rewrite Ha.
  rewrite !Hv by done. cbn [negb]. rewrite !bind_Ok. eexists. split; [done|].
  case_if; split; intros; try done; lia.
Qed.

Lemma preserve_ssp_lexicographic_witness :
  exists kept,
    preserve_ssp_uefi_variable (Some [2; 0; 0; 0; 0; 0; 2; 0]) 8 UEFI_VAR_NV_BS
      (Some [2; 0; 0; 0; 0; 0; 3; 0]) = Ok kept /\
    (kept = false <-> 2 < 2 \/ 2 = 2 /\ (0 < 0 \/ 0 = 0 /\ (0 < 0 \/ 0 = 0 /\ 2 < 3))).
Proof.
  apply (preserve_ssp_lexicographic 2 0 0 2 2 0 0 3 UEFI_VAR_NV_BS);
    [repeat constructor; lia|reflexivity].
Defined.
