(* ===== verification/Firmware.v ===== *)
(** * The firmware's variable services, as an interface

    shim reads and writes UEFI variables through RT->GetVariable and
    RT->SetVariable.  The firmware is not part of the repository: [Firmware]
    is a class of its operations over an abstract state, [FirmwareLaws] the
    behaviour the UEFI specification documents for them, stated with the
    contents [lookup] of the variable store.  Components are written against
    [Firmware] and proved against [FirmwareLaws]; [Store], an association list, is
    an instance of both, used by the witnesses. *)
From stdpp Require Import base list numbers option strings.
From Stdlib Require Import ZArith Lia.
From S2P Require Import Prelude.
From S2P Require Import Efi.
Local Open Scope Z_scope.

(** What GetVariable stores through its pointers. *)
Record gv_out : Type := {
  gv_status : EFI_STATUS;
  gv_size : Z;
  gv_attributes : Z;
  gv_data : list Z
}.

(** GetVariable takes the size of the buffer and whether there is one. *)
Class Firmware (S : Type) : Type := {
  GetVariable : S -> string -> EFI_GUID -> Z -> bool -> gv_out;
  SetVariable : S -> string -> EFI_GUID -> Z -> list Z -> EFI_STATUS * S;
  GetTime : S -> EFI_STATUS * list Z
}.

(** Attributes of an ordinary write: accessible, and neither an append nor one of
    the two kinds of authenticated writes, whose payload is not only the data. *)
Definition plain_attributes (a : Z) : bool :=
  (Z.land a (Z.lor EFI_VARIABLE_APPEND_WRITE (Z.lor 0x10 0x20)) =? 0) && negb (Z.land a (Z.lor 0x2 0x4) =? 0).

Class FirmwareLaws (S : Type) `{Firmware S} : Type := {
  lookup_var : S -> string -> EFI_GUID -> option (Z * list Z);
  lookup_nonempty s n g a d : lookup_var s n g = Some (a, d) -> d <> [];
  get_missing s n g size buf :
    lookup_var s n g = None -> gv_status (GetVariable s n g size buf) = EFI_NOT_FOUND;
  get_missing_size s n g size buf :
    lookup_var s n g = None -> gv_size (GetVariable s n g size buf) = size;
  get_too_small s n g size buf a d :
    lookup_var s n g = Some (a, d) -> size < zlen d ->
    gv_status (GetVariable s n g size buf) = EFI_BUFFER_TOO_SMALL /\
    gv_size (GetVariable s n g size buf) = zlen d;
  get_found s n g size a d :
    lookup_var s n g = Some (a, d) -> zlen d <= size ->
    GetVariable s n g size true
    = {| gv_status := EFI_SUCCESS; gv_size := zlen d; gv_attributes := a; gv_data := d |};
  set_ok s n g a d s' :
    SetVariable s n g a d = (EFI_SUCCESS, s') -> plain_attributes a = true ->
    lookup_var s' n g = if decide (d = []) then None else Some (a, d);
  set_other s n g a d st s' n' g' :
    SetVariable s n g a d = (st, s') -> (n', g') <> (n, g) -> lookup_var s' n' g' = lookup_var s n' g';
  set_error s n g a d st s' :
    SetVariable s n g a d = (st, s') -> EFI_ERROR st = true -> lookup_var s' n g = lookup_var s n g
}.

(** ** An instance: a store that accepts every write the specification allows *)
Definition Store : Type := list ((string * EFI_GUID) * (Z * list Z)).

Fixpoint assoc (s : Store) (k : string * EFI_GUID) : option (Z * list Z) :=
  match s with
  | [] => None
  | (k', v) :: s' => if decide (k' = k) then Some v else assoc s' k
  end.

Definition without (s : Store) (k : string * EFI_GUID) : Store := List.filter (fun e => negb (bool_decide (e.1 = k))) s.
Definition update (s : Store) (k : string * EFI_GUID) (v : Z * list Z) : Store := (k, v) :: without s k.

Definition store_lookup (s : Store) (n : string) (g : EFI_GUID) : option (Z * list Z) :=
  match assoc s (n, g) with
  | Some (a, d) => if decide (d = []) then None else Some (a, d)
  | None => None
  end.

Definition store_get (s : Store) (n : string) (g : EFI_GUID) (size : Z) (buf : bool) : gv_out :=
  match store_lookup s n g with
  | None => {| gv_status := EFI_NOT_FOUND; gv_size := size; gv_attributes := 0; gv_data := [] |}
  | Some (a, d) =>
      if size <? zlen d
      then {| gv_status := EFI_BUFFER_TOO_SMALL; gv_size := zlen d; gv_attributes := a; gv_data := [] |}
      else {| gv_status := EFI_SUCCESS; gv_size := zlen d; gv_attributes := a;
              gv_data := if buf then d else [] |}
  end.

(** A write with no data deletes; an append keeps what is there; a write with
    other attributes than the variable's is refused. *)
Definition store_set (s : Store) (n : string) (g : EFI_GUID) (a : Z) (d : list Z) : EFI_STATUS * Store :=
  let append := negb (Z.land a EFI_VARIABLE_APPEND_WRITE =? 0) in
  let a' := Z.ldiff a EFI_VARIABLE_APPEND_WRITE in
  match store_lookup s n g with
  | None =>
      if decide (d = []) then (EFI_NOT_FOUND, s)
      else (EFI_SUCCESS, update s (n, g) (a', d))
  | Some (a0, d0) =>
      if append then (EFI_SUCCESS, update s (n, g) (a0, d0 ++ d))
      else if decide (d = []) then (EFI_SUCCESS, without s (n, g))
      else if a' =? a0 then (EFI_SUCCESS, update s (n, g) (a', d))
      else (EFI_INVALID_PARAMETER, s)
  end.

Global Instance store_firmware : Firmware Store := {
  GetVariable := store_get;
  SetVariable := store_set;
  GetTime _ := (EFI_SUCCESS, replicate 16 0)
}.

Lemma ldiff_no_append a : Z.land a EFI_VARIABLE_APPEND_WRITE = 0 -> Z.ldiff a EFI_VARIABLE_APPEND_WRITE = a.
Proof.
  intros H. apply Z.bits_inj'. intros i Hi. rewrite Z.ldiff_spec.
  apply (f_equal (fun z => Z.testbit z i)) in H. rewrite Z.land_spec, Z.bits_0 in H.
  destruct (Z.testbit a i), (Z.testbit EFI_VARIABLE_APPEND_WRITE i); done.
Qed.

Lemma assoc_without s k : assoc (without s k) k = None.
Proof.
  unfold without. induction s as [|[k' v] s IH]; [done|]. cbn [List.filter fst].
  case_bool_decide as E; cbn [negb]; [done|]. cbn [assoc]. by rewrite decide_False.
Qed.

Lemma assoc_without_ne s k k' : k' <> k -> assoc (without s k) k' = assoc s k'.
Proof.
  intros Hne. unfold without. induction s as [|[k0 v] s IH]; [done|]. cbn [List.filter fst].
  case_bool_decide as E; cbn [negb assoc]; [|by rewrite IH].
  subst k0. by rewrite decide_False by auto.
Qed.

Lemma assoc_update_ne s k v k' : k' <> k -> assoc (update s k v) k' = assoc s k'.
Proof. intros. unfold update. cbn [assoc]. rewrite decide_False by auto. by apply assoc_without_ne. Qed.

Lemma store_lookup_update s n g a d :
  store_lookup (update s (n, g) (a, d)) n g = if decide (d = []) then None else Some (a, d).
Proof. unfold store_lookup, update. cbn [assoc]. by rewrite decide_True. Qed.

Lemma plain_no_append a : plain_attributes a = true -> Z.land a EFI_VARIABLE_APPEND_WRITE = 0.
Proof.
  unfold plain_attributes. intros [Ha%Z.eqb_eq _]%andb_true_iff. apply Z.bits_inj'. intros i Hi. rewrite Z.land_spec, Z.bits_0.
  apply (f_equal (fun z => Z.testbit z i)) in Ha. rewrite Z.land_spec, Z.lor_spec, Z.bits_0 in Ha.
  destruct (Z.testbit a i), (Z.testbit EFI_VARIABLE_APPEND_WRITE i); done.
Qed.

Global Instance store_laws : FirmwareLaws Store.
Proof.
  refine {| lookup_var := store_lookup |}.
  - intros s n g a d. unfold store_lookup. destruct (assoc s (n, g)) as [[a0 d0]|]; [|done].
    case_decide; [done|]. by intros [= -> ->].
  - intros s n g size buf H. cbn. unfold store_get. by rewrite H.
  - intros s n g size buf H. cbn. unfold store_get. by rewrite H.
  - intros s n g size buf a d H Hs. cbn. unfold store_get. rewrite H. case_if; [done|lia].
  - intros s n g size a d H Hs. cbn. unfold store_get. rewrite H. case_if; [lia|done].
  - intros s n g a d s' H Ha%plain_no_append. cbn in H. unfold store_set in H. rewrite Ha in H.
    rewrite (ldiff_no_append _ Ha) in H. cbn in H. revert H.
    destruct (store_lookup s n g) as [[a0 d0]|]; repeat case_decide; try case_if; intros [= <-];
      rewrite ?store_lookup_update, ?decide_False by done; try done.
    unfold store_lookup. by rewrite assoc_without.
  - intros s n g a d st s' n' g' H Hne. cbn in H. unfold store_set in H. revert H.
    destruct (store_lookup s n g) as [[a0 d0]|]; try case_if; repeat case_decide; try case_if;
      intros [= _ <-]; unfold store_lookup; try done;
      rewrite ?assoc_update_ne, ?assoc_without_ne by congruence; done.
  - intros s n g a d st s' H He. cbn in H. unfold store_set in H. revert H.
    destruct (store_lookup s n g) as [[a0 d0]|] eqn:E; try case_if; repeat case_decide; try case_if;
      intros [= <- <-]; cbn in He; done.
Defined.

(** ** gnu-efi's LibDeleteVariable *)
Class VarLib (S : Type) : Type := { LibDeleteVariable : S -> string -> EFI_GUID -> EFI_STATUS * S }.
Class VarLibLaws (S : Type) `{FirmwareLaws S} `{VarLib S} : Prop := {
  delete_other s n g n' g' :
    (n', g') <> (n, g) -> lookup_var (snd (LibDeleteVariable s n g)) n' g' = lookup_var s n' g';
  delete_ok s n g :
    EFI_ERROR (fst (LibDeleteVariable s n g)) = false -> lookup_var (snd (LibDeleteVariable s n g)) n g = None;
  delete_error s n g :
    EFI_ERROR (fst (LibDeleteVariable s n g)) = true ->
    lookup_var (snd (LibDeleteVariable s n g)) n g = lookup_var s n g
}.

Global Instance store_lib : VarLib Store := {
  LibDeleteVariable s n g := match store_lookup s n g with None => (EFI_NOT_FOUND, s) | Some _ => (EFI_SUCCESS, without s (n, g)) end
}.
Global Instance store_lib_laws : VarLibLaws Store.
Proof.
  split; intros s n g; cbn; destruct (store_lookup s n g) as [[a d]|] eqn:E; cbn; try done.
  - intros n' g' Hne. unfold store_lookup. by rewrite assoc_without_ne.
  - intros _. unfold store_lookup. by rewrite assoc_without.
Qed.
