(* ===== verification/Esl.v ===== *)
(** * EFI signature lists: include/efiauthenticated.h and the list functions of
    lib/variables.c

    A database (db, dbx, MokList, ...) is a sequence of EFI_SIGNATURE_LISTs,
    packed structures

      SignatureType[16] SignatureListSize[4] SignatureHeaderSize[4]
      SignatureSize[4] header signatures...

    read in place by two macros of include/variables.h.  [certlist_loop] is
    the outer one; its body is a parameter, because lib/variables.c and
    verify.c use it with different bodies.  [esl_encode] gives the bytes of a
    database and the lemmas say what the loops compute on them. *)
From stdpp Require Import base list numbers option sets.
From Stdlib Require Import ZArith Lia.
From S2P Require Import Prelude.
From S2P Require Import Efi.
Local Open Scope Z_scope.

(** ** lib/guid.c *)
Definition GV_GUID : EFI_GUID := guid 0x8be4df61 0x93ca 0x11d2 [0xaa; 0x0d; 0x00; 0xe0; 0x98; 0x03; 0x2b; 0x8c].
Definition SIG_DB : EFI_GUID := guid 0xd719b2cb 0x3d3a 0x4596 [0xa3; 0xbc; 0xda; 0xd0; 0x0e; 0x67; 0x65; 0x6f].
Definition X509_GUID : EFI_GUID := guid 0xa5c059a1 0x94e4 0x4aa7 [0x87; 0xb5; 0xab; 0x15; 0x5c; 0x2b; 0xf0; 0x72].
Definition EFI_CERT_SHA1_GUID : EFI_GUID :=
  guid 0x826ca512 0xcf10 0x4ac9 [0xb1; 0x87; 0xbe; 0x01; 0x49; 0x66; 0x31; 0xbd].
Definition EFI_CERT_SHA256_GUID : EFI_GUID :=
  guid 0xc1c41626 0x504c 0x4092 [0xac; 0xa9; 0x41; 0xf9; 0x36; 0x93; 0x43; 0x28].
Definition EFI_CERT_TYPE_PKCS7_GUID : EFI_GUID :=
  guid 0x4aafd29d 0x68df 0x49ee [0x8a; 0xa9; 0x34; 0x7d; 0x37; 0x56; 0x65; 0xa7].
Definition EFI_CERT_TYPE_X509_GUID : EFI_GUID := X509_GUID.
Definition EFI_SECURE_BOOT_DB_GUID : EFI_GUID := SIG_DB.
Definition SHIM_LOCK_GUID : EFI_GUID :=
  guid 0x605dab50 0xe046 0x4300 [0xab; 0xb6; 0x3d; 0xd8; 0x10; 0xdd; 0x8b; 0x23].
Definition SECUREBOOT_EFI_NAMESPACE_GUID : EFI_GUID :=
  guid 0x77fa9abd 0x0359 0x4d32 [0xbd; 0x60; 0x28; 0xf4; 0xe7; 0x8f; 0x78; 0x4b].

(** ** The structures, at an offset of a buffer *)
Definition sizeof_EFI_GUID : Z := 16.
Definition sizeof_EFI_SIGNATURE_LIST : Z := 28.
Definition sizeof_EFI_SIGNATURE_DATA : Z := 17.
Definition SignatureType (m : list Z) (cl : Z) : res (list Z) := rdn m cl 16.
Definition SignatureListSize (m : list Z) (cl : Z) : res Z := rd_le m (cl + 16) 4.
Definition SignatureHeaderSize (m : list Z) (cl : Z) : res Z := rd_le m (cl + 20) 4.
Definition SignatureSize (m : list Z) (cl : Z) : res Z := rd_le m (cl + 24) 4.

(** certlist_for_each_certentry: [s] is what is left of the database; the body
    returns [Some] to leave the loop. *)
Fixpoint certlist_loop {R} (body : Z -> res (option R)) (fuel : nat) (m : list Z) (cl s : Z)
  : res (option R) :=
  match fuel with
  | O => NoFuel
  | S f =>
      if 0 <? s then
        lsz ← SignatureListSize m cl;
        if lsz <=? s then
          r ← body cl;
          match r with
          | Some x => Ok (Some x)
          | None => certlist_loop body f m (cl + lsz) (s - lsz)
          end
        else Ok None
      else Ok None
  end.

(** certentry_for_each_cert with the comparison of find_in_esl. *)
Fixpoint find_cert (fuel : nat) (m : list Z) (cl lsz ssz c : Z) (key : list Z) : res (option unit) :=
  match fuel with
  | O => NoFuel
  | S f =>
      if c <? cl + lsz then
        d ← rdn m (c + sizeof_EFI_GUID) (zlen key);
        if bytes_eqb d key then Ok (Some tt) else find_cert f m cl lsz ssz (c + ssz) key
      else Ok None
  end.

Definition find_in_esl (Data : list Z) (DataSize : Z) (key : list Z) : res EFI_STATUS :=
  r ← certlist_loop (fun cl =>
         ssz ← SignatureSize Data cl;
         if negb (ssz =? zlen key + sizeof_EFI_GUID) then Ok None
         else
           hsz ← SignatureHeaderSize Data cl;
           lsz ← SignatureListSize Data cl;
           find_cert (S (length Data)) Data cl lsz ssz (cl + sizeof_EFI_SIGNATURE_LIST + hsz) key)
       (S (length Data)) Data 0 DataSize;
  Ok (match r with Some _ => EFI_SUCCESS | None => EFI_NOT_FOUND end).

(** ** fill_esl and its callers

    [out] is NULL or the output buffer; the results are the status, the buffer
    and [*outlen]. *)
Definition UINT32_MAX : Z := 2 ^ 32 - 1.

Definition fill_esl (first_sig : option (list Z)) (howmany : Z) (type : EFI_GUID) (sig_size : Z)
    (out : option (list Z)) (outlen : Z) : res (EFI_STATUS * option (list Z) * Z) :=
  let data_len := u64 (howmany * sig_size) in
  let bad := match out, first_sig with Some _, None => true | _, _ => false end in
  if bad || (howmany =? 0) || (sig_size =? 0) then Ok (EFI_INVALID_PARAMETER, out, outlen)
  else if (UINT32_MAX - sizeof_EFI_SIGNATURE_LIST) / sig_size <? howmany
  then Ok (EFI_INVALID_PARAMETER, out, outlen)
  else
    let needed := u64 (sizeof_EFI_SIGNATURE_LIST + data_len) in
    match out, first_sig with
    | Some sl, Some sig =>
        if outlen <? needed then Ok (EFI_BUFFER_TOO_SMALL, out, needed)
        else
          sl ← wr_le sl 20 4 0;
          sl ← wrn sl 0 type;
          sl ← wr_le sl 24 4 sig_size;
          sl ← wr_le sl 16 4 (u32 needed);
          data ← rdn sig 0 data_len;
          sl ← wrn sl sizeof_EFI_SIGNATURE_LIST data;
          Ok (EFI_SUCCESS, Some sl, needed)
    | _, _ => Ok (EFI_BUFFER_TOO_SMALL, out, needed)
    end.

Definition fill_esl_with_one_signature (alloc : bool) (data : list Z) (data_len : Z) (type : EFI_GUID)
    (owner : option EFI_GUID) (out : option (list Z)) (outlen : Z)
  : res (EFI_STATUS * option (list Z) * Z) :=
  let sig_size := u32 (sizeof_EFI_SIGNATURE_DATA - 1 + data_len) in
  if UINT32_MAX - sizeof_EFI_SIGNATURE_DATA + 1 <? data_len
  then Ok (EFI_INVALID_PARAMETER, out, outlen)
  else
    match out with
    | None => fill_esl None 1 type sig_size None outlen
    | Some _ =>
        if negb alloc then Ok (EFI_OUT_OF_RESOURCES, out, outlen)
        else
          let sd := replicate (Z.to_nat sig_size) 0 in
          sd ← (match owner with Some g => wrn sd 0 g | None => Ok sd end);
          d ← rdn data 0 data_len;
          sd ← wrn sd 16 d;
          fill_esl (Some sd) 1 type sig_size out outlen
    end.

(** Two calls: for the size, and with a buffer of that size. *)
Definition variable_create_esl (alloc : bool) (first_sig : list Z) (howmany : Z) (type : EFI_GUID)
    (sig_size : Z) : res (EFI_STATUS * option (list Z) * Z) :=
  '(efi_status, _, outlen) ← fill_esl (Some first_sig) howmany type sig_size None 0;
  if negb (bool_decide (efi_status = EFI_BUFFER_TOO_SMALL)) then Ok (efi_status, None, outlen)
  else if negb alloc then Ok (EFI_OUT_OF_RESOURCES, None, outlen)
  else fill_esl (Some first_sig) howmany type sig_size (Some (replicate (Z.to_nat outlen) 0)) outlen.

Definition variable_create_esl_with_one_signature (alloc sig_alloc : bool) (data : list Z)
    (data_len : Z) (type : EFI_GUID) (owner : option EFI_GUID)
  : res (EFI_STATUS * option (list Z) * Z) :=
  let len32 := u32 data_len in
  '(efi_status, _, outlen) ← fill_esl_with_one_signature sig_alloc data len32 type owner None 0;
  if negb (bool_decide (efi_status = EFI_BUFFER_TOO_SMALL)) then Ok (efi_status, None, outlen)
  else if negb alloc then Ok (EFI_OUT_OF_RESOURCES, None, outlen)
  else fill_esl_with_one_signature sig_alloc data len32 type owner
         (Some (replicate (Z.to_nat outlen) 0)) outlen.

Lemma terminates_fill_esl first n type sz out len : terminates (fill_esl first n type sz out len).
Proof. unfold fill_esl, wr_le. terminates_tac. Qed.
Lemma terminates_fill_one alloc data len type owner out outlen :
  terminates (fill_esl_with_one_signature alloc data len type owner out outlen).
Proof. unfold fill_esl_with_one_signature. terminates_tac; apply terminates_fill_esl. Qed.
Lemma terminates_create_esl alloc first n type sz : terminates (variable_create_esl alloc first n type sz).
Proof. unfold variable_create_esl. terminates_tac; apply terminates_fill_esl. Qed.
Lemma terminates_create_one alloc sig_alloc data len type owner :
  terminates (variable_create_esl_with_one_signature alloc sig_alloc data len type owner).
Proof. unfold variable_create_esl_with_one_signature. terminates_tac; apply terminates_fill_one. Qed.

(** ** The format *)
Record esl : Type := {
  esl_type : list Z;
  esl_header : list Z;
  esl_sigsize : Z;
  esl_sigs : list (list Z * list Z)   (* owner and data *)
}.

Definition sigs_bytes (l : esl) : list Z := concat (map (fun s => fst s ++ snd s) (esl_sigs l)).
Definition esl_size (l : esl) : Z :=
  sizeof_EFI_SIGNATURE_LIST + zlen (esl_header l) + zlen (esl_sigs l) * esl_sigsize l.
Definition esl_bytes (l : esl) : list Z :=
  esl_type l ++ le_split 4 (esl_size l) ++ le_split 4 (zlen (esl_header l)) ++
  le_split 4 (esl_sigsize l) ++ esl_header l ++ sigs_bytes l.
Definition esl_encode (db : list esl) : list Z := concat (map esl_bytes db).

Definition esl_wf (l : esl) : Prop :=
  length (esl_type l) = 16%nat /\ 16 <= esl_sigsize l < 2 ^ 32 /\ esl_size l < 2 ^ 32 /\
  Forall (fun s => length (fst s) = 16%nat /\ zlen (snd s) = esl_sigsize l - 16) (esl_sigs l).

(** ** Lemmas on the format *)
Lemma sigs_bytes_length l :
  Forall (fun s => length (fst s) = 16%nat /\ zlen (snd s) = esl_sigsize l - 16) (esl_sigs l) ->
  zlen (sigs_bytes l) = zlen (esl_sigs l) * esl_sigsize l.
Proof.
  unfold sigs_bytes. induction 1 as [|[o d] sigs [Ho Hd] _ IH]; [done|].
  cbn [map concat fst snd] in *. zlen_simpl. rewrite IH, Hd. unfold zlen at 1. rewrite Ho. lia.
Qed.

Section one_list.
Context (l : esl) (Hwf : esl_wf l).

Lemma esl_size_range : 0 <= esl_size l < 2 ^ 32 /\ zlen (esl_type l) = 16.
Proof.
  destruct Hwf as (Ht & Hs & Hsz & _). split; [|unfold zlen; by rewrite Ht].
  split; [|done]. unfold esl_size, sizeof_EFI_SIGNATURE_LIST. zlia.
Qed.

Lemma esl_bytes_length : zlen (esl_bytes l) = esl_size l.
Proof.
  destruct esl_size_range as [_ Ht]. destruct Hwf as (_ & _ & _ & HF).
  unfold esl_bytes, esl_size, sizeof_EFI_SIGNATURE_LIST. zlen_simpl.
  rewrite (sigs_bytes_length l HF), Ht. lia.
Qed.

Context (p q : list Z).
Let m : list Z := p ++ esl_bytes l ++ q.
Let cl : Z := zlen p.

Lemma m_split :
  m = p ++ esl_type l ++ le_split 4 (esl_size l) ++ le_split 4 (zlen (esl_header l)) ++
      le_split 4 (esl_sigsize l) ++ esl_header l ++ sigs_bytes l ++ q.
Proof. unfold m, esl_bytes. by rewrite <- !app_assoc. Qed.

Lemma SignatureType_ok : SignatureType m cl = Ok (esl_type l).
Proof.
  unfold SignatureType. rewrite m_split. destruct esl_size_range as [_ Ht].
  by rewrite rdn_app_mid.
Qed.

Lemma SignatureListSize_ok : SignatureListSize m cl = Ok (esl_size l).
Proof.
  destruct esl_size_range as [Hs Ht]. unfold SignatureListSize. rewrite m_split, (app_assoc p).
  rewrite (rd_le_mid _ _ _ _ 4 (esl_size l)); [done| |done|exact Hs]. unfold cl. zlia.
Qed.

Lemma SignatureHeaderSize_ok : SignatureHeaderSize m cl = Ok (zlen (esl_header l)).
Proof.
  destruct esl_size_range as [Hs Ht]. unfold SignatureHeaderSize. rewrite m_split.
  rewrite (app_assoc p), (app_assoc (p ++ _)).
  rewrite (rd_le_mid _ _ _ _ 4 (zlen (esl_header l))); [done| |done|].
  - unfold cl. zlia.
  - destruct Hwf as (_ & H16 & Hsz & _). unfold esl_size, sizeof_EFI_SIGNATURE_LIST in *.
    change (8 * Z.of_nat 4) with 32. pose proof (zlen_nonneg (esl_sigs l)).
    split; [zlia|]. nia.
Qed.

Lemma SignatureSize_ok : SignatureSize m cl = Ok (esl_sigsize l).
Proof.
  destruct esl_size_range as [Hs Ht]. unfold SignatureSize. rewrite m_split.
  rewrite (app_assoc p), (app_assoc (p ++ _)), (app_assoc ((p ++ _) ++ _)).
  rewrite (rd_le_mid _ _ _ _ 4 (esl_sigsize l)); [done| |done|].
  - unfold cl. zlia.
  - destruct Hwf as (_ & H16 & _). change (8 * Z.of_nat 4) with 32. lia.
Qed.
End one_list.

(** ** The outer loop *)
Fixpoint first_some {A R} (f : A -> option R) (l : list A) : option R :=
  match l with
  | [] => None
  | x :: l' => match f x with Some r => Some r | None => first_some f l' end
  end.

Lemma certlist_loop_ok {R} (body : Z -> res (option R)) (f : esl -> option R) m fuel p db q :
  m = p ++ esl_encode db ++ q -> Forall esl_wf db -> (length db < fuel)%nat ->
  (forall p' l q', esl_wf l -> In l db -> m = p' ++ esl_bytes l ++ q' -> body (zlen p') = Ok (f l)) ->
  certlist_loop body fuel m (zlen p) (zlen (esl_encode db)) = Ok (first_some f db).
Proof.
  intros Hm HF. revert fuel p Hm. induction HF as [|l db Hl HF IH]; intros [|fuel] p Hm Hf Hb;
    cbn [length] in *; try lia; [done|].
  cbn [certlist_loop first_some]. unfold esl_encode in *. cbn [map concat] in *.
  assert (Hm' : m = p ++ esl_bytes l ++ concat (map esl_bytes db) ++ q)
    by (rewrite Hm; by rewrite <- app_assoc).
  pose proof (esl_bytes_length l Hl) as Hlen. destruct (esl_size_range l Hl) as [Hs _].
  assert (28 <= esl_size l).
  { destruct Hl as (_ & H16 & _). unfold esl_size, sizeof_EFI_SIGNATURE_LIST.
    pose proof (zlen_nonneg (esl_sigs l)). zlia. }
  rewrite zlen_app, Hlen. case_if; [|zlia].
  rewrite Hm' at 1. rewrite (SignatureListSize_ok l Hl), bind_Ok. case_if; [|zlia].
  rewrite (Hb p l _ Hl (or_introl eq_refl) Hm'), bind_Ok. destruct (f l); [done|].
  rewrite <- Hlen, <- zlen_app, Z.add_simpl_l. apply IH; [|lia|].
  - rewrite Hm'. by rewrite <- app_assoc.
  - intros p' l' q' Hwf Hin. apply Hb; [done|by right].
Qed.

(** ** The inner loop *)
Definition sig_bytes (s : list Z * list Z) : list Z := fst s ++ snd s.

Lemma find_cert_ok fuel p sigs q cl lsz ssz key :
  Forall (fun s => length (fst s) = 16%nat /\ zlen (snd s) = ssz - 16) sigs ->
  ssz = zlen key + 16 -> cl + lsz = zlen p + zlen sigs * ssz -> (length sigs < fuel)%nat ->
  find_cert fuel (p ++ concat (map sig_bytes sigs) ++ q) cl lsz ssz (zlen p) key
  = Ok (if bool_decide (key ∈ map snd sigs) then Some tt else None).
Proof.
  intros HF Hssz. revert fuel p. induction HF as [|[o d] sigs [Ho Hd] HF IH];
    intros [|fuel] p Hend Hf; cbn [length] in *; try lia; cbn [find_cert].
  - rewrite (zlen_nil (A := list Z * list Z)) in Hend. case_if; [lia|]. rewrite bool_decide_false; [done|]. set_solver.
  - cbn [map concat fst snd] in *. change (sig_bytes (o, d)) with (o ++ d). rewrite zlen_cons in Hend.
    pose proof (zlen_nonneg sigs). pose proof (zlen_nonneg key).
    assert (Ho' : zlen o = 16) by (unfold zlen; by rewrite Ho).
    assert (zlen p < cl + lsz) by nia. case_if; [|lia].
    rewrite <- !app_assoc. rewrite (app_assoc p o), (rdn_app_mid (p ++ o) d)
      by (unfold sizeof_EFI_GUID; zlia).
    rewrite bind_Ok. unfold bytes_eqb. destruct (bool_decide_reflect (d = key)) as [E|E].
    + rewrite bool_decide_true; [done|]. subst d. set_solver.
    + specialize (IH fuel (p ++ o ++ d)). rewrite <- !app_assoc in *. rewrite !zlen_app in IH.
      replace (zlen p + ssz) with (zlen p + (zlen o + zlen d)) by lia.
      rewrite IH by (lia || nia). f_equal.
      erewrite (bool_decide_ext (key ∈ map snd sigs)); [done|]. rewrite elem_of_cons.
      split; [by right|]. by intros [->|?].
Qed.

Definition list_has (key : list Z) (l : esl) : bool :=
  bool_decide (esl_sigsize l = zlen key + 16) && bool_decide (key ∈ map snd (esl_sigs l)).

Lemma first_some_exists {A} (f : A -> bool) l :
  first_some (fun x => if f x then Some tt else None) l = if existsb f l then Some tt else None.
Proof. induction l as [|x l IH]; [done|]. cbn. by destruct (f x). Qed.

Lemma esl_list_length l db :
  In l db -> Forall esl_wf db -> (length (esl_sigs l) <= length (esl_encode db))%nat.
Proof.
  intros Hin HF. induction HF as [|l' db Hl HF IH]; [done|]. unfold esl_encode in *.
  cbn [map concat]. rewrite length_app. destruct Hin as [-> |Hin]; [|specialize (IH Hin); lia].
  pose proof (esl_bytes_length l Hl) as Hb. destruct Hl as (_ & H16 & _).
  unfold esl_size, sizeof_EFI_SIGNATURE_LIST, zlen in Hb. nia.
Qed.

Lemma esl_db_length db : Forall esl_wf db -> (length db <= length (esl_encode db))%nat.
Proof.
  induction 1 as [|l db Hl _ IH]; [done|]. unfold esl_encode in *. cbn [map concat length].
  rewrite length_app. pose proof (esl_bytes_length l Hl) as Hb. destruct Hl as (_ & H16 & _).
  unfold esl_size, sizeof_EFI_SIGNATURE_LIST, zlen in Hb. nia.
Qed.

Lemma find_in_esl_ok db q key :
  Forall esl_wf db ->
  find_in_esl (esl_encode db ++ q) (zlen (esl_encode db)) key
  = Ok (if existsb (list_has key) db then EFI_SUCCESS else EFI_NOT_FOUND).
Proof.
  intros HF. unfold find_in_esl. change 0 with (zlen (@nil Z)).
  rewrite (certlist_loop_ok _ (fun l => if list_has key l then Some tt else None) _ _ [] db q);
    [|done|done| |].
  - rewrite first_some_exists. by destruct (existsb _ db).
  - rewrite length_app. pose proof (esl_db_length db HF). lia.
  - intros p' l q' Hl Hin Hm. rewrite Hm. rewrite SignatureSize_ok, bind_Ok by done. unfold list_has.
    case_if; [by rewrite bool_decide_false by (unfold sizeof_EFI_GUID in *; lia)|].
    rewrite bool_decide_true by (unfold sizeof_EFI_GUID in *; lia). cbn [andb].
    rewrite SignatureHeaderSize_ok, bind_Ok, SignatureListSize_ok, bind_Ok by done.
    pose proof (esl_bytes_length l Hl) as Hlen. pose proof Hl as (Ht & H16 & Hsz & HFs).
    destruct (esl_size_range l Hl) as [_ Ht16].
    assert (Hsp : p' ++ esl_bytes l ++ q' =
      (p' ++ esl_type l ++ le_split 4 (esl_size l) ++ le_split 4 (zlen (esl_header l)) ++
       le_split 4 (esl_sigsize l) ++ esl_header l) ++ concat (map sig_bytes (esl_sigs l)) ++ q')
      by (unfold esl_bytes, sigs_bytes, sig_bytes; by rewrite <- !app_assoc).
    rewrite Hsp. pose proof (esl_list_length l db Hin HF).
    unfold sizeof_EFI_SIGNATURE_LIST, sizeof_EFI_GUID in *.
    match goal with |- context [find_cert _ (?P ++ _) _ _ _ ?c _] =>
      replace c with (zlen P) by (zlen_simpl; lia) end.
    apply find_cert_ok; auto.
    + zlen_simpl. unfold esl_size, sizeof_EFI_SIGNATURE_LIST. lia.
    + rewrite <- Hsp, <- Hm, length_app. lia.
Qed.

(** ** Building a list *)
Definition zeros (n : nat) : list Z := replicate n 0.

Lemma zeros_split n k : (k <= n)%nat -> zeros n = zeros k ++ zeros (n - k).
Proof. intros. unfold zeros. rewrite <- replicate_add. f_equal. lia. Qed.

Lemma wr_le_mid p old q n i v :
  i = zlen p -> length old = n -> wr_le (p ++ old ++ q) i n v = Ok (p ++ le_split n v ++ q).
Proof. intros -> <-. unfold wr_le. by rewrite wrn_app_mid by by rewrite ?le_split_length. Qed.

Lemma wrn_app_0 old q bs : length old = length bs -> wrn (old ++ q) 0 bs = Ok (bs ++ q).
Proof. exact (wrn_app_mid [] old q bs 0 eq_refl). Qed.

Lemma rdn_app_0 bs q n : n = zlen bs -> rdn (bs ++ q) 0 n = Ok bs.
Proof. exact (rdn_app_mid [] bs q 0 n eq_refl). Qed.

Section build.
Context (l : esl) (Hwf : esl_wf l) (Hh : esl_header l = []) (Hn : esl_sigs l <> []) (q : list Z).

Lemma fill_esl_ok out outlen :
  match out with Some b => zlen b = esl_size l /\ outlen = esl_size l | None => outlen = 0 end ->
  fill_esl (Some (sigs_bytes l ++ q)) (zlen (esl_sigs l)) (esl_type l) (esl_sigsize l) out outlen
  = Ok (match out with
        | Some _ => (EFI_SUCCESS, Some (esl_bytes l), esl_size l)
        | None => (EFI_BUFFER_TOO_SMALL, None, esl_size l)
        end).
Proof.
  intros Hout. destruct (esl_size_range l Hwf) as [Hs Ht]. pose proof Hwf as (Ht' & H16 & Hsz & HF).
  assert (Hn1 : 1 <= zlen (esl_sigs l)) by (destruct (esl_sigs l); [done|]; zlia).
  assert (Hsize : esl_size l = 28 + zlen (esl_sigs l) * esl_sigsize l).
  { unfold esl_size, sizeof_EFI_SIGNATURE_LIST. rewrite Hh, (zlen_nil (A := Z)). lia. }
  unfold fill_esl. replace (_ || _ || _) with false by (symmetry; solve_bool; by destruct out).
  assert (Hdiv : zlen (esl_sigs l) <= (UINT32_MAX - sizeof_EFI_SIGNATURE_LIST) / esl_sigsize l).
  { apply Z.div_le_lower_bound; unfold UINT32_MAX, sizeof_EFI_SIGNATURE_LIST; lia. }
  case_if; [lia|]. rewrite (u64_small (_ * _)), u64_small by (unfold sizeof_EFI_SIGNATURE_LIST; lia).
  replace (sizeof_EFI_SIGNATURE_LIST + _) with (esl_size l)
    by (unfold sizeof_EFI_SIGNATURE_LIST; lia).
  destruct out as [b|]; [|done]. destruct Hout as [Hb ->]. case_if; [lia|].
  assert (exists b0 b1 b2 b3 b4, b = b0 ++ b1 ++ b2 ++ b3 ++ b4 /\ length b0 = 16%nat /\
    length b1 = 4%nat /\ length b2 = 4%nat /\ length b3 = 4%nat /\ length b4 = length (sigs_bytes l))
    as (b0 & b1 & b2 & b3 & b4 & -> & L0 & L1 & L2 & L3 & L4).
  { exists (take 16 b), (take 4 (drop 16 b)), (take 4 (drop 20 b)), (take 4 (drop 24 b)), (drop 28 b).
    pose proof (sigs_bytes_length l HF) as Hsl. unfold zlen in Hb, Hsl, Hsize.
    split; [|rewrite !length_take, !length_drop; unfold zlen in *; lia].
    rewrite <- (take_drop 16 b) at 1. f_equal. rewrite <- (take_drop 4 (drop 16 b)) at 1. f_equal.
    rewrite drop_drop. rewrite <- (take_drop 4 (drop (16 + 4) b)) at 1. f_equal.
    rewrite drop_drop. rewrite <- (take_drop 4 (drop (16 + 4 + 4) b)) at 1. f_equal. by rewrite drop_drop. }
  assert (Z0 : zlen b0 = 16) by (unfold zlen; lia). assert (Z1 : zlen b1 = 4) by (unfold zlen; lia).
  assert (Z2 : zlen b2 = 4) by (unfold zlen; lia). assert (Z3 : zlen b3 = 4) by (unfold zlen; lia).
  rewrite (app_assoc b0), (wr_le_mid (b0 ++ b1) b2), bind_Ok by (zlia || done).
  rewrite <- app_assoc, (wrn_app_0 b0), bind_Ok by congruence.
  rewrite (app_assoc (esl_type l)), (app_assoc (_ ++ b1)).
  rewrite (wr_le_mid _ b3), bind_Ok by (zlia || done).
  rewrite <- !app_assoc, (wr_le_mid (esl_type l) b1), bind_Ok by (zlia || done).
  rewrite rdn_app_0, bind_Ok by by rewrite (sigs_bytes_length l HF).
  rewrite 3!app_assoc. rewrite <- (app_nil_r b4), wrn_app_mid, bind_Ok; [| |done].
  - rewrite app_nil_r, <- !app_assoc, u32_small by done. unfold esl_bytes. rewrite Hh. done.
  - unfold sizeof_EFI_SIGNATURE_LIST. zlia.
Qed.

Lemma variable_create_esl_ok :
  variable_create_esl true (sigs_bytes l ++ q) (zlen (esl_sigs l)) (esl_type l) (esl_sigsize l)
  = Ok (EFI_SUCCESS, Some (esl_bytes l), esl_size l).
Proof.
  unfold variable_create_esl. rewrite (fill_esl_ok None 0) by done. rewrite bind_Ok.
  cbn [bool_decide negb]. rewrite bool_decide_true by done. cbn [negb].
  destruct (esl_size_range l Hwf). rewrite (fill_esl_ok (Some _)); [done|].
  split; [|done]. unfold zlen. rewrite length_replicate. lia.
Qed.
End build.

(** The list with one signature. *)
Definition one_sig (type owner data : list Z) : esl :=
  {| esl_type := type; esl_header := []; esl_sigsize := 16 + zlen data; esl_sigs := [(owner, data)] |}.

Lemma one_sig_wf type owner data :
  length type = 16%nat -> length owner = 16%nat -> 44 + zlen data < 2 ^ 32 ->
  esl_wf (one_sig type owner data).
Proof.
  intros. unfold one_sig, esl_wf, esl_size, sizeof_EFI_SIGNATURE_LIST.
  cbn [esl_type esl_header esl_sigsize esl_sigs]. change (zlen [(owner, data)]) with 1.
  rewrite (zlen_nil (A := Z)). split; [done|]. split; [zlia|]. split; [zlia|].
  repeat constructor; cbn; [done|lia].
Qed.

Lemma create_one_signature_ok type owner data q :
  length type = 16%nat -> match owner with Some o => length o = 16%nat | None => True end ->
  44 + zlen data < 2 ^ 32 ->
  variable_create_esl_with_one_signature true true (data ++ q) (zlen data) type owner
  = Ok (EFI_SUCCESS, Some (esl_bytes (one_sig type (from_option id (zeros 16) owner) data)),
        44 + zlen data).
Proof.
  intros Ht Ho Hlt. set (l := one_sig type (from_option id (zeros 16) owner) data).
  assert (Hwf : esl_wf l) by (apply one_sig_wf; auto; by destruct owner).
  assert (Hsz : esl_size l = 44 + zlen data).
  { unfold esl_size, l, one_sig. cbn [esl_header esl_sigs esl_sigsize].
    change (zlen [_]) with 1. rewrite (zlen_nil (A := Z)). unfold sizeof_EFI_SIGNATURE_LIST. lia. }
  pose proof (fun out outlen => fill_esl_ok l Hwf eq_refl ltac:(discriminate) [] out outlen) as Hfill.
  change (zlen (esl_sigs l)) with 1 in Hfill.
  change (esl_type l) with type in Hfill. change (esl_sigsize l) with (16 + zlen data) in Hfill.
  unfold variable_create_esl_with_one_signature, fill_esl_with_one_signature.
  rewrite (u32_small (zlen data)) by zlia.
  replace (sizeof_EFI_SIGNATURE_DATA - 1 + zlen data) with (16 + zlen data)
    by (unfold sizeof_EFI_SIGNATURE_DATA; lia).
  rewrite u32_small by zlia. unfold UINT32_MAX, sizeof_EFI_SIGNATURE_DATA.
  replace (_ <? zlen data) with false by (symmetry; solve_bool). cbn [negb].
  change (fill_esl None 1 type (16 + zlen data) None 0)
    with (fill_esl (Some (sigs_bytes l ++ [])) 1 type (16 + zlen data) None 0).
  rewrite (Hfill None 0 eq_refl), bind_Ok. rewrite bool_decide_true by done. cbn [negb].
  assert (Hlen : zlen (replicate (Z.to_nat (esl_size l)) 0) = esl_size l)
    by (unfold zlen in *; rewrite length_replicate; lia).
  assert (Hsd : (sd ← match owner with
                      | Some g => wrn (replicate (Z.to_nat (16 + zlen data)) 0) 0 g
                      | None => Ok (replicate (Z.to_nat (16 + zlen data)) 0)
                      end; d ← rdn (data ++ q) 0 (zlen data); wrn sd 16 d) = Ok (sigs_bytes l)).
  { fold (zeros (Z.to_nat (16 + zlen data))). rewrite (zeros_split _ 16) by zlia.
    replace (match owner with Some _ => _ | None => _ end)
      with (Ok (from_option id (zeros 16) owner ++ zeros (Z.to_nat (16 + zlen data) - 16))).
    2:{ destruct owner; [|done]. by rewrite wrn_app_0. }
    rewrite bind_Ok, rdn_app_0, bind_Ok by done.
    rewrite <- (app_nil_r (zeros (_ - 16))), wrn_app_mid.
    - f_equal. unfold sigs_bytes, l. cbn. by rewrite !app_nil_r.
    - unfold zlen. destruct owner; cbn in *; lia.
    - unfold zeros. rewrite length_replicate. unfold zlen. lia. }
  specialize (Hfill (Some (replicate (Z.to_nat (esl_size l)) 0)) (esl_size l) (conj Hlen eq_refl)).
  destruct (match owner with Some _ => _ | None => _ end) as [sd| |]; try done.
  rewrite bind_Ok. destruct (rdn (data ++ q) 0 (zlen data)) as [d| |]; try done.
  rewrite !bind_Ok in Hsd. rewrite bind_Ok, Hsd, bind_Ok. rewrite app_nil_r in Hfill. rewrite <- Hsz.
  exact Hfill.
Qed.

(** ** Theorems *)

(** On a well-formed database, find_in_esl returns without leaving the
    buffer and finds a key exactly when a list whose signatures have the key's
    length holds a signature with that data. *)
Theorem find_in_esl_correct db q key :
  Forall esl_wf db ->
  find_in_esl (esl_encode db ++ q) (zlen (esl_encode db)) key
  = Ok (if existsb (list_has key) db then EFI_SUCCESS else EFI_NOT_FOUND).
Proof. apply find_in_esl_ok. Qed.

Lemma find_in_esl_correct_witness :
  find_in_esl (esl_encode [one_sig X509_GUID (zeros 16) [7; 8]; one_sig X509_GUID (zeros 16) [9]] ++ [1])
    (zlen (esl_encode [one_sig X509_GUID (zeros 16) [7; 8]; one_sig X509_GUID (zeros 16) [9]])) [9]
  = Ok EFI_SUCCESS.
Proof.
  apply (find_in_esl_correct [one_sig X509_GUID (zeros 16) [7; 8]; one_sig X509_GUID (zeros 16) [9]] [1] [9]).
  repeat constructor; by vm_compute.
Defined.

(** A list built by variable_create_esl_with_one_signature is well-formed
    and read back by find_in_esl; its size is that of the data plus 44. *)
Theorem one_signature_round_trip type owner data q :
  length type = 16%nat -> match owner with Some o => length o = 16%nat | None => True end ->
  44 + zlen data < 2 ^ 32 ->
  exists out,
    variable_create_esl_with_one_signature true true (data ++ q) (zlen data) type owner
    = Ok (EFI_SUCCESS, Some out, 44 + zlen data) /\
    zlen out = 44 + zlen data /\
    find_in_esl out (zlen out) data = Ok EFI_SUCCESS.
Proof.
  intros Ht Ho Hlt. rewrite create_one_signature_ok by done.
  set (l := one_sig type (from_option id (zeros 16) owner) data).
  assert (Hwf : esl_wf l) by (apply one_sig_wf; auto; by destruct owner).
  exists (esl_bytes l). split; [done|].
  assert (Henc : esl_bytes l = esl_encode [l] ++ [])
    by (unfold esl_encode; cbn [map concat]; by rewrite !app_nil_r).
  split.
  - rewrite (esl_bytes_length l Hwf). unfold esl_size, l, one_sig, sizeof_EFI_SIGNATURE_LIST.
    cbn [esl_header esl_sigs esl_sigsize]. change (zlen [_]) with 1. rewrite (zlen_nil (A := Z)). lia.
  - rewrite Henc at 1. replace (zlen (esl_bytes l)) with (zlen (esl_encode [l]))
      by (unfold esl_encode; cbn [map concat]; by rewrite app_nil_r).
    rewrite find_in_esl_ok by (by constructor). unfold existsb, list_has, l, one_sig.
    cbn [esl_sigsize esl_sigs map snd]. rewrite !bool_decide_true; [done|by left|lia].
Qed.

Lemma one_signature_round_trip_witness :
  exists out,
    variable_create_esl_with_one_signature true true [1; 2; 3] (zlen [1; 2; 3]) X509_GUID None
    = Ok (EFI_SUCCESS, Some out, 47) /\
    zlen out = 47 /\
    find_in_esl out (zlen out) [1; 2; 3] = Ok EFI_SUCCESS.
Proof. apply (one_signature_round_trip X509_GUID None [1; 2; 3] []); done. Defined.

(** A database whose first list claims a SignatureListSize of zero is never
    left: no number of turns is enough for a body that finds nothing. *)
Theorem certlist_zero_size_diverges {R} (body : Z -> res (option R)) m cl s :
  0 < s -> SignatureListSize m cl = Ok 0 -> body cl = Ok None ->
  forall fuel, certlist_loop body fuel m cl s = NoFuel.
Proof.
  intros Hs Hz Hb fuel. induction fuel as [|f IH]; [done|]. cbn [certlist_loop].
  case_if; [|lia]. rewrite Hz, bind_Ok. case_if; [|lia]. rewrite Hb, bind_Ok.
  by rewrite Z.add_0_r, Z.sub_0_r.
Qed.

Lemma certlist_zero_size_diverges_witness :
  certlist_loop (fun _ => Ok (@None unit)) 1000 (zeros 28) 0 28 = NoFuel.
Proof.
  apply (certlist_zero_size_diverges (fun _ => Ok (@None unit)) (zeros 28) 0 28 ltac:(lia) eq_refl eq_refl 1000).
Defined.
