(* ===== verification/KeyList.v ===== *)
(** * The lists of keys of MokManager.c

    MokManager works on a database of EFI_SIGNATURE_LISTs through an array of
    MokListNodes, one for each list, that point into the buffer of the variable.
    Deleting hashes moves bytes in that buffer, so the functions that delete take
    and return the buffer together with the nodes.  The file models is_sha2_hash,
    sha_size, is_valid_siglist, count_keys, build_mok_list, write_back_mok_list
    (the bytes it stores), delete_cert, match_hash, mem_move, delete_hash_in_list,
    delete_hash_list and the loop of delete_keys. *)
From stdpp Require Import base list numbers option sets.
From Stdlib Require Import ZArith Lia.
From S2P Require Import Prelude.
From S2P Require Import Efi.
From S2P Require Import Esl.
Local Open Scope Z_scope.

(** ** Types of lists *)
Definition EFI_CERT_SHA224_GUID : EFI_GUID :=
  guid 0xb6e5233 0xa65c 0x44c9 [0x94; 0x7; 0xd9; 0xab; 0x83; 0xbf; 0xc8; 0xbd].
Definition EFI_CERT_SHA384_GUID : EFI_GUID :=
  guid 0xff3e5307 0x9fd0 0x48c9 [0x85; 0xf1; 0x8a; 0xd5; 0x6c; 0x70; 0x1e; 0x1].
Definition EFI_CERT_SHA512_GUID : EFI_GUID :=
  guid 0x93e0fae 0xa6c4 0x4f50 [0x9f; 0x1b; 0xd4; 0x1e; 0x2b; 0x89; 0xc1; 0x9a].

Definition is_sha2_hash (type : EFI_GUID) : bool :=
  if bytes_eqb type EFI_CERT_SHA224_GUID then true
  else if bytes_eqb type EFI_CERT_SHA256_GUID then true
  else if bytes_eqb type EFI_CERT_SHA384_GUID then true
  else if bytes_eqb type EFI_CERT_SHA512_GUID then true
  else false.

Definition sha_size (type : EFI_GUID) : Z :=
  if bytes_eqb type EFI_CERT_SHA1_GUID then 20
  else if bytes_eqb type EFI_CERT_SHA224_GUID then 28
  else if bytes_eqb type EFI_CERT_SHA256_GUID then 32
  else if bytes_eqb type EFI_CERT_SHA384_GUID then 48
  else if bytes_eqb type EFI_CERT_SHA512_GUID then 64
  else 0.

Definition is_valid_siglist (type : EFI_GUID) (SigSize : Z) : bool :=
  if bytes_eqb type X509_GUID && negb (SigSize =? 0) then true
  else if negb (is_sha2_hash type) then false
  else
    let hash_sig_size := u32 (sha_size type + sizeof_EFI_GUID) in
    if negb (SigSize =? hash_sig_size) then false else true.

(** ** From the bytes to the nodes

    Mok is NULL or a pointer into the buffer. *)
Record MokListNode : Type := {
  MokSize : Z;
  MokPtr : option Z;
  MokType : EFI_GUID
}.

Fixpoint count_loop (fuel : nat) (Data : list Z) (DataSize CertList dbsize MokNum : Z) : res Z :=
  match fuel with
  | O => NoFuel
  | S f =>
      if negb (0 <? dbsize) then Ok MokNum
      else
        lsz ← SignatureListSize Data CertList;
        if dbsize <? lsz then Ok MokNum
        else if DataSize <? CertList + sizeof_EFI_SIGNATURE_LIST then Ok 0
        else
          ssz ← SignatureSize Data CertList;
          if lsz <=? ssz then Ok 0
          else
            type ← SignatureType Data CertList;
            if negb (is_valid_siglist type ssz) then Ok 0
            else count_loop f Data DataSize (CertList + lsz) (dbsize - lsz) (u32 (MokNum + 1))
  end.

Definition count_keys (Data : list Z) (DataSize : Z) : res Z :=
  count_loop (S (length Data)) Data DataSize 0 DataSize 0.

(** [nodes] are the entries of the array that have been set; setting one behind
    its end is a fault. *)
Fixpoint build_loop (fuel : nat) (num : Z) (Data : list Z) (DataSize CertList dbsize : Z) (nodes : list MokListNode)
  : res (option (list MokListNode)) :=
  match fuel with
  | O => NoFuel
  | S f =>
      if negb (0 <? dbsize) then Ok (Some nodes)
      else
        lsz ← SignatureListSize Data CertList;
        if dbsize <? lsz then Ok (Some nodes)
        else if (DataSize <? CertList + sizeof_EFI_SIGNATURE_LIST) || (lsz =? 0) then Ok None
        else
          hsz ← SignatureHeaderSize Data CertList;
          let Cert := CertList + sizeof_EFI_SIGNATURE_LIST + hsz in
          ssz ← SignatureSize Data CertList;
          if (DataSize <? Cert + sizeof_EFI_SIGNATURE_DATA) || (ssz <=? sizeof_EFI_GUID) then Ok None
          else if num <=? zlen nodes then Fault
          else
            type ← SignatureType Data CertList;
            let '(size, ptr) :=
              if bytes_eqb type X509_GUID
              then (u32 (ssz - sizeof_EFI_GUID), Cert + sizeof_EFI_GUID)
              else (u32 (lsz - sizeof_EFI_SIGNATURE_LIST), Cert) in
            if u64 (DataSize - ptr) <? size then Ok None
            else build_loop f num Data DataSize (CertList + lsz) (dbsize - lsz)
                   (nodes ++ [{| MokSize := size; MokPtr := Some ptr; MokType := type |}])
  end.

Definition build_mok_list (alloc : bool) (num : Z) (Data : list Z) (DataSize : Z) : res (option (list MokListNode)) :=
  if negb alloc then Ok None else build_loop (S (length Data)) num Data DataSize 0 DataSize [].

(** ** Deleting *)

(** [n] bytes behind a pointer that may be NULL. *)
Definition behind_ptr (m : list Z) (ptr : option Z) (n : Z) : res (list Z) :=
  match ptr with
  | Some i => rdn m i n
  | None => if n =? 0 then Ok [] else Fault
  end.

Definition clear_node (n : MokListNode) : MokListNode :=
  {| MokSize := 0; MokPtr := None; MokType := MokType n |}.

(** The key is in the buffer [Del], the nodes point into [Data]. *)
Fixpoint delete_cert (Del : list Z) (key : option Z) (key_size : Z) (Data : list Z) (mok : list MokListNode)
  : res (list MokListNode) :=
  match mok with
  | [] => Ok []
  | n :: mok =>
      n ← (if negb (bytes_eqb (MokType n) X509_GUID) then Ok n
           else if MokSize n =? key_size then
             a ← behind_ptr Del key key_size;
             b ← behind_ptr Data (MokPtr n) key_size;
             Ok (if bytes_eqb a b then clear_node n else n)
           else Ok n);
      mok ← delete_cert Del key key_size Data mok;
      Ok (n :: mok)
  end.

(** [k] entries are left; None is -1. *)
Fixpoint match_loop (k : nat) (i : Z) (Del : list Z) (hash hash_size : Z) (Data : list Z) (ptr : Z) : res (option Z) :=
  match k with
  | O => Ok None
  | S k =>
      a ← rdn Del hash hash_size;
      b ← rdn Data ptr hash_size;
      if bytes_eqb a b then Ok (Some i)
      else match_loop k (i + 1) Del hash hash_size Data (ptr + (hash_size + sizeof_EFI_GUID))
  end.

Definition match_hash (Del : list Z) (hash hash_size start : Z) (Data : list Z) (hash_list list_num : Z) : res (option Z) :=
  match_loop (Z.to_nat (list_num - start)) start Del hash hash_size Data (hash_list + sizeof_EFI_GUID).

(** Byte by byte, in place. *)
Fixpoint mem_move (n : nat) (m : list Z) (dest src : Z) : res (list Z) :=
  match n with
  | O => Ok m
  | S n =>
      b ← rd m src;
      m ← wr m dest b;
      mem_move n m (dest + 1) (src + 1)
  end.

Fixpoint delete_matches (fuel : nat) (Del : list Z) (hash hash_size sig_size : Z) (Data : list Z) (n : MokListNode)
    (list_num : Z) (del_ind : option Z) : res (list Z * MokListNode) :=
  match del_ind with
  | None => Ok (Data, n)
  | Some del_ind =>
      match fuel with
      | O => NoFuel
      | S f =>
          if sig_size =? MokSize n then Ok (Data, clear_node n)
          else
            match MokPtr n with
            | None => Fault
            | Some mok =>
                let start := mok + u32 (del_ind * sig_size) in
                let end_ := start + sig_size in
                let remain := u32 (MokSize n - (del_ind + 1) * sig_size) in
                Data ← mem_move (Z.to_nat remain) Data start end_;
                let n := {| MokSize := u32 (MokSize n - sig_size); MokPtr := Some mok; MokType := MokType n |} in
                let list_num := u32 (list_num - 1) in
                del_ind ← match_hash Del hash hash_size del_ind Data mok list_num;
                delete_matches f Del hash hash_size sig_size Data n list_num del_ind
            end
      end
  end.

Fixpoint delete_hash_in_list (type : EFI_GUID) (Del : list Z) (hash hash_size : Z) (Data : list Z) (mok : list MokListNode)
  : res (list Z * list MokListNode) :=
  match mok with
  | [] => Ok (Data, [])
  | n :: mok =>
      let sig_size := u32 (hash_size + sizeof_EFI_GUID) in
      '(Data, n) ←
        (if negb (bytes_eqb (MokType n) type) || (MokSize n <? sig_size) then Ok (Data, n)
         else
           match MokPtr n with
           | None => Fault
           | Some p =>
               let list_num := MokSize n / sig_size in
               del_ind ← match_hash Del hash hash_size 0 Data p list_num;
               delete_matches (S (Z.to_nat list_num)) Del hash hash_size sig_size Data n list_num del_ind
           end);
      '(Data, mok) ← delete_hash_in_list type Del hash hash_size Data mok;
      Ok (Data, n :: mok)
  end.

Fixpoint delete_hashes (k : nat) (type : EFI_GUID) (Del : list Z) (hash hash_size sig_size : Z) (Data : list Z)
    (mok : list MokListNode) : res (list Z * list MokListNode) :=
  match k with
  | O => Ok (Data, mok)
  | S k =>
      '(Data, mok) ← delete_hash_in_list type Del hash hash_size Data mok;
      delete_hashes k type Del (hash + sig_size) hash_size sig_size Data mok
  end.

Definition delete_hash_list (type : EFI_GUID) (Del : list Z) (hash_list list_size : Z) (Data : list Z)
    (mok : list MokListNode) : res (list Z * list MokListNode) :=
  let hash_size := sha_size type in
  let sig_size := u32 (hash_size + sizeof_EFI_GUID) in
  if list_size <? sig_size then Ok (Data, mok)
  else
    let hash_num := list_size / sig_size in
    delete_hashes (Z.to_nat hash_num) type Del (hash_list + sizeof_EFI_GUID) hash_size sig_size Data mok.

(** The loop over the keys to delete. *)
Fixpoint search_and_destroy (Del : list Z) (del_key : list MokListNode) (Data : list Z) (mok : list MokListNode)
  : res (list Z * list MokListNode) :=
  match del_key with
  | [] => Ok (Data, mok)
  | d :: del_key =>
      '(Data, mok) ←
        (if bytes_eqb (MokType d) X509_GUID then
           mok ← delete_cert Del (MokPtr d) (MokSize d) Data mok;
           Ok (Data, mok)
         else if is_sha2_hash (MokType d) then
           match MokPtr d with
           | None => Fault
           | Some hash_list => delete_hash_list (MokType d) Del hash_list (MokSize d) Data mok
           end
         else Ok (Data, mok));
      search_and_destroy Del del_key Data mok
  end.

(** ** From the nodes to the bytes *)
Fixpoint written_size (nodes : list MokListNode) : Z :=
  match nodes with
  | [] => 0
  | n :: nodes =>
      (match MokPtr n with
       | None => 0
       | Some _ =>
           sizeof_EFI_SIGNATURE_LIST + (if bytes_eqb (MokType n) X509_GUID then sizeof_EFI_GUID else 0) + MokSize n
       end) + written_size nodes
  end.

(** One list at [ptr] of the buffer; the result has its size too. *)
Definition write_node (Data : list Z) (type : EFI_GUID) (size mok : Z) (out : list Z) (ptr : Z) : res (list Z * Z) :=
  out ← wrn out ptr type;
  out ← wr_le out (ptr + 20) 4 0;
  if bytes_eqb type X509_GUID then
    let lsz := u32 (size + sizeof_EFI_SIGNATURE_LIST + sizeof_EFI_GUID) in
    out ← wr_le out (ptr + 16) 4 lsz;
    out ← wr_le out (ptr + 24) 4 (u32 (size + sizeof_EFI_GUID));
    out ← wrn out (ptr + sizeof_EFI_SIGNATURE_LIST) SHIM_LOCK_GUID;
    d ← rdn Data mok size;
    out ← wrn out (ptr + sizeof_EFI_SIGNATURE_LIST + sizeof_EFI_GUID) d;
    Ok (out, lsz)
  else
    let lsz := u32 (size + sizeof_EFI_SIGNATURE_LIST) in
    out ← wr_le out (ptr + 16) 4 lsz;
    out ← wr_le out (ptr + 24) 4 (u32 (sha_size type + sizeof_EFI_GUID));
    d ← rdn Data mok size;
    out ← wrn out (ptr + sizeof_EFI_SIGNATURE_LIST) d;
    Ok (out, lsz).

Fixpoint write_nodes (Data : list Z) (nodes : list MokListNode) (out : list Z) (ptr : Z) : res (list Z) :=
  match nodes with
  | [] => Ok out
  | n :: nodes =>
      match MokPtr n with
      | None => write_nodes Data nodes out ptr
      | Some mok =>
          '(out, lsz) ← write_node Data (MokType n) (MokSize n) mok out ptr;
          write_nodes Data nodes out (ptr + lsz)
      end
  end.

(** ** Any bytes: the loops end and the nodes stay inside the data *)
Lemma sized_read m i n v : rd_le m i n = Ok v -> 0 <= i /\ i + n <= zlen m.
Proof. unfold rd_le. intros (bs & Hr & _)%bind_inv. apply rdn_length in Hr. lia. Qed.

(** What a turn of count_keys has checked. *)
Lemma count_step f Data DataSize cl db k n :
  bytes Data -> n <> 0 -> count_loop (S f) Data DataSize cl db k = Ok n ->
  (n = k /\ (db <= 0 \/ 0 < db /\ exists lsz, SignatureListSize Data cl = Ok lsz /\ db < lsz)) \/
  (exists lsz ssz type, 0 < db /\ SignatureListSize Data cl = Ok lsz /\ SignatureSize Data cl = Ok ssz /\
     SignatureType Data cl = Ok type /\ 0 <= ssz < lsz /\ lsz < 2 ^ 32 /\ lsz <= db /\
     cl + sizeof_EFI_SIGNATURE_LIST <= DataSize /\ is_valid_siglist type ssz = true /\
     count_loop f Data DataSize (cl + lsz) (db - lsz) (u32 (k + 1)) = Ok n).
Proof.
  intros Hb Hn. cbn [count_loop]. destruct (0 <? db) eqn:Edb; cbn [negb]; bool_to_prop; [|intros [= ->]; left; auto].
  intros (lsz & Hl & Hr)%bind_inv. destruct (db <? lsz) eqn:Ec; bool_to_prop.
  { injection Hr as ->. left. split; [done|]. right. eauto. }
  destruct (DataSize <? _) eqn:Eb; bool_to_prop; [congruence|]. apply bind_inv in Hr as (ssz & Hs & Hr).
  destruct (lsz <=? ssz) eqn:Es; bool_to_prop; [congruence|]. apply bind_inv in Hr as (type & Ht & Hr).
  destruct (is_valid_siglist type ssz) eqn:Ev; cbn [negb] in Hr; [|congruence].
  pose proof (rd_le_value _ _ _ _ Hb Hs). pose proof (rd_le_value _ _ _ _ Hb Hl).
  right. exists lsz, ssz, type. split_and!; try done; lia.
Qed.

Lemma count_loop_terminates Data DataSize f : bytes Data -> forall cl db k,
  (0 < f)%nat -> 0 <= cl -> zlen Data - cl < Z.of_nat f -> terminates (count_loop f Data DataSize cl db k).
Proof.
  intros Hb. induction f as [|f IH]; intros cl db k H0 Hc Hf; [lia|]. cbn [count_loop].
  terminates_step; [done|]. terminates_step; [by apply terminates_rd_le|].
  terminates_step; [done|]. terminates_step; [done|]. terminates_step; [by apply terminates_rd_le|].
  match goal with |- terminates (if ?b then _ else _) => destruct b eqn:Es end; [done|]. bool_to_prop.
  terminates_step; [apply terminates_rdn|]. terminates_step; [done|].
  match goal with Hl : SignatureListSize _ _ = Ok ?l, Hs : SignatureSize _ _ = Ok ?s |- _ =>
    pose proof (sized_read _ _ _ _ Hl); pose proof (rd_le_value _ _ _ _ Hb Hs) end.
  apply IH; lia.
Qed.

(** Every node is inside the data. *)
Definition node_inside (DataSize : Z) (n : MokListNode) : Prop :=
  exists p, MokPtr n = Some p /\ 0 <= p /\ 0 <= MokSize n /\ p + MokSize n <= DataSize.

(** The walk of build_mok_list is the one of count_keys: when that counted the
    lists, the array is large enough, nothing is read outside the buffer, and it
    is filled. *)
Lemma build_loop_safe Data DataSize f : bytes Data -> zlen Data < 2 ^ 32 -> DataSize <= zlen Data ->
  forall cl db nodes n, 0 <= cl -> n <> 0 -> zlen nodes + Z.of_nat f < 2 ^ 32 -> Forall (node_inside DataSize) nodes ->
  count_loop f Data DataSize cl db (zlen nodes) = Ok n ->
  zlen nodes <= n /\
  exists r, build_loop f n Data DataSize cl db nodes = Ok r /\
    forall nodes', r = Some nodes' -> zlen nodes' = n /\ Forall (node_inside DataSize) nodes'.
Proof.
  intros Hb Hz Hds. induction f as [|f IH]; intros cl db nodes n Hcl Hn Hfit HF Hc; [done|].
  cbn [build_loop]. destruct (count_step _ _ _ _ _ _ _ Hb Hn Hc) as
    [(-> & [Hdb | (Hdb & lsz & Hl & Hlt)]) | (lsz & ssz & type & Hdb & Hl & Hs & Ht & Hsz & Hmax & Hle & Hin & Hv & Hnext)].
  - split; [lia|]. rewrite (proj2 (Z.ltb_ge 0 db)) by lia. cbn [negb]. eexists. split; [done|]. by intros ? [= <-].
  - split; [lia|]. rewrite (proj2 (Z.ltb_lt 0 db)) by lia. cbn [negb]. rewrite Hl, bind_Ok, (proj2 (Z.ltb_lt db lsz)) by lia.
    eexists. split; [done|]. by intros ? [= <-].
  - pose proof (zlen_nonneg nodes). rewrite u32_small in Hnext by lia. rewrite (proj2 (Z.ltb_lt 0 db)) by lia. cbn [negb].
    rewrite Hl, bind_Ok, (proj2 (Z.ltb_ge db lsz)) by lia. rewrite (proj2 (Z.ltb_ge DataSize _)) by lia.
    rewrite (proj2 (Z.eqb_neq lsz 0)) by lia. cbn [orb]. unfold sizeof_EFI_SIGNATURE_LIST in *.
    destruct (rdn_in_range Data (cl + 20) 4) as [hb Hh]; [lia..|].
    assert (Hh' : SignatureHeaderSize Data cl = Ok (le_combine hb)) by (unfold SignatureHeaderSize, rd_le; by rewrite Hh).
    pose proof (rd_le_value _ _ _ _ Hb Hh') as Hhr. rewrite Hh', bind_Ok, Hs, bind_Ok. set (hsz := le_combine hb) in *.
    assert (Hcount : zlen nodes < n).
    { assert (Hgen : forall nd, node_inside DataSize nd -> zlen (nodes ++ [nd]) <= n).
      { intros nd Hnd. apply (IH (cl + lsz) (db - lsz)); [lia|done|zlia|by apply Forall_app_2; [|constructor]|].
        replace (zlen (nodes ++ [nd])) with (zlen nodes + 1) by zlia. done. }
      specialize (Hgen {| MokSize := 0; MokPtr := Some 0; MokType := [] |}). rewrite zlen_app in Hgen.
      assert (zlen nodes + 1 <= n) by (apply Hgen; exists 0; cbn; split_and!; done || lia). lia. }
    split; [lia|]. destruct (_ || _) eqn:Eo; [eexists; by split|]. bool_to_prop.
    rewrite (proj2 (Z.leb_gt n _)) by lia. rewrite Ht, bind_Ok.
    unfold sizeof_EFI_SIGNATURE_DATA, sizeof_EFI_GUID in *.
    assert (Hgo : forall size ptr, 0 <= size -> 0 <= ptr <= DataSize ->
      exists r, (if u64 (DataSize - ptr) <? size then Ok None
        else build_loop f n Data DataSize (cl + lsz) (db - lsz)
          (nodes ++ [{| MokSize := size; MokPtr := Some ptr; MokType := type |}])) = Ok r /\
        forall nodes', r = Some nodes' -> zlen nodes' = n /\ Forall (node_inside DataSize) nodes').
    { intros size ptr Hsize Hptr. rewrite u64_small by lia. destruct (_ <? size) eqn:Eend; [eexists; by split|]. bool_to_prop.
      apply (IH (cl + lsz) (db - lsz)); [lia|done|zlia| |].
      - apply Forall_app_2; [done|]. constructor; [|done]. exists ptr. cbn. split_and!; done || lia.
      - replace (zlen (nodes ++ [_])) with (zlen nodes + 1) by zlia. done. }
    destruct (bytes_eqb type X509_GUID); apply Hgo; pose proof (u32_range (ssz - 16)); pose proof (u32_range (lsz - 28)); lia.
Qed.

(** Whatever bytes a key variable holds, count_keys ends; and when it counted
    the lists, build_mok_list ends too, never leaves the buffer or the array that
    was allocated for that number of lists, and either reports an error or fills
    the whole array with keys that lie inside the data. *)
Theorem build_mok_list_inside Data DataSize :
  bytes Data -> zlen Data < 2 ^ 31 -> 0 <= DataSize <= zlen Data ->
  terminates (count_keys Data DataSize) /\
  forall num, count_keys Data DataSize = Ok num -> num <> 0 ->
  exists r, build_mok_list true num Data DataSize = Ok r /\
    forall nodes, r = Some nodes -> zlen nodes = num /\ Forall (node_inside DataSize) nodes.
Proof.
  intros Hb Hz Hds. split; [apply count_loop_terminates; try done; unfold zlen in *; lia|].
  intros num Hc Hn. unfold build_mok_list. cbn [negb].
  apply (build_loop_safe Data DataSize _ Hb ltac:(lia) ltac:(lia) 0 DataSize [] num); try done; unfold zlen in *; cbn [length]; lia.
Qed.

(** The size of a list is read before it is checked that there is a list: a
    variable of a few bytes is read past the end of the buffer it was copied to. *)
Theorem count_keys_short_variable d :
  d <> [] -> zlen d < 17 -> count_keys (d ++ [0; 0; 0]) (zlen d) = Fault.
Proof.
  intros Hne Hd. unfold count_keys. cbn [count_loop]. destruct d as [|b d]; [done|]. zlen_simpl.
  rewrite (proj2 (Z.ltb_lt 0 _)) by zlia. cbn [negb]. unfold SignatureListSize, rd_le, rdn. zlen_simpl.
  rewrite (proj2 (Z.leb_gt (0 + 16 + 4) _)) by zlia. by rewrite andb_false_r.
Qed.

(** ** Databases of keys

    A list that MokManager handles as a whole: one certificate, or digests of the
    size their type says. *)
Definition key_list (l : esl) : Prop :=
  esl_wf l /\ esl_header l = [] /\
  ((esl_type l = X509_GUID /\ exists s, esl_sigs l = [s] /\ snd s <> []) \/
   (is_sha2_hash (esl_type l) = true /\ esl_sigs l <> [] /\ esl_sigsize l = sha_size (esl_type l) + sizeof_EFI_GUID)).
Definition distinct (l : esl) : Prop := NoDup (map snd (esl_sigs l)).

Lemma sha2_not_x509 t : is_sha2_hash t = true -> bytes_eqb t X509_GUID = false.
Proof.
  unfold is_sha2_hash, bytes_eqb. intros H. apply bool_decide_eq_false. intros ->. by vm_compute in H.
Qed.
Lemma x509_not_sha2 t : bytes_eqb t X509_GUID = true -> is_sha2_hash t = false.
Proof. intros Ht. destruct (is_sha2_hash t) eqn:E; [|done]. by rewrite (sha2_not_x509 t E) in Ht. Qed.
Lemma sha_size_range t : 0 <= sha_size t <= 64.
Proof. unfold sha_size. repeat (destruct (bytes_eqb t _); [lia|]). lia. Qed.
Lemma sha2_size t : is_sha2_hash t = true -> 28 <= sha_size t.
Proof.
  unfold is_sha2_hash, sha_size. destruct (bytes_eqb t EFI_CERT_SHA1_GUID) eqn:E1.
  - apply bool_decide_eq_true in E1 as ->. by vm_compute.
  - repeat (destruct (bytes_eqb t _); [lia|]). done.
Qed.

(** What a node covers of its list, and what is in front of it. *)
Definition is_x509 (l : esl) : bool := bytes_eqb (esl_type l) X509_GUID.
Definition content (l : esl) : list Z := if is_x509 l then concat (map snd (esl_sigs l)) else sigs_bytes l.
Definition lead (l : esl) : list Z :=
  esl_type l ++ le_split 4 (esl_size l) ++ le_split 4 0 ++ le_split 4 (esl_sigsize l) ++
  (if is_x509 l then concat (map fst (esl_sigs l)) else []).

Lemma key_list_x509 l : key_list l -> is_x509 l = true ->
  exists o d, esl_sigs l = [(o, d)] /\ content l = d /\ zlen d = esl_sigsize l - 16 /\ zlen o = 16 /\ d <> [].
Proof.
  intros (Hwf & _ & [(_ & [o d] & Hs & Hd) | (Ht & _)]) Hx; [|unfold is_x509 in Hx; by rewrite (sha2_not_x509 _ Ht) in Hx].
  exists o, d. destruct Hwf as (_ & _ & _ & HF). unfold content. rewrite Hx, Hs in *. cbn in *.
  apply Forall_cons in HF as [[Ho Hl] _]. cbn in *. rewrite app_nil_r. split_and!; try done. unfold zlen. by rewrite Ho.
Qed.
Lemma key_list_hash l : key_list l -> is_x509 l = false ->
  is_sha2_hash (esl_type l) = true /\ esl_sigs l <> [] /\ esl_sigsize l = sha_size (esl_type l) + 16 /\
  content l = concat (map sig_bytes (esl_sigs l)).
Proof.
  intros (Hwf & _ & [(Ht & _) | (Ht & Hn & Hs)]) Hx.
  { unfold is_x509 in Hx. rewrite Ht in Hx. unfold bytes_eqb in Hx. by rewrite bool_decide_true in Hx. }
  unfold content. rewrite Hx. by split_and!.
Qed.

Lemma lead_content l : key_list l -> esl_bytes l = lead l ++ content l.
Proof.
  intros Hk. pose proof Hk as (_ & Hh & _). unfold esl_bytes, lead, content, sigs_bytes. rewrite Hh.
  destruct (is_x509 l) eqn:Hx; [|by rewrite <- !app_assoc].
  destruct (key_list_x509 l Hk Hx) as (o & d & -> & _). cbn. by rewrite !app_nil_r, <- !app_assoc.
Qed.
Lemma lead_length l : key_list l -> zlen (lead l) = if is_x509 l then 44 else 28.
Proof.
  intros Hk. pose proof Hk as (Hwf & _ & _). destruct (esl_size_range l Hwf) as [_ Ht].
  unfold lead. destruct (is_x509 l) eqn:Hx; [|zlen_simpl; lia].
  destruct (key_list_x509 l Hk Hx) as (o & d & -> & _ & _ & Ho & _). cbn. zlen_simpl. lia.
Qed.
Lemma node_content_length l : key_list l -> zlen (content l) = esl_size l - (if is_x509 l then 44 else 28).
Proof.
  intros Hk. pose proof (lead_length l Hk). pose proof Hk as (Hwf & _ & _).
  pose proof (esl_bytes_length l Hwf) as Hb. rewrite (lead_content l Hk), zlen_app in Hb. lia.
Qed.
Lemma content_bounds l : key_list l -> 0 < zlen (content l) < 2 ^ 32 - 28.
Proof.
  intros Hk. pose proof (node_content_length l Hk) as Hc. pose proof Hk as (Hwf & _ & _).
  destruct (esl_size_range l Hwf) as [Hs _]. destruct (is_x509 l) eqn:Hx; [|].
  - destruct (key_list_x509 l Hk Hx) as (o & d & _ & Hd & _ & _ & Hn). rewrite Hd in *. destruct d; [done|]. zlia.
  - split; [|lia]. destruct (key_list_hash l Hk Hx) as (Ht & Hn & Hsz & _). pose proof (sha2_size _ Ht).
    destruct Hwf as (_ & _ & _ & _). unfold esl_size, sizeof_EFI_SIGNATURE_LIST in Hc. destruct Hk as (_ & Hh & _).
    rewrite Hh in Hc. destruct (esl_sigs l) as [|s sigs]; [done|]. zlen_simpl. pose proof (zlen_nonneg sigs). nia.
Qed.

(** ** The nodes of a database *)
Definition live (ol : option esl) : list Z := from_option content [] ol.
Definition node_at (ptr : Z) (n : MokListNode) (ol : option esl) : Prop :=
  match ol with
  | Some l => n = {| MokSize := zlen (content l); MokPtr := Some ptr; MokType := esl_type l |}
  | None => MokPtr n = None /\ MokSize n = 0
  end.

(** The buffer from [base] on holds the contents of the nodes, one behind the
    other with anything in between. *)
Inductive represents : Z -> list Z -> list MokListNode -> list (option esl) -> Prop :=
| rep_nil base D : represents base D [] []
| rep_cons base pre post n ns l ls :
    node_at (base + zlen pre) n l -> represents (base + zlen pre + zlen (live l)) post ns ls ->
    represents base (pre ++ live l ++ post) (n :: ns) (l :: ls).

Lemma rep_skip base j D ns ls : represents (base + zlen j) D ns ls -> represents base (j ++ D) ns ls.
Proof.
  intros H. remember (base + zlen j) as b eqn:Hb. revert base Hb. destruct H; intros base' ->; [constructor|].
  rewrite app_assoc. constructor.
  - rewrite zlen_app. by rewrite Z.add_assoc.
  - rewrite zlen_app. by rewrite Z.add_assoc.
Qed.

Lemma valid_key_list l : key_list l -> is_valid_siglist (esl_type l) (esl_sigsize l) = true /\ 16 < esl_sigsize l < esl_size l.
Proof.
  intros Hk. pose proof (content_bounds l Hk). pose proof (node_content_length l Hk) as Hc. pose proof Hk as (Hwf & Hh & _).
  unfold is_valid_siglist. fold (is_x509 l). destruct (is_x509 l) eqn:Hx.
  - destruct (key_list_x509 l Hk Hx) as (o & d & _ & Hd & Hl & _ & _). rewrite Hd in *. rewrite (proj2 (Z.eqb_neq _ 0)) by lia.
    split; [done|lia].
  - destruct (key_list_hash l Hk Hx) as (Ht & Hn & Hsz & _). rewrite Ht. cbn [andb negb]. pose proof (sha_size_range (esl_type l)).
    pose proof (sha2_size _ Ht). unfold sizeof_EFI_GUID. rewrite u32_small, Hsz, Z.eqb_refl by lia. split; [done|].
    unfold esl_size, sizeof_EFI_SIGNATURE_LIST. rewrite Hsz, Hh, zlen_nil. destruct (esl_sigs l) as [|s sigs]; [done|]. rewrite zlen_cons.
    pose proof (zlen_nonneg sigs). nia.
Qed.

Lemma encode_app l db q p : p ++ esl_encode (l :: db) ++ q = p ++ esl_bytes l ++ esl_encode db ++ q.
Proof. unfold esl_encode. cbn [map concat]. by rewrite <- app_assoc. Qed.

Lemma count_loop_ok f p db q k :
  Forall key_list db -> (length db < f)%nat -> 0 <= k -> k + zlen db < 2 ^ 32 ->
  count_loop f (p ++ esl_encode db ++ q) (zlen p + zlen (esl_encode db)) (zlen p) (zlen (esl_encode db)) k = Ok (k + zlen db).
Proof.
  intros HF. revert f p k. induction HF as [|l db Hk HF IH]; intros [|f] p k Hf H0 Hmax; cbn [length] in *; try lia.
  { cbn [count_loop]. rewrite Z.ltb_irrefl. cbn [negb]. f_equal. rewrite zlen_nil. lia. }
  pose proof Hk as (Hwf & _ & _). pose proof (esl_bytes_length l Hwf) as Hlen. destruct (valid_key_list l Hk) as [Hv Hsz].
  rewrite encode_app. replace (zlen (esl_encode (l :: db))) with (esl_size l + zlen (esl_encode db)) by (rewrite <- Hlen, <- zlen_app; done).
  rewrite zlen_cons in Hmax. cbn [count_loop]. rewrite (proj2 (Z.ltb_lt 0 _)) by zlia. cbn [negb].
  rewrite SignatureListSize_ok, bind_Ok by done. rewrite (proj2 (Z.ltb_ge _ (esl_size l))) by zlia.
  assert (28 <= esl_size l).
  { pose proof (node_content_length l Hk). pose proof (content_bounds l Hk). destruct (is_x509 l); lia. }
  unfold sizeof_EFI_SIGNATURE_LIST. rewrite (proj2 (Z.ltb_ge _ (zlen p + 28))) by zlia.
  rewrite SignatureSize_ok, bind_Ok by done. rewrite (proj2 (Z.leb_gt _ _)) by lia.
  rewrite SignatureType_ok, bind_Ok, Hv by done. cbn [negb]. pose proof (zlen_nonneg db). rewrite u32_small by lia.
  specialize (IH f (p ++ esl_bytes l) (k + 1) ltac:(lia) ltac:(lia) ltac:(lia)). rewrite <- app_assoc, zlen_app, Hlen in IH.
  replace (esl_size l + zlen (esl_encode db) - esl_size l) with (zlen (esl_encode db)) by lia.
  rewrite Z.add_assoc. rewrite IH, zlen_cons. f_equal. lia.
Qed.

Lemma build_loop_ok f p db q num nodes :
  Forall key_list db -> (length db < f)%nat -> zlen nodes + zlen db <= num -> zlen p + zlen (esl_encode db) < 2 ^ 64 ->
  exists ns,
    build_loop f num (p ++ esl_encode db ++ q) (zlen p + zlen (esl_encode db)) (zlen p) (zlen (esl_encode db)) nodes
      = Ok (Some (nodes ++ ns)) /\
    represents (zlen p) (esl_encode db ++ q) ns (map Some db).
Proof.
  intros HF. revert f p nodes. induction HF as [|l db Hk HF IH]; intros [|f] p nodes Hf Hnum H64; cbn [length] in *; try lia.
  { cbn [build_loop]. rewrite Z.ltb_irrefl. cbn [negb]. exists []. rewrite app_nil_r. split; [done|constructor]. }
  pose proof Hk as (Hwf & Hhd & _). pose proof (esl_bytes_length l Hwf) as Hlen. destruct (valid_key_list l Hk) as [Hv Hsz].
  pose proof (node_content_length l Hk) as Hc. pose proof (content_bounds l Hk) as Hcb. pose proof (lead_length l Hk) as Hll.
  destruct (esl_size_range l Hwf) as [Hr _]. rewrite zlen_cons in Hnum. pose proof (zlen_nonneg db). pose proof (zlen_nonneg p).
  assert (Henc : zlen (esl_encode (l :: db)) = esl_size l + zlen (esl_encode db)) by (rewrite <- Hlen, <- zlen_app; done).
  rewrite encode_app, Henc in *. cbn [build_loop]. pose proof (zlen_nonneg (esl_encode db)).
  rewrite (proj2 (Z.ltb_lt 0 _)) by lia. cbn [negb].
  rewrite SignatureListSize_ok, bind_Ok by done. rewrite (proj2 (Z.ltb_ge _ (esl_size l))) by lia.
  unfold sizeof_EFI_SIGNATURE_LIST, sizeof_EFI_SIGNATURE_DATA, sizeof_EFI_GUID.
  rewrite (proj2 (Z.ltb_ge _ (zlen p + 28))) by (destruct (is_x509 l); lia). rewrite (proj2 (Z.eqb_neq _ 0)) by lia. cbn [orb].
  rewrite SignatureHeaderSize_ok, bind_Ok, SignatureSize_ok, bind_Ok by done. rewrite Hhd, zlen_nil.
  assert (Hc17 : 45 <= esl_size l).
  { destruct (is_x509 l) eqn:Hx; [lia|]. destruct (key_list_hash l Hk Hx) as (Ht & Hn & Hs & _). pose proof (sha2_size _ Ht).
    unfold esl_size, sizeof_EFI_SIGNATURE_LIST. destruct (esl_sigs l) as [|s sigs]; [done|]. zlen_simpl. pose proof (zlen_nonneg sigs). rewrite Hhd, zlen_nil. nia. }
  rewrite (proj2 (Z.ltb_ge _ (zlen p + 28 + 0 + 17))) by lia. rewrite (proj2 (Z.leb_gt _ 16)) by lia. cbn [orb].
  rewrite (proj2 (Z.leb_gt num _)) by lia. rewrite SignatureType_ok, bind_Ok by done. fold (is_x509 l).
  set (nd := {| MokSize := zlen (content l); MokPtr := Some (zlen p + zlen (lead l)); MokType := esl_type l |}).
  destruct (IH f (p ++ esl_bytes l) (nodes ++ [nd])) as (ns & IHb & IHr); [lia|zlia|rewrite zlen_app, Hlen; lia|].
  rewrite <- (app_assoc p), zlen_app, Hlen, <- Z.add_assoc in IHb. rewrite zlen_app in IHr.
  assert (Hgo : forall size ptr, size = zlen (content l) -> ptr = zlen p + zlen (lead l) ->
    (if u64 (zlen p + (esl_size l + zlen (esl_encode db)) - ptr) <? size then Ok None
     else build_loop f num (p ++ esl_bytes l ++ esl_encode db ++ q) (zlen p + (esl_size l + zlen (esl_encode db))) (zlen p + esl_size l)
       (esl_size l + zlen (esl_encode db) - esl_size l) (nodes ++ [{| MokSize := size; MokPtr := Some ptr; MokType := esl_type l |}]))
    = Ok (Some (nodes ++ nd :: ns))).
  { intros size ptr -> ->. rewrite u64_small by (rewrite Hll; destruct (is_x509 l); lia).
    rewrite (proj2 (Z.ltb_ge _ _)) by (rewrite Hll; destruct (is_x509 l); lia).
    replace (esl_size l + zlen (esl_encode db) - esl_size l) with (zlen (esl_encode db)) by lia.
    rewrite <- app_assoc in IHb. exact IHb. }
  exists (nd :: ns). split.
  - destruct (is_x509 l) eqn:Hx; apply Hgo.
    + destruct (key_list_x509 l Hk Hx) as (o & d & _ & Hd & Hl & _ & _). rewrite Hd, Hl. apply u32_small. rewrite Hd in *. lia.
    + rewrite Hll. lia.
    + rewrite u32_small by lia. lia.
    + rewrite Hll. lia.
  - unfold esl_encode. cbn [map concat]. rewrite (lead_content l Hk), <- !app_assoc.
    apply (rep_cons _ _ _ nd ns (Some l)); [done|]. cbn [live from_option].
    replace (zlen p + zlen (lead l) + zlen (content l)) with (zlen p + zlen (esl_bytes l)) by (rewrite Hlen, Hll; destruct (is_x509 l); lia).
    done.
Qed.

(** Counting and building on a database of keys. *)
Lemma key_lists db q : Forall key_list db -> zlen (esl_encode db) < 2 ^ 32 ->
  count_keys (esl_encode db ++ q) (zlen (esl_encode db)) = Ok (zlen db) /\
  exists ns, build_mok_list true (zlen db) (esl_encode db ++ q) (zlen (esl_encode db)) = Ok (Some ns) /\
    represents 0 (esl_encode db ++ q) ns (map Some db).
Proof.
  intros HF Hmax. pose proof (esl_db_length db (Forall_impl _ _ _ HF (fun l H => proj1 H))) as Hl.
  assert (Hf : (length db < S (length (esl_encode db ++ q)))%nat) by (rewrite length_app; lia). split.
  - apply (count_loop_ok _ [] db q 0 HF Hf); [done|]. unfold zlen in *. lia.
  - apply (build_loop_ok _ [] db q (zlen db) [] HF Hf); [done|]. rewrite zlen_nil. lia.
Qed.

(** ** Deleting from a database *)
Definition with_sigs (l : esl) (sigs : list (list Z * list Z)) : esl :=
  {| esl_type := esl_type l; esl_header := esl_header l; esl_sigsize := esl_sigsize l; esl_sigs := sigs |}.
Definition nonempty (l : esl) : option esl := match esl_sigs l with [] => None | _ => Some l end.
Definition remove_key (t : EFI_GUID) (k : list Z) (l : esl) : option esl :=
  if bytes_eqb (esl_type l) t
  then nonempty (with_sigs l (filter (fun s => snd s <> k) (esl_sigs l)))
  else Some l.

(** On every list that is left. *)
Definition each (f : esl -> option esl) (ls : list (option esl)) : list (option esl) :=
  map (fun ol => match ol with Some l => f l | None => None end) ls.

Lemma with_sigs_same l : with_sigs l (esl_sigs l) = l.
Proof. by destruct l. Qed.

Definition key_ok (ol : option esl) : Prop := forall l, ol = Some l -> key_list l /\ distinct l.

Lemma key_list_filter l (P : list Z * list Z -> Prop) `{forall s, Decision (P s)} :
  key_list l -> filter P (esl_sigs l) <> [] -> key_list (with_sigs l (filter P (esl_sigs l))).
Proof.
  intros ((Ht & Hs & Hz & HF) & Hh & Hc) Hn. split_and!; [|done|].
  - split; [done|]. split; [done|]. split.
    + cbn. unfold esl_size in *. cbn [esl_header esl_sigsize esl_sigs with_sigs].
      pose proof (length_filter P (esl_sigs l)). unfold zlen in *. nia.
    + cbn [esl_sigs esl_sigsize with_sigs]. apply Forall_forall. intros s [_ Hin]%list_elem_of_filter.
      by apply (proj1 (Forall_forall _ _) HF).
  - destruct Hc as [(Hx & s & Es & Hd) | (Hx & _ & Hsz)]; [left|right]; cbn [esl_type esl_sigs with_sigs].
    + split; [done|]. exists s. rewrite Es in *. cbn in *. by destruct (decide (P s)).
    + done.
Qed.

Lemma remove_key_ok t k l : key_list l -> distinct l -> key_ok (remove_key t k l).
Proof.
  intros Hk Hd l'. unfold remove_key, nonempty. destruct (bytes_eqb _ _); [|by intros [= <-]].
  destruct (esl_sigs (with_sigs _ _)) eqn:E; [done|]. intros [= <-]. cbn [esl_sigs with_sigs] in E. split.
  - apply key_list_filter; [done|]. by rewrite E.
  - unfold distinct in *. cbn [esl_sigs with_sigs]. clear E Hk. induction (esl_sigs l) as [|s sigs IH]; [done|].
    apply NoDup_cons in Hd as [Hn Hd]. cbn. destruct (decide _); [|by apply IH]. cbn. apply NoDup_cons. split; [|by apply IH].
    intros Hin. apply Hn. apply list_elem_of_fmap in Hin as (s' & -> & [_ Hin]%list_elem_of_filter). apply list_elem_of_fmap. eauto.
Qed.

Section deletion.
Context (Del : list Z) (key : Z) (k : list Z) (Hkey : rdn Del key (zlen k) = Ok k).

(** *** Certificates *)
Lemma delete_cert_ok p D ns ls : represents (zlen p) D ns ls -> Forall key_ok ls ->
  exists ns', delete_cert Del (Some key) (zlen k) (p ++ D) ns = Ok ns' /\
    represents (zlen p) D ns' (each (remove_key X509_GUID k) ls).
Proof.
  intros H. remember (zlen p) as base eqn:Hp. revert p Hp.
  induction H as [|base pre post n ns l ls Hn Hr IH]; intros p ->; intros HF.
  { exists []. split; [done|constructor]. }
  apply Forall_cons in HF as [Hk HF].
  destruct (IH (p ++ pre ++ live l) ltac:(zlia) HF) as (ns' & IHd & IHr). rewrite <- !app_assoc in IHd.
  cbn [delete_cert each map]. fold (each (remove_key X509_GUID k) ls). rewrite IHd. destruct l as [l|]; cbn [live from_option] in *.
  - destruct (Hk l eq_refl) as [Hkl _]. cbn in Hn. subst n. cbn [MokType MokSize MokPtr]. fold (is_x509 l). unfold remove_key. fold (is_x509 l).
    destruct (is_x509 l) eqn:Hx; cbn [negb]; rewrite ?bind_Ok.
    2:{ exists ({| MokSize := zlen (content l); MokPtr := Some (zlen p + zlen pre); MokType := esl_type l |} :: ns').
        split; [done|]. apply (rep_cons _ _ _ _ _ (Some l)); done. }
    destruct (key_list_x509 l Hkl Hx) as (o & d & Hs & Hd & _). rewrite Hs, Hd in *. cbn [filter list_filter]. cbn [snd].
    assert (Hkeep : represents (zlen p) (pre ++ d ++ post)
      ({| MokSize := zlen d; MokPtr := Some (zlen p + zlen pre); MokType := esl_type l |} :: ns') (Some l :: each (remove_key X509_GUID k) ls)).
    { rewrite <- Hd in *. by apply (rep_cons _ _ _ _ _ (Some l)). }
    destruct (zlen d =? zlen k) eqn:El; bool_to_prop; rewrite ?bind_Ok.
    + cbn [behind_ptr]. rewrite Hkey, bind_Ok, <- El, (app_assoc p), (rdn_app_mid (p ++ pre)) by (done || zlia).
      rewrite !bind_Ok. unfold bytes_eqb. destruct (decide (d = k)) as [->|Hne].
      * rewrite bool_decide_true, decide_False by auto. eexists. split; [done|]. cbn.
        apply (rep_cons _ pre (k ++ post) _ ns' None); [done|]. cbn [live from_option]. rewrite zlen_nil, Z.add_0_r. by apply rep_skip.
      * rewrite bool_decide_false, decide_True by auto. eexists. split; [done|].
        rewrite <- Hs, with_sigs_same. unfold nonempty. rewrite Hs. done.
    + rewrite decide_True by congruence. eexists. split; [done|]. rewrite <- Hs, with_sigs_same. unfold nonempty. rewrite Hs. done.
  - destruct Hn as [Hn1 Hn2]. rewrite Hn2.
    assert (Hr' : exists n', (if negb (bytes_eqb (MokType n) X509_GUID) then Ok n
      else if 0 =? zlen k then a ← behind_ptr Del (Some key) (zlen k); b ← behind_ptr (p ++ pre ++ [] ++ post) (MokPtr n) (zlen k);
        Ok (if bytes_eqb a b then clear_node n else n) else Ok n) = Ok n' /\ MokPtr n' = None /\ MokSize n' = 0).
    { destruct (negb _); [by exists n|]. destruct (0 =? zlen k) eqn:E0; [|by exists n]. bool_to_prop.
      cbn [behind_ptr]. rewrite Hkey, bind_Ok, Hn1. cbn [behind_ptr]. rewrite <- E0. cbn. destruct (bytes_eqb k []); [|by exists n]. by exists (clear_node n). }
    destruct Hr' as (n' & Hr' & Hn'). cbn [app] in *. rewrite Hr', bind_Ok, bind_Ok. exists (n' :: ns'). split; [done|].
    by apply (rep_cons _ _ _ _ _ None).
Qed.
End deletion.

(** *** Digests *)
Definition sb (sigs : list (list Z * list Z)) : list Z := concat (map sig_bytes sigs).
Definition sized (n : Z) (s : list Z * list Z) : Prop := zlen (fst s) = 16 /\ zlen (snd s) = n.

Lemma sb_app a b : sb (a ++ b) = sb a ++ sb b.
Proof. unfold sb. by rewrite map_app, concat_app. Qed.
Lemma sb_cons o d b : sb ((o, d) :: b) = o ++ d ++ sb b.
Proof. unfold sb. cbn. unfold sig_bytes. cbn. by rewrite <- app_assoc. Qed.
Lemma sb_length n sigs : Forall (sized n) sigs -> zlen (sb sigs) = zlen sigs * (n + 16).
Proof.
  induction 1 as [|[o d] sigs [Ho Hd] _ IH]; [done|]. rewrite sb_cons, !zlen_app, zlen_cons, IH. cbn in *. lia.
Qed.

(** Moving bytes to the front over what is in between. *)
Lemma mem_move_ok B C : forall A x, x <> [] ->
  exists junk, zlen junk = zlen x /\
    mem_move (length B) (A ++ x ++ B ++ C) (zlen A) (zlen A + zlen x) = Ok (A ++ B ++ junk ++ C).
Proof.
  induction B as [|b B IH]; intros A x Hx; [by exists x|]. destruct x as [|x0 x]; [done|]. cbn [length mem_move].
  replace (A ++ (x0 :: x) ++ (b :: B) ++ C) with ((A ++ x0 :: x) ++ b :: B ++ C) by by rewrite <- app_assoc.
  rewrite rd_app_at by zlia. rewrite bind_Ok, <- app_assoc. cbn [app]. rewrite wr_app_at by done. rewrite bind_Ok.
  destruct (IH (A ++ [b]) (x ++ [b])) as (junk & Hj & Hm); [by destruct x|].
  exists junk. split; [zlia|]. rewrite <- !app_assoc in Hm. cbn [app] in Hm.
  replace (zlen A + 1) with (zlen (A ++ [b])) by zlia. replace (zlen A + zlen (x0 :: x) + 1) with (zlen (A ++ [b]) + zlen (x ++ [b])) by zlia.
  done.
Qed.

Section hashes.
Context (Del : list Z) (key : Z) (k : list Z) (Hkey : rdn Del key (zlen k) = Ok k).
Let ss : Z := zlen k + 16.

Lemma match_loop_none j : forall i p sigs q ptr,
  Forall (sized (zlen k)) sigs -> (j <= length sigs)%nat -> ptr = zlen p + 16 -> k ∉ map snd (take j sigs) ->
  match_loop j i Del key (zlen k) (p ++ sb sigs ++ q) ptr = Ok None.
Proof.
  induction j as [|j IH]; intros i p sigs q ptr HF Hj -> Hn; [done|]. destruct sigs as [|[o d] sigs]; [cbn in Hj; lia|].
  apply Forall_cons in HF as [[Ho Hd] HF]. cbn in Ho, Hd, Hn, Hj. apply not_elem_of_cons in Hn as [Hne Hn].
  cbn [match_loop]. rewrite Hkey, bind_Ok, sb_cons, <- !app_assoc, (app_assoc p), (rdn_app_mid (p ++ o)) by zlia.
  rewrite bind_Ok. unfold bytes_eqb. rewrite bool_decide_false by done.
  rewrite (app_assoc (p ++ o)). apply IH; [done|lia|unfold sizeof_EFI_GUID; zlia|done].
Qed.

Lemma match_loop_some a : forall j i p o b q ptr,
  Forall (sized (zlen k)) (a ++ (o, k) :: b) -> (length a < j)%nat -> ptr = zlen p + 16 -> k ∉ map snd a ->
  match_loop j i Del key (zlen k) (p ++ sb (a ++ (o, k) :: b) ++ q) ptr = Ok (Some (i + zlen a)).
Proof.
  induction a as [|[o' d] a IH]; intros [|j] i p o b q ptr HF Hj -> Hn; cbn [length] in Hj; try lia; cbn [app] in *;
    apply Forall_cons in HF as [[Ho Hd] HF]; cbn in Ho, Hd; cbn [match_loop];
    rewrite Hkey, bind_Ok, sb_cons, <- !app_assoc, (app_assoc p), (rdn_app_mid (p ++ _)) by zlia; rewrite bind_Ok; unfold bytes_eqb.
  - rewrite bool_decide_true by done. by rewrite zlen_nil, Z.add_0_r.
  - cbn in Hn. apply not_elem_of_cons in Hn as [Hne Hn]. rewrite bool_decide_false by done.
    rewrite (app_assoc (p ++ o')). rewrite IH; [|done|lia|unfold sizeof_EFI_GUID; zlia|done]. rewrite zlen_cons. do 2 f_equal. lia.
Qed.

(** One digest that occurs once. *)
Lemma delete_matches_once f p a o b q n :
  Forall (sized (zlen k)) (a ++ (o, k) :: b) -> k ∉ map snd a -> k ∉ map snd b -> MokPtr n = Some (zlen p) ->
  MokSize n = zlen (sb (a ++ (o, k) :: b)) -> MokSize n < 2 ^ 32 ->
  exists D' n', delete_matches (S f) Del key (zlen k) ss (p ++ sb (a ++ (o, k) :: b) ++ q) n (zlen (a ++ (o, k) :: b)) (Some (zlen a))
      = Ok (p ++ D', n') /\ zlen D' = zlen (sb (a ++ (o, k) :: b) ++ q) /\
    (a ++ b = [] -> n' = clear_node n /\ D' = sb (a ++ (o, k) :: b) ++ q) /\
    (a ++ b <> [] -> n' = {| MokSize := zlen (sb (a ++ b)); MokPtr := Some (zlen p); MokType := MokType n |} /\
       exists junk, D' = sb (a ++ b) ++ junk ++ q).
Proof.
  intros HF Ha Hb Hp Hn Hmax. pose proof (sb_length _ _ HF) as Hl.
  pose proof HF as [HFa HFb]%Forall_app. apply Forall_cons in HFb as [[Ho _] HFb]. cbn in Ho.
  pose proof (sb_length _ _ HFa) as Hla. pose proof (sb_length _ _ HFb) as Hlb.
  pose proof (zlen_nonneg k). pose proof (zlen_nonneg a). pose proof (zlen_nonneg b).
  rewrite Hn in Hmax. rewrite Hl, zlen_app, zlen_cons in Hmax. cbn [delete_matches]. rewrite Hn, Hl, zlen_app, zlen_cons. unfold ss.
  destruct (_ =? _) eqn:E; bool_to_prop.
  { assert (zlen a = 0 /\ zlen b = 0) as [Ea Eb] by nia. destruct a; [|zlia]. destruct b; [|zlia].
    eexists _, _. split; [done|]. split; [done|]. by split. }
  assert (Hab : a ++ b <> []) by (intros Hab; apply (f_equal zlen) in Hab; rewrite zlen_app, zlen_nil in Hab; nia).
  rewrite Hp, bind_Ok || rewrite Hp. rewrite !u32_small by nia.
  destruct (mem_move_ok (sb b) q (p ++ sb a) (o ++ k)) as (junk & Hj & Hm); [destruct o; [zlia|done]|].
  rewrite sb_app, sb_cons, <- !app_assoc in *. replace (zlen (o ++ k)) with (zlen k + 16) in Hm by zlia.
  assert (Hdest : zlen p + zlen a * (zlen k + 16) = zlen (p ++ sb a)) by zlia. rewrite Hdest.
  replace (Z.to_nat _) with (length (sb b)) by (unfold zlen in *; nia). rewrite Hm, bind_Ok.
  unfold match_hash. replace (zlen a + (zlen b + 1) - 1) with (zlen (a ++ b)) by (rewrite zlen_app; lia).
  rewrite (app_assoc (sb a)), <- sb_app.
  rewrite match_loop_none; [|by apply Forall_app|unfold zlen; lia|done|].
  2:{ intros Hin. apply list_elem_of_fmap in Hin as (s & -> & Hin). apply elem_of_take in Hin as (i & Hin & _).
      apply list_elem_of_lookup_2, elem_of_app in Hin as [Hin | Hin]; [apply Ha|apply Hb]; apply list_elem_of_fmap; eauto. }
  rewrite bind_Ok. eexists _, _. split; [by destruct f|]. split; [rewrite sb_app; zlia|]. split; [done|].
  intros _. split; [|by exists junk]. f_equal. rewrite sb_app, zlen_app, Hla, Hlb. nia.
Qed.
End hashes.

Lemma split_key (k : list Z) (sigs : list (list Z * list Z)) : k ∈ map snd sigs -> NoDup (map snd sigs) ->
  exists a o b, sigs = a ++ (o, k) :: b /\ (k ∉ map snd a) /\ (k ∉ map snd b) /\ filter (fun s => snd s <> k) sigs = a ++ b.
Proof.
  intros Hin Hd. apply list_elem_of_fmap in Hin as ([o d] & -> & (a & b & ->)%list_elem_of_split). cbn.
  rewrite map_app in Hd. cbn in Hd. apply NoDup_app in Hd as (Hda & Hdis & [Hnb Hdb]%NoDup_cons).
  exists a, o, b. split; [done|]. assert (Hna : d ∉ map snd a) by (intros Hin; apply (Hdis d Hin); left).
  split; [done|]. split; [done|]. rewrite filter_app, filter_cons_False by (cbn; intros Hne; by apply Hne).
  assert (Hall : forall c : list (list Z * list Z), d ∉ map snd c -> filter (fun s => snd s <> d) c = c).
  { intros c Hc. induction c as [|s c IH]; [done|]. cbn in Hc. apply not_elem_of_cons in Hc as [Hne Hc].
    rewrite filter_cons_True by auto. by rewrite IH. }
  by rewrite !Hall.
Qed.

Lemma filter_absent (k : list Z) (sigs : list (list Z * list Z)) : k ∉ map snd sigs -> filter (fun s => snd s <> k) sigs = sigs.
Proof.
  intros Hc. induction sigs as [|s c IH]; [done|]. cbn in Hc. apply not_elem_of_cons in Hc as [Hne Hc].
  rewrite filter_cons_True by auto. by rewrite IH.
Qed.

Lemma key_list_sized l : key_list l -> is_x509 l = false ->
  Forall (sized (sha_size (esl_type l))) (esl_sigs l) /\ content l = sb (esl_sigs l).
Proof.
  intros Hk Hx. destruct (key_list_hash l Hk Hx) as (_ & _ & Hs & Hc). split; [|exact Hc].
  destruct Hk as ((_ & _ & _ & HF) & _). eapply Forall_impl; [exact HF|]. intros s [Ho Hd]. split; [unfold zlen; by rewrite Ho|lia].
Qed.

Section hash_lists.
Context (type : EFI_GUID) (Htype : is_sha2_hash type = true).

Section one_hash.
Context (Del : list Z) (key : Z) (k : list Z) (Hkey : rdn Del key (zlen k) = Ok k) (Hk : zlen k = sha_size type).

(** The turn of delete_hash_in_list for one node. *)
Definition delete_in_node (Data : list Z) (n : MokListNode) : res (list Z * MokListNode) :=
  let sig_size := u32 (zlen k + sizeof_EFI_GUID) in
  if negb (bytes_eqb (MokType n) type) || (MokSize n <? sig_size) then Ok (Data, n)
  else
    match MokPtr n with
    | None => Fault
    | Some p =>
        let list_num := MokSize n / sig_size in
        del_ind ← match_hash Del key (zlen k) 0 Data p list_num;
        delete_matches (S (Z.to_nat list_num)) Del key (zlen k) sig_size Data n list_num del_ind
    end.

Lemma delete_in_node_ok p q l : key_list l -> distinct l ->
  exists D' n' ol, delete_in_node (p ++ content l ++ q) {| MokSize := zlen (content l); MokPtr := Some (zlen p); MokType := esl_type l |}
      = Ok (p ++ D', n') /\ ol = remove_key type k l /\ node_at (zlen p) n' ol /\
    exists junk, D' = live ol ++ junk ++ q /\ zlen (live ol) + zlen junk = zlen (content l).
Proof.
  intros Hkl Hd. unfold delete_in_node. cbn [MokType MokSize MokPtr]. unfold remove_key. pose proof (content_bounds l Hkl) as Hcb.
  destruct (bytes_eqb (esl_type l) type) eqn:Et; cbn [negb orb].
  2:{ eexists _, _, _. split; [done|]. split; [done|]. split; [done|]. exists []. cbn [live from_option app]. by rewrite zlen_nil, Z.add_0_r. }
  apply bool_decide_eq_true in Et. assert (Hx : is_x509 l = false) by (unfold is_x509; rewrite Et; by apply sha2_not_x509).
  destruct (key_list_sized l Hkl Hx) as [HF Hc]. rewrite Et, <- Hk in HF. destruct (key_list_hash l Hkl Hx) as (_ & Hne & _).
  pose proof (sb_length _ _ HF) as Hlen. pose proof (sha_size_range type). rewrite Hc in *.
  unfold sizeof_EFI_GUID. rewrite u32_small by lia.
  assert (1 <= zlen (esl_sigs l)) by (destruct (esl_sigs l); [done|]; zlia).
  rewrite (proj2 (Z.ltb_ge _ _)) by nia. rewrite Hlen, Z.div_mul by lia. unfold match_hash. rewrite Z.sub_0_r.
  destruct (decide (k ∈ map snd (esl_sigs l))) as [Hin | Hin].
  - destruct (split_key k _ Hin Hd) as (a & o & b & Es & Ha & Hb & Hf). rewrite Es in *.
    rewrite match_loop_some; [|done|done|unfold zlen; rewrite Nat2Z.id, length_app; cbn; lia|done|done]. rewrite bind_Ok, Z.add_0_l.
    edestruct (delete_matches_once Del key k Hkey (Z.to_nat (zlen (a ++ (o, k) :: b))) p a o b q
      {| MokSize := zlen (a ++ (o, k) :: b) * (zlen k + 16); MokPtr := Some (zlen p); MokType := esl_type l |}) as
      (D' & n' & Hdel & Hl' & Hnone & Hsome); [done..|cbn; lia|cbn; lia|].
    exists D', n', (nonempty (with_sigs l (filter (fun s => snd s <> k) (a ++ (o, k) :: b)))). split; [exact Hdel|]. split; [done|].
    rewrite Hf. unfold nonempty. cbn [esl_sigs with_sigs]. destruct (a ++ b) as [|s0 ab] eqn:Eab.
    + destruct (Hnone eq_refl) as [-> ->]. split; [done|]. exists (sb (a ++ (o, k) :: b)). cbn [live from_option app]. by rewrite zlen_nil.
    + destruct (Hsome ltac:(done)) as (-> & junk & ->).
      assert (Hcw : content (with_sigs l (s0 :: ab)) = sb (s0 :: ab)) by (unfold content; change (is_x509 (with_sigs l (s0 :: ab))) with (is_x509 l); by rewrite Hx).
      split; [cbn [node_at]; by rewrite Hcw|]. exists junk. cbn [live from_option]. rewrite Hcw. split; [done|]. zlen_simpl. lia.
  - rewrite match_loop_none; [|done|done|unfold zlen; lia|done|].
    2:{ intros Hin'. apply Hin. apply list_elem_of_fmap in Hin' as (s & -> & Hin'). apply elem_of_take in Hin' as (i & Hin' & _).
        apply list_elem_of_lookup_2 in Hin'. apply list_elem_of_fmap. eauto. }
    rewrite bind_Ok. rewrite filter_absent by done. rewrite with_sigs_same.
    exists (sb (esl_sigs l) ++ q), {| MokSize := zlen (esl_sigs l) * (zlen k + 16); MokPtr := Some (zlen p); MokType := esl_type l |}, (nonempty l).
    split; [done|]. split; [done|]. unfold nonempty. destruct (esl_sigs l) as [|s0 ab] eqn:Eab; [done|]. rewrite <- Eab, <- Hc in *.
    split; [cbn [node_at]; by rewrite Hlen|]. exists []. cbn [live from_option app]. by rewrite zlen_nil, Z.add_0_r.
Qed.

Lemma delete_hash_in_list_ok p D ns ls : represents (zlen p) D ns ls -> Forall key_ok ls ->
  exists D' ns', delete_hash_in_list type Del key (zlen k) (p ++ D) ns = Ok (p ++ D', ns') /\
    represents (zlen p) D' ns' (each (remove_key type k) ls).
Proof.
  intros H. remember (zlen p) as base eqn:Hp. revert p Hp.
  induction H as [|base pre post n ns l ls Hn Hr IH]; intros p -> HF.
  { exists D, []. split; [done|constructor]. }
  apply Forall_cons in HF as [Hkl HF]. cbn [delete_hash_in_list each map]. fold (each (remove_key type k) ls).
  fold (delete_in_node (p ++ pre ++ live l ++ post) n). destruct l as [l|]; cbn [live from_option] in *.
  - destruct (Hkl l eq_refl) as [Hl Hd]. cbn in Hn. subst n. replace (zlen p + zlen pre) with (zlen (p ++ pre)) in * by zlia.
    destruct (delete_in_node_ok (p ++ pre) post l Hl Hd) as (D1 & n1 & ol & Hdel & -> & Hn1 & junk & -> & Hj).
    rewrite <- app_assoc in Hdel. rewrite Hdel, bind_Ok. clear Hdel.
    destruct (IH (p ++ pre ++ live (remove_key type k l) ++ junk) ltac:(zlia) HF) as (D2 & ns' & IHd & IHr).
    rewrite <- !app_assoc in IHd. rewrite <- !app_assoc. rewrite IHd, bind_Ok. eexists _, (n1 :: ns'). split; [done|].
    apply (rep_cons _ pre (junk ++ D2) n1 ns'); [by replace (zlen p + zlen pre) with (zlen (p ++ pre)) by zlia|].
    apply rep_skip. replace (zlen p + zlen pre + zlen (live (remove_key type k l)) + zlen junk) with (zlen (p ++ pre) + zlen (content l)) by zlia.
    done.
  - destruct Hn as [Hn1 Hn2]. assert (Hskip : delete_in_node (p ++ pre ++ [] ++ post) n = Ok (p ++ pre ++ [] ++ post, n)).
    { unfold delete_in_node. rewrite Hn2, (proj2 (Z.ltb_lt 0 _)); [by rewrite orb_true_r|]. unfold sizeof_EFI_GUID.
      pose proof (sha_size_range type). rewrite u32_small; lia. }
    rewrite Hskip, bind_Ok. destruct (IH (p ++ pre ++ []) ltac:(zlia) HF) as (D2 & ns' & IHd & IHr).
    rewrite <- !app_assoc in IHd. rewrite IHd, bind_Ok. eexists _, (n :: ns'). split; [done|].
    apply (rep_cons _ pre D2 n ns' None); [done|]. done.
Qed.

End one_hash.

(** All digests of a list of [Del]. *)
Lemma delete_hashes_ok Del qd p : forall dsigs pd D ns ls key,
  Del = pd ++ sb dsigs ++ qd -> Forall (sized (sha_size type)) dsigs -> key = zlen pd + 16 ->
  represents (zlen p) D ns ls -> Forall key_ok ls ->
  exists D' ns', delete_hashes (length dsigs) type Del key (sha_size type) (sha_size type + 16) (p ++ D) ns = Ok (p ++ D', ns') /\
    represents (zlen p) D' ns' (foldl (fun ls s => each (remove_key type (snd s)) ls) ls dsigs) /\
    Forall key_ok (foldl (fun ls s => each (remove_key type (snd s)) ls) ls dsigs).
Proof.
  induction dsigs as [|[o d] dsigs IH]; intros pd D ns ls key HDel HF -> Hr Hok; [by eexists _, _|].
  apply Forall_cons in HF as [[Ho Hd] HF]. cbn in Ho, Hd. rewrite sb_cons, <- !app_assoc in HDel. cbn [length delete_hashes foldl snd].
  assert (Hkey : rdn Del (zlen pd + 16) (zlen d) = Ok d) by (rewrite HDel, (app_assoc pd); apply rdn_app_mid; zlia).
  destruct (delete_hash_in_list_ok Del (zlen pd + 16) d Hkey Hd p D ns ls Hr Hok) as (D1 & ns1 & Hdel & Hr1).
  rewrite Hd in Hdel. rewrite Hdel, bind_Ok. apply (IH (pd ++ o ++ d)); [by rewrite HDel, <- !app_assoc|done|zlia|done|].
  unfold each. apply Forall_map. eapply Forall_impl; [exact Hok|]. intros [l|] Hl; [|done].
  destruct (Hl l eq_refl). by apply remove_key_ok.
Qed.
End hash_lists.

Definition delete_list (ls : list (option esl)) (d : esl) : list (option esl) :=
  foldl (fun ls s => each (remove_key (esl_type d) (snd s)) ls) ls (esl_sigs d).

Lemma each_ok t k ls : Forall key_ok ls -> Forall key_ok (each (remove_key t k) ls).
Proof.
  intros Hok. unfold each. apply Forall_map. eapply Forall_impl; [exact Hok|]. intros [l|] Hl; [|done].
  destruct (Hl l eq_refl). by apply remove_key_ok.
Qed.

Lemma search_and_destroy_ok Del p : forall dns dl pd DD D ns ls,
  represents (zlen pd) DD dns (map Some dl) -> Del = pd ++ DD -> Forall key_list dl ->
  represents (zlen p) D ns ls -> Forall key_ok ls ->
  exists D' ns', search_and_destroy Del dns (p ++ D) ns = Ok (p ++ D', ns') /\
    represents (zlen p) D' ns' (foldl delete_list ls dl) /\ Forall key_ok (foldl delete_list ls dl).
Proof.
  induction dns as [|d dns IH]; intros dl pd DD D ns ls Hrep HDel HF Hr Hok; inversion Hrep as [|? pre post ? ? ol ols Hn Hrest]; subst.
  { destruct dl; [|done]. by eexists _, _. }
  destruct dl as [|l dl]; [done|]. cbn [map] in *. match goal with H : _ :: _ = Some l :: _ |- _ => injection H as -> -> end.
  apply Forall_cons in HF as [Hl HF]. cbn [live from_option] in *. cbn in Hn. subst d. cbn [search_and_destroy MokType MokPtr MokSize foldl].
  assert (Hstep : exists D1 ns1,
    (if bytes_eqb (esl_type l) X509_GUID
     then mok ← delete_cert (pd ++ pre ++ content l ++ post) (Some (zlen pd + zlen pre)) (zlen (content l)) (p ++ D) ns; Ok (p ++ D, mok)
     else if is_sha2_hash (esl_type l)
     then delete_hash_list (esl_type l) (pd ++ pre ++ content l ++ post) (zlen pd + zlen pre) (zlen (content l)) (p ++ D) ns
     else Ok (p ++ D, ns)) = Ok (p ++ D1, ns1) /\
    represents (zlen p) D1 ns1 (delete_list ls l) /\ Forall key_ok (delete_list ls l)).
  { fold (is_x509 l). destruct (is_x509 l) eqn:Hx.
    - destruct (key_list_x509 l Hl Hx) as (o & c & Hs & Hc & _). rewrite Hc.
      destruct (delete_cert_ok (pd ++ pre ++ c ++ post) (zlen pd + zlen pre) c) with (p := p) (D := D) (ns := ns) (ls := ls) as (ns1 & Hd & Hr1);
        [rewrite (app_assoc pd); apply rdn_app_mid; zlia|done|done|].
      rewrite Hd, bind_Ok. exists D, ns1. unfold delete_list. rewrite Hs. cbn [foldl snd].
      apply bool_decide_eq_true in Hx. rewrite Hx. split; [done|]. split; [done|]. by apply each_ok.
    - destruct (key_list_hash l Hl Hx) as (Ht & Hne & Hsz & _). destruct (key_list_sized l Hl Hx) as [HFs Hc]. rewrite Ht, Hc.
      pose proof (sb_length _ _ HFs) as Hlen. pose proof (sha_size_range (esl_type l)).
      assert (1 <= zlen (esl_sigs l)) by (destruct (esl_sigs l); [done|]; zlia).
      unfold delete_hash_list, sizeof_EFI_GUID. rewrite u32_small by lia. rewrite (proj2 (Z.ltb_ge _ _)) by nia.
      rewrite Hlen, Z.div_mul by lia. replace (Z.to_nat (zlen (esl_sigs l))) with (length (esl_sigs l)) by (unfold zlen; lia).
      apply (delete_hashes_ok (esl_type l) Ht _ post p (esl_sigs l) (pd ++ pre)); [by rewrite <- app_assoc|done|zlia|done|done]. }
  destruct Hstep as (D1 & ns1 & -> & Hr1 & Hok1). rewrite bind_Ok.
  apply (IH dl (pd ++ pre ++ content l) post); [by replace (zlen (pd ++ pre ++ content l)) with (zlen pd + zlen pre + zlen (content l)) by zlia
    |by rewrite <- !app_assoc|done|done|done].
Qed.

(** ** What is left *)
Definition keep (K : EFI_GUID -> list Z -> bool) (l : esl) : option esl :=
  nonempty (with_sigs l (filter (fun s => K (esl_type l) (snd s) = false) (esl_sigs l))).
Definition in_lists (dl : list esl) (t : EFI_GUID) (k : list Z) : bool :=
  existsb (fun d => bytes_eqb t (esl_type d) && bool_decide (k ∈ map snd (esl_sigs d))) dl.

(** The lists without the keys that the lists [dl] name. *)
Definition remaining (dl : list esl) (db : list esl) : list esl := omap (keep (in_lists dl)) db.

Lemma keep_ext K K' l : (forall t k, K t k = K' t k) -> keep K l = keep K' l.
Proof. intros HK. unfold keep. do 2 f_equal. apply list_filter_iff. intros s. by rewrite HK. Qed.

Lemma keep_remove K t k l :
  match keep K l with Some l' => remove_key t k l' | None => None end
  = keep (fun t' k' => K t' k' || (bytes_eqb t' t && bytes_eqb k' k)) l.
Proof.
  unfold keep, remove_key, nonempty. cbn [esl_sigs with_sigs esl_type].
  destruct (bytes_eqb (esl_type l) t) eqn:Et.
  - assert (Hf : filter (fun s => snd s <> k) (filter (fun s => K (esl_type l) (snd s) = false) (esl_sigs l))
      = filter (fun s => K (esl_type l) (snd s) || (true && bytes_eqb (snd s) k) = false) (esl_sigs l)).
    { rewrite list_filter_filter. apply list_filter_iff. intros s. unfold bytes_eqb. rewrite orb_false_iff. cbn [andb].
      rewrite bool_decide_eq_false. tauto. }
    rewrite <- Hf. destruct (filter (fun s => K (esl_type l) (snd s) = false) (esl_sigs l)) eqn:E; [done|].
    cbn [esl_type esl_sigs with_sigs]. rewrite Et. done.
  - assert (Hf : filter (fun s => K (esl_type l) (snd s) || (false && bytes_eqb (snd s) k) = false) (esl_sigs l)
      = filter (fun s => K (esl_type l) (snd s) = false) (esl_sigs l)).
    { apply list_filter_iff. intros s. cbn [andb]. by rewrite orb_false_r. }
    rewrite Hf. set (sigs := filter (fun s => K (esl_type l) (snd s) = false) (esl_sigs l)). clearbody sigs.
    destruct sigs; [done|]. cbn [esl_type with_sigs]. by rewrite Et.
Qed.

Lemma delete_list_keep d K db :
  delete_list (map (keep K) db) d
  = map (keep (fun t k => K t k || (bytes_eqb t (esl_type d) && bool_decide (k ∈ map snd (esl_sigs d))))) db.
Proof.
  unfold delete_list. revert K. induction (esl_sigs d) as [|s sigs IH]; intros K.
  - cbn [foldl map]. apply map_ext. intros l. apply keep_ext. intros t k.
    rewrite (bool_decide_false (k ∈ [])) by apply not_elem_of_nil. by rewrite andb_false_r, orb_false_r.
  - cbn [foldl map].
    assert (He : each (remove_key (esl_type d) (snd s)) (map (keep K) db)
      = map (keep (fun t k => K t k || (bytes_eqb t (esl_type d) && bytes_eqb k (snd s)))) db).
    { unfold each. rewrite map_map. apply map_ext. intros l. apply keep_remove. }
    rewrite He, IH. apply map_ext. intros l. apply keep_ext. intros t k. rewrite <- orb_assoc, <- andb_orb_distrib_r. do 2 f_equal.
    unfold bytes_eqb. rewrite <- bool_decide_or. apply bool_decide_ext. by rewrite elem_of_cons.
Qed.

Lemma delete_lists_keep dl : forall K db,
  foldl delete_list (map (keep K) db) dl = map (keep (fun t k => K t k || in_lists dl t k)) db.
Proof.
  induction dl as [|d dl IH]; intros K db; cbn [foldl].
  - apply map_ext. intros l. apply keep_ext. intros. cbn. by rewrite orb_false_r.
  - rewrite delete_list_keep, IH. apply map_ext. intros l. apply keep_ext. intros t k. cbn [in_lists existsb]. by rewrite orb_assoc.
Qed.

Lemma delete_lists_spec dl db : Forall key_list db ->
  foldl delete_list (map Some db) dl = map (keep (in_lists dl)) db.
Proof.
  intros HF. assert (Hid : map Some db = map (keep (fun _ _ => false)) db).
  { apply map_ext_Forall. eapply Forall_impl; [exact HF|]. intros l Hl. unfold keep, nonempty. 
    assert (Hall : filter (fun s : list Z * list Z => false = false) (esl_sigs l) = esl_sigs l).
    { induction (esl_sigs l) as [|s sigs IH]; [done|]. rewrite filter_cons_True by done. by rewrite IH. }
    rewrite Hall, with_sigs_same. destruct Hl as (_ & _ & [(_ & s & -> & _) | (_ & Hn & _)]); [done|]. by destruct (esl_sigs l). }
  rewrite Hid, delete_lists_keep. apply map_ext. intros l. by apply keep_ext.
Qed.

(** ** Writing back

    Certificates get shim's GUID as their owner. *)
Definition stored (l : esl) : esl :=
  if is_x509 l then with_sigs l (map (fun s => (SHIM_LOCK_GUID, snd s)) (esl_sigs l)) else l.

Lemma split_at {A} (l : list A) n : 0 <= n <= zlen l -> exists a b, l = a ++ b /\ zlen a = n.
Proof.
  intros Hn. exists (take (Z.to_nat n) l), (drop (Z.to_nat n) l). rewrite take_drop. split; [done|].
  unfold zlen in *. rewrite length_take. lia.
Qed.

Lemma stored_bytes l : key_list l ->
  esl_bytes (stored l) = esl_type l ++ le_split 4 (esl_size l) ++ le_split 4 0 ++ le_split 4 (esl_sigsize l) ++
    (if is_x509 l then SHIM_LOCK_GUID else []) ++ content l.
Proof.
  intros Hk. pose proof Hk as (_ & Hh & _). unfold stored, esl_bytes. destruct (is_x509 l) eqn:Hx.
  - destruct (key_list_x509 l Hk Hx) as (o & d & Hs & Hd & _). unfold esl_size, sigs_bytes. cbn [esl_type esl_header esl_sigs esl_sigsize with_sigs].
    rewrite Hs, Hd, Hh. cbn [map concat fst snd app]. by rewrite app_nil_r.
  - destruct (key_list_hash l Hk Hx) as (_ & _ & _ & ->). by rewrite Hh.
Qed.

Lemma stored_length l : key_list l -> zlen (esl_bytes (stored l)) = esl_size l.
Proof.
  intros Hk. rewrite (stored_bytes l Hk). pose proof (node_content_length l Hk). pose proof Hk as (Hwf & _).
  destruct (esl_size_range l Hwf) as [_ Ht]. zlen_simpl. rewrite Ht. destruct (is_x509 l); [change (zlen SHIM_LOCK_GUID) with 16|change (zlen (@nil Z)) with 0]; lia.
Qed.

(** One list, into room of the right size. *)
Lemma write_node_ok l w room rest Data mok : key_list l -> zlen room = esl_size l -> rdn Data mok (zlen (content l)) = Ok (content l) ->
  write_node Data (esl_type l) (zlen (content l)) mok (w ++ room ++ rest) (zlen w) = Ok (w ++ esl_bytes (stored l) ++ rest, esl_size l).
Proof.
  intros Hk Hr Hread. pose proof (node_content_length l Hk) as Hc. pose proof (content_bounds l Hk) as Hcb. pose proof Hk as (Hwf & _ & _).
  destruct (esl_size_range l Hwf) as [Hsr Hty]. assert (28 <= zlen room) by (destruct (is_x509 l); lia).
  destruct (split_at room 16 ltac:(lia)) as (a & r1 & -> & Ha). rewrite zlen_app in *.
  destruct (split_at r1 4 ltac:(lia)) as (b & r2 & -> & Hb). rewrite zlen_app in *.
  destruct (split_at r2 4 ltac:(lia)) as (c & r3 & -> & Hc'). rewrite zlen_app in *.
  destruct (split_at r3 4 ltac:(lia)) as (d & e & -> & Hd). rewrite zlen_app in *. rewrite (stored_bytes l Hk), <- !app_assoc.
  assert (Hw : forall v1 v2,
    (out ← wrn (w ++ a ++ b ++ c ++ d ++ e ++ rest) (zlen w) (esl_type l); out ← wr_le out (zlen w + 20) 4 0;
     out ← wr_le out (zlen w + 16) 4 v1; wr_le out (zlen w + 24) 4 v2)
    = Ok ((w ++ esl_type l ++ le_split 4 v1 ++ le_split 4 0 ++ le_split 4 v2) ++ e ++ rest)).
  { intros v1 v2. rewrite (wrn_app_mid w a) by (done || (unfold zlen in *; lia)). rewrite bind_Ok.
    rewrite (app_assoc w), (app_assoc _ b), (wr_le_mid _ c) by (zlia || (unfold zlen in *; lia)). rewrite bind_Ok, <- (app_assoc _ b).
    rewrite (wr_le_mid (w ++ esl_type l) b) by (zlia || (unfold zlen in *; lia)). rewrite bind_Ok.
    rewrite (app_assoc _ (le_split 4 v1)), (app_assoc _ (le_split 4 0)), (wr_le_mid _ d) by (zlia || (unfold zlen in *; lia)).
    by rewrite <- !app_assoc. }
  unfold write_node. fold (is_x509 l). unfold sizeof_EFI_SIGNATURE_LIST, sizeof_EFI_GUID.
  destruct (is_x509 l) eqn:Hx.
  - destruct (key_list_x509 l Hk Hx) as (o & x & _ & Hx1 & Hx2 & _).
    rewrite (u32_small (_ + 28 + 16)), (u32_small (_ + 16)) by lia.
    specialize (Hw (zlen (content l) + 28 + 16) (zlen (content l) + 16)).
    apply bind_inv in Hw as (o1 & -> & Hw). rewrite bind_Ok. apply bind_inv in Hw as (o2 & -> & Hw). rewrite bind_Ok.
    apply bind_inv in Hw as (o3 & -> & Hw). rewrite bind_Ok, Hw, bind_Ok.
    destruct (split_at e 16 ltac:(lia)) as (e1 & e2 & -> & He). rewrite zlen_app in *. rewrite <- (app_assoc e1).
    rewrite (wrn_app_mid _ e1) by (zlia || (unfold zlen in *; cbn; lia)). rewrite bind_Ok, Hread, bind_Ok.
    rewrite (app_assoc _ SHIM_LOCK_GUID), (wrn_app_mid _ e2) by ((zlen_simpl; change (zlen SHIM_LOCK_GUID) with 16; lia) || (unfold zlen in *; lia)).
    rewrite bind_Ok. rewrite Hx1 in *. replace (zlen x + 28 + 16) with (esl_size l) by lia. replace (zlen x + 16) with (esl_sigsize l) by lia.
    by rewrite <- !app_assoc.
  - destruct (key_list_hash l Hk Hx) as (_ & _ & Hsz & _). pose proof (sha_size_range (esl_type l)).
    rewrite (u32_small (_ + 28)), (u32_small (_ + 16)) by lia.
    specialize (Hw (zlen (content l) + 28) (sha_size (esl_type l) + 16)).
    apply bind_inv in Hw as (o1 & -> & Hw). rewrite bind_Ok. apply bind_inv in Hw as (o2 & -> & Hw). rewrite bind_Ok.
    apply bind_inv in Hw as (o3 & -> & Hw). rewrite bind_Ok, Hw, bind_Ok, Hread, bind_Ok.
    rewrite (wrn_app_mid _ e) by (zlia || (unfold zlen in *; lia)). rewrite bind_Ok, Hsz.
    replace (zlen (content l) + 28) with (esl_size l) by lia. cbn [app]. by rewrite <- !app_assoc.
Qed.

Lemma write_nodes_ok p D ns ls : represents (zlen p) D ns ls -> Forall key_ok ls ->
  written_size ns = zlen (esl_encode (map stored (omap id ls))) /\
  forall w room, zlen room = written_size ns ->
    write_nodes (p ++ D) ns (w ++ room) (zlen w) = Ok (w ++ esl_encode (map stored (omap id ls))).
Proof.
  intros H. remember (zlen p) as base eqn:Hp. revert p Hp.
  induction H as [|base pre post n ns l ls Hn Hr IH]; intros p -> HF.
  { split; [done|]. intros w room Hroom. destruct room; [done|]. cbn in Hroom. zlia. }
  apply Forall_cons in HF as [Hkl HF]. destruct (IH (p ++ pre ++ live l) ltac:(zlia) HF) as [IHs IHw]. clear IH.
  rewrite <- !app_assoc in IHw.
  destruct l as [l|]; cbn [live from_option] in *; cbn [written_size write_nodes].
  2:{ destruct Hn as [Hn1 Hn2]. rewrite Hn1. split; [done|]. intros w room Hroom. by apply IHw. }
  destruct (Hkl l eq_refl) as [Hk _]. cbn in Hn. subst n. cbn [MokPtr MokType MokSize]. fold (is_x509 l).
  change (omap id (Some l :: ls)) with (l :: omap id ls). pose proof (node_content_length l Hk) as Hc.
  assert (Hsz : sizeof_EFI_SIGNATURE_LIST + (if is_x509 l then sizeof_EFI_GUID else 0) + zlen (content l) = esl_size l)
    by (unfold sizeof_EFI_SIGNATURE_LIST, sizeof_EFI_GUID; destruct (is_x509 l); lia).
  unfold esl_encode in *. cbn [map concat]. rewrite zlen_app, (stored_length l Hk), <- IHs, Hsz. split; [done|].
  intros w room Hroom. pose proof (content_bounds l Hk).
  destruct (split_at room (esl_size l)) as (r & rest & -> & Hrl); [rewrite Hroom, IHs; destruct (is_x509 l); zlia|]. rewrite zlen_app in Hroom.
  rewrite write_node_ok; [|done|done|rewrite (app_assoc p); apply rdn_app_mid; zlia]. rewrite bind_Ok.
  replace (zlen w + esl_size l) with (zlen (w ++ esl_bytes (stored l))) by (rewrite zlen_app, (stored_length l Hk); done).
  rewrite (app_assoc w), (app_assoc w), IHw by lia. by rewrite <- !app_assoc.
Qed.

Lemma omap_id_map {A B} (f : A -> option B) l : omap id (map f l) = omap f l.
Proof. induction l as [|x l IH]; [done|]. cbn. destruct (f x); [f_equal|]; apply IH. Qed.

(** What deleting takes out of a database: counting and building the two arrays,
    deleting and writing back gives the encoding of exactly the keys that are not
    listed. *)
Lemma delete_keys_content db dl q qd :
  Forall key_list db -> Forall distinct db -> Forall key_list dl ->
  zlen (esl_encode db) < 2 ^ 32 -> zlen (esl_encode dl) < 2 ^ 32 ->
  exists mok del_key Data mok',
    count_keys (esl_encode db ++ q) (zlen (esl_encode db)) = Ok (zlen db) /\
    build_mok_list true (zlen db) (esl_encode db ++ q) (zlen (esl_encode db)) = Ok (Some mok) /\
    count_keys (esl_encode dl ++ qd) (zlen (esl_encode dl)) = Ok (zlen dl) /\
    build_mok_list true (zlen dl) (esl_encode dl ++ qd) (zlen (esl_encode dl)) = Ok (Some del_key) /\
    search_and_destroy (esl_encode dl ++ qd) del_key (esl_encode db ++ q) mok = Ok (Data, mok') /\
    written_size mok' = zlen (esl_encode (map stored (remaining dl db))) /\
    forall room, zlen room = written_size mok' ->
      write_nodes Data mok' room 0 = Ok (esl_encode (map stored (remaining dl db))).
Proof.
  intros Hdb Hdist Hdl Hs1 Hs2. destruct (key_lists db q Hdb Hs1) as (Hc1 & mok & Hb1 & Hr1).
  destruct (key_lists dl qd Hdl Hs2) as (Hc2 & del_key & Hb2 & Hr2).
  assert (Hok : Forall key_ok (map Some db)).
  { apply Forall_map. rewrite Forall_forall in *. intros l Hin l' [= <-]. auto. }
  destruct (search_and_destroy_ok (esl_encode dl ++ qd) [] del_key dl [] _ _ mok (map Some db) Hr2 eq_refl Hdl Hr1 Hok)
    as (Data & mok' & Hsd & Hr & Hok'). rewrite (delete_lists_spec dl db Hdb) in Hr, Hok'.
  destruct (write_nodes_ok [] Data mok' _ Hr Hok') as [Hsize Hwrite].
  assert (Hom : omap id (map (keep (in_lists dl)) db) = remaining dl db) by apply omap_id_map.
  rewrite Hom in *. exists mok, del_key, Data, mok'. split_and!; try done. intros room Hroom. by apply (Hwrite []).
Qed.


(** ** A digest twice in a list

    match_hash is asked to start at an index but compares from the front, so
    behind the first deletion the index it returns is not that of the digest it
    found. *)
Definition digests (ns : list Z) : esl :=
  {| esl_type := EFI_CERT_SHA256_GUID; esl_header := []; esl_sigsize := 48;
     esl_sigs := map (fun n => (replicate 16 0, replicate 32 n)) ns |}.

(** Deleting digest 1 from the list 2, 1, 1, 3, 4 deletes digest 3 and keeps
    one of the two. *)
Theorem delete_duplicate_digest :
  (num ← count_keys (esl_encode [digests [2; 1; 1; 3; 4]]) 268;
   mok ← build_mok_list true num (esl_encode [digests [2; 1; 1; 3; 4]]) 268;
   '(Data, mok) ← delete_hash_in_list EFI_CERT_SHA256_GUID (replicate 32 1) 0 32 (esl_encode [digests [2; 1; 1; 3; 4]]) (from_option id [] mok);
   write_nodes Data mok (replicate (Z.to_nat (written_size mok)) 0) 0)
  = Ok (esl_encode [digests [2; 1; 4]]).
Proof. vm_compute. reflexivity. Qed.

Lemma build_mok_list_inside_witness :
  let db := esl_encode [digests [1; 2]; digests [3]] in
  exists nodes, build_mok_list true 2 db 200 = Ok (Some nodes) /\ zlen nodes = 2 /\ Forall (node_inside 200) nodes.
Proof.
  intros db. destruct (build_mok_list_inside db 200) as [_ Hb].
  - unfold bytes. apply (bool_decide_unpack _). vm_compute. exact I.
  - by vm_compute.
  - by vm_compute.
  - destruct (Hb 2 ltac:(by vm_compute) ltac:(done)) as (r & Hr & Hn).
    assert (Hs : exists nodes, build_mok_list true 2 db 200 = Ok (Some nodes)) by (eexists; vm_compute; reflexivity).
    destruct Hs as [nodes Hs]. exists nodes. split; [exact Hs|]. apply Hn. congruence.
Defined.
