(* ===== verification/Variables.v ===== *)
(** * UEFI variables: lib/variables.c and secure_mode of shim.c

    The functions run over any [Firmware]; a function that writes returns the
    new firmware state.  Their theorems assume [FirmwareLaws] only. *)
From stdpp Require Import base list numbers option strings.
From Stdlib Require Import ZArith Lia.
From S2P Require Import Prelude.
From S2P Require Import Efi.
From S2P Require Import Firmware.
From S2P Require Import Esl.
Local Open Scope Z_scope.

(** What get_variable_attr returns and stores through its pointers; the data
    is NULL or the allocated buffer, which has three bytes more than the
    variable. *)
Record gva : Type := {
  gva_status : EFI_STATUS;
  gva_data : option (list Z);
  gva_len : Z;
  gva_attributes : Z
}.

Section variables.
Context {S : Type} `{Firmware S}.

(** [want_data] is whether the caller passed a pointer for the data. *)
Definition get_variable_attr (alloc : bool) (s : S) (var : string) (owner : EFI_GUID)
    (want_data : bool) : res gva :=
  let g := GetVariable s var owner 0 false in
  let len := gv_size g in
  let fail st := Ok {| gva_status := st; gva_data := None; gva_len := len; gva_attributes := 0 |} in
  if negb (bool_decide (gv_status g = EFI_BUFFER_TOO_SMALL)) then
    fail (if EFI_ERROR (gv_status g) then gv_status g else EFI_PROTOCOL_ERROR)
  else if negb want_data then fail EFI_INVALID_PARAMETER
  else if negb alloc then fail EFI_OUT_OF_RESOURCES
  else
    let data := replicate (Z.to_nat (len + 3)) 0 in
    let g := GetVariable s var owner len true in
    if EFI_ERROR (gv_status g) then
      Ok {| gva_status := gv_status g; gva_data := None; gva_len := gv_size g;
            gva_attributes := gv_attributes g |}
    else
      data ← wrn data 0 (gv_data g);
      Ok {| gva_status := gv_status g; gva_data := Some data; gva_len := gv_size g;
            gva_attributes := gv_attributes g |}.

Definition get_variable (alloc : bool) (s : S) (var : string) (owner : EFI_GUID) : res gva :=
  get_variable_attr alloc s var owner true.

(** The status and [*lenp], if it is stored. *)
Definition get_variable_size (s : S) (var : string) (owner : EFI_GUID) : res (EFI_STATUS * option Z) :=
  g ← get_variable_attr true s var owner false;
  if EFI_ERROR (gva_status g) then
    if bool_decide (gva_status g = EFI_BUFFER_TOO_SMALL) then Ok (EFI_SUCCESS, Some (gva_len g))
    else if bool_decide (gva_status g = EFI_NOT_FOUND) then Ok (EFI_SUCCESS, Some 0)
    else Ok (gva_status g, None)
  else Ok (gva_status g, Some (gva_len g)).

Definition set_variable (s : S) (var : string) (owner : EFI_GUID) (attributes : Z) (data : list Z)
  : EFI_STATUS * S := SetVariable s var owner attributes data.

Definition del_variable (s : S) (var : string) (owner : EFI_GUID) : EFI_STATUS * S :=
  set_variable s var owner 0 [].

Definition find_in_variable_esl (alloc : bool) (s : S) (var : string) (owner : EFI_GUID)
    (key : list Z) : res EFI_STATUS :=
  g ← get_variable alloc s var owner;
  if EFI_ERROR (gva_status g) then Ok (gva_status g)
  else match gva_data g with
       | None => Fault
       | Some data => find_in_esl data (gva_len g) key
       end.

(** The one-byte buffer the value is read into. *)
Definition read_u8 (g : gv_out) (init : Z) : Z :=
  match gv_data g with b :: _ => b | [] => init end.

Definition variable_is_setupmode (s : S) (default_return : Z) : Z :=
  let g := GetVariable s "SetupMode" GV_GUID 1 true in
  if EFI_ERROR (gv_status g) then default_return else read_u8 g (u8 default_return).

Definition variable_is_secureboot (s : S) : Z :=
  let g := GetVariable s "SecureBoot" GV_GUID 1 true in
  if EFI_ERROR (gv_status g) then 0 else read_u8 g 0.

Definition GetOSIndications (s : S) : Z :=
  let g := GetVariable s "OsIndicationsSupported" GV_GUID 8 true in
  if EFI_ERROR (gv_status g) then 0 else le_combine (gv_data g).

(** The reset itself is not modelled: the boolean says that it is requested. *)
Definition SETOSIndicationsAndReboot (s : S) (indications : Z) : EFI_STATUS * S * bool :=
  let (efi_status, s) := SetVariable s "OsIndications" GV_GUID
    (Z.lor (Z.lor EFI_VARIABLE_NON_VOLATILE EFI_VARIABLE_RUNTIME_ACCESS) EFI_VARIABLE_BOOTSERVICE_ACCESS)
    (le_split 8 indications) in
  if EFI_ERROR efi_status then (efi_status, s, false) else (EFI_SUCCESS, s, true).

(** ** Authenticated variables

    EFI_VARIABLE_AUTHENTICATION_2 without certificate data: the EFI_TIME, then
    dwLength, wRevision, wCertificateType and CertType; 40 bytes. *)
Definition DescriptorSize : Z := 40.
Definition WIN_CERT_TYPE_EFI_GUID : Z := 0x0ef1.

(** The fields of EFI_TIME that are cleared: Pad1 (byte 7), Nanosecond,
    TimeZone, Daylight and Pad2 (bytes 8 to 15). *)
Definition clear_time (time : list Z) : list Z := take 7 time ++ replicate 9 0.

Definition CreateTimeBasedPayload (alloc : bool) (s : S) (Payload : list Z)
  : res (EFI_STATUS * list Z) :=
  if negb alloc then Ok (EFI_OUT_OF_RESOURCES, Payload)
  else
    let NewData := replicate (Z.to_nat (DescriptorSize + zlen Payload)) 0 in
    NewData ← wrn NewData DescriptorSize Payload;
    let (efi_status, time) := GetTime s in
    if EFI_ERROR efi_status then Ok (efi_status, Payload)
    else
      NewData ← wrn NewData 0 (clear_time time);
      NewData ← wr_le NewData 16 4 24;
      NewData ← wr_le NewData 20 2 0x0200;
      NewData ← wr_le NewData 22 2 WIN_CERT_TYPE_EFI_GUID;
      NewData ← wrn NewData 24 EFI_CERT_TYPE_PKCS7_GUID;
      Ok (EFI_SUCCESS, NewData).

Definition SetSecureVariable (alloc : bool) (s : S) (var : string) (Data : list Z) (owner : EFI_GUID)
    (options : Z) (createtimebased : bool) : res (EFI_STATUS * S) :=
  if variable_is_setupmode s 1 =? 0 then Ok (EFI_SECURITY_VIOLATION, s)
  else
    '(efi_status, Cert) ←
      (if createtimebased then
         '(efi_status, out, _) ←
           variable_create_esl_with_one_signature alloc alloc Data (zlen Data) X509_GUID None;
         Ok (efi_status, from_option id [] out)
       else Ok (EFI_SUCCESS, Data));
    if EFI_ERROR efi_status then Ok (efi_status, s)
    else
      '(efi_status, Cert) ← CreateTimeBasedPayload alloc s Cert;
      if EFI_ERROR efi_status then Ok (efi_status, s)
      else
        Ok (SetVariable s var owner
              (Z.lor (Z.lor (Z.lor (Z.lor EFI_VARIABLE_NON_VOLATILE EFI_VARIABLE_RUNTIME_ACCESS)
                                   EFI_VARIABLE_BOOTSERVICE_ACCESS)
                            EFI_VARIABLE_TIME_BASED_AUTHENTICATED_WRITE_ACCESS) options)
              Cert).

(** [stack] is what the local array [sig] holds before its fields are set: the
    call SetMem(sig, 0, sizeof(sig)) has its size and value swapped (SetMem
    takes the size first) and stores nothing. *)
Definition sizeof_sig : Z := sizeof_EFI_SIGNATURE_LIST + sizeof_EFI_SIGNATURE_DATA - 1 + 32.

Definition enroll_sig (stack : list Z) (hash : list Z) : res (list Z) :=
  sig ← wrn stack 0 EFI_CERT_SHA256_GUID;
  sig ← wr_le sig 16 4 sizeof_sig;
  sig ← wr_le sig 24 4 (16 + 32);
  sig ← wrn sig (sizeof_EFI_SIGNATURE_LIST + 16) hash;
  wrn sig sizeof_EFI_SIGNATURE_LIST SHIM_LOCK_GUID.

Definition variable_enroll_hash (alloc : bool) (stack : list Z) (s : S) (var : string)
    (owner : EFI_GUID) (hash : list Z) : res (EFI_STATUS * S) :=
  efi_status ← find_in_variable_esl alloc s var owner hash;
  if negb (EFI_ERROR efi_status) then Ok (EFI_ALREADY_STARTED, s)
  else
    sig ← enroll_sig stack hash;
    if bytes_eqb owner SIG_DB then SetSecureVariable alloc s var sig owner EFI_VARIABLE_APPEND_WRITE false
    else Ok (SetVariable s var owner
               (Z.lor (Z.lor EFI_VARIABLE_NON_VOLATILE EFI_VARIABLE_BOOTSERVICE_ACCESS)
                      EFI_VARIABLE_APPEND_WRITE) sig).

(** ** secure_mode (shim.c)

    The messages on the console, and the flag that shows them once, are left
    out: they do not change what is returned. *)
Definition secure_mode (s : S) (user_insecure_mode : bool) : bool :=
  if user_insecure_mode then false
  else if negb (variable_is_secureboot s =? 1) then false
  else if variable_is_setupmode s 0 =? 1 then false
  else true.
End variables.

Section laws.
Context {S : Type} `{FirmwareLaws S}.

(** ** Lemmas *)
Lemma zlen_pos_nonempty {A} (d : list A) : d <> [] -> 0 < zlen d.
Proof. destruct d; [done|]. intros _. zlia. Qed.

Lemma get_variable_attr_ok s var owner :
  get_variable_attr true s var owner true
  = Ok (match lookup_var s var owner with
        | None => {| gva_status := EFI_NOT_FOUND; gva_data := None;
                     gva_len := gv_size (GetVariable s var owner 0 false); gva_attributes := 0 |}
        | Some (a, d) => {| gva_status := EFI_SUCCESS; gva_data := Some (d ++ [0; 0; 0]);
                            gva_len := zlen d; gva_attributes := a |}
        end).
Proof.
  unfold get_variable_attr. destruct (lookup_var s var owner) as [[a d]|] eqn:E.
  - pose proof (zlen_pos_nonempty d (lookup_nonempty _ _ _ _ _ E)) as Hp.
    destruct (get_too_small _ _ _ 0 false _ _ E Hp) as [-> ->]. rewrite bool_decide_true by done.
    cbn [negb]. rewrite (get_found _ _ _ _ _ _ E) by lia. cbn [gv_status gv_size gv_data EFI_ERROR].
    replace (replicate (Z.to_nat (zlen d + 3)) 0) with (replicate (length d) 0 ++ [0; 0; 0]).
    + by rewrite wrn_app_0 by apply length_replicate.
    + change [0; 0; 0] with (replicate 3 0). rewrite <- replicate_add. f_equal. unfold zlen. lia.
  - rewrite (get_missing _ _ _ _ _ E). by rewrite bool_decide_false.
Qed.

Lemma variable_is_secureboot_ok s :
  variable_is_secureboot s
  = match lookup_var s "SecureBoot" GV_GUID with Some (_, [b]) => b | _ => 0 end.
Proof.
  unfold variable_is_secureboot.
  destruct (lookup_var s "SecureBoot" GV_GUID) as [[a d]|] eqn:E;
    [|by rewrite (get_missing _ _ _ _ _ E)].
  pose proof (lookup_nonempty _ _ _ _ _ E) as Hne. destruct d as [|b [|b' d]]; [done| |].
  - by rewrite (get_found _ _ _ _ _ _ E) by done.
  - destruct (get_too_small _ _ _ 1 true _ _ E) as [-> _]; [zlia|done].
Qed.

Lemma variable_is_setupmode_ok s dflt :
  variable_is_setupmode s dflt
  = match lookup_var s "SetupMode" GV_GUID with Some (_, [b]) => b | _ => dflt end.
Proof.
  unfold variable_is_setupmode.
  destruct (lookup_var s "SetupMode" GV_GUID) as [[a d]|] eqn:E;
    [|by rewrite (get_missing _ _ _ _ _ E)].
  pose proof (lookup_nonempty _ _ _ _ _ E) as Hne. destruct d as [|b [|b' d]]; [done| |].
  - by rewrite (get_found _ _ _ _ _ _ E) by done.
  - destruct (get_too_small _ _ _ 1 true _ _ E) as [-> _]; [zlia|done].
Qed.

(** ** Theorems *)

(** get_variable_attr returns a missing variable as EFI_NOT_FOUND and an
    existing one with its size, its attributes and a buffer that holds the
    data followed by three zero bytes. *)
Theorem get_variable_attr_correct s var owner :
  exists len,
    get_variable_attr true s var owner true
    = Ok (match lookup_var s var owner with
          | None => {| gva_status := EFI_NOT_FOUND; gva_data := None; gva_len := len; gva_attributes := 0 |}
          | Some (a, d) => {| gva_status := EFI_SUCCESS; gva_data := Some (d ++ [0; 0; 0]);
                              gva_len := zlen d; gva_attributes := a |}
          end).
Proof. rewrite get_variable_attr_ok. eauto. Qed.

(** get_variable_size never returns the size of an existing variable: it
    asks get_variable_attr for no data and gets EFI_INVALID_PARAMETER where it
    expects EFI_BUFFER_TOO_SMALL. *)
Theorem get_variable_size_existing s var owner a d :
  lookup_var s var owner = Some (a, d) ->
  get_variable_size s var owner = Ok (EFI_INVALID_PARAMETER, None).
Proof.
  intros E. unfold get_variable_size, get_variable_attr.
  pose proof (zlen_pos_nonempty d (lookup_nonempty _ _ _ _ _ E)) as Hp.
  destruct (get_too_small _ _ _ 0 false _ _ E Hp) as [-> _]. by rewrite bool_decide_true.
Qed.

(** secure_mode holds exactly when the user has not disabled validation,
    SecureBoot is the byte 1 and SetupMode is not the byte 1; a missing or
    oversized SecureBoot counts as off, a missing or oversized SetupMode as
    user mode. *)
Theorem secure_mode_correct s insecure :
  secure_mode s insecure = true <->
  insecure = false /\ (exists a, lookup_var s "SecureBoot" GV_GUID = Some (a, [1])) /\
  ~ (exists a, lookup_var s "SetupMode" GV_GUID = Some (a, [1])).
Proof.
  unfold secure_mode. rewrite variable_is_secureboot_ok, variable_is_setupmode_ok.
  assert (Hno : forall P Q R : Prop, ~ P -> (false = true <-> Q /\ P /\ R))
    by (split; [done|tauto]).
  destruct insecure; [split; [done|by intros [? _]]|].
  destruct (lookup_var s "SecureBoot" GV_GUID) as [[a [|b [|b' d]]]|];
    try (apply Hno; by intros [? ?]).
  destruct (b =? 1) eqn:Eb; bool_to_prop; cbn [negb]; [subst b|apply Hno; intros [? ?]; congruence].
  split.
  - intros Hm. split; [done|]. split; [by exists a|]. intros [a' E]. by rewrite E in Hm.
  - intros (_ & _ & Hs). destruct (lookup_var s "SetupMode" GV_GUID) as [[a' [|c [|c' d]]]|]; try reflexivity.
    destruct (c =? 1) eqn:Ec; bool_to_prop; [|done]. subst c. destruct Hs. by exists a'.
Qed.

(** With SetupMode present and 0, SetSecureVariable changes nothing. *)
Theorem SetSecureVariable_user_mode alloc s var Data owner options ctb a :
  lookup_var s "SetupMode" GV_GUID = Some (a, [0]) ->
  SetSecureVariable alloc s var Data owner options ctb = Ok (EFI_SECURITY_VIOLATION, s).
Proof. intros E. unfold SetSecureVariable. rewrite variable_is_setupmode_ok, E. done. Qed.

(** find_in_variable_esl on a variable that holds a well-formed database
    finds exactly the keys in it. *)
Lemma find_in_variable_esl_ok s var owner a db key :
  lookup_var s var owner = Some (a, esl_encode db) -> Forall esl_wf db ->
  find_in_variable_esl true s var owner key
  = Ok (if existsb (list_has key) db then EFI_SUCCESS else EFI_NOT_FOUND).
Proof.
  intros E HF. unfold find_in_variable_esl, get_variable. rewrite get_variable_attr_ok, E, bind_Ok.
  cbn [gva_status gva_data gva_len EFI_ERROR]. by apply find_in_esl_ok.
Qed.

(** Enrolling a hash that is already in the variable changes nothing. *)
Theorem variable_enroll_hash_present stack s var owner a db hash :
  lookup_var s var owner = Some (a, esl_encode db) -> Forall esl_wf db ->
  existsb (list_has hash) db = true ->
  variable_enroll_hash true stack s var owner hash = Ok (EFI_ALREADY_STARTED, s).
Proof.
  intros E HF Hh. unfold variable_enroll_hash. erewrite find_in_variable_esl_ok by done.
  by rewrite Hh.
Qed.
End laws.

(** The signature list variable_enroll_hash builds has the bytes that were
    on the stack as its SignatureHeaderSize; only when they are zero is it the
    list of the one hash owned by shim. *)
Theorem enroll_sig_header stack hash :
  zlen stack = sizeof_sig -> zlen hash = 32 ->
  exists sig, enroll_sig stack hash = Ok sig /\
    SignatureHeaderSize sig 0 = SignatureHeaderSize stack 0 /\
    (SignatureHeaderSize stack 0 = Ok 0 -> bytes stack ->
     sig = esl_bytes (one_sig EFI_CERT_SHA256_GUID SHIM_LOCK_GUID hash)).
Proof.
  unfold sizeof_sig, sizeof_EFI_SIGNATURE_LIST, sizeof_EFI_SIGNATURE_DATA. intros Hs Hh.
  assert (exists s0 s1 s2 s3 s4 s5, stack = s0 ++ s1 ++ s2 ++ s3 ++ s4 ++ s5 /\
    length s0 = 16%nat /\ length s1 = 4%nat /\ length s2 = 4%nat /\ length s3 = 4%nat /\
    length s4 = 16%nat /\ length s5 = 32%nat)
    as (s0 & s1 & s2 & s3 & s4 & s5 & -> & L0 & L1 & L2 & L3 & L4 & L5).
  { exists (take 16 stack), (take 4 (drop 16 stack)), (take 4 (drop 20 stack)), (take 4 (drop 24 stack)),
      (take 16 (drop 28 stack)), (drop 44 stack).
    split; [|rewrite !length_take, !length_drop; unfold zlen in *; lia].
    rewrite <- (take_drop 16 stack) at 1. f_equal.
    rewrite <- (take_drop 4 (drop 16 stack)) at 1. f_equal. rewrite drop_drop.
    rewrite <- (take_drop 4 (drop (16 + 4) stack)) at 1. f_equal. rewrite drop_drop.
    rewrite <- (take_drop 4 (drop (16 + 4 + 4) stack)) at 1. f_equal. rewrite drop_drop.
    rewrite <- (take_drop 16 (drop (16 + 4 + 4 + 4) stack)) at 1. f_equal. by rewrite drop_drop. }
  assert (zlen s0 = 16 /\ zlen s1 = 4 /\ zlen s2 = 4 /\ zlen s3 = 4 /\ zlen s4 = 16 /\ zlen s5 = 32)
    as (Z0 & Z1 & Z2 & Z3 & Z4 & Z5) by (unfold zlen; lia).
  unfold enroll_sig. rewrite wrn_app_0, bind_Ok by done. set (G := EFI_CERT_SHA256_GUID).
  assert (ZG : zlen G = 16) by done.
  rewrite (wr_le_mid G s1), bind_Ok by done. set (sz := le_split 4 _).
  assert (Zsz : zlen sz = 4) by done.
  rewrite (app_assoc G), (app_assoc (G ++ sz)), (wr_le_mid _ s3), bind_Ok by (done || zlia).
  set (n48 := le_split 4 (16 + 32)). assert (Zn : zlen n48 = 4) by done.
  rewrite (app_assoc (_ ++ s2)), (app_assoc (_ ++ n48)).
  rewrite <- (app_nil_r s5), wrn_app_mid, bind_Ok;
    [|unfold sizeof_EFI_SIGNATURE_LIST; zlia|unfold zlen in *; lia].
  rewrite <- (app_assoc (_ ++ n48)), wrn_app_mid;
    [|unfold sizeof_EFI_SIGNATURE_LIST; zlia|done].
  eexists. split; [done|]. rewrite app_nil_r.
  assert (Hhs : forall a b r, zlen a = 16 -> zlen b = 4 ->
    SignatureHeaderSize (a ++ b ++ s2 ++ r) 0 = Ok (le_combine s2)).
  { intros a b r Ha Hb. unfold SignatureHeaderSize, rd_le.
    by rewrite (app_assoc a), rdn_app_mid by zlia. }
  rewrite <- !app_assoc, !Hhs by done. split; [done|]. intros [= Hz] Hbytes.
  assert (Hs2 : s2 = le_split 4 0).
  { unfold bytes in Hbytes. rewrite !Forall_app in Hbytes. destruct Hbytes as (_ & _ & Hb & _).
    rewrite <- Hz, <- L2. by rewrite le_split_combine. }
  unfold esl_bytes, esl_size, sigs_bytes, one_sig. cbn [esl_type esl_header esl_sigsize esl_sigs].
  rewrite Hh, Hs2. cbn [map concat fst snd app]. by rewrite app_nil_r.
Qed.

Lemma enroll_sig_header_witness :
  exists sig, enroll_sig (zeros 12 ++ replicate 64 7) (zeros 32) = Ok sig /\
    SignatureHeaderSize sig 0 = SignatureHeaderSize (zeros 12 ++ replicate 64 7) 0 /\
    (SignatureHeaderSize (zeros 12 ++ replicate 64 7) 0 = Ok 0 -> bytes (zeros 12 ++ replicate 64 7) ->
     sig = esl_bytes (one_sig EFI_CERT_SHA256_GUID SHIM_LOCK_GUID (zeros 32))).
Proof. apply (enroll_sig_header (zeros 12 ++ replicate 64 7) (zeros 32)); done. Defined.

(** ** Witnesses over the store *)
Definition sample_store : Store :=
  [(("SecureBoot"%string, GV_GUID), (6, [1])); (("SetupMode"%string, GV_GUID), (6, [0]));
   (("MokListX"%string, SHIM_LOCK_GUID), (3, esl_encode [one_sig X509_GUID (zeros 16) [9]]))].

Lemma get_variable_attr_correct_witness :
  exists len,
    get_variable_attr true sample_store "SecureBoot" GV_GUID true
    = Ok (match lookup_var sample_store "SecureBoot" GV_GUID with
          | None => {| gva_status := EFI_NOT_FOUND; gva_data := None; gva_len := len; gva_attributes := 0 |}
          | Some (a, d) => {| gva_status := EFI_SUCCESS; gva_data := Some (d ++ [0; 0; 0]);
                              gva_len := zlen d; gva_attributes := a |}
          end).
Proof. apply (get_variable_attr_correct sample_store "SecureBoot" GV_GUID). Defined.

Lemma get_variable_size_existing_witness :
  get_variable_size sample_store "SecureBoot" GV_GUID = Ok (EFI_INVALID_PARAMETER, None).
Proof. apply (get_variable_size_existing sample_store "SecureBoot" GV_GUID 6 [1]). reflexivity. Defined.

Lemma secure_mode_correct_witness :
  secure_mode sample_store false = true <->
  false = false /\ (exists a, lookup_var sample_store "SecureBoot" GV_GUID = Some (a, [1])) /\
  ~ (exists a, lookup_var sample_store "SetupMode" GV_GUID = Some (a, [1])).
Proof. apply (secure_mode_correct sample_store false). Defined.

Lemma SetSecureVariable_user_mode_witness :
  SetSecureVariable true sample_store "db" [1] SIG_DB 0 true = Ok (EFI_SECURITY_VIOLATION, sample_store).
Proof. apply (SetSecureVariable_user_mode true sample_store "db" [1] SIG_DB 0 true 6). reflexivity. Defined.

Lemma variable_enroll_hash_present_witness :
  variable_enroll_hash true (zeros 76) sample_store "MokListX" SHIM_LOCK_GUID [9]
  = Ok (EFI_ALREADY_STARTED, sample_store).
Proof.
  apply (variable_enroll_hash_present (zeros 76) sample_store "MokListX" SHIM_LOCK_GUID 3
    [one_sig X509_GUID (zeros 16) [9]] [9]); [reflexivity| |reflexivity].
  repeat constructor; by vm_compute.
Defined.
