(* ===== verification/Password.v ===== *)
(** * Password hashes: PasswordCrypt.c

    MokManager checks a password against a PASSWORD_CRYPT, the parts of a crypt(3)
    entry.  A digest context is the list of the bytes it was given; the digests
    and crypt_blowfish_rn are parameters.  [sha_crypt] is the code that
    sha256_crypt and sha512_crypt share up to the size of the digest, and
    [sha_crypt_spec] the algorithm as the SHA-crypt specification describes it. *)
From stdpp Require Import base list numbers option.
From Stdlib Require Import ZArith Lia.
From S2P Require Import Prelude.
From S2P Require Import Efi.
Local Open Scope Z_scope.

(** ** PASSWORD_CRYPT: method, iter_count, salt_size, salt and hash *)
Definition TRADITIONAL_DES : Z := 0.
Definition EXTEND_BSDI_DES : Z := 1.
Definition MD5_BASED : Z := 2.
Definition SHA256_BASED : Z := 3.
Definition SHA512_BASED : Z := 4.
Definition BLOWFISH_BASED : Z := 5.
Definition PASSWORD_CRYPT_SIZE : Z := 172.

Definition method (pw_crypt : list Z) : res Z := rd_le pw_crypt 0 2.
Definition iter_count (pw_crypt : list Z) : res Z := rd_le pw_crypt 2 8.
Definition salt_size (pw_crypt : list Z) : res Z := rd_le pw_crypt 10 2.
Definition pw_salt (pw_crypt : list Z) (n : Z) : res (list Z) := rdn pw_crypt 12 n.
Definition pw_hash (pw_crypt : list Z) (n : Z) : res (list Z) := rdn pw_crypt 44 n.

Definition BLOWFISH_HASH_SIZE : Z := 31.
Definition get_hash_size (m : Z) : Z :=
  if m =? SHA256_BASED then 32
  else if m =? SHA512_BASED then 64
  else if m =? BLOWFISH_BASED then BLOWFISH_HASH_SIZE
  else 0.

(** ** sha256_crypt and sha512_crypt *)
Section sha_crypt.
(** The digest and its size. *)
Context (H : list Z -> list Z) (size : Z).

(** [cnt] bytes of a digest of [size] bytes, taken again and again. *)
Fixpoint add_blocks (fuel : nat) (ctx alt_result : list Z) (cnt : Z) : res (list Z) :=
  match fuel with
  | O => NoFuel
  | S f =>
      if size <? cnt then
        d ← rdn alt_result 0 size;
        add_blocks f (ctx ++ d) alt_result (cnt - size)
      else
        d ← rdn alt_result 0 cnt;
        Ok (ctx ++ d)
  end.

Fixpoint add_bits (fuel : nat) (ctx alt_result key : list Z) (cnt : Z) : res (list Z) :=
  match fuel with
  | O => NoFuel
  | S f =>
      if 0 <? cnt then
        d ← (if negb (Z.land cnt 1 =? 0) then rdn alt_result 0 size else Ok key);
        add_bits f (ctx ++ d) alt_result key (Z.shiftr cnt 1)
      else Ok ctx
  end.

Fixpoint add_times (n : nat) (ctx data : list Z) : list Z :=
  match n with
  | O => ctx
  | S n => add_times n (ctx ++ data) data
  end.

(** Into the buffer [buf] at [cp]. *)
Fixpoint fill_bytes (fuel : nat) (buf : list Z) (cp : Z) (tmp_result : list Z) (cnt : Z) : res (list Z) :=
  match fuel with
  | O => NoFuel
  | S f =>
      if size <=? cnt then
        d ← rdn tmp_result 0 size;
        buf ← wrn buf cp d;
        fill_bytes f buf (cp + size) tmp_result (cnt - size)
      else
        d ← rdn tmp_result 0 cnt;
        wrn buf cp d
  end.

Fixpoint crypt_rounds (n : nat) (cnt : Z) (p_bytes s_bytes alt_result : list Z) : list Z :=
  match n with
  | O => alt_result
  | S n =>
      let ctx := if negb (Z.land cnt 1 =? 0) then p_bytes else alt_result in
      let ctx := if negb (cnt mod 3 =? 0) then ctx ++ s_bytes else ctx in
      let ctx := if negb (cnt mod 7 =? 0) then ctx ++ p_bytes else ctx in
      let ctx := if negb (Z.land cnt 1 =? 0) then ctx ++ alt_result else ctx ++ p_bytes in
      crypt_rounds n (cnt + 1) p_bytes s_bytes (H ctx)
  end.

(** [pool] is what AllocatePool gives. *)
Definition sha_crypt (pool : Z -> option (list Z)) (key : list Z) (salt : list Z) (rounds : Z) : res (list Z) :=
  let key_len := zlen key in
  let alt_result := H (key ++ salt ++ key) in
  ctx ← add_blocks (S (length key)) (key ++ salt) alt_result key_len;
  ctx ← add_bits (S (length key)) ctx alt_result key key_len;
  let alt_result := H ctx in
  let tmp_result := H (add_times (length key) [] key) in
  match pool key_len with
  | None => Fault
  | Some p_bytes =>
      p_bytes ← fill_bytes (S (length key)) p_bytes 0 tmp_result key_len;
      a0 ← rd alt_result 0;
      let tmp_result := H (add_times (Z.to_nat (16 + a0)) [] salt) in
      match pool (zlen salt) with
      | None => Fault
      | Some s_bytes =>
          s_bytes ← fill_bytes (S (length salt)) s_bytes 0 tmp_result (zlen salt);
          Ok (crypt_rounds (Z.to_nat rounds) 0 p_bytes s_bytes alt_result)
      end
  end.

(** ** The algorithm *)
Definition cycle (n : nat) (d : list Z) : list Z := take n (concat (replicate n d)).
Fixpoint spec_bits (n : nat) (B key : list Z) (cnt : Z) : list Z :=
  match n with
  | O => []
  | S n => if cnt =? 0 then [] else (if Z.odd cnt then B else key) ++ spec_bits n B key (cnt / 2)
  end.
Definition spec_round (P S : list Z) (C : list Z) (i : nat) : list Z :=
  let i := Z.of_nat i in
  H ((if Z.odd i then P else C) ++ (if i mod 3 =? 0 then [] else S) ++ (if i mod 7 =? 0 then [] else P) ++
     (if Z.odd i then C else P)).
Definition sha_crypt_spec (key salt : list Z) (rounds : Z) : list Z :=
  let B := H (key ++ salt ++ key) in
  let A := H (key ++ salt ++ cycle (length key) B ++ spec_bits (S (length key)) B key (zlen key)) in
  let P := cycle (length key) (H (concat (replicate (length key) key))) in
  let S := cycle (length salt) (H (concat (replicate (Z.to_nat (16 + nth 0 A 0)) salt))) in
  foldl (spec_round P S) A (seq 0 (Z.to_nat rounds)).

(** ** The code computes it *)
Context (Hsize : forall x, zlen (H x) = size) (Hpos : 0 < size).

Lemma rdn_prefix d n : 0 <= n <= zlen d -> rdn d 0 n = Ok (take (Z.to_nat n) d).
Proof. intros Hn. unfold rdn. rewrite !(proj2 (Z.leb_le _ _)) by lia. done. Qed.

Lemma cycle_short d n : zlen d = size -> Z.of_nat n <= size -> cycle n d = take n d.
Proof.
  intros Hd Hn. destruct n as [|n]; [done|]. unfold cycle. cbn [replicate concat].
  rewrite take_app_le; [done|]. unfold zlen in Hd. lia.
Qed.
Lemma cycle_long d n : zlen d = size -> size <= Z.of_nat n -> cycle n d = d ++ cycle (n - Z.to_nat size) d.
Proof.
  intros Hd Hn. unfold cycle. destruct n as [|n]; [lia|]. cbn [replicate concat]. unfold zlen in Hd.
  rewrite take_app_ge by lia. f_equal. replace (S n - length d)%nat with (S n - Z.to_nat size)%nat by lia.
  set (m := (S n - Z.to_nat size)%nat).
  replace (replicate n d) with (replicate m d ++ replicate (n - m) d) by (rewrite <- replicate_add; f_equal; lia).
  rewrite concat_app, take_app_le; [done|]. clear -Hpos Hd. induction m as [|m IH]; [cbn; lia|]. cbn. rewrite length_app. lia.
Qed.

Lemma add_blocks_ok f d : zlen d = size -> forall ctx cnt, (cnt < f)%nat ->
  add_blocks f ctx d (Z.of_nat cnt) = Ok (ctx ++ cycle cnt d).
Proof.
  intros Hd. induction f as [|f IH]; intros ctx cnt Hf; [lia|]. cbn [add_blocks].
  destruct (size <? Z.of_nat cnt) eqn:E; bool_to_prop.
  - rewrite <- (app_nil_r d) at 1. rewrite (rdn_app_mid [] d []) by done. rewrite bind_Ok.
    replace (Z.of_nat cnt - size) with (Z.of_nat (cnt - Z.to_nat size)) by lia. rewrite IH by lia.
    rewrite (cycle_long d cnt) by lia. by rewrite app_assoc.
  - by rewrite rdn_prefix, bind_Ok, Nat2Z.id, cycle_short by lia.
Qed.

Lemma add_bits_ok f B key : zlen B = size -> forall ctx cnt, 0 <= cnt < Z.of_nat f ->
  add_bits f ctx B key cnt = Ok (ctx ++ spec_bits f B key cnt).
Proof.
  intros HB. induction f as [|f IH]; intros ctx cnt Hf; [lia|]. cbn [add_bits spec_bits].
  destruct (0 <? cnt) eqn:E; bool_to_prop.
  - rewrite (proj2 (Z.eqb_neq cnt 0)) by lia. rewrite Z.shiftr_div_pow2 by lia. change (2 ^ 1) with 2.
    assert (Hb : negb (Z.land cnt 1 =? 0) = Z.odd cnt).
    { change 1 with (Z.ones 1). rewrite Z.land_ones, Zmod_odd by lia. by destruct (Z.odd cnt). }
    rewrite Hb. assert (0 <= cnt / 2 < Z.of_nat f).
    { split; [apply Z.div_pos; lia|]. apply Z.div_lt_upper_bound; lia. }
    destruct (Z.odd cnt).
    + rewrite <- (app_nil_r B) at 1. rewrite (rdn_app_mid [] B []) by done. rewrite bind_Ok, IH by done. by rewrite app_assoc.
    + rewrite bind_Ok, IH by done. by rewrite app_assoc.
  - assert (cnt = 0) as -> by lia. by rewrite app_nil_r.
Qed.

Lemma add_times_ok n d : forall ctx, add_times n ctx d = ctx ++ concat (replicate n d).
Proof. induction n as [|n IH]; intros ctx; cbn; [by rewrite app_nil_r|]. by rewrite IH, <- app_assoc. Qed.

Lemma fill_bytes_ok f d : zlen d = size -> forall cnt p old, (cnt < f)%nat -> length old = cnt ->
  fill_bytes f (p ++ old) (zlen p) d (Z.of_nat cnt) = Ok (p ++ cycle cnt d).
Proof.
  intros Hd. induction f as [|f IH]; intros cnt p old Hf Hold; [lia|]. cbn [fill_bytes].
  destruct (size <=? Z.of_nat cnt) eqn:E; bool_to_prop.
  - rewrite <- (app_nil_r d) at 1. rewrite (rdn_app_mid [] d []) by done. rewrite bind_Ok.
    rewrite <- (take_drop (Z.to_nat size) old).
    rewrite wrn_app_mid; [|done|rewrite length_take; unfold zlen in Hd; lia]. rewrite bind_Ok, app_assoc.
    replace (zlen p + size) with (zlen (p ++ d)) by zlia. replace (Z.of_nat cnt - size) with (Z.of_nat (cnt - Z.to_nat size)) by lia.
    rewrite IH by (rewrite ?length_drop; lia). by rewrite (cycle_long d cnt), <- app_assoc by lia.
  - rewrite rdn_prefix, bind_Ok, Nat2Z.id by lia. rewrite <- (app_nil_r old).
    rewrite wrn_app_mid; [|done|rewrite length_take; unfold zlen in Hd; lia]. by rewrite app_nil_r, cycle_short by lia.
Qed.

Lemma crypt_rounds_ok n P S : forall k C, crypt_rounds n (Z.of_nat k) P S C = foldl (spec_round P S) C (seq k n).
Proof.
  induction n as [|n IH]; intros k C; [done|]. cbn [crypt_rounds seq foldl].
  replace (Z.of_nat k + 1) with (Z.of_nat (Datatypes.S k)) by lia. rewrite IH. f_equal. unfold spec_round.
  assert (Hb : negb (Z.land (Z.of_nat k) 1 =? 0) = Z.odd (Z.of_nat k)).
  { change 1 with (Z.ones 1). rewrite Z.land_ones, Zmod_odd by lia. by destruct (Z.odd (Z.of_nat k)). }
  rewrite Hb. destruct (Z.odd (Z.of_nat k)), (Z.of_nat k mod 3 =? 0), (Z.of_nat k mod 7 =? 0); cbn [negb app];
    by rewrite <- ?app_assoc.
Qed.

(** An allocation of [n] bytes that succeeds. *)
Definition allocates (pool : Z -> option (list Z)) (n : Z) : Prop := exists buf, pool n = Some buf /\ zlen buf = n.

(** Without memory there is no result. *)
Lemma sha_crypt_pool pool key salt rounds d : (forall n buf, 0 <= n -> pool n = Some buf -> zlen buf = n) ->
  sha_crypt pool key salt rounds = Ok d -> allocates pool (zlen key) /\ allocates pool (zlen salt).
Proof.
  intros Hp. pose proof (zlen_nonneg key). pose proof (zlen_nonneg salt). unfold sha_crypt. cbv zeta. intros (c1 & _ & (c2 & _ & Hr)%bind_inv)%bind_inv.
  destruct (pool (zlen key)) as [b1|] eqn:E1; [|done]. apply bind_inv in Hr as (b2 & _ & Hr). apply bind_inv in Hr as (a0 & _ & Hr).
  destruct (pool (zlen salt)) as [b3|] eqn:E3; [|done]. split; [exists b1|exists b3]; auto.
Qed.

Lemma sha_crypt_ok pool key salt rounds :
  allocates pool (zlen key) -> allocates pool (zlen salt) ->
  sha_crypt pool key salt rounds = Ok (sha_crypt_spec key salt rounds).
Proof.
  intros (pb & Epb & Hpb) (sbuf & Esb & Hsb). unfold sha_crypt, sha_crypt_spec. cbv zeta.
  assert (HB : forall ctx d, zlen d = size -> add_blocks (S (length key)) ctx d (zlen key) = Ok (ctx ++ cycle (length key) d))
    by (intros ctx d Hd; apply add_blocks_ok; [done|lia]).
  rewrite HB, bind_Ok by done.
  rewrite add_bits_ok by (done || (unfold zlen; lia)). rewrite bind_Ok, !add_times_ok. cbn [app]. rewrite <- !app_assoc.
  rewrite Epb.
  assert (HP : fill_bytes (S (length key)) pb 0 (H (concat (replicate (length key) key))) (zlen key)
    = Ok (cycle (length key) (H (concat (replicate (length key) key))))).
  { apply (fill_bytes_ok _ _ (Hsize _) (length key) [] pb); [lia|unfold zlen in Hpb; lia]. }
  rewrite HP, bind_Ok. set (A := H (key ++ _)). pose proof (Hsize (key ++ salt ++ cycle (length key) (H (key ++ salt ++ key)) ++
    spec_bits (S (length key)) (H (key ++ salt ++ key)) key (zlen key))) as HA. fold A in HA.
  destruct (rd_in_range A 0 ltac:(lia)) as [a0 Ha0]. rewrite Ha0, bind_Ok, add_times_ok.
  assert (nth 0 A 0 = a0) as ->.
  { apply rd_Ok_inv in Ha0 as [_ Ha0]. destruct A; [done|]. by injection Ha0. }
  rewrite Esb. cbn [app].
  assert (HS : fill_bytes (S (length salt)) sbuf 0 (H (concat (replicate (Z.to_nat (16 + a0)) salt))) (zlen salt)
    = Ok (cycle (length salt) (H (concat (replicate (Z.to_nat (16 + a0)) salt))))).
  { apply (fill_bytes_ok _ _ (Hsize _) (length salt) [] sbuf); [lia|unfold zlen in Hsb; lia]. }
  rewrite HS, bind_Ok. f_equal. apply (crypt_rounds_ok _ _ _ 0).
Qed.
End sha_crypt.

(** ** password_crypt *)

(** The digests and crypt_blowfish_rn, which gives the text it stores or NULL. *)
Record crypto : Type := {
  cr_sha256 : list Z -> list Z;
  cr_sha512 : list Z -> list Z;
  cr_blowfish : list Z -> list Z -> option (list Z)
}.

Definition BF_RESULT_SIZE : Z := 7 + 22 + 31 + 1.

Section password_crypt.
Context (cr : crypto) (pool : Z -> option (list Z)).

Definition sha256_crypt := sha_crypt (cr_sha256 cr) 32 pool.
Definition sha512_crypt := sha_crypt (cr_sha512 cr) 64 pool.

(** [hash] is the caller's buffer. *)
Definition blowfish_crypt (key salt hash : list Z) : res (EFI_STATUS * list Z) :=
  match cr_blowfish cr key salt with
  | None => Ok (EFI_UNSUPPORTED, hash)
  | Some result =>
      d ← rdn result (7 + 22) BF_RESULT_SIZE;
      hash ← wrn hash 0 d;
      Ok (EFI_SUCCESS, hash)
  end.

(** The rounds are a UINT32, iter_count is a UINT64. *)
Definition password_crypt (password : list Z) (pw_crypt hash : list Z) : res (EFI_STATUS * list Z) :=
  m ← method pw_crypt;
  if (m =? TRADITIONAL_DES) || (m =? EXTEND_BSDI_DES) || (m =? MD5_BASED) then Ok (EFI_UNSUPPORTED, hash)
  else if (m =? SHA256_BASED) || (m =? SHA512_BASED) then
    n ← salt_size pw_crypt;
    salt ← pw_salt pw_crypt n;
    iter ← iter_count pw_crypt;
    d ← (if m =? SHA256_BASED then sha256_crypt password salt (u32 iter) else sha512_crypt password salt (u32 iter));
    hash ← wrn hash 0 d;
    Ok (EFI_SUCCESS, hash)
  else if m =? BLOWFISH_BASED then
    n ← salt_size pw_crypt;
    if negb (n =? 7 + 22 + 1) then Ok (EFI_INVALID_PARAMETER, hash)
    else
      salt ← pw_salt pw_crypt n;
      blowfish_crypt password salt hash
  else Ok (EFI_INVALID_PARAMETER, hash).
End password_crypt.

(** A PASSWORD_CRYPT with the given fields. *)
Definition crypt_bytes (m iter n : Z) (salt hash : list Z) : list Z :=
  le_split 2 m ++ le_split 8 iter ++ le_split 2 n ++ salt ++ hash.

Section fields.
Context (m iter n : Z) (salt hash : list Z).
Context (Hm : 0 <= m < 2 ^ 16) (Hi : 0 <= iter < 2 ^ 64) (Hn : 0 <= n < 2 ^ 16) (Hs : zlen salt = 32).

Lemma method_ok : method (crypt_bytes m iter n salt hash) = Ok m.
Proof. unfold method, crypt_bytes. exact (rd_le_mid [] _ _ 0 2 m eq_refl eq_refl Hm). Qed.
Lemma iter_count_ok : iter_count (crypt_bytes m iter n salt hash) = Ok iter.
Proof. unfold iter_count, crypt_bytes. by apply (rd_le_mid (le_split 2 m) _ _ 2 8 iter). Qed.
Lemma salt_size_ok : salt_size (crypt_bytes m iter n salt hash) = Ok n.
Proof. unfold salt_size, crypt_bytes. rewrite app_assoc. by apply (rd_le_mid (le_split 2 m ++ le_split 8 iter) _ _ 10 2 n). Qed.
Lemma pw_salt_ok : n <= 32 -> pw_salt (crypt_bytes m iter n salt hash) n = Ok (take (Z.to_nat n) salt).
Proof.
  intros Hn'. unfold pw_salt, crypt_bytes. rewrite <- (take_drop (Z.to_nat n) salt) at 1. rewrite <- app_assoc, (app_assoc (le_split 2 m)), app_assoc.
  apply rdn_app_mid; [zlia|]. unfold zlen in *. rewrite length_take. lia.
Qed.
Lemma pw_hash_ok k : 0 <= k <= zlen hash -> pw_hash (crypt_bytes m iter n salt hash) k = Ok (take (Z.to_nat k) hash).
Proof.
  intros Hk. unfold pw_hash, crypt_bytes. rewrite <- (take_drop (Z.to_nat k) hash) at 1.
  rewrite (app_assoc (le_split 2 m)), (app_assoc _ (le_split 2 n)), (app_assoc _ salt). apply rdn_app_mid; [zlia|]. unfold zlen in *. rewrite length_take. lia.
Qed.
End fields.

(** The digest of a password with the method, salt and rounds of an entry. *)
Definition sha_of (cr : crypto) (m : Z) : list Z -> list Z := if m =? SHA256_BASED then cr_sha256 cr else cr_sha512 cr.

Lemma rounds_length (H : list Z -> list Z) k P S : (forall x, zlen (H x) = k) ->
  forall l A, zlen A = k -> zlen (foldl (spec_round H P S) A l) = k.
Proof. intros HH l. induction l as [|i l IH]; intros A HA; [done|]. cbn [foldl]. apply IH, HH. Qed.

Section correctness.
Context (cr : crypto) (pool : Z -> option (list Z)).
Context (H256 : forall x, zlen (cr_sha256 cr x) = 32) (H512 : forall x, zlen (cr_sha512 cr x) = 64).

Lemma sha_crypt_spec_length (H : list Z -> list Z) k key salt rounds :
  (forall x, zlen (H x) = k) -> zlen (sha_crypt_spec H key salt rounds) = k.
Proof.
  intros HH. by apply rounds_length.
Qed.

Lemma password_crypt_ok password c m n salt iter hash :
  m = SHA256_BASED \/ m = SHA512_BASED -> method c = Ok m -> salt_size c = Ok n -> pw_salt c n = Ok salt ->
  iter_count c = Ok iter -> 64 <= zlen hash -> allocates pool (zlen password) -> allocates pool (zlen salt) ->
  let d := sha_crypt_spec (sha_of cr m) password salt (u32 iter) in
  zlen d = get_hash_size m /\ password_crypt cr pool password c hash = Ok (EFI_SUCCESS, d ++ drop (length d) hash).
Proof.
  intros Hm Em En Es Ei Hh Hp1 Hp2 d.
  assert (Hd : zlen d = get_hash_size m) by (destruct Hm as [-> | ->]; [apply (sha_crypt_spec_length _ 32)|apply (sha_crypt_spec_length _ 64)]; [exact H256|exact H512]).
  split; [done|]. assert (Hw : wrn hash 0 d = Ok (d ++ drop (length d) hash)).
  { unfold wrn. rewrite (proj2 (Z.leb_le (0 + zlen d) _)); [done|]. rewrite Hd. destruct Hm as [-> | ->]; cbn; lia. }
  unfold password_crypt. rewrite Em, bind_Ok.
  assert (Hc : forall A (a b c : A), (if (m =? TRADITIONAL_DES) || (m =? EXTEND_BSDI_DES) || (m =? MD5_BASED) then a
    else if (m =? SHA256_BASED) || (m =? SHA512_BASED) then b else c) = b) by (intros; by destruct Hm as [-> | ->]).
  rewrite Hc, En, bind_Ok, Es, bind_Ok, Ei, bind_Ok. unfold sha256_crypt, sha512_crypt.
  assert (Hr : (if m =? SHA256_BASED then sha_crypt (cr_sha256 cr) 32 pool password salt (u32 iter)
    else sha_crypt (cr_sha512 cr) 64 pool password salt (u32 iter)) = Ok d).
  { unfold d, sha_of. destruct (m =? SHA256_BASED); apply sha_crypt_ok; auto; lia. }
  by rewrite Hr, bind_Ok, Hw, bind_Ok.
Qed.
End correctness.

(** C24. For a PASSWORD_CRYPT with a salt of at most 32 bytes, password_crypt with
    SHA-256 or SHA-512 succeeds and stores at the start of the buffer the digest
    that the SHA-crypt algorithm gives for the password, the salt and the number
    of rounds (of which it takes the low 32 bits). *)
Theorem password_crypt_sha cr pool password m iter n salt stored hash :
  allocates pool (zlen password) -> allocates pool n ->
  (forall x, zlen (cr_sha256 cr x) = 32) -> (forall x, zlen (cr_sha512 cr x) = 64) ->
  m = SHA256_BASED \/ m = SHA512_BASED -> 0 <= iter < 2 ^ 64 -> 0 <= n <= 32 -> zlen salt = 32 -> 64 <= zlen hash ->
  let d := sha_crypt_spec (sha_of cr m) password (take (Z.to_nat n) salt) (u32 iter) in
  zlen d = get_hash_size m /\
  password_crypt cr pool password (crypt_bytes m iter n salt stored) hash = Ok (EFI_SUCCESS, d ++ drop (length d) hash).
Proof.
  intros Hp1 Hp2 H256 H512 Hm Hi Hn Hs Hh. apply (password_crypt_ok _ _ H256 H512 _ _ _ n); [done| | | | |done|done|].
  - apply method_ok. destruct Hm as [-> | ->]; unfold SHA256_BASED, SHA512_BASED; lia.
  - apply salt_size_ok; lia.
  - apply pw_salt_ok; lia.
  - by apply iter_count_ok.
  - by replace (zlen (take (Z.to_nat n) salt)) with n by (unfold zlen in *; rewrite length_take; lia).
Qed.

(** A digest for the examples: every byte is the sum of the bytes. *)
Definition sum_digest (n : nat) (x : list Z) : list Z := replicate n (u8 (foldr Z.add 0 x)).
Definition sample_crypto : crypto :=
  {| cr_sha256 := sum_digest 32; cr_sha512 := sum_digest 64; cr_blowfish := fun _ _ => None |}.
Definition sample_pool (n : Z) : option (list Z) := Some (replicate (Z.to_nat n) 0).
Lemma sample_pool_length n : 0 <= n -> allocates sample_pool n.
Proof. intros Hn. exists (replicate (Z.to_nat n) 0). split; [done|]. unfold zlen. rewrite length_replicate. lia. Qed.

Lemma password_crypt_sha_witness :
  let c := crypt_bytes SHA256_BASED 5 8 (replicate 32 7) (replicate 128 0) in
  password_crypt sample_crypto sample_pool [112; 119] c (replicate 128 0)
  = Ok (EFI_SUCCESS, sha_crypt_spec (sum_digest 32) [112; 119] (replicate 8 7) 5 ++ replicate 96 0).
Proof.
  exact (proj2 (password_crypt_sha sample_crypto sample_pool [112; 119] SHA256_BASED 5 8 (replicate 32 7) (replicate 128 0) (replicate 128 0)
    ltac:(by apply sample_pool_length) ltac:(by apply sample_pool_length) (fun _ => eq_refl) (fun _ => eq_refl) (or_introl eq_refl)
    ltac:(lia) ltac:(lia) eq_refl ltac:(by vm_compute))).
Defined.

(** The salt has 32 bytes, but its size is taken from the entry unchecked: one
    that is too large for the bytes behind it leads past the end of the entry. *)
Theorem password_crypt_salt_size cr pool password iter n salt stored hash :
  0 <= iter < 2 ^ 64 -> zlen salt = 32 -> zlen stored = 128 -> 160 < n < 2 ^ 16 ->
  password_crypt cr pool password (crypt_bytes SHA256_BASED iter n salt stored) hash = Fault.
Proof.
  intros Hi Hs Hst Hn. unfold password_crypt. rewrite method_ok by (unfold SHA256_BASED; lia). rewrite bind_Ok. cbn [orb Z.eqb TRADITIONAL_DES].
  change ((SHA256_BASED =? TRADITIONAL_DES) || (SHA256_BASED =? EXTEND_BSDI_DES) || (SHA256_BASED =? MD5_BASED)) with false. cbn [orb Z.eqb].
  rewrite salt_size_ok, bind_Ok by lia. unfold pw_salt, rdn, crypt_bytes. zlen_simpl.
  rewrite (proj2 (Z.leb_gt (12 + n) _)) by lia. by rewrite andb_false_r.
Qed.

(** blowfish_crypt copies 61 bytes from offset 29 of a buffer of 61 bytes. *)
Theorem blowfish_reads_past_result cr key salt hash result :
  cr_blowfish cr key salt = Some result -> zlen result = BF_RESULT_SIZE -> blowfish_crypt cr key salt hash = Fault.
Proof. intros Hc Hl. unfold blowfish_crypt. rewrite Hc. unfold rdn. rewrite Hl. done. Qed.
