(* ===== verification/MokManager.v ===== *)
(** * MokManager.c: the machine owner's requests

    The operating system leaves requests in variables (MokNew, MokDel, MokSB, ...)
    together with the hash of a password; MokManager asks the user for it and
    carries them out.  The user is a record of streams: keystrokes, answers to
    yes/no questions, choices of menus, the files picked, and the bytes of
    RandomBytes; a function that needs an answer that is not there waits, which is
    [NoFuel].  LibDeleteVariable of gnu-efi is the class [Firmware.VarLib], the protocol of
    shim, the file browser, the certificate parser and the memory are parameters.
    What is only shown on the screen is left out. *)
From stdpp Require Import base list numbers option strings sets.
From Stdlib Require Import ZArith Lia.
From S2P Require Import Prelude.
From S2P Require Import Efi.
From S2P Require Import Firmware.
From S2P Require Import Esl.
From S2P Require Import KeyList.
From S2P Require Import Variables.
From S2P Require Import Password.
Local Open Scope Z_scope.

Definition PASSWORD_MAX : Z := 256.
Definition PASSWORD_MIN : Z := 1.
Definition CHAR_NULL : Z := 0.
Definition CHAR_BACKSPACE : Z := 8.
Definition CHAR_TAB : Z := 9.
Definition CHAR_LINEFEED : Z := 10.
Definition CHAR_CARRIAGE_RETURN : Z := 13.
Definition NV_BS : Z := Z.lor EFI_VARIABLE_NON_VOLATILE EFI_VARIABLE_BOOTSERVICE_ACCESS.
Definition runtime (attributes : Z) : bool := negb (Z.land attributes EFI_VARIABLE_RUNTIME_ACCESS =? 0).

(** ** The user *)
Record user : Type := {
  u_keys : list (EFI_STATUS * Z);
  u_yes : list bool;
  u_choices : list Z;
  u_files : list (option (list Z * (EFI_STATUS + list Z)));
  u_random : list Z
}.
Record mm (S : Type) : Type := { mm_fw : S; mm_user : user }.
Arguments mm_fw {S}. Arguments mm_user {S}.

(** The machine: memory (for the pool, for the variables, for a hash context and
    for a prompt), the stack a password hash is computed on and the attributes of
    a variable are read into, the digest, the wait for a key, the certificate parser, StrLwr, and shim's protocol. *)
Record manager : Type := {
  mt_pool : Z -> option (list Z);
  mt_alloc : bool;
  mt_ctx : bool;
  mt_prompt : bool;
  mt_list : bool;
  mt_menu : bool;
  mt_stack : list Z;
  mt_attributes : Z;
  mt_sha256 : list Z -> list Z;
  mt_crypto : crypto;
  mt_countdown : Z -> Z;
  mt_X509 : list Z -> bool;
  mt_StrLwr : list Z -> list Z;
  mt_lock : EFI_STATUS;
  mt_Context : list Z -> EFI_STATUS;
  mt_Hash : list Z -> EFI_STATUS * list Z
}.

(** ** The menu and the requests *)
Inductive mok_menu_item : Type :=
| MOK_BOOT
| MOK_RESET_MOK
| MOK_RESET_MOKX
| MOK_ENROLL_MOK
| MOK_ENROLL_MOKX
| MOK_DELETE_MOK
| MOK_DELETE_MOKX
| MOK_CHANGE_SB
| MOK_SET_PW
| MOK_CHANGE_DB
| MOK_KEY_ENROLL
| MOK_HASH_ENROLL
| MOK_CHANGE_TML.

(** A request: NULL, or the buffer and the size. *)
Definition request : Type := option (list Z * Z).
Record requests : Type := {
  MokNew : request;
  MokDel : request;
  MokSB : request;
  MokPW : request;
  MokDB : request;
  MokXNew : request;
  MokXDel : request;
  MokTML : request
}.

Global Instance mok_menu_item_eq_dec : EqDecision mok_menu_item.
Proof. solve_decision. Defined.

(** How the menu ends. *)
Inductive menu_end : Type :=
| Rebooted
| Returned (efi_status : EFI_STATUS).

(** What an item does: leave the menu, or a status. *)
Inductive served : Type :=
| Leave (efi_status : EFI_STATUS)
| Done (efi_status : EFI_STATUS).

Section manager.
Context {S : Type} `{Firmware S} `{VarLib S} (mt : manager).

Definition set_fw (s : mm S) (fw : S) : mm S := {| mm_fw := fw; mm_user := mm_user s |}.
Definition set_keys (s : mm S) (ks : list (EFI_STATUS * Z)) : mm S :=
  let u := mm_user s in
  {| mm_fw := mm_fw s; mm_user := {| u_keys := ks; u_yes := u_yes u; u_choices := u_choices u; u_files := u_files u; u_random := u_random u |} |}.
Definition set_choices (s : mm S) (cs : list Z) : mm S :=
  let u := mm_user s in
  {| mm_fw := mm_fw s; mm_user := {| u_keys := u_keys u; u_yes := u_yes u; u_choices := cs; u_files := u_files u; u_random := u_random u |} |}.
Definition set_random (s : mm S) (rs : list Z) : mm S :=
  let u := mm_user s in
  {| mm_fw := mm_fw s; mm_user := {| u_keys := u_keys u; u_yes := u_yes u; u_choices := u_choices u; u_files := u_files u; u_random := rs |} |}.

Definition console_yes_no (s : mm S) : res (bool * mm S) :=
  let u := mm_user s in
  match u_yes u with
  | [] => NoFuel
  | b :: bs =>
      Ok (b, {| mm_fw := mm_fw s; mm_user := {| u_keys := u_keys u; u_yes := bs; u_choices := u_choices u; u_files := u_files u; u_random := u_random u |} |})
  end.
Definition console_select (s : mm S) : res (Z * mm S) :=
  match u_choices (mm_user s) with [] => NoFuel | c :: cs => Ok (c, set_choices s cs) end.
Definition pick_file (s : mm S) : res (option (list Z * (EFI_STATUS + list Z)) * mm S) :=
  let u := mm_user s in
  match u_files u with
  | [] => NoFuel
  | f :: fs =>
      Ok (f, {| mm_fw := mm_fw s; mm_user := {| u_keys := u_keys u; u_yes := u_yes u; u_choices := u_choices u; u_files := fs; u_random := u_random u |} |})
  end.
Definition RandomByte (s : mm S) : res (Z * mm S) :=
  match u_random (mm_user s) with [] => NoFuel | r :: rs => Ok (r, set_random s rs) end.

(** LibDeleteVariable with the result ignored. *)
Definition drop_var (s : mm S) (name : string) : mm S := set_fw s (snd (LibDeleteVariable (mm_fw s) name SHIM_LOCK_GUID)).
Definition set_var (s : mm S) (name : string) (data : list Z) : EFI_STATUS * mm S :=
  let '(st, fw) := SetVariable (mm_fw s) name SHIM_LOCK_GUID NV_BS data in (st, set_fw s fw).

(** ** Passwords *)

(** The line so far has [count] characters. *)
Fixpoint get_line_loop (ks : list (EFI_STATUS * Z)) (line : list Z) (line_max : Z) : res (EFI_STATUS * list Z * list (EFI_STATUS * Z)) :=
  match ks with
  | [] => NoFuel
  | (efi_status, c) :: ks =>
      if EFI_ERROR efi_status then Ok (efi_status, [], ks)
      else
        let line :=
          if ((line_max <=? zlen line) && negb (c =? CHAR_BACKSPACE)) || (c =? CHAR_NULL) || (c =? CHAR_TAB) ||
             (c =? CHAR_LINEFEED) || (c =? CHAR_CARRIAGE_RETURN) then line
          else if (zlen line =? 0) && (c =? CHAR_BACKSPACE) then line
          else if c =? CHAR_BACKSPACE then removelast line
          else line ++ [c] in
        if c =? CHAR_CARRIAGE_RETURN then Ok (EFI_SUCCESS, line, ks) else get_line_loop ks line line_max
  end.
Definition get_line (s : mm S) (line_max : Z) : res (EFI_STATUS * list Z * mm S) :=
  '(efi_status, line, ks) ← get_line_loop (u_keys (mm_user s)) [] line_max;
  Ok (efi_status, line, set_keys s ks).

Definition compute_pw_hash (Data password hash : list Z) : res (EFI_STATUS * list Z) :=
  if negb (mt_ctx mt) then Ok (EFI_OUT_OF_RESOURCES, hash)
  else
    hash ← wrn hash 0 (mt_sha256 mt (Data ++ password));
    Ok (EFI_SUCCESS, hash).

Definition get_password (s : mm S) (max : Z) : res (list Z * mm S) :=
  if negb (mt_prompt mt) then Ok ([], s)
  else '(_, line, s) ← get_line s max; Ok (line, s).

(** The bytes of characters, and the characters of an ASCII password. *)
Definition unit_bytes (line : list Z) : list Z := concat (map (le_split 2) line).
Definition pw_ascii (line : list Z) : list Z := map u8 line.

(** The hash of one attempt. *)
Definition hash_password (pw_crypt : option (list Z)) (Data line hash : list Z) : res (EFI_STATUS * list Z) :=
  match pw_crypt with
  | Some c => password_crypt (mt_crypto mt) (mt_pool mt) (pw_ascii line) c hash
  | None => compute_pw_hash Data (unit_bytes line) hash
  end.

Fixpoint try_password (k : nat) (pw_crypt : option (list Z)) (Data auth_hash : list Z) (auth_size : Z) (hash : list Z) (s : mm S)
  : res (EFI_STATUS * mm S) :=
  match k with
  | O => Ok (EFI_ACCESS_DENIED, s)
  | Datatypes.S k =>
      '(line, s) ← get_password s PASSWORD_MAX;
      if (zlen line <? PASSWORD_MIN) || (PASSWORD_MAX <? zlen line) then try_password k pw_crypt Data auth_hash auth_size hash s
      else
        '(efi_status, hash) ← hash_password pw_crypt Data line hash;
        if EFI_ERROR efi_status then try_password k pw_crypt Data auth_hash auth_size hash s
        else
          d ← rdn hash 0 auth_size;
          if negb (bytes_eqb auth_hash d) then try_password k pw_crypt Data auth_hash auth_size hash s
          else Ok (EFI_SUCCESS, s)
  end.

Definition match_password (pw_crypt : option (list Z)) (Data : list Z) (auth : option (list Z)) (s : mm S) : res (EFI_STATUS * mm S) :=
  match pw_crypt, auth with
  | Some c, _ =>
      m ← method c;
      let auth_size := get_hash_size m in
      if auth_size =? 0 then Ok (EFI_INVALID_PARAMETER, s)
      else
        auth_hash ← pw_hash c auth_size;
        try_password 3 pw_crypt Data auth_hash auth_size (mt_stack mt) s
  | None, Some auth =>
      auth_hash ← rdn auth 0 SHA256_DIGEST_SIZE;
      try_password 3 None Data auth_hash SHA256_DIGEST_SIZE (mt_stack mt) s
  | None, None => Ok (EFI_INVALID_PARAMETER, s)
  end.

(** The password for a value of one of the two sizes. *)
Definition good_size (n : Z) : bool := (n =? SHA256_DIGEST_SIZE) || (n =? PASSWORD_CRYPT_SIZE).
Definition match_auth (auth : list Z) (size : Z) (Data : list Z) (s : mm S) : res (EFI_STATUS * mm S) :=
  if size =? PASSWORD_CRYPT_SIZE then match_password (Some auth) [] None s else match_password None Data (Some auth) s.

(** ** Storing keys *)

(** The attributes of a variable that is not there are those left on the stack. *)
Definition write_db (db_name : string) (MokNew : list Z) (s : mm S) : res (EFI_STATUS * mm S) :=
  g ← get_variable_attr (mt_alloc mt) (mm_fw s) db_name SHIM_LOCK_GUID true;
  if EFI_ERROR (gva_status g) && negb (bool_decide (gva_status g = EFI_NOT_FOUND)) then Ok (gva_status g, s)
  else
    let attributes := if EFI_ERROR (gva_status g) then mt_attributes mt else gva_attributes g in
    let '(old_data, old_size) := if runtime attributes then (None, 0) else (gva_data g, gva_len g) in
    match mt_pool mt (old_size + zlen MokNew) with
    | None => Ok (EFI_OUT_OF_RESOURCES, s)
    | Some new_data =>
        old ← (match old_data with Some d => rdn d 0 old_size | None => if old_size =? 0 then Ok [] else Fault end);
        new_data ← wrn new_data 0 old;
        new_data ← wrn new_data old_size MokNew;
        Ok (set_var s db_name new_data)
    end.

Definition db_name (MokX : bool) : string := if MokX then "MokListX" else "MokList".
Definition auth_name (MokX : bool) : string := if MokX then "MokXAuth" else "MokAuth".
Definition del_auth_name (MokX : bool) : string := if MokX then "MokXDelAuth" else "MokDelAuth".

(** The authentication of store_keys and delete_keys: the status to return, if
    any. *)
Definition authenticate_with (name : string) (Data : list Z) (s : mm S) : res (option EFI_STATUS * mm S) :=
  let g := GetVariable (mm_fw s) name SHIM_LOCK_GUID PASSWORD_CRYPT_SIZE true in
  if EFI_ERROR (gv_status g) || negb (good_size (gv_size g)) then Ok (Some (gv_status g), s)
  else
    '(efi_status, s) ← match_auth (gv_data g) (gv_size g) Data s;
    Ok (if EFI_ERROR efi_status then Some EFI_ACCESS_DENIED else None, s).

Definition store_keys (MokNew : list Z) (authenticate MokX : bool) (s : mm S) : res (EFI_STATUS * mm S) :=
  '(refused, s) ← (if authenticate then authenticate_with (auth_name MokX) MokNew s else Ok (None, s));
  match refused with
  | Some efi_status => Ok (efi_status, s)
  | None =>
      '(efi_status, s) ← (if zlen MokNew =? 0 then Ok (set_var s (db_name MokX) []) else write_db (db_name MokX) MokNew s);
      Ok (if EFI_ERROR efi_status then efi_status else EFI_SUCCESS, s)
  end.

(** Looking at the keys: the choices until one is not a key. *)
Fixpoint view_keys (cs : list Z) (MokNum : Z) : res (list Z) :=
  match cs with
  | [] => NoFuel
  | c :: cs => if (c <? 0) || (MokNum <=? c) then Ok cs else view_keys cs MokNum
  end.
Definition list_keys (KeyList : list Z) (KeyListSize : Z) (s : mm S) : res (EFI_STATUS * mm S) :=
  if KeyListSize <? sizeof_EFI_SIGNATURE_LIST + sizeof_EFI_SIGNATURE_DATA then Ok (EFI_NOT_FOUND, s)
  else
    MokNum ← count_keys KeyList KeyListSize;
    if MokNum =? 0 then Ok (EFI_ABORTED, s)
    else
      keys ← build_mok_list (mt_list mt) MokNum KeyList KeyListSize;
      match keys with
      | None => Ok (EFI_ABORTED, s)
      | Some _ =>
          if negb (mt_menu mt) then Ok (EFI_OUT_OF_RESOURCES, s)
          else
            cs ← view_keys (u_choices (mm_user s)) MokNum;
            Ok (EFI_SUCCESS, set_choices s cs)
      end.

Definition mok_enrollment_prompt (MokNew : list Z) (MokNewSize : Z) (auth MokX : bool) (s : mm S) : res (EFI_STATUS * mm S) :=
  '(efi_status, s) ← list_keys MokNew MokNewSize s;
  if EFI_ERROR efi_status then Ok (efi_status, s)
  else
    '(yes, s) ← console_yes_no s;
    if negb yes then Ok (EFI_ABORTED, s)
    else
      new ← rdn MokNew 0 MokNewSize;
      '(efi_status, s) ← store_keys new auth MokX s;
      if EFI_ERROR efi_status then Ok (efi_status, s)
      else
        let s := if auth then
          (if MokX then drop_var (drop_var s "MokXNew") "MokXAuth" else drop_var (drop_var s "MokNew") "MokAuth") else s in
        Ok (EFI_SUCCESS, s).

Definition mok_reset_prompt (MokX : bool) (s : mm S) : res (EFI_STATUS * mm S) :=
  '(yes, s) ← console_yes_no s;
  if negb yes then Ok (EFI_ABORTED, s)
  else
    '(efi_status, s) ← store_keys [] true MokX s;
    if EFI_ERROR efi_status then Ok (efi_status, s)
    else
      Ok (EFI_SUCCESS,
          if MokX then drop_var (drop_var (drop_var s "MokXNew") "MokXAuth") "MokListX"
          else drop_var (drop_var (drop_var s "MokNew") "MokAuth") "MokList").

(** ** Deleting keys *)
Definition write_back_mok_list (Data : list Z) (nodes : list MokListNode) (MokX : bool) (s : mm S) : res (EFI_STATUS * mm S) :=
  let DataSize := written_size nodes in
  if DataSize =? 0 then Ok (EFI_SUCCESS, snd (set_var s (db_name MokX) []))
  else
    match mt_pool mt DataSize with
    | None => Ok (EFI_OUT_OF_RESOURCES, s)
    | Some out =>
        out ← write_nodes Data nodes out 0;
        let '(efi_status, s) := set_var s (db_name MokX) out in
        Ok (if EFI_ERROR efi_status then efi_status else EFI_SUCCESS, s)
    end.

Definition delete_keys (MokDel : list Z) (MokDelSize : Z) (MokX : bool) (s : mm S) : res (EFI_STATUS * mm S) :=
  del ← rdn MokDel 0 MokDelSize;
  '(refused, s) ← authenticate_with (del_auth_name MokX) del s;
  match refused with
  | Some efi_status => Ok (efi_status, s)
  | None =>
      g ← get_variable_attr (mt_alloc mt) (mm_fw s) (db_name MokX) SHIM_LOCK_GUID true;
      if EFI_ERROR (gva_status g) then Ok (EFI_ABORTED, s)
      else if runtime (gva_attributes g) then Ok (EFI_ACCESS_DENIED, snd (set_var s (db_name MokX) []))
      else
        match gva_data g with
        | None => Ok (EFI_SUCCESS, s)
        | Some Data =>
            if gva_len g =? 0 then Ok (EFI_SUCCESS, s)
            else
              mok_num ← count_keys Data (gva_len g);
              if mok_num =? 0 then Ok (EFI_ABORTED, snd (set_var s (db_name MokX) []))
              else
                mok ← build_mok_list (mt_list mt) mok_num Data (gva_len g);
                match mok with
                | None => Ok (EFI_ABORTED, s)
                | Some mok =>
                    del_num ← count_keys MokDel MokDelSize;
                    if del_num =? 0 then Ok (EFI_ABORTED, s)
                    else
                      del_key ← build_mok_list (mt_list mt) del_num MokDel MokDelSize;
                      match del_key with
                      | None => Ok (EFI_ABORTED, s)
                      | Some del_key =>
                          '(Data, mok) ← search_and_destroy MokDel del_key Data mok;
                          write_back_mok_list Data mok MokX s
                      end
                end
        end
  end.

Definition mok_deletion_prompt (MokDel : list Z) (MokDelSize : Z) (MokX : bool) (s : mm S) : res (EFI_STATUS * mm S) :=
  '(efi_status, s) ← list_keys MokDel MokDelSize s;
  if EFI_ERROR efi_status then Ok (efi_status, s)
  else
    '(yes, s) ← console_yes_no s;
    if negb yes then Ok (EFI_ABORTED, s)
    else
      '(efi_status, s) ← delete_keys MokDel MokDelSize MokX s;
      if EFI_ERROR efi_status then Ok (efi_status, s)
      else
        Ok (EFI_SUCCESS,
            if MokX then drop_var (drop_var s "MokXDel") "MokXDelAuth" else drop_var (drop_var s "MokDel") "MokDelAuth").

(** ** Changing the state of validation

    MokSB, MokDB and MokListTrustedNew are a state, the length of a password and
    the password; three characters of it are asked for. *)
Definition sizeof_MokSBvar : Z := 40.
Definition var_state (var : list Z) : res Z := rd_le var 0 4.
Definition var_PWLen (var : list Z) : res Z := rd_le var 4 4.
Definition var_Password (var : list Z) (i : Z) : res Z := rd_le var (8 + 2 * i) 2.

Definition get_password_charater (s : mm S) : res (Z * mm S) :=
  '(efi_status, line, s) ← get_line s 1;
  Ok (if EFI_ERROR efi_status then 0 else nth 0 line 0, s).

(** A position that is not one of [used]; dividing by zero is a fault. *)
Fixpoint random_pos (rs : list Z) (PWLen : Z) (used : list Z) : res (Z * list Z) :=
  match rs with
  | [] => NoFuel
  | r :: rs =>
      if PWLen =? 0 then Fault
      else
        let pos := u8 (r mod PWLen) in
        if bool_decide (pos ∈ used) then random_pos rs PWLen used else Ok (pos, rs)
  end.

Definition ask_character (s : mm S) : res (option Z * mm S) :=
  if negb (mt_prompt mt) then Ok (None, s)
  else '(c, s) ← get_password_charater s; Ok (Some c, s).

(** None: the buffer for a prompt could not be allocated. *)
Fixpoint ask_characters (k : nat) (var : list Z) (s : mm S) : res (option bool * mm S) :=
  match k with
  | O => Ok (Some false, s)
  | Datatypes.S k =>
      PWLen ← var_PWLen var;
      '(pos1, rs) ← random_pos (u_random (mm_user s)) PWLen [];
      '(pos2, rs) ← random_pos rs PWLen [pos1];
      '(pos3, rs) ← random_pos rs PWLen [pos2; pos1];
      let s := set_random s rs in
      '(pass1, s) ← ask_character s;
      match pass1 with
      | None => Ok (None, s)
      | Some pass1 =>
          '(pass2, s) ← ask_character s;
          match pass2 with
          | None => Ok (None, s)
          | Some pass2 =>
              '(pass3, s) ← ask_character s;
              match pass3 with
              | None => Ok (None, s)
              | Some pass3 =>
                  p1 ← var_Password var pos1;
                  p2 ← var_Password var pos2;
                  p3 ← var_Password var pos3;
                  if negb (pass1 =? p1) || negb (pass2 =? p2) || negb (pass3 =? p3) then ask_characters k var s
                  else Ok (Some true, s)
              end
          end
      end
  end.

(** What the three prompts share: the request, the variable that is changed, and
    whether state 0 sets it (MokListTrusted is the other way round). *)
Definition state_prompt (request target : string) (zero_sets : bool) (var : list Z) (size : Z) (s : mm S) : res (EFI_STATUS * mm S) :=
  if negb (size =? sizeof_MokSBvar) then Ok (EFI_INVALID_PARAMETER, s)
  else
    '(r, s) ← ask_characters 3 var s;
    match r with
    | None => Ok (EFI_OUT_OF_RESOURCES, s)
    | Some false => Ok (EFI_ACCESS_DENIED, s)
    | Some true =>
        '(yes, s) ← console_yes_no s;
        if negb yes then Ok (EFI_ABORTED, drop_var s request)
        else
          st ← var_state var;
          let '(efi_status, s) := set_var s target (if Bool.eqb (st =? 0) zero_sets then [1] else []) in
          Ok (if EFI_ERROR efi_status then efi_status else EFI_SUCCESS, s)
    end.
Definition mok_sb_prompt := state_prompt "MokSB" "MokSBState" true.
Definition mok_db_prompt := state_prompt "MokDB" "MokDBState" true.
Definition mok_tml_prompt := state_prompt "MokListTrustedNew" "MokListTrusted" false.

Definition mok_pw_prompt (MokPW : list Z) (MokPWSize : Z) (s : mm S) : res (EFI_STATUS * mm S) :=
  if negb (good_size MokPWSize) then Ok (EFI_INVALID_PARAMETER, s)
  else
    d ← rdn MokPW 0 MokPWSize;
    if bytes_eqb d (replicate (Z.to_nat MokPWSize) 0) then
      '(yes, s) ← console_yes_no s;
      if negb yes then Ok (EFI_ABORTED, s)
      else Ok (EFI_SUCCESS, drop_var (snd (set_var s "MokPWStore" [])) "MokPW")
    else
      '(efi_status, s) ← match_auth MokPW MokPWSize [] s;
      if EFI_ERROR efi_status then Ok (efi_status, s)
      else
        '(yes, s) ← console_yes_no s;
        if negb yes then Ok (EFI_ABORTED, s)
        else
          let '(efi_status, s) := set_var s "MokPWStore" d in
          if EFI_ERROR efi_status then Ok (efi_status, s) else Ok (EFI_SUCCESS, drop_var s "MokPW").

(** ** Enrolling a file *)
Definition verify_certificate (cert : list Z) : res bool :=
  if zlen cert <? 4 then Ok false
  else
    b0 ← rd cert 0;
    b1 ← rd cert 1;
    if negb (b0 =? 0x30) || negb (b1 =? 0x82) then Ok false
    else
      b2 ← rd cert 2;
      b3 ← rd cert 3;
      let length := Z.lor (Z.shiftl b2 8) b3 in
      if negb (length =? zlen cert - 4) then Ok false else Ok (mt_X509 mt cert).

(** The list of one signature, in the buffer. *)
Definition fill_mokbuffer (buf : list Z) (type : EFI_GUID) (sig data : list Z) : res (list Z) :=
  buf ← wrn buf 0 type;
  buf ← wr_le buf 24 4 (u32 (16 + zlen data));
  buf ← wrn buf (sizeof_EFI_SIGNATURE_LIST + 16) data;
  buf ← wr_le buf 16 4 (u32 (zlen buf));
  buf ← wr_le buf 20 4 0;
  wrn buf sizeof_EFI_SIGNATURE_LIST sig.

Definition enroll_file (data : list Z) (hash : bool) (s : mm S) : res (EFI_STATUS * mm S) :=
  if hash then
    if EFI_ERROR (mt_lock mt) then Ok (mt_lock mt, s)
    else
      let mokbuffersize := sizeof_EFI_SIGNATURE_LIST + sizeof_EFI_GUID + SHA256_DIGEST_SIZE in
      match mt_pool mt mokbuffersize with
      | None => Ok (mt_lock mt, s)
      | Some mokbuffer =>
          let efi_status := mt_Context mt data in
          if EFI_ERROR efi_status then Ok (efi_status, s)
          else
            let '(efi_status, sha256) := mt_Hash mt data in
            if EFI_ERROR efi_status then Ok (efi_status, s)
            else
              mokbuffer ← fill_mokbuffer mokbuffer EFI_CERT_SHA256_GUID SHIM_LOCK_GUID sha256;
              mok_enrollment_prompt mokbuffer mokbuffersize false false s
      end
  else
    let mokbuffersize := zlen data + sizeof_EFI_SIGNATURE_LIST + sizeof_EFI_GUID in
    match mt_pool mt mokbuffersize with
    | None => Ok (EFI_SUCCESS, s)
    | Some mokbuffer =>
        mokbuffer ← fill_mokbuffer mokbuffer X509_GUID SHIM_LOCK_GUID data;
        ok ← verify_certificate data;
        if negb ok then Ok (EFI_SUCCESS, s)
        else mok_enrollment_prompt mokbuffer mokbuffersize false false s
    end.

(** The file the user picks; [None] is no file. *)
Definition enroll_picked (name_ok : list Z -> res bool) (hash : bool) (s : mm S) : res (EFI_STATUS * mm S) :=
  '(f, s) ← pick_file s;
  match f with
  | None => Ok (EFI_INVALID_PARAMETER, s)
  | Some (file_name, file) =>
      ok ← name_ok file_name;
      if negb ok then Ok (EFI_UNSUPPORTED, s)
      else
        match file with
        | inl efi_status => Ok (efi_status, s)
        | inr data => if zlen data =? 0 then Ok (EFI_BAD_BUFFER_SIZE, s) else enroll_file data hash s
        end
  end.
Definition mok_hash_enroll := enroll_picked (fun _ => Ok true) true.

(** The last four characters, in lower case. *)
Definition der_suffix : list (list Z) := [[46; 99; 101; 114]; [46; 100; 101; 114]; [46; 99; 114; 116]].
Definition check_der_suffix (file_name : list Z) : res bool :=
  if zlen file_name <=? 4 then Ok false
  else
    suffix ← rdn file_name (zlen file_name - 4) 4;
    Ok (existsb (bytes_eqb (mt_StrLwr mt suffix)) der_suffix).
Definition mok_key_enroll := enroll_picked check_der_suffix false.

Definition verify_pw (s : mm S) : res (bool * bool * mm S) :=
  let g := GetVariable (mm_fw s) "MokPWStore" SHIM_LOCK_GUID PASSWORD_CRYPT_SIZE true in
  if EFI_ERROR (gv_status g) || negb (good_size (gv_size g)) then Ok (true, false, s)
  else if runtime (gv_attributes g) then Ok (true, false, s)
  else
    '(efi_status, s) ← match_auth (gv_data g) (gv_size g) [] s;
    if EFI_ERROR efi_status then Ok (false, false, s) else Ok (true, true, s).

Definition draw_countdown (s : mm S) : res (Z * mm S) :=
  g ← get_variable (mt_alloc mt) (mm_fw s) "MokTimeout" SHIM_LOCK_GUID;
  '(timeout, s) ←
    (if EFI_ERROR (gva_status g) then Ok (10, s)
     else match gva_data g with
          | None => Fault
          | Some d => t ← rd_le d 0 4; Ok (i32 t, drop_var s "MokTimeout")
          end);
  if timeout <? 0 then Ok (timeout, s) else Ok (mt_countdown mt timeout, s).

(** One of the four GetVariable calls; auth_size is passed on. *)
Definition has_auth (fw : S) (name : string) (auth_size : Z) : bool * Z :=
  let g := GetVariable fw name SHIM_LOCK_GUID auth_size true in
  (negb (EFI_ERROR (gv_status g)) && good_size (gv_size g), gv_size g).

Definition here (r : request) : bool := bool_decide (is_Some r).
Definition menu (r : requests) (MokAuth MokDelAuth MokXAuth MokXDelAuth : bool) : list mok_menu_item :=
  [MOK_BOOT] ++
  (if here (MokNew r) || MokAuth then [if negb (here (MokNew r)) then MOK_RESET_MOK else MOK_ENROLL_MOK] else []) ++
  (if here (MokDel r) || MokDelAuth then [MOK_DELETE_MOK] else []) ++
  (if here (MokXNew r) || MokXAuth then [if negb (here (MokXNew r)) then MOK_RESET_MOKX else MOK_ENROLL_MOKX] else []) ++
  (if here (MokXDel r) || MokXDelAuth then [MOK_DELETE_MOKX] else []) ++
  (if here (MokSB r) then [MOK_CHANGE_SB] else []) ++
  (if here (MokPW r) then [MOK_SET_PW] else []) ++
  (if here (MokDB r) then [MOK_CHANGE_DB] else []) ++
  (if here (MokTML r) then [MOK_CHANGE_TML] else []) ++
  [MOK_KEY_ENROLL; MOK_HASH_ENROLL].

(** The items for the hashes that are there now. *)
Definition menu_now (r : requests) (fw : S) (auth_size : Z) : list mok_menu_item * Z :=
  let '(MokAuth, auth_size) := has_auth fw "MokAuth" auth_size in
  let '(MokDelAuth, auth_size) := has_auth fw "MokDelAuth" auth_size in
  let '(MokXAuth, auth_size) := has_auth fw "MokXAuth" auth_size in
  let '(MokXDelAuth, auth_size) := has_auth fw "MokXDelAuth" auth_size in
  (menu r MokAuth MokDelAuth MokXAuth MokXDelAuth, auth_size).

(** The request that an item carries out; it is dropped when that succeeds. *)
Definition without_request (i : mok_menu_item) (r : requests) : requests :=
  {| MokNew := if decide (i = MOK_ENROLL_MOK) then None else MokNew r;
     MokDel := if decide (i = MOK_DELETE_MOK) then None else MokDel r;
     MokSB := if decide (i = MOK_CHANGE_SB) then None else MokSB r;
     MokPW := if decide (i = MOK_SET_PW) then None else MokPW r;
     MokDB := if decide (i = MOK_CHANGE_DB) then None else MokDB r;
     MokXNew := if decide (i = MOK_ENROLL_MOKX) then None else MokXNew r;
     MokXDel := if decide (i = MOK_DELETE_MOKX) then None else MokXDel r;
     MokTML := if decide (i = MOK_CHANGE_TML) then None else MokTML r |}.

Definition with_request (q : request) (f : list Z -> Z -> mm S -> res (EFI_STATUS * mm S)) (s : mm S) : res (served * mm S) :=
  match q with
  | None => Ok (Leave EFI_ABORTED, s)
  | Some (d, n) => '(efi_status, s) ← f d n s; Ok (Done efi_status, s)
  end.
Definition always (f : mm S -> res (EFI_STATUS * mm S)) (s : mm S) : res (served * mm S) :=
  '(efi_status, s) ← f s; Ok (Done efi_status, s).

Definition serve (i : mok_menu_item) (r : requests) : mm S -> res (served * mm S) :=
  match i with
  | MOK_BOOT => fun s => Ok (Leave EFI_SUCCESS, s)
  | MOK_RESET_MOK => always (mok_reset_prompt false)
  | MOK_ENROLL_MOK => with_request (MokNew r) (fun d n => mok_enrollment_prompt d n true false)
  | MOK_DELETE_MOK => with_request (MokDel r) (fun d n => mok_deletion_prompt d n false)
  | MOK_RESET_MOKX => always (mok_reset_prompt true)
  | MOK_ENROLL_MOKX => with_request (MokXNew r) (fun d n => mok_enrollment_prompt d n true true)
  | MOK_DELETE_MOKX => with_request (MokXDel r) (fun d n => mok_deletion_prompt d n true)
  | MOK_CHANGE_SB => with_request (MokSB r) mok_sb_prompt
  | MOK_SET_PW => with_request (MokPW r) mok_pw_prompt
  | MOK_CHANGE_DB => with_request (MokDB r) mok_db_prompt
  | MOK_KEY_ENROLL => always mok_key_enroll
  | MOK_HASH_ENROLL => always mok_hash_enroll
  | MOK_CHANGE_TML => with_request (MokTML r) mok_tml_prompt
  end.

(** [out] of enter_mok_menu. *)
Definition leave_menu (mok_changed : bool) (ret : EFI_STATUS) : menu_end := if mok_changed then Rebooted else Returned ret.

Fixpoint menu_loop (fuel : nat) (r : requests) (mok_changed : bool) (auth_size : Z) (s : mm S) : res (menu_end * mm S) :=
  match fuel with
  | O => NoFuel
  | Datatypes.S f =>
      let '(items, auth_size) := menu_now r (mm_fw s) auth_size in
      if negb (mt_menu mt) then Ok (Returned EFI_OUT_OF_RESOURCES, s)
      else
        '(choice, s) ← console_select s;
        if choice <? 0 then Ok (leave_menu mok_changed EFI_SUCCESS, s)
        else
          match items !! Z.to_nat choice with
          | None => Fault
          | Some i =>
              '(x, s) ← serve i r s;
              match x with
              | Leave ret => Ok (leave_menu mok_changed ret, s)
              | Done efi_status =>
                  if EFI_ERROR efi_status then menu_loop f r mok_changed auth_size s
                  else menu_loop f (without_request i r) true auth_size s
              end
          end
  end.

(** Whether nobody pressed a key; after a password nobody is waited for. *)
Definition countdown_over (protected : bool) (s : mm S) : res (bool * mm S) :=
  if protected then Ok (false, s) else '(t, s) ← draw_countdown s; Ok (t =? 0, s).

Definition enter_mok_menu (r : requests) (s : mm S) : res (menu_end * mm S) :=
  '(ok, protected, s) ← verify_pw s;
  if negb ok then Ok (Returned EFI_ACCESS_DENIED, s)
  else
    '(stop, s) ← countdown_over protected s;
    if negb stop then menu_loop (Datatypes.S (length (u_choices (mm_user s)))) r false PASSWORD_CRYPT_SIZE s
    else Ok (leave_menu false EFI_SUCCESS, s).

(** ** The program *)

(** A request is read and its variable deleted. *)
Definition take_request (name : string) (s : mm S) : res (request * mm S) :=
  g ← get_variable (mt_alloc mt) (mm_fw s) name SHIM_LOCK_GUID;
  if EFI_ERROR (gva_status g) then Ok (None, s)
  else Ok (match gva_data g with Some d => Some (d, gva_len g) | None => None end, drop_var s name).

Definition drop_auth (s : mm S) : mm S :=
  drop_var (drop_var (drop_var (drop_var s "MokAuth") "MokDelAuth") "MokXAuth") "MokXDelAuth".

Definition take_requests (s : mm S) : res (requests * mm S) :=
  '(new, s) ← take_request "MokNew" s;
  '(del, s) ← take_request "MokDel" s;
  '(sb, s) ← take_request "MokSB" s;
  '(pw, s) ← take_request "MokPW" s;
  '(db, s) ← take_request "MokDB" s;
  '(tml, s) ← take_request "MokListTrustedNew" s;
  '(xnew, s) ← take_request "MokXNew" s;
  '(xdel, s) ← take_request "MokXDel" s;
  Ok ({| MokNew := new; MokDel := del; MokSB := sb; MokPW := pw; MokDB := db; MokXNew := xnew; MokXDel := xdel; MokTML := tml |}, s).

(** A machine that was reset does not come back. *)
Definition check_mok_request (s : mm S) : res (menu_end * mm S) :=
  '(r, s) ← take_requests s;
  '(e, s) ← enter_mok_menu r s;
  match e with
  | Rebooted => Ok (Rebooted, s)
  | Returned _ => Ok (Returned EFI_SUCCESS, drop_auth s)
  end.
End manager.

(** ** Laws of what is outside *)
Record manager_ok (mt : manager) : Prop := {
  mo_pool : forall k buf, 0 <= k -> mt_pool mt k = Some buf -> zlen buf = k;
  mo_stack : zlen (mt_stack mt) = 128;
  mo_sha256 : forall x, zlen (mt_sha256 mt x) = 32;
  mo_crypt256 : forall x, zlen (cr_sha256 (mt_crypto mt) x) = 32;
  mo_crypt512 : forall x, zlen (cr_sha512 (mt_crypto mt) x) = 64;
  mo_blowfish : forall k s r, cr_blowfish (mt_crypto mt) k s = Some r -> zlen r = BF_RESULT_SIZE
}.

(** ** Lines and passwords *)

(** The first [k] lines that are typed. *)
Fixpoint lines (k : nat) (ks : list (EFI_STATUS * Z)) : list (list Z) :=
  match k with
  | O => []
  | S k =>
      match get_line_loop ks [] PASSWORD_MAX with
      | Ok (_, line, ks) => line :: lines k ks
      | _ => []
      end
  end.

(** The characters that are typed and the end of the line. *)
Definition typed (s : list Z) : list (EFI_STATUS * Z) := map (pair EFI_SUCCESS) (s ++ [CHAR_CARRIAGE_RETURN]).
Definition plain_char (c : Z) : Prop :=
  c <> CHAR_NULL /\ c <> CHAR_BACKSPACE /\ c <> CHAR_TAB /\ c <> CHAR_LINEFEED /\ c <> CHAR_CARRIAGE_RETURN.

Lemma get_line_typed s ks max : forall line, Forall plain_char s -> zlen line + zlen s <= max ->
  get_line_loop (typed s ++ ks) line max = Ok (EFI_SUCCESS, line ++ s, ks).
Proof.
  induction s as [|c s IH]; intros line HF Hm.
  - cbn. rewrite orb_true_r, app_nil_r. done.
  - apply Forall_cons in HF as [(H0 & H1 & H2 & H3 & H4) HF]. rewrite zlen_cons in Hm. pose proof (zlen_nonneg s).
    cbn [typed map app get_line_loop]. fold (typed s). rewrite (proj2 (Z.leb_gt max (zlen line))) by lia. cbn [EFI_ERROR andb orb].
    rewrite !(proj2 (Z.eqb_neq c _)) by done. rewrite andb_false_r. cbn [andb orb]. change (map _ _ ++ ks) with (typed s ++ ks).
    rewrite IH by (done || zlia). by rewrite <- app_assoc.
Qed.

(** What the password of a stored value is. *)
Section accepted.
Context (mt : manager).
Definition accepted (auth : list Z) (size : Z) (Data line : list Z) : Prop :=
  PASSWORD_MIN <= zlen line <= PASSWORD_MAX /\
  if size =? PASSWORD_CRYPT_SIZE then
    exists m n salt iter, (m = SHA256_BASED \/ m = SHA512_BASED) /\ method auth = Ok m /\ salt_size auth = Ok n /\
      pw_salt auth n = Ok salt /\ iter_count auth = Ok iter /\
      pw_hash auth (get_hash_size m) = Ok (sha_crypt_spec (sha_of (mt_crypto mt) m) (pw_ascii line) salt (u32 iter))
  else mt_ctx mt = true /\ rdn auth 0 SHA256_DIGEST_SIZE = Ok (mt_sha256 mt (Data ++ unit_bytes line)).

Context (Hmt : manager_ok mt).

(** A hash that was computed is the one of the password. *)
Lemma plain_hash Data line hash st hash' : zlen hash = 128 ->
  hash_password mt None Data line hash = Ok (st, hash') ->
  zlen hash' = 128 /\ (EFI_ERROR st = false -> mt_ctx mt = true /\ rdn hash' 0 SHA256_DIGEST_SIZE = Ok (mt_sha256 mt (Data ++ unit_bytes line))) /\
  (mt_ctx mt = true -> EFI_ERROR st = false).
Proof.
  intros Hh. cbn [hash_password]. unfold compute_pw_hash. destruct (mt_ctx mt) eqn:Ec; cbn [negb].
  - intros (h & Hw & [= <- <-])%bind_inv. pose proof (wrn_length _ _ _ _ Hw). split; [lia|]. split; [|done]. intros _. split; [done|].
    unfold wrn in Hw. case_if_in Hw; [|done..]. injection Hw as <-. cbn [Z.to_nat take app].
    pose proof (mo_sha256 mt Hmt (Data ++ unit_bytes line)). by rewrite rdn_app_0 by (unfold SHA256_DIGEST_SIZE; lia).
  - intros [= <- <-]. by split_and!.
Qed.

Lemma crypt_hash c m Data line hash st hash' :
  zlen hash = 128 -> method c = Ok m -> get_hash_size m <> 0 ->
  hash_password mt (Some c) Data line hash = Ok (st, hash') ->
  zlen hash' = 128 /\
  (EFI_ERROR st = false -> exists n salt iter, (m = SHA256_BASED \/ m = SHA512_BASED) /\ salt_size c = Ok n /\ pw_salt c n = Ok salt /\
     iter_count c = Ok iter /\ rdn hash' 0 (get_hash_size m) = Ok (sha_crypt_spec (sha_of (mt_crypto mt) m) (pw_ascii line) salt (u32 iter))) /\
  (m = SHA256_BASED \/ m = SHA512_BASED -> EFI_ERROR st = false).
Proof.
  intros Hh Em Hm Hp. cbn [hash_password] in Hp.
  assert (Hsha : (m = SHA256_BASED \/ m = SHA512_BASED) \/ m = BLOWFISH_BASED).
  { unfold get_hash_size in Hm. repeat (case_if_in Hm; [auto|]). done. }
  destruct Hsha as [Hsha | ->].
  - assert (exists n salt iter, salt_size c = Ok n /\ pw_salt c n = Ok salt /\ iter_count c = Ok iter /\
      allocates (mt_pool mt) (zlen (pw_ascii line)) /\ allocates (mt_pool mt) (zlen salt)) as (n & salt & iter & En & Es & Ei & Hp1 & Hp2).
    { unfold password_crypt in Hp. rewrite Em, bind_Ok in Hp. destruct Hsha as [-> | ->]; cbn in Hp;
        apply bind_inv in Hp as (n & En & Hp); apply bind_inv in Hp as (salt & Es & Hp); apply bind_inv in Hp as (iter & Ei & Hp);
        apply bind_inv in Hp as (d & Hp & _); apply sha_crypt_pool in Hp as []; try apply (mo_pool mt Hmt); by exists n, salt, iter. }
    destruct (password_crypt_ok _ (mt_pool mt) (mo_crypt256 mt Hmt) (mo_crypt512 mt Hmt) (pw_ascii line) c m n salt iter hash) as [Hd Hr];
      [done..|lia|done|done|]. rewrite Hr in Hp. injection Hp as <- <-. pose proof (mo_stack mt Hmt).
    set (d := sha_crypt_spec _ _ _ _) in *. assert (get_hash_size m <= 64) by (destruct Hsha as [-> | ->]; cbn; lia).
    split; [unfold zlen in *; rewrite length_app, length_drop; lia|]. split; [|done]. intros _. exists n, salt, iter. split_and!; try done.
    by rewrite rdn_app_0 by (unfold SHA256_DIGEST_SIZE; lia).
  - unfold password_crypt in Hp. rewrite Em, bind_Ok in Hp. cbn in Hp. apply bind_inv in Hp as (n & En & Hp).
    destruct (negb _); [injection Hp as <- <-; split_and!; [done..|intros [?|?]; done]|]. apply bind_inv in Hp as (salt & Es & Hp).
    unfold blowfish_crypt in Hp. destruct (cr_blowfish _ _ _) as [r|] eqn:Er; [|injection Hp as <- <-; split_and!; [done..|intros [?|?]; done]].
    apply (mo_blowfish mt Hmt) in Er. exfalso. unfold rdn in Hp. by rewrite Er in Hp.
Qed.
End accepted.

(** Only the keystrokes are used up. *)
Definition keys_only {S} (s s' : mm S) : Prop := exists ks, s' = set_keys s ks.
Lemma keys_only_refl {S} (s : mm S) : keys_only s s.
Proof. exists (u_keys (mm_user s)). by destruct s as [? []]. Qed.
Lemma keys_only_trans {S} (a b c : mm S) : keys_only a b -> keys_only b c -> keys_only a c.
Proof. intros [ks ->] [ks' ->]. by exists ks'. Qed.
Lemma keys_only_fw {S} (s s' : mm S) : keys_only s s' -> mm_fw s' = mm_fw s.
Proof. by intros [ks ->]. Qed.

Section passwords.
Context {S : Type} (mt : manager) (Hmt : manager_ok mt).

Lemma get_password_ok (s : mm S) line s' : get_password mt s PASSWORD_MAX = Ok (line, s') ->
  keys_only s s' /\ (mt_prompt mt = false -> line = []) /\
  (mt_prompt mt = true -> exists st, get_line_loop (u_keys (mm_user s)) [] PASSWORD_MAX = Ok (st, line, u_keys (mm_user s'))).
Proof.
  unfold get_password. destruct (mt_prompt mt); cbn [negb].
  - intros ([[st l] s1] & ([[st0 l0] ks] & Hl & [= <- <- <-])%bind_inv & [= <- <-])%bind_inv.
    split; [by exists ks|]. split; [done|]. intros _. by exists st0.
  - intros [= <- <-]. split; [apply keys_only_refl|done].
Qed.

Section loop.
Context (pc : option (list Z)) (Data ah : list Z) (asz : Z) (G : list Z -> Prop).
Context (Hh : forall line hash st hash', zlen hash = 128 -> hash_password mt pc Data line hash = Ok (st, hash') ->
  zlen hash' = 128 /\ (EFI_ERROR st = false -> exists d, rdn hash' 0 asz = Ok d /\ (ah = d <-> G line)) /\ (EFI_ERROR st = true -> ~ G line)).

Definition fits (line : list Z) : Prop := PASSWORD_MIN <= zlen line <= PASSWORD_MAX /\ G line.

Lemma try_password_ok k : forall hash (s : mm S) st s', zlen hash = 128 -> try_password mt k pc Data ah asz hash s = Ok (st, s') ->
  keys_only s s' /\ (EFI_ERROR st = false -> st = EFI_SUCCESS /\ exists line, line ∈ lines k (u_keys (mm_user s)) /\ fits line) /\
  (mt_prompt mt = true -> (exists line, line ∈ lines k (u_keys (mm_user s)) /\ fits line) -> st = EFI_SUCCESS).
Proof.
  induction k as [|k IH]; intros hash s st s' Hl Ht; cbn [try_password] in Ht.
  { injection Ht as <- <-. split; [apply keys_only_refl|]. split; [done|]. intros _ (line & Hin & _). by apply not_elem_of_nil in Hin. }
  apply bind_inv in Ht as ([line s1] & Hp & Ht). apply get_password_ok in Hp as (Hk & Hno & Hyes).
  assert (Hnext : forall hash, zlen hash = 128 -> try_password mt k pc Data ah asz hash s1 = Ok (st, s') -> ~ fits line ->
    keys_only s s' /\ (EFI_ERROR st = false -> st = EFI_SUCCESS /\ exists line, line ∈ lines (Datatypes.S k) (u_keys (mm_user s)) /\ fits line) /\
    (mt_prompt mt = true -> (exists line, line ∈ lines (Datatypes.S k) (u_keys (mm_user s)) /\ fits line) -> st = EFI_SUCCESS)).
  { intros h Hh' Hr Hnf. destruct (IH h s1 st s' Hh' Hr) as (Hk' & Hs & Hc). split; [by eapply keys_only_trans|].
    cbn [lines]. destruct (mt_prompt mt) eqn:Epr.
    - destruct (Hyes eq_refl) as [st0 Hgl]. rewrite Hgl. split.
      + intros He. destruct (Hs He) as (-> & l & Hin & Hf). split; [done|]. exists l. split; [by right|done].
      + intros _ (l & [-> | Hin]%elem_of_cons & Hf); [done|]. by apply Hc; [|exists l].
    - split; [|done]. intros He. exfalso. clear -Epr Hr He.
      revert h s1 Hr. induction k as [|k IH']; intros h s1 Hr; [by injection Hr as <- _|].
      cbn [try_password] in Hr. unfold get_password in Hr. rewrite Epr in Hr. cbn in Hr. by apply (IH' h s1). }
  destruct ((zlen line <? PASSWORD_MIN) || (PASSWORD_MAX <? zlen line)) eqn:El.
  { apply (Hnext hash); [done|done|]. intros ([? ?] & _). apply orb_true_iff in El as [E | E]; apply Z.ltb_lt in E; lia. }
  apply bind_inv in Ht as ([st1 h1] & Hhp & Ht). destruct (Hh _ _ _ _ Hl Hhp) as (Hl1 & Hgood & Hbad).
  destruct (EFI_ERROR st1); [apply (Hnext h1); try done; intros [_ Hg]; by apply Hbad|].
  destruct (Hgood eq_refl) as (d & Hd & Hiff). rewrite Hd, bind_Ok in Ht. unfold bytes_eqb in Ht.
  destruct (bool_decide_reflect (ah = d)) as [Heq | Hne]; cbn [negb] in Ht; [|apply (Hnext h1); try done; intros [_ Hg]; tauto].
  injection Ht as <- <-. split; [done|]. split; [|done]. intros _. split; [done|]. exists line. apply orb_false_iff in El as [E1 E2].
  apply Z.ltb_ge in E1, E2. split; [|split; tauto]. cbn [lines]. destruct (mt_prompt mt) eqn:Epr.
  - destruct (Hyes eq_refl) as [st0 ->]. left.
  - rewrite (Hno eq_refl) in *. unfold PASSWORD_MIN in *. rewrite zlen_nil in *. lia.
Qed.
End loop.

(** match_password on a stored value: it succeeds exactly for a password of it
    among the first three lines. *)
Lemma match_auth_ok auth size Data (s : mm S) st s' :
  match_auth mt auth size Data s = Ok (st, s') ->
  keys_only s s' /\
  (EFI_ERROR st = false -> st = EFI_SUCCESS /\ exists line, line ∈ lines 3 (u_keys (mm_user s)) /\ accepted mt auth size Data line) /\
  (mt_prompt mt = true -> (exists line, line ∈ lines 3 (u_keys (mm_user s)) /\ accepted mt auth size Data line) -> st = EFI_SUCCESS).
Proof.
  unfold match_auth, accepted. destruct (size =? PASSWORD_CRYPT_SIZE); cbn [match_password]; intros Hm.
  - apply bind_inv in Hm as (m & Em & Hm). destruct (get_hash_size m =? 0) eqn:E0; bool_to_prop.
    { injection Hm as <- <-. split; [apply keys_only_refl|]. split; [done|].
      intros _ (l & _ & _ & m' & ? & ? & ? & Hsha & Em' & _). assert (m' = m) as -> by congruence. by destruct Hsha as [-> | ->]. }
    apply bind_inv in Hm as (ah & Eh & Hm). revert Hm. apply try_password_ok; [|apply (mo_stack mt Hmt)].
    intros line hash st0 hash' Hl Hp. destruct (crypt_hash mt Hmt auth m [] line hash st0 hash' Hl Em E0 Hp) as (? & Hs & Ht).
    split; [done|]. split.
    + intros He. destruct (Hs He) as (n & salt & iter & Hsha & En & Es & Ei & Hd). eexists. split; [exact Hd|]. split.
      * intros ->. exists m, n, salt, iter. by split_and!.
      * intros (m' & n' & salt' & iter' & _ & Em' & En' & Es' & Ei' & Eh'). congruence.
    + intros He (m' & ? & ? & ? & Hsha & Em' & _). assert (m' = m) as -> by congruence. by rewrite (Ht Hsha) in He.
  - apply bind_inv in Hm as (ah & Eh & Hm). revert Hm. apply try_password_ok; [|apply (mo_stack mt Hmt)].
    intros line hash st0 hash' Hl Hp. destruct (plain_hash mt Hmt Data line hash st0 hash' Hl Hp) as (? & Hs & Ht).
    split; [done|]. split.
    + intros He. destruct (Hs He) as [Hc Hd]. eexists. split; [exact Hd|]. split; [intros ->; by split|]. intros [_ ?]. congruence.
    + intros He [Hc _]. by rewrite (Ht Hc) in He.
Qed.
End passwords.

(** ** What changes the trusted variables *)
Definition trusted : list string := ["MokList"; "MokListX"; "MokSBState"; "MokDBState"; "MokListTrusted"; "MokPWStore"]%string.
Definition target (i : mok_menu_item) : option string :=
  match i with
  | MOK_BOOT => None
  | MOK_RESET_MOK | MOK_ENROLL_MOK | MOK_DELETE_MOK | MOK_KEY_ENROLL | MOK_HASH_ENROLL => Some "MokList"%string
  | MOK_RESET_MOKX | MOK_ENROLL_MOKX | MOK_DELETE_MOKX => Some "MokListX"%string
  | MOK_CHANGE_SB => Some "MokSBState"%string
  | MOK_CHANGE_DB => Some "MokDBState"%string
  | MOK_CHANGE_TML => Some "MokListTrusted"%string
  | MOK_SET_PW => Some "MokPWStore"%string
  end.

Lemma three_distinct (a b c : Z) : b ∉ [a] -> c ∉ [b; a] -> NoDup [a; b; c].
Proof. intros Hb Hc. repeat (apply NoDup_cons_2; [set_solver|]). apply NoDup_nil_2. Qed.

Lemma random_pos_ok rs L used pos rs' : random_pos rs L used = Ok (pos, rs') ->
  (pos ∉ used) /\ (exists r, r ∈ rs /\ pos = u8 (r mod L)) /\ (0 < L -> 0 <= pos < L) /\ (rs' ⊆ rs).
Proof.
  induction rs as [|r rs IH]; [done|]. cbn [random_pos]. destruct (L =? 0); [done|].
  destruct (bool_decide_reflect (u8 (r mod L) ∈ used)) as [Hin | Hin].
  - intros (Hf & (x & Hx & ->) & Hl & Hs)%IH. split_and!; [done| |done|set_solver]. exists x. split; [by right|done].
  - intros [= <- <-]. split_and!; [done|exists r; split; [left|done]| |set_solver]. intros HL.
    pose proof (Z.mod_pos_bound r L HL). unfold u8. change (2 ^ 8) with 256. pose proof (Z.mod_pos_bound (r mod L) 256 ltac:(lia)).
    pose proof (Z.mod_le (r mod L) 256 ltac:(lia) ltac:(lia)). lia.
Qed.
Lemma random_pos_fresh rs L used pos rs' : random_pos rs L used = Ok (pos, rs') -> pos ∉ used.
Proof. by intros [? _]%random_pos_ok. Qed.

Section changes.
Context {S : Type} `{VarLibLaws S} (mt : manager) (Hmt : manager_ok mt).

Definition lk (s : mm S) (n : string) : option (Z * list Z) := lookup_var (mm_fw s) n SHIM_LOCK_GUID.

(** Of the trusted variables only [o] may be another one. *)
Definition only (o : option string) (s s' : mm S) : Prop := forall n, n ∈ trusted -> Some n <> o -> lk s' n = lk s n.

Lemma only_refl o s : only o s s.
Proof. done. Qed.
Lemma only_trans o s1 s2 s3 : only o s1 s2 -> only o s2 s3 -> only o s1 s3.
Proof. intros Ha Hb n Hn Ho. by rewrite Hb, Ha. Qed.
Lemma only_weaken o s s' : only None s s' -> only o s s'.
Proof. intros Hn n Hin _. by apply Hn. Qed.
Lemma only_fw o s s' : mm_fw s' = mm_fw s -> only o s s'.
Proof. intros Hf n _ _. unfold lk. by rewrite Hf. Qed.

Lemma drop_var_other (s : mm S) n m : m <> n -> lk (drop_var s n) m = lk s m.
Proof. intros Hn. unfold lk, drop_var. cbn. apply delete_other. congruence. Qed.
Lemma drop_var_only o s n : (n ∈ trusted -> o = Some n) -> only o s (drop_var s n).
Proof. intros Hn m Hm Ho. apply drop_var_other. intros ->. by rewrite Hn in Ho. Qed.
Lemma drop_plain o s n : bool_decide (n ∈ trusted) = false -> only o s (drop_var s n).
Proof. intros Hn%bool_decide_eq_false. by apply drop_var_only. Qed.
Lemma set_var_only s n d : only (Some n) s (snd (set_var s n d)).
Proof.
  intros m Hm Ho. unfold set_var, lk. destruct (SetVariable _ _ _ _ _) as [st fw] eqn:E. cbn.
  eapply set_other; [exact E|]. congruence.
Qed.

(** The user's answers leave the variables alone. *)
Lemma yes_no_ok (s : mm S) b s' : console_yes_no s = Ok (b, s') ->
  mm_fw s' = mm_fw s /\ u_keys (mm_user s') = u_keys (mm_user s) /\ exists bs, u_yes (mm_user s) = b :: bs.
Proof. unfold console_yes_no. destruct (u_yes (mm_user s)); [done|]. intros [= <- <-]. eauto. Qed.
Lemma list_keys_ok K n (s : mm S) st s' : list_keys mt K n s = Ok (st, s') ->
  mm_fw s' = mm_fw s /\ u_keys (mm_user s') = u_keys (mm_user s) /\ u_yes (mm_user s') = u_yes (mm_user s).
Proof.
  unfold list_keys. destruct (_ <? _); [by intros [= _ <-]|]. intros (k & _ & Hr)%bind_inv. destruct (_ =? 0); [by injection Hr as _ <-|].
  apply bind_inv in Hr as (ks & _ & Hr). destruct ks; [|by injection Hr as _ <-]. destruct (negb _); [by injection Hr as _ <-|].
  by apply bind_inv in Hr as (cs & _ & [= _ <-]).
Qed.

(** ** Authentication *)
Definition pass_for (name : string) (Data : list Z) (s : mm S) : Prop :=
  exists a auth line, lk s name = Some (a, auth) /\ line ∈ lines 3 (u_keys (mm_user s)) /\ accepted mt auth (zlen auth) Data line.

Lemma get_auth (s : mm S) name n : 
  let g := GetVariable (mm_fw s) name SHIM_LOCK_GUID n true in
  EFI_ERROR (gv_status g) = false -> exists a d, lk s name = Some (a, d) /\ gv_size g = zlen d /\ gv_data g = d /\ gv_attributes g = a.
Proof.
  intros g Hg. unfold g, lk in *. destruct (lookup_var (mm_fw s) name SHIM_LOCK_GUID) as [[a d]|] eqn:E.
  - exists a, d. destruct (decide (zlen d <= n)) as [Hn | Hn].
    + by rewrite (get_found _ _ _ _ _ _ E Hn).
    + destruct (get_too_small (mm_fw s) name SHIM_LOCK_GUID n true a d E ltac:(lia)) as [Hs _]. by rewrite Hs in Hg.
  - by rewrite (get_missing _ _ _ n true E) in Hg.
Qed.

Lemma authenticate_ok name Data (s : mm S) o s' : authenticate_with mt name Data s = Ok (o, s') ->
  keys_only s s' /\ (o = None -> pass_for name Data s) /\
  (forall a d st, lk s name = Some (a, d) -> good_size (zlen d) = true -> o = Some st -> EFI_ERROR st = true).
Proof.
  unfold authenticate_with. destruct (EFI_ERROR (gv_status _)) eqn:Eg; cbn [orb].
  { intros [= <- <-]. split; [apply keys_only_refl|]. split; [done|]. intros a d st Hl Hs [= <-]. done. }
  destruct (get_auth s name PASSWORD_CRYPT_SIZE Eg) as (a & d & Hl & Hsz & Hd & _). rewrite Hsz, Hd. destruct (good_size (zlen d)) eqn:Eq; cbn [negb].
  - intros ([st s1] & Hm & [= <- <-])%bind_inv. destruct (match_auth_ok mt Hmt _ _ _ _ _ _ Hm) as (Hk & Hs & _).
    split; [done|]. split.
    + intros Hn. destruct (EFI_ERROR st) eqn:Es; [done|]. destruct (Hs eq_refl) as (_ & line & Hin & Ha). by exists a, d, line.
    + intros ? ? ? _ _ Ho. destruct (EFI_ERROR st); [by injection Ho as <-|done].
  - intros [= <- <-]. split; [apply keys_only_refl|]. split; [done|]. intros a' d' st Hl' Hq _.
    rewrite Hl in Hl'. injection Hl' as <- <-. by rewrite Eq in Hq.
Qed.

Lemma write_db_only name new (s : mm S) st s' : write_db mt name new s = Ok (st, s') -> only (Some name) s s'.
Proof.
  unfold write_db. intros (g & _ & Hr)%bind_inv. destruct (_ && _); [by injection Hr as _ <-|].
  destruct (if runtime _ then _ else _) as [od os]. destruct (mt_pool mt _); [|by injection Hr as _ <-].
  apply bind_inv in Hr as (old & _ & Hr). apply bind_inv in Hr as (n1 & _ & Hr). apply bind_inv in Hr as (n2 & _ & Hr).
  injection Hr as Hr. pose proof (set_var_only s name n2) as Ho. by rewrite Hr in Ho.
Qed.

(** store_keys: the variables are as before, or the password was right. *)
Lemma store_keys_ok new (b X : bool) (s : mm S) st s' : store_keys mt new b X s = Ok (st, s') ->
  only (Some (db_name X)) s s' /\
  (b = true -> pass_for (auth_name X) new s \/
     only None s s' /\ forall a d, lk s (auth_name X) = Some (a, d) -> good_size (zlen d) = true -> EFI_ERROR st = true).
Proof.
  unfold store_keys. intros ([o s1] & Ha & Hr)%bind_inv.
  assert (Hauth : only None s s1 /\ (b = true -> (o = None -> pass_for (auth_name X) new s) /\
    (forall a d st, lk s (auth_name X) = Some (a, d) -> good_size (zlen d) = true -> o = Some st -> EFI_ERROR st = true))).
  { destruct b; [|by injection Ha as <- <-]. apply authenticate_ok in Ha as (Hk & Hp & Hg). split; [|done].
    by apply only_fw, keys_only_fw. }
  destruct Hauth as [Hs1 Hp]. destruct o as [st1|].
  - injection Hr as <- <-. split; [by apply only_weaken|]. intros Hb. right. split; [done|]. intros a d Hl Hg.
    by apply (proj2 (Hp Hb) a d).
  - split; [|intros Hb; left; by apply (proj1 (Hp Hb))]. apply bind_inv in Hr as ([st2 s2] & Hw & [= _ <-]).
    eapply only_trans; [by apply only_weaken|]. destruct (_ =? 0); [|by eapply write_db_only].
    injection Hw as Hw. pose proof (set_var_only s1 (db_name X) []) as Ho. by rewrite Hw in Ho.
Qed.

(** ** The three characters *)
Definition asked (ks : list (EFI_STATUS * Z)) (c : Z) (ks' : list (EFI_STATUS * Z)) : Prop :=
  exists st line, get_line_loop ks [] 1 = Ok (st, line, ks') /\ c = if EFI_ERROR st then 0 else nth 0 line 0.

(** Three answers to one question: [right] when each is the character of the
    password at its position.  The positions are different random bytes modulo the
    length of the password. *)
Definition attempt (L : Z) (var rs : list Z) (ks : list (EFI_STATUS * Z)) (right : bool) (ks' : list (EFI_STATUS * Z)) : Prop :=
  exists pos1 pos2 pos3 c1 c2 c3 p1 p2 p3 ks1 ks2,
    NoDup [pos1; pos2; pos3] /\ Forall (fun p => exists r, r ∈ rs /\ p = u8 (r mod L)) [pos1; pos2; pos3] /\
    (0 < L -> Forall (fun p => 0 <= p < L) [pos1; pos2; pos3]) /\
    asked ks c1 ks1 /\ asked ks1 c2 ks2 /\ asked ks2 c3 ks' /\
    var_Password var pos1 = Ok p1 /\ var_Password var pos2 = Ok p2 /\ var_Password var pos3 = Ok p3 /\
    (right = true <-> c1 = p1 /\ c2 = p2 /\ c3 = p3).
(** One of the first [k] attempts is right; each begins where the last one ended. *)
Fixpoint right_within (k : nat) (L : Z) (var rs : list Z) (ks : list (EFI_STATUS * Z)) : Prop :=
  match k with
  | O => False
  | Datatypes.S k =>
      exists right ks', attempt L var rs ks right ks' /\ if right then True else right_within k L var rs ks'
  end.
Definition three_right (var : list Z) (u : user) : Prop :=
  exists L, var_PWLen var = Ok L /\ right_within 3 L var (u_random u) (u_keys u).

Lemma ask_character_ok (s : mm S) c s' : ask_character mt s = Ok (c, s') ->
  mm_fw s' = mm_fw s /\ u_yes (mm_user s') = u_yes (mm_user s) /\
  (forall x, c = Some x -> asked (u_keys (mm_user s)) x (u_keys (mm_user s'))) /\ u_random (mm_user s') = u_random (mm_user s).
Proof.
  unfold ask_character. destruct (negb _); [by intros [= <- <-]|].
  intros ([x s1] & ([[st l] s2] & ([[st0 l0] ks] & Hl & [= <- <- <-])%bind_inv & [= <- <-])%bind_inv & [= <- <-])%bind_inv.
  split_and!; try done. intros x [= <-]. by exists st0, l0.
Qed.

Lemma ask_characters_ok var L rs k : var_PWLen var = Ok L -> forall (s : mm S) o s', ask_characters mt k var s = Ok (o, s') ->
  u_random (mm_user s) ⊆ rs ->
  mm_fw s' = mm_fw s /\ u_yes (mm_user s') = u_yes (mm_user s) /\ (o = Some true -> right_within k L var rs (u_keys (mm_user s))).
Proof.
  intros HL. induction k as [|k IH]; intros s o s' Hr Hrs; cbn [ask_characters] in Hr; [by injection Hr as <- <-|].
  rewrite HL, bind_Ok in Hr. apply bind_inv in Hr as ([p1 rs1] & (N1 & D1 & B1 & S1)%random_pos_ok & Hr).
  apply bind_inv in Hr as ([p2 rs2] & (N2 & D2 & B2 & S2)%random_pos_ok & Hr).
  apply bind_inv in Hr as ([p3 rs3] & (N3 & D3 & B3 & S3)%random_pos_ok & Hr).
  apply bind_inv in Hr as ([o1 s1] & Ha1 & Hr). apply ask_character_ok in Ha1 as (F1 & Y1 & A1 & R1). cbn in F1, Y1, A1, R1.
  destruct o1 as [c1|]; [|injection Hr as <- <-; by rewrite F1, Y1].
  apply bind_inv in Hr as ([o2 s2] & Ha2 & Hr). apply ask_character_ok in Ha2 as (F2 & Y2 & A2 & R2).
  destruct o2 as [c2|]; [|injection Hr as <- <-; by rewrite F2, F1, Y2, Y1].
  apply bind_inv in Hr as ([o3 s3] & Ha3 & Hr). apply ask_character_ok in Ha3 as (F3 & Y3 & A3 & R3).
  destruct o3 as [c3|]; [|injection Hr as <- <-; by rewrite F3, F2, F1, Y3, Y2, Y1].
  specialize (A1 c1 eq_refl). specialize (A2 c2 eq_refl). specialize (A3 c3 eq_refl).
  apply bind_inv in Hr as (q1 & V1 & Hr). apply bind_inv in Hr as (q2 & V2 & Hr). apply bind_inv in Hr as (q3 & V3 & Hr).
  assert (Hatt : forall right : bool, (right = true <-> c1 = q1 /\ c2 = q2 /\ c3 = q3) ->
    attempt L var rs (u_keys (mm_user s)) right (u_keys (mm_user s3))).
  { intros right Hright. exists p1, p2, p3, c1, c2, c3, q1, q2, q3, (u_keys (mm_user s1)), (u_keys (mm_user s2)).
    split_and!; try done; [by apply three_distinct| |].
    - destruct D1 as (r1 & ? & ->), D2 as (r2 & ? & ->), D3 as (r3 & ? & ->). repeat constructor; eexists; (split; [|done]); set_solver.
    - intros Hpos. repeat constructor; naive_solver. }
  destruct (_ || _) eqn:Ec.
  - destruct (IH _ _ _ Hr) as (F & Y & Ht); [rewrite R3, R2, R1; set_solver|].
    split; [by rewrite F, F3, F2, F1|]. split; [by rewrite Y, Y3, Y2, Y1|]. intros Ho. exists false, (u_keys (mm_user s3)). split; [|by apply Ht].
    apply Hatt. split; [done|]. intros (-> & -> & ->). by rewrite !Z.eqb_refl in Ec.
  - injection Hr as <- <-. split; [by rewrite F3, F2, F1|]. split; [by rewrite Y3, Y2, Y1|]. intros _. bool_to_prop. subst.
    exists true, (u_keys (mm_user s3)). split; [|done]. by apply Hatt.
Qed.

(** ** What the user confirmed *)
Definition file_data (q : request) : list Z := match q with Some (d, n) => take (Z.to_nat n) d | None => [] end.
(** The file the user picked, which was read and is not empty. *)
Definition picked (s : mm S) (name data : list Z) : Prop :=
  data <> [] /\ exists fs, u_files (mm_user s) = Some (name, inr data) :: fs.
Definition evidence (i : mok_menu_item) (r : requests) (s : mm S) : Prop :=
  let ks := u_keys (mm_user s) in
  match i with
  | MOK_BOOT => False
  | MOK_RESET_MOK => pass_for "MokAuth" [] s
  | MOK_RESET_MOKX => pass_for "MokXAuth" [] s
  | MOK_ENROLL_MOK => pass_for "MokAuth" (file_data (MokNew r)) s
  | MOK_ENROLL_MOKX => pass_for "MokXAuth" (file_data (MokXNew r)) s
  | MOK_DELETE_MOK => pass_for "MokDelAuth" (file_data (MokDel r)) s
  | MOK_DELETE_MOKX => pass_for "MokXDelAuth" (file_data (MokXDel r)) s
  | MOK_CHANGE_SB => exists var, MokSB r = Some (var, sizeof_MokSBvar) /\ three_right var (mm_user s)
  | MOK_CHANGE_DB => exists var, MokDB r = Some (var, sizeof_MokSBvar) /\ three_right var (mm_user s)
  | MOK_CHANGE_TML => exists var, MokTML r = Some (var, sizeof_MokSBvar) /\ three_right var (mm_user s)
  | MOK_SET_PW =>
      exists pw n, MokPW r = Some (pw, n) /\
        (file_data (MokPW r) = replicate (Z.to_nat n) 0 \/ exists line, line ∈ lines 3 ks /\ accepted mt pw n [] line)
  | MOK_KEY_ENROLL => exists name data, picked s name data /\ check_der_suffix mt name = Ok true
  | MOK_HASH_ENROLL => exists name data, picked s name data
  end.
Definition confirmed (i : mok_menu_item) (r : requests) (s : mm S) : Prop :=
  (exists bs, u_yes (mm_user s) = true :: bs) /\ evidence i r s.

(** The item changes only its variable, and that only after it was confirmed. *)
Definition honest (i : mok_menu_item) (r : requests) (s s' : mm S) : Prop :=
  only (target i) s s' /\ (only None s s' \/ confirmed i r s).

Lemma honest_same i r s s' : mm_fw s' = mm_fw s -> honest i r s s'.
Proof. intros Hf. split; [by apply only_fw|]. left. by apply only_fw. Qed.

Lemma enrollment_ok new n (b X : bool) (s : mm S) st s' :
  mok_enrollment_prompt mt new n b X s = Ok (st, s') ->
  only (Some (db_name X)) s s' /\
  (only None s s' \/ (exists bs, u_yes (mm_user s) = true :: bs) /\ (b = true -> pass_for (auth_name X) (take (Z.to_nat n) new) s)).
Proof.
  unfold mok_enrollment_prompt. intros ([st1 s1] & Hl & Hr)%bind_inv. apply list_keys_ok in Hl as (F1 & K1 & Y1).
  destruct (EFI_ERROR st1); [injection Hr as _ <-; split; [|left]; by apply only_fw|].
  apply bind_inv in Hr as ([yes s2] & Hy & Hr). apply yes_no_ok in Hy as (F2 & K2 & bs & Y2).
  destruct yes; cbn [negb] in Hr; [|injection Hr as _ <-; split; [|left]; apply only_fw; by rewrite F2].
  apply bind_inv in Hr as (d & Hd & Hr). apply bind_inv in Hr as ([st3 s3] & Hs & Hr).
  assert (Hdd : d = take (Z.to_nat n) new) by (unfold rdn in Hd; case_if_in Hd; [|done..]; by injection Hd as <-).
  apply store_keys_ok in Hs as [Ho Hp]. 
  assert (O2 : only None s s2) by (apply only_fw; by rewrite F2).
  assert (Hpass : forall name data, pass_for name data s2 -> pass_for name data s).
  { intros name data (a & auth & line & Hlk & Hin & Hacc). exists a, auth, line. unfold lk in *. rewrite F2, F1 in Hlk. rewrite K2, K1 in Hin. done. }
  assert (Hend : exists o, only o s3 s' /\ o = None).
  { exists None. split; [|done]. destruct (EFI_ERROR st3); [by injection Hr as _ <-|]. injection Hr as _ <-. destruct b; [|done].
    destruct X; (eapply only_trans; [|by apply drop_plain]; by apply drop_plain). }
  destruct Hend as (o & Hend & ->). split.
  - eapply only_trans; [by apply only_weaken|]. eapply only_trans; [exact Ho|]. by apply only_weaken.
  - destruct b; [destruct (Hp eq_refl) as [Hpass2 | [Hnone _]]|].
    + right. split; [rewrite <- Y1; by exists bs|]. intros _. rewrite <- Hdd. by apply Hpass.
    + left. eapply only_trans; [exact O2|]. by eapply only_trans.
    + right. split; [rewrite <- Y1; by exists bs|]. done.
Qed.

Lemma reset_ok (X : bool) (s : mm S) st s' : mok_reset_prompt mt X s = Ok (st, s') ->
  (exists a d, lk s (auth_name X) = Some (a, d) /\ good_size (zlen d) = true) ->
  only (Some (db_name X)) s s' /\
  (only None s s' \/ (exists bs, u_yes (mm_user s) = true :: bs) /\ pass_for (auth_name X) [] s).
Proof.
  unfold mok_reset_prompt. intros ([yes s1] & Hy & Hr)%bind_inv (a & d & Hl & Hg). apply yes_no_ok in Hy as (F1 & K1 & bs & Y1).
  destruct yes; cbn [negb] in Hr; [|injection Hr as _ <-; split; [|left]; by apply only_fw].
  apply bind_inv in Hr as ([st2 s2] & Hs & Hr). apply store_keys_ok in Hs as [Ho Hp].
  assert (O1 : only None s s1) by (by apply only_fw). specialize (Hp eq_refl).
  assert (Hl1 : lk s1 (auth_name X) = Some (a, d)) by (unfold lk in *; by rewrite F1).
  destruct Hp as [(a' & auth & line & Hlk & Hin & Hacc) | [Hnone Herr]].
  - split.
    + eapply only_trans; [by apply only_weaken|]. eapply only_trans; [exact Ho|].
      destruct (EFI_ERROR st2); [by injection Hr as _ <-|]. injection Hr as _ <-.
      destruct X; (eapply only_trans; [|apply drop_var_only; intros _; reflexivity]); (eapply only_trans; [|by apply drop_plain]); by apply drop_plain.
    + right. split; [by exists bs|]. exists a', auth, line. unfold lk in *. rewrite F1 in Hlk. rewrite K1 in Hin. done.
  - specialize (Herr a d Hl1 Hg). rewrite Herr in Hr. injection Hr as _ <-.
    assert (only None s s2) by (by eapply only_trans). split; [by apply only_weaken|by left].
Qed.

Lemma write_back_only Data nodes (X : bool) (s : mm S) st s' : write_back_mok_list mt Data nodes X s = Ok (st, s') -> only (Some (db_name X)) s s'.
Proof.
  unfold write_back_mok_list. destruct (_ =? 0).
  { intros [= _ <-]. apply set_var_only. }
  destruct (mt_pool mt _); [|by intros [= _ <-]]. intros (out & _ & Hr)%bind_inv.
  pose proof (set_var_only s (db_name X) out) as Ho. destruct (set_var _ _ _) as [? s2]. by injection Hr as _ <-.
Qed.

Lemma delete_keys_ok del n (X : bool) (s : mm S) st s' : delete_keys mt del n X s = Ok (st, s') ->
  only (Some (db_name X)) s s' /\ (only None s s' \/ pass_for (del_auth_name X) (take (Z.to_nat n) del) s).
Proof.
  unfold delete_keys. intros (d & Hd & Hr)%bind_inv.
  assert (Hdd : d = take (Z.to_nat n) del) by (unfold rdn in Hd; case_if_in Hd; [|done..]; by injection Hd as <-).
  apply bind_inv in Hr as ([o s1] & Ha & Hr). apply authenticate_ok in Ha as (Hk & Hp & _). apply keys_only_fw in Hk.
  assert (O1 : only None s s1) by (by apply only_fw).
  destruct o as [st1|]; [injection Hr as _ <-; split; [by apply only_weaken|by left]|].
  split; [|right; rewrite <- Hdd; by apply Hp]. eapply only_trans; [by apply only_weaken|]. clear Hp O1 Hk.
  apply bind_inv in Hr as (g & _ & Hr). destruct (EFI_ERROR _); [by injection Hr as _ <-|].
  destruct (runtime _); [injection Hr as _ <-; apply set_var_only|]. destruct (gva_data g) as [Data|]; [|by injection Hr as _ <-].
  destruct (_ =? 0); [by injection Hr as _ <-|]. apply bind_inv in Hr as (k & _ & Hr).
  destruct (_ =? 0); [injection Hr as _ <-; apply set_var_only|]. apply bind_inv in Hr as (mok & _ & Hr).
  destruct mok as [mok|]; [|by injection Hr as _ <-]. apply bind_inv in Hr as (k' & _ & Hr).
  destruct (_ =? 0); [by injection Hr as _ <-|]. apply bind_inv in Hr as (dk & _ & Hr). destruct dk as [dk|]; [|by injection Hr as _ <-].
  apply bind_inv in Hr as ([D m] & _ & Hr). by apply write_back_only in Hr.
Qed.

Lemma deletion_ok del n (X : bool) (s : mm S) st s' : mok_deletion_prompt mt del n X s = Ok (st, s') ->
  only (Some (db_name X)) s s' /\
  (only None s s' \/ (exists bs, u_yes (mm_user s) = true :: bs) /\ pass_for (del_auth_name X) (take (Z.to_nat n) del) s).
Proof.
  unfold mok_deletion_prompt. intros ([st1 s1] & Hl & Hr)%bind_inv. apply list_keys_ok in Hl as (F1 & K1 & Y1).
  destruct (EFI_ERROR st1); [injection Hr as _ <-; split; [|left]; by apply only_fw|].
  apply bind_inv in Hr as ([yes s2] & Hy & Hr). apply yes_no_ok in Hy as (F2 & K2 & bs & Y2).
  destruct yes; cbn [negb] in Hr; [|injection Hr as _ <-; split; [|left]; apply only_fw; by rewrite F2].
  apply bind_inv in Hr as ([st3 s3] & Hs & Hr). apply delete_keys_ok in Hs as [Ho Hp].
  assert (O2 : only None s s2) by (apply only_fw; by rewrite F2).
  assert (Hend : only None s3 s').
  { destruct (EFI_ERROR st3); [by injection Hr as _ <-|]. injection Hr as _ <-.
    destruct X; (eapply only_trans; [|by apply drop_plain]); by apply drop_plain. }
  split; [eapply only_trans; [by apply only_weaken|]; eapply only_trans; [exact Ho|by apply only_weaken]|].
  destruct Hp as [Hp | (a & auth & line & Hlk & Hin & Hacc)].
  - left. eapply only_trans; [exact O2|]. by eapply only_trans.
  - right. split; [rewrite <- Y1; by exists bs|]. exists a, auth, line. unfold lk in *. rewrite F2, F1 in Hlk. rewrite K2, K1 in Hin. done.
Qed.

Lemma state_prompt_ok req tgt zero var n (s : mm S) st s' : bool_decide (req ∈ trusted) = false ->
  state_prompt mt req tgt zero var n s = Ok (st, s') ->
  only (Some tgt) s s' /\
  (only None s s' \/ (exists bs, u_yes (mm_user s) = true :: bs) /\ n = sizeof_MokSBvar /\ three_right var (mm_user s)).
Proof.
  unfold state_prompt. intros Hreq. destruct (n =? sizeof_MokSBvar) eqn:En; cbn [negb]; [bool_to_prop|intros [= _ <-]; by split; [|left]].
  intros ([o s1] & Ha & Hr)%bind_inv.
  assert (HL : exists L, var_PWLen var = Ok L) by (cbn [ask_characters] in Ha; destruct (var_PWLen var) as [L| |]; [by exists L|done..]).
  destruct HL as [L HL]. destruct (ask_characters_ok var L (u_random (mm_user s)) 3 HL s o s1 Ha ltac:(done)) as (F1 & Y1 & Ht).
  assert (Hs1 : only None s s1) by (by apply only_fw).
  destruct o as [[|]|]; [|injection Hr as _ <-; split; [by apply only_weaken|by left]..].
  apply bind_inv in Hr as ([yes s2] & Hy & Hr). apply yes_no_ok in Hy as (F2 & _ & bs & Y2).
  assert (Hs2 : only None s s2) by (apply only_fw; by rewrite F2).
  destruct yes; cbn [negb] in Hr.
  2:{ injection Hr as _ <-. assert (only None s (drop_var s2 req)) by (eapply only_trans; [exact Hs2|by apply drop_plain]).
      split; [by apply only_weaken|by left]. }
  apply bind_inv in Hr as (v & _ & Hr). split; [|right; split; [rewrite <- Y1; by exists bs|]; split; [done|exists L; split; [done|by apply Ht]]].
  eapply only_trans; [by apply only_weaken|]. match type of Hr with context [set_var s2 tgt ?d] => pose proof (set_var_only s2 tgt d) as Ho end.
  destruct (set_var _ _ _) as [? s3]. by injection Hr as _ <-.
Qed.

Lemma pw_prompt_ok pw n (s : mm S) st s' : mok_pw_prompt mt pw n s = Ok (st, s') ->
  only (Some "MokPWStore"%string) s s' /\
  (only None s s' \/ (exists bs, u_yes (mm_user s) = true :: bs) /\
     (take (Z.to_nat n) pw = replicate (Z.to_nat n) 0 \/ exists line, line ∈ lines 3 (u_keys (mm_user s)) /\ accepted mt pw n [] line)).
Proof.
  unfold mok_pw_prompt. destruct (negb _); [intros [= _ <-]; by split; [|left]|]. intros (d & Hd & Hr)%bind_inv.
  assert (Hdd : d = take (Z.to_nat n) pw) by (unfold rdn in Hd; case_if_in Hd; [|done..]; by injection Hd as <-).
  unfold bytes_eqb in Hr. destruct (bool_decide_reflect (d = replicate (Z.to_nat n) 0)) as [Hz | Hz].
  - apply bind_inv in Hr as ([yes s1] & Hy & Hr). apply yes_no_ok in Hy as (F1 & _ & bs & Y1).
    assert (O1 : only None s s1) by (by apply only_fw). destruct yes; cbn [negb] in Hr; injection Hr as _ <-; [|by split; [apply only_weaken|left]].
    split; [|right; split; [by exists bs|]; left; by rewrite <- Hdd]. eapply only_trans; [by apply only_weaken|].
    eapply only_trans; [|by apply drop_plain]. apply set_var_only.
  - apply bind_inv in Hr as ([st1 s1] & Hm & Hr). destruct (match_auth_ok mt Hmt _ _ _ _ _ _ Hm) as ([ks ->] & Hs & _).
    destruct (EFI_ERROR st1); [injection Hr as _ <-; split; [|left]; by apply only_fw|].
    apply bind_inv in Hr as ([yes s2] & Hy & Hr). apply yes_no_ok in Hy as (F2 & _ & bs & Y2).
    assert (O2 : only None s s2) by (by apply only_fw).
    destruct yes; cbn [negb] in Hr; [|injection Hr as _ <-; split; [by apply only_weaken|by left]].
    pose proof (set_var_only s2 "MokPWStore" d) as Ho. destruct (set_var _ _ _) as [st3 s3]. cbn in Ho.
    split; [|right; split; [by exists bs|]; right; by apply Hs]. eapply only_trans; [by apply only_weaken|]. eapply only_trans; [exact Ho|].
    destruct (EFI_ERROR st3); injection Hr as _ <-; [done|]. by apply drop_plain.
Qed.

Lemma enroll_file_ok data hash (s : mm S) st s' : enroll_file mt data hash s = Ok (st, s') ->
  only (Some "MokList"%string) s s' /\ (only None s s' \/ exists bs, u_yes (mm_user s) = true :: bs).
Proof.
  assert (Hp : forall buf n st s', mok_enrollment_prompt mt buf n false false s = Ok (st, s') ->
    only (Some "MokList"%string) s s' /\ (only None s s' \/ exists bs, u_yes (mm_user s) = true :: bs)).
  { intros buf n st0 s0 Hr. destruct (enrollment_ok _ _ _ _ _ _ _ Hr) as [Ho [Hn | [Hy _]]]; split; auto. }
  assert (Hsame : forall st0 : EFI_STATUS, Ok (st0, s) = Ok (st, s') ->
    only (Some "MokList"%string) s s' /\ (only None s s' \/ exists bs, u_yes (mm_user s) = true :: bs)) by (intros st0 [= _ <-]; by split; [|left]).
  unfold enroll_file. destruct hash.
  - destruct (EFI_ERROR _); [apply Hsame|]. destruct (mt_pool mt _); [|apply Hsame]. destruct (EFI_ERROR _); [apply Hsame|].
    destruct (mt_Hash mt data) as [st1 h]. destruct (EFI_ERROR st1); [apply Hsame|]. intros (buf & _ & Hr)%bind_inv. by eapply Hp.
  - destruct (mt_pool mt _); [|apply Hsame]. intros (buf & _ & (ok & _ & Hr)%bind_inv)%bind_inv. destruct (negb ok); [by apply (Hsame EFI_SUCCESS)|].
    by eapply Hp.
Qed.

Lemma enroll_picked_ok name_ok hash (s : mm S) st s' : enroll_picked mt name_ok hash s = Ok (st, s') ->
  only (Some "MokList"%string) s s' /\
  (only None s s' \/ (exists bs, u_yes (mm_user s) = true :: bs) /\ exists name data, picked s name data /\ name_ok name = Ok true).
Proof.
  unfold enroll_picked. intros ([f s1] & Hp & Hr)%bind_inv.
  assert (F1 : mm_fw s1 = mm_fw s /\ u_yes (mm_user s1) = u_yes (mm_user s) /\ exists fs, u_files (mm_user s) = f :: fs).
  { unfold pick_file in Hp. destruct (u_files _) as [|f0 fs]; [done|]. injection Hp as -> <-. split_and!; [done..|by exists fs]. }
  destruct F1 as (F1 & Y1 & fs & Hfs). assert (O1 : only None s s1) by (by apply only_fw).
  destruct f as [[name file]|]; [|injection Hr as _ <-; split; [by apply only_weaken|by left]].
  apply bind_inv in Hr as (ok & Hok & Hr). destruct ok; cbn [negb] in Hr; [|injection Hr as _ <-; split; [by apply only_weaken|by left]].
  destruct file as [?|data]; [injection Hr as _ <-; split; [by apply only_weaken|by left]|].
  destruct (zlen data =? 0) eqn:En; [injection Hr as _ <-; split; [by apply only_weaken|by left]|].
  apply enroll_file_ok in Hr as [Ho Hc]. split; [eapply only_trans; [by apply only_weaken|done]|].
  destruct Hc as [Hc | Hc]; [left; by eapply only_trans|right; rewrite <- Y1; split; [done|]]. exists name, data. split; [|done].
  split; [by intros ->|by exists fs].
Qed.

(** What the menu offers: a reset only where there is a usable hash. *)
Definition offered (i : mok_menu_item) (s : mm S) : Prop :=
  (i = MOK_RESET_MOK -> exists a d, lk s "MokAuth" = Some (a, d) /\ good_size (zlen d) = true) /\
  (i = MOK_RESET_MOKX -> exists a d, lk s "MokXAuth" = Some (a, d) /\ good_size (zlen d) = true).

Lemma has_auth_ok (s : mm S) name n : fst (has_auth (mm_fw s) name n) = true ->
  exists a d, lk s name = Some (a, d) /\ good_size (zlen d) = true.
Proof.
  unfold has_auth. cbn [fst]. intros [He Hg]%andb_true_iff. apply negb_true_iff in He.
  destruct (get_auth s name n He) as (a & d & Hl & Hs & _). exists a, d. by rewrite <- Hs.
Qed.

Lemma elem_if {A} (x y : A) (c : bool) : x ∈ (if c then [y] else []) -> c = true /\ x = y.
Proof. destruct c; [by intros ->%list_elem_of_singleton|by intros ?%elem_of_nil]. Qed.

Lemma menu_items r a b c d i : i ∈ menu r a b c d ->
  (i = MOK_RESET_MOK -> a = true) /\ (i = MOK_RESET_MOKX -> c = true).
Proof.
  unfold menu. rewrite !elem_of_app.
  intros [Hi | [Hi | [Hi | [Hi | [Hi | [Hi | [Hi | [Hi | [Hi | Hi]]]]]]]]];
    try (apply elem_if in Hi as [Hc Hi]); try (by subst i); try (by apply list_elem_of_singleton in Hi; subst i).
  - destruct (here (MokNew r)); subst i; cbn in *; [done|]. by split.
  - destruct (here (MokXNew r)); subst i; cbn in *; [done|]. by split.
  - rewrite !elem_of_cons, elem_of_nil in Hi. destruct Hi as [-> | [-> | []]]; done.
Qed.

Lemma menu_offered r a b c d i (s : mm S) : i ∈ menu r a b c d ->
  (a = true -> exists x y, lk s "MokAuth" = Some (x, y) /\ good_size (zlen y) = true) ->
  (c = true -> exists x y, lk s "MokXAuth" = Some (x, y) /\ good_size (zlen y) = true) -> offered i s.
Proof. intros [Hm Hx]%menu_items Ha Hc. split; intros Hi; auto. Qed.

Lemma serve_honest i r (s : mm S) x s' : offered i s -> serve mt i r s = Ok (x, s') -> honest i r s s'.
Proof.
  intros [Hm Hx] Hr. unfold honest, confirmed.
  assert (Hreq : forall q f, with_request q f s = Ok (x, s') ->
    mm_fw s' = mm_fw s \/ exists d n st, q = Some (d, n) /\ f d n s = Ok (st, s')).
  { intros [[d n]|] f Hf; cbn [with_request] in Hf; [|injection Hf as _ <-; by left].
    apply bind_inv in Hf as ([st s1] & Hf & [= _ <-]). right. by exists d, n, st. }
  assert (Halw : forall f, always f s = Ok (x, s') -> exists st, f s = Ok (st, s')).
  { intros f ([st s1] & Hf & [= _ <-])%bind_inv. by exists st. }
  assert (Hsame : mm_fw s' = mm_fw s -> forall o P, only o s s' /\ (only None s s' \/ P)) by (intros Hf o P; split; [|left]; by apply only_fw).
  destruct i; cbn [serve target evidence] in *.
  - injection Hr as _ <-. by apply Hsame.
  - apply Halw in Hr as [st Hr]. by apply reset_ok in Hr; [|apply Hm].
  - apply Halw in Hr as [st Hr]. by apply reset_ok in Hr; [|apply Hx].
  - apply Hreq in Hr as [Hf | (d & n & st & -> & Hr)]; [by apply Hsame|]. apply enrollment_ok in Hr as [Ho [Hn | [Hy Hp]]]; split; auto.
  - apply Hreq in Hr as [Hf | (d & n & st & -> & Hr)]; [by apply Hsame|]. apply enrollment_ok in Hr as [Ho [Hn | [Hy Hp]]]; split; auto.
  - apply Hreq in Hr as [Hf | (d & n & st & -> & Hr)]; [by apply Hsame|]. by apply deletion_ok in Hr.
  - apply Hreq in Hr as [Hf | (d & n & st & -> & Hr)]; [by apply Hsame|]. by apply deletion_ok in Hr.
  - apply Hreq in Hr as [Hf | (d & n & st & -> & Hr)]; [by apply Hsame|].
    apply state_prompt_ok in Hr as [Ho [Hn | (Hy & -> & Ht)]]; [split; auto|split; [done|right; eauto]|done].
  - apply Hreq in Hr as [Hf | (d & n & st & Hq & Hr)]; [by apply Hsame|]. rewrite Hq. apply pw_prompt_ok in Hr as [Ho [Hn | [Hy Hp]]]; split; auto.
    right. split; [done|]. by exists d, n.
  - apply Hreq in Hr as [Hf | (d & n & st & -> & Hr)]; [by apply Hsame|].
    apply state_prompt_ok in Hr as [Ho [Hn | (Hy & -> & Ht)]]; [split; auto|split; [done|right; eauto]|done].
  - apply Halw in Hr as [st Hr]. apply enroll_picked_ok in Hr as [Ho [Hn | Hy]]; split; auto.
  - apply Halw in Hr as [st Hr]. apply enroll_picked_ok in Hr as [Ho [Hn | (Hy & name & data & Hp & _)]]; split; eauto.
  - apply Hreq in Hr as [Hf | (d & n & st & -> & Hr)]; [by apply Hsame|].
    apply state_prompt_ok in Hr as [Ho [Hn | (Hy & -> & Ht)]]; [split; auto|split; [done|right; eauto]|done].
Qed.

(** ** The session *)

(** The user chooses an item of the menu. *)
Definition chosen (r : requests) (z : Z) (s : mm S) (i : mok_menu_item) (z' : Z) (s' : mm S) : Prop :=
  exists items c, menu_now r (mm_fw s) z = (items, z') /\ console_select s = Ok (c, s') /\ items !! Z.to_nat c = Some i.

(** The turns of the menu that follow one another. *)
Inductive visits : requests -> Z -> mm S -> requests -> Z -> mm S -> Prop :=
| visits_here r z s : visits r z s r z s
| visits_step r z s i z1 s1 st s2 r' z' s' :
    chosen r z s i z1 s1 -> serve mt i r s1 = Ok (Done st, s2) ->
    visits (if EFI_ERROR st then r else without_request i r) z1 s2 r' z' s' -> visits r z s r' z' s'.

(** Where a trusted variable comes from after a session: it is as before, or in
    one of its turns the item that changes it was chosen and confirmed. *)
Definition accounted (r : requests) (z : Z) (s s' : mm S) : Prop :=
  forall n, n ∈ trusted -> lk s' n = lk s n \/
    exists r1 z1 s1 i z2 s2, visits r z s r1 z1 s1 /\ chosen r1 z1 s1 i z2 s2 /\ target i = Some n /\ confirmed i r1 s2.

Lemma menu_now_offered r (s s1 : mm S) z items z' i : menu_now r (mm_fw s) z = (items, z') -> mm_fw s1 = mm_fw s -> i ∈ items -> offered i s1.
Proof.
  unfold menu_now. intros Hm F1 Hi.
  destruct (has_auth (mm_fw s) "MokAuth" z) as [b1 z1] eqn:E1. destruct (has_auth (mm_fw s) "MokDelAuth" z1) as [b2 z2] eqn:E2.
  destruct (has_auth (mm_fw s) "MokXAuth" z2) as [b3 z3] eqn:E3. destruct (has_auth (mm_fw s) "MokXDelAuth" z3) as [b4 z4] eqn:E4.
  injection Hm as <- _. apply (menu_offered _ _ _ _ _ _ s1 Hi); intros ->; rewrite <- F1 in *.
  - apply (has_auth_ok s1 "MokAuth" z). by rewrite E1.
  - apply (has_auth_ok s1 "MokXAuth" z2). by rewrite E3.
Qed.

Lemma menu_loop_accounted f : forall r ch z (s : mm S) e s', menu_loop mt f r ch z s = Ok (e, s') -> accounted r z s s'.
Proof.
  induction f as [|f IH]; intros r ch z s e s' Hr; [done|]. cbn [menu_loop] in Hr.
  destruct (menu_now r (mm_fw s) z) as [items z1] eqn:Em. destruct (negb _); [injection Hr as _ <-; by left|].
  apply bind_inv in Hr as ([c s1] & Hsel & Hr).
  assert (F1 : mm_fw s1 = mm_fw s) by (unfold console_select in Hsel; destruct (u_choices _); [done|]; by injection Hsel as _ <-).
  assert (Hlk : forall n, lk s1 n = lk s n) by (intros n; unfold lk; by rewrite F1).
  destruct (c <? 0); [injection Hr as _ <-; by left|]. destruct (items !! _) as [i|] eqn:Ei; [|done].
  assert (Hch : chosen r z s i z1 s1) by by exists items, c.
  pose proof (menu_now_offered r s s1 z items z1 i Em F1 (list_elem_of_lookup_2 _ _ _ Ei)) as Hoff.
  apply bind_inv in Hr as ([x s2] & Hserve & Hr). destruct (serve_honest i r s1 x s2 Hoff Hserve) as [Hon Hconf].
  assert (Hstep : forall n, n ∈ trusted -> lk s2 n = lk s n \/ target i = Some n /\ confirmed i r s1).
  { intros n Hn. destruct (decide (target i = Some n)) as [Ht | Ht]; [|left; rewrite (Hon n Hn) by congruence; apply Hlk].
    destruct Hconf as [Hnone | Hc]; [left; rewrite (Hnone n Hn) by done; apply Hlk|by right]. }
  assert (Hnow : forall n, n ∈ trusted -> lk s2 n = lk s n \/
    exists r1 z1 s1 i z2 s2, visits r z s r1 z1 s1 /\ chosen r1 z1 s1 i z2 s2 /\ target i = Some n /\ confirmed i r1 s2).
  { intros n Hn. destruct (Hstep n Hn) as [? | [Ht Hc]]; [by left|right]. exists r, z, s, i, z1, s1. split_and!; try done. apply visits_here. }
  destruct x as [ret|st]; [by injection Hr as _ <-|].
  assert (Hrest : accounted (if EFI_ERROR st then r else without_request i r) z1 s2 s') by (destruct (EFI_ERROR st); by eapply IH).
  intros n Hn. destruct (Hrest n Hn) as [Heq | (r3 & z3 & s3 & j & z4 & s4 & Hv & Hrem)]; [rewrite Heq; by apply Hnow|right].
  exists r3, z3, s3, j, z4, s4. split; [|done]. by eapply visits_step.
Qed.

Lemma take_request_only name (s : mm S) q s' : bool_decide (name ∈ trusted) = false ->
  take_request mt name s = Ok (q, s') -> only None s s'.
Proof.
  unfold take_request. intros Hn (g & _ & Hr)%bind_inv. destruct (EFI_ERROR _); injection Hr as _ <-; [done|]. by apply drop_plain.
Qed.

Lemma take_requests_only (s : mm S) r s' : take_requests mt s = Ok (r, s') -> only None s s'.
Proof.
  unfold take_requests. intros Hr.
  repeat (let s1 := fresh "s" in let Hq := fresh "Hq" in apply bind_inv in Hr as ([? s1] & Hq & Hr); apply take_request_only in Hq; [|done]).
  injection Hr as _ <-. repeat (eapply only_trans; [eassumption|]). done.
Qed.

Lemma verify_pw_ok (s : mm S) ok p s' : verify_pw mt s = Ok (ok, p, s') -> keys_only s s'.
Proof.
  unfold verify_pw. destruct (_ || _); [intros [= _ _ <-]; apply keys_only_refl|]. destruct (runtime _); [intros [= _ _ <-]; apply keys_only_refl|].
  intros ([st s1] & Hm & Hr)%bind_inv. destruct (match_auth_ok mt Hmt _ _ _ _ _ _ Hm) as [Hk _]. by destruct (EFI_ERROR st); injection Hr as _ _ <-.
Qed.

Lemma countdown_only p (s : mm S) b s' : countdown_over mt p s = Ok (b, s') -> only None s s'.
Proof.
  unfold countdown_over. destruct p; [by intros [= _ <-]|]. intros ([t s1] & Hd & [= _ <-])%bind_inv.
  unfold draw_countdown in Hd. apply bind_inv in Hd as (g & _ & Hd). apply bind_inv in Hd as ([t1 s2] & Ht & Hd).
  assert (only None s s2).
  { destruct (EFI_ERROR _); [by injection Ht as _ <-|]. destruct (gva_data g); [|done]. apply bind_inv in Ht as (v & _ & [= _ <-]). by apply drop_plain. }
  by destruct (t1 <? 0); injection Hd as _ <-.
Qed.

Lemma drop_auth_only (s : mm S) : only None s (drop_auth s).
Proof. unfold drop_auth. repeat (eapply only_trans; [|by apply drop_plain]). done. Qed.
End changes.

(** C4. MokManager as a whole, on any requests, any input and any state of the
    variables: when it ends, each of MokList, MokListX, MokSBState, MokDBState,
    MokListTrusted and MokPWStore is what it was before, or the password of
    MokPWStore (if there is one) was given and somebody pressed a key in time, and
    in one of the turns of the menu the user chose the item that changes it and
    answered yes.  For the items that carry out a request a password was given as
    well: for MokNew, MokDel and a reset one of three lines matches the hash stored
    with the request; for the three states one of three attempts gives the characters
    of the password at three different positions below its length, which were drawn
    at random; for a new password one of three lines matches it.  No password is
    needed, by design of the code, in two cases: a key or a digest of a file that the
    user picked from a disk, and the clearing of MokPWStore by a request of zeros;
    there the yes is enough. *)
Theorem changes_confirmed {S} `{VarLibLaws S} (mt : manager) (s : mm S) e s' :
  manager_ok mt -> check_mok_request mt s = Ok (e, s') ->
  exists r s0, take_requests mt s = Ok (r, s0) /\
  forall n, n ∈ trusted ->
    lk s' n = lk s n \/
    exists p sv sm, verify_pw mt s0 = Ok (true, p, sv) /\ countdown_over mt p sv = Ok (false, sm) /\
      exists r1 z1 s1 i z2 s2,
        visits mt r PASSWORD_CRYPT_SIZE sm r1 z1 s1 /\ chosen r1 z1 s1 i z2 s2 /\ target i = Some n /\ confirmed mt i r1 s2.
Proof.
  intros Hmt ([r s0] & Ht & ([e1 s1] & He & Hr)%bind_inv)%bind_inv. exists r, s0. split; [done|].
  pose proof (take_requests_only _ _ _ _ Ht) as O0. intros n Hn.
  assert (Hend : lk s' n = lk s1 n) by (destruct e1; injection Hr as _ <-; [done|]; by apply drop_auth_only).
  unfold enter_mok_menu in He. apply bind_inv in He as ([[ok p] sv] & Hv & He).
  assert (Hsv : lk sv n = lk s0 n) by (unfold lk; by rewrite (keys_only_fw _ _ (verify_pw_ok mt Hmt _ _ _ _ Hv))).
  destruct ok; cbn [negb] in He; [|injection He as _ <-; left; by rewrite Hend, Hsv, O0].
  apply bind_inv in He as ([stop sm] & Hc & He). pose proof (countdown_only _ _ _ _ _ Hc n Hn ltac:(done)) as Hsm.
  destruct stop; cbn [negb] in He; [injection He as _ <-; left; by rewrite Hend, Hsm, Hsv, O0|].
  apply menu_loop_accounted in He; [|done]. destruct (He n Hn) as [Heq | Hconf]; [left; by rewrite Hend, Heq, Hsm, Hsv, O0|right].
  by exists p, sv, sm.
Qed.

(** ** An example *)
Definition sample_manager : manager :=
  {| mt_pool := sample_pool; mt_alloc := true; mt_ctx := true; mt_prompt := true; mt_list := true; mt_menu := true;
     mt_stack := replicate 128 0; mt_attributes := 0; mt_sha256 := sum_digest 32; mt_crypto := sample_crypto;
     mt_countdown := fun t => t; mt_X509 := fun _ => true; mt_StrLwr := id; mt_lock := EFI_SUCCESS;
     mt_Context := fun _ => EFI_SUCCESS; mt_Hash := fun d => (EFI_SUCCESS, sum_digest 32 d) |}.
Lemma sample_manager_ok : manager_ok sample_manager.
Proof. split; [|done..]. intros k buf Hk [= <-]. unfold zlen. rewrite length_replicate. lia. Qed.

(** MokNew lists one digest, its password is "a". *)
Definition sample_new : list Z := esl_encode [digests [7]].
Definition sample_session : mm Store :=
  {| mm_fw := [(("MokNew"%string, SHIM_LOCK_GUID), (NV_BS, sample_new));
               (("MokAuth"%string, SHIM_LOCK_GUID), (NV_BS, sum_digest 32 (sample_new ++ [97; 0])))];
     mm_user := {| u_keys := typed [97]; u_yes := [true]; u_choices := [1; -1; 0]; u_files := []; u_random := [] |} |}.
Definition after_session : mm Store :=
  {| mm_fw := [(("MokList"%string, SHIM_LOCK_GUID), (NV_BS, sample_new))];
     mm_user := {| u_keys := []; u_yes := []; u_choices := []; u_files := []; u_random := [] |} |}.

Lemma changes_confirmed_witness :
  check_mok_request sample_manager sample_session = Ok (Rebooted, after_session) /\
  exists r s0, take_requests sample_manager sample_session = Ok (r, s0) /\
    exists p sv sm, verify_pw sample_manager s0 = Ok (true, p, sv) /\ countdown_over sample_manager p sv = Ok (false, sm) /\
      exists r1 z1 s1 i z2 s2,
        visits sample_manager r PASSWORD_CRYPT_SIZE sm r1 z1 s1 /\ chosen r1 z1 s1 i z2 s2 /\ target i = Some "MokList"%string /\
        confirmed sample_manager i r1 s2.
Proof.
  assert (Hrun : check_mok_request sample_manager sample_session = Ok (Rebooted, after_session)) by (by vm_compute).
  split; [exact Hrun|].
  destruct (changes_confirmed sample_manager sample_session Rebooted after_session sample_manager_ok Hrun) as (r & s0 & Ht & Hall).
  exists r, s0. split; [exact Ht|]. destruct (Hall "MokList"%string ltac:(left)) as [Heq | Hc]; [by vm_compute in Heq|exact Hc].
Defined.

(** A request to turn validation off, MokSB with the password "abc": the second
    attempt gives the characters 3, 1 and 2. *)
Definition sb_request : list Z := le_split 4 0 ++ le_split 4 3 ++ [97; 0; 98; 0; 99; 0] ++ replicate 26 0.
Definition sb_session : mm Store :=
  {| mm_fw := [(("MokSB"%string, SHIM_LOCK_GUID), (NV_BS, sb_request))];
     mm_user := {| u_keys := typed [98] ++ typed [98] ++ typed [98] ++ typed [99] ++ typed [97] ++ typed [98]; u_yes := [true]; u_choices := [1; 0];
                   u_files := []; u_random := [3; 4; 4; 5; 200; 3; 4] |} |}.
Example sb_session_changes :
  match check_mok_request sample_manager sb_session with
  | Ok (_, s') => lookup_var (mm_fw s') "MokSBState" SHIM_LOCK_GUID = Some (NV_BS, [1])
  | _ => False
  end.
Proof. vm_compute. reflexivity. Qed.
