(* ===== verification/MokUpdate.v ===== *)
(** * MokManager.c: what an authenticated request does

    [MokManager] shows that nothing is changed without the user's consent; here the
    requests are carried out: with the right password typed, store_keys appends
    the new lists to the stored ones and delete_keys writes back exactly the keys
    that the request does not name, for every database of keys. *)
From stdpp Require Import base list numbers option strings sets.
From Stdlib Require Import ZArith Lia.
From S2P Require Import Prelude.
From S2P Require Import Efi.
From S2P Require Import Firmware.
From S2P Require Import Esl.
From S2P Require Import KeyList.
From S2P Require Import Variables.
From S2P Require Import Password.
From S2P Require Import MokManager.
Local Open Scope Z_scope.

(** Memory for everything. *)
Record machine_ready (mt : manager) : Prop := {
  mr_ok : manager_ok mt;
  mr_pool : forall k, 0 <= k -> allocates (mt_pool mt) k;
  mr_alloc : mt_alloc mt = true;
  mr_prompt : mt_prompt mt = true;
  mr_list : mt_list mt = true
}.

Section updates.
Context {S : Type} `{VarLibLaws S} (mt : manager) (Hmt : machine_ready mt).

(** The hash of an accepted line is the stored one. *)
Lemma try_password_first pc Data ah asz line ks hash (s : mm S) k :
  Forall plain_char line -> PASSWORD_MIN <= zlen line <= PASSWORD_MAX -> u_keys (mm_user s) = typed line ++ ks ->
  (exists hash', hash_password mt pc Data line hash = Ok (EFI_SUCCESS, hash') /\ rdn hash' 0 asz = Ok ah) ->
  try_password mt (Datatypes.S k) pc Data ah asz hash s = Ok (EFI_SUCCESS, set_keys s ks).
Proof.
  intros Hpl Hl Hks (h & Hh & Hr). cbn [try_password]. unfold get_password, get_line. rewrite (mr_prompt mt Hmt). cbn [negb].
  rewrite Hks, get_line_typed by (done || zlia). rewrite !bind_Ok. cbn [app].
  rewrite (proj2 (Z.ltb_ge _ _)), (proj2 (Z.ltb_ge PASSWORD_MAX _)) by lia. cbn [orb]. rewrite Hh, bind_Ok. cbn [EFI_ERROR].
  rewrite Hr, bind_Ok. unfold bytes_eqb. by rewrite bool_decide_true.
Qed.

Lemma match_auth_first auth size Data line ks (s : mm S) :
  Forall plain_char line -> accepted mt auth size Data line -> u_keys (mm_user s) = typed line ++ ks ->
  match_auth mt auth size Data s = Ok (EFI_SUCCESS, set_keys s ks).
Proof.
  intros Hpl [Hl Ha] Hks. unfold match_auth. pose proof (mr_ok mt Hmt) as Hm. pose proof (mo_stack mt Hm) as Hst.
  destruct (size =? PASSWORD_CRYPT_SIZE); cbn [match_password].
  - destruct Ha as (m & n & salt & iter & Hsha & Em & En & Es & Ei & Eh). rewrite Em, bind_Ok.
    rewrite (proj2 (Z.eqb_neq (get_hash_size m) 0)) by (by destruct Hsha as [-> | ->]). rewrite Eh, bind_Ok.
    apply (try_password_first (Some auth) [] _ _ line); [done..|]. cbn [hash_password].
    destruct (password_crypt_ok _ (mt_pool mt) (mo_crypt256 mt Hm) (mo_crypt512 mt Hm) (pw_ascii line) auth m n salt iter (mt_stack mt)) as [Hd Hr];
      [done|done|done|done|done|lia|apply (mr_pool mt Hmt), zlen_nonneg|apply (mr_pool mt Hmt), zlen_nonneg|]. eexists. split; [exact Hr|]. by rewrite rdn_app_0.
  - destruct Ha as [Hc Eh]. rewrite Eh, bind_Ok. apply (try_password_first None Data _ _ line); [done..|]. cbn [hash_password].
    unfold compute_pw_hash. rewrite Hc. cbn [negb]. set (d := mt_sha256 mt _). assert (Hd : zlen d = 32) by apply (mo_sha256 mt Hm).
    exists (d ++ drop (length d) (mt_stack mt)). unfold wrn. rewrite (proj2 (Z.leb_le (0 + zlen d) _)) by lia. cbn. split; [done|].
    by rewrite rdn_app_0 by (unfold SHA256_DIGEST_SIZE; lia).
Qed.

(** The user types a password of the hash stored in [name]. *)
Definition types_password (name : string) (Data : list Z) (s : mm S) (ks : list (EFI_STATUS * Z)) : Prop :=
  exists a auth line, lk s name = Some (a, auth) /\ good_size (zlen auth) = true /\ Forall plain_char line /\
    accepted mt auth (zlen auth) Data line /\ u_keys (mm_user s) = typed line ++ ks.

Lemma authenticate_first name Data (s : mm S) ks : types_password name Data s ks ->
  authenticate_with mt name Data s = Ok (None, set_keys s ks).
Proof.
  intros (a & auth & line & Hl & Hg & Hpl & Ha & Hks). unfold authenticate_with.
  assert (zlen auth <= PASSWORD_CRYPT_SIZE).
  { unfold good_size, SHA256_DIGEST_SIZE, PASSWORD_CRYPT_SIZE in *. apply orb_true_iff in Hg as [Hg | Hg]; bool_to_prop; lia. }
  unfold lk in Hl. rewrite (get_found _ _ _ _ _ _ Hl) by done. cbn [gv_status gv_size gv_data EFI_ERROR orb]. rewrite Hg. cbn [negb].
  by rewrite (match_auth_first auth _ Data line ks), bind_Ok.
Qed.

(** What is kept of the stored lists: nothing if the operating system could have
    written them. *)
Definition kept (s : mm S) (name : string) : list Z :=
  match lk s name with Some (a, d) => if runtime a then [] else d | None => [] end.

Lemma write_db_ok name new (s : mm S) : write_db mt name new s = Ok (set_var s name (kept s name ++ new)).
Proof.
  unfold write_db, kept, lk. rewrite (mr_alloc mt Hmt), get_variable_attr_ok, bind_Ok.
  assert (Hw : forall old, exists buf, mt_pool mt (zlen old + zlen new) = Some buf /\
    (b ← wrn buf 0 old; wrn b (zlen old) new) = Ok (old ++ new)).
  { intros old. pose proof (zlen_nonneg old). pose proof (zlen_nonneg new).
    destruct (mr_pool mt Hmt (zlen old + zlen new) ltac:(lia)) as (buf & Hb & Hl).
    exists buf. split; [done|]. destruct (split_at buf (zlen old) ltac:(lia)) as (x & y & -> & Hx). rewrite zlen_app in Hl.
    rewrite wrn_app_0 by (unfold zlen in *; lia). rewrite bind_Ok.
    rewrite <- (app_nil_r y), (wrn_app_mid old) by (done || (unfold zlen in *; lia)). by rewrite app_nil_r. }
  destruct (lookup_var (mm_fw s) name SHIM_LOCK_GUID) as [[a d]|] eqn:E.
  - cbn [gva_status gva_data gva_len gva_attributes EFI_ERROR andb]. destruct (runtime a); cbv iota beta.
    + destruct (Hw []) as (buf & Hb & Hr). rewrite zlen_nil in *. rewrite Hb. change (0 =? 0) with true. cbv iota. rewrite bind_Ok.
      apply bind_inv in Hr as (b1 & -> & Hr). by rewrite bind_Ok, Hr, bind_Ok.
    + destruct (Hw d) as (buf & Hb & Hr). rewrite Hb. cbv iota. rewrite rdn_app_0, bind_Ok by done.
      apply bind_inv in Hr as (b1 & -> & Hr). by rewrite bind_Ok, Hr, bind_Ok.
  - cbn [gva_status gva_data gva_len gva_attributes]. change (EFI_ERROR EFI_NOT_FOUND) with true. rewrite bool_decide_true by done. cbn [negb andb].
    rewrite (get_missing_size _ _ _ _ _ E). destruct (Hw []) as (buf & Hb & Hr). rewrite zlen_nil in *.
    destruct (runtime _); cbv iota beta; rewrite Hb; change (0 =? 0) with true; cbv iota; rewrite bind_Ok; apply bind_inv in Hr as (b1 & -> & Hr); by rewrite bind_Ok, Hr, bind_Ok.
Qed.

(** The lists that a request stores: no lists at all reset the database. *)
Definition new_lists (s : mm S) (X : bool) (new : list Z) : list Z := if zlen new =? 0 then [] else kept s (db_name X) ++ new.

Lemma store_keys_first new (X : bool) (s : mm S) ks : types_password (auth_name X) new s ks ->
  store_keys mt new true X s
  = let '(st, s') := set_var (set_keys s ks) (db_name X) (new_lists s X new) in Ok (if EFI_ERROR st then st else EFI_SUCCESS, s').
Proof.
  intros Ht. unfold store_keys. rewrite (authenticate_first _ _ _ _ Ht), bind_Ok. unfold new_lists. destruct (zlen new =? 0).
  - rewrite bind_Ok. by destruct (set_var _ _ _) as [st s1].
  - rewrite write_db_ok, bind_Ok. change (kept (set_keys s ks) (db_name X)) with (kept s (db_name X)). by destruct (set_var _ _ _) as [st s1].
Qed.

Lemma set_var_stored (s : mm S) n d : fst (set_var s n d) = EFI_SUCCESS ->
  lk (snd (set_var s n d)) n = if decide (d = []) then None else Some (NV_BS, d).
Proof.
  unfold set_var, lk. destruct (SetVariable _ _ _ _ _) as [st fw] eqn:E. cbn. intros ->. by apply (set_ok _ _ _ _ _ _ E).
Qed.

(** write_back_mok_list writes the nodes that are left; it does not look at the
    status of deleting the variable. *)
Definition write_status (d : list Z) (st : EFI_STATUS) : EFI_STATUS := if zlen d =? 0 then EFI_SUCCESS else if EFI_ERROR st then st else EFI_SUCCESS.

Lemma delete_keys_first db dl (X : bool) (s : mm S) ks a qd :
  Forall key_list db -> Forall distinct db -> Forall key_list dl -> dl <> [] ->
  zlen (esl_encode db) < 2 ^ 32 -> zlen (esl_encode dl) < 2 ^ 32 ->
  types_password (del_auth_name X) (esl_encode dl) s ks -> lk s (db_name X) = Some (a, esl_encode db) -> runtime a = false ->
  delete_keys mt (esl_encode dl ++ qd) (zlen (esl_encode dl)) X s
  = let d := esl_encode (map stored (remaining dl db)) in
    let '(st, s') := set_var (set_keys s ks) (db_name X) d in Ok (write_status d st, s').
Proof.
  intros Hdb Hdist Hdl Hne Hs1 Hs2 Ht Hlk Ha. unfold delete_keys. rewrite rdn_app_0, bind_Ok by done.
  rewrite (authenticate_first _ _ _ _ Ht), bind_Ok, (mr_alloc mt Hmt), get_variable_attr_ok, bind_Ok.
  unfold lk in Hlk. change (mm_fw (set_keys s ks)) with (mm_fw s). rewrite Hlk. cbn [gva_status gva_data gva_len gva_attributes EFI_ERROR].
  rewrite Ha. pose proof (zlen_pos_nonempty _ (lookup_nonempty _ _ _ _ _ Hlk)) as Hpos.
  rewrite (proj2 (Z.eqb_neq _ _)) by lia.
  destruct (delete_keys_content db dl [0; 0; 0] qd) as (mok & del_key & Data & mok' & C1 & B1 & C2 & B2 & Hsd & Hsize & Hw); [done..|].
  assert (0 < zlen db) by (destruct db; [done|zlia]). assert (0 < zlen dl) by (destruct dl; [done|zlia]).
  rewrite C1, bind_Ok, (proj2 (Z.eqb_neq (zlen db) 0)) by lia. rewrite (mr_list mt Hmt), B1, bind_Ok, C2, bind_Ok.
  rewrite (proj2 (Z.eqb_neq (zlen dl) 0)) by lia. rewrite B2, bind_Ok, Hsd, bind_Ok. unfold write_back_mok_list, write_status. rewrite Hsize.
  set (d := esl_encode (map stored (remaining dl db))) in *. destruct (zlen d =? 0) eqn:Ez; bool_to_prop; cbv zeta.
  - assert (d = []) as -> by (unfold zlen in Ez; destruct d; [done|cbn in Ez; lia]). by destruct (set_var _ _ _).
  - destruct (mr_pool mt Hmt (zlen d) (zlen_nonneg d)) as (buf & -> & Hb). rewrite Hw, bind_Ok by lia. by destruct (set_var _ _ _).
Qed.
End updates.

(** The keys that are left, by type and value. *)
Lemma stored_type l : esl_type (stored l) = esl_type l.
Proof. unfold stored. by destruct (is_x509 l). Qed.
Lemma stored_keys l : map snd (esl_sigs (stored l)) = map snd (esl_sigs l).
Proof. unfold stored. destruct (is_x509 l); [|done]. cbn. by rewrite map_map. Qed.

Lemma keep_in K l t k :
  from_option (fun l' => bytes_eqb t (esl_type (stored l')) && bool_decide (k ∈ map snd (esl_sigs (stored l')))) false (keep K l)
  = bytes_eqb t (esl_type l) && bool_decide (k ∈ map snd (esl_sigs l)) && negb (K t k).
Proof.
  unfold keep, nonempty. cbn [esl_sigs with_sigs].
  set (sigs := filter (fun s => K (esl_type l) (snd s) = false) (esl_sigs l)).
  assert (Hin : k ∈ map snd sigs <-> k ∈ map snd (esl_sigs l) /\ K (esl_type l) k = false).
  { unfold sigs. change (map snd) with (fmap (M := list) (snd (A := list Z) (B := list Z))). rewrite !list_elem_of_fmap. split.
    - intros (s & -> & [Hk Hs]%list_elem_of_filter). split; [by exists s|done].
    - intros [(s & -> & Hs) Hk]. exists s. split; [done|]. by apply list_elem_of_filter. }
  assert (Hres : from_option (fun l' => bytes_eqb t (esl_type (stored l')) && bool_decide (k ∈ map snd (esl_sigs (stored l')))) false
      (match sigs with [] => None | _ => Some (with_sigs l sigs) end) = bytes_eqb t (esl_type l) && bool_decide (k ∈ map snd sigs)).
  { destruct sigs as [|x sigs']; cbn [from_option].
    - rewrite (bool_decide_false (k ∈ map snd [])) by apply not_elem_of_nil. by rewrite andb_false_r.
    - by rewrite stored_type, stored_keys. }
  fold sigs. rewrite Hres. unfold bytes_eqb. destruct (bool_decide_reflect (t = esl_type l)) as [-> |]; [|done]. cbn [andb].
  destruct (K (esl_type l) k) eqn:EK; cbn [negb].
  - rewrite andb_false_r. apply bool_decide_eq_false. rewrite Hin. by intros [_ ?].
  - rewrite andb_true_r. apply bool_decide_ext. rewrite Hin. tauto.
Qed.

Lemma remaining_keys dl db t k : in_lists (map stored (remaining dl db)) t k = in_lists db t k && negb (in_lists dl t k).
Proof.
  unfold remaining. induction db as [|l db IH]; [done|]. pose proof (keep_in (in_lists dl) l t k) as Hk.
  change (omap (keep (in_lists dl)) (l :: db)) with
    (match keep (in_lists dl) l with Some y => y :: omap (keep (in_lists dl)) db | None => omap (keep (in_lists dl)) db end).
  change (in_lists (l :: db) t k) with (bytes_eqb t (esl_type l) && bool_decide (k ∈ map snd (esl_sigs l)) || in_lists db t k).
  rewrite andb_orb_distrib_l, <- Hk, <- IH.
  by destruct (keep (in_lists dl) l) as [l'|]; cbn [from_option map].
Qed.

(** C23. Enrolling and resetting with the right password: when the user types a
    password of the hash stored in MokAuth (MokXAuth), store_keys writes the lists
    of the request behind the stored ones (or alone, if there are none or the
    operating system could have written them; nothing, for a reset) and returns
    the status of that write; when it succeeds, the variable has that content and
    is writable only by the boot services. *)
Theorem store_keys_correct {S} `{VarLibLaws S} (mt : manager) (s : mm S) (X : bool) new ks :
  machine_ready mt -> types_password mt (auth_name X) new s ks ->
  let d := new_lists s X new in
  exists st s', set_var (set_keys s ks) (db_name X) d = (st, s') /\
    store_keys mt new true X s = Ok (if EFI_ERROR st then st else EFI_SUCCESS, s') /\
    (st = EFI_SUCCESS -> lk s' (db_name X) = if decide (d = []) then None else Some (NV_BS, d)).
Proof.
  intros Hmt Ht d. pose proof (store_keys_first mt Hmt new X s ks Ht) as Hs. pose proof (set_var_stored (set_keys s ks) (db_name X) d) as Hl.
  fold d in Hs. destruct (set_var (set_keys s ks) (db_name X) d) as [st s']. by exists st, s'.
Qed.

(** C22. Deleting with the right password: on a database of certificates and
    digests in which no list names a digest twice, delete_keys writes back lists
    that name exactly the keys of the database that the request does not name
    (it deletes the variable when none is left), whatever the request names. *)
Theorem delete_keys_correct {S} `{VarLibLaws S} (mt : manager) (s : mm S) (X : bool) db dl a ks :
  machine_ready mt -> types_password mt (del_auth_name X) (esl_encode dl) s ks ->
  lk s (db_name X) = Some (a, esl_encode db) -> runtime a = false ->
  Forall key_list db -> Forall distinct db -> Forall key_list dl -> dl <> [] ->
  zlen (esl_encode db) < 2 ^ 32 -> zlen (esl_encode dl) < 2 ^ 32 ->
  exists left st s', set_var (set_keys s ks) (db_name X) (esl_encode left) = (st, s') /\
    delete_keys mt (esl_encode dl) (zlen (esl_encode dl)) X s = Ok (write_status (esl_encode left) st, s') /\
    (st = EFI_SUCCESS -> lk s' (db_name X) = if decide (esl_encode left = []) then None else Some (NV_BS, esl_encode left)) /\
    forall t k, in_lists left t k = in_lists db t k && negb (in_lists dl t k).
Proof.
  intros Hmt Ht Hlk Ha Hdb Hdist Hdl Hne Hs1 Hs2. exists (map stored (remaining dl db)).
  pose proof (delete_keys_first mt Hmt db dl X s ks a [] Hdb Hdist Hdl Hne Hs1 Hs2 Ht Hlk Ha) as Hd. rewrite app_nil_r in Hd. cbv zeta in Hd.
  pose proof (set_var_stored (set_keys s ks) (db_name X) (esl_encode (map stored (remaining dl db)))) as Hl.
  destruct (set_var (set_keys s ks) (db_name X) _) as [st s']. exists st, s'. split_and!; try done. intros t k. apply remaining_keys.
Qed.

(** ** Examples *)
Definition sample_update (db : list Z) (auth_var : string) (request : list Z) : mm Store :=
  {| mm_fw := [(("MokList"%string, SHIM_LOCK_GUID), (NV_BS, db));
               ((auth_var, SHIM_LOCK_GUID), (NV_BS, sum_digest 32 (request ++ [97; 0])))];
     mm_user := {| u_keys := typed [97]; u_yes := []; u_choices := []; u_files := []; u_random := [] |} |}.

Lemma sample_ready : machine_ready sample_manager.
Proof. split; [apply sample_manager_ok| |done..]. intros k Hk. by apply sample_pool_length. Qed.

Lemma sample_types db auth_var request : auth_var <> "MokList"%string ->
  types_password sample_manager auth_var request (sample_update db auth_var request) [].
Proof.
  intros Hn. exists NV_BS, (sum_digest 32 (request ++ [97; 0])), [97]. split_and!; try done.
  - unfold lk. cbn. unfold store_lookup. cbn [assoc sample_update mm_fw]. rewrite decide_False by congruence. by rewrite decide_True.
  - by repeat constructor.
Qed.

Lemma store_keys_correct_witness :
  let s := sample_update (esl_encode [digests [1]]) "MokAuth" sample_new in
  exists s', store_keys sample_manager sample_new true false s = Ok (EFI_SUCCESS, s') /\
    lk s' "MokList" = Some (NV_BS, esl_encode [digests [1]; digests [7]]).
Proof.
  intros s. destruct (store_keys_correct sample_manager s false sample_new [] sample_ready (sample_types _ "MokAuth" _ ltac:(done)))
    as (st & s' & Hset & Hrun & Hl). assert (st = EFI_SUCCESS) as -> by (by vm_compute in Hset; injection Hset as <- _).
  exists s'. split; [exact Hrun|]. specialize (Hl eq_refl). by vm_compute in Hl |- *.
Defined.

Lemma digests_ok ns : ns <> [] -> zlen ns < 1000 -> key_list (digests ns).
Proof.
  intros Hne Hl. pose proof (zlen_nonneg ns). assert (zlen (esl_sigs (digests ns)) = zlen ns) by (unfold zlen; cbn; by rewrite length_map).
  split; [|split; [done|right; split_and!; [done|by destruct ns|done]]]. split_and!; try done.
  - unfold esl_size. change (esl_sigsize (digests ns)) with 48. change (zlen (esl_header (digests ns))) with 0.
    unfold sizeof_EFI_SIGNATURE_LIST. lia.
  - cbn. apply Forall_map. by apply Forall_true.
Qed.

Lemma delete_keys_correct_witness :
  let db := [digests [1; 7]; digests [7]] in let dl := [digests [7]] in
  let s := sample_update (esl_encode db) "MokDelAuth" (esl_encode dl) in
  exists left s', delete_keys sample_manager (esl_encode dl) 76 false s = Ok (EFI_SUCCESS, s') /\
    forall t k, in_lists left t k = in_lists db t k && negb (in_lists dl t k).
Proof.
  intros db dl s.
  assert (Hdb : Forall key_list db) by (repeat (apply Forall_cons; split; [by apply digests_ok|]); by apply Forall_nil).
  assert (Hdl : Forall key_list dl) by (repeat (apply Forall_cons; split; [by apply digests_ok|]); by apply Forall_nil).
  assert (Hd : Forall distinct db)
    by (repeat (apply Forall_cons; split; [unfold distinct; apply (bool_decide_unpack _); vm_compute; exact I|]); by apply Forall_nil).
  destruct (delete_keys_correct sample_manager s false db dl NV_BS [] sample_ready (sample_types _ "MokDelAuth" _ ltac:(done))
    ltac:(by vm_compute) eq_refl Hdb Hd Hdl ltac:(done) ltac:(by vm_compute) ltac:(by vm_compute)) as (left & st & s' & Hset & Hrun & Hl & Hkeys).
  exists left, s'. change (zlen (esl_encode dl)) with 76 in Hrun. split; [|exact Hkeys].
  assert (Hr : match delete_keys sample_manager (esl_encode dl) 76 false s with Ok (st, _) => Some st | _ => None end = Some EFI_SUCCESS)
    by (by vm_compute).
  rewrite Hrun in Hr. injection Hr as Hr. by rewrite Hrun, Hr.
Defined.

(** ** What goes wrong *)

(** A MokAuth that is neither a SHA-256 digest nor a PASSWORD_CRYPT: nothing is
    asked and nothing stored, and store_keys returns EFI_SUCCESS. *)
Theorem store_keys_bad_auth {S} `{VarLibLaws S} (mt : manager) (s : mm S) (X : bool) new a auth :
  lk s (auth_name X) = Some (a, auth) -> zlen auth <= PASSWORD_CRYPT_SIZE -> good_size (zlen auth) = false ->
  store_keys mt new true X s = Ok (EFI_SUCCESS, s).
Proof.
  intros Hl Hs Hg. unfold store_keys, authenticate_with, lk in *. rewrite (get_found _ _ _ _ _ _ Hl Hs).
  cbn [gv_status gv_size gv_data EFI_ERROR orb]. by rewrite Hg.
Qed.

Lemma random_pos_never rs L used : 0 < L < 256 -> (forall p, 0 <= p < L -> p ∈ used) -> random_pos rs L used = NoFuel.
Proof.
  intros HL Hall. induction rs as [|r rs IH]; [done|]. cbn [random_pos]. rewrite (proj2 (Z.eqb_neq L 0)) by lia.
  pose proof (Z.mod_pos_bound r L ltac:(lia)). rewrite bool_decide_true; [done|]. apply Hall. unfold u8; rewrite Z.mod_small; lia.
Qed.

(** A password of one or two characters in MokSB, MokDB or MokListTrustedNew:
    three different positions of it do not exist, and whatever bytes RandomBytes
    gives, the search for them does not end; one of no characters is a division by
    zero. *)
Theorem short_password_hangs {S} `{VarLibLaws S} (mt : manager) var (s : mm S) k L :
  var_PWLen var = Ok L -> 0 <= L <= 2 -> u_random (mm_user s) <> [] ->
  ask_characters mt (Datatypes.S k) var s = if L =? 0 then Fault else NoFuel.
Proof.
  intros HL Hr Hne. cbn [ask_characters]. rewrite HL, bind_Ok. destruct (u_random (mm_user s)) as [|r rs]; [done|].
  destruct (L =? 0) eqn:E0; bool_to_prop; [by subst L|].
  assert (Hpos : forall used rs pos rs', random_pos rs L used = Ok (pos, rs') -> 0 <= pos < L /\ pos ∉ used).
  { intros used l pos l' Hp. split; [|by apply random_pos_fresh in Hp]. revert Hp. induction l as [|x l IH]; [done|]. cbn [random_pos].
    rewrite (proj2 (Z.eqb_neq L 0)) by lia. destruct (bool_decide _); [done|]. intros [= <- _].
    pose proof (Z.mod_pos_bound x L ltac:(lia)). unfold u8; rewrite Z.mod_small; lia. }
  destruct (random_pos (r :: rs) L []) as [[p1 rs1]| |] eqn:E1; rewrite ?bind_Ok; [|exfalso|done].
  2:{ cbn [random_pos] in E1. rewrite (proj2 (Z.eqb_neq L 0)) in E1 by lia. rewrite bool_decide_false in E1 by apply not_elem_of_nil. done. }
  destruct (Hpos _ _ _ _ E1) as [B1 _]. destruct (decide (L = 1)) as [-> | HL1].
  { rewrite random_pos_never; [done|lia|]. intros p Hp. assert (p = p1) as -> by lia. left. }
  destruct (random_pos rs1 L [p1]) as [[p2 rs2]| |] eqn:E2; rewrite ?bind_Ok; [| |done].
  - destruct (Hpos _ _ _ _ E2) as [B2 N2]. rewrite random_pos_never; [done|lia|]. intros p Hp.
    assert (p2 <> p1) by (intros ->; apply N2; left). assert (p = p1 \/ p = p2) as [-> | ->] by lia; [right; left|left].
  - exfalso. clear -E2 E0. induction rs1 as [|x l IH]; [done|]. cbn [random_pos] in E2. rewrite (proj2 (Z.eqb_neq L 0)) in E2 by lia.
    destruct (bool_decide _); [by apply IH|done].
Qed.

(** The menu is built with the size that the first GetVariable left behind:
    next to a MokAuth of 32 bytes a MokXAuth of 172 bytes is not seen, and
    resetting MokListX is not offered. *)
Theorem menu_misses_auth :
  let s : Store := [(("MokAuth"%string, SHIM_LOCK_GUID), (NV_BS, replicate 32 1)); (("MokXAuth"%string, SHIM_LOCK_GUID), (NV_BS, replicate 172 1))] in
  let r := {| MokNew := None; MokDel := None; MokSB := None; MokPW := None; MokDB := None; MokXNew := None; MokXDel := None; MokTML := None |} in
  fst (menu_now r s PASSWORD_CRYPT_SIZE) = [MOK_BOOT; MOK_RESET_MOK; MOK_KEY_ENROLL; MOK_HASH_ENROLL].
Proof. by vm_compute. Qed.
