(* ===== verification/SbatVar.v ===== *)
(** * Updating SbatLevel and the SkuSiPolicy variables: sbat.c

    set_sbat_uefi_variable picks a candidate level by the policy and writes it
    unless the level in firmware is to be preserved.  The globals of sbat.c
    that it changes are the fields of [sbat_state]; allocations succeed or fail
    by [alloc] and [csv_alloc]. *)
From stdpp Require Import base list numbers option strings.
From Stdlib Require Import ZArith Lia.
From S2P Require Import Prelude.
From S2P Require Import Efi.
From S2P Require Import Str.
From S2P Require Import Csv.
From S2P Require Import Sbat.
From S2P Require Import Firmware.
From S2P Require Import Esl.
From S2P Require Import Variables.
Local Open Scope Z_scope.

Definition SBAT_VAR_NAME : string := "SbatLevel".
Definition SBAT_POLICY : string := "SbatPolicy".
Definition SSP_POLICY : string := "SSPPolicy".
Definition SSPVER_VAR_NAME : string := "SkuSiPolicyVersion".
Definition SSPSIG_VAR_NAME : string := "SkuSiPolicyUpdateSigners".
Definition SSP_VAR_ATTRS : Z := UEFI_VAR_NV_BS.

Definition POLICY_LATEST : Z := 1.
Definition POLICY_AUTOMATIC : Z := 2.
Definition POLICY_RESET : Z := 3.
Definition POLICY_NOTREAD : Z := 255.

Record sbat_state (S : Type) : Type := {
  fw : S;
  sbat_policy : Z;
  ssp_policy : Z;
  sbat_var : list Z * list sbat_var_entry
}.
Arguments fw {S} s.
Arguments sbat_policy {S} s.
Arguments ssp_policy {S} s.
Arguments sbat_var {S} s.

Definition set_fw {S} (st : sbat_state S) (f : S) : sbat_state S :=
  {| fw := f; sbat_policy := sbat_policy st; ssp_policy := ssp_policy st; sbat_var := sbat_var st |}.
Definition set_sbat_policy {S} (st : sbat_state S) (p : Z) : sbat_state S :=
  {| fw := fw st; sbat_policy := p; ssp_policy := ssp_policy st; sbat_var := sbat_var st |}.
Definition set_ssp_policy {S} (st : sbat_state S) (p : Z) : sbat_state S :=
  {| fw := fw st; sbat_policy := sbat_policy st; ssp_policy := p; sbat_var := sbat_var st |}.
Definition set_sbat_var {S} (st : sbat_state S) (v : list Z * list sbat_var_entry) : sbat_state S :=
  {| fw := fw st; sbat_policy := sbat_policy st; ssp_policy := ssp_policy st; sbat_var := v |}.

Section sbat_update.
Context {S : Type} `{Firmware S}.
Context (alloc : bool) (csv_alloc : nat -> bool) (user_insecure_mode : bool).

(** [junk] is the byte AllocatePool leaves behind the copy of a candidate. *)
Definition parse_sbat_var (junk : Z) (st : sbat_state S) (candidate : option (list Z))
  : res (EFI_STATUS * sbat_state S) :=
  let parse data datasize :=
    '(_, efi_status, r) ← parse_sbat_var_data csv_alloc alloc data 0 (datasize + 1);
    Ok (efi_status, match r with Some v => set_sbat_var st v | None => st end) in
  match candidate with
  | None =>
      g ← get_variable alloc (fw st) SBAT_VAR_NAME SHIM_LOCK_GUID;
      if EFI_ERROR (gva_status g) then Ok (gva_status g, st)
      else match gva_data g with None => Fault | Some data => parse data (gva_len g) end
  | Some c =>
      datasize ← strlen c 0;
      if negb alloc then Fault
      else data ← rdn c 0 datasize; parse (data ++ [junk]) datasize
  end.

Definition clear_sbat_policy (s : S) : S := snd (del_variable s SBAT_POLICY SHIM_LOCK_GUID).

(** Reading the policy: the status decides whether there is one. *)
Definition read_sbat_policy (st : sbat_state S) : res (EFI_STATUS * sbat_state S) :=
  if sbat_policy st =? POLICY_NOTREAD then
    g ← get_variable_attr alloc (fw st) SBAT_POLICY SHIM_LOCK_GUID true;
    if EFI_ERROR (gva_status g) then Ok (gva_status g, st)
    else match gva_data g with
         | None => Fault
         | Some p => b ← rd p 0;
                     Ok (gva_status g, set_fw (set_sbat_policy st b) (clear_sbat_policy (fw st)))
         end
  else Ok (EFI_SUCCESS, st).

(** The candidate and [reset_sbat]. *)
Definition sbat_candidate (policy_status : EFI_STATUS) (st : sbat_state S) (automatic latest : list Z)
  : list Z * bool :=
  let secure := secure_mode (fw st) user_insecure_mode in
  let fallback := if secure then (automatic, false) else (literal SBAT_VAR_ORIGINAL, true) in
  if EFI_ERROR policy_status then fallback
  else if sbat_policy st =? POLICY_LATEST then (latest, false)
  else if sbat_policy st =? POLICY_AUTOMATIC then (automatic, false)
  else if sbat_policy st =? POLICY_RESET then fallback
  else fallback.

(** Writing the candidate and reading it back. *)
Definition write_sbat_level (st : sbat_state S) (candidate : list Z) : res (EFI_STATUS * sbat_state S) :=
  len ← strlen candidate 0;
  data ← rdn candidate 0 len;
  let (efi_status, s) := set_variable (fw st) SBAT_VAR_NAME SHIM_LOCK_GUID SBAT_VAR_ATTRS data in
  let st := set_fw st s in
  if EFI_ERROR efi_status then Ok (efi_status, st)
  else
    g ← get_variable alloc (fw st) SBAT_VAR_NAME SHIM_LOCK_GUID;
    if EFI_ERROR (gva_status g) then Ok (gva_status g, st)
    else match gva_data g with
         | None => Fault
         | Some sbat =>
             if negb (gva_len g =? len) then Ok (EFI_INVALID_PARAMETER, st)
             else c ← strncmp sbat 0 candidate 0 len;
                  Ok (if negb (c =? 0) then EFI_INVALID_PARAMETER else gva_status g, st)
         end.

(** [sbat_section] is shim's own .sbat section, from _sbat to _esbat. *)
Definition set_sbat_uefi_variable (junk : Z) (sbat_section : list Z) (in_protocol : bool)
    (st : sbat_state S) (automatic latest : list Z) : res (EFI_STATUS * sbat_state S) :=
  '(efi_status, st) ← read_sbat_policy st;
  let (candidate, reset_sbat) := sbat_candidate efi_status st automatic latest in
  g ← get_variable_attr alloc (fw st) SBAT_VAR_NAME SHIM_LOCK_GUID true;
  if EFI_ERROR (gva_status g) then write_sbat_level st candidate
  else match gva_data g with
  | None => Fault
  | Some sbat =>
      keep ← (if reset_sbat : bool then Ok false
              else preserve_sbat_uefi_variable sbat (gva_len g) (gva_attributes g) candidate);
      if keep : bool then Ok (EFI_SUCCESS, st)
      else
        '(efi_status, st) ← parse_sbat_var junk st (Some candidate);
        if EFI_ERROR efi_status then Ok (efi_status, st)
        else
          efi_status ← verify_sbat_section alloc csv_alloc alloc in_protocol (sbat_var st)
                         (Some (sbat_section, 0)) (u64 (zlen sbat_section - 1));
          if EFI_ERROR efi_status then Ok (efi_status, st)
          else
            let (efi_status, s) := set_variable (fw st) SBAT_VAR_NAME SHIM_LOCK_GUID
                                     (gva_attributes g) [] in
            let st := set_fw st s in
            if EFI_ERROR efi_status then Ok (efi_status, st)
            else write_sbat_level st candidate
  end.

(** The levels built into the binary are at two offsets behind a header of two
    32-bit offsets. *)
Definition set_sbat_uefi_variable_internal (junk : Z) (sbat_section payload : list Z)
    (in_protocol : bool) (st : sbat_state S) : res (EFI_STATUS * sbat_state S) :=
  automatic_offset ← rd_le payload 0 4;
  latest_offset ← rd_le payload 4 4;
  set_sbat_uefi_variable junk sbat_section in_protocol st
    (drop (Z.to_nat automatic_offset) payload) (drop (Z.to_nat latest_offset) payload).

(** ** SkuSiPolicy *)
Definition clear_ssp_policy (s : S) : S := snd (del_variable s SSP_POLICY SHIM_LOCK_GUID).

Definition clear_ssp_uefi_variables (s : S) : EFI_STATUS * S :=
  let (st1, s) := del_variable s SSPVER_VAR_NAME SECUREBOOT_EFI_NAMESPACE_GUID in
  let rc := if EFI_ERROR st1 then st1 else EFI_SUCCESS in
  let (st2, s) := del_variable s SSPSIG_VAR_NAME SECUREBOOT_EFI_NAMESPACE_GUID in
  (if EFI_ERROR st2 then st2 else rc, s).

Definition read_ssp_policy (st : sbat_state S) : res (EFI_STATUS * sbat_state S) :=
  if ssp_policy st =? POLICY_NOTREAD then
    g ← get_variable_attr alloc (fw st) SSP_POLICY SHIM_LOCK_GUID true;
    if EFI_ERROR (gva_status g) then Ok (gva_status g, st)
    else match gva_data g with
         | None => Fault
         | Some p => b ← rd p 0;
                     Ok (gva_status g, set_fw (set_ssp_policy st b) (clear_ssp_policy (fw st)))
         end
  else Ok (EFI_SUCCESS, st).

(** A supplied SkuSiPolicy: version and signers, each possibly NULL. *)
Record ssp_data : Type := { ssp_ver : option (list Z); ssp_sig : option (list Z) }.

Definition ssp_candidate (policy_status : EFI_STATUS) (st : sbat_state S) (automatic latest : ssp_data)
  : ssp_data * bool :=
  if EFI_ERROR policy_status then (automatic, false)
  else if ssp_policy st =? POLICY_LATEST then (latest, false)
  else if ssp_policy st =? POLICY_AUTOMATIC then (automatic, false)
  else if ssp_policy st =? POLICY_RESET then
    if secure_mode (fw st) user_insecure_mode then (automatic, false)
    else ({| ssp_ver := None; ssp_sig := None |}, true)
  else (automatic, false).

(** The writes hand the firmware [SSPVER_SIZE] and [SSPSIG_SIZE] bytes; what it
    does with a NULL pointer is not modelled. *)
Definition write_ssp (st : sbat_state S) (d : ssp_data) : res (EFI_STATUS * sbat_state S) :=
  match ssp_ver d, ssp_sig d with
  | Some ver, Some sig =>
      v ← rdn ver 0 SSPVER_SIZE;
      let (efi_status, s) := set_variable (fw st) SSPVER_VAR_NAME SECUREBOOT_EFI_NAMESPACE_GUID
                               SSP_VAR_ATTRS v in
      let st := set_fw st s in
      if EFI_ERROR efi_status then Ok (efi_status, st)
      else
        g ← rdn sig 0 SSPSIG_SIZE;
        let (efi_status, s) := set_variable (fw st) SSPSIG_VAR_NAME SECUREBOOT_EFI_NAMESPACE_GUID
                                 SSP_VAR_ATTRS g in
        Ok (efi_status, set_fw st s)
  | _, _ => Fault
  end.

Definition set_ssp_uefi_variable (st : sbat_state S) (automatic latest : ssp_data)
  : res (EFI_STATUS * sbat_state S) :=
  '(efi_status, st) ← read_ssp_policy st;
  let (d, reset_ssp) := ssp_candidate efi_status st automatic latest in
  if match ssp_ver d, ssp_sig d with None, None => negb reset_ssp | _, _ => false end
  then Ok (EFI_SUCCESS, st)
  else
    g ← get_variable_attr alloc (fw st) SSPVER_VAR_NAME SECUREBOOT_EFI_NAMESPACE_GUID true;
    if EFI_ERROR (gva_status g) then
      if reset_ssp : bool then Ok (gva_status g, st) else write_ssp st d
    else
      keep ← preserve_ssp_uefi_variable (gva_data g) (gva_len g) (gva_attributes g) (ssp_ver d);
      if keep && negb reset_ssp then Ok (EFI_SUCCESS, st)
      else
        let (efi_status, s) := clear_ssp_uefi_variables (fw st) in
        let st := set_fw st s in
        if reset_ssp : bool then Ok (efi_status, st) else write_ssp st d.

Definition SkuSiPolicyVersion : list Z := [2; 0; 0; 0; 0; 0; 2; 0].
(** The array, as little-endian words and its last three bytes. *)
Definition SkuSiPolicyUpdateSigners : list Z :=
  concat (map (le_split 4)
    ([0x1; 0x6] ++ replicate 5 0 ++ [0x1; 0xb; 0x7391d0] ++ replicate 1 0 ++ [0x20000] ++ replicate
     1 0 ++ [0x78a654] ++ replicate 1 0 ++ [0x20000] ++ replicate 1 0 ++ [0x78a65c] ++ replicate 1 0
     ++ [0x20000] ++ replicate 1 0 ++ [0x78a664] ++ replicate 7 0 ++ [0x1062b0a; 0x37820104;
     0x6030a])) ++
  replicate 3 0.

Example SkuSiPolicyUpdateSigners_size : zlen SkuSiPolicyUpdateSigners = SSPSIG_SIZE.
Proof. vm_compute. reflexivity. Qed.

Definition set_ssp_uefi_variable_internal (st : sbat_state S) : res (EFI_STATUS * sbat_state S) :=
  set_ssp_uefi_variable st {| ssp_ver := None; ssp_sig := None |}
    {| ssp_ver := Some SkuSiPolicyVersion; ssp_sig := Some SkuSiPolicyUpdateSigners |}.
End sbat_update.

(** ** Lemmas *)
Lemma strncmp_loop_zero fuel m1 s1 m2 s2 c :
  cstring m2 s2 c -> strncmp_loop fuel m1 s1 m2 s2 (zlen c) = Ok 0 ->
  forall k, (k < length c)%nat -> rd m1 (s1 + Z.of_nat k) = Ok (nth k c 0).
Proof.
  revert fuel s1 s2. induction c as [|b c IH]; intros fuel s1 s2 Hc Hs k Hk; [cbn in Hk; lia|].
  destruct fuel as [|f]; [done|]. cbn [strncmp_loop] in Hs. apply cstring_cons in Hc as (Hb & Hr & Hc).
  destruct (rd m1 s1) as [a| |] eqn:Ea; try done. rewrite bind_Ok in Hs.
  replace (zlen (b :: c) =? 0) with false in Hs by (symmetry; apply Z.eqb_neq; zlia).
  rewrite Hr, bind_Ok in Hs. destruct (a =? b) eqn:E; bool_to_prop; cycle 1.
  { rewrite orb_true_r in Hs. injection Hs as Hs. lia. }
  subst a. replace (b =? 0) with false in Hs by (symmetry; by apply Z.eqb_neq). cbn [negb orb] in Hs.
  replace (zlen (b :: c) - 1) with (zlen c) in Hs by zlia.
  destruct k as [|k]; [by rewrite Z.add_0_r|]. cbn [length] in Hk.
  cbn [nth]. rewrite <- (IH f (s1 + 1) (s2 + 1) Hc Hs k) by lia. f_equal. lia.
Qed.

Section laws.
Context {S : Type} `{FirmwareLaws S}.
Context (csv_alloc : nat -> bool) (insecure : bool).

Abbreviation level_var s := (lookup_var s SBAT_VAR_NAME SHIM_LOCK_GUID).

Lemma write_sbat_level_success st cand c st' :
  cstring cand 0 c -> write_sbat_level true st cand = Ok (EFI_SUCCESS, st') ->
  exists a, level_var (fw st') = Some (a, c).
Proof.
  intros Hc Hw. unfold write_sbat_level in Hw. rewrite (strlen_ok _ _ _ Hc), bind_Ok in Hw.
  destruct (rdn cand 0 (zlen c)) as [data| |]; try done. rewrite bind_Ok in Hw.
  destruct (set_variable _ _ _ _ _) as [e s] eqn:Es. destruct (EFI_ERROR e) eqn:Ee.
  { injection Hw as -> _. done. }
  unfold get_variable in Hw. rewrite get_variable_attr_ok, bind_Ok in Hw. cbn [set_fw fw] in Hw.
  destruct (level_var s) as [[a d]|] eqn:El; cbn [gva_status gva_data gva_len EFI_ERROR] in Hw; [|done].
  destruct (zlen d =? zlen c) eqn:Elen; bool_to_prop; cbn [negb] in Hw; [|done].
  destruct (strncmp _ _ _ _ _) as [r| |] eqn:Er; try done. rewrite bind_Ok in Hw.
  destruct (r =? 0) eqn:E0; bool_to_prop; [|done]. subst r. injection Hw as <-.
  exists a. cbn [set_fw fw]. rewrite El. do 2 f_equal. unfold strncmp in Er.
  pose proof (strncmp_loop_zero _ _ _ _ _ _ Hc Er) as Hk. unfold zlen in Elen.
  apply (nth_ext _ _ 0 0); [lia|]. intros k Hlt. specialize (Hk k ltac:(lia)).
  rewrite Z.add_0_l in Hk. apply rd_Ok_inv in Hk as [_ Hk]. rewrite Nat2Z.id, lookup_app_l in Hk by lia.
  by apply nth_lookup_Some.
Qed.

Lemma policy_ne : (SBAT_VAR_NAME, SHIM_LOCK_GUID) <> (SBAT_POLICY, SHIM_LOCK_GUID).
Proof. done. Qed.

Lemma read_sbat_policy_frame st ps st1 n g :
  read_sbat_policy true st = Ok (ps, st1) -> (n, g) <> (SBAT_POLICY, SHIM_LOCK_GUID) ->
  lookup_var (fw st1) n g = lookup_var (fw st) n g.
Proof.
  unfold read_sbat_policy. destruct (_ =? _); [|by intros [= _ <-]].
  destruct (get_variable_attr _ _ _ _ _) as [gv| |]; try done. rewrite bind_Ok.
  destruct (EFI_ERROR (gva_status gv)); [by intros [= _ <-]|].
  destruct (gva_data gv) as [p|]; [|done]. destruct (rd p 0); try done. rewrite bind_Ok.
  intros [= _ <-] Hne. cbn [set_fw fw]. unfold clear_sbat_policy, del_variable, set_variable.
  destruct (SetVariable _ _ _ _ _) as [e s] eqn:Es. by eapply set_other.
Qed.

Lemma secure_mode_frame s s' ins :
  lookup_var s "SecureBoot" GV_GUID = lookup_var s' "SecureBoot" GV_GUID ->
  lookup_var s "SetupMode" GV_GUID = lookup_var s' "SetupMode" GV_GUID ->
  secure_mode s ins = secure_mode s' ins.
Proof.
  intros H1 H2. unfold secure_mode.
  by rewrite !variable_is_secureboot_ok, !variable_is_setupmode_ok, H1, H2.
Qed.

Lemma parse_sbat_var_frame junk st c e st' :
  parse_sbat_var true csv_alloc junk st (Some c) = Ok (e, st') -> fw st' = fw st.
Proof.
  unfold parse_sbat_var. destruct (strlen c 0) as [n| |]; try done. rewrite bind_Ok. cbn [negb].
  destruct (rdn c 0 n) as [d| |]; try done. rewrite bind_Ok.
  destruct (parse_sbat_var_data _ _ _ _ _) as [[[m e1] r]| |]; try done. rewrite bind_Ok.
  intros [= _ <-]. by destruct r.
Qed.

(** What the policy can select. *)
Lemma sbat_candidate_cases ps (st : sbat_state S) auto latest c reset :
  sbat_candidate insecure ps st auto latest = (c, reset) ->
  c = auto /\ reset = false \/ c = latest /\ reset = false \/
  c = literal SBAT_VAR_ORIGINAL /\ reset = true /\ secure_mode (fw st) insecure = false.
Proof.
  unfold sbat_candidate. repeat case_if; intros [= <- <-]; auto.
Qed.

(** When set_sbat_uefi_variable succeeds, SbatLevel is what it was before,
    or it is, byte for byte, one of the candidate levels; the original level
    (the reset) only outside secure mode. *)
Theorem set_sbat_uefi_variable_success junk section in_protocol st auto latest a l st' :
  cstring auto 0 a -> cstring latest 0 l ->
  set_sbat_uefi_variable true csv_alloc insecure junk section in_protocol st auto latest
  = Ok (EFI_SUCCESS, st') ->
  level_var (fw st') = level_var (fw st) \/
  exists attrs c, level_var (fw st') = Some (attrs, c) /\
    (c = a \/ c = l \/ c = SBAT_VAR_ORIGINAL /\ secure_mode (fw st) insecure = false).
Proof.
  intros Ha Hl Hs. unfold set_sbat_uefi_variable in Hs.
  destruct (read_sbat_policy true st) as [[ps st1]| |] eqn:Ep; try done. rewrite bind_Ok in Hs.
  destruct (sbat_candidate insecure ps st1 auto latest) as [cand reset] eqn:Ec.
  pose proof (read_sbat_policy_frame _ _ _ SBAT_VAR_NAME SHIM_LOCK_GUID Ep ltac:(done)) as Hlev.
  assert (Hw : forall st2, write_sbat_level true st2 cand = Ok (EFI_SUCCESS, st') ->
    exists attrs c, level_var (fw st') = Some (attrs, c) /\
      (c = a \/ c = l \/ c = SBAT_VAR_ORIGINAL /\ secure_mode (fw st) insecure = false)).
  { intros st2 Hw. apply sbat_candidate_cases in Ec as [[-> _]|[[-> _]|(-> & _ & Hsm)]].
    - destruct (write_sbat_level_success _ _ _ _ Ha Hw) as [at' ?]. eauto 6.
    - destruct (write_sbat_level_success _ _ _ _ Hl Hw) as [at' ?]. eauto 6.
    - destruct (write_sbat_level_success _ _ SBAT_VAR_ORIGINAL _
        ltac:(exists [], []; split; [done|]; split; [done|]; repeat constructor; lia) Hw) as [at' ?].
      exists at', SBAT_VAR_ORIGINAL. split; [done|]. right; right. split; [done|].
      rewrite <- Hsm. apply secure_mode_frame; symmetry; by eapply read_sbat_policy_frame. }
  rewrite get_variable_attr_ok, bind_Ok in Hs.
  destruct (level_var (fw st1)) as [[at1 d1]|] eqn:El; cbn [gva_status gva_data gva_len gva_attributes EFI_ERROR] in Hs;
    [|right; eauto].
  destruct (if reset then Ok false else _) as [keep| |]; try done. rewrite bind_Ok in Hs.
  destruct keep; [injection Hs as <-; left; congruence|]. right.
  destruct (parse_sbat_var _ _ _ _ _) as [[e2 st2]| |] eqn:E2; try done. rewrite bind_Ok in Hs.
  case_if_in Hs; [injection Hs as -> _; done|].
  destruct (verify_sbat_section _ _ _ _ _ _ _) as [e3| |]; try done. rewrite bind_Ok in Hs.
  case_if_in Hs; [injection Hs as -> _; done|].
  destruct (set_variable _ _ _ _ _) as [e4 s4]. case_if_in Hs; [injection Hs as -> _; done|]. eauto.
Qed.

(** Rollback protection: in secure mode, with no policy set, a level in
    firmware that is newer than the built-in one by [level_kept] stays as it
    is, and the call succeeds. *)
Theorem set_sbat_keeps_newer junk section in_protocol st cv cd nv nd nq latest attrs :
  sbat_policy st = POLICY_NOTREAD -> lookup_var (fw st) SBAT_POLICY SHIM_LOCK_GUID = None ->
  secure_mode (fw st) insecure = true ->
  level_var (fw st) = Some (attrs, level cv cd) ->
  check_sbat_var_attributes attrs = true -> zlen SBAT_VAR_ORIGINAL <= zlen (level cv cd) ->
  nonul cv -> no_comma cv -> nonul cd -> nonul nv -> no_comma nv -> nonul nd ->
  zlen cv < 2 ^ 31 -> zlen nv < 2 ^ 31 -> level_kept cv cd nv nd = true ->
  set_sbat_uefi_variable true csv_alloc insecure junk section in_protocol st
    (level nv nd ++ 0 :: nq) latest = Ok (EFI_SUCCESS, st).
Proof.
  intros Hp Hpv Hsec Hl Hat Hlen ? ? ? ? ? ? ? ? Hk. unfold set_sbat_uefi_variable, read_sbat_policy.
  rewrite Hp, Z.eqb_refl, get_variable_attr_ok, Hpv, bind_Ok. cbn [gva_status EFI_ERROR].
  rewrite bind_Ok. unfold sbat_candidate. cbn [EFI_ERROR]. rewrite Hsec.
  rewrite get_variable_attr_ok, Hl, bind_Ok. cbn [gva_status gva_data gva_len gva_attributes EFI_ERROR].
  rewrite preserve_sbat_ok by done. rewrite Hat, Hk. replace (_ <=? _) with true by (symmetry; solve_bool).
  done.
Qed.

End laws.

(** ** Witnesses *)
Definition date_2022 : list Z := [50; 48; 50; 50; 49; 49; 49; 53; 48; 48; 10].
Definition date_2021 : list Z := [50; 48; 50; 49; 48; 51; 48; 50; 49; 56; 10].

(** Secure boot on and SbatLevel "sbat,1,<date>\n<more>". *)
Definition level_store (d : list Z) : Store :=
  update sample_store (SBAT_VAR_NAME, SHIM_LOCK_GUID) (UEFI_VAR_NV_BS, level [49] d).
Definition level_state (d : list Z) : sbat_state Store :=
  {| fw := level_store d; sbat_policy := POLICY_NOTREAD; ssp_policy := POLICY_NOTREAD; sbat_var := ([], []) |}.

Lemma set_sbat_keeps_newer_witness :
  set_sbat_uefi_variable true (fun _ => true) false 0 (sample_section ++ [0]) false (level_state date_2022)
    (level [49] date_2021 ++ [0]) (level [49] date_2021 ++ [0]) = Ok (EFI_SUCCESS, level_state date_2022).
Proof.
  apply (set_sbat_keeps_newer (fun _ => true) false 0 (sample_section ++ [0]) false (level_state date_2022)
    [49] date_2022 [49] date_2021 [] (level [49] date_2021 ++ [0]) UEFI_VAR_NV_BS);
    first [reflexivity | repeat constructor; lia | vm_compute; congruence].
Defined.

(** "sbat,1,2021030218\na,2\n": the component "a" of the sample section is revoked. *)
Definition revoking : list Z := level [49] (date_2022 ++ [97; 44; 50; 10]) ++ [0].

Example revoking_refused :
  match set_sbat_uefi_variable true (fun _ => true) false 0 (sample_section ++ [0]) false (level_state date_2021) revoking revoking with
  | Ok (EFI_SECURITY_VIOLATION, st) => fw st = fw (level_state date_2021)
  | _ => False
  end.
Proof. vm_compute. reflexivity. Qed.

(** Without SbatLevel the same candidate is written. *)
Example revoking_written_when_missing :
  match set_sbat_uefi_variable true (fun _ => true) false 0 (sample_section ++ [0]) false
    (set_fw (level_state date_2021) sample_store) revoking revoking with
  | Ok (EFI_SUCCESS, st) => lookup_var (fw st) SBAT_VAR_NAME SHIM_LOCK_GUID = Some (SBAT_VAR_ATTRS, take (length revoking - 1) revoking)
  | _ => False
  end.
Proof. vm_compute. reflexivity. Qed.

Definition updated_state : sbat_state Store :=
  match set_sbat_uefi_variable true (fun _ => true) false 0 (sample_section ++ [0]) false
          (level_state date_2021) (level [49] date_2022 ++ [0]) (level [49] date_2021 ++ [0]) with
  | Ok (_, st) => st
  | _ => level_state date_2021
  end.


Lemma set_sbat_uefi_variable_success_witness :
  lookup_var (fw updated_state) SBAT_VAR_NAME SHIM_LOCK_GUID
    = lookup_var (fw (level_state date_2021)) SBAT_VAR_NAME SHIM_LOCK_GUID \/
  exists attrs c, lookup_var (fw updated_state) SBAT_VAR_NAME SHIM_LOCK_GUID = Some (attrs, c) /\
    (c = level [49] date_2022 \/ c = level [49] date_2021 \/
     c = SBAT_VAR_ORIGINAL /\ secure_mode (fw (level_state date_2021)) false = false).
Proof.
  apply (set_sbat_uefi_variable_success (fun _ => true) false 0 (sample_section ++ [0]) false
    (level_state date_2021) (level [49] date_2022 ++ [0]) (level [49] date_2021 ++ [0])
    (level [49] date_2022) (level [49] date_2021) updated_state).
  - exists [], []. split; [done|]. split; [done|]. repeat constructor; lia.
  - exists [], []. split; [done|]. split; [done|]. repeat constructor; lia.
  - vm_compute. reflexivity.
Defined.
