(* ===== verification/PeHeader.v ===== *)
(** * PE headers: pe-relocate.c (all but relocate_coff)

    An image is the byte buffer it was read into, at the address [base]; the
    pointers of PE_COFF_LOADER_IMAGE_CONTEXT into it are offsets.  Fields are
    read with [rd_le], so a header that makes the code look outside the buffer
    is a [Fault].  The build modelled is x86_64, with
    ALLOW_32BIT_KERNEL_ON_X64 as the parameter [allow_32bit_kernel]. *)
From stdpp Require Import base list numbers option.
From Stdlib Require Import ZArith Lia.
From S2P Require Import Prelude.
From S2P Require Import Efi.
Local Open Scope Z_scope.

(** ** Constants of include/peimage.h and include/mok.h *)
Definition EFI_IMAGE_DOS_SIGNATURE : Z := 0x5a4d.
Definition EFI_IMAGE_NT_SIGNATURE : Z := 0x4550.
Definition IMAGE_FILE_MACHINE_I386 : Z := 0x014c.
Definition IMAGE_FILE_MACHINE_X64 : Z := 0x8664.
Definition EFI_IMAGE_NT_OPTIONAL_HDR32_MAGIC : Z := 0x10b.
Definition EFI_IMAGE_NT_OPTIONAL_HDR64_MAGIC : Z := 0x20b.
Definition EFI_IMAGE_FILE_RELOCS_STRIPPED : Z := 1.
Definition EFI_IMAGE_DLLCHARACTERISTICS_NX_COMPAT : Z := 0x100.
Definition EFI_IMAGE_NUMBER_OF_DIRECTORY_ENTRIES : Z := 16.
Definition EFI_IMAGE_SIZEOF_SECTION_HEADER : Z := 40.
Definition EFI_IMAGE_SCN_CNT_CODE : Z := 0x20.
Definition EFI_IMAGE_SCN_CNT_INITIALIZED_DATA : Z := 0x40.
Definition EFI_IMAGE_SCN_CNT_UNINITIALIZED_DATA : Z := 0x80.
Definition EFI_IMAGE_SCN_MEM_DISCARDABLE : Z := 0x02000000.
Definition EFI_IMAGE_SCN_MEM_EXECUTE : Z := 0x20000000.
Definition EFI_IMAGE_SCN_MEM_READ : Z := 0x40000000.
Definition EFI_IMAGE_SCN_MEM_WRITE : Z := 0x80000000.
Definition PAGE_SIZE : Z := 4096.
Definition MOK_POLICY_REQUIRE_NX : Z := 1.
Definition SHIM_HSI_STATUS_HEAPX : Z := 0x1.
Definition SHIM_HSI_STATUS_STACKX : Z := 0x2.
Definition SHIM_HSI_STATUS_ROW : Z := 0x4.
Definition SHIM_HSI_STATUS_HASMAP : Z := 0x8.
Definition SHIM_HSI_STATUS_HASDST : Z := 0x10.
Definition SHIM_HSI_STATUS_HASDSTGMSD : Z := 0x20.
Definition SHIM_HSI_STATUS_HASDSTSMSA : Z := 0x40.
Definition SHIM_HSI_STATUS_NX : Z := 0x100.

(** [flags & mask] as a condition. *)
Definition has_flag (flags mask : Z) : bool := negb (Z.land flags mask =? 0).

(** sizeof of the structures *)
Definition sizeof_DOS_HEADER : Z := 64.
Definition sizeof_FILE_HEADER : Z := 20.
Definition sizeof_NT_HEADERS32 : Z := 248.
Definition sizeof_NT_HEADERS64 : Z := 264.
Definition sizeof_OPTIONAL_HEADER32 : Z := 224.
Definition sizeof_OPTIONAL_HEADER64 : Z := 240.
Definition sizeof_OPTIONAL_HEADER_UNION : Z := 264.
Definition sizeof_DATA_DIRECTORY : Z := 8.

(** ** EFI_IMAGE_SECTION_HEADER *)
Record EFI_IMAGE_SECTION_HEADER : Type := {
  Name : list Z;
  VirtualSize : Z;
  VirtualAddress : Z;
  SizeOfRawData : Z;
  PointerToRawData : Z;
  PointerToRelocations : Z;
  NumberOfRelocations : Z;
  Characteristics : Z
}.

Definition read_section (data : list Z) (off : Z) : res EFI_IMAGE_SECTION_HEADER :=
  name ← rdn data off 8;
  vsize ← rd_le data (off + 8) 4;
  vaddr ← rd_le data (off + 12) 4;
  rawsize ← rd_le data (off + 16) 4;
  rawptr ← rd_le data (off + 20) 4;
  relptr ← rd_le data (off + 24) 4;
  nrel ← rd_le data (off + 32) 2;
  ch ← rd_le data (off + 36) 4;
  Ok {| Name := name; VirtualSize := vsize; VirtualAddress := vaddr; SizeOfRawData := rawsize;
        PointerToRawData := rawptr; PointerToRelocations := relptr; NumberOfRelocations := nrel;
        Characteristics := ch |}.

(** ** PE_COFF_LOADER_IMAGE_CONTEXT *)
Record PE_CONTEXT : Type := {
  ctx_ImageAddress : Z;
  ImageSize : Z;
  EntryPoint : Z;
  SizeOfHeaders : Z;
  NumberOfSections : Z;
  SectionAlignment : Z;
  FirstSection : Z;
  RelocDir : Z;
  SecDir : Z;
  NumberOfRvaAndSizes : Z;
  DllCharacteristics : Z;
  PEHdr : Z
}.

(** A data directory at an offset: VirtualAddress and Size. *)
Definition read_dir (data : list Z) (off : Z) : res (Z * Z) :=
  va ← rd_le data off 4; sz ← rd_le data (off + 4) 4; Ok (va, sz).

(** ** ImageAddress: NULL or the absolute address *)
Definition ImageAddress (image size address : Z) : option Z :=
  if size <=? address then None
  else let (overflow, img_addr) := checked_add image address in
       if overflow : bool then None else Some img_addr.

(** ** Platform checks *)
Definition machine_type : Z := IMAGE_FILE_MACHINE_X64.
Definition allow_64_bit : bool := true.
Definition allow_32_bit (allow_32bit_kernel in_protocol : bool) : bool :=
  if allow_32bit_kernel then in_protocol else false.

Definition Magic (data : list Z) (pehdr : Z) : res Z := rd_le data (pehdr + 24) 2.

Definition image_is_64_bit (data : list Z) (pehdr : Z) : res bool :=
  magic ← Magic data pehdr; Ok (magic =? EFI_IMAGE_NT_OPTIONAL_HDR64_MAGIC).

Definition image_is_loadable (allow_32bit_kernel in_protocol : bool) (data : list Z) (pehdr : Z)
  : res bool :=
  machine ← rd_le data (pehdr + 4) 2;
  if negb (machine =? machine_type) &&
     negb ((machine_type =? IMAGE_FILE_MACHINE_I386) && (machine =? IMAGE_FILE_MACHINE_X64) && allow_64_bit)
  then Ok false
  else
    magic ← Magic data pehdr;
    if negb ((magic =? EFI_IMAGE_NT_OPTIONAL_HDR64_MAGIC) || (magic =? EFI_IMAGE_NT_OPTIONAL_HDR32_MAGIC))
    then Ok false
    else
      is64 ← image_is_64_bit data pehdr;
      Ok (if is64 : bool then allow_64_bit else allow_32_bit allow_32bit_kernel in_protocol).

(** ** read_header

    The result is the status of a rejected image or the context. *)
Definition reject {A} (st : EFI_STATUS) : res (EFI_STATUS + A) := Ok (inl st).

(** The DOS header: [dos_sz], which is also the offset of the PE header. *)
Definition read_dos_header (data : list Z) (datasize : Z) : res (EFI_STATUS + Z) :=
  if datasize <? sizeof_DOS_HEADER then reject EFI_UNSUPPORTED
  else
    e_magic ← rd_le data 0 2;
    if e_magic =? EFI_IMAGE_DOS_SIGNATURE then
      e_lfanew ← rd_le data 60 4;
      if (e_lfanew <? sizeof_DOS_HEADER) || (datasize - 4 <? e_lfanew) then reject EFI_UNSUPPORTED
      else Ok (inr e_lfanew)
    else Ok (inr 0).

(** The fields of the optional header that differ between PE32 and PE32+. *)
Record opt_header : Type := {
  oh_rva : Z; oh_headers : Z; oh_image : Z; oh_salign : Z; oh_falign : Z; oh_size : Z;
  oh_base : Z; oh_entry : Z; oh_dll : Z; oh_dirs : Z
}.

Definition read_opt_header (data : list Z) (pehdr : Z) (is64 : bool) : res opt_header :=
  rva ← rd_le data (pehdr + (if is64 then 132 else 116)) 4;
  headers ← rd_le data (pehdr + 84) 4;
  image ← rd_le data (pehdr + 80) 4;
  salign ← rd_le data (pehdr + 56) 4;
  falign ← rd_le data (pehdr + 60) 4;
  base ← (if is64 then rd_le data (pehdr + 48) 8 else rd_le data (pehdr + 52) 4);
  entry ← rd_le data (pehdr + 40) 4;
  dll ← rd_le data (pehdr + 94) 2;
  Ok {| oh_rva := rva; oh_headers := headers; oh_image := image; oh_salign := salign; oh_falign := falign;
        oh_size := if is64 then sizeof_OPTIONAL_HEADER64 else sizeof_OPTIONAL_HEADER32;
        oh_base := base; oh_entry := entry; oh_dll := dll;
        oh_dirs := pehdr + (if is64 then 136 else 120) |}.

(** The default and minimum of SectionAlignment, an [unsigned int]. *)
Definition section_alignment (falign salign : Z) : Z :=
  let falign := if falign =? 0 then 0x200 else falign in
  let salign := if salign =? 0 then PAGE_SIZE else salign in
  if salign <? falign then falign else salign.

(** The arithmetic checks on the sizes, in their order. *)
Definition header_checks (datasize pehdr e_lfanew soh_opt nsections : Z) (oh : opt_header) : bool :=
  let (o1, t0) := checked_mul sizeof_DATA_DIRECTORY EFI_IMAGE_NUMBER_OF_DIRECTORY_ENTRIES in
  let (o2, HeaderWithoutDataDir) := checked_sub (oh_size oh) t0 in
  let (o3, t0) := checked_sub soh_opt HeaderWithoutDataDir in
  let (o4, t1) := checked_mul (oh_rva oh) sizeof_DATA_DIRECTORY in
  let (o5, t2) := checked_add e_lfanew 4 in
  let (o6, t3) := checked_add t2 sizeof_FILE_HEADER in
  let (o7, SectionHeaderOffset) := checked_add t3 soh_opt in
  let (o8, t4) := checked_sub (oh_image oh) SectionHeaderOffset in
  let (o9, t5) := checked_sub (oh_headers oh) SectionHeaderOffset in
  let (o10, t6) := checked_mul nsections EFI_IMAGE_SIZEOF_SECTION_HEADER in
  let (o11, t7) := checked_add t6 SectionHeaderOffset in
  let (o12, t8) := checked_add pehdr sizeof_OPTIONAL_HEADER_UNION in
  negb ((EFI_IMAGE_NUMBER_OF_DIRECTORY_ENTRIES <? oh_rva oh) ||
        (o1 || o2 || o3 || o4 || negb (t0 =? t1)) ||
        (o5 || o6 || o7) ||
        (o8 || (t4 / EFI_IMAGE_SIZEOF_SECTION_HEADER <=? nsections)) ||
        (o9 || (t5 / EFI_IMAGE_SIZEOF_SECTION_HEADER <? nsections)) ||
        (o10 || o11 || (datasize <? t7)) ||
        (o12 || (datasize <? t8))).

Section read_header.
Context (allow_32bit_kernel in_protocol : bool) (mok_policy : Z).

(** What remains once the header is known to be a PE header: [base] is the
    address of the image. *)
Definition finish_header (base : Z) (data : list Z) (datasize : Z) (check_secdir : bool)
    (pehdr soh_opt nsections : Z) (oh : opt_header) : res (EFI_STATUS + PE_CONTEXT) :=
  let secdir := oh_dirs oh + 8 * 4 in
  let relocdir := oh_dirs oh + 8 * 5 in
  if has_flag mok_policy MOK_POLICY_REQUIRE_NX &&
     negb (has_flag (oh_dll oh) EFI_IMAGE_DLLCHARACTERISTICS_NX_COMPAT)
  then reject EFI_UNSUPPORTED
  else
    let (o1, t0) := checked_add (base + pehdr) soh_opt in
    let (o2, t1) := checked_add t0 4 in
    let (o3, first) := checked_add t1 sizeof_FILE_HEADER in
    if o1 || o2 || o3 then reject EFI_UNSUPPORTED
    else if u64 (base + datasize) <? first then reject EFI_UNSUPPORTED
    else if oh_image oh <? oh_headers oh then reject EFI_UNSUPPORTED
    else if datasize - sizeof_DATA_DIRECTORY <? secdir then reject EFI_UNSUPPORTED
    else
      '(va, sz) ← read_dir data secdir;
      if check_secdir && ((datasize <? va) || ((va =? datasize) && (0 <? sz)))
      then reject EFI_INVALID_PARAMETER
      else
        Ok (inr {| ctx_ImageAddress := oh_base oh; ImageSize := oh_image oh; EntryPoint := oh_entry oh;
                   SizeOfHeaders := oh_headers oh; NumberOfSections := nsections;
                   SectionAlignment := section_alignment (oh_falign oh) (oh_salign oh);
                   FirstSection := first - base; RelocDir := relocdir; SecDir := secdir;
                   NumberOfRvaAndSizes := oh_rva oh; DllCharacteristics := oh_dll oh; PEHdr := pehdr |}).

Definition read_header (base : Z) (data : list Z) (datasize : Z) (check_secdir : bool)
  : res (EFI_STATUS + PE_CONTEXT) :=
  dos ← read_dos_header data datasize;
  match dos with
  | inl st => reject st
  | inr dos_sz =>
      let pehdr := dos_sz in
      if datasize - dos_sz <? sizeof_NT_HEADERS32 then reject EFI_UNSUPPORTED
      else
        is64 ← image_is_64_bit data pehdr;
        if is64 && (datasize - dos_sz <? sizeof_NT_HEADERS64) then reject EFI_UNSUPPORTED
        else
          loadable ← image_is_loadable allow_32bit_kernel in_protocol data pehdr;
          if negb loadable then reject EFI_UNSUPPORTED
          else
            oh ← read_opt_header data pehdr is64;
            if negb (oh_falign oh mod 2 =? 0) then reject EFI_UNSUPPORTED
            else
              nsections ← rd_le data (pehdr + 6) 2;
              soh_opt ← rd_le data (pehdr + 20) 2;
              e_lfanew ← rd_le data 60 4;
              if negb (header_checks datasize pehdr e_lfanew soh_opt nsections oh)
              then reject EFI_UNSUPPORTED
              else
                sig ← rd_le data pehdr 4;
                if negb (sig =? EFI_IMAGE_NT_SIGNATURE) then reject EFI_UNSUPPORTED
                else
                  ch ← rd_le data (pehdr + 22) 2;
                  if has_flag ch EFI_IMAGE_FILE_RELOCS_STRIPPED then reject EFI_UNSUPPORTED
                  else finish_header base data datasize check_secdir pehdr soh_opt nsections oh
  end.
End read_header.

(** ** get_section_vma

    The section and the addresses of its first and last byte (NULL or not);
    [*sizep] is their distance, or the address itself when the first is NULL. *)
Definition section_bounds (buffer : Z) (ctx : PE_CONTEXT) (s : EFI_IMAGE_SECTION_HEADER)
  : option Z * option Z :=
  (ImageAddress buffer (ImageSize ctx) (VirtualAddress s),
   ImageAddress buffer (ImageSize ctx) (u32 (VirtualAddress s + VirtualSize s - 1))).

Definition ptr_val (p : option Z) : Z := from_option id 0 p.

Definition get_section_vma (section_num : Z) (data : list Z) (buffer : Z) (ctx : PE_CONTEXT)
  : res (EFI_STATUS + (option Z * Z * EFI_IMAGE_SECTION_HEADER)) :=
  if NumberOfSections ctx <=? section_num then reject EFI_NOT_FOUND
  else
    section ← read_section data (FirstSection ctx + EFI_IMAGE_SIZEOF_SECTION_HEADER * section_num);
    let (base, end_) := section_bounds buffer ctx section in
    let discardable := has_flag (Characteristics section) EFI_IMAGE_SCN_MEM_DISCARDABLE in
    if negb discardable && (bool_decide (base = None) || bool_decide (end_ = None))
    then reject EFI_UNSUPPORTED
    else if negb (has_flag (Characteristics section) EFI_IMAGE_SCN_CNT_UNINITIALIZED_DATA) &&
            ((VirtualAddress section <? SizeOfHeaders ctx) ||
             (PointerToRawData section <? SizeOfHeaders ctx))
    then reject EFI_UNSUPPORTED
    else if ptr_val end_ <? ptr_val base then reject EFI_UNSUPPORTED
    else Ok (inr (base, ptr_val end_ - ptr_val base, section)).

(** The search loop of get_section_vma_by_name: sections with errors are
    passed over. *)
Fixpoint find_section (k : nat) (i : Z) (namebuf data : list Z) (buffer : Z) (ctx : PE_CONTEXT)
  : res (EFI_STATUS + (option Z * Z * EFI_IMAGE_SECTION_HEADER)) :=
  match k with
  | O => reject EFI_NOT_FOUND
  | S k' =>
      r ← get_section_vma i data buffer ctx;
      match r with
      | inr (base, size, section) =>
          if bytes_eqb (Name section) namebuf then Ok (inr (base, size, section))
          else find_section k' (i + 1) namebuf data buffer ctx
      | inl _ => find_section k' (i + 1) namebuf data buffer ctx
      end
  end.

(** [namesz] bytes of the name are given; the buffer has [bufsz] bytes. *)
Definition get_section_vma_by_name (name data : list Z) (buffer bufsz : Z) (ctx : PE_CONTEXT)
  : res (EFI_STATUS + (option Z * Z * EFI_IMAGE_SECTION_HEADER)) :=
  let namesz := zlen name in
  if (namesz =? 0) || (bufsz <? namesz) then reject EFI_INVALID_PARAMETER
  else if 8 <? namesz then reject EFI_UNSUPPORTED
  else
    let namebuf := name ++ replicate (8 - length name) 0 in
    find_section (Z.to_nat (NumberOfSections ctx)) 0 namebuf data buffer ctx.

(** ** NX policy *)
Definition hsi_nx_is_enforced (hsi_status : Z) : bool :=
  negb (has_flag hsi_status SHIM_HSI_STATUS_HEAPX || has_flag hsi_status SHIM_HSI_STATUS_STACKX ||
        has_flag hsi_status SHIM_HSI_STATUS_ROW).

Definition hsi_api_is_present (hsi_status : Z) : bool :=
  has_flag hsi_status SHIM_HSI_STATUS_HASMAP ||
  (has_flag hsi_status SHIM_HSI_STATUS_HASDSTGMSD && has_flag hsi_status SHIM_HSI_STATUS_HASDSTSMSA).

(** The new value of mok_policy. *)
Definition set_shim_nx_policy (hsi_status mok_policy : Z) : Z :=
  if has_flag hsi_status SHIM_HSI_STATUS_NX && hsi_nx_is_enforced hsi_status &&
     hsi_api_is_present hsi_status
  then Z.lor mok_policy MOK_POLICY_REQUIRE_NX else mok_policy.

(** get_shim_nx_capability, on shim's own image: the new hsi_status.  The
    image is NULL when the loaded image protocol is missing. *)
Definition get_shim_nx_capability (allow_32bit_kernel in_protocol : bool) (mok_policy : Z)
    (image : option (Z * list Z)) (hsi_status : Z) : res Z :=
  match image with
  | None => Ok hsi_status
  | Some (base, data) =>
      r ← read_header allow_32bit_kernel in_protocol mok_policy base data (u32 (zlen data)) false;
      Ok (match r with
          | inl _ => hsi_status
          | inr ctx => if has_flag (DllCharacteristics ctx) EFI_IMAGE_DLLCHARACTERISTICS_NX_COMPAT
                       then Z.lor hsi_status SHIM_HSI_STATUS_NX else hsi_status
          end)
  end.

(** A step that returns: it does not fault, a status it leaves with is an error
    and a value it produces satisfies [P]. *)
Definition returns {A} (r : res (EFI_STATUS + A)) (P : A -> Prop) : Prop :=
  exists x, r = Ok x /\ match x with inl st => EFI_ERROR st = true | inr a => P a end.

Lemma returns_reject {A} st (P : A -> Prop) : EFI_ERROR st = true -> returns (reject st) P.
Proof. by exists (inl st). Qed.

Lemma returns_ok {A} (a : A) (P : A -> Prop) : P a -> returns (Ok (inr a)) P.
Proof. by exists (inr a). Qed.

Lemma returns_impl {A} (r : res (EFI_STATUS + A)) (P Q : A -> Prop) :
  returns r P -> (forall a, P a -> Q a) -> returns r Q.
Proof. intros (x & -> & Hx) H. exists x. split; [done|]. destruct x; auto. Qed.

#[export] Hint Resolve returns_reject : shim.

(** ** What a successful read_header guarantees *)
Record context_wf (data : list Z) (datasize : Z) (c : PE_CONTEXT) : Prop := {
  wf_count : rd_le data (PEHdr c + 6) 2 = Ok (NumberOfSections c);
  wf_pehdr : 0 <= PEHdr c /\ PEHdr c + sizeof_OPTIONAL_HEADER_UNION <= datasize;
  wf_secdir : SecDir c = PEHdr c + 168 \/ SecDir c = PEHdr c + 152;
  wf_relocdir : RelocDir c = SecDir c + sizeof_DATA_DIRECTORY;
  wf_nsections : 0 <= NumberOfSections c < 2 ^ 16;
  wf_dos : PEHdr c = 0 /\ rd_le data 0 2 <> Ok EFI_IMAGE_DOS_SIGNATURE \/ rd_le data 60 4 = Ok (PEHdr c);
  wf_first : PEHdr c + 24 <= FirstSection c;
  wf_opt : rd_le data (PEHdr c + 20) 2 = Ok (FirstSection c - PEHdr c - 24);
  wf_sections : FirstSection c + EFI_IMAGE_SIZEOF_SECTION_HEADER * NumberOfSections c <= datasize;
  wf_headers : FirstSection c + EFI_IMAGE_SIZEOF_SECTION_HEADER * NumberOfSections c <= SizeOfHeaders c;
  wf_image : SizeOfHeaders c <= ImageSize c < 2 ^ 32;
  wf_entry : 0 <= EntryPoint c < 2 ^ 32;
  wf_align : 0 < SectionAlignment c < 2 ^ 32;
  wf_rva : 0 <= NumberOfRvaAndSizes c <= EFI_IMAGE_NUMBER_OF_DIRECTORY_ENTRIES
}.

Lemma bytes_rdn m i n bs : bytes m -> rdn m i n = Ok bs -> bytes bs.
Proof.
  unfold rdn, bytes. intros Hb. case_if; [|done..]. intros [= <-]. by apply Forall_take, Forall_drop.
Qed.

Lemma rd_le_in_range m i n :
  bytes m -> 0 <= i -> 0 <= n -> i + n <= zlen m ->
  exists v, rd_le m i n = Ok v /\ 0 <= v < 2 ^ (8 * n).
Proof.
  intros Hb Hi Hn Hl. destruct (rdn_in_range m i n Hi Hn Hl) as [bs E]. unfold rd_le. rewrite E, bind_Ok.
  eexists. split; [done|]. pose proof (rdn_length _ _ _ _ E) as [Hlen _]. rewrite <- Hlen.
  by apply le_combine_range, (bytes_rdn m i n).
Qed.

(** Read the next field of the goal. *)
Ltac read_field v H :=
  match goal with
  | |- context [mbind _ (rd_le ?m ?i ?n)] =>
      let Hv := fresh "Hrd" in
      destruct (rd_le_in_range m i n) as (v & Hv & H);
      [assumption|lia|lia|lia|rewrite Hv, bind_Ok; cbn in H]
  end.

Lemma read_section_in_range data off :
  bytes data -> 0 <= off -> off + EFI_IMAGE_SIZEOF_SECTION_HEADER <= zlen data ->
  exists s, read_section data off = Ok s /\ bytes (Name s) /\
    0 <= VirtualSize s < 2 ^ 32 /\ 0 <= VirtualAddress s < 2 ^ 32 /\ 0 <= SizeOfRawData s < 2 ^ 32 /\
    0 <= PointerToRawData s < 2 ^ 32.
Proof.
  unfold EFI_IMAGE_SIZEOF_SECTION_HEADER. intros Hb Ho Hl. unfold read_section.
  destruct (rdn_in_range data off 8) as [name En]; [lia..|]. rewrite En, bind_Ok.
  read_field v1 H1. read_field v2 H2. read_field v3 H3. read_field v4 H4.
  read_field v5 H5. read_field v6 H6. read_field v7 H7.
  eexists. split; [done|]. cbn. split; [by eapply bytes_rdn|]. auto.
Qed.

Lemma checked_add_eq a b : 0 <= a + b < 2 ^ 64 -> checked_add a b = (false, a + b).
Proof. intros. unfold checked_add. rewrite bool_decide_true by done. by rewrite u64_small. Qed.

Lemma read_dos_header_in_range data datasize :
  bytes data -> datasize <= zlen data ->
  exists r, read_dos_header data datasize = Ok r /\
    match r with
    | inl st => EFI_ERROR st = true
    | inr d => 64 <= datasize /\
               (d = 0 /\ rd_le data 0 2 <> Ok EFI_IMAGE_DOS_SIGNATURE \/
                rd_le data 60 4 = Ok d /\ sizeof_DOS_HEADER <= d <= datasize - 4)
    end.
Proof.
  intros Hb Hl. unfold read_dos_header, sizeof_DOS_HEADER. case_if; [eexists; split; [done|done]|].
  destruct (rd_le_in_range data 0 2) as (v & Hv & H1); [done|lia..|]. rewrite Hv, bind_Ok.
  case_if; [|exists (inr 0); split; [done|]; split; [lia|]; left; split; [done|congruence]].
  destruct (rd_le_in_range data 60 4) as (e & He & Hr); [done|lia..|]. rewrite He, bind_Ok.
  case_if; [by exists (inl EFI_UNSUPPORTED)..|]. exists (inr e). split; [done|].
  split; [lia|]. right. split; [done|lia].
Qed.

Lemma read_opt_header_in_range data pehdr (is64 : bool) :
  bytes data -> 0 <= pehdr -> pehdr + (if is64 then 264 else 248) <= zlen data ->
  exists oh, read_opt_header data pehdr is64 = Ok oh /\
    0 <= oh_rva oh < 2 ^ 32 /\ 0 <= oh_headers oh < 2 ^ 32 /\ 0 <= oh_image oh < 2 ^ 32 /\
    0 <= oh_salign oh < 2 ^ 32 /\ 0 <= oh_falign oh < 2 ^ 32 /\ 0 <= oh_entry oh < 2 ^ 32 /\
    oh_dirs oh = pehdr + (if is64 then 136 else 120) /\
    oh_size oh = if is64 then 240 else 224.
Proof.
  intros Hb H0 Hl. unfold read_opt_header.
  destruct is64; read_field v1 H1; read_field v2 H2; read_field v3 H3; read_field v4 H4;
    read_field v5 H5; read_field v6 H6; read_field v7 H7; read_field v8 H8;
    (eexists; split; [done|]; cbn; auto 10).
Qed.

Lemma header_checks_ok datasize pehdr e_lfanew soh nsec oh :
  header_checks datasize pehdr e_lfanew soh nsec oh = true ->
  0 <= e_lfanew < 2 ^ 32 -> 0 <= soh < 2 ^ 16 -> 0 <= nsec < 2 ^ 16 -> 0 <= pehdr < 2 ^ 32 ->
  oh_rva oh <= 16 /\ e_lfanew + 24 + soh + 40 * nsec <= oh_headers oh /\
  e_lfanew + 24 + soh + 40 * nsec <= datasize /\ pehdr + 264 <= datasize.
Proof.
  unfold header_checks, sizeof_FILE_HEADER, EFI_IMAGE_SIZEOF_SECTION_HEADER, sizeof_OPTIONAL_HEADER_UNION,
    EFI_IMAGE_NUMBER_OF_DIRECTORY_ENTRIES, sizeof_DATA_DIRECTORY.
  intros Hc He Hs Hn Hp.
  destruct (checked_mul 8 16) as [o1 t0]. destruct (checked_sub (oh_size oh) t0) as [o2 hw].
  destruct (checked_sub soh hw) as [o3 t0']. destruct (checked_mul (oh_rva oh) 8) as [o4 t1].
  rewrite (checked_add_eq e_lfanew 4), (checked_add_eq (e_lfanew + 4) 20),
    (checked_add_eq (e_lfanew + 4 + 20) soh) in Hc by lia.
  destruct (checked_sub (oh_image oh) _) as [o8 t4].
  destruct (checked_sub (oh_headers oh) _) as [o9 t5] eqn:E9.
  unfold checked_mul in Hc. rewrite bool_decide_true in Hc by lia. rewrite u64_small in Hc by lia.
  rewrite checked_add_eq, checked_add_eq in Hc by lia. cbn [negb orb] in Hc.
  apply negb_true_iff in Hc. bool_to_prop. subst o9. apply checked_sub_ok in E9 as [_ ->].
  pose proof (Z.mul_div_le (oh_headers oh - (e_lfanew + 4 + 20 + soh)) 40). lia.
Qed.

Lemma section_alignment_range fa sa :
  0 <= fa < 2 ^ 32 -> 0 <= sa < 2 ^ 32 -> 0 < section_alignment fa sa < 2 ^ 32.
Proof. intros. unfold section_alignment, PAGE_SIZE. repeat case_if; lia. Qed.

Section safety.
Context (a32 inp : bool) (pol base : Z) (data : list Z) (datasize : Z) (check_secdir : bool).
Hypothesis (Hb : bytes data) (Hl : datasize <= zlen data) (Hd : datasize < 2 ^ 32).
Hypothesis (Hbase : 0 <= base /\ base + datasize + 2 ^ 17 < 2 ^ 64).

Lemma image_is_64_in_range pehdr : 0 <= pehdr -> pehdr + 248 <= datasize ->
  exists b, image_is_64_bit data pehdr = Ok b.
Proof. intros. unfold image_is_64_bit, Magic. read_field v Hv. eauto. Qed.

Lemma image_is_loadable_in_range pehdr : 0 <= pehdr -> pehdr + 248 <= datasize ->
  exists b, image_is_loadable a32 inp data pehdr = Ok b.
Proof.
  intros Hp Hs. unfold image_is_loadable. read_field v Hv. match goal with |- context [if ?b then _ else _] => destruct b end; [eauto|].
  unfold Magic. destruct (image_is_64_in_range pehdr) as [b E]; [done..|].
  read_field w Hw. match goal with |- context [if ?b then _ else _] => destruct b end; [eauto|].
  rewrite E, bind_Ok. eauto.
Qed.

Lemma finish_header_in_range pehdr soh nsec oh e (is64 : bool) :
  0 <= pehdr -> pehdr <= e -> 0 <= soh < 2 ^ 16 -> 0 <= nsec < 2 ^ 16 ->
  0 <= oh_rva oh <= 16 -> 0 <= oh_image oh < 2 ^ 32 ->
  e + 24 + soh + 40 * nsec <= oh_headers oh -> e + 24 + soh + 40 * nsec <= datasize ->
  pehdr + 264 <= datasize -> 0 <= oh_entry oh < 2 ^ 32 ->
  0 <= oh_salign oh < 2 ^ 32 -> 0 <= oh_falign oh < 2 ^ 32 ->
  oh_dirs oh = pehdr + (if is64 then 136 else 120) -> rd_le data (pehdr + 6) 2 = Ok nsec ->
  rd_le data (pehdr + 20) 2 = Ok soh ->
  (pehdr = 0 /\ rd_le data 0 2 <> Ok EFI_IMAGE_DOS_SIGNATURE \/ rd_le data 60 4 = Ok pehdr) ->
  returns (finish_header pol base data datasize check_secdir pehdr soh nsec oh) (context_wf data datasize).
Proof.
  intros Hp He Hsoh Hn Hrva Himg Hhd Hds Hpe Hen Hsa Hfa Hdirs Hcount Hopt Hdos. unfold finish_header.
  destruct (_ && _); [auto with shim|].
  rewrite checked_add_eq, checked_add_eq, checked_add_eq by (unfold sizeof_FILE_HEADER; lia). cbn [orb].
  repeat (case_if; [auto with shim|]).
  unfold sizeof_DATA_DIRECTORY in *. unfold read_dir. rewrite Hdirs. destruct is64.
  all: read_field va Hva; read_field sz Hsz; rewrite bind_Ok.
  all: match goal with |- context [if ?b then _ else _] => destruct b end; [auto with shim|].
  all: apply returns_ok; split; cbn [PEHdr NumberOfSections SecDir RelocDir FirstSection SizeOfHeaders ImageSize
    EntryPoint SectionAlignment NumberOfRvaAndSizes]; try done; unfold sizeof_OPTIONAL_HEADER_UNION,
    sizeof_FILE_HEADER, EFI_IMAGE_SIZEOF_SECTION_HEADER, sizeof_DATA_DIRECTORY,
    EFI_IMAGE_NUMBER_OF_DIRECTORY_ENTRIES; try lia.
  all: first [by apply section_alignment_range | rewrite Hopt; f_equal; lia].
Qed.

Lemma read_header_in_range :
  returns (read_header a32 inp pol base data datasize check_secdir) (context_wf data datasize).
Proof.
  unfold read_header. destruct (read_dos_header_in_range data datasize Hb Hl) as (dos & -> & Hdos).
  rewrite bind_Ok. destruct dos as [st|d]; [auto with shim|]. destruct Hdos as [H64 Hdos].
  unfold sizeof_NT_HEADERS32, sizeof_NT_HEADERS64, sizeof_DOS_HEADER in *. case_if; [auto with shim|].
  assert (Hd0 : 0 <= d) by lia.
  destruct (image_is_64_in_range d) as [is64 E64]; [lia..|]. rewrite E64, bind_Ok.
  destruct (is64 && _) eqn:Ebig; [auto with shim|].
  assert (Hbig : d + (if is64 then 264 else 248) <= zlen data)
    by (destruct is64; cbn in Ebig; bool_to_prop; lia).
  destruct (image_is_loadable_in_range d) as [ld ->]; [lia..|]. rewrite bind_Ok. destruct ld; cbn [negb]; [|auto with shim].
  destruct (read_opt_header_in_range data d is64) as (oh & -> & Hoh); [done..|]. rewrite bind_Ok.
  destruct (negb (oh_falign oh mod 2 =? 0)); [auto with shim|].
  destruct (rd_le_in_range data (d + 6) 2) as (nsec & Hcount & Hnsec); [done|lia..|].
  rewrite Hcount, bind_Ok. cbn in Hnsec.
  destruct (rd_le_in_range data (d + 20) 2) as (soh & Hopt & Hsoh); [done|lia..|]. rewrite Hopt, bind_Ok. cbn in Hsoh.
  destruct (rd_le_in_range data 60 4) as (e & Ee & He); [done|lia..|]. rewrite Ee, bind_Ok.
  destruct (header_checks datasize d e soh nsec oh) eqn:Ech; cbn [negb]; [|auto with shim].
  apply header_checks_ok in Ech; [|cbn in He; lia..]. cbn [negb].
  read_field sgn Hsgn. destruct (negb (sgn =? EFI_IMAGE_NT_SIGNATURE)); [auto with shim|].
  read_field ch Hch. destruct (has_flag ch EFI_IMAGE_FILE_RELOCS_STRIPPED); [auto with shim|].
  apply (finish_header_in_range d soh nsec oh e is64); try lia; [|done..|].
  - destruct Hdos as [[-> _]|[Hde _]]; [cbn in He; lia|]. rewrite Hde in Ee. injection Ee as ->. lia.
  - destruct Hdos as [?|[? _]]; auto.
Qed.
End safety.

(** C7. read_header never reads outside the file it is given, whatever the
    bytes are; a header it refuses gives an error, and one it accepts has its tables inside the file: the PE
    header, the security and relocation directories, the section table (which
    also lies within SizeOfHeaders), with SizeOfHeaders at most the image size
    and a non-zero section alignment. *)
Theorem read_header_safe a32 inp pol base data datasize check_secdir :
  bytes data -> datasize <= zlen data -> datasize < 2 ^ 32 ->
  0 <= base -> base + datasize + 2 ^ 17 < 2 ^ 64 ->
  exists r, read_header a32 inp pol base data datasize check_secdir = Ok r /\
    match r with inl st => EFI_ERROR st = true | inr c => context_wf data datasize c end.
Proof. intros. apply read_header_in_range; auto. Qed.

(** ** A small image: one .text section of 64 bytes behind 512 bytes of headers *)
Definition put (off : nat) (bs m : list Z) : list Z := take off m ++ bs ++ drop (off + length bs) m.
Definition text_section : list Z :=
  [46; 116; 101; 120; 116; 0; 0; 0] ++ le_split 4 64 ++ le_split 4 4096 ++ le_split 4 64 ++
  le_split 4 512 ++ replicate 12 0 ++ le_split 4 0x60000020.
Definition sample_pe : list Z :=
  put 328 text_section (put 196 (le_split 4 16) (put 158 (le_split 2 0x100) (put 148 (le_split 4 512)
  (put 144 (le_split 4 8192) (put 124 (le_split 4 512) (put 120 (le_split 4 4096)
  (put 104 (le_split 4 4096) (put 88 (le_split 2 0x20b) (put 86 (le_split 2 0x22) (put 84 (le_split 2 240)
  (put 70 (le_split 2 1) (put 68 (le_split 2 0x8664) (put 64 [80; 69; 0; 0] (put 60 (le_split 4 64)
  (put 0 [77; 90] (replicate 576 0)))))))))))))))).
Definition sample_ctx : PE_CONTEXT :=
  {| ctx_ImageAddress := 0; ImageSize := 8192; EntryPoint := 4096; SizeOfHeaders := 512;
     NumberOfSections := 1; SectionAlignment := 4096; FirstSection := 328; RelocDir := 240; SecDir := 232;
     NumberOfRvaAndSizes := 16; DllCharacteristics := 256; PEHdr := 64 |}.

Example sample_pe_header :
  read_header false false 0 0x100000 sample_pe 576 true = Ok (inr sample_ctx).
Proof. vm_compute. reflexivity. Qed.

Lemma sample_pe_bytes : bytes sample_pe.
Proof.
  assert (H : forallb (fun b => (0 <=? b) && (b <? 256)) sample_pe = true) by (vm_compute; reflexivity).
  rewrite forallb_forall in H. apply Forall_forall. intros b Hin. specialize (H b Hin).
  unfold is_byte. bool_to_prop. lia.
Qed.

Lemma read_header_safe_witness :
  exists r, read_header false false 0 0x100000 sample_pe 576 true = Ok r /\
    match r with inl st => EFI_ERROR st = true | inr c => context_wf sample_pe 576 c end.
Proof.
  apply (read_header_safe false false 0 0x100000 sample_pe 576 true);
    [apply sample_pe_bytes|vm_compute; congruence|lia..].
Defined.

(** ** Sections *)
Lemma ImageAddress_eq image size address :
  0 <= image -> image + size <= 2 ^ 64 -> 0 <= address ->
  ImageAddress image size address = if size <=? address then None else Some (image + address).
Proof. intros. unfold ImageAddress. case_if; [done|]. by rewrite checked_add_eq by lia. Qed.

(** The first and last byte of a section that has both inside the image. *)
Lemma section_extent va vs :
  0 <= va < 2 ^ 32 -> 0 <= vs < 2 ^ 32 -> va <= u32 (va + vs - 1) -> u32 (va + vs - 1) < 2 ^ 32 - 1 ->
  u32 (va + vs - 1) = va + vs - 1.
Proof.
  intros Hva Hvs Hle Hlt. unfold u32 in *. destruct (decide (va + vs - 1 < 2 ^ 32)) as [H1|H1].
  - destruct (decide (0 <= va + vs - 1)); [by rewrite Z.mod_small by lia|].
    assert (va = 0 /\ vs = 0) as [-> ->] by lia. by vm_compute in Hlt.
  - replace (va + vs - 1) with (va + vs - 1 - 2 ^ 32 + 1 * 2 ^ 32) in Hle by lia.
    rewrite Z.mod_add, Z.mod_small in Hle by lia. lia.
Qed.

Lemma get_section_vma_in_range datasize i data buffer c :
  bytes data -> datasize <= zlen data -> context_wf data datasize c -> 0 <= i -> 0 <= buffer ->
  buffer + ImageSize c <= 2 ^ 64 ->
  exists r, get_section_vma i data buffer c = Ok r /\
    match r with
    | inl st => st = EFI_NOT_FOUND /\ NumberOfSections c <= i \/ st = EFI_UNSUPPORTED
    | inr (base, size, s) =>
        i < NumberOfSections c /\
        read_section data (FirstSection c + EFI_IMAGE_SIZEOF_SECTION_HEADER * i) = Ok s /\
        (has_flag (Characteristics s) EFI_IMAGE_SCN_MEM_DISCARDABLE = false ->
         base = Some (buffer + VirtualAddress s) /\ VirtualSize s = size + 1 /\
         0 <= size /\ VirtualAddress s + size < ImageSize c)
    end.
Proof.
  intros Hb Hl Hw Hi Hbuf Hend. unfold get_section_vma, reject. destruct Hw.
  unfold sizeof_OPTIONAL_HEADER_UNION in *.
  case_if; [exists (inl EFI_NOT_FOUND); split; [done|]; by left|].
  destruct (read_section_in_range data (FirstSection c + EFI_IMAGE_SIZEOF_SECTION_HEADER * i))
    as (s & -> & _ & Hvs & Hva & _); [done|unfold EFI_IMAGE_SIZEOF_SECTION_HEADER in *; lia..|].
  rewrite bind_Ok. unfold section_bounds. pose proof (u32_range (VirtualAddress s + VirtualSize s - 1)).
  rewrite !ImageAddress_eq by lia.
  destruct (negb _ && (_ || _)) eqn:E1; [exists (inl EFI_UNSUPPORTED); split; [done|]; by right|].
  destruct (negb _ && ((_ <? _) || _)); [exists (inl EFI_UNSUPPORTED); split; [done|]; by right|].
  match goal with |- context [ptr_val ?x <? ptr_val ?y] => destruct (ptr_val x <? ptr_val y) eqn:E2 end;
    [exists (inl EFI_UNSUPPORTED); split; [done|]; by right|].
  eexists. split; [done|]. cbn beta iota. split; [lia|]. split; [done|]. intros Hdis. rewrite Hdis in E1.
  cbn [negb andb] in E1. apply orb_false_iff in E1 as [E3 E4].
  destruct (ImageSize c <=? VirtualAddress s) eqn:E5; [done|].
  destruct (ImageSize c <=? u32 _) eqn:E6; [done|]. cbn in E2 |- *. bool_to_prop.
  pose proof (section_extent (VirtualAddress s) (VirtualSize s) Hva Hvs ltac:(lia) ltac:(lia)) as Hx.
  rewrite Hx in *. split; [done|]. lia.
Qed.

(** get_section_vma never reads outside the file; a section it returns
    that is not discardable lies, with all its VirtualSize bytes, inside the
    loaded image. *)
Theorem get_section_vma_safe datasize i data buffer c :
  bytes data -> datasize <= zlen data -> context_wf data datasize c -> 0 <= i -> 0 <= buffer ->
  buffer + ImageSize c <= 2 ^ 64 ->
  exists r, get_section_vma i data buffer c = Ok r /\
    forall base size s, r = inr (base, size, s) ->
      has_flag (Characteristics s) EFI_IMAGE_SCN_MEM_DISCARDABLE = false ->
      base = Some (buffer + VirtualAddress s) /\ VirtualSize s = size + 1 /\
      VirtualAddress s + VirtualSize s <= ImageSize c.
Proof.
  intros Hb Hl Hw Hi Hbuf Hend.
  destruct (get_section_vma_in_range datasize i data buffer c) as (r & Hr & Hp); auto.
  exists r. split; [done|]. intros base size s -> Hdis. destruct Hp as (_ & _ & Hp).
  destruct (Hp Hdis) as (? & ? & ? & ?). split; [done|]. split; [done|]. lia.
Qed.

Lemma sample_ctx_wf : context_wf sample_pe 576 sample_ctx.
Proof.
  split; first [by vm_compute | right; by vm_compute | unfold sample_ctx; cbn; unfold sizeof_OPTIONAL_HEADER_UNION,
    sizeof_DATA_DIRECTORY, EFI_IMAGE_SIZEOF_SECTION_HEADER, EFI_IMAGE_NUMBER_OF_DIRECTORY_ENTRIES; lia].
Qed.

Lemma get_section_vma_safe_witness :
  exists r, get_section_vma 0 sample_pe 0x200000 sample_ctx = Ok r /\
    forall base size s, r = inr (base, size, s) ->
      has_flag (Characteristics s) EFI_IMAGE_SCN_MEM_DISCARDABLE = false ->
      base = Some (0x200000 + VirtualAddress s) /\ VirtualSize s = size + 1 /\
      VirtualAddress s + VirtualSize s <= ImageSize sample_ctx.
Proof.
  apply (get_section_vma_safe 576 0 sample_pe 0x200000 sample_ctx);
    [apply sample_pe_bytes|vm_compute; congruence|apply sample_ctx_wf|lia|lia|cbn; lia].
Defined.

(** The policy set by set_shim_nx_policy requires NX exactly when it did
    before or when shim itself is NX compatible, the firmware enforces NX (no
    executable heap, no executable stack, no writable text) and has one of the
    two attribute interfaces; no other policy bit changes. *)
Theorem set_shim_nx_policy_correct hsi pol :
  Z.testbit (set_shim_nx_policy hsi pol) 0
  = Z.testbit pol 0 ||
    (has_flag hsi SHIM_HSI_STATUS_NX &&
     negb (has_flag hsi SHIM_HSI_STATUS_HEAPX) && negb (has_flag hsi SHIM_HSI_STATUS_STACKX) &&
     negb (has_flag hsi SHIM_HSI_STATUS_ROW) &&
     (has_flag hsi SHIM_HSI_STATUS_HASMAP ||
      has_flag hsi SHIM_HSI_STATUS_HASDSTGMSD && has_flag hsi SHIM_HSI_STATUS_HASDSTSMSA)) /\
  (forall i, 0 < i -> Z.testbit (set_shim_nx_policy hsi pol) i = Z.testbit pol i).
Proof.
  unfold set_shim_nx_policy, hsi_nx_is_enforced, hsi_api_is_present.
  rewrite !negb_orb, !andb_assoc.
  match goal with |- context [if ?b then _ else _] => destruct b end.
  - split; [rewrite Z.lor_spec; by rewrite !orb_true_r|]. intros i Hi. rewrite Z.lor_spec.
    replace (Z.testbit MOK_POLICY_REQUIRE_NX i) with false; [apply orb_false_r|].
    symmetry. change MOK_POLICY_REQUIRE_NX with (2 ^ 0). by apply Z.pow2_bits_false; lia.
  - by rewrite orb_false_r.
Qed.
