(* ===== verification/PeReloc.v ===== *)
(** * Relocation: relocate_coff of pe-relocate.c

    [orig] is the file, at the address [obase]; [buf] is the memory the image
    is loaded into, at [data].  Pointers into them are kept as addresses, as
    in the C code; an access converts to an offset of the object and faults
    outside of it.  The reference [apply_blocks] says which words of the image
    are changed by the blocks of a relocation table. *)
From stdpp Require Import base list numbers option.
From Stdlib Require Import ZArith Lia.
From S2P Require Import Prelude.
From S2P Require Import Efi.
From S2P Require Import Esl.
From S2P Require Import PeHeader.
Local Open Scope Z_scope.

Definition EFI_IMAGE_REL_BASED_ABSOLUTE : Z := 0.
Definition EFI_IMAGE_REL_BASED_HIGH : Z := 1.
Definition EFI_IMAGE_REL_BASED_LOW : Z := 2.
Definition EFI_IMAGE_REL_BASED_HIGHLOW : Z := 3.
Definition EFI_IMAGE_REL_BASED_DIR64 : Z := 10.

(** Add [delta] to the [n]-byte word at [off], modulo its width. *)
Definition add_word (buf : list Z) (off : Z) (n : nat) (delta : Z) : res (list Z) :=
  old ← rd_le buf off (Z.of_nat n);
  wr_le buf off n ((old + delta) mod 2 ^ (8 * Z.of_nat n)).

(** The switch on the type of a relocation; [None] is the default case. *)
Definition fixup (Adjust off reloc : Z) (buf : list Z) : res (option (list Z)) :=
  let type := Z.shiftr reloc 12 in
  if type =? EFI_IMAGE_REL_BASED_ABSOLUTE then Ok (Some buf)
  else if type =? EFI_IMAGE_REL_BASED_HIGH then
    b ← add_word buf off 2 (u16 (Z.shiftr (u32 Adjust) 16)); Ok (Some b)
  else if type =? EFI_IMAGE_REL_BASED_LOW then
    b ← add_word buf off 2 (u16 Adjust); Ok (Some b)
  else if type =? EFI_IMAGE_REL_BASED_HIGHLOW then
    b ← add_word buf off 4 (u32 Adjust); Ok (Some b)
  else if type =? EFI_IMAGE_REL_BASED_DIR64 then
    b ← add_word buf off 8 (u64 Adjust); Ok (Some b)
  else Ok None.

(** [while (Reloc < RelocEnd)]; offsets of [orig] and of [buf]. *)
Fixpoint reloc_entries (fuel : nat) (orig : list Z) (Reloc RelocEnd Adjust FixupBase : Z) (buf : list Z)
  : res (EFI_STATUS * list Z) :=
  match fuel with
  | O => NoFuel
  | S f =>
      if Reloc <? RelocEnd then
        r ← rd_le orig Reloc 2;
        b ← fixup Adjust (FixupBase + Z.land r 0xfff) r buf;
        match b with
        | None => Ok (EFI_UNSUPPORTED, buf)
        | Some buf => reloc_entries f orig (Reloc + 2) RelocEnd Adjust FixupBase buf
        end
      else Ok (EFI_SUCCESS, buf)
  end.

(** [while (RelocBase < RelocBaseEnd)].  [size] is the [int] the image size is
    stored in, converted back to 64 bits where it is compared. *)
Fixpoint reloc_blocks (fuel : nat) (obase data size dirsize Adjust : Z) (orig : list Z)
    (RelocBase RelocBaseEnd : Z) (buf : list Z) : res (EFI_STATUS * list Z) :=
  match fuel with
  | O => NoFuel
  | S f =>
      if RelocBase <? RelocBaseEnd then
        let rb := RelocBase - obase in
        SizeOfBlock ← rd_le orig (rb + 4) 4;
        if SizeOfBlock =? 0 then Ok (EFI_UNSUPPORTED, buf)
        else if dirsize <? SizeOfBlock then Ok (EFI_UNSUPPORTED, buf)
        else
          let RelocEnd := u64 (RelocBase + SizeOfBlock) in
          if (RelocEnd <? obase) || (u64 (obase + size) <? RelocEnd) then Ok (EFI_UNSUPPORTED, buf)
          else
            va ← rd_le orig rb 4;
            match ImageAddress data (u64 size) va with
            | None => Ok (EFI_UNSUPPORTED, buf)
            | Some FixupBase =>
                '(st, buf) ← reloc_entries (S (length orig)) orig (rb + 8) (RelocEnd - obase) Adjust
                               (FixupBase - data) buf;
                if EFI_ERROR st then Ok (st, buf)
                else reloc_blocks f obase data size dirsize Adjust orig RelocEnd RelocBaseEnd buf
            end
      else Ok (EFI_SUCCESS, buf)
  end.

Definition relocate_coff (ctx : PE_CONTEXT) (Section : EFI_IMAGE_SECTION_HEADER)
    (obase : Z) (orig : list Z) (data : Z) (buf : list Z) : res (EFI_STATUS * list Z) :=
  '(_, dirsize) ← read_dir orig (RelocDir ctx);
  let size := i32 (ImageSize ctx) in
  let RelocBase := ImageAddress obase (u64 size) (PointerToRawData Section) in
  let RelocBaseEnd := ImageAddress obase (u64 size) (u32 (PointerToRawData Section + dirsize - 1)) in
  match RelocBase, RelocBaseEnd with
  | None, None => Ok (EFI_SUCCESS, buf)
  | Some rb, Some rbe =>
      let Adjust := u64 (data - ctx_ImageAddress ctx) in
      if Adjust =? 0 then Ok (EFI_SUCCESS, buf)
      else reloc_blocks (S (length orig)) obase data size dirsize Adjust orig rb rbe buf
  | _, _ => Ok (EFI_UNSUPPORTED, buf)
  end.

(** ** Relocation tables *)
Definition block_size (entries : list Z) : Z := 8 + 2 * zlen entries.
Definition entries_bytes (entries : list Z) : list Z := concat (map (le_split 2) entries).
Definition block_bytes (b : Z * list Z) : list Z :=
  le_split 4 (fst b) ++ le_split 4 (block_size (snd b)) ++ entries_bytes (snd b).
Definition table_bytes (bs : list (Z * list Z)) : list Z := concat (map block_bytes bs).

Definition block_wf (b : Z * list Z) : Prop :=
  0 <= fst b < 2 ^ 32 /\ Forall (fun r => 0 <= r < 2 ^ 16) (snd b).

(** What the format says of a relocation type: the width of the field in bytes
    and the bit of the difference from which on it is added. *)
Definition reloc_field (type : Z) : option (nat * Z) :=
  if type =? 1 then Some (2%nat, 16)
  else if type =? 2 then Some (2%nat, 0)
  else if type =? 3 then Some (4%nat, 0)
  else if type =? 10 then Some (8%nat, 0)
  else None.

(** One relocation of an image that was moved by [delta], which may be negative:
    the field at [off] grows by the part of [delta] for its type, modulo its
    width, and no other byte changes; type 0 is padding, [None] an unknown type. *)
Definition relocated_field (delta off : Z) (n : nat) (bit : Z) (buf : list Z) : list Z :=
  let o := Z.to_nat off in
  take o buf ++ le_split n ((le_combine (take n (drop o buf)) + delta / 2 ^ bit) mod 256 ^ Z.of_nat n) ++ drop (o + n) buf.
Definition relocated (delta off type : Z) (buf : list Z) : res (option (list Z)) :=
  if type =? 0 then Ok (Some buf)
  else
    match reloc_field type with
    | None => Ok None
    | Some (n, bit) => if off + Z.of_nat n <=? zlen buf then Ok (Some (relocated_field delta off n bit buf)) else Fault
    end.

(** What the table asks for: an entry is a type and an offset into the page. *)
Fixpoint apply_entries (delta va : Z) (entries : list Z) (buf : list Z) : res (EFI_STATUS * list Z) :=
  match entries with
  | [] => Ok (EFI_SUCCESS, buf)
  | r :: rs =>
      b ← relocated delta (va + r mod 4096) (r / 4096) buf;
      match b with
      | None => Ok (EFI_UNSUPPORTED, buf)
      | Some buf => apply_entries delta va rs buf
      end
  end.

Fixpoint apply_blocks (delta size : Z) (bs : list (Z * list Z)) (buf : list Z) : res (EFI_STATUS * list Z) :=
  match bs with
  | [] => Ok (EFI_SUCCESS, buf)
  | (va, entries) :: bs' =>
      if size <=? va then Ok (EFI_UNSUPPORTED, buf)
      else
        '(st, buf) ← apply_entries delta va entries buf;
        if EFI_ERROR st then Ok (st, buf) else apply_blocks delta size bs' buf
  end.

(** ** Lemmas *)

(** The switch of the code is the table of the format. *)
Lemma rd_le_take m i n : 0 <= i -> i + Z.of_nat n <= zlen m -> rd_le m i (Z.of_nat n) = Ok (le_combine (take n (drop (Z.to_nat i) m))).
Proof. intros. unfold rd_le, rdn. case_if; [|lia..]. rewrite bind_Ok. by rewrite Nat2Z.id. Qed.
Lemma add_word_relocated buf off n d delta bit : 0 <= off -> off + Z.of_nat n <= zlen buf -> 
  d mod 2 ^ (8 * Z.of_nat n) = (delta / 2 ^ bit) mod 2 ^ (8 * Z.of_nat n) ->
  add_word buf off n d = Ok (relocated_field delta off n bit buf).
Proof.
  intros Ho Hn Hd. unfold add_word. rewrite rd_le_take, bind_Ok by done. unfold wr_le, wrn. rewrite zlen_le_split, le_split_length.
  case_if; [|lia..]. unfold relocated_field. do 4 f_equal.
  change 256 with (2 ^ 8). rewrite <- Z.pow_mul_r by lia.
  rewrite Z.add_mod, Hd, <- Z.add_mod by (apply Z.pow_nonzero; lia). done.
Qed.
Lemma add_word_fault buf off n d : zlen buf < off + Z.of_nat n -> add_word buf off n d = Fault.
Proof. intros Hn. unfold add_word, rd_le, rdn. by case_if; [lia|..]. Qed.
Lemma add_word_field buf off n d delta bit : 0 <= off ->
  d mod 2 ^ (8 * Z.of_nat n) = (delta / 2 ^ bit) mod 2 ^ (8 * Z.of_nat n) ->
  (b ← add_word buf off n d; Ok (Some b)) = if off + Z.of_nat n <=? zlen buf then Ok (Some (relocated_field delta off n bit buf)) else Fault.
Proof. intros Ho Hd. case_if; [by rewrite (add_word_relocated _ _ _ _ delta bit)|by rewrite add_word_fault]. Qed.

Lemma fixup_relocated delta off r buf : 0 <= off -> 0 <= r < 2 ^ 16 ->
  fixup (u64 delta) off r buf = relocated delta off (r / 4096) buf.
Proof.
  intros Ho Hr. unfold fixup, relocated, reloc_field. rewrite Z.shiftr_div_pow2 by lia. change (2 ^ 12) with 4096. set (type := r / 4096).
  unfold EFI_IMAGE_REL_BASED_ABSOLUTE, EFI_IMAGE_REL_BASED_HIGH, EFI_IMAGE_REL_BASED_LOW, EFI_IMAGE_REL_BASED_HIGHLOW, EFI_IMAGE_REL_BASED_DIR64.
  repeat (case_if; [first [done | apply add_word_field; [done|]]|]); [..|done]; unfold u16, u32, u64.
  - rewrite Z.shiftr_div_pow2, Z.mod_mod by lia. change (8 * Z.of_nat 2) with 16.
    rewrite Z.mod_mod_divide by (by exists (2 ^ 32)). Z.div_mod_to_equations. lia.
  - change (8 * Z.of_nat 2) with 16. rewrite Z.div_1_r, Z.mod_mod by lia. by rewrite Z.mod_mod_divide by (by exists (2 ^ 48)).
  - change (8 * Z.of_nat 4) with 32. rewrite Z.div_1_r, Z.mod_mod by lia. by rewrite Z.mod_mod_divide by (by exists (2 ^ 32)).
  - change (8 * Z.of_nat 8) with 64. by rewrite Z.div_1_r, !Z.mod_mod by lia.
Qed.

Lemma entries_bytes_length entries : zlen (entries_bytes entries) = 2 * zlen entries.
Proof.
  unfold entries_bytes. induction entries as [|r rs IH]; [done|]. cbn [map concat].
  rewrite zlen_app, zlen_le_split, IH, zlen_cons. lia.
Qed.

Lemma block_bytes_length b : zlen (block_bytes b) = block_size (snd b).
Proof. unfold block_bytes, block_size. rewrite !zlen_app, !zlen_le_split, entries_bytes_length. lia. Qed.

Lemma reloc_entries_ok fuel p entries q delta va buf :
  0 <= va -> Forall (fun r => 0 <= r < 2 ^ 16) entries -> (length entries < fuel)%nat ->
  reloc_entries fuel (p ++ entries_bytes entries ++ q) (zlen p) (zlen p + 2 * zlen entries) (u64 delta) va buf
  = apply_entries delta va entries buf.
Proof.
  intros Hva HF. revert fuel p buf. induction HF as [|r rs Hr HF IH]; intros [|f] p buf Hf;
    cbn [length] in *; try lia; cbn [reloc_entries apply_entries].
  - rewrite (zlen_nil (A := Z)). case_if; [lia|done].
  - rewrite zlen_cons. case_if; [|zlia]. unfold entries_bytes. cbn [map concat]. rewrite <- app_assoc.
    rewrite (rd_le_mid p (le_split 2 r) _ (zlen p) 2 r), bind_Ok by done.
    change 0xfff with (Z.ones 12). rewrite Z.land_ones by lia. change (2 ^ 12) with 4096.
    rewrite fixup_relocated by (done || pose proof (Z.mod_pos_bound r 4096 ltac:(lia)); lia).
    destruct (relocated _ _ _ _) as [[b|]| |]; try done. rewrite !bind_Ok.
    specialize (IH f (p ++ le_split 2 r) b). unfold entries_bytes in IH.
    rewrite <- app_assoc, zlen_app, zlen_le_split in IH. change (Z.of_nat 2) with 2 in IH.
    rewrite <- IH by lia. f_equal. lia.
Qed.

Section table.
Context (obase data size dirsize delta : Z).
Context (Ho : 0 <= obase) (Hoe : obase + size < 2 ^ 64) (Hd : 0 <= data) (Hde : data + size <= 2 ^ 64).
Context (Hs : 0 < size < 2 ^ 31).

Lemma reloc_blocks_ok fuel p bs q buf :
  Forall block_wf bs -> (length bs < fuel)%nat ->
  zlen p + zlen (table_bytes bs) <= size -> zlen (table_bytes bs) <= dirsize ->
  reloc_blocks fuel obase data size dirsize (u64 delta) (p ++ table_bytes bs ++ q) (obase + zlen p)
    (obase + zlen p + zlen (table_bytes bs) - 1) buf
  = apply_blocks delta size bs buf.
Proof.
  intros HF. revert fuel p buf. induction HF as [|[va es] bs [Hva Hes] HF IH]; intros [|f] p buf Hf Hsz Hdir;
    cbn [length] in *; try lia; cbn [reloc_blocks apply_blocks].
  { change (zlen (table_bytes [])) with 0. case_if; [lia|done]. }
  unfold table_bytes in *. cbn [map concat] in *. cbn [fst snd] in *.
  rewrite zlen_app, block_bytes_length in *. cbn [snd] in *. set (T := concat (map block_bytes bs)) in *.
  pose proof (zlen_nonneg T). pose proof (zlen_nonneg es). pose proof (zlen_nonneg p).
  unfold block_size in *. case_if; [|lia]. replace (obase + zlen p - obase) with (zlen p) by lia.
  rewrite <- (app_assoc (block_bytes _)). 
  change (block_bytes (va, es)) with (le_split 4 va ++ le_split 4 (8 + 2 * zlen es) ++ entries_bytes es).
  rewrite <- !app_assoc.
  rewrite (app_assoc p (le_split 4 va)).
  rewrite (rd_le_mid (p ++ le_split 4 va) _ _ (zlen p + 4) 4 (8 + 2 * zlen es)), bind_Ok;
    [|zlia|done|change (2 ^ (8 * Z.of_nat 4)) with (2 ^ 32); lia].
  repeat (case_if; [lia|]). rewrite (u64_small (obase + zlen p + (8 + 2 * zlen es))), (u64_small (obase + size)), (u64_small size) by lia. cbn [orb].
  replace ((obase + zlen p + (8 + 2 * zlen es) <? obase) ||
           (obase + size <? obase + zlen p + (8 + 2 * zlen es))) with false
    by (symmetry; solve_bool).
  rewrite <- app_assoc, (rd_le_mid p (le_split 4 va) _ _ 4 va), bind_Ok by done.
  rewrite ImageAddress_eq by lia. destruct (size <=? va) eqn:Eva; [done|].
  replace (data + va - data) with va by lia.
  replace (obase + zlen p + (8 + 2 * zlen es) - obase)
    with (zlen (p ++ le_split 4 va ++ le_split 4 (8 + 2 * zlen es)) + 2 * zlen es) by zlia.
  replace (zlen p + 8) with (zlen (p ++ le_split 4 va ++ le_split 4 (8 + 2 * zlen es))) by zlia.
  rewrite (app_assoc (le_split 4 va)), (app_assoc p).
  rewrite reloc_entries_ok; [|lia|done|].
  2:{ rewrite !length_app. pose proof (entries_bytes_length es). unfold zlen in *. lia. }
  destruct (apply_entries delta va es buf) as [[st b]| |]; try done. rewrite !bind_Ok.
  destruct (EFI_ERROR st); [done|].
  specialize (IH f ((p ++ le_split 4 va ++ le_split 4 (8 + 2 * zlen es)) ++ entries_bytes es) b).
  rewrite <- IH; [|lia|rewrite zlen_app, entries_bytes_length; zlia|lia].
  rewrite !zlen_app, !zlen_le_split, entries_bytes_length, <- !app_assoc. fold T. f_equal; lia.
Qed.
End table.

Lemma table_bytes_pos bs : bs <> [] -> 8 <= zlen (table_bytes bs).
Proof.
  destruct bs as [|b bs]; [done|]. intros _. unfold table_bytes. cbn [map concat].
  rewrite zlen_app, block_bytes_length. unfold block_size. zlia.
Qed.

Lemma table_bytes_count bs : (length bs <= length (table_bytes bs))%nat.
Proof.
  induction bs as [|b bs IH]; [done|]. unfold table_bytes in *. cbn [map concat length].
  rewrite length_app. pose proof (block_bytes_length b) as Hb. unfold block_size, zlen in Hb. lia.
Qed.

Section relocate.
Context (ctx : PE_CONTEXT) (s : EFI_IMAGE_SECTION_HEADER) (obase data : Z).
Context (p q : list Z) (bs : list (Z * list Z)) (va : Z).
Let orig : list Z := p ++ table_bytes bs ++ q.
Hypothesis (Hne : bs <> []) (Hwf : Forall block_wf bs).
Hypothesis (Hptr : PointerToRawData s = zlen p).
Hypothesis (Hdir : read_dir orig (RelocDir ctx) = Ok (va, zlen (table_bytes bs))).
Hypothesis (Himg : ImageSize ctx < 2 ^ 31).
Hypothesis (Hfit : zlen p + zlen (table_bytes bs) <= ImageSize ctx).
Hypothesis (Ho : 0 <= obase) (Hoe : obase + ImageSize ctx < 2 ^ 64).
Hypothesis (Hd : 0 <= data) (Hde : data + ImageSize ctx <= 2 ^ 64).

Lemma relocate_coff_ok buf :
  relocate_coff ctx s obase orig data buf
  = let delta := data - ctx_ImageAddress ctx in
    if u64 delta =? 0 then Ok (EFI_SUCCESS, buf) else apply_blocks delta (ImageSize ctx) bs buf.
Proof.
  unfold relocate_coff. rewrite Hdir, bind_Ok, Hptr. pose proof (table_bytes_pos bs Hne).
  pose proof (zlen_nonneg p).
  assert (Hi : i32 (ImageSize ctx) = ImageSize ctx) by (unfold i32; rewrite Z.mod_small; lia).
  rewrite Hi, (u64_small (ImageSize ctx)), u32_small by lia. rewrite !ImageAddress_eq by lia.
  repeat (case_if; [lia|]). cbn zeta.
  replace (obase + (zlen p + zlen (table_bytes bs) - 1)) with (obase + zlen p + zlen (table_bytes bs) - 1) by lia.
  unfold orig. rewrite reloc_blocks_ok; auto; try lia. rewrite !length_app.
  pose proof (table_bytes_count bs). lia.
Qed.
End relocate.

Lemma relocated_length delta off type buf b : 0 <= off -> relocated delta off type buf = Ok (Some b) -> zlen b = zlen buf.
Proof.
  intros Ho. unfold relocated. case_if; [by intros [= <-]|]. destruct (reloc_field type) as [[n bit]|]; [|done]. case_if; [|done].
  intros [= <-]. unfold relocated_field, zlen in *. rewrite !length_app, length_take, length_drop, le_split_length. lia.
Qed.

Lemma apply_entries_length delta va es buf st b :
  0 <= va -> apply_entries delta va es buf = Ok (st, b) -> zlen b = zlen buf.
Proof.
  intros Hva. revert buf. induction es as [|r rs IH]; intros buf; cbn [apply_entries]; [by intros [= _ <-]|].
  destruct (relocated _ _ _ _) as [[b'|]| |] eqn:E; try done; rewrite bind_Ok; [|by intros [= _ <-]].
  intros H. rewrite (IH _ H). eapply relocated_length; [|done]. pose proof (Z.mod_pos_bound r 4096). lia.
Qed.

Lemma apply_blocks_length delta size bs buf st b :
  Forall block_wf bs -> apply_blocks delta size bs buf = Ok (st, b) -> zlen b = zlen buf.
Proof.
  intros HF. revert buf. induction HF as [|[va es] bs [Hva _] _ IH]; intros buf; cbn [apply_blocks]; [by intros [= _ <-]|].
  case_if; [by intros [= _ <-]|].
  destruct (apply_entries _ _ _ _) as [[st' b']| |] eqn:E; try done. rewrite bind_Ok.
  apply apply_entries_length in E; [|cbn in Hva; lia]. case_if; [by intros [= _ <-]|]. intros H. by rewrite (IH _ H).
Qed.

(** The fields of a block lie inside an image of [size] bytes. *)
Definition entry_inside (size va r : Z) : Prop :=
  match reloc_field (r / 4096) with Some (n, _) => va + r mod 4096 + Z.of_nat n <= size | None => True end.
Definition block_inside (size : Z) (b : Z * list Z) : Prop := Forall (entry_inside size (fst b)) (snd b).

Lemma apply_entries_returns delta va es buf size : 0 <= va -> Forall (entry_inside size va) es -> size <= zlen buf ->
  exists st b, apply_entries delta va es buf = Ok (st, b).
Proof.
  intros Hva HF. revert buf. induction HF as [|r rs Hr _ IH]; intros buf Hs; cbn [apply_entries]; [by eexists _, _|].
  assert (Hrel : exists o, relocated delta (va + r mod 4096) (r / 4096) buf = Ok o).
  { unfold relocated, entry_inside in *. case_if; [eauto|]. destruct (reloc_field _) as [[n bit]|]; [|eauto]. case_if; [eauto|lia]. }
  destruct Hrel as ([b|] & Hrel); rewrite Hrel, bind_Ok; [|by eexists _, _]. apply IH.
  apply relocated_length in Hrel; [lia|]. pose proof (Z.mod_pos_bound r 4096). lia.
Qed.
Lemma apply_blocks_returns delta size bs buf : Forall block_wf bs -> Forall (block_inside size) bs -> size <= zlen buf ->
  exists st b, apply_blocks delta size bs buf = Ok (st, b).
Proof.
  intros HF. revert buf. induction HF as [|[va es] bs [Hva _] _ IH]; intros buf Hin Hs; cbn [apply_blocks]; [by eexists _, _|].
  inversion Hin as [|? ? Hb Hin']; subst. cbn [fst snd] in *. case_if; [by eexists _, _|].
  destruct (apply_entries_returns delta va es buf size ltac:(lia) Hb Hs) as (st & b & E). rewrite E, bind_Ok.
  case_if; [by eexists _, _|]. apply IH; [done|]. apply apply_entries_length in E; lia.
Qed.

(** C26. On a well-formed relocation table inside the file, relocate_coff
    relocates by the difference between the load address and the preferred one:
    block after block and entry after entry, the field of the width that the
    type of the entry says grows by the difference (or its upper or lower half),
    modulo its width, and no other byte changes; it stops with an error at the
    first block whose page is outside the image or relocation of unknown type; it
    does nothing when the difference is zero, and never changes the size of the
    image. *)
Theorem relocate_coff_correct ctx s obase data p q bs va buf :
  bs <> [] -> Forall block_wf bs -> PointerToRawData s = zlen p ->
  read_dir (p ++ table_bytes bs ++ q) (RelocDir ctx) = Ok (va, zlen (table_bytes bs)) ->
  ImageSize ctx < 2 ^ 31 -> zlen p + zlen (table_bytes bs) <= ImageSize ctx ->
  0 <= obase -> obase + ImageSize ctx < 2 ^ 64 -> 0 <= data -> data + ImageSize ctx <= 2 ^ 64 ->
  let delta := data - ctx_ImageAddress ctx in
  let r := relocate_coff ctx s obase (p ++ table_bytes bs ++ q) data buf in
  r = (if u64 delta =? 0 then Ok (EFI_SUCCESS, buf) else apply_blocks delta (ImageSize ctx) bs buf) /\
  forall st buf', r = Ok (st, buf') -> zlen buf' = zlen buf.
Proof.
  intros. unfold r. erewrite relocate_coff_ok by eassumption. cbn zeta. fold delta. split; [done|].
  case_if; [by intros ? ? [= _ <-]|]. intros ? ?. by apply apply_blocks_length.
Qed.

(** A file whose directory at offset 0 describes the table at offset 8: one
    64-bit relocation at 16 and a padding entry. *)
Definition sample_table : list (Z * list Z) := [(16, [0xa000; 0])].
Definition sample_reloc_prefix : list Z := le_split 4 8 ++ le_split 4 12.
Definition reloc_ctx (size : Z) : PE_CONTEXT :=
  {| ctx_ImageAddress := 0x1000; ImageSize := size; EntryPoint := 0; SizeOfHeaders := 0;
     NumberOfSections := 0; SectionAlignment := 4096; FirstSection := 0; RelocDir := 0; SecDir := 0;
     NumberOfRvaAndSizes := 16; DllCharacteristics := 0; PEHdr := 0 |}.
Definition reloc_section : EFI_IMAGE_SECTION_HEADER :=
  {| Name := []; VirtualSize := 12; VirtualAddress := 8; SizeOfRawData := 12; PointerToRawData := 8;
     PointerToRelocations := 0; NumberOfRelocations := 0; Characteristics := 0 |}.

Lemma relocate_coff_correct_witness :
  relocate_coff (reloc_ctx 24) reloc_section 0 (sample_reloc_prefix ++ table_bytes sample_table ++ []) 0x3000
    (replicate 16 0 ++ le_split 8 0x1234) = Ok (EFI_SUCCESS, replicate 16 0 ++ le_split 8 0x3234).
Proof.
  destruct (relocate_coff_correct (reloc_ctx 24) reloc_section 0 0x3000 sample_reloc_prefix [] sample_table 8
           (replicate 16 0 ++ le_split 8 0x1234)) as [-> _];
    [discriminate|repeat constructor; cbn; lia|reflexivity|reflexivity|cbn; lia|vm_compute; congruence
    |lia|cbn; lia|lia|cbn; lia|vm_compute; reflexivity].
Defined.

Lemma fixup_past_image size delta buf :
  0 < size -> zlen buf = size ->
  apply_blocks delta size [(size - 1, [0xa000])] buf = Fault.
Proof.
  intros Hs Hb. cbn [apply_blocks]. case_if; [lia|]. cbn [apply_entries].
  change (0xa000 / 4096) with 10. change (0xa000 mod 4096) with 0. unfold relocated. cbn [Z.eqb Pos.eqb].
  change (reloc_field 10) with (Some (8%nat, 0)). cbn [Z.eqb]. case_if; [lia|done].
Qed.

(** The page of a block is checked against the image but not the word a
    relocation changes: a 64-bit relocation that starts on the last byte of an
    image makes relocate_coff access the memory behind it. *)
Theorem relocate_coff_past_image ctx s obase data p q va buf :
  let bs := [(ImageSize ctx - 1, [0xa000])] in
  PointerToRawData s = zlen p ->
  read_dir (p ++ table_bytes bs ++ q) (RelocDir ctx) = Ok (va, zlen (table_bytes bs)) ->
  ImageSize ctx < 2 ^ 31 -> zlen p + zlen (table_bytes bs) <= ImageSize ctx ->
  0 <= obase -> obase + ImageSize ctx < 2 ^ 64 -> 0 <= data -> data + ImageSize ctx <= 2 ^ 64 ->
  u64 (data - ctx_ImageAddress ctx) <> 0 -> zlen buf = ImageSize ctx ->
  relocate_coff ctx s obase (p ++ table_bytes bs ++ q) data buf = Fault.
Proof.
  intros bs Hp Hdir Hi Hfit Ho Hoe Hd Hde Hadj Hbuf.
  pose proof (table_bytes_pos bs ltac:(discriminate)). pose proof (zlen_nonneg p).
  erewrite relocate_coff_ok; try eassumption; [|done|].
  - cbn zeta. case_if; [done|]. apply fixup_past_image; lia.
  - constructor; [|done]. split; cbn; [lia|]. repeat constructor; lia.
Qed.

Definition past_image_table : list (Z * list Z) := [(24 - 1, [0xa000])].

Lemma relocate_coff_past_image_witness :
  relocate_coff (reloc_ctx 24) reloc_section 0
    ((le_split 4 8 ++ le_split 4 10) ++ table_bytes past_image_table ++ []) 0x3000 (replicate 24 0) = Fault.
Proof.
  apply (relocate_coff_past_image (reloc_ctx 24) reloc_section 0 0x3000 (le_split 4 8 ++ le_split 4 10) [] 8
           (replicate 24 0));
    [reflexivity|reflexivity|cbn; lia|vm_compute; congruence|lia|cbn; lia|lia|cbn; lia
    |vm_compute; congruence|reflexivity].
Defined.
