(* ===== verification/PeHash.v ===== *)
(** * The Authenticode digest: generate_hash of pe.c

    The two SHA libraries are parameters: what matters is the byte string they
    are fed, which is the concatenation of the updates.  [generate_hash]
    computes that string, with the C code's checks and 32-bit arithmetic; the
    theorems say that it never reads outside the file and that, for sections
    that follow each other in the file, exactly the checksum, the security
    directory entry and the certificate table are left out. *)
From stdpp Require Import base list numbers option sorting.
From Stdlib Require Import ZArith Lia.
From S2P Require Import Prelude.
From S2P Require Import Efi.
From S2P Require Import PeHeader.
Local Open Scope Z_scope.

(** check_size: both bounds are relative to the file, so its address cancels. *)
Definition check_size (datasize hashbase hashsize : Z) : bool :=
  negb ((datasize <? hashbase) || (datasize <? hashbase + hashsize)).

(** One update of both digests with [hashsize] bytes at [hashbase]. *)
Definition update (data : list Z) (datasize hashbase hashsize : Z) (input : list Z)
  : res (EFI_STATUS + list Z) :=
  if negb (check_size datasize hashbase hashsize) then reject EFI_INVALID_PARAMETER
  else chunk ← rdn data hashbase hashsize; Ok (inr (input ++ chunk)).

(** Continue with the value of a step or leave with its status. *)
Definition and_then {A B} (r : res (EFI_STATUS + A)) (k : A -> res (EFI_STATUS + B)) : res (EFI_STATUS + B) :=
  x ← r; match x with inl st => reject st | inr a => k a end.

(** ** Sorting the sections by their place in the file

    The shifting loop starts at the end of the table. *)
Fixpoint shift_in (s : EFI_IMAGE_SECTION_HEADER) (rev_table : list EFI_IMAGE_SECTION_HEADER)
  : list EFI_IMAGE_SECTION_HEADER :=
  match rev_table with
  | [] => [s]
  | x :: xs => if PointerToRawData s <? PointerToRawData x then x :: shift_in s xs else s :: x :: xs
  end.
Definition insert_section (s : EFI_IMAGE_SECTION_HEADER) (table : list EFI_IMAGE_SECTION_HEADER) :=
  rev (shift_in s (rev table)).

(** [for (index...)]: validate the sections and build the table; the loop ends
    early at EFI_NOT_FOUND, which get_section_vma returns only for an index past
    the last section, so never here.  [k] sections
    are left. *)
Fixpoint collect_sections (k : nat) (index : Z) (base : Z) (data : list Z) (datasize hashed sum : Z)
    (ctx : PE_CONTEXT) (table : list EFI_IMAGE_SECTION_HEADER)
  : res (EFI_STATUS + list EFI_IMAGE_SECTION_HEADER) :=
  match k with
  | O => Ok (inr table)
  | S k' =>
      r ← get_section_vma index data base ctx;
      match r with
      | inl st => reject st
      | inr (_, _, s) =>
          if u32 (datasize - hashed - sum) <? SizeOfRawData s then reject EFI_INVALID_PARAMETER
          else collect_sections k' (index + 1) base data datasize hashed (u32 (sum + SizeOfRawData s)) ctx
                 (insert_section s table)
      end
  end.

(** Hash the sections; the accumulator is the input so far and
    SumOfBytesHashed. *)
Fixpoint hash_sections (base : Z) (data : list Z) (datasize : Z) (table : list EFI_IMAGE_SECTION_HEADER)
    (input : list Z) (hashed : Z) : res (EFI_STATUS + (list Z * Z)) :=
  match table with
  | [] => Ok (inr (input, hashed))
  | s :: table' =>
      if SizeOfRawData s =? 0 then hash_sections base data datasize table' input hashed
      else
        match ImageAddress base datasize (PointerToRawData s) with
        | None => reject EFI_INVALID_PARAMETER
        | Some addr =>
            if u32 (datasize - PointerToRawData s) <? SizeOfRawData s then reject EFI_INVALID_PARAMETER
            else
              and_then (update data datasize (addr - base) (SizeOfRawData s) input)
                (fun input => hash_sections base data datasize table' input (u32 (hashed + SizeOfRawData s)))
        end
  end.

(** The headers: start to checksum, checksum to security directory entry,
    the rest of SizeOfHeaders. *)
Definition hash_headers (data : list Z) (datasize : Z) (ctx : PE_CONTEXT) : res (EFI_STATUS + list Z) :=
  let checksum := PEHdr ctx + 88 in
  let dd := SecDir ctx + sizeof_DATA_DIRECTORY in
  and_then (update data datasize 0 (u32 checksum) [])
    (fun input => and_then (update data datasize (checksum + 4) (u32 (SecDir ctx - (checksum + 4))) input)
      (fun input =>
         let hashsize := u32 (SizeOfHeaders ctx - dd) in
         if datasize <? hashsize then reject EFI_INVALID_PARAMETER
         else update data datasize dd hashsize input)).

(** The context when it has no sections: read again from the header. *)
Definition refresh_sections (base : Z) (data : list Z) (datasize : Z) (ctx : PE_CONTEXT)
  : res (EFI_STATUS + PE_CONTEXT) :=
  if negb (NumberOfSections ctx =? 0) then Ok (inr ctx)
  else
    PEHdr_offset ← rd_le data 60 4;
    nsections ← rd_le data (PEHdr ctx + 6) 2;
    opthdrsz ← rd_le data (PEHdr ctx + 20) 2;
    let addr := PEHdr_offset + 4 + sizeof_FILE_HEADER + opthdrsz in
    match ImageAddress base datasize addr with
    | None => reject EFI_INVALID_PARAMETER
    | Some section0 =>
        let addr := u64 (addr + EFI_IMAGE_SIZEOF_SECTION_HEADER * (nsections - 1)) in
        match ImageAddress base datasize addr with
        | None => reject EFI_INVALID_PARAMETER
        | Some _ =>
            Ok (inr {| ctx_ImageAddress := ctx_ImageAddress ctx; ImageSize := ImageSize ctx;
                       EntryPoint := EntryPoint ctx; SizeOfHeaders := SizeOfHeaders ctx;
                       NumberOfSections := nsections; SectionAlignment := SectionAlignment ctx;
                       FirstSection := section0 - base; RelocDir := RelocDir ctx; SecDir := SecDir ctx;
                       NumberOfRvaAndSizes := NumberOfRvaAndSizes ctx;
                       DllCharacteristics := DllCharacteristics ctx; PEHdr := PEHdr ctx |})
        end
    end.

(** What follows the sections: the data before the certificate table, or
    everything left and padding to a multiple of eight. *)
Definition hash_tail (data : list Z) (datasize secva secsize : Z) (input : list Z) (hashed : Z)
  : res (EFI_STATUS + list Z) :=
  and_then
    (if (hashed <? datasize) && negb (secsize =? 0) then
       let hashsize := u32 (datasize - secsize - hashed) in
       if (u32 (datasize - hashed) <? secsize) || negb (u32 (hashed + hashsize) =? secva)
       then reject EFI_INVALID_PARAMETER
       else and_then (update data datasize hashed hashsize input)
              (fun input => Ok (inr (input, u32 (hashed + hashsize))))
     else Ok (inr (input, hashed)))
    (fun '(input, hashed) =>
       if u32 (hashed + secsize) <? datasize then
         let hashsize := u32 (datasize - hashed) in
         and_then (update data datasize hashed hashsize input)
           (fun input =>
              let hashed := u32 (hashed + hashsize) in
              let pad := u32 (ALIGN_VALUE 32 hashed 8 - hashed) in
              if 8 <? pad then Fault else Ok (inr (input ++ replicate (Z.to_nat pad) 0)))
       else Ok (inr input)).

(** The input of both digests.  [ctx_alloc] and [hdr_alloc] are the
    allocations of the contexts and of the section table. *)
Definition hash_input (ctx_alloc hdr_alloc : bool) (base : Z) (data : list Z) (datasize : Z)
    (ctx : PE_CONTEXT) : res (EFI_STATUS + (list Z * PE_CONTEXT)) :=
  if datasize <=? sizeof_DOS_HEADER then reject EFI_INVALID_PARAMETER
  else
    e_magic ← rd_le data 0 2;
    if negb (e_magic =? EFI_IMAGE_DOS_SIGNATURE) then reject EFI_INVALID_PARAMETER
    else if negb ctx_alloc then reject EFI_OUT_OF_RESOURCES
    else
      and_then (hash_headers data datasize ctx) (fun input =>
      and_then (refresh_sections base data datasize ctx) (fun ctx =>
      if negb hdr_alloc then reject EFI_OUT_OF_RESOURCES
      else
        let hashed := u32 (SizeOfHeaders ctx) in
        and_then (collect_sections (Z.to_nat (NumberOfSections ctx)) 0 base data datasize hashed 0 ctx [])
          (fun table =>
        and_then (hash_sections base data datasize table input hashed) (fun '(input, hashed) =>
        '(secva, secsize) ← read_dir data (SecDir ctx);
        and_then (hash_tail data datasize secva secsize input hashed) (fun input =>
        Ok (inr (input, ctx))))))).

(** generate_hash: the two digests and the context it leaves.  Sha256Init, Sha1Init,
    Sha256Update, Sha1Update and the calls for the results report failure for a NULL
    argument and, in the library, never otherwise; the code makes EFI_OUT_OF_RESOURCES
    of a failure.  These failures are not represented. *)
Definition generate_hash (sha256 sha1 : list Z -> list Z) (ctx_alloc hdr_alloc : bool) (base : Z)
    (data : list Z) (datasize : Z) (ctx : PE_CONTEXT)
  : res (EFI_STATUS + (list Z * list Z * PE_CONTEXT)) :=
  and_then (hash_input ctx_alloc hdr_alloc base data datasize ctx)
    (fun '(input, ctx) => Ok (inr (sha256 input, sha1 input, ctx))).

(** ** Bytes of the file *)
Definition slice (data : list Z) (from to : Z) : list Z :=
  take (Z.to_nat (to - from)) (drop (Z.to_nat from) data).

Lemma slice_app data a b c :
  0 <= a <= b -> b <= c -> c <= zlen data -> slice data a b ++ slice data b c = slice data a c.
Proof.
  intros Ha Hb Hc. unfold slice.
  replace (Z.to_nat (c - a)) with (Z.to_nat (b - a) + Z.to_nat (c - b))%nat by lia.
  rewrite <- take_take_drop, drop_drop. do 3 f_equal. lia.
Qed.

Lemma rdn_slice data a n : 0 <= a -> 0 <= n -> a + n <= zlen data -> rdn data a n = Ok (slice data a (a + n)).
Proof. intros. unfold rdn, slice. case_if; [|lia..]. do 3 f_equal. lia. Qed.

Lemma returns_bind {A B} (r : res (EFI_STATUS + A)) (k : A -> res (EFI_STATUS + B)) P Q :
  returns r P -> (forall a, P a -> returns (k a) Q) -> returns (and_then r k) Q.
Proof.
  intros (x & -> & Hx) Hk. unfold and_then. rewrite bind_Ok. destruct x; auto with shim.
Qed.

Lemma update_returns data datasize hb hs input :
  datasize <= zlen data -> 0 <= hb -> 0 <= hs ->
  returns (update data datasize hb hs input)
    (fun out => out = input ++ slice data hb (hb + hs) /\ hb + hs <= datasize).
Proof.
  intros Hl Hb Hs. unfold update, check_size. rewrite negb_involutive.
  destruct (_ || _) eqn:E; [auto with shim|]. bool_to_prop. rewrite rdn_slice, bind_Ok by lia.
  by apply returns_ok.
Qed.

Lemma insert_section_Forall (P : EFI_IMAGE_SECTION_HEADER -> Prop) s table :
  P s -> Forall P table -> Forall P (insert_section s table).
Proof.
  intros Hs HF. unfold insert_section. apply Forall_rev. apply Forall_rev in HF.
  induction HF as [|x xs Hx HF IH]; cbn [shift_in]; [by constructor|].
  destruct (_ <? _); constructor; auto.
Qed.

(** ** Safety *)
Section safety.
Context (base : Z) (data : list Z) (datasize : Z).
Hypothesis (Hb : bytes data) (Hl : datasize <= zlen data) (Hd : datasize < 2 ^ 32).
Hypothesis (Hbase : 0 <= base) (Hbd : base + datasize <= 2 ^ 64).

Lemma hash_headers_returns ctx :
  context_wf data datasize ctx ->
  returns (hash_headers data datasize ctx)
    (fun out => SizeOfHeaders ctx <= datasize /\
       out = slice data 0 (PEHdr ctx + 88) ++ slice data (PEHdr ctx + 92) (SecDir ctx) ++
             slice data (SecDir ctx + 8) (SizeOfHeaders ctx)).
Proof.
  intros []. unfold hash_headers, sizeof_DATA_DIRECTORY, sizeof_OPTIONAL_HEADER_UNION,
    EFI_IMAGE_SIZEOF_SECTION_HEADER in *.
  rewrite (u32_small (PEHdr ctx + 88)), (u32_small (SecDir ctx - _)) by lia.
  eapply returns_bind; [apply update_returns; lia|]. cbn beta. intros i1 [-> _].
  eapply returns_bind; [apply update_returns; lia|]. cbn beta. intros i2 [-> _].
  case_if; [auto with shim|]. pose proof (u32_range (SizeOfHeaders ctx - (SecDir ctx + 8))) as Hr.
  destruct (decide (SecDir ctx + 8 <= SizeOfHeaders ctx)) as [Hle|Hle].
  - rewrite u32_small in * by lia. eapply returns_impl; [apply update_returns; lia|]. cbn beta.
    intros out [-> Hle2]. split; [lia|]. rewrite <- app_assoc. cbn [app].
    rewrite Z.add_0_l. replace (PEHdr ctx + 88 + 4) with (PEHdr ctx + 92) by lia.
    by rewrite !Zplus_minus.
  - unfold u32 in *. replace (SizeOfHeaders ctx - (SecDir ctx + 8)) with
      (SizeOfHeaders ctx - (SecDir ctx + 8) + 2 ^ 32 + (-1) * 2 ^ 32) in * by lia.
    rewrite Z.mod_add, Z.mod_small in * by lia.
    eapply returns_impl; [apply update_returns; lia|]. cbn beta. intros out [_ Hbad]. lia.
Qed.

(** Reading the section count again gives the same context. *)
Lemma refresh_sections_returns ctx :
  context_wf data datasize ctx -> 64 < datasize -> rd_le data 0 2 = Ok EFI_IMAGE_DOS_SIGNATURE ->
  returns (refresh_sections base data datasize ctx) (eq ctx).
Proof.
  intros [] H64 Hmz. unfold refresh_sections, sizeof_OPTIONAL_HEADER_UNION in *.
  case_if; [by apply returns_ok|]. destruct wf_dos as [[_ ?]|Hpe]; [done|]. rewrite Hpe, wf_count, wf_opt, !bind_Ok.
  unfold sizeof_FILE_HEADER.
  replace (PEHdr ctx + 4 + 20 + (FirstSection ctx - PEHdr ctx - 24)) with (FirstSection ctx) by lia.
  rewrite ImageAddress_eq by lia. case_if; [auto with shim|].
  pose proof (u64_range (FirstSection ctx + EFI_IMAGE_SIZEOF_SECTION_HEADER * (NumberOfSections ctx - 1))).
  rewrite ImageAddress_eq by lia. destruct (datasize <=? u64 _); [auto with shim|]. apply returns_ok.
  replace (base + FirstSection ctx - base) with (FirstSection ctx) by lia. by destruct ctx.
Qed.

Lemma collect_sections_returns k index hashed sum ctx table :
  context_wf data datasize ctx -> base + ImageSize ctx <= 2 ^ 64 -> 0 <= index ->
  Forall (fun s => 0 <= SizeOfRawData s < 2 ^ 32 /\ 0 <= PointerToRawData s < 2 ^ 32) table ->
  returns (collect_sections k index base data datasize hashed sum ctx table)
    (Forall (fun s => 0 <= SizeOfRawData s < 2 ^ 32 /\ 0 <= PointerToRawData s < 2 ^ 32)).
Proof.
  intros Hw Hi. revert index sum table. induction k as [|k IH]; intros index sum table H0 HF;
    cbn [collect_sections]; [by apply returns_ok|].
  destruct (get_section_vma_in_range datasize index data base ctx) as (r & -> & Hr); auto.
  rewrite bind_Ok. destruct r as [st|[[b sz] s]]; [apply returns_reject; by destruct Hr as [[-> _]| ->]|].
  case_if; [auto with shim|].
  apply IH; [lia|]. destruct Hr as (Hlt & Hrs & _). pose proof Hw as [].
  unfold sizeof_OPTIONAL_HEADER_UNION, EFI_IMAGE_SIZEOF_SECTION_HEADER in *.
  destruct (read_section_in_range data (FirstSection ctx + 40 * index)) as (s' & Hs' & _ & _ & _ & ? & ?);
    [done|lia|unfold EFI_IMAGE_SIZEOF_SECTION_HEADER; lia|].
  rewrite Hrs in Hs'. injection Hs' as <-. by apply insert_section_Forall.
Qed.

Lemma hash_sections_returns table input hashed :
  Forall (fun s => 0 <= SizeOfRawData s < 2 ^ 32 /\ 0 <= PointerToRawData s < 2 ^ 32) table ->
  0 <= hashed < 2 ^ 32 ->
  returns (hash_sections base data datasize table input hashed) (fun '(_, h) => 0 <= h < 2 ^ 32).
Proof.
  intros HF. revert input hashed. induction HF as [|s table [Hs Hp] HF IH]; intros input hashed Hh;
    cbn [hash_sections]; [by apply returns_ok|]. case_if; [auto|].
  rewrite ImageAddress_eq by lia. case_if; [auto with shim|]. case_if; [auto with shim|].
  replace (base + PointerToRawData s - base) with (PointerToRawData s) by lia.
  eapply returns_bind; [apply update_returns; lia|]. intros out _. apply IH. apply u32_range.
Qed.

Lemma align8_pad h : 0 <= h < 2 ^ 32 -> 0 <= u32 (ALIGN_VALUE 32 h 8 - h) <= 7.
Proof.
  intros Hh. unfold ALIGN_VALUE. change ((8 - 1) mod 2 ^ 32) with (Z.ones 3).
  rewrite Z.land_ones by lia. pose proof (Z.mod_pos_bound ((8 - h) mod 2 ^ 32) (2 ^ 3)).
  set (x := ((8 - h) mod 2 ^ 32) mod 2 ^ 3) in *. unfold u32. rewrite Zminus_mod_idemp_l.
  replace (h + x - h) with x by lia. rewrite Z.mod_small by lia. lia.
Qed.

Lemma hash_tail_returns secva secsize input hashed :
  0 <= hashed < 2 ^ 32 -> returns (hash_tail data datasize secva secsize input hashed) (fun _ => True).
Proof.
  intros Hh. unfold hash_tail. eapply (returns_bind _ _ (fun '(_, h) => 0 <= h < 2 ^ 32)).
  - destruct (_ && _); [|by apply returns_ok]. destruct (_ || _); [auto with shim|].
    pose proof (u32_range (datasize - secsize - hashed)).
    eapply returns_bind; [apply update_returns; lia|]. intros out _. apply returns_ok, u32_range.
  - intros [i h] Hh'. case_if; [|by apply returns_ok]. pose proof (u32_range (datasize - h)).
    eapply returns_bind; [apply update_returns; lia|]. intros out _.
    pose proof (align8_pad (u32 (h + u32 (datasize - h))) (u32_range _)). case_if; [lia|by apply returns_ok].
Qed.

Lemma hash_input_returns ca ha ctx :
  context_wf data datasize ctx -> base + ImageSize ctx <= 2 ^ 64 ->
  returns (hash_input ca ha base data datasize ctx) (fun '(_, c) => c = ctx).
Proof.
  intros Hw Hi. unfold hash_input, sizeof_DOS_HEADER. case_if; [auto with shim|].
  destruct (rd_le_in_range data 0 2) as (mg & Emg & _); [done|lia..|]. rewrite Emg, bind_Ok.
  destruct (mg =? EFI_IMAGE_DOS_SIGNATURE) eqn:Emz; cbn [negb]; [|auto with shim]. apply Z.eqb_eq in Emz as ->.
  destruct ca; cbn [negb]; [|auto with shim].
  eapply returns_bind; [by apply hash_headers_returns|]. intros i1 _.
  eapply returns_bind; [by apply refresh_sections_returns; [done|lia|]|]. intros c <-.
  destruct ha; cbn [negb]; [|auto with shim].
  eapply returns_bind; [by apply collect_sections_returns|].
  intros table Ht. eapply returns_bind; [apply hash_sections_returns; [done|apply u32_range]|].
  intros [i2 h] Hh. pose proof Hw as []. unfold read_dir, sizeof_OPTIONAL_HEADER_UNION in *.
  read_field va Hva. read_field sz Hsz. rewrite bind_Ok.
  eapply returns_bind; [by apply hash_tail_returns|]. intros i3 _. by apply returns_ok.
Qed.

Lemma generate_hash_returns sha256 sha1 ca ha ctx :
  context_wf data datasize ctx -> base + ImageSize ctx <= 2 ^ 64 ->
  returns (generate_hash sha256 sha1 ca ha base data datasize ctx)
    (fun '(h256, h1, c) => c = ctx /\ exists input, h256 = sha256 input /\ h1 = sha1 input).
Proof.
  intros. eapply returns_bind; [by apply hash_input_returns|]. intros [i c] Hc. apply returns_ok. eauto.
Qed.
End safety.

(** generate_hash never reads outside the file, whatever its bytes are, for
    a context that read_header accepted. *)
Theorem generate_hash_safe sha256 sha1 ca ha base data datasize ctx :
  bytes data -> datasize <= zlen data -> datasize < 2 ^ 32 -> 0 <= base -> base + datasize <= 2 ^ 64 ->
  context_wf data datasize ctx -> base + ImageSize ctx <= 2 ^ 64 ->
  exists r, generate_hash sha256 sha1 ca ha base data datasize ctx = Ok r.
Proof.
  intros. destruct (generate_hash_returns base data datasize) with sha256 sha1 ca ha ctx as (r & -> & _); eauto.
Qed.

Lemma generate_hash_safe_witness :
  exists r, generate_hash id id true true 0x100000 sample_pe 576 sample_ctx = Ok r.
Proof.
  apply (generate_hash_safe id id true true 0x100000 sample_pe 576 sample_ctx);
    [apply sample_pe_bytes|vm_compute; congruence|lia..|apply sample_ctx_wf|cbn; lia].
Defined.

(** ** Sorting *)
Definition by_offset (a b : EFI_IMAGE_SECTION_HEADER) : Prop := PointerToRawData a <= PointerToRawData b.
Definition sort_sections (secs : list EFI_IMAGE_SECTION_HEADER) : list EFI_IMAGE_SECTION_HEADER :=
  fold_left (fun t s => insert_section s t) secs [].

Lemma shift_in_perm s l : Permutation (s :: l) (shift_in s l).
Proof.
  induction l as [|x xs IH]; cbn [shift_in]; [done|]. case_if; [|done].
  rewrite perm_swap. by constructor.
Qed.

Lemma shift_in_sorted s l :
  StronglySorted (fun a b => by_offset b a) l -> StronglySorted (fun a b => by_offset b a) (shift_in s l).
Proof.
  unfold by_offset. induction 1 as [|x xs HS IH HF]; cbn [shift_in]; [by repeat constructor|].
  case_if; [|constructor; [by constructor|]].
  - constructor; [done|]. rewrite <- shift_in_perm. constructor; [lia|done].
  - constructor; [lia|]. eapply Forall_impl; [exact HF|]. cbn. lia.
Qed.

Lemma StronglySorted_rev {A} (R : A -> A -> Prop) l :
  StronglySorted R l -> StronglySorted (fun a b => R b a) (rev l).
Proof.
  induction 1 as [|x xs HS IH HF]; cbn; [constructor|].
  assert (HFr : Forall (fun a => R x a) (rev xs)) by by apply Forall_rev.
  clear HS HF. induction IH as [|y ys HS IHy HFy]; cbn; [by repeat constructor|].
  inversion HFr; subst. constructor; [auto|]. apply Forall_app. split; [done|]. by constructor.
Qed.

Lemma insert_section_sorted s t : StronglySorted by_offset t -> StronglySorted by_offset (insert_section s t).
Proof.
  intros HS. unfold insert_section. apply StronglySorted_rev in HS. apply (shift_in_sorted s) in HS.
  by apply (StronglySorted_rev (fun a b => by_offset b a)) in HS.
Qed.

Lemma insert_section_perm s t : Permutation (s :: t) (insert_section s t).
Proof.
  unfold insert_section. rewrite <- (rev_involutive t) at 1.
  rewrite <- Permutation_rev at 1.
  transitivity (shift_in s (rev t)); [apply shift_in_perm|apply Permutation_rev].
Qed.

(** The sections are hashed in the order of their place in the file: the
    insertion into the table sorts it by PointerToRawData and keeps every
    section. *)
Theorem sort_sections_correct secs :
  StronglySorted by_offset (sort_sections secs) /\ Permutation secs (sort_sections secs).
Proof.
  unfold sort_sections.
  enough (H : forall t, StronglySorted by_offset t ->
    StronglySorted by_offset (fold_left (fun t s => insert_section s t) secs t) /\
    Permutation (secs ++ t) (fold_left (fun t s => insert_section s t) secs t)).
  { destruct (H [] (SSorted_nil _)) as [HS HP]. rewrite app_nil_r in HP. auto. }
  induction secs as [|s secs IH]; intros t HS; cbn; [done|].
  destruct (IH (insert_section s t) (insert_section_sorted s t HS)) as [HS' HP]. split; [done|].
  rewrite <- HP. rewrite <- (insert_section_perm s t). apply Permutation_middle.
Qed.

(** ** What is hashed *)
Fixpoint read_sections (k : nat) (data : list Z) (off : Z) : res (list EFI_IMAGE_SECTION_HEADER) :=
  match k with
  | O => Ok []
  | S k' => s ← read_section data off;
            rest ← read_sections k' data (off + EFI_IMAGE_SIZEOF_SECTION_HEADER);
            Ok (s :: rest)
  end.
Definition section_table (data : list Z) (ctx : PE_CONTEXT) : res (list EFI_IMAGE_SECTION_HEADER) :=
  read_sections (Z.to_nat (NumberOfSections ctx)) data (FirstSection ctx).

(** Where the raw data of sections that follow each other from [a] ends. *)
Fixpoint contiguous_end (a : Z) (t : list EFI_IMAGE_SECTION_HEADER) : option Z :=
  match t with
  | [] => Some a
  | s :: t' => if SizeOfRawData s =? 0 then contiguous_end a t'
               else if PointerToRawData s =? a then contiguous_end (a + SizeOfRawData s) t'
               else None
  end.

(** The Authenticode input: the file without the checksum, the security
    directory entry and the certificate table; bytes behind the sections of an
    unsigned file are padded to a multiple of eight. *)
Definition authenticode_input (data : list Z) (datasize : Z) (ctx : PE_CONTEXT) (secsize E : Z) : list Z :=
  slice data 0 (PEHdr ctx + 88) ++ slice data (PEHdr ctx + 92) (SecDir ctx) ++
  (if secsize =? 0
   then slice data (SecDir ctx + 8) datasize ++
        (if E <? datasize then replicate (Z.to_nat ((8 - datasize) mod 8)) 0 else [])
   else slice data (SecDir ctx + 8) (datasize - secsize)).

Lemma and_then_inv {A B} (r : res (EFI_STATUS + A)) (k : A -> res (EFI_STATUS + B)) b :
  and_then r k = Ok (inr b) -> exists a, r = Ok (inr a) /\ k a = Ok (inr b).
Proof. unfold and_then. destruct r as [[st|a]| |]; cbn; try done. eauto. Qed.

Lemma returns_inv {A} (r : res (EFI_STATUS + A)) P a : returns r P -> r = Ok (inr a) -> P a.
Proof. intros (x & -> & Hx) [= ->]. auto. Qed.

Lemma get_section_vma_section i data base ctx b sz s :
  get_section_vma i data base ctx = Ok (inr (b, sz, s)) ->
  read_section data (FirstSection ctx + EFI_IMAGE_SIZEOF_SECTION_HEADER * i) = Ok s.
Proof.
  unfold get_section_vma, reject. destruct (_ <=? _); [done|].
  destruct (read_section _ _) as [s'| |]; try done. rewrite bind_Ok.
  destruct (section_bounds base ctx s'). repeat (match goal with |- context [if ?b then _ else _] => destruct b end; [done|]).
  by intros [= _ _ ->].
Qed.

Lemma collect_sections_table k index base data datasize hashed sum ctx table t :
  collect_sections k index base data datasize hashed sum ctx table = Ok (inr t) ->
  exists secs,
    read_sections k data (FirstSection ctx + EFI_IMAGE_SIZEOF_SECTION_HEADER * index) = Ok secs /\
    t = fold_left (fun t s => insert_section s t) secs table.
Proof.
  revert index sum table. induction k as [|k IH]; intros index sum table; cbn [collect_sections read_sections].
  { intros [= ->]. eauto. }
  destruct (get_section_vma index data base ctx) as [[st|[[b sz] s]]| |] eqn:E; try done. rewrite bind_Ok.
  destruct (_ <? _); [done|]. intros (secs & Hs & ->)%IH.
  rewrite (get_section_vma_section _ _ _ _ _ _ _ E), bind_Ok.
  replace (FirstSection ctx + EFI_IMAGE_SIZEOF_SECTION_HEADER * index + EFI_IMAGE_SIZEOF_SECTION_HEADER)
    with (FirstSection ctx + EFI_IMAGE_SIZEOF_SECTION_HEADER * (index + 1)) by lia.
  rewrite Hs, bind_Ok. eauto.
Qed.

Section content.
Context (base : Z) (data : list Z) (datasize : Z).
Hypothesis (Hb : bytes data) (Hl : datasize <= zlen data) (Hd : datasize < 2 ^ 32).
Hypothesis (Hbase : 0 <= base) (Hbd : base + datasize <= 2 ^ 64).

Lemma hash_sections_contiguous table input a out h E :
  Forall (fun s => 0 <= SizeOfRawData s < 2 ^ 32 /\ 0 <= PointerToRawData s < 2 ^ 32) table ->
  0 <= a <= datasize ->
  hash_sections base data datasize table input a = Ok (inr (out, h)) ->
  contiguous_end a table = Some E ->
  out = input ++ slice data a E /\ h = E /\ a <= E <= datasize.
Proof.
  intros HF. revert input a. induction HF as [|s table [Hs Hp] HF IH]; intros input a Ha;
    cbn [hash_sections contiguous_end].
  { intros [= <- <-] [= <-]. unfold slice. rewrite Z.sub_diag. cbn. rewrite app_nil_r. auto with lia. }
  case_if; [by apply IH|]. rewrite ImageAddress_eq by lia.
  destruct (datasize <=? PointerToRawData s); [done|]. destruct (_ <? SizeOfRawData s); [done|].
  intros (o1 & Hu & Hr)%and_then_inv Hc. case_if_in Hc; [|done]. subst a.
  replace (base + PointerToRawData s - base) with (PointerToRawData s) in Hu by lia.
  destruct (returns_inv _ _ _ (update_returns data datasize (PointerToRawData s) (SizeOfRawData s) input Hl
    ltac:(lia) ltac:(lia)) Hu) as [-> Hle].
  rewrite u32_small in Hr by lia. destruct (IH _ (PointerToRawData s + SizeOfRawData s) ltac:(lia) Hr Hc) as (-> & -> & Hb').
  rewrite <- app_assoc, slice_app by lia. auto with lia.
Qed.

Lemma align8_pad_eq : 0 <= datasize -> u32 (ALIGN_VALUE 32 datasize 8 - datasize) = (8 - datasize) mod 8.
Proof.
  intros H0. unfold ALIGN_VALUE. change ((8 - 1) mod 2 ^ 32) with (Z.ones 3). rewrite Z.land_ones by lia.
  rewrite Z.mod_mod_divide by (exists (2 ^ 29); lia). change (2 ^ 3) with 8.
  pose proof (Z.mod_pos_bound (8 - datasize) 8). unfold u32. rewrite Zminus_mod_idemp_l.
  replace (datasize + (8 - datasize) mod 8 - datasize) with ((8 - datasize) mod 8) by lia.
  apply Z.mod_small. lia.
Qed.

Lemma hash_tail_content secva secsize input E out :
  0 <= E <= datasize -> 0 <= secsize < 2 ^ 32 -> E < datasize \/ secsize = 0 ->
  hash_tail data datasize secva secsize input E = Ok (inr out) ->
  out = input ++ (if secsize =? 0
                  then slice data E datasize ++
                       (if E <? datasize then replicate (Z.to_nat ((8 - datasize) mod 8)) 0 else [])
                  else slice data E (datasize - secsize)) /\
  (secsize <> 0 -> secva = datasize - secsize /\ E <= secva).
Proof.
  intros HE Hsz Hcase. unfold hash_tail. intros ([i h] & H1 & H2)%and_then_inv.
  destruct (secsize =? 0) eqn:Es; bool_to_prop.
  - subst secsize. rewrite andb_false_r in H1. injection H1 as <- <-.
    rewrite Z.add_0_r, u32_small in H2 by lia. split; [|done].
    destruct (E <? datasize) eqn:El; bool_to_prop.
    2:{ injection H2 as <-. replace E with datasize by lia. unfold slice. rewrite Z.sub_diag. cbn.
        by rewrite app_nil_r. }
    rewrite (u32_small (datasize - E)) in H2 by lia. apply and_then_inv in H2 as (o2 & Hu & Hp).
    destruct (returns_inv _ _ _ (update_returns data datasize E (datasize - E) input Hl
      ltac:(lia) ltac:(lia)) Hu) as [-> _].
    rewrite Zplus_minus, (u32_small datasize), align8_pad_eq in Hp by lia.
    destruct (8 <? _); [done|]. injection Hp as <-. by rewrite <- app_assoc.
  - destruct Hcase as [Hlt | ->]; [|done]. apply Z.ltb_lt in Hlt. rewrite Hlt in H1. bool_to_prop.
    cbn [andb negb] in H1. destruct (_ || _) eqn:Eo; [done|]. bool_to_prop.
    rewrite (u32_small (datasize - E)) in * by lia. rewrite (u32_small (datasize - secsize - E)) in * by lia.
    replace (E + (datasize - secsize - E)) with (datasize - secsize) in * by lia. rewrite u32_small in * by lia.
    apply and_then_inv in H1 as (o1 & Hu & [= <- <-]).
    destruct (returns_inv _ _ _ (update_returns data datasize E (datasize - secsize - E) input Hl
      ltac:(lia) ltac:(lia)) Hu) as [-> _].
    replace (datasize - secsize + secsize) with datasize in H2 by lia.
    rewrite u32_small, Z.ltb_irrefl in H2 by lia. injection H2 as <-.
    replace (E + (datasize - secsize - E)) with (datasize - secsize) by lia. auto with lia.
Qed.
End content.

(** C14. The digests of a file whose sections follow each other are those of
    its Authenticode input: nothing but the checksum, the security directory
    entry and the certificate table is left out, and in a signed file the
    certificate table is what ends it. *)
Theorem generate_hash_authenticode sha256 sha1 base data datasize ctx secs E secva secsize d256 d1 ctx' :
  bytes data -> datasize <= zlen data -> datasize < 2 ^ 32 -> 0 <= base -> base + datasize <= 2 ^ 64 ->
  context_wf data datasize ctx -> base + ImageSize ctx <= 2 ^ 64 ->
  SecDir ctx + 8 <= SizeOfHeaders ctx ->
  section_table data ctx = Ok secs -> read_dir data (SecDir ctx) = Ok (secva, secsize) ->
  contiguous_end (SizeOfHeaders ctx) (sort_sections secs) = Some E ->
  E < datasize \/ secsize = 0 ->
  generate_hash sha256 sha1 true true base data datasize ctx = Ok (inr (d256, d1, ctx')) ->
  d256 = sha256 (authenticode_input data datasize ctx secsize E) /\
  d1 = sha1 (authenticode_input data datasize ctx secsize E) /\
  (secsize <> 0 -> secva = datasize - secsize).
Proof.
  intros Hb Hl Hd Hbase Hbd Hw Hi Hsd Hsecs Hdir Hcont HE Hg.
  apply and_then_inv in Hg as ([input c] & Hin & [= <- <- <-]).
  enough (Hgoal : input = authenticode_input data datasize ctx secsize E /\
    (secsize <> 0 -> secva = datasize - secsize)) by (destruct Hgoal as [-> ?]; auto).
  unfold hash_input in Hin. destruct (datasize <=? sizeof_DOS_HEADER) eqn:E64; [done|].
  unfold sizeof_DOS_HEADER in E64. bool_to_prop.
  destruct (rd_le data 0 2) as [mg| |] eqn:Emg; try done. rewrite bind_Ok in Hin.
  destruct (mg =? _) eqn:Emz; [|done]. apply Z.eqb_eq in Emz as ->. cbn [negb] in Hin.
  apply and_then_inv in Hin as (i1 & H1 & Hin).
  destruct (returns_inv _ _ _ (hash_headers_returns data datasize Hl Hd ctx Hw) H1) as [Hsh ->].
  apply and_then_inv in Hin as (c2 & H2 & Hin).
  destruct (returns_inv _ _ _ (refresh_sections_returns base data datasize Hbase Hbd ctx Hw E64 Emg) H2).
  rewrite Hdir in Hin.
  pose proof Hw as []. unfold sizeof_OPTIONAL_HEADER_UNION in *. rewrite u32_small in Hin by lia.
  apply and_then_inv in Hin as (t & Ht & Hin).
  assert (Ht' : t = sort_sections secs /\
    Forall (fun s => 0 <= SizeOfRawData s < 2 ^ 32 /\ 0 <= PointerToRawData s < 2 ^ 32) t).
  { split; [|eapply returns_inv; [|exact Ht]; apply collect_sections_returns; auto; lia].
    apply collect_sections_table in Ht as (secs' & Hs' & ->). rewrite Z.mul_0_r, Z.add_0_r in Hs'.
    unfold section_table in Hsecs. rewrite Hsecs in Hs'. by injection Hs' as <-. }
  destruct Ht' as [-> HF]. apply and_then_inv in Hin as ([i2 h] & H3 & Hin).
  destruct (hash_sections_contiguous base data datasize Hl Hd Hbase Hbd _ _ (SizeOfHeaders ctx) _ _ _ HF
    ltac:(unfold EFI_IMAGE_SIZEOF_SECTION_HEADER in *; lia) H3 Hcont) as (-> & -> & HEb).
  rewrite bind_Ok in Hin. apply and_then_inv in Hin as (i3 & H4 & [= <- <-]).
  assert (Hsz : 0 <= secsize < 2 ^ 32).
  { unfold read_dir in Hdir. revert Hdir.
    destruct (rd_le_in_range data (SecDir ctx) 4) as (va & -> & _); [done|lia..|]. rewrite bind_Ok.
    destruct (rd_le_in_range data (SecDir ctx + 4) 4) as (sz & -> & Hr); [done|lia..|]. rewrite bind_Ok.
    by intros [= _ <-]. }
  destruct (hash_tail_content data datasize Hl Hd secva secsize _ E i3 ltac:(lia) Hsz HE H4) as [-> Hva].
  split; [|intros Hne; by apply Hva]. unfold authenticode_input. rewrite <- !app_assoc.
  do 2 f_equal. rewrite (app_assoc (slice data (SecDir ctx + 8) _)).
  rewrite slice_app by lia. destruct (secsize =? 0) eqn:Ez; bool_to_prop.
  - by rewrite app_assoc, slice_app by lia.
  - destruct (Hva Ez) as [-> HEv]. by rewrite slice_app by lia.
Qed.

Definition sample_input : list Z := authenticode_input sample_pe 576 sample_ctx 0 576.
Definition sample_sections : list EFI_IMAGE_SECTION_HEADER :=
  match section_table sample_pe sample_ctx with Ok l => l | _ => [] end.

Lemma generate_hash_authenticode_witness :
  sample_input = id sample_input /\ sample_input = id sample_input /\ (0 <> 0 -> 0 = 576 - 0).
Proof.
  apply (generate_hash_authenticode id id 0x100000 sample_pe 576 sample_ctx sample_sections 576 0 0
    sample_input sample_input sample_ctx);
    [apply sample_pe_bytes|vm_compute; congruence|lia..|apply sample_ctx_wf|cbn; lia|cbn; lia
    |vm_compute; reflexivity|vm_compute; reflexivity|vm_compute; reflexivity|lia|vm_compute; reflexivity].
Defined.
