(* ===== verification/SectionCache.v ===== *)
(** * The cache of verified sections: pe.c

    Sections of an image shim has verified are remembered by handle, size and
    digest, so that a second-stage loader can start them without a signature
    of their own.  SHA-256 is the parameter [sha256]; its digests have 32
    bytes in the code, which nothing here depends on. *)
From stdpp Require Import base list numbers option.
From Stdlib Require Import ZArith Lia.
From S2P Require Import Prelude.
From S2P Require Import Efi.
Local Open Scope Z_scope.

Record shim_section_cache_entry : Type := {
  parent_image_handle : Z;
  section_name : list Z;
  size : Z;
  digest : list Z
}.

(** The entries in use: the first num_section_cache_entries of the array. *)
Abbreviation section_cache := (list shim_section_cache_entry).

Section cache.
Context (sha256 : list Z -> list Z).

(** [ctx_alloc] is the allocation of the digest context. *)
Definition _do_sha256_sum (ctx_alloc : bool) (bytes : list Z) : EFI_STATUS + list Z :=
  if negb ctx_alloc then inl EFI_OUT_OF_RESOURCES else inr (sha256 bytes).

Definition cache_section (cache_alloc ctx_alloc : bool) (cache : section_cache) (handle : Z)
    (name mem : list Z) (addr sz : Z) : res (EFI_STATUS * section_cache) :=
  if negb cache_alloc then Ok (EFI_OUT_OF_RESOURCES, cache)
  else
    content ← rdn mem addr sz;
    name ← rdn name 0 8;
    match _do_sha256_sum ctx_alloc content with
    | inl st => Ok (st, cache)
    | inr d => Ok (EFI_SUCCESS, cache ++ [{| parent_image_handle := handle; section_name := name ++ [0];
                                             size := sz; digest := d |}])
    end.

Fixpoint validate_cached_section (ctx_alloc : bool) (cache : section_cache) (handle : Z)
    (mem : list Z) (addr sz : Z) : res EFI_STATUS :=
  match cache with
  | [] => Ok EFI_NOT_FOUND
  | e :: cache' =>
      if negb (size e =? sz) then validate_cached_section ctx_alloc cache' handle mem addr sz
      else if negb (parent_image_handle e =? handle)
      then validate_cached_section ctx_alloc cache' handle mem addr sz
      else
        content ← rdn mem addr sz;
        match _do_sha256_sum ctx_alloc content with
        | inl st => Ok st
        | inr d => if bytes_eqb d (digest e) then Ok EFI_SUCCESS
                   else validate_cached_section ctx_alloc cache' handle mem addr sz
        end
  end.

(** CopyMem(&a[i + 1], &a[i], sizeof * (n - i - 1)): the entries from [i] on
    move one place up, the last one is overwritten. *)
Definition shift_up (a : section_cache) (i : nat) : section_cache :=
  take (S i) a ++ take (length a - i - 1) (drop i a).

(** The loop of flush_cached_sections, [k] turns left. *)
Fixpoint flush_loop (k : nat) (a : section_cache) (i : nat) (handle : Z) (reduction : nat)
  : section_cache * nat :=
  match k with
  | O => (a, reduction)
  | S k' =>
      match a !! i with
      | None => (a, reduction)
      | Some e =>
          if negb (parent_image_handle e =? handle) then flush_loop k' a (S i) handle reduction
          else flush_loop k' (shift_up a i) (S i) handle (S reduction)
      end
  end.

Definition flush_cached_sections (a : section_cache) (handle : Z) : section_cache :=
  let (a', reduction) := flush_loop (length a) a 0 handle 0 in
  take (length a - reduction) a'.

(** ** Lemmas *)
Definition other (handle : Z) (e : shim_section_cache_entry) : bool := negb (parent_image_handle e =? handle).

Fixpoint take_while {A} (p : A -> bool) (l : list A) : list A :=
  match l with
  | [] => []
  | x :: l' => if p x then x :: take_while p l' else []
  end.

Lemma shift_up_at p e t :
  shift_up (p ++ e :: t) (length p) = (p ++ [e]) ++ take (length t) (e :: t).
Proof.
  unfold shift_up. rewrite drop_app_length, take_app_ge by lia.
  replace (S (length p) - length p)%nat with 1%nat by lia. cbn [take]. rewrite take_0. f_equal.
  f_equal. rewrite length_app. cbn [length]. lia.
Qed.

(** Once an entry of the handle is found it is copied over the next one, which
    is then found too. *)
Lemma flush_loop_matching k p e t handle r :
  parent_image_handle e = handle -> k = length (e :: t) ->
  exists t', flush_loop k (p ++ e :: t) (length p) handle r = (p ++ t', (r + k)%nat) /\
    length t' = length (e :: t).
Proof.
  intros He. revert p e t r He. induction k as [|k IH]; intros p e t r He Hk; cbn [length] in *; [lia|].
  cbn [flush_loop]. rewrite lookup_app_r, Nat.sub_diag by lia. cbn. rewrite He, Z.eqb_refl. cbn [negb].
  rewrite shift_up_at. injection Hk as Hk. destruct t as [|x t].
  - cbn in *. subst k. exists [e]. cbn. rewrite app_nil_r, Nat.add_1_r. auto.
  - cbn [length] in *. cbn [take].
    destruct (IH (p ++ [e]) e (take (length t) (x :: t)) (S r) He) as (t' & Hf & Hl).
    { rewrite length_take. cbn [length]. lia. }
    rewrite length_app in Hf. cbn [length] in Hf. rewrite Nat.add_1_r in Hf.
    rewrite Hf. exists (e :: t'). rewrite <- app_assoc. split; [cbn; f_equal; lia|].
    cbn [length] in *. rewrite Hl, length_take. cbn [length]. lia.
Qed.

Lemma flush_loop_ok p l handle :
  Forall (fun e => other handle e = true) p ->
  exists t, flush_loop (length l) (p ++ l) (length p) handle 0
            = (p ++ t, (length l - length (take_while (other handle) l))%nat) /\
            length t = length l /\ take (length (take_while (other handle) l)) t = take_while (other handle) l.
Proof.
  revert p. induction l as [|e l IH]; intros p HF; [exists []; auto|].
  cbn [take_while]. destruct (other handle e) eqn:Eo.
  - cbn [length flush_loop]. rewrite lookup_app_r, Nat.sub_diag by lia. cbn [lookup list_lookup].
    unfold other in Eo. rewrite Eo. destruct (IH (p ++ [e])) as (t & Hf & Hl & Ht).
    { apply Forall_app. split; [done|]. by constructor. }
    rewrite <- app_assoc, length_app in Hf. cbn [app length] in Hf. rewrite Nat.add_1_r in Hf. rewrite Hf.
    exists (e :: t). rewrite <- app_assoc. split; [done|]. cbn. rewrite Hl, Ht. auto.
  - unfold other in Eo. bool_to_prop.
    destruct (flush_loop_matching (length (e :: l)) p e l handle 0 Eo eq_refl) as (t & Hf & Hl).
    exists t. rewrite Hf. cbn [length]. auto.
Qed.

Lemma flush_take_while a handle : flush_cached_sections a handle = take_while (other handle) a.
Proof.
  unfold flush_cached_sections.
  destruct (flush_loop_ok [] a handle ltac:(constructor)) as (t & Hf & Hl & Ht). cbn [app length] in Hf.
  rewrite Hf. rewrite <- Ht at 2. f_equal.
  assert (length (take_while (other handle) a) <= length a)%nat.
  { clear. induction a as [|x a IH]; cbn; [lia|]. destruct (other handle x); cbn; lia. }
  lia.
Qed.

(** ** Theorems *)

(** flush_cached_sections removes every entry of the handle, but also every
    entry of another handle that was added after the first of them: the copy
    goes towards the end of the array instead of the beginning. *)
Theorem flush_cached_sections_keeps_prefix a handle :
  flush_cached_sections a handle = take_while (other handle) a /\
  Forall (fun e => parent_image_handle e <> handle) (flush_cached_sections a handle).
Proof.
  rewrite flush_take_while. split; [done|].
  induction a as [|e a IH]; cbn; [constructor|]. destruct (other handle e) eqn:Eo; constructor; [|done].
  unfold other in Eo. by bool_to_prop.
Qed.

(** An entry that vouches for the [sz] bytes at [addr]. *)
Definition vouches (handle : Z) (mem : list Z) (addr sz : Z) (e : shim_section_cache_entry) : Prop :=
  parent_image_handle e = handle /\ size e = sz /\
  exists content, rdn mem addr sz = Ok content /\ digest e = sha256 content.

Lemma validate_cached_sound ctx_alloc cache handle mem addr sz st :
  validate_cached_section ctx_alloc cache handle mem addr sz = Ok st -> EFI_ERROR st = false ->
  Exists (vouches handle mem addr sz) cache.
Proof.
  intros Hv He. induction cache as [|e cache IH]; cbn [validate_cached_section] in Hv; [by injection Hv as <-|].
  destruct (size e =? sz) eqn:Es; cbn [negb] in Hv; [|by apply Exists_cons_tl, IH].
  destruct (parent_image_handle e =? handle) eqn:Eh; cbn [negb] in Hv; [|by apply Exists_cons_tl, IH].
  bool_to_prop. apply bind_inv in Hv as (content & Hc & Hv). unfold _do_sha256_sum in Hv.
  destruct ctx_alloc; cbn [negb] in Hv; [|by injection Hv as <-].
  destruct (bytes_eqb (sha256 content) (digest e)) eqn:Ed; [|by apply Exists_cons_tl, IH].
  apply Exists_cons_hd. unfold bytes_eqb in Ed. apply bool_decide_eq_true in Ed. split; [done|]. split; [done|]. eauto.
Qed.

Lemma validate_cached_ok cache handle mem addr sz content :
  rdn mem addr sz = Ok content ->
  validate_cached_section true cache handle mem addr sz
  = Ok (if existsb (fun e => (size e =? sz) && (parent_image_handle e =? handle) &&
                             bytes_eqb (sha256 content) (digest e)) cache
        then EFI_SUCCESS else EFI_NOT_FOUND).
Proof.
  intros Hc. induction cache as [|e cache IH]; [done|]. cbn [validate_cached_section existsb].
  destruct (size e =? sz); cbn [negb andb orb]; [|done].
  destruct (parent_image_handle e =? handle); cbn [negb andb orb]; [|done].
  rewrite Hc, bind_Ok. unfold _do_sha256_sum. cbn [negb].
  by destruct (bytes_eqb (sha256 content) (digest e)).
Qed.

(** A section is validated exactly when some entry of its handle has its
    size and the digest of its bytes. *)
Theorem validate_cached_section_correct cache handle mem addr sz content :
  rdn mem addr sz = Ok content ->
  validate_cached_section true cache handle mem addr sz
  = Ok (if existsb (fun e => (size e =? sz) && (parent_image_handle e =? handle) &&
                             bytes_eqb (sha256 content) (digest e)) cache
        then EFI_SUCCESS else EFI_NOT_FOUND).
Proof. apply validate_cached_ok. Qed.

End cache.

(** A section that was cached is validated from then on, wherever a copy of
    its bytes is. *)
Theorem cached_section_validates sha256 cache handle name mem addr sz cache' mem2 addr2 :
  cache_section sha256 true true cache handle name mem addr sz = Ok (EFI_SUCCESS, cache') ->
  rdn mem2 addr2 sz = rdn mem addr sz ->
  validate_cached_section sha256 true cache' handle mem2 addr2 sz = Ok EFI_SUCCESS.
Proof.
  unfold cache_section. cbn [negb]. destruct (rdn mem addr sz) as [c| |] eqn:E; try done. rewrite bind_Ok.
  destruct (rdn name 0 8) as [nm| |]; try done. rewrite bind_Ok. cbn. intros [= <-] H2. 
  set (e := {| parent_image_handle := handle; section_name := nm ++ [0]; size := sz; digest := sha256 c |}).
  induction cache as [|x cache IH]; cbn [app validate_cached_section].
  - cbn [size parent_image_handle e]. rewrite !Z.eqb_refl, H2. cbn. unfold bytes_eqb. by rewrite bool_decide_true.
  - destruct (size x =? sz); cbn [negb]; [|done]. destruct (parent_image_handle x =? handle); cbn [negb]; [|done].
    rewrite H2, bind_Ok. cbn. by destruct (bytes_eqb _ _).
Qed.

Definition entry_of (h : Z) : shim_section_cache_entry :=
  {| parent_image_handle := h; section_name := replicate 9 0; size := 1; digest := [7] |}.

Example flush_loses_other_handle :
  flush_cached_sections [entry_of 1; entry_of 2; entry_of 3] 2 = [entry_of 1].
Proof. reflexivity. Qed.

Lemma validate_cached_section_correct_witness :
  validate_cached_section id true [entry_of 1; entry_of 2] 2 [5; 7] 1 1 = Ok EFI_SUCCESS.
Proof. apply (validate_cached_section_correct id [entry_of 1; entry_of 2] 2 [5; 7] 1 1 [7]). reflexivity. Defined.

Lemma cached_section_validates_witness :
  validate_cached_section id true
    [entry_of 1; {| parent_image_handle := 2; section_name := replicate 9 0; size := 1; digest := [9] |}]
    2 [9; 8] 0 1 = Ok EFI_SUCCESS.
Proof.
  apply (cached_section_validates id [entry_of 1] 2 (replicate 8 0) [7; 9] 1 1
    [entry_of 1; {| parent_image_handle := 2; section_name := replicate 9 0; size := 1; digest := [9] |}]
    [9; 8] 0); reflexivity.
Defined.
