(* ===== verification/Verify.v ===== *)
(** * Signature and hash verification: verify.c

    The databases are EFI signature lists ([Esl]) in UEFI variables
    ([Firmware]) or built into shim.  The parameters are what the code calls
    outside of the repository's own sources: AuthenticodeVerify (with the
    PKCS#7 data, a certificate and a digest), and the extended key usages
    OpenSSL finds in a certificate.  The verification method and the
    measurements handed to the TPM code are the state [vstate].

    The theorems give the verdict of each function in terms of the contents of
    the databases. *)
From stdpp Require Import base list numbers option strings.
From Stdlib Require Import ZArith Lia Btauto.
From S2P Require Import Prelude.
From S2P Require Import Efi.
From S2P Require Import Firmware.
From S2P Require Import Esl.
From S2P Require Import Variables.
Local Open Scope Z_scope.

Inductive CHECK_STATUS : Type :=
| DATA_FOUND
| DATA_NOT_FOUND
| VAR_NOT_FOUND.

Inductive verification_method_t : Type :=
| VERIFIED_BY_NOTHING
| VERIFIED_BY_CERT
| VERIFIED_BY_HASH.
#[export] Instance verification_method_t_eq_dec : EqDecision verification_method_t.
Proof. solve_decision. Defined.

(** The calls of the TPM code: tpm_measure_variable with its name, vendor and
    data, and tpm_log_pe with the size of the image, the load address, the SHA-1
    digest and the PCR. *)
Inductive tpm_event : Type :=
| tpm_measure_variable (dbname : string) (guid : EFI_GUID) (d : list Z)
| tpm_log_pe (size addr : Z) (sha1hash : list Z) (pcr : Z).

Record vstate : Type := {
  verification_method : verification_method_t;
  measured : list tpm_event
}.

Definition measure (st : vstate) (n : string) (g : EFI_GUID) (d : list Z) : vstate :=
  {| verification_method := verification_method st;
     measured := measured st ++ [tpm_measure_variable n g d] |}.
Definition log_pe (st : vstate) (size addr : Z) (sha1hash : list Z) (pcr : Z) : vstate :=
  {| verification_method := verification_method st;
     measured := measured st ++ [tpm_log_pe size addr sha1hash pcr] |}.
Definition set_method (st : vstate) (m : verification_method_t) : vstate :=
  {| verification_method := m; measured := measured st |}.

Definition update_verification_method (st : vstate) (m : verification_method_t) : vstate :=
  match verification_method st with VERIFIED_BY_NOTHING => set_method st m | _ => st end.

Definition SHA1_DIGEST_SIZE : Z := 20.

(** A DER SEQUENCE with a two-byte length that is the rest of the data. *)
Definition verify_x509 (m : list Z) (Cert CertSize : Z) : res bool :=
  if CertSize <? 4 then Ok false
  else
    b0 ← rd m Cert; b1 ← rd m (Cert + 1);
    if negb (b0 =? 0x30) || negb (b1 =? 0x82) then Ok false
    else
      b2 ← rd m (Cert + 2); b3 ← rd m (Cert + 3);
      Ok (Z.lor (Z.shiftl b2 8) b3 =? CertSize - 4).

Section verify.
Context {S : Type} `{Firmware S}.
(** PKCS#7 data, certificate, digest. *)
Context (AuthenticodeVerify : list Z -> list Z -> list Z -> bool).
(** The extended key usages of a certificate that parses and has some. *)
Context (x509_eku : list Z -> option (list string)).
(** What is built into shim. *)
Context (vendor_deauthorized : list Z) (vendor_db : option (list Z)) (build_cert vendor_cert : list Z).
Context (ignore_db : bool).
(** Whether the copies of variables can be allocated. *)
Context (alloc : bool).

Definition OID_EKU_MODSIGN : string := "1.3.6.1.4.1.2312.16.1.2".

Definition verify_eku (Cert : list Z) : bool :=
  match x509_eku Cert with
  | Some usages => negb (existsb (String.eqb OID_EKU_MODSIGN) usages)
  | None => true
  end.

(** The body of the loop of check_db_cert_in_ram: the data to measure when the
    signature verifies against the list's first certificate. *)
Definition check_cert_list (m : list Z) (p7 hash : list Z) (cl : Z) : res (option (list Z)) :=
  type ← SignatureType m cl;
  if bytes_eqb type EFI_CERT_TYPE_X509_GUID then
    hsz ← SignatureHeaderSize m cl;
    ssz ← SignatureSize m cl;
    let Cert := cl + sizeof_EFI_SIGNATURE_LIST + hsz in
    let CertSize := u64 (ssz - sizeof_EFI_GUID) in
    ok ← verify_x509 m (Cert + 16) CertSize;
    if ok : bool then
      cert ← rdn m (Cert + 16) CertSize;
      if verify_eku cert && AuthenticodeVerify p7 cert hash
      then d ← rdn m Cert ssz; Ok (Some d) else Ok None
    else Ok None
  else Ok None.

Definition check_db_cert_in_ram (m : list Z) (dbsize : Z) (p7 hash : list Z) (dbname : string)
    (guid : EFI_GUID) (st : vstate) : res (CHECK_STATUS * vstate) :=
  r ← certlist_loop (check_cert_list m p7 hash) (Datatypes.S (length m)) m 0 dbsize;
  match r with
  | Some d => Ok (DATA_FOUND, measure st dbname guid d)
  | None => Ok (DATA_NOT_FOUND, st)
  end.

Definition check_db_cert (s : S) (dbname : string) (guid : EFI_GUID) (p7 hash : list Z) (st : vstate)
  : res (CHECK_STATUS * vstate) :=
  g ← get_variable alloc s dbname guid;
  if EFI_ERROR (gva_status g) then Ok (VAR_NOT_FOUND, st)
  else match gva_data g with
       | None => Fault
       | Some db => check_db_cert_in_ram db (gva_len g) p7 hash dbname guid st
       end.

(** The inner loop of check_db_hash_in_ram, [Index] to [CertCount]. *)
Fixpoint find_hash (fuel : nat) (m data : list Z) (ssz Cert count : Z) : res (option (list Z)) :=
  match fuel with
  | O => NoFuel
  | Datatypes.S f =>
      if 0 <? count then
        d ← rdn m (Cert + 16) (zlen data);
        if bytes_eqb d data then e ← rdn m Cert ssz; Ok (Some e)
        else find_hash f m data ssz (Cert + ssz) (count - 1)
      else Ok None
  end.

(** The count is computed, with its division, before the type is looked at. *)
Definition check_hash_list (m data : list Z) (CertType : EFI_GUID) (cl : Z) : res (option (list Z)) :=
  lsz ← SignatureListSize m cl;
  hsz ← SignatureHeaderSize m cl;
  ssz ← SignatureSize m cl;
  if ssz =? 0 then Fault
  else
    let CertCount := u64 (lsz - sizeof_EFI_SIGNATURE_LIST - hsz) / ssz in
    let Cert := cl + sizeof_EFI_SIGNATURE_LIST + hsz in
    type ← SignatureType m cl;
    if bytes_eqb type CertType then find_hash (Datatypes.S (length m)) m data ssz Cert CertCount else Ok None.

Definition check_db_hash_in_ram (m : list Z) (dbsize : Z) (data : list Z) (CertType : EFI_GUID)
    (dbname : string) (guid : EFI_GUID) (st : vstate) : res (CHECK_STATUS * vstate) :=
  r ← certlist_loop (check_hash_list m data CertType) (Datatypes.S (length m)) m 0 dbsize;
  match r with
  | Some d => Ok (DATA_FOUND, measure st dbname guid d)
  | None => Ok (DATA_NOT_FOUND, st)
  end.

Definition check_db_hash (s : S) (dbname : string) (guid : EFI_GUID) (data : list Z) (CertType : EFI_GUID)
    (st : vstate) : res (CHECK_STATUS * vstate) :=
  g ← get_variable alloc s dbname guid;
  if EFI_ERROR (gva_status g) then Ok (VAR_NOT_FOUND, st)
  else match gva_data g with
       | None => Fault
       | Some db => check_db_hash_in_ram db (gva_len g) data CertType dbname guid st
       end.

(** A sequence of checks, tried in order until one finds its data. *)
Definition check : Type := vstate -> res (CHECK_STATUS * vstate).

(** A check of the certificate, which [cert &&] guards. *)
Definition with_cert (cert : option (list Z)) (f : list Z -> check) : check := fun st =>
  match cert with Some p7 => f p7 st | None => Ok (DATA_NOT_FOUND, st) end.

Fixpoint deny_checks (cs : list check) (st : vstate) : res (EFI_STATUS * vstate) :=
  match cs with
  | [] => Ok (EFI_SUCCESS, st)
  | c :: cs' =>
      '(r, st) ← c st;
      match r with DATA_FOUND => Ok (EFI_SECURITY_VIOLATION, st) | _ => deny_checks cs' st end
  end.

Definition check_denylist (s : S) (cert : option (list Z)) (sha256hash sha1hash : list Z) (st : vstate)
  : res (EFI_STATUS * vstate) :=
  let dbx := vendor_deauthorized in
  let size := zlen vendor_deauthorized in
  let DB := EFI_SECURE_BOOT_DB_GUID in
  deny_checks
    [check_db_hash_in_ram dbx size sha256hash EFI_CERT_SHA256_GUID "dbx" DB;
     check_db_hash_in_ram dbx size sha1hash EFI_CERT_SHA1_GUID "dbx" DB;
     with_cert cert (fun p7 => check_db_cert_in_ram dbx size p7 sha256hash "dbx" DB);
     check_db_hash s "dbx" DB sha256hash EFI_CERT_SHA256_GUID;
     check_db_hash s "dbx" DB sha1hash EFI_CERT_SHA1_GUID;
     with_cert cert (fun p7 => check_db_cert s "dbx" DB p7 sha256hash);
     check_db_hash s "MokListX" SHIM_LOCK_GUID sha256hash EFI_CERT_SHA256_GUID;
     with_cert cert (fun p7 => check_db_cert s "MokListX" SHIM_LOCK_GUID p7 sha256hash)] st.

(** Each check of check_allowlist with the method it records.  All but the
    first assign verification_method before update_verification_method. *)
Fixpoint allow_checks (cs : list (check * bool * verification_method_t)) (st : vstate)
  : res (EFI_STATUS * vstate) :=
  match cs with
  | [] => Ok (EFI_NOT_FOUND, update_verification_method st VERIFIED_BY_NOTHING)
  | (c, assign, method) :: cs' =>
      '(r, st) ← c st;
      match r with
      | DATA_FOUND =>
          let st := if assign : bool then set_method st method else st in
          Ok (EFI_SUCCESS, update_verification_method st method)
      | _ => allow_checks cs' st
      end
  end.

Definition check_allowlist (s : S) (cert : option (list Z)) (sha256hash sha1hash : list Z) (st : vstate)
  : res (EFI_STATUS * vstate) :=
  let DB := EFI_SECURE_BOOT_DB_GUID in
  allow_checks
    ((if ignore_db then []
      else [(check_db_hash s "db" DB sha256hash EFI_CERT_SHA256_GUID, false, VERIFIED_BY_HASH);
            (check_db_hash s "db" DB sha1hash EFI_CERT_SHA1_GUID, true, VERIFIED_BY_HASH);
            (with_cert cert (fun p7 => check_db_cert s "db" DB p7 sha256hash), true, VERIFIED_BY_CERT)]) ++
     (match vendor_db with
      | None => []
      | Some db =>
          [(check_db_hash_in_ram db (zlen db) sha256hash EFI_CERT_SHA256_GUID "vendor_db" DB, true,
            VERIFIED_BY_HASH);
           (with_cert cert (fun p7 => check_db_cert_in_ram db (zlen db) p7 sha256hash "vendor_db" DB), true,
            VERIFIED_BY_CERT)]
      end) ++
     [(check_db_hash s "MokListRT" SHIM_LOCK_GUID sha256hash EFI_CERT_SHA256_GUID, true, VERIFIED_BY_HASH);
      (with_cert cert (fun p7 => check_db_cert s "MokListRT" SHIM_LOCK_GUID p7 sha256hash), true,
       VERIFIED_BY_CERT)]) st.

(** The keys built into shim; an empty one is not used. *)
Fixpoint builtin_keys (keys : list (list Z)) (p7 sha256hash : list Z) (st : vstate) : EFI_STATUS * vstate :=
  match keys with
  | [] => (EFI_NOT_FOUND, st)
  | key :: keys' =>
      if negb (bool_decide (key = [])) && AuthenticodeVerify p7 key sha256hash
      then (EFI_SUCCESS, measure (update_verification_method st VERIFIED_BY_CERT) "Shim" SHIM_LOCK_GUID key)
      else builtin_keys keys' p7 sha256hash st
  end.

Definition verify_one_signature (s : S) (p7 sha256hash sha1hash : list Z) (st : vstate)
  : res (EFI_STATUS * vstate) :=
  '(efi_status, st) ← check_denylist s (Some p7) sha256hash sha1hash st;
  if EFI_ERROR efi_status then Ok (efi_status, st)
  else
    '(efi_status, st) ← check_allowlist s (Some p7) sha256hash sha1hash st;
    if negb (EFI_ERROR efi_status) then Ok (efi_status, st)
    else Ok (builtin_keys [build_cert; vendor_cert] p7 sha256hash st).
End verify.

(** ** Contents of databases *)
Section contents.
Context (AuthenticodeVerify : list Z -> list Z -> list Z -> bool) (x509_eku : list Z -> option (list string)).

Definition hash_sig (type h : list Z) (l : esl) : option (list Z * list Z) :=
  if bytes_eqb (esl_type l) type then List.find (fun s => bytes_eqb (snd s) h) (esl_sigs l) else None.

(** A list is only asked for digests of the length of its signatures. *)
Definition hash_db_ok (type h : list Z) (db : list esl) : Prop :=
  Forall (fun l => esl_wf l /\ (esl_type l = type -> esl_sigsize l = 16 + zlen h)) db.

Definition hash_listed (type h : list Z) (db : list esl) : bool :=
  existsb (fun l => bool_decide (is_Some (hash_sig type h l))) db.

Definition x509_der (d : list Z) : bool :=
  match d with
  | b0 :: b1 :: b2 :: b3 :: rest =>
      (b0 =? 0x30) && (b1 =? 0x82) && (Z.lor (Z.shiftl b2 8) b3 =? zlen rest)
  | _ => false
  end.

(** The first certificate of a list accepts the signature. *)
Definition cert_sig (p7 h : list Z) (l : esl) : option (list Z * list Z) :=
  match esl_sigs l with
  | (o, d) :: _ =>
      if bytes_eqb (esl_type l) EFI_CERT_TYPE_X509_GUID && x509_der d &&
         verify_eku x509_eku d && AuthenticodeVerify p7 d h then Some (o, d) else None
  | [] => None
  end.

Definition cert_db_ok (db : list esl) : Prop :=
  Forall (fun l => esl_wf l /\ (esl_type l = EFI_CERT_TYPE_X509_GUID -> esl_sigs l <> [])) db.

Definition cert_listed (p7 h : list Z) (db : list esl) : bool :=
  existsb (fun l => bool_decide (is_Some (cert_sig p7 h l))) db.

(** ** Lemmas *)
Lemma find_hash_ok fuel p sigs q h ssz count :
  Forall (fun s => length (fst s) = 16%nat /\ zlen (snd s) = ssz - 16) sigs ->
  ssz = 16 + zlen h -> count = zlen sigs -> (length sigs < fuel)%nat ->
  find_hash fuel (p ++ concat (map sig_bytes sigs) ++ q) h ssz (zlen p) count
  = Ok (sig_bytes <$> List.find (fun s => bytes_eqb (snd s) h) sigs).
Proof.
  intros HF Hssz. revert fuel p count. induction HF as [|[o d] sigs [Ho Hd] HF IH];
    intros [|fuel] p count -> Hf; cbn [length] in *; try lia; cbn [find_hash]; [done|].
  rewrite zlen_cons. case_if; [|zlia]. cbn [map concat List.find fst snd] in *.
  change (sig_bytes (o, d)) with (o ++ d). rewrite <- !app_assoc.
  assert (Ho' : zlen o = 16) by (unfold zlen; by rewrite Ho).
  assert (Hi : zlen p + 16 = zlen (p ++ o)) by zlia. assert (Hn : zlen h = zlen d) by lia.
  rewrite (app_assoc p o), (rdn_app_mid (p ++ o) d _ _ _ Hi Hn), bind_Ok.
  destruct (bytes_eqb d h).
  - rewrite <- app_assoc, (app_assoc o d), rdn_app_mid, bind_Ok by zlia. done.
  - rewrite (app_assoc (p ++ o) d). specialize (IH fuel ((p ++ o) ++ d) (zlen sigs) eq_refl).
    replace (zlen ((p ++ o) ++ d)) with (zlen p + ssz) in IH by zlia.
    rewrite Z.add_simpl_r. apply IH. lia.
Qed.

Section one_list.
Context (l : esl) (Hwf : esl_wf l) (p q : list Z).
Let m : list Z := p ++ esl_bytes l ++ q.

Lemma sigs_split :
  m = (p ++ esl_type l ++ le_split 4 (esl_size l) ++ le_split 4 (zlen (esl_header l)) ++
       le_split 4 (esl_sigsize l) ++ esl_header l) ++ concat (map sig_bytes (esl_sigs l)) ++ q.
Proof. unfold m, esl_bytes, sigs_bytes, sig_bytes. by rewrite <- !app_assoc. Qed.

Lemma sigs_start :
  zlen (p ++ esl_type l ++ le_split 4 (esl_size l) ++ le_split 4 (zlen (esl_header l)) ++
        le_split 4 (esl_sigsize l) ++ esl_header l)
  = zlen p + sizeof_EFI_SIGNATURE_LIST + zlen (esl_header l).
Proof. destruct (esl_size_range l Hwf) as [_ Ht]. unfold sizeof_EFI_SIGNATURE_LIST. zlen_simpl. lia. Qed.

Lemma check_hash_list_ok type h :
  (esl_type l = type -> esl_sigsize l = 16 + zlen h) -> (length (esl_sigs l) <= length m)%nat ->
  check_hash_list m h type (zlen p) = Ok (sig_bytes <$> hash_sig type h l).
Proof.
  intros Hh Hlen. pose proof Hwf as (_ & H16 & _ & HF). unfold check_hash_list, m.
  rewrite SignatureListSize_ok, bind_Ok, SignatureHeaderSize_ok, bind_Ok, SignatureSize_ok, bind_Ok by done.
  case_if; [lia|]. rewrite SignatureType_ok, bind_Ok by done. unfold hash_sig.
  destruct (bytes_eqb (esl_type l) type) eqn:Et; [|done]. apply bool_decide_eq_true in Et.
  fold m. rewrite <- sigs_start. rewrite sigs_split at 2.
  assert (Hc : u64 (esl_size l - sizeof_EFI_SIGNATURE_LIST - zlen (esl_header l)) / esl_sigsize l
               = zlen (esl_sigs l)).
  { destruct (esl_size_range l Hwf) as [Hs _]. unfold esl_size in *. pose proof (zlen_nonneg (esl_sigs l)).
    replace (sizeof_EFI_SIGNATURE_LIST + zlen (esl_header l) + zlen (esl_sigs l) * esl_sigsize l -
      sizeof_EFI_SIGNATURE_LIST - zlen (esl_header l)) with (zlen (esl_sigs l) * esl_sigsize l) by lia.
    pose proof (zlen_nonneg (esl_header l)). unfold sizeof_EFI_SIGNATURE_LIST in *.
    rewrite u64_small by nia. apply Z.div_mul. lia. }
  rewrite Hc. apply find_hash_ok; auto; lia.
Qed.

Lemma verify_x509_ok pre d post : verify_x509 (pre ++ d ++ post) (zlen pre) (zlen d) = Ok (x509_der d).
Proof.
  unfold verify_x509, x509_der. destruct d as [|b0 [|b1 [|b2 [|b3 rest]]]]; try done.
  case_if; [zlia|]. cbn [app]. rewrite rd_at, bind_Ok.
  replace (zlen pre + 1) with (zlen (pre ++ [b0])) by zlia.
  replace (zlen pre + 2) with (zlen (pre ++ [b0; b1])) by zlia.
  replace (zlen pre + 3) with (zlen (pre ++ [b0; b1; b2])) by zlia.
  replace (rd _ (zlen (pre ++ [b0]))) with (Ok b1)
    by (symmetry; rewrite <- rd_at with (p := pre ++ [b0]) (q := b2 :: b3 :: rest ++ post); by rewrite <- app_assoc).
  rewrite bind_Ok.
  replace (rd _ (zlen (pre ++ [b0; b1]))) with (Ok b2)
    by (symmetry; rewrite <- rd_at with (p := pre ++ [b0; b1]) (q := b3 :: rest ++ post); by rewrite <- app_assoc).
  replace (rd _ (zlen (pre ++ [b0; b1; b2]))) with (Ok b3)
    by (symmetry; rewrite <- rd_at with (p := pre ++ [b0; b1; b2]) (q := rest ++ post); by rewrite <- app_assoc).
  rewrite !bind_Ok. destruct (b0 =? 48), (b1 =? 130); cbn; try done. do 2 f_equal. zlia.
Qed.

Lemma check_cert_list_ok p7 h :
  (esl_type l = EFI_CERT_TYPE_X509_GUID -> esl_sigs l <> []) ->
  check_cert_list AuthenticodeVerify x509_eku m p7 h (zlen p) = Ok (sig_bytes <$> cert_sig p7 h l).
Proof.
  intros Hne. pose proof Hwf as (_ & H16 & _ & HF). unfold check_cert_list, m.
  rewrite SignatureType_ok, bind_Ok by done. unfold cert_sig, bytes_eqb.
  destruct (bool_decide_reflect (esl_type l = EFI_CERT_TYPE_X509_GUID)) as [Et|Et];
    [|by destruct (esl_sigs l) as [|[]]].
  rewrite SignatureHeaderSize_ok, bind_Ok, SignatureSize_ok, bind_Ok by done.
  fold m. rewrite <- sigs_start. rewrite sigs_split. specialize (Hne Et).
  destruct (esl_sigs l) as [|[o d] sigs]; [done|]. inversion HF as [|? ? [Ho Hd]]; subst. cbn [fst snd] in *.
  assert (Ho' : zlen o = 16) by (unfold zlen; by rewrite Ho).
  set (P := p ++ esl_type l ++ _). cbn [map concat]. change (sig_bytes (o, d)) with (o ++ d).
  rewrite <- !app_assoc. unfold sizeof_EFI_GUID. rewrite u64_small by zlia.
  replace (esl_sigsize l - 16) with (zlen d) by lia.
  rewrite (app_assoc P o). replace (zlen P + 16) with (zlen (P ++ o)) by zlia.
  rewrite verify_x509_ok, bind_Ok. cbn [andb]. destruct (x509_der d); [|done]. cbn [andb].
  rewrite (rdn_app_mid (P ++ o) d _ _ _ eq_refl eq_refl), bind_Ok.
  destruct (verify_eku x509_eku d && AuthenticodeVerify p7 d h); [|done].
  rewrite <- app_assoc, (app_assoc o d), rdn_app_mid, bind_Ok by zlia. done.
Qed.
End one_list.

Lemma first_some_listed {A B} (f : esl -> option A) (g : A -> B) db :
  is_Some (first_some (fun l => g <$> f l) db) <->
  existsb (fun l => bool_decide (is_Some (f l))) db = true.
Proof.
  induction db as [|l db IH]; cbn [first_some existsb]; [split; [by intros []|done]|].
  destruct (f l) as [a|]; cbn [fmap option_fmap option_map].
  - rewrite bool_decide_true by eauto. cbn [orb]. split; eauto.
  - rewrite bool_decide_false by by intros []. exact IH.
Qed.

(** What a search of a database finds: the signature, with its owner, as it is
    measured. *)
Definition hash_found (type h : list Z) (db : list esl) : option (list Z) := first_some (fun l => sig_bytes <$> hash_sig type h l) db.
Definition cert_found (p7 h : list Z) (db : list esl) : option (list Z) := first_some (fun l => sig_bytes <$> cert_sig p7 h l) db.

Lemma hash_found_listed type h db : is_Some (hash_found type h db) <-> hash_listed type h db = true.
Proof. apply first_some_listed. Qed.
Lemma cert_found_listed p7 h db : is_Some (cert_found p7 h db) <-> cert_listed p7 h db = true.
Proof. apply first_some_listed. Qed.

(** A check finds [o]; then, and only then, it measures what it found. *)
Definition check_spec (c : check) (n : string) (g : EFI_GUID) (o : option (list Z)) : Prop :=
  forall st, match o with
             | Some d => c st = Ok (DATA_FOUND, measure st n g d)
             | None => exists r, r <> DATA_FOUND /\ c st = Ok (r, st)
             end.

Lemma check_result (o : option (list Z)) n g :
  check_spec (fun st => match o with Some d => Ok (DATA_FOUND, measure st n g d) | None => Ok (DATA_NOT_FOUND, st) end) n g o.
Proof. intros st. destruct o; [done|]. by exists DATA_NOT_FOUND. Qed.

Lemma check_db_hash_in_ram_spec db q h type n g :
  hash_db_ok type h db ->
  check_spec (check_db_hash_in_ram (esl_encode db ++ q) (zlen (esl_encode db)) h type n g) n g (hash_found type h db).
Proof.
  intros HF st. unfold check_db_hash_in_ram.
  assert (HFw : Forall esl_wf db) by (eapply Forall_impl; [exact HF|]; by intros ? []).
  change 0 with (zlen (@nil Z)).
  rewrite (certlist_loop_ok _ (fun l => sig_bytes <$> hash_sig type h l) _ _ [] db q), bind_Ok;
    [|done|done| |].
  - apply (check_result (hash_found type h db)).
  - rewrite length_app. pose proof (esl_db_length db HFw). lia.
  - intros p' l q' Hl Hin Hm. rewrite Hm. apply check_hash_list_ok; [done| |].
    + apply (proj1 (List.Forall_forall _ _) HF l Hin).
    + rewrite <- Hm, length_app. pose proof (esl_list_length l db Hin HFw). lia.
Qed.

Lemma check_db_cert_in_ram_spec db q p7 h n g :
  cert_db_ok db ->
  check_spec (check_db_cert_in_ram AuthenticodeVerify x509_eku (esl_encode db ++ q) (zlen (esl_encode db)) p7 h n g) n g
    (cert_found p7 h db).
Proof.
  intros HF st. unfold check_db_cert_in_ram.
  assert (HFw : Forall esl_wf db) by (eapply Forall_impl; [exact HF|]; by intros ? []).
  change 0 with (zlen (@nil Z)).
  rewrite (certlist_loop_ok _ (fun l => sig_bytes <$> cert_sig p7 h l) _ _ [] db q), bind_Ok;
    [|done|done| |].
  - apply (check_result (cert_found p7 h db)).
  - rewrite length_app. pose proof (esl_db_length db HFw). lia.
  - intros p' l q' Hl Hin Hm. rewrite Hm. apply check_cert_list_ok; [done|].
    apply (proj1 (List.Forall_forall _ _) HF l Hin).
Qed.

Lemma with_cert_spec cert (f : list Z -> check) n g (o : list Z -> option (list Z)) :
  (forall p7, cert = Some p7 -> check_spec (f p7) n g (o p7)) ->
  check_spec (with_cert cert f) n g (cert ≫= o).
Proof.
  intros Hs st. unfold with_cert. destruct cert as [p7|]; cbn [mbind option_bind]; [by apply Hs|].
  by exists DATA_NOT_FOUND.
Qed.

(** ** Searches one after the other *)
Record search : Type := { se_name : string; se_guid : EFI_GUID; se_found : option (list Z) }.
Definition searches (c : check) (e : search) : Prop := check_spec c (se_name e) (se_guid e) (se_found e).

(** What the first of the searches that finds something has found. *)
Definition first_found (es : list search) : option (string * EFI_GUID * list Z) :=
  first_some (fun e => (fun d => (se_name e, se_guid e, d)) <$> se_found e) es.

Lemma deny_checks_ok cs es st :
  Forall2 searches cs es ->
  deny_checks cs st = Ok (match first_found es with
                          | Some (n, g, d) => (EFI_SECURITY_VIOLATION, measure st n g d)
                          | None => (EFI_SUCCESS, st)
                          end).
Proof.
  intros HF. revert st. induction HF as [|c e cs es Hc _ IH]; intros st; [done|].
  specialize (Hc st). unfold first_found in *. cbn [deny_checks first_some]. destruct (se_found e) as [d|]; cbn [fmap option_fmap option_map].
  - by rewrite Hc, bind_Ok.
  - destruct Hc as (r & Hr & ->). rewrite bind_Ok, <- IH. by destruct r.
Qed.

Lemma update_nothing st : update_verification_method st VERIFIED_BY_NOTHING = st.
Proof. by destruct st as [[] ?]. Qed.

(** The method that a search records; one that does not [assign] leaves a method
    that is recorded already. *)
Definition recorded (assign : bool) (mt : verification_method_t) (st : vstate) : vstate :=
  if assign || bool_decide (verification_method st = VERIFIED_BY_NOTHING) then set_method st mt else st.
Definition first_allowed (es : list (search * bool * verification_method_t)) : option (string * EFI_GUID * list Z * bool * verification_method_t) :=
  first_some (fun '(e, a, mt) => (fun d => (se_name e, se_guid e, d, a, mt)) <$> se_found e) es.

Lemma allow_checks_ok (cs : list (check * bool * verification_method_t)) (es : list (search * bool * verification_method_t)) st :
  Forall2 (fun c e => searches c.1.1 e.1.1 /\ c.1.2 = e.1.2 /\ c.2 = e.2) cs es ->
  allow_checks cs st = Ok (match first_allowed es with
                           | Some (n, g, d, a, mt) => (EFI_SUCCESS, recorded a mt (measure st n g d))
                           | None => (EFI_NOT_FOUND, st)
                           end).
Proof.
  intros HF. revert st. induction HF as [|[[c a] mt] [[e a'] mt'] cs es (Hc & Ha & Hmt) _ IH]; intros st; cbn [allow_checks].
  { by rewrite update_nothing. }
  cbn [fst snd] in *. subst a' mt'. specialize (Hc st). unfold first_allowed in *. cbn [first_some].
  destruct (se_found e) as [d|]; cbn [fmap option_fmap option_map].
  - rewrite Hc, bind_Ok. unfold recorded, update_verification_method. by destruct a, st as [[] ?], mt.
  - destruct Hc as (r & Hr & ->). rewrite bind_Ok, <- IH. by destruct r.
Qed.
End contents.

(** ** The policy: what the databases together deny and allow *)
Record databases : Type := {
  d_vendor_dbx : list esl;
  d_dbx : list esl;
  d_mokx : list esl;
  d_db : list esl;
  d_vendor_db : option (list esl);
  d_mok : list esl
}.

Section policy.
Context (AuthenticodeVerify : list Z -> list Z -> list Z -> bool) (x509_eku : list Z -> option (list string)).
Abbreviation cert_listed := (cert_listed AuthenticodeVerify x509_eku).
Abbreviation cert_found := (cert_found AuthenticodeVerify x509_eku).

(** A digest or the signature's certificate is in a deny list.  MokListX is
    not searched for SHA-1 digests, and of a list of certificates only the first
    counts ([cert_sig]). *)
Definition denied (D : databases) (cert : option (list Z)) (h256 h1 : list Z) : bool :=
  existsb (hash_listed EFI_CERT_SHA256_GUID h256) [d_vendor_dbx D; d_dbx D; d_mokx D] ||
  existsb (hash_listed EFI_CERT_SHA1_GUID h1) [d_vendor_dbx D; d_dbx D] ||
  from_option (fun p7 => existsb (cert_listed p7 h256) [d_vendor_dbx D; d_dbx D; d_mokx D]) false cert.

(** The same for the allow lists; only db is searched for SHA-1 digests. *)
Definition allowed (ignore_db : bool) (D : databases) (cert : option (list Z)) (h256 h1 : list Z) : bool :=
  let db := if ignore_db then [] else [d_db D] in
  let lists := db ++ from_option (fun l => [l]) [] (d_vendor_db D) ++ [d_mok D] in
  existsb (hash_listed EFI_CERT_SHA256_GUID h256) lists ||
  existsb (hash_listed EFI_CERT_SHA1_GUID h1) db ||
  from_option (fun p7 => existsb (cert_listed p7 h256) lists) false cert.

(** The searches behind them, in their order, with the name that is measured. *)
Definition deny_searches (D : databases) (cert : option (list Z)) (h256 h1 : list Z) : list search :=
  let DB := EFI_SECURE_BOOT_DB_GUID in
  [{| se_name := "dbx"; se_guid := DB; se_found := hash_found EFI_CERT_SHA256_GUID h256 (d_vendor_dbx D) |};
   {| se_name := "dbx"; se_guid := DB; se_found := hash_found EFI_CERT_SHA1_GUID h1 (d_vendor_dbx D) |};
   {| se_name := "dbx"; se_guid := DB; se_found := cert ≫= fun p7 => cert_found p7 h256 (d_vendor_dbx D) |};
   {| se_name := "dbx"; se_guid := DB; se_found := hash_found EFI_CERT_SHA256_GUID h256 (d_dbx D) |};
   {| se_name := "dbx"; se_guid := DB; se_found := hash_found EFI_CERT_SHA1_GUID h1 (d_dbx D) |};
   {| se_name := "dbx"; se_guid := DB; se_found := cert ≫= fun p7 => cert_found p7 h256 (d_dbx D) |};
   {| se_name := "MokListX"; se_guid := SHIM_LOCK_GUID; se_found := hash_found EFI_CERT_SHA256_GUID h256 (d_mokx D) |};
   {| se_name := "MokListX"; se_guid := SHIM_LOCK_GUID; se_found := cert ≫= fun p7 => cert_found p7 h256 (d_mokx D) |}].
Definition db_searches (n : string) (g : EFI_GUID) (cert : option (list Z)) (h256 : list Z) (db : list esl)
  : list (search * bool * verification_method_t) :=
  [({| se_name := n; se_guid := g; se_found := hash_found EFI_CERT_SHA256_GUID h256 db |}, true, VERIFIED_BY_HASH);
   ({| se_name := n; se_guid := g; se_found := cert ≫= fun p7 => cert_found p7 h256 db |}, true, VERIFIED_BY_CERT)].
(** Only the digest of db that is looked for first leaves a recorded method. *)
Definition allow_searches (ignore_db : bool) (D : databases) (cert : option (list Z)) (h256 h1 : list Z)
  : list (search * bool * verification_method_t) :=
  let DB := EFI_SECURE_BOOT_DB_GUID in
  (if ignore_db then [] else
     [({| se_name := "db"; se_guid := DB; se_found := hash_found EFI_CERT_SHA256_GUID h256 (d_db D) |}, false, VERIFIED_BY_HASH);
      ({| se_name := "db"; se_guid := DB; se_found := hash_found EFI_CERT_SHA1_GUID h1 (d_db D) |}, true, VERIFIED_BY_HASH);
      ({| se_name := "db"; se_guid := DB; se_found := cert ≫= fun p7 => cert_found p7 h256 (d_db D) |}, true, VERIFIED_BY_CERT)]) ++
  from_option (db_searches "vendor_db" DB cert h256) [] (d_vendor_db D) ++
  db_searches "MokListRT" SHIM_LOCK_GUID cert h256 (d_mok D).

(** A key built into shim made the signature. *)
Definition signed_by_builtin (keys : list (list Z)) (p7 h256 : list Z) : bool :=
  existsb (fun key => negb (bool_decide (key = [])) && AuthenticodeVerify p7 key h256) keys.

Definition db_ok (h256 h1 : list Z) (db : list esl) : Prop :=
  hash_db_ok EFI_CERT_SHA256_GUID h256 db /\ hash_db_ok EFI_CERT_SHA1_GUID h1 db /\ cert_db_ok db.

Definition databases_ok (D : databases) (h256 h1 : list Z) : Prop :=
  Forall (db_ok h256 h1)
    ([d_vendor_dbx D; d_dbx D; d_mokx D; d_db D; d_mok D] ++ from_option (fun l => [l]) [] (d_vendor_db D)).

Context {S : Type} `{FirmwareLaws S}.

(** The variable holds the database; it does not exist when that is empty. *)
Definition stored (s : S) (n : string) (g : EFI_GUID) (db : list esl) : Prop :=
  match lookup_var s n g with None => db = [] | Some (_, d) => d = esl_encode db end.

Definition databases_stored (s : S) (D : databases) : Prop :=
  stored s "dbx" EFI_SECURE_BOOT_DB_GUID (d_dbx D) /\ stored s "MokListX" SHIM_LOCK_GUID (d_mokx D) /\
  stored s "db" EFI_SECURE_BOOT_DB_GUID (d_db D) /\ stored s "MokListRT" SHIM_LOCK_GUID (d_mok D).

Lemma check_db_hash_spec s n g db h type :
  stored s n g db -> hash_db_ok type h db ->
  check_spec (check_db_hash true s n g h type) n g (hash_found type h db).
Proof.
  intros Hst Hok st. unfold check_db_hash, get_variable. rewrite get_variable_attr_ok, bind_Ok.
  unfold stored in Hst. destruct (lookup_var s n g) as [[a d]|]; cbn [gva_status gva_data gva_len].
  - subst d. change (EFI_ERROR EFI_SUCCESS) with false. cbv iota. by apply check_db_hash_in_ram_spec.
  - subst db. by exists VAR_NOT_FOUND.
Qed.

Lemma check_db_cert_spec s n g db p7 h :
  stored s n g db -> cert_db_ok db ->
  check_spec (check_db_cert AuthenticodeVerify x509_eku true s n g p7 h) n g (cert_found p7 h db).
Proof.
  intros Hst Hok st. unfold check_db_cert, get_variable. rewrite get_variable_attr_ok, bind_Ok.
  unfold stored in Hst. destruct (lookup_var s n g) as [[a d]|]; cbn [gva_status gva_data gva_len].
  - subst d. change (EFI_ERROR EFI_SUCCESS) with false. cbv iota. by apply check_db_cert_in_ram_spec.
  - subst db. by exists VAR_NOT_FOUND.
Qed.

(** A database built into shim has no byte after it. *)
Lemma builtin_hash_spec db h type n g :
  hash_db_ok type h db ->
  check_spec (check_db_hash_in_ram (esl_encode db) (zlen (esl_encode db)) h type n g) n g (hash_found type h db).
Proof. intros. rewrite <- (app_nil_r (esl_encode db)) at 1. by apply check_db_hash_in_ram_spec. Qed.

Lemma builtin_cert_spec db p7 h n g :
  cert_db_ok db ->
  check_spec (check_db_cert_in_ram AuthenticodeVerify x509_eku (esl_encode db) (zlen (esl_encode db)) p7 h n g) n g
    (cert_found p7 h db).
Proof. intros. rewrite <- (app_nil_r (esl_encode db)) at 1. by apply check_db_cert_in_ram_spec. Qed.

Context (s : S) (D : databases) (h256 h1 : list Z) (ignore_db : bool) (build_cert vendor_cert : list Z).
Context (Hok : databases_ok D h256 h1) (Hst : databases_stored s D).

Lemma found_bool (o : option (list Z)) b : (is_Some o <-> b = true) -> b = bool_decide (is_Some o).
Proof. intros Hb. destruct b; symmetry; [by apply bool_decide_eq_true, Hb|]. apply bool_decide_eq_false. by intros ?%Hb. Qed.
Lemma none_found : bool_decide (is_Some (@None (list Z))) = false.
Proof. done. Qed.
Lemma first_found_some es : is_Some (first_found es) <-> existsb (fun e => bool_decide (is_Some (se_found e))) es = true.
Proof.
  unfold first_found. induction es as [|e es IH]; cbn [first_some existsb]; [split; [by intros []|done]|].
  destruct (se_found e); cbn; [by split; eauto|]. exact IH.
Qed.
Lemma first_allowed_some es : is_Some (first_allowed es) <-> existsb (fun e => bool_decide (is_Some (se_found e.1.1))) es = true.
Proof.
  unfold first_allowed. induction es as [|[[e a] mt] es IH]; cbn [first_some existsb]; [split; [by intros []|done]|]. cbn [fst].
  destruct (se_found e); cbn; [by split; eauto|]. exact IH.
Qed.
Lemma hash_listed_found type h db : hash_listed type h db = bool_decide (is_Some (hash_found type h db)).
Proof. apply found_bool, hash_found_listed. Qed.
Lemma cert_listed_found p7 h db : cert_listed p7 h db = bool_decide (is_Some (cert_found p7 h db)).
Proof. apply found_bool, cert_found_listed. Qed.

Lemma denied_found cert : is_Some (first_found (deny_searches D cert h256 h1)) <-> denied D cert h256 h1 = true.
Proof.
  rewrite first_found_some. unfold denied, deny_searches. cbn [existsb se_found]. rewrite !hash_listed_found.
  destruct cert as [p7|]; cbn [from_option existsb mbind option_bind]; rewrite ?cert_listed_found, ?orb_false_r.
  - apply eq_iff_eq_true; btauto.
  - rewrite ?none_found, ?orb_false_r. apply eq_iff_eq_true; btauto.
Qed.
Lemma allowed_found cert : is_Some (first_allowed (allow_searches ignore_db D cert h256 h1)) <-> allowed ignore_db D cert h256 h1 = true.
Proof.
  rewrite first_allowed_some. unfold allowed, allow_searches, db_searches.
  destruct ignore_db, (d_vendor_db D), cert; cbn [app existsb from_option se_found fst mbind option_bind];
    rewrite ?hash_listed_found, ?cert_listed_found, ?none_found;
    rewrite ?orb_false_r, ?orb_false_l; apply eq_iff_eq_true; btauto.
Qed.

Lemma check_denylist_found cert st :
  check_denylist AuthenticodeVerify x509_eku (esl_encode (d_vendor_dbx D)) true s cert h256 h1 st
  = Ok (match first_found (deny_searches D cert h256 h1) with
        | Some (n, g, d) => (EFI_SECURITY_VIOLATION, measure st n g d)
        | None => (EFI_SUCCESS, st)
        end).
Proof.
  unfold databases_ok in Hok. cbn [app] in Hok. rewrite !Forall_cons in Hok.
  destruct Hok as ((? & ? & ?) & (? & ? & ?) & (? & ? & ?) & _). destruct Hst as (? & ? & _).
  apply deny_checks_ok. unfold searches.
  repeat (apply Forall2_cons; split); try apply Forall2_nil_2; cbn [se_name se_guid se_found];
    first [by apply builtin_hash_spec | by apply check_db_hash_spec
          | apply with_cert_spec; intros p7 _; first [by apply builtin_cert_spec | by apply check_db_cert_spec]].
Qed.
Lemma check_denylist_ok cert st :
  if denied D cert h256 h1
  then exists n g d, check_denylist AuthenticodeVerify x509_eku (esl_encode (d_vendor_dbx D)) true s cert h256 h1 st
         = Ok (EFI_SECURITY_VIOLATION, measure st n g d)
  else check_denylist AuthenticodeVerify x509_eku (esl_encode (d_vendor_dbx D)) true s cert h256 h1 st
         = Ok (EFI_SUCCESS, st).
Proof.
  rewrite check_denylist_found. pose proof (denied_found cert) as Hd. destruct (denied D cert h256 h1).
  - destruct (proj2 Hd eq_refl) as [[[n g] d] ->]. by exists n, g, d.
  - destruct (first_found _); [discriminate (proj1 Hd (mk_is_Some _ _ eq_refl))|done].
Qed.

Lemma check_allowlist_found cert st :
  check_allowlist AuthenticodeVerify x509_eku (esl_encode <$> d_vendor_db D) ignore_db true s cert h256 h1 st
  = Ok (match first_allowed (allow_searches ignore_db D cert h256 h1) with
        | Some (n, g, d, a, mt) => (EFI_SUCCESS, recorded a mt (measure st n g d))
        | None => (EFI_NOT_FOUND, st)
        end).
Proof.
  pose proof Hok as Hok'. unfold databases_ok in Hok'. apply Forall_app in Hok' as [Hok1 Hok2].
  rewrite !Forall_cons in Hok1.
  destruct Hok1 as (_ & _ & _ & (? & ? & ?) & (? & ? & ?) & _). destruct Hst as (_ & _ & ? & ?).
  apply allow_checks_ok. unfold allow_searches, db_searches, searches.
  apply Forall2_app; [|apply Forall2_app].
  - destruct ignore_db; [done|].
    repeat (apply Forall2_cons; split); try apply Forall2_nil_2; (split; [|done]); cbn [fst snd se_name se_guid se_found];
      [by apply check_db_hash_spec..|apply with_cert_spec; intros p7 _; by apply check_db_cert_spec].
  - destruct (d_vendor_db D) as [v|]; cbn [fmap option_fmap option_map]; [|done].
    cbn [from_option] in Hok2. apply Forall_singleton in Hok2 as (? & ? & ?).
    repeat (apply Forall2_cons; split); try apply Forall2_nil_2; (split; [|done]); cbn [fst snd se_name se_guid se_found];
      [by apply builtin_hash_spec|apply with_cert_spec; intros p7 _; by apply builtin_cert_spec].
  - repeat (apply Forall2_cons; split); try apply Forall2_nil_2; (split; [|done]); cbn [fst snd se_name se_guid se_found];
      [by apply check_db_hash_spec|apply with_cert_spec; intros p7 _; by apply check_db_cert_spec].
Qed.
Lemma first_allowed_method cert n g d a mt :
  first_allowed (allow_searches ignore_db D cert h256 h1) = Some (n, g, d, a, mt) -> mt <> VERIFIED_BY_NOTHING.
Proof.
  assert (HF : Forall (fun e => e.2 <> VERIFIED_BY_NOTHING) (allow_searches ignore_db D cert h256 h1)).
  { unfold allow_searches, db_searches. destruct ignore_db, (d_vendor_db D); cbn; by repeat constructor. }
  unfold first_allowed. induction HF as [|[[e a'] mt'] es Hm _ IH]; cbn [first_some]; [done|].
  destruct (se_found e); cbn; [|exact IH]. by intros [= _ _ _ _ <-].
Qed.
Lemma check_allowlist_ok cert st :
  if allowed ignore_db D cert h256 h1
  then exists n g d mt, mt <> VERIFIED_BY_NOTHING /\
         check_allowlist AuthenticodeVerify x509_eku (esl_encode <$> d_vendor_db D) ignore_db true s cert h256 h1 st
         = Ok (EFI_SUCCESS, set_method (measure st n g d) mt)
  else check_allowlist AuthenticodeVerify x509_eku (esl_encode <$> d_vendor_db D) ignore_db true s cert h256 h1 st
         = Ok (EFI_NOT_FOUND, st).
Proof.
  rewrite check_allowlist_found. pose proof (allowed_found cert) as Ha. destruct (allowed ignore_db D cert h256 h1).
  - destruct (proj2 Ha eq_refl) as [[[[[n g] d] a] mt] E]. rewrite E. apply first_allowed_method in E.
    exists n, g, d, (verification_method (recorded a mt (measure st n g d))). unfold recorded.
    by destruct a, st as [[] ?], mt.
  - destruct (first_allowed _); [discriminate (proj1 Ha (mk_is_Some _ _ eq_refl))|done].
Qed.

Lemma builtin_keys_ok keys p7 st :
  if signed_by_builtin keys p7 h256
  then exists d mt, mt <> VERIFIED_BY_NOTHING /\
         builtin_keys AuthenticodeVerify keys p7 h256 st
         = (EFI_SUCCESS, set_method (measure st "Shim" SHIM_LOCK_GUID d) mt)
  else builtin_keys AuthenticodeVerify keys p7 h256 st = (EFI_NOT_FOUND, st).
Proof.
  unfold signed_by_builtin. induction keys as [|key keys IH]; [done|]. cbn [existsb builtin_keys].
  destruct (negb (bool_decide (key = [])) && AuthenticodeVerify p7 key h256); [|exact IH].
  cbn [orb]. exists key, (verification_method (update_verification_method st VERIFIED_BY_CERT)).
  by destruct st as [[] ?].
Qed.

(** The verdict on one signature: deny lists before allow lists before keys. *)
Definition signature_verdict (p7 : list Z) : EFI_STATUS :=
  if denied D (Some p7) h256 h1 then EFI_SECURITY_VIOLATION
  else if allowed ignore_db D (Some p7) h256 h1 || signed_by_builtin [build_cert; vendor_cert] p7 h256
  then EFI_SUCCESS else EFI_NOT_FOUND.

Lemma verify_one_signature_ok p7 st :
  exists st', verify_one_signature AuthenticodeVerify x509_eku (esl_encode (d_vendor_dbx D))
      (esl_encode <$> d_vendor_db D) build_cert vendor_cert ignore_db true s p7 h256 h1 st
    = Ok (signature_verdict p7, st') /\
    (signature_verdict p7 = EFI_SUCCESS ->
     verification_method st' <> VERIFIED_BY_NOTHING /\
     exists e, measured st' = measured st ++ [e]) /\
    (signature_verdict p7 <> EFI_SUCCESS -> verification_method st' = verification_method st).
Proof.
  unfold verify_one_signature, signature_verdict.
  pose proof (check_denylist_ok (Some p7) st) as Hd. destruct (denied D (Some p7) h256 h1).
  { destruct Hd as (n & g & d & ->). rewrite bind_Ok. eexists. split; [done|]. split; done. }
  rewrite Hd, bind_Ok. change (EFI_ERROR EFI_SUCCESS) with false. cbv iota.
  pose proof (check_allowlist_ok (Some p7) st) as Ha. destruct (allowed ignore_db D (Some p7) h256 h1); cbn [orb].
  { destruct Ha as (n & g & d & mt & Hmt & ->). rewrite bind_Ok. cbn [negb]. eexists. split; [done|].
    split; [|done]. intros _. split; [done|]. by eexists. }
  rewrite Ha, bind_Ok. change (negb (EFI_ERROR EFI_NOT_FOUND)) with false. cbv iota.
  pose proof (builtin_keys_ok [build_cert; vendor_cert] p7 st) as Hb.
  destruct (signed_by_builtin _ p7 h256).
  - destruct Hb as (d & mt & Hmt & ->). eexists. split; [done|]. split; [|done].
    intros _. split; [done|]. by eexists.
  - rewrite Hb. eexists. split; [done|]. by split.
Qed.
End policy.

(** ** An example: a database with one digest *)
Definition sample_db : list esl :=
  [one_sig EFI_CERT_SHA256_GUID (replicate 16 1) (replicate 32 9)].
Definition sample_D : databases :=
  {| d_vendor_dbx := []; d_dbx := []; d_mokx := []; d_db := sample_db; d_vendor_db := None; d_mok := [] |}.
Definition sample_firmware : Store :=
  [(("db", EFI_SECURE_BOOT_DB_GUID), (7, esl_encode sample_db)); (("SecureBoot", GV_GUID), (6, [1]))].

Lemma sample_db_ok : db_ok (replicate 32 0) (replicate 20 0) sample_db.
Proof.
  assert (Hwf : esl_wf (one_sig EFI_CERT_SHA256_GUID (replicate 16 1) (replicate 32 9)))
    by (apply one_sig_wf; by vm_compute).
  split; [|split]; (constructor; [split; [exact Hwf|]|by constructor]); by vm_compute.
Qed.

Lemma sample_D_ok : databases_ok sample_D (replicate 32 0) (replicate 20 0).
Proof. repeat constructor; try apply sample_db_ok; by vm_compute. Qed.

Lemma sample_D_stored : databases_stored sample_firmware sample_D.
Proof. split; [|split; [|split]]; by vm_compute. Qed.

(** ** Theorems *)

(** C6. check_denylist refuses exactly what is looked for in the deny lists: the
    SHA-256 digest in shim's own list, dbx or MokListX, the SHA-1 digest in the
    first two only, or a certificate of one of the three that verifies the
    signature, where only the first certificate of a signature list is tried.  What
    is found first, in the order of the searches, is measured under the name of
    its database; otherwise the state does not change. *)
Theorem check_denylist_correct AuthenticodeVerify x509_eku {S} `{FirmwareLaws S} s D h256 h1 cert st :
  databases_ok D h256 h1 -> databases_stored s D ->
  if denied AuthenticodeVerify x509_eku D cert h256 h1
  then exists n g d, first_found (deny_searches AuthenticodeVerify x509_eku D cert h256 h1) = Some (n, g, d) /\
         check_denylist AuthenticodeVerify x509_eku (esl_encode (d_vendor_dbx D)) true s cert h256 h1 st
         = Ok (EFI_SECURITY_VIOLATION, measure st n g d)
  else check_denylist AuthenticodeVerify x509_eku (esl_encode (d_vendor_dbx D)) true s cert h256 h1 st
         = Ok (EFI_SUCCESS, st).
Proof.
  intros Hok Hst. rewrite (check_denylist_found AuthenticodeVerify x509_eku s D h256 h1) by done.
  pose proof (denied_found AuthenticodeVerify x509_eku D h256 h1 cert) as Hd. destruct (denied _ _ D cert h256 h1).
  - destruct (proj2 Hd eq_refl) as [[[n g] d] ->]. by exists n, g, d.
  - destruct (first_found _); [discriminate (proj1 Hd (mk_is_Some _ _ eq_refl))|done].
Qed.

(** C13. check_allowlist accepts exactly what is looked for in the allow lists: the
    SHA-256 digest in db (unless it is ignored), shim's own list and MokListRT, the
    SHA-1 digest in db only, or the first certificate of a signature list of one
    of them that verifies the signature.  What is found first, in the order of
    the searches, is measured under the name of its database, and the method
    that is recorded is that of this search: by hash for a digest, by
    certificate for a certificate; only the SHA-256 digest of db leaves a method
    that an earlier signature recorded.  Otherwise the state does not change. *)
Theorem check_allowlist_correct AuthenticodeVerify x509_eku {S} `{FirmwareLaws S} s D h256 h1 ignore_db cert st :
  databases_ok D h256 h1 -> databases_stored s D ->
  if allowed AuthenticodeVerify x509_eku ignore_db D cert h256 h1
  then exists n g d a mt,
         first_allowed (allow_searches AuthenticodeVerify x509_eku ignore_db D cert h256 h1) = Some (n, g, d, a, mt) /\
         check_allowlist AuthenticodeVerify x509_eku (esl_encode <$> d_vendor_db D) ignore_db true s cert h256 h1 st
         = Ok (EFI_SUCCESS, recorded a mt (measure st n g d))
  else check_allowlist AuthenticodeVerify x509_eku (esl_encode <$> d_vendor_db D) ignore_db true s cert h256 h1 st
         = Ok (EFI_NOT_FOUND, st).
Proof.
  intros Hok Hst. rewrite (check_allowlist_found AuthenticodeVerify x509_eku s D h256 h1 ignore_db) by done.
  pose proof (allowed_found AuthenticodeVerify x509_eku D h256 h1 ignore_db cert) as Ha. destruct (allowed _ _ ignore_db D cert h256 h1).
  - destruct (proj2 Ha eq_refl) as [[[[[n g] d] a] mt] ->]. by exists n, g, d, a, mt.
  - destruct (first_allowed _); [discriminate (proj1 Ha (mk_is_Some _ _ eq_refl))|done].
Qed.


(** ** Witnesses: the digest of the database, which is allowed and not denied *)
Definition sample_state : vstate := {| verification_method := VERIFIED_BY_NOTHING; measured := [] |}.
Definition no_signature : list Z -> list Z -> list Z -> bool := fun _ _ _ => false.
Definition no_eku : list Z -> option (list string) := fun _ => None.

Lemma sample_D_digest_ok : databases_ok sample_D (replicate 32 9) (replicate 20 0).
Proof. exact sample_D_ok. Qed.

Lemma check_denylist_correct_witness :
  check_denylist no_signature no_eku [] true sample_firmware None (replicate 32 9) (replicate 20 0) sample_state
  = Ok (EFI_SUCCESS, sample_state).
Proof.
  exact (check_denylist_correct no_signature no_eku sample_firmware sample_D (replicate 32 9) (replicate 20 0) None
    sample_state sample_D_digest_ok sample_D_stored).
Defined.

Lemma check_allowlist_correct_witness :
  check_allowlist no_signature no_eku None false true sample_firmware None (replicate 32 9) (replicate 20 0) sample_state
  = Ok (EFI_SUCCESS, {| verification_method := VERIFIED_BY_HASH;
                        measured := [tpm_measure_variable "db" EFI_SECURE_BOOT_DB_GUID (replicate 16 1 ++ replicate 32 9)] |}).
Proof.
  destruct (check_allowlist_correct no_signature no_eku sample_firmware sample_D (replicate 32 9) (replicate 20 0) false
    None sample_state sample_D_digest_ok sample_D_stored) as (n & g & d & a & mt & Hf & Hc).
  vm_compute in Hf. injection Hf as <- <- <- <- <-. exact Hc.
Defined.

(** Of a list of two certificates the second is not tried: a signature that it
    verifies is not denied. *)
Definition two_certs : esl :=
  {| esl_type := EFI_CERT_TYPE_X509_GUID; esl_header := []; esl_sigsize := 21;
     esl_sigs := [(replicate 16 0, [0x30; 0x82; 0; 1; 1]); (replicate 16 0, [0x30; 0x82; 0; 1; 2])] |}.
Definition by_key (key p7 cert h : list Z) : bool := bytes_eqb cert key.
Example second_certificate_ignored :
  cert_listed (by_key [0x30; 0x82; 0; 1; 2]) no_eku [] [] [two_certs] = false /\
  cert_listed (by_key [0x30; 0x82; 0; 1; 1]) no_eku [] [] [two_certs] = true /\
  check_db_cert_in_ram (by_key [0x30; 0x82; 0; 1; 2]) no_eku (esl_encode [two_certs]) (zlen (esl_encode [two_certs])) [] [] "dbx"
    EFI_SECURE_BOOT_DB_GUID sample_state = Ok (DATA_NOT_FOUND, sample_state).
Proof. vm_compute. done. Qed.

