(* ===== verification/VerifyBuffer.v ===== *)
(** * Verification of an image: the rest of verify.c

    [verify_buffer_authenticode] digests the image ([PeHash]), consults the
    databases ([Verify]) and walks the certificate table;
    [verify_buffer_sbat] finds the .sbat section and checks it ([Sbat]);
    [verify_buffer] is both, [shim_verify] the protocol's entry point.

    The theorems hold for every file: verification returns, reads only the
    file, and accepts only what the policy of the databases accepts. *)
From stdpp Require Import base list numbers option strings.
From Stdlib Require Import ZArith Lia.
From S2P Require Import Prelude.
From S2P Require Import Efi.
From S2P Require Import Sbat.
From S2P Require Import Firmware.
From S2P Require Import Esl.
From S2P Require Import Variables.
From S2P Require Import PeHeader.
From S2P Require Import PeHash.
From S2P Require Import Verify.
Local Open Scope Z_scope.

(** WIN_CERTIFICATE: dwLength, wRevision, wCertificateType; the structure with
    one byte of data is twelve bytes long. *)
Definition sizeof_WIN_CERTIFICATE : Z := 8.
Definition sizeof_WIN_CERTIFICATE_EFI_PKCS : Z := 12.
Definition WIN_CERT_TYPE_PKCS_SIGNED_DATA : Z := 0x0002.

(** ".sbat" and three zero bytes *)
Definition SBAT_SECTION_NAME : list Z := [46; 115; 98; 97; 116; 0; 0; 0].

(** What verify_buffer needs besides the image. *)
Record verifier (S : Type) : Type := {
  v_sha256 : list Z -> list Z;
  v_sha1 : list Z -> list Z;
  v_AuthenticodeVerify : list Z -> list Z -> list Z -> bool;
  v_eku : list Z -> option (list string);
  v_vendor_deauthorized : list Z;
  v_vendor_db : option (list Z);
  v_build_cert : list Z;
  v_vendor_cert : list Z;
  v_ignore_db : bool;
  v_sbat_var : list Z * list sbat_var_entry;
  v_firmware : S;
  v_user_insecure_mode : bool;
  v_allow_32bit_kernel : bool;
  v_mok_policy : Z
}.
Arguments v_sha256 {S}. Arguments v_sha1 {S}. Arguments v_AuthenticodeVerify {S}. Arguments v_eku {S}.
Arguments v_vendor_deauthorized {S}. Arguments v_vendor_db {S}. Arguments v_build_cert {S}.
Arguments v_vendor_cert {S}. Arguments v_ignore_db {S}. Arguments v_sbat_var {S}. Arguments v_firmware {S}.
Arguments v_user_insecure_mode {S}. Arguments v_allow_32bit_kernel {S}. Arguments v_mok_policy {S}.

(** Which allocations succeed. *)
Record allocations : Type := {
  a_var : bool;
  a_hash_ctx : bool;
  a_hash_hdr : bool;
  a_sbat_copy : bool;
  a_sbat_csv : nat -> bool;
  a_sbat_tab : bool
}.

Section verify_buffer.
Context {S : Type} `{Firmware S} (v : verifier S) (al : allocations).

Definition denylist_check (cert : option (list Z)) (h256 h1 : list Z) (st : vstate) :=
  check_denylist (v_AuthenticodeVerify v) (v_eku v) (v_vendor_deauthorized v) (a_var al) (v_firmware v)
    cert h256 h1 st.
Definition allowlist_check (cert : option (list Z)) (h256 h1 : list Z) (st : vstate) :=
  check_allowlist (v_AuthenticodeVerify v) (v_eku v) (v_vendor_db v) (v_ignore_db v) (a_var al) (v_firmware v)
    cert h256 h1 st.
Definition signature_check (p7 h256 h1 : list Z) (st : vstate) :=
  verify_one_signature (v_AuthenticodeVerify v) (v_eku v) (v_vendor_deauthorized v) (v_vendor_db v)
    (v_build_cert v) (v_vendor_cert v) (v_ignore_db v) (a_var al) (v_firmware v) p7 h256 h1 st.
Definition digests (base : Z) (data : list Z) (datasize : Z) (ctx : PE_CONTEXT) :=
  generate_hash (v_sha256 v) (v_sha1 v) (a_hash_ctx al) (a_hash_hdr al) base data datasize ctx.

(** The entry of [sz] bytes at [sig]: [ret_efi_status] after it, a success is
    never overwritten. *)
Definition table_entry (data : list Z) (sig sz type : Z) (h256 h1 : list Z) (ret : EFI_STATUS) (st : vstate)
  : res (EFI_STATUS * vstate) :=
  if type =? WIN_CERT_TYPE_PKCS_SIGNED_DATA then
    p7 ← rdn data (sig + sizeof_WIN_CERTIFICATE) (sz - sizeof_WIN_CERTIFICATE);
    '(efi_status, st) ← signature_check p7 h256 h1 st;
    Ok (if bool_decide (ret = EFI_SUCCESS) then ret else efi_status, st)
  else Ok (ret, st).

(** The loop over the certificate table of [secsize] bytes at [secva]: the
    status it returns from the function with, or [ret_efi_status] after it. *)
Fixpoint cert_table_loop (fuel : nat) (base : Z) (data : list Z) (datasize secva secsize offset : Z)
    (h256 h1 : list Z) (ret : EFI_STATUS) (st : vstate) : res ((EFI_STATUS + EFI_STATUS) * vstate) :=
  match fuel with
  | O => NoFuel
  | Datatypes.S f =>
      match ImageAddress base datasize (secva + offset) with
      | None => Ok (inr ret, st)
      | Some addr =>
          let sig := addr - base in
          if datasize <? sig + sizeof_WIN_CERTIFICATE_EFI_PKCS then Ok (inl EFI_INVALID_PARAMETER, st)
          else if secsize <? offset + 4 then Ok (inl EFI_INVALID_PARAMETER, st)
          else
            sz ← rd_le data sig 4;
            if u64 (secsize - offset) <? sz then Ok (inl EFI_INVALID_PARAMETER, st)
            else if sz <? sizeof_WIN_CERTIFICATE then Ok (inl EFI_INVALID_PARAMETER, st)
            else
              type ← rd_le data (sig + 6) 2;
              '(ret, st) ← table_entry data sig sz type h256 h1 ret st;
              let offset := ALIGN_VALUE 64 (offset + sz) 8 in
              if offset <? secsize then cert_table_loop f base data datasize secva secsize offset h256 h1 ret st
              else Ok (inr ret, st)
      end
  end.

(** The status, the context as generate_hash leaves it, and the state. *)
Definition verify_buffer_authenticode (base : Z) (data : list Z) (datasize : Z) (ctx : PE_CONTEXT)
    (parent_verified : bool) (st : vstate) : res (EFI_STATUS * PE_CONTEXT * vstate) :=
  if datasize <? 0 then Ok (EFI_INVALID_PARAMETER, ctx, st)
  else
    h ← digests base data datasize ctx;
    match h with
    | inl efi_status => Ok (efi_status, ctx, st)
    | inr (h256, h1, ctx) =>
        '(efi_status, st) ← denylist_check None h256 h1 st;
        if EFI_ERROR efi_status then Ok (efi_status, ctx, st)
        else if parent_verified then Ok (EFI_SUCCESS, ctx, st)
        else
          '(efi_status, st) ← allowlist_check None h256 h1 st;
          if negb (EFI_ERROR efi_status) then Ok (efi_status, ctx, st)
          else if negb (bool_decide (efi_status = EFI_NOT_FOUND)) then Ok (efi_status, ctx, st)
          else
            '(secva, secsize) ← read_dir data (SecDir ctx);
            if secsize =? 0 then Ok (EFI_SECURITY_VIOLATION, ctx, st)
            else
              let (overflow, offset) := checked_add secsize secva in
              if overflow || (datasize <? offset) then Ok (EFI_INVALID_PARAMETER, ctx, st)
              else
                '(r, st) ← cert_table_loop (Datatypes.S (length data)) base data datasize secva secsize 0
                             h256 h1 EFI_NOT_FOUND st;
                match r with
                | inl efi_status => Ok (efi_status, ctx, st)
                | inr ret => Ok (if bool_decide (ret = EFI_SUCCESS) then ret else EFI_SECURITY_VIOLATION, ctx, st)
                end
    end.

(** The search for the .sbat section: [SBATBase] is NULL or an address. *)
Fixpoint find_sbat_section (k : nat) (base : Z) (data : list Z) (datasize off : Z)
    (SBATBase : option Z) (SBATSize : Z) : res (EFI_STATUS + (option Z * Z)) :=
  match k with
  | O => Ok (inr (SBATBase, SBATSize))
  | Datatypes.S k' =>
      let next := find_sbat_section k' base data datasize (off + EFI_IMAGE_SIZEOF_SECTION_HEADER) in
      if datasize <? off + EFI_IMAGE_SIZEOF_SECTION_HEADER then reject EFI_UNSUPPORTED
      else
        s ← read_section data off;
        if negb (bytes_eqb (Name s) SBAT_SECTION_NAME) then next SBATBase SBATSize
        else if negb (ptr_val SBATBase =? 0) || negb (SBATSize =? 0) then reject EFI_UNSUPPORTED
        else if negb (NumberOfRelocations s =? 0) || negb (PointerToRelocations s =? 0)
        then reject EFI_UNSUPPORTED
        else if negb (SizeOfRawData s =? 0) && (VirtualSize s <=? SizeOfRawData s) then
          let SBATBase := ImageAddress base datasize (PointerToRawData s) in
          let SBATSize := SizeOfRawData s in
          let (overflow, boundary) := checked_add (ptr_val SBATBase) SBATSize in
          if overflow || (u64 (base + datasize) <? boundary) then reject EFI_UNSUPPORTED
          else next SBATBase SBATSize
        else next SBATBase SBATSize
  end.

Definition verify_buffer_sbat (in_protocol : bool) (base : Z) (data : list Z) (datasize : Z) (ctx : PE_CONTEXT)
  : res EFI_STATUS :=
  r ← find_sbat_section (Z.to_nat (NumberOfSections ctx)) base data datasize (FirstSection ctx) None 0;
  match r with
  | inl efi_status => Ok efi_status
  | inr (SBATBase, SBATSize) =>
      verify_sbat_section (a_sbat_copy al) (a_sbat_csv al) (a_sbat_tab al) in_protocol (v_sbat_var v)
        ((fun addr => (data, addr - base)) <$> SBATBase) SBATSize
  end.

Definition verify_buffer (in_protocol : bool) (base : Z) (data : list Z) (datasize : Z) (ctx : PE_CONTEXT)
    (parent_verified : bool) (st : vstate) : res (EFI_STATUS * PE_CONTEXT * vstate) :=
  '(efi_status, ctx, st) ← verify_buffer_authenticode base data datasize ctx parent_verified st;
  if EFI_ERROR efi_status then Ok (efi_status, ctx, st)
  else
    efi_status ← verify_buffer_sbat in_protocol base data datasize ctx;
    Ok (efi_status, ctx, st).

(** The protocol sets in_protocol for the time of the call; the boolean of the
    result is its value after the call. *)
Definition shim_verify (in_protocol : bool) (base : Z) (buffer : list Z) (size : Z) (st : vstate)
  : res (EFI_STATUS * bool * vstate) :=
  if i32 size <? 0 then Ok (EFI_INVALID_PARAMETER, in_protocol, st)
  else
    let done efi_status st := Ok (efi_status, false, st) in
    c ← read_header (v_allow_32bit_kernel v) true (v_mok_policy v) base buffer size true;
    match c with
    | inl efi_status => done efi_status st
    | inr ctx =>
        h ← digests base buffer size ctx;
        match h with
        | inl efi_status => done efi_status st
        | inr (_, h1, ctx) =>
            let st := log_pe st size 0 h1 4 in
            if negb (secure_mode (v_firmware v) (v_user_insecure_mode v)) then done EFI_SUCCESS st
            else
              '(efi_status, _, st) ← verify_buffer true base buffer (i32 size) ctx false st;
              done efi_status st
        end
    end.

Definition shim_hash (in_protocol : bool) (base : Z) (data : list Z) (datasize : Z) (ctx : PE_CONTEXT)
  : res (EFI_STATUS * bool * option (list Z * list Z)) :=
  if datasize <? 0 then Ok (EFI_INVALID_PARAMETER, in_protocol, None)
  else
    h ← digests base data datasize ctx;
    match h with
    | inl efi_status => Ok (efi_status, false, None)
    | inr (h256, h1, _) => Ok (EFI_SUCCESS, false, Some (h256, h1))
    end.

Definition shim_read_header (base : Z) (data : list Z) (datasize : Z)
  : res ((EFI_STATUS + PE_CONTEXT) * bool) :=
  c ← read_header (v_allow_32bit_kernel v) true (v_mok_policy v) base data datasize true;
  Ok (c, false).
End verify_buffer.

(** ** Lemmas *)
Lemma align8 x : 0 <= x < 2 ^ 63 -> ALIGN_VALUE 64 x 8 = x + (- x) mod 8.
Proof.
  intros Hx. unfold ALIGN_VALUE. change ((8 - 1) mod 2 ^ 64) with (Z.ones 3). rewrite Z.land_ones by lia.
  assert (Hm : ((8 - x) mod 2 ^ 64) mod 2 ^ 3 = (- x) mod 8).
  { rewrite Z.mod_mod_divide by (exists (2 ^ 61); lia). change (2 ^ 3) with 8.
    replace (8 - x) with (- x + 1 * 8) by lia. by rewrite Z.mod_add by lia. }
  rewrite Hm. pose proof (Z.mod_pos_bound (- x) 8). apply Z.mod_small. lia.
Qed.

Lemma pad8 x : (x + (- x) mod 8) mod 8 = 0.
Proof. rewrite Zplus_mod_idemp_r. by rewrite Z.add_opp_diag_r. Qed.

Lemma db_ok_lengths h256 h1 k256 k1 db :
  zlen h256 = zlen k256 -> zlen h1 = zlen k1 -> db_ok h256 h1 db -> db_ok k256 k1 db.
Proof. intros E1 E2. unfold db_ok, hash_db_ok. by rewrite E1, E2. Qed.

Lemma databases_ok_lengths D h256 h1 k256 k1 :
  zlen h256 = zlen k256 -> zlen h1 = zlen k1 -> databases_ok D h256 h1 -> databases_ok D k256 k1.
Proof.
  intros E1 E2 HF. unfold databases_ok in *. eapply List.Forall_impl; [|exact HF].
  intros db. by apply db_ok_lengths.
Qed.

(** The allocations of the SBAT code succeed. *)
Definition sbat_allocs (al : allocations) : Prop :=
  a_sbat_copy al = true /\ (forall n, a_sbat_csv al n = true) /\ a_sbat_tab al = true.

(** ** A verifier whose databases have known contents *)
Section sound.
Context {S : Type} `{FirmwareLaws S} (v : verifier S) (al : allocations) (D : databases).

Record verifier_ok : Prop := {
  vo_alloc : a_var al = true;
  vo_sha256 : forall x, zlen (v_sha256 v x) = SHA256_DIGEST_SIZE;
  vo_sha1 : forall x, zlen (v_sha1 v x) = SHA1_DIGEST_SIZE;
  vo_vendor_dbx : v_vendor_deauthorized v = esl_encode (d_vendor_dbx D);
  vo_vendor_db : v_vendor_db v = esl_encode <$> d_vendor_db D;
  vo_stored : databases_stored (v_firmware v) D;
  vo_wf : databases_ok D (replicate 32 0) (replicate 20 0)
}.
Context (Hv : verifier_ok).

(** The policy applied to the digests of an image. *)
Definition image_denied (h256 h1 : list Z) : bool :=
  denied (v_AuthenticodeVerify v) (v_eku v) D None h256 h1.
Definition image_allowed (h256 h1 : list Z) : bool :=
  allowed (v_AuthenticodeVerify v) (v_eku v) (v_ignore_db v) D None h256 h1.
Definition signature_accepted (h256 h1 p7 : list Z) : bool :=
  bool_decide (signature_verdict (v_AuthenticodeVerify v) (v_eku v) D h256 h1 (v_ignore_db v)
    (v_build_cert v) (v_vendor_cert v) p7 = EFI_SUCCESS).

(** [p7] is the data of a certificate inside the table. *)
Definition in_table (data : list Z) (secva secsize : Z) (p7 : list Z) : Prop :=
  exists off, secva <= off /\ off + zlen p7 <= secva + secsize /\ rdn data off (zlen p7) = Ok p7.

Section image.
Context (base : Z) (data : list Z) (datasize : Z).
Context (Hb : bytes data) (Hl : datasize <= zlen data) (Hd : datasize < 2 ^ 31).
Context (Hbase : 0 <= base) (Hbd : base + datasize <= 2 ^ 64).
Context (h256 h1 : list Z) (Hh : databases_ok D h256 h1).

Lemma signature_check_ok p7 st :
  exists e st', signature_check v al p7 h256 h1 st = Ok (e, st') /\
    (e = EFI_SUCCESS <-> signature_accepted h256 h1 p7 = true) /\
    (e = EFI_SUCCESS -> verification_method st' <> VERIFIED_BY_NOTHING) /\
    (e <> EFI_SUCCESS -> verification_method st' = verification_method st).
Proof.
  destruct Hv. unfold signature_check. rewrite vo_alloc0, vo_vendor_dbx0, vo_vendor_db0.
  destruct (verify_one_signature_ok (v_AuthenticodeVerify v) (v_eku v) (v_firmware v) D h256 h1 (v_ignore_db v)
    (v_build_cert v) (v_vendor_cert v) Hh vo_stored0 p7 st) as (st' & -> & Hs & Hf).
  eexists _, _. split; [done|]. unfold signature_accepted. rewrite bool_decide_eq_true.
  split; [done|]. split; [|done]. intros Hx. by apply Hs.
Qed.

Lemma table_entry_ok sig sz type p7 ret st :
  rdn data (sig + sizeof_WIN_CERTIFICATE) (sz - sizeof_WIN_CERTIFICATE) = Ok p7 ->
  exists ret1 st1, table_entry v al data sig sz type h256 h1 ret st = Ok (ret1, st1) /\
    (ret1 = EFI_SUCCESS <->
     ret = EFI_SUCCESS \/ (type =? WIN_CERT_TYPE_PKCS_SIGNED_DATA) && signature_accepted h256 h1 p7 = true) /\
    ((ret = EFI_SUCCESS -> verification_method st <> VERIFIED_BY_NOTHING) ->
     ret1 = EFI_SUCCESS -> verification_method st1 <> VERIFIED_BY_NOTHING).
Proof.
  intros Ep. unfold table_entry. destruct (type =? _); cbn [andb].
  2:{ exists ret, st. split; [done|]. split; [split; [by left|by intros []]|by auto]. }
  rewrite Ep, bind_Ok. destruct (signature_check_ok p7 st) as (e & st1 & -> & Hacc & Hok1 & Hok2).
  rewrite bind_Ok. eexists _, _. split; [done|]. rewrite <- Hacc. case_bool_decide as Er; split.
  - split; auto.
  - intros Hm _. destruct (decide (e = EFI_SUCCESS)) as [->|Hne]; [by apply Hok1|]. rewrite Hok2 by done. by apply Hm.
  - split; [auto|by intros []].
  - intros _. by apply Hok1.
Qed.

Lemma cert_table_loop_ok secva secsize fuel offset ret st :
  0 <= secva -> secva + secsize <= datasize -> 0 <= offset -> offset < secsize ->
  secsize - offset < 8 * Z.of_nat fuel ->
  exists r st', cert_table_loop v al fuel base data datasize secva secsize offset h256 h1 ret st = Ok (r, st') /\
    match r with
    | inl e => e = EFI_INVALID_PARAMETER
    | inr ret' =>
        ret' = EFI_SUCCESS ->
        (ret = EFI_SUCCESS \/
         exists p7, in_table data secva secsize p7 /\ signature_accepted h256 h1 p7 = true) /\
        ((ret = EFI_SUCCESS -> verification_method st <> VERIFIED_BY_NOTHING) ->
         verification_method st' <> VERIFIED_BY_NOTHING)
    end.
Proof.
  intros Hva Hend. revert offset ret st. induction fuel as [|fuel IH]; intros offset ret st Hof Hlt Hf; [lia|].
  cbn [cert_table_loop]. rewrite ImageAddress_eq by lia. case_if; [lia|].
  replace (base + (secva + offset) - base) with (secva + offset) by lia.
  unfold sizeof_WIN_CERTIFICATE_EFI_PKCS, sizeof_WIN_CERTIFICATE in *.
  case_if; [by exists (inl EFI_INVALID_PARAMETER), st|]. case_if; [by exists (inl EFI_INVALID_PARAMETER), st|].
  read_field sz Hsz. rewrite u64_small by lia.
  case_if; [by exists (inl EFI_INVALID_PARAMETER), st|]. case_if; [by exists (inl EFI_INVALID_PARAMETER), st|].
  read_field ty Hty.
  destruct (rdn_in_range data (secva + offset + 8) (sz - 8)) as [p7 Ep]; [lia..|].
  pose proof (rdn_length _ _ _ _ Ep) as (Hlen & _).
  assert (Hin : in_table data secva secsize p7)
    by (exists (secva + offset + 8); rewrite Hlen; split; [lia|]; split; [lia|done]).
  destruct (table_entry_ok (secva + offset) sz ty p7 ret st Ep) as (ret1 & st1 & -> & Hr1 & Hm1). rewrite bind_Ok.
  assert (Hr1' : ret1 = EFI_SUCCESS -> ret = EFI_SUCCESS \/
    exists p7, in_table data secva secsize p7 /\ signature_accepted h256 h1 p7 = true).
  { intros Hs. destruct (proj1 Hr1 Hs) as [?|Ha]; [by left|]. apply andb_true_iff in Ha as [_ Ha]. eauto. }
  rewrite align8 by lia. pose proof (Z.mod_pos_bound (- (offset + sz)) 8).
  case_if.
  - destruct (IH (offset + sz + (- (offset + sz)) mod 8) ret1 st1) as (r & st' & -> & Hr); [lia..|].
    exists r, st'. split; [done|]. destruct r as [e|ret']; [done|]. intros Hs. destruct (Hr Hs) as [[Ha|Ha] Hb'].
    + split; [by apply Hr1'|]. intros Hm. apply Hb'. by auto.
    + split; [by right|]. intros Hm. apply Hb'. by auto.
  - exists (inr ret1), st1. split; [done|]. intros Hs. split; [by apply Hr1'|]. intros Hm. by apply Hm1.
Qed.
End image.

(** What the signature part of the policy accepts. *)
Definition authentic (base : Z) (data : list Z) (datasize : Z) (ctx : PE_CONTEXT) (parent_verified : bool)
  : Prop :=
  exists h256 h1, digests v al base data datasize ctx = Ok (inr (h256, h1, ctx)) /\
    image_denied h256 h1 = false /\
    (parent_verified = true \/ image_allowed h256 h1 = true \/
     exists secva secsize p7, read_dir data (SecDir ctx) = Ok (secva, secsize) /\
       in_table data secva secsize p7 /\ signature_accepted h256 h1 p7 = true).

(** What the SBAT part accepts, for the revocations [vss]. *)
Definition sbat_permitted (in_protocol : bool) (base : Z) (data : list Z) (datasize : Z) (ctx : PE_CONTEXT)
    (vss : list (list (list Z))) : Prop :=
  exists r, find_sbat_section (Z.to_nat (NumberOfSections ctx)) base data datasize (FirstSection ctx) None 0
            = Ok (inr r) /\
    (vss = [] \/
     match fst r with
     | None => in_protocol = true
     | Some addr => exists B fss, rdn data (addr - base) (snd r) = Ok B /\ section_rows B 0 = Some fss /\
                      sbat_check vss fss = true
     end).

Section image.
Context (base : Z) (data : list Z) (datasize : Z).
Context (Hb : bytes data) (Hl : datasize <= zlen data) (Hd : datasize < 2 ^ 31).
Context (Hbase : 0 <= base) (Hbd : base + datasize < 2 ^ 64).
Context (ctx : PE_CONTEXT) (Hw : context_wf data datasize ctx) (Hi : base + ImageSize ctx <= 2 ^ 64).

Lemma verify_buffer_authenticode_ok parent st :
  exists e c st', verify_buffer_authenticode v al base data datasize ctx parent st = Ok (e, c, st') /\
    (EFI_ERROR e = false ->
     e = EFI_SUCCESS /\ c = ctx /\ authentic base data datasize ctx parent /\
     (parent = false -> verification_method st' <> VERIFIED_BY_NOTHING)).
Proof.
  unfold verify_buffer_authenticode. pose proof Hw as []. unfold sizeof_OPTIONAL_HEADER_UNION in *.
  case_if; [lia|]. unfold authentic.
  destruct (generate_hash_returns base data datasize) with (sha256 := v_sha256 v) (sha1 := v_sha1 v)
    (ca := a_hash_ctx al) (ha := a_hash_hdr al) (ctx := ctx) as (r & Hr & Hpost); [done|lia..|done|done|].
  fold (digests v al base data datasize ctx) in Hr. rewrite Hr, bind_Ok.
  destruct r as [e|[[h256 h1] c]]; [eexists _, _, _; split; [done|]; by rewrite Hpost|].
  destruct Hpost as (Hc & input & E256 & E1).
  assert (Hh : databases_ok D h256 h1).
  { apply (databases_ok_lengths D (replicate 32 0) (replicate 20 0)); [..|by apply Hv];
      rewrite zlen_replicate; subst; symmetry; apply Hv. }
  subst c.
  pose proof (check_denylist_ok (v_AuthenticodeVerify v) (v_eku v) (v_firmware v) D h256 h1 Hh (vo_stored Hv)
    None st) as Hden.
  unfold denylist_check. rewrite (vo_alloc Hv), (vo_vendor_dbx Hv).
  fold (image_denied h256 h1) in Hden. destruct (image_denied h256 h1) eqn:Eden.
  { destruct Hden as (n & g & d & ->). rewrite bind_Ok. eexists _, _, _. split; [done|]. done. }
  rewrite Hden, bind_Ok. change (EFI_ERROR EFI_SUCCESS) with false. cbv iota. destruct parent.
  { eexists _, _, _. split; [done|]. intros _. split; [done|]. split; [done|]. split; [|done].
    exists h256, h1. auto. }
  pose proof (check_allowlist_ok (v_AuthenticodeVerify v) (v_eku v) (v_firmware v) D h256 h1 (v_ignore_db v) Hh
    (vo_stored Hv) None st) as Hal.
  unfold allowlist_check. rewrite (vo_alloc Hv), (vo_vendor_db Hv).
  fold (image_allowed h256 h1) in Hal. destruct (image_allowed h256 h1) eqn:Eal.
  { destruct Hal as (n & g & d & mt & Hmt & ->). rewrite bind_Ok. eexists _, _, _. split; [done|].
    intros _. split; [done|]. split; [done|]. split; [|done]. exists h256, h1. auto. }
  rewrite Hal, bind_Ok. change (EFI_ERROR EFI_NOT_FOUND) with true. rewrite bool_decide_true by done.
  cbn [negb]. unfold read_dir at 1.
  destruct (rd_le_in_range data (SecDir ctx) 4) as (secva & Eva & Hva); [done|lia..|].
  destruct (rd_le_in_range data (SecDir ctx + 4) 4) as (secsize & Esz & Hsz); [done|lia..|].
  rewrite Eva, bind_Ok, Esz, !bind_Ok. cbn in Hva, Hsz.
  case_if; [by eexists _, _, _|]. rewrite checked_add_eq by lia. cbn [orb]. case_if; [by eexists _, _, _|].
  destruct (cert_table_loop_ok base data datasize) with (h256 := h256) (h1 := h1) (secva := secva)
    (secsize := secsize) (fuel := Datatypes.S (length data)) (offset := 0) (ret := EFI_NOT_FOUND) (st := st)
    as (r & st' & -> & Hloop); [done|lia..|done|lia|lia|lia|lia|unfold zlen in *; lia|].
  rewrite bind_Ok. destruct r as [e|ret]; [eexists _, _, _; split; [done|]; by rewrite Hloop|].
  eexists _, _, _. split; [done|]. case_bool_decide as Eret; [|done]. intros _. split; [done|]. split; [done|].
  destruct (Hloop Eret) as [[?|(p7 & Hin & Hacc)] Hm]; [done|]. split; [|intros _; by apply Hm].
  exists h256, h1. split; [done|]. split; [done|]. right. right. exists secva, secsize, p7.
  unfold read_dir. by rewrite Eva, bind_Ok, Esz, bind_Ok.
Qed.

Lemma find_sbat_section_returns k off b size :
  0 <= off ->
  match b with None => True | Some addr => base <= addr /\ addr - base + size <= datasize /\ 0 < size end ->
  0 <= size < 2 ^ 32 ->
  returns (find_sbat_section k base data datasize off b size)
    (fun '(b, size) => 0 <= size < 2 ^ 32 /\
       match b with None => True | Some addr => base <= addr /\ addr - base + size <= datasize /\ 0 < size end).
Proof.
  revert off b size. induction k as [|k IH]; intros off b size Ho Hbs Hs; cbn [find_sbat_section];
    [apply returns_ok; auto|].
  unfold EFI_IMAGE_SIZEOF_SECTION_HEADER in *. case_if; [auto with shim|].
  destruct (read_section_in_range data off) as (s & -> & _ & Hvs & _ & Hraw & Hptr);
    [done|lia|unfold EFI_IMAGE_SIZEOF_SECTION_HEADER; lia|]. rewrite bind_Ok.
  destruct (negb (bytes_eqb _ _)); [apply IH; auto; lia|].
  destruct (negb (ptr_val b =? 0) || negb (size =? 0)); [auto with shim|].
  destruct (negb _ || negb _); [auto with shim|].
  destruct (negb (SizeOfRawData s =? 0) && _) eqn:Eraw; [|apply IH; auto; lia]. bool_to_prop.
  rewrite ImageAddress_eq by lia. destruct (datasize <=? PointerToRawData s) eqn:Ep; bool_to_prop;
    cbn [ptr_val from_option id].
  - rewrite checked_add_eq by lia. cbn [orb]. case_if; [auto with shim|]. apply IH; auto; lia.
  - destruct (checked_add _ _) as [[] boundary] eqn:Eadd; [cbn [orb]; auto with shim|].
    apply checked_add_ok in Eadd as [? ->]. cbn [orb]. rewrite (u64_small (base + datasize)) by lia.
    case_if; [auto with shim|]. apply IH; auto; lia.
Qed.

Lemma verify_buffer_sbat_ok in_protocol vss :
  sbat_allocs al -> sbat_var_holds (v_sbat_var v) vss ->
  exists e, verify_buffer_sbat v al in_protocol base data datasize ctx = Ok e /\
    (EFI_ERROR e = false -> e = EFI_SUCCESS /\ sbat_permitted in_protocol base data datasize ctx vss).
Proof.
  intros (Ha1 & Ha2 & Ha3) Hvss. unfold verify_buffer_sbat, sbat_permitted.
  pose proof Hw as []. unfold sizeof_OPTIONAL_HEADER_UNION in *.
  assert (Hr : returns (find_sbat_section (Z.to_nat (NumberOfSections ctx)) base data datasize (FirstSection ctx) None 0)
    (fun '(b, size) => 0 <= size < 2 ^ 32 /\
       match b with None => True | Some addr => base <= addr /\ addr - base + size <= datasize /\ 0 < size end)).
  { apply find_sbat_section_returns; auto; lia. }
  destruct Hr as (r & -> & Hr). rewrite bind_Ok. destruct r as [e|[b size]]; [exists e; split; [done|]; by rewrite Hr|].
  rewrite Ha1, Ha3. destruct b as [addr|]; cbn [fmap option_fmap option_map].
  - destruct Hr as (Hs & Hb1 & Hb2 & Hb3).
    destruct (rdn_in_range data (addr - base) size) as [B EB]; [lia..|].
    pose proof (rdn_length _ _ _ _ EB) as (HlB & _).
    assert (HB : B <> []) by (intros ->; rewrite (zlen_nil (A := Z)) in HlB; lia).
    subst size.
    rewrite (verify_sbat_section_ok _ in_protocol (v_sbat_var v) vss B) by (auto; lia).
    eexists. split; [done|]. unfold sbat_section_verdict. destruct vss as [|vs vss']; [eauto|].
    destruct (section_rows B 0) as [fss|] eqn:Erows; [|done]. destruct (sbat_check _ fss) eqn:Ech; [|done].
    intros _. split; [done|]. exists (Some addr, zlen B). split; [done|]. right. cbn [fst snd].
    eauto.
  - unfold verify_sbat_section. destruct Hvss as [HF HL]. destruct (snd (v_sbat_var v)) as [|v0 vs].
    + inversion HF; subst. exists EFI_SUCCESS. split; [done|]. eauto.
    + destruct in_protocol; eexists; (split; [done|]); [|done]. intros _. split; [done|].
      exists (None, size). split; [done|]. by right.
Qed.

Lemma verify_buffer_ok in_protocol parent vss st :
  sbat_allocs al -> sbat_var_holds (v_sbat_var v) vss ->
  exists e c st', verify_buffer v al in_protocol base data datasize ctx parent st = Ok (e, c, st') /\
    (EFI_ERROR e = false ->
     e = EFI_SUCCESS /\ c = ctx /\ authentic base data datasize ctx parent /\
     sbat_permitted in_protocol base data datasize ctx vss /\
     (parent = false -> verification_method st' <> VERIFIED_BY_NOTHING)).
Proof.
  intros Ha Hvss. unfold verify_buffer.
  destruct (verify_buffer_authenticode_ok parent st) as (e & c & st' & -> & Hau). rewrite bind_Ok.
  destruct (EFI_ERROR e) eqn:Ee; [eexists _, _, _; split; [done|by rewrite Ee]|]. destruct (Hau eq_refl) as (_ & -> & Haut & Hm).
  destruct (verify_buffer_sbat_ok in_protocol vss Ha Hvss) as (e2 & -> & Hsb). rewrite bind_Ok.
  eexists _, _, _. split; [done|]. intros He. destruct (Hsb He) as [-> ?]. auto.
Qed.
End image.

(** ** Well-formed certificate tables *)
Record win_cert : Type := { wc_revision : Z; wc_type : Z; wc_data : list Z }.
Definition wc_len (e : win_cert) : Z := sizeof_WIN_CERTIFICATE + zlen (wc_data e).
Definition wc_bytes (e : win_cert) : list Z :=
  le_split 4 (wc_len e) ++ le_split 2 (wc_revision e) ++ le_split 2 (wc_type e) ++ wc_data e ++
  replicate (Z.to_nat ((- wc_len e) mod 8)) 0.
Definition table_bytes (es : list win_cert) : list Z := concat (map wc_bytes es).
Definition wc_ok (e : win_cert) : Prop := wc_data e <> [] /\ 0 <= wc_type e < 2 ^ 16.

(** A signature of the table is accepted. *)
Definition table_accepted (h256 h1 : list Z) (es : list win_cert) : bool :=
  existsb (fun e => (wc_type e =? WIN_CERT_TYPE_PKCS_SIGNED_DATA) && signature_accepted h256 h1 (wc_data e)) es.

Lemma wc_bytes_length e : zlen (wc_bytes e) = wc_len e + (- wc_len e) mod 8.
Proof.
  unfold wc_bytes, wc_len, sizeof_WIN_CERTIFICATE. rewrite !zlen_app, !zlen_le_split, zlen_replicate.
  pose proof (Z.mod_pos_bound (- (8 + zlen (wc_data e))) 8). lia.
Qed.

Lemma table_bytes_length e es :
  8 <= zlen (table_bytes (e :: es)) /\ Z.of_nat (length (e :: es)) <= zlen (table_bytes (e :: es)).
Proof.
  revert e. induction es as [|e' es IH]; intros e; unfold table_bytes in *; cbn [map concat] in *;
    rewrite !zlen_app, wc_bytes_length in *; pose proof (Z.mod_pos_bound (- wc_len e) 8);
    assert (8 <= wc_len e) by (unfold wc_len, sizeof_WIN_CERTIFICATE; zlia).
  - rewrite (zlen_nil (A := Z)). cbn [length]. lia.
  - destruct (IH e') as [? Hn]. cbn [length] in *. zlia.
Qed.

Section table.
Context (base : Z) (data : list Z) (datasize : Z).
Context (Hl : datasize = zlen data) (Hd : datasize < 2 ^ 31).
Context (Hbase : 0 <= base) (Hbd : base + datasize < 2 ^ 64).
Context (h256 h1 : list Z) (Hh : databases_ok D h256 h1).

(** The fields of an entry behind the bytes [p]. *)
Lemma entry_fields p e q :
  data = p ++ wc_bytes e ++ q -> wc_ok e ->
  rd_le data (zlen p) 4 = Ok (wc_len e) /\ rd_le data (zlen p + 6) 2 = Ok (wc_type e) /\
  rdn data (zlen p + sizeof_WIN_CERTIFICATE) (zlen (wc_data e)) = Ok (wc_data e).
Proof.
  intros Hdata [Hne Hty].
  assert (Hlen : 0 <= wc_len e < 2 ^ (8 * Z.of_nat 4)).
  { change (2 ^ (8 * Z.of_nat 4)) with (2 ^ 32). pose proof (wc_bytes_length e) as Hwl.
    pose proof (Z.mod_pos_bound (- wc_len e) 8). apply (f_equal zlen) in Hdata. rewrite !zlen_app in Hdata.
    assert (0 <= wc_len e) by (unfold wc_len, sizeof_WIN_CERTIFICATE; zlia). zlia. }
  rewrite Hdata. unfold wc_bytes, sizeof_WIN_CERTIFICATE in *. rewrite <- !app_assoc.
  split; [|split].
  - by apply (rd_le_mid p _ _ _ 4 (wc_len e)).
  - rewrite (app_assoc p), (app_assoc (p ++ _)). apply (rd_le_mid _ _ _ _ 2 (wc_type e)); auto.
    rewrite !zlen_app, !zlen_le_split. lia.
  - rewrite (app_assoc p), (app_assoc (p ++ _)), (app_assoc ((p ++ _) ++ _)). apply rdn_app_mid; [|done].
    rewrite !zlen_app, !zlen_le_split. lia.
Qed.

Lemma cert_table_loop_entries es secva secsize fuel offset ret st p q :
  data = p ++ table_bytes es ++ q -> es <> [] -> Forall wc_ok es ->
  0 <= secva -> 0 <= offset -> offset mod 8 = 0 -> zlen p = secva + offset ->
  secsize = offset + zlen (table_bytes es) -> (length es <= fuel)%nat ->
  exists ret' st', cert_table_loop v al fuel base data datasize secva secsize offset h256 h1 ret st
                   = Ok (inr ret', st') /\
    (ret' = EFI_SUCCESS <-> ret = EFI_SUCCESS \/ table_accepted h256 h1 es = true).
Proof.
  intros Hdata Hne HF. revert fuel offset ret st p Hdata Hne.
  induction HF as [|e es He HF IH]; intros fuel offset ret st p Hdata Hne Hva Hoff Hal Hp Hsec Hfuel; [done|].
  destruct fuel as [|fuel]; [cbn in Hfuel; lia|]. cbn [cert_table_loop].
  assert (Hlens : datasize = secva + offset + zlen (wc_bytes e) + zlen (table_bytes es) + zlen q).
  { rewrite Hl, Hdata. unfold table_bytes. cbn [map concat]. rewrite !zlen_app. lia. }
  unfold table_bytes in Hsec, Hdata. cbn [map concat] in Hsec, Hdata. fold (table_bytes es) in Hsec, Hdata.
  rewrite <- app_assoc in Hdata.
  destruct (entry_fields p e (table_bytes es ++ q) Hdata He) as (E1 & E2 & E3).
  rewrite zlen_app, wc_bytes_length in Hsec. rewrite wc_bytes_length in Hlens.
  pose proof (Z.mod_pos_bound (- wc_len e) 8) as Hmod. pose proof (zlen_nonneg q). pose proof (zlen_nonneg (table_bytes es)).
  assert (Hdlen : 0 < zlen (wc_data e)) by (apply zlen_pos_nonempty, He).
  assert (H16 : 16 <= wc_len e + (- wc_len e) mod 8).
  { unfold wc_len, sizeof_WIN_CERTIFICATE in *. destruct (decide (8 <= zlen (wc_data e))); [lia|].
    replace (- (8 + zlen (wc_data e))) with (8 - zlen (wc_data e) + (-2) * 8) by lia.
    rewrite Z.mod_add, Z.mod_small by lia. lia. }
  rewrite ImageAddress_eq by lia. case_if; [lia|].
  replace (base + (secva + offset) - base) with (zlen p) by lia.
  unfold sizeof_WIN_CERTIFICATE_EFI_PKCS, sizeof_WIN_CERTIFICATE in *.
  case_if; [lia|]. case_if; [lia|]. rewrite E1, bind_Ok. unfold wc_len, sizeof_WIN_CERTIFICATE in *.
  rewrite u64_small by lia. case_if; [lia|]. case_if; [lia|]. rewrite E2, bind_Ok.
  replace (zlen (wc_data e)) with (8 + zlen (wc_data e) - 8) in E3 by lia.
  destruct (table_entry_ok data h256 h1 Hh (zlen p) _ (wc_type e) _ ret st E3) as (ret1 & st1 & -> & Hr1 & _).
  rewrite bind_Ok, align8 by lia.
  replace ((- (offset + (8 + zlen (wc_data e)))) mod 8) with ((- (8 + zlen (wc_data e))) mod 8).
  2:{ replace (- (offset + (8 + zlen (wc_data e)))) with (- (8 + zlen (wc_data e)) + (- (offset / 8)) * 8).
      - by rewrite Z.mod_add by lia.
      - pose proof (Z.div_mod offset 8). lia. }
  assert (Hacc : table_accepted h256 h1 (e :: es) =
    (wc_type e =? WIN_CERT_TYPE_PKCS_SIGNED_DATA) && signature_accepted h256 h1 (wc_data e) ||
    table_accepted h256 h1 es) by done.
  rewrite Hacc. setoid_rewrite orb_true_iff. destruct es as [|e' es'].
  { cbn [table_bytes map concat] in *. rewrite (zlen_nil (A := Z)) in *. case_if; [lia|].
    exists ret1, st1. split; [done|]. rewrite Hr1. cbn [table_accepted existsb]. intuition congruence. }
  assert (Hpos : 0 < zlen (table_bytes (e' :: es'))).
  { unfold table_bytes. cbn [map concat]. rewrite zlen_app, wc_bytes_length. unfold wc_len, sizeof_WIN_CERTIFICATE.
    pose proof (Z.mod_pos_bound (- (8 + zlen (wc_data e'))) 8). pose proof (zlen_nonneg (wc_data e')). zlia. }
  case_if; [|lia].
  destruct (IH fuel (offset + (8 + zlen (wc_data e)) + (- (8 + zlen (wc_data e))) mod 8) ret1 st1 (p ++ wc_bytes e))
    as (ret' & st' & -> & Hret); try done; try lia.
  - by rewrite <- app_assoc.
  - rewrite <- Z.add_assoc, Z.add_mod, pad8, Hal by lia. done.
  - rewrite zlen_app, wc_bytes_length. unfold wc_len, sizeof_WIN_CERTIFICATE. lia.
  - cbn [length] in *. lia.
  - exists ret', st'. split; [done|]. rewrite Hret, Hr1. tauto.
Qed.

(** The verdict on an image with the certificates [es]. *)
Definition authenticode_verdict (parent_verified : bool) (es : list win_cert) : EFI_STATUS :=
  if image_denied h256 h1 then EFI_SECURITY_VIOLATION
  else if parent_verified || image_allowed h256 h1 || table_accepted h256 h1 es then EFI_SUCCESS
  else EFI_SECURITY_VIOLATION.

Lemma verify_buffer_authenticode_verdict ctx parent p es q st :
  digests v al base data datasize ctx = Ok (inr (h256, h1, ctx)) ->
  data = p ++ table_bytes es ++ q -> Forall wc_ok es ->
  read_dir data (SecDir ctx) = Ok (zlen p, zlen (table_bytes es)) ->
  exists st', verify_buffer_authenticode v al base data datasize ctx parent st
    = Ok (authenticode_verdict parent es, ctx, st').
Proof.
  intros Hdig Hdata HF Hdir. unfold verify_buffer_authenticode, authenticode_verdict.
  pose proof (zlen_nonneg data). case_if; [lia|]. rewrite Hdig, bind_Ok.
  pose proof (check_denylist_ok (v_AuthenticodeVerify v) (v_eku v) (v_firmware v) D h256 h1 Hh (vo_stored Hv)
    None st) as Hden.
  unfold denylist_check. rewrite (vo_alloc Hv), (vo_vendor_dbx Hv).
  fold (image_denied h256 h1) in Hden. destruct (image_denied h256 h1).
  { destruct Hden as (n & g & d & ->). rewrite bind_Ok. by eexists. }
  rewrite Hden, bind_Ok. change (EFI_ERROR EFI_SUCCESS) with false. cbv iota. destruct parent; [by eexists|].
  pose proof (check_allowlist_ok (v_AuthenticodeVerify v) (v_eku v) (v_firmware v) D h256 h1 (v_ignore_db v) Hh
    (vo_stored Hv) None st) as Hal.
  unfold allowlist_check. rewrite (vo_alloc Hv), (vo_vendor_db Hv).
  fold (image_allowed h256 h1) in Hal. destruct (image_allowed h256 h1); cbn [orb].
  { destruct Hal as (n & g & d & mt & Hmt & ->). rewrite bind_Ok. by eexists. }
  rewrite Hal, bind_Ok. change (EFI_ERROR EFI_NOT_FOUND) with true. rewrite bool_decide_true by done.
  cbn [negb]. rewrite Hdir, bind_Ok. destruct es as [|e es].
  { exists st. reflexivity. }
  pose proof (zlen_nonneg p). assert (Hlen : datasize = zlen p + zlen (table_bytes (e :: es)) + zlen q)
    by (rewrite Hl, Hdata, !zlen_app; lia). pose proof (zlen_nonneg q).
  assert (Hpos : 8 <= zlen (table_bytes (e :: es)) /\ Z.of_nat (length (e :: es)) <= zlen (table_bytes (e :: es)))
    by (by apply table_bytes_length).
  case_if; [lia|]. rewrite checked_add_eq by lia. cbn [orb]. case_if; [lia|].
  destruct (cert_table_loop_entries (e :: es) (zlen p) (zlen (table_bytes (e :: es))) (Datatypes.S (length data)) 0
    EFI_NOT_FOUND st p q) as (ret & st' & -> & Hret); try done; try lia.
  { unfold zlen in *. lia. }
  rewrite bind_Ok. exists st'. destruct (table_accepted h256 h1 (e :: es)).
  - by rewrite (proj2 Hret (or_intror eq_refl)).
  - rewrite bool_decide_false; [done|]. intros Hs. by apply Hret in Hs as [|].
Qed.
End table.
End sound.

(** ** Theorems *)

(** C11. The verdict of verify_buffer_authenticode on a file with a well-formed
    certificate table: refused when its digest is denied, and otherwise accepted
    exactly when the parent was verified, its digest is allowed, or one of the
    table's PKCS#7 signatures is accepted (not denied, and allowed by a database
    or made by a built-in key). *)
Theorem verify_buffer_authenticode_correct {S} `{FirmwareLaws S} (v : verifier S) al D base data ctx parent
    h256 h1 p es q st :
  verifier_ok v al D -> zlen data < 2 ^ 31 -> 0 <= base -> base + zlen data < 2 ^ 64 ->
  databases_ok D h256 h1 ->
  digests v al base data (zlen data) ctx = Ok (inr (h256, h1, ctx)) ->
  data = p ++ table_bytes es ++ q -> Forall wc_ok es ->
  read_dir data (SecDir ctx) = Ok (zlen p, zlen (table_bytes es)) ->
  exists st', verify_buffer_authenticode v al base data (zlen data) ctx parent st
    = Ok (authenticode_verdict v D h256 h1 parent es, ctx, st').
Proof. intros. eapply verify_buffer_authenticode_verdict; eauto. Qed.

(** C1. verify_buffer on any file with a header that read_header accepted: it
    returns, without a read outside the file; and when the status is not an
    error, it is EFI_SUCCESS, the image is authentic (its digest is not denied,
    and the parent was verified or its digest is allowed or a signature inside
    the certificate table is accepted), SBAT permits it, and the verification
    method has been recorded. *)
Theorem verify_buffer_sound {S} `{FirmwareLaws S} (v : verifier S) al D in_protocol base data datasize ctx
    parent vss st :
  verifier_ok v al D -> sbat_allocs al -> sbat_var_holds (v_sbat_var v) vss ->
  bytes data -> datasize <= zlen data -> datasize < 2 ^ 31 -> 0 <= base -> base + datasize < 2 ^ 64 ->
  context_wf data datasize ctx -> base + ImageSize ctx <= 2 ^ 64 ->
  exists e c st', verify_buffer v al in_protocol base data datasize ctx parent st = Ok (e, c, st') /\
    (EFI_ERROR e = false ->
     e = EFI_SUCCESS /\ c = ctx /\ authentic v al D base data datasize ctx parent /\
     sbat_permitted in_protocol base data datasize ctx vss /\
     (parent = false -> verification_method st' <> VERIFIED_BY_NOTHING)).
Proof. intros. by apply verify_buffer_ok. Qed.

(** The protocol's Verify on any buffer: it returns, without a read outside
    the buffer, and leaves in_protocol cleared unless the size is not an INT32.
    It succeeds only for a file with a valid header that is authentic and
    permitted by SBAT, unless secure boot is off. *)
Theorem shim_verify_sound {S} `{FirmwareLaws S} (v : verifier S) al D in_protocol base buffer size vss st :
  verifier_ok v al D -> sbat_allocs al -> sbat_var_holds (v_sbat_var v) vss ->
  bytes buffer -> 0 <= size < 2 ^ 32 -> size <= zlen buffer -> 0 <= base -> base + 2 ^ 33 < 2 ^ 64 ->
  exists e b st', shim_verify v al in_protocol base buffer size st = Ok (e, b, st') /\
    (size < 2 ^ 31 -> b = false) /\
    (EFI_ERROR e = false ->
     e = EFI_SUCCESS /\ size < 2 ^ 31 /\
     exists ctx, read_header (v_allow_32bit_kernel v) true (v_mok_policy v) base buffer size true = Ok (inr ctx) /\
       (secure_mode (v_firmware v) (v_user_insecure_mode v) = false \/
        authentic v al D base buffer size ctx false /\ sbat_permitted true base buffer size ctx vss /\
        verification_method st' <> VERIFIED_BY_NOTHING)).
Proof.
  intros Hv Hal Hvss Hb Hsz Hl Hbase Hend. unfold shim_verify.
  destruct (decide (size < 2 ^ 31)) as [Hlt|Hge].
  2:{ pose proof (i32_large size). case_if; [|lia]. by eexists _, _, _. }
  rewrite i32_small by lia. case_if; [lia|].
  destruct (read_header_in_range (v_allow_32bit_kernel v) true (v_mok_policy v) base buffer size true)
    as (r & -> & Hr); [done|lia..|]. rewrite bind_Ok.
  destruct r as [e|ctx]; [by eexists _, _, _; split; [done|]; rewrite Hr|].
  pose proof (wf_image _ _ _ Hr) as Himg.
  destruct (generate_hash_returns base buffer size) with (sha256 := v_sha256 v) (sha1 := v_sha1 v)
    (ca := a_hash_ctx al) (ha := a_hash_hdr al) (ctx := ctx) as (h & Hh & Hpost); [done|lia..|done|lia|].
  unfold digests at 1. rewrite Hh, bind_Ok. destruct h as [e|[[h256 h1] c]]; [by eexists _, _, _; split; [done|]; rewrite Hpost|].
  destruct Hpost as [-> _]. destruct (secure_mode _ _) eqn:Esm; cbn [negb].
  2:{ eexists _, _, _. split; [done|]. split; [done|]. intros _. split; [done|]. split; [done|]. eauto. }
  destruct (verify_buffer_ok v al D Hv base buffer size Hb Hl Hlt Hbase ltac:(lia) ctx Hr ltac:(lia) true false vss
    (log_pe st size 0 h1 4) Hal Hvss) as (e & c & st' & -> & He). rewrite bind_Ok.
  eexists _, _, _. split; [done|]. split; [done|]. intros Hne. destruct (He Hne) as (-> & _ & ? & ? & Hm).
  split; [done|]. split; [done|]. exists ctx. split; [done|]. right. auto.
Qed.

(** ** An example: a signed image whose signer's key is built into shim *)
Definition sample_p7 : list Z := [48; 130; 0; 1].
Definition sample_verifier : verifier Store :=
  {| v_sha256 := fun x => replicate 32 (zlen x mod 256); v_sha1 := fun x => replicate 20 (zlen x mod 256);
     v_AuthenticodeVerify := fun p7 cert hash => bytes_eqb p7 cert; v_eku := fun _ => None;
     v_vendor_deauthorized := []; v_vendor_db := None; v_build_cert := []; v_vendor_cert := sample_p7;
     v_ignore_db := false; v_sbat_var := ([], []); v_firmware := sample_firmware;
     v_user_insecure_mode := false; v_allow_32bit_kernel := false; v_mok_policy := 0 |}.
Definition sample_allocs : allocations :=
  {| a_var := true; a_hash_ctx := true; a_hash_hdr := true; a_sbat_copy := true; a_sbat_csv := fun _ => true;
     a_sbat_tab := true |}.

Definition sample_certs : list win_cert := [{| wc_revision := 0x200; wc_type := 2; wc_data := sample_p7 |}].
Definition signed_headers : list Z := put 232 (le_split 4 576 ++ le_split 4 16) sample_pe.
Definition signed_pe : list Z := signed_headers ++ table_bytes sample_certs ++ [].

Lemma sample_verifier_ok : verifier_ok sample_verifier sample_allocs sample_D.
Proof.
  split; [done|intros; apply zlen_replicate|intros; apply zlen_replicate|done|done|..].
  - apply sample_D_stored.
  - apply sample_D_ok.
Qed.

Lemma signed_pe_bytes : bytes signed_pe.
Proof.
  assert (Hb : forallb (fun b => (0 <=? b) && (b <? 256)) signed_pe = true) by (vm_compute; reflexivity).
  apply List.Forall_forall. intros b Hin. rewrite forallb_forall in Hb. specialize (Hb b Hin).
  unfold is_byte. bool_to_prop. lia.
Qed.

Definition signed_h256 : list Z := replicate 32 52.
Definition signed_h1 : list Z := replicate 20 52.

Lemma signed_ctx_wf : context_wf signed_pe 592 sample_ctx.
Proof.
  split; first [by vm_compute | right; by vm_compute | unfold sample_ctx; cbn; unfold sizeof_OPTIONAL_HEADER_UNION,
    sizeof_DATA_DIRECTORY, EFI_IMAGE_SIZEOF_SECTION_HEADER, EFI_IMAGE_NUMBER_OF_DIRECTORY_ENTRIES; lia].
Qed.

(** The signature is accepted, by the built-in key. *)
Lemma verify_buffer_authenticode_correct_witness :
  exists st', verify_buffer_authenticode sample_verifier sample_allocs 0x100000 signed_pe (zlen signed_pe)
      sample_ctx false {| verification_method := VERIFIED_BY_NOTHING; measured := [] |}
    = Ok (authenticode_verdict sample_verifier sample_D signed_h256 signed_h1 false sample_certs, sample_ctx, st') /\
    authenticode_verdict sample_verifier sample_D signed_h256 signed_h1 false sample_certs = EFI_SUCCESS.
Proof.
  assert (Hlen : zlen signed_pe = 592) by (vm_compute; reflexivity).
  destruct (verify_buffer_authenticode_correct sample_verifier sample_allocs sample_D 0x100000 signed_pe sample_ctx false
    signed_h256 signed_h1 signed_headers sample_certs []
    {| verification_method := VERIFIED_BY_NOTHING; measured := [] |}) as [st' Hst'].
  - apply sample_verifier_ok.
  - lia.
  - lia.
  - lia.
  - apply (databases_ok_lengths sample_D (replicate 32 0) (replicate 20 0)); [reflexivity|reflexivity|exact (vo_wf _ _ _ sample_verifier_ok)].
  - vm_compute. reflexivity.
  - reflexivity.
  - constructor; [split; [done|vm_compute; split; congruence]|constructor].
  - vm_compute. reflexivity.
  - exists st'. split; [exact Hst'|vm_compute; reflexivity].
Defined.

Lemma verify_buffer_sound_witness :
  exists e c st', verify_buffer sample_verifier sample_allocs false 0x100000 signed_pe 592 sample_ctx false
      {| verification_method := VERIFIED_BY_NOTHING; measured := [] |} = Ok (e, c, st') /\
    (EFI_ERROR e = false ->
     e = EFI_SUCCESS /\ c = sample_ctx /\
     authentic sample_verifier sample_allocs sample_D 0x100000 signed_pe 592 sample_ctx false /\
     sbat_permitted false 0x100000 signed_pe 592 sample_ctx [] /\
     (false = false -> verification_method st' <> VERIFIED_BY_NOTHING)).
Proof.
  apply (verify_buffer_sound sample_verifier sample_allocs sample_D false 0x100000 signed_pe 592 sample_ctx false []
    {| verification_method := VERIFIED_BY_NOTHING; measured := [] |}).
  - apply sample_verifier_ok.
  - done.
  - split; constructor.
  - apply signed_pe_bytes.
  - vm_compute. congruence.
  - lia.
  - lia.
  - lia.
  - apply signed_ctx_wf.
  - cbn. lia.
Defined.

Lemma shim_verify_sound_witness :
  exists e b st', shim_verify sample_verifier sample_allocs false 0x100000 signed_pe 592
      {| verification_method := VERIFIED_BY_NOTHING; measured := [] |} = Ok (e, b, st') /\
    (592 < 2 ^ 31 -> b = false) /\
    (EFI_ERROR e = false ->
     e = EFI_SUCCESS /\ 592 < 2 ^ 31 /\
     exists ctx, read_header false true 0 0x100000 signed_pe 592 true = Ok (inr ctx) /\
       (secure_mode sample_firmware false = false \/
        authentic sample_verifier sample_allocs sample_D 0x100000 signed_pe 592 ctx false /\
        sbat_permitted true 0x100000 signed_pe 592 ctx [] /\
        verification_method st' <> VERIFIED_BY_NOTHING)).
Proof.
  apply (shim_verify_sound sample_verifier sample_allocs sample_D false 0x100000 signed_pe 592 []
    {| verification_method := VERIFIED_BY_NOTHING; measured := [] |}).
  - apply sample_verifier_ok.
  - done.
  - split; constructor.
  - apply signed_pe_bytes.
  - lia.
  - vm_compute. congruence.
  - lia.
  - lia.
Defined.
