(* ===== verification/PeLoad.v ===== *)
(** * Loading an image: verify_image and handle_image of pe.c

    [handle_image] composes the components: it reads the header ([PeHeader]),
    verifies the file in secure mode ([VerifyBuffer]), digests it for the TPM
    ([PeHash]), copies the sections into freshly allocated pages, relocates them
    ([PeReloc]), sets the page attributes and fills the section cache
    ([SectionCache]).

    The memory of the loaded image is the list of bytes from the aligned
    address [buffer] to the end of the allocated pages; an access outside of it
    faults.  Calls that leave the modelled code are kept as events: the
    attributes asked of the firmware and the pages given back. *)
From stdpp Require Import base list numbers option strings.
From Stdlib Require Import ZArith Lia.
From S2P Require Import Prelude.
From S2P Require Import Efi.
From S2P Require Import Sbat.
From S2P Require Import Firmware.
From S2P Require Import Esl.
From S2P Require Import Variables.
From S2P Require Import PeHeader.
From S2P Require Import PeReloc.
From S2P Require Import PeHash.
From S2P Require Import SectionCache.
From S2P Require Import Verify.
From S2P Require Import VerifyBuffer.
Local Open Scope Z_scope.

Definition EFI_IMAGE_DIRECTORY_ENTRY_BASERELOC : Z := 5.
Definition MEM_ATTR_R : Z := 4.
Definition MEM_ATTR_W : Z := 2.
Definition MEM_ATTR_X : Z := 1.

(** ".reloc" and two zero bytes *)
Definition RELOC_SECTION_NAME : list Z := [46; 114; 101; 108; 111; 99; 0; 0].

Inductive load_event : Type :=
| update_mem_attrs (addr length set_attrs clear_attrs : Z)
| FreePages (addr pages : Z).

(** The fields of EFI_LOADED_IMAGE that handle_image sets. *)
Record loaded_image : Type := {
  li_ImageBase : Z;
  li_ImageSize : Z;
  li_LoadOptions : list Z
}.

(** [*alloc_address], [*alloc_pages] and [*alloc_alignment], which belong to the
    caller. *)
Record image_pages : Type := {
  ip_address : Z;
  ip_pages : Z;
  ip_alignment : Z
}.

Record lstate : Type := {
  l_verify : vstate;
  l_cache : list shim_section_cache_entry;
  l_events : list load_event;
  l_li : loaded_image;
  l_pages : image_pages
}.

Definition with_verify (s : lstate) (x : vstate) : lstate :=
  {| l_verify := x; l_cache := l_cache s; l_events := l_events s; l_li := l_li s;
     l_pages := l_pages s |}.
Definition with_cache (s : lstate) (x : list shim_section_cache_entry) : lstate :=
  {| l_verify := l_verify s; l_cache := x; l_events := l_events s; l_li := l_li s;
     l_pages := l_pages s |}.
Definition emit (s : lstate) (e : load_event) : lstate :=
  {| l_verify := l_verify s; l_cache := l_cache s; l_events := l_events s ++ [e]; l_li := l_li s;
     l_pages := l_pages s |}.
Definition with_li (s : lstate) (x : loaded_image) : lstate :=
  {| l_verify := l_verify s; l_cache := l_cache s; l_events := l_events s; l_li := x;
     l_pages := l_pages s |}.
Definition with_pages (s : lstate) (x : image_pages) : lstate :=
  {| l_verify := l_verify s; l_cache := l_cache s; l_events := l_events s; l_li := l_li s; l_pages := x |}.

(** What is left in the output parameters of a successful call. *)
Record loaded : Type := {
  ld_entry_point : Z;
  ld_alloc_address : Z;
  ld_alloc_pages : Z;
  ld_alloc_alignment : Z;
  ld_buffer : Z;
  ld_mem : list Z
}.

Definition zero_mem (mem : list Z) (off n : Z) : res (list Z) := wrn mem off (replicate (Z.to_nat n) 0).

(** [dst + off] gets [n] bytes of [src] at [soff]. *)
Definition copy_mem (mem : list Z) (off : Z) (src : list Z) (soff n : Z) : res (list Z) :=
  bs ← rdn src soff n; wrn mem off bs.

(** One section that is copied: CopyMem and ZeroMem. *)
Definition place_section (data mem : list Z) (off : Z) (s : EFI_IMAGE_SECTION_HEADER) : res (list Z) :=
  if has_flag (Characteristics s) EFI_IMAGE_SCN_CNT_UNINITIALIZED_DATA then zero_mem mem off (VirtualSize s)
  else
    let size := if SizeOfRawData s <? VirtualSize s then SizeOfRawData s else VirtualSize s in
    mem ← (if 0 <? size then copy_mem mem off data (PointerToRawData s) size else Ok mem);
    if size <? VirtualSize s then zero_mem mem (off + size) (VirtualSize s - size) else Ok mem.

(** The loop state: the memory, found_entry_point and RelocSection. *)
Record copy_state : Type := {
  cs_mem : list Z;
  cs_found : Z;
  cs_reloc : option EFI_IMAGE_SECTION_HEADER
}.

Section copy.
Context (mok_policy : Z) (data : list Z) (ctx : PE_CONTEXT) (buffer : Z).
(** RelocBase and RelocBaseEnd. *)
Context (RelocBase RelocBaseEnd : option Z).

(** The tests of the .reloc section. *)
Definition reloc_section_valid (s : EFI_IMAGE_SECTION_HEADER) (base end_ : option Z) : bool :=
  negb (SizeOfRawData s =? 0) && negb (VirtualSize s =? 0) &&
  negb (ptr_val base =? 0) && negb (ptr_val end_ =? 0) &&
  (ptr_val RelocBase =? ptr_val base) && (ptr_val RelocBaseEnd <=? ptr_val end_).

(** The body of the first loop; leaving it with a status frees the pages. *)
Definition copy_section (s : EFI_IMAGE_SECTION_HEADER) (cs : copy_state) : res (EFI_STATUS + copy_state) :=
  let flag := has_flag (Characteristics s) in
  if flag EFI_IMAGE_SCN_MEM_DISCARDABLE && (VirtualSize s =? 0) then Ok (inr cs)
  else if negb (flag EFI_IMAGE_SCN_MEM_READ) then Ok (inr cs)
  else if negb (flag EFI_IMAGE_SCN_MEM_DISCARDABLE) && flag EFI_IMAGE_SCN_MEM_WRITE &&
          flag EFI_IMAGE_SCN_MEM_EXECUTE && has_flag mok_policy MOK_POLICY_REQUIRE_NX
  then reject EFI_UNSUPPORTED
  else
    let (base, end_) := section_bounds buffer ctx s in
    if ptr_val end_ <? ptr_val base then reject EFI_UNSUPPORTED
    else
      let found := if (VirtualAddress s <=? EntryPoint ctx) &&
                      (EntryPoint ctx <? u32 (VirtualAddress s + VirtualSize s - 1))
                   then cs_found cs + 1 else cs_found cs in
      let is_reloc := bytes_eqb (Name s) RELOC_SECTION_NAME in
      if is_reloc && (bool_decide (is_Some (cs_reloc cs)) || negb (reloc_section_valid s base end_))
      then reject EFI_UNSUPPORTED
      else
        let reloc := if is_reloc then Some s else cs_reloc cs in
        let next mem := Ok (inr {| cs_mem := mem; cs_found := found; cs_reloc := reloc |}) in
        if flag EFI_IMAGE_SCN_MEM_DISCARDABLE then next (cs_mem cs)
        else
          match base, end_ with
          | Some base, Some _ =>
              if negb (flag EFI_IMAGE_SCN_CNT_UNINITIALIZED_DATA) &&
                 ((VirtualAddress s <? SizeOfHeaders ctx) || (PointerToRawData s <? SizeOfHeaders ctx))
              then reject EFI_UNSUPPORTED
              else mem ← place_section data (cs_mem cs) (base - buffer) s; next mem
          | _, _ => reject EFI_UNSUPPORTED
          end.

(** [k] sections are left, from the one at [off] on. *)
Fixpoint copy_sections (k : nat) (off : Z) (cs : copy_state) : res (EFI_STATUS + copy_state) :=
  match k with
  | O => Ok (inr cs)
  | S k' =>
      s ← read_section data off;
      and_then (copy_section s cs) (copy_sections k' (off + EFI_IMAGE_SIZEOF_SECTION_HEADER))
  end.
End copy.

Section attributes.
Context (sha256 : list Z -> list Z) (cache_alloc ctx_alloc : bool).
Context (data : list Z) (ctx : PE_CONTEXT) (buffer : Z) (mem : list Z) (image_handle : Z) (parent_verified : bool).

Definition set_attrs (ch : Z) : Z :=
  Z.lor (Z.lor MEM_ATTR_R (if has_flag ch EFI_IMAGE_SCN_MEM_WRITE then MEM_ATTR_W else 0))
        (if has_flag ch EFI_IMAGE_SCN_MEM_EXECUTE then MEM_ATTR_X else 0).
Definition clear_attrs (ch : Z) : Z :=
  Z.lor (if has_flag ch EFI_IMAGE_SCN_MEM_WRITE then 0 else MEM_ATTR_W)
        (if has_flag ch EFI_IMAGE_SCN_MEM_EXECUTE then 0 else MEM_ATTR_X).

(** The body of the second loop: page attributes and the section cache. *)
Definition protect_section (s : EFI_IMAGE_SECTION_HEADER) (st : lstate) : res (EFI_STATUS * lstate) :=
  let ch := Characteristics s in
  if has_flag ch EFI_IMAGE_SCN_MEM_DISCARDABLE && (VirtualSize s =? 0) then Ok (EFI_SUCCESS, st)
  else if negb (has_flag ch EFI_IMAGE_SCN_MEM_READ) then Ok (EFI_SUCCESS, st)
  else
    let (base, end_) := section_bounds buffer ctx s in
    let addr := ptr_val base in
    let raw_length := u64 (ptr_val end_ - addr + 1) in
    let length := ALIGN_VALUE 64 raw_length PAGE_SIZE in
    let st := emit st (update_mem_attrs addr length (set_attrs ch) (clear_attrs ch)) in
    if (has_flag ch EFI_IMAGE_SCN_CNT_CODE || has_flag ch EFI_IMAGE_SCN_CNT_INITIALIZED_DATA) &&
       has_flag ch EFI_IMAGE_SCN_MEM_READ && negb parent_verified then
      '(efi_status, cache) ← cache_section sha256 cache_alloc ctx_alloc (l_cache st) image_handle (Name s) mem
                               (addr - buffer) raw_length;
      Ok (efi_status, with_cache st cache)
    else Ok (EFI_SUCCESS, st).

Fixpoint protect_sections (k : nat) (off : Z) (st : lstate) : res (EFI_STATUS * lstate) :=
  match k with
  | O => Ok (EFI_SUCCESS, st)
  | S k' =>
      s ← read_section data off;
      '(efi_status, st) ← protect_section s st;
      if EFI_ERROR efi_status then Ok (efi_status, st)
      else protect_sections k' (off + EFI_IMAGE_SIZEOF_SECTION_HEADER) st
  end.
End attributes.

Section load.
Context {S : Type} `{Firmware S} (v : verifier S) (al : allocations).
(** AllocatePages: the address and the bytes the pages hold, for a number of
    pages.  The allocations of the section cache. *)
Context (AllocatePages : Z -> EFI_STATUS + (Z * list Z)) (cache_alloc cache_ctx_alloc : bool).

(** The status of a failure, or the context of the image that was verified. *)
Definition verify_image (in_protocol : bool) (base : Z) (data : list Z) (datasize : Z) (st : vstate)
  : res ((EFI_STATUS + PE_CONTEXT) * vstate) :=
  c ← read_header (v_allow_32bit_kernel v) in_protocol (v_mok_policy v) base data datasize true;
  match c with
  | inl efi_status => Ok (inl efi_status, st)
  | inr ctx =>
      '(efi_status, ctx, st) ←
        (if secure_mode (v_firmware v) (v_user_insecure_mode v)
         then verify_buffer v al in_protocol base data (i32 datasize) ctx false st
         else Ok (EFI_SUCCESS, ctx, st));
      if EFI_ERROR efi_status then Ok (inl efi_status, st)
      else
        h ← digests v al base data datasize ctx;
        match h with
        | inl efi_status => Ok (inl efi_status, st)
        | inr (_, h1, ctx) => Ok (inr ctx, log_pe st datasize (ctx_ImageAddress ctx) h1 4)
        end
  end.

(** The file is verified and measured: the status or the context to load. *)
Definition authorize_image (in_protocol parent_verified : bool) (base : Z) (data : list Z) (datasize : Z)
    (st : vstate) : res ((EFI_STATUS + PE_CONTEXT) * vstate) :=
  c ← read_header (v_allow_32bit_kernel v) in_protocol (v_mok_policy v) base data datasize true;
  match c with
  | inl efi_status => Ok (inl efi_status, st)
  | inr ctx =>
      '(efi_status, ctx, st) ←
        (if secure_mode (v_firmware v) (v_user_insecure_mode v)
         then verify_buffer v al in_protocol base data (i32 datasize) ctx parent_verified st
         else Ok (EFI_SUCCESS, ctx, st));
      if EFI_ERROR efi_status then Ok (inl efi_status, st)
      else if parent_verified then Ok (inr ctx, st)
      else
        h ← digests v al base data datasize ctx;
        match h with
        | inl efi_status => Ok (inl efi_status, st)
        | inr (_, h1, ctx) => Ok (inr ctx, log_pe st datasize (ctx_ImageAddress ctx) h1 4)
        end
  end.

(** The copied and relocated image, its entry point and found_entry_point. *)
Definition place_image (base : Z) (data : list Z) (ctx : PE_CONTEXT) (buffer : Z) (mem : list Z)
  : res (EFI_STATUS + (Z * Z * list Z)) :=
  mem ← copy_mem mem 0 data 0 (SizeOfHeaders ctx);
  match ImageAddress buffer (ImageSize ctx) (EntryPoint ctx) with
  | None => reject EFI_UNSUPPORTED
  | Some entry =>
      '(reloc_va, reloc_size) ← read_dir data (RelocDir ctx);
      let RelocBase := ImageAddress buffer (ImageSize ctx) reloc_va in
      let RelocBaseEnd := ImageAddress buffer (ImageSize ctx) (u32 (reloc_va + reloc_size - 1)) in
      and_then
        (copy_sections (v_mok_policy v) data ctx buffer RelocBase RelocBaseEnd (Z.to_nat (NumberOfSections ctx))
           (FirstSection ctx) {| cs_mem := mem; cs_found := 0; cs_reloc := None |})
        (fun cs =>
           if NumberOfRvaAndSizes ctx <=? EFI_IMAGE_DIRECTORY_ENTRY_BASERELOC then reject EFI_UNSUPPORTED
           else
             match cs_reloc cs with
             | Some s =>
                 if reloc_size =? 0 then Ok (inr (entry, cs_found cs, cs_mem cs))
                 else
                   '(efi_status, mem) ← relocate_coff ctx s base data buffer (cs_mem cs);
                   if EFI_ERROR efi_status then reject efi_status else Ok (inr (entry, cs_found cs, mem))
             | None => Ok (inr (entry, cs_found cs, cs_mem cs))
             end)
  end.

(** The size of the allocation, an [unsigned int]. *)
Definition alloc_size (ctx : PE_CONTEXT) : Z :=
  u32 (ALIGN_VALUE 64 (ImageSize ctx + SectionAlignment ctx) PAGE_SIZE).

Definition handle_image (in_protocol parent_verified : bool) (load_options : list Z) (base : Z) (data : list Z)
    (datasize : Z) (image_handle : Z) (st : lstate) : res ((EFI_STATUS + loaded) * lstate) :=
  '(c, vst) ← authorize_image in_protocol parent_verified base data datasize (l_verify st);
  let st := with_verify st vst in
  match c with
  | inl efi_status => Ok (inl efi_status, st)
  | inr ctx =>
      let alloc_alignment := if SectionAlignment ctx =? 0 then 4096 else SectionAlignment ctx in
      let alloc_pages := alloc_size ctx / PAGE_SIZE in
      let out address := {| ip_address := address; ip_pages := alloc_pages; ip_alignment := alloc_alignment |} in
      match AllocatePages alloc_pages with
      | inl _ => Ok (inl EFI_OUT_OF_RESOURCES, with_pages st (out (ip_address (l_pages st))))
      | inr (alloc_address, pages) =>
          let st := with_pages st (out alloc_address) in
          let fail efi_status st := Ok (inl efi_status, emit st (FreePages alloc_address alloc_pages)) in
          let buffer := ALIGN_VALUE 64 alloc_address alloc_alignment in
          let mem := drop (Z.to_nat (buffer - alloc_address)) pages in
          let st := emit st (update_mem_attrs buffer (alloc_size ctx) (Z.lor MEM_ATTR_R MEM_ATTR_W) MEM_ATTR_X) in
          p ← place_image base data ctx buffer mem;
          match p with
          | inl efi_status => fail efi_status st
          | inr (entry, found_entry_point, mem) =>
              '(efi_status, st) ←
                protect_sections (v_sha256 v) cache_alloc cache_ctx_alloc data ctx buffer mem image_handle
                  parent_verified (Z.to_nat (NumberOfSections ctx)) (FirstSection ctx) st;
              if EFI_ERROR efi_status then fail efi_status st
              else
                let st := with_li st {| li_ImageBase := buffer; li_ImageSize := ImageSize ctx;
                                        li_LoadOptions := load_options |} in
                if negb (found_entry_point =? 1)
                then fail EFI_UNSUPPORTED (with_cache st (flush_cached_sections (l_cache st) image_handle))
                else Ok (inr {| ld_entry_point := entry; ld_alloc_address := alloc_address;
                                ld_alloc_pages := alloc_pages; ld_alloc_alignment := alloc_alignment;
                                ld_buffer := buffer; ld_mem := mem |}, st)
          end
      end
  end.
End load.

(** ** Authorisation *)

(** What an image must be to get memory allocated. *)
Record authorised {S} `{Firmware S} (v : verifier S) (al : allocations) (D : databases)
    (in_protocol parent_verified : bool) (base : Z) (data : list Z) (datasize : Z)
    (vss : list (list (list Z))) (ctx : PE_CONTEXT) : Prop := {
  au_header : read_header (v_allow_32bit_kernel v) in_protocol (v_mok_policy v) base data datasize true = Ok (inr ctx);
  au_wf : context_wf data datasize ctx;
  au_policy :
    secure_mode (v_firmware v) (v_user_insecure_mode v) = true ->
    datasize < 2 ^ 31 /\ authentic v al D base data datasize ctx parent_verified /\
    sbat_permitted in_protocol base data datasize ctx vss;
  au_digest : parent_verified = false \/ secure_mode (v_firmware v) (v_user_insecure_mode v) = true ->
    exists h256 h1, digests v al base data datasize ctx = Ok (inr (h256, h1, ctx))
}.

Section authorise.
Context {S : Type} `{FirmwareLaws S} (v : verifier S) (al : allocations) (D : databases).
Context (Hv : verifier_ok v al D) (Hal : sbat_allocs al).
Context (vss : list (list (list Z))) (Hvss : sbat_var_holds (v_sbat_var v) vss).
Context (base : Z) (data : list Z) (datasize : Z).
Context (Hb : bytes data) (Hsz : 0 <= datasize < 2 ^ 32) (Hl : datasize <= zlen data).
Context (Hbase : 0 <= base) (Hend : base + 2 ^ 33 < 2 ^ 64).

Lemma digests_return ctx :
  context_wf data datasize ctx ->
  returns (digests v al base data datasize ctx) (fun '(_, _, c) => c = ctx).
Proof.
  intros Hw. pose proof (wf_image _ _ _ Hw).
  eapply returns_impl; [apply (generate_hash_returns base data datasize); auto; lia|].
  by intros [[h256 h1] c] [-> _].
Qed.

(** The verification step of both functions. *)
Lemma verification_ok in_protocol parent ctx st :
  context_wf data datasize ctx ->
  exists e c st',
    (if secure_mode (v_firmware v) (v_user_insecure_mode v)
     then verify_buffer v al in_protocol base data (i32 datasize) ctx parent st
     else Ok (EFI_SUCCESS, ctx, st)) = Ok (e, c, st') /\
    (EFI_ERROR e = false -> c = ctx /\
     (secure_mode (v_firmware v) (v_user_insecure_mode v) = true ->
      datasize < 2 ^ 31 /\ authentic v al D base data datasize ctx parent /\
      sbat_permitted in_protocol base data datasize ctx vss)).
Proof.
  intros Hw. pose proof (wf_image _ _ _ Hw). destruct (secure_mode _ _); [|by eexists _, _, _].
  destruct (decide (datasize < 2 ^ 31)) as [Hlt|Hge].
  - rewrite i32_small by lia.
    destruct (verify_buffer_ok v al D Hv base data datasize Hb Hl Hlt Hbase ltac:(lia) ctx Hw ltac:(lia)
      in_protocol parent vss st Hal Hvss) as (e & c & st' & -> & He).
    eexists _, _, _. split; [done|]. intros Hne. destruct (He Hne) as (_ & -> & ? & ? & _). auto.
  - pose proof (i32_large datasize). unfold verify_buffer, verify_buffer_authenticode.
    case_if; [|lia]. rewrite bind_Ok. by eexists _, _, _.
Qed.

Lemma authorize_image_ok in_protocol parent st :
  exists c st', authorize_image v al in_protocol parent base data datasize st = Ok (c, st') /\
    match c with
    | inl e => EFI_ERROR e = true
    | inr ctx => authorised v al D in_protocol parent base data datasize vss ctx
    end.
Proof.
  unfold authorize_image.
  destruct (read_header_in_range (v_allow_32bit_kernel v) in_protocol (v_mok_policy v) base data datasize true)
    as (r & Hr & Hw); [done|lia..|]. rewrite Hr, bind_Ok. destruct r as [e|ctx]; [by eexists _, _|].
  destruct (verification_ok in_protocol parent ctx st Hw) as (e & c & st' & -> & Hp). rewrite bind_Ok.
  destruct (EFI_ERROR e) eqn:Ee; [by eexists _, _|]. destruct (Hp eq_refl) as [-> Hpol].
  assert (Hsec : secure_mode (v_firmware v) (v_user_insecure_mode v) = true ->
    exists h256 h1, digests v al base data datasize ctx = Ok (inr (h256, h1, ctx))).
  { intros Hs. destruct (Hpol Hs) as (_ & (h256 & h1 & Hd & _) & _). eauto. }
  destruct parent.
  { eexists _, _. split; [done|]. split; auto. intros [?|?]; auto. done. }
  destruct (digests_return ctx Hw) as (h & Hd & Hh). rewrite Hd, bind_Ok.
  destruct h as [e'|[[h256 h1] c]]; [by eexists _, _|]. subst c.
  eexists _, _. split; [done|]. split; eauto.
Qed.

Lemma verify_image_ok in_protocol st :
  exists c st', verify_image v al in_protocol base data datasize st = Ok (c, st') /\
    match c with
    | inl e => EFI_ERROR e = true
    | inr ctx => authorised v al D in_protocol false base data datasize vss ctx
    end.
Proof. exact (authorize_image_ok in_protocol false st). Qed.
End authorise.

(** ** Raw data

    A file whose digest was computed has the raw data of all its sections. *)
Definition raw_in_file (datasize : Z) (s : EFI_IMAGE_SECTION_HEADER) : Prop :=
  SizeOfRawData s = 0 \/ PointerToRawData s + SizeOfRawData s <= datasize.
Definition section_fields (s : EFI_IMAGE_SECTION_HEADER) : Prop :=
  0 <= VirtualSize s < 2 ^ 32 /\ 0 <= VirtualAddress s < 2 ^ 32 /\ 0 <= SizeOfRawData s < 2 ^ 32 /\
  0 <= PointerToRawData s < 2 ^ 32.

Lemma hash_sections_raw base data datasize table input hashed r :
  0 <= base -> base + datasize <= 2 ^ 64 -> datasize <= zlen data ->
  Forall section_fields table ->
  hash_sections base data datasize table input hashed = Ok (inr r) -> Forall (raw_in_file datasize) table.
Proof.
  intros Hbase Hbd Hl HF. revert input hashed. induction HF as [|s table Hs HF IH]; intros input hashed;
    cbn [hash_sections]; [by constructor|]. destruct Hs as (_ & _ & Hraw & Hptr). case_if.
  { intros Hh. constructor; [by left|]. by eapply IH. }
  rewrite ImageAddress_eq by lia. destruct (datasize <=? _); [done|]. destruct (_ <? _); [done|].
  intros (out & Hu & Hr)%and_then_inv. constructor; [right|by eapply IH].
  replace (base + PointerToRawData s - base) with (PointerToRawData s) in Hu by lia.
  destruct (returns_inv _ _ _ (update_returns data datasize (PointerToRawData s) (SizeOfRawData s) input Hl
    ltac:(lia) ltac:(lia)) Hu). lia.
Qed.

Lemma read_sections_fields k data off :
  bytes data -> 0 <= off -> off + EFI_IMAGE_SIZEOF_SECTION_HEADER * Z.of_nat k <= zlen data ->
  exists secs, read_sections k data off = Ok secs /\ Forall section_fields secs.
Proof.
  unfold EFI_IMAGE_SIZEOF_SECTION_HEADER. intros Hb. revert off.
  induction k as [|k IH]; intros off Ho Hl; cbn [read_sections]; [by exists []|].
  destruct (read_section_in_range data off) as (s & -> & _ & Hs);
    [done|lia|unfold EFI_IMAGE_SIZEOF_SECTION_HEADER; lia|]. rewrite bind_Ok.
  destruct (IH (off + 40)) as (secs & E & HF); [lia..|].
  unfold EFI_IMAGE_SIZEOF_SECTION_HEADER. rewrite E, bind_Ok. eexists. split; [done|]. by constructor.
Qed.

Lemma section_table_fields data datasize ctx :
  bytes data -> datasize <= zlen data -> context_wf data datasize ctx ->
  exists secs, section_table data ctx = Ok secs /\ Forall section_fields secs.
Proof.
  intros Hb Hl []. unfold EFI_IMAGE_SIZEOF_SECTION_HEADER in *.
  apply read_sections_fields; [done|lia|unfold EFI_IMAGE_SIZEOF_SECTION_HEADER; lia].
Qed.

Lemma sort_sections_perm secs t :
  Permutation (secs ++ t) (fold_left (fun t s => insert_section s t) secs t).
Proof.
  revert t. induction secs as [|s secs IH]; intros t; cbn; [done|].
  rewrite <- IH, <- (insert_section_perm s t). apply Permutation_middle.
Qed.

Lemma digests_raw_in_file {S} (v : verifier S) al base data datasize ctx secs h256 h1 c :
  bytes data -> datasize <= zlen data -> datasize < 2 ^ 32 -> 0 <= base -> base + datasize <= 2 ^ 64 ->
  context_wf data datasize ctx -> base + ImageSize ctx <= 2 ^ 64 ->
  section_table data ctx = Ok secs ->
  digests v al base data datasize ctx = Ok (inr (h256, h1, c)) ->
  SizeOfHeaders ctx <= datasize /\ Forall (raw_in_file datasize) secs.
Proof.
  intros Hb Hl Hd Hbase Hbd Hw Hi Hsecs Hg. apply and_then_inv in Hg as ([input c'] & Hin & _).
  unfold hash_input in Hin. destruct (datasize <=? sizeof_DOS_HEADER) eqn:E64; [done|].
  unfold sizeof_DOS_HEADER in E64. bool_to_prop.
  destruct (rd_le data 0 2) as [mg| |] eqn:Emg; try done. rewrite bind_Ok in Hin.
  destruct (mg =? _) eqn:Emz; [|done]. apply Z.eqb_eq in Emz as ->. cbn [negb] in Hin.
  destruct (a_hash_ctx al); [|done]. cbn [negb] in Hin.
  apply and_then_inv in Hin as (i1 & H1 & Hin). apply and_then_inv in Hin as (c2 & H2 & Hin).
  destruct (returns_inv _ _ _ (hash_headers_returns data datasize Hl Hd ctx Hw) H1) as [Hsh _]. split; [done|].
  destruct (returns_inv _ _ _ (refresh_sections_returns base data datasize Hbase Hbd ctx Hw E64 Emg) H2).
  destruct (a_hash_hdr al); [|done]. cbn [negb] in Hin.
  apply and_then_inv in Hin as (t & Ht & Hin). apply and_then_inv in Hin as ([i2 h] & H3 & _).
  apply collect_sections_table in Ht as (secs' & Hs' & ->). rewrite Z.mul_0_r, Z.add_0_r in Hs'.
  destruct (section_table_fields data datasize ctx Hb Hl Hw) as (secs2 & Hs2 & HF).
  unfold section_table in *. rewrite Hsecs in Hs', Hs2. injection Hs' as <-. injection Hs2 as <-.
  pose proof (sort_sections_perm secs []) as HP. rewrite app_nil_r in HP.
  rewrite HP in HF |- *. by eapply hash_sections_raw.
Qed.

(** ** What the image looks like in memory *)

(** The bytes of a section: its raw data, cut to its size in memory or padded
    with zeroes. *)
Definition section_content (data : list Z) (s : EFI_IMAGE_SECTION_HEADER) : list Z :=
  let zeroes := replicate (Z.to_nat (VirtualSize s)) 0 in
  if has_flag (Characteristics s) EFI_IMAGE_SCN_CNT_UNINITIALIZED_DATA then zeroes
  else take (Z.to_nat (VirtualSize s))
         (slice data (PointerToRawData s) (PointerToRawData s + SizeOfRawData s) ++ zeroes).

(** The sections that get memory: readable and not discardable. *)
Definition section_copied (s : EFI_IMAGE_SECTION_HEADER) : bool :=
  has_flag (Characteristics s) EFI_IMAGE_SCN_MEM_READ &&
  negb (has_flag (Characteristics s) EFI_IMAGE_SCN_MEM_DISCARDABLE).

Definition section_skipped (s : EFI_IMAGE_SECTION_HEADER) : bool :=
  has_flag (Characteristics s) EFI_IMAGE_SCN_MEM_DISCARDABLE && (VirtualSize s =? 0) ||
  negb (has_flag (Characteristics s) EFI_IMAGE_SCN_MEM_READ).

(** The section has the entry point before its last byte. *)
Definition has_entry (ctx : PE_CONTEXT) (s : EFI_IMAGE_SECTION_HEADER) : bool :=
  negb (section_skipped s) && (VirtualAddress s <=? EntryPoint ctx) &&
  (EntryPoint ctx <? u32 (VirtualAddress s + VirtualSize s - 1)).

Definition writable_executable (s : EFI_IMAGE_SECTION_HEADER) : bool :=
  has_flag (Characteristics s) EFI_IMAGE_SCN_MEM_WRITE && has_flag (Characteristics s) EFI_IMAGE_SCN_MEM_EXECUTE.

Definition load_section (data mem : list Z) (s : EFI_IMAGE_SECTION_HEADER) : list Z :=
  if section_copied s then put (Z.to_nat (VirtualAddress s)) (section_content data s) mem else mem.

Lemma wrn_put m i bs : 0 <= i -> i + zlen bs <= zlen m -> wrn m i bs = Ok (put (Z.to_nat i) bs m).
Proof. intros. unfold wrn, put. case_if; [done|lia..]. Qed.

Lemma put_length off bs m : (off + length bs <= length m)%nat -> length (put off bs m) = length m.
Proof. intros. unfold put. rewrite !length_app, length_take, length_drop. lia. Qed.

Lemma put_put off a b m :
  (off + length a + length b <= length m)%nat ->
  put (off + length a) b (put off a m) = put off (a ++ b) m.
Proof.
  intros Hl. unfold put.
  assert (Ht : length (take off m) = off) by (rewrite length_take; lia).
  set (R := drop (off + length a) m).
  assert (Hf : take (off + length a) (take off m ++ a ++ R) = take off m ++ a).
  { rewrite app_assoc. apply take_app_length'. rewrite length_app. lia. }
  assert (Hd : drop (off + length a + length b) (take off m ++ a ++ R) = drop (length b) R).
  { rewrite app_assoc. rewrite drop_app_ge by (rewrite length_app; lia). rewrite length_app, Ht. f_equal. lia. }
  rewrite Hf, Hd. unfold R. rewrite drop_drop, length_app, <- !app_assoc. do 4 f_equal. lia.
Qed.

Lemma section_content_length data s : 0 <= VirtualSize s -> zlen (section_content data s) = VirtualSize s.
Proof.
  intros. unfold section_content, zlen. case_if; [rewrite length_replicate; lia|].
  rewrite length_take, length_app, length_replicate. lia.
Qed.

Lemma load_section_length data mem s :
  section_fields s -> (section_copied s = true -> VirtualAddress s + VirtualSize s <= zlen mem) ->
  zlen (load_section data mem s) = zlen mem.
Proof.
  intros (Hvs & Hva & _) Hin. unfold load_section. case_if; [|done]. specialize (Hin eq_refl).
  pose proof (section_content_length data s ltac:(lia)) as Hc. unfold zlen in *. rewrite put_length; lia.
Qed.

(** The two steps CopyMem and ZeroMem store the content of the section. *)
Lemma place_section_ok data datasize mem off s :
  section_fields s -> raw_in_file datasize s -> datasize <= zlen data ->
  0 <= off -> off + VirtualSize s <= zlen mem ->
  place_section data mem off s = Ok (put (Z.to_nat off) (section_content data s) mem).
Proof.
  intros (Hvs & _ & Hraw & Hptr) Hin Hl Ho Hm. unfold place_section, section_content, zero_mem.
  destruct (has_flag _ _). { apply wrn_put; rewrite ?zlen_replicate; lia. }
  set (raw := slice data _ _).
  assert (Hrl : length raw = Z.to_nat (SizeOfRawData s)).
  { unfold raw, slice. rewrite length_take, length_drop. unfold raw_in_file, zlen in *. lia. }
  set (size := if SizeOfRawData s <? VirtualSize s then SizeOfRawData s else VirtualSize s).
  assert (Hsize : size = Z.min (SizeOfRawData s) (VirtualSize s)) by (unfold size; case_if; lia).
  clearbody size.
  assert (Hcopy : (if 0 <? size then copy_mem mem off data (PointerToRawData s) size else Ok mem)
    = Ok (put (Z.to_nat off) (take (Z.to_nat size) raw) mem)).
  { case_if.
    - unfold copy_mem. assert (Hraw' : rdn data (PointerToRawData s) size = Ok (take (Z.to_nat size) raw)).
      { rewrite rdn_slice by (unfold raw_in_file in *; lia). unfold raw, slice. rewrite take_take. do 2 f_equal; lia. }
      rewrite Hraw', bind_Ok. apply wrn_put; [lia|]. unfold zlen in *. rewrite length_take. lia.
    - replace (Z.to_nat size) with 0%nat by lia. unfold put. rewrite take_0.
      cbn [app length]. by rewrite Nat.add_0_r, take_drop. }
  rewrite Hcopy, bind_Ok. case_if.
  - replace size with (SizeOfRawData s) in * by lia. rewrite take_ge by lia.
    rewrite wrn_put; [|lia|].
    2:{ rewrite zlen_replicate. unfold zlen in *. rewrite put_length; lia. }
    replace (Z.to_nat (off + SizeOfRawData s)) with (Z.to_nat off + length raw)%nat by lia.
    rewrite put_put by (rewrite length_replicate; unfold zlen in *; lia).
    do 2 f_equal. rewrite take_app_ge by lia. rewrite take_replicate. do 2 f_equal. lia.
  - rewrite take_app_le by lia. do 3 f_equal. lia.
Qed.

Section copying.
Context (pol : Z) (data : list Z) (datasize : Z) (ctx : PE_CONTEXT) (buffer : Z) (rb rbe : option Z).
Context (Hl : datasize <= zlen data) (Hbuf : 0 <= buffer) (Hend : buffer + ImageSize ctx <= 2 ^ 64).
Context (Hi : 0 <= ImageSize ctx < 2 ^ 32).

(** What the loop has done for a section it accepted. *)
Record section_done (s : EFI_IMAGE_SECTION_HEADER) : Prop := {
  sd_inside : section_copied s = true -> 0 < VirtualSize s /\ VirtualAddress s + VirtualSize s <= ImageSize ctx;
  sd_nx : has_flag pol MOK_POLICY_REQUIRE_NX = true -> section_copied s = true -> writable_executable s = false
}.

Lemma copy_section_ok s cs :
  section_fields s -> raw_in_file datasize s -> ImageSize ctx <= zlen (cs_mem cs) ->
  returns (copy_section pol data ctx buffer rb rbe s cs)
    (fun cs' => section_done s /\ cs_mem cs' = load_section data (cs_mem cs) s /\
       cs_found cs' = cs_found cs + (if has_entry ctx s then 1 else 0)).
Proof.
  intros Hs Hin Hm. pose proof Hs as (Hvs & Hva & _). unfold copy_section, has_entry, load_section.
  destruct (section_skipped s) eqn:Esk.
  { assert (Hc : section_copied s = false).
    { unfold section_skipped, section_copied in *. apply orb_true_iff in Esk as [Esk|Esk]; bool_to_prop.
      - match goal with H : has_flag _ _ = true |- _ => rewrite H end. apply andb_false_r.
      - by rewrite Esk. }
    assert (Hd : section_done s) by (split; by rewrite Hc).
    rewrite Hc. cbn [negb andb]. unfold section_skipped in Esk.
    destruct (_ && (VirtualSize s =? 0)); [apply returns_ok; auto with lia|]. cbn [orb] in Esk. rewrite Esk.
    apply returns_ok. auto with lia. }
  unfold section_skipped in Esk. apply orb_false_iff in Esk as [E1 E2]. rewrite E1, E2. cbn [negb andb].
  destruct (negb (has_flag (Characteristics s) EFI_IMAGE_SCN_MEM_DISCARDABLE) && _ && _ && _) eqn:Enx;
    [auto with shim|].
  unfold section_bounds. pose proof (u32_range (VirtualAddress s + VirtualSize s - 1)).
  rewrite !ImageAddress_eq by lia.
  match goal with |- context [ptr_val ?x <? ptr_val ?y] => destruct (ptr_val x <? ptr_val y) eqn:Eneg end;
    [auto with shim|].
  destruct (bytes_eqb (Name s) RELOC_SECTION_NAME && _); [auto with shim|].
  destruct (has_flag (Characteristics s) EFI_IMAGE_SCN_MEM_DISCARDABLE) eqn:Edis.
  { assert (Hc : section_copied s = false) by (unfold section_copied; by rewrite Edis, andb_false_r).
    apply returns_ok. cbn. rewrite Hc. split; [split; by rewrite Hc|]. split; [done|].
    case_if; lia. }
  assert (Hc : section_copied s = true).
  { unfold section_copied. rewrite Edis. apply negb_false_iff in E2. by rewrite E2. }
  assert (Hnx : has_flag pol MOK_POLICY_REQUIRE_NX = true -> writable_executable s = false).
  { intros Hp. rewrite Hp in Enx. cbn [negb] in Enx. by rewrite !andb_true_l, andb_true_r in Enx. }
  clear Enx E1. destruct (ImageSize ctx <=? VirtualAddress s) eqn:Eb; [auto with shim|].
  destruct (ImageSize ctx <=? u32 _) eqn:Ee; [auto with shim|]. cbn [ptr_val from_option id] in Eneg.
  bool_to_prop.
  pose proof (section_extent (VirtualAddress s) (VirtualSize s) Hva Hvs ltac:(lia) ltac:(lia)) as Hx.
  destruct (negb _ && (_ || _)); [auto with shim|].
  replace (buffer + VirtualAddress s - buffer) with (VirtualAddress s) by lia.
  rewrite (place_section_ok data datasize), bind_Ok by (done || lia).
  apply returns_ok. cbn [cs_mem cs_found]. rewrite Hc. split; [|split; [done|case_if; lia]].
  split; [intros; lia|auto].
Qed.

Definition entries (secs : list EFI_IMAGE_SECTION_HEADER) : Z := zlen (filter (fun s => has_entry ctx s = true) secs).

Lemma copy_sections_ok k off secs cs :
  read_sections k data off = Ok secs -> Forall section_fields secs -> Forall (raw_in_file datasize) secs ->
  ImageSize ctx <= zlen (cs_mem cs) ->
  returns (copy_sections pol data ctx buffer rb rbe k off cs)
    (fun cs' => Forall section_done secs /\ cs_mem cs' = fold_left (load_section data) secs (cs_mem cs) /\
       cs_found cs' = cs_found cs + entries secs).
Proof.
  revert off secs cs. induction k as [|k IH]; intros off secs cs; cbn [read_sections copy_sections].
  { intros [= <-] _ _ _. apply returns_ok. cbn. unfold entries, zlen. cbn. auto with lia. }
  intros Hrd HF HR Hm. destruct (read_section data off) as [s| |]; try done. rewrite bind_Ok. rewrite bind_Ok in Hrd.
  destruct (read_sections k data _) as [rest| |] eqn:Er; try done. injection Hrd as <-.
  inversion HF as [|? ? Hs HF']; subst. inversion HR as [|? ? Hr HR']; subst.
  eapply returns_bind; [by apply copy_section_ok|]. cbn beta. intros cs1 (Hd & Hmem & Hf).
  eapply returns_impl; [apply IH; [exact Er|done|done|]|].
  - rewrite Hmem, load_section_length; [done|done|]. intros Hc. pose proof (sd_inside _ Hd Hc). lia.
  - cbn beta. intros cs2 (Hds & Hmem2 & Hf2). split; [by constructor|]. cbn [fold_left]. rewrite Hmem2, Hmem, Hf2, Hf.
    split; [done|]. unfold entries. rewrite filter_cons. unfold zlen.
    destruct (has_entry ctx s); [rewrite decide_True by done|rewrite decide_False by done]; cbn [length]; lia.
Qed.
End copying.

(** ** The layout of the loaded image *)
Definition in_section (i : nat) (s : EFI_IMAGE_SECTION_HEADER) : Prop :=
  section_copied s = true /\ VirtualAddress s <= Z.of_nat i < VirtualAddress s + VirtualSize s.
Definition apart (s s' : EFI_IMAGE_SECTION_HEADER) : Prop :=
  VirtualAddress s + VirtualSize s <= VirtualAddress s' \/ VirtualAddress s' + VirtualSize s' <= VirtualAddress s.

Lemma lookup_put_out off bs m i :
  (i < off \/ off + length bs <= i)%nat -> (off + length bs <= length m)%nat -> put off bs m !! i = m !! i.
Proof.
  intros Hi Hl. unfold put. assert (Ht : length (take off m) = off) by (rewrite length_take; lia). destruct Hi.
  - rewrite lookup_app_l by lia. by rewrite lookup_take_lt by lia.
  - rewrite lookup_app_r by lia. rewrite lookup_app_r by lia. rewrite lookup_drop, Ht. f_equal. lia.
Qed.

Lemma lookup_put_in off bs m i :
  (off <= i < off + length bs)%nat -> (off + length bs <= length m)%nat -> put off bs m !! i = bs !! (i - off)%nat.
Proof.
  intros Hi Hl. unfold put. assert (Ht : length (take off m) = off) by (rewrite length_take; lia).
  rewrite lookup_app_r by lia. rewrite lookup_app_l by lia. by rewrite Ht.
Qed.

Section layout.
Context (data : list Z) (limit : Z).

Definition loadable (s : EFI_IMAGE_SECTION_HEADER) : Prop :=
  section_fields s /\ (section_copied s = true -> VirtualAddress s + VirtualSize s <= limit).

Lemma load_section_out mem s i :
  loadable s -> limit <= zlen mem -> ~ in_section i s -> load_section data mem s !! i = mem !! i.
Proof.
  intros [(Hvs & Hva & _) Hin] Hm Hout. unfold load_section, in_section in *. case_if; [|done].
  specialize (Hin eq_refl). pose proof (section_content_length data s ltac:(lia)). unfold zlen in *.
  apply lookup_put_out; lia.
Qed.

Lemma load_section_in mem s i :
  loadable s -> limit <= zlen mem -> in_section i s ->
  load_section data mem s !! i = section_content data s !! (i - Z.to_nat (VirtualAddress s))%nat.
Proof.
  intros [(Hvs & Hva & _) Hin] Hm [Hc Hi]. unfold load_section. rewrite Hc. specialize (Hin Hc).
  pose proof (section_content_length data s ltac:(lia)). unfold zlen in *. apply lookup_put_in; lia.
Qed.

Lemma load_sections_length secs mem :
  Forall loadable secs -> limit <= zlen mem -> zlen (fold_left (load_section data) secs mem) = zlen mem.
Proof.
  intros HF. revert mem. induction HF as [|s secs [Hs Hin] HF IH]; intros mem Hm; cbn [fold_left]; [done|].
  assert (Hl : zlen (load_section data mem s) = zlen mem) by (apply load_section_length; [done|intros Hc; specialize (Hin Hc); lia]).
  rewrite IH; lia.
Qed.

Lemma load_sections_out secs mem i :
  Forall loadable secs -> limit <= zlen mem -> Forall (fun s => ~ in_section i s) secs ->
  fold_left (load_section data) secs mem !! i = mem !! i.
Proof.
  intros HF. revert mem. induction HF as [|s secs Hs HF IH]; intros mem Hm Hout; cbn [fold_left]; [done|].
  inversion Hout; subst. rewrite IH; [by apply load_section_out| |done].
  rewrite load_section_length; [lia|apply Hs|]. intros Hc. destruct Hs as [_ Hs]. specialize (Hs Hc). lia.
Qed.

Lemma load_sections_in secs mem s i :
  Forall loadable secs -> limit <= zlen mem -> In s secs -> in_section i s ->
  Forall (fun s' => section_copied s' = true -> s' = s \/ apart s s') secs ->
  fold_left (load_section data) secs mem !! i = section_content data s !! (i - Z.to_nat (VirtualAddress s))%nat.
Proof.
  intros HF Hm Hin Hi Hap. revert HF Hin Hap. induction secs as [|x secs IH] using rev_ind; intros HF Hin Hap; [done|].
  apply Forall_app in HF as [HF Hx]. apply Forall_app in Hap as [Hap Hax]. inversion Hx; subst. inversion Hax; subst.
  rewrite fold_left_app. cbn [fold_left].
  assert (Hlen : limit <= zlen (fold_left (load_section data) secs mem)) by (rewrite load_sections_length; done).
  assert (Hcase : x = s \/ ~ in_section i x).
  { destruct (section_copied x) eqn:Ec; [|right; by intros [? _]; congruence].
    destruct Hi as [_ Hi]. match goal with H : true = true -> _ |- _ => destruct (H eq_refl) as [->|[Ha|Ha]] end;
      [by left|right|right]; intros [_ ?]; lia. }
  destruct Hcase as [->|Hout]; [by apply load_section_in|]. rewrite load_section_out by done.
  apply IH; auto. apply in_app_or in Hin as [?|[->|[]]]; done.
Qed.
End layout.

Lemma rdn_lookup m off bs :
  0 <= off -> off + zlen bs <= zlen m ->
  (forall i, (Z.to_nat off <= i < Z.to_nat off + length bs)%nat -> m !! i = bs !! (i - Z.to_nat off)%nat) ->
  rdn m off (zlen bs) = Ok bs.
Proof.
  intros Ho Hl Hi. unfold rdn, zlen in *. case_if; [|lia..]. f_equal. apply list_eq. intros j.
  destruct (decide (j < length bs)%nat).
  - rewrite lookup_take_lt by lia. rewrite lookup_drop, Hi by lia. f_equal. lia.
  - rewrite lookup_take_ge by lia. symmetry. apply lookup_ge_None. lia.
Qed.

(** The memory holds the sections of the file: each copied section that no
    other one overlaps has its content, and bytes of no section are those of
    [mem0]. *)
Record image_layout (data : list Z) (ctx : PE_CONTEXT) (secs : list EFI_IMAGE_SECTION_HEADER)
    (mem0 mem : list Z) : Prop := {
  il_length : zlen mem = zlen mem0;
  il_inside : forall s, In s secs -> section_copied s = true -> VirtualAddress s + VirtualSize s <= ImageSize ctx;
  il_content : forall s, In s secs -> section_copied s = true ->
    (forall s', In s' secs -> section_copied s' = true -> s' = s \/ apart s s') ->
    rdn mem (VirtualAddress s) (VirtualSize s) = Ok (section_content data s);
  il_rest : forall i, (forall s, In s secs -> ~ in_section i s) -> mem !! i = mem0 !! i
}.

Lemma load_sections_layout pol data ctx secs mem :
  Forall section_fields secs -> Forall (section_done pol ctx) secs -> ImageSize ctx <= zlen mem ->
  image_layout data ctx secs mem (fold_left (load_section data) secs mem).
Proof.
  intros HF Hd Hm. assert (HL : Forall (loadable (ImageSize ctx)) secs).
  { apply List.Forall_forall. intros s Hs. split; [by eapply (proj1 (List.Forall_forall _ _)) in HF|].
    intros Hc. eapply (proj1 (List.Forall_forall _ _)) in Hd as [Hd _]; [|done]. by apply Hd. }
  pose proof (load_sections_length data _ secs mem HL Hm) as Hlen.
  assert (Hins : forall s, In s secs -> section_copied s = true -> VirtualAddress s + VirtualSize s <= ImageSize ctx).
  { intros s Hs. by eapply (proj1 (List.Forall_forall _ _)) in HL as [_ HL]. }
  split; [done|done| |].
  - intros s Hs Hc Hap. eapply (proj1 (List.Forall_forall _ _)) in HF as HF'; [|exact Hs].
    destruct HF' as (Hvs & Hva & _). specialize (Hins s Hs Hc).
    pose proof (section_content_length data s ltac:(lia)) as Hcl. rewrite <- Hcl at 1.
    apply rdn_lookup; [lia|lia|]. intros i Hi. unfold zlen in Hcl.
    apply (load_sections_in data (ImageSize ctx)); try done; [split; [done|lia]|].
    apply List.Forall_forall. auto.
  - intros i Hi. apply (load_sections_out data (ImageSize ctx)); try done. apply List.Forall_forall. auto.
Qed.

(** ** Page attributes and the section cache *)
Definition discardable_inside (ctx : PE_CONTEXT) (s : EFI_IMAGE_SECTION_HEADER) : Prop :=
  has_flag (Characteristics s) EFI_IMAGE_SCN_MEM_DISCARDABLE = true ->
  VirtualSize s = 0 \/ VirtualAddress s + VirtualSize s <= ImageSize ctx.

(** The update of the attributes of a section, and those of all sections. *)
Definition section_event (buffer : Z) (s : EFI_IMAGE_SECTION_HEADER) : load_event :=
  update_mem_attrs (buffer + VirtualAddress s) (ALIGN_VALUE 64 (VirtualSize s) PAGE_SIZE)
    (set_attrs (Characteristics s)) (clear_attrs (Characteristics s)).
Definition section_events (buffer : Z) (secs : list EFI_IMAGE_SECTION_HEADER) : list load_event :=
  map (section_event buffer) (List.filter (fun s => negb (section_skipped s)) secs).

Lemma read_section_name data off s : read_section data off = Ok s -> zlen (Name s) = 8.
Proof.
  unfold read_section. intros H. res_inv. cbn. by eapply rdn_length.
Qed.

Section protecting.
Context (pol : Z) (sha256 : list Z -> list Z) (ca xa : bool) (data : list Z) (ctx : PE_CONTEXT) (buffer : Z).
Context (mem : list Z) (handle : Z) (parent : bool).
Context (Hbuf : 0 <= buffer) (Hend : buffer + ImageSize ctx <= 2 ^ 64).
Context (Hi : 0 <= ImageSize ctx < 2 ^ 32) (Hm : ImageSize ctx <= zlen mem).

Lemma section_skipped_false s :
  section_skipped s = false ->
  has_flag (Characteristics s) EFI_IMAGE_SCN_MEM_DISCARDABLE && (VirtualSize s =? 0) = false /\
  has_flag (Characteristics s) EFI_IMAGE_SCN_MEM_READ = true.
Proof. intros [? ?]%orb_false_iff. split; [done|by apply negb_false_iff]. Qed.

(** A section that is neither skipped nor outside: its bounds are addresses. *)
Lemma section_bounds_inside s :
  section_fields s -> 0 < VirtualSize s -> VirtualAddress s + VirtualSize s <= ImageSize ctx ->
  section_bounds buffer ctx s
  = (Some (buffer + VirtualAddress s), Some (buffer + (VirtualAddress s + VirtualSize s - 1))).
Proof.
  intros (Hvs & Hva & _) Hpos Hin. unfold section_bounds. rewrite u32_small by lia.
  rewrite !ImageAddress_eq by lia. repeat (case_if; [lia|]). done.
Qed.

Lemma protect_section_ok s st :
  section_fields s -> zlen (Name s) = 8 ->
  (section_copied s = true -> 0 < VirtualSize s /\ VirtualAddress s + VirtualSize s <= ImageSize ctx) ->
  discardable_inside ctx s ->
  exists e st', protect_section sha256 ca xa ctx buffer mem handle parent s st = Ok (e, st') /\
    (l_verify st', l_pages st') = (l_verify st, l_pages st) /\ l_events st' = l_events st ++ section_events buffer [s].
Proof.
  intros Hs Hn Hc Hd. unfold protect_section, section_events. cbn [List.filter]. destruct (section_skipped s) eqn:Esk; cbn [negb map].
  { rewrite app_nil_r. unfold section_skipped in Esk. destruct (_ && _); [by eexists _, _|]. cbn [orb] in Esk. rewrite Esk.
    by eexists _, _. }
  destruct (section_skipped_false s Esk) as [E1 E2]. rewrite E1, E2. cbn [negb].
  assert (Hin : 0 < VirtualSize s /\ VirtualAddress s + VirtualSize s <= ImageSize ctx).
  { unfold section_copied, discardable_inside in *. rewrite E2 in Hc.
    destruct (has_flag (Characteristics s) EFI_IMAGE_SCN_MEM_DISCARDABLE); [|by apply Hc].
    cbn [andb] in E1. apply Z.eqb_neq in E1. destruct Hs. specialize (Hd eq_refl). lia. }
  rewrite section_bounds_inside by tauto. cbn [ptr_val from_option id]. pose proof Hs as (Hvs & Hva & _).
  rewrite u64_small by lia.
  replace (buffer + (VirtualAddress s + VirtualSize s - 1) - (buffer + VirtualAddress s) + 1) with (VirtualSize s) by lia.
  change (update_mem_attrs _ _ _ _) with (section_event buffer s).
  destruct (_ && negb parent); [|by eexists _, _].
  unfold cache_section. destruct ca; cbn [negb]; [|by eexists _, _].
  destruct (rdn_in_range mem (buffer + VirtualAddress s - buffer) (VirtualSize s)) as [bs ->]; [lia..|].
  rewrite bind_Ok. destruct (rdn_in_range (Name s) 0 8) as [nm ->]; [lia..|]. rewrite bind_Ok.
  unfold _do_sha256_sum. destruct xa; cbn [negb]; rewrite bind_Ok; by eexists _, _.
Qed.

Lemma section_events_cons s secs : section_events buffer (s :: secs) = section_events buffer [s] ++ section_events buffer secs.
Proof. unfold section_events. cbn [List.filter]. by destruct (negb (section_skipped s)). Qed.

Lemma protect_sections_ok k off secs st :
  read_sections k data off = Ok secs -> Forall section_fields secs ->
  Forall (fun s => section_copied s = true -> 0 < VirtualSize s /\ VirtualAddress s + VirtualSize s <= ImageSize ctx) secs ->
  Forall (discardable_inside ctx) secs ->
  exists e st' evs, protect_sections sha256 ca xa data ctx buffer mem handle parent k off st = Ok (e, st') /\
    (l_verify st', l_pages st') = (l_verify st, l_pages st) /\ l_events st' = l_events st ++ evs /\
    (EFI_ERROR e = false -> evs = section_events buffer secs).
Proof.
  revert off secs st. induction k as [|k IH]; intros off secs st; cbn [read_sections protect_sections].
  { intros [= <-] _ _ _. eexists _, _, []. rewrite app_nil_r. by auto. }
  intros Hrd HF HC HD. destruct (read_section data off) as [s| |] eqn:Es; try done. rewrite bind_Ok in *.
  destruct (read_sections k data _) as [rest| |] eqn:Er; try done. injection Hrd as <-.
  inversion HF; subst. inversion HC; subst. inversion HD; subst.
  destruct (protect_section_ok s st) as (e & st1 & -> & Hv1 & Hev); try done; [by eapply read_section_name|].
  rewrite bind_Ok. destruct (EFI_ERROR e) eqn:Ee; [exists e, st1, (section_events buffer [s]); split_and!; [done..|]; rewrite Ee; done|].
  destruct (IH (off + EFI_IMAGE_SIZEOF_SECTION_HEADER) rest st1) as (e2 & st2 & evs2 & -> & Hv2 & Hev2 & Hall); try done.
  eexists _, _, (section_events buffer [s] ++ evs2). split; [done|]. split; [congruence|]. rewrite Hev2, Hev, app_assoc. split; [done|].
  intros E2. rewrite (Hall E2). symmetry. apply section_events_cons.
Qed.
End protecting.

Lemma align_bounds a al : 0 <= a -> 0 < al < 2 ^ 32 -> a + 2 ^ 32 <= 2 ^ 64 -> a <= ALIGN_VALUE 64 a al < a + al.
Proof.
  intros Ha Hr He. unfold ALIGN_VALUE. rewrite (Z.mod_small (al - 1)) by lia.
  set (x := (al - a) mod 2 ^ 64).
  assert (Hx : 0 <= Z.land x (al - 1)) by (apply Z.land_nonneg; right; lia).
  assert (Hle : 0 <= al - 1 - Z.land x (al - 1)).
  { rewrite Z.sub_nocarry_ldiff.
    - apply Z.ldiff_nonneg. left. lia.
    - apply Z.bits_inj'. intros n _. rewrite Z.ldiff_spec, Z.land_spec, Z.bits_0.
      by destruct (Z.testbit x n), (Z.testbit (al - 1) n). }
  rewrite Z.mod_small by lia. lia.
Qed.

(** ** The whole of handle_image *)
Section handle.
Context {S : Type} `{FirmwareLaws S} (v : verifier S) (al : allocations) (D : databases).
Context (Hv : verifier_ok v al D) (Hal : sbat_allocs al).
Context (vss : list (list (list Z))) (Hvss : sbat_var_holds (v_sbat_var v) vss).
Context (base : Z) (data : list Z) (datasize : Z).
Context (Hb : bytes data) (Hsz : 0 <= datasize < 2 ^ 32) (Hl : datasize <= zlen data).
Context (Hbase : 0 <= base) (Hend : base + 2 ^ 33 < 2 ^ 64).
Context (AllocatePages : Z -> EFI_STATUS + (Z * list Z)) (ca xa : bool).

(** Firmware gives the pages it was asked for. *)
Definition pages_allocated : Prop :=
  forall n a pages, 0 <= n -> AllocatePages n = inr (a, pages) -> 0 <= a /\ a + 2 ^ 33 <= 2 ^ 64 /\ zlen pages = n * PAGE_SIZE.

(** The section with the relocations. *)
Definition is_reloc (s : EFI_IMAGE_SECTION_HEADER) : bool := negb (section_skipped s) && bytes_eqb (Name s) RELOC_SECTION_NAME.
Definition reloc_of (secs : list EFI_IMAGE_SECTION_HEADER) : option EFI_IMAGE_SECTION_HEADER := List.find is_reloc secs.

(** It holds a relocation table of the length that the directory says, whose
    fields are inside the image. *)
Record reloc_table (ctx : PE_CONTEXT) (s : EFI_IMAGE_SECTION_HEADER) (bs : list (Z * list Z)) : Prop := {
  rt_blocks : Forall block_wf bs;
  rt_fields : Forall (block_inside (ImageSize ctx)) bs;
  rt_place : exists p q, data = p ++ PeReloc.table_bytes bs ++ q /\ PointerToRawData s = zlen p /\ zlen p + zlen (PeReloc.table_bytes bs) <= ImageSize ctx;
  rt_dir : exists va, read_dir data (RelocDir ctx) = Ok (va, zlen (PeReloc.table_bytes bs));
  rt_size : ImageSize ctx < 2 ^ 31
}.

(** What the loader relies on without checking it. *)
Record placeable (ctx : PE_CONTEXT) (secs : list EFI_IMAGE_SECTION_HEADER) : Prop := {
  pl_secs : section_table data ctx = Ok secs;
  pl_size : ImageSize ctx + SectionAlignment ctx + PAGE_SIZE <= 2 ^ 32;
  pl_discardable : Forall (discardable_inside ctx) secs;
  pl_reloc : forall s va size, reloc_of secs = Some s -> read_dir data (RelocDir ctx) = Ok (va, size) -> size <> 0 ->
    exists bs, reloc_table ctx s bs
}.

(** The image in memory: copied, and, where there are relocations and the image
    is not at its preferred address, relocated by its table. *)
Definition image_in_memory (ctx : PE_CONTEXT) (secs : list EFI_IMAGE_SECTION_HEADER) (buffer : Z)
    (mem0 mem : list Z) : Prop :=
  exists copied va size, image_layout data ctx secs (put 0 (slice data 0 (SizeOfHeaders ctx)) mem0) copied /\
    read_dir data (RelocDir ctx) = Ok (va, size) /\
    let delta := buffer - ctx_ImageAddress ctx in
    match reloc_of secs with
    | Some s =>
        if (size =? 0) || (u64 delta =? 0) then mem = copied
        else exists bs, reloc_table ctx s bs /\ apply_blocks delta (ImageSize ctx) bs copied = Ok (EFI_SUCCESS, mem)
    | None => mem = copied
    end.

Lemma relocate_placed ctx secs s va size buffer mem :
  0 <= ImageSize ctx < 2 ^ 32 -> placeable ctx secs -> reloc_of secs = Some s -> read_dir data (RelocDir ctx) = Ok (va, size) -> size <> 0 ->
  0 <= buffer -> buffer + ImageSize ctx <= 2 ^ 64 -> ImageSize ctx <= zlen mem ->
  exists bs e mem', reloc_table ctx s bs /\ relocate_coff ctx s base data buffer mem = Ok (e, mem') /\ zlen mem' = zlen mem /\
    let delta := buffer - ctx_ImageAddress ctx in
    (e, mem') = (EFI_SUCCESS, mem) /\ u64 delta = 0 \/ u64 delta <> 0 /\ apply_blocks delta (ImageSize ctx) bs mem = Ok (e, mem').
Proof.
  intros Hi Hpl Hs Hdir Hnz Hbuf Hbe Hm. destruct (pl_reloc _ _ Hpl s va size Hs Hdir Hnz) as [bs Hbs]. pose proof Hbs as [HW HFi (p & q & Hd & Hpp & Hfit) (va' & Hdir') H31].
  rewrite Hdir in Hdir'. injection Hdir' as <- Hsize.
  assert (Hne : bs <> []) by (intros ->; by apply Hnz; rewrite Hsize).
  assert (Hrel : relocate_coff ctx s base data buffer mem = let delta := buffer - ctx_ImageAddress ctx in
    if u64 delta =? 0 then Ok (EFI_SUCCESS, mem) else apply_blocks delta (ImageSize ctx) bs mem).
  { rewrite Hd. apply (relocate_coff_ok ctx s base buffer p q bs va); try done; try lia. by rewrite <- Hd, Hdir, Hsize. }
  cbn zeta in Hrel. destruct (Z.eqb_spec (u64 (buffer - ctx_ImageAddress ctx)) 0) as [E|E].
  - exists bs, EFI_SUCCESS, mem. split_and!; try done. by left.
  - destruct (apply_blocks_returns (buffer - ctx_ImageAddress ctx) (ImageSize ctx) bs mem HW HFi Hm) as (e & mem' & Ha).
    exists bs, e, mem'. split_and!; [done|by rewrite Hrel, Ha|by eapply apply_blocks_length|by right].
Qed.
Lemma apply_entries_status delta va es buf e mem : apply_entries delta va es buf = Ok (e, mem) -> EFI_ERROR e = false -> e = EFI_SUCCESS.
Proof.
  revert buf. induction es as [|r rs IH]; intros buf; cbn [apply_entries]; [by intros [= <- _]|].
  destruct (relocated _ _ _ _) as [[b|]| |]; try done; rewrite bind_Ok; [apply IH|by intros [= <- _]].
Qed.
Lemma apply_blocks_status delta size bs buf e mem : apply_blocks delta size bs buf = Ok (e, mem) -> EFI_ERROR e = false -> e = EFI_SUCCESS.
Proof.
  revert buf. induction bs as [|[va es] bs IH]; intros buf; cbn [apply_blocks]; [by intros [= <- _]|].
  case_if; [by intros [= <- _]|]. destruct (apply_entries _ _ _ _) as [[e' b]| |]; try done. rewrite bind_Ok.
  destruct (EFI_ERROR e') eqn:Ee; [intros [= <- _]; congruence|apply IH].
Qed.

(** The loop finds this section, and a second one is an error. *)
Lemma copy_section_reloc pol ctx buffer rb rbe s cs cs' :
  copy_section pol data ctx buffer rb rbe s cs = Ok (inr cs') ->
  cs_reloc cs' = (if is_reloc s then Some s else cs_reloc cs) /\ (is_reloc s = true -> cs_reloc cs = None).
Proof.
  unfold copy_section, is_reloc, section_skipped, reject. destruct (section_bounds buffer ctx s) as [b e].
  destruct (_ && (VirtualSize s =? 0)); cbn [orb negb andb]; [by intros [= <-]|].
  destruct (negb (has_flag (Characteristics s) EFI_IMAGE_SCN_MEM_READ)); cbn [orb negb andb]; [by intros [= <-]|].
  destruct (_ && has_flag pol _); [done|]. destruct (_ <? _); [done|].
  destruct (bytes_eqb (Name s) RELOC_SECTION_NAME); cbn [andb].
  - destruct (cs_reloc cs) as [x|] eqn:Ex; cbn [is_Some]; [rewrite bool_decide_true by eauto; done|].
    rewrite bool_decide_false by (by intros []). cbn [orb]. destruct (negb (reloc_section_valid _ _ _ _ _)); [done|].
    destruct (has_flag _ _); [by intros [= <-]|]. destruct b, e; try done. destruct (negb _ && _); [done|].
    destruct (place_section _ _ _ _); cbn [mbind res_bind]; [by intros [= <-]|done..].
  - destruct (has_flag _ EFI_IMAGE_SCN_MEM_DISCARDABLE); [by intros [= <-]|]. destruct b, e; try done. destruct (negb _ && _); [done|].
    destruct (place_section _ _ _ _); cbn [mbind res_bind]; [by intros [= <-]|done..].
Qed.

Lemma copy_sections_reloc pol ctx buffer rb rbe k off secs cs cs' :
  read_sections k data off = Ok secs ->
  copy_sections pol data ctx buffer rb rbe k off cs = Ok (inr cs') ->
  cs_reloc cs' = match cs_reloc cs with Some s => Some s | None => reloc_of secs end.
Proof.
  revert off secs cs. induction k as [|k IH]; intros off secs cs; cbn [read_sections copy_sections].
  { intros [= <-] [= <-]. by destruct (cs_reloc cs). }
  destruct (read_section data off) as [x| |]; try done. rewrite !bind_Ok.
  destruct (read_sections k data _) as [rest| |] eqn:Er; try done. intros [= <-] (cs1 & H1 & H2)%and_then_inv.
  rewrite (IH _ _ _ Er H2). destruct (copy_section_reloc _ _ _ _ _ _ _ _ H1) as [-> Hn]. unfold reloc_of. cbn [List.find].
  destruct (is_reloc x); [by rewrite Hn|done].
Qed.

Lemma place_image_ok ctx secs buffer mem :
  context_wf data datasize ctx -> placeable ctx secs -> Forall section_fields secs ->
  Forall (raw_in_file datasize) secs -> SizeOfHeaders ctx <= datasize ->
  0 <= buffer -> buffer + ImageSize ctx <= 2 ^ 64 -> ImageSize ctx <= zlen mem ->
  returns (place_image v base data ctx buffer mem)
    (fun '(entry, found, mem') =>
       entry = buffer + EntryPoint ctx /\ EntryPoint ctx < ImageSize ctx /\ found = entries ctx secs /\
       Forall (section_done (v_mok_policy v) ctx) secs /\ image_in_memory ctx secs buffer mem mem' /\ zlen mem' = zlen mem).
Proof.
  intros Hw Hpl HF HR Hsh Hbuf Hbend Hm. pose proof Hw as []. unfold sizeof_OPTIONAL_HEADER_UNION,
    sizeof_DATA_DIRECTORY, EFI_IMAGE_SIZEOF_SECTION_HEADER in *.
  unfold place_image, copy_mem. rewrite rdn_slice, bind_Ok by lia. rewrite Z.add_0_l.
  assert (Hhl : zlen (slice data 0 (SizeOfHeaders ctx)) = SizeOfHeaders ctx).
  { unfold slice, zlen in *. rewrite length_take, length_drop. lia. }
  rewrite wrn_put, bind_Ok by lia. change (Z.to_nat 0) with 0%nat.
  set (mem0 := put 0 _ mem). assert (Hm0 : zlen mem0 = zlen mem) by (unfold mem0, zlen in *; rewrite put_length; lia).
  rewrite ImageAddress_eq by lia. case_if; [auto with shim|].
  destruct (rd_le_in_range data (RelocDir ctx) 4) as (va & Eva & _); [done|lia..|].
  destruct (rd_le_in_range data (RelocDir ctx + 4) 4) as (sz & Esz & _); [done|lia..|].
  assert (Hdir : read_dir data (RelocDir ctx) = Ok (va, sz)) by (unfold read_dir; by rewrite Eva, bind_Ok, Esz).
  rewrite Hdir, bind_Ok.
  match goal with |- returns (and_then ?x _) _ => destruct x as [[st|cs]| |] eqn:Ecs end;
    match type of Ecs with ?x = _ => assert (Hr : returns x
      (fun cs' => Forall (section_done (v_mok_policy v) ctx) secs /\ cs_mem cs' = fold_left (load_section data) secs mem0 /\
       cs_found cs' = entries ctx secs)) by
      (eapply returns_impl; [apply (copy_sections_ok _ _ datasize); try done; first [apply Hpl|cbn [cs_mem]; lia|lia]|done]) end;
    destruct Hr as (x & Hx & Hpost); rewrite Ecs in Hx; try done; injection Hx as <-.
  { by apply returns_reject. }
  destruct Hpost as (Hdone & Hmem & Hfound).
  assert (Hlay : image_layout data ctx secs mem0 (cs_mem cs)).
  { rewrite Hmem. apply (load_sections_layout (v_mok_policy v)); auto. lia. }
  unfold and_then. rewrite bind_Ok. case_if; [auto with shim|].
  assert (Hplain : reloc_of secs = None \/ sz = 0 -> returns (Ok (inr (buffer + EntryPoint ctx, cs_found cs, cs_mem cs)))
    (fun '(entry, found, mem') =>
       entry = buffer + EntryPoint ctx /\ EntryPoint ctx < ImageSize ctx /\ found = entries ctx secs /\
       Forall (section_done (v_mok_policy v) ctx) secs /\ image_in_memory ctx secs buffer mem mem' /\ zlen mem' = zlen mem)).
  { intros Hnone. apply returns_ok. do 4 (split; [done|]). split; [|by rewrite (il_length _ _ _ _ _ Hlay)].
    exists (cs_mem cs), va, sz. split; [done|]. split; [done|]. cbn zeta. destruct Hnone as [-> | ->]; [done|]. by destruct (reloc_of secs). }
  pose proof (copy_sections_reloc _ _ _ _ _ _ _ _ _ _ (pl_secs _ _ Hpl) Ecs) as Hrs. cbn [cs_reloc] in Hrs.
  destruct (cs_reloc cs) as [s|] eqn:Ers; [|by apply Hplain; left]. destruct (Z.eqb_spec sz 0) as [-> | Hsz0]; [by apply Hplain; right|].
  symmetry in Hrs. pose proof (il_length _ _ _ _ _ Hlay).
  destruct (relocate_placed ctx secs s va sz buffer (cs_mem cs)) as (bs & e & mem' & Hbs & Hrel & Hlen & Hcase); try done; try lia.
  rewrite Hrel, bind_Ok. destruct (EFI_ERROR e) eqn:Ee; [by apply returns_reject|]. apply returns_ok.
  do 4 (split; [done|]). split; [|congruence]. exists (cs_mem cs), va, sz. split; [done|]. split; [done|]. cbn zeta in *. rewrite Hrs.
  rewrite (proj2 (Z.eqb_neq sz 0) Hsz0). cbn [orb]. destruct Hcase as [([= -> ->] & E) | (E & Ha)].
  - by rewrite E.
  - rewrite (proj2 (Z.eqb_neq _ 0) E). exists bs. split; [done|]. by rewrite Ha, (apply_blocks_status _ _ _ _ _ _ Ha Ee).
Qed.

(** What a successful call leaves. *)
Record image_ready (ctx : PE_CONTEXT) (secs : list EFI_IMAGE_SECTION_HEADER) (load_options : list Z)
    (st st' : lstate) (ld : loaded) : Prop := {
  ir_pages : exists pages, AllocatePages (ld_alloc_pages ld) = inr (ld_alloc_address ld, pages) /\
    image_in_memory ctx secs (ld_buffer ld) (drop (Z.to_nat (ld_buffer ld - ld_alloc_address ld)) pages) (ld_mem ld);
  ir_inside : ld_alloc_address ld <= ld_buffer ld /\
    ld_buffer ld + ImageSize ctx <= ld_alloc_address ld + ld_alloc_pages ld * PAGE_SIZE;
  ir_entry : ld_entry_point ld = ld_buffer ld + EntryPoint ctx /\ EntryPoint ctx < ImageSize ctx /\
    entries ctx secs = 1;
  ir_li : l_li st' = {| li_ImageBase := ld_buffer ld; li_ImageSize := ImageSize ctx; li_LoadOptions := load_options |};
  ir_events : l_events st' = l_events st ++
    update_mem_attrs (ld_buffer ld) (ld_alloc_pages ld * PAGE_SIZE) (Z.lor MEM_ATTR_R MEM_ATTR_W) MEM_ATTR_X :: section_events (ld_buffer ld) secs;
  ir_out : l_pages st' = {| ip_address := ld_alloc_address ld; ip_pages := ld_alloc_pages ld;
                            ip_alignment := ld_alloc_alignment ld |};
  ir_done : Forall (section_done (v_mok_policy v) ctx) secs
}.

(** A failure gives the pages back. *)
Definition pages_released (st st' : lstate) : Prop :=
  l_events st' = l_events st \/
  exists evs a n pages, l_events st' = l_events st ++ evs ++ [FreePages a n] /\ AllocatePages n = inr (a, pages) /\
    ip_address (l_pages st') = a /\ ip_pages (l_pages st') = n.

Lemma alloc_size_ok ctx :
  0 <= ImageSize ctx -> 0 < SectionAlignment ctx -> ImageSize ctx + SectionAlignment ctx + PAGE_SIZE <= 2 ^ 32 ->
  let n := alloc_size ctx in
  ImageSize ctx + SectionAlignment ctx <= n < 2 ^ 32 /\ n = n / PAGE_SIZE * PAGE_SIZE.
Proof.
  unfold alloc_size, PAGE_SIZE. intros Hi Ha Hs. cbn zeta.
  destruct (ALIGN_VALUE_pow2 64 (ImageSize ctx + SectionAlignment ctx) 12) as [Hr Hm]; [lia..|].
  change (2 ^ 12) with 4096 in *. rewrite u32_small by lia. split; [lia|].
  pose proof (Z.div_mod (ALIGN_VALUE 64 (ImageSize ctx + SectionAlignment ctx) 4096) 4096). lia.
Qed.

Lemma handle_image_ok in_protocol parent load_options handle st :
  pages_allocated ->
  parent = false \/ secure_mode (v_firmware v) (v_user_insecure_mode v) = true ->
  (forall ctx, authorised v al D in_protocol parent base data datasize vss ctx -> exists secs, placeable ctx secs) ->
  exists r st', handle_image v al AllocatePages ca xa in_protocol parent load_options base data datasize handle st
      = Ok (r, st') /\
    match r with
    | inl e => EFI_ERROR e = true /\ pages_released st st'
    | inr ld => exists ctx secs, authorised v al D in_protocol parent base data datasize vss ctx /\
        section_table data ctx = Ok secs /\ image_ready ctx secs load_options st st' ld
    end.
Proof.
  intros Hpages Hdig Hpl. unfold handle_image.
  destruct (authorize_image_ok v al D Hv Hal vss Hvss base data datasize Hb Hsz Hl Hbase Hend in_protocol parent (l_verify st))
    as (c & vst & -> & Hc). rewrite bind_Ok.
  destruct c as [e|ctx]; [eexists _, _; split; [done|]; split; [done|by left]|].
  destruct (Hpl ctx Hc) as (secs & Hp). destruct (au_digest _ _ _ _ _ _ _ _ _ _ Hc Hdig) as (h256 & h1 & Hd).
  pose proof (au_wf _ _ _ _ _ _ _ _ _ _ Hc) as Hw. pose proof (wf_image _ _ _ Hw) as Himg. pose proof (wf_align _ _ _ Hw) as Hal'.
  pose proof (wf_headers _ _ _ Hw). pose proof (wf_first _ _ _ Hw). pose proof (wf_pehdr _ _ _ Hw).
  pose proof (wf_nsections _ _ _ Hw). unfold EFI_IMAGE_SIZEOF_SECTION_HEADER in *.
  destruct (digests_raw_in_file v al base data datasize ctx secs h256 h1 ctx) as [Hsh HR]; try done; try lia; [exact (pl_secs _ _ Hp)|].
  destruct (section_table_fields data datasize ctx Hb Hl Hw) as (secs' & Hs' & HF).
  rewrite (pl_secs _ _ Hp) in Hs'. injection Hs' as <-.
  destruct (alloc_size_ok ctx) as [Hn Hnp]; [lia|lia|apply Hp|]. cbn zeta in Hn, Hnp.
  set (n := alloc_size ctx) in *. destruct (SectionAlignment ctx =? 0) eqn:Ez; bool_to_prop; [lia|].
  destruct (AllocatePages (n / PAGE_SIZE)) as [e|[a pages]] eqn:Eal; [eexists _, _; split; [done|]; split; [done|by left]|].
  destruct (Hpages (n / PAGE_SIZE) a pages ltac:(apply Z.div_pos; [lia|done]) Eal) as (Ha0 & Ha1 & Hlen).
  pose proof (align_bounds a (SectionAlignment ctx) ltac:(lia) ltac:(lia) ltac:(lia)) as Hbuf.
  set (buffer := ALIGN_VALUE 64 a (SectionAlignment ctx)) in *.
  set (mem := drop (Z.to_nat (buffer - a)) pages).
  assert (Hmem : ImageSize ctx <= zlen mem) by (unfold mem, zlen in *; rewrite length_drop; lia).
  cbn zeta.
  destruct (place_image_ok ctx secs buffer mem Hw Hp HF HR Hsh) as (p & -> & Hpost); [lia|lia|lia|]. rewrite bind_Ok.
  destruct p as [e|[[entry found] mem']].
  { eexists _, _. split; [done|]. split; [done|]. right.
    eexists [_], a, (n / PAGE_SIZE), pages. split; [cbn [l_events emit with_pages with_verify]; by rewrite <- app_assoc|done]. }
  destruct Hpost as (-> & Hep & -> & Hdone & Hin & Hml).
  destruct (protect_sections_ok (v_sha256 v) ca xa data ctx buffer mem' handle parent ltac:(lia) ltac:(lia) ltac:(lia)
    ltac:(lia) (Z.to_nat (NumberOfSections ctx)) (FirstSection ctx) secs
    (emit (with_pages (with_verify st vst) {| ip_address := a; ip_pages := n / PAGE_SIZE; ip_alignment := SectionAlignment ctx |})
       (update_mem_attrs buffer n (Z.lor MEM_ATTR_R MEM_ATTR_W) MEM_ATTR_X)))
    as (e & st' & evs & -> & Hvp & Hev & Hall);
    [apply Hp|done|eapply List.Forall_impl; [|exact Hdone]; by intros ? []|apply Hp|]. rewrite bind_Ok.
  cbn [l_events l_pages emit with_pages with_verify] in Hev, Hvp. rewrite <- app_assoc in Hev. injection Hvp as _ Hpg.
  assert (Hrel : forall st2, l_events st2 = l_events st' ++ [FreePages a (n / PAGE_SIZE)] -> l_pages st2 = l_pages st' -> pages_released st st2).
  { intros st2 E2 E3. right. exists ([update_mem_attrs buffer n (Z.lor MEM_ATTR_R MEM_ATTR_W) MEM_ATTR_X] ++ evs), a, (n / PAGE_SIZE), pages.
    split; [rewrite E2, Hev; by rewrite <- !app_assoc|]. by rewrite E3, Hpg. }
  destruct (EFI_ERROR e) eqn:Ee; [eexists _, _; split; [done|]; split; [done|by apply Hrel]|].
  destruct (entries ctx secs =? 1) eqn:Een; cbn [negb]; [|eexists _, _; split; [done|]; split; [done|by apply Hrel]].
  apply Z.eqb_eq in Een. eexists _, _. split; [done|]. exists ctx, secs. split; [done|]. split; [apply Hp|].
  split; cbn; [by exists pages|lia|done|done|by rewrite Hev, (Hall eq_refl), <- Hnp|done|done].
Qed.
End handle.

(** ** Theorems *)

Lemma handle_image_unauthorised {S} `{FirmwareLaws S} (v : verifier S) al D AllocatePages ca xa in_protocol parent
    load_options base data datasize handle vss st :
  verifier_ok v al D -> sbat_allocs al -> sbat_var_holds (v_sbat_var v) vss ->
  bytes data -> 0 <= datasize < 2 ^ 32 -> datasize <= zlen data -> 0 <= base -> base + 2 ^ 33 < 2 ^ 64 ->
  (exists ctx, authorised v al D in_protocol parent base data datasize vss ctx) \/
  (exists e vst, handle_image v al AllocatePages ca xa in_protocol parent load_options base data datasize handle st
     = Ok (inl e, with_verify st vst) /\ EFI_ERROR e = true).
Proof.
  intros Hv Hal Hvss Hb Hsz Hl Hbase Hend.
  destruct (authorize_image_ok v al D Hv Hal vss Hvss base data datasize Hb Hsz Hl Hbase Hend in_protocol parent (l_verify st))
    as ([e|ctx] & vst & Ha & Hc); [right|left; eauto]. exists e, vst. unfold handle_image. by rewrite Ha.
Qed.

(** C5. handle_image on any file: unless the header is accepted and, in secure
    mode, the image is authentic and SBAT permits it, the call returns an error
    and nothing is allocated, copied or made executable. *)
Theorem handle_image_refuses {S} `{FirmwareLaws S} (v : verifier S) al D AllocatePages ca xa in_protocol parent
    load_options base data datasize handle vss st :
  verifier_ok v al D -> sbat_allocs al -> sbat_var_holds (v_sbat_var v) vss ->
  bytes data -> 0 <= datasize < 2 ^ 32 -> datasize <= zlen data -> 0 <= base -> base + 2 ^ 33 < 2 ^ 64 ->
  (exists ctx, authorised v al D in_protocol parent base data datasize vss ctx) \/
  (exists e vst, handle_image v al AllocatePages ca xa in_protocol parent load_options base data datasize handle st
     = Ok (inl e, with_verify st vst) /\ EFI_ERROR e = true).
Proof. apply handle_image_unauthorised. Qed.

(** verify_image succeeds only for a file that handle_image would accept as
    well. *)
Theorem verify_image_sound {S} `{FirmwareLaws S} (v : verifier S) al D in_protocol base data datasize vss st :
  verifier_ok v al D -> sbat_allocs al -> sbat_var_holds (v_sbat_var v) vss ->
  bytes data -> 0 <= datasize < 2 ^ 32 -> datasize <= zlen data -> 0 <= base -> base + 2 ^ 33 < 2 ^ 64 ->
  exists c st', verify_image v al in_protocol base data datasize st = Ok (c, st') /\
    match c with
    | inl e => EFI_ERROR e = true
    | inr ctx => authorised v al D in_protocol false base data datasize vss ctx
    end.
Proof. intros. by apply verify_image_ok. Qed.

(** The loop that copies the sections, for a file whose digest has been
    computed: it never reads outside the file or writes outside the memory of
    the image; when it succeeds, every readable section that is not discardable
    lies inside the image, and its memory holds its raw data, cut or filled up
    with zeroes to its size (unless another section overlaps it); no other byte
    changes; and the sections with the entry point have been counted. *)
Theorem copy_sections_correct {S} (v : verifier S) al pol base data datasize ctx buffer rb rbe secs mem h256 h1 c :
  bytes data -> datasize <= zlen data -> datasize < 2 ^ 32 -> 0 <= base -> base + 2 ^ 33 < 2 ^ 64 ->
  context_wf data datasize ctx -> section_table data ctx = Ok secs ->
  digests v al base data datasize ctx = Ok (inr (h256, h1, c)) ->
  0 <= buffer -> buffer + ImageSize ctx <= 2 ^ 64 -> ImageSize ctx <= zlen mem ->
  returns (copy_sections pol data ctx buffer rb rbe (Z.to_nat (NumberOfSections ctx)) (FirstSection ctx)
             {| cs_mem := mem; cs_found := 0; cs_reloc := None |})
    (fun cs => image_layout data ctx secs mem (cs_mem cs) /\ cs_found cs = entries ctx secs).
Proof.
  intros Hb Hl Hd Hbase Hend Hw Hsecs Hdig Hbuf Hbe Hm. pose proof Hw as [].
  unfold EFI_IMAGE_SIZEOF_SECTION_HEADER in *.
  destruct (digests_raw_in_file v al base data datasize ctx secs h256 h1 c) as [_ HR]; try done; try lia.
  destruct (section_table_fields data datasize ctx Hb Hl Hw) as (secs' & Hs' & HF).
  rewrite Hsecs in Hs'. injection Hs' as <-.
  eapply returns_impl; [apply (copy_sections_ok pol data datasize); try done; lia|]. cbn beta.
  intros cs (Hdone & -> & ->). split; [|done]. by apply (load_sections_layout pol).
Qed.

(** C10. handle_image as a whole, for firmware that gives the pages it is asked
    for and an image that satisfies what the code does not check ([placeable]):
    it returns; after an error every page has been given back; after a success
    the image was authorised, lies inside the allocated pages and has its sections
    in memory; if it has relocations and is not at its preferred address, they
    have been applied, entry by entry ([apply_blocks], which is written from the
    format); exactly one section has the entry point, and attributes were changed
    only for the pages and for its sections. *)
Theorem handle_image_correct {S} `{FirmwareLaws S} (v : verifier S) al D AllocatePages ca xa in_protocol parent
    load_options base data datasize handle vss st :
  verifier_ok v al D -> sbat_allocs al -> sbat_var_holds (v_sbat_var v) vss ->
  bytes data -> 0 <= datasize < 2 ^ 32 -> datasize <= zlen data -> 0 <= base -> base + 2 ^ 33 < 2 ^ 64 ->
  pages_allocated AllocatePages ->
  parent = false \/ secure_mode (v_firmware v) (v_user_insecure_mode v) = true ->
  (forall ctx, authorised v al D in_protocol parent base data datasize vss ctx ->
     exists secs, placeable data ctx secs) ->
  exists r st', handle_image v al AllocatePages ca xa in_protocol parent load_options base data datasize handle st
      = Ok (r, st') /\
    match r with
    | inl e => EFI_ERROR e = true /\ pages_released AllocatePages st st'
    | inr ld => exists ctx secs, authorised v al D in_protocol parent base data datasize vss ctx /\
        section_table data ctx = Ok secs /\ image_ready v data AllocatePages ctx secs load_options st st' ld
    end.
Proof. intros. eapply handle_image_ok; eauto. Qed.

Lemma set_attrs_flags ch :
  has_flag (set_attrs ch) MEM_ATTR_W = has_flag ch EFI_IMAGE_SCN_MEM_WRITE /\
  has_flag (set_attrs ch) MEM_ATTR_X = has_flag ch EFI_IMAGE_SCN_MEM_EXECUTE.
Proof.
  unfold set_attrs. destruct (has_flag ch EFI_IMAGE_SCN_MEM_WRITE), (has_flag ch EFI_IMAGE_SCN_MEM_EXECUTE); done.
Qed.

(** Under the NX policy only a discardable section is made writable and
    executable. *)
Lemma section_events_wx pol ctx buffer secs : has_flag pol MOK_POLICY_REQUIRE_NX = true ->
  Forall (section_done pol ctx) secs -> forall a l s c, In (update_mem_attrs a l s c) (section_events buffer secs) ->
  has_flag s MEM_ATTR_W = true -> has_flag s MEM_ATTR_X = true ->
  exists sec, In sec secs /\ has_flag (Characteristics sec) EFI_IMAGE_SCN_MEM_DISCARDABLE = true /\ writable_executable sec = true /\
    a = buffer + VirtualAddress sec /\ l = ALIGN_VALUE 64 (VirtualSize sec) PAGE_SIZE.
Proof.
  intros Hnx Hdone a l s c Hin HW HX. apply in_map_iff in Hin as (sec & [= <- <- <- <-] & [Hsec Hsk]%filter_In). apply negb_true_iff in Hsk.
  destruct (set_attrs_flags (Characteristics sec)) as [EW EX]. rewrite EW in HW. rewrite EX in HX.
  assert (Hwx : writable_executable sec = true) by (unfold writable_executable; by rewrite HW, HX).
  exists sec. split; [done|]. split; [|done].
  eapply (proj1 (List.Forall_forall _ _)) in Hdone as [_ Hd']; [|exact Hsec].
  destruct (has_flag (Characteristics sec) EFI_IMAGE_SCN_MEM_DISCARDABLE) eqn:Ed; [done|].
  rewrite Hd' in Hwx; [done|done|]. unfold section_copied. destruct (section_skipped_false sec Hsk) as [_ ->]. by rewrite Ed.
Qed.

(** The exception is real: a discardable section inside the image that is
    readable, writable and executable passes the loop that copies, whatever the
    policy, and its memory is then made writable and executable. *)
Theorem discardable_writable_executable pol sha256 ca xa data ctx buffer rb rbe mem handle parent s cs st :
  0 <= buffer -> buffer + ImageSize ctx <= 2 ^ 64 -> 0 <= ImageSize ctx < 2 ^ 32 -> ImageSize ctx <= zlen mem ->
  section_fields s -> zlen (Name s) = 8 -> Name s <> RELOC_SECTION_NAME ->
  0 < VirtualSize s -> VirtualAddress s + VirtualSize s <= ImageSize ctx ->
  has_flag (Characteristics s) EFI_IMAGE_SCN_MEM_DISCARDABLE = true ->
  has_flag (Characteristics s) EFI_IMAGE_SCN_MEM_READ = true -> writable_executable s = true ->
  (exists cs', copy_section pol data ctx buffer rb rbe s cs = Ok (inr cs')) /\
  exists e st' len, protect_section sha256 ca xa ctx buffer mem handle parent s st = Ok (e, st') /\
    l_events st' = l_events st ++ [update_mem_attrs (buffer + VirtualAddress s) len 7 0].
Proof.
  intros Hbuf Hend Hi Hm Hs Hn Hname Hpos Hin Hd Hr Hwx. apply andb_true_iff in Hwx as [HW HX].
  assert (Hattr : set_attrs (Characteristics s) = 7 /\ clear_attrs (Characteristics s) = 0).
  { unfold set_attrs, clear_attrs. by rewrite HW, HX. }
  destruct Hattr as [Hset Hclr]. pose proof Hs as (Hvs & Hva & _).
  unfold copy_section, protect_section. rewrite Hd, Hr, Hset, Hclr, section_bounds_inside by done.
  destruct (VirtualSize s =? 0) eqn:E0; [apply Z.eqb_eq in E0; lia|]. cbn [andb negb ptr_val from_option id]. split.
  - case_if; [lia|]. unfold bytes_eqb. rewrite (bool_decide_false _ Hname). cbn [andb]. eauto.
  - destruct (_ && negb parent); [|by eexists _, _, _; split; [done|]].
    unfold cache_section. destruct ca; cbn [negb]; [|by eexists _, _, _; split; [done|]].
    rewrite u64_small by lia.
    destruct (rdn_in_range mem (buffer + VirtualAddress s - buffer)
      (buffer + (VirtualAddress s + VirtualSize s - 1) - (buffer + VirtualAddress s) + 1)) as [bs ->]; [lia..|].
    rewrite bind_Ok. destruct (rdn_in_range (Name s) 0 8) as [nm ->]; [lia..|]. rewrite bind_Ok.
    unfold _do_sha256_sum. destruct xa; cbn [negb]; rewrite bind_Ok; by eexists _, _, _; split; [done|].
Qed.

(** The size of the allocation is computed in 32 bits: when the image and
    its alignment need four gigabytes, what is allocated is less than two pages
    more than the alignment, whatever the size of the image. *)
Theorem alloc_size_truncated ctx :
  ImageSize ctx < 2 ^ 32 -> 0 < SectionAlignment ctx < 2 ^ 32 -> 2 ^ 32 <= ImageSize ctx + SectionAlignment ctx ->
  0 <= alloc_size ctx < SectionAlignment ctx + PAGE_SIZE.
Proof.
  intros Hi Ha Hs. unfold alloc_size.
  destruct (ALIGN_VALUE_pow2 64 (ImageSize ctx + SectionAlignment ctx) 12) as [Hr _]; [lia..|].
  change (2 ^ 12) with PAGE_SIZE in Hr. unfold PAGE_SIZE in *. unfold u32.
  set (x := ALIGN_VALUE _ _ _) in *.
  pose proof (Z.mod_pos_bound x (2 ^ 32)). pose proof (Z.div_mod x (2 ^ 32)).
  assert (1 <= x / 2 ^ 32) by (apply Z.div_le_lower_bound; lia). lia.
Qed.

(** ** An example: the signed image is loaded *)
Definition sample_alloc (n : Z) : EFI_STATUS + (Z * list Z) := inr (0x400000, replicate (Z.to_nat (n * PAGE_SIZE)) 0).
Definition sample_lstate : lstate :=
  {| l_verify := {| verification_method := VERIFIED_BY_NOTHING; measured := [] |}; l_cache := []; l_events := [];
     l_li := {| li_ImageBase := 0; li_ImageSize := 0; li_LoadOptions := [] |};
     l_pages := {| ip_address := 0; ip_pages := 0; ip_alignment := 0 |} |}.
Definition sample_text : EFI_IMAGE_SECTION_HEADER :=
  {| Name := [46; 116; 101; 120; 116; 0; 0; 0]; VirtualSize := 64; VirtualAddress := 4096; SizeOfRawData := 64;
     PointerToRawData := 512; PointerToRelocations := 0; NumberOfRelocations := 0; Characteristics := 0x60000020 |}.

Lemma signed_placeable : placeable signed_pe sample_ctx [sample_text].
Proof.
  split; [vm_compute; reflexivity|vm_compute; congruence| |].
  - constructor; [|constructor]. intros E. by vm_compute in E.
  - intros s va size E. vm_compute in E. discriminate E.
Qed.

Definition blank_image : list Z := replicate (Z.to_nat 8192) 0.

Lemma sample_pages_allocated : pages_allocated sample_alloc.
Proof.
  intros n a pages Hn [= <- <-]. split; [lia|]. split; [lia|]. rewrite zlen_replicate. unfold PAGE_SIZE. lia.
Qed.

Lemma signed_authorised_placeable ctx :
  authorised sample_verifier sample_allocs sample_D false false 0x100000 signed_pe 592 [] ctx ->
  exists secs, placeable signed_pe ctx secs.
Proof.
  intros [Hh _ _ _]. exists [sample_text].
  assert (E : read_header false false 0 0x100000 signed_pe 592 true = Ok (inr sample_ctx)) by (vm_compute; reflexivity).
  change (v_allow_32bit_kernel sample_verifier) with false in Hh. change (v_mok_policy sample_verifier) with 0 in Hh.
  rewrite E in Hh. injection Hh as <-. apply signed_placeable.
Qed.

Lemma signed_pe_length : zlen signed_pe = 592.
Proof. vm_compute. reflexivity. Qed.

Lemma handle_image_refuses_witness :
  (exists ctx, authorised sample_verifier sample_allocs sample_D false false 0x100000 [77; 90] 2 [] ctx) \/
  (exists e vst, handle_image sample_verifier sample_allocs sample_alloc true true false false [] 0x100000 [77; 90] 2 7
     sample_lstate = Ok (inl e, with_verify sample_lstate vst) /\ EFI_ERROR e = true).
Proof.
  apply (handle_image_refuses sample_verifier sample_allocs sample_D sample_alloc true true false false [] 0x100000
    [77; 90] 2 7 [] sample_lstate);
    [apply sample_verifier_ok|done|split; constructor|repeat first [apply List.Forall_cons; [unfold is_byte; lia|]|constructor]|lia|vm_compute; congruence|lia|lia].
Defined.

Lemma verify_image_sound_witness :
  exists c st', verify_image sample_verifier sample_allocs false 0x100000 signed_pe 592 (l_verify sample_lstate)
      = Ok (c, st') /\
    match c with
    | inl e => EFI_ERROR e = true
    | inr ctx => authorised sample_verifier sample_allocs sample_D false false 0x100000 signed_pe 592 [] ctx
    end.
Proof.
  apply (verify_image_sound sample_verifier sample_allocs sample_D false 0x100000 signed_pe 592 [] (l_verify sample_lstate));
    [apply sample_verifier_ok|done|split; constructor|apply signed_pe_bytes|lia|by rewrite signed_pe_length|lia|lia].
Defined.

Lemma copy_sections_correct_witness :
  returns (copy_sections 1 signed_pe sample_ctx 0x400000 None None 1 328
             {| cs_mem := blank_image; cs_found := 0; cs_reloc := None |})
    (fun cs => image_layout signed_pe sample_ctx [sample_text] blank_image (cs_mem cs) /\
       cs_found cs = entries sample_ctx [sample_text]).
Proof.
  apply (copy_sections_correct sample_verifier sample_allocs 1 0x100000 signed_pe 592 sample_ctx 0x400000 None None
    [sample_text] blank_image signed_h256 signed_h1 sample_ctx);
    [apply signed_pe_bytes|by rewrite signed_pe_length|lia|lia|lia|apply signed_ctx_wf|vm_compute; reflexivity
    |vm_compute; reflexivity|lia|vm_compute; congruence|vm_compute; congruence].
Defined.

(** The image of [PeHeader] with a second section, .reloc: one 64-bit relocation,
    of the first word of .text, and padding; without secure mode. *)
Definition reloc_blocks_sample : list (Z * list Z) := [(4096, [0xa000; 0])].
Definition reloc_header : list Z :=
  RELOC_SECTION_NAME ++ le_split 4 12 ++ le_split 4 5120 ++ le_split 4 12 ++ le_split 4 576 ++ replicate 12 0 ++ le_split 4 0x42000040.
Definition reloc_pe : list Z :=
  put 368 reloc_header (put 240 (le_split 4 5120 ++ le_split 4 12) (put 512 (le_split 8 0x1040) (put 70 (le_split 2 2) sample_pe))) ++
  PeReloc.table_bytes reloc_blocks_sample.
Definition reloc_pe_ctx : PE_CONTEXT :=
  {| ctx_ImageAddress := 0; ImageSize := 8192; EntryPoint := 4096; SizeOfHeaders := 512;
     NumberOfSections := 2; SectionAlignment := 4096; FirstSection := 328; RelocDir := 240; SecDir := 232;
     NumberOfRvaAndSizes := 16; DllCharacteristics := 256; PEHdr := 64 |}.
Definition open_verifier : verifier Store :=
  {| v_sha256 := v_sha256 sample_verifier; v_sha1 := v_sha1 sample_verifier;
     v_AuthenticodeVerify := v_AuthenticodeVerify sample_verifier; v_eku := v_eku sample_verifier;
     v_vendor_deauthorized := []; v_vendor_db := None; v_build_cert := []; v_vendor_cert := sample_p7;
     v_ignore_db := false; v_sbat_var := ([], []); v_firmware := sample_firmware;
     v_user_insecure_mode := true; v_allow_32bit_kernel := false; v_mok_policy := 0 |}.
Definition reloc_text : EFI_IMAGE_SECTION_HEADER := sample_text.
Definition reloc_reloc : EFI_IMAGE_SECTION_HEADER :=
  {| Name := RELOC_SECTION_NAME; VirtualSize := 12; VirtualAddress := 5120; SizeOfRawData := 12; PointerToRawData := 576;
     PointerToRelocations := 0; NumberOfRelocations := 0; Characteristics := 0x42000040 |}.

Lemma open_verifier_ok : verifier_ok open_verifier sample_allocs sample_D.
Proof. destruct sample_verifier_ok. by split. Qed.
Lemma reloc_pe_placeable : placeable reloc_pe reloc_pe_ctx [reloc_text; reloc_reloc].
Proof.
  split; [vm_compute; reflexivity|vm_compute; congruence| |].
  - apply List.Forall_cons; [intros E; vm_compute in E; discriminate E|]. apply List.Forall_cons; [|constructor]. intros _. right. cbn. lia.
  - intros s va size Hs _ _. exists reloc_blocks_sample. vm_compute in Hs. injection Hs as <-. split.
    + repeat constructor; cbn; lia.
    + repeat constructor; vm_compute; congruence.
    + exists (take 576 reloc_pe), []. split; [vm_compute; reflexivity|]. split; [vm_compute; reflexivity|vm_compute; congruence].
    + exists 5120. vm_compute. reflexivity.
    + cbn. lia.
Qed.
Lemma reloc_pe_bytes : bytes reloc_pe.
Proof.
  assert (H : forallb (fun b => (0 <=? b) && (b <? 256)) reloc_pe = true) by (vm_compute; reflexivity).
  rewrite forallb_forall in H. apply List.Forall_forall. intros b Hin. specialize (H b Hin). unfold is_byte. bool_to_prop. lia.
Qed.
Lemma reloc_pe_header : read_header false false 0 0x100000 reloc_pe 588 true = Ok (inr reloc_pe_ctx).
Proof. vm_compute. reflexivity. Qed.
Lemma reloc_authorised_placeable ctx :
  authorised open_verifier sample_allocs sample_D false false 0x100000 reloc_pe 588 [] ctx -> exists secs, placeable reloc_pe ctx secs.
Proof.
  intros [Hh _ _ _]. exists [reloc_text; reloc_reloc].
  change (v_allow_32bit_kernel open_verifier) with false in Hh. change (v_mok_policy open_verifier) with 0 in Hh.
  rewrite reloc_pe_header in Hh. injection Hh as <-. apply reloc_pe_placeable.
Qed.
Definition reloc_result : (EFI_STATUS + loaded) * lstate :=
  match handle_image open_verifier sample_allocs sample_alloc true true false false [] 0x100000 reloc_pe 588 7 sample_lstate with
  | Ok r => r
  | _ => (inl EFI_UNSUPPORTED, sample_lstate)
  end.

Lemma reloc_pe_dir : read_dir reloc_pe (RelocDir reloc_pe_ctx) = Ok (5120, 12).
Proof. vm_compute. reflexivity. Qed.
Lemma reloc_pe_loaded :
  match fst reloc_result with inr ld => ld_buffer ld = 0x400000 /\ rd_le (ld_mem ld) 4096 8 = Ok 0x401040 | inl _ => False end.
Proof. vm_compute. split; reflexivity. Qed.

(** It is loaded at 0x400000, and the word is 0x401040. *)
Lemma handle_image_correct_witness :
  exists ld ctx secs copied bs, fst reloc_result = inr ld /\ section_table reloc_pe ctx = Ok secs /\
    image_ready open_verifier reloc_pe sample_alloc ctx secs [] sample_lstate (snd reloc_result) ld /\
    apply_blocks 0x400000 8192 bs copied = Ok (EFI_SUCCESS, ld_mem ld) /\ rd_le (ld_mem ld) 4096 8 = Ok 0x401040.
Proof.
  destruct (handle_image_correct open_verifier sample_allocs sample_D sample_alloc true true false false [] 0x100000
    reloc_pe 588 7 [] sample_lstate) as (r & st' & Hr & Hpost);
    [apply open_verifier_ok|done|split; constructor|apply reloc_pe_bytes|lia|vm_compute; congruence|lia|lia
    |apply sample_pages_allocated|by left|apply reloc_authorised_placeable|].
  assert (Hres : reloc_result = (r, st')) by (unfold reloc_result; by rewrite Hr). rewrite Hres. cbn [fst snd].
  pose proof reloc_pe_loaded as Hw. rewrite Hres in Hw. cbn [fst] in Hw. destruct r as [e|ld]; [destruct Hw|]. destruct Hw as [Hbuf Hw]. destruct Hpost as (ctx & secs & Hau & Hsecs & Hready).
  assert (ctx = reloc_pe_ctx) as ->.
  { destruct Hau as [Hh _ _ _]. change (v_allow_32bit_kernel open_verifier) with false in Hh. change (v_mok_policy open_verifier) with 0 in Hh.
    rewrite reloc_pe_header in Hh. by injection Hh. }
  rewrite (pl_secs _ _ _ reloc_pe_placeable) in Hsecs. injection Hsecs as <-.
  destruct (ir_pages _ _ _ _ _ _ _ _ _ Hready) as (pages & _ & copied & va & size & _ & Hdir & Him). rewrite Hbuf in Him.
  rewrite reloc_pe_dir in Hdir. injection Hdir as <- <-.
  change (reloc_of [reloc_text; reloc_reloc]) with (Some reloc_reloc) in Him. cbv zeta in Him.
  change ((12 =? 0) || _) with false in Him. cbv iota in Him. destruct Him as (bs & _ & Ha).
  exists ld, reloc_pe_ctx, [reloc_text; reloc_reloc], copied, bs.
  split; [reflexivity|]. split; [apply reloc_pe_placeable|]. split; [exact Hready|]. split; [exact Ha|exact Hw].
Defined.

(** The same verifier with the NX policy. *)
Definition nx_verifier : verifier Store :=
  {| v_sha256 := v_sha256 sample_verifier; v_sha1 := v_sha1 sample_verifier;
     v_AuthenticodeVerify := v_AuthenticodeVerify sample_verifier; v_eku := v_eku sample_verifier;
     v_vendor_deauthorized := []; v_vendor_db := None; v_build_cert := []; v_vendor_cert := sample_p7;
     v_ignore_db := false; v_sbat_var := ([], []); v_firmware := sample_firmware;
     v_user_insecure_mode := false; v_allow_32bit_kernel := false; v_mok_policy := MOK_POLICY_REQUIRE_NX |}.

Lemma nx_verifier_ok : verifier_ok nx_verifier sample_allocs sample_D.
Proof. destruct sample_verifier_ok. by split. Qed.

Definition nx_result : (EFI_STATUS + loaded) * lstate :=
  match handle_image nx_verifier sample_allocs sample_alloc true true false false [] 0x100000 signed_pe 592 7 sample_lstate with
  | Ok r => r
  | _ => (inl EFI_UNSUPPORTED, sample_lstate)
  end.
Definition nx_loaded : loaded :=
  match fst nx_result with
  | inr ld => ld
  | inl _ => {| ld_entry_point := 0; ld_alloc_address := 0; ld_alloc_pages := 0; ld_alloc_alignment := 0;
                ld_buffer := 0; ld_mem := [] |}
  end.

(** A discardable section of 16 bytes at 4096 with all three rights. *)
Definition rwx_section : EFI_IMAGE_SECTION_HEADER :=
  {| Name := [46; 105; 110; 105; 116; 0; 0; 0]; VirtualSize := 16; VirtualAddress := 4096; SizeOfRawData := 16;
     PointerToRawData := 512; PointerToRelocations := 0; NumberOfRelocations := 0; Characteristics := 0xe2000020 |}.

Lemma discardable_writable_executable_witness :
  (exists cs', copy_section 1 [] sample_ctx 0x400000 None None rwx_section
     {| cs_mem := []; cs_found := 0; cs_reloc := None |} = Ok (inr cs')) /\
  exists e st' len, protect_section id true true sample_ctx 0x400000 blank_image 7 false rwx_section sample_lstate
    = Ok (e, st') /\ l_events st' = [] ++ [update_mem_attrs (0x400000 + 4096) len 7 0].
Proof.
  apply (discardable_writable_executable 1 id true true [] sample_ctx 0x400000 None None blank_image 7 false
    rwx_section {| cs_mem := []; cs_found := 0; cs_reloc := None |} sample_lstate);
    [lia|cbn; lia|cbn; lia|vm_compute; congruence|unfold section_fields; cbn; lia
    |reflexivity|by vm_compute|cbn; lia|cbn; lia|reflexivity..].
Defined.

Definition huge_ctx : PE_CONTEXT :=
  {| ctx_ImageAddress := 0; ImageSize := 0xfffff000; EntryPoint := 4096; SizeOfHeaders := 512;
     NumberOfSections := 1; SectionAlignment := 4096; FirstSection := 328; RelocDir := 240; SecDir := 232;
     NumberOfRvaAndSizes := 16; DllCharacteristics := 256; PEHdr := 64 |}.

Lemma alloc_size_truncated_witness : 0 <= alloc_size huge_ctx < 4096 + 4096.
Proof. apply (alloc_size_truncated huge_ctx); cbn; lia. Defined.
