(* ===== verification/MemAttrs.v ===== *)
(** * memattrs.c: what pages may be read, written and executed

    shim asks for page attributes in its own terms (what is allowed); UEFI's
    protocol has bits for what is not allowed.  update_mem_attrs translates and
    calls the protocol, get_mem_attrs reads, and get_hsi_mem_info looks at the
    pages of shim's code, stack and heap to find out what the firmware enforces,
    on which the NX policy depends.

    The protocols of the firmware are the class [MemoryFirmware]; [PageLaws] is
    what the UEFI specification says about them, in terms of the attributes of
    each page.  Messages (and decode_hsi_bits, which only makes them) are left
    out, as is the code inside #if 0. *)
From stdpp Require Import base list numbers option.
From Stdlib Require Import ZArith Lia.
From S2P Require Import Prelude.
From S2P Require Import Efi.
From S2P Require Import Firmware.
From S2P Require Import Sbat.
From S2P Require Import Variables.
From S2P Require Import PeHeader.
From S2P Require Import PeHash.
From S2P Require Import Verify.
From S2P Require Import VerifyBuffer.
From S2P Require Import PeLoad.
Local Open Scope Z_scope.

(** Bits of the UEFI specification: read-protected, execute-protected, read-only. *)
Definition EFI_MEMORY_RP : Z := 0x2000.
Definition EFI_MEMORY_XP : Z := 0x4000.
Definition EFI_MEMORY_RO : Z := 0x20000.
Definition EFI_GCD_MEMORY_TYPE_SYSTEM_MEMORY : Z := 2.
Definition EFI_DXE_SERVICES_TABLE_SIGNATURE : Z := 0x565245535f455844.
Definition gEfiDxeServicesTableGuid : EFI_GUID :=
  guid 0x05ad34ba 0x6f02 0x4214 [0x95; 0x2e; 0x4d; 0xa0; 0x39; 0x8e; 0x2b; 0xb9].

Definition IS_PAGE_ALIGNED (val : Z) : bool := Z.land val (PAGE_SIZE - 1) =? 0.
Definition ALIGN_DOWN (x a : Z) : Z := Z.ldiff (u64 (u64 (x - (a - 1)) + (a - 1))) (a - 1).
Definition ALIGN_UP (addr align : Z) : Z := Z.ldiff (u64 (addr + align - 1)) (align - 1).

(** ** The two vocabularies *)
Definition shim_mem_attrs_to_uefi_mem_attrs (attrs : Z) : Z :=
  let ret := Z.lor (Z.lor EFI_MEMORY_RP EFI_MEMORY_RO) EFI_MEMORY_XP in
  let ret := if has_flag attrs MEM_ATTR_R then Z.ldiff ret EFI_MEMORY_RP else ret in
  let ret := if has_flag attrs MEM_ATTR_W then Z.ldiff ret EFI_MEMORY_RO else ret in
  if has_flag attrs MEM_ATTR_X then Z.ldiff ret EFI_MEMORY_XP else ret.
Definition uefi_mem_attrs_to_shim_mem_attrs (attrs : Z) : Z :=
  let ret := Z.lor (Z.lor MEM_ATTR_R MEM_ATTR_W) MEM_ATTR_X in
  let ret := if has_flag attrs EFI_MEMORY_RP then Z.ldiff ret MEM_ATTR_R else ret in
  let ret := if has_flag attrs EFI_MEMORY_RO then Z.ldiff ret MEM_ATTR_W else ret in
  if has_flag attrs EFI_MEMORY_XP then Z.ldiff ret MEM_ATTR_X else ret.

(** ** The firmware *)

(** EFI_DXE_SERVICES_TABLE: its signature, and which of the two services are there. *)
Record dxe_services : Type := {
  dxe_Signature : Z;
  dxe_GetMemorySpaceDescriptor : bool;
  dxe_SetMemorySpaceAttributes : bool
}.
Record gcd_descriptor : Type := {
  gcd_BaseAddress : Z;
  gcd_Length : Z;
  gcd_Attributes : Z;
  gcd_GcdMemoryType : Z
}.

(** GetMemoryAttributes may leave the attributes as they were, which is [None]. *)
Class MemoryFirmware (M : Type) : Type := {
  ConfigurationTable : M -> list (EFI_GUID * dxe_services);
  LocateMemoryAttribute : M -> EFI_STATUS * bool;
  GetMemoryAttributes : M -> Z -> Z -> EFI_STATUS * option Z;
  SetMemoryAttributes : M -> Z -> Z -> Z -> EFI_STATUS * M;
  ClearMemoryAttributes : M -> Z -> Z -> Z -> EFI_STATUS * M;
  GetMemorySpaceDescriptor : M -> Z -> EFI_STATUS * gcd_descriptor
}.

(** The firmware and the static variables dst, proto and has_mem_access_proto. *)
Record mem_state (M : Type) : Type := {
  ms_fw : M;
  ms_dst : option dxe_services;
  ms_proto : bool;
  ms_has_mem_access_proto : bool
}.
Arguments ms_fw {M}. Arguments ms_dst {M}. Arguments ms_proto {M}. Arguments ms_has_mem_access_proto {M}.

Section memattrs.
Context {M : Type} `{MemoryFirmware M}.

Definition with_mem (s : mem_state M) (m : M) : mem_state M :=
  {| ms_fw := m; ms_dst := ms_dst s; ms_proto := ms_proto s; ms_has_mem_access_proto := ms_has_mem_access_proto s |}.
Definition with_dst (s : mem_state M) (d : option dxe_services) : mem_state M :=
  {| ms_fw := ms_fw s; ms_dst := d; ms_proto := ms_proto s; ms_has_mem_access_proto := ms_has_mem_access_proto s |}.
Definition with_proto (s : mem_state M) (proto has : bool) : mem_state M :=
  {| ms_fw := ms_fw s; ms_dst := ms_dst s; ms_proto := proto; ms_has_mem_access_proto := has |}.

Fixpoint find_dxe (tables : list (EFI_GUID * dxe_services)) : option dxe_services :=
  match tables with
  | [] => None
  | (g, dst) :: tables =>
      if negb (bytes_eqb g gEfiDxeServicesTableGuid) then find_dxe tables
      else if negb (dxe_Signature dst =? EFI_DXE_SERVICES_TABLE_SIGNATURE) then find_dxe tables
      else Some dst
  end.
Definition get_dxe_services_table (s : mem_state M) : option dxe_services * mem_state M :=
  match ms_dst s with
  | Some dst => (Some dst, s)
  | None => let dst := find_dxe (ConfigurationTable (ms_fw s)) in (dst, with_dst s dst)
  end.
Definition dxe_usable (dst : option dxe_services) : bool :=
  match dst with Some dst => dxe_GetMemorySpaceDescriptor dst && dxe_SetMemorySpaceAttributes dst | None => false end.

(** The loop over the descriptors from [start]. *)
Fixpoint dxe_scan (fuel : nat) (m : M) (start end_ attrs : Z) : res (EFI_STATUS * Z) :=
  match fuel with
  | O => NoFuel
  | S f =>
      if negb (start <? end_) then Ok (EFI_NOT_FOUND, attrs)
      else
        let (status, desc) := GetMemorySpaceDescriptor m start in
        if EFI_ERROR status then Ok (status, attrs)
        else
          let next := u64 (gcd_BaseAddress desc + gcd_Length desc) in
          if negb (gcd_GcdMemoryType desc =? EFI_GCD_MEMORY_TYPE_SYSTEM_MEMORY) then dxe_scan f m next end_ attrs
          else Ok (EFI_SUCCESS, uefi_mem_attrs_to_shim_mem_attrs (gcd_Attributes desc))
  end.
Definition dxe_get_mem_attrs (physaddr size attrs : Z) (s : mem_state M) : res (EFI_STATUS * Z * mem_state M) :=
  let (dst, s) := get_dxe_services_table s in
  if negb (dxe_usable dst) then Ok (EFI_UNSUPPORTED, attrs, s)
  else if negb (IS_PAGE_ALIGNED physaddr) || negb (IS_PAGE_ALIGNED size) || (size =? 0) then Ok (EFI_SUCCESS, attrs, s)
  else
    let start := ALIGN_DOWN physaddr PAGE_SIZE in
    let end_ := ALIGN_UP (u64 (physaddr + size)) PAGE_SIZE in
    '(status, attrs) ← dxe_scan (S (Z.to_nat size)) (ms_fw s) start end_ attrs;
    Ok (status, attrs, s).
Definition dxe_update_mem_attrs (s : mem_state M) : EFI_STATUS * mem_state M :=
  let (dst, s) := get_dxe_services_table s in
  if negb (dxe_usable dst) then (EFI_UNSUPPORTED, s) else (EFI_SUCCESS, s).

Definition get_efi_mem_attr_protocol (s : mem_state M) : bool * mem_state M :=
  let s := if negb (ms_proto s) && ms_has_mem_access_proto s then
             let (efi_status, proto) := LocateMemoryAttribute (ms_fw s) in
             with_proto s proto (negb (EFI_ERROR efi_status || negb proto))
           else s in
  (ms_proto s, s).
Definition efi_get_mem_attrs (addr size attrs : Z) (s : mem_state M) : EFI_STATUS * Z * mem_state M :=
  let (proto, s) := get_efi_mem_attr_protocol s in
  if negb proto then (EFI_UNSUPPORTED, attrs, s)
  else if negb (IS_PAGE_ALIGNED addr) || negb (IS_PAGE_ALIGNED size) || (size =? 0) then (EFI_SUCCESS, attrs, s)
  else
    let (efi_status, got) := GetMemoryAttributes (ms_fw s) addr size in
    let attrs := default attrs got in
    (efi_status, if EFI_ERROR efi_status then attrs else uefi_mem_attrs_to_shim_mem_attrs attrs, s).

Definition efi_update_mem_attrs (addr size set_attrs clear_attrs : Z) (s : mem_state M) : EFI_STATUS * mem_state M :=
  let (proto, s) := get_efi_mem_attr_protocol s in
  if negb proto then (EFI_UNSUPPORTED, s)
  else
    let '(_, _, s) := efi_get_mem_attrs addr size 0 s in
    if negb (IS_PAGE_ALIGNED addr) || negb (IS_PAGE_ALIGNED size) || (size =? 0) then (EFI_SUCCESS, s)
    else
      let uefi_set_attrs := shim_mem_attrs_to_uefi_mem_attrs set_attrs in
      let uefi_clear_attrs := shim_mem_attrs_to_uefi_mem_attrs clear_attrs in
      let (efi_status, s) :=
        if negb (uefi_set_attrs =? 0) then
          let (efi_status, m) := SetMemoryAttributes (ms_fw s) addr size uefi_set_attrs in (efi_status, with_mem s m)
        else (EFI_SUCCESS, s) in
      let (ret, s) :=
        if negb (EFI_ERROR efi_status) && negb (uefi_clear_attrs =? 0) then
          let (efi_status, m) := ClearMemoryAttributes (ms_fw s) addr size uefi_clear_attrs in (efi_status, with_mem s m)
        else (efi_status, s) in
      let '(_, _, s) := efi_get_mem_attrs addr size 0 s in
      (ret, s).

Definition update_mem_attrs (addr size set_attrs clear_attrs : Z) (s : mem_state M) : EFI_STATUS * mem_state M :=
  let (efi_status, s) := efi_update_mem_attrs addr size set_attrs clear_attrs s in
  if negb (EFI_ERROR efi_status) then (efi_status, s)
  else if bool_decide (efi_status = EFI_UNSUPPORTED) then dxe_update_mem_attrs s
  else (efi_status, s).
Definition get_mem_attrs (addr size attrs : Z) (s : mem_state M) : res (EFI_STATUS * Z * mem_state M) :=
  let '(efi_status, attrs, s) := efi_get_mem_attrs addr size attrs s in
  if negb (EFI_ERROR efi_status) then Ok (efi_status, attrs, s)
  else if bool_decide (efi_status = EFI_UNSUPPORTED) then dxe_get_mem_attrs addr size attrs s
  else Ok (efi_status, attrs, s).

(** ** What the firmware enforces *)
Definition or_flag (c : bool) (flag hsi : Z) : Z := if c then Z.lor hsi flag else hsi.
Definition hsi_error : Z := Z.lor (Z.lor SHIM_HSI_STATUS_HEAPX SHIM_HSI_STATUS_STACKX) SHIM_HSI_STATUS_ROW.
Definition page_of (p : Z) : Z := Z.ldiff p (PAGE_SIZE - 1).

Definition hsi_interfaces (proto : bool) (dst : option dxe_services) (hsi_status : Z) : Z :=
  let hsi_status := or_flag proto SHIM_HSI_STATUS_HASMAP hsi_status in
  match dst with
  | Some dst =>
      or_flag (dxe_SetMemorySpaceAttributes dst) SHIM_HSI_STATUS_HASDSTSMSA
        (or_flag (dxe_GetMemorySpaceDescriptor dst) SHIM_HSI_STATUS_HASDSTGMSD (Z.lor hsi_status SHIM_HSI_STATUS_HASDST))
  | None => hsi_status
  end.

(** One page is looked at: [bad] is set when the attributes have [flag]; an error
    is [None]. *)
Definition hsi_probe (p flag bad attrs hsi_status : Z) (s : mem_state M) : res (option (Z * Z) * mem_state M) :=
  '(efi_status, attrs, s) ← get_mem_attrs (page_of p) PAGE_SIZE attrs s;
  Ok (if EFI_ERROR efi_status then None else Some (or_flag (has_flag attrs flag) bad hsi_status, attrs), s).

(** [code] and [stack] are the addresses of get_hsi_mem_info and of its variable,
    [heap] what AllocatePool returns. *)
Definition get_hsi_mem_info (code stack : Z) (heap : option Z) (hsi_status : Z) (s : mem_state M) : res (Z * mem_state M) :=
  let (efiproto, s) := get_efi_mem_attr_protocol s in
  let (dst, s) := get_dxe_services_table s in
  let hsi_status := hsi_interfaces efiproto dst hsi_status in
  if negb (hsi_api_is_present hsi_status) then Ok (hsi_status, s)
  else
    '(r, s) ← hsi_probe code MEM_ATTR_W SHIM_HSI_STATUS_ROW 0 hsi_status s;
    match r with
    | None => Ok (hsi_error, s)
    | Some (hsi_status, attrs) =>
        '(r, s) ← hsi_probe stack MEM_ATTR_X SHIM_HSI_STATUS_STACKX attrs hsi_status s;
        match r, heap with
        | None, _ | _, None => Ok (hsi_error, s)
        | Some (hsi_status, attrs), Some heap =>
            '(r, s) ← hsi_probe heap MEM_ATTR_X SHIM_HSI_STATUS_HEAPX attrs hsi_status s;
            Ok (match r with None => hsi_error | Some (hsi_status, _) => hsi_status end, s)
        end
    end.
End memattrs.

(** ** Bits *)
Lemma has_flag_bit a k : 0 <= k -> has_flag a (2 ^ k) = Z.testbit a k.
Proof.
  intros Hk. unfold has_flag. destruct (Z.testbit a k) eqn:E.
  - apply negb_true_iff, Z.eqb_neq. intros H0. apply (f_equal (fun x => Z.testbit x k)) in H0.
    rewrite Z.land_spec, Z.pow2_bits_true, E, Z.bits_0 in H0 by done. done.
  - apply negb_false_iff, Z.eqb_eq. apply Z.bits_inj'. intros j Hj. rewrite Z.land_spec, Z.bits_0, Z.pow2_bits_eqb by done.
    destruct (Z.eqb_spec k j) as [<- |]; [by rewrite E|by rewrite andb_false_r].
Qed.

(** The rights, each with the bit of UEFI that takes it away. *)
Inductive right : Type := Read | Write | Execute.
Definition right_flag (r : right) : Z := match r with Read => MEM_ATTR_R | Write => MEM_ATTR_W | Execute => MEM_ATTR_X end.
Definition right_bit (r : right) : Z := match r with Read => 13 | Write => 17 | Execute => 14 end.

Lemma to_uefi_bits attrs r : Z.testbit (shim_mem_attrs_to_uefi_mem_attrs attrs) (right_bit r) = negb (has_flag attrs (right_flag r)).
Proof.
  unfold shim_mem_attrs_to_uefi_mem_attrs. destruct r; cbn [right_bit right_flag];
    by destruct (has_flag attrs MEM_ATTR_R), (has_flag attrs MEM_ATTR_W), (has_flag attrs MEM_ATTR_X).
Qed.
Lemma to_shim_flags attrs r : has_flag (uefi_mem_attrs_to_shim_mem_attrs attrs) (right_flag r) = negb (Z.testbit attrs (right_bit r)).
Proof.
  unfold uefi_mem_attrs_to_shim_mem_attrs.
  change EFI_MEMORY_RP with (2 ^ 13). change EFI_MEMORY_RO with (2 ^ 17). change EFI_MEMORY_XP with (2 ^ 14).
  rewrite !has_flag_bit by done.
  destruct r; cbn [right_bit right_flag]; by destruct (Z.testbit attrs 13), (Z.testbit attrs 17), (Z.testbit attrs 14).
Qed.

(** The two translations are inverse on the three rights. *)
Lemma attrs_round_trip attrs : 0 <= attrs < 8 -> uefi_mem_attrs_to_shim_mem_attrs (shim_mem_attrs_to_uefi_mem_attrs attrs) = attrs.
Proof.
  intros Ha. assert (attrs = 0 \/ attrs = 1 \/ attrs = 2 \/ attrs = 3 \/ attrs = 4 \/ attrs = 5 \/ attrs = 6 \/ attrs = 7)
    as [-> |[-> |[-> |[-> |[-> |[-> |[-> | ->]]]]]]] by lia; done.
Qed.

(** ** The firmware's side *)
Definition within (addr size p : Z) : bool := (addr <=? p) && (p <? addr + size).
Definition range_ok (addr size : Z) : bool := IS_PAGE_ALIGNED addr && IS_PAGE_ALIGNED size && negb (size =? 0).

(** The rights of two values are the same; the other bits, such as those for
    caching in a descriptor, may differ. *)
Definition same_rights (v w : Z) : Prop := forall r, Z.testbit v (right_bit r) = Z.testbit w (right_bit r).

Class PageLaws (M : Type) `{MemoryFirmware M} : Type := {
  page_attrs : M -> Z -> Z;
  set_pages m a n x st m' p : range_ok a n = true -> SetMemoryAttributes m a n x = (st, m') -> EFI_ERROR st = false ->
    page_attrs m' p = if within a n p then Z.lor (page_attrs m p) x else page_attrs m p;
  clear_pages m a n x st m' p : range_ok a n = true -> ClearMemoryAttributes m a n x = (st, m') -> EFI_ERROR st = false ->
    page_attrs m' p = if within a n p then Z.ldiff (page_attrs m p) x else page_attrs m p;
  get_pages m a n st got : range_ok a n = true -> GetMemoryAttributes m a n = (st, got) -> EFI_ERROR st = false ->
    exists v, got = Some v /\ forall p, within a n p = true -> same_rights (page_attrs m p) v;
  gcd_pages m a st d : GetMemorySpaceDescriptor m a = (st, d) -> EFI_ERROR st = false ->
    within (gcd_BaseAddress d) (gcd_Length d) a = true /\ gcd_BaseAddress d + gcd_Length d < 2 ^ 64 /\
    (gcd_BaseAddress d + gcd_Length d) mod PAGE_SIZE = 0 /\
    forall p, within (gcd_BaseAddress d) (gcd_Length d) p = true -> same_rights (page_attrs m p) (gcd_Attributes d)
}.

(** Whether something can be done at an address. *)
Definition allowed {M} `{PageLaws M} (m : M) (p : Z) (r : right) : bool := negb (Z.testbit (page_attrs m p) (right_bit r)).

Section updating.
Context {M : Type} `{PageLaws M}.
(** A protocol that does what it is asked for whole pages. *)
Definition obliging : Prop := forall (m : M) a n x, range_ok a n = true ->
  EFI_ERROR (SetMemoryAttributes m a n x).1 = false /\ EFI_ERROR (ClearMemoryAttributes m a n x).1 = false.

Lemma protocol_found (s : mem_state M) : ms_proto s = true -> get_efi_mem_attr_protocol s = (true, s).
Proof. intros Hp. unfold get_efi_mem_attr_protocol. rewrite Hp. cbn. by rewrite Hp. Qed.
Lemma efi_get_keeps addr size attrs (s : mem_state M) : ms_proto s = true -> (efi_get_mem_attrs addr size attrs s).2 = s.
Proof. intros Hp. unfold efi_get_mem_attrs. rewrite protocol_found by done. cbn [negb]. destruct (_ || _); [done|]. by destruct (GetMemoryAttributes _ _ _). Qed.

(** What an update does to a page. *)
Definition updated (addr size set clear : Z) (m m' : M) : Prop := forall p r,
  allowed m' p r = if range_ok addr size && within addr size p
                   then negb (has_flag clear (right_flag r)) || has_flag set (right_flag r) && allowed m p r
                   else allowed m p r.

Lemma efi_update_ok addr size set clear (s : mem_state M) : obliging -> ms_proto s = true ->
  exists st s', efi_update_mem_attrs addr size set clear s = (st, s') /\ EFI_ERROR st = false /\ ms_proto s' = true /\
    updated addr size set clear (ms_fw s) (ms_fw s').
Proof.
  intros Hob Hp. unfold efi_update_mem_attrs. rewrite protocol_found by done. cbn [negb].
  pose proof (efi_get_keeps addr size 0 s Hp) as Hk. destruct (efi_get_mem_attrs addr size 0 s) as [[? ?] s0]. cbn in Hk. subst s0.
  assert (Hr : negb (IS_PAGE_ALIGNED addr) || negb (IS_PAGE_ALIGNED size) || (size =? 0) = negb (range_ok addr size))
    by (unfold range_ok; by rewrite !negb_andb, negb_involutive). rewrite Hr. unfold updated.
  destruct (range_ok addr size) eqn:Er; cbn [negb andb]; [|by eexists _, _].
  set (us := shim_mem_attrs_to_uefi_mem_attrs set). set (uc := shim_mem_attrs_to_uefi_mem_attrs clear).
  assert (H1 : exists st1 s1, (if negb (us =? 0) then let (efi_status, m) := SetMemoryAttributes (ms_fw s) addr size us in (efi_status, with_mem s m)
      else (EFI_SUCCESS, s)) = (st1, s1) /\ EFI_ERROR st1 = false /\ ms_proto s1 = true /\
      forall p, page_attrs (ms_fw s1) p = if within addr size p then Z.lor (page_attrs (ms_fw s) p) us else page_attrs (ms_fw s) p).
  { destruct (us =? 0) eqn:E0; bool_to_prop; cbn [negb].
    - eexists _, _. split_and!; [done|done|done|]. intros p. rewrite E0, Z.lor_0_r. by case_if.
    - destruct (Hob (ms_fw s) addr size us Er) as [He _]. destruct (SetMemoryAttributes _ _ _ _) as [st m] eqn:E. cbn in He.
      eexists _, _. split_and!; [done|done|done|]. intros p. by eapply set_pages. }
  destruct H1 as (st1 & s1 & -> & He1 & Hp1 & Hs1). rewrite He1. cbn [negb andb].
  assert (H2 : exists st2 s2, (if negb (uc =? 0) then let (efi_status, m) := ClearMemoryAttributes (ms_fw s1) addr size uc in (efi_status, with_mem s1 m)
      else (st1, s1)) = (st2, s2) /\ EFI_ERROR st2 = false /\ ms_proto s2 = true /\
      forall p, page_attrs (ms_fw s2) p = if within addr size p then Z.ldiff (page_attrs (ms_fw s1) p) uc else page_attrs (ms_fw s1) p).
  { destruct (uc =? 0) eqn:E0; bool_to_prop; cbn [negb].
    - eexists _, _. split_and!; [done|done|done|]. intros p. rewrite E0, Z.ldiff_0_r. by case_if.
    - destruct (Hob (ms_fw s1) addr size uc Er) as [_ He]. destruct (ClearMemoryAttributes _ _ _ _) as [st m] eqn:E. cbn in He.
      eexists _, _. split_and!; [done|done|done|]. intros p. by eapply clear_pages. }
  destruct H2 as (st2 & s2 & -> & He2 & Hp2 & Hs2). pose proof (efi_get_keeps addr size 0 s2 Hp2) as Hk2.
  destruct (efi_get_mem_attrs addr size 0 s2) as [[? ?] s3]. cbn in Hk2. subst s3.
  eexists _, _. split_and!; [done|done|done|]. intros p r. unfold allowed. rewrite Hs2, Hs1. destruct (within addr size p); [|done].
  rewrite Z.ldiff_spec, Z.lor_spec. unfold us, uc. rewrite !to_uefi_bits.
  by destruct (Z.testbit _ _), (has_flag set _), (has_flag clear _).
Qed.
End updating.

(** Page attributes as shim asks for them: with a protocol that does what it is
    asked, update_mem_attrs succeeds, and a page of the range then has exactly the
    rights that are not to be cleared, and of the others those to be set that it
    had; for whole pages the rights outside the range, and for anything else all
    rights, are what they were. *)
Theorem update_mem_attrs_correct {M} `{PageLaws M} addr size set clear (s : mem_state M) :
  obliging (M := M) -> ms_proto s = true ->
  exists st s', update_mem_attrs addr size set clear s = (st, s') /\ EFI_ERROR st = false /\ ms_proto s' = true /\
    forall p r, allowed (ms_fw s') p r =
      if range_ok addr size && within addr size p
      then negb (has_flag clear (right_flag r)) || has_flag set (right_flag r) && allowed (ms_fw s) p r
      else allowed (ms_fw s) p r.
Proof.
  intros Hob Hp. destruct (efi_update_ok addr size set clear s Hob Hp) as (st & s' & Hr & He & Hp' & Hu).
  exists st, s'. unfold update_mem_attrs. by rewrite Hr, He.
Qed.

(** ** The memory of an image *)
Section image.
Context {M : Type} `{PageLaws M}.

Lemma update_ok addr size set clear (s : mem_state M) : obliging (M := M) -> ms_proto s = true ->
  ms_proto (update_mem_attrs addr size set clear s).2 = true /\
  updated addr size set clear (ms_fw s) (ms_fw (update_mem_attrs addr size set clear s).2).
Proof.
  intros Hob Hp. destruct (efi_update_ok addr size set clear s Hob Hp) as (st & s' & Hr & He & Hp' & Hu).
  unfold update_mem_attrs. by rewrite Hr, He.
Qed.

(** The calls that handle_image made. *)
Definition apply_event (s : mem_state M) (e : load_event) : mem_state M :=
  match e with
  | PeLoad.update_mem_attrs addr length set clear => (update_mem_attrs addr length set clear s).2
  | FreePages _ _ => s
  end.
Definition apply_events (evs : list load_event) (s : mem_state M) : mem_state M := fold_left apply_event evs s.

Definition wx (s : mem_state M) (p : Z) : Prop := allowed (ms_fw s) p Write = true /\ allowed (ms_fw s) p Execute = true.
Definition covers (e : load_event) (p : Z) : Prop :=
  match e with PeLoad.update_mem_attrs a l _ _ => range_ok a l = true /\ within a l p = true | FreePages _ _ => False end.
(** What is not set is cleared. *)
Definition exclusive (e : load_event) : Prop :=
  match e with
  | PeLoad.update_mem_attrs _ _ set clear =>
      has_flag clear MEM_ATTR_W = negb (has_flag set MEM_ATTR_W) /\ has_flag clear MEM_ATTR_X = negb (has_flag set MEM_ATTR_X)
  | FreePages _ _ => True
  end.

Lemma apply_events_wx evs p : obliging (M := M) -> Forall exclusive evs -> forall s, ms_proto s = true -> wx (apply_events evs s) p ->
  (wx s p /\ forall e, In e evs -> ~ covers e p) \/
  exists a l set clear, In (PeLoad.update_mem_attrs a l set clear) evs /\ covers (PeLoad.update_mem_attrs a l set clear) p /\
    has_flag set MEM_ATTR_W = true /\ has_flag set MEM_ATTR_X = true.
Proof.
  intros Hob. induction 1 as [|e evs He _ IH]; intros s Hp Hwx; [left; by split|]. cbn [apply_events fold_left] in Hwx.
  destruct e as [a l set clear|a n]; cbn [apply_event] in Hwx.
  - destruct (update_ok a l set clear s Hob Hp) as [Hp' Hu].
    destruct (IH _ Hp' Hwx) as [[[Hw Hx] Hno] | (a' & l' & s' & c' & Hin & Hrest)]; [|right; exists a', l', s', c'; split; [by right|done]].
    rewrite Hu in Hw. rewrite Hu in Hx. cbn [right_flag] in Hw, Hx. destruct He as [Ew Ex]. rewrite Ew, negb_involutive in Hw. rewrite Ex, negb_involutive in Hx.
    destruct (range_ok a l) eqn:Er; cbn [andb] in Hw, Hx; [destruct (within a l p) eqn:Ei|].
    + right. exists a, l, set, clear. split; [by left|]. split; [done|].
      destruct (has_flag set MEM_ATTR_W), (has_flag set MEM_ATTR_X); done.
    + left. split; [done|]. intros e [<- |Hin]; [|by apply Hno]. cbn. rewrite Ei. by intros [_ ?].
    + left. split; [done|]. intros e [<- |Hin]; [|by apply Hno]. cbn. rewrite Er. by intros [? _].
  - destruct (IH s Hp Hwx) as [[Hs Hno] | (a' & l' & s' & c' & Hin & Hrest)]; [|right; exists a', l', s', c'; split; [by right|done]].
    left. split; [done|]. intros e [<- |Hin]; [by intros []|by apply Hno].
Qed.

Lemma section_events_exclusive buffer secs : Forall exclusive (section_events buffer secs).
Proof.
  apply List.Forall_forall. intros e (sec & <- & _)%in_map_iff. cbn [exclusive section_event]. unfold set_attrs, clear_attrs.
  by destruct (has_flag (Characteristics sec) EFI_IMAGE_SCN_MEM_WRITE), (has_flag (Characteristics sec) EFI_IMAGE_SCN_MEM_EXECUTE).
Qed.
End image.

(** The pages of a section of a loaded image. *)
Definition in_section_pages (buffer : Z) (sec : EFI_IMAGE_SECTION_HEADER) (p : Z) : Prop :=
  buffer + VirtualAddress sec <= p < buffer + VirtualAddress sec + ALIGN_VALUE 64 (VirtualSize sec) PAGE_SIZE.

(** C15. From the policy to the pages, for firmware whose memory attribute protocol
    exists and does what it is asked for whole pages: where NX is required and
    handle_image has loaded an image to a page boundary, no page of the allocated
    memory is both writable and executable after the calls that handle_image made,
    whatever its attributes were before, except pages of a section of the image
    that its section table declares discardable, writable and executable. *)
Theorem image_pages_nx {S} `{FirmwareLaws S} {M} `{PageLaws M} (v : verifier S) al D AllocatePages ca xa in_protocol parent
    load_options base data datasize handle vss st ld st' (ms : mem_state M) :
  verifier_ok v al D -> sbat_allocs al -> sbat_var_holds (v_sbat_var v) vss ->
  bytes data -> 0 <= datasize < 2 ^ 32 -> datasize <= zlen data -> 0 <= base -> base + 2 ^ 33 < 2 ^ 64 ->
  pages_allocated AllocatePages ->
  parent = false \/ secure_mode (v_firmware v) (v_user_insecure_mode v) = true ->
  (forall ctx, authorised v al D in_protocol parent base data datasize vss ctx ->
     exists secs, placeable data ctx secs) ->
  has_flag (v_mok_policy v) MOK_POLICY_REQUIRE_NX = true ->
  handle_image v al AllocatePages ca xa in_protocol parent load_options base data datasize handle st = Ok (inr ld, st') ->
  obliging (M := M) -> ms_proto ms = true -> IS_PAGE_ALIGNED (ld_buffer ld) = true ->
  exists ctx secs evs, authorised v al D in_protocol parent base data datasize vss ctx /\ section_table data ctx = Ok secs /\
    l_events st' = l_events st ++ evs /\
    forall p, ld_buffer ld <= p < ld_buffer ld + ld_alloc_pages ld * PAGE_SIZE ->
      wx (apply_events evs ms) p ->
      exists sec, In sec secs /\ has_flag (Characteristics sec) EFI_IMAGE_SCN_MEM_DISCARDABLE = true /\ writable_executable sec = true /\
        in_section_pages (ld_buffer ld) sec p.
Proof.
  intros Hv Hal Hvss Hb Hsz Hl Hbase Hend Hp Hd Hpl Hnx Hh Hob Hms Halign.
  destruct (handle_image_ok v al D Hv Hal vss Hvss base data datasize Hb Hsz Hl Hbase Hend AllocatePages ca xa
    in_protocol parent load_options handle st Hp Hd Hpl) as (r & st2 & Hr & Hpost). rewrite Hh in Hr. injection Hr as <- <-.
  destruct Hpost as (ctx & secs & Hau & Hsecs & Hready). exists ctx, secs. eexists. split; [exact Hau|]. split; [exact Hsecs|].
  split; [exact (ir_events _ _ _ _ _ _ _ _ _ Hready)|].
  intros p Hin Hwx. eapply apply_events_wx in Hwx; [|done|constructor; [done|by apply section_events_exclusive]|done].
  destruct Hwx as [[_ Hno] | (a & l & set & clear & Hevs & [_ Hcov] & HW & HX)].
  - exfalso. apply (Hno _ (or_introl eq_refl)). cbn [covers]. unfold range_ok, within. rewrite Halign.
    assert (Hal' : IS_PAGE_ALIGNED (ld_alloc_pages ld * PAGE_SIZE) = true).
    { unfold IS_PAGE_ALIGNED. change (PAGE_SIZE - 1) with (Z.ones 12). rewrite Z.land_ones by done. change (2 ^ 12) with PAGE_SIZE. by rewrite Z.mod_mul. }
    rewrite Hal', (proj2 (Z.eqb_neq _ 0)), (proj2 (Z.leb_le _ _)), (proj2 (Z.ltb_lt _ _)) by lia. done.
  - destruct Hevs as [[= <- <- <- <-]|Hevs]; [done|].
    destruct (section_events_wx (v_mok_policy v) ctx (ld_buffer ld) secs Hnx (ir_done _ _ _ _ _ _ _ _ _ Hready) a l set clear Hevs HW HX)
      as (sec & Hsec & Hdis & Hwe & -> & ->). exists sec. split_and!; [done..|]. unfold within in Hcov. apply andb_true_iff in Hcov as [?%Z.leb_le ?%Z.ltb_lt]. by split.
Qed.

(** ** What get_hsi_mem_info finds out *)
Lemma page_of_eq p : page_of p = p / PAGE_SIZE * PAGE_SIZE.
Proof. unfold page_of. change (PAGE_SIZE - 1) with (Z.ones 12). rewrite Z.ldiff_ones_r by done. by rewrite Z.shiftl_mul_pow2, Z.shiftr_div_pow2. Qed.
Lemma page_of_bounds p : page_of p <= p < page_of p + PAGE_SIZE /\ page_of p mod PAGE_SIZE = 0.
Proof. rewrite page_of_eq. rewrite Z.mod_mul by done. unfold PAGE_SIZE. split; [|done]. pose proof (Z.div_mod p 4096). pose proof (Z.mod_pos_bound p 4096). lia. Qed.
Lemma page_of_pos p : 0 <= p -> 0 <= page_of p.
Proof. intros Hp. rewrite page_of_eq. unfold PAGE_SIZE. pose proof (Z.div_pos p 4096). lia. Qed.
Lemma aligned_mod a : IS_PAGE_ALIGNED a = (a mod PAGE_SIZE =? 0).
Proof. unfold IS_PAGE_ALIGNED. change (PAGE_SIZE - 1) with (Z.ones 12). by rewrite Z.land_ones. Qed.
Lemma align_down_page a : 0 <= a < 2 ^ 64 -> a mod PAGE_SIZE = 0 -> ALIGN_DOWN a PAGE_SIZE = a.
Proof.
  intros Ha Hm. unfold ALIGN_DOWN. replace (u64 (u64 (a - (PAGE_SIZE - 1)) + (PAGE_SIZE - 1))) with a.
  - change (Z.ldiff a (PAGE_SIZE - 1)) with (page_of a). rewrite page_of_eq. pose proof (Z.div_mod a PAGE_SIZE). unfold PAGE_SIZE in *. lia.
  - unfold u64. rewrite Z.add_mod_idemp_l by done. replace (a - (PAGE_SIZE - 1) + (PAGE_SIZE - 1)) with a by lia. by rewrite Z.mod_small.
Qed.
Lemma align_up_page a : 0 <= a < 2 ^ 64 - PAGE_SIZE -> a mod PAGE_SIZE = 0 -> ALIGN_UP a PAGE_SIZE = a.
Proof.
  intros Ha Hm. unfold ALIGN_UP. unfold u64. rewrite Z.mod_small by (unfold PAGE_SIZE in *; lia).
  change (Z.ldiff (a + PAGE_SIZE - 1) (PAGE_SIZE - 1)) with (page_of (a + PAGE_SIZE - 1)). rewrite page_of_eq.
  replace (a + PAGE_SIZE - 1) with (PAGE_SIZE - 1 + a / PAGE_SIZE * PAGE_SIZE) by (pose proof (Z.div_mod a PAGE_SIZE); unfold PAGE_SIZE in *; lia).
  rewrite Z.div_add by done. change ((PAGE_SIZE - 1) / PAGE_SIZE) with 0. pose proof (Z.div_mod a PAGE_SIZE). unfold PAGE_SIZE in *. lia.
Qed.

Section probing.
Context {M : Type} `{PageLaws M}.

Lemma dxe_scan_page fuel (m : M) p attrs : (2 <= fuel)%nat -> 0 <= p -> page_of p + PAGE_SIZE < 2 ^ 64 ->
  exists st attrs', dxe_scan fuel m (page_of p) (page_of p + PAGE_SIZE) attrs = Ok (st, attrs') /\
    (EFI_ERROR st = false -> forall r, has_flag attrs' (right_flag r) = allowed m p r).
Proof.
  intros Hf Hp Hend. destruct (page_of_bounds p) as [Hb Hm]. destruct fuel as [|[|f]]; [lia..|]. cbn [dxe_scan].
  rewrite (proj2 (Z.ltb_lt (page_of p) _)) by (unfold PAGE_SIZE; lia). cbn [negb].
  destruct (GetMemorySpaceDescriptor m (page_of p)) as [st d] eqn:Ed. destruct (EFI_ERROR st) eqn:Ee; [eexists _, _; split; [done|congruence]|].
  destruct (gcd_pages m _ _ _ Ed Ee) as (Hw & Hlt & Hal & Hattr). apply andb_true_iff in Hw as [Hw1%Z.leb_le Hw2%Z.ltb_lt].
  assert (Hnext : page_of p + PAGE_SIZE <= gcd_BaseAddress d + gcd_Length d).
  { pose proof (Z.div_mod (page_of p) PAGE_SIZE). pose proof (Z.div_mod (gcd_BaseAddress d + gcd_Length d) PAGE_SIZE). unfold PAGE_SIZE in *. lia. }
  destruct (_ =? EFI_GCD_MEMORY_TYPE_SYSTEM_MEMORY); cbn [negb].
  - eexists _, _. split; [done|]. intros _ r. rewrite to_shim_flags. unfold allowed. rewrite (Hattr p); [done|].
    unfold within. rewrite (proj2 (Z.leb_le _ _)), (proj2 (Z.ltb_lt _ _)) by lia. done.
  - unfold u64. rewrite Z.mod_small by (unfold PAGE_SIZE in *; lia). rewrite (proj2 (Z.ltb_ge _ _)) by lia. cbn [negb]. by eexists _, _.
Qed.

(** Reading the attributes of the page of an address. *)
Lemma get_mem_attrs_page p attrs (s : mem_state M) : 0 <= p -> page_of p + PAGE_SIZE < 2 ^ 64 - PAGE_SIZE ->
  exists st attrs' s', get_mem_attrs (page_of p) PAGE_SIZE attrs s = Ok (st, attrs', s') /\ ms_fw s' = ms_fw s /\
    (EFI_ERROR st = false -> forall r, has_flag attrs' (right_flag r) = allowed (ms_fw s) p r).
Proof.
  intros Hp Hend. destruct (page_of_bounds p) as [Hb Hm]. pose proof (page_of_pos p Hp) as Hpos. assert (Hr : range_ok (page_of p) PAGE_SIZE = true).
  { unfold range_ok. rewrite !aligned_mod, Hm. done. }
  assert (Hcond : negb (IS_PAGE_ALIGNED (page_of p)) || negb (IS_PAGE_ALIGNED PAGE_SIZE) || (PAGE_SIZE =? 0) = false)
    by (rewrite !aligned_mod, Hm; done).
  assert (Hdxe : forall attrs (s : mem_state M), exists st attrs' s', dxe_get_mem_attrs (page_of p) PAGE_SIZE attrs s = Ok (st, attrs', s') /\
    ms_fw s' = ms_fw s /\ (EFI_ERROR st = false -> forall r, has_flag attrs' (right_flag r) = allowed (ms_fw s) p r)).
  { clear attrs s. intros attrs s. unfold dxe_get_mem_attrs. assert (Hg : exists d s', get_dxe_services_table s = (d, s') /\ ms_fw s' = ms_fw s)
      by (unfold get_dxe_services_table; destruct (ms_dst s); by eexists _, _). destruct Hg as (d & s' & -> & Hfw).
    destruct (dxe_usable d); cbn [negb]; [|by eexists _, _, _]. rewrite Hcond.
    assert (Hm2 : (page_of p + PAGE_SIZE) mod PAGE_SIZE = 0) by (rewrite Z.add_mod, Hm by done; done).
    rewrite u64_small, align_down_page, align_up_page by (done || (unfold PAGE_SIZE in *; lia)).
    rewrite Hfw. destruct (dxe_scan_page (Datatypes.S (Z.to_nat PAGE_SIZE)) (ms_fw s) p attrs) as (st & a' & -> & Ha); [unfold PAGE_SIZE in *; lia..|].
    rewrite bind_Ok. by eexists _, _, _. }
  unfold get_mem_attrs, efi_get_mem_attrs.
  assert (Hpr : exists b s1, get_efi_mem_attr_protocol s = (b, s1) /\ ms_fw s1 = ms_fw s).
  { unfold get_efi_mem_attr_protocol. destruct (_ && _); [destruct (LocateMemoryAttribute _)|]; by eexists _, _. }
  destruct Hpr as (b & s1 & -> & Hfw). destruct b; cbn [negb].
  - rewrite Hcond. destruct (GetMemoryAttributes (ms_fw s1) (page_of p) PAGE_SIZE) as [st got] eqn:Eg. destruct (EFI_ERROR st) eqn:Ee; cbn [negb].
    + case_bool_decide; [|eexists _, _, _; split_and!; [done|done|congruence]].
      destruct (Hdxe (default attrs got) s1) as (st' & a' & s' & -> & Hf & Ha). rewrite Hfw in *. by eexists _, _, _.
    + destruct (get_pages _ _ _ _ _ Hr Eg Ee) as (v & -> & Hv). eexists _, _, _. split_and!; [done|done|]. intros _ r.
      rewrite to_shim_flags. unfold allowed. cbn [default from_option id]. rewrite <- Hfw, (Hv p); [done|].
      unfold within. rewrite (proj2 (Z.leb_le _ _)), (proj2 (Z.ltb_lt _ _)) by lia. done.
  - rewrite bool_decide_true by done. destruct (Hdxe attrs s1) as (st' & a' & s' & -> & Hf & Ha). rewrite Hfw in *. by eexists _, _, _.
Qed.
End probing.

Lemma has_flag_lor a b f : has_flag (Z.lor a b) f = has_flag a f || has_flag b f.
Proof.
  unfold has_flag. rewrite Z.land_lor_distr_l. rewrite <- negb_andb. f_equal.
  destruct (Z.land a f =? 0) eqn:Ea, (Z.land b f =? 0) eqn:Eb; bool_to_prop; cbn [andb].
  - by rewrite Ea, Eb.
  - by rewrite Ea, Z.lor_0_l, (proj2 (Z.eqb_neq _ _) Eb).
  - rewrite Eb, Z.lor_0_r. by apply Z.eqb_neq.
  - apply Z.eqb_neq. intros [? _]%Z.lor_eq_0_iff. done.
Qed.
Lemma has_flag_or_flag c bad h f : has_flag (or_flag c bad h) f = has_flag h f || c && has_flag bad f.
Proof. unfold or_flag. destruct c; [by rewrite has_flag_lor|by rewrite andb_false_l, orb_false_r]. Qed.

Definition address_ok (p : Z) : Prop := 0 <= p /\ page_of p + PAGE_SIZE < 2 ^ 64 - PAGE_SIZE.

Section hsi.
Context {M : Type} `{PageLaws M}.

Lemma hsi_probe_ok p r bad attrs hsi (s : mem_state M) : address_ok p ->
  exists o s', hsi_probe p (right_flag r) bad attrs hsi s = Ok (o, s') /\ ms_fw s' = ms_fw s /\
    forall hsi' a', o = Some (hsi', a') -> hsi' = or_flag (allowed (ms_fw s) p r) bad hsi.
Proof.
  intros [Hp He]. unfold hsi_probe. destruct (get_mem_attrs_page p attrs s Hp He) as (st & a & s' & -> & Hfw & Ha). rewrite bind_Ok.
  eexists _, _. split; [done|]. split; [done|]. intros hsi' a'. destruct (EFI_ERROR st); [done|]. intros [= <- _]. by rewrite (Ha eq_refl r).
Qed.

(** What the flags that are set say: nothing worse than what was found, and the NX
    flag is shim's own. *)
Definition nx_enforced_by (m : M) (code stack : Z) (heap : option Z) : Prop :=
  allowed m code Write = false /\ allowed m stack Execute = false /\ exists h, heap = Some h /\ allowed m h Execute = false.

Lemma hsi_interfaces_flag proto dst hsi f : has_flag (Z.lor (Z.lor SHIM_HSI_STATUS_HASMAP SHIM_HSI_STATUS_HASDST)
    (Z.lor SHIM_HSI_STATUS_HASDSTGMSD SHIM_HSI_STATUS_HASDSTSMSA)) f = false -> has_flag (hsi_interfaces proto dst hsi) f = has_flag hsi f.
Proof.
  rewrite !has_flag_lor. intros ([H1 H2]%orb_false_iff & [H3 H4]%orb_false_iff)%orb_false_iff. unfold hsi_interfaces.
  destruct dst; rewrite ?has_flag_or_flag, ?has_flag_lor, ?has_flag_or_flag, ?H1, ?H2, ?H3, ?H4, ?andb_false_r, ?orb_false_r; done.
Qed.

Lemma get_hsi_mem_info_ok code stack heap hsi (s : mem_state M) : address_ok code -> address_ok stack -> (forall h, heap = Some h -> address_ok h) ->
  exists hsi' s', get_hsi_mem_info code stack heap hsi s = Ok (hsi', s') /\ ms_fw s' = ms_fw s /\
    (hsi_nx_is_enforced hsi' = true -> hsi_api_is_present hsi' = true ->
     has_flag hsi' SHIM_HSI_STATUS_NX = has_flag hsi SHIM_HSI_STATUS_NX /\ nx_enforced_by (ms_fw s) code stack heap).
Proof.
  intros Hc Hs Hh. unfold get_hsi_mem_info. change MEM_ATTR_W with (right_flag Write). change MEM_ATTR_X with (right_flag Execute).
  assert (Hpr : exists b s1, get_efi_mem_attr_protocol s = (b, s1) /\ ms_fw s1 = ms_fw s).
  { unfold get_efi_mem_attr_protocol. destruct (_ && _); [destruct (LocateMemoryAttribute _)|]; by eexists _, _. }
  destruct Hpr as (b & s1 & -> & F1).
  assert (Hg : exists d s2, get_dxe_services_table s1 = (d, s2) /\ ms_fw s2 = ms_fw s).
  { unfold get_dxe_services_table. destruct (ms_dst s1); by eexists _, _. }
  destruct Hg as (d & s2 & -> & F2). set (h1 := hsi_interfaces b d hsi).
  assert (Hnx : has_flag h1 SHIM_HSI_STATUS_NX = has_flag hsi SHIM_HSI_STATUS_NX) by (by apply hsi_interfaces_flag).
  destruct (hsi_api_is_present h1) eqn:Eapi; cbn [negb]; [|eexists _, _; split_and!; [done|done|congruence]].
  assert (Herr : hsi_nx_is_enforced hsi_error = true -> False) by done.
  destruct (hsi_probe_ok code Write SHIM_HSI_STATUS_ROW 0 h1 s2 Hc) as (o1 & s3 & -> & F3 & P1). rewrite bind_Ok, F2 in *.
  destruct o1 as [[h2 a2]|]; [|eexists _, _; split_and!; [done|done|by intros ?%Herr]]. rewrite (P1 h2 a2 eq_refl).
  match goal with |- context[hsi_probe stack _ _ ?a ?h s3] => destruct (hsi_probe_ok stack Execute SHIM_HSI_STATUS_STACKX a h s3 Hs) as (o2 & s4 & -> & F4 & P2) end.
  rewrite bind_Ok, F3 in *. destruct o2 as [[h3 a3]|]; [|eexists _, _; split_and!; [done|done|by intros ?%Herr]].
  destruct heap as [heap|]; [|eexists _, _; split_and!; [done|done|by intros ?%Herr]]. rewrite (P2 h3 a3 eq_refl).
  match goal with |- context[hsi_probe heap _ _ ?a ?h s4] =>
    destruct (hsi_probe_ok heap Execute SHIM_HSI_STATUS_HEAPX a h s4 (Hh heap eq_refl)) as (o3 & s5 & -> & F5 & P3) end.
  rewrite bind_Ok, F4 in *. eexists _, _. split; [done|]. split; [done|]. destruct o3 as [[h4 a4]|]; [|by intros ?%Herr]. rewrite (P3 h4 a4 eq_refl).
  unfold hsi_nx_is_enforced. rewrite !has_flag_or_flag. intros Hen _. split; [by rewrite Hnx, !andb_false_r, !orb_false_r|].
  apply negb_true_iff in Hen. unfold nx_enforced_by. rewrite !andb_true_r, !andb_false_r, ?orb_false_r in Hen.
  destruct (allowed (ms_fw s) code Write), (allowed (ms_fw s) stack Execute), (allowed (ms_fw s) heap Execute) eqn:E;
    rewrite ?orb_true_r in Hen; cbn in Hen; try discriminate Hen; rewrite ?orb_true_r in Hen; try discriminate Hen. split_and!; [done|done|by exists heap].
Qed.
End hsi.

(** C16. What NX depends on: get_hsi_mem_info always comes to an end, and the policy
    then requires NX only if it did so before, or if shim itself is NX compatible
    and the firmware enforces it: the page of shim's code is not writable and the
    pages of its stack and its heap are not executable.  An interface that fails,
    or none, does not count as enforcement. *)
Theorem nx_policy_sound {M} `{PageLaws M} code stack heap hsi pol (s : mem_state M) :
  address_ok code -> address_ok stack -> (forall h, heap = Some h -> address_ok h) ->
  exists hsi' s', get_hsi_mem_info code stack heap hsi s = Ok (hsi', s') /\ ms_fw s' = ms_fw s /\
    (has_flag (set_shim_nx_policy hsi' pol) MOK_POLICY_REQUIRE_NX = true ->
     has_flag pol MOK_POLICY_REQUIRE_NX = true \/
     has_flag hsi SHIM_HSI_STATUS_NX = true /\ allowed (ms_fw s) code Write = false /\ allowed (ms_fw s) stack Execute = false /\
     exists h, heap = Some h /\ allowed (ms_fw s) h Execute = false).
Proof.
  intros Hc Hs Hh. destruct (get_hsi_mem_info_ok code stack heap hsi s Hc Hs Hh) as (hsi' & s' & Hr & Hf & Hen).
  exists hsi', s'. split; [done|]. split; [done|]. unfold set_shim_nx_policy.
  destruct (has_flag hsi' SHIM_HSI_STATUS_NX) eqn:E1; cbn [andb]; [|by left].
  destruct (hsi_nx_is_enforced hsi') eqn:E2; cbn [andb]; [|by left]. destruct (hsi_api_is_present hsi') eqn:E3; [|by left].
  intros _. right. destruct (Hen eq_refl eq_refl) as [Hnx Hby]. by rewrite <- Hnx.
Qed.

(** Without the protocol, DXE services count as an interface, but nothing is done
    with them: update_mem_attrs succeeds and no page changes. *)
Theorem update_dxe_ignored {M} `{PageLaws M} addr size set clear (s : mem_state M) dst :
  ms_proto s = false -> ms_has_mem_access_proto s = false -> ms_dst s = Some dst -> dxe_usable (Some dst) = true ->
  update_mem_attrs addr size set clear s = (EFI_SUCCESS, s) /\
  hsi_api_is_present (hsi_interfaces false (Some dst) 0) = true.
Proof.
  intros Hp Hh Hd Hu. split.
  - unfold update_mem_attrs, efi_update_mem_attrs, get_efi_mem_attr_protocol. rewrite Hp. cbn [negb andb]. rewrite Hh, Hp. cbn [negb].
    cbn [EFI_ERROR negb]. rewrite bool_decide_true by done. unfold dxe_update_mem_attrs, get_dxe_services_table. rewrite Hd. by rewrite Hu.
  - cbn [dxe_usable] in Hu. apply andb_true_iff in Hu as [Hg Hs]. unfold hsi_interfaces. by rewrite Hg, Hs.
Qed.

(** ** A machine whose memory is a map from page numbers to attributes *)
Definition page_map : Type := Z -> Z.
Definition map_range (f : Z -> Z) (a n : Z) (m : page_map) : page_map := fun q => if within a n (q * PAGE_SIZE) then f (m q) else m q.
Definition map_get (m : page_map) (a n : Z) : EFI_STATUS * option Z :=
  if negb (range_ok a n) then (EFI_INVALID_PARAMETER, None)
  else if n =? PAGE_SIZE then (EFI_SUCCESS, Some (m (a / PAGE_SIZE))) else (EFI_UNSUPPORTED, None).
(** A descriptor for each page, with the bits of its caching. *)
Definition map_descriptor (m : page_map) (a : Z) : EFI_STATUS * gcd_descriptor :=
  let d := {| gcd_BaseAddress := page_of a; gcd_Length := PAGE_SIZE; gcd_Attributes := Z.lor (m (a / PAGE_SIZE)) 15;
              gcd_GcdMemoryType := EFI_GCD_MEMORY_TYPE_SYSTEM_MEMORY |} in
  (if page_of a + PAGE_SIZE <? 2 ^ 64 then EFI_SUCCESS else EFI_UNSUPPORTED, d).
Global Instance map_firmware : MemoryFirmware page_map := {
  ConfigurationTable _ := [];
  LocateMemoryAttribute _ := (EFI_SUCCESS, true);
  GetMemoryAttributes := map_get;
  SetMemoryAttributes m a n x := if range_ok a n then (EFI_SUCCESS, map_range (fun v => Z.lor v x) a n m) else (EFI_INVALID_PARAMETER, m);
  ClearMemoryAttributes m a n x := if range_ok a n then (EFI_SUCCESS, map_range (fun v => Z.ldiff v x) a n m) else (EFI_INVALID_PARAMETER, m);
  GetMemorySpaceDescriptor := map_descriptor
}.

Lemma range_ok_mod a n : range_ok a n = true -> a mod PAGE_SIZE = 0 /\ n mod PAGE_SIZE = 0 /\ n <> 0.
Proof. unfold range_ok. rewrite !aligned_mod. intros [[?%Z.eqb_eq ?%Z.eqb_eq]%andb_true_iff ?%negb_true_iff%Z.eqb_neq]%andb_true_iff. done. Qed.
Lemma within_page a n p : range_ok a n = true -> within a n (p / PAGE_SIZE * PAGE_SIZE) = within a n p.
Proof.
  intros (Ha & Hn & _)%range_ok_mod. unfold within. pose proof (Z.div_mod p PAGE_SIZE). pose proof (Z.mod_pos_bound p PAGE_SIZE).
  pose proof (Z.div_mod a PAGE_SIZE). pose proof (Z.div_mod n PAGE_SIZE). unfold PAGE_SIZE in *. apply Bool.eq_iff_eq_true.
  rewrite !andb_true_iff, !Z.leb_le, !Z.ltb_lt. lia.
Qed.

Global Instance map_laws : PageLaws page_map.
Proof.
  refine {| page_attrs := fun m p => m (p / PAGE_SIZE) |}; cbn [SetMemoryAttributes ClearMemoryAttributes GetMemoryAttributes GetMemorySpaceDescriptor map_firmware].
  - intros m a n x st m' p Hr. rewrite Hr. intros [= _ <-] _. unfold map_range. by rewrite within_page.
  - intros m a n x st m' p Hr. rewrite Hr. intros [= _ <-] _. unfold map_range. by rewrite within_page.
  - intros m a n st got Hr. unfold map_get. rewrite Hr. cbn [negb]. destruct (n =? PAGE_SIZE) eqn:En; bool_to_prop; intros [= <- <-]; [|done].
    intros _. eexists. split; [done|]. intros p Hw r. subst n. apply range_ok_mod in Hr as (Ha & _). do 2 f_equal.
    unfold within in Hw. apply andb_true_iff in Hw as [?%Z.leb_le ?%Z.ltb_lt]. pose proof (Z.div_mod p PAGE_SIZE). pose proof (Z.mod_pos_bound p PAGE_SIZE).
    pose proof (Z.div_mod a PAGE_SIZE). unfold PAGE_SIZE in *. lia.
  - intros m a st d. unfold map_descriptor. destruct (page_of_bounds a) as [Hb Hm].
    destruct (Z.ltb_spec (page_of a + PAGE_SIZE) (2 ^ 64)) as [Hlt|]; intros [= <- <-]; [|done]. intros _. cbn.
    split; [unfold within; rewrite (proj2 (Z.leb_le _ _)), (proj2 (Z.ltb_lt _ _)) by lia; done|]. split; [done|].
    split; [by rewrite Z.add_mod, Hm by done|]. intros p [?%Z.leb_le ?%Z.ltb_lt]%andb_true_iff r. rewrite Z.lor_spec.
    replace (p / PAGE_SIZE) with (a / PAGE_SIZE) by (rewrite page_of_eq in *; unfold PAGE_SIZE in *; Z.div_mod_to_equations; lia).
    destruct r; cbn [right_bit]; [change (Z.testbit 15 13) with false|change (Z.testbit 15 17) with false|change (Z.testbit 15 14) with false]; by rewrite orb_false_r.
Defined.
Lemma map_obliging : obliging (M := page_map).
Proof. intros m a n x Hr. cbn [SetMemoryAttributes ClearMemoryAttributes map_firmware]. by rewrite Hr. Qed.

Definition sample_ms (m : page_map) : mem_state page_map := {| ms_fw := m; ms_dst := None; ms_proto := true; ms_has_mem_access_proto := true |}.
Definition all_rights : page_map := fun _ => 0.

Lemma update_mem_attrs_correct_witness :
  exists st s', update_mem_attrs 0x400000 8192 (Z.lor MEM_ATTR_R MEM_ATTR_X) MEM_ATTR_W (sample_ms all_rights) = (st, s') /\
    EFI_ERROR st = false /\ allowed (ms_fw s') 0x401234 Write = false /\ allowed (ms_fw s') 0x401234 Execute = true /\
    allowed (ms_fw s') 0x402000 Write = true.
Proof.
  destruct (update_mem_attrs_correct 0x400000 8192 (Z.lor MEM_ATTR_R MEM_ATTR_X) MEM_ATTR_W (sample_ms all_rights) map_obliging eq_refl)
    as (st & s' & Hr & He & _ & Ha). exists st, s'. split; [exact Hr|]. split; [exact He|]. rewrite !Ha. vm_compute. done.
Defined.

(** The image of PeLoad's sample under the NX policy: none of its pages. *)
Lemma nx_header : read_header false false 1 0x100000 signed_pe 592 true = Ok (inr sample_ctx).
Proof. vm_compute. reflexivity. Qed.
Lemma image_pages_nx_witness :
  exists evs, l_events (snd nx_result) = l_events sample_lstate ++ evs /\
    forall p, ld_buffer nx_loaded <= p < ld_buffer nx_loaded + ld_alloc_pages nx_loaded * PAGE_SIZE ->
      ~ wx (apply_events evs (sample_ms all_rights)) p.
Proof.
  destruct (image_pages_nx nx_verifier sample_allocs sample_D sample_alloc true true false false [] 0x100000
    signed_pe 592 7 [] sample_lstate nx_loaded (snd nx_result) (sample_ms all_rights)) as (ctx & secs & evs & Hau & Hsecs & Hev & Hall);
    [apply nx_verifier_ok|done|split; constructor|apply signed_pe_bytes|lia|by rewrite signed_pe_length|lia|lia
    |apply sample_pages_allocated|by left| |done|vm_compute; reflexivity|apply map_obliging|done|by vm_compute|].
  - intros ctx [Hh _ _ _]. exists [sample_text].
    change (v_allow_32bit_kernel nx_verifier) with false in Hh. change (v_mok_policy nx_verifier) with 1 in Hh.
    rewrite nx_header in Hh. injection Hh as <-. apply signed_placeable.
  - exists evs. split; [exact Hev|]. intros p Hp Hwx. destruct (Hall p Hp Hwx) as (sec & Hin & Hd & _).
    destruct Hau as [Hh _ _ _]. change (v_allow_32bit_kernel nx_verifier) with false in Hh. change (v_mok_policy nx_verifier) with 1 in Hh.
    rewrite nx_header in Hh. injection Hh as <-. rewrite (pl_secs _ _ _ signed_placeable) in Hsecs. injection Hsecs as <-.
    destruct Hin as [<- |[]]. vm_compute in Hd. discriminate Hd.
Defined.

(** Code that is not writable, stack and heap that are not executable. *)
Definition nx_memory : page_map := fun q => if q =? 0x100 then EFI_MEMORY_RO else EFI_MEMORY_XP.
(** The same machine without the protocol, with DXE services. *)
Definition dxe_ms (m : page_map) : mem_state page_map :=
  {| ms_fw := m; ms_proto := false; ms_has_mem_access_proto := false;
     ms_dst := Some {| dxe_Signature := EFI_DXE_SERVICES_TABLE_SIGNATURE; dxe_GetMemorySpaceDescriptor := true; dxe_SetMemorySpaceAttributes := true |} |}.
Lemma nx_policy_sound_witness :
  (exists hsi' s', get_hsi_mem_info 0x100123 0x200456 (Some 0x300789) SHIM_HSI_STATUS_NX (sample_ms nx_memory) = Ok (hsi', s') /\
    has_flag (set_shim_nx_policy hsi' 0) MOK_POLICY_REQUIRE_NX = true /\ allowed nx_memory 0x100123 Write = false) /\
  (exists hsi' s', get_hsi_mem_info 0x100123 0x200456 (Some 0x300789) SHIM_HSI_STATUS_NX (dxe_ms nx_memory) = Ok (hsi', s') /\
    has_flag (set_shim_nx_policy hsi' 0) MOK_POLICY_REQUIRE_NX = true /\ allowed nx_memory 0x100123 Write = false).
Proof.
  split; [destruct (nx_policy_sound 0x100123 0x200456 (Some 0x300789) SHIM_HSI_STATUS_NX 0 (sample_ms nx_memory)) as (hsi' & s' & Hr & _ & Hp)
         |destruct (nx_policy_sound 0x100123 0x200456 (Some 0x300789) SHIM_HSI_STATUS_NX 0 (dxe_ms nx_memory)) as (hsi' & s' & Hr & _ & Hp)];
    [by vm_compute|by vm_compute|by intros h [= <-]; vm_compute| |by vm_compute|by vm_compute|by intros h [= <-]; vm_compute|];
    (exists hsi', s'; split; [exact Hr|]; assert (Hflag : has_flag (set_shim_nx_policy hsi' 0) MOK_POLICY_REQUIRE_NX = true)
       by (vm_compute in Hr; by injection Hr as <- _); split; [done|]; destruct (Hp Hflag) as [? | (_ & Hw & _)]; [done|exact Hw]).
Defined.

Lemma update_dxe_ignored_witness :
  let s := {| ms_fw := all_rights; ms_proto := false; ms_has_mem_access_proto := false;
              ms_dst := Some {| dxe_Signature := EFI_DXE_SERVICES_TABLE_SIGNATURE; dxe_GetMemorySpaceDescriptor := true; dxe_SetMemorySpaceAttributes := true |} |} in
  update_mem_attrs 0x400000 4096 MEM_ATTR_R MEM_ATTR_W s = (EFI_SUCCESS, s).
Proof. intros s. by apply (update_dxe_ignored 0x400000 4096 MEM_ATTR_R MEM_ATTR_W s _ eq_refl eq_refl eq_refl). Defined.
