(* ===== verification/PostProcess.v ===== *)
(** * post-process-pe.c: the last step of the build

    The program that the build runs on shim and its companions: it checks the PE
    header, sets or clears the NX compatibility flag, refuses images that are not NX
    compatible when asked to, removes the time stamp and computes the checksum.  The
    file is mapped shared, so that what was written stays when the program gives up.
    Errors of the system calls are left out, and messages. *)
From stdpp Require Import base list numbers option.
From Stdlib Require Import ZArith Lia.
From S2P Require Import Prelude.
From S2P Require Import Efi.
From S2P Require Import PeHeader.
From S2P Require Import PeLoad.
Local Open Scope Z_scope.

(** The context, and the field of it that shim's has not. *)
Record ppe_context : Type := { pp_ctx : PE_CONTEXT; FileAlignment : Z }.

(** The arithmetic checks on the sizes, in their order. *)
Definition pp_checks (datasize e_lfanew soh_opt nsections : Z) (oh : opt_header) : bool :=
  let (o1, sz0) := checked_mul sizeof_DATA_DIRECTORY EFI_IMAGE_NUMBER_OF_DIRECTORY_ENTRIES in
  let (o2, HeaderWithoutDataDir) := checked_sub (oh_size oh) sz0 in
  let (o3, sz0) := checked_sub soh_opt HeaderWithoutDataDir in
  let (o4, sz1) := checked_mul (oh_rva oh) sizeof_DATA_DIRECTORY in
  let (o5, t) := checked_add e_lfanew 4 in
  let (o6, t) := checked_add t sizeof_FILE_HEADER in
  let (o7, SectionHeaderOffset) := checked_add t soh_opt in
  let (o8, sz2) := checked_sub (oh_image oh) SectionHeaderOffset in
  let (o9, sz3) := checked_sub (oh_headers oh) SectionHeaderOffset in
  let (o10, sz4) := checked_add e_lfanew sizeof_OPTIONAL_HEADER_UNION in
  negb ((EFI_IMAGE_NUMBER_OF_DIRECTORY_ENTRIES <? oh_rva oh) ||
        (o1 || o2 || o3 || o4 || negb (sz0 =? sz1)) ||
        (o5 || o6 || o7) ||
        (o8 || (sz2 / EFI_IMAGE_SIZEOF_SECTION_HEADER <=? nsections)) ||
        (o9 || (sz3 / EFI_IMAGE_SIZEOF_SECTION_HEADER <? nsections)) ||
        (o10 || (datasize <? sz4))).

(** [None]: the program ends with an error. *)
Definition load_pe (data : list Z) (datasize : Z) : res (option ppe_context) :=
  if datasize <? sizeof_NT_HEADERS32 then Ok None
  else
    e_magic ← rd_le data 0 2;
    if negb (e_magic =? EFI_IMAGE_DOS_SIGNATURE) then Ok None
    else
      e_lfanew ← rd_le data 60 4;
      if datasize <=? e_lfanew then Ok None
      else
        sig ← rd_le data e_lfanew 4;
        if negb (sig =? EFI_IMAGE_NT_SIGNATURE) then Ok None
        else
          is64 ← image_is_64_bit data e_lfanew;
          oh ← read_opt_header data e_lfanew is64;
          if negb (oh_falign oh mod 2 =? 0) then Ok None
          else
            nsections ← rd_le data (e_lfanew + 6) 2;
            soh_opt ← rd_le data (e_lfanew + 20) 2;
            if negb (pp_checks datasize e_lfanew soh_opt nsections oh) then Ok None
            else
              ch ← rd_le data (e_lfanew + 22) 2;
              if has_flag ch EFI_IMAGE_FILE_RELOCS_STRIPPED then Ok None
              else
                let secdir := oh_dirs oh + 8 * 4 in
                if oh_image oh <? oh_headers oh then Ok None
                else if datasize - sizeof_DATA_DIRECTORY <? secdir then Ok None
                else
                  '(va, sz) ← read_dir data secdir;
                  if (datasize <? va) || ((va =? datasize) && (0 <? sz)) then Ok None
                  else
                    Ok (Some {| pp_ctx :=
                      {| ctx_ImageAddress := oh_base oh; ImageSize := oh_image oh; EntryPoint := oh_entry oh;
                         SizeOfHeaders := oh_headers oh; NumberOfSections := nsections;
                         SectionAlignment := section_alignment (oh_falign oh) (oh_salign oh);
                         FirstSection := e_lfanew + soh_opt + 4 + sizeof_FILE_HEADER; RelocDir := oh_dirs oh + 8 * 5; SecDir := secdir;
                         NumberOfRvaAndSizes := oh_rva oh; DllCharacteristics := oh_dll oh; PEHdr := e_lfanew |};
                      FileAlignment := if oh_falign oh =? 0 then 0x200 else oh_falign oh |}).

Record options : Type := { set_nx_compat : bool; require_nx_compat : bool; verbosity : Z }.

Definition with_dll (c : ppe_context) (flags : Z) : ppe_context :=
  let p := pp_ctx c in
  {| pp_ctx := {| ctx_ImageAddress := ctx_ImageAddress p; ImageSize := ImageSize p; EntryPoint := EntryPoint p; SizeOfHeaders := SizeOfHeaders p;
                  NumberOfSections := NumberOfSections p; SectionAlignment := SectionAlignment p; FirstSection := FirstSection p; RelocDir := RelocDir p;
                  SecDir := SecDir p; NumberOfRvaAndSizes := NumberOfRvaAndSizes p; DllCharacteristics := flags; PEHdr := PEHdr p |};
     FileAlignment := FileAlignment c |}.
Definition new_flags (set : bool) (oldflags : Z) : Z :=
  if set then Z.lor oldflags EFI_IMAGE_DLLCHARACTERISTICS_NX_COMPAT else Z.ldiff oldflags EFI_IMAGE_DLLCHARACTERISTICS_NX_COMPAT.
(** The offset of DllCharacteristics, like that of TimeDateStamp and CheckSum, is the
    same for both sizes of the header. *)
Definition set_dll_characteristics (o : options) (data : list Z) (c : ppe_context) : res (list Z * ppe_context) :=
  let off := PEHdr (pp_ctx c) + 94 in
  oldflags ← rd_le data off 2;
  let newflags := new_flags (set_nx_compat o) oldflags in
  if oldflags =? newflags then Ok (data, c)
  else data ← wr_le data off 2 newflags; Ok (data, with_dll c newflags).

(** [bad]: something was found that is an error when NX compatibility is required. *)
Fixpoint validate_sections (k : nat) (data : list Z) (off : Z) (bad : bool) : res bool :=
  match k with
  | O => Ok bad
  | S k =>
      s ← read_section data off;
      validate_sections k data (off + EFI_IMAGE_SIZEOF_SECTION_HEADER) (bad || writable_executable s)
  end.
Definition validate_nx_compat (o : options) (data : list Z) (c : ppe_context) : res Z :=
  let p := pp_ctx c in
  let bad := negb (has_flag (DllCharacteristics p) EFI_IMAGE_DLLCHARACTERISTICS_NX_COMPAT) ||
             negb (FileAlignment c mod PAGE_SIZE =? 0) || has_flag (SectionAlignment p) (PAGE_SIZE - 1) in
  bad ← validate_sections (Z.to_nat (NumberOfSections p)) data (FirstSection p) bad;
  Ok (if require_nx_compat o && bad then -1 else 0).

Definition fix_timestamp (data : list Z) (c : ppe_context) : res (list Z) :=
  let off := PEHdr (pp_ctx c) + 8 in
  ts ← rd_le data off 4;
  if negb (ts =? 0) then wr_le data off 4 0 else Ok data.

Fixpoint checksum_loop (data : list Z) (checksum : Z) : Z :=
  match data with
  | lo :: hi :: data =>
      let word := Z.lor (Z.shiftl hi 8) lo in
      let checksum := u32 (checksum + word) in
      checksum_loop data (Z.land 0xffff (u32 (checksum + Z.shiftr checksum 16)))
  | _ => checksum
  end.
Definition fix_checksum (data : list Z) (c : ppe_context) : res (list Z) :=
  let off := PEHdr (pp_ctx c) + 88 in
  data ← wr_le data off 4 0;
  wr_le data off 4 (u32 (checksum_loop data 0 + zlen data)).

(** The exit status of the program, 0 where it goes on, and the file. *)
Definition handle_one (o : options) (data : list Z) : res (Z * list Z) :=
  c ← load_pe data (zlen data);
  match c with
  | None => Ok (1, data)
  | Some c =>
      '(data, c) ← set_dll_characteristics o data c;
      rc ← validate_nx_compat o data c;
      if rc <? 0 then Ok (2, data)
      else
        data ← fix_timestamp data c;
        data ← fix_checksum data c;
        Ok (0, data)
  end.

(** The options that getopt_long returns, in their order, with whether longindex has
    been set; [inl]: usage ends the program with a status. *)
Definition MIN_VERBOSITY : Z := 0.
Definition MAX_VERBOSITY : Z := 3.
Fixpoint parse_options (opts : list (Z * bool)) (o : options) : Z + options :=
  match opts with
  | [] => inr o
  | (i, long) :: opts =>
      if (i =? 104) || (i =? 63) then inl (if long : bool then 0 else 1)
      else if i =? 78 then parse_options opts {| set_nx_compat := false; require_nx_compat := require_nx_compat o; verbosity := verbosity o |}
      else if i =? 110 then parse_options opts {| set_nx_compat := true; require_nx_compat := require_nx_compat o; verbosity := verbosity o |}
      else if i =? 113 then
        parse_options opts {| set_nx_compat := set_nx_compat o; require_nx_compat := require_nx_compat o; verbosity := Z.max (verbosity o - 1) MIN_VERBOSITY |}
      else if i =? 118 then
        parse_options opts {| set_nx_compat := set_nx_compat o; require_nx_compat := require_nx_compat o; verbosity := Z.min (verbosity o + 1) MAX_VERBOSITY |}
      else if i =? 120 then parse_options opts {| set_nx_compat := set_nx_compat o; require_nx_compat := true; verbosity := verbosity o |}
      else inl 1
  end.
Fixpoint handle_files (o : options) (files : list (list Z)) : res (Z * list (list Z)) :=
  match files with
  | [] => Ok (0, [])
  | f :: files =>
      '(rc, f) ← handle_one o f;
      if negb (rc =? 0) then Ok (rc, f :: files)
      else '(rc, files) ← handle_files o files; Ok (rc, f :: files)
  end.
Definition initial_options : options := {| set_nx_compat := false; require_nx_compat := false; verbosity := 0 |}.
Definition main (opts : list (Z * bool)) (files : list (list Z)) : res (Z * list (list Z)) :=
  match parse_options opts initial_options with
  | inl status => Ok (status, files)
  | inr o => match files with [] => Ok (1, []) | _ => handle_files o files end
  end.

(** ** The checksum *)

(** The words of a file, without a last odd byte, added as numbers of sixteen bits in
    ones' complement, where 0 is written as 65535 unless all of them are 0. *)
Fixpoint words (data : list Z) : list Z :=
  match data with lo :: hi :: data => lo + 256 * hi :: words data | _ => [] end.
Definition sum (l : list Z) : Z := foldr Z.add 0 l.
Definition ones_complement (s : Z) : Z := if s =? 0 then 0 else (s - 1) mod 65535 + 1.

Lemma ones_complement_range s : 0 <= s -> 0 <= ones_complement s <= 65535.
Proof. intros Hs. unfold ones_complement. case_if; [lia|]. pose proof (Z.mod_pos_bound (s - 1) 65535 ltac:(lia)). lia. Qed.
Lemma fold_word c w : 0 <= c <= 65535 -> 0 <= w <= 65535 ->
  Z.land 0xffff (u32 (u32 (c + w) + Z.shiftr (u32 (c + w)) 16)) = if 65536 <=? c + w then c + w - 65535 else c + w.
Proof.
  intros Hc Hw. rewrite (u32_small (c + w)) by lia. rewrite Z.shiftr_div_pow2 by lia. change (2 ^ 16) with 65536.
  rewrite Z.land_comm. change 0xffff with (Z.ones 16) at 1. rewrite Z.land_ones by lia. change (2 ^ 16) with 65536. destruct (Z.leb_spec 65536 (c + w)) as [Hge|Hlt].
  - rewrite <- (Z.div_unique_pos (c + w) 65536 1 (c + w - 65536)) by lia. rewrite u32_small by lia.
    symmetry. apply (Z.mod_unique_pos _ _ 1); lia.
  - rewrite (Z.div_small (c + w)), u32_small by lia. rewrite Z.mod_small; lia.
Qed.
Lemma ones_complement_add s w : 0 <= s -> 0 <= w <= 65535 ->
  (if 65536 <=? ones_complement s + w then ones_complement s + w - 65535 else ones_complement s + w) = ones_complement (s + w).
Proof.
  intros Hs Hw. unfold ones_complement. destruct (Z.eqb_spec s 0) as [->|Hs0].
  - rewrite !Z.add_0_l. rewrite (proj2 (Z.leb_gt 65536 w)) by lia. destruct (Z.eqb_spec w 0); [lia|]. rewrite Z.mod_small; lia.
  - rewrite (proj2 (Z.eqb_neq (s + w) 0)) by lia. pose proof (Z.mod_pos_bound (s - 1) 65535 ltac:(lia)) as Hm.
    replace (s + w - 1) with (s - 1 + w) by lia. rewrite <- Z.add_mod_idemp_l by lia. set (r := (s - 1) mod 65535) in *.
    destruct (Z.leb_spec 65536 (r + 1 + w)).
    + rewrite <- (Z.mod_unique_pos (r + w) 65535 1 (r + w - 65535)); lia.
    + rewrite (Z.mod_small (r + w)); lia.
Qed.

(** The loop computes the ones' complement sum of the words. *)
Lemma checksum_loop_ok data s : bytes data -> 0 <= s -> checksum_loop data (ones_complement s) = ones_complement (s + sum (words data)).
Proof.
  remember (length data) as n eqn:Hn. assert (Hle : (length data <= n)%nat) by lia. clear Hn. revert data s Hle.
  induction n as [|n IH]; intros [|lo [|hi data]] s Hle Hb Hs; cbn [length] in Hle; try lia; cbn [checksum_loop words sum foldr]; try (by rewrite Z.add_0_r).
  apply Forall_cons_1 in Hb as [Hlo Hb]. apply Forall_cons_1 in Hb as [Hhi Hb]. unfold is_byte in *. rewrite lor_bytes by lia.
  pose proof (ones_complement_range s Hs). rewrite fold_word, ones_complement_add by lia. rewrite IH by (done || lia). f_equal. cbn [sum foldr]. unfold sum. cbn [foldr]. lia.
Qed.

(** ** Writes and the reads beside them *)
Lemma wrn_inv m i bs m' : wrn m i bs = Ok m' -> exists p old q, m = p ++ old ++ q /\ zlen p = i /\ length old = length bs /\ m' = p ++ bs ++ q.
Proof.
  unfold wrn. destruct (Z.leb_spec 0 i); [|done]. destruct (Z.leb_spec (i + zlen bs) (zlen m)); [|done]. cbn [andb]. intros [= <-].
  exists (take (Z.to_nat i) m), (take (length bs) (drop (Z.to_nat i) m)), (drop (Z.to_nat i + length bs) m). unfold zlen in *. split_and!; [|rewrite length_take; lia| |done].
  - rewrite <- (take_drop (Z.to_nat i) m) at 1. f_equal. rewrite <- (take_drop (length bs) (drop (Z.to_nat i) m)) at 1. by rewrite drop_drop.
  - rewrite length_take, length_drop. lia.
Qed.
Lemma wrn_wrn m i a b m' : wrn m i a = Ok m' -> length a = length b -> wrn m' i b = wrn m i b.
Proof. intros (p & old & q & -> & <- & Ho & ->)%wrn_inv Hl. rewrite !wrn_app_mid by (done || lia). done. Qed.
Lemma rdn_written m i bs m' n : wrn m i bs = Ok m' -> n = zlen bs -> rdn m' i n = Ok bs.
Proof. intros (p & old & q & -> & <- & Ho & ->)%wrn_inv ->. by apply rdn_app_mid. Qed.
Lemma rdn_beside m i bs m' j n : wrn m i bs = Ok m' -> j + n <= i \/ i + zlen bs <= j -> rdn m' j n = rdn m j n.
Proof.
  intros (p & old & q & -> & <- & Ho & ->)%wrn_inv Hd. unfold rdn. assert (Hz : zlen (p ++ bs ++ q) = zlen (p ++ old ++ q)) by (unfold zlen; rewrite !length_app; lia). rewrite Hz.
  destruct (Z.leb_spec 0 j); [|done]. destruct (Z.leb_spec 0 n); [|done]. destruct (Z.leb_spec (j + n) (zlen (p ++ old ++ q))); [|done]. cbn [andb]. f_equal.
  apply list_eq. intros k. destruct (decide (k < Z.to_nat n)%nat); [|rewrite !lookup_take_ge by lia; done]. rewrite !lookup_take_lt, !lookup_drop by done. unfold zlen in *.
  destruct Hd; [rewrite !lookup_app_l by lia; done|]. rewrite !(lookup_app_r p) by lia. rewrite !(lookup_app_r _ q) by lia. by rewrite Ho.
Qed.
Lemma rd_le_beside m i k v m' j n : wr_le m i k v = Ok m' -> j + n <= i \/ i + Z.of_nat k <= j -> rd_le m' j n = rd_le m j n.
Proof. intros Hw Hd. unfold rd_le. by rewrite (rdn_beside m i (le_split k v) m') by (done || by rewrite zlen_le_split). Qed.
Lemma rd_le_written m i k v m' : wr_le m i k v = Ok m' -> 0 <= v < 2 ^ (8 * Z.of_nat k) -> rd_le m' i (Z.of_nat k) = Ok v.
Proof. intros Hw Hv. unfold rd_le. rewrite (rdn_written m i (le_split k v) m'), bind_Ok by (done || by rewrite zlen_le_split). by rewrite le_combine_split. Qed.

(** ** Files that differ in the three fields only *)
Definition beside (pe j n : Z) : Prop := (j + n <= pe + 8 \/ pe + 12 <= j) /\ (j + n <= pe + 88 \/ pe + 92 <= j) /\ (j + n <= pe + 94 \/ pe + 96 <= j).
Definition same_beside (pe : Z) (data data' : list Z) : Prop := zlen data' = zlen data /\ forall j n, beside pe j n -> rdn data' j n = rdn data j n.

Lemma same_rd_le pe data data' j n : same_beside pe data data' -> beside pe j n -> rd_le data' j n = rd_le data j n.
Proof. intros [_ Hs] Hb. unfold rd_le. by rewrite Hs. Qed.
Lemma same_wr pe data data' i k v m : same_beside pe data data' -> wr_le data' i k v = Ok m ->
  (i = pe + 8 /\ k = 4%nat) \/ (i = pe + 88 /\ k = 4%nat) \/ (i = pe + 94 /\ k = 2%nat) -> same_beside pe data m.
Proof.
  intros [Hl Hs] Hw Hi. split; [rewrite <- Hl; by eapply wrn_length|]. intros j n Hb. rewrite <- Hs by done.
  apply (rdn_beside data' i (le_split k v)); [done|]. rewrite zlen_le_split. unfold beside in Hb. destruct Hi as [[-> ->] | [[-> ->] | [-> ->]]]; lia.
Qed.

Lemma read_opt_same pe data data' is64 oh f : same_beside pe data data' -> read_opt_header data pe is64 = Ok oh -> rd_le data' (pe + 94) 2 = Ok f ->
  read_opt_header data' pe is64 = Ok {| oh_rva := oh_rva oh; oh_headers := oh_headers oh; oh_image := oh_image oh; oh_salign := oh_salign oh; oh_falign := oh_falign oh;
    oh_size := oh_size oh; oh_base := oh_base oh; oh_entry := oh_entry oh; oh_dll := f; oh_dirs := oh_dirs oh |}.
Proof.
  intros Hs H Hf. unfold read_opt_header in *. assert (HR : forall j n, beside pe j n -> rd_le data' j n = rd_le data j n) by (intros; by apply (same_rd_le pe)).
  repeat (apply bind_inv in H as (? & ? & H)). injection H as <-. unfold beside in HR.
  rewrite (HR (pe + 84) 4), (HR (pe + 80) 4), (HR (pe + 56) 4), (HR (pe + 60) 4), (HR (pe + 40) 4) by lia.
  destruct is64; [rewrite (HR (pe + 132) 4), (HR (pe + 48) 8) by lia|rewrite (HR (pe + 116) 4), (HR (pe + 52) 4) by lia]; repeat match goal with E : rd_le data _ _ = Ok _ |- _ => rewrite ?E; clear E end; by rewrite Hf.
Qed.

Lemma pp_checks_dll ds e soh ns oh f : pp_checks ds e soh ns {| oh_rva := oh_rva oh; oh_headers := oh_headers oh; oh_image := oh_image oh; oh_salign := oh_salign oh;
    oh_falign := oh_falign oh; oh_size := oh_size oh; oh_base := oh_base oh; oh_entry := oh_entry oh; oh_dll := f; oh_dirs := oh_dirs oh |} = pp_checks ds e soh ns oh.
Proof. done. Qed.
Lemma oh_dirs_at data pe is64 oh : read_opt_header data pe is64 = Ok oh -> oh_dirs oh = pe + (if is64 then 136 else 120) /\
  oh_size oh = (if is64 then sizeof_OPTIONAL_HEADER64 else sizeof_OPTIONAL_HEADER32) /\ rd_le data (pe + 94) 2 = Ok (oh_dll oh).
Proof. unfold read_opt_header. intros H. repeat (apply bind_inv in H as (? & ? & H)). injection H as <-. cbn. done. Qed.

(** load_pe of a file that differs in the three fields only. *)
Lemma load_pe_same data data' c f : load_pe data (zlen data) = Ok (Some c) -> 64 <= PEHdr (pp_ctx c) -> same_beside (PEHdr (pp_ctx c)) data data' ->
  rd_le data' (PEHdr (pp_ctx c) + 94) 2 = Ok f -> load_pe data' (zlen data') = Ok (Some (with_dll c f)).
Proof.
  intros H H64 Hs Hf. pose proof Hs as [Hlen _]. rewrite Hlen. unfold load_pe in *. destruct (zlen data <? sizeof_NT_HEADERS32); [done|].
  apply bind_inv in H as (magic & Hmagic & H). destruct (negb (magic =? _)) eqn:E1; [done|]. apply bind_inv in H as (e & He & H). destruct (zlen data <=? e) eqn:E2; [done|].
  apply bind_inv in H as (sig & Hsig & H). destruct (negb (sig =? _)) eqn:E3; [done|]. apply bind_inv in H as (is64 & H64b & H). apply bind_inv in H as (oh & Hoh & H).
  destruct (negb (oh_falign oh mod 2 =? 0)) eqn:E4; [done|]. apply bind_inv in H as (ns & Hns & H). apply bind_inv in H as (soh & Hsoh & H).
  destruct (negb (pp_checks _ _ _ _ _)) eqn:E5; [done|]. apply bind_inv in H as (ch & Hch & H). destruct (has_flag ch _) eqn:E6; [done|].
  destruct (oh_image oh <? oh_headers oh) eqn:E7; [done|]. destruct (zlen data - _ <? _) eqn:E8; [done|]. apply bind_inv in H as ([va sz] & Hdir & H).
  destruct ((zlen data <? va) || _) eqn:E9; [done|]. injection H as <-. cbn [pp_ctx PEHdr] in *.
  assert (HR : forall j n, beside e j n -> rd_le data' j n = rd_le data j n) by (intros; by apply (same_rd_le e)). unfold beside in HR.
  rewrite (HR 0 2), Hmagic, bind_Ok, E1 by lia. rewrite (HR 60 4), He, bind_Ok, E2 by lia. rewrite (HR e 4), Hsig, bind_Ok, E3 by lia.
  unfold image_is_64_bit, Magic in *. rewrite (HR (e + 24) 2), H64b, bind_Ok by lia. rewrite (read_opt_same e data data' is64 oh f Hs Hoh Hf), bind_Ok. cbn [oh_falign]. rewrite E4.
  rewrite (HR (e + 6) 2), Hns, bind_Ok by lia. rewrite (HR (e + 20) 2), Hsoh, bind_Ok by lia. rewrite pp_checks_dll, E5. rewrite (HR (e + 22) 2), Hch, bind_Ok, E6 by lia.
  cbn [oh_image oh_headers oh_dirs]. rewrite E7, E8. destruct (oh_dirs_at _ _ _ _ Hoh) as [Hd _]. unfold read_dir in *.
  rewrite (HR (oh_dirs oh + 8 * 4) 4), (HR (oh_dirs oh + 8 * 4 + 4) 4) by (rewrite Hd; destruct is64; lia). rewrite Hdir, bind_Ok, E9. done.
Qed.

(** The sections are behind the headers. *)
Lemma load_pe_sections data c : load_pe data (zlen data) = Ok (Some c) -> bytes data -> PEHdr (pp_ctx c) + 96 <= FirstSection (pp_ctx c) /\
  rd_le data (PEHdr (pp_ctx c) + 94) 2 = Ok (DllCharacteristics (pp_ctx c)) /\ rd_le data 60 4 = Ok (PEHdr (pp_ctx c)).
Proof.
  intros H Hb. unfold load_pe in *. destruct (zlen data <? sizeof_NT_HEADERS32); [done|]. apply bind_inv in H as (magic & Hmagic & H). destruct (negb (magic =? _)) eqn:E1; [done|].
  apply bind_inv in H as (e & He & H). destruct (zlen data <=? e) eqn:E2; [done|]. apply bind_inv in H as (sig & Hsig & H). destruct (negb (sig =? _)) eqn:E3; [done|].
  apply bind_inv in H as (is64 & H64b & H). apply bind_inv in H as (oh & Hoh & H). destruct (negb (oh_falign oh mod 2 =? 0)) eqn:E4; [done|].
  apply bind_inv in H as (ns & Hns & H). apply bind_inv in H as (soh & Hsoh & H). destruct (negb (pp_checks _ _ _ _ _)) eqn:E5; [done|]. apply bind_inv in H as (ch & Hch & H).
  destruct (has_flag ch _) eqn:E6; [done|]. destruct (oh_image oh <? oh_headers oh) eqn:E7; [done|]. destruct (zlen data - _ <? _) eqn:E8; [done|]. apply bind_inv in H as ([va sz] & Hdir & H).
  destruct ((zlen data <? va) || _) eqn:E9; [done|]. injection H as <-. cbn [pp_ctx PEHdr FirstSection DllCharacteristics] in *. destruct (oh_dirs_at _ _ _ _ Hoh) as (_ & Hsize & Hdll).
  split_and!; [|done|done]. pose proof (rd_le_value _ _ _ _ Hb Hsoh) as Hv. apply negb_false_iff in E5. unfold pp_checks in E5. rewrite Hsize in E5.
  destruct (checked_mul sizeof_DATA_DIRECTORY EFI_IMAGE_NUMBER_OF_DIRECTORY_ENTRIES) as [o1 t0] eqn:Et. vm_compute in Et. injection Et as <- <-.
  assert (H72 : 72 <= soh); [|change sizeof_FILE_HEADER with 20; lia]. unfold checked_sub at 2 in E5. destruct is64.
  - change (checked_sub sizeof_OPTIONAL_HEADER64 128) with (false, 112) in E5. cbv beta iota zeta in E5. destruct (decide (72 <= soh)) as [|Hlt]; [done|exfalso].
    rewrite (bool_decide_false (0 <= soh - 112 < 2 ^ 64)) in E5 by lia. cbn [negb orb] in E5. revert E5.
    repeat match goal with |- context [let (_, _) := ?x in _] => destruct x end. by rewrite !orb_true_r.
  - change (checked_sub sizeof_OPTIONAL_HEADER32 128) with (false, 96) in E5. cbv beta iota zeta in E5. destruct (decide (72 <= soh)) as [|Hlt]; [done|exfalso].
    rewrite (bool_decide_false (0 <= soh - 96 < 2 ^ 64)) in E5 by lia. cbn [negb orb] in E5. revert E5.
    repeat match goal with |- context [let (_, _) := ?x in _] => destruct x end. by rewrite !orb_true_r.
Qed.

Lemma read_section_same pe data data' off : same_beside pe data data' -> pe + 96 <= off -> read_section data' off = read_section data off.
Proof.
  intros Hs Hoff. unfold read_section. assert (HR : forall j n, beside pe j n -> rd_le data' j n = rd_le data j n) by (intros; by apply (same_rd_le pe)). unfold beside in HR.
  destruct Hs as [_ Hrd]. rewrite (Hrd off 8) by (unfold beside; lia).
  by rewrite (HR (off + 8) 4), (HR (off + 12) 4), (HR (off + 16) 4), (HR (off + 20) 4), (HR (off + 24) 4), (HR (off + 32) 2), (HR (off + 36) 4) by lia.
Qed.
Lemma validate_sections_same pe data data' k : same_beside pe data data' -> forall off bad, pe + 96 <= off -> validate_sections k data' off bad = validate_sections k data off bad.
Proof.
  intros Hs. induction k as [|k IH]; intros off bad Hoff; [done|]. cbn [validate_sections]. rewrite (read_section_same pe data) by done.
  destruct (read_section data off) as [s| |]; [|done..]. rewrite !bind_Ok. apply IH. unfold EFI_IMAGE_SIZEOF_SECTION_HEADER. lia.
Qed.
Lemma validate_sections_bad k data off : validate_sections k data off true = Ok false -> False.
Proof. revert off. induction k as [|k IH]; intros off H; [done|]. cbn [validate_sections orb] in H. apply bind_inv in H as (s & _ & H). by apply IH in H. Qed.
Lemma validate_sections_good k data : forall off bad, validate_sections k data off bad = Ok false -> bad = false /\
  forall i, (i < k)%nat -> exists s, read_section data (off + EFI_IMAGE_SIZEOF_SECTION_HEADER * Z.of_nat i) = Ok s /\ writable_executable s = false.
Proof.
  induction k as [|k IH]; intros off bad H; cbn [validate_sections] in H; [injection H as ->; split; [done|lia]|].
  apply bind_inv in H as (s & Hs & H). destruct (IH _ _ H) as [[Hb Hw]%orb_false_iff Hall]. split; [done|]. intros [|i] Hi.
  - exists s. rewrite Z.mul_0_r, Z.add_0_r. done.
  - destruct (Hall i ltac:(lia)) as (s' & Hs' & Hw'). exists s'. split; [|done]. rewrite <- Hs'. f_equal. lia.
Qed.

Lemma new_flags_idem set f : new_flags set (new_flags set f) = new_flags set f.
Proof.
  unfold new_flags. destruct set; apply Z.bits_inj'; intros n Hn.
  - rewrite !Z.lor_spec. by destruct (Z.testbit f n), (Z.testbit _ n).
  - rewrite !Z.ldiff_spec. by destruct (Z.testbit f n), (Z.testbit _ n).
Qed.
Lemma new_flags_range set f : 0 <= f < 2 ^ 16 -> 0 <= new_flags set f < 2 ^ 16.
Proof.
  intros Hf. unfold new_flags. assert (Hb : forall g, 0 <= g -> (forall n, 16 <= n -> Z.testbit g n = false) -> 0 <= g < 2 ^ 16).
  { intros g Hg Hn. split; [done|]. destruct (Z.eq_dec g 0) as [->|]; [lia|]. apply Z.log2_lt_pow2; [lia|]. destruct (Z.lt_ge_cases (Z.log2 g) 16) as [|Hge]; [done|].
    specialize (Hn _ Hge). rewrite Z.bit_log2 in Hn by lia. done. }
  assert (Hf16 : forall n, 16 <= n -> Z.testbit f n = false) by (intros n Hn; rewrite <- (Z.mod_small f (2 ^ 16) Hf); by apply Z.mod_pow2_bits_high).
  destruct set; apply Hb.
  - apply Z.lor_nonneg. unfold EFI_IMAGE_DLLCHARACTERISTICS_NX_COMPAT. lia.
  - intros n Hn. rewrite Z.lor_spec, Hf16 by done. change EFI_IMAGE_DLLCHARACTERISTICS_NX_COMPAT with (2 ^ 8). by rewrite Z.pow2_bits_false by lia.
  - apply Z.ldiff_nonneg. lia.
  - intros n Hn. by rewrite Z.ldiff_spec, Hf16.
Qed.
Lemma with_dll_same c : with_dll c (DllCharacteristics (pp_ctx c)) = c.
Proof. by destruct c as [[] ?]. Qed.

(** The steps, each on a file that differs from [data] in the three fields only. *)
Lemma set_dll_ok o data c d1 c1 : set_dll_characteristics o data c = Ok (d1, c1) -> bytes data -> rd_le data (PEHdr (pp_ctx c) + 94) 2 = Ok (DllCharacteristics (pp_ctx c)) ->
  let f := new_flags (set_nx_compat o) (DllCharacteristics (pp_ctx c)) in
  c1 = with_dll c f /\ same_beside (PEHdr (pp_ctx c)) data d1 /\ rd_le d1 (PEHdr (pp_ctx c) + 94) 2 = Ok f.
Proof.
  intros H Hb Hdll f. unfold set_dll_characteristics in H. rewrite Hdll, bind_Ok in H. fold f in H. destruct (Z.eqb_spec (DllCharacteristics (pp_ctx c)) f) as [E|E].
  - injection H as <- <-. rewrite <- E. by rewrite with_dll_same.
  - apply bind_inv in H as (d & Hw & H). injection H as <- <-. split; [done|]. split; [eapply same_wr; [by split|exact Hw|]; by right; right|].
    apply (rd_le_written _ _ _ _ _ Hw). apply new_flags_range. by apply (rd_le_value _ _ _ _ Hb Hdll).
Qed.
Lemma fix_timestamp_ok pe data c d1 d2 : fix_timestamp d1 c = Ok d2 -> PEHdr (pp_ctx c) = pe -> same_beside pe data d1 ->
  same_beside pe data d2 /\ rd_le d2 (pe + 8) 4 = Ok 0 /\ rd_le d2 (pe + 94) 2 = rd_le d1 (pe + 94) 2.
Proof.
  intros H <- Hs. unfold fix_timestamp in H. apply bind_inv in H as (ts & Hts & H). destruct (Z.eqb_spec ts 0) as [->|]; cbn [negb] in H; [by injection H as <-|].
  split; [eapply same_wr; [done|exact H|by left]|]. split; [by apply (rd_le_written _ _ _ _ _ H)|]. apply (rd_le_beside _ _ _ _ _ _ _ H). lia.
Qed.

(** The checksum is that of the file with 0 in its place, and is found again. *)
Lemma fix_checksum_ok pe data c d2 d3 : fix_checksum d2 c = Ok d3 -> bytes d2 -> PEHdr (pp_ctx c) = pe -> same_beside pe data d2 ->
  same_beside pe data d3 /\ rd_le d3 (pe + 8) 4 = rd_le d2 (pe + 8) 4 /\ rd_le d3 (pe + 94) 2 = rd_le d2 (pe + 94) 2 /\ fix_checksum d3 c = Ok d3 /\
  exists m, wr_le d3 (pe + 88) 4 0 = Ok m /\ rd_le d3 (pe + 88) 4 = Ok (u32 (ones_complement (sum (words m)) + zlen d3)).
Proof.
  intros H Hb <- Hs. unfold fix_checksum in *. apply bind_inv in H as (m & Hm & H). pose proof (wrn_length _ _ _ _ H) as Hl.
  assert (Hbm : bytes m). { apply wrn_inv in Hm as (p & old & q & -> & _ & _ & ->). apply Forall_app in Hb as [Hp Hq]. apply Forall_app in Hq as [_ Hq].
    apply Forall_app. split; [done|]. apply Forall_app. split; [apply le_split_bytes|done]. }
  assert (Hm3 : wr_le d3 (PEHdr (pp_ctx c) + 88) 4 0 = Ok m).
  { unfold wr_le in *. rewrite (wrn_wrn _ _ _ (le_split 4 0) _ H) by (by rewrite !le_split_length). by rewrite (wrn_wrn _ _ _ (le_split 4 0) _ Hm). }
  assert (Hcs : checksum_loop m 0 = ones_complement (sum (words m))) by (by apply (checksum_loop_ok m 0)).
  split_and!.
  - eapply same_wr; [|exact H|by right; left]. eapply same_wr; [done|exact Hm|by right; left].
  - rewrite (rd_le_beside _ _ _ _ _ _ _ H) by lia. apply (rd_le_beside _ _ _ _ _ _ _ Hm). lia.
  - rewrite (rd_le_beside _ _ _ _ _ _ _ H) by lia. apply (rd_le_beside _ _ _ _ _ _ _ Hm). lia.
  - rewrite Hm3, bind_Ok. exact H.
  - exists m. split; [done|]. rewrite <- Hcs, Hl. apply (rd_le_written _ _ _ _ _ H). apply u32_range.
Qed.
Lemma wr_le_bytes m i k v m' : wr_le m i k v = Ok m' -> bytes m -> bytes m'.
Proof.
  intros (p & old & q & -> & _ & _ & ->)%wrn_inv Hb. apply Forall_app in Hb as [Hp Hq]. apply Forall_app in Hq as [_ Hq].
  apply Forall_app. split; [done|]. apply Forall_app. split; [apply le_split_bytes|done].
Qed.

(** What post-process-pe makes of a file that it does not refuse: the NX flag is as it was asked
    for, the time stamp is 0, the checksum is the ones' complement sum of the words of
    the file with 0 in the place of the checksum, plus the size; nothing else has
    changed; with -x the flag is set and no section is writable and executable; and
    processing the file again changes nothing. *)
Theorem post_process_correct o data out pe : handle_one o data = Ok (0, out) -> bytes data -> rd_le data 60 4 = Ok pe -> 64 <= pe ->
  exists c f m, load_pe data (zlen data) = Ok (Some c) /\ PEHdr (pp_ctx c) = pe /\
  rd_le data (pe + 94) 2 = Ok f /\ rd_le out (pe + 94) 2 = Ok (new_flags (set_nx_compat o) f) /\
  rd_le out (pe + 8) 4 = Ok 0 /\
  wr_le out (pe + 88) 4 0 = Ok m /\ rd_le out (pe + 88) 4 = Ok (u32 (ones_complement (sum (words m)) + zlen out)) /\
  same_beside pe data out /\
  (require_nx_compat o = true -> set_nx_compat o = true /\ forall i, (i < Z.to_nat (NumberOfSections (pp_ctx c)))%nat ->
     exists s, read_section out (FirstSection (pp_ctx c) + EFI_IMAGE_SIZEOF_SECTION_HEADER * Z.of_nat i) = Ok s /\ writable_executable s = false) /\
  handle_one o out = Ok (0, out).
Proof.
  intros H Hb Hpe H64. unfold handle_one in H. apply bind_inv in H as ([c|] & Hload & H); [|done].
  destruct (load_pe_sections data c Hload Hb) as (Hfs & Hdll & Hpe'). rewrite Hpe in Hpe'. injection Hpe' as Hpe'.
  apply bind_inv in H as ([d1 c1] & Hset & H). pose proof (set_dll_ok _ _ _ _ _ Hset Hb Hdll) as (-> & Hs1 & Hf1).
  assert (Hb1 : bytes d1).
  { unfold set_dll_characteristics in Hset. apply bind_inv in Hset as (f0 & _ & Hset). destruct (f0 =? _); [by injection Hset as <- _|].
    apply bind_inv in Hset as (d & Hw & Hset). injection Hset as <- _. by eapply wr_le_bytes. }
  apply bind_inv in H as (rc & Hval & H). destruct (Z.ltb_spec rc 0) as [|Hrc]; [done|].
  apply bind_inv in H as (d2 & Hts & H). apply bind_inv in H as (d3 & Hck & H). injection H as <-. set (f := new_flags (set_nx_compat o) (DllCharacteristics (pp_ctx c))) in *.
  assert (Hb2 : bytes d2).
  { unfold fix_timestamp in Hts. apply bind_inv in Hts as (t0 & _ & Hts). destruct (negb (t0 =? 0)); [by eapply wr_le_bytes|by injection Hts as <-]. }
  destruct (fix_timestamp_ok (PEHdr (pp_ctx c)) data (with_dll c f) d1 d2 Hts eq_refl Hs1) as (Hs2 & Ht2 & Hf2).
  destruct (fix_checksum_ok (PEHdr (pp_ctx c)) data (with_dll c f) d2 d3 Hck Hb2 eq_refl Hs2) as (Hs3 & Ht3 & Hf3 & Hagain & m & Hm & Hsum).
  rewrite <- Hpe' in *. exists c, (DllCharacteristics (pp_ctx c)), m. fold f.
  assert (Hf3' : rd_le d3 (pe + 94) 2 = Ok f) by congruence.
  assert (Hval3 : validate_nx_compat o d3 (with_dll c f) = Ok rc).
  { unfold validate_nx_compat in *. cbn [with_dll pp_ctx NumberOfSections FirstSection DllCharacteristics FileAlignment SectionAlignment] in *.
    rewrite (validate_sections_same pe data d3) by (done || lia). by rewrite (validate_sections_same pe data d1) in Hval by (done || lia). }
  split_and!; try done; try congruence.
  - intros Hreq. unfold validate_nx_compat in Hval3. rewrite Hreq in Hval3. cbn [andb] in Hval3. apply bind_inv in Hval3 as (bad & Hv & Hb3).
    destruct bad; [injection Hb3 as <-; lia|]. apply validate_sections_good in Hv as [Hbad Hall]. split; [|exact Hall].
    apply orb_false_iff in Hbad as [Hbad _]. apply orb_false_iff in Hbad as [Hbad _]. apply negb_false_iff in Hbad. cbn [with_dll pp_ctx DllCharacteristics] in Hbad.
    unfold f, new_flags in Hbad. destruct (set_nx_compat o); [done|]. unfold has_flag in Hbad. by rewrite Z.land_ldiff in Hbad.
  - unfold handle_one. rewrite (load_pe_same data d3 c f Hload), bind_Ok by (rewrite <- ?Hpe'; done). unfold set_dll_characteristics. cbn [with_dll pp_ctx PEHdr]. rewrite <- Hpe', Hf3', bind_Ok.
    unfold f at 1 2. rewrite new_flags_idem, Z.eqb_refl, bind_Ok. fold (with_dll c f). rewrite Hval3, bind_Ok. rewrite (proj2 (Z.ltb_ge rc 0)) by done.
    unfold fix_timestamp. cbn [with_dll pp_ctx PEHdr]. rewrite <- Hpe'. rewrite Ht3, Ht2, bind_Ok. cbn [Z.eqb negb]. rewrite bind_Ok. rewrite Hagain, bind_Ok. done.
Qed.

(** ** Concrete files *)
Definition enable_nx : options := {| set_nx_compat := true; require_nx_compat := false; verbosity := 0 |}.
Definition sample_processed : list Z :=
  match handle_one enable_nx sample_pe with Ok (_, d) => d | _ => [] end.
Lemma post_process_correct_witness :
  rd_le sample_processed 158 2 = Ok 0x100 /\ rd_le sample_processed 152 4 = Ok 53336 /\
  handle_one enable_nx sample_processed = Ok (0, sample_processed).
Proof.
  split_and!; [vm_compute; reflexivity..|].
  destruct (post_process_correct enable_nx sample_pe sample_processed 64) as (c & f & m & H);
    [vm_compute; reflexivity|apply sample_pe_bytes|vm_compute; reflexivity|lia|]. by apply H.
Defined.

(** A file that -x refuses has its NX flag cleared all the same: the flag is written to
    the shared mapping before the check. *)
Example refused_but_modified : exists d,
  handle_one {| set_nx_compat := false; require_nx_compat := true; verbosity := 0 |} sample_pe = Ok (2, d) /\
  rd_le sample_pe 158 2 = Ok 0x100 /\ rd_le d 158 2 = Ok 0.
Proof. eexists. split_and!; vm_compute; reflexivity. Qed.

(** The header that e_lfanew names at the last byte of a file is read before the size is
    checked. *)
Example load_pe_past_end :
  load_pe (put 60 (le_split 4 247) (put 0 [77; 90] (replicate 248 0))) 248 = Fault.
Proof. vm_compute. reflexivity. Qed.

(** The last byte of a file of odd size does not count. *)
Lemma checksum_odd data b s : Nat.Even (length data) -> checksum_loop (data ++ [b]) s = checksum_loop data s.
Proof.
  intros [n Hn]. revert data s Hn. induction n as [|n IH]; intros [|lo [|hi data]] s Hn; cbn [length] in Hn; try lia; [done|].
  cbn [app checksum_loop]. apply IH. lia.
Qed.
