(* ===== verification/LoaderProto.v ===== *)
(** * The image services shim installs: loader-proto.c

    shim replaces the firmware's LoadImage, StartImage, UnloadImage and Exit so
    that everything a boot loader starts is verified.  An image that was loaded
    is the record [SHIM_LOADED_IMAGE]; the records are objects of a heap (a
    pointer to one that was freed does not lead anywhere), and a handle of the
    firmware leads to one while SHIM_LOADED_IMAGE_GUID is installed on it.

    The firmware's protocols (device paths, file systems, LoadFile2) are the
    record [boot_services]; running an image is a function, which may call these
    services itself.  Device paths belong to gnu-efi and are a type parameter.
    The messages, and the memory of device paths and file buffers that is
    freed, are left out. *)
From stdpp Require Import base list numbers option strings gmap.
From Stdlib Require Import ZArith Lia.
From S2P Require Import Prelude.
From S2P Require Import Efi.
From S2P Require Import Sbat.
From S2P Require Import Firmware.
From S2P Require Import Esl.
From S2P Require Import Variables.
From S2P Require Import PeHeader.
From S2P Require Import PeHash.
From S2P Require Import SectionCache.
From S2P Require Import Verify.
From S2P Require Import VerifyBuffer.
From S2P Require Import PeLoad.
Local Open Scope Z_scope.

Definition MEDIA_DEVICE_PATH : Z := 0x04.
Definition MEDIA_FILEPATH_DP : Z := 0x04.

(** The protocols LocateDevicePath is asked for. *)
Inductive located : Type :=
| EFI_SIMPLE_FILE_SYSTEM_GUID
| gEfiLoadFile2ProtocolGuid
| gEfiDevicePathProtocolGuid.

Section device_path.
Context {DP : Type}.

(** An open file: positions are set to the end (-1ULL) or the start. *)
Record file : Type := {
  SetPosition : Z -> EFI_STATUS;
  GetPosition : EFI_STATUS * Z;
  Read : Z -> EFI_STATUS * list Z
}.

(** What an image's record says. *)
Record SHIM_LOADED_IMAGE : Type := {
  li_ParentHandle : Z;
  li_DeviceHandle : Z;
  li_FilePath : option DP;
  li_fields : loaded_image;
  entry_point : Z;
  alloc : image_pages;
  exit_status : EFI_STATUS;
  exit_data : Z;
  exit_data_size : Z;
  started : bool;
  loaded_image_device_path : option DP
}.

(** [inl] is an error.  LoadFile takes the room there is, or NULL, and gives the
    status, the size and the bytes. *)
Record boot_services : Type := {
  DevicePathType : DP -> Z;
  DevicePathSubType : DP -> Z;
  LocateDevicePath : located -> DP -> EFI_STATUS * DP * Z;
  OpenVolume : Z -> EFI_STATUS + (DP -> EFI_STATUS + file);
  LoadFile : Z -> EFI_STATUS + (DP -> option Z -> EFI_STATUS * Z * list Z);
  AllocatePool : Z -> option (Z * list Z)
}.

Record buffer_properties_t : Type := {
  hnd : Z;
  dp : option DP;
  buffer : option (Z * list Z);
  bsize : Z
}.

(** ** Where the image comes from *)
Section sources.
Context (bs : boot_services).

(** A buffer of the pool with [bytes] read into it. *)
Definition read_into (pool bytes : list Z) : list Z := bytes ++ drop (length bytes) pool.

Definition try_load_from_sfs (path : DP) : EFI_STATUS * buffer_properties_t :=
  let '(status, path, h) := LocateDevicePath bs EFI_SIMPLE_FILE_SYSTEM_GUID path in
  let out st buf n := (st, {| hnd := h; dp := Some path; buffer := buf; bsize := n |}) in
  if EFI_ERROR status then out status None 0
  else if negb ((DevicePathType bs path =? MEDIA_DEVICE_PATH) && (DevicePathSubType bs path =? MEDIA_FILEPATH_DP))
  then out EFI_LOAD_ERROR None 0
  else
    match OpenVolume bs h with
    | inl status => out status None 0
    | inr Open =>
        match Open path with
        | inl status => out status None 0
        | inr f =>
            let status := SetPosition f (2 ^ 64 - 1) in
            if EFI_ERROR status then out status None 0
            else
              let (status, tmpsz) := GetPosition f in
              if EFI_ERROR status then out status None 0
              else
                let status := SetPosition f 0 in
                if EFI_ERROR status then out status None tmpsz
                else
                  match AllocatePool bs tmpsz with
                  | None => out EFI_OUT_OF_RESOURCES None tmpsz
                  | Some (addr, pool) =>
                      let (status, bytes) := Read f tmpsz in
                      out status (Some (addr, read_into pool bytes)) (zlen bytes)
                  end
        end
    end.

Definition try_load_from_lf2 (path : DP) : EFI_STATUS * buffer_properties_t :=
  let '(status, path, h) := LocateDevicePath bs gEfiLoadFile2ProtocolGuid path in
  let out st buf n := (st, {| hnd := h; dp := Some path; buffer := buf; bsize := n |}) in
  if EFI_ERROR status then out status None 0
  else
    match LoadFile bs h with
    | inl status => out status None 0
    | inr Load =>
        let '(status, n, _) := Load path None in
        if EFI_ERROR status && negb (bool_decide (status = EFI_BUFFER_TOO_SMALL)) then out EFI_LOAD_ERROR None n
        else
          match AllocatePool bs n with
          | None => out EFI_OUT_OF_RESOURCES None n
          | Some (addr, pool) =>
              let '(status, n, bytes) := Load path (Some n) in
              out status (Some (addr, read_into pool bytes)) n
          end
    end.
End sources.

(** ** The state of the loader *)
Record pstate : Type := {
  ps_load : lstate;
  ps_images : gmap Z SHIM_LOADED_IMAGE;
  ps_handles : gmap Z Z;
  ps_in_protocol : bool
}.
Definition with_load (s : pstate) (x : lstate) : pstate :=
  {| ps_load := x; ps_images := ps_images s; ps_handles := ps_handles s; ps_in_protocol := ps_in_protocol s |}.
Definition with_images (s : pstate) (x : gmap Z SHIM_LOADED_IMAGE) : pstate :=
  {| ps_load := ps_load s; ps_images := x; ps_handles := ps_handles s; ps_in_protocol := ps_in_protocol s |}.
Definition with_handles (s : pstate) (x : gmap Z Z) : pstate :=
  {| ps_load := ps_load s; ps_images := ps_images s; ps_handles := x; ps_in_protocol := ps_in_protocol s |}.
Definition with_in_protocol (s : pstate) (x : bool) : pstate :=
  {| ps_load := ps_load s; ps_images := ps_images s; ps_handles := ps_handles s; ps_in_protocol := x |}.
End device_path.
Arguments SHIM_LOADED_IMAGE : clear implicits.
Arguments boot_services : clear implicits.
Arguments buffer_properties_t : clear implicits.
Arguments pstate : clear implicits.

(** ** The services *)
Section services.
Context {S : Type} `{Firmware S} (v : verifier S) (al : allocations).
Context (AllocatePages : Z -> EFI_STATUS + (Z * list Z)) (cache_alloc cache_ctx_alloc : bool).
Context {DP : Type} (bs : boot_services DP).
(** The status of HandleProtocol for a handle without SHIM_LOADED_IMAGE_GUID:
    EFI_UNSUPPORTED, or another error for what is not a handle. *)
Context (no_protocol : Z -> EFI_STATUS).

Abbreviation state := (pstate DP).
Abbreviation image := (SHIM_LOADED_IMAGE DP).

Definition HandleProtocol (s : state) (h : Z) : EFI_STATUS + Z :=
  match ps_handles s !! h with
  | Some p => inr p
  | None => inl (no_protocol h)
  end.

(** Follow a pointer to an image. *)
Definition deref (s : state) (p : Z) : res image :=
  match ps_images s !! p with
  | Some i => Ok i
  | None => Fault
  end.

Definition no_pages : image_pages := {| ip_address := 0; ip_pages := 0; ip_alignment := 0 |}.

(** The events, and what is left in the image. *)
Definition free_pages_alloc_image (pages : image_pages) (l : lstate) : lstate * image_pages :=
  if (ip_address pages =? 0) || (ip_pages pages =? 0) then (l, pages)
  else
    let buffer := ALIGN_VALUE 64 (ip_address pages) (ip_alignment pages) in
    (emit (emit l (update_mem_attrs buffer (ip_pages pages * PAGE_SIZE) (Z.lor MEM_ATTR_R MEM_ATTR_W) MEM_ATTR_X))
       (FreePages (ip_address pages) (ip_pages pages)),
     {| ip_address := 0; ip_pages := 0; ip_alignment := ip_alignment pages |}).

(** The first half of shim_load_image: a status, or the properties, the buffer
    with its size, and parent_verified.  [ctx_alloc] is the allocation of the
    digest context. *)
Definition try_load_from_cached_section (ctx_alloc : bool) (ParentImageHandle : Z) (s : state) (source : list Z)
    (size : Z) : res EFI_STATUS :=
  validate_cached_section (v_sha256 v) ctx_alloc (l_cache (ps_load s)) ParentImageHandle source 0 size.

Definition find_source (ctx_alloc : bool) (ParentImageHandle : Z) (DevicePath : option DP)
    (SourceBuffer : option (Z * list Z)) (SourceSize : Z) (s : state)
  : res (EFI_STATUS + (buffer_properties_t DP * (Z * list Z) * Z * bool)) :=
  let given := match SourceBuffer with Some b => if SourceSize =? 0 then None else Some b | None => None end in
  cached ←
    (match given with
     | Some (_, source) => try_load_from_cached_section ctx_alloc ParentImageHandle s source SourceSize
     | None => Ok EFI_NOT_FOUND
     end);
  match given with
  | Some b =>
      if negb (EFI_ERROR cached)
      then Ok (inr ({| hnd := 0; dp := DevicePath; buffer := Some b; bsize := SourceSize |}, b, SourceSize, true))
      else if negb (bool_decide (cached = EFI_NOT_FOUND)) then Ok (inl EFI_LOAD_ERROR)
      else
        let plain := {| hnd := 0; dp := DevicePath; buffer := None; bsize := SourceSize |} in
        let bprop :=
          match DevicePath with
          | None => plain
          | Some path =>
              let '(efi_status, path, h) := LocateDevicePath bs gEfiDevicePathProtocolGuid path in
              if bool_decide (efi_status = EFI_SUCCESS)
              then {| hnd := h; dp := Some path; buffer := None; bsize := SourceSize |} else plain
          end in
        Ok (inr (bprop, b, SourceSize, false))
  | None =>
      match DevicePath with
      | None => Ok (inl EFI_NOT_FOUND)
      | Some path =>
          let use bprop := match buffer bprop with Some b => Ok (inr (bprop, b, bsize bprop, false)) | None => Fault end in
          let (status, bprop) := try_load_from_sfs bs path in
          if bool_decide (status = EFI_SUCCESS) then use bprop
          else
            let (status, bprop) := try_load_from_lf2 bs path in
            if bool_decide (status = EFI_SUCCESS) then use bprop else Ok (inl EFI_LOAD_ERROR)
      end
  end.

(** The allocations of one call of LoadImage (the record, the two copies of
    device paths) and the handle InstallMultipleProtocolInterfaces makes. *)
Record load_env : Type := {
  le_ctx_alloc : bool;
  le_image : option Z;
  le_FilePath : bool;
  le_path : bool;
  le_install : EFI_STATUS + Z
}.

(** The record is cleared. *)
Definition enter_load (s : state) : lstate :=
  with_pages (with_li (ps_load s) {| li_ImageBase := 0; li_ImageSize := 0; li_LoadOptions := [] |}) no_pages.

(** The status, [*ImageHandle] and the state; [load_options] is the global
    handle_image hands on.  The size is cut to handle_image's [unsigned int]. *)
Definition shim_load_image (env : load_env) (load_options : list Z) (BootPolicy : bool) (ParentImageHandle : Z)
    (DevicePath : option DP) (SourceBuffer : option (Z * list Z)) (SourceSize ImageHandle : Z) (s : state)
  : res (EFI_STATUS * Z * state) :=
  if BootPolicy then Ok (EFI_UNSUPPORTED, ImageHandle, s)
  else
    src ← find_source (le_ctx_alloc env) ParentImageHandle DevicePath SourceBuffer SourceSize s;
    match src with
    | inl efi_status => Ok (efi_status, ImageHandle, s)
    | inr (bprop, (base, data), size, parent_verified) =>
        match le_image env with
        | None => Ok (EFI_OUT_OF_RESOURCES, ImageHandle, s)
        | Some p =>
            if bool_decide (is_Some (dp bprop)) && negb (le_FilePath env) then Ok (EFI_OUT_OF_RESOURCES, ImageHandle, s)
            else if bool_decide (is_Some DevicePath) && negb (le_path env) then Ok (EFI_OUT_OF_RESOURCES, ImageHandle, s)
            else
              match le_install env with
              | inl efi_status => Ok (efi_status, 0, s)
              | inr handle =>
                  '(r, l) ← handle_image v al AllocatePages cache_alloc cache_ctx_alloc true parent_verified load_options
                              base data (u32 size) handle (enter_load s);
                  match r with
                  | inl efi_status =>
                      let (l, _) := free_pages_alloc_image (l_pages l) l in
                      Ok (efi_status, 0, with_in_protocol (with_load s l) false)
                  | inr ld =>
                      let i := {| li_ParentHandle := ParentImageHandle; li_DeviceHandle := hnd bprop;
                                  li_FilePath := dp bprop; li_fields := l_li l; entry_point := ld_entry_point ld;
                                  alloc := l_pages l; exit_status := EFI_SUCCESS; exit_data := 0; exit_data_size := 0;
                                  started := false; loaded_image_device_path := DevicePath |} in
                      Ok (EFI_SUCCESS, handle,
                          with_in_protocol (with_handles (with_images (with_load s l) (<[p := i]> (ps_images s)))
                            (<[handle := p]> (ps_handles s))) false)
                  end
              end
        end
    end.

(** ** Starting and leaving an image *)

(** The image has returned, or a call of Exit jumped to its longjmp_buf. *)
Inductive run_result : Type :=
| Returned (efi_status : EFI_STATUS)
| Jumped.

(** Running the code at an address, with the handle. *)
Context (run : Z -> Z -> state -> run_result * state).
Context (system_start_image : Z -> state -> EFI_STATUS * state) (system_unload_image : Z -> state -> EFI_STATUS * state)
  (system_exit : Z -> EFI_STATUS -> state -> EFI_STATUS * state) (shim_fini : state -> state).

Definition set_started (i : image) : image :=
  {| li_ParentHandle := li_ParentHandle i; li_DeviceHandle := li_DeviceHandle i; li_FilePath := li_FilePath i;
     li_fields := li_fields i; entry_point := entry_point i; alloc := alloc i; exit_status := exit_status i;
     exit_data := exit_data i; exit_data_size := exit_data_size i; started := true;
     loaded_image_device_path := loaded_image_device_path i |}.
Definition set_exit (i : image) (st : EFI_STATUS) (n d : Z) : image :=
  {| li_ParentHandle := li_ParentHandle i; li_DeviceHandle := li_DeviceHandle i; li_FilePath := li_FilePath i;
     li_fields := li_fields i; entry_point := entry_point i; alloc := alloc i; exit_status := st; exit_data := d;
     exit_data_size := n; started := started i; loaded_image_device_path := loaded_image_device_path i |}.

Definition flush (s : state) (h : Z) : state :=
  with_load s (with_cache (ps_load s) (flush_cached_sections (l_cache (ps_load s)) h)).

(** free_pages_alloc_image and FreePool of the record. *)
Definition release (p : Z) (s : state) : res state :=
  i ← deref s p;
  let (l, _) := free_pages_alloc_image (alloc i) (ps_load s) in
  Ok (with_images (with_load s l) (delete p (ps_images s))).

(** The status, the exit data when there is a pointer for it, and the state. *)
Definition shim_start_image (ImageHandle : Z) (want_data : bool) (s : state)
  : res (EFI_STATUS * option (Z * Z) * state) :=
  match HandleProtocol s ImageHandle with
  | inl efi_status =>
      if bool_decide (efi_status = EFI_UNSUPPORTED)
      then let (st, s) := system_start_image ImageHandle s in Ok (st, None, s)
      else Ok (EFI_INVALID_PARAMETER, None, s)
  | inr p =>
      i ← deref s p;
      if started i then Ok (EFI_INVALID_PARAMETER, None, s)
      else
        let s := with_images s (<[p := set_started i]> (ps_images s)) in
        let (r, s) := run (entry_point i) ImageHandle s in
        '(efi_status, data) ←
          (match r with
           | Returned st => Ok (st, None)
           | Jumped =>
               i ← deref s p;
               Ok (exit_status i, if want_data then Some (exit_data_size i, exit_data i) else None)
           end);
        let s := flush s ImageHandle in
        _ ← deref s p;
        let s := with_handles s (delete ImageHandle (ps_handles s)) in
        s ← release p s;
        Ok (efi_status, data, s)
  end.

Definition shim_unload_image (ImageHandle : Z) (s : state) : res (EFI_STATUS * state) :=
  match HandleProtocol s ImageHandle with
  | inl efi_status =>
      if bool_decide (efi_status = EFI_UNSUPPORTED) then Ok (system_unload_image ImageHandle s)
      else Ok (efi_status, s)
  | inr p =>
      s ← release p (flush s ImageHandle);
      Ok (EFI_SUCCESS, s)
  end.

(** A status that is returned, or a jump to the longjmp_buf of the image at [p]. *)
Definition shim_exit (ImageHandle : Z) (ExitStatus : EFI_STATUS) (ExitDataSize ExitData : Z) (s : state)
  : res ((EFI_STATUS + Z) * state) :=
  match HandleProtocol s ImageHandle with
  | inl efi_status =>
      if bool_decide (efi_status = EFI_UNSUPPORTED)
      then let (st, s) := system_exit ImageHandle ExitStatus (shim_fini s) in Ok (inl st, s)
      else Ok (inl efi_status, s)
  | inr p =>
      i ← deref s p;
      Ok (inr p, with_images s (<[p := set_exit i ExitStatus ExitDataSize ExitData]> (ps_images s)))
  end.
End services.

(** ** The hooks

    An entry of the table of boot services: NULL, the firmware's or shim's. *)
Inductive service : Type :=
| NULL
| Firmware_service
| Shim_service.

Record BootServices : Type := {
  LoadImage : service;
  StartImage : service;
  UnloadImage : service;
  Exit : service
}.

(** The table; whether systab is set; the system_... variables. *)
Record hooks : Type := {
  hk_table : BootServices;
  systab : bool;
  system_load : service;
  system_start : service;
  system_unload : service;
  system_exit_ : service
}.

Definition unhook_system_services (h : hooks) : hooks :=
  if negb (systab h) then h
  else
    {| hk_table := {| LoadImage := system_load h; StartImage := system_start h; UnloadImage := system_unload h;
                      Exit := system_exit_ h |};
       systab := systab h; system_load := system_load h; system_start := system_start h;
       system_unload := system_unload h; system_exit_ := system_exit_ h |}.

Definition hook_system_services (h : hooks) : hooks :=
  {| hk_table := {| LoadImage := Shim_service; StartImage := Shim_service; UnloadImage := Shim_service;
                    Exit := Exit (hk_table h) |};
     systab := true; system_load := LoadImage (hk_table h); system_start := StartImage (hk_table h);
     system_unload := UnloadImage (hk_table h); system_exit_ := system_exit_ h |}.

(** unhook_exit follows systab. *)
Definition unhook_exit (h : hooks) : res hooks :=
  if negb (systab h) then Fault
  else
    Ok {| hk_table := {| LoadImage := LoadImage (hk_table h); StartImage := StartImage (hk_table h);
                         UnloadImage := UnloadImage (hk_table h); Exit := system_exit_ h |};
          systab := systab h; system_load := system_load h; system_start := system_start h;
          system_unload := system_unload h; system_exit_ := system_exit_ h |}.

Definition hook_exit (h : hooks) : hooks :=
  {| hk_table := {| LoadImage := LoadImage (hk_table h); StartImage := StartImage (hk_table h);
                    UnloadImage := UnloadImage (hk_table h); Exit := Shim_service |};
     systab := true; system_load := system_load h; system_start := system_start h; system_unload := system_unload h;
     system_exit_ := Exit (hk_table h) |}.

(** The hooks of shim_init and shim_fini of shim.c, for what secure_mode returns
    and whether shim has certificates of its own. *)
Definition init_hooks (secure certs : bool) (h : hooks) : hooks :=
  hook_exit (if secure && certs then hook_system_services h else h).
Definition fini_hooks (secure certs : bool) (h : hooks) : res hooks :=
  unhook_exit (if secure && certs then unhook_system_services h else h).

(** A table of the firmware, before shim. *)
Definition fresh (t : BootServices) : hooks :=
  {| hk_table := t; systab := false; system_load := NULL; system_start := NULL; system_unload := NULL;
     system_exit_ := NULL |}.

(** While shim runs in secure mode with certificates of its own, all four
    services are shim's; otherwise only Exit is.  What shim_init hooks,
    shim_fini takes back, so that the firmware's table is what it was. *)
Theorem hooks_roundtrip secure certs t :
  let h := init_hooks secure certs (fresh t) in
  Exit (hk_table h) = Shim_service /\
  (if secure && certs then LoadImage (hk_table h) = Shim_service /\ StartImage (hk_table h) = Shim_service /\
                           UnloadImage (hk_table h) = Shim_service
   else LoadImage (hk_table h) = LoadImage t /\ StartImage (hk_table h) = StartImage t /\
        UnloadImage (hk_table h) = UnloadImage t) /\
  exists h', fini_hooks secure certs h = Ok h' /\ hk_table h' = t.
Proof. destruct secure, certs, t; cbn; eauto 10. Qed.

(** If secure_mode held only when shim leaves, LoadImage would be left NULL. *)
Theorem hooks_mode_changed t :
  exists h', fini_hooks true true (init_hooks false true (fresh t)) = Ok h' /\ LoadImage (hk_table h') = NULL.
Proof. by eexists. Qed.

(** ** What LoadImage accepts *)
Section load_theorems.
Context {S : Type} `{FirmwareLaws S} (v : verifier S) (al : allocations) (D : databases).
Context (Hv : verifier_ok v al D) (Hal : sbat_allocs al).
Context (vss : list (list (list Z))) (Hvss : sbat_var_holds (v_sbat_var v) vss).
Context (AllocatePages : Z -> EFI_STATUS + (Z * list Z)) (ca xa : bool).
Context {DP : Type} (bs : boot_services DP).

Abbreviation state := (pstate DP).
Abbreviation load := (shim_load_image v al AllocatePages ca xa bs).

(** A section of the parent that was verified. *)
Definition from_cache (parent : Z) (s : state) (SourceBuffer : option (Z * list Z)) (SourceSize : Z) : Prop :=
  exists base data, SourceBuffer = Some (base, data) /\
    Exists (vouches (v_sha256 v) parent data 0 SourceSize) (l_cache (ps_load s)).

Lemma find_source_cached xc parent path SourceBuffer SourceSize (s : state) bprop b size :
  find_source v bs xc parent path SourceBuffer SourceSize s = Ok (inr (bprop, b, size, true)) ->
  SourceBuffer = Some b /\ size = SourceSize /\ from_cache parent s SourceBuffer SourceSize.
Proof.
  unfold find_source. intros Hf. apply bind_inv in Hf as (cached & Hc & Hf).
  destruct SourceBuffer as [[base data]|]; [destruct (SourceSize =? 0)|].
  2:{ destruct (EFI_ERROR cached) eqn:Ee; cbn [negb] in Hf; [destruct (negb _); by injection Hf|].
      injection Hf as _ <- <-. split; [done|]. split; [done|]. exists base, data. split; [done|].
      by eapply validate_cached_sound. }
  all: destruct path as [path|]; [|done]; destruct (try_load_from_sfs bs path) as [st1 b1];
    destruct (bool_decide (st1 = EFI_SUCCESS)); [destruct (buffer b1); discriminate Hf|];
    destruct (try_load_from_lf2 bs path) as [st2 b2]; destruct (bool_decide (st2 = EFI_SUCCESS)); [destruct (buffer b2)|]; discriminate Hf.
Qed.
(** The buffer is memory the caller may read. *)
Definition buffer_ok (base : Z) (data : list Z) (size : Z) : Prop :=
  bytes data /\ 0 <= size <= zlen data /\ 0 <= base /\ base + 2 ^ 33 < 2 ^ 64.

Lemma u32_bound size : 0 <= size -> 0 <= u32 size < 2 ^ 32 /\ u32 size <= size.
Proof. intros Hs. unfold u32. pose proof (Z.mod_pos_bound size (2 ^ 32)). pose proof (Z.mod_le size (2 ^ 32)). lia. Qed.

(** Nothing is registered. *)
Definition unregistered (s s' : state) : Prop :=
  ps_images s' = ps_images s /\ ps_handles s' = ps_handles s /\ l_cache (ps_load s') = l_cache (ps_load s) /\
  l_events (ps_load s') = l_events (ps_load s).

Lemma load_unauthorised env opts parent path SourceBuffer SourceSize ih (s : state) bprop base data size verified :
  find_source v bs (le_ctx_alloc env) parent path SourceBuffer SourceSize s = Ok (inr (bprop, (base, data), size, verified)) ->
  buffer_ok base data size -> (forall e, le_install env = inl e -> EFI_ERROR e = true) ->
  (exists ctx, authorised v al D true verified base data (u32 size) vss ctx) \/
  exists e ih' s', load env opts false parent path SourceBuffer SourceSize ih s = Ok (e, ih', s') /\
    EFI_ERROR e = true /\ unregistered s s'.
Proof.
  intros Hf (Hb & Hsz & Hb0 & Hb1) Hin. destruct (u32_bound size) as [Hu1 Hu2]; [lia|].
  unfold shim_load_image. rewrite Hf, bind_Ok.
  destruct (le_image env) as [p|]; [|right; by eexists _, _, _].
  destruct (_ && _); [right; by eexists _, _, _|]. destruct (_ && _); [right; by eexists _, _, _|].
  destruct (le_install env) as [e|handle] eqn:Ei; [right; eexists _, _, _; by split; [|split; [apply Hin|]]|].
  set (l := enter_load s).
  destruct (handle_image_unauthorised v al D AllocatePages ca xa true verified opts base data (u32 size) handle vss l)
    as [Ha|(e & vst & -> & He)]; try done; [lia|by left|]. right. rewrite bind_Ok. by eexists _, _, _.
Qed.
(** C32. LoadImage under secure boot: for the bytes the image is loaded from
    (the caller's buffer or the file of the device path), either they are an
    image with an accepted header that is authentic, not denied and permitted
    by SBAT, or, when the signature is not looked at, a section of the caller
    that was verified and whose digest is the cached one; or the call returns
    an error, no handle or image is registered, and nothing is cached or made
    executable. *)
Theorem shim_load_image_verified env opts parent path SourceBuffer SourceSize ih (s : state) bprop base data size verified :
  find_source v bs (le_ctx_alloc env) parent path SourceBuffer SourceSize s = Ok (inr (bprop, (base, data), size, verified)) ->
  buffer_ok base data size -> (forall e, le_install env = inl e -> EFI_ERROR e = true) ->
  ((exists ctx, authorised v al D true verified base data (u32 size) vss ctx) /\
   (verified = true -> from_cache parent s SourceBuffer SourceSize)) \/
  exists e ih' s', load env opts false parent path SourceBuffer SourceSize ih s = Ok (e, ih', s') /\
    EFI_ERROR e = true /\ unregistered s s'.
Proof.
  intros Hf Hb Hin. destruct (load_unauthorised env opts parent path SourceBuffer SourceSize ih s bprop base data size verified Hf Hb Hin)
    as [Ha|Hr]; [left|by right]. split; [done|]. intros ->. by apply find_source_cached in Hf as (_ & _ & ?).
Qed.

(** The image that is registered for [ld]. *)
Record registered (parent : Z) (path : option DP) (opts : list Z) (s s' : state) (p handle : Z) (ld : loaded) (ctx : PE_CONTEXT) : Prop := {
  rg_handle : ps_handles s' = <[handle := p]> (ps_handles s);
  rg_image : exists i, ps_images s' = <[p := i]> (ps_images s) /\ started i = false /\ li_ParentHandle i = parent /\
    loaded_image_device_path i = path /\ entry_point i = ld_entry_point ld /\
    alloc i = {| ip_address := ld_alloc_address ld; ip_pages := ld_alloc_pages ld; ip_alignment := ld_alloc_alignment ld |} /\
    li_fields i = {| li_ImageBase := ld_buffer ld; li_ImageSize := ImageSize ctx; li_LoadOptions := opts |};
  rg_protocol : ps_in_protocol s' = false
}.

(** LoadImage as a whole: it returns; a failure leaves the handles and images
    as they were and clears in_protocol; a success registers one image, not
    started, under the handle, with the pages, entry point and size of the image
    handle_image has put into memory. *)
Theorem shim_load_image_correct env opts parent path SourceBuffer SourceSize ih (s : state) bprop base data size verified :
  find_source v bs (le_ctx_alloc env) parent path SourceBuffer SourceSize s = Ok (inr (bprop, (base, data), size, verified)) ->
  buffer_ok base data size -> (forall e, le_install env = inl e -> EFI_ERROR e = true) ->
  pages_allocated AllocatePages ->
  verified = false \/ secure_mode (v_firmware v) (v_user_insecure_mode v) = true ->
  (forall ctx, authorised v al D true verified base data (u32 size) vss ctx -> exists secs, placeable data ctx secs) ->
  exists e ih' s', load env opts false parent path SourceBuffer SourceSize ih s = Ok (e, ih', s') /\
    ((EFI_ERROR e = true /\ ps_images s' = ps_images s /\ ps_handles s' = ps_handles s) \/
     e = EFI_SUCCESS /\ exists p ld ctx secs, le_image env = Some p /\ le_install env = inr ih' /\
       authorised v al D true verified base data (u32 size) vss ctx /\ section_table data ctx = Ok secs /\
       image_ready v data AllocatePages ctx secs opts (enter_load s) (ps_load s') ld /\
       registered parent path opts s s' p ih' ld ctx).
Proof.
  intros Hf (Hb & Hsz & Hb0 & Hb1) Hin Hpg Hsec Hpl. destruct (u32_bound size) as [Hu1 Hu2]; [lia|].
  unfold shim_load_image. rewrite Hf, bind_Ok.
  destruct (le_image env) as [p|] eqn:Ep; [|eexists _, _, _; split; [done|by left]].
  destruct (_ && _); [eexists _, _, _; split; [done|by left]|]. destruct (_ && _); [eexists _, _, _; split; [done|by left]|].
  destruct (le_install env) as [e|handle] eqn:Ei; [eexists _, _, _; split; [done|left; by split; [apply Hin|]]|].
  set (l := enter_load s).
  destruct (handle_image_ok v al D Hv Hal vss Hvss base data (u32 size) Hb Hu1 ltac:(lia) Hb0 Hb1 AllocatePages ca xa true verified opts
    handle l Hpg Hsec Hpl) as (r & l' & -> & Hr). rewrite bind_Ok. destruct r as [e|ld].
  - destruct (free_pages_alloc_image (l_pages l') l') as [l2 pg]. eexists _, _, _. split; [done|]. left. by destruct Hr.
  - destruct Hr as (ctx & secs & Ha & Hs & Hready). eexists _, _, _. split; [done|]. right. split; [done|].
    exists p, ld, ctx, secs. do 5 (split; [done|]). split; [done| |done]. eexists. split; [done|]. cbn.
    do 4 (split; [done|]). split; [apply (ir_out _ _ _ _ _ _ _ _ _ Hready)|apply (ir_li _ _ _ _ _ _ _ _ _ Hready)].
Qed.

(** A load that fails after the pages were allocated gives them back twice:
    handle_image has freed them and has left their address behind. *)
Theorem failed_load_frees_twice env opts parent path SourceBuffer SourceSize ih (s : state) bprop base data size verified p handle e l a n evs :
  find_source v bs (le_ctx_alloc env) parent path SourceBuffer SourceSize s = Ok (inr (bprop, (base, data), size, verified)) ->
  le_image env = Some p -> le_FilePath env = true -> le_path env = true -> le_install env = inr handle ->
  handle_image v al AllocatePages ca xa true verified opts base data (u32 size) handle (enter_load s) = Ok (inl e, l) ->
  l_events l = evs ++ [FreePages a n] -> ip_address (l_pages l) = a -> ip_pages (l_pages l) = n -> a <> 0 -> n <> 0 ->
  exists s' u, load env opts false parent path SourceBuffer SourceSize ih s = Ok (e, 0, s') /\
    l_events (ps_load s') = evs ++ [FreePages a n; u; FreePages a n].
Proof.
  intros Hf Hp H1' H2' Hi Hh Hev Ha Hn Hna Hnn. unfold shim_load_image. rewrite Hf, bind_Ok, Hp, H1', H2', Hi, !andb_false_r.
  rewrite Hh, bind_Ok. unfold free_pages_alloc_image. rewrite Ha, Hn.
  destruct (a =? 0) eqn:E1; [apply Z.eqb_eq in E1; lia|]. destruct (n =? 0) eqn:E2; [apply Z.eqb_eq in E2; lia|]. cbn [orb].
  eexists _, _. split; [done|]. cbn [ps_load with_in_protocol with_load l_events emit]. rewrite Hev, <- !app_assoc. done.
Qed.
End load_theorems.

(** ** Starting images *)
Section start_theorems.
Context {S : Type} `{Firmware S} (v : verifier S) (al : allocations).
Context (AllocatePages : Z -> EFI_STATUS + (Z * list Z)) (ca xa : bool).
Context {DP : Type} (bs : boot_services DP) (no_protocol : Z -> EFI_STATUS).

Abbreviation state := (pstate DP).
Abbreviation image := (SHIM_LOADED_IMAGE DP).
Abbreviation load := (shim_load_image v al AllocatePages ca xa bs).

(** Every handle leads to an image, and no two to the same. *)
Record loader_wf (s : state) : Prop := {
  wf_live : forall h p, ps_handles s !! h = Some p -> is_Some (ps_images s !! p);
  wf_distinct : forall h h' p, ps_handles s !! h = Some p -> ps_handles s !! h' = Some p -> h = h'
}.

(** The image [h] runs: it has been started and its pages are [pages]. *)
Definition runs (s : state) (h p : Z) (pages : image_pages) : Prop :=
  ps_handles s !! h = Some p /\ exists i, ps_images s !! p = Some i /\ started i = true /\ alloc i = pages.

(** What a running image can do with the services, UnloadImage apart (see
    [unload_leaves_handle]): load an image (into memory that is free and under a
    new handle), start one, which does such things itself before it returns or
    leaves through Exit, write the exit data of an image, and start one that never
    comes back because it leaves through the Exit of an image that started it. *)
Inductive calls : state -> state -> Prop :=
| calls_done s : calls s s
| calls_load s s1 s2 env opts policy parent path buf size ih e ih' p h :
    le_image env = Some p -> ps_images s !! p = None -> le_install env = inr h -> ps_handles s !! h = None ->
    load env opts policy parent path buf size ih s = Ok (e, ih', s1) -> calls s1 s2 -> calls s s2
| calls_start s s1 s2 s3 h p i :
    ps_handles s !! h = Some p -> ps_images s !! p = Some i -> started i = false ->
    calls (with_images s (<[p := set_started i]> (ps_images s))) s1 ->
    release p (with_handles (flush s1 h) (delete h (ps_handles s1))) = Ok s2 -> calls s2 s3 -> calls s s3
| calls_exit s s1 h p i st n d :
    ps_handles s !! h = Some p -> ps_images s !! p = Some i ->
    calls (with_images s (<[p := set_exit i st n d]> (ps_images s))) s1 -> calls s s1
| calls_abandon s s1 h p i :
    ps_handles s !! h = Some p -> ps_images s !! p = Some i -> started i = false ->
    calls (with_images s (<[p := set_started i]> (ps_images s))) s1 -> calls s s1.

(** What LoadImage does to the tables. *)
Lemma load_tables env opts policy parent path buf size ih (s s1 : state) e ih' :
  load env opts policy parent path buf size ih s = Ok (e, ih', s1) ->
  (ps_images s1 = ps_images s /\ ps_handles s1 = ps_handles s) \/
  exists p h i, le_image env = Some p /\ le_install env = inr h /\
    ps_images s1 = <[p := i]> (ps_images s) /\ ps_handles s1 = <[h := p]> (ps_handles s) /\ started i = false.
Proof.
  unfold shim_load_image. destruct policy; [intros [= _ _ <-]; by left|]. intros Hl.
  apply bind_inv in Hl as ([e0|[[[bprop [base data]] sz] verified]] & _ & Hl); [injection Hl as _ _ <-; by left|].
  destruct (le_image env) as [p|]; [|injection Hl as _ _ <-; by left].
  destruct (_ && _); [injection Hl as _ _ <-; by left|]. destruct (_ && _); [injection Hl as _ _ <-; by left|].
  destruct (le_install env) as [e0|h]; [injection Hl as _ _ <-; by left|].
  apply bind_inv in Hl as ([[e0|ld] l] & _ & Hl).
  - destruct (free_pages_alloc_image (l_pages l) l) as [l2 pg]. injection Hl as _ _ <-. by left.
  - injection Hl as _ _ <-. right. by eexists p, h, _.
Qed.

Lemma runs_update s h p pages q i :
  runs s h p pages -> ps_images s !! q = Some i ->
  forall j, (q = p -> started j = started i /\ alloc j = alloc i) ->
  runs (with_images s (<[q := j]> (ps_images s))) h p pages.
Proof.
  intros (Hh & k & Hk & Hs & Ha) Hq j Hj. split; [done|]. cbn. destruct (decide (q = p)) as [->|Hne].
  - rewrite Hq in Hk. injection Hk as ->. destruct (Hj eq_refl) as [E1 E2]. exists j. rewrite lookup_insert_eq. by rewrite E1, E2.
  - exists k. by rewrite lookup_insert_ne.
Qed.

Lemma wf_update s q i j :
  loader_wf s -> ps_images s !! q = Some i -> loader_wf (with_images s (<[q := j]> (ps_images s))).
Proof.
  intros [H1' H2'] Hq. split; [|done]. cbn. intros h p Hp. destruct (decide (q = p)) as [->|Hne].
  - rewrite lookup_insert_eq. eauto.
  - rewrite lookup_insert_ne by done. eauto.
Qed.

Lemma release_ok p (s s' : state) :
  release p s = Ok s' -> ps_images s' = delete p (ps_images s) /\ ps_handles s' = ps_handles s.
Proof.
  unfold release, deref. destruct (ps_images s !! p) as [i|] eqn:E; [|done]. rewrite bind_Ok.
  destruct (free_pages_alloc_image (alloc i) (ps_load s)) as [l pg]. by intros [= <-].
Qed.

(** No pointer is left dangling, and an image that runs stays as it is, whatever
    is called while it runs. *)
Lemma calls_ok s s' :
  calls s s' -> loader_wf s -> loader_wf s' /\ forall h p pages, runs s h p pages -> runs s' h p pages.
Proof.
  induction 1 as [s|s s1 s2 env opts policy parent path buf size ih e ih' p h Hp Hfp Hh Hfh Hl Hc IH
    |s s1 s2 s3 h p i Hh Hp Hst Hc1 IH1 Hrel Hc2 IH2|s s1 h p i st n d Hh Hp Hc IH
    |s s1 h p i Hh Hp Hst Hc IH]; intros Hwf.
  - done.
  - apply load_tables in Hl as [[Hi Hha]|(p' & h' & i & Hp' & Hh' & Hi & Hha & Hst)].
    + destruct IH as [IH1 IH2]; [destruct Hwf; split; rewrite Hha; rewrite ?Hi; eauto|]. split; [done|].
      intros h0 p0 pg [Ha Hb]. apply IH2. split; [by rewrite Hha|by rewrite Hi].
    + rewrite Hp in Hp'. injection Hp' as <-. rewrite Hh in Hh'. injection Hh' as <-.
      destruct Hwf as [W1 W2].
      assert (Hnp : forall h0 p0, ps_handles s !! h0 = Some p0 -> p0 <> p).
      { intros h0 p0 Hx ->. apply W1 in Hx as [? Hx]. congruence. }
      destruct IH as [IH1 IH2].
      { split; rewrite Hha.
        - intros h0 p0 Hx. rewrite Hi. destruct (decide (p0 = p)) as [->|Hne]; [rewrite lookup_insert_eq; eauto|].
          rewrite lookup_insert_ne by auto. destruct (decide (h0 = h)) as [->|Hne'].
          + rewrite lookup_insert_eq in Hx. congruence.
          + rewrite lookup_insert_ne in Hx by auto. eauto.
        - intros h0 h1 p0. destruct (decide (h0 = h)) as [->|N0], (decide (h1 = h)) as [->|N1];
            rewrite ?lookup_insert_eq, ?lookup_insert_ne by auto; try done.
          + intros [= <-] Hx. by apply Hnp in Hx.
          + intros Hx [= <-]. by apply Hnp in Hx.
          + eauto. }
      split; [done|]. intros h0 p0 pg (Ha & j & Hj & Hb). apply IH2. split.
      * rewrite Hha, lookup_insert_ne; [done|]. intros ->. congruence.
      * exists j. rewrite Hi, lookup_insert_ne; [done|]. intros ->. by apply Hnp in Ha.
  - destruct IH1 as [W1 R1]; [by eapply wf_update|].
    assert (Hrun : runs (with_images s (<[p := set_started i]> (ps_images s))) h p (alloc i)).
    { split; [done|]. exists (set_started i). cbn. by rewrite lookup_insert_eq. }
    apply R1 in Hrun as (Hh1 & _). apply release_ok in Hrel as [Hi2 Hh2]. cbn in Hi2, Hh2. destruct W1 as [W1 W1'].
    destruct IH2 as [W2 R2].
    { split; rewrite Hh2.
      - intros h0 p0 Hx. rewrite Hi2. destruct (decide (h0 = h)) as [->|Hne]; [by rewrite lookup_delete_eq in Hx|].
        rewrite lookup_delete_ne in Hx by auto. rewrite lookup_delete_ne; [eauto|]. intros ->. eauto.
      - intros h0 h1 p0 Hx Hy. apply lookup_delete_Some in Hx as [_ Hx]. apply lookup_delete_Some in Hy as [_ Hy]. eauto. }
    split; [done|]. intros h0 p0 pg Hr. apply R2.
    assert (Hne : h0 <> h). { intros ->. destruct Hr as (Ha & j & Hj & Hb & _). congruence. }
    assert (Hr1 : runs s1 h0 p0 pg).
    { apply R1. destruct Hr as (Ha & Hr). eapply runs_update; [by split|done|]. intros ->. exfalso. apply Hne.
      by eapply (wf_distinct s). }
    destruct Hr1 as (Ha & j & Hj & Hb). split; [by rewrite Hh2, lookup_delete_ne by auto|]. exists j.
    rewrite Hi2, lookup_delete_ne; [done|]. intros ->. apply Hne. by eapply W1'.
  - destruct IH as [W R]; [by eapply wf_update|]. split; [done|]. intros h0 p0 pg Hr. apply R. by eapply runs_update.
  - destruct IH as [W R]; [by eapply wf_update|]. split; [done|]. intros h0 p0 pg Hr. apply R. eapply runs_update; [done|done|].
    intros ->. destruct Hr as (_ & j & Hj & Hb & _). congruence.
Qed.
Context (run : Z -> Z -> state -> run_result * state).
Context (system_start_image system_unload_image : Z -> state -> EFI_STATUS * state).
Abbreviation start := (shim_start_image no_protocol run system_start_image).
Abbreviation unload := (shim_unload_image no_protocol system_unload_image).

(** C33. Starting an image that was loaded, whatever images it loads, starts and
    leaves through Exit before it returns or is left through Exit, itself or by
    an image that it started ([calls]; it is assumed not to call UnloadImage, which
    leaves a handle to freed memory): StartImage returns, with the
    image's own status or the status and data of its Exit; afterwards its handle
    and record are gone and its pages have been made writable and given back,
    once; every other handle still leads to a live image and every image that
    was running still is.  While it runs, starting it again is refused. *)
Theorem shim_start_image_correct h p i want_data (s s1 : state) r :
  loader_wf s -> ps_handles s !! h = Some p -> ps_images s !! p = Some i -> started i = false ->
  ip_address (alloc i) <> 0 -> ip_pages (alloc i) <> 0 ->
  let s0 := with_images s (<[p := set_started i]> (ps_images s)) in
  run (entry_point i) h s0 = (r, s1) -> calls s0 s1 ->
  (exists i1 st data u s2, ps_images s1 !! p = Some i1 /\ start h want_data s = Ok (st, data, s2) /\
     match r with
     | Returned e => st = e /\ data = None
     | Jumped => st = exit_status i1 /\ data = if want_data : bool then Some (exit_data_size i1, exit_data i1) else None
     end /\
     ps_handles s2 = delete h (ps_handles s1) /\ ps_images s2 = delete p (ps_images s1) /\
     l_events (ps_load s2) = l_events (ps_load s1) ++ [u; FreePages (ip_address (alloc i)) (ip_pages (alloc i))] /\
     l_cache (ps_load s2) = flush_cached_sections (l_cache (ps_load s1)) h /\
     loader_wf s2 /\ forall h' p' pages, runs s h' p' pages -> runs s2 h' p' pages) /\
  start h want_data s1 = Ok (EFI_INVALID_PARAMETER, None, s1).
Proof.
  intros Hwf Hh Hp Hst Ha Hn s0 Hrun Hc.
  assert (Hr0 : runs s0 h p (alloc i)) by (split; [done|]; exists (set_started i); cbn; by rewrite lookup_insert_eq).
  destruct (calls_ok s0 s1 Hc) as [W1 R1]; [by eapply wf_update|].
  destruct (R1 _ _ _ Hr0) as (Hh1 & i1 & Hp1 & Hst1 & Ha1).
  split; [|unfold shim_start_image, HandleProtocol, deref; by rewrite Hh1, Hp1, bind_Ok, Hst1].
  set (u := update_mem_attrs (ALIGN_VALUE 64 (ip_address (alloc i)) (ip_alignment (alloc i))) (ip_pages (alloc i) * PAGE_SIZE)
    (Z.lor MEM_ATTR_R MEM_ATTR_W) MEM_ATTR_X).
  assert (Hrel : exists s2, release p (with_handles (flush s1 h) (delete h (ps_handles s1))) = Ok s2 /\
    l_events (ps_load s2) = l_events (ps_load s1) ++ [u; FreePages (ip_address (alloc i)) (ip_pages (alloc i))] /\
    l_cache (ps_load s2) = flush_cached_sections (l_cache (ps_load s1)) h).
  { unfold release, deref. cbn [ps_images with_handles flush with_load]. rewrite Hp1, bind_Ok, Ha1. unfold free_pages_alloc_image.
    destruct (ip_address (alloc i) =? 0) eqn:E1; [apply Z.eqb_eq in E1; done|].
    destruct (ip_pages (alloc i) =? 0) eqn:E2; [apply Z.eqb_eq in E2; done|]. cbn [orb]. eexists. split; [done|].
    split; [cbn; by rewrite <- app_assoc|done]. }
  destruct Hrel as (s2 & Hrel & Hev & Hca).
  assert (Hcalls : calls s s2) by (eapply calls_start; eauto using calls_done).
  destruct (calls_ok s s2 Hcalls Hwf) as [W2 R2]. pose proof (release_ok _ _ _ Hrel) as [Hi2 Hh2].
  exists i1, (match r with Returned e => e | Jumped => exit_status i1 end),
    (match r with Returned _ => None | Jumped => if want_data then Some (exit_data_size i1, exit_data i1) else None end), u, s2.
  split; [done|]. split.
  { unfold shim_start_image, HandleProtocol, deref. rewrite Hh, Hp, bind_Ok, Hst. fold s0. rewrite Hrun.
    destruct r; rewrite ?Hp1, !bind_Ok; change (ps_images (flush s1 h)) with (ps_images s1); rewrite Hp1, bind_Ok;
      change (ps_handles (flush s1 h)) with (ps_handles s1); by rewrite Hrel. }
  split; [by destruct r|]. done.
Qed.

(** After UnloadImage the handle leads to a record that has been freed: to
    unload it again, or to start it, uses that memory. *)
Theorem unload_leaves_handle h p i want_data (s : state) :
  ps_handles s !! h = Some p -> ps_images s !! p = Some i ->
  exists s', unload h s = Ok (EFI_SUCCESS, s') /\ ps_handles s' !! h = Some p /\
    unload h s' = Fault /\ start h want_data s' = Fault.
Proof.
  intros Hh Hp. unfold shim_unload_image, HandleProtocol. rewrite Hh. unfold release at 1, deref.
  cbn [ps_images flush with_load]. rewrite Hp, bind_Ok.
  destruct (free_pages_alloc_image (alloc i) _) as [l pg]. rewrite bind_Ok. eexists. split; [done|]. cbn. split; [done|].
  rewrite Hh. unfold release, shim_start_image, HandleProtocol, deref. cbn. by rewrite Hh, lookup_delete_eq.
Qed.
End start_theorems.

(** ** An example: the signed image of PeLoad.v, loaded from a buffer *)
Definition sample_bs : boot_services Z :=
  {| DevicePathType := fun _ => 0; DevicePathSubType := fun _ => 0;
     LocateDevicePath := fun _ path => (EFI_NOT_FOUND, path, 0);
     OpenVolume := fun _ => inl EFI_UNSUPPORTED; LoadFile := fun _ => inl EFI_UNSUPPORTED; AllocatePool := fun _ => None |}.
Definition sample_env : load_env :=
  {| le_ctx_alloc := true; le_image := Some 1; le_FilePath := true; le_path := true; le_install := inr 7 |}.
Definition sample_state : pstate Z :=
  {| ps_load := sample_lstate; ps_images := ∅; ps_handles := ∅; ps_in_protocol := false |}.
Definition sample_source : buffer_properties_t Z := {| hnd := 0; dp := Some 5; buffer := None; bsize := 592 |}.

Lemma sample_found :
  find_source sample_verifier sample_bs true 3 (Some 5) (Some (0x100000, signed_pe)) 592 sample_state
  = Ok (inr (sample_source, (0x100000, signed_pe), 592, false)).
Proof. vm_compute. reflexivity. Qed.

Lemma sample_buffer_ok : buffer_ok 0x100000 signed_pe 592.
Proof. split; [apply signed_pe_bytes|]. rewrite signed_pe_length. lia. Qed.

Lemma sample_placeable ctx :
  authorised sample_verifier sample_allocs sample_D true false 0x100000 signed_pe (u32 592) [] ctx ->
  exists secs, placeable signed_pe ctx secs.
Proof.
  intros [Hh _ _ _]. exists [sample_text].
  assert (E : read_header false true 0 0x100000 signed_pe (u32 592) true = Ok (inr sample_ctx)) by (vm_compute; reflexivity).
  change (v_allow_32bit_kernel sample_verifier) with false in Hh. change (v_mok_policy sample_verifier) with 0 in Hh.
  rewrite E in Hh. injection Hh as <-. apply signed_placeable.
Qed.

Lemma shim_load_image_verified_witness :
  ((exists ctx, authorised sample_verifier sample_allocs sample_D true false 0x100000 signed_pe (u32 592) [] ctx) /\
   (false = true -> from_cache sample_verifier 3 sample_state (Some (0x100000, signed_pe)) 592)) \/
  exists e ih' s', shim_load_image sample_verifier sample_allocs sample_alloc true true sample_bs sample_env [] false 3 (Some 5)
      (Some (0x100000, signed_pe)) 592 0 sample_state = Ok (e, ih', s') /\ EFI_ERROR e = true /\ unregistered sample_state s'.
Proof.
  apply (shim_load_image_verified sample_verifier sample_allocs sample_D sample_verifier_ok ltac:(done) [] ltac:(split; constructor)
    sample_alloc true true sample_bs sample_env [] 3 (Some 5) (Some (0x100000, signed_pe)) 592 0 sample_state sample_source);
    [apply sample_found|apply sample_buffer_ok|done].
Defined.

Lemma shim_load_image_correct_witness :
  exists e ih' s', shim_load_image sample_verifier sample_allocs sample_alloc true true sample_bs sample_env [] false 3 (Some 5)
      (Some (0x100000, signed_pe)) 592 0 sample_state = Ok (e, ih', s') /\ (EFI_ERROR e = true \/ e = EFI_SUCCESS).
Proof.
  destruct (shim_load_image_correct sample_verifier sample_allocs sample_D sample_verifier_ok ltac:(done) [] ltac:(split; constructor)
    sample_alloc true true sample_bs sample_env [] 3 (Some 5) (Some (0x100000, signed_pe)) 592 0 sample_state sample_source
    0x100000 signed_pe 592 false) as (e & ih' & s' & Heq & Hcase);
    [apply sample_found|apply sample_buffer_ok|done|apply sample_pages_allocated|by left|apply sample_placeable|].
  exists e, ih', s'. split; [exact Heq|]. destruct Hcase as [[? _]|[? _]]; auto.
Defined.

Lemma sample_loads :
  match shim_load_image sample_verifier sample_allocs sample_alloc true true sample_bs sample_env [] false 3 (Some 5)
    (Some (0x100000, signed_pe)) 592 0 sample_state with
  | Ok (EFI_SUCCESS, 7, s') => ps_handles s' !! 7 = Some 1
  | _ => False
  end.
Proof. vm_compute. reflexivity. Qed.

(** The digest of the section cannot be cached, so the load fails. *)
Lemma failed_load_frees_twice_witness :
  exists s' u, shim_load_image sample_verifier sample_allocs sample_alloc false true sample_bs sample_env [] false 3 (Some 5)
      (Some (0x100000, signed_pe)) 592 0 sample_state = Ok (EFI_OUT_OF_RESOURCES, 0, s') /\
    exists evs, l_events (ps_load s') = evs ++ [FreePages 0x400000 3; u; FreePages 0x400000 3].
Proof.
  destruct (handle_image sample_verifier sample_allocs sample_alloc false true true false [] 0x100000 signed_pe (u32 592) 7
    (enter_load sample_state)) as [[[e|ld] l]| |] eqn:E; vm_compute in E; try discriminate E.
  destruct (failed_load_frees_twice sample_verifier sample_allocs sample_alloc false true sample_bs sample_env [] 3 (Some 5)
    (Some (0x100000, signed_pe)) 592 0 sample_state sample_source 0x100000 signed_pe 592 false 1 7 e l 0x400000 3
    (take (length (l_events l) - 1) (l_events l)))
    as (s' & u & Heq & Hev); try (injection E as <- <-); try reflexivity; try lia.
  exists s', u. split; [exact Heq|]. eexists. exact Hev.
Defined.

Definition sample_image : SHIM_LOADED_IMAGE Z :=
  {| li_ParentHandle := 3; li_DeviceHandle := 0; li_FilePath := None;
     li_fields := {| li_ImageBase := 0x400000; li_ImageSize := 8192; li_LoadOptions := [] |}; entry_point := 0x401000;
     alloc := {| ip_address := 0x400000; ip_pages := 3; ip_alignment := 4096 |}; exit_status := EFI_SUCCESS; exit_data := 0;
     exit_data_size := 0; started := false; loaded_image_device_path := None |}.
(** The image starts a second one, which calls Exit for the first. *)
Definition sample_nested : pstate Z :=
  {| ps_load := sample_lstate; ps_images := {[1 := sample_image; 2 := sample_image]}; ps_handles := {[7 := 1; 8 := 2]}; ps_in_protocol := false |}.
Definition nested_jump (s : pstate Z) : pstate Z :=
  with_images s (<[1 := set_exit (set_started sample_image) EFI_NOT_FOUND 4 5]> (<[2 := set_started sample_image]> (ps_images s))).

Lemma sample_nested_wf : loader_wf sample_nested.
Proof.
  split; cbn.
  - intros h p Hp. apply lookup_insert_Some in Hp as [[_ <-]|[_ [_ <-]%lookup_singleton_Some]].
    + rewrite lookup_insert_eq. eauto.
    + rewrite lookup_insert_ne, lookup_singleton_eq by done. eauto.
  - intros h h' p Hp Hp'. apply lookup_insert_Some in Hp as [[<- <-]|[_ [<- <-]%lookup_singleton_Some]];
      apply lookup_insert_Some in Hp' as [[<- Hp']|[_ [<- Hp']%lookup_singleton_Some]]; done.
Qed.

Lemma shim_start_image_correct_witness :
  exists data s2, shim_start_image (fun _ => EFI_UNSUPPORTED) (fun _ _ s => (Jumped, nested_jump s))
      (fun _ s => (EFI_SUCCESS, s)) 7 true sample_nested = Ok (EFI_NOT_FOUND, data, s2) /\ data = Some (4, 5) /\
    ps_handles s2 !! 7 = None /\ ps_handles s2 !! 8 = Some 2 /\ loader_wf s2.
Proof.
  set (s0 := with_images sample_nested (<[1 := set_started sample_image]> (ps_images sample_nested))).
  destruct (shim_start_image_correct sample_verifier sample_allocs sample_alloc true true sample_bs (fun _ => EFI_UNSUPPORTED)
    (fun _ _ s => (Jumped, nested_jump s)) (fun _ s => (EFI_SUCCESS, s)) 7 1 sample_image true sample_nested (nested_jump s0) Jumped)
    as [(i1 & st & data & u & s2 & Hi1 & Heq & [-> ->] & Hh & _ & _ & _ & Hwf & _) _];
    [apply sample_nested_wf|done|done|done|done|done|done| |].
  - eapply (calls_abandon _ _ _ _ _ _ s0 _ 8 2 sample_image); [done..|].
    eapply (calls_exit _ _ _ _ _ _ _ _ 7 1 (set_started sample_image) EFI_NOT_FOUND 4 5); [done..|]. apply calls_done.
  - change (Some (set_exit (set_started sample_image) EFI_NOT_FOUND 4 5) = Some i1) in Hi1. injection Hi1 as <-.
    exists (Some (4, 5)), s2. split; [exact Heq|]. split; [done|]. rewrite Hh. split_and!; [done|done|exact Hwf].
Defined.
