(* ===== verification/Trust.v ===== *)
(** * Certificates and revocations from files: shim.c

    Reading an image from the network or a file system (load_image, read_image),
    taking signature lists from the .db sections of a verified image
    (load_cert_file), taking revocation levels from one (load_revocations_file)
    and the search for such files next to shim (load_unbundled_trust).

    The file system, the network and the pool are records of functions of the
    firmware; a buffer of the pool has an address and the bytes it holds. *)
From stdpp Require Import base list numbers option strings.
From Stdlib Require Import ZArith Lia.
From S2P Require Import Prelude.
From S2P Require Import Efi.
From S2P Require Import Str.
From S2P Require Import StrLib.
From S2P Require Import Netboot.
From S2P Require Import HttpBoot.
From S2P Require Import Path.
From S2P Require Import Sbat.
From S2P Require Import Firmware.
From S2P Require Import Esl.
From S2P Require Import Variables.
From S2P Require Import SbatVar.
From S2P Require Import PeHeader.
From S2P Require Import PeHash.
From S2P Require Import Verify.
From S2P Require Import VerifyBuffer.
From S2P Require Import PeLoad.
Local Open Scope Z_scope.

(** ** Reading an image *)

(** An open file.  GetInfo and Read take the size of the buffer; they give the
    status, the size they store, and the FileSize of the information or the
    bytes that were read. *)
Record EFI_FILE : Type := {
  GetInfo : Z -> EFI_STATUS * Z * Z;
  Read : Z -> EFI_STATUS * Z * list Z
}.

(** What load_image asks the firmware for. *)
Record disk : Type := {
  fs_protocol : EFI_STATUS;
  OpenVolume : EFI_STATUS;
  Open : list Z -> EFI_STATUS + EFI_FILE;
  AllocatePool : Z -> option (Z * list Z)
}.

Definition sizeof_EFI_FILE_INFO : Z := 88.

(** The bytes [bs] stored at the start of a buffer. *)
Definition fill (pool bs : list Z) : res (list Z) := wrn pool 0 bs.

(** A status, or the buffer with its address and [*datasize], an [int].  A
    second allocation that fails hands NULL to the firmware. *)
Definition load_image (d : disk) (PathName : list Z) : res (EFI_STATUS + (Z * list Z * Z)) :=
  if EFI_ERROR (fs_protocol d) then Ok (inl (fs_protocol d))
  else if EFI_ERROR (OpenVolume d) then Ok (inl (OpenVolume d))
  else
    match Open d PathName with
    | inl efi_status => Ok (inl efi_status)
    | inr grub =>
        match AllocatePool d sizeof_EFI_FILE_INFO with
        | None => Ok (inl EFI_OUT_OF_RESOURCES)
        | Some _ =>
            let '(efi_status, buffersize, FileSize) := GetInfo grub sizeof_EFI_FILE_INFO in
            let again := bool_decide (efi_status = EFI_BUFFER_TOO_SMALL) in
            if again && negb (bool_decide (is_Some (AllocatePool d buffersize))) then Ok (inl EFI_OUT_OF_RESOURCES)
            else
              let '(efi_status, FileSize) :=
                if again then let '(st, _, sz) := GetInfo grub buffersize in (st, sz) else (efi_status, FileSize) in
              if EFI_ERROR efi_status then Ok (inl efi_status)
              else
                match AllocatePool d FileSize with
                | None => Ok (inl EFI_OUT_OF_RESOURCES)
                | Some (addr, pool) =>
                    let '(efi_status, buffersize, bs) := Read grub FileSize in
                    '(efi_status, buffersize, addr, data) ←
                      (if bool_decide (efi_status = EFI_BUFFER_TOO_SMALL) then
                         match AllocatePool d buffersize with
                         | None => Fault
                         | Some (addr, pool) =>
                             let '(efi_status, buffersize, bs) := Read grub buffersize in
                             data ← fill pool bs; Ok (efi_status, buffersize, addr, data)
                         end
                       else data ← fill pool bs; Ok (efi_status, buffersize, addr, data));
                    if EFI_ERROR efi_status then Ok (inl efi_status) else Ok (inr (addr, data, i32 buffersize))
                end
        end
    end.

(** str16_to_str8: every unit is cut to a byte. *)
Definition str16_to_str8 (str16 : list Z) : list Z := map u8 str16.

(** Where shim was loaded from: the text of its device path; what the firmware has
    of a boot over PXE and its server, the allocations for the URL, the path and the
    buffers of the transfer, and the address of the last of them; and for a boot over
    HTTP the device path, the answers of the firmware and the server, and the address of
    the buffer. *)
Record device : Type := {
  dev_loaded_image : EFI_STATUS;
  dev_path : list Z;
  dev_pxe : EFI_STATUS * option pxe_mode;
  dev_tftp : tftp_server;
  dev_url_alloc : bool;
  dev_tftp_path_alloc : bool;
  dev_tftp_allocs : list bool;
  dev_tftp_addr : Z;
  dev_http_path : option (list dp_node);
  dev_uri_alloc : bool;
  dev_http : http_env;
  dev_http_addr : Z;
  dev_disk : disk;
  dup_alloc : bool;
  path_alloc : bool
}.

(** The branch for PXE.  parseNetbootinfo sets the address and, when it succeeds, the
    path, so that what they were before does not matter. *)
Definition no_net : net := {| n_pxe := None; n_tftp_addr := replicate 16 0; n_full_path := None |}.
Definition read_netboot (dev : device) (n : net) (ImagePath : list Z) : res (EFI_STATUS + (Z * list Z * Z)) :=
  '(efi_status, n) ← parseNetbootinfo (dev_url_alloc dev) (dev_tftp_path_alloc dev) (str16_to_str8 ImagePath ++ [0]) n;
  if EFI_ERROR efi_status then Ok (inl EFI_PROTOCOL_ERROR)
  else
    '(efi_status, sourcebuffer, sourcesize) ← FetchNetbootimage (dev_tftp_allocs dev) (dev_tftp dev) n 0;
    if EFI_ERROR efi_status then Ok (inl efi_status)
    else match sourcebuffer with Some data => Ok (inr (dev_tftp_addr dev, data, i32 sourcesize)) | None => Fault end.

(** The branch for HTTP.  find_httpboot sets what is used behind it.  Success without a
    buffer is possible: a NULL pointer has the address 0 and no bytes. *)
Definition no_http : http_state :=
  {| mac_addr := replicate 32 0; ip4_node := {| ip4_LocalIpAddress := replicate 4 0; ip4_GatewayIpAddress := replicate 4 0; ip4_SubnetMask := replicate 4 0 |};
     ip6_node := {| ip6_LocalIpAddress := replicate 16 0; ip6_PrefixLength := 0; ip6_GatewayIpAddress := replicate 16 0 |}; is_ip6 := false; uri := None |}.
Definition read_httpboot (dev : device) (h : http_state) (ImagePath : list Z) : res (EFI_STATUS + (Z * list Z * Z)) :=
  '(efi_status, sourcebuffer, sourcesize, _) ← httpboot_fetch_buffer (dev_http dev) (str16_to_str8 ImagePath ++ [0]) h;
  if EFI_ERROR efi_status then Ok (inl efi_status)
  else Ok (inr (match sourcebuffer with Some data => (dev_http_addr dev, data) | None => (0, []) end, i32 sourcesize)).

(** A status, or the text of [*PathName] and the buffer. *)
Definition read_image (dev : device) (ImagePath : list Z) : res (EFI_STATUS + (list Z * (Z * list Z * Z))) :=
  if EFI_ERROR (dev_loaded_image dev) then Ok (inl (dev_loaded_image dev))
  else
    '(efi_status, PathName) ← generate_path_from_image_path (dup_alloc dev) (path_alloc dev) (dev_path dev) ImagePath;
    match PathName with
    | None => Ok (inl efi_status)
    | Some PathName =>
        let '(found, n) := findNetboot (dev_pxe dev) no_net in
        r ← (if found : bool then read_netboot dev n ImagePath
             else
               '(http, h) ← find_httpboot (dev_uri_alloc dev) (dev_http_path dev) no_http;
               if http : bool then read_httpboot dev h ImagePath else load_image (dev_disk dev) PathName);
        Ok (match r with
            | inl st => inl st
            | inr (addr, data, datasize) =>
                if datasize <? 0 then inl EFI_INVALID_PARAMETER else inr (PathName, (addr, data, datasize))
            end)
    end.

(** ** Certificates *)

(** user_cert and user_cert_size *)
Record cert_state : Type := { user_cert : list Z; user_cert_size : Z }.

(** ".db" and five zero bytes *)
Definition DB_SECTION_NAME : list Z := [46; 100; 98; 0; 0; 0; 0; 0].

(** checked_add into a UINT32: the sum that wrapped is stored as well. *)
Definition checked_add32 (a b : Z) : bool * Z := (negb (bool_decide (0 <= a + b < 2 ^ 32)), u32 (a + b)).

Section certs.
(** The pool of the firmware: what a new buffer of a size holds. *)
Context (pool : Z -> option (list Z)).

(** ReallocatePool: the old bytes in a new buffer. *)
Definition ReallocatePool (oldsize newsize : Z) (old : list Z) : res (option (list Z)) :=
  match pool newsize with
  | None => Ok None
  | Some new => bs ← rdn old 0 (Z.min oldsize newsize); m ← wrn new 0 bs; Ok (Some m)
  end.

(** The lists of one section; the boolean is false when the memory ran out. *)
Fixpoint db_lists (fuel : nat) (base : Z) (data : list Z) (datasize rawptr sec_size offset : Z) (st : cert_state)
  : res (bool * cert_state) :=
  match fuel with
  | O => NoFuel
  | S f =>
      if u32 (sec_size - offset) <? sizeof_EFI_SIGNATURE_LIST then Ok (true, st)
      else
        let original := user_cert_size st in
        match ImageAddress base datasize (u32 (rawptr + offset)) with
        | None => Ok (true, st)
        | Some addr =>
            let pointer := addr - base in
            SignatureListSize ← rd_le data (pointer + 16) 4;
            if SignatureListSize <? sizeof_EFI_SIGNATURE_LIST then Ok (true, st)
            else
              let (overflow, offset) := checked_add32 offset SignatureListSize in
              if overflow || (sec_size <? offset) then Ok (true, st)
              else
                let (overflow, size) := checked_add32 (user_cert_size st) SignatureListSize in
                let st := {| user_cert := user_cert st; user_cert_size := size |} in
                if overflow : bool then Ok (true, st)
                else
                  tmp ← ReallocatePool original size (user_cert st);
                  match tmp with
                  | None => Ok (false, st)
                  | Some tmp =>
                      bs ← rdn data pointer SignatureListSize;
                      m ← wrn tmp original bs;
                      db_lists f base data datasize rawptr sec_size offset
                        {| user_cert := m; user_cert_size := size |}
                  end
        end
  end.

Definition sec_size (s : EFI_IMAGE_SECTION_HEADER) : Z := Z.min (VirtualSize s) (SizeOfRawData s).

Fixpoint db_sections (k : nat) (base : Z) (data : list Z) (datasize off : Z) (st : cert_state) : res (bool * cert_state) :=
  match k with
  | O => Ok (true, st)
  | S k' =>
      s ← read_section data off;
      '(ok, st) ←
        (if bytes_eqb (Name s) DB_SECTION_NAME
         then db_lists (S (length data)) base data datasize (PointerToRawData s) (sec_size s) 0 st
         else Ok (true, st));
      if negb ok then Ok (false, st)
      else db_sections k' base data datasize (off + EFI_IMAGE_SIZEOF_SECTION_HEADER) st
  end.

Context {S : Type} `{Firmware S} (al : allocations).

Definition load_cert_file (v : verifier S) (dev : device) (filename : list Z) (vst : vstate) (st : cert_state)
  : res (EFI_STATUS * vstate * cert_state) :=
  r ← read_image dev filename;
  match r with
  | inl efi_status => Ok (efi_status, vst, st)
  | inr (_, (base, data, datasize)) =>
      '(c, vst) ← verify_image v al false base data datasize vst;
      match c with
      | inl efi_status => Ok (efi_status, vst, st)
      | inr context =>
          '(ok, st) ← db_sections (Z.to_nat (NumberOfSections context)) base data datasize (FirstSection context) st;
          Ok (if ok : bool then EFI_SUCCESS else EFI_OUT_OF_RESOURCES, vst, st)
      end
  end.
End certs.

(** ** Revocations *)

(** check_section: a section with the name sets the pointer, also when its size
    was found to be too small. *)
Definition check_section (name : list Z) (pointer : option Z) (s : EFI_IMAGE_SECTION_HEADER) (base datasize : Z) : option Z :=
  if bytes_eqb (Name s) name then ImageAddress base datasize (PointerToRawData s) else pointer.

Record revocations : Type := {
  sbat_var_automatic : option Z;
  sbat_var_latest : option Z;
  sspv_automatic : option Z;
  ssps_automatic : option Z;
  sspv_latest : option Z;
  ssps_latest : option Z
}.
Definition no_revocations : revocations :=
  {| sbat_var_automatic := None; sbat_var_latest := None; sspv_automatic := None; ssps_automatic := None;
     sspv_latest := None; ssps_latest := None |}.

(** The name of a section, filled up to eight bytes. *)
Definition section_name (s : string) : list Z :=
  take 8 (wide s ++ replicate 8 0).

Definition check_sections (s : EFI_IMAGE_SECTION_HEADER) (base datasize : Z) (r : revocations) : revocations :=
  {| sbat_var_automatic := check_section (section_name ".sbata") (sbat_var_automatic r) s base datasize;
     sbat_var_latest := check_section (section_name ".sbatl") (sbat_var_latest r) s base datasize;
     sspv_automatic := check_section (section_name ".sspva") (sspv_automatic r) s base datasize;
     ssps_automatic := check_section (section_name ".sspsa") (ssps_automatic r) s base datasize;
     sspv_latest := check_section (section_name ".sspvl") (sspv_latest r) s base datasize;
     ssps_latest := check_section (section_name ".sspsl") (ssps_latest r) s base datasize |}.

Fixpoint find_revocations (k : nat) (base : Z) (data : list Z) (datasize off : Z) (r : revocations) : res revocations :=
  match k with
  | O => Ok r
  | S k' =>
      s ← read_section data off;
      find_revocations k' base data datasize (off + EFI_IMAGE_SIZEOF_SECTION_HEADER) (check_sections s base datasize r)
  end.

Definition set (p : option Z) : bool := bool_decide (is_Some p).
(** The memory behind a pointer into the image. *)
Definition behind (base : Z) (data : list Z) (p : option Z) : option (list Z) :=
  (fun addr => drop (Z.to_nat (addr - base)) data) <$> p.

Section revocations.
Context {S : Type} `{Firmware S} (v : verifier S) (al : allocations) (junk : Z) (sbat_section : list Z).

Definition update_levels (base : Z) (data : list Z) (r : revocations) (st : sbat_state S)
  : res (EFI_STATUS * sbat_state S) :=
  '(efi_status, st) ←
    (match behind base data (sbat_var_automatic r), behind base data (sbat_var_latest r) with
     | Some automatic, Some latest =>
         set_sbat_uefi_variable (a_var al) (a_sbat_csv al) (v_user_insecure_mode v) junk sbat_section false st automatic latest
     | _, _ => Ok (EFI_SUCCESS, st)
     end);
  if (set (sspv_automatic r) && set (ssps_automatic r)) || (set (sspv_latest r) && set (ssps_latest r)) then
    set_ssp_uefi_variable (a_var al) (v_user_insecure_mode v) st
      {| ssp_ver := behind base data (sspv_automatic r); ssp_sig := behind base data (ssps_automatic r) |}
      {| ssp_ver := behind base data (sspv_latest r); ssp_sig := behind base data (ssps_latest r) |}
  else Ok (efi_status, st).

Definition load_revocations_file (dev : device) (FileName : list Z) (vst : vstate) (st : sbat_state S)
  : res (EFI_STATUS * vstate * sbat_state S) :=
  r ← read_image dev FileName;
  match r with
  | inl efi_status => Ok (efi_status, vst, st)
  | inr (_, (base, data, datasize)) =>
      '(c, vst) ← verify_image v al false base data datasize vst;
      match c with
      | inl efi_status => Ok (efi_status, vst, st)
      | inr context =>
          r ← find_revocations (Z.to_nat (NumberOfSections context)) base data datasize (FirstSection context) no_revocations;
          '(efi_status, st) ← update_levels base data r st;
          Ok (efi_status, vst, st)
      end
  end.
End revocations.

(** ** Searching for the files *)
Definition SBATREVOCATIONFILE : list Z := wide "revocations_sbat.efi".
Definition SKUSIREVOCATIONFILE : list Z := wide "revocations_sku.efi".
Definition CERT_PREFIX : list Z := wide "shim_certificate".
(** L"shim_certificate_0.efi", whose unit 17 is counted up. *)
Definition FileName (digit : Z) : list Z := wide "shim_certificate_" ++ [digit] ++ wide ".efi".

Record trust (S : Type) : Type := {
  tr_sbat : sbat_state S;
  tr_verify : vstate;
  tr_cert : cert_state
}.
Arguments tr_sbat {S}. Arguments tr_verify {S}. Arguments tr_cert {S}.

(** A directory: Open gives a handle, Read on a handle takes the size of the
    buffer and gives the status, the size, the FileName of the entry and the
    handle behind it. *)
Record directory (D : Type) : Type := {
  dir_open : list Z -> EFI_STATUS + D;
  dir_read : D -> Z -> EFI_STATUS * Z * list Z * D
}.
Arguments dir_open {D}. Arguments dir_read {D}.

(** The verifier with the revocations and the variables of now. *)
Definition verifier_at {S} (v : verifier S) (st : sbat_state S) : verifier S :=
  {| v_sha256 := v_sha256 v; v_sha1 := v_sha1 v; v_AuthenticodeVerify := v_AuthenticodeVerify v; v_eku := v_eku v;
     v_vendor_deauthorized := v_vendor_deauthorized v; v_vendor_db := v_vendor_db v; v_build_cert := v_build_cert v;
     v_vendor_cert := v_vendor_cert v; v_ignore_db := v_ignore_db v; v_sbat_var := sbat_var st; v_firmware := fw st;
     v_user_insecure_mode := v_user_insecure_mode v; v_allow_32bit_kernel := v_allow_32bit_kernel v;
     v_mok_policy := v_mok_policy v |}.

Section search.
Context {S : Type} `{Firmware S} (v : verifier S) (al : allocations) (pool : Z -> option (list Z)).
Context (junk : Z) (sbat_section : list Z) (dev : device) {D : Type} (dir : directory D).

Definition load_revocations (name : list Z) (tr : trust S) : res (EFI_STATUS * trust S) :=
  '(efi_status, vst, st) ←
    load_revocations_file (verifier_at v (tr_sbat tr)) al junk sbat_section dev name (tr_verify tr) (tr_sbat tr);
  Ok (efi_status, {| tr_sbat := st; tr_verify := vst; tr_cert := tr_cert tr |}).

Definition load_certs (name : list Z) (tr : trust S) : res (EFI_STATUS * trust S) :=
  '(efi_status, vst, c) ←
    load_cert_file pool al (verifier_at v (tr_sbat tr)) dev name (tr_verify tr) (tr_cert tr);
  Ok (efi_status, {| tr_sbat := tr_sbat tr; tr_verify := vst; tr_cert := c |}).

(** The numbered files of a network boot; [n] is what is left of ten turns. *)
Fixpoint numbered_certs (n : nat) (digit : Z) (tr : trust S) : res (trust S) :=
  '(efi_status, tr) ← load_certs (FileName digit) tr;
  if bool_decide (efi_status = EFI_SUCCESS)
  then match n with O => Ok tr | Datatypes.S n' => numbered_certs n' (u16 (digit + 1)) tr end
  else Ok tr.

(** The loop over the directory; [buffer] says whether there is one. *)
Fixpoint search_directory (fuel : nat) (PathName : list Z) (search_revocations : bool) (buffersize : Z) (buffer : bool)
    (d : D) (tr : trust S) : res (EFI_STATUS * trust S) :=
  match fuel with
  | O => NoFuel
  | Datatypes.S f =>
      let old := buffersize in
      let '(efi_status, buffersize, FileName, d) := dir_read dir d buffersize in
      if bool_decide (efi_status = EFI_BUFFER_TOO_SMALL) then
        let same := buffersize =? old in
        let buffersize := if same then if buffersize <? 4 then 4 else buffersize * 2 else buffersize in
        if same && (1024 <? buffersize) then Ok (efi_status, tr)
        else if negb (bool_decide (is_Some (pool buffersize))) then Ok (efi_status, tr)
        else search_directory f PathName search_revocations buffersize true d tr
      else if EFI_ERROR efi_status then Ok (efi_status, tr)
      else if (buffersize =? 0) || negb buffer then
        if search_revocations then
          match dir_open dir PathName with
          | inl efi_status => Ok (efi_status, tr)
          | inr d => search_directory f PathName false buffersize buffer d tr
          end
        else Ok (efi_status, tr)
      else
        found ← (if search_revocations : bool
                 then c ← StrCaseCmp (text FileName) 0 (text SBATREVOCATIONFILE) 0; Ok (c =? 0)
                 else Ok false);
        r ← (if found : bool then
               '(_, tr) ← load_revocations SBATREVOCATIONFILE tr;
               Ok (match dir_open dir PathName with
                   | inl efi_status => inl (efi_status, tr)
                   | inr d => inr (d, tr)
                   end)
             else Ok (inr (d, tr)));
        match r with
        | inl r => Ok r
        | inr (d, tr) =>
            let search_revocations := search_revocations && negb found in
            tr ← (if search_revocations then Ok tr
                  else
                    c ← StrnCaseCmp (text FileName) 0 (text CERT_PREFIX) 0 16;
                    tr ← (if c =? 0 then '(_, tr) ← load_certs FileName tr; Ok tr else Ok tr);
                    c ← StrCaseCmp (text FileName) 0 (text SKUSIREVOCATIONFILE) 0;
                    if c =? 0 then '(_, tr) ← load_revocations SKUSIREVOCATIONFILE tr; Ok tr else Ok tr);
            search_directory f PathName search_revocations buffersize buffer d tr
        end
  end.

Definition load_unbundled_trust (fuel : nat) (tr : trust S) : res (EFI_STATUS * trust S) :=
  if EFI_ERROR (dev_loaded_image dev) then Ok (dev_loaded_image dev, tr)
  else
    '(efi_status, PathName) ← generate_path_from_image_path (dup_alloc dev) (path_alloc dev) (dev_path dev) [];
    match PathName with
    | None => Ok (efi_status, tr)
    | Some PathName =>
        let efi_status := fs_protocol (dev_disk dev) in
        if EFI_ERROR efi_status then
          '(_, tr) ← load_revocations SKUSIREVOCATIONFILE tr;
          '(_, tr) ← load_revocations SBATREVOCATIONFILE tr;
          tr ← numbered_certs 10 48 tr;
          Ok (efi_status, tr)
        else if EFI_ERROR (OpenVolume (dev_disk dev)) then Ok (OpenVolume (dev_disk dev), tr)
        else
          match dir_open dir PathName with
          | inl efi_status => Ok (efi_status, tr)
          | inr d =>
              if negb (secure_mode (fw (tr_sbat tr)) (v_user_insecure_mode v)) then Ok (EFI_SUCCESS, tr)
              else search_directory fuel PathName true 0 false d tr
          end
    end.
End search.

(** ** The signature lists of a section

    The leading part of [bs] that is a sequence of lists, each at least as long
    as its header and none longer than what is left. *)
Fixpoint list_prefix (fuel : nat) (bs : list Z) : list Z :=
  match fuel with
  | O => []
  | S f =>
      let size := le_combine (take 4 (drop 16 bs)) in
      if (zlen bs <? sizeof_EFI_SIGNATURE_LIST) || (size <? sizeof_EFI_SIGNATURE_LIST) || (zlen bs <? size) then []
      else take (Z.to_nat size) bs ++ list_prefix f (drop (Z.to_nat size) bs)
  end.
Definition listed (bs : list Z) : list Z := list_prefix (S (length bs)) bs.

Lemma list_prefix_enough f g bs :
  (length bs < f)%nat -> (length bs < g)%nat -> list_prefix f bs = list_prefix g bs.
Proof.
  revert g bs. induction f as [|f IH]; intros g bs Hf Hg; [lia|]. destruct g as [|g]; [lia|]. cbn [list_prefix].
  destruct (_ || _ || _) eqn:E; [done|]. f_equal. repeat (apply orb_false_iff in E as [E ?]). bool_to_prop.
  unfold sizeof_EFI_SIGNATURE_LIST, zlen in *. apply IH; rewrite length_drop; lia.
Qed.

(** Lists that are well formed are listed in full. *)
Lemma listed_encode db rest : Forall esl_wf db -> zlen rest < sizeof_EFI_SIGNATURE_LIST -> listed (esl_encode db ++ rest) = esl_encode db.
Proof.
  intros Hdb Hr. unfold listed. set (f := S _). assert (Hf : (length (esl_encode db ++ rest) < f)%nat) by (unfold f; lia).
  clearbody f. revert f Hf. induction Hdb as [|l db Hl Hdb IH]; intros f Hf; (destruct f as [|f]; [lia|]); cbn [list_prefix].
  - change (esl_encode [] ++ rest) with rest. by rewrite (proj2 (Z.ltb_lt _ _) Hr).
  - pose proof (esl_bytes_length l Hl) as Hlen. pose proof (esl_size_range l Hl) as [[Hs0 Hs1] Ht].
    change (esl_encode (l :: db)) with (esl_bytes l ++ esl_encode db) in *. rewrite <- app_assoc in *.
    assert (Hsz : sizeof_EFI_SIGNATURE_LIST <= esl_size l).
    { destruct Hl as (_ & Hss & _). unfold esl_size. pose proof (zlen_nonneg (esl_header l)). pose proof (zlen_nonneg (esl_sigs l)). nia. }
    assert (Hsize : le_combine (take 4 (drop 16 (esl_bytes l ++ esl_encode db ++ rest))) = esl_size l).
    { unfold esl_bytes at 1. rewrite <- !app_assoc. rewrite (drop_app_length' (esl_type l)) by (unfold zlen in Ht; lia).
      rewrite take_app_length' by (by rewrite le_split_length). by apply le_combine_split. }
    rewrite Hsize. rewrite zlen_app, Hlen. pose proof (zlen_nonneg (esl_encode db ++ rest)).
    rewrite (proj2 (Z.ltb_ge _ _)), (proj2 (Z.ltb_ge (esl_size l) _)), (proj2 (Z.ltb_ge _ (esl_size l))) by lia. cbn [orb].
    assert (Hn : Z.to_nat (esl_size l) = length (esl_bytes l)) by (unfold zlen in Hlen; lia).
    rewrite Hn, take_app_length, drop_app_length. f_equal. apply IH. rewrite length_app in Hf.
    unfold zlen, sizeof_EFI_SIGNATURE_LIST in *. lia.
Qed.

Definition cert_wf (st : cert_state) : Prop := user_cert_size st = zlen (user_cert st).
(** [st] with [bs] behind its certificates *)
Definition with_certs (st : cert_state) (bs : list Z) : cert_state :=
  {| user_cert := user_cert st ++ bs; user_cert_size := zlen (user_cert st ++ bs) |}.
(** An allocation gives as many bytes as were asked for. *)
Definition pool_ok (pool : Z -> option (list Z)) : Prop :=
  forall n, 0 <= n < 2 ^ 32 -> exists m, pool n = Some m /\ zlen m = n.

Lemma checked_add32_eq a b : 0 <= a + b < 2 ^ 32 -> checked_add32 a b = (false, a + b).
Proof. intros. unfold checked_add32. by rewrite bool_decide_true, u32_small. Qed.

(** One list is moved behind the others. *)
Lemma append_list pool st bs :
  pool_ok pool -> zlen (user_cert st ++ bs) < 2 ^ 32 ->
  (tmp ← ReallocatePool pool (zlen (user_cert st)) (zlen (user_cert st ++ bs)) (user_cert st);
   match tmp with
   | None => Ok None
   | Some tmp => m ← wrn tmp (zlen (user_cert st)) bs; Ok (Some m)
   end) = Ok (Some (user_cert st ++ bs)).
Proof.
  intros Hpool Hlt. unfold ReallocatePool. pose proof (zlen_nonneg bs). pose proof (zlen_nonneg (user_cert st)).
  destruct (Hpool (zlen (user_cert st ++ bs))) as (m & -> & Hm); [zlen_simpl; lia|]. zlen_simpl.
  rewrite Z.min_l by lia. rewrite <- (app_nil_r (user_cert st)) at 1. rewrite <- (app_nil_l (user_cert st ++ [])).
  rewrite rdn_app_mid by done. rewrite bind_Ok.
  assert (Hsplit : m = [] ++ take (length (user_cert st)) m ++ drop (length (user_cert st)) m) by (by rewrite app_nil_l, take_drop).
  rewrite Hsplit. rewrite wrn_app_mid by (try done; unfold zlen in *; rewrite length_take; lia). rewrite !bind_Ok, app_nil_l.
  rewrite <- (app_nil_r (drop _ m)). rewrite wrn_app_mid by (try done; unfold zlen in *; rewrite length_drop; lia).
  by rewrite bind_Ok, app_nil_r.
Qed.

(** The size field of a list. *)
Lemma list_size_read p bs q : 28 <= zlen bs -> bytes bs ->
  rd_le (p ++ bs ++ q) (zlen p + 16) 4 = Ok (le_combine (take 4 (drop 16 bs))) /\
  0 <= le_combine (take 4 (drop 16 bs)) < 2 ^ 32.
Proof.
  intros Hlong Hb. split.
  - unfold rd_le. rewrite <- (take_drop 16 bs) at 1. rewrite <- (take_drop 4 (drop 16 bs)) at 1.
    rewrite <- !app_assoc, app_assoc. rewrite rdn_app_mid; [by rewrite bind_Ok|..]; unfold zlen in *;
      rewrite ?length_app, ?length_take, ?length_drop; lia.
  - replace (2 ^ 32) with (2 ^ (8 * zlen (take 4 (drop 16 bs)))).
    + apply le_combine_range. by apply Forall_take, Forall_drop.
    + unfold zlen. rewrite length_take, length_drop. unfold zlen in Hlong. by replace (4 `min` _)%nat with 4%nat by lia.
Qed.

Section db.
Context (pool : Z -> option (list Z)) (Hpool : pool_ok pool) (base : Z) (data : list Z) (datasize : Z).
Context (Hbase : 0 <= base) (Hend : base + datasize <= 2 ^ 64) (Hl : datasize <= zlen data) (Hd : datasize < 2 ^ 32).

Lemma db_lists_ok ptr size f : forall p bs q st off,
  data = p ++ bs ++ q -> zlen p = ptr + off -> zlen bs = size - off -> 0 <= ptr -> 0 <= off -> size < 2 ^ 32 ->
  size = 0 \/ ptr + size <= datasize -> bytes bs -> (length bs < f)%nat -> cert_wf st ->
  zlen (user_cert st) + zlen (list_prefix f bs) < 2 ^ 32 ->
  db_lists pool f base data datasize ptr size off st = Ok (true, with_certs st (list_prefix f bs)).
Proof.
  induction f as [|f IH]; intros p bs q st off Hdata Hp Hbs Hptr Hoff Hsz Hin Hb Hf Hst Htot; [lia|].
  assert (Hnone : with_certs st [] = st).
  { unfold with_certs. rewrite app_nil_r, <- Hst. by destruct st. }
  pose proof (zlen_nonneg bs). cbn [db_lists list_prefix] in *. rewrite u32_small by lia. rewrite <- Hbs.
  destruct (Z.ltb_spec (zlen bs) sizeof_EFI_SIGNATURE_LIST) as [|Hlong]; [cbn [orb]; by rewrite Hnone|].
  unfold sizeof_EFI_SIGNATURE_LIST in *. rewrite (u32_small (ptr + off)) by lia.
  rewrite ImageAddress_eq by lia. rewrite (proj2 (Z.leb_gt datasize (ptr + off))) by lia.
  replace (base + (ptr + off) - base) with (zlen p) by lia.
  destruct (list_size_read p bs q Hlong Hb) as [Hrd Hn]. rewrite <- Hdata in Hrd.
  rewrite Hrd, bind_Ok. set (n := le_combine _) in *.
  destruct (Z.ltb_spec n 28) as [|Hn28]; cbn [orb] in *; [by rewrite Hnone|].
  destruct (decide (zlen bs < n)) as [Hbig | Hfit].
  { rewrite (proj2 (Z.ltb_lt _ _) Hbig), Hnone. unfold checked_add32.
    destruct (bool_decide _) eqn:E; [|done]. apply bool_decide_eq_true in E. cbn [negb orb].
    rewrite u32_small by lia. by rewrite (proj2 (Z.ltb_lt size (off + n))) by lia. }
  rewrite (proj2 (Z.ltb_ge (zlen bs) n)) in * by lia.
  rewrite (checked_add32_eq off n) by lia. cbn [orb]. rewrite (proj2 (Z.ltb_ge size (off + n))) by lia.
  set (head := take (Z.to_nat n) bs) in *. assert (Hhead : zlen head = n) by (unfold head, zlen in *; rewrite length_take; lia).
  rewrite zlen_app in Htot. pose proof (zlen_nonneg (list_prefix f (drop (Z.to_nat n) bs))). pose proof (zlen_nonneg (user_cert st)).
  rewrite Hst, checked_add32_eq by lia.
  assert (Hrdn : rdn data (zlen p) n = Ok head).
  { rewrite Hdata, <- (take_drop (Z.to_nat n) bs), <- !app_assoc. fold head. by rewrite rdn_app_mid. }
  pose proof (append_list pool st head Hpool) as Happ. rewrite zlen_app, Hhead in Happ. specialize (Happ ltac:(lia)).
  cbn [user_cert user_cert_size]. apply bind_inv in Happ as (tmp & -> & Happ). rewrite bind_Ok. destruct tmp as [tmp|]; [|done].
  rewrite Hrdn, bind_Ok. apply bind_inv in Happ as (m & -> & [= ->]). rewrite bind_Ok.
  rewrite (IH (p ++ head) (drop (Z.to_nat n) bs) q); cbn [user_cert user_cert_size].
  - unfold with_certs. cbn [user_cert]. by rewrite <- app_assoc.
  - rewrite <- app_assoc. unfold head. by rewrite (app_assoc (take _ _)), take_drop.
  - rewrite zlen_app. lia.
  - unfold zlen in *. rewrite length_drop. lia.
  - done.
  - lia.
  - done.
  - done.
  - by apply Forall_drop.
  - unfold zlen in *. rewrite length_drop. lia.
  - unfold cert_wf. cbn. rewrite zlen_app. lia.
  - rewrite zlen_app. lia.
Qed.

Definition db_content (secs : list EFI_IMAGE_SECTION_HEADER) : list Z :=
  concat (map (fun s => if bytes_eqb (Name s) DB_SECTION_NAME
                        then listed (slice data (PointerToRawData s) (PointerToRawData s + sec_size s)) else []) secs).

Lemma with_certs_app st a b : with_certs (with_certs st a) b = with_certs st (a ++ b).
Proof. unfold with_certs. cbn. by rewrite app_assoc. Qed.
Lemma with_certs_wf st a : cert_wf (with_certs st a).
Proof. done. Qed.
Lemma with_certs_nil st : cert_wf st -> with_certs st [] = st.
Proof. intros Hst. unfold with_certs. rewrite app_nil_r, <- Hst. by destruct st. Qed.

Lemma db_section_ok s st :
  bytes data -> section_fields s -> raw_in_file datasize s -> cert_wf st ->
  zlen (user_cert st) + zlen (listed (slice data (PointerToRawData s) (PointerToRawData s + sec_size s))) < 2 ^ 32 ->
  db_lists pool (S (length data)) base data datasize (PointerToRawData s) (sec_size s) 0 st =
  Ok (true, with_certs st (listed (slice data (PointerToRawData s) (PointerToRawData s + sec_size s)))).
Proof.
  intros Hb (Hv & _ & Hr & Hp) Hraw Hst Htot. set (bs := slice _ _ _) in *.
  destruct (decide (sec_size s = 0)) as [E | E].
  { rewrite E in *. assert (Hbs : bs = []) by (unfold bs, slice; rewrite E, Z.add_0_r, Z.sub_diag; apply take_0). rewrite Hbs.
    cbn [db_lists]. change (u32 (0 - 0)) with 0. cbn. by rewrite with_certs_nil. }
  assert (Hin : PointerToRawData s + sec_size s <= datasize) by (unfold raw_in_file, sec_size in *; lia).
  assert (Hlen : zlen bs = sec_size s).
  { unfold bs, slice, zlen in *. rewrite length_take, length_drop. unfold sec_size in *. lia. }
  unfold listed in *. rewrite (list_prefix_enough _ (S (length data)) bs) in *; try (unfold zlen in *; lia).
  apply (db_lists_ok (PointerToRawData s) (sec_size s) (S (length data)) (take (Z.to_nat (PointerToRawData s)) data) bs
    (drop (Z.to_nat (PointerToRawData s + sec_size s)) data)); try done; try lia.
  - unfold bs, slice. replace (Z.to_nat (PointerToRawData s + sec_size s))
      with (Z.to_nat (PointerToRawData s) + Z.to_nat (PointerToRawData s + sec_size s - PointerToRawData s))%nat
      by (unfold sec_size in *; lia).
    by rewrite <- drop_drop, take_drop, take_drop.
  - unfold zlen in *. rewrite length_take. unfold sec_size in *. lia.
  - apply Forall_take, Forall_drop, Hb.
  - unfold zlen in *. lia.
Qed.

Lemma db_sections_ok k : forall off secs st,
  bytes data -> read_sections k data off = Ok secs -> Forall section_fields secs -> Forall (raw_in_file datasize) secs ->
  cert_wf st -> zlen (user_cert st) + zlen (db_content secs) < 2 ^ 32 ->
  db_sections pool k base data datasize off st = Ok (true, with_certs st (db_content secs)).
Proof.
  induction k as [|k IH]; intros off secs st Hb; cbn [read_sections db_sections].
  { intros [= <-] _ _ Hst _. unfold db_content. cbn. by rewrite with_certs_nil. }
  intros (s & -> & (rest & Hrest & [= <-])%bind_inv)%bind_inv [Hf HF]%Forall_cons [Hr HR]%Forall_cons Hst Htot. rewrite bind_Ok.
  change (db_content (s :: rest)) with
    ((if bytes_eqb (Name s) DB_SECTION_NAME
      then listed (slice data (PointerToRawData s) (PointerToRawData s + sec_size s)) else []) ++ db_content rest) in *.
  rewrite zlen_app in Htot. pose proof (zlen_nonneg (db_content rest)).
  destruct (bytes_eqb _ _).
  - rewrite db_section_ok by (done || lia). rewrite bind_Ok. cbn [negb].
    rewrite (IH _ rest); try done; [by rewrite with_certs_app|]. cbn [user_cert with_certs]. rewrite zlen_app. lia.
  - rewrite bind_Ok. cbn [negb app]. by apply IH.
Qed.
End db.

(** ** Certificates come from verified files only *)
Section cert_file.
Context {S : Type} `{FirmwareLaws S} (v : verifier S) (al : allocations) (D : databases).
Context (Hv : verifier_ok v al D) (Hal : sbat_allocs al).
Context (vss : list (list (list Z))) (Hvss : sbat_var_holds (v_sbat_var v) vss).
Context (pool : Z -> option (list Z)) (Hpool : pool_ok pool) (dev : device).

(** What was read, as the firmware and the network leave it. *)
Definition file_ok (base : Z) (data : list Z) (datasize : Z) : Prop :=
  bytes data /\ datasize < 2 ^ 31 /\ datasize <= zlen data /\ 0 <= base /\ base + 2 ^ 33 < 2 ^ 64.

Lemma read_image_size filename path base data datasize :
  read_image dev filename = Ok (inr (path, (base, data, datasize))) -> 0 <= datasize.
Proof.
  unfold read_image. destruct (EFI_ERROR _); [done|]. intros ([st p] & _ & Hr)%bind_inv. destruct p as [p|]; [|done]. destruct (findNetboot _ _) as [found n].
  apply bind_inv in Hr as (r & _ & Hr). destruct r as [st'|[[a d] sz]]; [done|].
  destruct (Z.ltb_spec sz 0); [done|]. injection Hr as _ <- <- <-. done.
Qed.

Lemma load_cert_file_ok filename path base data datasize vst st :
  read_image dev filename = Ok (inr (path, (base, data, datasize))) -> file_ok base data datasize -> cert_wf st ->
  exists c vst', verify_image v al false base data datasize vst = Ok (c, vst') /\
    match c with
    | inl e => EFI_ERROR e = true /\ load_cert_file pool al v dev filename vst st = Ok (e, vst', st)
    | inr ctx => exists secs, section_table data ctx = Ok secs /\
        authorised v al D false false base data datasize vss ctx /\
        (zlen (user_cert st) + zlen (db_content data secs) < 2 ^ 32 ->
         load_cert_file pool al v dev filename vst st = Ok (EFI_SUCCESS, vst', with_certs st (db_content data secs)))
    end.
Proof.
  intros Hr (Hb & Hd & Hl & Hbase & Hend) Hst. pose proof (read_image_size _ _ _ _ _ Hr) as Hpos.
  unfold load_cert_file. rewrite Hr, bind_Ok.
  destruct (verify_image_ok v al D Hv Hal vss Hvss base data datasize Hb ltac:(lia) Hl Hbase Hend false vst)
    as (c & vst' & -> & Hc). rewrite !bind_Ok. exists c, vst'. split; [done|]. destruct c as [e|ctx]; [done|].
  destruct (section_table_fields data datasize ctx Hb Hl (au_wf _ _ _ _ _ _ _ _ _ _ Hc)) as (secs & Hsecs & HF).
  exists secs. split_and!; [done..|]. intros Htot.
  destruct (au_digest _ _ _ _ _ _ _ _ _ _ Hc) as (h256 & h1 & Hdig); [by left|].
  pose proof (au_wf _ _ _ _ _ _ _ _ _ _ Hc) as Hw. pose proof (wf_image _ _ _ Hw).
  destruct (digests_raw_in_file v al base data datasize ctx secs h256 h1 ctx) as [_ HR]; try done; try lia.
  rewrite (db_sections_ok pool Hpool base data datasize) with (secs := secs); try done; try lia.
Qed.
End cert_file.

(** ** Images from the network *)
(** A TFTP server with the file under a path, as Mtftp is documented: a buffer that is
    too small is answered with a size, that of the buffer or that of the file. *)
Definition tftp_serves (srv : tftp_server) (addr path file : list Z) : Prop :=
  forall mem k, cstring mem 0 path ->
  (k < zlen file -> exists s d, Mtftp srv addr (Some mem) k = (EFI_BUFFER_TOO_SMALL, s, d) /\ k <= s <= zlen file) /\
  (zlen file <= k -> Mtftp srv addr (Some mem) k = (EFI_SUCCESS, zlen file, file)).

(** C40. A boot over PXE and DHCPv4: when the packet that names a boot file names one in
    a directory of a server that has the next image there, read_image returns that
    file and its size, however often the buffer has to grow (42 allocations are enough
    for all sizes below 2 GB and beyond), and the path on the disk next to it. *)
Theorem netboot_image_read dev ImagePath PathName st m file :
  EFI_ERROR (dev_loaded_image dev) = false ->
  generate_path_from_image_path (dup_alloc dev) (path_alloc dev) (dev_path dev) ImagePath = Ok (st, Some PathName) ->
  dev_pxe dev = (EFI_SUCCESS, Some m) -> Started m = true -> DhcpAckReceived m = true -> UsingIpv6 m = false -> mode_ok m ->
  dev_url_alloc dev = true -> dev_tftp_path_alloc dev = true -> dev_tftp_allocs dev = replicate 42 true ->
  tftp_serves (dev_tftp dev) (BootpSiAddr (chosen_packet m) ++ replicate 12 0)
    (dhcp4_path (c_text (BootpBootFile (chosen_packet m))) (translated (c_text (str16_to_str8 ImagePath)))) file ->
  zlen file < 2 ^ 31 ->
  read_image dev ImagePath = Ok (inr (PathName, (dev_tftp_addr dev, file, zlen file))).
Proof.
  intros Hli Hgen Hpxe Hs Ha H4 Hm Hua Hpa Hal Hsrv Hl. unfold read_image, findNetboot. rewrite Hli, Hgen, bind_Ok, Hpxe. cbn [fst snd EFI_ERROR]. rewrite Hs, Ha. cbn [negb orb].
  unfold read_netboot. rewrite Hua, Hpa, Hal.
  destruct (netboot4_ok (str16_to_str8 ImagePath ++ [0]) (c_text (str16_to_str8 ImagePath)) {| n_pxe := Some m; n_tftp_addr := n_tftp_addr no_net; n_full_path := n_full_path no_net |} m
              eq_refl H4 Hm (c_text_cstring _ _)) as (n' & mem & -> & Haddr & Hpath & Hmem).
  rewrite bind_Ok. cbn [EFI_ERROR]. rewrite (FetchNetbootimage_ok (dev_tftp dev) n' file).
  - rewrite bind_Ok. cbn [EFI_ERROR]. rewrite bind_Ok. pose proof (zlen_nonneg file). rewrite i32_small by lia. by rewrite (proj2 (Z.ltb_ge _ _)) by lia.
  - intros k Hk. rewrite Haddr, Hpath. by apply Hsrv.
  - intros k Hk. rewrite Haddr, Hpath. by apply Hsrv.
  - lia.
Qed.

(** A boot over HTTP: from a device path that ends in a URI behind an address, and
    a server that has the next image in the directory of the URI and sends it in any
    number of pieces: read_image asks for the URI of the name in that directory, with
    the host of the URI, and returns the file and its size. *)
Theorem http_image_read dev ImagePath PathName st before mem u sch rest nic file :
  EFI_ERROR (dev_loaded_image dev) = false ->
  generate_path_from_image_path (dup_alloc dev) (path_alloc dev) (dev_path dev) ImagePath = Ok (st, Some PathName) ->
  EFI_ERROR (dev_pxe dev).1 = true -> dev_http_path dev = Some (before ++ [UriNode mem]) -> dev_uri_alloc dev = true ->
  Forall not_uri before -> existsb is_ip before = true -> cstring mem 0 u -> scheme_of u = Some sch -> u = sch ++ rest ->
  get_nic_handle (he_handles (dev_http dev)) (mac_addr (fold_left apply_node before no_http)) = Some nic ->
  http_works (dev_http dev) file ->
  http_serves (dev_http dev) (next_uri sch rest (translated (c_text (str16_to_str8 ImagePath)))) (host_of rest) file ->
  zlen file < 2 ^ 31 ->
  read_image dev ImagePath = Ok (inr (PathName, (dev_http_addr dev, file, zlen file))).
Proof.
  intros Hli Hgen Hpxe Hpath Hua Hb Hip Hc Hsch Hu Hnic Hw Hs Hl. unfold read_image, findNetboot. rewrite Hli, Hgen, bind_Ok, Hpxe, Hpath, Hua. unfold find_httpboot.
  rewrite (find_uri_ok before mem u false (with_uri no_http None) Hb Hip Hc), bind_Ok. change (with_uri no_http None) with no_http. unfold read_httpboot.
  rewrite (httpboot_file (dev_http dev) (str16_to_str8 ImagePath ++ [0]) (c_text (str16_to_str8 ImagePath)) u sch rest
             (with_uri (fold_left apply_node before no_http) (Some (u ++ [0]))) nic file (c_text_cstring _ _) eq_refl); try done.
  - rewrite bind_Ok. cbn [EFI_ERROR]. rewrite bind_Ok. pose proof (zlen_nonneg file). rewrite i32_small by lia. by rewrite (proj2 (Z.ltb_ge _ _)) by lia.
  - by destruct Hc as (? & ? & _ & _ & ?).
Qed.

(** C19. Certificates for MokListRT are taken from verified files only.  A file that
    cannot be read, or that verify_image refuses, leaves the certificates as they
    are and gives the error.  A file that verify_image accepts has an accepted
    header and, in secure mode, is authentic and permitted by SBAT (with secure
    boot off, or turned off by the owner, nothing else is asked of it); exactly the
    leading signature lists of its .db sections are appended, in the order of the
    sections, whatever these sections hold, and nothing is read outside the file. *)
Theorem load_cert_file_correct {S} `{FirmwareLaws S} (v : verifier S) al D vss pool dev filename vst st :
  verifier_ok v al D -> sbat_allocs al -> sbat_var_holds (v_sbat_var v) vss -> pool_ok pool -> cert_wf st ->
  match read_image dev filename with
  | Ok (inl e) => load_cert_file pool al v dev filename vst st = Ok (e, vst, st)
  | Ok (inr (_, (base, data, datasize))) =>
      file_ok base data datasize ->
      exists c vst', verify_image v al false base data datasize vst = Ok (c, vst') /\
        match c with
        | inl e => EFI_ERROR e = true /\ load_cert_file pool al v dev filename vst st = Ok (e, vst', st)
        | inr ctx => exists secs, section_table data ctx = Ok secs /\
            read_header (v_allow_32bit_kernel v) false (v_mok_policy v) base data datasize true = Ok (inr ctx) /\
            (secure_mode (v_firmware v) (v_user_insecure_mode v) = true ->
             authentic v al D base data datasize ctx false /\ sbat_permitted false base data datasize ctx vss) /\
            (zlen (user_cert st) + zlen (db_content data secs) < 2 ^ 32 ->
             load_cert_file pool al v dev filename vst st = Ok (EFI_SUCCESS, vst', with_certs st (db_content data secs)))
        end
  | _ => True
  end.
Proof.
  intros Hv Hal Hvss Hpool Hst. destruct (read_image dev filename) as [[e|[path [[base data] datasize]]]| |] eqn:Hr; try done.
  - unfold load_cert_file. by rewrite Hr.
  - intros Hf. destruct (load_cert_file_ok v al D Hv Hal vss Hvss pool Hpool dev filename path base data datasize vst st Hr Hf Hst) as (c & vst' & Hc & Hm).
    exists c, vst'. split; [done|]. destruct c as [e|ctx]; [done|]. destruct Hm as (secs & Hsecs & [Hh _ Hp _] & Hl).
    exists secs. split_and!; [done..|intros Hsec; by apply Hp|done].
Qed.

(** ** The search

    A directory as the UEFI specification describes it: its entries with the
    sizes of their information, in order; a buffer that is too small is answered
    with the size that is needed. *)
Record dir_law {D} (dir : directory D) (PathName : list Z) (entries : list (list Z * Z)) (view : D -> list (list Z * Z)) : Prop := {
  law_open : exists d, dir_open dir PathName = inr d /\ view d = entries;
  law_end d n : view d = [] -> exists name d', dir_read dir d n = (EFI_SUCCESS, 0, name, d');
  law_small d n name size rest : view d = (name, size) :: rest -> n < size ->
    exists name' d', dir_read dir d n = (EFI_BUFFER_TOO_SMALL, size, name', d') /\ view d' = view d;
  law_entry d n name size rest : view d = (name, size) :: rest -> size <= n ->
    exists d', dir_read dir d n = (EFI_SUCCESS, size, name, d') /\ view d' = rest
}.
Arguments law_open {D}. Arguments law_end {D}. Arguments law_small {D}. Arguments law_entry {D}.

(** The loads of a search: what the first pass and what the second pass does
    about a name. *)
Inductive load : Type :=
| Revocations (name : list Z)
| Certificates (name : list Z).

Definition is_cert_name (name : list Z) : bool := bool_decide (same_text (take 16 name) CERT_PREFIX).
Definition is_file (name file : list Z) : bool := bool_decide (same_text name file).
Definition second_pass (name : list Z) : list load :=
  (if is_cert_name name then [Certificates name] else []) ++
  (if is_file name SKUSIREVOCATIONFILE then [Revocations SKUSIREVOCATIONFILE] else []).
Definition search_plan (names : list (list Z)) : list load :=
  (if existsb (fun name => is_file name SBATREVOCATIONFILE) names then [Revocations SBATREVOCATIONFILE] else []) ++
  concat (map second_pass names).

Lemma sbat_file_second_pass name : is_file name SBATREVOCATIONFILE = true -> second_pass name = [].
Proof.
  unfold second_pass, is_cert_name, is_file. intros Hn%bool_decide_eq_true.
  rewrite (bool_decide_false (same_text (take 16 name) _)), bool_decide_false; [done|..]; unfold same_text in *.
  - rewrite Hn. by vm_compute.
  - rewrite <- List.firstn_map, Hn. by vm_compute.
Qed.

Section search_theorem.
Context {S : Type} `{Firmware S} (v : verifier S) (al : allocations) (pool : Z -> option (list Z)) (Hpool : pool_ok pool).
Context (junk : Z) (sbat_section : list Z) (dev : device) {D : Type} (dir : directory D) (PathName : list Z).
Context (entries : list (list Z * Z)) (view : D -> list (list Z * Z)) (Hlaw : dir_law dir PathName entries view).
Context (Hentries : Forall (fun e => nonul e.1 /\ 0 < e.2 < 2 ^ 32) entries).

Definition run_load (l : load) (tr : trust S) : res (trust S) :=
  '(_, tr) ← (match l with
              | Revocations name => load_revocations v al junk sbat_section dev name tr
              | Certificates name => load_certs v al pool dev name tr
              end); Ok tr.
Fixpoint run_loads (ls : list load) (tr : trust S) : res (trust S) :=
  match ls with [] => Ok tr | l :: ls => tr ← run_load l tr; run_loads ls tr end.

Abbreviation search := (search_directory v al pool junk sbat_section dev dir).

Lemma run_loads_app a b tr : run_loads (a ++ b) tr = (tr ← run_loads a tr; run_loads b tr).
Proof. revert tr. induction a as [|l a IH]; intros tr; cbn; [done|]. destruct (run_load l tr); cbn; [apply IH|done..]. Qed.

(** The loads of the second pass for one name. *)
Lemma second_pass_run name tr : nonul name ->
  (c ← StrnCaseCmp (text name) 0 (text CERT_PREFIX) 0 16;
   tr ← (if c =? 0 then '(_, tr) ← load_certs v al pool dev name tr; Ok tr else Ok tr);
   c ← StrCaseCmp (text name) 0 (text SKUSIREVOCATIONFILE) 0;
   if c =? 0 then '(_, tr) ← load_revocations v al junk sbat_section dev SKUSIREVOCATIONFILE tr; Ok tr else Ok tr)
  = run_loads (second_pass name) tr.
Proof.
  intros Hn. destruct (StrnCaseCmp_ok name [] CERT_PREFIX [] 16) as (c & Hc & Hcz);
    [done|repeat (constructor; [done|]); constructor|].
  change (StrnCaseCmp (text name) 0 (text CERT_PREFIX) 0 16 = Ok c) in Hc. rewrite Hc, bind_Ok.
  destruct (StrCaseCmp_ok [] name SKUSIREVOCATIONFILE) as (c' & Hc' & Hcz');
    [done|repeat (constructor; [done|]); constructor|]. cbn [app] in Hc'. change (zlen []) with 0 in Hc'.
  unfold second_pass. rewrite run_loads_app.
  assert (E1 : (c =? 0) = is_cert_name name).
  { unfold is_cert_name. destruct (Z.eqb_spec c 0) as [E|E]; symmetry; [apply bool_decide_eq_true|apply bool_decide_eq_false];
      change (Z.to_nat 16) with 16%nat in *; change (take 16 CERT_PREFIX) with CERT_PREFIX in *; tauto. }
  assert (E2 : (c' =? 0) = is_file name SKUSIREVOCATIONFILE).
  { unfold is_file. destruct (Z.eqb_spec c' 0) as [E|E]; symmetry; [apply bool_decide_eq_true|apply bool_decide_eq_false]; tauto. }
  rewrite E1. destruct (is_cert_name name); cbn [run_loads app mbind res_bind run_load];
    [destruct (load_certs v al pool dev name tr) as [[? ?]| |]; cbn [mbind res_bind]; [|done..]|];
    rewrite Hc', bind_Ok, E2; destruct (is_file name SKUSIREVOCATIONFILE); cbn [run_loads app mbind res_bind run_load]; try done;
    destruct (load_revocations _ _ _ _ _ _ _) as [[? ?]| |]; done.
Qed.

Lemma small_step f p b n buf d tr name size rest :
  view d = (name, size) :: rest -> 0 < size < 2 ^ 32 -> n < size ->
  exists d', view d' = (name, size) :: rest /\ search (Datatypes.S f) p b n buf d tr = search f p b size true d' tr.
Proof.
  intros Hd Hs Hn. destruct (law_small _ _ _ _ Hlaw d n name size rest Hd Hn) as (name' & d' & Hr & Hd').
  exists d'. split; [by rewrite Hd'|]. cbn [search_directory]. rewrite Hr, bool_decide_true by done.
  rewrite (proj2 (Z.eqb_neq size n)) by lia. cbn [andb].
  destruct (Hpool size) as (m & -> & _); [lia|]. by rewrite bool_decide_true.
Qed.

Lemma end_step f (b : bool) n buf d tr : view d = [] ->
  if b then exists d0, view d0 = entries /\ search (Datatypes.S f) PathName true n buf d tr = search f PathName false 0 buf d0 tr
  else search (Datatypes.S f) PathName false n buf d tr = Ok (EFI_SUCCESS, tr).
Proof.
  intros Hd. destruct (law_end _ _ _ _ Hlaw d n Hd) as (name & d' & Hr).
  destruct (law_open _ _ _ _ Hlaw) as (d0 & Ho & Hd0).
  destruct b; cbn [search_directory]; rewrite Hr, bool_decide_false by done; cbn [EFI_ERROR Z.eqb orb]; [|done].
  exists d0. by rewrite Ho.
Qed.

Lemma entry_step f b n d tr name size rest :
  view d = (name, size) :: rest -> nonul name -> 0 < size -> size <= n ->
  let sbat := b && is_file name SBATREVOCATIONFILE in
  exists d', view d' = (if sbat then entries else rest) /\
    search (Datatypes.S f) PathName b n true d tr =
    (tr ← run_loads (if sbat then [Revocations SBATREVOCATIONFILE] else if b then [] else second_pass name) tr;
     search f PathName (b && negb sbat) size true d' tr).
Proof.
  intros Hd Hname Hs Hn sbat. destruct (law_entry _ _ _ _ Hlaw d n name size rest Hd Hn) as (d' & Hr & Hd').
  destruct (law_open _ _ _ _ Hlaw) as (d0 & Ho & Hd0). cbn [search_directory].
  rewrite Hr, bool_decide_false by done. cbn [EFI_ERROR]. rewrite (proj2 (Z.eqb_neq size 0)) by lia. cbn [negb orb].
  destruct (StrCaseCmp_ok [] name SBATREVOCATIONFILE) as (c & Hc & Hcz);
    [done|repeat (constructor; [done|]); constructor|]. cbn [app] in Hc. change (zlen []) with 0 in Hc.
  assert (Ec : (c =? 0) = is_file name SBATREVOCATIONFILE).
  { unfold is_file. destruct (Z.eqb_spec c 0) as [E|E]; symmetry; [apply bool_decide_eq_true|apply bool_decide_eq_false]; tauto. }
  unfold sbat. destruct b; cbn [andb].
  - rewrite Hc, !bind_Ok, Ec. destruct (is_file name SBATREVOCATIONFILE) eqn:Es.
    + exists d0. split; [done|]. cbn [run_loads negb]. unfold run_load.
      destruct (load_revocations _ _ _ _ _ _ _) as [[? tr']| |]; cbn [mbind res_bind]; [|done..].
      rewrite Ho, (second_pass_run name) by done. by rewrite sbat_file_second_pass.
    + exists d'. split; [done|]. by rewrite !bind_Ok.
  - rewrite !bind_Ok, (second_pass_run name) by done. exists d'. done.
Qed.

Lemma second_pass_correct rest : forall f n buf d tr,
  view d = rest -> Forall (fun e => nonul e.1 /\ 0 < e.2 < 2 ^ 32) rest -> (0 < n -> buf = true) ->
  (2 * length rest < f)%nat ->
  search f PathName false n buf d tr =
  (tr ← run_loads (concat (map second_pass (map fst rest))) tr; Ok (EFI_SUCCESS, tr)).
Proof.
  induction rest as [|[name size] rest IH]; intros f n buf d tr Hd Hf Hn Hfuel; (destruct f as [|f]; [lia|]).
  { exact (end_step f false n buf d tr Hd). }
  apply Forall_cons in Hf as [[Hname Hs] Hf]. cbn [fst snd length] in *.
  assert (Hstep : forall g d n, view d = (name, size) :: rest -> size <= n -> (2 * length rest < g)%nat ->
    search (Datatypes.S g) PathName false n true d tr =
    (tr ← run_loads (concat (map second_pass (name :: map fst rest))) tr; Ok (EFI_SUCCESS, tr))).
  { intros g d1 n1 Hd1 Hn1 Hg. destruct (entry_step g false n1 d1 tr name size rest Hd1 Hname ltac:(lia) Hn1) as (d' & Hd' & ->).
    cbn [andb map concat]. rewrite run_loads_app. destruct (run_loads (second_pass name) tr) as [tr'| |]; cbn [mbind res_bind]; [|done..].
    by apply IH. }
  destruct (decide (n < size)) as [Hlt | Hge].
  - destruct (small_step f PathName false n buf d tr name size rest Hd Hs Hlt) as (d' & Hd' & ->).
    destruct f as [|f]; [lia|]. apply Hstep; [done|lia|lia].
  - rewrite Hn by lia. apply Hstep; [done|lia|lia].
Qed.

Lemma first_pass_correct rest : forall f n buf d tr,
  view d = rest -> Forall (fun e => nonul e.1 /\ 0 < e.2 < 2 ^ 32) rest -> (0 < n -> buf = true) ->
  (2 * length rest + 2 * length entries + 1 < f)%nat ->
  search f PathName true n buf d tr =
  (tr ← run_loads ((if existsb (fun name => is_file name SBATREVOCATIONFILE) (map fst rest)
                    then [Revocations SBATREVOCATIONFILE] else []) ++
                   concat (map second_pass (map fst entries))) tr; Ok (EFI_SUCCESS, tr)).
Proof.
  induction rest as [|[name size] rest IH]; intros f n buf d tr Hd Hf Hn Hfuel; (destruct f as [|f]; [lia|]).
  { destruct (end_step f true n buf d tr Hd) as (d0 & Hd0 & ->). apply second_pass_correct; [done|done| |lia]. lia. }
  apply Forall_cons in Hf as [[Hname Hs] Hf]. cbn [fst snd length] in *.
  assert (Hstep : forall g d n, view d = (name, size) :: rest -> size <= n -> (2 * length rest + 2 * length entries + 1 < g)%nat ->
    search (Datatypes.S g) PathName true n true d tr =
    (tr ← run_loads ((if existsb (fun name => is_file name SBATREVOCATIONFILE) (name :: map fst rest)
                      then [Revocations SBATREVOCATIONFILE] else []) ++
                     concat (map second_pass (map fst entries))) tr; Ok (EFI_SUCCESS, tr))).
  { intros g d1 n1 Hd1 Hn1 Hg. destruct (entry_step g true n1 d1 tr name size rest Hd1 Hname ltac:(lia) Hn1) as (d' & Hd' & ->).
    cbn [andb existsb]. destruct (is_file name SBATREVOCATIONFILE) eqn:Es; cbn [orb negb].
    - rewrite run_loads_app. destruct (run_loads [Revocations SBATREVOCATIONFILE] tr) as [tr'| |]; cbn [mbind res_bind]; [|done..].
      apply second_pass_correct; try done. lia.
    - cbn [run_loads]. rewrite bind_Ok. apply IH; try done. }
  destruct (decide (n < size)) as [Hlt | Hge].
  - destruct (small_step f PathName true n buf d tr name size rest Hd Hs Hlt) as (d' & Hd' & ->).
    destruct f as [|f]; [lia|]. apply Hstep; [done|lia|lia].
  - rewrite Hn by lia. apply Hstep; [done|lia|lia].
Qed.
End search_theorem.

(** C21. The search next to shim, in secure mode and on a file system that lists its
    directories as specified: for every listing it ends, and it does exactly the
    loads of the plan, in this order: the SBAT revocations, if there is such a
    file anywhere in the directory, before any certificate, and then in the order
    of the listing every certificate file and the SkuSiPolicy revocations. *)
Theorem load_unbundled_trust_correct {S} `{Firmware S} (v : verifier S) al pool junk sbat_section dev {D} (dir : directory D)
    PathName entries view st fuel tr :
  pool_ok pool -> dir_law dir PathName entries view -> Forall (fun e => nonul e.1 /\ 0 < e.2 < 2 ^ 32) entries ->
  EFI_ERROR (dev_loaded_image dev) = false ->
  generate_path_from_image_path (dup_alloc dev) (path_alloc dev) (dev_path dev) [] = Ok (st, Some PathName) ->
  EFI_ERROR (fs_protocol (dev_disk dev)) = false -> EFI_ERROR (OpenVolume (dev_disk dev)) = false ->
  secure_mode (fw (tr_sbat tr)) (v_user_insecure_mode v) = true -> (4 * length entries + 1 < fuel)%nat ->
  load_unbundled_trust v al pool junk sbat_section dev dir fuel tr =
  (tr ← run_loads v al pool junk sbat_section dev (search_plan (map fst entries)) tr; Ok (EFI_SUCCESS, tr)).
Proof.
  intros Hpool Hlaw He Hli Hpath Hfs Hvol Hsec Hfuel. unfold load_unbundled_trust.
  rewrite Hli, Hpath, bind_Ok, Hfs, Hvol. destruct (law_open _ _ _ _ Hlaw) as (d & -> & Hd). rewrite Hsec. cbn [negb].
  unfold search_plan. eapply first_pass_correct; try done. lia.
Qed.

(** ** What the code does not do *)

(** When the memory for a list runs out, user_cert_size has been counted up and
    user_cert has not: mirroring the certificates then reads behind the buffer. *)
Theorem user_cert_size_ahead st l :
  esl_wf l -> cert_wf st -> esl_size l < 2 ^ 31 -> zlen (user_cert st) < 2 ^ 31 ->
  exists st', db_lists (fun _ => None) 1 0 (esl_bytes l) (esl_size l) 0 (esl_size l) 0 st = Ok (false, st') /\
    user_cert st' = user_cert st /\ user_cert_size st' = zlen (user_cert st) + esl_size l.
Proof.
  intros Hl Hst Hs Hu. pose proof (esl_bytes_length l Hl) as Hlen. pose proof (esl_size_range l Hl) as [[Hs0 _] Ht].
  assert (Hsz : 28 <= esl_size l).
  { destruct Hl as (_ & Hss & _). unfold esl_size, sizeof_EFI_SIGNATURE_LIST.
    pose proof (zlen_nonneg (esl_header l)). pose proof (zlen_nonneg (esl_sigs l)). nia. }
  cbn [db_lists]. unfold sizeof_EFI_SIGNATURE_LIST. rewrite u32_small by lia. rewrite (proj2 (Z.ltb_ge _ 28)) by lia.
  change (u32 (0 + 0)) with 0. rewrite ImageAddress_eq by lia. rewrite (proj2 (Z.leb_gt (esl_size l) 0)) by lia.
  change (0 + 0 - 0 + 16) with 16. unfold esl_bytes. rewrite (rd_le_mid (esl_type l) _ _ 16 4 (esl_size l)) by (done || lia).
  rewrite bind_Ok, (proj2 (Z.ltb_ge _ 28)) by lia. rewrite checked_add32_eq by lia. rewrite Z.add_0_l, Z.ltb_irrefl. cbn [orb].
  pose proof (zlen_nonneg (user_cert st)). rewrite Hst, checked_add32_eq by lia. eexists. done.
Qed.

(** A section of revocations whose size was found to be too small is used all the
    same: the pointer to it is stored before its size is checked. *)
Theorem check_section_any_size name p s size base datasize
    (s' := {| Name := Name s; VirtualSize := VirtualSize s; VirtualAddress := VirtualAddress s; SizeOfRawData := size;
              PointerToRawData := PointerToRawData s; PointerToRelocations := PointerToRelocations s;
              NumberOfRelocations := NumberOfRelocations s; Characteristics := Characteristics s |}) :
  Name s = name -> 0 <= base -> base + datasize <= 2 ^ 64 -> 0 <= PointerToRawData s < datasize ->
  check_section name p s' base datasize = Some (base + PointerToRawData s).
Proof.
  intros Hn Hb He Hp. unfold check_section, s', bytes_eqb. cbn [Name PointerToRawData]. rewrite bool_decide_true by done.
  rewrite ImageAddress_eq by lia. by rewrite (proj2 (Z.leb_gt datasize _)) by lia.
Qed.

(** The loop over the numbered certificate files of a network boot asks for
    eleven files when all are there, the last of them named with the character
    behind the digit nine. *)
Theorem numbered_certs_eleven {S} `{Firmware S} (v : verifier S) al pool dev tr :
  (forall name tr, exists tr', load_certs v al pool dev name tr = Ok (EFI_SUCCESS, tr')) ->
  numbered_certs v al pool dev 10 48 tr =
  run_loads v al pool 0 [] dev (map (fun d => Certificates (FileName d)) [48; 49; 50; 51; 52; 53; 54; 55; 56; 57; 58]) tr.
Proof.
  intros Hall.
  assert (Hstep : forall n d ds tr,
    (match n with O => ds = [] | Datatypes.S n' => ds = map (fun i => d + 1 + Z.of_nat i) (seq 0 n) end) ->
    0 <= d -> d + Z.of_nat n < 2 ^ 16 ->
    numbered_certs v al pool dev n d tr = run_loads v al pool 0 [] dev (map (fun d => Certificates (FileName d)) (d :: ds)) tr).
  { clear tr. induction n as [|n IH]; intros d ds tr Hds Hd Hlt; destruct (Hall (FileName d) tr) as (tr' & E);
      cbn [numbered_certs map run_loads]; unfold run_load; rewrite E, !bind_Ok, bool_decide_true by done; [by subst|].
    subst ds. rewrite u16_small by lia. cbn [seq map].
    rewrite (IH (d + 1) (map (fun i => d + 1 + Z.of_nat i) (seq 1 n))); [|destruct n; [done|]|lia|lia].
    - replace (d + 1 + Z.of_nat 0) with (d + 1) by lia. done.
    - rewrite <- seq_shift, map_map. apply map_ext. lia. }
  rewrite (Hstep 10%nat 48 [49; 50; 51; 52; 53; 54; 55; 56; 57; 58]); [done|by vm_compute|lia|lia].
Qed.

(** ** Revocations come from verified files only *)
Lemma find_revocations_ok k base data datasize : forall off secs r,
  read_sections k data off = Ok secs ->
  find_revocations k base data datasize off r = Ok (fold_left (fun r s => check_sections s base datasize r) secs r).
Proof.
  induction k as [|k IH]; intros off secs r; cbn [read_sections find_revocations]; [by intros [= <-]|].
  intros (s & -> & (rest & Hrest & [= <-])%bind_inv)%bind_inv. rewrite bind_Ok. cbn [fold_left]. by apply IH.
Qed.

(** The pointers to the last sections of the six names. *)
Definition revocations_of (base datasize : Z) (secs : list EFI_IMAGE_SECTION_HEADER) : revocations :=
  fold_left (fun r s => check_sections s base datasize r) secs no_revocations.

(** Revocation levels are taken from verified files only: a file that is not
    authorised gives an error and changes no variable of the firmware, no policy
    and no revocation in use; for an authorised one the outcome is that of the
    level updates with the contents of its sections. *)
Theorem load_revocations_file_verified {S} `{FirmwareLaws S} (v : verifier S) al D vss junk sbat_section dev name
    path base data datasize vst st :
  verifier_ok v al D -> sbat_allocs al -> sbat_var_holds (v_sbat_var v) vss ->
  read_image dev name = Ok (inr (path, (base, data, datasize))) -> file_ok base data datasize ->
  (exists e vst', load_revocations_file v al junk sbat_section dev name vst st = Ok (e, vst', st) /\ EFI_ERROR e = true) \/
  (exists ctx secs vst',
     authorised v al D false false base data datasize vss ctx /\ section_table data ctx = Ok secs /\
     load_revocations_file v al junk sbat_section dev name vst st =
     ('(e, st') ← update_levels v al junk sbat_section base data (revocations_of base datasize secs) st; Ok (e, vst', st'))).
Proof.
  intros Hv Hal Hvss Hr (Hb & Hd & Hl & Hbase & Hend). pose proof (read_image_size _ _ _ _ _ _ Hr) as Hpos.
  unfold load_revocations_file. rewrite Hr, bind_Ok.
  destruct (verify_image_ok v al D Hv Hal vss Hvss base data datasize Hb ltac:(lia) Hl Hbase Hend false vst)
    as (c & vst' & -> & Hc). rewrite bind_Ok. destruct c as [e|ctx]; [left; by eexists _, _|right].
  destruct (section_table_fields data datasize ctx Hb Hl (au_wf _ _ _ _ _ _ _ _ _ _ Hc)) as (secs & Hsecs & _).
  exists ctx, secs, vst'. split_and!; [done..|]. unfold section_table in Hsecs. by rewrite (find_revocations_ok _ _ _ _ _ _ _ Hsecs), bind_Ok.
Qed.

(** ** Concrete files *)
Definition sample_pool (n : Z) : option (list Z) := Some (replicate (Z.to_nat n) 0).
Lemma sample_pool_ok : pool_ok sample_pool.
Proof. intros n Hn. eexists. split; [done|]. rewrite zlen_replicate. lia. Qed.

Definition sample_disk : disk :=
  {| fs_protocol := EFI_SUCCESS; OpenVolume := EFI_SUCCESS; Open := fun _ => inl EFI_NOT_FOUND; AllocatePool := fun _ => None |}.
Definition http_device : device :=
  {| dev_loaded_image := EFI_SUCCESS; dev_path := wide "\EFI\a\shimx64.efi"; dev_pxe := (EFI_NOT_FOUND, None);
     dev_tftp := {| Mtftp := fun _ _ _ => (EFI_NOT_FOUND, 0, []); TftpError := None |}; dev_url_alloc := true; dev_tftp_path_alloc := true;
     dev_tftp_allocs := []; dev_tftp_addr := 0; dev_http_path := Some (demo_nodes ++ [UriNode (demo_uri ++ [0])]);
     dev_uri_alloc := true; dev_http := demo_env [demo_response (demo_length [53; 57; 50]) (take 500 signed_pe); demo_response [] (drop 500 signed_pe)];
     dev_http_addr := 0x100000; dev_disk := sample_disk; dup_alloc := true; path_alloc := true |}.

Lemma http_device_reads :
  read_image http_device (wide "c.efi") = Ok (inr (wide "\EFI\a\c.efi", (0x100000, signed_pe, 592))).
Proof. vm_compute. reflexivity. Qed.
Lemma signed_file_ok : file_ok 0x100000 signed_pe 592.
Proof. split_and!; [apply signed_pe_bytes|lia|by rewrite signed_pe_length|lia|lia]. Qed.

Definition no_certs : cert_state := {| user_cert := []; user_cert_size := 0 |}.
(** The signed image with a .db section that lists one SHA-1 digest. *)
Definition one_digest : list Z := esl_encode [one_sig EFI_CERT_SHA1_GUID (replicate 16 1) (replicate 20 9)].
Definition db_pe : list Z := put 328 DB_SECTION_NAME (put 512 one_digest signed_pe).
Definition db_device : device :=
  {| dev_loaded_image := EFI_SUCCESS; dev_path := wide "\EFI\a\shimx64.efi"; dev_pxe := (EFI_NOT_FOUND, None);
     dev_tftp := {| Mtftp := fun _ _ _ => (EFI_NOT_FOUND, 0, []); TftpError := None |}; dev_url_alloc := true; dev_tftp_path_alloc := true;
     dev_tftp_allocs := []; dev_tftp_addr := 0; dev_http_path := Some (demo_nodes ++ [UriNode (demo_uri ++ [0])]);
     dev_uri_alloc := true; dev_http := demo_env [demo_response (demo_length [53; 57; 50]) db_pe];
     dev_http_addr := 0x100000; dev_disk := sample_disk; dup_alloc := true; path_alloc := true |}.
Lemma db_device_reads : read_image db_device (wide "c.efi") = Ok (inr (wide "\EFI\a\c.efi", (0x100000, db_pe, 592))).
Proof. vm_compute. reflexivity. Qed.
Lemma db_file_ok : file_ok 0x100000 db_pe 592.
Proof.
  assert (Hb : forallb (fun b => (0 <=? b) && (b <? 256)) db_pe = true) by (vm_compute; reflexivity).
  split_and!; [|lia|vm_compute; congruence|lia|lia]. apply List.Forall_forall. intros b Hin. rewrite forallb_forall in Hb. specialize (Hb b Hin).
  unfold is_byte. bool_to_prop. lia.
Qed.
Definition db_section : EFI_IMAGE_SECTION_HEADER :=
  {| Name := DB_SECTION_NAME; VirtualSize := 64; VirtualAddress := 4096; SizeOfRawData := 64;
     PointerToRawData := 512; PointerToRelocations := 0; NumberOfRelocations := 0; Characteristics := 0x60000020 |}.
Lemma db_pe_accepted : exists vst', verify_image sample_verifier sample_allocs false 0x100000 db_pe 592 (l_verify sample_lstate) = Ok (inr sample_ctx, vst').
Proof. eexists. vm_compute. reflexivity. Qed.
Lemma db_pe_secs : section_table db_pe sample_ctx = Ok [db_section].
Proof. vm_compute. reflexivity. Qed.
Lemma db_pe_content : db_content db_pe [db_section] = one_digest.
Proof. vm_compute. reflexivity. Qed.

Lemma load_cert_file_correct_witness :
  authentic sample_verifier sample_allocs sample_D 0x100000 db_pe 592 sample_ctx false /\
  exists vst', load_cert_file sample_pool sample_allocs sample_verifier db_device (wide "c.efi") (l_verify sample_lstate) no_certs
    = Ok (EFI_SUCCESS, vst', {| user_cert := one_digest; user_cert_size := 64 |}).
Proof.
  pose proof (load_cert_file_correct sample_verifier sample_allocs sample_D [] sample_pool db_device (wide "c.efi")
    (l_verify sample_lstate) no_certs sample_verifier_ok ltac:(done) ltac:(split; constructor) sample_pool_ok eq_refl) as Hc.
  rewrite db_device_reads in Hc. destruct (Hc db_file_ok) as (c & vst' & Hv & Hm). destruct db_pe_accepted as [vst2 Hv2].
  rewrite Hv2 in Hv. injection Hv as <- <-. destruct Hm as (secs & Hsecs & _ & Hsec & Hl). rewrite db_pe_secs in Hsecs. injection Hsecs as <-.
  rewrite db_pe_content in Hl. split; [apply Hsec; vm_compute; reflexivity|]. exists vst2. apply Hl. vm_compute. reflexivity.
Defined.

Lemma load_revocations_file_verified_witness :
  (exists e vst', load_revocations_file sample_verifier sample_allocs 0 [] http_device (wide "c.efi") (l_verify sample_lstate)
     (level_state date_2021) = Ok (e, vst', level_state date_2021) /\ EFI_ERROR e = true) \/
  (exists ctx secs vst',
     authorised sample_verifier sample_allocs sample_D false false 0x100000 signed_pe 592 [] ctx /\
     section_table signed_pe ctx = Ok secs /\
     load_revocations_file sample_verifier sample_allocs 0 [] http_device (wide "c.efi") (l_verify sample_lstate) (level_state date_2021) =
     ('(e, st') ← update_levels sample_verifier sample_allocs 0 [] 0x100000 signed_pe (revocations_of 0x100000 592 secs)
        (level_state date_2021); Ok (e, vst', st'))).
Proof.
  exact (load_revocations_file_verified sample_verifier sample_allocs sample_D [] 0 [] http_device (wide "c.efi") _ _ _ _
    (l_verify sample_lstate) (level_state date_2021) sample_verifier_ok ltac:(done) ltac:(split; constructor) http_device_reads signed_file_ok).
Defined.

(** A directory that is its list of entries. *)
Definition list_directory (entries : list (list Z * Z)) : directory (list (list Z * Z)) :=
  {| dir_open := fun _ => inr entries;
     dir_read := fun d n =>
       match d with
       | [] => (EFI_SUCCESS, 0, [], [])
       | (name, size) :: rest =>
           if n <? size then (EFI_BUFFER_TOO_SMALL, size, [], d) else (EFI_SUCCESS, size, name, rest)
       end |}.
Lemma list_directory_law entries path : dir_law (list_directory entries) path entries id.
Proof.
  split; cbn; unfold id.
  - eauto.
  - intros d n ->. eauto.
  - intros d n name size rest -> Hn. rewrite (proj2 (Z.ltb_lt n size) Hn). eauto.
  - intros d n name size rest -> Hn. rewrite (proj2 (Z.ltb_ge n size) Hn). eauto.
Qed.

Definition disk_device : device :=
  {| dev_loaded_image := EFI_SUCCESS; dev_path := wide "\EFI\a\shimx64.efi"; dev_pxe := (EFI_NOT_FOUND, None);
     dev_tftp := {| Mtftp := fun _ _ _ => (EFI_NOT_FOUND, 0, []); TftpError := None |}; dev_url_alloc := true; dev_tftp_path_alloc := true;
     dev_tftp_allocs := []; dev_tftp_addr := 0; dev_http_path := None; dev_uri_alloc := true; dev_http := demo_env []; dev_http_addr := 0;
     dev_disk := sample_disk; dup_alloc := true; path_alloc := true |}.
Definition sample_entries : list (list Z * Z) :=
  [(wide "shim_certificate_2.efi", 128); (wide "shimx64.efi", 104); (wide "Revocations_SBAT.efi", 124)].
Definition sample_trust : trust Store :=
  {| tr_sbat := level_state date_2021; tr_verify := l_verify sample_lstate; tr_cert := no_certs |}.

Lemma load_unbundled_trust_correct_witness :
  load_unbundled_trust sample_verifier sample_allocs sample_pool 0 [] disk_device (list_directory sample_entries) 20 sample_trust =
  (tr ← run_loads sample_verifier sample_allocs sample_pool 0 [] disk_device
     [Revocations SBATREVOCATIONFILE; Certificates (wide "shim_certificate_2.efi")] sample_trust; Ok (EFI_SUCCESS, tr)).
Proof.
  refine (load_unbundled_trust_correct sample_verifier sample_allocs sample_pool 0 [] disk_device (list_directory sample_entries)
    (wide "\EFI\a\") sample_entries id EFI_SUCCESS 20 sample_trust sample_pool_ok (list_directory_law _ _) _ eq_refl _ eq_refl eq_refl _ _).
  - repeat (constructor; [split; [repeat (constructor; [done|]); constructor|vm_compute; done]|]). constructor.
  - vm_compute. reflexivity.
  - vm_compute. reflexivity.
  - cbn. lia.
Defined.

(** A server that has a file of three bytes under "a/c.efi". *)
Definition pxe_file : list Z := [1; 2; 3].
Definition pxe_server : tftp_server :=
  {| Mtftp := fun addr path k =>
       if bool_decide (addr = [10; 0; 0; 1] ++ replicate 12 0) && bool_decide (take 8 <$> path = Some [97; 47; 99; 46; 101; 102; 105; 0]) then
         if k <? 3 then (EFI_BUFFER_TOO_SMALL, 3, []) else (EFI_SUCCESS, 3, pxe_file)
       else (EFI_TFTP_ERROR, 0, []);
     TftpError := Some 1 |}.
Definition pxe_device : device :=
  {| dev_loaded_image := EFI_SUCCESS; dev_path := wide "\EFI\a\shimx64.efi"; dev_pxe := (EFI_SUCCESS, Some (demo_mode false (replicate 1024 0)));
     dev_tftp := pxe_server; dev_url_alloc := true; dev_tftp_path_alloc := true; dev_tftp_allocs := replicate 42 true; dev_tftp_addr := 0x100000;
     dev_http_path := None; dev_uri_alloc := true; dev_http := demo_env []; dev_http_addr := 0; dev_disk := sample_disk; dup_alloc := true; path_alloc := true |}.
Lemma pxe_server_serves : tftp_serves pxe_server ([10; 0; 0; 1] ++ replicate 12 0) [97; 47; 99; 46; 101; 102; 105] pxe_file.
Proof.
  intros mem k (pre & post & -> & Hz & _). destruct pre; [|rewrite zlen_cons in Hz; zlia]. cbn [app]. change (zlen pxe_file) with 3. cbn [Mtftp pxe_server].
  rewrite bool_decide_true, (bool_decide_true (take 8 <$> _ = _)) by done. cbn [andb].
  split; intros Hk; [rewrite (proj2 (Z.ltb_lt k 3)) by lia; exists 3, []; split; [done|lia]|by rewrite (proj2 (Z.ltb_ge k 3)) by lia].
Qed.
Lemma netboot_image_read_witness :
  read_image pxe_device (wide "\c.efi") = Ok (inr (wide "\EFI\a\c.efi", (0x100000, pxe_file, 3))).
Proof.
  apply (netboot_image_read pxe_device (wide "\c.efi") (wide "\EFI\a\c.efi") EFI_SUCCESS (demo_mode false (replicate 1024 0)) pxe_file);
    try (vm_compute; reflexivity); [apply demo_mode_ok|exact pxe_server_serves].
Defined.

(** A server in two pieces, and one whose length cannot be allocated. *)
Definition http_sample (responses : list http_response) : device :=
  {| dev_loaded_image := EFI_SUCCESS; dev_path := wide "\EFI\a\shimx64.efi"; dev_pxe := (EFI_NOT_FOUND, None);
     dev_tftp := {| Mtftp := fun _ _ _ => (EFI_NOT_FOUND, 0, []); TftpError := None |}; dev_url_alloc := true; dev_tftp_path_alloc := true;
     dev_tftp_allocs := []; dev_tftp_addr := 0; dev_http_path := Some (demo_nodes ++ [UriNode (demo_uri ++ [0])]); dev_uri_alloc := true;
     dev_http := demo_env responses; dev_http_addr := 0x100000; dev_disk := sample_disk; dup_alloc := true; path_alloc := true |}.
Definition http_pieces : list http_response := [demo_response (demo_length [51]) [1; 2]; demo_response [] [3]].
Lemma http_pieces_serve : http_works (demo_env http_pieces) [1; 2; 3] /\
  http_serves (demo_env http_pieces) (next_uri http_scheme [97; 47; 98; 47; 115] [99; 46; 101; 102; 105]) [97] [1; 2; 3].
Proof.
  split; split; try done.
  - by exists (replicate 3 0).
  - by exists EFI_SUCCESS.
  - eexists _, _. split; [done|]. split; [done|]. split; [|by vm_compute].
    constructor; [|constructor; [|constructor]]; (split; [|split; [done|by exists EFI_SUCCESS]]).
    + apply demo_response_ok; [repeat constructor; discriminate|vm_compute; discriminate].
    + split; [constructor|vm_compute; discriminate].
Qed.
Lemma http_image_read_witness :
  read_image (http_sample http_pieces) (wide "c.efi") = Ok (inr (wide "\EFI\a\c.efi", (0x100000, [1; 2; 3], 3))).
Proof.
  apply (http_image_read (http_sample http_pieces) (wide "c.efi") (wide "\EFI\a\c.efi") EFI_SUCCESS demo_nodes (demo_uri ++ [0]) demo_uri http_scheme
           [97; 47; 98; 47; 115] 9 [1; 2; 3] eq_refl ltac:(vm_compute; reflexivity) eq_refl eq_refl eq_refl); [|reflexivity| |reflexivity|reflexivity|vm_compute; reflexivity| | |reflexivity].
  - repeat constructor.
  - exists [], []. split; [reflexivity|]. split; [reflexivity|repeat constructor; discriminate].
  - exact (proj1 http_pieces_serve).
  - exact (proj2 http_pieces_serve).
Defined.

(** When the memory for the file is refused, read_image succeeds with a NULL pointer
    and the size that the server gave. *)
Theorem http_null_buffer :
  exists path, read_image (http_sample [demo_response (demo_length [49; 48; 52; 56; 53; 55; 54]) [1; 2]]) (wide "c.efi") = Ok (inr (path, (0, [], 1048576))).
Proof. exists (wide "\EFI\a\c.efi"). by vm_compute. Qed.
