(* ===== verification/Tpm.v ===== *)
(** * Measurements: tpm.c

    The devices are the firmware's protocols: a confidential-computing
    measurement protocol, a TPM 2 and a TPM 1.2, each present or not.  What
    they answer may depend on everything they were asked before; what shim asks
    of them is the history [extended].  The variables that have been measured
    are remembered in an array that grows by reallocation. *)
From stdpp Require Import base list numbers option relations sets strings.
From Stdlib Require Import ZArith Lia.
From S2P Require Import Prelude.
From S2P Require Import Efi.
From S2P Require Import Firmware.
From S2P Require Import Esl.
Local Open Scope Z_scope.

Definition TPM_ALG_SHA : Z := 0x00000004.
Definition EV_IPL : Z := 0x0000000d.
Definition EV_EFI_BOOT_SERVICES_APPLICATION : Z := 0x80000003.
Definition EV_EFI_VARIABLE_AUTHORITY : Z := 0x800000e0.
Definition PE_COFF_IMAGE : Z := 0x10.
Definition EFI_CC_FLAG_PE_COFF_IMAGE : Z := 0x10.

(** ** The devices *)

(** TCG_PCR_EVENT; the digest is set only for images. *)
Record TCG_PCR_EVENT : Type := {
  PCRIndex : Z;
  EventType : Z;
  event_digest : option (list Z);
  Event : list Z
}.

(** A call that extends a register: with the flags, the bytes that are hashed
    and the event structure; a TPM 1.2 takes the bytes or nothing (NULL). *)
Inductive extend : Type :=
| cc_extend (flags : Z) (data event : list Z)
| tpm2_extend (flags : Z) (data event : list Z)
| tpm12_extend (data : option (list Z)) (algorithm : Z) (event : TCG_PCR_EVENT).

Record cc_protocol : Type := {
  map_pcr_to_mr_index : Z -> EFI_STATUS + Z;
  cc_hash_log_extend_event : list extend -> extend -> EFI_STATUS
}.

(** EFI_TCG2_BOOT_SERVICE_CAPABILITY; TrEEPresentFlag of the old structure is
    the same byte as TPMPresentFlag. *)
Record capability : Type := {
  Major : Z;
  Minor : Z;
  TPMPresentFlag : bool
}.

Record tpm2_protocol : Type := {
  get_capability : EFI_STATUS + capability;
  tpm2_hash_log_extend_event : list extend -> extend -> EFI_STATUS
}.

(** status_check gives TPMDeactivatedFlag and TPMPresentFlag. *)
Record tpm_protocol : Type := {
  status_check : EFI_STATUS + (bool * bool);
  log_extend_event : list extend -> extend -> EFI_STATUS
}.

(** What LibLocateProtocol finds. *)
Record devices : Type := {
  locate_cc : option cc_protocol;
  locate_tpm2 : option tpm2_protocol;
  locate_tpm : EFI_STATUS + tpm_protocol
}.

(** ** State *)
Record VARIABLE_RECORD : Type := {
  VariableName : string;
  VendorGuid : EFI_GUID;
  Data : list Z
}.
Global Instance VARIABLE_RECORD_eq_dec : EqDecision VARIABLE_RECORD.
Proof. solve_decision. Defined.

(** [measureddata] is NULL or the number of entries the array has room for and
    the entries that are set. *)
Record tpm_state : Type := {
  measuredcount : Z;
  measureddata : option (Z * list VARIABLE_RECORD);
  tpm_defective : bool;
  log_full_already_warned : bool;
  extended : list extend
}.

Definition with_extend (st : tpm_state) (e : extend) : tpm_state :=
  {| measuredcount := measuredcount st; measureddata := measureddata st; tpm_defective := tpm_defective st;
     log_full_already_warned := log_full_already_warned st; extended := extended st ++ [e] |}.
Definition with_defective (st : tpm_state) : tpm_state :=
  {| measuredcount := measuredcount st; measureddata := measureddata st; tpm_defective := true;
     log_full_already_warned := log_full_already_warned st; extended := extended st |}.
Definition warn_first_log_full (st : tpm_state) : tpm_state :=
  {| measuredcount := measuredcount st; measureddata := measureddata st; tpm_defective := tpm_defective st;
     log_full_already_warned := true; extended := extended st |}.
Definition with_records (st : tpm_state) (n : Z) (d : option (Z * list VARIABLE_RECORD)) : tpm_state :=
  {| measuredcount := n; measureddata := d; tpm_defective := tpm_defective st;
     log_full_already_warned := log_full_already_warned st; extended := extended st |}.

Section tpm.
Context (dev : devices).

Definition tpm_present (st : tpm_state) (tpm : tpm_protocol) : bool :=
  if tpm_defective st then false
  else match status_check tpm with
       | inl _ => false
       | inr (deactivated, present) => negb (deactivated || negb present)
       end.

(** The capabilities and whether they have the old layout. *)
Definition tpm2_get_caps (tpm : tpm2_protocol) : EFI_STATUS + (capability * bool) :=
  match get_capability tpm with
  | inl efi_status => inl efi_status
  | inr caps => inr (caps, (Major caps =? 1) && (Minor caps =? 0))
  end.

Definition tpm2_present (caps : capability) (old_caps : bool) : bool :=
  if old_caps && TPMPresentFlag caps then true else TPMPresentFlag caps.

(** The status or the protocol to use. *)
Definition tpm_locate_protocol (st : tpm_state) : EFI_STATUS + (tpm2_protocol + tpm_protocol) :=
  match locate_tpm2 dev with
  | Some tpm2 =>
      match tpm2_get_caps tpm2 with
      | inl efi_status => inl efi_status
      | inr (caps, old_caps) => if tpm2_present caps old_caps then inr (inl tpm2) else inl EFI_NOT_FOUND
      end
  | None =>
      match locate_tpm dev with
      | inl efi_status => inl efi_status
      | inr tpm => if tpm_present st tpm then inr (inr tpm) else inl EFI_NOT_FOUND
      end
  end.

(** A full event log is a success with a warning. *)
Definition log_full (efi_status : EFI_STATUS) (st : tpm_state) : EFI_STATUS * tpm_state :=
  if bool_decide (efi_status = EFI_VOLUME_FULL) then (EFI_SUCCESS, warn_first_log_full st) else (efi_status, st).

(** EFI_CC_EVENT and EFI_TCG2_EVENT have the same packed layout: size, header
    size, header version, register, type and the log. *)
Definition event_bytes (index type : Z) (log : list Z) : list Z :=
  le_split 4 (18 + zlen log) ++ le_split 4 14 ++ le_split 2 1 ++ le_split 4 index ++ le_split 4 type ++ log.

Definition cc_log_event_raw (alloc : bool) (buf : list Z) (pcr : Z) (log : list Z) (type : Z)
    (is_pe_image : bool) (st : tpm_state) : EFI_STATUS * tpm_state :=
  let flags := if is_pe_image then EFI_CC_FLAG_PE_COFF_IMAGE else 0 in
  match locate_cc dev with
  | None => (EFI_SUCCESS, st)
  | Some cc =>
      match map_pcr_to_mr_index cc pcr with
      | inl _ => (EFI_NOT_FOUND, st)
      | inr mr =>
          if negb alloc then (EFI_OUT_OF_RESOURCES, st)
          else
            let e := cc_extend flags buf (event_bytes mr type log) in
            log_full (cc_hash_log_extend_event cc (extended st) e) (with_extend st e)
      end
  end.

Definition tpm2_log_event (alloc : bool) (tpm2 : tpm2_protocol) (buf : list Z) (pcr : Z) (log : list Z) (type : Z)
    (hash : option (list Z)) (st : tpm_state) : EFI_STATUS * tpm_state :=
  if negb alloc then (EFI_OUT_OF_RESOURCES, st)
  else
    let call flags st :=
      let e := tpm2_extend flags buf (event_bytes pcr type log) in
      log_full (tpm2_hash_log_extend_event tpm2 (extended st) e) (with_extend st e) in
    match hash with
    | Some _ =>
        let (efi_status, st) := call PE_COFF_IMAGE st in
        if EFI_ERROR efi_status then call 0 st else (efi_status, st)
    | None => call 0 st
    end.

Definition tpm12_log_event (alloc : bool) (buf : list Z) (pcr : Z) (log : list Z) (type : Z)
    (hash : option (list Z)) (st : tpm_state) : EFI_STATUS * tpm_state :=
  match locate_tpm dev with
  | inl _ => (EFI_SUCCESS, st)
  | inr tpm =>
      if negb (tpm_present st tpm) then (EFI_SUCCESS, st)
      else if negb alloc then (EFI_OUT_OF_RESOURCES, st)
      else
        let event := {| PCRIndex := pcr; EventType := type; event_digest := hash; Event := log |} in
        let e := tpm12_extend (match hash with Some _ => None | None => Some buf end) TPM_ALG_SHA event in
        let (efi_status, st) := log_full (log_extend_event tpm (extended st) e) (with_extend st e) in
        if bool_decide (efi_status = EFI_UNSUPPORTED) then (EFI_SUCCESS, with_defective st)
        else (efi_status, st)
  end.

(** [cc_alloc] and [alloc] are the allocations of the event structures. *)
Definition tpm_log_event_raw (cc_alloc alloc : bool) (buf : list Z) (pcr : Z) (log : list Z) (type : Z)
    (hash : option (list Z)) (st : tpm_state) : EFI_STATUS * tpm_state :=
  let (efi_status, st) := cc_log_event_raw cc_alloc buf pcr log type (bool_decide (is_Some hash)) st in
  if EFI_ERROR efi_status then (efi_status, st)
  else
    match tpm_locate_protocol st with
    | inl efi_status =>
        if negb (bool_decide (efi_status = EFI_NOT_FOUND)) then (efi_status, st) else (EFI_SUCCESS, st)
    | inr (inl tpm2) => tpm2_log_event alloc tpm2 buf pcr log type hash st
    | inr (inr _) => tpm12_log_event alloc buf pcr log type hash st
    end.

Definition tpm_log_event (cc_alloc alloc : bool) (buf : list Z) (pcr : Z) (description : list Z) (st : tpm_state)
  : EFI_STATUS * tpm_state :=
  tpm_log_event_raw cc_alloc alloc buf pcr (description ++ [0]) EV_IPL None st.

(** EFI_IMAGE_LOAD_EVENT: the image at the address [loc], of [size] bytes; the
    device path is NULL or its bytes. *)
Definition image_load_event (loc size addr : Z) (path : option (list Z)) : list Z :=
  let path := from_option id [] path in
  le_split 8 loc ++ le_split 8 size ++ le_split 8 addr ++ le_split 8 (zlen path) ++ path.

Definition tpm_log_pe (load_alloc cc_alloc alloc : bool) (loc : Z) (buf : list Z) (addr : Z) (path : option (list Z))
    (sha1hash : list Z) (pcr : Z) (st : tpm_state) : EFI_STATUS * tpm_state :=
  if negb load_alloc then (EFI_OUT_OF_RESOURCES, st)
  else tpm_log_event_raw cc_alloc alloc buf pcr (image_load_event loc (zlen buf) addr path)
         EV_EFI_BOOT_SERVICES_APPLICATION (Some sha1hash) st.

(** ** Measured variables *)
Fixpoint tpm_data_measured_loop (k : nat) (i : Z) (data : option (Z * list VARIABLE_RECORD)) (v : VARIABLE_RECORD)
  : res bool :=
  match k with
  | O => Ok false
  | S k' =>
      match data with
      | None => Fault
      | Some (_, l) =>
          match l !! Z.to_nat i with
          | None => Fault
          | Some r => if decide (r = v) then Ok true else tpm_data_measured_loop k' (i + 1) data v
          end
      end
  end.
Definition tpm_data_measured (v : VARIABLE_RECORD) (st : tpm_state) : res bool :=
  tpm_data_measured_loop (Z.to_nat (measuredcount st)) 0 (measureddata st) v.

(** [alloc] is the allocation or reallocation of the array, [fields] those of
    the copies of the name, the GUID and the data. *)
Definition tpm_record_data_measurement (alloc fields : bool) (v : VARIABLE_RECORD) (st : tpm_state)
  : res (EFI_STATUS * tpm_state) :=
  let n := measuredcount st in
  let data :=
    match measureddata st with
    | None => if alloc then Some (1, []) else None
    | Some (_, l) => if alloc then Some (n + 1, l) else None
    end in
  match data with
  | None => Ok (EFI_OUT_OF_RESOURCES, with_records st n None)
  | Some (room, l) =>
      if room <=? n then Fault
      else if negb fields then Ok (EFI_OUT_OF_RESOURCES, with_records st n (Some (room, l)))
      else Ok (EFI_SUCCESS, with_records st (n + 1) (Some (room, take (Z.to_nat n) l ++ [v])))
  end.

(** The CHAR16 characters of a name. *)
Definition ucs2 (s : string) : list Z :=
  concat (map (fun c => le_split 2 (Z.of_nat (Ascii.nat_of_ascii c))) (String.list_ascii_of_string s)).
Definition StrLen (s : string) : Z := Z.of_nat (String.length s).

(** EFI_VARIABLE_DATA_TREE, in an allocation of VarLogSize bytes. *)
Definition var_log (v : VARIABLE_RECORD) : res (list Z) :=
  let VarNameLength := StrLen (VariableName v) in
  let VarLogSize := u32 (35 + VarNameLength * 2 + zlen (Data v) - 2 - 1) in
  m ← wrn (replicate (Z.to_nat VarLogSize) 0) 0 (VendorGuid v);
  m ← wr_le m 16 8 VarNameLength;
  m ← wr_le m 24 8 (zlen (Data v));
  m ← wrn m 32 (ucs2 (VariableName v));
  wrn m (32 + VarNameLength * 2) (Data v).

Definition tpm_measure_variable (log_alloc cc_alloc ev_alloc rec_alloc fields : bool) (v : VARIABLE_RECORD)
    (st : tpm_state) : res (EFI_STATUS * tpm_state) :=
  measured ← tpm_data_measured v st;
  if measured : bool then Ok (EFI_SUCCESS, st)
  else if negb log_alloc then Ok (EFI_OUT_OF_RESOURCES, st)
  else
    VarLog ← var_log v;
    let (efi_status, st) := tpm_log_event_raw cc_alloc ev_alloc VarLog 7 VarLog EV_EFI_VARIABLE_AUTHORITY None st in
    if EFI_ERROR efi_status then Ok (efi_status, st)
    else tpm_record_data_measurement rec_alloc fields v st.

Definition fallback_should_prefer_reset (st : tpm_state) : EFI_STATUS :=
  match tpm_locate_protocol st with inl _ => EFI_NOT_FOUND | inr _ => EFI_SUCCESS end.
End tpm.

(** ** What is logged for a variable *)
Definition record_ok (v : VARIABLE_RECORD) : Prop :=
  zlen (VendorGuid v) = 16 /\ 32 + 2 * StrLen (VariableName v) + zlen (Data v) < 2 ^ 32.

(** The GUID, the two lengths, the name and the data. *)
Definition tagged_event (v : VARIABLE_RECORD) : list Z :=
  VendorGuid v ++ le_split 8 (StrLen (VariableName v)) ++ le_split 8 (zlen (Data v)) ++
  ucs2 (VariableName v) ++ Data v.

Lemma ucs2_length s : zlen (ucs2 s) = 2 * StrLen s.
Proof.
  unfold ucs2, StrLen. induction s as [|c s IH]; [done|].
  cbn [String.list_ascii_of_string map concat String.length]. rewrite zlen_app, IH, zlen_le_split. lia.
Qed.

Lemma var_log_ok v : record_ok v -> var_log v = Ok (tagged_event v).
Proof.
  intros [Hg Hs]. unfold var_log, tagged_event. pose proof (ucs2_length (VariableName v)) as Hu.
  assert (Hn : 0 <= StrLen (VariableName v)) by (unfold StrLen; lia). pose proof (zlen_nonneg (Data v)).
  rewrite u32_small by lia.
  replace (Z.to_nat (35 + StrLen (VariableName v) * 2 + zlen (Data v) - 2 - 1))
    with (16 + (8 + (8 + (length (ucs2 (VariableName v)) + length (Data v)))))%nat by (unfold zlen in *; lia).
  rewrite !replicate_add. rewrite wrn_app_0, bind_Ok by (rewrite length_replicate; unfold zlen in *; lia).
  rewrite (wr_le_mid (VendorGuid v)), bind_Ok by (lia || apply length_replicate).
  rewrite (app_assoc (VendorGuid v)).
  rewrite (wr_le_mid (VendorGuid v ++ _)), bind_Ok by (zlia || apply length_replicate).
  rewrite (app_assoc (_ ++ le_split 8 (StrLen _))).
  rewrite (wrn_app_mid ((VendorGuid v ++ _) ++ _)), bind_Ok by (zlia || apply length_replicate).
  rewrite (app_assoc (_ ++ le_split 8 (zlen _))). rewrite <- (app_nil_r (replicate (length (Data v)) 0)).
  rewrite wrn_app_mid by (rewrite ?length_replicate, ?zlen_app, ?zlen_le_split, ?Hu; (lia || done)).
  by rewrite app_nil_r, <- !app_assoc.
Qed.

(** ** The array of records *)
Definition records (st : tpm_state) : list VARIABLE_RECORD := from_option snd [] (measureddata st).

Definition array_ok (st : tpm_state) : Prop :=
  match measureddata st with
  | None => measuredcount st = 0
  | Some (room, l) => zlen l = measuredcount st /\ measuredcount st <= room
  end.

Lemma tpm_data_measured_loop_ok k p l v room :
  k = length l ->
  tpm_data_measured_loop k (zlen p) (Some (room, p ++ l)) v = Ok (bool_decide (v ∈ l)).
Proof.
  intros ->. revert p. induction l as [|r l IH]; intros p; cbn [length tpm_data_measured_loop].
  { rewrite bool_decide_false; [done|]. apply not_elem_of_nil. }
  unfold zlen at 1. rewrite Nat2Z.id, lookup_app_r, Nat.sub_diag by lia. cbn.
  destruct (decide (r = v)) as [->|Hne].
  - rewrite bool_decide_true; [done|]. by left.
  - specialize (IH (p ++ [r])). rewrite <- app_assoc, zlen_app in IH. cbn [app] in IH. rewrite zlen_cons, (zlen_nil (A := VARIABLE_RECORD)) in IH.
    rewrite Z.add_0_l in IH. rewrite IH. f_equal. apply bool_decide_ext. rewrite elem_of_cons. split; [by right|]. by intros [->|].
Qed.

Lemma tpm_data_measured_ok v st : array_ok st -> tpm_data_measured v st = Ok (bool_decide (v ∈ records st)).
Proof.
  unfold array_ok, tpm_data_measured, records. destruct (measureddata st) as [[room l]|]; cbn.
  - intros [Hl _]. rewrite <- Hl. unfold zlen at 1. rewrite Nat2Z.id. exact (tpm_data_measured_loop_ok _ [] l v room eq_refl).
  - intros ->. cbn. rewrite bool_decide_false; [done|]. apply not_elem_of_nil.
Qed.

Lemma tpm_record_ok fields v st :
  array_ok st ->
  exists e st', tpm_record_data_measurement true fields v st = Ok (e, st') /\ array_ok st' /\
    extended st' = extended st /\ tpm_defective st' = tpm_defective st /\
    (if fields then e = EFI_SUCCESS /\ records st' = records st ++ [v]
     else e = EFI_OUT_OF_RESOURCES /\ records st' = records st).
Proof.
  unfold array_ok, tpm_record_data_measurement, records. destruct (measureddata st) as [[room l]|] eqn:Ed; cbn [from_option snd].
  - intros [Hl Hr]. case_if; [lia|]. destruct fields; cbn [negb]; eexists _, _; (split; [done|]); cbn;
      rewrite <- Hl; [|repeat split; lia].
    rewrite take_ge by (unfold zlen; lia). rewrite zlen_app, zlen_cons, (zlen_nil (A := VARIABLE_RECORD)). repeat split; lia.
  - intros ->. case_if; [lia|]. destruct fields; cbn [negb]; eexists _, _; (split; [done|]); cbn; by repeat split.
Qed.

(** ** What the devices have been asked *)

(** The later state knows at least what the earlier one knew. *)
Record grows (st st' : tpm_state) : Prop := {
  gr_extended : extended st ⊆ extended st';
  gr_defective : tpm_defective st' = false -> tpm_defective st = false
}.
Global Instance grows_preorder : PreOrder grows.
Proof.
  split; [by split|]. intros a b c [H1 H2] [H3 H4]. split; [set_solver|auto].
Qed.

(** The same records, and a history that grew. *)
Definition logs (st st' : tpm_state) : Prop :=
  grows st st' /\ measuredcount st' = measuredcount st /\ measureddata st' = measureddata st.
Global Instance logs_preorder : PreOrder logs.
Proof.
  split; [by intros a|]. intros a b c (H1 & H2 & H3) (H4 & H5 & H6).
  split; [by transitivity b|]. split; congruence.
Qed.

Lemma log_full_state e st :
  snd (log_full e st) = st \/ snd (log_full e st) = warn_first_log_full st.
Proof. unfold log_full. case_bool_decide; auto. Qed.

Lemma log_full_logs e ev st st' s : log_full e (with_extend st ev) = (s, st') -> logs st st' /\ ev ∈ extended st'.
Proof.
  intros Hl. destruct (log_full_state e (with_extend st ev)) as [Hs|Hs]; rewrite Hl in Hs; cbn in Hs; subst st';
    (split; [split; [split; [cbn; set_solver|done]|done]|cbn; set_solver]).
Qed.

Lemma logs_defective st : logs st (with_defective st).
Proof. by repeat split. Qed.

Section measured.
Context (dev : devices).

(** Every device that is there has been asked to hash [buf], with the event of
    the given register and type. *)
Record measured_on (st : tpm_state) (buf : list Z) (pcr type : Z) (log : list Z) : Prop := {
  mo_cc cc : locate_cc dev = Some cc ->
    exists mr, map_pcr_to_mr_index cc pcr = inr mr /\ cc_extend 0 buf (event_bytes mr type log) ∈ extended st;
  mo_tpm2 tpm2 : locate_tpm2 dev = Some tpm2 ->
    (exists caps, get_capability tpm2 = inr caps /\ TPMPresentFlag caps = true) ->
    tpm2_extend 0 buf (event_bytes pcr type log) ∈ extended st;
  mo_tpm tpm : locate_tpm2 dev = None -> locate_tpm dev = inr tpm -> status_check tpm = inr (false, true) ->
    tpm_defective st = false ->
    tpm12_extend (Some buf) TPM_ALG_SHA
      {| PCRIndex := pcr; EventType := type; event_digest := None; Event := log |} ∈ extended st
}.

Lemma measured_on_grows st st' buf pcr type log :
  grows st st' -> measured_on st buf pcr type log -> measured_on st' buf pcr type log.
Proof.
  intros [Hsub Hd] [H1 H2 H3]. split.
  - intros cc Hc. destruct (H1 cc Hc) as (mr & ? & ?). exists mr. split; [done|by apply Hsub].
  - intros t Ht Hcaps. apply Hsub. eauto.
  - intros t Hn Ht Hst Hdef. apply Hsub. eauto.
Qed.

Lemma cc_log_event_raw_ok alloc buf pcr log type pe st e st' :
  cc_log_event_raw dev alloc buf pcr log type pe st = (e, st') ->
  logs st st' /\ tpm_defective st' = tpm_defective st /\
  (EFI_ERROR e = false -> forall cc, locate_cc dev = Some cc ->
     exists mr, map_pcr_to_mr_index cc pcr = inr mr /\
       cc_extend (if pe then EFI_CC_FLAG_PE_COFF_IMAGE else 0) buf (event_bytes mr type log) ∈ extended st').
Proof.
  unfold cc_log_event_raw. destruct (locate_cc dev) as [cc|]; [|by intros [= <- <-]].
  destruct (map_pcr_to_mr_index cc pcr) as [x|mr] eqn:Em; [by intros [= <- <-]|].
  destruct alloc; cbn [negb]; [|by intros [= <- <-]]. intros Hl. destruct (log_full_logs _ _ _ _ _ Hl) as [Hg Hin].
  split; [done|]. split.
  - destruct (log_full_state (cc_hash_log_extend_event cc (extended st) (cc_extend (if pe then EFI_CC_FLAG_PE_COFF_IMAGE else 0) buf (event_bytes mr type log)))
      (with_extend st (cc_extend (if pe then EFI_CC_FLAG_PE_COFF_IMAGE else 0) buf (event_bytes mr type log)))) as [Hs|Hs];
      rewrite Hl in Hs; cbn in Hs; by subst st'.
  - intros _ cc' [= <-]. eauto.
Qed.

Lemma tpm2_log_event_ok alloc tpm2 buf pcr log type hash st e st' :
  tpm2_log_event alloc tpm2 buf pcr log type hash st = (e, st') ->
  logs st st' /\ (EFI_ERROR e = false -> hash = None -> tpm2_extend 0 buf (event_bytes pcr type log) ∈ extended st').
Proof.
  unfold tpm2_log_event. destruct alloc; cbn [negb]; [|by intros [= <- <-]]. destruct hash.
  - destruct (log_full _ _) as [e1 st1] eqn:E1. destruct (log_full_logs _ _ _ _ _ E1) as [H1 _].
    destruct (EFI_ERROR e1); [|by intros [= <- <-]].
    intros E2. destruct (log_full_logs _ _ _ _ _ E2) as [H2 _]. split; [by transitivity st1|done].
  - intros E1. destruct (log_full_logs _ _ _ _ _ E1) as [H1 Hin]. by split.
Qed.

Lemma tpm12_log_event_ok alloc buf pcr log type hash st e st' tpm :
  locate_tpm dev = inr tpm ->
  tpm12_log_event dev alloc buf pcr log type hash st = (e, st') ->
  logs st st' /\
  (EFI_ERROR e = false -> hash = None -> tpm_present st tpm = true ->
   tpm12_extend (Some buf) TPM_ALG_SHA
     {| PCRIndex := pcr; EventType := type; event_digest := None; Event := log |} ∈ extended st').
Proof.
  intros Ht. unfold tpm12_log_event. rewrite Ht. destruct (tpm_present st tpm) eqn:Ep; cbn [negb];
    [|intros [= <- <-]; split; done].
  destruct alloc; cbn [negb]; [|by intros [= <- <-]].
  destruct (log_full _ _) as [e1 st1] eqn:E1. destruct (log_full_logs _ _ _ _ _ E1) as [H1 Hin].
  case_bool_decide; intros [= <- <-].
  - split; [etransitivity; [exact H1|apply logs_defective]|]. intros _ -> _. cbn. exact Hin.
  - split; [done|]. intros _ -> _. exact Hin.
Qed.

Lemma tpm_log_event_raw_ok ca ea buf pcr log type hash st e st' :
  tpm_log_event_raw dev ca ea buf pcr log type hash st = (e, st') ->
  logs st st' /\ (EFI_ERROR e = false -> hash = None -> measured_on st' buf pcr type log).
Proof.
  unfold tpm_log_event_raw. destruct (cc_log_event_raw _ _ _ _ _ _ _ _) as [e1 st1] eqn:E1.
  destruct (cc_log_event_raw_ok _ _ _ _ _ _ _ _ _ E1) as (Hl1 & Hd1 & Hcc).
  destruct (EFI_ERROR e1) eqn:Ee1; [intros [= <- <-]; split; [done|by rewrite Ee1]|].
  specialize (Hcc eq_refl).
  assert (Hfin : forall st2, logs st1 st2 -> hash = None -> forall cc, locate_cc dev = Some cc ->
    exists mr, map_pcr_to_mr_index cc pcr = inr mr /\ cc_extend 0 buf (event_bytes mr type log) ∈ extended st2).
  { intros st2 [[Hs _] _] -> cc Hc. destruct (Hcc cc Hc) as (mr & Hm & Hin). exists mr. split; [done|]. by apply Hs. }
  unfold tpm_locate_protocol, tpm2_get_caps, tpm2_present. destruct (locate_tpm2 dev) as [tpm2|] eqn:E2.
  - destruct (get_capability tpm2) as [x|caps] eqn:Ec.
    { destruct (bool_decide (x = EFI_NOT_FOUND)); cbn [negb].
      - intros [= <- <-]. split; [done|]. intros _ Hh. split; [by apply Hfin| |congruence].
        intros t Ht (c & Hc & _). congruence.
      - intros [= <- <-]. split; [done|]. intros He Hh. split; [by apply Hfin| |congruence].
        intros t Ht (c & Hc & _). congruence. }
    destruct (TPMPresentFlag caps) eqn:Ef.
    + rewrite andb_true_r. assert (Hif : (if (Major caps =? 1) && (Minor caps =? 0) then true else true) = true)
        by by destruct (_ && _). rewrite Hif.
      intros E3. destruct (tpm2_log_event_ok _ _ _ _ _ _ _ _ _ _ E3) as [Hl2 Hin]. split; [by transitivity st1|].
      intros He Hh. split; [by apply Hfin| |congruence]. intros t Ht _. assert (t = tpm2) as -> by congruence. auto.
    + rewrite andb_false_r. cbn. intros [= <- <-]. split; [done|]. intros _ Hh. split; [by apply Hfin| |congruence].
      intros t Ht (c & Hc & Hp). congruence.
  - destruct (locate_tpm dev) as [x|tpm] eqn:E3.
    { destruct (bool_decide (x = EFI_NOT_FOUND)); cbn [negb]; intros [= <- <-]; (split; [done|]); intros;
        (split; [by apply Hfin|congruence|congruence]). }
    destruct (tpm_present st1 tpm) eqn:Ep.
    + intros E4. destruct (tpm12_log_event_ok _ _ _ _ _ _ _ _ _ _ E3 E4) as [Hl2 Hin]. split; [by transitivity st1|].
      intros He Hh. split; [by apply Hfin|congruence|]. intros t _ Ht _ _. assert (t = tpm) as -> by congruence. auto.
    + rewrite bool_decide_true by done. cbn [negb]. intros [= <- <-]. split; [done|]. intros _ Hh. split; [by apply Hfin|congruence|].
      intros t _ Ht Hs Hd. assert (t = tpm) as -> by congruence. unfold tpm_present in Ep. by rewrite Hd, Hs in Ep.
Qed.
End measured.

(** ** The invariant of the records *)
Definition tpm_initial : tpm_state :=
  {| measuredcount := 0; measureddata := None; tpm_defective := false; log_full_already_warned := false;
     extended := [] |}.

Section invariant.
Context (dev : devices).

(** Any sequence of the calls other code makes, with any answers of the devices
    and any allocations but those of the array. *)
Inductive tpm_step : tpm_state -> tpm_state -> Prop :=
| step_measure la ca ea fields v st e st' :
    record_ok v -> tpm_measure_variable dev la ca ea true fields v st = Ok (e, st') -> tpm_step st st'
| step_log ca ea buf pcr description st e st' :
    tpm_log_event dev ca ea buf pcr description st = (e, st') -> tpm_step st st'
| step_pe la ca ea loc buf addr path hash pcr st e st' :
    tpm_log_pe dev la ca ea loc buf addr path hash pcr st = (e, st') -> tpm_step st st'.

Record tpm_inv (st : tpm_state) : Prop := {
  ti_array : array_ok st;
  ti_once : NoDup (records st);
  ti_extended : forall v, v ∈ records st ->
    measured_on dev st (tagged_event v) 7 EV_EFI_VARIABLE_AUTHORITY (tagged_event v)
}.

Lemma tpm_inv_logs st st' : logs st st' -> tpm_inv st -> tpm_inv st'.
Proof.
  intros (Hg & Hn & Hd) [Ha Ho He]. split.
  - unfold array_ok in *. by rewrite Hn, Hd.
  - unfold records in *. by rewrite Hd.
  - intros v. unfold records. rewrite Hd. intros Hv. by eapply measured_on_grows, He.
Qed.

Lemma tpm_measure_variable_ok la ca ea fields v st :
  record_ok v -> tpm_inv st ->
  exists e st', tpm_measure_variable dev la ca ea true fields v st = Ok (e, st') /\ tpm_inv st' /\ grows st st' /\
    (EFI_ERROR e = false -> v ∈ records st').
Proof.
  intros Hv Hi. unfold tpm_measure_variable. rewrite (tpm_data_measured_ok v st (ti_array _ Hi)), bind_Ok.
  case_bool_decide as Em; [by eexists _, _|]. destruct la; cbn [negb]; [|by eexists _, _].
  rewrite (var_log_ok v Hv), bind_Ok.
  destruct (tpm_log_event_raw _ _ _ _ _ _ _ _ _) as [e1 st1] eqn:E1.
  destruct (tpm_log_event_raw_ok _ _ _ _ _ _ _ _ _ _ _ E1) as [Hl1 Hm]. pose proof (tpm_inv_logs _ _ Hl1 Hi) as Hi1.
  destruct (EFI_ERROR e1) eqn:Ee; [eexists _, _; split; [done|]; split; [done|]; split; [apply Hl1|by rewrite Ee]|].
  specialize (Hm eq_refl eq_refl). assert (Hr1 : records st1 = records st) by (unfold records; by destruct Hl1 as (_ & _ & ->)).
  destruct (tpm_record_ok fields v st1 (ti_array _ Hi1)) as (e & st2 & -> & Ha & Hx & Hd & Hrec).
  assert (Hg : grows st1 st2) by (split; [by rewrite Hx|by rewrite Hd]).
  eexists _, _. split; [done|]. destruct fields.
  - destruct Hrec as [-> Hrec]. split; [|split; [by transitivity st1; [apply Hl1|]|]].
    + split; [done| |].
      * rewrite Hrec, Hr1. apply NoDup_app. split; [apply Hi|]. split; [|apply NoDup_singleton].
        intros x Hx1 Hx2%list_elem_of_singleton. by subst x.
      * intros x. rewrite Hrec, elem_of_app, list_elem_of_singleton.
        intros [Hin|Heq]; [|subst x]; (eapply measured_on_grows; [exact Hg|]); [by apply Hi1|exact Hm].
    + intros _. rewrite Hrec. set_solver.
  - destruct Hrec as [-> Hrec]. split; [|split; [by transitivity st1; [apply Hl1|]|done]].
    split; [done|rewrite Hrec; apply Hi1|]. intros x. rewrite Hrec. intros Hin.
    eapply measured_on_grows; [exact Hg|]. by apply Hi1.
Qed.

Lemma tpm_step_inv st st' : tpm_step st st' -> tpm_inv st -> tpm_inv st'.
Proof.
  intros Hs Hi. destruct Hs as [la ca ea fields v st e st' Hv Hm|ca ea buf pcr d st e st' Hl|la ca ea loc buf addr path h pcr st e st' Hl].
  - destruct (tpm_measure_variable_ok la ca ea fields v st Hv Hi) as (e2 & st2 & Heq & Hi2 & _). congruence.
  - by eapply tpm_inv_logs; [eapply tpm_log_event_raw_ok, Hl|].
  - unfold tpm_log_pe in Hl. destruct la; cbn [negb] in Hl; [|by injection Hl as _ <-].
    by eapply tpm_inv_logs; [eapply tpm_log_event_raw_ok, Hl|].
Qed.

Lemma tpm_initial_inv : tpm_inv tpm_initial.
Proof. split; [done|apply NoDup_nil_2|]. intros v Hv. by apply not_elem_of_nil in Hv. Qed.
End invariant.

(** A device that works: extending succeeds, possibly with a full log. *)
Definition extends (answer : list extend -> extend -> EFI_STATUS) : Prop :=
  forall h e, answer h e = EFI_SUCCESS \/ answer h e = EFI_VOLUME_FULL.
Record working (dev : devices) : Prop := {
  wk_cc cc : locate_cc dev = Some cc ->
    extends (cc_hash_log_extend_event cc) /\ forall pcr, exists mr, map_pcr_to_mr_index cc pcr = inr mr;
  wk_tpm2 tpm2 : locate_tpm2 dev = Some tpm2 ->
    extends (tpm2_hash_log_extend_event tpm2) /\ exists caps, get_capability tpm2 = inr caps;
  wk_tpm tpm : locate_tpm dev = inr tpm -> extends (log_extend_event tpm);
  wk_no_tpm e : locate_tpm dev = inl e -> e = EFI_NOT_FOUND
}.

Lemma log_full_extends answer h e st : extends answer -> fst (log_full (answer h e) st) = EFI_SUCCESS.
Proof. intros Hw. unfold log_full. by destruct (Hw h e) as [-> | ->]; case_bool_decide. Qed.

Lemma tpm_log_event_raw_success dev buf pcr log type hash st :
  working dev -> fst (tpm_log_event_raw dev true true buf pcr log type hash st) = EFI_SUCCESS.
Proof.
  intros [Hcc H2 H1 H0]. unfold tpm_log_event_raw.
  assert (Hc : fst (cc_log_event_raw dev true buf pcr log type (bool_decide (is_Some hash)) st) = EFI_SUCCESS).
  { unfold cc_log_event_raw. destruct (locate_cc dev) as [cc|]; [|done]. destruct (Hcc cc eq_refl) as [Hx Hm].
    destruct (Hm pcr) as [mr ->]. by apply log_full_extends. }
  destruct (cc_log_event_raw _ _ _ _ _ _ _ _) as [e1 st1]. cbn in Hc. subst e1. cbn [EFI_ERROR].
  unfold tpm_locate_protocol, tpm2_get_caps. destruct (locate_tpm2 dev) as [tpm2|].
  - destruct (H2 tpm2 eq_refl) as [Hx [caps ->]]. destruct (tpm2_present _ _); [|done].
    unfold tpm2_log_event. cbn [negb]. destruct hash; [|by apply log_full_extends].
    pose proof (log_full_extends (tpm2_hash_log_extend_event tpm2) (extended st1)
      (tpm2_extend PE_COFF_IMAGE buf (event_bytes pcr type log)) 
      (with_extend st1 (tpm2_extend PE_COFF_IMAGE buf (event_bytes pcr type log))) Hx) as Hl.
    destruct (log_full _ _) as [e2 st2]. cbn in Hl. by subst e2.
  - destruct (locate_tpm dev) as [x|tpm] eqn:E; [by rewrite (H0 x eq_refl)|].
    destruct (tpm_present st1 tpm) eqn:Ep; [|done]. unfold tpm12_log_event. rewrite E, Ep. cbn [negb].
    match goal with |- context [log_full (log_extend_event tpm ?h ?e) ?s] =>
      pose proof (log_full_extends (log_extend_event tpm) h e s (H1 tpm eq_refl)) as Hl; destruct (log_full _ _) as [e2 st2] end.
    cbn in Hl. subst e2. by case_bool_decide.
Qed.

Lemma tpm_measure_variable_success dev v st :
  working dev -> record_ok v -> tpm_inv dev st ->
  exists st', tpm_measure_variable dev true true true true true v st = Ok (EFI_SUCCESS, st') /\ tpm_inv dev st'.
Proof.
  intros Hw Hv Hi.
  destruct (tpm_measure_variable_ok dev true true true true v st Hv Hi) as (e & st' & Heq & Hi' & _ & _).
  exists st'. split; [|done]. rewrite Heq. do 2 f_equal. revert Heq. unfold tpm_measure_variable.
  rewrite (tpm_data_measured_ok v st (ti_array _ _ Hi)), bind_Ok. case_bool_decide; [by intros [= <- _]|]. cbn [negb].
  rewrite (var_log_ok v Hv), bind_Ok.
  pose proof (tpm_log_event_raw_success dev (tagged_event v) 7 (tagged_event v) EV_EFI_VARIABLE_AUTHORITY None st Hw) as Hs.
  destruct (tpm_log_event_raw _ _ _ _ _ _ _ _ _) as [e1 st1] eqn:E1. cbn in Hs. subst e1. cbn [EFI_ERROR].
  destruct (tpm_log_event_raw_ok _ _ _ _ _ _ _ _ _ _ _ E1) as [Hl1 _].
  destruct (tpm_record_ok true v st1 (ti_array _ _ (tpm_inv_logs _ _ _ Hl1 Hi))) as (e2 & st2 & -> & _ & _ & _ & [-> _]).
  by intros [= <- _].
Qed.

(** ** Theorems *)

(** C28. Whatever shim measures and logs, and whatever the devices answer: every
    variable that is recorded as measured is recorded once, and each device
    that is present (and, for a TPM 1.2, not defective) has been asked to extend
    PCR 7 with it. *)
Theorem measured_variables_extended dev st :
  rtc (tpm_step dev) tpm_initial st -> tpm_inv dev st.
Proof.
  intros Hr. assert (Hi := tpm_initial_inv dev). revert Hi.
  induction Hr as [x|x y z Hs Hr IH]; [done|]. intros Hi. apply IH. by eapply tpm_step_inv.
Qed.

(** A variable that was measured successfully is not measured again: the
    second call succeeds and neither asks a device nor changes the state. *)
Theorem tpm_measure_variable_once dev la ca ea fields v st st' la2 ca2 ea2 ra2 fields2 :
  record_ok v -> tpm_inv dev st ->
  tpm_measure_variable dev la ca ea true fields v st = Ok (EFI_SUCCESS, st') ->
  tpm_measure_variable dev la2 ca2 ea2 ra2 fields2 v st' = Ok (EFI_SUCCESS, st').
Proof.
  intros Hv Hi H1. destruct (tpm_measure_variable_ok dev la ca ea fields v st Hv Hi) as (e & st2 & Heq & Hi2 & _ & Hin).
  rewrite H1 in Heq. injection Heq as <- <-. unfold tpm_measure_variable.
  rewrite (tpm_data_measured_ok v st' (ti_array _ _ Hi2)), bind_Ok, bool_decide_true; [done|]. by apply Hin.
Qed.


(** With working devices, logging always succeeds: a full event log, a
    device that is missing, not present or deactivated, is no error. *)
Theorem tpm_log_event_raw_succeeds dev buf pcr log type hash st :
  working dev -> fst (tpm_log_event_raw dev true true buf pcr log type hash st) = EFI_SUCCESS.
Proof. apply tpm_log_event_raw_success. Qed.

(** When the array of records cannot be reallocated, the pointer is lost and
    the count is kept: the next variable that is measured reads through NULL. *)
Theorem tpm_record_lost v st room l :
  measureddata st = Some (room, l) -> 0 < measuredcount st ->
  exists st', tpm_record_data_measurement false true v st = Ok (EFI_OUT_OF_RESOURCES, st') /\
    forall dev la ca ea ra fields w, tpm_measure_variable dev la ca ea ra fields w st' = Fault.
Proof.
  intros Hd Hn. unfold tpm_record_data_measurement. rewrite Hd. eexists. split; [done|]. intros.
  unfold tpm_measure_variable, tpm_data_measured. cbn [measuredcount measureddata with_records].
  destruct (Z.to_nat (measuredcount st)) eqn:E; [lia|done].
Qed.

(** ** An example: a machine with a TPM 2 *)
Definition sample_devices : devices :=
  {| locate_cc := None;
     locate_tpm2 := Some {| get_capability := inr {| Major := 1; Minor := 1; TPMPresentFlag := true |};
                            tpm2_hash_log_extend_event := fun _ _ => EFI_SUCCESS |};
     locate_tpm := inl EFI_NOT_FOUND |}.
Definition sample_record : VARIABLE_RECORD := {| VariableName := "db"; VendorGuid := SIG_DB; Data := [1; 2; 3] |}.
Definition sample_measured : tpm_state :=
  {| measuredcount := 1; measureddata := Some (1, [sample_record]); tpm_defective := false;
     log_full_already_warned := false;
     extended := [tpm2_extend 0 (tagged_event sample_record)
                    (event_bytes 7 EV_EFI_VARIABLE_AUTHORITY (tagged_event sample_record))] |}.

Lemma measured_variables_extended_witness : tpm_inv sample_devices sample_measured.
Proof.
  apply (measured_variables_extended sample_devices). eapply rtc_l; [|apply rtc_refl].
  eapply (step_measure sample_devices true true true true sample_record); [by vm_compute|vm_compute; reflexivity].
Defined.

Lemma tpm_measure_variable_once_witness :
  tpm_measure_variable sample_devices true true true true true sample_record sample_measured
  = Ok (EFI_SUCCESS, sample_measured).
Proof.
  apply (tpm_measure_variable_once sample_devices true true true true sample_record tpm_initial sample_measured);
    [by vm_compute|apply tpm_initial_inv|vm_compute; reflexivity].
Defined.

Lemma tpm_log_event_raw_succeeds_witness :
  fst (tpm_log_event_raw sample_devices true true [7] 8 [65; 0] EV_IPL None tpm_initial) = EFI_SUCCESS.
Proof.
  apply (tpm_log_event_raw_succeeds sample_devices [7] 8 [65; 0] EV_IPL None tpm_initial). split.
  - done.
  - intros t [= <-]. split; [by left|eauto].
  - done.
  - by intros e [= <-].
Defined.

Lemma tpm_record_lost_witness :
  exists st', tpm_record_data_measurement false true sample_record sample_measured = Ok (EFI_OUT_OF_RESOURCES, st') /\
    forall dev la ca ea ra fields w, tpm_measure_variable dev la ca ea ra fields w st' = Fault.
Proof. apply (tpm_record_lost sample_record sample_measured 1 [sample_record]); [reflexivity|cbn; lia]. Defined.
