(* ===== verification/Mok.v ===== *)
(** * MOK state: mok.c

    shim reads its variables (MokList, MokSBState, ...), drops those an OS could
    have written, and mirrors the rest into run-time variables and a
    configuration table.  A variable of the table mok_state_variable_data is the
    record [mok_state_variable]; its buffer is NULL or an allocation that may be
    longer than data_size.  The firmware is the class [Firmware] with two more
    services, [MokFirmware]; measurements go to [Tpm].

    gnu-efi's SPrint and AsciiSPrint are parameters: the text they produce.
    Messages on the console are left out. *)
From stdpp Require Import base list numbers option strings.
From Stdlib Require Import ZArith Lia.
From S2P Require Import Prelude.
From S2P Require Import Efi.
From S2P Require Import Str.
From S2P Require Import Firmware.
From S2P Require Import Esl.
From S2P Require Import Variables.
From S2P Require Import PeHeader.
From S2P Require Import Tpm.
Local Open Scope Z_scope.

Definition MOK_MIRROR_KEYDB : Z := 0x01.
Definition MOK_MIRROR_DELETE_FIRST : Z := 0x02.
Definition MOK_VARIABLE_MEASURE : Z := 0x04.
Definition MOK_VARIABLE_LOG : Z := 0x08.
Definition MOK_VARIABLE_INVERSE : Z := 0x10.
Definition MOK_VARIABLE_CONFIG_ONLY : Z := 0x20.
Definition EFI_PAGE_SHIFT : Z := 12.

(** RT->QueryVariableInfo gives the status, the storage size, what remains of
    it and the largest variable; LibDeleteVariable is gnu-efi's. *)
Class MokFirmware (S : Type) `{Firmware S} : Type := {
  QueryVariableInfo : S -> Z -> EFI_STATUS * (Z * Z * Z);
  LibDeleteVariable : S -> string -> EFI_GUID -> EFI_STATUS * S
}.

Inductive vendor_addend_category_t : Type :=
| VENDOR_ADDEND_DB
| VENDOR_ADDEND_X509
| VENDOR_ADDEND_NONE.

(** The globals a state variable may point to. *)
Inductive mok_global : Type :=
| user_insecure_mode
| ignore_db
| trust_mok_list
| mok_policy.
Global Instance mok_global_eq_dec : EqDecision mok_global.
Proof. solve_decision. Defined.

(** The format helpers. *)
Inductive mok_variable_format_helper_t : Type :=
| FORMAT_HSI_STATUS
| FORMAT_VARIABLE_INFO.

(** Pointers to an addend or certificate are NULL or have the bytes they lead
    to. *)
Record mok_state_variable : Type := {
  msv_name : string;
  msv_rtname : string;
  msv_guid : EFI_GUID;
  msv_data : option (list Z);
  msv_data_size : Z;
  msv_categorize : option (option (list Z) -> vendor_addend_category_t);
  msv_addend : option (list Z);
  msv_user_cert : option (list Z);
  msv_build_cert : option (list Z);
  msv_yes_attr : Z;
  msv_no_attr : Z;
  msv_flags : Z;
  msv_pcr : Z;
  msv_state : option mok_global;
  msv_format : option mok_variable_format_helper_t
}.

Definition set_data (v : mok_state_variable) (data : option (list Z)) (size : Z) : mok_state_variable :=
  {| msv_name := msv_name v; msv_rtname := msv_rtname v; msv_guid := msv_guid v; msv_data := data;
     msv_data_size := size; msv_categorize := msv_categorize v; msv_addend := msv_addend v;
     msv_user_cert := msv_user_cert v; msv_build_cert := msv_build_cert v; msv_yes_attr := msv_yes_attr v;
     msv_no_attr := msv_no_attr v; msv_flags := msv_flags v; msv_pcr := msv_pcr v; msv_state := msv_state v;
     msv_format := msv_format v |}.

(** [*addend && *addend_size] *)
Definition nonempty (d : option (list Z)) : bool := match d with Some (_ :: _) => true | _ => false end.

Definition categorize_authorized (vendor_authorized_category : vendor_addend_category_t) (addend : option (list Z))
  : vendor_addend_category_t :=
  if negb (nonempty addend) then VENDOR_ADDEND_NONE else vendor_authorized_category.
Definition categorize_deauthorized (addend : option (list Z)) : vendor_addend_category_t :=
  if negb (nonempty addend) then VENDOR_ADDEND_NONE else VENDOR_ADDEND_DB.

(** ** format_hsi_status *)
Definition ascii_bytes (s : string) : list Z :=
  map (fun c => Z.of_nat (Ascii.nat_of_ascii c)) (String.list_ascii_of_string s).
Definition NL : string := String (Ascii.ascii_of_nat 10) "".
Definition hsi_labels : list (string * Z) :=
  [("heap-is-executable: ", SHIM_HSI_STATUS_HEAPX);
   (NL +:+ "stack-is-executable: ", SHIM_HSI_STATUS_STACKX);
   (NL +:+ "ro-sections-are-writable: ", SHIM_HSI_STATUS_ROW);
   (NL +:+ "has-memory-attribute-protocol: ", SHIM_HSI_STATUS_HASMAP);
   (NL +:+ "has-dxe-services-table: ", SHIM_HSI_STATUS_HASDST);
   (NL +:+ "has-get-memory-space-descriptor: ", SHIM_HSI_STATUS_HASDSTGMSD);
   (NL +:+ "has-set-memory-space-attributes: ", SHIM_HSI_STATUS_HASDSTSMSA);
   (NL +:+ "shim-has-nx-compat-set: ", SHIM_HSI_STATUS_NX)].

(** sizeof of a string constant *)
Definition sizeof_str (s : string) : Z := StrLen s + 1.

Definition hsi_size : Z :=
  fold_left (fun n l => n + sizeof_str (fst l)) hsi_labels 0 + sizeof_str NL.

(** pos = stpcpy(pos, label); pos = stpcpy(pos, bit ? "1" : "0"); *)
Fixpoint format_labels (hsi_status : Z) (labels : list (string * Z)) (buf : list Z) (pos : Z) : res (list Z * Z) :=
  match labels with
  | [] => Ok (buf, pos)
  | (label, mask) :: labels' =>
      '(buf, pos) ← stpcpy buf pos (ascii_bytes label ++ [0]) 0;
      '(buf, pos) ← stpcpy buf pos (if has_flag hsi_status mask then [49; 0] else [48; 0]) 0;
      format_labels hsi_status labels' buf pos
  end.

(** A helper takes NULL or a buffer and a size; it returns a size and the buffer
    it has written to. *)
Definition format_hsi_status (hsi_status : Z) (buf : option (list Z)) (sz : Z) : res (Z * option (list Z)) :=
  match buf with
  | None => Ok (hsi_size, None)
  | Some b =>
      if sz <? hsi_size then Ok (hsi_size, buf)
      else
        b ← wr b 0 0;
        '(b, pos) ← format_labels hsi_status hsi_labels b 0;
        '(b, _) ← stpcpy b pos [10; 0] 0;
        Ok (hsi_size, Some b)
  end.

(** ** Firmware without QueryVariableInfo *)
Record platform : Type := {
  efi_major_version : Z;
  FirmwareVendor : option string
}.

(** The ten bytes copied into a local buffer are not used. *)
Definition is_apple_firmware_vendor (p : platform) : bool :=
  match FirmwareVendor p with
  | None => false
  | Some vendor => String.prefix "Apple" vendor
  end.

Section mok.
Context {S : Type} `{MokFirmware S} (p : platform).
(** gnu-efi's formatting: "%s%lu"; and, for the room there is, a prefix, a
    label and a number "%a_label: 0x%lx", the text without its NUL. *)
Context (SPrint : string -> Z -> string) (AsciiSPrint : Z -> string -> string -> Z -> list Z).

(** Whether a variable exists: four bytes of room. *)
Definition check_var (s : S) (varname : string) : bool :=
  let st := gv_status (GetVariable s varname SHIM_LOCK_GUID 4 true) in
  negb (EFI_ERROR st) || bool_decide (st = EFI_BUFFER_TOO_SMALL).

Definition mok_requests : list string :=
  ["MokNew"; "MokSB"; "MokPW"; "MokAuth"; "MokDel"; "MokDB"; "MokXNew"; "MokXDel"; "MokXAuth"; "MokListTrustedNew"].

(** Starting MokManager, and what it does to the variables, is a parameter.  When it
    is missing on removable media the code shows a message and resets the machine
    instead of returning; here the call returns EFI_NOT_FOUND in that case too, so
    that what is proved of a return covers the runs that go on without a reset and
    more.  The counting down and the reset themselves are not modelled. *)
Definition check_mok_request (start_MokManager : S -> EFI_STATUS * S) (s : S) : EFI_STATUS * S :=
  if existsb (check_var s) mok_requests then
    let (efi_status, s) := start_MokManager s in
    if EFI_ERROR efi_status then (efi_status, s) else (EFI_SUCCESS, s)
  else (EFI_SUCCESS, s).

(** ** format_variable_info *)
Definition var_sets : list (Z * string) :=
  [(EFI_VARIABLE_BOOTSERVICE_ACCESS, "bs");
   (Z.lor EFI_VARIABLE_BOOTSERVICE_ACCESS EFI_VARIABLE_NON_VOLATILE, "bs_rt");
   (Z.lor EFI_VARIABLE_BOOTSERVICE_ACCESS EFI_VARIABLE_RUNTIME_ACCESS, "bs_nv");
   (Z.lor (Z.lor EFI_VARIABLE_BOOTSERVICE_ACCESS EFI_VARIABLE_RUNTIME_ACCESS) EFI_VARIABLE_NON_VOLATILE,
    "bs_nv_rt")].

(** The three numbers of a set, zero when the firmware fails, and whether they
    are valid. *)
Definition query_set (s : S) (set : Z * string) : string * list (string * Z) * bool :=
  let '(efi_status, (max_storage_sz, remaining_sz, max_var_sz)) := QueryVariableInfo s (fst set) in
  let valid := negb (EFI_ERROR efi_status) in
  let num n := if valid then n else 0 in
  (snd set, [("max_storage_sz", num max_storage_sz); ("remaining_sz", num remaining_sz); ("max_var_sz", num max_var_sz)],
   valid).

(** prefix, "-label: " and "0x0123456701234567" with a newline *)
Definition set_room (prefix : string) (nums : list (string * Z)) : Z :=
  fold_left (fun n l => n + (StrLen prefix + (StrLen (fst l) + 3) + 19)) nums 0.

Definition variable_info_size (sets : list (string * list (string * Z) * bool)) : Z :=
  fold_left (fun n '(prefix, nums, valid) => if valid : bool then n + set_room prefix nums else n) sets 0 + 1.

(** Print the numbers from [pos] on. *)
Fixpoint print_numbers (bufsz : Z) (prefix : string) (nums : list (string * Z)) (buf : list Z) (pos : Z)
  : res (list Z * Z) :=
  match nums with
  | [] => Ok (buf, pos)
  | (label, n) :: nums' =>
      let room := u64 (bufsz - pos) in
      let text := AsciiSPrint room prefix label n in
      buf ← (if 0 <? room then wrn buf pos (text ++ [0]) else Ok buf);
      print_numbers bufsz prefix nums' buf (pos + zlen text)
  end.
Fixpoint print_sets (bufsz : Z) (sets : list (string * list (string * Z) * bool)) (buf : list Z) (pos : Z)
  : res (list Z * Z) :=
  match sets with
  | [] => Ok (buf, pos)
  | (prefix, nums, _) :: sets' =>
      '(buf, pos) ← print_numbers bufsz prefix nums buf pos;
      print_sets bufsz sets' buf pos
  end.

Definition format_variable_info (s : S) (buf : option (list Z)) (bufsz : Z) : res (Z * option (list Z)) :=
  if (efi_major_version p <? 2) || is_apple_firmware_vendor p then
    if 0 <? bufsz then match buf with Some b => b ← wr b 0 0; Ok (0, Some b) | None => Fault end
    else Ok (0, buf)
  else
    let sets := map (query_set s) var_sets in
    let sz := variable_info_size sets in
    match buf with
    | None => Ok (sz, None)
    | Some b =>
        if bufsz <? sz then Ok (sz, buf)
        else '(b, pos) ← print_sets bufsz sets b 0; Ok (pos, Some b)
    end.

(** hsi_status is the global of that name. *)
Definition format (hsi_status : Z) (f : mok_variable_format_helper_t) (s : S) (buf : option (list Z)) (sz : Z)
  : res (Z * option (list Z)) :=
  match f with
  | FORMAT_HSI_STATUS => format_hsi_status hsi_status buf sz
  | FORMAT_VARIABLE_INFO => format_variable_info s buf sz
  end.

Definition should_mirror_build_cert (v : mok_state_variable) : bool := nonempty (msv_build_cert v).
Definition null_sha256 : list Z := replicate 32 0.

(** The status and [*max_var_szp]. *)
Definition get_max_var_sz (s : S) (attrs : Z) : EFI_STATUS * Z :=
  if (efi_major_version p <? 2) || is_apple_firmware_vendor p then (EFI_SUCCESS, 1024)
  else
    let '(efi_status, (_, remaining_sz, max_var_sz)) := QueryVariableInfo s attrs in
    if EFI_ERROR efi_status then (efi_status, 0)
    else (efi_status, if max_var_sz <? remaining_sz then max_var_sz else remaining_sz).

(** Signatures [howmany] from [esd] on, an offset of [buf], as a variable. *)
Definition mirror_one_esl (alloc : bool) (s : S) (name : string) (guid : EFI_GUID) (attrs : Z) (buf : list Z)
    (esl esd howmany : Z) : res (EFI_STATUS * S) :=
  type ← SignatureType buf esl;
  size ← SignatureSize buf esl;
  '(efi_status, var, varsz) ← variable_create_esl alloc (drop (Z.to_nat esd) buf) howmany type size;
  match var with
  | Some var =>
      if EFI_ERROR efi_status || (varsz =? 0) then Ok (efi_status, s)
      else Ok (SetVariable s name guid attrs (take (Z.to_nat varsz) var))
  | None => Ok (efi_status, s)
  end.

(** sizeof(EFI_SIGNATURE_LIST) + sizeof(EFI_SIGNATURE_DATA) + SHA1_DIGEST_SIZE *)
Definition minsz : Z := sizeof_EFI_SIGNATURE_LIST + sizeof_EFI_SIGNATURE_DATA + 20.

(** The loop of mirror_mok_db: [esl] is NULL or the list the position is in,
    [esl_end_pos] its end.  It leaves the function with a status, or ends with
    efi_status and did_one. *)
Fixpoint mirror_loop (fuel : nat) (alloc : bool) (name : string) (guid : EFI_GUID) (attrs : Z) (buf : list Z)
    (FullDataSize : Z) (only_first : bool) (esl : option Z) (esl_end_pos pos i : Z) (efi_status : EFI_STATUS) (s : S)
  : res ((EFI_STATUS + (EFI_STATUS * bool)) * S) :=
  match fuel with
  | O => NoFuel
  | Datatypes.S f =>
      if u64 (FullDataSize - pos) <? minsz then Ok (inr (efi_status, false), s)
      else
        '(esl, esl_end_pos, pos) ←
          (let next := match esl with None => true | Some _ => esl_end_pos <=? pos end in
           if next then
             lsz ← SignatureListSize buf pos;
             Ok (pos, pos + lsz, pos + sizeof_EFI_SIGNATURE_LIST)
           else Ok (from_option id 0 esl, esl_end_pos, pos));
        if FullDataSize <=? pos then Ok (inr (efi_status, false), s)
        else
          lsz ← SignatureListSize buf esl;
          ssz ← SignatureSize buf esl;
          if (lsz =? 0) || (ssz =? 0) then Ok (inr (efi_status, false), s)
          else
            let namen := if only_first then name else SPrint name i in
            let (st, max_var_sz) := get_max_var_sz s attrs in
            if EFI_ERROR st then Ok (inl st, s)
            else
              let namen_sz := (StrLen namen + 1) * 2 in
              let max_var_sz := if namen_sz <? max_var_sz then max_var_sz - namen_sz else 0 in
              let howmany :=
                if sizeof_EFI_SIGNATURE_LIST <? max_var_sz
                then Z.min ((max_var_sz - sizeof_EFI_SIGNATURE_LIST) / ssz) (u64 (esl_end_pos - pos) / ssz)
                else 0 in
              let continue := mirror_loop f alloc name guid attrs buf FullDataSize only_first (Some esl) esl_end_pos in
              if howmany =? 0 then continue esl_end_pos i st s
              else
                let adj := howmany * ssz in
                if negb only_first && (i =? 0) then continue (pos + adj) (i + 1) st s
                else
                  '(st, s) ← mirror_one_esl alloc s namen guid attrs buf esl pos howmany;
                  if EFI_ERROR st then Ok (inr (st, false), s)
                  else if only_first then Ok (inr (st, true), s)
                  else
                    '(r, s) ← continue (pos + adj) (i + 1) st s;
                    Ok (match r with inl st => inl st | inr (st, _) => inr (st, true) end, s)
  end.

Definition mirror_attrs : Z := Z.lor EFI_VARIABLE_BOOTSERVICE_ACCESS EFI_VARIABLE_RUNTIME_ACCESS.

(** A variable with one null hash, so that there is one. *)
Definition dummy_esl (alloc : bool) : res (EFI_STATUS * option (list Z) * Z) :=
  variable_create_esl_with_one_signature alloc alloc null_sha256 32 EFI_CERT_SHA256_GUID (Some SHIM_LOCK_GUID).

Definition mirror_mok_db (alloc name_alloc : bool) (s : S) (name : string) (guid : EFI_GUID) (attrs : Z)
    (FullData : list Z) (FullDataSize : Z) (only_first : bool) : res (EFI_STATUS * S) :=
  let (efi_status, max_var_sz) := get_max_var_sz s attrs in
  if EFI_ERROR efi_status && negb (bool_decide (efi_status = EFI_UNSUPPORTED)) then Ok (efi_status, s)
  else if (FullDataSize <=? max_var_sz) || bool_decide (efi_status = EFI_UNSUPPORTED) then
    if only_first then Ok (SetVariable s name guid attrs (take (Z.to_nat FullDataSize) FullData))
    else Ok (EFI_SUCCESS, s)
  else if negb only_first && negb name_alloc then Ok (EFI_OUT_OF_RESOURCES, s)
  else
    '(r, s) ← mirror_loop (Datatypes.S (Z.to_nat FullDataSize)) alloc name guid attrs FullData FullDataSize only_first
                None 0 0 0 efi_status s;
    match r with
    | inl efi_status => Ok (efi_status, s)
    | inr (efi_status, did_one) =>
        if EFI_ERROR efi_status then Ok (efi_status, s)
        else if only_first && negb did_one then
          '(efi_status, var, varsz) ← dummy_esl alloc;
          match var with
          | Some var =>
              if EFI_ERROR efi_status || (varsz =? 0) then Ok (efi_status, s)
              else Ok (SetVariable s name guid mirror_attrs (take (Z.to_nat varsz) var))
          | None => Ok (efi_status, s)
          end
        else Ok (efi_status, s)
    end.

(** ** Mirroring one variable *)

(** What the code changes. *)
Record mstate : Type := {
  m_fw : S;
  m_tpm : tpm_state;
  m_globals : mok_global -> Z
}.
Definition with_fw (m : mstate) (s : S) : mstate := {| m_fw := s; m_tpm := m_tpm m; m_globals := m_globals m |}.
Definition with_tpm (m : mstate) (t : tpm_state) : mstate := {| m_fw := m_fw m; m_tpm := t; m_globals := m_globals m |}.
Definition set_global (m : mstate) (g : mok_global) (b : Z) : mstate :=
  {| m_fw := m_fw m; m_tpm := m_tpm m;
     m_globals := fun g' => if decide (g' = g) then b else m_globals m g' |}.

(** Allocations: of the variable read, the list read as inverse, the formatted
    text, the full data, the lists made for variables, names, and those of the
    TPM code. *)
Record mok_allocs : Type := {
  ma_read : bool;
  ma_inverse : bool;
  ma_format : bool;
  ma_full : bool;
  ma_esl : bool;
  ma_name : bool;
  ma_tpm : bool
}.
Context (al : mok_allocs) (dev : devices) (hsi_status : Z) (pool : Z -> list Z).

Definition flag (v : mok_state_variable) (f : Z) : bool := has_flag (msv_flags v) f.

Definition addend_category (v : mok_state_variable) : vendor_addend_category_t :=
  match msv_categorize v with Some f => f (msv_addend v) | None => VENDOR_ADDEND_NONE end.

(** The size of a list with one certificate, or the status of a failure. *)
Definition cert_esl_size (cert : list Z) : res (EFI_STATUS + Z) :=
  '(efi_status, _, sz) ← fill_esl_with_one_signature (ma_esl al) cert (zlen cert) EFI_CERT_TYPE_X509_GUID
                           (Some SHIM_LOCK_GUID) None 0;
  Ok (if bool_decide (efi_status = EFI_BUFFER_TOO_SMALL) then inr sz else inl efi_status).

Definition addend_sz (v : mok_state_variable) : res (EFI_STATUS + Z) :=
  match addend_category v with
  | VENDOR_ADDEND_DB => Ok (inr (zlen (from_option id [] (msv_addend v))))
  | VENDOR_ADDEND_X509 => cert_esl_size (from_option id [] (msv_addend v))
  | VENDOR_ADDEND_NONE => Ok (inr 0)
  end.
Definition build_cert_sz (v : mok_state_variable) : res (EFI_STATUS + Z) :=
  if should_mirror_build_cert v then cert_esl_size (from_option id [] (msv_build_cert v)) else Ok (inr 0).

(** The sizes of the addend and build certificate lists, and FullDataSize. *)
Definition full_data_size (v : mok_state_variable) : res (EFI_STATUS + (Z * Z * Z)) :=
  if flag v MOK_MIRROR_KEYDB then
    a ← addend_sz v;
    match a with
    | inl st => Ok (inl st)
    | inr a =>
        b ← build_cert_sz v;
        match b with
        | inl st => Ok (inl st)
        | inr b => Ok (inr (a, b, a + b + zlen (from_option id [] (msv_user_cert v)) + msv_data_size v))
        end
    end
  else Ok (inr (0, 0, msv_data_size v)).

(** One list with a certificate at [p]: the status and the buffer. *)
Definition fill_cert (buf : list Z) (p : Z) (cert : list Z) (sz : Z) : res (EFI_STATUS * list Z) :=
  '(efi_status, out, _) ← fill_esl_with_one_signature (ma_esl al) cert (zlen cert) EFI_CERT_TYPE_X509_GUID
                            (Some SHIM_LOCK_GUID) (Some (drop (Z.to_nat p) buf)) sz;
  Ok (efi_status, match out with Some out => take (Z.to_nat p) buf ++ out | None => buf end).

(** The size of the allocation of the full data. *)
Definition full_alloc (FullDataSize : Z) : Z :=
  let allocsz := FullDataSize + sizeof_EFI_SIGNATURE_LIST in
  let new := ALIGN_VALUE 64 allocsz 4096 in
  if new =? allocsz then new + 4096 else new.

(** Fill in the addend at the start of [buf], the build certificate and the user
    certificates behind it: the status of a failure, or the buffer and the
    position. *)
Definition fill_addend (v : mok_state_variable) (asz : Z) (buf : list Z) : res (EFI_STATUS + (list Z * Z)) :=
  let a := from_option id [] (msv_addend v) in
  match addend_category v with
  | VENDOR_ADDEND_DB => buf ← wrn buf 0 a; Ok (inr (buf, zlen a))
  | VENDOR_ADDEND_X509 =>
      '(st, buf) ← fill_cert buf 0 a asz;
      Ok (if EFI_ERROR st then inl st else inr (buf, asz))
  | VENDOR_ADDEND_NONE => Ok (inr (buf, 0))
  end.
Definition fill_build_cert (v : mok_state_variable) (bsz : Z) (buf : list Z) (p : Z)
  : res (EFI_STATUS + (list Z * Z)) :=
  if should_mirror_build_cert v then
    '(st, buf) ← fill_cert buf p (from_option id [] (msv_build_cert v)) bsz;
    Ok (if EFI_ERROR st then inl st else inr (buf, p + bsz))
  else Ok (inr (buf, p)).
Definition fill_keydb (v : mok_state_variable) (asz bsz : Z) (buf : list Z) : res (EFI_STATUS + (list Z * Z)) :=
  r ← fill_addend v asz buf;
  match r with
  | inl st => Ok (inl st)
  | inr (buf, p) =>
      r ← fill_build_cert v bsz buf p;
      match r with
      | inl st => Ok (inl st)
      | inr (buf, p) =>
          let u := from_option id [] (msv_user_cert v) in
          buf ← wrn buf p u; Ok (inr (buf, p + zlen u))
      end
  end.

(** FullData: NULL, the variable's own buffer when there is nothing to add
    ([reuse]), or a new one.  A failure is the status. *)
Definition full_data (v : mok_state_variable) (asz bsz FullDataSize : Z) : res (EFI_STATUS + option (list Z)) :=
  if FullDataSize =? 0 then Ok (inr None)
  else if FullDataSize =? msv_data_size v then Ok (inr (msv_data v))
  else if negb (ma_full al) then Ok (inl EFI_OUT_OF_RESOURCES)
  else
    let buf := replicate (Z.to_nat (full_alloc FullDataSize)) 0 in
    r ← (if flag v MOK_MIRROR_KEYDB then fill_keydb v asz bsz buf else Ok (inr (buf, 0)));
    match r with
    | inl st => Ok (inl st)
    | inr (buf, p) =>
        match msv_data v with
        | Some data =>
            if msv_data_size v =? 0 then Ok (inr (Some buf))
            else d ← rdn data 0 (msv_data_size v); buf ← wrn buf p d; Ok (inr (Some buf))
        | None => Ok (inr (Some buf))
        end
    end.

(** The variable after FullData has taken over its buffer. *)
Definition taken (v : mok_state_variable) (FullDataSize : Z) : mok_state_variable :=
  if negb (FullDataSize =? 0) && (FullDataSize =? msv_data_size v) then set_data v None 0 else v.

(** Measuring and logging: the status a failure leaves the function with.  The
    status of tpm_log_event is assigned to a variable declared in the inner
    block, so a failure returns what efi_status was before. *)
Definition measure_and_log (v : mok_state_variable) (data : list Z) (efi_status : EFI_STATUS) (m : mstate)
  : res ((EFI_STATUS + EFI_STATUS) * mstate) :=
  '(r, m) ←
    (if flag v MOK_VARIABLE_MEASURE then
       '(st, t) ← tpm_measure_variable dev (ma_tpm al) (ma_tpm al) (ma_tpm al) (ma_tpm al) (ma_tpm al)
                    {| VariableName := msv_name v; VendorGuid := msv_guid v; Data := data |} (m_tpm m);
       Ok (if EFI_ERROR st then inl st else inr st, with_tpm m t)
     else Ok (inr efi_status, m));
  match r with
  | inl st => Ok (inl st, m)
  | inr efi_status =>
      if flag v MOK_VARIABLE_LOG then
        let (st, t) := tpm_log_event dev (ma_tpm al) (ma_tpm al) data (msv_pcr v) (ascii_bytes (msv_name v)) (m_tpm m) in
        Ok (if EFI_ERROR st then inl efi_status else inr efi_status, with_tpm m t)
      else Ok (inr efi_status, m)
  end.

Definition mirror_one_mok_variable (v : mok_state_variable) (only_first : bool) (m : mstate)
  : res (EFI_STATUS * mok_state_variable * mstate) :=
  sizes ← full_data_size v;
  match sizes with
  | inl efi_status => Ok (efi_status, v, m)
  | inr (asz, bsz, FullDataSize) =>
      f ← full_data v asz bsz FullDataSize;
      match f with
      | inl efi_status => Ok (efi_status, taken v FullDataSize, m)
      | inr FullData =>
          let v := taken v FullDataSize in
          let keydb := flag v MOK_MIRROR_KEYDB in
          '(efi_status, FullData, FullDataSize) ←
            (if keydb && (FullDataSize =? 0) then dummy_esl (ma_esl al) else Ok (EFI_SUCCESS, FullData, FullDataSize));
          if EFI_ERROR efi_status then Ok (efi_status, v, m)
          else
            let buf := from_option id [] FullData in
            let data := take (Z.to_nat FullDataSize) buf in
            let config_only := flag v MOK_VARIABLE_CONFIG_ONLY in
            '(efi_status, s) ←
              (if negb (FullDataSize =? 0) && keydb && negb config_only then
                 mirror_mok_db (ma_esl al) (ma_name al) (m_fw m) (msv_rtname v) (msv_guid v) mirror_attrs buf
                   FullDataSize only_first
               else if negb (FullDataSize =? 0) && only_first && negb config_only then
                 Ok (SetVariable (m_fw m) (msv_rtname v) (msv_guid v) mirror_attrs data)
               else Ok (efi_status, m_fw m));
            let m := with_fw m s in
            '(r, m) ←
              (if negb (FullDataSize =? 0) && only_first then measure_and_log v data efi_status m
               else Ok (inr efi_status, m));
            match r with
            | inl efi_status => Ok (efi_status, v, m)
            | inr efi_status => Ok (efi_status, set_data v FullData FullDataSize, m)
            end
      end
  end.

Definition maybe_mirror_one_mok_variable (v : mok_state_variable) (ret : EFI_STATUS) (only_first : bool) (m : mstate)
  : res (EFI_STATUS * mok_state_variable * mstate) :=
  let m := if only_first && flag v MOK_MIRROR_DELETE_FIRST
           then with_fw m (snd (LibDeleteVariable (m_fw m) (msv_rtname v) (msv_guid v))) else m in
  '(efi_status, v, m) ← mirror_one_mok_variable v only_first m;
  let ret := if EFI_ERROR efi_status && negb (bool_decide (ret = EFI_SECURITY_VIOLATION)) then efi_status else ret in
  match msv_data v, msv_state v with
  | Some (b :: _), Some g =>
      if msv_data_size v =? 1 then Ok (ret, v, set_global m g b) else Ok (ret, v, m)
  | _, _ => Ok (ret, v, m)
  end.

(** ** Importing *)

(** Read the variable and check its attributes: the variable, and whether it is
    to be deleted; [inl] is a failed allocation. *)
Definition read_mok_variable (v : mok_state_variable) (s : S)
  : res (mok_state_variable + (mok_state_variable * bool)) :=
  g ← get_variable_attr (ma_read al) s (msv_name v) (msv_guid v) true;
  let v := set_data v (gva_data g) (gva_len g) in
  let inverse := flag v MOK_VARIABLE_INVERSE in
  if bool_decide (gva_status g = EFI_NOT_FOUND) then
    if inverse then
      if negb (ma_inverse al) then Ok (inl (set_data v None (gva_len g)))
      else Ok (inr (set_data v (Some [1; 0; 0; 0]) 1, false))
    else Ok (inr (set_data v None 0, false))
  else if EFI_ERROR (gva_status g) then Ok (inr (v, true))
  else
    let delete := negb (has_flag (gva_attributes g) (msv_yes_attr v)) || has_flag (gva_attributes g) (msv_no_attr v) in
    Ok (inr (if inverse then set_data v None 0 else v, delete)).

(** Let the helper format the data; [pool] is what an allocation holds, [inl] is
    a failed one. *)
Definition format_mok_variable (f : mok_variable_format_helper_t) (v : mok_state_variable) (s : S)
  : res (mok_state_variable + mok_state_variable) :=
  '(size, _) ← format hsi_status f s None 0;
  if 0 <? size then
    if negb (ma_format al) then Ok (inl (set_data v None size))
    else '(_, data) ← format hsi_status f s (Some (pool size)) size; Ok (inr (set_data v data size))
  else '(_, data) ← format hsi_status f s (msv_data v) size; Ok (inr (set_data v data size)).

Definition no_data (v : mok_state_variable) : bool := bool_decide (msv_data v = None) && (msv_data_size v =? 0).

Definition import_one_mok_state (v : mok_state_variable) (only_first : bool) (m : mstate)
  : res (EFI_STATUS * mok_state_variable * mstate) :=
  r ← (if no_data v && negb (flag v MOK_VARIABLE_CONFIG_ONLY) then read_mok_variable v (m_fw m)
       else Ok (inr (v, false)));
  match r with
  | inl v => Ok (EFI_OUT_OF_RESOURCES, v, m)
  | inr (v, delete) =>
      r ← (match msv_format v with Some f => format_mok_variable f v (m_fw m) | None => Ok (inr v) end);
      match r with
      | inl v => Ok (EFI_OUT_OF_RESOURCES, v, m)
      | inr v =>
          r ← (if no_data v && flag v MOK_VARIABLE_CONFIG_ONLY && negb (bool_decide (is_Some (msv_format v))) then
                 g ← get_variable_attr (ma_read al) (m_fw m) (msv_name v) (msv_guid v) true;
                 if EFI_ERROR (gva_status g) then
                   if negb (bool_decide (gva_status g = EFI_NOT_FOUND)) then Ok (inl (gva_status g))
                   else Ok (inr (set_data v None 0))
                 else Ok (inr (set_data v (gva_data g) (gva_len g)))
               else Ok (inr v));
          match r with
          | inl efi_status => Ok (efi_status, v, m)
          | inr v =>
              if delete : bool then
                let (efi_status, s) := LibDeleteVariable (m_fw m) (msv_name v) (msv_guid v) in
                maybe_mirror_one_mok_variable (set_data v None 0)
                  (if EFI_ERROR efi_status then EFI_SECURITY_VIOLATION else EFI_SUCCESS) only_first (with_fw m s)
              else maybe_mirror_one_mok_variable v EFI_SUCCESS only_first m
          end
      end
  end.

(** ** The configuration table *)
Definition sizeof_config_template : Z := 264.

(** struct mok_variable_config_entry without its data: the name, cut to 255
    bytes and padded with zeroes to 256, and the size. *)
Definition config_template (name : list Z) (data_size : Z) : list Z :=
  let name := take 255 name in
  name ++ replicate (256 - length name) 0 ++ le_split 8 data_size.

Definition has_data (v : mok_state_variable) : bool :=
  bool_decide (is_Some (msv_data v)) && negb (msv_data_size v =? 0).

Definition config_size (vs : list mok_state_variable) : Z :=
  fold_left (fun n v => if has_data v then n + msv_data_size v + sizeof_config_template else n) vs 0.

Fixpoint write_config (vs : list mok_state_variable) (table : list Z) (p : Z) : res (list Z * Z) :=
  match vs with
  | [] => Ok (table, p)
  | v :: vs' =>
      if has_data v then
        table ← wrn table p (config_template (ascii_bytes (msv_rtname v)) (msv_data_size v));
        d ← rdn (from_option id [] (msv_data v)) 0 (msv_data_size v);
        table ← wrn table (p + sizeof_config_template) d;
        write_config vs' table (p + sizeof_config_template + msv_data_size v)
      else write_config vs' table p
  end.

(** The table that is installed, if there are variables and pages for it. *)
Definition build_config (pages_ok : bool) (vs : list mok_state_variable) : res (option (list Z)) :=
  let config_sz := config_size vs in
  if config_sz =? 0 then Ok None
  else
    let npages := Z.shiftr (ALIGN_VALUE 64 (config_sz + sizeof_config_template) PAGE_SIZE) EFI_PAGE_SHIFT in
    if negb pages_ok then Ok None
    else
      '(table, p) ← write_config vs (replicate (Z.to_nat (Z.shiftl npages EFI_PAGE_SHIFT)) 0) 0;
      table ← wrn table p (replicate (Z.to_nat sizeof_config_template) 0);
      Ok (Some table).

(** ** import_mok_state *)

(** EFI_SECURITY_VIOLATION is never overwritten. *)
Definition keep_violation (ret efi_status : EFI_STATUS) : EFI_STATUS :=
  if EFI_ERROR efi_status && negb (bool_decide (ret = EFI_SECURITY_VIOLATION)) then efi_status else ret.

Fixpoint import_all (only_first : bool) (vs : list mok_state_variable) (ret : EFI_STATUS) (m : mstate)
  : res (EFI_STATUS * list mok_state_variable * mstate) :=
  match vs with
  | [] => Ok (ret, [], m)
  | v :: vs' =>
      '(efi_status, v, m) ← import_one_mok_state v only_first m;
      '(ret, vs', m) ← import_all only_first vs' (keep_violation ret efi_status) m;
      Ok (ret, v :: vs', m)
  end.

(** The status, the configuration table, the variables and the state. *)
Definition import_mok_state (start_MokManager : S -> EFI_STATUS * S) (pages_ok : bool) (vs : list mok_state_variable)
    (m : mstate) : res (EFI_STATUS * option (list Z) * list mok_state_variable * mstate) :=
  let m := set_global (set_global (set_global m user_insecure_mode 0) ignore_db 0) trust_mok_list 0 in
  '(ret, vs, m) ← import_all true vs EFI_SUCCESS m;
  config_table ← build_config pages_ok vs;
  '(_, vs, m) ← import_all false vs EFI_SUCCESS m;
  let (efi_status, s) := check_mok_request start_MokManager (m_fw m) in
  Ok (keep_violation ret efi_status, config_table, vs, with_fw m s).
End mok.

(** ** The table of variables

    Its parameters are what the build and shim's certificate loading put into
    the globals it points to. *)
Section table.
Context (vendor_authorized : option (list Z)) (vendor_authorized_category : vendor_addend_category_t).
Context (vendor_deauthorized user_cert build_cert : option (list Z)).

Definition BS_NV : Z := Z.lor EFI_VARIABLE_BOOTSERVICE_ACCESS EFI_VARIABLE_NON_VOLATILE.

(** A variable that is read, checked and mirrored. *)
Definition mok_entry (name rtname : string) (flags pcr : Z) (state : option mok_global) : mok_state_variable :=
  {| msv_name := name; msv_rtname := rtname; msv_guid := SHIM_LOCK_GUID; msv_data := None; msv_data_size := 0;
     msv_categorize := None; msv_addend := None; msv_user_cert := None; msv_build_cert := None;
     msv_yes_attr := BS_NV; msv_no_attr := EFI_VARIABLE_RUNTIME_ACCESS; msv_flags := flags; msv_pcr := pcr;
     msv_state := state; msv_format := None |}.

Definition keydb_flags : Z := Z.lor (Z.lor MOK_MIRROR_KEYDB MOK_MIRROR_DELETE_FIRST) MOK_VARIABLE_LOG.

Definition MokList : mok_state_variable :=
  {| msv_name := "MokList"; msv_rtname := "MokListRT"; msv_guid := SHIM_LOCK_GUID; msv_data := None;
     msv_data_size := 0; msv_categorize := Some (categorize_authorized vendor_authorized_category);
     msv_addend := vendor_authorized; msv_user_cert := user_cert; msv_build_cert := build_cert;
     msv_yes_attr := BS_NV; msv_no_attr := EFI_VARIABLE_RUNTIME_ACCESS; msv_flags := keydb_flags; msv_pcr := 14;
     msv_state := None; msv_format := None |}.
Definition MokListX : mok_state_variable :=
  {| msv_name := "MokListX"; msv_rtname := "MokListXRT"; msv_guid := SHIM_LOCK_GUID; msv_data := None;
     msv_data_size := 0; msv_categorize := Some categorize_deauthorized; msv_addend := vendor_deauthorized;
     msv_user_cert := None; msv_build_cert := None; msv_yes_attr := BS_NV;
     msv_no_attr := EFI_VARIABLE_RUNTIME_ACCESS; msv_flags := keydb_flags; msv_pcr := 14; msv_state := None;
     msv_format := None |}.
Definition MokSBState : mok_state_variable :=
  mok_entry "MokSBState" "MokSBStateRT"
    (Z.lor (Z.lor MOK_MIRROR_DELETE_FIRST MOK_VARIABLE_MEASURE) MOK_VARIABLE_LOG) 14 (Some user_insecure_mode).
Definition MokDBState : mok_state_variable := mok_entry "MokDBState" "MokIgnoreDB" 0 0 (Some ignore_db).
Definition SbatLevel : mok_state_variable :=
  mok_entry "SbatLevel" "SbatLevelRT" (Z.lor MOK_MIRROR_DELETE_FIRST MOK_VARIABLE_MEASURE) 7 None.
Definition MokListTrusted : mok_state_variable :=
  mok_entry "MokListTrusted" "MokListTrustedRT"
    (Z.lor (Z.lor MOK_MIRROR_DELETE_FIRST MOK_VARIABLE_INVERSE) MOK_VARIABLE_LOG) 14 (Some trust_mok_list).
Definition MokPolicy : mok_state_variable :=
  mok_entry "MokPolicy" "MokPolicyRT" (Z.lor MOK_MIRROR_DELETE_FIRST MOK_VARIABLE_LOG) 14 (Some mok_policy).

(** A variable that only goes into the configuration table. *)
Definition config_entry (name : string) (guid : EFI_GUID) (format : option mok_variable_format_helper_t)
  : mok_state_variable :=
  {| msv_name := name; msv_rtname := name; msv_guid := guid; msv_data := None; msv_data_size := 0;
     msv_categorize := None; msv_addend := None; msv_user_cert := None; msv_build_cert := None;
     msv_yes_attr := 0; msv_no_attr := 0; msv_flags := MOK_VARIABLE_CONFIG_ONLY; msv_pcr := 0;
     msv_state := None; msv_format := format |}.

Definition mok_state_variable_data : list mok_state_variable :=
  [MokList; MokListX; MokSBState; MokDBState; SbatLevel; MokListTrusted; MokPolicy;
   config_entry "HSIStatus" SHIM_LOCK_GUID (Some FORMAT_HSI_STATUS)] ++
  map (fun name => config_entry name GV_GUID None)
    ["AuditMode"; "BootOrder"; "BootCurrent"; "BootNext"; "Boot0000"; "Boot0001"; "Boot0002"; "Boot0003"; "Boot0004";
     "Boot0005"; "Boot0006"; "DeployedMode"; "SecureBoot"; "SetupMode"; "SignatureSupport"; "Timeout"; "PK"; "KEK"] ++
  [config_entry "db" SIG_DB None; config_entry "dbx" SIG_DB None;
   config_entry "Kernel_SkuSiStatus" SECUREBOOT_EFI_NAMESPACE_GUID None;
   config_entry "VariableInfo" SHIM_LOCK_GUID (Some FORMAT_VARIABLE_INFO)].
End table.

(** ** The laws of the two services *)
Class MokFirmwareLaws (S : Type) `{MokFirmware S} `{!FirmwareLaws S} : Prop := {
  delete_gone s n g st s' :
    LibDeleteVariable s n g = (st, s') -> EFI_ERROR st = false -> lookup_var s' n g = None;
  delete_error s n g st s' :
    LibDeleteVariable s n g = (st, s') -> EFI_ERROR st = true -> lookup_var s' n g = lookup_var s n g;
  delete_other s n g st s' n' g' :
    LibDeleteVariable s n g = (st, s') -> (n', g') <> (n, g) -> lookup_var s' n' g' = lookup_var s n' g'
}.

(** ** The full data of a key database *)
Lemma wrn_app_ok b r i bs x : wrn b i bs = Ok x -> wrn (b ++ r) i bs = Ok (x ++ r).
Proof.
  unfold wrn. case_if; [|done..]. intros [= <-]. case_if; [|zlia..].
  unfold zlen in *. rewrite take_app_le by lia. rewrite drop_app_le by lia. by rewrite <- !app_assoc.
Qed.

Lemma wr_le_app_ok b r i n v x : wr_le b i n v = Ok x -> wr_le (b ++ r) i n v = Ok (x ++ r).
Proof. apply wrn_app_ok. Qed.

Lemma fill_esl_app first n type sz b r len o k :
  fill_esl first n type sz (Some b) len = Ok (EFI_SUCCESS, Some o, k) ->
  fill_esl first n type sz (Some (b ++ r)) len = Ok (EFI_SUCCESS, Some (o ++ r), k).
Proof.
  unfold fill_esl. destruct first as [sig|]; [|cbn; discriminate].
  destruct (_ || _ || _); [discriminate|]. destruct (_ <? n); [discriminate|]. destruct (_ <? u64 _); [discriminate|].
  intros Hf. res_inv.
  rewrite (wr_le_app_ok _ r _ _ _ _ E), bind_Ok, (wrn_app_ok _ r _ _ _ E0), bind_Ok,
    (wr_le_app_ok _ r _ _ _ _ E1), bind_Ok, (wr_le_app_ok _ r _ _ _ _ E2), bind_Ok.
  cbn [mbind res_bind]. by rewrite (wrn_app_ok _ r _ _ _ E4).
Qed.

Lemma fill_one_app alloc data len type owner b r outlen o k :
  fill_esl_with_one_signature alloc data len type owner (Some b) outlen = Ok (EFI_SUCCESS, Some o, k) ->
  fill_esl_with_one_signature alloc data len type owner (Some (b ++ r)) outlen = Ok (EFI_SUCCESS, Some (o ++ r), k).
Proof.
  unfold fill_esl_with_one_signature. destruct (_ <? len); [discriminate|]. destruct alloc; cbn [negb]; [|discriminate].
  destruct (match owner with Some _ => _ | None => _ end) as [sd| |]; try discriminate. rewrite !bind_Ok.
  destruct (rdn data 0 len) as [d| |]; try discriminate. rewrite !bind_Ok.
  destruct (wrn sd 16 d) as [sd2| |]; try discriminate. rewrite !bind_Ok. apply fill_esl_app.
Qed.

(** The list with one certificate, as shim adds it. *)
Definition cert_list (cert : list Z) : esl := one_sig EFI_CERT_TYPE_X509_GUID SHIM_LOCK_GUID cert.

Lemma cert_list_size cert : esl_size (cert_list cert) = 44 + zlen cert.
Proof.
  unfold cert_list, one_sig, esl_size. cbn [esl_header esl_sigs esl_sigsize].
  change (zlen [_]) with 1. rewrite (zlen_nil (A := Z)). unfold sizeof_EFI_SIGNATURE_LIST. lia.
Qed.

Lemma fill_one_size alloc data type owner :
  44 + zlen data < 2 ^ 32 ->
  fill_esl_with_one_signature alloc data (zlen data) type owner None 0 = Ok (EFI_BUFFER_TOO_SMALL, None, 44 + zlen data).
Proof.
  intros Hl. pose proof (zlen_nonneg data).
  unfold fill_esl_with_one_signature, fill_esl, UINT32_MAX, sizeof_EFI_SIGNATURE_DATA, sizeof_EFI_SIGNATURE_LIST.
  case_if; [lia|]. rewrite u32_small by lia.
  replace (1 =? 0) with false by done. destruct (17 - 1 + zlen data =? 0) eqn:E0; bool_to_prop; [lia|]. cbn [orb].
  assert (1 <= (2 ^ 32 - 1 - 28) / (17 - 1 + zlen data)) by (apply Z.div_le_lower_bound; lia). case_if; [lia|].
  rewrite (u64_small (1 * _)), u64_small by lia. do 2 f_equal. lia.
Qed.

Lemma fill_one_zeros cert r :
  44 + zlen cert < 2 ^ 32 ->
  fill_esl_with_one_signature true cert (zlen cert) EFI_CERT_TYPE_X509_GUID (Some SHIM_LOCK_GUID)
    (Some (replicate (Z.to_nat (44 + zlen cert)) 0 ++ r)) (44 + zlen cert)
  = Ok (EFI_SUCCESS, Some (esl_bytes (cert_list cert) ++ r), 44 + zlen cert).
Proof.
  intros Hl. pose proof (create_one_signature_ok EFI_CERT_TYPE_X509_GUID (Some SHIM_LOCK_GUID) cert [] eq_refl eq_refl Hl) as Hc.
  pose proof (zlen_nonneg cert).
  unfold variable_create_esl_with_one_signature in Hc. rewrite app_nil_r, u32_small, fill_one_size, bind_Ok in Hc by lia.
  rewrite bool_decide_true in Hc by done. cbn [negb] in Hc. by apply fill_one_app.
Qed.

Section content.
Context (al : mok_allocs) (Hesl : ma_esl al = true) (Hfull : ma_full al = true).

Definition addend_bytes (v : mok_state_variable) : list Z :=
  let a := from_option id [] (msv_addend v) in
  match addend_category v with
  | VENDOR_ADDEND_DB => a
  | VENDOR_ADDEND_X509 => esl_bytes (cert_list a)
  | VENDOR_ADDEND_NONE => []
  end.
Definition build_bytes (v : mok_state_variable) : list Z :=
  if should_mirror_build_cert v then esl_bytes (cert_list (from_option id [] (msv_build_cert v))) else [].
(** What shim adds to a key database. *)
Definition keydb_parts (v : mok_state_variable) : list Z :=
  addend_bytes v ++ build_bytes v ++ from_option id [] (msv_user_cert v).

(** The sizes fit the 32-bit fields; data_size bytes are there. *)
Record parts_ok (v : mok_state_variable) : Prop := {
  po_addend : 44 + zlen (from_option id [] (msv_addend v)) < 2 ^ 32;
  po_build : 44 + zlen (from_option id [] (msv_build_cert v)) < 2 ^ 32;
  po_user : zlen (from_option id [] (msv_user_cert v)) < 2 ^ 32;
  po_data : 0 <= msv_data_size v < 2 ^ 32 /\ msv_data_size v <= zlen (from_option id [] (msv_data v))
}.

(** The data of the variable. *)
Definition content (v : mok_state_variable) : list Z :=
  take (Z.to_nat (msv_data_size v)) (from_option id [] (msv_data v)).

Lemma cert_list_bytes cert : 44 + zlen cert < 2 ^ 32 -> zlen (esl_bytes (cert_list cert)) = 44 + zlen cert.
Proof.
  intros. rewrite esl_bytes_length; [apply cert_list_size|]. by apply one_sig_wf.
Qed.

Lemma addend_sz_ok v : parts_ok v -> addend_sz al v = Ok (inr (zlen (addend_bytes v))).
Proof.
  intros [Ha _ _ _]. unfold addend_sz, addend_bytes, cert_esl_size. destruct (addend_category v); [done| |done].
  rewrite fill_one_size, bind_Ok, bool_decide_true by done. by rewrite cert_list_bytes.
Qed.

Lemma build_cert_sz_ok v : parts_ok v -> build_cert_sz al v = Ok (inr (zlen (build_bytes v))).
Proof.
  intros [_ Hb _ _]. unfold build_cert_sz, build_bytes, cert_esl_size. destruct (should_mirror_build_cert v); [|done].
  rewrite fill_one_size, bind_Ok, bool_decide_true by done. by rewrite cert_list_bytes.
Qed.

Lemma full_data_size_ok v :
  parts_ok v -> flag v MOK_MIRROR_KEYDB = true ->
  full_data_size al v = Ok (inr (zlen (addend_bytes v), zlen (build_bytes v), zlen (keydb_parts v) + msv_data_size v)).
Proof.
  intros Hp Hk. unfold full_data_size, keydb_parts. rewrite Hk, addend_sz_ok, bind_Ok, build_cert_sz_ok, bind_Ok by done.
  rewrite !zlen_app. do 3 f_equal. lia.
Qed.

Lemma full_alloc_room n : 0 <= n < 2 ^ 40 -> n < full_alloc n.
Proof.
  intros Hn. unfold full_alloc, sizeof_EFI_SIGNATURE_LIST.
  destruct (ALIGN_VALUE_pow2 64 (n + 28) 12) as [Hr _]; [lia..|]. change (2 ^ 12) with 4096 in Hr. case_if; lia.
Qed.


Lemma fill_cert_zeros done n cert :
  44 + zlen cert < 2 ^ 32 -> 44 + zlen cert <= Z.of_nat n ->
  fill_cert al (done ++ replicate n 0) (zlen done) cert (44 + zlen cert)
  = Ok (EFI_SUCCESS, (done ++ esl_bytes (cert_list cert)) ++ replicate (n - length (esl_bytes (cert_list cert))) 0).
Proof.
  intros Hc Hn. pose proof (zlen_nonneg cert). unfold fill_cert. rewrite Hesl.
  assert (Hz : Z.to_nat (zlen done) = length done) by (unfold zlen; lia). rewrite Hz, drop_app_length, take_app_length.
  pose proof (cert_list_bytes cert Hc) as Hb.
  replace (replicate n 0) with (replicate (Z.to_nat (44 + zlen cert)) 0 ++ replicate (n - length (esl_bytes (cert_list cert))) 0).
  - rewrite fill_one_zeros, bind_Ok by done. by rewrite <- app_assoc.
  - rewrite <- replicate_add. f_equal. unfold zlen in *. lia.
Qed.

Lemma fill_addend_ok v n :
  parts_ok v -> (length (addend_bytes v) <= n)%nat ->
  fill_addend al v (zlen (addend_bytes v)) (replicate n 0)
  = Ok (inr (addend_bytes v ++ replicate (n - length (addend_bytes v)) 0, zlen (addend_bytes v))).
Proof.
  intros [Ha _ _ _] Hn. unfold fill_addend, addend_bytes in *. destruct (addend_category v).
  - pose proof (wrn_zeros [] (from_option id [] (msv_addend v)) n ltac:(lia)) as Hw.
    change (zlen []) with 0 in Hw. cbn [app] in Hw. by rewrite Hw.
  - pose proof (cert_list_bytes _ Ha) as Hc. rewrite Hc.
    pose proof (fill_cert_zeros [] n _ Ha ltac:(unfold zlen in *; lia)) as Hw.
    change (zlen []) with 0 in Hw. cbn [app] in Hw. by rewrite Hw.
  - cbn. by rewrite Nat.sub_0_r.
Qed.

Lemma fill_build_cert_ok v done n :
  parts_ok v -> (length (build_bytes v) <= n)%nat ->
  fill_build_cert al v (zlen (build_bytes v)) (done ++ replicate n 0) (zlen done)
  = Ok (inr ((done ++ build_bytes v) ++ replicate (n - length (build_bytes v)) 0, zlen (done ++ build_bytes v))).
Proof.
  intros [_ Hb _ _] Hn. unfold fill_build_cert, build_bytes in *. rewrite zlen_app.
  destruct (should_mirror_build_cert v).
  - pose proof (cert_list_bytes _ Hb) as Hc. rewrite !Hc.
    rewrite fill_cert_zeros, bind_Ok by (done || (unfold zlen in *; lia)). done.
  - cbn [length]. by rewrite app_nil_r, Nat.sub_0_r, (zlen_nil (A := Z)), Z.add_0_r.
Qed.

Lemma fill_keydb_ok v n :
  parts_ok v -> (length (keydb_parts v) <= n)%nat ->
  fill_keydb al v (zlen (addend_bytes v)) (zlen (build_bytes v)) (replicate n 0)
  = Ok (inr (keydb_parts v ++ replicate (n - length (keydb_parts v)) 0, zlen (keydb_parts v))).
Proof.
  intros Hp Hn. unfold keydb_parts in *. rewrite !length_app in Hn. unfold fill_keydb.
  rewrite fill_addend_ok, bind_Ok, fill_build_cert_ok, bind_Ok by (done || lia).
  rewrite wrn_zeros, bind_Ok by lia. do 3 f_equal.
  - rewrite <- !app_assoc. do 4 f_equal. rewrite !length_app. lia.
  - rewrite !zlen_app. lia.
Qed.

(** The full data: what shim adds, then the variable's own data, then zeroes. *)
Lemma full_data_ok v :
  parts_ok v -> flag v MOK_MIRROR_KEYDB = true -> zlen (keydb_parts v) <> 0 ->
  exists pad, full_data al v (zlen (addend_bytes v)) (zlen (build_bytes v)) (zlen (keydb_parts v) + msv_data_size v)
    = Ok (inr (Some ((keydb_parts v ++ content v) ++ pad))).
Proof.
  intros Hp Hk Hne. pose proof Hp as [Ha Hb Hu [Hd1 Hd2]]. pose proof (zlen_nonneg (keydb_parts v)).
  assert (Hlen : zlen (keydb_parts v) < 2 ^ 36).
  { unfold keydb_parts. rewrite !zlen_app.
    assert (zlen (addend_bytes v) < 2 ^ 33) by (unfold addend_bytes; destruct (addend_category v);
      rewrite ?cert_list_bytes by done; rewrite ?(zlen_nil (A := Z)); lia).
    assert (zlen (build_bytes v) < 2 ^ 33) by (unfold build_bytes; destruct (should_mirror_build_cert v);
      rewrite ?cert_list_bytes by done; rewrite ?(zlen_nil (A := Z)); lia). lia. }
  set (N := zlen (keydb_parts v) + msv_data_size v). pose proof (full_alloc_room N ltac:(lia)) as Hroom.
  unfold full_data. fold N. case_if; [lia|]. case_if; [lia|]. rewrite Hfull. cbn [negb]. rewrite Hk.
  rewrite fill_keydb_ok, bind_Ok by (done || (unfold zlen in *; lia)). unfold content.
  set (z := (Z.to_nat (full_alloc N) - length (keydb_parts v))%nat).
  assert (Hz : msv_data_size v <= Z.of_nat z) by (unfold z, zlen in *; lia). clearbody z.
  destruct (msv_data v) as [data|]; cbn [from_option id] in *.
  2:{ change (zlen []) with 0 in Hd2. rewrite take_nil. exists (replicate z 0). by rewrite app_nil_r. }
  destruct (msv_data_size v =? 0) eqn:E0; bool_to_prop.
  { rewrite E0, take_0, app_nil_r. by eexists. }
  assert (Hrd : rdn data 0 (msv_data_size v) = Ok (take (Z.to_nat (msv_data_size v)) data)).
  { unfold rdn. case_if; [|lia..]. done. }
  rewrite Hrd, bind_Ok, wrn_zeros, bind_Ok by (rewrite length_take; unfold zlen in *; lia). by eexists.
Qed.
End content.

(** ** State variables: MokSBState, MokDBState, MokPolicy *)
Section state_variables.
Context {S : Type} `{MokFirmwareLaws S} (p : platform) (SPrint : string -> Z -> string)
  (AsciiSPrint : Z -> string -> string -> Z -> list Z).
Context (al : mok_allocs) (dev : devices) (hsi_status : Z) (pool : Z -> list Z).
Context (Hread : ma_read al = true) (Htpm : ma_tpm al = true).

Abbreviation state := (mstate (S := S)).
Abbreviation mirror_one := (mirror_one_mok_variable p SPrint al dev).
Abbreviation import_one := (import_one_mok_state p SPrint AsciiSPrint al dev hsi_status pool).

(** A variable that is only read and mirrored, and has not been read. *)
Record plain (v : mok_state_variable) : Prop := {
  pn_keydb : flag v MOK_MIRROR_KEYDB = false;
  pn_config : flag v MOK_VARIABLE_CONFIG_ONLY = false;
  pn_inverse : flag v MOK_VARIABLE_INVERSE = false;
  pn_format : msv_format v = None;
  pn_data : msv_data v = None /\ msv_data_size v = 0;
  pn_names : msv_rtname v <> msv_name v
}.

(** The attributes import_one_mok_state lets pass. *)
Definition accepted (v : mok_state_variable) (a : Z) : bool :=
  has_flag a (msv_yes_attr v) && negb (has_flag a (msv_no_attr v)).

Definition to_measure (v : mok_state_variable) (d : list Z) : VARIABLE_RECORD :=
  {| VariableName := msv_name v; VendorGuid := msv_guid v; Data := d |}.

Lemma measure_and_log_ok v d st (m : state) :
  record_ok (to_measure v d) -> tpm_inv dev (m_tpm m) ->
  exists r (m' : state), measure_and_log al dev v d st m = Ok (r, m') /\
    m_fw m' = m_fw m /\ m_globals m' = m_globals m /\ tpm_inv dev (m_tpm m') /\
    (working dev -> r = inr st \/ r = inr EFI_SUCCESS).
Proof.
  intros Hr Hi. unfold measure_and_log.
  assert (Hlog : forall st (m1 : state), m_fw m1 = m_fw m -> m_globals m1 = m_globals m -> tpm_inv dev (m_tpm m1) ->
    exists (r : EFI_STATUS + EFI_STATUS) (m' : state), (if flag v MOK_VARIABLE_LOG then
        let (st', t) := tpm_log_event dev (ma_tpm al) (ma_tpm al) d (msv_pcr v) (ascii_bytes (msv_name v)) (m_tpm m1) in
        Ok (if EFI_ERROR st' then inl st else inr st, with_tpm m1 t)
      else Ok (inr st, m1)) = Ok (r, m') /\
      m_fw m' = m_fw m /\ m_globals m' = m_globals m /\ tpm_inv dev (m_tpm m') /\
      (working dev -> r = inr st)).
  { intros st1 m1 Hf Hg Hi1. destruct (flag v MOK_VARIABLE_LOG); [|eexists _, _; eauto 6].
    destruct (tpm_log_event dev _ _ d (msv_pcr v) _ (m_tpm m1)) as [e t] eqn:Et. eexists _, _. split; [done|].
    split; [done|]. split; [done|]. split.
    - by eapply tpm_inv_logs; [eapply tpm_log_event_raw_ok, Et|].
    - intros Hw. pose proof (tpm_log_event_raw_success dev d (msv_pcr v) (ascii_bytes (msv_name v) ++ [0]) EV_IPL None (m_tpm m1) Hw) as Hs.
      unfold tpm_log_event in Et. rewrite Htpm in Et. rewrite Et in Hs. cbn in Hs. by subst e. }
  destruct (flag v MOK_VARIABLE_MEASURE).
  - rewrite Htpm. destruct (tpm_measure_variable_ok dev true true true true (to_measure v d) (m_tpm m) Hr Hi)
      as (e & t & Heq & Hi' & _ & _). unfold to_measure in Heq at 1. rewrite Heq, !bind_Ok.
    destruct (EFI_ERROR e) eqn:Ee.
    + eexists _, _. split; [done|]. split; [done|]. split; [done|]. split; [done|]. intros Hw.
      destruct (tpm_measure_variable_success dev (to_measure v d) (m_tpm m) Hw Hr Hi) as (t' & Heq' & _).
      unfold to_measure in Heq' at 1. rewrite Heq in Heq'. injection Heq' as -> _. done.
    + rewrite Htpm in Hlog. destruct (Hlog e (with_tpm m t)) as (r & m' & -> & ? & ? & ? & Hw'); try done.
      exists r, m'. do 4 (split; [done|]). intros Hw. right.
      destruct (tpm_measure_variable_success dev (to_measure v d) (m_tpm m) Hw Hr Hi) as (t' & Heq' & _).
      unfold to_measure in Heq' at 1. rewrite Heq in Heq'. injection Heq' as -> _. auto.
  - rewrite bind_Ok. destruct (Hlog st m) as (r & m' & -> & ? & ? & ? & ?); try done. exists r, m'. auto 8.
Qed.

(** Mirroring a plain variable whose buffer has its data. *)
Lemma mirror_plain_ok v d pad only_first (m : state) :
  flag v MOK_MIRROR_KEYDB = false -> msv_data v = Some (d ++ pad) -> msv_data_size v = zlen d -> d <> [] ->
  record_ok (to_measure v d) -> tpm_inv dev (m_tpm m) ->
  exists e v' m', mirror_one v only_first m = Ok (e, v', m') /\ msv_state v' = msv_state v /\
    m_globals m' = m_globals m /\ tpm_inv dev (m_tpm m') /\
    (forall n g, (n, g) <> (msv_rtname v, msv_guid v) -> lookup_var (m_fw m') n g = lookup_var (m_fw m) n g) /\
    (v' = set_data v None 0 \/ v' = set_data v (Some (d ++ pad)) (zlen d)) /\
    (working dev -> v' = set_data v (Some (d ++ pad)) (zlen d)).
Proof.
  intros Hk Hd Hs Hne Hr Hi. pose proof (zlen_pos_nonempty d Hne) as Hp. unfold mirror_one_mok_variable, full_data_size.
  rewrite Hk, bind_Ok, Hs. unfold full_data, taken. rewrite Hs, Hd, Z.eqb_refl.
  destruct (zlen d =? 0) eqn:E0; bool_to_prop; [lia|]. rewrite bind_Ok. cbn [negb andb].
  change (flag (set_data v None 0) MOK_MIRROR_KEYDB) with (flag v MOK_MIRROR_KEYDB). rewrite Hk. cbn [andb].
  rewrite bind_Ok. cbn [EFI_ERROR from_option id].
  replace (take (Z.to_nat (zlen d)) (d ++ pad)) with d by (unfold zlen; by rewrite Nat2Z.id, take_app_length).
  destruct (zlen d =? 0) eqn:E1; bool_to_prop; [lia|]. cbn [negb andb].
  set (w := set_data v None 0).
  assert (Hset : exists e s, (if only_first && negb (flag w MOK_VARIABLE_CONFIG_ONLY)
      then Ok (SetVariable (m_fw m) (msv_rtname w) (msv_guid w) mirror_attrs d) else Ok (EFI_SUCCESS, m_fw m)) = Ok (e, s) /\
    (forall n g, (n, g) <> (msv_rtname v, msv_guid v) -> lookup_var s n g = lookup_var (m_fw m) n g)).
  { destruct (_ && _); [|by eexists _, _]. destruct (SetVariable _ _ _ _ _) as [e s] eqn:Es. eexists _, _. split; [done|].
    intros n g Hng. eapply set_other; [exact Es|done]. }
  destruct Hset as (e & s & -> & Hoth). rewrite bind_Ok.
  destruct only_first.
  - destruct (measure_and_log_ok w d e (with_fw m s) Hr Hi) as (r & m' & -> & Hf & Hg & Hi' & Hwk). rewrite bind_Ok.
    destruct r as [st|st]; eexists _, _, _; (split; [done|]; split; [done|]; split; [done|]; split; [done|];
      split; [intros; rewrite Hf; by apply Hoth|]; split; [by auto|]).
    + intros Hw. by destruct (Hwk Hw) as [?|?].
    + done.
  - eexists _, _, _. split; [done|]. by auto 8.
Qed.

Abbreviation maybe_mirror := (maybe_mirror_one_mok_variable p SPrint al dev).

(** The state after the run-time variable has been deleted. *)
Lemma delete_first_ok v (only_first : bool) (m : state) :
  let m1 := if only_first && flag v MOK_MIRROR_DELETE_FIRST
            then with_fw m (snd (LibDeleteVariable (m_fw m) (msv_rtname v) (msv_guid v))) else m in
  m_tpm m1 = m_tpm m /\ m_globals m1 = m_globals m /\
  forall n g, (n, g) <> (msv_rtname v, msv_guid v) -> lookup_var (m_fw m1) n g = lookup_var (m_fw m) n g.
Proof.
  cbn zeta. destruct (_ && _); [|done]. split; [done|]. split; [done|]. intros n g Hng. cbn [m_fw with_fw].
  destruct (LibDeleteVariable (m_fw m) (msv_rtname v) (msv_guid v)) as [e s] eqn:E. by eapply delete_other.
Qed.

(** Nothing to mirror. *)
Lemma maybe_mirror_none v ret only_first (m : state) :
  flag v MOK_MIRROR_KEYDB = false ->
  exists m', maybe_mirror (set_data v None 0) ret only_first m = Ok (ret, set_data v None 0, m') /\
    m_globals m' = m_globals m /\
    forall n g, (n, g) <> (msv_rtname v, msv_guid v) -> lookup_var (m_fw m') n g = lookup_var (m_fw m) n g.
Proof.
  intros Hk. unfold maybe_mirror_one_mok_variable. destruct (delete_first_ok (set_data v None 0) only_first m) as (_ & Hg & Ho).
  cbn zeta in Hg, Ho. match type of Hg with m_globals ?x = _ => set (m1 := x) in * end. unfold mirror_one_mok_variable, full_data_size.
  change (flag (set_data v None 0) MOK_MIRROR_KEYDB) with (flag v MOK_MIRROR_KEYDB). rewrite Hk, bind_Ok.
  unfold full_data, taken. cbn [msv_data_size set_data Z.eqb negb andb]. rewrite bind_Ok.
  change (flag (set_data v None 0) MOK_MIRROR_KEYDB) with (flag v MOK_MIRROR_KEYDB). rewrite Hk. cbn [andb].
  rewrite bind_Ok. cbn.
  eexists. split; [done|]. by destruct m1.
Qed.

Lemma maybe_mirror_plain v d pad ret only_first (m : state) :
  flag v MOK_MIRROR_KEYDB = false -> msv_data v = Some (d ++ pad) -> msv_data_size v = zlen d -> d <> [] ->
  record_ok (to_measure v d) -> tpm_inv dev (m_tpm m) ->
  exists ret' v' (m' : state), maybe_mirror v ret only_first m = Ok (ret', v', m') /\
    (forall g, msv_state v <> Some g -> m_globals m' g = m_globals m g) /\
    (forall g, msv_state v = Some g -> m_globals m' g = m_globals m g \/ exists b, d = [b] /\ m_globals m' g = b) /\
    (working dev -> forall g b, msv_state v = Some g -> d = [b] -> m_globals m' g = b).
Proof.
  intros Hk Hd Hs Hne Hr Hi. unfold maybe_mirror_one_mok_variable.
  destruct (delete_first_ok v only_first m) as (Ht & Hg & _). cbn zeta in Ht, Hg. match type of Hg with m_globals ?x = _ => set (m1 := x) in * end.
  destruct (mirror_plain_ok v d pad only_first m1 Hk Hd Hs Hne Hr) as (e & v' & m2 & -> & Hst & Hg2 & _ & _ & Hv & Hwk);
    [by rewrite Ht|]. rewrite bind_Ok.
  destruct Hv as [-> | ->].
  - cbn [msv_data set_data]. eexists _, _, _. split; [done|]. rewrite Hg2, Hg. split; [done|]. split; [by left|].
    intros Hw. by apply Hwk, (f_equal msv_data) in Hw.
  - cbn [msv_data msv_state msv_data_size set_data] in *. destruct d as [|b [|b' d']]; [done| |].
    + cbn [app]. change (zlen [b] =? 1) with true. cbv iota.
      destruct (msv_state v) as [g0|]; eexists _, _, _; (split; [done|]); cbn; rewrite ?Hg2, ?Hg.
      * split; [intros g Hgg; by rewrite decide_False by congruence|].
        split; [intros g [= ->]; right; exists b; by rewrite decide_True|].
        intros _ g b' [= ->] [= ->]. by rewrite decide_True.
      * split; [done|]. split; [by left|]. by intros.
    + cbn [app]. destruct (zlen (b :: b' :: d') =? 1) eqn:E; [apply Z.eqb_eq in E; zlia|].
      destruct (msv_state v) as [g0|]; eexists _, _, _; (split; [done|]); rewrite Hg2, Hg;
        (split; [done|]; split; [by left|]; by intros).
Qed.

(** What import_one_mok_state makes of a plain variable. *)
Lemma import_plain_ok v only_first (m : state) :
  plain v -> tpm_inv dev (m_tpm m) ->
  (forall a d, lookup_var (m_fw m) (msv_name v) (msv_guid v) = Some (a, d) -> record_ok (to_measure v d)) ->
  exists ret v' (m' : state), import_one v only_first m = Ok (ret, v', m') /\
    (forall g, msv_state v <> Some g -> m_globals m' g = m_globals m g) /\
    (forall g, msv_state v = Some g -> m_globals m' g = m_globals m g \/
       exists a b, lookup_var (m_fw m) (msv_name v) (msv_guid v) = Some (a, [b]) /\ accepted v a = true /\ m_globals m' g = b) /\
    (working dev -> forall g a b, msv_state v = Some g ->
       lookup_var (m_fw m) (msv_name v) (msv_guid v) = Some (a, [b]) -> accepted v a = true -> m_globals m' g = b) /\
    (forall a d, lookup_var (m_fw m) (msv_name v) (msv_guid v) = Some (a, d) -> accepted v a = false ->
       lookup_var (m_fw m') (msv_name v) (msv_guid v) = None \/ ret = EFI_SECURITY_VIOLATION).
Proof.
  intros [Hk Hc Hinv Hf [Hd Hds] Hn] Hi Hrec. unfold import_one_mok_state, no_data.
  rewrite Hd, Hds, bool_decide_true, Hc by done. cbn [negb andb Z.eqb]. unfold read_mok_variable.
  rewrite Hread, get_variable_attr_ok, bind_Ok.
  assert (Hname : (msv_name v, msv_guid v) <> (msv_rtname v, msv_guid v)) by congruence.
  destruct (lookup_var (m_fw m) (msv_name v) (msv_guid v)) as [[a d]|] eqn:El; cbn [gva_status gva_data gva_len gva_attributes].
  - rewrite bool_decide_false by done. cbn [EFI_ERROR].
    change (flag (set_data v (Some (d ++ [0; 0; 0])) (zlen d)) MOK_VARIABLE_INVERSE) with (flag v MOK_VARIABLE_INVERSE).
    rewrite Hinv, bind_Ok. cbn [msv_format set_data msv_yes_attr msv_no_attr]. rewrite Hf, bind_Ok.
    change (flag (set_data v (Some (d ++ [0; 0; 0])) (zlen d)) MOK_VARIABLE_CONFIG_ONLY) with (flag v MOK_VARIABLE_CONFIG_ONLY).
    rewrite Hc, andb_false_r. cbn [andb]. rewrite bind_Ok. fold (negb (accepted v a)).
    assert (Hacc : negb (has_flag a (msv_yes_attr v)) || has_flag a (msv_no_attr v) = negb (accepted v a)).
    { unfold accepted. by destruct (has_flag a (msv_yes_attr v)), (has_flag a (msv_no_attr v)). }
    rewrite Hacc. destruct (accepted v a) eqn:Ea; cbn [negb].
    + destruct (maybe_mirror_plain (set_data v (Some (d ++ [0; 0; 0])) (zlen d)) d [0; 0; 0] EFI_SUCCESS only_first m)
        as (ret & v' & m' & -> & H1' & H2' & H3'); auto.
      { by eapply lookup_nonempty. }
      { by apply (Hrec a). }
      exists ret, v', m'. split; [done|]. split; [exact H1'|]. split; [|split].
      * intros g Hg. destruct (H2' g Hg) as [|(b & -> & Hb)]; [by left|right; eauto].
      * intros Hw g a' b Hg [= <- ->] _. by apply H3'.
      * intros a' d' [= <- <-]. congruence.
    + destruct (LibDeleteVariable (m_fw m) _ _) as [e s'] eqn:Edel. cbn [msv_name msv_guid set_data] in Edel.
      destruct (maybe_mirror_none v (if EFI_ERROR e then EFI_SECURITY_VIOLATION else EFI_SUCCESS) only_first (with_fw m s') Hk)
        as (m' & Hm' & Hg & Ho). 
      change (set_data (set_data v (Some (d ++ [0; 0; 0])) (zlen d)) None 0) with (set_data v None 0). rewrite Hm'.
      eexists _, _, m'. split; [done|]. rewrite Hg. split; [done|]. split; [by left|]. split.
      * intros _ g a' b _ [= <- _] Hx. congruence.
      * intros a' d' _ _. destruct (EFI_ERROR e) eqn:Ee; [by right|left]. rewrite Ho by done. cbn [m_fw with_fw].
        by eapply delete_gone.
  - rewrite bool_decide_true by done.
    match goal with |- context [flag (set_data v None ?n) MOK_VARIABLE_INVERSE] =>
      change (flag (set_data v None n) MOK_VARIABLE_INVERSE) with (flag v MOK_VARIABLE_INVERSE) end.
    rewrite Hinv, bind_Ok. cbn [msv_format set_data]. rewrite Hf, bind_Ok.
    match goal with |- context [flag ?w MOK_VARIABLE_CONFIG_ONLY] =>
      change (flag w MOK_VARIABLE_CONFIG_ONLY) with (flag v MOK_VARIABLE_CONFIG_ONLY) end.
    rewrite Hc, andb_false_r. cbn [andb]. rewrite bind_Ok.
    destruct (maybe_mirror_none v EFI_SUCCESS only_first m Hk) as (m' & Hm' & Hg & _).
    match goal with |- context [maybe_mirror ?w] => change w with (set_data v None 0) end. rewrite Hm'.
    eexists _, _, m'. split; [done|]. rewrite Hg. split; [done|]. split; [by left|]. split; [done|]. done.
Qed.

(** Importing a variable such as MokSBState: the globals other variables own
    are untouched; the variable's own global changes only to the one byte that
    is stored under its name with attributes the check accepts, and is set to it
    when the TPM calls work.  A variable that run-time code could have written
    has no effect on the global, and it is deleted, or the import reports
    EFI_SECURITY_VIOLATION. *)
Theorem import_state_variable v only_first (m : state) :
  plain v -> tpm_inv dev (m_tpm m) ->
  (forall a d, lookup_var (m_fw m) (msv_name v) (msv_guid v) = Some (a, d) -> record_ok (to_measure v d)) ->
  exists ret v' (m' : state), import_one v only_first m = Ok (ret, v', m') /\
    (forall g, msv_state v <> Some g -> m_globals m' g = m_globals m g) /\
    (forall g, msv_state v = Some g -> m_globals m' g = m_globals m g \/
       exists a b, lookup_var (m_fw m) (msv_name v) (msv_guid v) = Some (a, [b]) /\ accepted v a = true /\ m_globals m' g = b) /\
    (working dev -> forall g a b, msv_state v = Some g ->
       lookup_var (m_fw m) (msv_name v) (msv_guid v) = Some (a, [b]) -> accepted v a = true -> m_globals m' g = b) /\
    (forall a d, lookup_var (m_fw m) (msv_name v) (msv_guid v) = Some (a, d) -> accepted v a = false ->
       lookup_var (m_fw m') (msv_name v) (msv_guid v) = None \/ ret = EFI_SECURITY_VIOLATION).
Proof. apply import_plain_ok. Qed.

(** A variable that is not non-volatile is accepted: one of the attributes in
    yes_attr is enough. *)
Theorem volatile_state_accepted v only_first (m : state) g b :
  plain v -> tpm_inv dev (m_tpm m) -> working dev -> msv_state v = Some g ->
  msv_yes_attr v = BS_NV -> msv_no_attr v = EFI_VARIABLE_RUNTIME_ACCESS ->
  lookup_var (m_fw m) (msv_name v) (msv_guid v) = Some (EFI_VARIABLE_BOOTSERVICE_ACCESS, [b]) ->
  record_ok (to_measure v [b]) ->
  exists ret v' (m' : state), import_one v only_first m = Ok (ret, v', m') /\ m_globals m' g = b.
Proof.
  intros Hp Hi Hw Hg Hy Hno Hl Hr.
  destruct (import_plain_ok v only_first m Hp Hi) as (ret & v' & m' & Heq & _ & _ & Hset & _).
  { intros a d Had. rewrite Hl in Had. by injection Had as <- <-. }
  exists ret, v', m'. split; [done|]. eapply Hset; [done..|]. unfold accepted. by rewrite Hy, Hno.
Qed.

(** ** Key databases: MokList, MokListX *)
Section keydb.
Context (Hesl : ma_esl al = true) (Hfull : ma_full al = true).

Record keydb (v : mok_state_variable) : Prop := {
  kd_flag : flag v MOK_MIRROR_KEYDB = true;
  kd_config : flag v MOK_VARIABLE_CONFIG_ONLY = false;
  kd_parts : parts_ok v;
  kd_nonempty : keydb_parts v <> []
}.

(** The variable as the code mirrors it. *)
Definition full (v : mok_state_variable) : list Z := keydb_parts v ++ content v.

Lemma full_length v : parts_ok v -> zlen (full v) = zlen (keydb_parts v) + msv_data_size v.
Proof.
  intros [_ _ _ [H1' H2']]. unfold full. rewrite zlen_app. f_equal. unfold content, zlen in *. rewrite length_take. lia.
Qed.

Lemma mirror_keydb_steps v (only_first : bool) (m : state) :
  keydb v ->
  exists pad, mirror_one v only_first m
    = ('(efi_status, s) ← mirror_mok_db p SPrint (ma_esl al) (ma_name al) (m_fw m) (msv_rtname v) (msv_guid v) mirror_attrs
                           (full v ++ pad) (zlen (full v)) only_first;
       '(r, m) ← (if only_first then measure_and_log al dev v (full v) efi_status (with_fw m s)
                  else Ok (inr efi_status, with_fw m s));
       match r with
       | inl efi_status => Ok (efi_status, v, m)
       | inr efi_status => Ok (efi_status, set_data v (Some (full v ++ pad)) (zlen (full v)), m)
       end).
Proof.
  intros [Hk Hc Hp Hne]. pose proof (zlen_pos_nonempty _ Hne) as Hpos. pose proof (po_data v Hp) as [Hd1 Hd2].
  destruct (full_data_ok al Hesl Hfull v Hp Hk ltac:(lia)) as [pad Hfd]. fold (full v) in Hfd.
  pose proof (full_length v Hp) as Hlen. exists pad. unfold mirror_one_mok_variable.
  rewrite full_data_size_ok, bind_Ok, Hfd, bind_Ok by done. unfold taken. rewrite <- Hlen.
  assert (E1 : (zlen (full v) =? msv_data_size v) = false) by (apply Z.eqb_neq; lia).
  assert (E0 : (zlen (full v) =? 0) = false) by (apply Z.eqb_neq; lia).
  rewrite E1, E0. cbn [andb negb]. rewrite Hk, Hc. cbn [andb]. rewrite bind_Ok. cbn [EFI_ERROR from_option id]. rewrite E0.
  replace (take (Z.to_nat (zlen (full v))) (full v ++ pad)) with (full v)
    by (unfold zlen; by rewrite Nat2Z.id, take_app_length).
  by destruct only_first.
Qed.

(** The first pass on a database that fits: the variable and the run-time
    variable are what shim adds followed by the data. *)
Lemma mirror_keydb_first v (m : state) M s' :
  keydb v -> get_max_var_sz p (m_fw m) mirror_attrs = (EFI_SUCCESS, M) -> zlen (full v) <= M ->
  SetVariable (m_fw m) (msv_rtname v) (msv_guid v) mirror_attrs (full v) = (EFI_SUCCESS, s') ->
  working dev -> tpm_inv dev (m_tpm m) -> record_ok (to_measure v (full v)) ->
  exists pad (m' : state), mirror_one v true m
      = Ok (EFI_SUCCESS, set_data v (Some (full v ++ pad)) (zlen (full v)), m') /\
    m_fw m' = s' /\ m_globals m' = m_globals m.
Proof.
  intros Hkd HM Hfit Hset Hw Hi Hr. destruct (mirror_keydb_steps v true m Hkd) as [pad ->]. exists pad.
  unfold mirror_mok_db. rewrite HM. cbn [EFI_ERROR andb].
  assert ((zlen (full v) <=? M) = true) as -> by by apply Z.leb_le. cbn [orb].
  replace (take (Z.to_nat (zlen (full v))) (full v ++ pad)) with (full v)
    by (unfold zlen; by rewrite Nat2Z.id, take_app_length).
  rewrite Hset, bind_Ok.
  destruct (measure_and_log_ok v (full v) EFI_SUCCESS (with_fw m s') Hr Hi) as (r & m' & -> & Hf & Hg & _ & Hok).
  exists m'. rewrite bind_Ok. by destruct (Hok Hw) as [-> | ->].
Qed.

(** The second pass on a database that fits writes no variable. *)
Lemma mirror_keydb_second v (m : state) M :
  keydb v -> get_max_var_sz p (m_fw m) mirror_attrs = (EFI_SUCCESS, M) -> zlen (full v) <= M ->
  exists pad, mirror_one v false m = Ok (EFI_SUCCESS, set_data v (Some (full v ++ pad)) (zlen (full v)), m).
Proof.
  intros Hkd HM Hfit. destruct (mirror_keydb_steps v false m Hkd) as [pad ->]. exists pad.
  unfold mirror_mok_db. rewrite HM. cbn [EFI_ERROR andb].
  assert ((zlen (full v) <=? M) = true) as -> by by apply Z.leb_le. cbn [orb].
  rewrite !bind_Ok. by destruct m.
Qed.

(** C27. A key database that fits in one variable, in the first pass of the import,
    when the write succeeds and the TPM works: the run-time copy has exactly the
    vendor's lists (or the list with its certificate), the list with the build
    certificate, the user certificates and the variable's own lists, in this order,
    readable at run time and not writable, every other variable is as it was, and the
    table's entry has the same bytes.  The order is that of the code; the comment in
    front of it lists the variable's own data first, then the build certificate, then
    the vendor's. *)
Theorem mirror_keydb_content v (m : state) M s' :
  keydb v -> get_max_var_sz p (m_fw m) mirror_attrs = (EFI_SUCCESS, M) -> zlen (full v) <= M ->
  SetVariable (m_fw m) (msv_rtname v) (msv_guid v) mirror_attrs (full v) = (EFI_SUCCESS, s') ->
  working dev -> tpm_inv dev (m_tpm m) -> record_ok (to_measure v (full v)) ->
  exists pad (m' : state), mirror_one v true m
      = Ok (EFI_SUCCESS, set_data v (Some (full v ++ pad)) (zlen (full v)), m') /\
    lookup_var (m_fw m') (msv_rtname v) (msv_guid v) = Some (mirror_attrs, full v) /\
    (forall n g, (n, g) <> (msv_rtname v, msv_guid v) -> lookup_var (m_fw m') n g = lookup_var (m_fw m) n g) /\
    m_globals m' = m_globals m.
Proof.
  intros Hkd HM Hfit Hset Hw Hi Hr. destruct (mirror_keydb_first v m M s' Hkd HM Hfit Hset Hw Hi Hr) as (pad & m' & Heq & Hf & Hg).
  exists pad, m'. split; [done|]. rewrite Hf. split; [|split; [|done]].
  - rewrite (set_ok _ _ _ _ _ _ Hset) by done. rewrite decide_False; [done|]. intros Hnil. unfold full in Hnil.
    apply app_eq_nil in Hnil as [Hnil _]. by apply (kd_nonempty v Hkd).
  - intros n g Hng. by eapply set_other.
Qed.

(** The second pass puts what shim adds in front of the data once more. *)
Theorem mirror_keydb_twice v (m2 : state) M pad :
  keydb v -> 0 <= zlen (full v) < 2 ^ 32 ->
  get_max_var_sz p (m_fw m2) mirror_attrs = (EFI_SUCCESS, M) -> zlen (keydb_parts v ++ full v) <= M ->
  let v1 := set_data v (Some (full v ++ pad)) (zlen (full v)) in
  exists pad', mirror_one v1 false m2
    = Ok (EFI_SUCCESS, set_data v1 (Some ((keydb_parts v ++ full v) ++ pad')) (zlen (keydb_parts v ++ full v)), m2).
Proof.
  intros [Hk Hc [Ha Hb Hu Hd] Hne] Hlen HM Hfit v1.
  assert (Hfull1 : full v1 = keydb_parts v ++ full v).
  { unfold full at 1. unfold content. cbn [msv_data msv_data_size v1 set_data from_option id].
    unfold zlen. by rewrite Nat2Z.id, take_app_length. }
  rewrite <- Hfull1 in *. apply (mirror_keydb_second v1 m2 M); [|done..]. split; [done|done| |done].
  split; [done|done|done|]. cbn. split; [done|]. unfold zlen. rewrite length_app. lia.
Qed.
End keydb.
End state_variables.

(** ** The configuration table, read back *)
Fixpoint config_entries (fuel : nat) (t : list Z) : list (list Z * list Z) :=
  match fuel with
  | O => []
  | S f =>
      let size := le_combine (take 8 (drop 256 t)) in
      if size =? 0 then []
      else (fst (span (fun b => negb (b =? 0)) (take 256 t)), take (Z.to_nat size) (drop 264 t)) ::
           config_entries f (drop (264 + Z.to_nat size) t)
  end.

(** A variable that can go into the table. *)
Record config_ok (v : mok_state_variable) : Prop := {
  co_name : Forall (fun b => b <> 0) (ascii_bytes (msv_rtname v)) /\ (length (ascii_bytes (msv_rtname v)) <= 255)%nat;
  co_data : 0 <= msv_data_size v < 2 ^ 40 /\ msv_data_size v <= zlen (from_option id [] (msv_data v))
}.

Definition config_bytes (v : mok_state_variable) : list Z :=
  config_template (ascii_bytes (msv_rtname v)) (msv_data_size v) ++ content v.

Lemma content_length v : config_ok v -> zlen (content v) = msv_data_size v.
Proof. intros [_ [H1 H2]]. unfold content, zlen in *. rewrite length_take. lia. Qed.

Lemma config_template_length name n : length (config_template name n) = 264%nat.
Proof. unfold config_template. rewrite !length_app, length_replicate, length_take, le_split_length. lia. Qed.

Lemma config_bytes_length v : config_ok v -> zlen (config_bytes v) = 264 + msv_data_size v.
Proof.
  intros Hv. unfold config_bytes. rewrite zlen_app, content_length by done. unfold zlen. by rewrite config_template_length.
Qed.

Lemma config_size_shift vs n :
  fold_left (fun n v => if has_data v then n + msv_data_size v + sizeof_config_template else n) vs n = n + config_size vs.
Proof.
  unfold config_size. revert n. induction vs as [|v vs IH]; intros n; cbn [fold_left]; [lia|].
  rewrite IH, (IH (if has_data v then _ else 0)). destruct (has_data v); lia.
Qed.

Lemma config_size_cons v vs :
  config_size (v :: vs) = (if has_data v then msv_data_size v + sizeof_config_template else 0) + config_size vs.
Proof. unfold config_size at 1. cbn [fold_left]. rewrite config_size_shift. destruct (has_data v); lia. Qed.

Lemma config_size_bytes vs :
  Forall config_ok vs -> config_size vs = zlen (concat (map config_bytes (filter (fun v => has_data v = true) vs))).
Proof.
  induction 1 as [|v vs Hv HF IH]; [done|]. rewrite config_size_cons, filter_cons.
  destruct (has_data v) eqn:Ed; [rewrite decide_True by done|rewrite decide_False by done; lia].
  cbn [map concat]. rewrite zlen_app, config_bytes_length by done. unfold sizeof_config_template. lia.
Qed.

Lemma write_config_ok vs done n :
  Forall config_ok vs -> config_size vs <= Z.of_nat n ->
  let bytes := concat (map config_bytes (filter (fun v => has_data v = true) vs)) in
  write_config vs (done ++ replicate n 0) (zlen done)
  = Ok ((done ++ bytes) ++ replicate (n - length bytes) 0, zlen (done ++ bytes)).
Proof.
  intros HF. revert done n. induction HF as [|v vs Hv HF IH]; intros done n Hn; cbn [write_config].
  { cbn. by rewrite app_nil_r, Nat.sub_0_r. }
  rewrite config_size_cons in Hn. rewrite filter_cons.
  destruct (has_data v) eqn:Ed; [rewrite decide_True by done|rewrite decide_False by done; apply IH; lia].
  cbn [map concat]. pose proof (config_size_bytes vs HF) as Hsz. rewrite Hsz in Hn. pose proof (zlen_nonneg (concat (map config_bytes (filter (fun v => has_data v = true) vs)))) as Hnn.
  pose proof (co_data v Hv) as [Hd1 Hd2]. unfold sizeof_config_template in *.
  pose proof (config_template_length (ascii_bytes (msv_rtname v)) (msv_data_size v)) as Ht.
  rewrite wrn_zeros, bind_Ok by lia.
  assert (Hrd : rdn (from_option id [] (msv_data v)) 0 (msv_data_size v) = Ok (content v)).
  { unfold rdn, content. case_if; [|lia..]. done. }
  rewrite Hrd, bind_Ok. pose proof (content_length v Hv) as Hc.
  replace (zlen done + 264) with (zlen (done ++ config_template (ascii_bytes (msv_rtname v)) (msv_data_size v)))
    by (rewrite zlen_app; unfold zlen; lia).
  rewrite wrn_zeros, bind_Ok by (unfold zlen in *; lia).
  rewrite <- (app_assoc done). change (config_template _ _ ++ content v) with (config_bytes v).
  replace (zlen (done ++ config_template (ascii_bytes (msv_rtname v)) (msv_data_size v)) + msv_data_size v)
    with (zlen (done ++ config_bytes v)) by (unfold config_bytes; rewrite !zlen_app; lia).
  rewrite IH by (unfold zlen in *; lia). do 2 f_equal.
  - rewrite <- !app_assoc. do 4 f_equal. rewrite length_app. unfold config_bytes. rewrite length_app. lia.
  - by rewrite <- app_assoc.
Qed.

Lemma span_name name k rest :
  Forall (fun b => b <> 0) name -> (0 < k)%nat ->
  fst (span (fun b => negb (b =? 0)) (name ++ replicate k 0 ++ rest)) = name.
Proof.
  intros HF Hk. induction HF as [|b name Hb HF IH]; [destruct k; [lia|done]|]. cbn [app span].
  destruct (b =? 0) eqn:E; [apply Z.eqb_eq in E; done|]. cbn [negb].
  destruct (span _ (name ++ _)) as [x y]. cbn in IH |- *. by rewrite IH.
Qed.

Lemma config_entries_cons f v rest :
  config_ok v -> msv_data_size v <> 0 ->
  config_entries (S f) (config_bytes v ++ rest) = (ascii_bytes (msv_rtname v), content v) :: config_entries f rest.
Proof.
  intros Hv Hne. pose proof Hv as [[Hn1 Hn2] [Hd1 Hd2]]. pose proof (content_length v Hv) as Hc. cbn [config_entries].
  unfold config_bytes. set (name := ascii_bytes (msv_rtname v)) in *.
  set (T := config_template name (msv_data_size v)).
  pose proof (config_template_length name (msv_data_size v)) as Ht. fold T in Ht.
  assert (Hsplit : T = (name ++ replicate (256 - length name) 0) ++ le_split 8 (msv_data_size v)).
  { unfold T, config_template. rewrite (take_ge name) by lia. by rewrite app_assoc. }
  assert (H256 : length (name ++ replicate (256 - length name) 0) = 256%nat) by (rewrite length_app, length_replicate; lia).
  assert (Hsize : le_combine (take 8 (drop 256 ((T ++ content v) ++ rest))) = msv_data_size v).
  { rewrite Hsplit, <- !app_assoc, (app_assoc name). rewrite drop_app_length' by done.
    rewrite take_app_length' by (by rewrite le_split_length). apply le_combine_split. change (8 * Z.of_nat 8) with 64. lia. }
  rewrite Hsize. case_if; [done|].
  f_equal; [f_equal|f_equal].
  - rewrite Hsplit, <- !app_assoc. rewrite (app_assoc name). rewrite take_app_length' by done.
    rewrite <- (app_nil_r (replicate _ 0)). apply span_name; [done|lia].
  - rewrite <- app_assoc, drop_app_length' by done. apply take_app_length'. unfold zlen in Hc. lia.
  - rewrite <- app_assoc. rewrite (app_assoc T). apply drop_app_length'. rewrite length_app. unfold zlen in Hc. lia.
Qed.

Lemma config_entries_ok vs f k :
  Forall config_ok vs -> Forall (fun v => msv_data_size v <> 0) vs -> (length vs < f)%nat -> (264 <= k)%nat ->
  config_entries f (concat (map config_bytes vs) ++ replicate k 0)
  = map (fun v => (ascii_bytes (msv_rtname v), content v)) vs.
Proof.
  intros HF HN. revert f. induction HF as [|v vs Hv HF IH]; intros [|f] Hf Hk; cbn [length] in *; try lia.
  - cbn [map concat app config_entries]. rewrite drop_replicate, take_replicate.
    replace (le_combine (replicate (8 `min` (k - 256)) 0)) with 0; [done|].
    generalize (8 `min` (k - 256))%nat as j. intros j. symmetry. induction j as [|j IHj]; [done|]. cbn [replicate le_combine]. lia.
  - inversion HN; subst. cbn [map concat]. rewrite <- app_assoc, config_entries_cons by done. f_equal. apply IH; auto. lia.
Qed.

Lemma shiftr_shiftl_pages n : 0 <= n -> n mod 2 ^ 12 = 0 -> Z.shiftl (Z.shiftr n 12) 12 = n.
Proof.
  intros Hn Hm. rewrite Z.shiftl_mul_pow2, Z.shiftr_div_pow2 by lia.
  pose proof (Z.div_mod n (2 ^ 12)). lia.
Qed.

(** The pages have room for the entries and the empty one behind them. *)
Lemma config_pages_room n :
  0 <= n < 2 ^ 60 ->
  n + 264 <= Z.shiftl (Z.shiftr (ALIGN_VALUE 64 (n + sizeof_config_template) PAGE_SIZE) EFI_PAGE_SHIFT) EFI_PAGE_SHIFT.
Proof.
  intros Hn. unfold sizeof_config_template, EFI_PAGE_SHIFT.
  destruct (ALIGN_VALUE_pow2 64 (n + 264) 12) as [Hr Hm]; [lia..|]. change (2 ^ 12) with PAGE_SIZE in Hr, Hm at 1.
  rewrite shiftr_shiftl_pages; [lia|lia|done].
Qed.

Lemma has_data_size vs : Forall (fun v => msv_data_size v <> 0) (filter (fun v => has_data v = true) vs).
Proof.
  induction vs as [|v vs IH]; [constructor|]. rewrite filter_cons. destruct (decide _) as [Hd|]; [|done].
  constructor; [|done]. unfold has_data in Hd. apply andb_prop in Hd as [_ Hd]. intros E. by rewrite E in Hd.
Qed.

(** C30. The configuration table that is installed, read by the rule "entries up to
    the first with size zero", has one entry per variable that has data, in the
    order of the table of variables: its run-time name and its data_size bytes;
    the pages that are allocated have room for all of it, for any variables
    with names of at most 255 characters. *)
Theorem build_config_roundtrip vs :
  Forall config_ok vs -> 0 < config_size vs < 2 ^ 60 ->
  exists t, build_config true vs = Ok (Some t) /\
    config_entries (Datatypes.S (length vs)) t
    = map (fun v => (ascii_bytes (msv_rtname v), content v)) (filter (fun v => has_data v = true) vs).
Proof.
  intros HF Hsz. unfold build_config. destruct (config_size vs =? 0) eqn:E0; [apply Z.eqb_eq in E0; lia|]. cbn [negb].
  pose proof (config_pages_room (config_size vs) ltac:(lia)) as Hroom.
  set (n := Z.to_nat (Z.shiftl _ _)). set (bytes := concat (map config_bytes (filter (fun v => has_data v = true) vs))).
  pose proof (config_size_bytes vs HF) as Hb. fold bytes in Hb.
  assert (Hn : config_size vs + 264 <= Z.of_nat n) by lia. clearbody n. clear Hroom.
  pose proof (write_config_ok vs [] n HF ltac:(lia)) as Hw. cbn [app] in Hw. change (zlen []) with 0 in Hw. cbn zeta in Hw.
  fold bytes in Hw. rewrite Hw, bind_Ok.
  rewrite wrn_zeros, bind_Ok by (rewrite length_replicate; unfold sizeof_config_template, zlen in *; lia).
  eexists. split; [done|]. rewrite <- app_assoc, <- replicate_add. apply config_entries_ok.
  - apply Forall_forall. intros v Hv. apply list_elem_of_filter in Hv as [_ Hv]. by eapply Forall_forall in HF.
  - apply has_data_size.
  - pose proof (length_filter (fun v => has_data v = true) vs). lia.
  - unfold sizeof_config_template. lia.
Qed.

(** ** The text of the HSI status *)
Definition hsi_text (hsi_status : Z) (labels : list (string * Z)) : list Z :=
  concat (map (fun l => ascii_bytes (fst l) ++ [if has_flag hsi_status (snd l) then 49 else 48]) labels).

Definition ascii_label (l : string * Z) : Prop := Forall (fun b => b <> 0) (ascii_bytes (fst l)).

(** stpcpy of a string constant over the start of what is left of a buffer. *)
Lemma stpcpy_over done rest str :
  nonul str -> (length str < length rest)%nat ->
  stpcpy (done ++ rest) (zlen done) (str ++ [0]) 0
  = Ok ((done ++ str) ++ 0 :: drop (Datatypes.S (length str)) rest, zlen (done ++ str)).
Proof.
  intros Hs Hl. rewrite <- (take_drop (Datatypes.S (length str)) rest) at 1.
  rewrite (stpcpy_ok done (take _ rest) (drop _ rest) _ _ str).
  - by rewrite <- app_assoc, zlen_app.
  - by exists [], [].
  - rewrite length_take. lia.
Qed.

Lemma format_labels_ok hsi labels done rest :
  Forall ascii_label labels -> (length (hsi_text hsi labels) < length rest)%nat ->
  exists tl, format_labels hsi labels (done ++ rest) (zlen done)
      = Ok ((done ++ hsi_text hsi labels) ++ tl, zlen (done ++ hsi_text hsi labels)) /\
    length tl = (length rest - length (hsi_text hsi labels))%nat.
Proof.
  intros HF. revert done rest. induction HF as [|[label mask] labels Hl HF IH]; intros done rest Hr.
  { exists rest. cbn in *. by rewrite app_nil_r, Nat.sub_0_r. }
  cbn [format_labels]. unfold hsi_text in *. cbn [map concat fst snd] in *. rewrite !length_app in Hr. cbn [length] in Hr.
  rewrite stpcpy_over, bind_Ok by (done || lia).
  set (bit := if has_flag hsi mask then 49 else 48).
  replace (if has_flag hsi mask then [49; 0] else [48; 0]) with ([bit] ++ [0]) by (unfold bit; by destruct (has_flag hsi mask)).
  rewrite stpcpy_over, bind_Ok.
  2:{ unfold nonul. constructor; [unfold bit; by destruct (has_flag hsi mask)|constructor]. }
  2:{ cbn [length]. rewrite length_drop. lia. }
  edestruct IH as (tl & -> & Htl).
  2:{ exists tl. rewrite !app_assoc in *. split; [done|]. rewrite Htl. cbn [length]. rewrite !length_drop, !length_app. cbn [length].
      rewrite length_drop. lia. }
  cbn [length]. rewrite length_drop. cbn [length]. rewrite length_drop. lia.
Qed.

(** format_hsi_status, given a buffer of the size it asks for, fills it to the
    last byte: the eight labels with the bits of the status, a newline and a
    NUL; with no buffer or a smaller one it writes nothing and asks for that
    size. *)
Theorem format_hsi_status_exact hsi_status b :
  zlen b = hsi_size ->
  format_hsi_status hsi_status (Some b) hsi_size
  = Ok (hsi_size, Some (hsi_text hsi_status hsi_labels ++ [10; 0])) /\
  format_hsi_status hsi_status None 0 = Ok (hsi_size, None) /\
  forall sz, sz < hsi_size -> format_hsi_status hsi_status (Some b) sz = Ok (hsi_size, Some b).
Proof.
  intros Hb. split; [|split; [done|intros sz Hsz; cbn; case_if; [done|lia]]].
  unfold format_hsi_status. rewrite Z.ltb_irrefl.
  assert (Hlen : length (hsi_text hsi_status hsi_labels) = (Z.to_nat hsi_size - 2)%nat).
  { unfold hsi_text. cbn [map concat hsi_labels fst snd]. rewrite !length_app. by vm_compute. }
  assert (Hs : hsi_size = 229) by by vm_compute.
  destruct b as [|b0 b]; [rewrite Hs in Hb; by vm_compute in Hb|].
  change (wr (b0 :: b) 0 0) with (Ok (0 :: b) : res (list Z)). rewrite bind_Ok.
  destruct (format_labels_ok hsi_status hsi_labels [] (0 :: b)) as (tl & Heq & Htl).
  { repeat constructor; done. }
  { unfold zlen in Hb. cbn [length] in *. lia. }
  cbn [app] in Heq. change (zlen []) with 0 in Heq. rewrite Heq, bind_Ok.
  assert (length tl = 2%nat) by (unfold zlen in Hb; cbn [length] in *; lia).
  change [10; 0] with ([10] ++ [0]) at 1. rewrite stpcpy_over, bind_Ok.
  - rewrite (drop_ge tl) by (cbn [length]; lia). by rewrite <- app_assoc.
  - by constructor.
  - cbn [length]. lia.
Qed.

(** ** The mirroring loop ends *)
Section mirror_ends.
Context {S : Type} `{MokFirmware S} (p : platform) (SPrint : string -> Z -> string).

Lemma terminates_mirror_one_esl alloc s name guid attrs buf esl esd n :
  terminates (mirror_one_esl (S := S) alloc s name guid attrs buf esl esd n).
Proof.
  unfold mirror_one_esl, SignatureType, SignatureSize. terminates_tac. apply terminates_create_esl.
Qed.

(** Each turn moves the position; one turn past the end is the last. *)
Lemma terminates_mirror_loop fuel alloc name guid attrs buf size only_first esl esl_end pos i st s :
  bytes buf -> (Z.to_nat (size - pos) < fuel)%nat ->
  terminates (mirror_loop p SPrint fuel alloc name guid attrs buf size only_first esl esl_end pos i st s).
Proof.
  intros Hb. revert esl esl_end pos i st s.
  induction fuel as [|f IH]; intros esl esl_end pos i st s Hf; [lia|]. cbn [mirror_loop].
  destruct (u64 (size - pos) <? minsz); [apply terminates_Ok|].
  apply terminates_bind.
  { destruct esl; [destruct (_ <=? _)|]; unfold SignatureListSize; terminates_tac. }
  intros [[e e_end] pos'] Hnext.
  destruct (size <=? pos') eqn:Esz; [apply terminates_Ok|]. bool_to_prop.
  apply terminates_bind; [apply terminates_rd_le|]. intros lsz Hlsz.
  apply terminates_bind; [apply terminates_rd_le|]. intros ssz Hssz.
  pose proof (rd_le_value _ _ _ _ Hb Hlsz) as Hl. pose proof (rd_le_value _ _ _ _ Hb Hssz) as Hs.
  destruct (lsz =? 0) eqn:El; [apply terminates_Ok|]. destruct (ssz =? 0) eqn:Es0; [apply terminates_Ok|]. bool_to_prop. cbn [orb].
  destruct (get_max_var_sz p s attrs) as [st1 M]. destruct (EFI_ERROR st1); [apply terminates_Ok|]. cbv zeta.
  (* the position has not moved back, and a skipped list moves it on *)
  assert (Hpos : pos <= pos' /\ pos < e_end).
  { destruct esl as [e0|]; [destruct (esl_end <=? pos) eqn:Ee|].
    1,3: destruct (SignatureListSize buf pos) as [x| |] eqn:Ex; try discriminate; injection Hnext as <- <- <-;
      unfold SignatureListSize in Hlsz, Ex; rewrite Hlsz in Ex; injection Ex as <-;
      unfold sizeof_EFI_SIGNATURE_LIST; lia.
    injection Hnext as <- <- <-. bool_to_prop. lia. }
  set (M' := if (_ <? M) then _ else 0). set (howmany := if _ <? M' then _ else 0).
  assert (Hh : 0 <= howmany).
  { unfold howmany. destruct (_ <? M') eqn:EM; [|lia]. bool_to_prop. unfold sizeof_EFI_SIGNATURE_LIST in *.
    apply Z.min_glb; apply Z.div_pos; try lia. unfold u64. pose proof (Z.mod_pos_bound (e_end - pos') (2 ^ 64)). lia. }
  destruct (howmany =? 0) eqn:E0; bool_to_prop.
  { apply IH. lia. }
  assert (Hadj : 0 < howmany * ssz) by nia.
  destruct (negb only_first && (i =? 0)).
  { apply IH. lia. }
  apply terminates_bind; [apply terminates_mirror_one_esl|]. intros [st2 s2] _.
  destruct (EFI_ERROR st2); [apply terminates_Ok|]. destruct only_first; [apply terminates_Ok|].
  apply terminates_bind; [|intros [r s3] _; apply terminates_Ok]. apply IH. lia.
Qed.

(** C31. mirror_mok_db returns, or stops at an access outside the buffer, for every
    content of the buffer, whatever the firmware answers: no list size, not
    even zero or one that leads back, keeps the loop going. *)
Theorem mirror_mok_db_terminates alloc name_alloc (s : S) name guid attrs FullData FullDataSize only_first :
  bytes FullData ->
  mirror_mok_db p SPrint alloc name_alloc s name guid attrs FullData FullDataSize only_first <> NoFuel.
Proof.
  intros Hb. change (terminates (mirror_mok_db p SPrint alloc name_alloc s name guid attrs FullData FullDataSize only_first)).
  unfold mirror_mok_db. destruct (get_max_var_sz p s attrs) as [st M].
  destruct (_ && _); [apply terminates_Ok|]. destruct (_ || _); [destruct only_first; apply terminates_Ok|].
  destruct (_ && _); [apply terminates_Ok|].
  apply terminates_bind; [apply terminates_mirror_loop; [done|lia]|].
  intros [r s'] _. unfold dummy_esl. terminates_tac. apply terminates_create_one.
Qed.
End mirror_ends.

(** ** A failure to log that is not reported

    The status of tpm_log_event is stored in a variable of the inner block: the
    caller sees the status from before, and the entry has lost its data. *)
Theorem log_failure_hidden {S : Type} `{MokFirmware S} (al : mok_allocs) dev v d st (m : mstate (S := S)) e t :
  flag v MOK_VARIABLE_MEASURE = false -> flag v MOK_VARIABLE_LOG = true ->
  tpm_log_event dev (ma_tpm al) (ma_tpm al) d (msv_pcr v) (ascii_bytes (msv_name v)) (m_tpm m) = (e, t) ->
  EFI_ERROR e = true ->
  measure_and_log al dev v d st m = Ok (inl st, with_tpm m t).
Proof. intros Hm Hl Ht He. unfold measure_and_log. rewrite Hm, bind_Ok, Hl, Ht. by rewrite He. Qed.

(** ** An example: the store of Firmware.v *)
Global Instance store_mok_firmware : MokFirmware Store := {
  QueryVariableInfo _ _ := (EFI_SUCCESS, (0x10000, 0x8000, 0x4000));
  LibDeleteVariable s n g :=
    match store_lookup s n g with Some _ => (EFI_SUCCESS, without s (n, g)) | None => (EFI_NOT_FOUND, s) end
}.

Global Instance store_mok_laws : MokFirmwareLaws Store.
Proof.
  split; intros s n g st s'; cbn; destruct (store_lookup s n g) eqn:E.
  - intros [= <- <-] _. unfold store_lookup. by rewrite assoc_without.
  - by intros [= <- <-].
  - by intros [= <- <-].
  - by intros [= <- <-].
  - intros n' g' [= <- <-] Hne. unfold store_lookup. by rewrite assoc_without_ne.
  - by intros n' g' [= <- <-] _.
Qed.

Definition sample_platform : platform := {| efi_major_version := 2; FirmwareVendor := Some "EDK II" |}.
Definition sample_allocs : mok_allocs :=
  {| ma_read := true; ma_inverse := true; ma_format := true; ma_full := true; ma_esl := true; ma_name := true; ma_tpm := true |}.
Definition sample_SPrint (name : string) (i : Z) : string := name +:+ "1".
Definition sample_AsciiSPrint (room : Z) (prefix label : string) (n : Z) : list Z := ascii_bytes (prefix +:+ label).
Definition sample_pool (n : Z) : list Z := replicate (Z.to_nat n) 0.
(** Secure boot disabled by the user, with the attributes [a]. *)
Definition sample_mok (a : Z) : mstate (S := Store) :=
  {| m_fw := [(("MokSBState", SHIM_LOCK_GUID), (a, [1]))]; m_tpm := tpm_initial; m_globals := fun _ => 0 |}.

Lemma sample_working : working sample_devices.
Proof. split; [done| |done|by intros e [= <-]]. intros t [= <-]. split; [by left|eauto]. Qed.

Lemma import_state_variable_witness :
  exists ret v' m', import_one_mok_state sample_platform sample_SPrint sample_AsciiSPrint sample_allocs sample_devices 0
      sample_pool MokSBState true (sample_mok BS_NV) = Ok (ret, v', m') /\ m_globals m' user_insecure_mode = 1.
Proof.
  destruct (import_state_variable sample_platform sample_SPrint sample_AsciiSPrint sample_allocs sample_devices 0 sample_pool
    eq_refl eq_refl MokSBState true (sample_mok BS_NV)) as (ret & v' & m' & Heq & _ & _ & Hw & _).
  - by split.
  - apply tpm_initial_inv.
  - intros a d [= <- <-]. by vm_compute.
  - exists ret, v', m'. split; [exact Heq|]. by apply (Hw sample_working user_insecure_mode BS_NV 1).
Defined.

Lemma volatile_state_accepted_witness :
  exists ret v' m', import_one_mok_state sample_platform sample_SPrint sample_AsciiSPrint sample_allocs sample_devices 0
      sample_pool MokSBState true (sample_mok EFI_VARIABLE_BOOTSERVICE_ACCESS) = Ok (ret, v', m') /\
    m_globals m' user_insecure_mode = 1.
Proof.
  apply (volatile_state_accepted sample_platform sample_SPrint sample_AsciiSPrint sample_allocs sample_devices 0 sample_pool
    eq_refl eq_refl MokSBState true (sample_mok EFI_VARIABLE_BOOTSERVICE_ACCESS) user_insecure_mode 1); try done.
  apply tpm_initial_inv. apply sample_working.
Defined.

Definition sample_list : mok_state_variable :=
  set_data (MokList (Some [48; 130]) VENDOR_ADDEND_X509 None (Some [7; 7])) (Some [1; 2; 3; 0; 0; 0]) 3.

Lemma sample_list_keydb : keydb sample_list.
Proof. split; [done|done|split; by vm_compute|]. intros E. apply (f_equal length) in E. by vm_compute in E. Qed.

Lemma mirror_keydb_content_witness :
  exists pad (m' : mstate (S := Store)), mirror_one_mok_variable sample_platform sample_SPrint sample_allocs sample_devices
      sample_list true (sample_mok BS_NV)
    = Ok (EFI_SUCCESS, set_data sample_list (Some (full sample_list ++ pad)) (zlen (full sample_list)), m') /\
    lookup_var (m_fw m') "MokListRT" SHIM_LOCK_GUID = Some (mirror_attrs, full sample_list).
Proof.
  destruct (mirror_keydb_content sample_platform sample_SPrint sample_allocs sample_devices eq_refl eq_refl eq_refl sample_list
    (sample_mok BS_NV) 0x4000 (snd (store_set (m_fw (sample_mok BS_NV)) "MokListRT" SHIM_LOCK_GUID mirror_attrs (full sample_list))))
    as (pad & m' & Heq & Hl & _).
  - apply sample_list_keydb.
  - done.
  - by vm_compute.
  - vm_compute. reflexivity.
  - apply sample_working.
  - apply tpm_initial_inv.
  - by vm_compute.
  - exists pad, m'. split; [exact Heq|exact Hl].
Defined.

Lemma mirror_keydb_twice_witness :
  exists pad', mirror_one_mok_variable sample_platform sample_SPrint sample_allocs sample_devices
      (set_data sample_list (Some (full sample_list ++ [0])) (zlen (full sample_list))) false (sample_mok BS_NV)
    = Ok (EFI_SUCCESS, set_data sample_list (Some ((keydb_parts sample_list ++ full sample_list) ++ pad'))
            (zlen (keydb_parts sample_list ++ full sample_list)), sample_mok BS_NV).
Proof.
  apply (mirror_keydb_twice sample_platform sample_SPrint sample_allocs sample_devices eq_refl eq_refl sample_list
    (sample_mok BS_NV) 0x4000 [0]); [apply sample_list_keydb|by vm_compute..].
Defined.

Lemma build_config_roundtrip_witness :
  exists t, build_config true [sample_list; MokSBState] = Ok (Some t) /\
    config_entries 3 t = [(ascii_bytes "MokListRT", [1; 2; 3])].
Proof.
  destruct (build_config_roundtrip [sample_list; MokSBState]) as (t & Hb & He).
  - repeat constructor; by vm_compute.
  - by vm_compute.
  - exists t. split; [exact Hb|exact He].
Defined.

Lemma format_hsi_status_exact_witness :
  format_hsi_status SHIM_HSI_STATUS_NX (Some (sample_pool hsi_size)) hsi_size
  = Ok (hsi_size, Some (hsi_text SHIM_HSI_STATUS_NX hsi_labels ++ [10; 0])).
Proof. apply (format_hsi_status_exact SHIM_HSI_STATUS_NX (sample_pool hsi_size)). reflexivity. Defined.

Lemma mirror_mok_db_terminates_witness :
  mirror_mok_db sample_platform sample_SPrint true true (m_fw (sample_mok BS_NV)) "MokListRT" SHIM_LOCK_GUID mirror_attrs
    (replicate (Z.to_nat 20000) 1) 20000 false <> NoFuel.
Proof.
  apply (mirror_mok_db_terminates (S := Store) sample_platform sample_SPrint). apply Forall_replicate. unfold is_byte. lia.
Defined.
