(* ===== verification/MokImport.v ===== *)
(** * The import of the MOK state as a whole

    Where a global of shim can come from: the frame of every step of mok.c (what
    it leaves alone), one entry of the table followed through both passes, and
    the theorem on the table of mok.c. *)
From stdpp Require Import base list numbers option strings.
From Stdlib Require Import ZArith Lia.
From S2P Require Import Prelude.
From S2P Require Import Efi.
From S2P Require Import Firmware.
From S2P Require Import Esl.
From S2P Require Import Variables.
From S2P Require Import PeHeader.
From S2P Require Import Tpm.
From S2P Require Import Mok.
Local Open Scope Z_scope.

(** ** What importing leaves alone *)
Section frame.
Context {S : Type} `{MokFirmwareLaws S} (p : platform) (SPrint : string -> Z -> string)
  (AsciiSPrint : Z -> string -> string -> Z -> list Z).
Context (al : mok_allocs) (dev : devices) (hsi_status : Z) (pool : Z -> list Z).
Context (n : string) (g : EFI_GUID).

Abbreviation state := (mstate (S := S)).
Abbreviation same s s' := (lookup_var s' n g = lookup_var s n g).

(** A variable of the table that does not write or delete the variable [n]. *)
Record apart (v : mok_state_variable) : Prop := {
  ap_name : (n, g) <> (msv_name v, msv_guid v);
  ap_rtname : (n, g) <> (msv_rtname v, msv_guid v);
  ap_numbered : forall i, (n, g) <> (SPrint (msv_rtname v) i, msv_guid v)
}.

Lemma set_same s n' g' a d st s' : (n, g) <> (n', g') -> SetVariable s n' g' a d = (st, s') -> same s s'.
Proof. intros Hne Hs. by eapply set_other. Qed.

Lemma mirror_one_esl_same alloc s name guid attrs buf esl esd k st s' :
  (n, g) <> (name, guid) -> mirror_one_esl alloc s name guid attrs buf esl esd k = Ok (st, s') -> same s s'.
Proof.
  intros Hne Hm. unfold mirror_one_esl in Hm. apply bind_inv in Hm as (type & _ & Hm). apply bind_inv in Hm as (size & _ & Hm).
  apply bind_inv in Hm as ([[st1 [var|]] varsz] & _ & Hm); [|by injection Hm as <- <-].
  destruct (_ || _); [by injection Hm as <- <-|]. injection Hm as Hm. by eapply set_same.
Qed.

Lemma mirror_loop_same fuel alloc name guid attrs buf size (only_first : bool) esl esl_end pos i st s r s' :
  (n, g) <> (name, guid) -> (forall i, (n, g) <> (SPrint name i, guid)) ->
  mirror_loop p SPrint fuel alloc name guid attrs buf size only_first esl esl_end pos i st s = Ok (r, s') -> same s s'.
Proof.
  intros Hne Hnum. revert esl esl_end pos i st s r s'. induction fuel as [|f IH]; intros esl esl_end pos i st s r s' Hm; [done|].
  cbn [mirror_loop] in Hm. destruct (u64 _ <? _); [by injection Hm as <- <-|].
  apply bind_inv in Hm as ([[e e_end] pos1] & _ & Hm). destruct (size <=? pos1); [by injection Hm as <- <-|].
  apply bind_inv in Hm as (lsz & _ & Hm). apply bind_inv in Hm as (ssz & _ & Hm).
  destruct (_ || _); [by injection Hm as <- <-|].
  destruct (get_max_var_sz p s attrs) as [st1 M]. destruct (EFI_ERROR st1); [by injection Hm as <- <-|]. cbv zeta in Hm.
  match type of Hm with (if ?h then _ else _) = _ => destruct h end; [by eapply IH|].
  destruct (negb only_first && _); [by eapply IH|].
  apply bind_inv in Hm as ([st2 s2] & Hesl & Hm).
  assert (Hs2 : same s s2) by (eapply mirror_one_esl_same, Hesl; by destruct only_first).
  destruct (EFI_ERROR st2); [by injection Hm as <- <-|]. destruct only_first; [by injection Hm as <- <-|].
  apply bind_inv in Hm as ([r3 s3] & Hrec & Hm). injection Hm as <- <-. rewrite <- Hs2. by eapply IH.
Qed.

Lemma mirror_mok_db_same alloc name_alloc s name guid attrs data size only_first st s' :
  (n, g) <> (name, guid) -> (forall i, (n, g) <> (SPrint name i, guid)) ->
  mirror_mok_db p SPrint alloc name_alloc s name guid attrs data size only_first = Ok (st, s') -> same s s'.
Proof.
  intros Hne Hnum Hm. unfold mirror_mok_db in Hm. destruct (get_max_var_sz p s attrs) as [st1 M].
  destruct (_ && _); [by injection Hm as <- <-|].
  destruct (_ || _).
  { destruct only_first; injection Hm as Hm; [by eapply set_same|congruence]. }
  destruct (_ && _); [by injection Hm as <- <-|].
  apply bind_inv in Hm as ([r s1] & Hl & Hm). apply mirror_loop_same in Hl; [|done..].
  destruct r as [st2|[st2 did_one]]; [by injection Hm as <- <-|].
  destruct (EFI_ERROR st2); [by injection Hm as <- <-|]. destruct (_ && _); [|by injection Hm as <- <-].
  apply bind_inv in Hm as ([[st3 [var|]] varsz] & _ & Hm); [|by injection Hm as <- <-].
  destruct (_ || _); [by injection Hm as <- <-|]. injection Hm as Hm. rewrite <- Hl. by eapply set_same.
Qed.

Lemma measure_and_log_same v d st (m m' : state) r :
  measure_and_log al dev v d st m = Ok (r, m') -> m_fw m' = m_fw m /\ m_globals m' = m_globals m.
Proof.
  intros Hm. unfold measure_and_log in Hm. apply bind_inv in Hm as ([r1 m1] & H1' & Hm).
  assert (m_fw m1 = m_fw m /\ m_globals m1 = m_globals m) as [<- <-].
  { destruct (flag v MOK_VARIABLE_MEASURE); [|by injection H1' as _ <-].
    apply bind_inv in H1' as ([st1 t] & _ & H1'). by injection H1' as _ <-. }
  destruct r1 as [st1|st1]; [by injection Hm as _ <-|]. destruct (flag v MOK_VARIABLE_LOG); [|by injection Hm as _ <-].
  destruct (tpm_log_event dev _ _ _ _ _ _) as [e t]. by injection Hm as _ <-.
Qed.

(** Two entries that differ in their data. *)
Definition same_entry (v v' : mok_state_variable) : Prop := exists d k, v' = set_data v d k.
Lemma same_entry_refl v : same_entry v v.
Proof. exists (msv_data v), (msv_data_size v). by destruct v. Qed.
Lemma same_entry_set v d k : same_entry v (set_data v d k).
Proof. by exists d, k. Qed.
Lemma same_entry_trans u v w : same_entry u v -> same_entry v w -> same_entry u w.
Proof. intros (d & k & ->) (d' & k' & ->). by exists d', k'. Qed.
Hint Resolve same_entry_refl same_entry_set : core.
Lemma same_entry_taken v k : same_entry v (taken v k).
Proof. unfold taken. destruct (_ && _); auto. Qed.
Hint Resolve same_entry_taken : core.
Lemma apart_same_entry v v' : same_entry v v' -> apart v -> apart v'.
Proof. intros (d & k & ->) [? ? ?]. by split. Qed.

(** mirror_one_mok_variable as a whole: the entry that is left, the globals and
    the other variables. *)
Lemma mirror_one_same v only_first (m m' : state) st v' :
  mirror_one_mok_variable p SPrint al dev v only_first m = Ok (st, v', m') ->
  same_entry v v' /\ m_globals m' = m_globals m /\
  ((n, g) <> (msv_rtname v, msv_guid v) -> (forall i, (n, g) <> (SPrint (msv_rtname v) i, msv_guid v)) ->
   same (m_fw m) (m_fw m')).
Proof.
  intros Hm. unfold mirror_one_mok_variable in Hm. apply bind_inv in Hm as ([st1|[[asz bsz] size]] & _ & Hm);
    [by injection Hm as _ <- <-; auto|].
  apply bind_inv in Hm as ([st1|data] & _ & Hm); [by injection Hm as _ <- <-; auto|]. cbv zeta in Hm.
  apply bind_inv in Hm as ([[st1 data1] size1] & _ & Hm). destruct (EFI_ERROR st1); [by injection Hm as _ <- <-; auto|].
  apply bind_inv in Hm as ([st2 s2] & Hdb & Hm). apply bind_inv in Hm as ([r m3] & Hlog & Hm).
  assert (Hfw : m_fw m3 = s2 /\ m_globals m3 = m_globals m).
  { destruct (_ && only_first); [by apply measure_and_log_same in Hlog|by injection Hlog as _ <-]. }
  assert (Hv' : v' = taken v size \/ v' = set_data (taken v size) data1 size1) by (destruct r; injection Hm as _ <- _; auto).
  assert (m' = m3) as -> by (destruct r; by injection Hm as _ _ <-). destruct Hfw as [-> ->]. split; [|split; [done|]].
  { destruct Hv' as [-> | ->]; [auto|]. eapply same_entry_trans; [apply same_entry_taken|apply same_entry_set]. }
  intros Hrt Hnum. destruct (same_entry_taken v size) as (d & k & Ht). rewrite Ht in Hdb. cbn [msv_rtname msv_guid set_data] in Hdb.
  destruct (_ && _ && _); [by eapply mirror_mok_db_same|].
  destruct (_ && _ && _); injection Hdb as Hdb; [by eapply set_same|congruence].
Qed.
Lemma delete_same s n' g' : (n, g) <> (n', g') -> same s (snd (LibDeleteVariable s n' g')).
Proof. intros Hne. destruct (LibDeleteVariable s n' g') as [e s'] eqn:E. by eapply delete_other. Qed.

Lemma maybe_mirror_same v ret (only_first : bool) (m m' : state) st v' :
  maybe_mirror_one_mok_variable p SPrint al dev v ret only_first m = Ok (st, v', m') ->
  same_entry v v' /\ (forall x, msv_state v <> Some x -> m_globals m' x = m_globals m x) /\
  ((n, g) <> (msv_rtname v, msv_guid v) -> (forall i, (n, g) <> (SPrint (msv_rtname v) i, msv_guid v)) ->
   same (m_fw m) (m_fw m')).
Proof.
  intros Hm. unfold maybe_mirror_one_mok_variable in Hm. cbv zeta in Hm.
  match type of Hm with (mbind _ (mirror_one_mok_variable _ _ _ _ _ _ ?x)) = _ => set (m0 := x) in Hm end.
  assert (Hm0 : m_globals m0 = m_globals m /\ ((n, g) <> (msv_rtname v, msv_guid v) -> same (m_fw m) (m_fw m0))).
  { unfold m0. destruct (_ && _); [|done]. split; [done|]. apply delete_same. }
  destruct Hm0 as [Hg0 Hf0]. clearbody m0.
  apply bind_inv in Hm as ([[st1 v1] m1] & Hone & Hm). apply mirror_one_same in Hone as (Hv1 & Hg1 & Hf1).
  assert (Hout : v' = v1 /\ m_fw m' = m_fw m1 /\ forall x, msv_state v1 <> Some x -> m_globals m' x = m_globals m1 x).
  { destruct (msv_data v1) as [[|b d]|]; try (by injection Hm as _ <- <-).
    destruct (msv_state v1) as [x|]; [|by injection Hm as _ <- <-].
    destruct (_ =? 1); injection Hm as _ <- <-; [|done]. split; [done|]. split; [done|]. intros y Hy. cbn.
    by rewrite decide_False by congruence. }
  destruct Hout as (-> & -> & Hg). destruct Hv1 as (d & k & ->). split; [auto|]. split.
  - intros x Hx. by rewrite Hg, Hg1, Hg0.
  - intros Hrt Hnum. by rewrite Hf1, Hf0.
Qed.

Lemma read_mok_variable_same v s x :
  read_mok_variable al v s = Ok x -> match x with inl v' => same_entry v v' | inr (v', _) => same_entry v v' end.
Proof.
  intros Hr. unfold read_mok_variable in Hr. apply bind_inv in Hr as (gv & _ & Hr). cbv zeta in Hr.
  destruct (bool_decide _); [destruct (flag _ _); [destruct (negb _)|]|destruct (EFI_ERROR _); [|destruct (flag _ _)]];
    injection Hr as <-; auto; (eapply same_entry_trans; [apply same_entry_set|]; auto).
Qed.

Lemma format_mok_variable_same f v s x :
  format_mok_variable p AsciiSPrint al hsi_status pool f v s = Ok x ->
  match x with inl v' => same_entry v v' | inr v' => same_entry v v' end.
Proof.
  intros Hr. unfold format_mok_variable in Hr. apply bind_inv in Hr as ([size b] & _ & Hr).
  destruct (0 <? size); [destruct (negb _); [injection Hr as <-; auto|]|]; apply bind_inv in Hr as ([? ?] & _ & Hr);
    injection Hr as <-; auto.
Qed.

Lemma import_one_same v only_first (m m' : state) st v' :
  import_one_mok_state p SPrint AsciiSPrint al dev hsi_status pool v only_first m = Ok (st, v', m') ->
  same_entry v v' /\ (forall x, msv_state v <> Some x -> m_globals m' x = m_globals m x) /\
  (apart v -> same (m_fw m) (m_fw m')).
Proof.
  intros Hm. unfold import_one_mok_state in Hm.
  apply bind_inv in Hm as (r & Hr & Hm).
  assert (Hr1 : match r with inl v1 => same_entry v v1 | inr (v1, _) => same_entry v v1 end).
  { destruct (_ && _); [by apply read_mok_variable_same in Hr|by injection Hr as <-]. }
  clear Hr. destruct r as [v1|[v1 delete]]; [by injection Hm as _ <- <-|].
  apply bind_inv in Hm as (r & Hr & Hm).
  assert (Hr2 : match r with inl v2 => same_entry v v2 | inr v2 => same_entry v v2 end).
  { destruct (msv_format v1); [apply format_mok_variable_same in Hr; destruct r|injection Hr as <-]; eauto using same_entry_trans. }
  clear Hr. destruct r as [v2|v2]; [by injection Hm as _ <- <-|].
  apply bind_inv in Hm as (r & Hr & Hm).
  assert (Hr3 : match r with inl _ => True | inr v3 => same_entry v v3 end).
  { destruct (_ && _); [|by injection Hr as <-]. apply bind_inv in Hr as (gv & _ & Hr).
    destruct (EFI_ERROR _); [destruct (negb _)|]; injection Hr as <-; eauto using same_entry_trans. }
  clear Hr. destruct r as [e|v3]; [by injection Hm as _ <- <-|].
  destruct delete.
  - destruct (LibDeleteVariable (m_fw m) (msv_name v3) (msv_guid v3)) as [e s] eqn:Edel.
    apply maybe_mirror_same in Hm as (Hv & Hg & Hf). destruct Hr3 as (d & k & ->). split.
    { eapply same_entry_trans; [|exact Hv]. eapply same_entry_trans; apply same_entry_set. }
    split; [done|]. intros [Ha Hb Hc]. rewrite Hf by done. by eapply delete_other.
  - apply maybe_mirror_same in Hm as (Hv & Hg & Hf). destruct Hr3 as (d & k & ->).
    split; [eapply same_entry_trans; [apply same_entry_set|exact Hv]|].
    split; [done|]. intros [Ha Hb Hc]. by apply Hf.
Qed.

End frame.

(** ** One state variable through the whole import *)
Section owner.
Context {S : Type} `{MokFirmwareLaws S} (p : platform) (SPrint : string -> Z -> string)
  (AsciiSPrint : Z -> string -> string -> Z -> list Z).
Context (al : mok_allocs) (dev : devices) (hsi_status : Z) (pool : Z -> list Z).
(** The entry, its global, and what the firmware has under its name. *)
Context (v0 : mok_state_variable) (x0 : mok_global) (before : option (Z * list Z)) (g0 : Z).
Context (Hplain : plain v0) (Hx0 : msv_state v0 = Some x0).
Context (Hnum : forall i, (msv_name v0, msv_guid v0) <> (SPrint (msv_rtname v0) i, msv_guid v0)).

Abbreviation state := (mstate (S := S)).

(** The entry is empty or has what was stored, with attributes that pass. *)
Definition data_kept (v : mok_state_variable) : Prop :=
  (msv_data v = None /\ msv_data_size v = 0) \/
  exists a d pad, before = Some (a, d) /\ accepted v0 a = true /\ d <> [] /\
    msv_data v = Some (d ++ pad) /\ msv_data_size v = zlen d.
Definition var_kept (m : state) : Prop :=
  lookup_var (m_fw m) (msv_name v0) (msv_guid v0) = before \/ lookup_var (m_fw m) (msv_name v0) (msv_guid v0) = None.
Definition global_kept (m : state) : Prop :=
  m_globals m x0 = g0 \/ exists a b, before = Some (a, [b]) /\ accepted v0 a = true /\ m_globals m x0 = b.

Lemma data_kept_set v d k : data_kept (set_data v d k) <-> data_kept (set_data v0 d k).
Proof. done. Qed.

Lemma read_plain v s x :
  same_entry v0 v -> read_mok_variable al v s = Ok x ->
  exists v' del, x = inr (v', del) /\ same_entry v0 v' /\
    (del = true \/ v' = set_data v None 0 \/
     exists a d, lookup_var s (msv_name v0) (msv_guid v0) = Some (a, d) /\ accepted v0 a = true /\
       v' = set_data v (Some (d ++ [0; 0; 0])) (zlen d)).
Proof.
  intros (d0 & k0 & ->) Hr. destruct Hplain as [Hk Hc Hinv Hf _ Hn]. unfold read_mok_variable in Hr.
  assert (Hi : forall d k, flag (set_data (set_data v0 d0 k0) d k) MOK_VARIABLE_INVERSE = false) by done.
  apply bind_inv in Hr as (gv & Hgv & Hr). cbv zeta in Hr. rewrite Hi in Hr.
  destruct (bool_decide (gva_status gv = EFI_NOT_FOUND)); [injection Hr as <-; eexists _, _; split; [done|]; split; [by eexists _, _|auto]|].
  destruct (EFI_ERROR (gva_status gv)) eqn:Ee; [injection Hr as <-; eexists _, _; split; [done|]; split; [by eexists _, _|auto]|].
  injection Hr as <-. eexists _, _. split; [done|]. split; [by eexists _, _|].
  destruct (ma_read al).
  - rewrite get_variable_attr_ok in Hgv. cbn [msv_name msv_guid set_data] in Hgv.
    destruct (lookup_var s (msv_name v0) (msv_guid v0)) as [[a d]|] eqn:El; injection Hgv as <-; [|done].
    cbn [gva_attributes gva_data gva_len msv_yes_attr msv_no_attr set_data].
    destruct (negb (has_flag a (msv_yes_attr v0)) || has_flag a (msv_no_attr v0)) eqn:Edel; [by left|]. right. right.
    exists a, d. split; [done|]. split; [|done]. unfold accepted. apply orb_false_elim in Edel as [E1 E2].
    apply negb_false_iff in E1. by rewrite E1, E2.
  - exfalso. unfold get_variable_attr in Hgv. destruct (negb _) eqn:Es; cbn [negb] in Hgv; injection Hgv as <-; [|done].
    cbn [gva_status] in Ee. destruct (EFI_ERROR (gv_status _)) eqn:Eg; [by rewrite Eg in Ee|done].
Qed.

(** Mirroring keeps the data or, in a failure, drops it. *)
Lemma mirror_plain_data v only_first (m m' : state) st v' :
  same_entry v0 v -> data_kept v -> mirror_one_mok_variable p SPrint al dev v only_first m = Ok (st, v', m') -> data_kept v'.
Proof.
  intros (d0 & k0 & ->) Hd Hm. destruct Hplain as [Hk Hc Hinv Hf _ Hn].
  assert (Hkd : forall d k, flag (set_data v0 d k) MOK_MIRROR_KEYDB = false) by done.
  unfold mirror_one_mok_variable, full_data_size in Hm. rewrite Hkd, bind_Ok in Hm. cbn [msv_data_size set_data] in *.
  unfold full_data in Hm. cbn [msv_data msv_data_size set_data] in Hm. rewrite (Z.eqb_refl k0) in Hm.
  set (w := taken (set_data v0 d0 k0) k0) in Hm.
  assert (Hw : data_kept w /\ flag w MOK_MIRROR_KEYDB = false).
  { clear Hm. unfold w, taken. destruct (_ && _); (split; [|exact Hk]); [by left|exact Hd]. }
  destruct Hw as [Hw Hkw].
  assert (Hfd : (if k0 =? 0 then Ok (inr None) else Ok (inr d0)) = Ok (inr d0 : EFI_STATUS + option (list Z))).
  { destruct (k0 =? 0) eqn:E0; [|done]. apply Z.eqb_eq in E0. destruct Hd as [[Hd _]|(a & d & pad & _ & _ & Hne & _ & Hz)].
    - cbn in Hd. by subst.
    - cbn in Hz. pose proof (zlen_pos_nonempty d Hne). lia. }
  rewrite Hfd, bind_Ok in Hm. cbv zeta in Hm. fold w in Hm. rewrite Hkw in Hm. cbn [andb] in Hm. rewrite bind_Ok in Hm. cbn [EFI_ERROR] in Hm.
  apply bind_inv in Hm as ([st2 s2] & _ & Hm). apply bind_inv in Hm as ([[r|r] m3] & _ & Hm); injection Hm as _ <- _; [done|].
  unfold w, taken. by destruct (_ && _).
Qed.
Lemma name_not_rtname : (msv_name v0, msv_guid v0) <> (msv_rtname v0, msv_guid v0).
Proof. intros [= E]. by apply (pn_names v0 Hplain). Qed.

Lemma maybe_mirror_owner v ret only_first (m m' : state) st v' :
  same_entry v0 v -> data_kept v -> var_kept m -> global_kept m ->
  maybe_mirror_one_mok_variable p SPrint al dev v ret only_first m = Ok (st, v', m') ->
  same_entry v0 v' /\ data_kept v' /\ var_kept m' /\ global_kept m'.
Proof.
  intros Hs Hd Hv Hg Hm. pose proof Hm as Hm'. pose proof Hs as (d0 & k0 & E).
  apply (maybe_mirror_same p SPrint al dev (msv_name v0) (msv_guid v0)) in Hm' as (Hs' & _ & Hf).
  assert (Hsv' : same_entry v0 v') by (eapply same_entry_trans; eauto).
  unfold maybe_mirror_one_mok_variable in Hm. cbv zeta in Hm.
  apply bind_inv in Hm as ([[st1 v1] m1] & Hone & Hm). pose proof (mirror_plain_data _ _ _ _ _ _ Hs Hd Hone) as Hd1.
  apply (mirror_one_same p SPrint al dev (msv_name v0) (msv_guid v0)) in Hone as (Hs1 & Hg1 & _).
  assert (Hg1' : global_kept m1).
  { unfold global_kept in *. rewrite Hg1. by destruct (_ && _). }
  assert (Hvk : var_kept m').
  { unfold var_kept in *. rewrite Hf; [done| |]; subst v; [apply name_not_rtname|apply Hnum]. }
  assert (Hst1 : msv_state v1 = Some x0) by (destruct Hs1 as (? & ? & ->); by subst v).
  rewrite Hst1 in Hm. destruct (msv_data v1) as [[|b d]|] eqn:Ed; try (injection Hm as _ <- <-; by auto).
  destruct (msv_data_size v1 =? 1) eqn:E1; injection Hm as _ <- <-; [|by auto].
  do 3 (split; [by auto|]). right. destruct Hd1 as [[Hd1 _]|(a & d1 & pad & Hb & Ha & Hne & Hd1 & Hz)]; [congruence|].
  apply Z.eqb_eq in E1. rewrite E1 in Hz. destruct d1 as [|b1 [|b2 d1]]; [done| |zlia].
  rewrite Ed in Hd1. injection Hd1 as -> _. exists a, b1. split; [done|]. split; [done|]. cbn. by rewrite decide_True.
Qed.

Lemma import_owner v only_first (m m' : state) st v' :
  same_entry v0 v -> data_kept v -> var_kept m -> global_kept m ->
  import_one_mok_state p SPrint AsciiSPrint al dev hsi_status pool v only_first m = Ok (st, v', m') ->
  same_entry v0 v' /\ data_kept v' /\ var_kept m' /\ global_kept m'.
Proof.
  intros Hs Hd Hv Hg Hm. destruct Hplain as [Hk Hc Hinv Hf _ Hn].
  assert (Hcf : forall v, same_entry v0 v -> flag v MOK_VARIABLE_CONFIG_ONLY = false /\ msv_format v = None)
    by by intros ? (? & ? & ->).
  unfold import_one_mok_state in Hm. apply bind_inv in Hm as (r & Hr & Hm).
  assert (Hr1 : exists v1 del, r = inr (v1, del) /\ same_entry v0 v1 /\ (del = true \/ data_kept v1)).
  { destruct (_ && _) eqn:En in Hr.
    - apply read_plain in Hr as (v1 & del & -> & Hs1 & Hcase); [|done]. exists v1, del. split; [done|]. split; [done|].
      destruct Hcase as [?|[-> |(a & d & Hl & Ha & ->)]]; [by left|by right; left|right; right].
      exists a, d, [0; 0; 0]. pose proof (lookup_nonempty _ _ _ _ _ Hl). destruct Hv as [Hv|Hv]; rewrite Hl in Hv; done.
    - injection Hr as <-. eexists _, _. split; [done|]. by auto. }
  destruct Hr1 as (v1 & del & -> & Hs1 & Hcase). destruct (Hcf v1 Hs1) as [Hc1 Hf1]. rewrite Hf1, bind_Ok, Hc1, andb_false_r in Hm.
  cbn [andb] in Hm. rewrite bind_Ok in Hm. destruct del.
  - assert (Hv1 : msv_name v1 = msv_name v0 /\ msv_guid v1 = msv_guid v0) by (by destruct Hs1 as (? & ? & ->)).
    destruct Hv1 as [E1 E2]. rewrite E1, E2 in Hm.
    destruct (LibDeleteVariable (m_fw m) (msv_name v0) (msv_guid v0)) as [e s] eqn:Edel.
    eapply maybe_mirror_owner, Hm; [by eapply same_entry_trans, same_entry_set|by left| |done].
    unfold var_kept in *. cbn [m_fw with_fw]. destruct (EFI_ERROR e) eqn:Ee; [|right; by eapply delete_gone].
    by rewrite (delete_error _ _ _ _ _ Edel Ee).
  - destruct Hcase as [?|Hd1]; [done|]. by eapply maybe_mirror_owner.
Qed.

(** The other entries of the table. *)
Definition stranger (v : mok_state_variable) : Prop :=
  msv_state v <> Some x0 /\ apart SPrint (msv_name v0) (msv_guid v0) v.

Lemma import_stranger v only_first (m m' : state) st v' :
  stranger v -> var_kept m -> global_kept m ->
  import_one_mok_state p SPrint AsciiSPrint al dev hsi_status pool v only_first m = Ok (st, v', m') ->
  stranger v' /\ var_kept m' /\ global_kept m'.
Proof.
  intros [Hst Hap] Hv Hg Hm. apply (import_one_same _ _ _ _ _ _ _ (msv_name v0) (msv_guid v0)) in Hm as (Hs & Hgl & Hf).
  split; [|unfold var_kept, global_kept in *; by rewrite Hf, Hgl].
  split; [by destruct Hs as (? & ? & ->)|by eapply apart_same_entry].
Qed.

(** A table with the entry among strangers. *)
Inductive table_ok : list mok_state_variable -> Prop :=
| table_owner v vs : same_entry v0 v -> data_kept v -> Forall stranger vs -> table_ok (v :: vs)
| table_stranger v vs : stranger v -> table_ok vs -> table_ok (v :: vs).

Lemma import_strangers only_first vs ret (m m' : state) ret' vs' :
  Forall stranger vs -> var_kept m -> global_kept m ->
  import_all p SPrint AsciiSPrint al dev hsi_status pool only_first vs ret m = Ok (ret', vs', m') ->
  Forall stranger vs' /\ var_kept m' /\ global_kept m'.
Proof.
  intros HF. revert ret m ret' vs' m'. induction HF as [|v vs Hv HF IH]; intros ret m ret' vs' m' Hk Hg Hm; cbn [import_all] in Hm.
  { by injection Hm as _ <- <-. }
  apply bind_inv in Hm as ([[st v1] m1] & Hone & Hm). apply bind_inv in Hm as ([[ret2 vs2] m2] & Hrec & Hm). injection Hm as _ <- <-.
  apply import_stranger in Hone as (? & ? & ?); [|done..]. apply IH in Hrec as (? & ? & ?); auto.
Qed.

Lemma import_table only_first vs ret (m m' : state) ret' vs' :
  table_ok vs -> var_kept m -> global_kept m ->
  import_all p SPrint AsciiSPrint al dev hsi_status pool only_first vs ret m = Ok (ret', vs', m') ->
  table_ok vs' /\ var_kept m' /\ global_kept m'.
Proof.
  intros Ht. revert ret m ret' vs' m'.
  induction Ht as [v vs Hs Hd HF|v vs Hv Ht IH]; intros ret m ret' vs' m' Hk Hg Hm; cbn [import_all] in Hm;
    apply bind_inv in Hm as ([[st v1] m1] & Hone & Hm); apply bind_inv in Hm as ([[ret2 vs2] m2] & Hrec & Hm); injection Hm as _ <- <-.
  - apply import_owner in Hone as (? & ? & ? & ?); [|done..]. apply import_strangers in Hrec as (? & ? & ?); [|done..].
    split; [by apply table_owner|done].
  - apply import_stranger in Hone as (? & ? & ?); [|done..]. apply IH in Hrec as (? & ? & ?); [|done..].
    split; [by apply table_stranger|done].
Qed.
End owner.

Section insecure.
Context {S : Type} `{MokFirmwareLaws S} (p : platform) (SPrint : string -> Z -> string)
  (AsciiSPrint : Z -> string -> string -> Z -> list Z).
Context (al : mok_allocs) (dev : devices) (hsi_status : Z) (pool : Z -> list Z).
Context (vendor_authorized : option (list Z)) (vendor_authorized_category : vendor_addend_category_t).
Context (vendor_deauthorized user_cert build_cert : option (list Z)).

Abbreviation state := (mstate (S := S)).
Abbreviation table := (mok_state_variable_data vendor_authorized vendor_authorized_category vendor_deauthorized user_cert build_cert).

(** The global [x0] of the entry [v0] of a table of strangers, after the import. *)
Lemma import_origin v0 x0 start_MokManager pages_ok vs (m m' : state) ret ct vs' :
  plain v0 -> msv_state v0 = Some x0 -> x0 = user_insecure_mode \/ x0 = ignore_db ->
  (forall i, (msv_name v0, msv_guid v0) <> (SPrint (msv_rtname v0) i, msv_guid v0)) ->
  table_ok SPrint v0 x0 (lookup_var (m_fw m) (msv_name v0) (msv_guid v0)) vs ->
  import_mok_state p SPrint AsciiSPrint al dev hsi_status pool start_MokManager pages_ok vs m = Ok (ret, ct, vs', m') ->
  m_globals m' x0 = 0 \/
  exists a b, lookup_var (m_fw m) (msv_name v0) (msv_guid v0) = Some (a, [b]) /\ accepted v0 a = true /\ m_globals m' x0 = b.
Proof.
  intros Hp Hx Hor Hnum Ht Hm. unfold import_mok_state in Hm. cbv zeta in Hm.
  set (m0 := set_global _ trust_mok_list 0) in Hm. set (before := lookup_var _ _ _) in *.
  assert (Hg0 : global_kept v0 x0 before 0 m0) by (left; by destruct Hor as [-> | ->]).
  assert (Hv0 : var_kept v0 before m0) by by left.
  apply bind_inv in Hm as ([[ret1 vs1] m1] & H1' & Hm). apply bind_inv in Hm as (ct1 & _ & Hm).
  apply bind_inv in Hm as ([[ret2 vs2] m2] & H2' & Hm).
  destruct (import_table p SPrint AsciiSPrint al dev hsi_status pool v0 x0 before 0 Hp Hx Hnum _ _ _ _ _ _ _ Ht Hv0 Hg0 H1') as (Ht1 & Hv1 & Hg1).
  destruct (import_table p SPrint AsciiSPrint al dev hsi_status pool v0 x0 before 0 Hp Hx Hnum _ _ _ _ _ _ _ Ht1 Hv1 Hg1 H2') as (_ & _ & Hg2).
  destruct (check_mok_request start_MokManager (m_fw m2)) as [e s]. injection Hm as _ _ _ <-. exact Hg2.
Qed.

Ltac solve_stranger HS := split; [done|split; [by intros [=]|by intros [=]|intros i [= E]; by eapply HS]].
Ltac solve_table HS :=
  first [ apply table_owner; [by eexists _, _|by left|repeat (apply List.Forall_cons; [solve_stranger HS|]); apply List.Forall_nil]
        | apply table_stranger; [solve_stranger HS|solve_table HS] ].

(** C8. The whole of import_mok_state on shim's table of variables: secure boot
    stays enforced (user_insecure_mode is 0) and the firmware's db stays in use
    (ignore_db is 0) unless the firmware had MokSBState, or MokDBState, before the
    import, as one non-zero byte with boot-service and without run-time access,
    whatever the other variables hold, the firmware and the TPM answer and
    MokManager does. *)
Theorem import_insecure_origin start_MokManager pages_ok (m m' : state) ret ct vs' x0 v0 :
  In (x0, v0) [(user_insecure_mode, MokSBState); (ignore_db, MokDBState)] ->
  (forall name i, SPrint name i <> msv_name v0) ->
  import_mok_state p SPrint AsciiSPrint al dev hsi_status pool start_MokManager pages_ok table m = Ok (ret, ct, vs', m') ->
  m_globals m' x0 <> 0 ->
  exists a b, lookup_var (m_fw m) (msv_name v0) SHIM_LOCK_GUID = Some (a, [b]) /\
    has_flag a BS_NV = true /\ has_flag a EFI_VARIABLE_RUNTIME_ACCESS = false /\ m_globals m' x0 = b.
Proof.
  intros Hin HS Hm Hne.
  assert (Hp : plain v0 /\ msv_state v0 = Some x0 /\ (x0 = user_insecure_mode \/ x0 = ignore_db) /\
    msv_guid v0 = SHIM_LOCK_GUID /\ msv_yes_attr v0 = BS_NV /\ msv_no_attr v0 = EFI_VARIABLE_RUNTIME_ACCESS).
  { destruct Hin as [[= <- <-]|[[= <- <-]|[]]]; (split; [by split|]; by auto 6). }
  destruct Hp as (Hp & Hx & Hor & Hg & Hy & Hno).
  assert (Ht : table_ok SPrint v0 x0 (lookup_var (m_fw m) (msv_name v0) (msv_guid v0)) table).
  { clear Hm. destruct Hin as [[= <- <-]|[[= <- <-]|[]]]; unfold mok_state_variable_data; cbn [map app]; solve_table HS. }
  assert (Hnum : forall i, (msv_name v0, msv_guid v0) <> (SPrint (msv_rtname v0) i, msv_guid v0)) by (intros i [= E]; by eapply HS).
  destruct (import_origin v0 x0 start_MokManager pages_ok table m m' ret ct vs' Hp Hx Hor Hnum Ht Hm)
    as [?|(a & b & Hl & Ha & Hb)]; [done|].
  exists a, b. rewrite Hg in Hl. unfold accepted in Ha. rewrite Hy, Hno in Ha. apply andb_prop in Ha as [? Ha].
  apply negb_true_iff in Ha. done.
Qed.
End insecure.

(** ** An example *)
Lemma sample_SPrint_names name i : sample_SPrint name i <> "MokSBState".
Proof.
  unfold sample_SPrint. intros E. do 11 (destruct name as [|? name]; [discriminate|]; try discriminate; injection E as _ E).
Qed.

Lemma import_insecure_origin_witness :
  exists ret ct vs' m',
    import_mok_state sample_platform sample_SPrint sample_AsciiSPrint sample_allocs sample_devices 0 sample_pool
      (fun s => (EFI_SUCCESS, s)) true (mok_state_variable_data None VENDOR_ADDEND_NONE None None None) (sample_mok BS_NV)
    = Ok (ret, ct, vs', m') /\ m_globals m' user_insecure_mode = 1 /\
    exists a b, lookup_var (m_fw (sample_mok BS_NV)) "MokSBState" SHIM_LOCK_GUID = Some (a, [b]) /\
      has_flag a BS_NV = true /\ has_flag a EFI_VARIABLE_RUNTIME_ACCESS = false /\ m_globals m' user_insecure_mode = b.
Proof.
  destruct (import_mok_state sample_platform sample_SPrint sample_AsciiSPrint sample_allocs sample_devices 0 sample_pool
      (fun s => (EFI_SUCCESS, s)) true (mok_state_variable_data None VENDOR_ADDEND_NONE None None None) (sample_mok BS_NV))
    as [[[[ret ct] vs'] m']| |] eqn:E.
  2, 3: vm_compute in E; discriminate E.
  assert (H1 : m_globals m' user_insecure_mode = 1) by (vm_compute in E; injection E as _ _ _ <-; reflexivity).
  exists ret, ct, vs', m'. split; [reflexivity|]. split; [exact H1|].
  apply (import_insecure_origin sample_platform sample_SPrint sample_AsciiSPrint sample_allocs sample_devices 0 sample_pool
    None VENDOR_ADDEND_NONE None None None (fun s => (EFI_SUCCESS, s)) true (sample_mok BS_NV) m' ret ct vs' user_insecure_mode MokSBState).
  - by left.
  - apply sample_SPrint_names.
  - exact E.
  - rewrite H1. lia.
Defined.
