(* ===== verification/Boot.v ===== *)
(** * The boot: shim.c

    From the entry point to the second stage: efi_main makes the checks, imports
    the state, installs the hooks and protocols and starts the second stage,
    MokManager, the fallback program or the default loader (init_grub).  The
    components it calls are those of the other files; [boot] is the state they
    share.  Running an image is a parameter, which may change the state. *)
From stdpp Require Import base list numbers option strings sets.
From Stdlib Require Import ZArith Lia.
From S2P Require Import Prelude.
From S2P Require Import Efi.
From S2P Require Import Str.
From S2P Require Import Path.
From S2P Require Import LoadOptions.
From S2P Require Import Sbat.
From S2P Require Import Firmware.
From S2P Require Import Esl.
From S2P Require Import Variables.
From S2P Require Import SbatVar.
From S2P Require Import PeHeader.
From S2P Require Import PeHash.
From S2P Require Import Verify.
From S2P Require Import VerifyBuffer.
From S2P Require Import PeLoad.
From S2P Require Import MemAttrs.
From S2P Require Import LoaderProto.
From S2P Require Import Trust.
From S2P Require Import Tpm.
From S2P Require Import Mok.
Local Open Scope Z_scope.

Definition DEFAULT_LOADER : list Z := wide "\grubx64.efi".
Definition FALLBACK : list Z := wide "\fbx64.efi".
Definition MOK_MANAGER : list Z := wide "\mmx64.efi".
Definition SHIM_RETAIN_PROTOCOL_VAR_NAME : string := "ShimRetainProtocol".

(** ** utils.c: reading a text file *)

(** Open on a file handle gives another one; the sizes and bytes are the
    firmware's answers. *)
Record text_file : Type := {
  tf_open : list Z -> EFI_STATUS + EFI_FILE;
  tf_read : Z -> EFI_STATUS * list Z
}.

(** GetInfo without a buffer, and with one of the size it asks for. *)
Definition get_file_size (alloc : bool) (fh : EFI_FILE) : EFI_STATUS + Z :=
  let '(efi_status, bs, _) := GetInfo fh 0 in
  if EFI_ERROR efi_status && negb (bool_decide (efi_status = EFI_BUFFER_TOO_SMALL)) then inl efi_status
  else if bs =? 0 then inr 0
  else if negb alloc then inl EFI_OUT_OF_RESOURCES
  else
    let '(efi_status, _, FileSize) := GetInfo fh bs in
    if EFI_ERROR efi_status then inl efi_status else inr FileSize.

(** The bytes of the buffer and [*bs]; the file that is read is [fh], the one
    whose size is taken is opened by its path. *)
Definition read_file (alloc pool : bool) (fh : text_file) (fullpath : list Z) : res (EFI_STATUS + (list Z * Z)) :=
  match tf_open fh fullpath with
  | inl efi_status => Ok (inl efi_status)
  | inr fh2 =>
      match get_file_size alloc fh2 with
      | inl efi_status => Ok (inl efi_status)
      | inr len =>
          if 1024 * PAGE_SIZE <? len then Ok (inl EFI_BAD_BUFFER_SIZE)
          else if negb pool then Ok (inl EFI_OUT_OF_RESOURCES)
          else
            let (efi_status, bs) := tf_read fh len in
            b ← wrn (replicate (Z.to_nat (len + 2)) 0) 0 bs;
            if EFI_ERROR efi_status then Ok (inl efi_status) else Ok (inr (b, zlen bs))
      end
  end.

(** The units of a buffer of bytes; a last odd byte is not one. *)
Fixpoint units (b : list Z) : list Z :=
  match b with
  | lo :: hi :: b => lo + 256 * hi :: units b
  | _ => []
  end.

(** ** The state *)

(** SHIM_LOCK_GUID and SHIM_IMAGE_LOADER_GUID in the firmware's database: which
    interface is installed on which handle, in the order LocateProtocol finds
    them. *)
Record boot (S : Type) : Type := {
  b_sbat : sbat_state S;
  b_load : lstate;
  b_cert : cert_state;
  b_tpm : tpm_state;
  b_globals : mok_global -> Z;
  b_hsi_status : Z;
  b_hooks : hooks;
  b_protocols : list (Z * Z);
  b_lock_handle : Z;
  b_FilePath : list Z;
  b_second_stage : list Z;
  b_optional_second_stage : option (list Z);
  b_load_options : list Z;
  b_mok_table : option (list Z)
}.
Arguments b_sbat {S}. Arguments b_load {S}. Arguments b_cert {S}. Arguments b_tpm {S}. Arguments b_globals {S}.
Arguments b_hsi_status {S}. Arguments b_hooks {S}. Arguments b_protocols {S}. Arguments b_lock_handle {S}.
Arguments b_FilePath {S}. Arguments b_second_stage {S}. Arguments b_optional_second_stage {S}. Arguments b_load_options {S}.
Arguments b_mok_table {S}.

Section updates.
Context {S : Type}.
Definition with_sbat (b : boot S) (x : sbat_state S) : boot S :=
  {| b_sbat := x; b_load := b_load b; b_cert := b_cert b; b_tpm := b_tpm b; b_globals := b_globals b;
     b_hsi_status := b_hsi_status b; b_hooks := b_hooks b; b_protocols := b_protocols b; b_lock_handle := b_lock_handle b;
     b_FilePath := b_FilePath b; b_second_stage := b_second_stage b;
     b_optional_second_stage := b_optional_second_stage b; b_load_options := b_load_options b; b_mok_table := b_mok_table b |}.
Definition with_loading (b : boot S) (x : lstate) (path : list Z) : boot S :=
  {| b_sbat := b_sbat b; b_load := x; b_cert := b_cert b; b_tpm := b_tpm b; b_globals := b_globals b;
     b_hsi_status := b_hsi_status b; b_hooks := b_hooks b; b_protocols := b_protocols b; b_lock_handle := b_lock_handle b;
     b_FilePath := path; b_second_stage := b_second_stage b;
     b_optional_second_stage := b_optional_second_stage b; b_load_options := b_load_options b; b_mok_table := b_mok_table b |}.
Definition with_trust (b : boot S) (x : trust S) : boot S :=
  {| b_sbat := tr_sbat x; b_load := with_verify (b_load b) (tr_verify x); b_cert := tr_cert x; b_tpm := b_tpm b;
     b_globals := b_globals b; b_hsi_status := b_hsi_status b; b_hooks := b_hooks b; b_protocols := b_protocols b;
     b_lock_handle := b_lock_handle b; b_FilePath := b_FilePath b; b_second_stage := b_second_stage b;
     b_optional_second_stage := b_optional_second_stage b; b_load_options := b_load_options b; b_mok_table := b_mok_table b |}.
Definition with_mok (b : boot S) (m : mstate) (table : option (list Z)) : boot S :=
  {| b_sbat := set_fw (b_sbat b) (m_fw m); b_load := b_load b; b_cert := b_cert b; b_tpm := m_tpm m;
     b_globals := m_globals m; b_hsi_status := b_hsi_status b; b_hooks := b_hooks b; b_protocols := b_protocols b;
     b_lock_handle := b_lock_handle b; b_FilePath := b_FilePath b; b_second_stage := b_second_stage b;
     b_optional_second_stage := b_optional_second_stage b; b_load_options := b_load_options b; b_mok_table := table |}.
Definition with_policy (b : boot S) (hsi policy : Z) : boot S :=
  {| b_sbat := b_sbat b; b_load := b_load b; b_cert := b_cert b; b_tpm := b_tpm b;
     b_globals := fun g => if decide (g = mok_policy) then policy else b_globals b g; b_hsi_status := hsi;
     b_hooks := b_hooks b; b_protocols := b_protocols b; b_lock_handle := b_lock_handle b; b_FilePath := b_FilePath b;
     b_second_stage := b_second_stage b; b_optional_second_stage := b_optional_second_stage b;
     b_load_options := b_load_options b; b_mok_table := b_mok_table b |}.
Definition with_hooks (b : boot S) (x : hooks) : boot S :=
  {| b_sbat := b_sbat b; b_load := b_load b; b_cert := b_cert b; b_tpm := b_tpm b; b_globals := b_globals b;
     b_hsi_status := b_hsi_status b; b_hooks := x; b_protocols := b_protocols b; b_lock_handle := b_lock_handle b;
     b_FilePath := b_FilePath b; b_second_stage := b_second_stage b;
     b_optional_second_stage := b_optional_second_stage b; b_load_options := b_load_options b; b_mok_table := b_mok_table b |}.
Definition with_protocols (b : boot S) (x : list (Z * Z)) (h : Z) : boot S :=
  {| b_sbat := b_sbat b; b_load := b_load b; b_cert := b_cert b; b_tpm := b_tpm b; b_globals := b_globals b;
     b_hsi_status := b_hsi_status b; b_hooks := b_hooks b; b_protocols := x; b_lock_handle := h;
     b_FilePath := b_FilePath b; b_second_stage := b_second_stage b;
     b_optional_second_stage := b_optional_second_stage b; b_load_options := b_load_options b; b_mok_table := b_mok_table b |}.
Definition with_stage (b : boot S) (stage : list Z) (optional : option (list Z)) (options : list Z) : boot S :=
  {| b_sbat := b_sbat b; b_load := b_load b; b_cert := b_cert b; b_tpm := b_tpm b; b_globals := b_globals b;
     b_hsi_status := b_hsi_status b; b_hooks := b_hooks b; b_protocols := b_protocols b; b_lock_handle := b_lock_handle b;
     b_FilePath := b_FilePath b; b_second_stage := stage; b_optional_second_stage := optional;
     b_load_options := options; b_mok_table := b_mok_table b |}.
End updates.

(** ** Starting an image *)

(** What the machine and the build give: the device shim came from, the pool and
    the pages, the certificates of the build. *)
Record machine (S : Type) : Type := {
  mc_verifier : verifier S;
  mc_allocs : allocations;
  mc_device : device;
  mc_AllocatePages : Z -> EFI_STATUS + (Z * list Z);
  mc_cache_alloc : bool;
  mc_cache_ctx_alloc : bool;
  mc_FileDevicePath : list Z -> bool;
  mc_image_handle : Z
}.
Arguments mc_verifier {S}. Arguments mc_allocs {S}. Arguments mc_device {S}. Arguments mc_AllocatePages {S}.
Arguments mc_cache_alloc {S}. Arguments mc_cache_ctx_alloc {S}. Arguments mc_FileDevicePath {S}. Arguments mc_image_handle {S}.

Section boot.
Context {S : Type} `{Firmware S} (mc : machine S).

Definition insecure (b : boot S) : bool := negb (b_globals b user_insecure_mode =? 0).
Definition secure (b : boot S) : bool := secure_mode (fw (b_sbat b)) (insecure b).

(** The verifier with what the globals hold now. *)
Definition verifier_now (b : boot S) : verifier S :=
  let v := mc_verifier mc in
  {| v_sha256 := v_sha256 v; v_sha1 := v_sha1 v; v_AuthenticodeVerify := v_AuthenticodeVerify v; v_eku := v_eku v;
     v_vendor_deauthorized := v_vendor_deauthorized v; v_vendor_db := v_vendor_db v; v_build_cert := v_build_cert v;
     v_vendor_cert := v_vendor_cert v; v_ignore_db := negb (b_globals b ignore_db =? 0); v_sbat_var := sbat_var (b_sbat b);
     v_firmware := fw (b_sbat b); v_user_insecure_mode := insecure b; v_allow_32bit_kernel := v_allow_32bit_kernel v;
     v_mok_policy := b_globals b mok_policy |}.

(** should_use_fallback: shim was started from the removable media path and
    there is a fallback program. *)
Record fallback_answers : Type := {
  fa_loaded_image : EFI_STATUS;
  fa_file_system : EFI_STATUS;
  fa_volume : EFI_STATUS;
  fa_open : list Z -> EFI_STATUS
}.
Definition should_use_fallback (fa : fallback_answers) (dppath : list Z) : res bool :=
  if EFI_ERROR (fa_loaded_image fa) then Ok false
  else
    removable ← is_removable_media_path dppath;
    Ok (removable && negb (EFI_ERROR (fa_file_system fa)) && negb (EFI_ERROR (fa_volume fa)) &&
        negb (EFI_ERROR (fa_open fa (wide "\EFI\BOOT" ++ FALLBACK)))).

(** Running the image that was loaded. *)
Context (run : loaded -> boot S -> EFI_STATUS * boot S).

(** restore_loaded_image: the loaded image protocol as it was. *)
Definition restore_loaded_image (bak : loaded_image) (path : list Z) (b : boot S) : boot S :=
  with_loading b (with_li (b_load b) bak) path.

Definition start_image (ImagePath : list Z) (b : boot S) : res (EFI_STATUS * boot S) :=
  r ← read_image (mc_device mc) ImagePath;
  match r with
  | inl efi_status => Ok (efi_status, b)
  | inr (PathName, (base, data, datasize)) =>
      let restore := restore_loaded_image (l_li (b_load b)) (b_FilePath b) in
      if negb (mc_FileDevicePath mc PathName) then Ok (EFI_OUT_OF_RESOURCES, restore b)
      else
        '(r, l) ← handle_image (verifier_now b) (mc_allocs mc) (mc_AllocatePages mc) (mc_cache_alloc mc) (mc_cache_ctx_alloc mc)
                    false false (b_load_options b) base data datasize (mc_image_handle mc) (b_load b);
        let b := with_loading b l PathName in
        match r with
        | inl efi_status => Ok (efi_status, restore b)
        | inr image => let (efi_status, b) := run image b in Ok (efi_status, restore b)
        end
  end.

(** ** init_grub *)
Definition violation (st : EFI_STATUS) : bool :=
  bool_decide (st = EFI_SECURITY_VIOLATION) || bool_decide (st = EFI_ACCESS_DENIED).
Definition missing (st : EFI_STATUS) : bool :=
  bool_decide (st = EFI_INVALID_PARAMETER) || bool_decide (st = EFI_NOT_FOUND) ||
  bool_decide (st = EFI_HTTP_ERROR) || bool_decide (st = EFI_TFTP_ERROR).

Definition clear_options (b : boot S) : boot S := with_stage b (b_second_stage b) (b_optional_second_stage b) [].

Definition init_grub (use_fb : bool) (b : boot S) : res (EFI_STATUS * boot S) :=
  let loader b := if use_fb then FALLBACK else b_second_stage b in
  let default efi_status b :=
    if negb use_fb && missing efi_status then start_image DEFAULT_LOADER (clear_options b) else Ok (efi_status, b) in
  '(efi_status, b) ← start_image (loader b) b;
  if violation efi_status then
    '(efi_status, b) ← start_image MOK_MANAGER b;
    if EFI_ERROR efi_status then Ok (efi_status, b)
    else
      '(efi_status, b) ← start_image (loader b) b;
      default efi_status b
  else default efi_status b.

(** ** The options *)

(** shim's own loaded image: the status of HandleProtocol, the buffer of the load
    options, LoadOptions and LoadOptionsSize. *)
Record own_image : Type := {
  oi_status : EFI_STATUS;
  oi_buffer : list Z;
  oi_LoadOptions : option Z;
  oi_LoadOptionsSize : Z
}.

Definition set_second_stage (oi : own_image) (b : boot S) : res (EFI_STATUS * boot S) :=
  let stage := default DEFAULT_LOADER (b_optional_second_stage b) in
  let b := with_stage b stage (b_optional_second_stage b) [] in
  if EFI_ERROR (oi_status oi) then Ok (oi_status oi, b)
  else
    '(efi_status, o) ← parse_load_options (dev_path (mc_device mc)) (dup_alloc (mc_device mc)) (path_alloc (mc_device mc))
      {| os_buffer := oi_buffer oi; LoadOptions.li_LoadOptions := oi_LoadOptions oi; li_LoadOptionsSize := oi_LoadOptionsSize oi;
         second_stage := None; load_options := None; load_options_size := 0 |};
    stage ← (match second_stage o with
             | None => Ok stage
             | Some p => string_at (Datatypes.S (length (os_buffer o))) (os_buffer o) p
             end);
    options ← (match load_options o with None => Ok [] | Some p => rdn (os_buffer o) p (load_options_size o) end);
    Ok (if EFI_ERROR efi_status then efi_status else EFI_SUCCESS, with_stage b stage (b_optional_second_stage b) options).

(** options.csv next to shim: the answers of the firmware and the file. *)
Record options_file : Type := {
  of_loaded_image : EFI_STATUS;
  of_protocol : EFI_STATUS;
  of_volume : EFI_STATUS;
  of_open : list Z -> EFI_STATUS + text_file;
  of_alloc : bool;
  of_pool : bool
}.
Definition BYTE_ORDER_MARK : Z := 0xfeff.
Definition COMMA : Z := 44.

(** The second stage named in a buffer, if it has one. *)
Definition first_column (buffer : list Z) : res (option (list Z)) :=
  c ← rd buffer 0;
  let buffer := if c =? BYTE_ORDER_MARK then drop 1 buffer else buffer in
  comma0 ← StrCSpn buffer (text [COMMA]);
  if comma0 =? 0 then Ok None else s ← rdn buffer 0 comma0; Ok (Some s).

Definition load_shim_options (fl : options_file) (b : boot S) : res (EFI_STATUS * boot S) :=
  if EFI_ERROR (of_loaded_image fl) then Ok (of_loaded_image fl, b)
  else
    '(_, PathName) ← generate_path_from_image_path (dup_alloc (mc_device mc)) (path_alloc (mc_device mc))
                       (dev_path (mc_device mc)) (wide "options.csv");
    match PathName with
    | None => Ok (EFI_SUCCESS, b)
    | Some PathName =>
        if EFI_ERROR (of_protocol fl) || EFI_ERROR (of_volume fl) then Ok (EFI_SUCCESS, b)
        else
          match of_open fl PathName with
          | inl _ => Ok (EFI_SUCCESS, b)
          | inr ofile =>
              r ← read_file (of_alloc fl) (of_pool fl) ofile PathName;
              match r with
              | inl _ => Ok (EFI_SUCCESS, b)
              | inr (buffer, _) =>
                  stage ← first_column (units buffer);
                  Ok (EFI_SUCCESS,
                      match stage with
                      | None => b
                      | Some s => with_stage b (b_second_stage b) (Some s) (b_load_options b)
                      end)
              end
          end
    end.
End boot.

(** ** Protocols *)

(** This program's interface, the handle the firmware makes, and its answer. *)
Record protocol_answers : Type := {
  pa_interface : Z;
  pa_new_handle : Z;
  pa_install : EFI_STATUS
}.

Section protocols.
Context {S : Type} `{Firmware S}.

(** The interface goes from the handle it was installed on; without a handle
    the firmware refuses. *)
Definition uninstall_shim_protocols (pa : protocol_answers) (b : boot S) : boot S :=
  if b_lock_handle b =? 0 then b
  else with_protocols b (filter (fun hp => hp <> (b_lock_handle b, pa_interface pa)) (b_protocols b)) (b_lock_handle b).

(** LocateProtocol: the first interface. *)
Definition LocateProtocol (b : boot S) : option Z := snd <$> head (b_protocols b).

Definition install_shim_protocols (pa : protocol_answers) (b : boot S) : EFI_STATUS * boot S :=
  let b := if bool_decide (is_Some (LocateProtocol b)) then uninstall_shim_protocols pa b else b in
  if EFI_ERROR (pa_install pa) then (pa_install pa, b)
  else
    let h := if b_lock_handle b =? 0 then pa_new_handle pa else b_lock_handle b in
    (EFI_SUCCESS, with_protocols b (b_protocols b ++ [(h, pa_interface pa)]) h).

(** ** The main program *)
Context (mc : machine S).

Definition shim_init (certs : bool) (oi : own_image) (pa : protocol_answers) (b : boot S) : res (EFI_STATUS * boot S) :=
  '(efi_status, b) ← set_second_stage mc oi b;
  if EFI_ERROR efi_status then Ok (efi_status, b)
  else Ok (install_shim_protocols pa (with_hooks b (init_hooks (secure b) certs (b_hooks b)))).

Definition shim_fini (certs : bool) (pa : protocol_answers) (b : boot S) : res (boot S) :=
  let b := if secure b then with_sbat b (set_sbat_var (b_sbat b) ([], [])) else b in
  let b := uninstall_shim_protocols pa b in
  h ← fini_hooks (secure b) certs (b_hooks b);
  Ok (with_hooks b h).
End protocols.

(** The point at which the machine is shut down. *)
Inductive message : Type :=
| IMPORT_MOK_STATE
| SHIM_INIT
| IMPORT_SBAT
| SBAT_SELF_CHECK
| SET_SBAT.
Inductive outcome : Type :=
| Returned (efi_status : EFI_STATUS)
| ResetSystem (msg : message).

(** Where shim's code, its stack and its heap are, and the services for page
    attributes. *)
Record own_memory (M : Type) : Type := {
  om_code : Z;
  om_stack : Z;
  om_heap : option Z;
  om_state : mem_state M
}.
Arguments om_code {M}. Arguments om_stack {M}. Arguments om_heap {M}. Arguments om_state {M}.

Section main.
Context {S : Type} `{MokFirmware S} (mc : machine S) (run : loaded -> boot S -> EFI_STATUS * boot S).
(** shim's .sbat section, the built-in levels and shim's image; its memory; the
    directory shim is in. *)
Context (junk : Z) (sbat_section payload : list Z) (own_pe : option (Z * list Z)) {M : Type} `{MemoryFirmware M} (om : own_memory M).
Context (pool : Z -> option (list Z)) {D : Type} (dir : directory D) (dir_fuel : nat).
(** What import_mok_state needs, for the table with the certificates there are. *)
Context (pf : platform) (SPrint : string -> Z -> string) (AsciiSPrint : Z -> string -> string -> Z -> list Z).
Context (mal : mok_allocs) (tpm : devices) (mok_pool : Z -> list Z) (start_MokManager : S -> EFI_STATUS * S) (pages_ok : bool).
Context (mok_table : cert_state -> list mok_state_variable).
Context (fl : options_file) (certs : bool) (oi : own_image) (pa : protocol_answers) (fa : fallback_answers).

Let al := mc_allocs mc.

Definition set_sbat_level (b : boot S) : res (EFI_STATUS * boot S) :=
  '(efi_status, st) ← set_sbat_uefi_variable_internal (a_var al) (a_sbat_csv al) (insecure b) junk sbat_section payload false (b_sbat b);
  Ok (efi_status, with_sbat b st).
Definition set_ssp (b : boot S) : res (EFI_STATUS * boot S) :=
  '(efi_status, st) ← set_ssp_uefi_variable_internal (a_var al) (insecure b) (b_sbat b);
  Ok (efi_status, with_sbat b st).

(** The revocations in use, and shim's own generations against them. *)
Definition self_check (b : boot S) : res (option message * boot S) :=
  if negb (secure b) then Ok (None, b)
  else
    '(efi_status, st) ← parse_sbat_var (a_var al) (a_sbat_csv al) junk (b_sbat b) None;
    let b := with_sbat b st in
    if EFI_ERROR efi_status then Ok (Some IMPORT_SBAT, b)
    else
      efi_status ← verify_sbat_section (a_sbat_copy al) (a_sbat_csv al) (a_sbat_tab al) false (sbat_var (b_sbat b))
                     (Some (sbat_section, 0)) (u64 (zlen sbat_section - 1));
      Ok (if EFI_ERROR efi_status then Some SBAT_SELF_CHECK else None, b).

Definition nx_policy (b : boot S) : res (boot S) :=
  '(hsi, _) ← get_hsi_mem_info (om_code om) (om_stack om) (om_heap om) (b_hsi_status b) (om_state om);
  Ok (with_policy b hsi (set_shim_nx_policy hsi (b_globals b mok_policy))).

Definition unbundled_trust (b : boot S) : res (EFI_STATUS * boot S) :=
  '(efi_status, tr) ← load_unbundled_trust (verifier_now mc b) al pool junk sbat_section (mc_device mc) dir dir_fuel
    {| tr_sbat := b_sbat b; tr_verify := l_verify (b_load b); tr_cert := b_cert b |};
  Ok (efi_status, with_trust b tr).

Definition import_mok (b : boot S) : res (EFI_STATUS * boot S) :=
  '(efi_status, table, _, m) ← import_mok_state pf SPrint AsciiSPrint mal tpm (b_hsi_status b) mok_pool start_MokManager pages_ok
    (mok_table (b_cert b)) {| m_fw := fw (b_sbat b); m_tpm := b_tpm b; m_globals := b_globals b |};
  Ok (efi_status, with_mok b m table).

(** A failed import that is let pass. *)
Definition import_tolerated (b : boot S) (efi_status : EFI_STATUS) : bool :=
  negb (secure b) && (bool_decide (efi_status = EFI_INVALID_PARAMETER) || bool_decide (efi_status = EFI_OUT_OF_RESOURCES)).

(** Everything before the second stage: the reason to stop, or the state to boot
    with. *)
Definition prepare (b : boot S) : res (option message * boot S) :=
  hsi ← get_shim_nx_capability (v_allow_32bit_kernel (mc_verifier mc)) false (b_globals b mok_policy) own_pe (b_hsi_status b);
  let b := with_policy b hsi (b_globals b mok_policy) in
  '(efi_status, b) ← set_sbat_level b;
  if EFI_ERROR efi_status && secure b then Ok (Some SET_SBAT, b)
  else
    '(_, b) ← set_ssp b;
    '(stop, b) ← self_check b;
    match stop with
    | Some msg => Ok (Some msg, b)
    | None =>
        b ← nx_policy b;
        '(_, b) ← unbundled_trust b;
        '(efi_status, b) ← import_mok b;
        if negb (import_tolerated b efi_status) && EFI_ERROR efi_status then Ok (Some IMPORT_MOK_STATE, b)
        else
          let b := with_sbat b (set_fw (b_sbat b)
            (snd (del_variable (fw (b_sbat b)) SHIM_RETAIN_PROTOCOL_VAR_NAME SHIM_LOCK_GUID))) in
          '(_, b) ← load_shim_options mc fl b;
          '(efi_status, b) ← shim_init mc certs oi pa b;
          Ok (if EFI_ERROR efi_status then Some SHIM_INIT else None, b)
    end.

(** Nothing has been verified yet. *)
Definition nothing_verified (b : boot S) : boot S :=
  let vst := l_verify (b_load b) in
  with_loading b (with_verify (b_load b) {| verification_method := VERIFIED_BY_NOTHING; measured := measured vst |}) (b_FilePath b).

Definition efi_main (b : boot S) : res (outcome * boot S) :=
  '(stop, b) ← prepare (nothing_verified b);
  match stop with
  | Some msg => Ok (ResetSystem msg, b)
  | None =>
      use_fb ← should_use_fallback fa (dev_path (mc_device mc));
      '(efi_status, b) ← init_grub mc run use_fb b;
      b ← shim_fini certs pa b;
      Ok (Returned efi_status, b)
  end.
End main.

(** ** What runs was authorised *)
Section start_theorem.
Context {S : Type} `{FirmwareLaws S} (mc : machine S).

(** The image is not run: the call fails in the same way whatever running would
    do, and puts the loaded image protocol back. *)
Definition never_runs (ImagePath : list Z) (b : boot S) : Prop :=
  exists st b', EFI_ERROR st = true /\ l_li (b_load b') = l_li (b_load b) /\ b_FilePath b' = b_FilePath b /\
    b_sbat b' = b_sbat b /\ forall run, start_image mc run ImagePath b = Ok (st, b').
(** What read_image gives: an error, or a buffer as the firmware leaves it. *)
Definition reads_ok (ImagePath : list Z) : Prop :=
  exists r, read_image (mc_device mc) ImagePath = Ok r /\
    match r with inl st => EFI_ERROR st = true | inr (_, (base, data, size)) => file_ok base data size end.

Lemma start_image_ok D vss ImagePath b :
  verifier_ok (verifier_now mc b) (mc_allocs mc) D -> sbat_allocs (mc_allocs mc) -> sbat_var_holds (sbat_var (b_sbat b)) vss ->
  reads_ok ImagePath ->
  never_runs ImagePath b \/
  (exists path base data size ctx,
     read_image (mc_device mc) ImagePath = Ok (inr (path, (base, data, size))) /\
     authorised (verifier_now mc b) (mc_allocs mc) D false false base data size vss ctx).
Proof.
  intros Hv Hal Hvss (r & Hr & Hre). destruct r as [st|[path [[base data] size]]].
  { left. exists st, b. split_and!; [done..|]. intros run. unfold start_image. by rewrite Hr. }
  destruct Hre as (Hb & Hd & Hl & Hbase & Hend). pose proof (read_image_size _ _ _ _ _ _ Hr) as Hpos.
  destruct (handle_image_unauthorised (verifier_now mc b) (mc_allocs mc) D (mc_AllocatePages mc) (mc_cache_alloc mc)
    (mc_cache_ctx_alloc mc) false false (b_load_options b) base data size (mc_image_handle mc) vss (b_load b)
    Hv Hal Hvss Hb ltac:(lia) Hl Hbase Hend) as [[ctx Hau] | (e & vst & Hh & He)].
  { right. by exists path, base, data, size, ctx. }
  left. destruct (mc_FileDevicePath mc path) eqn:Ef.
  - eexists e, _. split_and!; [done| | | |intros run; unfold start_image; rewrite Hr, bind_Ok, Ef; cbn [negb]; rewrite Hh, bind_Ok; done]; done.
  - eexists EFI_OUT_OF_RESOURCES, _. split_and!; [done| | | |intros run; unfold start_image; rewrite Hr, bind_Ok, Ef; done]; done.
Qed.
End start_theorem.

(** C2. Starting an image: unless the file that was read has an accepted header and, in
    secure mode, is authentic under the databases of the firmware as they are now,
    not revoked and permitted by SBAT, its code is not run, whatever running it
    would do; the call fails, and the loaded image protocol is as before. *)
Theorem start_image_verified {S} `{FirmwareLaws S} (mc : machine S) D vss ImagePath b :
  verifier_ok (verifier_now mc b) (mc_allocs mc) D -> sbat_allocs (mc_allocs mc) -> sbat_var_holds (sbat_var (b_sbat b)) vss ->
  reads_ok mc ImagePath ->
  never_runs mc ImagePath b \/
  (exists path base data size ctx,
     read_image (mc_device mc) ImagePath = Ok (inr (path, (base, data, size))) /\
     authorised (verifier_now mc b) (mc_allocs mc) D false false base data size vss ctx).
Proof. apply start_image_ok. Qed.

(** ** init_grub as a state machine *)
Inductive stage : Type :=
| Loader
| MokManager
| LoaderAgain
| DefaultLoader.

(** What is started in a stage, in which state, and what comes next. *)
Definition stage_path {S} (use_fb : bool) (s : stage) (b : boot S) : list Z :=
  match s with
  | Loader | LoaderAgain => if use_fb then FALLBACK else b_second_stage b
  | MokManager => MOK_MANAGER
  | DefaultLoader => DEFAULT_LOADER
  end.
Definition stage_state {S} (s : stage) (b : boot S) : boot S :=
  match s with DefaultLoader => clear_options b | _ => b end.
Definition next_stage (use_fb : bool) (s : stage) (st : EFI_STATUS) : option stage :=
  let default := if negb use_fb && missing st then Some DefaultLoader else None in
  match s with
  | Loader => if violation st then Some MokManager else default
  | MokManager => if EFI_ERROR st then None else Some LoaderAgain
  | LoaderAgain => default
  | DefaultLoader => None
  end.

Section stages.
Context {S : Type} `{Firmware S} (mc : machine S) (run : loaded -> boot S -> EFI_STATUS * boot S) (use_fb : bool).

Inductive boots : stage -> boot S -> list stage -> EFI_STATUS -> boot S -> Prop :=
| boots_last s b st b' :
    start_image mc run (stage_path use_fb s b) (stage_state s b) = Ok (st, b') -> next_stage use_fb s st = None ->
    boots s b [s] st b'
| boots_next s b st b' s' ss st' b'' :
    start_image mc run (stage_path use_fb s b) (stage_state s b) = Ok (st, b') -> next_stage use_fb s st = Some s' ->
    boots s' b' ss st' b'' -> boots s b (s :: ss) st' b''.

Lemma boots_default st b r :
  (if negb use_fb && missing st then start_image mc run DEFAULT_LOADER (clear_options b) else Ok (st, b)) = Ok r ->
  (negb use_fb && missing st = false /\ r = (st, b)) \/
  (negb use_fb && missing st = true /\ boots DefaultLoader b [DefaultLoader] r.1 r.2).
Proof.
  destruct (negb use_fb && missing st); [|by intros [= <-]; left]. destruct r as [st' b']. intros Hr. right. split; [done|].
  by apply boots_last.
Qed.

Lemma init_grub_boots b st b' :
  init_grub mc run use_fb b = Ok (st, b') -> exists ss, boots Loader b ss st b'.
Proof.
  unfold init_grub. intros ([st1 b1] & H1 & Hr)%bind_inv. destruct (violation st1) eqn:Ev.
  - apply bind_inv in Hr as ([st2 b2] & H2 & Hr). destruct (EFI_ERROR st2) eqn:Ee.
    + injection Hr as <- <-. exists [Loader; MokManager]. eapply boots_next; [exact H1|cbn [next_stage]; by rewrite Ev|].
      apply boots_last; [done|]. cbn [next_stage]. by rewrite Ee.
    + apply bind_inv in Hr as ([st3 b3] & H3 & Hr). apply boots_default in Hr as [[Hd [= <- <-]] | [Hd Hb]].
      * exists [Loader; MokManager; LoaderAgain]. eapply boots_next; [exact H1|cbn [next_stage]; by rewrite Ev|].
        eapply boots_next; [exact H2|cbn [next_stage]; by rewrite Ee|]. apply boots_last; [done|]. cbn [next_stage]. by rewrite Hd.
      * exists [Loader; MokManager; LoaderAgain; DefaultLoader]. eapply boots_next; [exact H1|cbn [next_stage]; by rewrite Ev|].
        eapply boots_next; [exact H2|cbn [next_stage]; by rewrite Ee|]. eapply boots_next; [exact H3|cbn [next_stage]; by rewrite Hd|done].
  - apply boots_default in Hr as [[Hd [= <- <-]] | [Hd Hb]].
    + exists [Loader]. apply boots_last; [done|]. cbn [next_stage]. by rewrite Ev, Hd.
    + exists [Loader; DefaultLoader]. eapply boots_next; [exact H1|cbn [next_stage]; by rewrite Ev, Hd|done].
Qed.

Lemma boots_init_grub s b ss st b' :
  boots s b ss st b' ->
  match s with
  | Loader => init_grub mc run use_fb b = Ok (st, b')
  | MokManager =>
      ('(st, b) ← start_image mc run MOK_MANAGER b;
       if EFI_ERROR st then Ok (st, b)
       else '(st, b) ← start_image mc run (if use_fb then FALLBACK else b_second_stage b) b;
            if negb use_fb && missing st then start_image mc run DEFAULT_LOADER (clear_options b) else Ok (st, b)) = Ok (st, b')
  | LoaderAgain =>
      ('(st, b) ← start_image mc run (if use_fb then FALLBACK else b_second_stage b) b;
       if negb use_fb && missing st then start_image mc run DEFAULT_LOADER (clear_options b) else Ok (st, b)) = Ok (st, b')
  | DefaultLoader => start_image mc run DEFAULT_LOADER (clear_options b) = Ok (st, b')
  end.
Proof.
  induction 1 as [s b st b' Hs Hn|s b st b1 s' ss st' b' Hs Hn Hb IH]; destruct s; cbn [stage_path stage_state next_stage] in Hs, Hn; unfold init_grub; rewrite ?Hs, ?bind_Ok.
  - destruct (violation st); [done|]. by destruct (negb use_fb && missing st).
  - destruct (EFI_ERROR st); [done|discriminate Hn].
  - by destruct (negb use_fb && missing st).
  - done.
  - destruct (violation st); [injection Hn as <-; exact IH|]. destruct (negb use_fb && missing st); [injection Hn as <-; exact IH|done].
  - destruct (EFI_ERROR st); [done|]. injection Hn as <-. exact IH.
  - destruct (negb use_fb && missing st); [injection Hn as <-; exact IH|done].
  - done.
Qed.

Lemma boots_order s b ss st b' : boots s b ss st b' ->
  match s with
  | Loader => ss ∈ [[Loader]; [Loader; DefaultLoader]; [Loader; MokManager]; [Loader; MokManager; LoaderAgain];
                    [Loader; MokManager; LoaderAgain; DefaultLoader]]
  | MokManager => ss ∈ [[MokManager]; [MokManager; LoaderAgain]; [MokManager; LoaderAgain; DefaultLoader]]
  | LoaderAgain => ss ∈ [[LoaderAgain]; [LoaderAgain; DefaultLoader]]
  | DefaultLoader => ss = [DefaultLoader]
  end.
Proof.
  induction 1 as [s b st b' Hs Hn|s b st b1 s' ss st' b' Hs Hn Hb IH]; [destruct s; set_solver|].
  destruct s; cbn [next_stage] in Hn.
  - destruct (violation st); [|destruct (negb use_fb && missing st); [|done]]; injection Hn as <-; set_solver.
  - destruct (EFI_ERROR st); [done|]. injection Hn as <-. set_solver.
  - destruct (negb use_fb && missing st); [|done]. injection Hn as <-. set_solver.
  - done.
Qed.
End stages.


(** ** The way to the second stage *)
Section main_theorem.
Context {S : Type} `{MokFirmware S} (mc : machine S) (run : loaded -> boot S -> EFI_STATUS * boot S).
Context (junk : Z) (sbat_section payload : list Z) (own_pe : option (Z * list Z)) {M : Type} `{MemoryFirmware M} (om : own_memory M).
Context (pool : Z -> option (list Z)) {D : Type} (dir : directory D) (dir_fuel : nat).
Context (pf : platform) (SPrint : string -> Z -> string) (AsciiSPrint : Z -> string -> string -> Z -> list Z).
Context (mal : mok_allocs) (tpm : devices) (mok_pool : Z -> list Z) (start_MokManager : S -> EFI_STATUS * S) (pages_ok : bool).
Context (mok_table : cert_state -> list mok_state_variable).
Context (fl : options_file) (certs : bool) (oi : own_image) (pa : protocol_answers) (fa : fallback_answers).

Abbreviation prepare_ := (prepare mc junk sbat_section payload own_pe om pool dir dir_fuel pf SPrint AsciiSPrint mal tpm
  mok_pool start_MokManager pages_ok mok_table fl certs oi pa).
Abbreviation efi_main_ := (efi_main mc run junk sbat_section payload own_pe om pool dir dir_fuel pf SPrint AsciiSPrint mal tpm
  mok_pool start_MokManager pages_ok mok_table fl certs oi pa fa).
Abbreviation import_mok_ := (import_mok pf SPrint AsciiSPrint mal tpm mok_pool start_MokManager pages_ok mok_table).

(** The checks a boot has passed, with the states between the steps, each of them
    determined by the one before: [b] is the state shim starts in, [b0] the one
    behind the writes of SbatLevel and of the SKU policy, [b1] behind the self
    check, [b2] behind the certificates and levels of the directory, [b3] behind
    the import and [b'] the one the second stage is started in. *)
Record checked (b b0 b1 b2 b3 b' : boot S) (st : EFI_STATUS) : Prop := {
  ck_written : exists hsi ba st0 st1,
    get_shim_nx_capability (v_allow_32bit_kernel (mc_verifier mc)) false (b_globals b mok_policy) own_pe (b_hsi_status b) = Ok hsi /\
    set_sbat_level mc junk sbat_section payload (with_policy b hsi (b_globals b mok_policy)) = Ok (st0, ba) /\
    (secure ba = true -> EFI_ERROR st0 = false) /\
    set_ssp mc ba = Ok (st1, b0);
  ck_self :
    if secure b0 then
      exists e level e',
        parse_sbat_var (a_var (mc_allocs mc)) (a_sbat_csv (mc_allocs mc)) junk (b_sbat b0) None = Ok (e, level) /\ EFI_ERROR e = false /\
        verify_sbat_section (a_sbat_copy (mc_allocs mc)) (a_sbat_csv (mc_allocs mc)) (a_sbat_tab (mc_allocs mc)) false
          (sbat_var level) (Some (sbat_section, 0)) (u64 (zlen sbat_section - 1)) = Ok e' /\ EFI_ERROR e' = false /\
        b1 = with_sbat b0 level
    else b1 = b0;
  ck_trust : exists bn st2, nx_policy om b1 = Ok bn /\ unbundled_trust mc junk sbat_section pool dir dir_fuel bn = Ok (st2, b2);
  ck_import : import_mok_ b2 = Ok (st, b3);
  ck_status : EFI_ERROR st = false \/
    secure b3 = false /\ (st = EFI_INVALID_PARAMETER \/ st = EFI_OUT_OF_RESOURCES);
  ck_globals : b_globals b' = b_globals b3;
  ck_firmware : fw (b_sbat b') = snd (del_variable (fw (b_sbat b3)) SHIM_RETAIN_PROTOCOL_VAR_NAME SHIM_LOCK_GUID);
  ck_hooks : b_hooks b' = init_hooks (secure b') certs (b_hooks b);
  ck_protocols : b_protocols b = [] -> LocateProtocol b' = Some (pa_interface pa)
}.

(** The steps leave the hooks and the protocols alone. *)
Definition same_services (b b' : boot S) : Prop :=
  b_hooks b' = b_hooks b /\ b_protocols b' = b_protocols b.

Lemma self_check_ok b b1 : self_check mc junk sbat_section b = Ok (None, b1) ->
  same_services b b1 /\
  if secure b then
    exists e level e',
      parse_sbat_var (a_var (mc_allocs mc)) (a_sbat_csv (mc_allocs mc)) junk (b_sbat b) None = Ok (e, level) /\ EFI_ERROR e = false /\
      verify_sbat_section (a_sbat_copy (mc_allocs mc)) (a_sbat_csv (mc_allocs mc)) (a_sbat_tab (mc_allocs mc)) false
        (sbat_var level) (Some (sbat_section, 0)) (u64 (zlen sbat_section - 1)) = Ok e' /\ EFI_ERROR e' = false /\
      b1 = with_sbat b level
  else b1 = b.
Proof.
  unfold self_check. destruct (secure b) eqn:Es; cbn [negb].
  - intros ([e st'] & Hp & Hr)%bind_inv. destruct (EFI_ERROR e) eqn:Ee; [done|].
    apply bind_inv in Hr as (e' & Hv & Hr). destruct (EFI_ERROR e') eqn:Ee'; [done|]. injection Hr as <-. split; [done|].
    by exists e, st', e'.
  - by intros [= <-].
Qed.

Lemma load_shim_options_services b st b' :
  load_shim_options mc fl b = Ok (st, b') ->
  same_services b b' /\ b_globals b' = b_globals b /\ b_sbat b' = b_sbat b /\ b_lock_handle b' = b_lock_handle b.
Proof.
  unfold load_shim_options. destruct (EFI_ERROR _); [by intros [= _ <-]|].
  intros ([? path] & _ & Hr)%bind_inv. destruct path as [path|]; [|by injection Hr as _ <-].
  destruct (_ || _); [by injection Hr as _ <-|]. destruct (of_open fl path) as [?|f]; [by injection Hr as _ <-|].
  apply bind_inv in Hr as (r & _ & Hr). destruct r as [?|[buf ?]]; [by injection Hr as _ <-|].
  apply bind_inv in Hr as (c & _ & [= _ <-]). by destruct c.
Qed.

Lemma set_second_stage_services b st b' :
  set_second_stage mc oi b = Ok (st, b') ->
  same_services b b' /\ b_globals b' = b_globals b /\ b_sbat b' = b_sbat b.
Proof.
  unfold set_second_stage. destruct (EFI_ERROR _); [by intros [= _ <-]|].
  intros ([? o] & _ & (? & _ & (? & _ & [= _ <-])%bind_inv)%bind_inv)%bind_inv. done.
Qed.

Lemma install_protocols_ok (b b' : boot S) st :
  install_shim_protocols pa b = (st, b') -> EFI_ERROR st = false ->
  b_hooks b' = b_hooks b /\ b_globals b' = b_globals b /\ b_sbat b' = b_sbat b /\
  (b_protocols b = [] -> LocateProtocol b' = Some (pa_interface pa)).
Proof.
  unfold install_shim_protocols. set (b0 := if bool_decide _ then _ else b).
  assert (Hb0 : b_hooks b0 = b_hooks b /\ b_globals b0 = b_globals b /\ b_sbat b0 = b_sbat b /\ (b_protocols b = [] -> b_protocols b0 = [])).
  { unfold b0, uninstall_shim_protocols. destruct (bool_decide _); [|done]. destruct (_ =? 0); [done|]. cbn. split_and!; try done.
    by intros ->. }
  clearbody b0. destruct Hb0 as (? & ? & ? & Hp). destruct (EFI_ERROR (pa_install pa)) eqn:E; [intros [= <- <-]; congruence|].
  intros [= <- <-] _. cbn. split_and!; try done. intros Hn. unfold LocateProtocol. cbn. by rewrite (Hp Hn).
Qed.

Lemma prepare_checked b b' : prepare_ b = Ok (None, b') -> exists b0 b1 b2 b3 st, checked b b0 b1 b2 b3 b' st.
Proof.
  unfold prepare. intros (hsi & Hhsi & ([st1 ba] & Ha & Hr)%bind_inv)%bind_inv.
  assert (Sa : same_services b ba) by (by apply bind_inv in Ha as ([? ?] & _ & [= _ <-])).
  destruct (EFI_ERROR st1 && secure ba) eqn:Elev; [done|]. apply bind_inv in Hr as ([st2 bb] & Hb & Hr).
  assert (Sb : same_services ba bb) by (by apply bind_inv in Hb as ([? ?] & _ & [= _ <-])).
  apply bind_inv in Hr as ([stop b1] & Hc & Hr). destruct stop; [done|]. apply self_check_ok in Hc as (S1 & Hself).
  apply bind_inv in Hr as (bn & Hnx & Hr). apply bind_inv in Hr as ([st4 b2] & Ht & Hr).
  assert (S2 : same_services b1 b2)
    by (apply bind_inv in Hnx as ([? ?] & _ & [= <-]); by apply bind_inv in Ht as ([? ?] & _ & [= _ <-])).
  apply bind_inv in Hr as ([st b3] & Hi & Hr).
  assert (S3 : same_services b2 b3) by (by apply bind_inv in Hi as ([[[? ?] ?] ?] & _ & [= _ <-])).
  destruct (negb (import_tolerated b3 st) && EFI_ERROR st) eqn:Eimp; [done|].
  set (bd := with_sbat b3 _) in Hr. apply bind_inv in Hr as ([? be] & Ho & Hr).
  apply load_shim_options_services in Ho as ((He1 & He2) & He3 & He4 & _).
  apply bind_inv in Hr as ([st5 bf] & Hs & Hr). destruct (EFI_ERROR st5) eqn:E5; [done|]. injection Hr as <-.
  apply bind_inv in Hs as ([st6 bg] & Hss & Hs). apply set_second_stage_services in Hss as ((Hg1 & Hg2) & Hg3 & Hg4).
  destruct (EFI_ERROR st6) eqn:E6; [injection Hs as <- <-; congruence|]. injection Hs as Hs.
  apply install_protocols_ok in Hs as (Hf1 & Hf2 & Hf3 & Hf4); [|done].
  cbn [b_hooks b_globals b_sbat b_protocols with_hooks] in *. destruct Sa, Sb, S1, S2, S3.
  exists bb, b1, b2, b3, st. split; [|done|by exists bn, st4|done| | | | |].
  - exists hsi, ba, st1, st2. split_and!; try done. intros Es. by rewrite Es, andb_true_r in Elev.
  - apply andb_false_iff in Eimp as [E | E]; [right|by left]. apply negb_false_iff, andb_true_iff in E as [E1 E2].
    apply negb_true_iff in E1. split; [done|]. apply orb_true_iff in E2 as [E2%bool_decide_eq_true | E2%bool_decide_eq_true]; auto.
  - rewrite Hf2, Hg3, He3. done.
  - rewrite Hf3, Hg4, He4. done.
  - rewrite Hf1. unfold secure, insecure. rewrite Hf2, Hf3. f_equal. rewrite Hg1, He1. unfold bd. cbn. congruence.
  - intros Hn. apply Hf4. rewrite Hg2, He2. unfold bd. cbn. congruence.
Qed.
End main_theorem.

(** C3. The second stage is reached only through the checks.  When efi_main returns
    instead of resetting the machine, its run from the state it was entered in, with
    nothing verified, was this one: SbatLevel and the SKU policy were written, and
    in secure mode the write of SbatLevel did not fail; in secure mode the SbatLevel
    that is in the firmware after that was parsed and shim's own SBAT section passed
    against it, and this is the level that is kept; the certificates and levels of
    the directory were then loaded, and the MOK state imported, with success (outside
    secure mode two errors are let pass); the image services of the firmware were
    hooked according to the mode, shim's protocol is the one that is found when there
    was none, and what was started after that is what init_grub starts. *)
Theorem efi_main_checked {S} `{MokFirmware S} (mc : machine S) run junk sbat_section payload own_pe {M} `{MemoryFirmware M} (om : own_memory M) pool {D}
    (dir : directory D) dir_fuel pf SPrint AsciiSPrint mal tpm mok_pool start_MokManager pages_ok mok_table fl certs oi pa fa b st b_end :
  efi_main mc run junk sbat_section payload own_pe om pool dir dir_fuel pf SPrint AsciiSPrint mal tpm
    mok_pool start_MokManager pages_ok mok_table fl certs oi pa fa b = Ok (Returned st, b_end) ->
  exists b0 b1 b2 b3 b' st' use_fb bg,
    checked mc junk sbat_section payload own_pe om pool dir dir_fuel pf SPrint AsciiSPrint mal tpm mok_pool start_MokManager pages_ok
      mok_table certs pa (nothing_verified b) b0 b1 b2 b3 b' st' /\
    should_use_fallback fa (dev_path (mc_device mc)) = Ok use_fb /\
    init_grub mc run use_fb b' = Ok (st, bg) /\ shim_fini certs pa bg = Ok b_end.
Proof.
  unfold efi_main. intros ([stop b'] & Hp & Hr)%bind_inv. destruct stop; [done|].
  apply bind_inv in Hr as (use_fb & Hfb & Hr). apply bind_inv in Hr as ([st1 bg] & Hg & Hr).
  apply bind_inv in Hr as (be & Hf & [= <- <-]). apply prepare_checked in Hp as (b0 & b1 & b2 & b3 & st' & Hc).
  by exists b0, b1, b2, b3, b', st', use_fb, bg.
Qed.

(** A protocol that another instance of shim installed is not removed: this
    instance has no handle to remove it from, so the other one's interface is
    still the one that is found. *)
Theorem older_protocol_stays {S} (pa : protocol_answers) (b : boot S) h other rest st b' :
  b_protocols b = (h, other) :: rest -> b_lock_handle b = 0 -> install_shim_protocols pa b = (st, b') ->
  LocateProtocol b' = Some other.
Proof.
  intros Hp Hh. unfold install_shim_protocols, uninstall_shim_protocols. rewrite Hh. cbn [Z.eqb].
  replace (if bool_decide _ then b else b) with b by (by destruct (bool_decide _)).
  rewrite Hh. destruct (EFI_ERROR _); intros [= <- <-]; unfold LocateProtocol; cbn; by rewrite Hp.
Qed.

(** ** options.csv *)
Definition not_comma (c : Z) : Prop := c <> COMMA /\ c <> 0.
Lemma StrCSpn_loop_ok s c q : Forall not_comma s -> c = COMMA \/ c = 0 -> forall p f, (length s < f)%nat ->
  StrCSpn_loop f (p ++ s ++ c :: q) (text [COMMA]) (zlen p) = Ok (zlen p + zlen s).
Proof.
  intros Hs Hc. induction Hs as [|x s [Hx H0] _ IH]; intros p f Hf; (destruct f as [|f]; [cbn in Hf; lia|]); cbn [StrCSpn_loop app].
  - rewrite rd_text_at, bind_Ok. replace (zlen p + zlen []) with (zlen p) by (rewrite zlen_nil; lia). by destruct Hc as [-> | ->].
  - rewrite rd_text_at, bind_Ok. rewrite (proj2 (Z.eqb_neq x 0) H0).
    assert (Hi : StrCSpn_inner (Datatypes.S (length (text [COMMA]))) x (text [COMMA]) 0 = Ok false).
    { cbn [length text app StrCSpn_inner]. change (rd [COMMA; 0] 0) with (Ok COMMA). change (rd [COMMA; 0] (0 + 1)) with (Ok 0).
      rewrite !bind_Ok. change (COMMA =? 0) with false. change (0 =? 0) with true. by rewrite (proj2 (Z.eqb_neq COMMA x)) by congruence. }
    rewrite Hi, bind_Ok, app_cons_snoc. replace (zlen p + 1) with (zlen (p ++ [x])) by zlia.
    cbn [length] in Hf. rewrite IH by lia. f_equal. zlen_simpl. lia.
Qed.

(** The second stage named by options.csv is the text in front of the first
    comma, or all of the text when there is none, with or without a byte order
    mark; an empty first column names none. *)
Theorem first_column_correct s c q bom :
  Forall not_comma s -> c = COMMA \/ c = 0 -> head s <> Some BYTE_ORDER_MARK -> (bom = [] \/ bom = [BYTE_ORDER_MARK]) ->
  first_column (bom ++ s ++ c :: q) = Ok (match s with [] => None | _ => Some s end).
Proof.
  intros Hs Hc Hm Hbom. unfold first_column.
  assert (Hskip : exists u, rd (bom ++ s ++ c :: q) 0 = Ok u /\
    (if u =? BYTE_ORDER_MARK then drop 1 (bom ++ s ++ c :: q) else bom ++ s ++ c :: q) = s ++ c :: q).
  { destruct Hbom as [-> | ->]; cbn [app].
    - destruct s as [|x s]; [exists c|exists x]; split; try done; cbn [app].
      + destruct Hc as [-> | ->]; done.
      + destruct (Z.eqb_spec x BYTE_ORDER_MARK); [|done]. subst. by destruct Hm.
    - exists BYTE_ORDER_MARK. done. }
  destruct Hskip as (u & -> & Hu). rewrite bind_Ok, Hu. unfold StrCSpn.
  pose proof (StrCSpn_loop_ok s c q Hs Hc [] (Datatypes.S (length (s ++ c :: q)))) as Hl. cbn [app] in Hl. change (zlen []) with 0 in Hl.
  rewrite Hl by (rewrite length_app; lia). rewrite bind_Ok, Z.add_0_l. destruct s as [|x s]; [done|].
  rewrite (proj2 (Z.eqb_neq _ 0)) by zlia. rewrite <- (app_nil_l ((x :: s) ++ c :: q)), rdn_app_mid by done. done.
Qed.

(** A text of odd length without a comma: the two zero bytes behind it are not
    two bytes of one unit, and the search for the end leaves the buffer. *)
Theorem odd_options_file :
  first_column (units ([103; 0; 114] ++ [0; 0])) = Fault.
Proof. vm_compute. reflexivity. Qed.

(** ** A boot *)
Definition sample_machine : machine Store :=
  {| mc_verifier := sample_verifier; mc_allocs := VerifyBuffer.sample_allocs; mc_device := disk_device; mc_AllocatePages := sample_alloc;
     mc_cache_alloc := true; mc_cache_ctx_alloc := true; mc_FileDevicePath := fun _ => true; mc_image_handle := 7 |}.
Definition sample_run (l : loaded) (b : boot Store) : EFI_STATUS * boot Store := (EFI_SUCCESS, b).
Definition sample_services : BootServices :=
  {| LoadImage := Firmware_service; StartImage := Firmware_service; UnloadImage := Firmware_service; Exit := Firmware_service |}.
Definition sample_boot : boot Store :=
  {| b_sbat := level_state date_2021; b_load := sample_lstate; b_cert := no_certs; b_tpm := m_tpm (sample_mok 0);
     b_globals := fun _ => 0; b_hsi_status := 0; b_hooks := fresh sample_services; b_protocols := []; b_lock_handle := 0;
     b_FilePath := wide "\EFI\a\shimx64.efi"; b_second_stage := []; b_optional_second_stage := None; b_load_options := [];
     b_mok_table := None |}.

(** The databases of the samples. *)
Definition db_boot : boot Store := with_sbat sample_boot (set_fw (b_sbat sample_boot) sample_firmware).
Lemma db_boot_ok : verifier_ok (verifier_now sample_machine db_boot) VerifyBuffer.sample_allocs sample_D.
Proof. destruct sample_verifier_ok. by split. Qed.

(** A file that is not there. *)
Lemma start_image_verified_witness : never_runs sample_machine (wide "\x.efi") db_boot.
Proof.
  assert (Hr : read_image disk_device (wide "\x.efi") = Ok (inl EFI_NOT_FOUND)) by (vm_compute; reflexivity).
  destruct (start_image_verified sample_machine sample_D [] (wide "\x.efi") db_boot db_boot_ok) as [Hn | (path & base & data & size & ctx & Hi & _)].
  - done.
  - split; constructor.
  - exists (inl EFI_NOT_FOUND). split; [exact Hr|done].
  - exact Hn.
  - change (mc_device sample_machine) with disk_device in Hi. rewrite Hr in Hi. discriminate Hi.
Defined.

(** The levels built in: two offsets and one level for both. *)
Definition sample_payload : list Z := le_split 4 8 ++ le_split 4 8 ++ level [49] date_2021 ++ [0].
Definition sample_options : options_file :=
  {| of_loaded_image := EFI_SUCCESS; of_protocol := EFI_SUCCESS; of_volume := EFI_SUCCESS; of_open := fun _ => inl EFI_NOT_FOUND;
     of_alloc := true; of_pool := true |}.
Definition sample_own : own_image :=
  {| oi_status := EFI_SUCCESS; oi_buffer := []; oi_LoadOptions := None; oi_LoadOptionsSize := 0 |}.
Definition sample_protocols : protocol_answers := {| pa_interface := 5; pa_new_handle := 9; pa_install := EFI_SUCCESS |}.
Definition sample_fallback : fallback_answers :=
  {| fa_loaded_image := EFI_SUCCESS; fa_file_system := EFI_SUCCESS; fa_volume := EFI_SUCCESS; fa_open := fun _ => EFI_NOT_FOUND |}.
Definition sample_memory : own_memory page_map :=
  {| om_code := 0x100123; om_stack := 0x200456; om_heap := Some 0x300789; om_state := sample_ms nx_memory |}.
Abbreviation sample_main := (efi_main sample_machine sample_run 0 (sample_section ++ [0]) sample_payload None sample_memory Trust.sample_pool
  (list_directory []) 3 sample_platform sample_SPrint sample_AsciiSPrint Mok.sample_allocs sample_devices Mok.sample_pool
  (fun s => (EFI_SUCCESS, s)) true (fun _ => []) sample_options true sample_own sample_protocols sample_fallback sample_boot).
Definition sample_end : boot Store := match sample_main with Ok (_, b) => b | _ => sample_boot end.
Lemma sample_main_returns : sample_main = Ok (Returned EFI_NOT_FOUND, sample_end).
Proof. vm_compute. reflexivity. Qed.

Lemma efi_main_checked_witness :
  secure (nothing_verified sample_boot) = true /\
  exists b0 b1 b2 b3 b' st' use_fb bg,
    checked sample_machine 0 (sample_section ++ [0]) sample_payload None sample_memory Trust.sample_pool (list_directory []) 3
      sample_platform sample_SPrint sample_AsciiSPrint Mok.sample_allocs sample_devices
      Mok.sample_pool (fun s => (EFI_SUCCESS, s)) true (fun _ => []) true sample_protocols (nothing_verified sample_boot) b0 b1 b2 b3 b' st' /\
    should_use_fallback sample_fallback (dev_path (mc_device sample_machine)) = Ok use_fb /\
    init_grub sample_machine sample_run use_fb b' = Ok (EFI_NOT_FOUND, bg) /\ shim_fini true sample_protocols bg = Ok sample_end.
Proof.
  split; [vm_compute; reflexivity|].
  exact (efi_main_checked _ _ _ _ _ _ _ _ _ _ _ _ _ _ _ _ _ _ _ _ _ _ _ _ _ _ _ sample_main_returns).
Defined.

Lemma first_column_correct_witness :
  first_column ([BYTE_ORDER_MARK] ++ wide "\a.efi" ++ COMMA :: [5; 0]) = Ok (Some (wide "\a.efi")).
Proof.
  apply (first_column_correct (wide "\a.efi") COMMA [5; 0] [BYTE_ORDER_MARK]); [|by left|done|by right].
  repeat (constructor; [split; done|]). constructor.
Defined.
