(* ===== verification/Fallback.v ===== *)
(** * fallback.c: restoring boot options

    fallback is started instead of the second stage when shim runs from the path of
    removable media: it reads BOOT.CSV in the directories below \EFI, makes a
    Boot#### variable for each line that has none yet, puts the new entries in
    front of BootOrder, and starts the first of them or resets the machine.

    The volume, the console and gnu-efi are parameters: a directory is the list of
    the answers of Read, FileDevicePath gives the nodes of a path.  Messages are
    left out.  The sizes of an option are ints in the code; a line of BOOT.CSV has
    less than 4 MiB, so they do not overflow. *)
From stdpp Require Import base list numbers option strings.
From Stdlib Require Import ZArith Lia.
From S2P Require Import Prelude.
From S2P Require Import Efi.
From S2P Require Import Str.
From S2P Require Import Path.
From S2P Require Import LoadOptions.
From S2P Require Import Firmware.
From S2P Require Import Esl.
From S2P Require Import KeyList.
From S2P Require Import Variables.
From S2P Require Import Password.
From S2P Require Import MokManager.
From S2P Require Import MokUpdate.
From S2P Require Import Tpm.
From S2P Require Import Trust.
From S2P Require Import Boot.
Local Open Scope Z_scope.

Definition LOAD_OPTION_ACTIVE : Z := 1.
Definition LOAD_OPTION_HIDDEN : Z := 8.
Definition NV_BS_RT : Z :=
  Z.lor (Z.lor EFI_VARIABLE_NON_VOLATILE EFI_VARIABLE_BOOTSERVICE_ACCESS) EFI_VARIABLE_RUNTIME_ACCESS.
Definition NO_REBOOT : string := "FB_NO_REBOOT".
Definition MEDIA_DEVICE_PATH : Z := 4.
Definition MEDIA_HARDDRIVE_DP : Z := 1.
Definition HARDWARE_DEVICE_PATH : Z := 1.
Definition HW_VENDOR_DP : Z := 4.

(** ** The firmware's and gnu-efi's services for variables

    GetNextVariableName takes the size of the buffer, the name in it and the GUID,
    and stores the size, the name and the GUID. *)
Class BootFirmware (S : Type) : Type := {
  GetNextVariableName : S -> Z -> string -> EFI_GUID -> EFI_STATUS * Z * string * EFI_GUID;
  LibGetVariable : S -> string -> EFI_GUID -> option (list Z)
}.

(** ** What is outside: memory for the arrays, gnu-efi's paths and xtoi *)
Record fallback_env : Type := {
  fe_path : bool;
  fe_dup : bool;
  fe_data : bool;
  fe_name : bool;
  fe_candidate : bool;
  fe_order : bool;
  fe_csv_size : bool;
  fe_csv_pool : bool;
  fe_FileDevicePath : list Z -> option (list path_node);
  fe_xtoi : string -> Z
}.

(** ** The state: the variables and the globals *)
Record first_option : Type := { fo_path : list path_node; fo_args : list Z; fo_size : Z }.
Record fb (S : Type) : Type := {
  fb_fw : S;
  fb_i : Z;
  fb_bootorder : list Z;
  fb_first : option first_option;
  fb_new : list Z
}.
Arguments fb_fw {S}. Arguments fb_i {S}. Arguments fb_bootorder {S}. Arguments fb_first {S}. Arguments fb_new {S}.

(** FindSubDevicePath: the nodes from the first one of the type; NULL is [None]. *)
Fixpoint find_node (type subtype : Z) (dp : list path_node) : option (list path_node) :=
  match dp with
  | [] => None
  | n :: rest => if (Z.land n.1.1 0x7f =? type) && (n.1.2 =? subtype) then Some dp else find_node type subtype rest
  end.
Definition FindSubDevicePath (alloc : bool) (In : list path_node) (type subtype : Z) : EFI_STATUS * option (list path_node) :=
  match find_node type subtype In with
  | None => (EFI_NOT_FOUND, None)
  | Some dp => if negb alloc then (EFI_OUT_OF_RESOURCES, None) else (EFI_SUCCESS, Some dp)
  end.

Definition make_full_path (alloc : bool) (dirname filename : list Z) : EFI_STATUS + list Z :=
  if negb alloc then inl EFI_OUT_OF_RESOURCES else inr (wide "\EFI\" ++ dirname ++ wide "\" ++ filename).

(** Boot0000 to BootFFFF *)
Definition hex_digit (d : Z) : Ascii.ascii :=
  match String.get (Z.to_nat d) "0123456789ABCDEF" with Some c => c | None => Ascii.zero end.
Definition boot_name (i : Z) : string :=
  String.append "Boot"
    (String (hex_digit (Z.shiftr (Z.land i 0xf000) 12))
      (String (hex_digit (Z.shiftr (Z.land i 0x0f00) 8))
        (String (hex_digit (Z.shiftr (Z.land i 0x00f0) 4)) (String (hex_digit (Z.land i 0x000f)) EmptyString)))).

(** The size of the arguments, the size of an option and its bytes. *)
Definition arg_size (arguments : list Z) : Z := if zlen arguments =? 0 then 0 else zlen arguments * 2 + 2.
Definition option_size (hddp : list path_node) (label arguments : list Z) : Z :=
  4 + 2 + zlen label * 2 + 2 + zlen (path_list hddp) + arg_size arguments.
Definition option_data (hddp : list path_node) (label arguments : list Z) : res (list Z) :=
  let size := option_size hddp label arguments in
  let data := replicate (Z.to_nat (size + 2)) 0 in
  data ← wr_le data 0 4 LOAD_OPTION_ACTIVE;
  data ← wr_le data 4 2 (u16 (zlen (path_list hddp)));
  data ← wrn data 6 (LoadOptions.ucs2 (Path.text label));
  let cursor := 6 + zlen label * 2 + 2 in
  data ← wrn data cursor (path_list hddp);
  wrn data (cursor + zlen (path_list hddp)) (LoadOptions.ucs2 (Path.text arguments)).

Section options.
Context {S : Type} `{Firmware S} `{BootFirmware S} `{VarLib S} (fe : fallback_env).

Definition with_fw (s : fb S) (fw : S) : fb S :=
  {| fb_fw := fw; fb_i := fb_i s; fb_bootorder := fb_bootorder s; fb_first := fb_first s; fb_new := fb_new s |}.
Definition with_i (s : fb S) (i : Z) : fb S :=
  {| fb_fw := fb_fw s; fb_i := i; fb_bootorder := fb_bootorder s; fb_first := fb_first s; fb_new := fb_new s |}.
Definition with_order (s : fb S) (o : list Z) : fb S :=
  {| fb_fw := fb_fw s; fb_i := fb_i s; fb_bootorder := o; fb_first := fb_first s; fb_new := fb_new s |}.
Definition with_new (s : fb S) (n : list Z) : fb S :=
  {| fb_fw := fb_fw s; fb_i := fb_i s; fb_bootorder := fb_bootorder s; fb_first := fb_first s; fb_new := n |}.

(** The first option that is new or found is the one to start. *)
Definition remember (fulldp : list path_node) (arguments : list Z) (s : fb S) : fb S :=
  match fb_first s with
  | Some _ => s
  | None =>
      {| fb_fw := fb_fw s; fb_i := fb_i s; fb_bootorder := fb_bootorder s;
         fb_first := if fe_dup fe then Some {| fo_path := fulldp; fo_args := arguments; fo_size := arg_size arguments |} else None;
         fb_new := fb_new s |}
  end.

(** The search for a name that is free; [k] numbers are left. *)
Fixpoint add_loop (k : nat) (hddp fulldp : list path_node) (label arguments : list Z) (s : fb S) : res (EFI_STATUS * fb S) :=
  match k with
  | O => Ok (EFI_OUT_OF_RESOURCES, s)
  | Datatypes.S k =>
      let varname := boot_name (fb_i s) in
      match LibGetVariable (fb_fw s) varname GV_GUID with
      | Some _ => add_loop k hddp fulldp label arguments (with_i s (fb_i s + 1))
      | None =>
          if negb (fe_data fe) then Ok (EFI_OUT_OF_RESOURCES, s)
          else
            data ← option_data hddp label arguments;
            data ← rdn data 0 (option_size hddp label arguments);
            let s := remember fulldp arguments s in
            let '(efi_status, fw) := SetVariable (fb_fw s) varname GV_GUID NV_BS_RT data in
            let s := with_fw s fw in
            if EFI_ERROR efi_status then Ok (efi_status, s)
            else if negb (fe_order fe) then Ok (EFI_OUT_OF_RESOURCES, s)
            else Ok (EFI_SUCCESS, with_new s (fb_new s ++ [Z.land (fb_i s) 0xffff]))
      end
  end.
Definition add_boot_option (hddp fulldp : list path_node) (label arguments : list Z) (s : fb S) : res (EFI_STATUS * fb S) :=
  add_loop (Z.to_nat (0x10000 - fb_i s)) hddp fulldp label arguments s.
End options.

(** ** An option that the firmware has hidden *)
Definition ami_masked_device_path_guid : EFI_GUID :=
  guid 0x99e275e7 0x75a0 0x4b37 [0xa2; 0xe6; 0xc5; 0x38; 0x5e; 0x6c; 0x0; 0xcb].
Definition calc_masked_boot_option_size (size : Z) : Z := u32 (size + 4 + 16 + 4).

(** The size of the text at an offset, with its NUL. *)
Fixpoint StrSize_loop (fuel : nat) (m : list Z) (i n : Z) : res Z :=
  match fuel with
  | O => NoFuel
  | Datatypes.S f => c ← rd_le m i 2; if c =? 0 then Ok (n + 2) else StrSize_loop f m (i + 2) (n + 2)
  end.
Definition StrSize (m : list Z) (i : Z) : res Z := StrSize_loop (Datatypes.S (length m)) m i 0.

(** The fields of a node of a path, and its end. *)
Definition DevicePathType (m : list Z) (dp : Z) : res Z := t ← rd m dp; Ok (Z.land t 0x7f).
Definition DevicePathSubType (m : list Z) (dp : Z) : res Z := rd m (dp + 1).
Definition DevicePathNodeLength (m : list Z) (dp : Z) : res Z := rd_le m (dp + 2) 2.
Definition IsDevicePathEnd (m : list Z) (dp : Z) : res bool :=
  t ← DevicePathType m dp;
  if negb (t =? 0x7f) then Ok false else st ← DevicePathSubType m dp; Ok (st =? 0xff).

(** [true] is a match, the 0 of the code. *)
Definition check_masked_boot_option (candidate : list Z) (candidate_size : Z) (data : list Z) (data_size : Z) : res bool :=
  if negb (calc_masked_boot_option_size data_size =? candidate_size) then Ok false
  else
    n ← StrSize candidate 6;
    let cursor := 6 + n in
    let min_valid_size := u32 (cursor + 4) in
    if candidate_size <=? min_valid_size then Ok false
    else
      len ← DevicePathNodeLength candidate cursor;
      let node_size := u32 (len - 4) in
      let min_valid_size := u32 (min_valid_size + node_size) in
      if candidate_size <=? min_valid_size then Ok false
      else
        type ← DevicePathType candidate cursor;
        if negb (type =? HARDWARE_DEVICE_PATH) then Ok false
        else
          subtype ← DevicePathSubType candidate cursor;
          if negb (subtype =? HW_VENDOR_DP) || negb (node_size =? 16) then Ok false
          else
            g ← rdn candidate (cursor + 4) 16;
            if negb (bytes_eqb g ami_masked_device_path_guid) then Ok false
            else
              let min_valid_size := u32 (min_valid_size + 4) in
              if candidate_size <=? min_valid_size then Ok false
              else
                let dp := cursor + len in
                e ← IsDevicePathEnd candidate dp;
                if negb e then Ok false
                else
                  attrs ← rd_le candidate 0 4;
                  if Z.land attrs LOAD_OPTION_HIDDEN =? 0 then Ok false
                  else
                    a ← rd_le data 0 4;
                    if negb (Z.ldiff attrs LOAD_OPTION_HIDDEN =? a) then Ok false
                    else
                      dl ← rd_le data 4 2;
                      cl ← rd_le candidate 4 2;
                      if negb (calc_masked_boot_option_size dl =? cl) then Ok false
                      else
                        cd ← rdn candidate 6 (cursor - 6);
                        dd ← rdn data 6 (cursor - 6);
                        if negb (bytes_eqb cd dd) then Ok false
                        else
                          elen ← DevicePathNodeLength candidate dp;
                          dn ← StrSize data 8;
                          x ← rdn candidate (dp + elen) (candidate_size - min_valid_size);
                          y ← rdn data (8 + dn) (candidate_size - min_valid_size);
                          Ok (bytes_eqb x y).

(** A name of a boot option. *)
Definition isxdigit (c : Ascii.ascii) : bool :=
  let n := Ascii.nat_of_ascii c in
  ((48 <=? n) && (n <=? 57) || (65 <=? n) && (n <=? 70) || (97 <=? n) && (n <=? 102))%nat.
Definition is_boot_name (varname : string) : bool :=
  match varname with
  | String b (String o (String o' (String t rest))) =>
      String.eqb (String b (String o (String o' (String t EmptyString)))) "Boot" &&
      (String.length rest =? 4)%nat && forallb isxdigit (String.list_ascii_of_string rest)
  | _ => false
  end.
Definition drop4 (varname : string) : string := String.substring 4 4 varname.

Section find.
Context {S : Type} `{Firmware S} `{BootFirmware S} `{VarLib S} (fe : fallback_env).

(** The loop over the names of variables: the status, and the number of the
    option. *)
Fixpoint scan_names (fuel : nat) (fw : S) (data : list Z) (size buffer_size : Z) (varname : string) (vendor_guid : EFI_GUID)
    (candidate : list Z) : res (EFI_STATUS * option Z) :=
  match fuel with
  | O => NoFuel
  | Datatypes.S f =>
      let '(efi_status, varname_size, name, g) := GetNextVariableName fw buffer_size varname vendor_guid in
      if EFI_ERROR efi_status then
        if bool_decide (efi_status = EFI_BUFFER_TOO_SMALL) then
          if negb (fe_name fe) then Ok (EFI_OUT_OF_RESOURCES, None)
          else scan_names f fw data size varname_size varname vendor_guid candidate
        else Ok (efi_status, None)
      else if negb (is_boot_name name) then scan_names f fw data size buffer_size name g candidate
      else
        let v := GetVariable fw name GV_GUID (zlen candidate) true in
        if EFI_ERROR (gv_status v) then scan_names f fw data size buffer_size name g candidate
        else
          candidate ← wrn candidate 0 (gv_data v);
          same ← (if negb (gv_size v =? size) then check_masked_boot_option candidate (gv_size v) data size
                  else c ← rdn candidate 0 size; d ← rdn data 0 size; Ok (bytes_eqb c d));
          if negb same then scan_names f fw data size buffer_size name g candidate
          else Ok (EFI_SUCCESS, Some (u16 (fe_xtoi fe (drop4 name))))
  end.

Definition NullGuid : EFI_GUID := replicate 16 0.
Definition find_boot_option (fuel : nat) (dp fulldp : list path_node) (label arguments : list Z) (s : fb S)
  : res (EFI_STATUS * option Z * fb S) :=
  if negb (fe_data fe) then Ok (EFI_OUT_OF_RESOURCES, None, s)
  else
    data ← option_data dp label arguments;
    if negb (fe_name fe) || negb (fe_candidate fe) then Ok (EFI_OUT_OF_RESOURCES, None, s)
    else
      let size := option_size dp label arguments in
      '(efi_status, optnum) ← scan_names fuel (fb_fw s) data size 512 "" NullGuid
                                (replicate (Z.to_nat (calc_masked_boot_option_size size)) 0);
      Ok (efi_status, optnum, match optnum with Some _ => remember fe fulldp arguments s | None => s end).

(** ** The boot order: its numbers are 16-bit units of the variable *)
Definition set_boot_order (get : option (list Z)) (s : fb S) : fb S :=
  match get with Some d => with_order s (units d) | None => s end.

Definition update_boot_order (s : fb S) : EFI_STATUS * fb S :=
  if negb (fe_order fe) then (EFI_OUT_OF_RESOURCES, s)
  else
    let s := with_order s (fb_new s ++ fb_bootorder s) in
    let g := GetVariable (fb_fw s) "BootOrder" GV_GUID 0 false in
    let s := if bool_decide (gv_status g = EFI_BUFFER_TOO_SMALL)
             then with_fw s (snd (LibDeleteVariable (fb_fw s) "BootOrder" GV_GUID)) else s in
    let '(efi_status, fw) := SetVariable (fb_fw s) "BootOrder" GV_GUID NV_BS_RT (LoadOptions.ucs2 (fb_bootorder s)) in
    (efi_status, with_fw s fw).

(** The option is put first; a UINT16 counts up to it. *)
Fixpoint index_of (n : Z) (l : list Z) : option nat :=
  match l with
  | [] => None
  | x :: l => if x =? n then Some O else Datatypes.S <$> index_of n l
  end.
Definition put_first (option : Z) (s : fb S) : res (EFI_STATUS * fb S) :=
  let order := fb_bootorder s in
  match index_of option (take (Z.to_nat 0x10000) order) with
  | Some bootnum =>
      if negb (fe_order fe) then Ok (EFI_OUT_OF_RESOURCES, s)
      else Ok (EFI_SUCCESS, with_order s (option :: take bootnum order ++ drop (Datatypes.S bootnum) order))
  | None =>
      if 0xffff <? zlen order then NoFuel
      else if negb (fe_order fe) then Ok (EFI_OUT_OF_RESOURCES, s)
      else Ok (EFI_SUCCESS, with_order s (option :: order))
  end.

Definition add_to_boot_list (fuel : nat) (dirname filename label arguments : list Z) (s : fb S) : res (EFI_STATUS * fb S) :=
  match make_full_path (fe_path fe) dirname filename with
  | inl efi_status => Ok (efi_status, s)
  | inr fullpath =>
      match fe_FileDevicePath fe fullpath with
      | None => Ok (EFI_OUT_OF_RESOURCES, s)
      | Some full_device_path =>
          let '(efi_status, dp) := FindSubDevicePath (fe_dup fe) full_device_path MEDIA_DEVICE_PATH MEDIA_HARDDRIVE_DP in
          if EFI_ERROR efi_status && negb (bool_decide (efi_status = EFI_NOT_FOUND)) then Ok (EFI_OUT_OF_RESOURCES, s)
          else
            let dp := match dp with Some dp => dp | None => full_device_path end in
            '(efi_status, option, s) ← find_boot_option fuel dp full_device_path label arguments s;
            match option with
            | None =>
                '(_, s) ← add_boot_option fe dp full_device_path label arguments s;
                Ok (efi_status, s)
            | Some option => put_first option s
            end
      end
  end.
End find.

(** ** BOOT.CSV *)
Definition CR : Z := 13.
Definition LF : Z := 10.
Definition BOOT_CSV : list Z := wide "boot.csv".
Definition BOOT_ARCH_CSV : list Z := wide "bootx64.csv".
Definition EFI_FILE_DIRECTORY : Z := 16.

(** The text at an offset of the buffer. *)
Definition str_at (m : list Z) (i : Z) : res (list Z) :=
  if (0 <=? i) && (i <=? zlen m) then Ok (drop (Z.to_nat i) m) else Fault.
Definition cspn (m : list Z) (i : Z) (reject : list Z) : res Z := t ← str_at m i; StrCSpn t (Path.text reject).

(** The answers of reading a directory: an error of the first call, no more data
    (with its status), an error of the second call, no data in the second call, an
    entry.  Behind the last answer the directory is at its end. *)
Inductive dir_read : Type :=
| ReadError (efi_status : EFI_STATUS)
| ReadEnd (efi_status : EFI_STATUS)
| ReadFails (efi_status : EFI_STATUS)
| ReadNothing
| ReadEntry (Attribute : Z) (FileName : list Z).

Record boot_dir : Type := {
  bd_info_size : EFI_STATUS * Z;
  bd_info : EFI_STATUS * Z;
  bd_alloc : bool;
  bd_reads : list dir_read;
  bd_open : list Z -> EFI_STATUS + option text_file
}.

Section csv.
Context {S : Type} `{Firmware S} `{BootFirmware S} `{VarLib S} (fe : fallback_env) (fuel : nat).

(** The buffer, in which the columns are terminated, and the state. *)
Definition populate_stanza (dirname : list Z) (m : list Z) (csv : Z) (s : fb S) : res (EFI_STATUS * list Z * fb S) :=
  comma0 ← cspn m csv [COMMA];
  if comma0 =? 0 then Ok (EFI_INVALID_PARAMETER, m, s)
  else
    m ← wr m (csv + comma0) 0;
    let label := csv + comma0 + 1 in
    comma1 ← cspn m label [COMMA];
    if comma1 =? 0 then Ok (EFI_INVALID_PARAMETER, m, s)
    else
      m ← wr m (label + comma1) 0;
      let arguments := csv + comma0 + 1 + comma1 + 1 in
      comma2 ← cspn m arguments [COMMA];
      m ← wr m (arguments + comma2) 0;
      file ← rdn m csv comma0;
      label ← rdn m label comma1;
      arguments ← rdn m arguments comma2;
      '(_, s) ← add_to_boot_list fe fuel dirname file label arguments s;
      Ok (EFI_SUCCESS, m, s).

Fixpoint skip_line_ends (k : nat) (m : list Z) (start : Z) : res Z :=
  match k with
  | O => NoFuel
  | Datatypes.S k => c ← rd m start; if (c =? CR) || (c =? LF) then skip_line_ends k m (start + 1) else Ok start
  end.

(** The lines of the text. *)
Fixpoint csv_lines_loop (k : nat) (dirname : list Z) (m : list Z) (start : Z) (s : fb S) : res (list Z * fb S) :=
  match k with
  | O => NoFuel
  | Datatypes.S k =>
      c ← rd m start;
      if c =? 0 then Ok (m, s)
      else
        start ← skip_line_ends (Datatypes.S (length m)) m start;
        l ← cspn m start [CR; LF];
        if l =? 0 then
          c ← rd m start;
          if c =? 0 then Ok (m, s) else csv_lines_loop k dirname m (start + 1) s
        else
          c ← rd m (start + l);
          m ← wr m (start + l) 0;
          '(_, m, s) ← populate_stanza dirname m start s;
          m ← wr m (start + l) c;
          csv_lines_loop k dirname m (start + l) s
  end.

Definition try_boot_csv (fh : text_file) (dirname filename : list Z) (s : fb S) : res (EFI_STATUS * fb S) :=
  match make_full_path (fe_path fe) dirname filename with
  | inl efi_status => Ok (efi_status, s)
  | inr fullpath =>
      r ← read_file (fe_csv_size fe) (fe_csv_pool fe) fh fullpath;
      match r with
      | inl efi_status => Ok (efi_status, s)
      | inr (buffer, _) =>
          let m := units buffer in
          c ← rd m 0;
          let start := if c =? BYTE_ORDER_MARK then 1 else 0 in
          '(_, s) ← csv_lines_loop (Datatypes.S (length m)) dirname m start s;
          Ok (EFI_SUCCESS, s)
      end
  end.

(** The two names in a directory: a status to return, or the names. *)
Definition same_name (a b : list Z) : res bool := r ← StrCaseCmp (Path.text a) 0 (Path.text b) 0; Ok (r =? 0).
Fixpoint scan_csv (alloc : bool) (reads : list dir_read) (bootcsv bootarchcsv : option (list Z))
  : res (EFI_STATUS + (option (list Z) * option (list Z))) :=
  match reads with
  | [] => Ok (inr (bootcsv, bootarchcsv))
  | ReadError efi_status :: _ => Ok (inl efi_status)
  | ReadEnd _ :: _ => Ok (inr (bootcsv, bootarchcsv))
  | ReadFails efi_status :: _ => if negb alloc then Ok (inl EFI_OUT_OF_RESOURCES) else Ok (inl efi_status)
  | ReadNothing :: _ => if negb alloc then Ok (inl EFI_OUT_OF_RESOURCES) else Ok (inr (bootcsv, bootarchcsv))
  | ReadEntry _ FileName :: reads =>
      if negb alloc then Ok (inl EFI_OUT_OF_RESOURCES)
      else
        is_csv ← (if bool_decide (bootcsv = None) then same_name FileName BOOT_CSV else Ok false);
        is_arch ← (if bool_decide (bootarchcsv = None) then same_name FileName BOOT_ARCH_CSV else Ok false);
        scan_csv alloc reads (if is_csv && fe_dup fe then Some FileName else bootcsv)
          (if is_arch && fe_dup fe then Some FileName else bootarchcsv)
  end.

(** A file of the directory, if it can be opened. *)
Definition process_csv (d : boot_dir) (dirname name : list Z) (s : fb S) : res (EFI_STATUS * fb S) :=
  match bd_open d name with
  | inl efi_status => Ok (efi_status, s)
  | inr None => Ok (EFI_SUCCESS, s)
  | inr (Some fh2) => try_boot_csv fh2 dirname name s
  end.

Definition find_boot_csv (d : boot_dir) (dirname : list Z) (s : fb S) : res (EFI_STATUS * fb S) :=
  let '(efi_status, bs) := bd_info_size d in
  if EFI_ERROR efi_status && negb (bool_decide (efi_status = EFI_BUFFER_TOO_SMALL)) then Ok (efi_status, s)
  else if bs =? 0 then Ok (EFI_SUCCESS, s)
  else if negb (bd_alloc d) then Ok (EFI_OUT_OF_RESOURCES, s)
  else
    let '(efi_status, Attribute) := bd_info d in
    if EFI_ERROR efi_status then Ok (efi_status, s)
    else if Z.land Attribute EFI_FILE_DIRECTORY =? 0 then Ok (EFI_SUCCESS, s)
    else
      r ← scan_csv (bd_alloc d) (bd_reads d) None None;
      match r with
      | inl efi_status => Ok (efi_status, s)
      | inr (bootcsv, bootarchcsv) =>
          '(efi_status, s) ← (match bootarchcsv with Some name => process_csv d dirname name s | None => Ok (EFI_SUCCESS, s) end);
          '(_, s) ← (if EFI_ERROR efi_status || bool_decide (bootarchcsv = None)
                     then match bootcsv with Some name => process_csv d dirname name s | None => Ok (efi_status, s) end
                     else Ok (efi_status, s));
          Ok (EFI_SUCCESS, s)
      end.

(** ** The directories of \EFI *)
Record boot_volume : Type := {
  bv_protocol : EFI_STATUS;
  bv_volume : EFI_STATUS * bool;
  bv_EFI : EFI_STATUS * bool;
  bv_position : EFI_STATUS;
  bv_alloc : bool;
  bv_reads : list dir_read;
  bv_open : list Z -> EFI_STATUS + boot_dir
}.

Definition skip_dir (FileName : list Z) : res bool :=
  if bool_decide (FileName = wide ".") || bool_decide (FileName = wide "..") then Ok true else same_name FileName (wide "BOOT").

(** [inl]: the status to return at once; [inr]: the status behind the loop. *)
Fixpoint scan_dirs (v : boot_volume) (reads : list dir_read) (s : fb S) : res ((EFI_STATUS + EFI_STATUS) * fb S) :=
  match reads with
  | [] => Ok (inr EFI_SUCCESS, s)
  | ReadError efi_status :: _ => Ok (inl efi_status, s)
  | ReadEnd efi_status :: _ => Ok (inr efi_status, s)
  | ReadFails efi_status :: _ => if negb (bv_alloc v) then Ok (inl EFI_OUT_OF_RESOURCES, s) else Ok (inl efi_status, s)
  | ReadNothing :: reads => if negb (bv_alloc v) then Ok (inl EFI_OUT_OF_RESOURCES, s) else scan_dirs v reads s
  | ReadEntry Attribute FileName :: reads =>
      if negb (bv_alloc v) then Ok (inl EFI_OUT_OF_RESOURCES, s)
      else if Z.land Attribute EFI_FILE_DIRECTORY =? 0 then scan_dirs v reads s
      else
        skip ← skip_dir FileName;
        if skip : bool then scan_dirs v reads s
        else
          match bv_open v FileName with
          | inl _ => scan_dirs v reads s
          | inr d =>
              '(efi_status, s) ← find_boot_csv d FileName s;
              if bool_decide (efi_status = EFI_OUT_OF_RESOURCES) then Ok (inr efi_status, s) else scan_dirs v reads s
          end
  end.

Definition find_boot_options (v : boot_volume) (s : fb S) : res (EFI_STATUS * fb S) :=
  if EFI_ERROR (bv_protocol v) then Ok (bv_protocol v, s)
  else if EFI_ERROR (bv_volume v).1 || negb (bv_volume v).2 then Ok ((bv_volume v).1, s)
  else if EFI_ERROR (bv_EFI v).1 || negb (bv_EFI v).2 then Ok ((bv_EFI v).1, s)
  else if EFI_ERROR (bv_position v) then Ok (bv_position v, s)
  else
    '(r, s) ← scan_dirs v (bv_reads v) s;
    match r with
    | inl efi_status => Ok (efi_status, s)
    | inr efi_status =>
        if negb (EFI_ERROR efi_status) && ((0 <? zlen (fb_bootorder s)) || (0 <? zlen (fb_new s)))
        then Ok (update_boot_order fe s) else Ok (efi_status, s)
    end.
End csv.

(** ** Starting the first option *)

(** LoadImage and StartImage, the stack, the countdown and the user's choices. *)
Record fallback_user : Type := {
  fu_LoadedImage : EFI_STATUS;
  fu_LoadImage : list path_node -> EFI_STATUS;
  fu_HandleProtocol : EFI_STATUS;
  fu_StartImage : list path_node -> EFI_STATUS;
  fu_stack : list Z;
  fu_countdown : Z;
  fu_choices : list Z
}.

(** What happens: an image is started, with its options or the ones it had, or the
    machine is reset. *)
Inductive fb_event : Type :=
| Started (path : list path_node) (options : option (list Z * Z))
| Reset.

Section main.
Context {S : Type} `{Firmware S} `{BootFirmware S} `{VarLib S} (fe : fallback_env) (fu : fallback_user).

Definition try_start_first_option (s : fb S) : EFI_STATUS * list fb_event :=
  match fb_first s with
  | None => (EFI_SUCCESS, [])
  | Some o =>
      let efi_status := fu_LoadImage fu (fo_path o) in
      if EFI_ERROR efi_status then (efi_status, [])
      else
        let options := if EFI_ERROR (fu_HandleProtocol fu) then None else Some (fo_args o, fo_size o) in
        (fu_StartImage fu (fo_path o), [Started (fo_path o) options])
  end.

Definition get_fallback_no_reboot (fw : S) : Z :=
  let g := GetVariable fw NO_REBOOT SHIM_LOCK_GUID 4 true in
  if EFI_ERROR (gv_status g) then 0 else le_combine (gv_data g ++ drop (length (gv_data g)) (fu_stack fu)).
Definition set_fallback_no_reboot (s : fb S) : EFI_STATUS * fb S :=
  let '(efi_status, fw) := SetVariable (fb_fw s) NO_REBOOT SHIM_LOCK_GUID NV_BS_RT (le_split 4 1) in (efi_status, with_fw s fw).

(** console_select until the answer is one of the menu. *)
Fixpoint get_user_choice (choices : list Z) : res Z :=
  match choices with
  | [] => NoFuel
  | choice :: choices => if (choice <? 0) || (2 <? choice) then get_user_choice choices else Ok choice
  end.

(** [prefer_reset] is what fallback_should_prefer_reset returns. *)
Definition start_or_reset (prefer_reset : EFI_STATUS) (s : fb S) : res (fb S * list fb_event) :=
  if EFI_ERROR prefer_reset then Ok (s, (try_start_first_option s).2 ++ [Reset])
  else
    let tried := if get_fallback_no_reboot (fb_fw s) =? 1 then (try_start_first_option s).2 else [] in
    if fu_countdown fu =? 0 then Ok (s, tried ++ [Reset])
    else
      choice ← get_user_choice (fu_choices fu);
      if choice =? 0 then Ok (s, tried ++ [Reset])
      else
        let '(efi_status, s) := if choice =? 2 then set_fallback_no_reboot s else (EFI_SUCCESS, s) in
        if EFI_ERROR efi_status then Ok (s, tried ++ [Reset])
        else Ok (s, tried ++ (try_start_first_option s).2 ++ [Reset]).

Definition efi_main (fuel : nat) (v : boot_volume) (tpm : devices) (st : tpm_state) (fw : S) : res (EFI_STATUS * fb S * list fb_event) :=
  let s := {| fb_fw := fw; fb_i := 0; fb_bootorder := []; fb_first := None; fb_new := [] |} in
  if EFI_ERROR (fu_LoadedImage fu) then Ok (fu_LoadedImage fu, s, [])
  else
    let s := set_boot_order (LibGetVariable fw "BootOrder" GV_GUID) s in
    '(efi_status, s) ← find_boot_options fe fuel v s;
    if EFI_ERROR efi_status then Ok (efi_status, s, [])
    else
      '(s, events) ← start_or_reset (fallback_should_prefer_reset tpm st) s;
      Ok (EFI_SUCCESS, s, events).
End main.

(** ** The option that is written *)
Definition boot_option (hddp : list path_node) (label arguments : list Z) : EFI_LOAD_OPTION :=
  {| Attributes := LOAD_OPTION_ACTIVE; Description := label; FilePathList := hddp;
     OptionalData := if zlen arguments =? 0 then [] else LoadOptions.ucs2 (Path.text arguments) |}.

Lemma option_size_ok hddp label arguments : option_size hddp label arguments = zlen (option_bytes (boot_option hddp label arguments)).
Proof.
  unfold option_size, option_bytes, arg_size, boot_option. cbn [Attributes Description FilePathList OptionalData].
  destruct (zlen arguments =? 0); unfold Path.text; zlen_simpl; lia.
Qed.

Lemma ucs2_text s : LoadOptions.ucs2 (Path.text s) = LoadOptions.ucs2 s ++ [0; 0].
Proof. unfold LoadOptions.ucs2, Path.text. by rewrite map_app, concat_app. Qed.

Lemma option_data_ok hddp label arguments : zlen (path_list hddp) < 2 ^ 16 ->
  option_data hddp label arguments = Ok (option_bytes (boot_option hddp label arguments) ++ [0; 0]).
Proof.
  intros Hp. unfold option_data. pose proof (zlen_nonneg label). pose proof (zlen_nonneg (path_list hddp)). pose proof (zlen_nonneg arguments).
  assert (Harg : arg_size arguments = if zlen arguments =? 0 then 0 else zlen arguments * 2 + 2) by done.
  assert (Hcap : zlen arguments * 2 <= arg_size arguments) by (destruct (zlen arguments =? 0) eqn:E; bool_to_prop; lia).
  set (n := Z.to_nat (option_size hddp label arguments + 2)).
  assert (Hn : Z.of_nat n = 4 + 2 + zlen label * 2 + 2 + zlen (path_list hddp) + arg_size arguments + 2) by (unfold n, option_size; lia).
  assert (Hnext : forall d bs k i, i = zlen d -> zlen bs <= Z.of_nat k ->
    wrn (d ++ replicate k 0) i bs = Ok ((d ++ bs) ++ replicate (k - length bs) 0))
    by (intros d bs k i -> Hk; apply wrn_zeros; unfold zlen in Hk; lia).
  assert (Hlab : zlen (LoadOptions.ucs2 (Path.text label)) = zlen label * 2 + 2) by (unfold Path.text; zlen_simpl; lia).
  assert (Hargs : zlen (LoadOptions.ucs2 (Path.text arguments)) = zlen arguments * 2 + 2) by (unfold Path.text; zlen_simpl; lia).
  assert (Hlen : forall k v, zlen (le_split k v) = Z.of_nat k) by (intros; unfold zlen; by rewrite le_split_length).
  unfold wr_le. change (replicate n 0) with ([] ++ replicate n 0).
  rewrite Hnext by (rewrite ?Hlen; done || lia). rewrite bind_Ok. cbn [app]. rewrite le_split_length.
  rewrite Hnext by (rewrite ?Hlen; done || lia). rewrite bind_Ok, le_split_length.
  rewrite Hnext by (rewrite ?zlen_app, ?Hlen; lia || rewrite Hlab; lia). rewrite bind_Ok.
  rewrite Hnext by (rewrite ?zlen_app, ?Hlen, ?Hlab; unfold zlen in *; lia). rewrite bind_Ok.
  rewrite Hnext by (rewrite ?zlen_app, ?Hlen, ?Hlab, ?Hargs; unfold zlen in *; lia).
  f_equal. unfold option_bytes, boot_option. cbn [Attributes Description FilePathList OptionalData].
  unfold u16. rewrite Z.mod_small by lia. rewrite ucs2_text, <- !app_assoc. do 3 f_equal. cbn [app]. do 2 f_equal.
  f_equal. rewrite <- ucs2_text.
  match goal with |- _ ++ replicate ?k _ = _ => replace k with (if zlen arguments =? 0 then 0%nat else 2%nat) end.
  - destruct (zlen arguments =? 0) eqn:E; bool_to_prop; [|by cbn [replicate app]].
    assert (arguments = []) as -> by (destruct arguments; [done|]; rewrite zlen_cons in E; pose proof (zlen_nonneg arguments); lia). done.
  - unfold zlen in *. destruct (Z.of_nat (length arguments) =? 0) eqn:E; bool_to_prop; lia.
Qed.

(** ** Laws of the services

    What LibGetVariable gives is the data of the variable; SetVariable has no
    warnings; GetNextVariableName walks the list of the variables. *)
Definition walk_at (names : list (string * EFI_GUID)) (k : nat) : string * EFI_GUID :=
  match k with O => (EmptyString, NullGuid) | Datatypes.S k => nth k names (EmptyString, NullGuid) end.
Definition name_size (n : string) : Z := 2 * (Z.of_nat (String.length n) + 1).

Class BootFirmwareLaws (S : Type) `{VarLibLaws S} `{BootFirmware S} : Type := {
  lib_get s n g d : LibGetVariable s n g = Some d -> exists a, lookup_var s n g = Some (a, d);
  set_no_warning s n g a d : EFI_ERROR (fst (SetVariable s n g a d)) = false -> fst (SetVariable s n g a d) = EFI_SUCCESS;
  var_names : S -> list (string * EFI_GUID);
  next_name s k n g size : var_names s !! k = Some (n, g) ->
    exists m n' g', GetNextVariableName s size (walk_at (var_names s) k).1 (walk_at (var_names s) k).2 =
      if size <? name_size n then (EFI_BUFFER_TOO_SMALL, name_size n, n', g') else (EFI_SUCCESS, m, n, g);
  next_end s k size : k = length (var_names s) ->
    exists m n' g', GetNextVariableName s size (walk_at (var_names s) k).1 (walk_at (var_names s) k).2 = (EFI_NOT_FOUND, m, n', g')
}.

(** LibGetVariable gives NULL for a variable that exists when there is no memory for
    its data or reading it fails.  The theorems below are about a machine where that
    does not happen; where it does, fallback takes the number of the variable for a
    free one ([unread_option_overwritten]). *)
Class LibReads (S : Type) `{BootFirmwareLaws S} : Prop :=
  lib_reads s n g : is_Some (lookup_var s n g) -> is_Some (LibGetVariable s n g).
Lemma lib_get_exact {S : Type} `{LibReads S} s n g : LibGetVariable s n g = snd <$> lookup_var s n g.
Proof.
  destruct (LibGetVariable s n g) as [d|] eqn:E; [by destruct (lib_get _ _ _ _ E) as [a ->]|].
  destruct (lookup_var s n g) as [v|] eqn:El; [|done]. destruct (lib_reads s n g) as [d Hd]; [by exists v|congruence].
Qed.

Section kept.
Context {S : Type} `{LibReads S} (fe : fallback_env).

(** What every step keeps: the variables that exist, the numbers of the boot order;
    and the entries that were added were free and are there now. *)
Definition created (s0 s : fb S) (i : Z) : Prop :=
  0 <= i <= 0xffff /\ lookup_var (fb_fw s0) (boot_name i) GV_GUID = None /\ is_Some (lookup_var (fb_fw s) (boot_name i) GV_GUID).
Record kept_options (s0 s : fb S) : Prop := {
  ko_vars : forall n g v, lookup_var (fb_fw s0) n g = Some v -> lookup_var (fb_fw s) n g = Some v;
  ko_new : exists added, fb_new s = fb_new s0 ++ added /\ NoDup added /\ Forall (created s0 s) added;
  ko_order : exists found, fb_bootorder s ≡ₚ found ++ fb_bootorder s0;
  ko_i : 0 <= fb_i s0 <= 0x10000 -> fb_i s0 <= fb_i s <= 0x10000
}.

Lemma kept_refl s : kept_options s s.
Proof. split; [done| | |lia]; exists []; [|done]. rewrite app_nil_r. by split_and!; [done|constructor|]. Qed.

Lemma kept_trans s1 s2 s3 : kept_options s1 s2 -> kept_options s2 s3 -> kept_options s1 s3.
Proof.
  intros [V1 (a1 & N1 & D1 & F1) (f1 & O1) I1] [V2 (a2 & N2 & D2 & F2) (f2 & O2) I2]. split; [auto| | |lia].
  - exists (a1 ++ a2). split; [by rewrite N2, N1, app_assoc|]. rewrite Forall_forall in F1, F2. split.
    + apply NoDup_app. split_and!; [done| |done]. intros i Hi1 Hi2. destruct (F1 i Hi1) as (_ & _ & [v Hv]).
      destruct (F2 i Hi2) as (_ & Hn & _). congruence.
    + apply Forall_app. split; apply Forall_forall.
      * intros i Hi. destruct (F1 i Hi) as (? & ? & [v Hv]). unfold created. split_and!; [lia|lia|done|exists v; by apply V2].
      * intros i Hi. destruct (F2 i Hi) as (? & Hn & ?). unfold created. split_and!; [lia|lia| |done].
        destruct (lookup_var (fb_fw s1) (boot_name i) GV_GUID) as [v|] eqn:E; [|done]. apply V1 in E. congruence.
  - exists (f2 ++ f1). by rewrite O2, O1, app_assoc.
Qed.

Lemma kept_same s s' : fb_fw s' = fb_fw s -> fb_new s' = fb_new s -> fb_bootorder s' = fb_bootorder s -> fb_i s' = fb_i s -> kept_options s s'.
Proof.
  intros Hf Hn Ho Hi. split; [by rewrite Hf| | |rewrite Hi; lia].
  - exists []. rewrite Hn, app_nil_r. by split_and!; [done|constructor|].
  - exists []. by rewrite Ho.
Qed.

Lemma remember_same fulldp arguments (s : fb S) : let s' := remember fe fulldp arguments s in
  fb_fw s' = fb_fw s /\ fb_new s' = fb_new s /\ fb_bootorder s' = fb_bootorder s /\ fb_i s' = fb_i s.
Proof. unfold remember. by destruct (fb_first s). Qed.

Lemma add_loop_kept hddp fulldp label arguments k : forall s st s', Z.of_nat k = 0x10000 - fb_i s -> 0 <= fb_i s ->
  add_loop fe k hddp fulldp label arguments s = Ok (st, s') -> kept_options s s'.
Proof.
  induction k as [|k IH]; intros s st s' Hk Hi Hr; cbn [add_loop] in Hr; [injection Hr as _ <-; apply kept_refl|].
  rewrite lib_get_exact in Hr. destruct (lookup_var (fb_fw s) (boot_name (fb_i s)) GV_GUID) as [v|] eqn:El; cbn [fmap option_fmap option_map] in Hr.
  { eapply kept_trans; [|apply (IH (with_i s (fb_i s + 1)) st s'); cbn; [lia|lia|done]].
    split; [done|exists []; rewrite app_nil_r; by split_and!; [done|constructor|]|by exists []|cbn; lia]. }
  destruct (negb (fe_data fe)); [injection Hr as _ <-; apply kept_refl|].
  apply bind_inv in Hr as (d0 & _ & Hr). apply bind_inv in Hr as (d & Hd & Hr). apply rdn_length in Hd as (Hd & _).
  destruct (remember_same fulldp arguments s) as (Rf & Rn & Ro & Ri). set (s1 := remember fe fulldp arguments s) in *.
  pose proof (set_no_warning (fb_fw s1) (boot_name (fb_i s)) GV_GUID NV_BS_RT d) as Hnw.
  destruct (SetVariable (fb_fw s1) (boot_name (fb_i s)) GV_GUID NV_BS_RT d) as [st1 fw] eqn:Es. cbn [fst] in Hnw.
  assert (Hvars : forall n g v, lookup_var (fb_fw s) n g = Some v -> lookup_var fw n g = Some v).
  { intros n g v Hv. rewrite (set_other _ _ _ _ _ _ _ n g Es); [by rewrite Rf|]. intros [= -> ->]. congruence. }
  assert (Hmid : kept_options s (with_fw s1 fw)).
  { split; [done|exists []; rewrite app_nil_r; split_and!; [done|constructor|done]|exists []; by rewrite <- Ro|cbn; lia]. }
  destruct (EFI_ERROR st1) eqn:Ee; [by injection Hr as _ <-|]. destruct (negb (fe_order fe)); [by injection Hr as _ <-|].
  injection Hr as _ <-. split; [done| |exists []; by rewrite <- Ro|cbn; lia].
  exists [fb_i s]. cbn [with_new with_fw fb_new fb_i fb_fw]. rewrite Rn, Ri.
  change 0xffff with (Z.ones 16). rewrite Z.land_ones, Z.mod_small by lia. change (Z.ones 16) with 0xffff.
  split_and!; [done|apply NoDup_singleton|]. apply Forall_singleton. split; [lia|]. split; [done|]. cbn [with_new with_fw fb_fw].
  rewrite (Hnw eq_refl) in Es. rewrite (set_ok _ _ _ _ _ _ Es) by done. rewrite decide_False; [by eexists|]. intros ->.
  rewrite zlen_nil in Hd. unfold option_size, arg_size in Hd. pose proof (zlen_nonneg label). pose proof (zlen_nonneg (path_list hddp)).
  pose proof (zlen_nonneg arguments). destruct (_ =? 0); lia.
Qed.

Lemma add_boot_option_kept hddp fulldp label arguments (s : fb S) st s' : 0 <= fb_i s <= 0x10000 ->
  add_boot_option fe hddp fulldp label arguments s = Ok (st, s') -> kept_options s s'.
Proof. intros Hi. apply add_loop_kept; lia. Qed.

Lemma find_boot_option_kept fuel dp fulldp label arguments (s : fb S) st o s' :
  find_boot_option fe fuel dp fulldp label arguments s = Ok (st, o, s') -> kept_options s s'.
Proof.
  unfold find_boot_option. destruct (negb _); [intros [= _ _ <-]; apply kept_refl|]. intros (d & _ & Hr)%bind_inv.
  destruct (_ || _); [injection Hr as _ _ <-; apply kept_refl|]. apply bind_inv in Hr as ([st1 o1] & _ & [= _ _ <-]).
  destruct o1; [|apply kept_refl]. destruct (remember_same fulldp arguments s) as (? & ? & ? & ?). by apply kept_same.
Qed.

Lemma index_of_lookup n l k : index_of n l = Some k -> l !! k = Some n.
Proof.
  revert k. induction l as [|x l IH]; [done|]. intros k. cbn [index_of]. destruct (x =? n) eqn:E; bool_to_prop; [intros [= <-]; by subst|].
  destruct (index_of n l); [|done]. intros [= <-]. cbn. by apply IH.
Qed.

Lemma put_first_kept option (s : fb S) st s' : put_first fe option s = Ok (st, s') -> kept_options s s'.
Proof.
  assert (Hord : forall o, (exists found, o ≡ₚ found ++ fb_bootorder s) -> kept_options s (with_order s o)).
  { intros o Ho. split; [done|exists []; rewrite app_nil_r; by split_and!; [done|constructor|]|done|cbn; lia]. }
  unfold put_first. destruct (index_of _ _) as [k|] eqn:Ek.
  - apply index_of_lookup in Ek. apply lookup_take_Some in Ek as [Ek _]. destruct (negb _); intros [= _ <-]; [apply kept_refl|].
    apply Hord. exists []. cbn [app]. rewrite <- (take_drop_middle _ _ _ Ek) at 3. by rewrite Permutation_middle.
  - destruct (_ <? _); [done|]. destruct (negb _); intros [= _ <-]; [apply kept_refl|]. apply Hord. by exists [option].
Qed.

Lemma add_to_boot_list_kept fuel dirname filename label arguments (s : fb S) st s' : 0 <= fb_i s <= 0x10000 ->
  add_to_boot_list fe fuel dirname filename label arguments s = Ok (st, s') -> kept_options s s'.
Proof.
  intros Hi. unfold add_to_boot_list. destruct (make_full_path _ _ _) as [?|path]; [intros [= _ <-]; apply kept_refl|].
  destruct (fe_FileDevicePath fe path) as [full|]; [|intros [= _ <-]; apply kept_refl].
  destruct (FindSubDevicePath _ _ _ _) as [st1 dp]. destruct (_ && _); [intros [= _ <-]; apply kept_refl|].
  intros ([[st2 o] s1] & Hf & Hr)%bind_inv. apply find_boot_option_kept in Hf. eapply kept_trans; [exact Hf|].
  destruct o as [o|]; [by apply put_first_kept in Hr|]. apply bind_inv in Hr as ([st3 s2] & Ha & [= _ <-]).
  apply add_boot_option_kept in Ha; [done|]. destruct (ko_i _ _ Hf Hi). lia.
Qed.

(** ** Files and directories *)
Section files.
Context (fuel : nat).
Definition in_range (s : fb S) : Prop := 0 <= fb_i s <= 0x10000.
Lemma kept_range s s' : in_range s -> kept_options s s' -> in_range s'.
Proof. intros Hi Hk. destruct (ko_i _ _ Hk Hi). unfold in_range in *. lia. Qed.

Lemma populate_stanza_kept dirname m csv (s : fb S) st m' s' : in_range s ->
  populate_stanza fe fuel dirname m csv s = Ok (st, m', s') -> kept_options s s'.
Proof.
  intros Hi. unfold populate_stanza. intros (c0 & _ & Hr)%bind_inv. destruct (c0 =? 0); [injection Hr as _ _ <-; apply kept_refl|].
  apply bind_inv in Hr as (m1 & _ & Hr). apply bind_inv in Hr as (c1 & _ & Hr). destruct (c1 =? 0); [injection Hr as _ _ <-; apply kept_refl|].
  do 6 (apply bind_inv in Hr as (? & _ & Hr)). apply bind_inv in Hr as ([st1 s1] & Ha & [= _ _ <-]). by apply add_to_boot_list_kept in Ha.
Qed.

Lemma csv_lines_kept dirname k : forall m start (s : fb S) m' s', in_range s ->
  csv_lines_loop fe fuel k dirname m start s = Ok (m', s') -> kept_options s s'.
Proof.
  induction k as [|k IH]; intros m start s m' s' Hi Hr; cbn [csv_lines_loop] in Hr; [done|].
  apply bind_inv in Hr as (c & _ & Hr). destruct (c =? 0); [injection Hr as _ <-; apply kept_refl|].
  apply bind_inv in Hr as (start1 & _ & Hr). apply bind_inv in Hr as (l & _ & Hr). destruct (l =? 0).
  - apply bind_inv in Hr as (c1 & _ & Hr). destruct (c1 =? 0); [injection Hr as _ <-; apply kept_refl|]. by apply IH in Hr.
  - do 2 (apply bind_inv in Hr as (? & _ & Hr)). apply bind_inv in Hr as ([[st1 m1] s1] & Hp & Hr).
    apply populate_stanza_kept in Hp; [|done]. apply bind_inv in Hr as (m2 & _ & Hr).
    eapply kept_trans; [exact Hp|]. apply IH in Hr; [done|by eapply kept_range].
Qed.

Lemma try_boot_csv_kept fh dirname filename (s : fb S) st s' : in_range s ->
  try_boot_csv fe fuel fh dirname filename s = Ok (st, s') -> kept_options s s'.
Proof.
  intros Hi. unfold try_boot_csv. destruct (make_full_path _ _ _); [intros [= _ <-]; apply kept_refl|]. intros (r & _ & Hr)%bind_inv.
  destruct r as [?|[buffer ?]]; [injection Hr as _ <-; apply kept_refl|]. apply bind_inv in Hr as (c & _ & Hr).
  apply bind_inv in Hr as ([m s1] & Hl & [= _ <-]). by apply csv_lines_kept in Hl.
Qed.

Lemma process_csv_kept d dirname name (s : fb S) st s' : in_range s ->
  process_csv fe fuel d dirname name s = Ok (st, s') -> kept_options s s'.
Proof.
  intros Hi. unfold process_csv. destruct (bd_open d name) as [?|[fh|]]; try (intros [= _ <-]; apply kept_refl). by apply try_boot_csv_kept.
Qed.

Lemma find_boot_csv_kept d dirname (s : fb S) st s' : in_range s ->
  find_boot_csv fe fuel d dirname s = Ok (st, s') -> kept_options s s'.
Proof.
  intros Hi. unfold find_boot_csv. destruct (bd_info_size d) as [st1 bs]. destruct (_ && _); [intros [= _ <-]; apply kept_refl|].
  destruct (bs =? 0); [intros [= _ <-]; apply kept_refl|]. destruct (negb _); [intros [= _ <-]; apply kept_refl|].
  destruct (bd_info d) as [st2 a]. destruct (EFI_ERROR st2); [intros [= _ <-]; apply kept_refl|].
  destruct (_ =? 0); [intros [= _ <-]; apply kept_refl|]. intros (r & _ & Hr)%bind_inv.
  destruct r as [?|[bc ba]]; [injection Hr as _ <-; apply kept_refl|]. apply bind_inv in Hr as ([st3 s1] & H1' & Hr).
  assert (K1 : kept_options s s1) by (destruct ba; [by apply process_csv_kept in H1'|injection H1' as _ <-; apply kept_refl]).
  apply bind_inv in Hr as ([st4 s2] & H2' & [= _ <-]). eapply kept_trans; [exact K1|]. pose proof (kept_range _ _ Hi K1) as Hi1.
  destruct (_ || _); [|injection H2' as _ <-; apply kept_refl].
  destruct bc; [by apply process_csv_kept in H2'|injection H2' as _ <-; apply kept_refl].
Qed.

Lemma scan_dirs_kept v reads : forall (s : fb S) r s', in_range s -> scan_dirs fe fuel v reads s = Ok (r, s') -> kept_options s s'.
Proof.
  induction reads as [|x reads IH]; intros s r s' Hi Hr; cbn [scan_dirs] in Hr; [injection Hr as _ <-; apply kept_refl|].
  destruct x as [?|?|?| |a name]; try (destruct (negb _)); try (injection Hr as _ <-; apply kept_refl); [by apply IH in Hr|].
  destruct (_ =? 0); [by apply IH in Hr|]. apply bind_inv in Hr as (skip & _ & Hr). destruct skip; [by apply IH in Hr|].
  destruct (bv_open v name) as [?|d]; [by apply IH in Hr|]. apply bind_inv in Hr as ([st1 s1] & Hf & Hr).
  apply find_boot_csv_kept in Hf; [|done]. destruct (bool_decide _); [by injection Hr as _ <-|].
  eapply kept_trans; [exact Hf|]. apply IH in Hr; [done|by eapply kept_range].
Qed.
End files.
End kept.

(** ** The program *)
Definition old_order {S} `{FirmwareLaws S} (fw : S) : list Z :=
  match lookup_var fw "BootOrder" GV_GUID with Some (_, d) => units d | None => [] end.

Section program.
Context {S : Type} `{LibReads S} (fe : fallback_env) (fu : fallback_user).

Definition same_but (n0 : string) (g0 : EFI_GUID) (fw fw' : S) : Prop :=
  forall n g, (n, g) <> (n0, g0) -> lookup_var fw' n g = lookup_var fw n g.

Lemma write_order_ok (fw fw1 fw2 : S) o st : same_but "BootOrder" GV_GUID fw fw1 ->
  SetVariable fw1 "BootOrder" GV_GUID NV_BS_RT (LoadOptions.ucs2 o) = (st, fw2) ->
  same_but "BootOrder" GV_GUID fw fw2 /\
  (EFI_ERROR st = false -> o <> [] -> lookup_var fw2 "BootOrder" GV_GUID = Some (NV_BS_RT, LoadOptions.ucs2 o)).
Proof.
  intros H1' Es. split; [intros n g Hn; rewrite (set_other _ _ _ _ _ _ _ n g Es Hn); by apply H1'|]. intros He Hne.
  pose proof (set_no_warning fw1 "BootOrder" GV_GUID NV_BS_RT (LoadOptions.ucs2 o)) as Hnw. rewrite Es in Hnw. cbn [fst] in Hnw.
  rewrite (Hnw He) in Es. rewrite (set_ok _ _ _ _ _ _ Es) by done. rewrite decide_False; [done|].
  intros Hz. apply (f_equal zlen) in Hz. rewrite zlen_ucs2, zlen_nil in Hz. destruct o as [|x o]; [done|]. rewrite zlen_cons in Hz.
  pose proof (zlen_nonneg o). lia.
Qed.

Lemma update_boot_order_ok (s : fb S) st s' : update_boot_order fe s = (st, s') ->
  let o := fb_new s ++ fb_bootorder s in
  same_but "BootOrder" GV_GUID (fb_fw s) (fb_fw s') /\
  (EFI_ERROR st = false -> o <> [] -> lookup_var (fb_fw s') "BootOrder" GV_GUID = Some (NV_BS_RT, LoadOptions.ucs2 o)).
Proof.
  unfold update_boot_order. destruct (negb _); [by intros [= <- <-]|]. set (s1 := with_order s (fb_new s ++ fb_bootorder s)).
  destruct (bool_decide _); destruct (SetVariable _ _ _ _ _) as [st1 fw] eqn:Es; intros [= <- <-]; (eapply write_order_ok; [|exact Es]); [|done].
  intros n g Hn. by apply delete_other.
Qed.

Lemma start_or_reset_fw prefer (s s' : fb S) ev : start_or_reset fu prefer s = Ok (s', ev) ->
  same_but NO_REBOOT SHIM_LOCK_GUID (fb_fw s) (fb_fw s').
Proof.
  unfold start_or_reset. destruct (EFI_ERROR prefer); [by intros [= <- _]|]. destruct (_ =? 0); [by intros [= <- _]|].
  intros (c & _ & Hr)%bind_inv. destruct (c =? 0); [by injection Hr as <- _|]. destruct (c =? 2).
  - unfold set_fallback_no_reboot in Hr. destruct (SetVariable _ _ _ _ _) as [st fw] eqn:Es.
    assert (s' = with_fw s fw) as -> by (destruct (EFI_ERROR st); by injection Hr as <- _). intros n g Hn. cbn. by apply (set_other _ _ _ _ _ _ _ n g Es).
  - by injection Hr as <- _.
Qed.

(** An open that succeeds gives a handle, and an error is an error. *)
Definition read_ok (r : dir_read) : Prop :=
  match r with ReadError st | ReadFails st => EFI_ERROR st = true | _ => True end.
Record volume_ok (v : boot_volume) : Prop := {
  vo_volume : EFI_ERROR (bv_volume v).1 = false -> (bv_volume v).2 = true;
  vo_EFI : EFI_ERROR (bv_EFI v).1 = false -> (bv_EFI v).2 = true;
  vo_reads : Forall read_ok (bv_reads v)
}.

Lemma scan_dirs_error fuel v reads : Forall read_ok reads -> forall (s s' : fb S) st,
  scan_dirs fe fuel v reads s = Ok (inl st, s') -> EFI_ERROR st = true.
Proof.
  induction 1 as [|x reads Hx _ IH]; intros s s' st Hr; cbn [scan_dirs] in Hr; [done|].
  destruct x as [?|?|?| |a name]; try (destruct (negb _)); try discriminate Hr; try (by injection Hr as <- _); [by apply IH in Hr|].
  destruct (_ =? 0); [by apply IH in Hr|]. apply bind_inv in Hr as (skip & _ & Hr). destruct skip; [by apply IH in Hr|].
  destruct (bv_open v name) as [?|d]; [by apply IH in Hr|]. apply bind_inv in Hr as ([st1 s1] & _ & Hr).
  destruct (bool_decide _); [done|]. by apply IH in Hr.
Qed.

Lemma find_boot_options_ok fuel v (s s' : fb S) st : in_range s -> find_boot_options fe fuel v s = Ok (st, s') ->
  exists s1, kept_options s s1 /\ same_but "BootOrder" GV_GUID (fb_fw s1) (fb_fw s') /\
    (EFI_ERROR st = false -> volume_ok v -> let o := fb_new s1 ++ fb_bootorder s1 in
     o <> [] -> lookup_var (fb_fw s') "BootOrder" GV_GUID = Some (NV_BS_RT, LoadOptions.ucs2 o)).
Proof.
  intros Hi Hr. unfold find_boot_options in Hr.
  assert (Hstop : forall st0, Ok (st0, s) = Ok (st, s') -> (EFI_ERROR st0 = false -> ~ volume_ok v) ->
    exists s1, kept_options s s1 /\ same_but "BootOrder" GV_GUID (fb_fw s1) (fb_fw s') /\
    (EFI_ERROR st = false -> volume_ok v -> let o := fb_new s1 ++ fb_bootorder s1 in
     o <> [] -> lookup_var (fb_fw s') "BootOrder" GV_GUID = Some (NV_BS_RT, LoadOptions.ucs2 o))).
  { intros st0 [= <- <-] Hno. exists s. split_and!; [apply kept_refl|done|]. intros He Hv. by destruct (Hno He). }
  destruct (EFI_ERROR (bv_protocol v)) eqn:E1; [apply (Hstop _ Hr); congruence|].
  destruct (EFI_ERROR (bv_volume v).1) eqn:E2; cbn [orb] in Hr; [apply (Hstop _ Hr); congruence|].
  destruct (bv_volume v).2 eqn:B2; cbn [negb] in Hr; [|apply (Hstop _ Hr); intros _ Hv; by rewrite (vo_volume v Hv E2) in B2].
  destruct (EFI_ERROR (bv_EFI v).1) eqn:E3; cbn [orb] in Hr; [apply (Hstop _ Hr); congruence|].
  destruct (bv_EFI v).2 eqn:B3; cbn [negb] in Hr; [|apply (Hstop _ Hr); intros _ Hv; by rewrite (vo_EFI v Hv E3) in B3].
  destruct (EFI_ERROR (bv_position v)) eqn:E4; [apply (Hstop _ Hr); congruence|].
  apply bind_inv in Hr as ([r s1] & Hs & Hr). pose proof (scan_dirs_kept _ _ _ _ _ _ _ Hi Hs) as Hk. exists s1. split; [done|].
  destruct r as [st5|st5].
  { injection Hr as <- <-. split; [done|]. intros He Hv. by rewrite (scan_dirs_error _ _ _ (vo_reads v Hv) _ _ _ Hs) in He. }
  destruct (EFI_ERROR st5) eqn:E5; cbn [negb andb] in Hr; [injection Hr as <- <-; by rewrite E5|].
  destruct (_ || _) eqn:Eo.
  - injection Hr as Hr. apply update_boot_order_ok in Hr as [Ha Hb]. split; [done|]. intros He _. by apply Hb.
  - injection Hr as <- <-. split; [done|]. intros _ _ o Ho. destruct Ho. bool_to_prop. unfold o, zlen in *.
    destruct (fb_new s1); [|cbn in *; lia]. destruct (fb_bootorder s1); [done|cbn in *; lia].
Qed.
End program.

Lemma boot_name_length i : String.length (boot_name i) = 8%nat.
Proof. done. Qed.

(** ** The lines of BOOT.CSV *)
Lemma StrCSpn_inner_ok c suf : Forall (fun x => x <> 0) suf -> forall pre f, (length suf < f)%nat ->
  StrCSpn_inner f c (pre ++ suf ++ [0]) (zlen pre) = Ok (bool_decide (c ∈ suf)).
Proof.
  induction 1 as [|x suf Hx _ IH]; intros pre f Hf; (destruct f as [|f]; [cbn in Hf; lia|]); cbn [StrCSpn_inner app]; rewrite rd_text_at, bind_Ok.
  - by rewrite bool_decide_false by apply not_elem_of_nil.
  - rewrite (proj2 (Z.eqb_neq x 0) Hx). destruct (x =? c) eqn:E; bool_to_prop.
    + subst. by rewrite bool_decide_true by left.
    + rewrite app_cons_snoc. replace (zlen pre + 1) with (zlen (pre ++ [x])) by zlia. cbn [length] in Hf. rewrite IH by lia.
      f_equal. apply bool_decide_ext. rewrite elem_of_cons. split; [by right|]. intros [->|?]; done.
Qed.

Definition outside (reject : list Z) (c : Z) : Prop := c <> 0 /\ c ∉ reject.
Lemma StrCSpn_reject_ok reject s c q : Forall (fun x => x <> 0) reject -> Forall (outside reject) s -> c = 0 \/ c ∈ reject ->
  forall p f, (length s < f)%nat -> StrCSpn_loop f (p ++ s ++ c :: q) (Path.text reject) (zlen p) = Ok (zlen p + zlen s).
Proof.
  intros Hr Hs Hc. induction Hs as [|x s [Hx Hn] _ IH]; intros p f Hf; (destruct f as [|f]; [cbn in Hf; lia|]); cbn [StrCSpn_loop app];
    rewrite rd_text_at, bind_Ok.
  - assert (Hin : forall y, StrCSpn_inner (Datatypes.S (length (Path.text reject))) y (Path.text reject) 0 = Ok (bool_decide (y ∈ reject))).
    { intros y. unfold Path.text. apply (StrCSpn_inner_ok y reject Hr []). rewrite length_app. cbn. lia. }
    rewrite Hin. destruct (c =? 0) eqn:E; bool_to_prop; [by rewrite zlen_nil, Z.add_0_r|].
    rewrite bind_Ok, bool_decide_true by (by destruct Hc). by rewrite zlen_nil, Z.add_0_r.
  - rewrite (proj2 (Z.eqb_neq x 0) Hx). unfold Path.text at 2 3.
    rewrite (StrCSpn_inner_ok x reject Hr []) by (rewrite length_app; cbn; lia). rewrite bind_Ok, bool_decide_false by done.
    rewrite app_cons_snoc. replace (zlen p + 1) with (zlen (p ++ [x])) by zlia. cbn [length] in Hf. rewrite IH by lia. f_equal. zlen_simpl. lia.
Qed.

Lemma cspn_ok reject p s c q i : Forall (fun x => x <> 0) reject -> Forall (outside reject) s -> c = 0 \/ c ∈ reject -> i = zlen p ->
  cspn (p ++ s ++ c :: q) i reject = Ok (zlen s).
Proof.
  intros Hr Hs Hc ->. unfold cspn, str_at. pose proof (zlen_nonneg p). rewrite (proj2 (Z.leb_le 0 (zlen p))) by lia.
  rewrite (proj2 (Z.leb_le (zlen p) _)) by zlia. cbn [andb]. rewrite bind_Ok. unfold zlen at 1. rewrite Nat2Z.id, drop_app_length.
  unfold StrCSpn. apply (StrCSpn_reject_ok reject s c q Hr Hs Hc []). rewrite length_app. cbn. lia.
Qed.

(** A line has a file name, a label, arguments and possibly more columns. *)
Record csv_line : Type := { cl_file : list Z; cl_label : list Z; cl_args : list Z; cl_rest : option (list Z) }.
Definition line_text (l : csv_line) : list Z :=
  cl_file l ++ COMMA :: cl_label l ++ COMMA :: cl_args l ++ match cl_rest l with Some r => COMMA :: r | None => [] end.
Definition column_char (c : Z) : Prop := c <> 0 /\ c <> CR /\ c <> LF /\ c <> COMMA.
Definition line_char (c : Z) : Prop := c <> 0 /\ c <> CR /\ c <> LF.
Record line_ok (l : csv_line) : Prop := {
  lo_file : Forall column_char (cl_file l);
  lo_label : Forall column_char (cl_label l);
  lo_args : Forall column_char (cl_args l);
  lo_rest : forall r, cl_rest l = Some r -> Forall line_char r;
  lo_file_nonempty : cl_file l <> [];
  lo_label_nonempty : cl_label l <> []
}.

(** The text of a file: lines, each but the last one with a line end, and any
    number of line ends between them. *)
Definition line_end (c : Z) : Prop := c = CR \/ c = LF.
Inductive csv_text : list csv_line -> list Z -> Prop :=
| ct_nil : csv_text [] []
| ct_end ls c t : line_end c -> csv_text ls t -> csv_text ls (c :: t)
| ct_last l : line_ok l -> csv_text [l] (line_text l)
| ct_line l ls c t : line_ok l -> line_end c -> csv_text ls t -> csv_text (l :: ls) (line_text l ++ c :: t).

Lemma column_outside s : Forall column_char s -> Forall (outside [COMMA]) s.
Proof. intros HF. eapply Forall_impl; [exact HF|]. intros c (H0 & _ & _ & Hc). split; [done|]. rewrite list_elem_of_singleton. done. Qed.
Lemma line_outside s : Forall line_char s -> Forall (outside [CR; LF]) s.
Proof. intros HF. eapply Forall_impl; [exact HF|]. intros c (H0 & Hr & Hl). split; [done|]. rewrite !elem_of_cons, elem_of_nil. by intros [?|[?|[]]]. Qed.
Lemma line_chars l : line_ok l -> Forall line_char (line_text l).
Proof.
  intros Hl. assert (Hcol : forall s, Forall column_char s -> Forall line_char s) by (intros s HF; eapply Forall_impl; [exact HF|]; by intros c (? & ? & ? & ?)).
  assert (Hcomma : line_char COMMA) by done. unfold line_text.
  apply Forall_app. split; [apply Hcol, Hl|]. constructor; [done|]. apply Forall_app. split; [apply Hcol, Hl|]. constructor; [done|].
  apply Forall_app. split; [apply Hcol, Hl|]. destruct (cl_rest l) as [r|] eqn:E; [|done]. constructor; [done|]. by apply (lo_rest l Hl).
Qed.

(** Concatenations in one shape. *)
Ltac norm_app := repeat (rewrite <- !app_assoc || rewrite <- !app_comm_cons).

Section csv_lines.
Context {S : Type} `{Firmware S} `{BootFirmware S} `{VarLib S} (fe : fallback_env) (fuel : nat) (dirname : list Z).

Definition cut_text (l : csv_line) : list Z :=
  cl_file l ++ 0 :: cl_label l ++ 0 :: cl_args l ++ match cl_rest l with Some r => 0 :: r | None => [] end.
Lemma cut_length l : zlen (cut_text l) = zlen (line_text l).
Proof. unfold cut_text, line_text. destruct (cl_rest l); zlen_simpl; lia. Qed.

Lemma nonempty_zlen (s : list Z) : s <> [] -> (zlen s =? 0) = false.
Proof. intros Hs. apply Z.eqb_neq. destruct s; [done|]. rewrite zlen_cons. pose proof (zlen_nonneg s). lia. Qed.

Lemma populate_stanza_ok p l q (s : fb S) : line_ok l ->
  populate_stanza fe fuel dirname (p ++ line_text l ++ 0 :: q) (zlen p) s =
  ('(_, s') ← add_to_boot_list fe fuel dirname (cl_file l) (cl_label l) (cl_args l) s; Ok (EFI_SUCCESS, p ++ cut_text l ++ 0 :: q, s')).
Proof.
  intros Hl. unfold populate_stanza, line_text, cut_text.
  set (F := cl_file l). set (B := cl_label l). set (A := cl_args l).
  assert (Hnz : Forall (fun x => x <> 0) [COMMA]) by (by repeat constructor).
  assert (exists c q', match cl_rest l with Some r => COMMA :: r | None => [] end ++ 0 :: q = c :: q' /\ (c = 0 \/ c ∈ [COMMA]) /\
    match cl_rest l with Some r => 0 :: r | None => [] end ++ 0 :: q = 0 :: q') as (c & q' & Ht & Hc & Ht').
  { destruct (cl_rest l) as [r|]; [exists COMMA, (r ++ 0 :: q)|exists 0, q]; split_and!; try done; [right; left|by left]. }
  norm_app. rewrite Ht, Ht'.
  rewrite (cspn_ok [COMMA] p F COMMA _ (zlen p)) by (done || (apply column_outside, Hl) || (right; left)). rewrite bind_Ok.
  rewrite (nonempty_zlen F) by apply Hl. rewrite (app_assoc p F), wr_app_at by zlia. rewrite bind_Ok, app_cons_snoc.
  rewrite (cspn_ok [COMMA] _ B COMMA) by (done || (apply column_outside, Hl) || (right; left) || zlia). rewrite bind_Ok.
  rewrite (nonempty_zlen B) by apply Hl. rewrite (app_assoc _ B), wr_app_at by zlia. rewrite bind_Ok, app_cons_snoc.
  rewrite (cspn_ok [COMMA] _ A c) by (done || (apply column_outside, Hl) || zlia). rewrite bind_Ok.
  rewrite (app_assoc _ A), wr_app_at by zlia. rewrite bind_Ok.
  replace (((((p ++ F) ++ [0]) ++ B) ++ [0]) ++ A) with (p ++ F ++ 0 :: B ++ 0 :: A)
    by (by norm_app).
  replace ((p ++ F ++ 0 :: B ++ 0 :: A) ++ 0 :: q') with (p ++ F ++ 0 :: B ++ 0 :: A ++ 0 :: q')
    by (by norm_app).
  assert (R1 : rdn (p ++ F ++ 0 :: B ++ 0 :: A ++ 0 :: q') (zlen p) (zlen F) = Ok F) by (by apply rdn_app_mid).
  assert (R2 : rdn (p ++ F ++ 0 :: B ++ 0 :: A ++ 0 :: q') (zlen p + zlen F + 1) (zlen B) = Ok B).
  { replace (p ++ F ++ 0 :: B ++ 0 :: A ++ 0 :: q') with ((p ++ F ++ [0]) ++ B ++ 0 :: A ++ 0 :: q') by (by norm_app).
    apply rdn_app_mid; zlia. }
  assert (R3 : rdn (p ++ F ++ 0 :: B ++ 0 :: A ++ 0 :: q') (zlen p + zlen F + 1 + zlen B + 1) (zlen A) = Ok A).
  { replace (p ++ F ++ 0 :: B ++ 0 :: A ++ 0 :: q') with ((p ++ F ++ 0 :: B ++ [0]) ++ A ++ 0 :: q') by (by norm_app).
    apply rdn_app_mid; zlia. }
  by rewrite R1, bind_Ok, R2, bind_Ok, R3, bind_Ok.
Qed.

(** The lines one after another. *)
Fixpoint add_lines (ls : list csv_line) (s : fb S) : res (fb S) :=
  match ls with
  | [] => Ok s
  | l :: ls => '(_, s) ← add_to_boot_list fe fuel dirname (cl_file l) (cl_label l) (cl_args l) s; add_lines ls s
  end.

Lemma skip_ends_ok es : Forall line_end es -> forall p c q k, ~ line_end c -> (length es < k)%nat ->
  skip_line_ends k (p ++ es ++ c :: q) (zlen p) = Ok (zlen p + zlen es).
Proof.
  induction 1 as [|x es Hx _ IH]; intros p c q k Hc Hk; (destruct k as [|k]; [cbn in Hk; lia|]); cbn [skip_line_ends app]; rewrite rd_text_at, bind_Ok.
  - unfold line_end in Hc. rewrite !(proj2 (Z.eqb_neq c _)) by tauto. cbn [orb]. by rewrite zlen_nil, Z.add_0_r.
  - replace ((x =? CR) || (x =? LF)) with true by (by destruct Hx as [-> | ->]). rewrite app_cons_snoc.
    replace (zlen p + 1) with (zlen (p ++ [x])) by zlia. cbn [length] in Hk. rewrite IH by (done || lia). f_equal. zlen_simpl. lia.
Qed.

(** The text behind the line ends: the end, or a line. *)
Inductive csv_front : list csv_line -> list Z -> Prop :=
| cf_nil : csv_front [] []
| cf_last l : line_ok l -> csv_front [l] (line_text l)
| cf_line l ls c t : line_ok l -> line_end c -> csv_text ls t -> csv_front (l :: ls) (line_text l ++ c :: t).
Lemma csv_text_front ls t : csv_text ls t -> exists es t', t = es ++ t' /\ Forall line_end es /\ csv_front ls t'.
Proof.
  induction 1 as [|ls c t Hc _ (es & t' & -> & He & Hf)|l Hl|l ls c t Hl Hc Ht _].
  - exists [], []. by split_and!; [|constructor|constructor].
  - exists (c :: es), t'. by split_and!; [|constructor|].
  - exists [], (line_text l). by split_and!; [|constructor|constructor].
  - exists [], (line_text l ++ c :: t). by split_and!; [|constructor|constructor].
Qed.

Definition stated {A B} (r : res (A * B)) : res B := x ← r; Ok x.2.

(** One line, with the unit [c] behind it. *)
Lemma csv_line_step k l es p c q (s : fb S) : Forall line_end es -> line_ok l -> c = 0 \/ line_end c ->
  stated (csv_lines_loop fe fuel (Datatypes.S k) dirname (p ++ es ++ line_text l ++ c :: q) (zlen p) s) =
  ('(_, s') ← add_to_boot_list fe fuel dirname (cl_file l) (cl_label l) (cl_args l) s;
   stated (csv_lines_loop fe fuel k dirname ((p ++ es ++ cut_text l) ++ c :: q) (zlen (p ++ es ++ cut_text l)) s')).
Proof.
  intros He Hl Hc. set (T := line_text l). assert (HT : Forall line_char T) by (by apply line_chars).
  assert (exists x T', T = x :: T' /\ line_char x) as (x & T' & ET & Hx).
  { destruct T as [|x T'] eqn:E; [|apply Forall_cons in HT as [? _]; by exists x, T']. unfold T, line_text in E. by destruct (cl_file l). }
  assert (exists y r, es ++ T ++ c :: q = y :: r /\ y <> 0) as (y & r & Ey & Hy).
  { destruct es as [|e es]; [exists x, (T' ++ c :: q); rewrite ET; split; [done|apply Hx]|]. apply Forall_cons in He as [He _].
    exists e, (es ++ T ++ c :: q). split; [done|]. by destruct He as [-> | ->]. }
  cbn [csv_lines_loop]. rewrite Ey, rd_text_at, bind_Ok, (proj2 (Z.eqb_neq y 0)) by done. rewrite <- Ey.
  assert (Hskip : skip_line_ends (Datatypes.S (length (p ++ es ++ T ++ c :: q))) (p ++ es ++ T ++ c :: q) (zlen p) = Ok (zlen (p ++ es))).
  { rewrite ET. cbn [app]. rewrite (skip_ends_ok es He p x (T' ++ c :: q)); [f_equal; zlia| |rewrite !length_app; lia].
    destruct Hx as (_ & ? & ?). intros [?|?]; done. }
  rewrite Hskip, bind_Ok, (app_assoc p es).
  rewrite (cspn_ok [CR; LF] (p ++ es) T c q) by (done || (by repeat constructor) || (by apply line_outside) || (destruct Hc as [?|[->| ->]]; [by left|right; left|right; right; left])).
  rewrite bind_Ok, nonempty_zlen by (by rewrite ET). rewrite (app_assoc (p ++ es) T), rd_app_at by zlia. rewrite bind_Ok, wr_app_at by zlia.
  rewrite bind_Ok, <- (app_assoc (p ++ es) T). unfold T. rewrite populate_stanza_ok by done.
  destruct (add_to_boot_list fe fuel dirname (cl_file l) (cl_label l) (cl_args l) s) as [[st s']| |]; [|done..]. rewrite !bind_Ok.
  rewrite (app_assoc (p ++ es) (cut_text l)), wr_app_at by (rewrite !zlen_app, cut_length; lia). rewrite bind_Ok.
  replace (zlen (p ++ es) + zlen (line_text l)) with (zlen ((p ++ es) ++ cut_text l)) by (rewrite (zlen_app (p ++ es)), cut_length; lia).
  by rewrite <- (app_assoc p es).
Qed.

Lemma csv_lines_ok k : forall ls t p q (s : fb S), csv_text ls t -> (length t < k)%nat ->
  stated (csv_lines_loop fe fuel k dirname (p ++ t ++ 0 :: q) (zlen p) s) = add_lines ls s.
Proof.
  induction k as [|k IH]; intros ls t p q s Ht Hk; [lia|]. apply csv_text_front in Ht as (es & t' & -> & He & Hf).
  destruct Hf as [|l Hl|l ls c t Hl Hc Ht].
  - cbn [csv_lines_loop]. destruct es as [|e es]; cbn [app]; rewrite rd_text_at, bind_Ok; [done|].
    pose proof He as [Hee _]%Forall_cons. rewrite (proj2 (Z.eqb_neq e 0)) by (by destruct Hee as [-> | ->]).
    change (e :: (es ++ []) ++ 0 :: q) with ((e :: es ++ []) ++ 0 :: q). rewrite (app_comm_cons es [] e), app_nil_r.
    rewrite skip_ends_ok by (done || (intros [?|?]; done) || (rewrite !length_app; cbn; lia)). rewrite bind_Ok, app_assoc.
    pose proof (cspn_ok [CR; LF] (p ++ e :: es) [] 0 q (zlen p + zlen (e :: es))) as Hcs. cbn [app] in Hcs.
    rewrite Hcs by (done || (by repeat constructor) || (by left) || zlia). rewrite bind_Ok. change (zlen [] =? 0) with true. cbv iota.
    rewrite rd_app_at by zlia. by rewrite bind_Ok.
  - rewrite <- app_assoc. rewrite csv_line_step by (done || by left). cbn [add_lines].
    destruct (add_to_boot_list _ _ _ _ _ _ _) as [[st s']| |]; [|done..]. rewrite !bind_Ok.
    pose proof (IH [] [] (p ++ es ++ cut_text l) q s' ct_nil) as Hn. apply Hn. unfold line_text in Hk. rewrite !length_app in Hk. cbn in Hk |- *. lia.
  - norm_app. rewrite csv_line_step by (done || by right). cbn [add_lines].
    destruct (add_to_boot_list _ _ _ _ _ _ _) as [[st s']| |]; [|done..]. rewrite !bind_Ok.
    rewrite <- (IH ls (c :: t) (p ++ es ++ cut_text l) q s'); [done|by constructor|].
    rewrite !length_app in Hk. unfold line_text in Hk. rewrite length_app in Hk. cbn in *. lia.
Qed.
End csv_lines.

Lemma units_ucs2 s q : Forall (fun c => 0 <= c < 2 ^ 16) s -> units (LoadOptions.ucs2 s ++ q) = s ++ units q.
Proof.
  induction 1 as [|c s Hc _ IH]; [done|]. rewrite ucs2_cons. cbn [le_split app units]. rewrite IH. cbn [app]. f_equal.
  rewrite (Z.mod_small (c / 256)) by (split; [apply Z.div_pos|apply Z.div_lt_upper_bound]; lia). pose proof (Z.div_mod c 256). lia.
Qed.

Lemma csv_text_first ls t : csv_text ls t -> Forall (fun l => head (cl_file l) <> Some BYTE_ORDER_MARK) ls -> head t <> Some BYTE_ORDER_MARK.
Proof.
  intros Ht HF. destruct Ht as [|ls c t Hc _|l Hl|l ls c t Hl _ _]; [done|by destruct Hc as [-> | ->]|..];
    apply Forall_cons in HF as [Hn _]; unfold line_text; pose proof (lo_file_nonempty l Hl); by destruct (cl_file l).
Qed.

Lemma try_boot_csv_ok {S} `{Firmware S} `{BootFirmware S} `{VarLib S} fe fuel fh dirname filename (s : fb S) bom ls t n :
  csv_text ls t -> Forall (fun l => head (cl_file l) <> Some BYTE_ORDER_MARK) ls -> bom = [] \/ bom = [BYTE_ORDER_MARK] ->
  Forall (fun c => 0 <= c < 2 ^ 16) t -> fe_path fe = true ->
  read_file (fe_csv_size fe) (fe_csv_pool fe) fh (wide "\EFI\" ++ dirname ++ wide "\" ++ filename)
    = Ok (inr (LoadOptions.ucs2 (bom ++ t) ++ [0; 0], n)) ->
  try_boot_csv fe fuel fh dirname filename s = (s' ← add_lines fe fuel dirname ls s; Ok (EFI_SUCCESS, s')).
Proof.
  intros Ht HF Hb Hu Hp Hr. unfold try_boot_csv, make_full_path. rewrite Hp. cbn [negb]. rewrite Hr, bind_Ok.
  assert (Hub : Forall (fun c => 0 <= c < 2 ^ 16) (bom ++ t)).
  { apply Forall_app. split; [|done]. by destruct Hb as [-> | ->]; repeat constructor. }
  rewrite (units_ucs2 _ _ Hub). change (units [0; 0]) with [0].
  assert (Hgo : exists c, rd ((bom ++ t) ++ [0]) 0 = Ok c /\ (if c =? BYTE_ORDER_MARK then 1 else 0) = zlen bom).
  { pose proof (csv_text_first ls t Ht HF) as Hh. destruct Hb as [-> | ->]; cbn [app]; [|by exists BYTE_ORDER_MARK].
    destruct t as [|x t]; [by exists 0|]. exists x. split; [done|]. rewrite (proj2 (Z.eqb_neq x BYTE_ORDER_MARK)); [done|]. intros ->. by apply Hh. }
  destruct Hgo as (c & Hc & Hst). rewrite Hc, bind_Ok. cbv zeta. rewrite Hst.
  pose proof (csv_lines_ok fe fuel dirname (Datatypes.S (length ((bom ++ t) ++ [0]))) ls t bom [] s Ht) as Hl.
  rewrite <- (app_assoc bom t [0]). rewrite <- (app_assoc bom t [0]) in Hl. rewrite <- Hl by (rewrite !length_app; lia).
  by destruct (csv_lines_loop _ _ _ _ _ _ _) as [[m s']| |].
Qed.

(** C36. BOOT.CSV: a file whose lines have at least a file name, a label and the
    arguments (empty or not, followed by any further columns), with or without a
    byte order mark, with any line ends, gives exactly one option per line, in
    the order of the lines, made of the first three columns; the text is split in
    place, and nothing is read or written outside of it. *)
Theorem try_boot_csv_correct {S} `{Firmware S} `{BootFirmware S} `{VarLib S} fe fuel fh dirname filename (s : fb S) bom ls t n :
  csv_text ls t -> Forall (fun l => head (cl_file l) <> Some BYTE_ORDER_MARK) ls -> bom = [] \/ bom = [BYTE_ORDER_MARK] ->
  Forall (fun c => 0 <= c < 2 ^ 16) t -> fe_path fe = true ->
  read_file (fe_csv_size fe) (fe_csv_pool fe) fh (wide "\EFI\" ++ dirname ++ wide "\" ++ filename)
    = Ok (inr (LoadOptions.ucs2 (bom ++ t) ++ [0; 0], n)) ->
  try_boot_csv fe fuel fh dirname filename s = (s' ← add_lines fe fuel dirname ls s; Ok (EFI_SUCCESS, s')).
Proof. apply try_boot_csv_ok. Qed.

(** ** Options that the firmware has hidden *)
Lemma StrSize_ok label q : Forall (fun c => 0 < c < 2 ^ 16) label -> forall p k n, (length label < k)%nat ->
  StrSize_loop k (p ++ LoadOptions.ucs2 (Path.text label) ++ q) (zlen p) n = Ok (n + 2 * zlen label + 2).
Proof.
  induction 1 as [|c label Hc _ IH]; intros p k n Hk; (destruct k as [|k]; [cbn in Hk; lia|]); cbn [StrSize_loop Path.text app].
  - rewrite ucs2_cons. cbn [map concat]. rewrite <- app_assoc, (rd_le_mid p (le_split 2 0) _ _ 2 0) by (done || lia).
    rewrite bind_Ok. change (0 =? 0) with true. cbv iota. f_equal. change (zlen (@nil Z)) with 0. lia.
  - rewrite ucs2_cons, <- app_assoc, (rd_le_mid p (le_split 2 c) _ _ 2 c) by (done || (cbn; lia)). rewrite bind_Ok.
    rewrite (proj2 (Z.eqb_neq c 0)) by lia. rewrite (app_assoc p).
    replace (zlen p + 2) with (zlen (p ++ le_split 2 c)) by (zlen_simpl; lia). cbn [length] in Hk. change (label ++ [0]) with (Path.text label).
    rewrite IH by lia. f_equal. zlen_simpl. lia.
Qed.

(** The option with the vendor node and its end in front of the path, hidden. *)
Definition masked_option (o : EFI_LOAD_OPTION) : list Z :=
  le_split 4 (Z.lor (Attributes o) LOAD_OPTION_HIDDEN) ++ le_split 2 (zlen (path_list (FilePathList o)) + 24) ++
  LoadOptions.ucs2 (Path.text (Description o)) ++ ([HARDWARE_DEVICE_PATH; HW_VENDOR_DP] ++ le_split 2 20) ++ ami_masked_device_path_guid ++
  END_ENTIRE ++ path_list (FilePathList o) ++ OptionalData o.
Lemma masked_size o : zlen (masked_option o) = zlen (option_bytes o) + 24.
Proof.
  unfold masked_option, option_bytes, Path.text. zlen_simpl. change (zlen END_ENTIRE) with 4. change (zlen ami_masked_device_path_guid) with 16.
  change (zlen [HARDWARE_DEVICE_PATH; HW_VENDOR_DP]) with 2. lia.
Qed.

Lemma masked_split o : masked_option o = (le_split 4 (Z.lor (Attributes o) LOAD_OPTION_HIDDEN) ++ le_split 2 (zlen (path_list (FilePathList o)) + 24)) ++
  LoadOptions.ucs2 (Path.text (Description o)) ++ 1 :: 4 :: 20 :: 0 :: ami_masked_device_path_guid ++ 0x7f :: 0xff :: 4 :: 0 ::
  path_list (FilePathList o) ++ OptionalData o.
Proof. unfold masked_option. by rewrite <- !app_assoc. Qed.
Lemma option_split o : option_bytes o = (le_split 4 (Attributes o) ++ le_split 2 (zlen (path_list (FilePathList o)))) ++
  LoadOptions.ucs2 (Path.text (Description o)) ++ path_list (FilePathList o) ++ OptionalData o.
Proof. unfold option_bytes. rewrite ucs2_text. by rewrite <- !app_assoc. Qed.

(** What is read of the two options. *)
Section masked_reads.
Context (A L A0 L0 D R : list Z) (a n : Z).
Context (HA : A = le_split 4 (Z.lor a LOAD_OPTION_HIDDEN)) (HL : L = le_split 2 (n + 24)) (HA0 : A0 = le_split 4 a) (HL0 : L0 = le_split 2 n).
Context (Ha : 0 < a < 8) (Hn : 0 <= n < 2 ^ 16 - 24).
Let G : list Z := ami_masked_device_path_guid.
Let c : list Z := (A ++ L) ++ D ++ 1 :: 4 :: 20 :: 0 :: G ++ 0x7f :: 0xff :: 4 :: 0 :: R.
Let d : list Z := ((A0 ++ L0) ++ D ++ R) ++ [0; 0].

Lemma masked_lengths : zlen A = 4 /\ zlen L = 2 /\ zlen A0 = 4 /\ zlen L0 = 2 /\ zlen c = 30 + zlen D + zlen R /\ zlen d = 8 + zlen D + zlen R.
Proof.
  assert (zlen A = 4 /\ zlen L = 2 /\ zlen A0 = 4 /\ zlen L0 = 2) as (? & ? & ? & ?) by (rewrite HA, HL, HA0, HL0; done).
  split_and!; try done; unfold c, d; zlen_simpl; change (zlen G) with 16; lia.
Qed.

Lemma masked_nodes : let cur := 6 + zlen D in
  DevicePathNodeLength c cur = Ok 20 /\ DevicePathType c cur = Ok HARDWARE_DEVICE_PATH /\ DevicePathSubType c cur = Ok HW_VENDOR_DP /\
  rdn c (cur + 4) 16 = Ok G /\ IsDevicePathEnd c (cur + 20) = Ok true /\ DevicePathNodeLength c (cur + 20) = Ok 4.
Proof.
  cbv zeta. destruct masked_lengths as (LA & LL & _ & _ & _ & _). set (P := (A ++ L) ++ D). assert (LP : zlen P = 6 + zlen D) by (unfold P; zlen_simpl; lia).
  set (Q := P ++ [1; 4; 20; 0] ++ G). assert (LQ : zlen Q = 26 + zlen D) by (unfold Q; zlen_simpl; change (zlen G) with 16; lia).
  assert (HP : c = P ++ 1 :: 4 :: 20 :: 0 :: G ++ 0x7f :: 0xff :: 4 :: 0 :: R) by (unfold c, P; by norm_app).
  assert (HQ : c = Q ++ 0x7f :: 0xff :: 4 :: 0 :: R) by (rewrite HP; unfold Q; by norm_app).
  assert (Hlen : forall X x y t rest i, c = X ++ x :: y :: t :: 0 :: rest -> i = zlen X -> 0 <= t < 256 ->
    DevicePathNodeLength c i = Ok t /\ DevicePathType c i = Ok (Z.land x 0x7f) /\ DevicePathSubType c i = Ok y).
  { intros X x y t rest i -> -> Ht. unfold DevicePathNodeLength, DevicePathType, DevicePathSubType. split_and!.
    - change (x :: y :: t :: 0 :: rest) with ([x; y] ++ [t; 0] ++ rest). rewrite (app_assoc X). apply (rd_le_mid (X ++ [x; y]) [t; 0] rest _ 2 t); [zlia| |cbn; lia].
      cbn [le_split]. by rewrite Z.mod_small, (Z.div_small t 256) by lia.
    - by rewrite rd_app_at.
    - rewrite app_cons_snoc. apply rd_app_at. zlia. }
  destruct (Hlen P _ _ _ _ (6 + zlen D) HP ltac:(lia) ltac:(lia)) as (-> & -> & ->).
  destruct (Hlen Q _ _ _ _ (6 + zlen D + 20) HQ ltac:(lia) ltac:(lia)) as (HQ1 & HQ2 & HQ3). unfold IsDevicePathEnd. rewrite HQ1, HQ2, HQ3.
  split_and!; try done. rewrite HP. change (1 :: 4 :: 20 :: 0 :: G ++ ?r) with ([1; 4; 20; 0] ++ G ++ r). rewrite (app_assoc P). apply rdn_app_mid; [zlia|done].
Qed.

Lemma masked_fields : rd_le c 0 4 = Ok (Z.lor a LOAD_OPTION_HIDDEN) /\ rd_le d 0 4 = Ok a /\ rd_le c 4 2 = Ok (n + 24) /\ rd_le d 4 2 = Ok n /\
  rdn c 6 (zlen D) = Ok D /\ rdn d 6 (zlen D) = Ok D /\ rdn c (30 + zlen D) (zlen R) = Ok R /\ rdn d (6 + zlen D) (zlen R) = Ok R.
Proof.
  destruct masked_lengths as (LA & LL & LA0 & LL0 & _ & _).
  assert (Hlor : 0 <= Z.lor a LOAD_OPTION_HIDDEN < 2 ^ 32).
  { assert (Hcase : a = 1 \/ a = 2 \/ a = 3 \/ a = 4 \/ a = 5 \/ a = 6 \/ a = 7) by lia. by destruct Hcase as [->|[->|[->|[->|[->|[->| ->]]]]]]. }
  unfold c, d. norm_app. split_and!.
  - apply (rd_le_mid [] A _ _ 4); [done|done|exact Hlor].
  - apply (rd_le_mid [] A0 _ _ 4); [done|done|cbn; lia].
  - apply (rd_le_mid A L _ _ 2); [done|done|cbn; lia].
  - apply (rd_le_mid A0 L0 _ _ 2); [done|done|cbn; lia].
  - rewrite (app_assoc A). apply rdn_app_mid; [zlia|done].
  - rewrite (app_assoc A0). apply rdn_app_mid; [zlia|done].
  - rewrite <- (app_nil_r R) at 1. replace (A ++ L ++ D ++ 1 :: 4 :: 20 :: 0 :: G ++ 0x7f :: 0xff :: 4 :: 0 :: R ++ [])
      with ((A ++ L ++ D ++ [1; 4; 20; 0] ++ G ++ [0x7f; 0xff; 4; 0]) ++ R ++ []) by (by norm_app).
    apply rdn_app_mid; [|done]. zlen_simpl. change (zlen G) with 16. lia.
  - rewrite (app_assoc L0), (app_assoc A0). apply rdn_app_mid; [zlia|done].
Qed.
End masked_reads.

Lemma StrSize_at label p q i : Forall (fun c => 0 < c < 2 ^ 16) label -> i = zlen p ->
  StrSize (p ++ LoadOptions.ucs2 (Path.text label) ++ q) i = Ok (zlen (LoadOptions.ucs2 (Path.text label))).
Proof.
  intros Hl ->. assert (HD : zlen (LoadOptions.ucs2 (Path.text label)) = 2 * zlen label + 2) by (unfold Path.text; zlen_simpl; lia).
  unfold StrSize. rewrite StrSize_ok; [f_equal; lia|done|]. rewrite !length_app. unfold zlen in HD. lia.
Qed.

Lemma masked_core c d D R a n : 0 <= zlen D -> 0 < zlen R -> zlen D + zlen R < 2 ^ 32 - 30 -> 0 < a < 8 -> 0 <= n < 2 ^ 16 - 24 ->
  StrSize c 6 = Ok (zlen D) -> StrSize d 8 = Ok (zlen D - 2) ->
  (DevicePathNodeLength c (6 + zlen D) = Ok 20 /\ DevicePathType c (6 + zlen D) = Ok HARDWARE_DEVICE_PATH /\
   DevicePathSubType c (6 + zlen D) = Ok HW_VENDOR_DP /\ rdn c (6 + zlen D + 4) 16 = Ok ami_masked_device_path_guid /\
   IsDevicePathEnd c (6 + zlen D + 20) = Ok true /\ DevicePathNodeLength c (6 + zlen D + 20) = Ok 4) ->
  (rd_le c 0 4 = Ok (Z.lor a LOAD_OPTION_HIDDEN) /\ rd_le d 0 4 = Ok a /\ rd_le c 4 2 = Ok (n + 24) /\ rd_le d 4 2 = Ok n /\
   rdn c 6 (zlen D) = Ok D /\ rdn d 6 (zlen D) = Ok D /\ rdn c (30 + zlen D) (zlen R) = Ok R /\ rdn d (6 + zlen D) (zlen R) = Ok R) ->
  check_masked_boot_option c (6 + zlen D + zlen R + 24) d (6 + zlen D + zlen R) = Ok true.
Proof.
  intros HD HR Hs Ha Hn Sc Sd (N1 & N2 & N3 & N4 & N5 & N6) (F1 & F2 & F3 & F4 & F5 & F6 & F7 & F8).
  assert (Hbits : (Z.land (Z.lor a LOAD_OPTION_HIDDEN) LOAD_OPTION_HIDDEN =? 0) = false /\ (Z.ldiff (Z.lor a LOAD_OPTION_HIDDEN) LOAD_OPTION_HIDDEN =? a) = true).
  { assert (Hcase : a = 1 \/ a = 2 \/ a = 3 \/ a = 4 \/ a = 5 \/ a = 6 \/ a = 7) by lia. by destruct Hcase as [->|[->|[->|[->|[->|[->| ->]]]]]]. }
  destruct Hbits as [B1 B2]. assert (Hle : forall x y, y < x -> (x <=? y) = false) by (intros; by apply Z.leb_gt).
  unfold check_masked_boot_option, calc_masked_boot_option_size, u32. cbv zeta.
  rewrite Sc, bind_Ok, N1, N2, N3, F1, F2, F3, F4, Sd. rewrite (Z.mod_small (6 + zlen D + zlen R + 4 + 16 + 4)) by lia.
  replace (6 + zlen D + zlen R + 4 + 16 + 4) with (6 + zlen D + zlen R + 24) by lia. rewrite Z.eqb_refl. cbn [negb].
  rewrite (Z.mod_small (6 + zlen D + 4)) by lia. rewrite Hle, bind_Ok by lia. change ((20 - 4) mod 2 ^ 32) with 16.
  rewrite (Z.mod_small (6 + zlen D + 4 + 16)) by lia. rewrite Hle by lia. rewrite !bind_Ok. cbn [negb orb Z.eqb Pos.eqb HARDWARE_DEVICE_PATH HW_VENDOR_DP].
  rewrite N4, bind_Ok. unfold bytes_eqb. rewrite bool_decide_true by done. cbn [negb].
  rewrite (Z.mod_small (6 + zlen D + 4 + 16 + 4)) by lia. rewrite Hle by lia. rewrite N5, !bind_Ok. cbn [negb]. rewrite B1, ?bind_Ok, B2. cbn [negb].
  rewrite ?bind_Ok, (Z.mod_small (n + 4 + 16 + 4)) by lia. replace (n + 4 + 16 + 4 =? n + 24) with true by (symmetry; apply Z.eqb_eq; lia). cbn [negb].
  replace (6 + zlen D - 6) with (zlen D) by lia. rewrite F5, F6, ?bind_Ok, bool_decide_true by done. cbn [negb]. rewrite N6, ?bind_Ok.
  replace (6 + zlen D + 20 + 4) with (30 + zlen D) by lia. replace (8 + (zlen D - 2)) with (6 + zlen D) by lia.
  replace (6 + zlen D + zlen R + 24 - (6 + zlen D + 4 + 16 + 4)) with (zlen R) by lia. by rewrite F7, F8, ?bind_Ok, bool_decide_true by done.
Qed.

(** Options that a firmware has hidden and put a vendor node in front of: for
    an option with any label that is not empty, any path and any arguments, the
    masked copy is recognised as the option, and nothing is read outside the two
    buffers. *)
Theorem masked_option_found o : Forall (fun c => 0 < c < 2 ^ 16) (Description o) -> Description o <> [] ->
  zlen (path_list (FilePathList o)) + 24 < 2 ^ 16 -> zlen (option_bytes o) + 24 < 2 ^ 32 -> 0 < Attributes o < 8 ->
  check_masked_boot_option (masked_option o) (zlen (masked_option o)) (option_bytes o ++ [0; 0]) (zlen (option_bytes o)) = Ok true.
Proof.
  intros Hd Nd Hp Hs Ha. rewrite masked_size. pose proof (zlen_nonneg (path_list (FilePathList o))) as Hp0. rewrite masked_split, option_split in *.
  set (R := path_list (FilePathList o) ++ OptionalData o) in *. set (n := zlen (path_list (FilePathList o))) in *.
  assert (HR : 0 < zlen R).
  { unfold R, path_list. pose proof (zlen_nonneg (concat (map node_bytes (FilePathList o)))). pose proof (zlen_nonneg (OptionalData o)).
    zlen_simpl. change (zlen END_ENTIRE) with 4. lia. }
  set (A := le_split 4 (Z.lor _ _)) in *. set (L := le_split 2 (n + 24)). set (A0 := le_split 4 _) in *. set (L0 := le_split 2 n) in *.
  assert (HsD : forall q, StrSize ((A ++ L) ++ LoadOptions.ucs2 (Path.text (Description o)) ++ q) 6 = Ok (zlen (LoadOptions.ucs2 (Path.text (Description o)))))
    by (intros q; by apply StrSize_at).
  assert (Hs8 : forall q, StrSize ((A0 ++ L0) ++ LoadOptions.ucs2 (Path.text (Description o)) ++ q) 8
    = Ok (zlen (LoadOptions.ucs2 (Path.text (Description o))) - 2)).
  { intros q. inversion Hd as [|x l Hx Hl Heq]; [congruence|]. cbn [Path.text app]. rewrite ucs2_cons, <- (app_assoc (le_split 2 x)), (app_assoc (A0 ++ L0)).
    change (l ++ [0]) with (Path.text l). rewrite StrSize_at by done. f_equal. zlen_simpl. lia. }
  set (D := LoadOptions.ucs2 _) in *. pose proof (zlen_nonneg D) as HD0.
  destruct (masked_lengths A L A0 L0 D R (Attributes o) n eq_refl eq_refl eq_refl eq_refl) as (_ & _ & _ & _ & Lc & Ld).
  destruct (masked_nodes A L A0 L0 D R (Attributes o) n eq_refl eq_refl eq_refl eq_refl) as (N1 & N2 & N3 & N4 & N5 & N6).
  destruct (masked_fields A L A0 L0 D R (Attributes o) n eq_refl eq_refl eq_refl eq_refl ltac:(lia) ltac:(lia)) as (F1 & F2 & F3 & F4 & F5 & F6 & F7 & F8).
  assert (Hlen : zlen ((A0 ++ L0) ++ D ++ R) = 6 + zlen D + zlen R) by (rewrite zlen_app in Ld; change (zlen [0; 0]) with 2 in Ld; lia).
  rewrite Hlen in *. assert (Hsd : StrSize (((A0 ++ L0) ++ D ++ R) ++ [0; 0]) 8 = Ok (zlen D - 2)) by (norm_app; rewrite (app_assoc A0 L0); apply Hs8).
  by apply (masked_core _ _ D R (Attributes o) n); try done; try lia; apply HsD.
Qed.

(** ** Finding and adding an option *)

(** What a variable that is taken for a masked copy of the option [d] has: 24 bytes
    more, the attributes of the option and LOAD_OPTION_HIDDEN, its label, and the
    GUID of the mask in a vendor node behind the label. *)
Record masked_copy (d d' : list Z) : Prop := {
  mc_size : zlen d' = zlen d + 24;
  mc_attributes : exists at', rd_le d' 0 4 = Ok at' /\ Z.land at' LOAD_OPTION_HIDDEN <> 0 /\
    rd_le (d ++ [0; 0]) 0 4 = Ok (Z.ldiff at' LOAD_OPTION_HIDDEN);
  mc_label : exists n label, StrSize d' 6 = Ok n /\ rdn d' 6 n = Ok label /\ rdn (d ++ [0; 0]) 6 n = Ok label /\
    rdn d' (6 + n + 4) 16 = Ok ami_masked_device_path_guid
}.

Lemma masked_copy_ok d d' : zlen d < 2 ^ 32 - 24 ->
  check_masked_boot_option d' (zlen d') (d ++ [0; 0]) (zlen d) = Ok true -> masked_copy d d'.
Proof.
  intros Hd. pose proof (zlen_nonneg d). unfold check_masked_boot_option, calc_masked_boot_option_size, u32. cbv zeta.
  rewrite (Z.mod_small (zlen d + 4 + 16 + 4)) by lia. destruct (Z.eqb_spec (zlen d + 4 + 16 + 4) (zlen d')) as [Es | Es]; cbn [negb]; [|done].
  intros (n & Hn & Hr)%bind_inv. destruct (_ <=? _); [done|]. apply bind_inv in Hr as (len & _ & Hr). destruct (_ <=? _); [done|].
  apply bind_inv in Hr as (type & _ & Hr). destruct (negb _); [done|]. apply bind_inv in Hr as (subtype & _ & Hr). destruct (_ || _); [done|].
  apply bind_inv in Hr as (g & Hg & Hr). unfold bytes_eqb in Hr. destruct (bool_decide_reflect (g = ami_masked_device_path_guid)) as [-> | _]; cbn [negb] in Hr; [|done].
  destruct (_ <=? _); [done|]. apply bind_inv in Hr as (e & _ & Hr). destruct (negb e); [done|].
  apply bind_inv in Hr as (at' & Hat & Hr). destruct (Z.eqb_spec (Z.land at' LOAD_OPTION_HIDDEN) 0) as [_ | Hh]; [done|].
  apply bind_inv in Hr as (a & Ha & Hr). destruct (Z.eqb_spec (Z.ldiff at' LOAD_OPTION_HIDDEN) a) as [Hat' | _]; cbn [negb] in Hr; [|done].
  apply bind_inv in Hr as (dl & _ & Hr). apply bind_inv in Hr as (cl & _ & Hr). destruct (negb _); [done|].
  apply bind_inv in Hr as (cd & Hcd & Hr). apply bind_inv in Hr as (dd & Hdd & Hr).
  destruct (bool_decide_reflect (cd = dd)) as [-> | _]; cbn [negb] in Hr; [|done]. replace (6 + n - 6) with n in * by lia.
  split; [lia|exists at'; split_and!; congruence|by exists n, dd].
Qed.

(** The comparison of an option with the data of a variable. *)
Definition compare_option (d d' : list Z) : res bool :=
  if zlen d' =? zlen d then Ok (bytes_eqb d' d) else check_masked_boot_option d' (zlen d') (d ++ [0; 0]) (zlen d).
Definition same_option (d d' : list Z) : bool := match compare_option d d' with Ok b => b | _ => false end.
Lemma same_option_ok d d' : zlen d < 2 ^ 32 - 24 -> same_option d d' = true -> d' = d \/ masked_copy d d'.
Proof.
  intros Hd. unfold same_option, compare_option. destruct (zlen d' =? zlen d); [unfold bytes_eqb; case_bool_decide; [by left|done]|].
  destruct (check_masked_boot_option _ _ _ _) as [[|]| |] eqn:E; try done. right. by apply masked_copy_ok.
Qed.
(** A variable of another size is told apart at once. *)
Lemma compare_sizes d d' : 0 <= zlen d < 2 ^ 32 - 24 -> zlen d' <> zlen d -> zlen d' <> zlen d + 24 -> compare_option d d' = Ok false.
Proof.
  intros Hd H1 H2. unfold compare_option. rewrite (proj2 (Z.eqb_neq _ _) H1). unfold check_masked_boot_option, calc_masked_boot_option_size, u32.
  rewrite (Z.mod_small (zlen d + 4 + 16 + 4)) by lia. rewrite (proj2 (Z.eqb_neq _ (zlen d'))) by lia. done.
Qed.

Section find_ok.
Context {S : Type} `{BootFirmwareLaws S} (fe : fallback_env) (Hname : fe_name fe = true) (d : list Z) (Hd : zlen d < 2 ^ 32 - 24).

(** A Boot#### variable that has the option. *)
Definition judged (fw : S) (n : string) : res bool :=
  if is_boot_name n then match lookup_var fw n GV_GUID with Some (_, d') => compare_option d d' | None => Ok false end else Ok false.
Definition holds (fw : S) (p : string * EFI_GUID) : bool :=
  is_boot_name p.1 && match lookup_var fw p.1 GV_GUID with Some (_, d') => same_option d d' | None => false end.
Lemma holds_judged fw n g : holds fw (n, g) = match judged fw n with Ok b => b | _ => false end.
Proof. unfold holds, judged. cbn [fst]. destruct (is_boot_name n); [|done]. by destruct (lookup_var fw n GV_GUID) as [[a d']|]. Qed.

Abbreviation scan fuel fw buf n g candidate := (scan_names fe fuel fw (d ++ [0; 0]) (zlen d) buf n g candidate).
Abbreviation at_name fw k := (walk_at (var_names fw) k).

(** One name that fits the buffer. *)
Lemma scan_step fw k n g fuel buf candidate : var_names fw !! k = Some (n, g) -> zlen candidate = zlen d + 24 -> name_size n <= buf ->
  exists candidate', zlen candidate' = zlen d + 24 /\
  scan (Datatypes.S fuel) fw buf (at_name fw k).1 (at_name fw k).2 candidate =
    (b ← judged fw n;
     if negb b then scan fuel fw buf n g candidate' else Ok (EFI_SUCCESS, Some (u16 (fe_xtoi fe (drop4 n))))).
Proof.
  intros Hk Hc Hb. pose proof (zlen_nonneg d) as Hd0. cbn [scan_names].
  destruct (next_name fw k n g buf Hk) as (m & n' & g' & ->). rewrite (proj2 (Z.ltb_ge buf _)) by lia. cbn [EFI_ERROR].
  unfold judged. destruct (is_boot_name n) eqn:En; cbn [negb]; [|by exists candidate].
  destruct (lookup_var fw n GV_GUID) as [[a d']|] eqn:El.
  2:{ rewrite (get_missing _ _ _ _ _ El). cbn [EFI_ERROR]. by exists candidate. }
  destruct (decide (zlen d' <= zlen candidate)) as [Hle | Hgt].
  2:{ destruct (get_too_small fw n GV_GUID (zlen candidate) true a d' El ltac:(lia)) as [-> _]. cbn [EFI_ERROR].
      rewrite compare_sizes by lia. by exists candidate. }
  rewrite (get_found _ _ _ _ _ _ El Hle). cbn [gv_status gv_size gv_data EFI_ERROR].
  destruct (split_at candidate (zlen d') ltac:(pose proof (zlen_nonneg d'); lia)) as (x & y & -> & Hx).
  rewrite wrn_app_0 by (unfold zlen in *; lia). rewrite bind_Ok. exists (d' ++ y). split; [rewrite zlen_app in *; lia|].
  rewrite zlen_app in Hc. unfold compare_option. destruct (zlen d' =? zlen d) eqn:Es; bool_to_prop; cbn [negb].
  - rewrite rdn_app_0, bind_Ok by done. rewrite rdn_app_0, !bind_Ok by done. done.
  - destruct (decide (zlen d' = zlen d + 24)) as [E24 | E24].
    + assert (y = []) as -> by (destruct y as [|z y]; [done|rewrite zlen_cons in Hc; pose proof (zlen_nonneg y); lia]). by rewrite app_nil_r.
    + unfold check_masked_boot_option, calc_masked_boot_option_size, u32. rewrite (Z.mod_small (zlen d + 4 + 16 + 4)) by lia.
      rewrite (proj2 (Z.eqb_neq _ (zlen d'))) by lia. done.
Qed.
(** A name that does not. *)
Lemma scan_grow fw k n g fuel buf candidate : var_names fw !! k = Some (n, g) -> buf < name_size n ->
  scan (Datatypes.S fuel) fw buf (at_name fw k).1 (at_name fw k).2 candidate = scan fuel fw (name_size n) (at_name fw k).1 (at_name fw k).2 candidate.
Proof.
  intros Hk Hb. cbn [scan_names]. destruct (next_name fw k n g buf Hk) as (m & n' & g' & ->). rewrite (proj2 (Z.ltb_lt buf _)) by lia.
  cbn [EFI_ERROR]. by rewrite bool_decide_true, Hname by done.
Qed.
Lemma scan_end fw fuel buf candidate :
  scan (Datatypes.S fuel) fw buf (at_name fw (length (var_names fw))).1 (at_name fw (length (var_names fw))).2 candidate = Ok (EFI_NOT_FOUND, None).
Proof. cbn [scan_names]. destruct (next_end fw _ buf eq_refl) as (m & n' & g' & ->). cbn [EFI_ERROR]. by rewrite bool_decide_false. Qed.

(** What the search says. *)
Definition search_result (fw : S) (names : list (string * EFI_GUID)) : EFI_STATUS * option Z :=
  match List.find (holds fw) names with
  | Some (n, _) => (EFI_SUCCESS, Some (u16 (fe_xtoi fe (drop4 n))))
  | None => (EFI_NOT_FOUND, None)
  end.

Lemma scan_result fw fuel : forall k buf candidate r, zlen candidate = zlen d + 24 -> (k <= length (var_names fw))%nat ->
  scan fuel fw buf (at_name fw k).1 (at_name fw k).2 candidate = Ok r -> r = search_result fw (drop k (var_names fw)).
Proof.
  induction fuel as [|fuel IH]; intros k buf candidate r Hc Hk Hr; [done|]. destruct (decide (k = length (var_names fw))) as [-> | Hne].
  { rewrite scan_end in Hr. rewrite drop_all. by injection Hr as <-. }
  destruct (lookup_lt_is_Some_2 (var_names fw) k ltac:(lia)) as [[n g] Hn]. unfold search_result. rewrite (drop_S _ _ _ Hn). cbn [List.find].
  destruct (decide (name_size n <= buf)) as [Hb | Hb].
  - destruct (scan_step fw k n g fuel buf candidate Hn Hc Hb) as (c' & Hc' & Hs). rewrite Hs in Hr. rewrite holds_judged.
    apply bind_inv in Hr as (b & -> & Hr). destruct b; cbn [negb] in Hr; [by injection Hr as <-|].
    apply (IH (Datatypes.S k) buf c' r Hc' ltac:(lia)). cbn [walk_at]. by rewrite (nth_lookup_Some (var_names fw) k _ _ Hn).
  - rewrite (scan_grow fw k n g) in Hr by (done || lia). apply IH in Hr; [|done|lia]. unfold search_result in Hr.
    rewrite (drop_S _ _ _ Hn) in Hr. exact Hr.
Qed.

(** No comparison leaves the buffers. *)
Definition comparable (fw : S) : Prop :=
  forall n a d', is_boot_name n = true -> lookup_var fw n GV_GUID = Some (a, d') -> exists b, compare_option d d' = Ok b.
Lemma scan_total fw : comparable fw -> forall j k fuel buf candidate, zlen candidate = zlen d + 24 ->
  (k + j = length (var_names fw))%nat -> (2 * j + 1 <= fuel)%nat ->
  exists r, scan fuel fw buf (at_name fw k).1 (at_name fw k).2 candidate = Ok r.
Proof.
  intros Hcmp j. induction j as [|j IH]; intros k fuel buf candidate Hc Hk Hf.
  { destruct fuel as [|fuel]; [lia|]. replace k with (length (var_names fw)) by lia. rewrite scan_end. by eexists. }
  destruct (lookup_lt_is_Some_2 (var_names fw) k ltac:(lia)) as [[n g] Hn].
  assert (Hfit : forall f buf, (2 * j + 1 <= f)%nat -> name_size n <= buf ->
    exists r, scan (Datatypes.S f) fw buf (at_name fw k).1 (at_name fw k).2 candidate = Ok r).
  { intros f buf' Hf' Hb. destruct (scan_step fw k n g f buf' candidate Hn Hc Hb) as (c' & Hc' & ->).
    assert (exists b, judged fw n = Ok b) as [b ->].
    { unfold judged. destruct (is_boot_name n) eqn:En; [|by eexists]. destruct (lookup_var fw n GV_GUID) as [[a d']|] eqn:El; [by eapply Hcmp|by eexists]. }
    rewrite bind_Ok. destruct b; cbn [negb]; [by eexists|]. pose proof (IH (Datatypes.S k) f buf' c' Hc' ltac:(lia) Hf') as IHk.
    cbn [walk_at] in IHk. by rewrite (nth_lookup_Some (var_names fw) k _ _ Hn) in IHk. }
  destruct fuel as [|fuel]; [lia|]. destruct (decide (name_size n <= buf)) as [Hb | Hb]; [by apply Hfit; [lia|]|].
  rewrite (scan_grow fw k n g) by (done || lia). destruct fuel as [|fuel]; [lia|]. apply Hfit; lia.
Qed.
End find_ok.

Record fallback_ready (fe : fallback_env) : Prop := {
  fr_path : fe_path fe = true;
  fr_dup : fe_dup fe = true;
  fr_data : fe_data fe = true;
  fr_name : fe_name fe = true;
  fr_candidate : fe_candidate fe = true;
  fr_order : fe_order fe = true
}.

(** ** What one line of BOOT.CSV does *)

(** The entry was added under a new number, found under a number, or not added. *)
Inductive restored : Type :=
| Added (i : Z)
| Found (n : Z)
| Refused.

(** [x] is put in front: it is taken out at its first place, if it has one. *)
Definition moved_first (x : Z) (o o' : list Z) : Prop :=
  ((x ∉ o) /\ o' = x :: o) \/ exists pre post, o = pre ++ x :: post /\ (x ∉ pre) /\ o' = x :: pre ++ post.

Section adding.
Context {S : Type} `{LibReads S} (fe : fallback_env) (Hfe : fallback_ready fe).

(** The first free number. *)
Definition first_free (s : fb S) (i : Z) : Prop :=
  fb_i s <= i <= 0xffff /\ lookup_var (fb_fw s) (boot_name i) GV_GUID = None /\
  forall j, fb_i s <= j < i -> is_Some (lookup_var (fb_fw s) (boot_name j) GV_GUID).
Definition none_free (s : fb S) : Prop := forall j, fb_i s <= j <= 0xffff -> is_Some (lookup_var (fb_fw s) (boot_name j) GV_GUID).
(** The option to start: the first one that was found or was to be written. *)
Definition first_kept (full : list path_node) (arguments : list Z) (s s' : fb S) : Prop :=
  fb_first s' = match fb_first s with
                | Some o => Some o
                | None => Some {| fo_path := full; fo_args := arguments; fo_size := arg_size arguments |}
                end.

(** A line whose option is [d]: when a Boot#### variable has it, the number of the
    first such variable is put in front of the order; otherwise the option is
    written under the first free number, and this number is the last of the new
    ones, unless the firmware refuses the write or no number is free. *)
Inductive line_step (d : list Z) (full : list path_node) (arguments : list Z) (s s' : fb S) : restored -> Prop :=
| step_found n g a d' :
    List.find (holds d (fb_fw s)) (var_names (fb_fw s)) = Some (n, g) ->
    is_boot_name n = true -> lookup_var (fb_fw s) n GV_GUID = Some (a, d') -> d' = d \/ masked_copy d d' ->
    fb_fw s' = fb_fw s -> fb_new s' = fb_new s -> first_kept full arguments s s' ->
    moved_first (u16 (fe_xtoi fe (drop4 n))) (fb_bootorder s) (fb_bootorder s') ->
    line_step d full arguments s s' (Found (u16 (fe_xtoi fe (drop4 n))))
| step_added i :
    List.find (holds d (fb_fw s)) (var_names (fb_fw s)) = None -> first_free s i ->
    SetVariable (fb_fw s) (boot_name i) GV_GUID NV_BS_RT d = (EFI_SUCCESS, fb_fw s') ->
    fb_new s' = fb_new s ++ [i] -> fb_bootorder s' = fb_bootorder s -> first_kept full arguments s s' ->
    line_step d full arguments s s' (Added i)
| step_refused i st :
    List.find (holds d (fb_fw s)) (var_names (fb_fw s)) = None -> first_free s i ->
    SetVariable (fb_fw s) (boot_name i) GV_GUID NV_BS_RT d = (st, fb_fw s') -> EFI_ERROR st = true ->
    fb_new s' = fb_new s -> fb_bootorder s' = fb_bootorder s -> first_kept full arguments s s' ->
    line_step d full arguments s s' Refused
| step_full :
    List.find (holds d (fb_fw s)) (var_names (fb_fw s)) = None -> none_free s ->
    fb_fw s' = fb_fw s -> fb_new s' = fb_new s -> fb_bootorder s' = fb_bootorder s -> fb_first s' = fb_first s ->
    line_step d full arguments s s' Refused.
Definition line_status (r : restored) : EFI_STATUS := match r with Found _ => EFI_SUCCESS | _ => EFI_NOT_FOUND end.

Lemma remember_first full arguments (s : fb S) : first_kept full arguments s (remember fe full arguments s).
Proof. unfold first_kept, remember. destruct (fb_first s) eqn:E; [done|]. cbn. by rewrite (fr_dup fe Hfe). Qed.

Lemma index_of_None n l : index_of n l = None -> n ∉ l.
Proof.
  induction l as [|x l IH]; [intros _; apply not_elem_of_nil|]. cbn [index_of]. destruct (x =? n) eqn:E; bool_to_prop; [done|].
  destruct (index_of n l); [done|]. intros _. apply not_elem_of_cons. split; [congruence|by apply IH].
Qed.
Lemma index_of_before n l : forall k, index_of n l = Some k -> n ∉ take k l.
Proof.
  induction l as [|x l IH]; [done|]. intros k. cbn [index_of]. destruct (x =? n) eqn:E; bool_to_prop; [intros [= <-]; apply not_elem_of_nil|].
  destruct (index_of n l) as [j|] eqn:Ej; [|done]. intros [= <-]. cbn [take]. apply not_elem_of_cons. split; [congruence|by apply IH].
Qed.

Lemma put_first_ok x (s : fb S) st s' : put_first fe x s = Ok (st, s') ->
  st = EFI_SUCCESS /\ fb_fw s' = fb_fw s /\ fb_new s' = fb_new s /\ fb_first s' = fb_first s /\ moved_first x (fb_bootorder s) (fb_bootorder s').
Proof.
  unfold put_first. rewrite (fr_order fe Hfe). cbn [negb]. set (o := fb_bootorder s). destruct (index_of x _) as [k|] eqn:Ek.
  - intros [= <- <-]. split_and!; try done. right. exists (take k o), (drop (Datatypes.S k) o).
    pose proof (index_of_before _ _ _ Ek) as Hb. apply index_of_lookup in Ek. apply lookup_take_Some in Ek as [Ek Hlt].
    rewrite take_take, Nat.min_l in Hb by lia. split_and!; [|done|done]. by rewrite take_drop_middle.
  - destruct (0xffff <? zlen o) eqn:El; [done|]. bool_to_prop. intros [= <- <-]. split_and!; try done. left. split; [|done].
    apply index_of_None in Ek. rewrite take_ge in Ek by (unfold zlen in El; lia). done.
Qed.
Lemma put_first_returns x (s : fb S) : zlen (fb_bootorder s) <= 0xffff -> exists r, put_first fe x s = Ok r.
Proof.
  intros Hl. unfold put_first. rewrite (fr_order fe Hfe). cbn [negb]. destruct (index_of _ _); [by eexists|].
  rewrite (proj2 (Z.ltb_ge 0xffff _)) by lia. by eexists.
Qed.

Lemma add_loop_step hddp full label arguments k : zlen (path_list hddp) < 2 ^ 16 -> forall s : fb S, 0 <= fb_i s -> Z.of_nat k = 0x10000 - fb_i s ->
  let d := option_bytes (boot_option hddp label arguments) in
  exists st s', add_loop fe k hddp full label arguments s = Ok (st, s') /\ fb_bootorder s' = fb_bootorder s /\
    (none_free s /\ fb_fw s' = fb_fw s /\ fb_new s' = fb_new s /\ fb_first s' = fb_first s \/
     exists i st1, first_free s i /\ SetVariable (fb_fw s) (boot_name i) GV_GUID NV_BS_RT d = (st1, fb_fw s') /\ first_kept full arguments s s' /\
       fb_new s' = if EFI_ERROR st1 then fb_new s else fb_new s ++ [i]).
Proof.
  intros Hp. induction k as [|k IH]; intros s Hi Hk d; cbn [add_loop].
  { eexists _, s. split_and!; [done..|]. left. split_and!; try done. intros j Hj. lia. }
  rewrite lib_get_exact. destruct (lookup_var (fb_fw s) (boot_name (fb_i s)) GV_GUID) as [v|] eqn:El; cbn [fmap option_fmap option_map].
  - destruct (IH (with_i s (fb_i s + 1)) ltac:(cbn; lia) ltac:(cbn; lia)) as (st & s' & Hr & Ho & Hcase). exists st, s'. split_and!; [done..|].
    assert (Hnow : forall j, fb_i s <= j < fb_i s + 1 -> is_Some (lookup_var (fb_fw s) (boot_name j) GV_GUID))
      by (intros j Hj; replace j with (fb_i s) by lia; by exists v).
    destruct Hcase as [(Hnf & Hrest) | (i & st1 & (Hb & Hno & Hall) & Hrest)]; [left|right; exists i, st1]; (split; [|exact Hrest]).
    + intros j Hj. destruct (decide (j = fb_i s)); [apply Hnow; lia|]. apply (Hnf j). cbn. lia.
    + cbn in Hb. split_and!; [lia|lia|done|]. intros j Hj. destruct (decide (j = fb_i s)); [apply Hnow; lia|]. apply (Hall j). cbn. lia.
  - rewrite (fr_data fe Hfe). cbn [negb]. rewrite option_data_ok, bind_Ok by done. fold d. rewrite rdn_app_0, bind_Ok by apply option_size_ok.
    destruct (remember_same fe full arguments s) as (Rf & Rn & Ro & Ri). pose proof (remember_first full arguments s) as Rk.
    set (s1 := remember fe full arguments s) in *. rewrite Rf. destruct (SetVariable (fb_fw s) _ _ _ d) as [st1 fw] eqn:Es.
    assert (Hfree : first_free s (fb_i s)) by (split_and!; [lia|lia|done|intros j Hj; lia]).
    rewrite (fr_order fe Hfe). cbn [negb]. destruct (EFI_ERROR st1) eqn:Ee; eexists _, _; (split; [reflexivity|]); (split; [done|]); right; exists (fb_i s), st1;
      cbn [with_new with_fw fb_fw fb_new fb_i]; rewrite Ee, Rn; split_and!; try done.
    rewrite Ri. change 0xffff with (Z.ones 16). by rewrite Z.land_ones, Z.mod_small by lia.
Qed.

Section one.
Context (dp full : list path_node) (label arguments : list Z) (fuel : nat) (s : fb S).
Context (Hp : zlen (path_list dp) < 2 ^ 16) (Hs : zlen (option_bytes (boot_option dp label arguments)) < 2 ^ 32 - 24).
Let d : list Z := option_bytes (boot_option dp label arguments).

Lemma find_boot_option_scan : find_boot_option fe fuel dp full label arguments s =
  ('(st, o) ← scan_names fe fuel (fb_fw s) (d ++ [0; 0]) (zlen d) 512 "" NullGuid (replicate (Z.to_nat (zlen d + 24)) 0);
   Ok (st, o, match o with Some _ => remember fe full arguments s | None => s end)).
Proof.
  unfold find_boot_option. rewrite (fr_data fe Hfe). cbn [negb]. rewrite option_data_ok, bind_Ok by done. fold d.
  rewrite (fr_name fe Hfe), (fr_candidate fe Hfe). cbn [negb orb]. rewrite option_size_ok. fold d. pose proof (zlen_nonneg d).
  unfold calc_masked_boot_option_size, u32. rewrite Z.mod_small by (fold d in Hs; lia). by replace (zlen d + 4 + 16 + 4) with (zlen d + 24) by lia.
Qed.

(** What the search gave decides the step. *)
Lemma line_step_ok r : 0 <= fb_i s <= 0x10000 ->
  ('(efi_status, option, s) ← find_boot_option fe fuel dp full label arguments s;
   match option with
   | None => '(_, s) ← add_boot_option fe dp full label arguments s; Ok (efi_status, s)
   | Some option => put_first fe option s
   end) = Ok r ->
  exists x, line_step d full arguments s r.2 x /\ r.1 = line_status x.
Proof.
  intros Hi. rewrite find_boot_option_scan. intros ([[st o] s1] & ([st0 o0] & Hscan & [= <- <- <-])%bind_inv & Hr)%bind_inv.
  apply (scan_result fe (fr_name fe Hfe) d Hs (fb_fw s) fuel 0) in Hscan; [|unfold zlen; rewrite length_replicate; unfold zlen; lia|lia].
  rewrite drop_0 in Hscan. unfold search_result in Hscan. destruct (List.find _ _) as [[n g]|] eqn:Ef; injection Hscan as -> ->.
  - destruct r as [st s']. apply put_first_ok in Hr as (-> & Hf & Hn & Hfirst & Hm). destruct (remember_same fe full arguments s) as (Rf & Rn & Ro & _).
    rewrite Rf in Hf. rewrite Rn in Hn. rewrite Ro in Hm. exists (Found (u16 (fe_xtoi fe (drop4 n)))). split; [|done].
    pose proof (List.find_some _ _ Ef) as [_ Hh]. unfold holds in Hh. cbn [fst] in Hh. apply andb_true_iff in Hh as [Hb Hh].
    destruct (lookup_var (fb_fw s) n GV_GUID) as [[a d']|] eqn:El; [|done].
    apply (step_found d full arguments s s' n g a d'); try done; [by apply same_option_ok|]. unfold first_kept. rewrite Hfirst. apply remember_first.
  - apply bind_inv in Hr as ([st1 s'] & Ha & [= <-]). unfold add_boot_option in Ha.
    destruct (add_loop_step dp full label arguments (Z.to_nat (0x10000 - fb_i s)) Hp s ltac:(lia) ltac:(lia)) as (st2 & s2 & Hadd & Ho & Hcase).
    rewrite Hadd in Ha. injection Ha as <- <-. cbn [fst snd].
    destruct Hcase as [(Hnf & Hf & Hn & Hk) | (i & st3 & Hfree & Hset & Hk & Hn)]; [exists Refused; split; [by apply step_full|done]|].
    fold d in Hset. pose proof (set_no_warning (fb_fw s) (boot_name i) GV_GUID NV_BS_RT d) as Hnw. rewrite Hset in Hnw. cbn [fst] in Hnw.
    destruct (EFI_ERROR st3) eqn:Ee; [exists Refused; split; [by eapply step_refused|done]|]. rewrite (Hnw eq_refl) in Hset.
    exists (Added i). split; [by apply step_added|done].
Qed.

Lemma line_returns : 0 <= fb_i s <= 0x10000 -> comparable d (fb_fw s) -> (2 * length (var_names (fb_fw s)) + 1 <= fuel)%nat ->
  zlen (fb_bootorder s) <= 0xffff ->
  exists r, ('(efi_status, option, s) ← find_boot_option fe fuel dp full label arguments s;
   match option with
   | None => '(_, s) ← add_boot_option fe dp full label arguments s; Ok (efi_status, s)
   | Some option => put_first fe option s
   end) = Ok r.
Proof.
  intros Hi Hcmp Hf Hl. rewrite find_boot_option_scan.
  destruct (scan_total fe (fr_name fe Hfe) d Hs (fb_fw s) Hcmp (length (var_names (fb_fw s))) 0 fuel 512 (replicate (Z.to_nat (zlen d + 24)) 0)) as [[st o] Hr];
    [unfold zlen; rewrite length_replicate; unfold zlen; lia|lia|lia|].
  cbn [walk_at fst snd] in Hr. rewrite Hr, !bind_Ok. destruct o as [x|].
  - apply put_first_returns. by destruct (remember_same fe full arguments s) as (_ & _ & -> & _).
  - unfold add_boot_option. destruct (add_loop_step dp full label arguments (Z.to_nat (0x10000 - fb_i s)) Hp s ltac:(lia) ltac:(lia)) as (st2 & s2 & Hadd & _).
    rewrite Hadd, bind_Ok. by eexists.
Qed.
End one.

(** The path that is in the option of a file. *)
Definition boot_path (full : list path_node) : list path_node := default full (find_node MEDIA_DEVICE_PATH MEDIA_HARDDRIVE_DP full).

Lemma add_to_boot_list_start fuel dirname filename label arguments full (s : fb S) :
  fe_FileDevicePath fe (wide "\EFI\" ++ dirname ++ wide "\" ++ filename) = Some full ->
  add_to_boot_list fe fuel dirname filename label arguments s =
    ('(efi_status, option, s) ← find_boot_option fe fuel (boot_path full) full label arguments s;
     match option with
     | None => '(_, s) ← add_boot_option fe (boot_path full) full label arguments s; Ok (efi_status, s)
     | Some option => put_first fe option s
     end).
Proof.
  intros Hfull. unfold add_to_boot_list, make_full_path. rewrite (fr_path fe Hfe). cbn [negb]. rewrite Hfull. unfold FindSubDevicePath, boot_path.
  rewrite (fr_dup fe Hfe). by destruct (find_node _ _ full).
Qed.
End adding.


(** ** Reading back *)
Section read_back.
Context {S : Type} `{LibReads S} (fe : fallback_env).

Lemma add_loop_added hddp full label arguments k : zlen (path_list hddp) < 2 ^ 16 -> forall (s : fb S) st s',
  0 <= fb_i s -> fb_i s + Z.of_nat k <= 0x10000 -> add_loop fe k hddp full label arguments s = Ok (st, s') -> EFI_ERROR st = false ->
  exists i, fb_i s <= i <= 0xffff /\ lookup_var (fb_fw s) (boot_name i) GV_GUID = None /\
    lookup_var (fb_fw s') (boot_name i) GV_GUID = Some (NV_BS_RT, option_bytes (boot_option hddp label arguments)) /\
    fb_new s' = fb_new s ++ [i].
Proof.
  intros Hp. induction k as [|k IH]; intros s st s' Hi Hk Hr He; cbn [add_loop] in Hr; [by injection Hr as <- _|].
  rewrite lib_get_exact in Hr. destruct (lookup_var (fb_fw s) (boot_name (fb_i s)) GV_GUID) as [v|] eqn:El; cbn [fmap option_fmap option_map] in Hr.
  { destruct (IH (with_i s (fb_i s + 1)) st s' ltac:(cbn; lia) ltac:(cbn; lia) Hr He) as (i & Hi' & Hrest). exists i. cbn in Hi'. split; [lia|done]. }
  destruct (negb (fe_data fe)); [by injection Hr as <- _|]. rewrite option_data_ok, bind_Ok, rdn_app_0, bind_Ok in Hr by (done || apply option_size_ok).
  destruct (remember_same fe full arguments s) as (Rf & Rn & Ro & Ri). rewrite Rf in Hr. set (s1 := remember fe full arguments s) in *.
  set (d := option_bytes _) in *. pose proof (set_no_warning (fb_fw s) (boot_name (fb_i s)) GV_GUID NV_BS_RT d) as Hnw.
  destruct (SetVariable (fb_fw s) _ _ _ _) as [st1 fw] eqn:Es. cbn [fst] in Hnw. destruct (EFI_ERROR st1) eqn:E1; [injection Hr as <- _; congruence|].
  destruct (negb (fe_order fe)); [by injection Hr as <- _|]. injection Hr as _ <-. exists (fb_i s). split; [lia|]. split; [done|].
  cbn [with_new with_fw fb_fw fb_new fb_i]. rewrite Rn, Ri. change 0xffff with (Z.ones 16). rewrite Z.land_ones, Z.mod_small by lia.
  split; [|done]. rewrite (Hnw eq_refl) in Es. rewrite (set_ok _ _ _ _ _ _ Es) by done. by rewrite decide_False.
Qed.

Lemma option_bytes_split o : exists pre, option_bytes o = pre ++ OptionalData o.
Proof. unfold option_bytes. rewrite !app_assoc. by eexists. Qed.
End read_back.

(** C38. What fallback writes is what shim reads, for labels of units below 256: an
    option that add_boot_option added is under a number that was free, it is the last
    of the new entries, and get_load_option_optional_data of load-options.c finds in
    its bytes exactly the arguments of the line of BOOT.CSV, with their NUL, or none
    if they were empty.  [option_ok] holds for every option that fallback makes with
    such a label that is not empty and a device path of less than 64 KiB.  A label
    with any other letter, which fallback writes just as well, is refused
    ([wide_label_not_read_back], [wide_description_refused]). *)
Theorem boot_option_read_back {S} `{LibReads S} fe hddp full label arguments (s s' : fb S) :
  option_ok (boot_option hddp label arguments) -> 0 <= fb_i s <= 0x10000 ->
  add_boot_option fe hddp full label arguments s = Ok (EFI_SUCCESS, s') ->
  exists i d, lookup_var (fb_fw s) (boot_name i) GV_GUID = None /\ fb_new s' = fb_new s ++ [i] /\
    lookup_var (fb_fw s') (boot_name i) GV_GUID = Some (NV_BS_RT, d) /\
    exists od ods, get_load_option_optional_data d 0 (zlen d) = Ok (inr (od, ods)) /\
      match od with
      | None => arguments = []
      | Some p => rdn d p ods = Ok (LoadOptions.ucs2 (Path.text arguments))
      end.
Proof.
  intros Hok Hi Hr. pose proof Hok as (_ & _ & Hp & _ & _). cbn [FilePathList boot_option] in Hp.
  destruct (add_loop_added fe hddp full label arguments (Z.to_nat (0x10000 - fb_i s)) Hp s EFI_SUCCESS s' ltac:(lia) ltac:(lia) Hr eq_refl) as (i & _ & Hno & Hl & Hn).
  set (o := boot_option hddp label arguments) in *. exists i, (option_bytes o). split_and!; try done.
  pose proof (optional_data_ok o [] [] Hok) as Hod. cbn [app] in Hod. rewrite app_nil_r in Hod. change (zlen []) with 0 in Hod.
  assert (Hargs : OptionalData o = [] /\ arguments = [] \/ OptionalData o = LoadOptions.ucs2 (Path.text arguments) /\ arguments <> []).
  { unfold o. cbn [OptionalData boot_option]. destruct arguments as [|x l]; [by left|]. right. rewrite nonempty_zlen by done. done. }
  destruct Hargs as [[Ho Ha] | [Ho Ha]]; rewrite Ho in Hod.
  - exists None, 0. done.
  - assert (exists x l, LoadOptions.ucs2 (Path.text arguments) = x :: l) as (x & l & Hx) by (destruct arguments as [|x l]; [done|]; by eexists _, _).
    rewrite Hx in Hod. eexists _, _. split; [exact Hod|]. cbv iota beta. rewrite <- Hx, <- Ho.
    destruct (option_bytes_split o) as [pre Hpre]. rewrite Hpre, zlen_app.
    rewrite <- (app_nil_r (OptionalData o)) at 1. apply rdn_app_mid; [lia|done].
Qed.

(** With a TPM the machine prefers a reset: fallback ends with a reset, and what
    it starts before is only the first option; when there is a TPM it starts
    nothing unless FB_NO_REBOOT is 1, or the user stopped the countdown and chose
    to continue. *)
Theorem start_or_reset_consent {S} `{BootFirmwareLaws S} fu prefer (s s' : fb S) ev :
  start_or_reset fu prefer s = Ok (s', ev) ->
  exists starts, ev = starts ++ [Reset] /\
    (forall e, e ∈ starts -> exists o opts, fb_first s = Some o /\ e = Started (fo_path o) opts) /\
    (EFI_ERROR prefer = false -> starts <> [] ->
     get_fallback_no_reboot fu (fb_fw s) = 1 \/
     fu_countdown fu <> 0 /\ (get_user_choice (fu_choices fu) = Ok 1 \/ get_user_choice (fu_choices fu) = Ok 2)).
Proof.
  assert (Htry : forall s1 : fb S, fb_first s1 = fb_first s -> forall e, e ∈ (try_start_first_option fu s1).2 ->
    exists o opts, fb_first s = Some o /\ e = Started (fo_path o) opts).
  { intros s1 Hf e. unfold try_start_first_option. rewrite Hf. destruct (fb_first s) as [o|]; [|by intros ?%not_elem_of_nil].
    destruct (EFI_ERROR _); [by intros ?%not_elem_of_nil|]. cbn [snd]. intros ->%list_elem_of_singleton. eauto. }
  unfold start_or_reset. destruct (EFI_ERROR prefer) eqn:Ep.
  { intros [= _ <-]. exists (try_start_first_option fu s).2. split; [done|]. split; [by apply Htry|done]. }
  set (tried := if _ =? 1 then _ else _).
  assert (Htried : (forall e, e ∈ tried -> exists o opts, fb_first s = Some o /\ e = Started (fo_path o) opts) /\
    (tried <> [] -> get_fallback_no_reboot fu (fb_fw s) = 1)).
  { unfold tried. destruct (_ =? 1) eqn:E; bool_to_prop; [split; [by apply Htry|done]|]. split; [by intros e ?%not_elem_of_nil|done]. }
  destruct Htried as [Ht1 Ht2]. destruct (fu_countdown fu =? 0) eqn:Ec; bool_to_prop.
  { intros [= _ <-]. exists tried. split_and!; [done|done|]. intros _ Hne. left. by apply Ht2. }
  intros (c & Hc & Hr)%bind_inv.
  assert (Hrange : c = 0 \/ c = 1 \/ c = 2).
  { revert Hc. induction (fu_choices fu) as [|x l IH]; [done|]. cbn [get_user_choice]. destruct (_ || _) eqn:E; [done|]. intros [= <-]. bool_to_prop. lia. }
  destruct (c =? 0) eqn:E0; bool_to_prop; [injection Hr as _ <-; exists tried; split_and!; [done|done|intros _ Hne; left; by apply Ht2]|].
  assert (Hcons : fu_countdown fu <> 0 /\ (get_user_choice (fu_choices fu) = Ok 1 \/ get_user_choice (fu_choices fu) = Ok 2)).
  { split; [done|]. rewrite Hc. destruct Hrange as [-> |[-> | ->]]; [done|by left|by right]. }
  assert (Hfin : forall s2 : fb S, fb_first s2 = fb_first s -> ev = tried ++ (try_start_first_option fu s2).2 ++ [Reset] ->
    exists starts, ev = starts ++ [Reset] /\ (forall e, e ∈ starts -> exists o opts, fb_first s = Some o /\ e = Started (fo_path o) opts) /\
    (false = false -> starts <> [] -> get_fallback_no_reboot fu (fb_fw s) = 1 \/
     fu_countdown fu <> 0 /\ (get_user_choice (fu_choices fu) = Ok 1 \/ get_user_choice (fu_choices fu) = Ok 2))).
  { intros s2 Hf ->. exists (tried ++ (try_start_first_option fu s2).2). split; [by rewrite app_assoc|]. split; [|by right].
    intros e [He|He]%elem_of_app; [by apply Ht1|by apply (Htry s2)]. }
  destruct (c =? 2).
  - unfold set_fallback_no_reboot in Hr. destruct (SetVariable _ _ _ _ _) as [st fw]. destruct (EFI_ERROR st); injection Hr as _ <-.
    + exists tried. split_and!; [done|done|intros _ Hne; left; by apply Ht2].
    + by apply (Hfin (with_fw s fw)).
  - injection Hr as _ <-. by apply (Hfin s).
Qed.

(** ** An instance: the association list of Firmware.v *)
Definition start_name : string * EFI_GUID := (EmptyString, NullGuid).
Definition store_names (s : Store) : list (string * EFI_GUID) := remove_dups (filter (fun k => k <> start_name) s.*1).
Definition store_position (names : list (string * EFI_GUID)) (p : string * EFI_GUID) : option nat :=
  if decide (p = start_name) then Some O else (fun r => Datatypes.S r.1) <$> list_find (fun x => x = p) names.
Definition store_next (s : Store) (size : Z) (n : string) (g : EFI_GUID) : EFI_STATUS * Z * string * EFI_GUID :=
  match store_position (store_names s) (n, g) with
  | None => (EFI_INVALID_PARAMETER, size, n, g)
  | Some k =>
      match store_names s !! k with
      | None => (EFI_NOT_FOUND, size, n, g)
      | Some (n', g') => if size <? name_size n' then (EFI_BUFFER_TOO_SMALL, name_size n', n, g) else (EFI_SUCCESS, name_size n', n', g')
      end
  end.

Global Instance store_boot : BootFirmware Store := {
  GetNextVariableName := store_next;
  LibGetVariable s n g := snd <$> store_lookup s n g
}.

Lemma store_position_walk names k : NoDup names -> start_name ∉ names -> (k <= length names)%nat ->
  store_position names (walk_at names k) = Some k.
Proof.
  intros Hd Hs Hk. unfold store_position. destruct k as [|k]; cbn [walk_at]; [by rewrite decide_True|].
  destruct (lookup_lt_is_Some_2 names k ltac:(lia)) as [p Hp]. rewrite (nth_lookup_Some names k _ _ Hp).
  rewrite decide_False by (intros ->; apply Hs; by eapply list_elem_of_lookup_2).
  assert (Hf : list_find (fun x => x = p) names = Some (k, p)); [|by rewrite Hf].
  apply list_find_Some. split_and!; [done|done|]. intros j y Hj Hlt ->. pose proof (NoDup_lookup names _ _ _ Hd Hp Hj). lia.
Qed.

Global Instance store_boot_laws : BootFirmwareLaws Store.
Proof.
  assert (Hn : forall s k, (k <= length (store_names s))%nat ->
    store_position (store_names s) ((walk_at (store_names s) k).1, (walk_at (store_names s) k).2) = Some k).
  { intros s k Hk. rewrite <- surjective_pairing. apply store_position_walk; [apply NoDup_remove_dups| |done].
    unfold store_names. rewrite elem_of_remove_dups, list_elem_of_filter. by intros [? _]. }
  refine {| var_names := store_names |}; cbn [GetNextVariableName store_boot LibGetVariable].
  - intros s n g d. cbn [lookup_var store_laws]. destruct (store_lookup s n g) as [[a d']|]; [|done]. intros [= ->]. by exists a.
  - intros s n g a d. cbn [SetVariable store_firmware]. unfold store_set. intros He. revert He.
    destruct (store_lookup s n g) as [[a0 d0]|]; repeat case_match; by cbn.
  - intros s k n g size Hk. unfold store_next. rewrite Hn by (apply lookup_lt_Some in Hk; lia). rewrite Hk. eexists _, _, _.
    destruct (size <? name_size n); reflexivity.
  - intros s k size ->. unfold store_next. rewrite Hn by done. rewrite lookup_ge_None_2 by done. by eexists _, _, _.
Defined.

Global Instance store_reads : LibReads Store.
Proof. intros s n g [v Hv]. cbn [LibGetVariable store_boot]. cbn [lookup_var store_laws] in Hv. rewrite Hv. by eexists. Qed.

(** ** A machine *)
Definition hex_value (c : Ascii.ascii) : Z :=
  let n := Z.of_nat (Ascii.nat_of_ascii c) in if n <=? 57 then n - 48 else if n <=? 70 then n - 55 else n - 87.
Definition sample_xtoi (s : string) : Z := fold_left (fun a c => a * 16 + hex_value c) (String.list_ascii_of_string s) 0.
Definition sample_path (p : list Z) : list path_node := [(1, 1, [7; 9]); (4, 1, [1; 2; 3]); (4, 4, LoadOptions.ucs2 (Path.text p))].
Definition sample_fe : fallback_env :=
  {| fe_path := true; fe_dup := true; fe_data := true; fe_name := true; fe_candidate := true; fe_order := true; fe_csv_size := true;
     fe_csv_pool := true; fe_FileDevicePath := fun p => Some (sample_path p); fe_xtoi := sample_xtoi |}.
Lemma sample_fe_ready : fallback_ready sample_fe.
Proof. by split. Qed.

(** Two lines, the second one without a line end. *)
Definition line1 : csv_line := {| cl_file := wide "shim.efi"; cl_label := wide "Fedora"; cl_args := []; cl_rest := Some (wide "a comment") |}.
Definition line2 : csv_line := {| cl_file := wide "mm.efi"; cl_label := wide "MOK"; cl_args := wide "-v x"; cl_rest := None |}.
Definition sample_text : list Z := line_text line1 ++ CR :: LF :: line_text line2.
Definition file_of (t : list Z) : text_file :=
  let b := LoadOptions.ucs2 t in
  {| tf_open := fun _ => inr {| GetInfo := fun n => if n =? 0 then (EFI_BUFFER_TOO_SMALL, 80, 0) else (EFI_SUCCESS, 80, zlen b);
                                Read := fun _ => (EFI_SUCCESS, 0, []) |};
     tf_read := fun _ => (EFI_SUCCESS, b) |}.
Definition sample_dir (t : list Z) : boot_dir :=
  {| bd_info_size := (EFI_BUFFER_TOO_SMALL, 80); bd_info := (EFI_SUCCESS, EFI_FILE_DIRECTORY); bd_alloc := true;
     bd_reads := [ReadEntry 0 (wide "."); ReadEntry 0 (wide "BOOTX64.CSV")]; bd_open := fun _ => inr (Some (file_of t)) |}.
Definition sample_volume (t : list Z) : boot_volume :=
  {| bv_protocol := EFI_SUCCESS; bv_volume := (EFI_SUCCESS, true); bv_EFI := (EFI_SUCCESS, true); bv_position := EFI_SUCCESS; bv_alloc := true;
     bv_reads := [ReadEntry EFI_FILE_DIRECTORY (wide "Boot"); ReadEntry EFI_FILE_DIRECTORY (wide "fedora")]; bv_open := fun _ => inr (sample_dir t) |}.
Definition sample_user : fallback_user :=
  {| fu_LoadedImage := EFI_SUCCESS; fu_LoadImage := fun _ => EFI_SUCCESS; fu_HandleProtocol := EFI_SUCCESS; fu_StartImage := fun _ => EFI_SUCCESS;
     fu_stack := [0; 0; 0; 0]; fu_countdown := 3; fu_choices := [5; 2] |}.

(** Boot0000 is something else, Boot0001 is what the second line says. *)
Definition sample_bytes (l : csv_line) : list Z :=
  option_bytes (boot_option (drop 1 (sample_path (wide "\EFI\fedora\" ++ cl_file l))) (cl_label l) (cl_args l)).
Definition two_options (x : list Z) : Store :=
  [(("Boot0000"%string, GV_GUID), (NV_BS_RT, [1; 2; 3])); (("Boot0001"%string, GV_GUID), (NV_BS_RT, x));
   (("BootOrder"%string, GV_GUID), (NV_BS_RT, [0; 0; 1; 0]))].
Definition with_vars (fw : Store) : fb Store := {| fb_fw := fw; fb_i := 0; fb_bootorder := [0; 1]; fb_first := None; fb_new := [] |}.
Definition sample_vars : Store := two_options (sample_bytes line2).
Definition sample_fb : fb Store := with_vars sample_vars.

Definition sample_status (t : list Z) : res (EFI_STATUS * list Z * option (list Z) * nat) :=
  '(st, s, ev) ← efi_main sample_fe sample_user 100 (sample_volume t) sample_devices tpm_initial sample_vars;
  Ok (st, fb_new s, snd <$> store_lookup (fb_fw s) "BootOrder" GV_GUID, length ev).

(** Boot0002 is new, Boot0001 was found; the user, asked, wants no more resets. *)
Example sample_run_ok : sample_status sample_text = Ok (EFI_SUCCESS, [2], Some [2; 0; 1; 0; 0; 0], 2%nat).
Proof. vm_compute. reflexivity. Qed.

(** ** Where a line is too short *)

(** The last line of BOOT.CSV without the comma behind the label, and without a
    line end: the comment in populate_stanza calls the arguments optional, but they
    are searched for behind the NUL of the label, which is the end of the buffer. *)
Theorem last_line_overread {S} `{Firmware S} `{BootFirmware S} `{VarLib S} fe fuel dirname p file label (s : fb S) :
  Forall column_char file -> Forall column_char label -> file <> [] -> label <> [] ->
  populate_stanza fe fuel dirname (p ++ file ++ COMMA :: label ++ [0]) (zlen p) s = Fault.
Proof.
  intros Hf Hl Nf Nl. unfold populate_stanza. assert (Hnz : Forall (fun x => x <> 0) [COMMA]) by (by repeat constructor).
  rewrite (cspn_ok [COMMA] p file COMMA _ (zlen p)) by (done || by apply column_outside || (right; left)). rewrite bind_Ok.
  rewrite (nonempty_zlen file) by done. rewrite (app_assoc p file), wr_app_at by zlia. rewrite bind_Ok, app_cons_snoc.
  rewrite (cspn_ok [COMMA] _ label 0) by (done || by apply column_outside || by left || zlia). rewrite bind_Ok.
  rewrite (nonempty_zlen label) by done. rewrite (app_assoc _ label), wr_app_at by zlia. rewrite bind_Ok.
  unfold cspn, str_at. pose proof (zlen_nonneg p). pose proof (zlen_nonneg file). pose proof (zlen_nonneg label).
  rewrite (proj2 (Z.leb_le 0 _)), (proj2 (Z.leb_le _ (zlen _))) by zlia. cbn [andb]. rewrite bind_Ok, drop_ge; [done|].
  match goal with |- (length ?l <= _)%nat => assert (Hlen : zlen l = zlen p + zlen file + 1 + zlen label + 1) by zlia end.
  unfold zlen in *. lia.
Qed.

Lemma last_line_overread_witness :
  populate_stanza sample_fe 100 (wide "fedora") (wide "a,b" ++ [0]) 0 sample_fb = Fault.
Proof. apply (last_line_overread sample_fe 100 (wide "fedora") [] (wide "a") (wide "b") sample_fb); by repeat constructor. Defined.

(** With a line behind it, that line's first column becomes the arguments and its
    comma the end of the text: the third line is lost. *)
Definition run_lines (t : list Z) : res (list (list Z)) :=
  '(_, s) ← try_boot_csv sample_fe 100 (file_of t) (wide "fedora") (wide "BOOT.CSV") sample_fb;
  Ok (map (fun i => default [] (snd <$> store_lookup (fb_fw s) (boot_name i) GV_GUID)) (fb_new s)).
Definition two_columns : list Z := wide "a,b" ++ LF :: wide "c,d,e" ++ LF :: wide "f,g,h" ++ [LF].
Example two_columns_shift : run_lines two_columns =
  Ok [sample_bytes {| cl_file := wide "a"; cl_label := wide "b"; cl_args := wide "c"; cl_rest := None |};
      sample_bytes {| cl_file := wide "c"; cl_label := wide "d"; cl_args := wide "e" ++ LF :: wide "f"; cl_rest := None |}].
Proof. vm_compute. reflexivity. Qed.

(** ** The theorems on the machine *)
Definition sample_option (l : csv_line) : EFI_LOAD_OPTION :=
  boot_option (drop 1 (sample_path (wide "\EFI\fedora\" ++ cl_file l))) (cl_label l) (cl_args l).
Definition sample_check (c : list Z) : res bool :=
  let d := sample_bytes line2 in check_masked_boot_option c (zlen c) (d ++ [0; 0]) (zlen d).
Lemma masked_option_found_witness : sample_check (masked_option (sample_option line2)) = Ok true.
Proof. apply (masked_option_found (sample_option line2)); by repeat constructor. Defined.

(** The length of the end node of the mask is not checked before it is added. *)
Definition masked_end : nat := Z.to_nat (28 + zlen (LoadOptions.ucs2 (Path.text (cl_label line2)))).
Example masked_overread : sample_check (<[masked_end := 0xff]> (<[Datatypes.S masked_end := 0xff]> (masked_option (sample_option line2)))) = Fault.
Proof. vm_compute. reflexivity. Qed.

Lemma sample_text_ok : csv_text [line1; line2] sample_text.
Proof.
  apply ct_line; [split; by repeat (constructor || intros ? [= <-])|by left|]. apply ct_end; [by right|]. apply ct_last.
  split; by repeat (constructor || intros ? [= <-]).
Qed.

Lemma try_boot_csv_correct_witness :
  try_boot_csv sample_fe 100 (file_of (BYTE_ORDER_MARK :: sample_text)) (wide "fedora") (wide "BOOTX64.CSV") sample_fb =
  (s' ← add_lines sample_fe 100 (wide "fedora") [line1; line2] sample_fb; Ok (EFI_SUCCESS, s')).
Proof.
  apply (try_boot_csv_correct sample_fe 100 (file_of (BYTE_ORDER_MARK :: sample_text)) (wide "fedora") (wide "BOOTX64.CSV") sample_fb
    [BYTE_ORDER_MARK] [line1; line2] sample_text (zlen (LoadOptions.ucs2 (BYTE_ORDER_MARK :: sample_text)))).
  - exact sample_text_ok.
  - by repeat constructor.
  - by right.
  - by apply Forall_forall; intros x Hx; repeat (apply elem_of_cons in Hx as [->|Hx]; [done|]); apply elem_of_nil in Hx.
  - reflexivity.
  - vm_compute. reflexivity.
Defined.

(** The names in the store, and what they hold. *)
Lemma two_comparable d x b1 b2 : compare_option d [1; 2; 3] = Ok b1 -> compare_option d x = Ok b2 -> comparable d (two_options x).
Proof.
  intros H1 H2 n a d' Hn. cbn [lookup_var store_laws]. unfold store_lookup, two_options. cbn [assoc].
  repeat case_decide; simplify_eq; try done; intros Hl; simplify_eq; eauto.
Qed.
Definition line_bytes (full : list path_node) (l : csv_line) : list Z := option_bytes (boot_option (boot_path full) (cl_label l) (cl_args l)).
Definition added_line (fw : Store) (l : csv_line) : Prop :=
  let full := sample_path (wide "\EFI\fedora\" ++ cl_file l) in
  exists r s', add_to_boot_list sample_fe 100 (wide "fedora") (cl_file l) (cl_label l) (cl_args l) (with_vars fw) = Ok (line_status r, s') /\
    line_step sample_fe (line_bytes full l) full (cl_args l) (with_vars fw) s' r.


(** A masked copy counts as the option: nothing is written, and 1 is put first. *)
Example masked_copy_kept :
  add_to_boot_list sample_fe 100 (wide "fedora") (cl_file line2) (cl_label line2) (cl_args line2)
    (with_vars (two_options (masked_option (sample_option line2)))) =
  Ok (EFI_SUCCESS, {| fb_fw := two_options (masked_option (sample_option line2)); fb_i := 0; fb_bootorder := [1; 0];
                      fb_first := Some {| fo_path := sample_path (wide "\EFI\fedora\mm.efi"); fo_args := cl_args line2; fo_size := 10 |}; fb_new := [] |}).
Proof. vm_compute. reflexivity. Qed.

(** No memory in LibGetVariable: Boot0000 is taken for free and overwritten. *)
Definition no_memory : BootFirmware Store := {| GetNextVariableName := store_next; LibGetVariable _ _ _ := None |}.
Theorem unread_option_overwritten :
  exists s', @add_boot_option Store _ no_memory sample_fe [] [] (wide "L") [] sample_fb = Ok (EFI_SUCCESS, s') /\
    lookup_var (fb_fw sample_fb) "Boot0000" GV_GUID = Some (NV_BS_RT, [1; 2; 3]) /\
    lookup_var (fb_fw s') "Boot0000" GV_GUID = Some (NV_BS_RT, option_bytes (boot_option [] (wide "L") [])).
Proof. eexists. split; [vm_compute; reflexivity|]. by split; vm_compute. Qed.

(** A label with a letter outside Latin-1, U+03A9: fallback writes the option, and
    load-options.c refuses it. *)
Theorem wide_label_not_read_back :
  exists s' d, add_boot_option sample_fe (drop 1 (sample_path (wide "x"))) (sample_path (wide "x")) [0x3a9] (wide "-v") sample_fb = Ok (EFI_SUCCESS, s') /\
    lookup_var (fb_fw s') "Boot0002" GV_GUID = Some (NV_BS_RT, d) /\
    get_load_option_optional_data d 0 (zlen d) = Ok (inl EFI_INVALID_PARAMETER).
Proof. eexists _, _. split; [vm_compute; reflexivity|]. split; [vm_compute; reflexivity|]. vm_compute. reflexivity. Qed.

Lemma boot_option_read_back_witness :
  exists s' i d od ods, add_boot_option sample_fe (drop 1 (sample_path (wide "x"))) (sample_path (wide "x")) (wide "L") (wide "-v") sample_fb = Ok (EFI_SUCCESS, s') /\
    lookup_var (fb_fw s') (boot_name i) GV_GUID = Some (NV_BS_RT, d) /\ get_load_option_optional_data d 0 (zlen d) = Ok (inr (Some od, ods)) /\
    rdn d od ods = Ok (LoadOptions.ucs2 (Path.text (wide "-v"))).
Proof.
  destruct (add_boot_option sample_fe (drop 1 (sample_path (wide "x"))) (sample_path (wide "x")) (wide "L") (wide "-v") sample_fb) as [[st s']| |] eqn:E;
    [|vm_compute in E; discriminate E..].
  assert (Hst : st = EFI_SUCCESS) by (vm_compute in E; by injection E as <- _). subst st.
  destruct (boot_option_read_back sample_fe (drop 1 (sample_path (wide "x"))) (sample_path (wide "x")) (wide "L") (wide "-v") sample_fb s')
    as (i & d & _ & _ & Hl & od & ods & Hg & Ho); [split_and!; by repeat constructor|cbn; lia|done|].
  destruct od as [p|]; [|done]. by exists s', i, d, p, ods.
Defined.

Lemma start_or_reset_consent_witness :
  exists s' ev starts, start_or_reset sample_user EFI_SUCCESS sample_fb = Ok (s', ev) /\ ev = starts ++ [Reset] /\
    (starts <> [] -> get_fallback_no_reboot sample_user sample_vars = 1 \/
     fu_countdown sample_user <> 0 /\ (get_user_choice (fu_choices sample_user) = Ok 1 \/ get_user_choice (fu_choices sample_user) = Ok 2)).
Proof.
  destruct (start_or_reset sample_user EFI_SUCCESS sample_fb) as [[s' ev]| |] eqn:E; [|vm_compute in E; discriminate E..].
  destruct (start_or_reset_consent sample_user EFI_SUCCESS sample_fb s' ev E) as (starts & He & _ & Hc). exists s', ev, starts. split_and!; [done|done|].
  by apply Hc.
Defined.
