(* ===== verification/Restore.v ===== *)
(** * What fallback makes of a volume

    The program of fallback.c as a whole (model: Fallback.v): the lines of the files
    BOOT.CSV of a volume, taken in the order of its directories, and the order of the
    boot entries that comes out of them. *)
From stdpp Require Import base list numbers option strings.
From Stdlib Require Import ZArith Lia.
From S2P Require Import Prelude.
From S2P Require Import Efi.
From S2P Require Import Str.
From S2P Require Import Path.
From S2P Require Import LoadOptions.
From S2P Require Import Firmware.
From S2P Require Import Esl.
From S2P Require Import KeyList.
From S2P Require Import Variables.
From S2P Require Import Password.
From S2P Require Import MokManager.
From S2P Require Import MokUpdate.
From S2P Require Import Tpm.
From S2P Require Import Trust.
From S2P Require Import Boot.
From S2P Require Import Fallback.
Local Open Scope Z_scope.

(** ** The lines of a volume *)

(** A file with the lines [ls], as UCS-2 with or without a byte order mark. *)
Definition csv_file (fe : fallback_env) (fh : text_file) (dirname name : list Z) (ls : list csv_line) : Prop :=
  exists bom t n, csv_text ls t /\ Forall (fun l => head (cl_file l) <> Some BYTE_ORDER_MARK) ls /\ (bom = [] \/ bom = [BYTE_ORDER_MARK]) /\
    Forall (fun c => 0 <= c < 2 ^ 16) t /\
    read_file (fe_csv_size fe) (fe_csv_pool fe) fh (wide "\EFI\" ++ dirname ++ wide "\" ++ name)
      = Ok (inr (LoadOptions.ucs2 (bom ++ t) ++ [0; 0], n)).

(** The file that counts: the one for the architecture, or else BOOT.CSV; letters
    are compared without case. *)
Definition named (x : list Z) (names : list (list Z)) : option (list Z) := List.find (fun n => bool_decide (same_text n x)) names.
Definition boot_csv (names : list (list Z)) : option (list Z) :=
  match named BOOT_ARCH_CSV names with Some n => Some n | None => named BOOT_CSV names end.

(** A directory whose entries can be read. *)
Record dir_holds (fe : fallback_env) (d : boot_dir) (dirname : list Z) (ls : list csv_line) : Prop := {
  dh_size : EFI_ERROR (bd_info_size d).1 = false \/ (bd_info_size d).1 = EFI_BUFFER_TOO_SMALL;
  dh_size_pos : (bd_info_size d).2 <> 0;
  dh_alloc : bd_alloc d = true;
  dh_info : EFI_ERROR (bd_info d).1 = false;
  dh_directory : Z.land (bd_info d).2 EFI_FILE_DIRECTORY <> 0;
  dh_lines : exists es, bd_reads d = map (fun e => ReadEntry e.1 e.2) es /\ Forall nonul es.*2 /\
    match boot_csv es.*2 with
    | Some name => exists fh, bd_open d name = inr (Some fh) /\ csv_file fe fh dirname name ls
    | None => ls = []
    end
}.

(** The entries of \EFI: files, the directories ".", ".." and BOOT, and directories
    that cannot be opened have no lines. *)
Definition left_out (name : list Z) : Prop := name = wide "." \/ name = wide ".." \/ same_text name (wide "BOOT").
Inductive volume_lines (fe : fallback_env) (v : boot_volume) : list dir_read -> list (list Z * csv_line) -> Prop :=
| vl_end : volume_lines fe v [] []
| vl_file a name reads ls :
    Z.land a EFI_FILE_DIRECTORY = 0 -> volume_lines fe v reads ls -> volume_lines fe v (ReadEntry a name :: reads) ls
| vl_left_out a name reads ls :
    nonul name -> left_out name -> volume_lines fe v reads ls -> volume_lines fe v (ReadEntry a name :: reads) ls
| vl_closed a name st reads ls :
    nonul name -> bv_open v name = inl st -> volume_lines fe v reads ls -> volume_lines fe v (ReadEntry a name :: reads) ls
| vl_dir a name d dls reads ls :
    Z.land a EFI_FILE_DIRECTORY <> 0 -> nonul name -> ~ left_out name -> bv_open v name = inr d -> dir_holds fe d name dls ->
    volume_lines fe v reads ls -> volume_lines fe v (ReadEntry a name :: reads) (map (pair name) dls ++ ls).

Lemma same_name_ok a b : nonul a -> nonul b -> same_name a b = Ok (bool_decide (same_text a b)).
Proof.
  intros Ha Hb. unfold same_name. destruct (StrCaseCmp_ok [] a b Ha Hb) as (r & Hr & Hiff). cbn [app] in Hr. change (zlen []) with 0 in Hr.
  rewrite Hr, bind_Ok. f_equal. destruct (bool_decide_reflect (same_text a b)) as [Hs | Hs]; [by apply Z.eqb_eq, Hiff|].
  apply Z.eqb_neq. by rewrite Hiff.
Qed.

Section lines.
Context {S : Type} `{LibReads S} (fe : fallback_env) (Hfe : fallback_ready fe) (fuel : nat).

(** The options of the lines, one after another. *)
Fixpoint add_all (ls : list (list Z * csv_line)) (s : fb S) : res (fb S) :=
  match ls with
  | [] => Ok s
  | (dirname, l) :: ls => '(_, s) ← add_to_boot_list fe fuel dirname (cl_file l) (cl_label l) (cl_args l) s; add_all ls s
  end.
Lemma add_all_app l1 l2 s : add_all (l1 ++ l2) s = (s ← add_all l1 s; add_all l2 s).
Proof.
  revert s. induction l1 as [|[dirname l] l1 IH]; intros s; [done|]. cbn [app add_all].
  destruct (add_to_boot_list _ _ _ _ _ _ _) as [[st s']| |]; [|done..]. rewrite !bind_Ok. apply IH.
Qed.
Lemma add_lines_all dirname ls s : add_lines fe fuel dirname ls s = add_all (map (pair dirname) ls) s.
Proof.
  revert s. induction ls as [|l ls IH]; intros s; [done|]. cbn [map add_lines add_all].
  destruct (add_to_boot_list _ _ _ _ _ _ _) as [[st s']| |]; [|done..]. rewrite !bind_Ok. apply IH.
Qed.

(** The two names. *)
Lemma scan_csv_ok es : Forall nonul es.*2 -> forall b a,
  scan_csv fe true (map (fun e => ReadEntry e.1 e.2) es) b a =
  Ok (inr (match b with Some n => Some n | None => named BOOT_CSV es.*2 end, match a with Some n => Some n | None => named BOOT_ARCH_CSV es.*2 end)).
Proof.
  assert (HB : nonul BOOT_CSV /\ nonul BOOT_ARCH_CSV) by (split; by repeat constructor). destruct HB as [HB HA].
  induction es as [|[at' name] es IH]; intros Hn b a; [by destruct b, a|]. cbn [fmap list_fmap] in Hn. apply Forall_cons in Hn as [Hn Hns].
  assert (Hq : forall (x : option (list Z)) y, nonul y ->
    (if bool_decide (x = None) then same_name name y else Ok false) = Ok (match x with Some _ => false | None => bool_decide (same_text name y) end)).
  { intros [x|] y Hy; [by rewrite bool_decide_false|]. by rewrite bool_decide_true, same_name_ok. }
  cbn [map scan_csv fst snd negb]. rewrite !Hq, !bind_Ok, (fr_dup fe Hfe), !andb_true_r, IH by done.
  unfold named. cbn [fmap list_fmap List.find snd]. do 3 f_equal.
  - destruct b; [done|]. by destruct (bool_decide _).
  - destruct a; [done|]. by destruct (bool_decide _).
Qed.

Lemma process_csv_ok d dirname name fh ls s : bd_open d name = inr (Some fh) -> csv_file fe fh dirname name ls ->
  process_csv fe fuel d dirname name s = (s ← add_lines fe fuel dirname ls s; Ok (EFI_SUCCESS, s)).
Proof.
  intros Ho (bom & t & n & Ht & Hh & Hb & Hu & Hr). unfold process_csv. rewrite Ho.
  by apply (try_boot_csv_ok fe fuel fh dirname name s bom ls t n); [..|apply Hfe|].
Qed.

Lemma find_boot_csv_ok d dirname ls s : dir_holds fe d dirname ls ->
  find_boot_csv fe fuel d dirname s = (s ← add_lines fe fuel dirname ls s; Ok (EFI_SUCCESS, s)).
Proof.
  intros [Hsz Hpos Hal Hinfo Hdir (es & He & Hn & Hl)]. unfold find_boot_csv. destruct (bd_info_size d) as [st1 bs], (bd_info d) as [st2 at'].
  cbn [fst snd] in *.
  assert ((EFI_ERROR st1 && negb (bool_decide (st1 = EFI_BUFFER_TOO_SMALL))) = false) as ->.
  { destruct Hsz as [-> | ->]; [done|]. by rewrite andb_false_r || rewrite bool_decide_true. }
  rewrite (proj2 (Z.eqb_neq bs 0) Hpos), Hal, Hinfo, (proj2 (Z.eqb_neq _ 0) Hdir). cbn [negb]. rewrite He, scan_csv_ok by done. rewrite bind_Ok.
  unfold boot_csv in Hl. destruct (named BOOT_ARCH_CSV es.*2) as [arch|].
  - destruct Hl as (fh & Ho & Hf). rewrite (process_csv_ok _ _ _ _ _ _ Ho Hf). destruct (add_lines _ _ _ _ _) as [s1| |]; [|done..].
    rewrite !bind_Ok. cbn [EFI_ERROR orb]. by rewrite bool_decide_false.
  - rewrite bind_Ok. cbn [EFI_ERROR orb]. rewrite bool_decide_true by done. destruct (named BOOT_CSV es.*2) as [csv|]; [|by subst ls].
    destruct Hl as (fh & Ho & Hf). rewrite (process_csv_ok _ _ _ _ _ _ Ho Hf). by destruct (add_lines _ _ _ _ _) as [s1| |].
Qed.

Lemma skip_dir_ok name : nonul name -> exists b, skip_dir name = Ok b /\ (b = true <-> left_out name).
Proof.
  intros Hn. unfold skip_dir, left_out. rewrite same_name_ok by (done || by repeat constructor).
  destruct (bool_decide_reflect (name = wide ".")); [exists true; naive_solver|].
  destruct (bool_decide_reflect (name = wide "..")); cbn [orb]; [exists true; naive_solver|].
  eexists. split; [done|]. rewrite bool_decide_eq_true. naive_solver.
Qed.

Lemma scan_dirs_ok v reads ls : bv_alloc v = true -> volume_lines fe v reads ls -> forall s,
  scan_dirs fe fuel v reads s = (s ← add_all ls s; Ok (inr EFI_SUCCESS, s)).
Proof.
  intros Hal. induction 1 as [|a name reads ls Ha _ IH|a name reads ls Hn Hlo _ IH|a name st reads ls Hn Ho _ IH|
    a name d dls reads ls Ha Hn Hlo Ho Hd _ IH]; intros s; [done|..]; cbn [scan_dirs]; rewrite Hal; cbn [negb].
  - by rewrite (proj2 (Z.eqb_eq _ 0) Ha).
  - destruct (_ =? 0); [done|]. destruct (skip_dir_ok name Hn) as (b & -> & Hb). rewrite bind_Ok, (proj2 Hb Hlo). apply IH.
  - destruct (_ =? 0); [done|]. destruct (skip_dir_ok name Hn) as (b & -> & Hb). rewrite bind_Ok, Ho. by destruct b.
  - rewrite (proj2 (Z.eqb_neq _ 0) Ha). destruct (skip_dir_ok name Hn) as (b & -> & Hb). rewrite bind_Ok.
    destruct b; [by destruct Hlo; apply Hb|]. rewrite Ho, (find_boot_csv_ok d name dls s Hd), add_lines_all, add_all_app.
    destruct (add_all (map _ dls) s) as [s1| |]; [|done..]. rewrite !bind_Ok, bool_decide_false by done. apply IH.
Qed.

(** ** The steps of the lines *)

(** The option of a line: its path, and its bytes. *)
Definition line_path (p : list Z * csv_line) : option (list path_node) :=
  fe_FileDevicePath fe (wide "\EFI\" ++ p.1 ++ wide "\" ++ cl_file p.2).
Definition line_data (full : list path_node) (p : list Z * csv_line) : list Z :=
  option_bytes (boot_option (boot_path full) (cl_label p.2) (cl_args p.2)).
Definition line_fits (p : list Z * csv_line) : Prop :=
  exists full, line_path p = Some full /\ zlen (path_list (boot_path full)) < 2 ^ 16 /\ zlen (line_data full p) < 2 ^ 32 - 24.

Inductive steps : list (list Z * csv_line) -> fb S -> list restored -> fb S -> Prop :=
| steps_nil s : steps [] s [] s
| steps_cons p full ls s s1 s' r rs :
    line_path p = Some full -> line_step fe (line_data full p) full (cl_args p.2) s s1 r -> kept_options s s1 ->
    steps ls s1 rs s' -> steps (p :: ls) s (r :: rs) s'.

Lemma add_all_steps ls : Forall line_fits ls -> forall s s', in_range s -> add_all ls s = Ok s' -> exists rs, steps ls s rs s'.
Proof.
  induction 1 as [|[dirname l] ls (full & Hpath & Hp & Hs) _ IH]; intros s s' Hi Hr; cbn [add_all] in Hr.
  { injection Hr as <-. exists []. constructor. }
  apply bind_inv in Hr as ([st s1] & Ha & Hr). pose proof (add_to_boot_list_kept _ _ _ _ _ _ _ _ _ Hi Ha) as Hk.
  rewrite (add_to_boot_list_start fe Hfe fuel dirname _ _ _ full s Hpath) in Ha.
  destruct (line_step_ok fe Hfe (boot_path full) full _ _ fuel s Hp Hs (st, s1) Hi Ha) as (r & Hstep & _).
  destruct (IH s1 s' (kept_range _ _ Hi Hk) Hr) as [rs Hrs]. exists (r :: rs). by apply (steps_cons _ full _ s s1).
Qed.

Lemma steps_kept ls s rs s' : steps ls s rs s' -> kept_options s s'.
Proof. induction 1 as [s|p full ls s s1 s' r rs _ _ Hk _ IH]; [apply kept_refl|by eapply kept_trans]. Qed.

(** ** What the steps come to *)
Definition added_number (r : restored) : list Z := match r with Added i => [i] | _ => [] end.
Definition found_number (r : restored) : list Z := match r with Found n => [n] | _ => [] end.
(** The numbers are put in front one after another. *)
Fixpoint rearranged (ns o o' : list Z) : Prop :=
  match ns with [] => o' = o | n :: ns => exists o1, moved_first n o o1 /\ rearranged ns o1 o' end.

(** Where the option of a line is in the end: under a number that was free, or in the
    Boot#### variable with the number that was found. *)
Definition line_restored (fw fw' : S) (p : list Z * csv_line) (r : restored) : Prop :=
  exists full, line_path p = Some full /\
    match r with
    | Added i => 0 <= i <= 0xffff /\ lookup_var fw (boot_name i) GV_GUID = None /\
                 lookup_var fw' (boot_name i) GV_GUID = Some (NV_BS_RT, line_data full p)
    | Found x => exists n a d', is_boot_name n = true /\ x = u16 (fe_xtoi fe (drop4 n)) /\ lookup_var fw' n GV_GUID = Some (a, d') /\
                 (d' = line_data full p \/ masked_copy (line_data full p) d')
    | Refused => True
    end.

Lemma line_data_nonempty full p : line_data full p <> [].
Proof. unfold line_data, option_bytes. cbn [le_split app]. done. Qed.

Lemma line_step_new d full arguments s s' r : line_step fe d full arguments s s' r -> fb_new s' = fb_new s ++ added_number r.
Proof. destruct 1; cbn [added_number]; rewrite ?app_nil_r; done. Qed.
Lemma line_step_order d full arguments s s' r : line_step fe d full arguments s s' r -> rearranged (found_number r) (fb_bootorder s) (fb_bootorder s').
Proof. destruct 1; cbn [found_number rearranged]; try done. by exists (fb_bootorder s'). Qed.
Lemma rearranged_app n1 n2 o o1 o2 : rearranged n1 o o1 -> rearranged n2 o1 o2 -> rearranged (n1 ++ n2) o o2.
Proof. revert o. induction n1 as [|n n1 IH]; intros o; cbn [app rearranged]; [by intros ->|]. intros (x & Hm & Hr) H2'. exists x. split; [done|by apply IH]. Qed.

Lemma steps_new ls s rs s' : steps ls s rs s' -> fb_new s' = fb_new s ++ concat (map added_number rs).
Proof.
  induction 1 as [s|p full ls s s1 s' r rs _ Hs _ _ IH]; [by rewrite app_nil_r|]. cbn [map concat].
  by rewrite IH, (line_step_new _ _ _ _ _ _ Hs), <- app_assoc.
Qed.
Lemma steps_order ls s rs s' : steps ls s rs s' -> rearranged (concat (map found_number rs)) (fb_bootorder s) (fb_bootorder s').
Proof.
  induction 1 as [s|p full ls s s1 s' r rs _ Hs _ _ IH]; [done|]. cbn [map concat]. eapply rearranged_app; [|exact IH]. by eapply line_step_order.
Qed.

(** One step, seen from the start and from the end. *)
Lemma line_step_restored p full s0 s s1 s' r : line_path p = Some full -> in_range s ->
  (forall n g v, lookup_var (fb_fw s0) n g = Some v -> lookup_var (fb_fw s) n g = Some v) -> kept_options s1 s' ->
  line_step fe (line_data full p) full (cl_args p.2) s s1 r -> line_restored (fb_fw s0) (fb_fw s') p r.
Proof.
  intros Hpath Hi Hpast Hk Hs. exists full. split; [done|].
  destruct Hs as [n g a d' _ Hb Hl Hd Hf _ _ _|i _ (Hr & Hno & _) Hset _ _ _|i st0 _ _ _ _ _ _ _|_ _ _ _ _ _]; [| |done..].
  - exists n, a, d'. split_and!; [done|done| |done]. apply (ko_vars _ _ Hk). by rewrite Hf.
  - unfold in_range in Hi. split; [lia|]. split; [|apply (ko_vars _ _ Hk)].
    + destruct (lookup_var (fb_fw s0) (boot_name i) GV_GUID) as [v|] eqn:E; [|done]. apply Hpast in E. congruence.
    + rewrite (set_ok _ _ _ _ _ _ Hset) by done. rewrite decide_False; [done|]. apply line_data_nonempty.
Qed.

Lemma steps_restored ls s rs s' : steps ls s rs s' -> forall s0, in_range s -> kept_options s0 s ->
  Forall2 (line_restored (fb_fw s0) (fb_fw s')) ls rs.
Proof.
  induction 1 as [s|p full ls s s1 s' r rs Hpath Hs Hk Hrest IH]; intros s0 Hi Hpast; constructor.
  - eapply line_step_restored; [done|exact Hi|apply (ko_vars _ _ Hpast)|by eapply steps_kept|exact Hs].
  - apply IH; [by eapply kept_range|by eapply kept_trans].
Qed.
End lines.

(** ** The program *)
Section whole.
Context {S : Type} `{LibReads S} (fe : fallback_env) (fu : fallback_user) (fuel : nat) (v : boot_volume) (tpm : devices) (st : tpm_state).

(** The state in which the volume is searched. *)
Definition at_start (fw : S) : fb S := {| fb_fw := fw; fb_i := 0; fb_bootorder := old_order fw; fb_first := None; fb_new := [] |}.

Lemma efi_main_start (fw : S) status s' ev : EFI_ERROR (fu_LoadedImage fu) = false -> efi_main fe fu fuel v tpm st fw = Ok (status, s', ev) ->
  exists st2 s2, find_boot_options fe fuel v (at_start fw) = Ok (st2, s2) /\ (EFI_ERROR status = false -> EFI_ERROR st2 = false) /\
    same_but NO_REBOOT SHIM_LOCK_GUID (fb_fw s2) (fb_fw s').
Proof.
  intros Eli. unfold efi_main. rewrite Eli. set (s1 := set_boot_order _ _).
  assert (Hs1 : s1 = at_start fw) by (unfold s1, set_boot_order, at_start, old_order; rewrite lib_get_exact; by destruct (lookup_var fw "BootOrder" GV_GUID) as [[a d]|]).
  rewrite Hs1. intros ([st2 s2] & Hf & Hr)%bind_inv. exists st2, s2. split; [done|].
  destruct (EFI_ERROR st2) eqn:E2; [injection Hr as <- <- _; by rewrite E2|].
  apply bind_inv in Hr as ([s4 ev4] & Hs & [= <- <- _]). split; [done|by apply start_or_reset_fw in Hs].
Qed.

(** The volume is searched to its end, and the order written. *)
Lemma find_boot_options_lines (s s' : fb S) st2 ls : fallback_ready fe -> volume_ok v -> bv_alloc v = true -> volume_lines fe v (bv_reads v) ls ->
  find_boot_options fe fuel v s = Ok (st2, s') -> EFI_ERROR st2 = false ->
  exists s1, add_all fe fuel ls s = Ok s1 /\ same_but "BootOrder" GV_GUID (fb_fw s1) (fb_fw s') /\
    (fb_new s1 ++ fb_bootorder s1 <> [] ->
     lookup_var (fb_fw s') "BootOrder" GV_GUID = Some (NV_BS_RT, LoadOptions.ucs2 (fb_new s1 ++ fb_bootorder s1))).
Proof.
  intros Hfe Hv Hal Hl Hr He. unfold find_boot_options in Hr.
  destruct (EFI_ERROR (bv_protocol v)) eqn:E1; [injection Hr as <- _; congruence|].
  destruct (EFI_ERROR (bv_volume v).1) eqn:E2; cbn [orb] in Hr; [injection Hr as <- _; congruence|]. rewrite (vo_volume v Hv E2) in Hr. cbn [negb] in Hr.
  destruct (EFI_ERROR (bv_EFI v).1) eqn:E3; cbn [orb] in Hr; [injection Hr as <- _; congruence|]. rewrite (vo_EFI v Hv E3) in Hr. cbn [negb] in Hr.
  destruct (EFI_ERROR (bv_position v)) eqn:E4; [injection Hr as <- _; congruence|].
  rewrite (scan_dirs_ok fe Hfe fuel v _ ls Hal Hl) in Hr. destruct (add_all fe fuel ls s) as [s1| |] eqn:Ea; [|done..]. rewrite !bind_Ok in Hr.
  exists s1. split; [done|]. cbn [EFI_ERROR negb andb] in Hr. destruct (_ || _) eqn:Eo.
  - injection Hr as Hr. apply update_boot_order_ok in Hr as [Ha Hb]. split; [done|]. by apply Hb.
  - injection Hr as <- <-. split; [done|]. intros Ho. destruct Ho. bool_to_prop. unfold zlen in *.
    destruct (fb_new s1); [|cbn in *; lia]. destruct (fb_bootorder s1); [done|cbn in *; lia].
Qed.
End whole.

(** C35. fallback as a whole.  On any volume, any BOOT.CSV and any variables, when it
    is through, every variable that existed is as it was, except BootOrder and
    FB_NO_REBOOT.  On a machine with memory and a volume whose files BOOT.CSV have
    the documented format, unless it failed, it took every line of every file, in the
    order of the directories and lines, one step per line ([steps], [line_step]): the
    number of an option that was there, plain or masked, was put in front of the old
    order, any other option was written under the first free number, or the firmware
    refused it.  In the end each number of a new option is one that was free, holds
    exactly the bytes of the option of its line, and no two are the same; each number
    that was found is that of a Boot#### variable with the option of its line; and
    BootOrder is the new numbers in the order of their lines, followed by the old
    order with the found numbers moved to its front one after another: nothing else
    is in it, and nothing of it is lost. *)
Theorem efi_main_restores {S} `{LibReads S} fe fu fuel v tpm st (fw : S) status s' ev :
  volume_ok v -> EFI_ERROR (fu_LoadedImage fu) = false -> efi_main fe fu fuel v tpm st fw = Ok (status, s', ev) ->
  (forall n g x, (n, g) <> ("BootOrder"%string, GV_GUID) -> (n, g) <> (NO_REBOOT, SHIM_LOCK_GUID) ->
     lookup_var fw n g = Some x -> lookup_var (fb_fw s') n g = Some x) /\
  (forall ls, EFI_ERROR status = false -> fallback_ready fe -> bv_alloc v = true -> volume_lines fe v (bv_reads v) ls -> Forall (line_fits fe) ls ->
   exists rs s1 order, steps fe ls (at_start fw) rs s1 /\
     Forall2 (line_restored fe fw (fb_fw s')) ls rs /\
     NoDup (concat (map added_number rs)) /\
     rearranged (concat (map found_number rs)) (old_order fw) order /\
     let o := concat (map added_number rs) ++ order in
     (o <> [] -> lookup_var (fb_fw s') "BootOrder" GV_GUID = Some (NV_BS_RT, LoadOptions.ucs2 o))).
Proof.
  intros Hv Eli Hr. destruct (efi_main_start fe fu fuel v tpm st fw status s' ev Eli Hr) as (st2 & s2 & Hf & Hst & Hend).
  assert (Hi : in_range (at_start fw)) by (unfold in_range; cbn; lia). split.
  - intros n g x Hn1 Hn2 Hx. destruct (find_boot_options_ok _ _ _ _ _ _ Hi Hf) as (s3 & Hk & Hsame & _). rewrite Hend, Hsame by done.
    by apply (ko_vars _ _ Hk).
  - intros ls He Hfe Hal Hl Hfits. destruct (find_boot_options_lines fe fuel v _ s2 st2 ls Hfe Hv Hal Hl Hf (Hst He)) as (s1 & Ha & Hsame & Hbo).
    destruct (add_all_steps fe Hfe fuel ls Hfits _ _ Hi Ha) as [rs Hs]. pose proof (steps_kept _ _ _ _ _ Hs) as Hk.
    pose proof (steps_new _ _ _ _ _ Hs) as Hn. cbn [at_start fb_new app] in Hn. exists rs, s1, (fb_bootorder s1). split; [done|]. split; [|split; [|split]].
    + pose proof (steps_restored _ _ _ _ _ Hs (at_start fw) Hi (kept_refl _)) as Hall. cbn [at_start fb_fw] in Hall.
      assert (Hboot : forall n x, is_boot_name n = true -> lookup_var (fb_fw s1) n GV_GUID = Some x -> lookup_var (fb_fw s') n GV_GUID = Some x).
      { intros n x Hb Hx. rewrite Hend, Hsame; [done|..]; intros [= -> ]; by vm_compute in Hb. }
      eapply Forall2_impl; [exact Hall|]. intros p r (full & Hp & Hcase). exists full. split; [done|].
      destruct r as [i|x|]; [|destruct Hcase as (n & a & d' & Hb & Hx & Hlk & Hd); exists n, a, d'; split_and!; auto|done].
      destruct Hcase as (Hri & Hno & Hlk). split_and!; [lia|lia|done|]. rewrite Hend, Hsame; [done|..];
        intros [= Hb]; pose proof (boot_name_length i) as Hlen; by rewrite Hb in Hlen.
    + destruct (ko_new _ _ Hk) as (added & Hn' & Hnd & _). cbn [at_start fb_new app] in Hn'. by rewrite <- Hn, Hn'.
    + by apply (steps_order _ _ _ _ _ Hs).
    + intros o Ho. rewrite Hend by done. unfold o in *. rewrite <- Hn in *. by apply Hbo.
Qed.

(** ** A volume *)
Lemma sample_volume_ok t : volume_ok (sample_volume t).
Proof. split; [done|done|by repeat constructor]. Qed.
Definition sample_lines : list (list Z * csv_line) := [(wide "fedora", line1); (wide "fedora", line2)].
Lemma sample_dir_holds : dir_holds sample_fe (sample_dir sample_text) (wide "fedora") [line1; line2].
Proof.
  split; [by right|done|done|done|done|]. exists [(0, wide "."); (0, wide "BOOTX64.CSV")]. split; [done|]. split; [by repeat constructor|].
  assert (boot_csv ([(0, wide "."); (0, wide "BOOTX64.CSV")].*2) = Some (wide "BOOTX64.CSV")) as -> by (vm_compute; reflexivity).
  exists (file_of sample_text). split; [done|]. exists [], sample_text, (zlen (LoadOptions.ucs2 sample_text)).
  split; [exact sample_text_ok|]. split; [by repeat constructor|]. split; [by left|]. split; [|vm_compute; reflexivity].
  apply Forall_forall. intros x Hx. by repeat (apply elem_of_cons in Hx as [->|Hx]; [done|]); apply elem_of_nil in Hx.
Qed.
Lemma sample_volume_lines : volume_lines sample_fe (sample_volume sample_text) (bv_reads (sample_volume sample_text)) sample_lines.
Proof.
  cbn [bv_reads sample_volume]. apply vl_left_out; [by repeat constructor|right; right; vm_compute; reflexivity|].
  change sample_lines with (map (pair (wide "fedora")) [line1; line2] ++ []).
  eapply vl_dir; [done|by repeat constructor| |done|exact sample_dir_holds|constructor].
  intros [E | [E | E]]; vm_compute in E; discriminate E.
Qed.
Lemma sample_lines_fit : Forall (line_fits sample_fe) sample_lines.
Proof. repeat constructor; (eexists; split; [reflexivity|]; split; vm_compute; reflexivity). Qed.

Definition sample_after : EFI_STATUS * fb Store * list fb_event :=
  match efi_main sample_fe sample_user 100 (sample_volume sample_text) sample_devices tpm_initial sample_vars with
  | Ok r => r
  | _ => (EFI_NOT_FOUND, sample_fb, [])
  end.
Lemma sample_main : efi_main sample_fe sample_user 100 (sample_volume sample_text) sample_devices tpm_initial sample_vars =
  Ok (EFI_SUCCESS, sample_after.1.2, sample_after.2).
Proof. vm_compute. reflexivity. Qed.

(** Boot0002 is new, Boot0001 was there. *)
Lemma efi_main_restores_witness :
  lookup_var (fb_fw sample_after.1.2) "Boot0000" GV_GUID = Some (NV_BS_RT, [1; 2; 3]) /\
  exists rs s1 order, steps sample_fe sample_lines (at_start sample_vars) rs s1 /\
    Forall2 (line_restored sample_fe sample_vars (fb_fw sample_after.1.2)) sample_lines rs /\
    rearranged (concat (map found_number rs)) [0; 1] order /\
    (let o := concat (map added_number rs) ++ order in
     o <> [] -> lookup_var (fb_fw sample_after.1.2) "BootOrder" GV_GUID = Some (NV_BS_RT, LoadOptions.ucs2 o)) /\
    lookup_var (fb_fw sample_after.1.2) "BootOrder" GV_GUID = Some (NV_BS_RT, LoadOptions.ucs2 [2; 1; 0]).
Proof.
  destruct (efi_main_restores sample_fe sample_user 100 (sample_volume sample_text) sample_devices tpm_initial sample_vars EFI_SUCCESS
    sample_after.1.2 sample_after.2 (sample_volume_ok _) eq_refl sample_main) as [Hv Ho].
  split; [apply Hv; [done|done|reflexivity]|].
  destruct (Ho sample_lines eq_refl sample_fe_ready eq_refl sample_volume_lines sample_lines_fit) as (rs & s1 & order & Hs & Hf & _ & Hr & Hb).
  exists rs, s1, order. split; [exact Hs|]. split; [exact Hf|]. split; [exact Hr|]. split; [exact Hb|]. vm_compute. reflexivity.
Defined.
